(* ===== verification/_CoqProject ===== *)
-Q . S2P
Prelude.v
QueryExecutor.v
MultiExecutors.v
ExecutorHeap.v
HeapExecutors.v
ExecutorTree.v
ExecutorCorrect.v
SingleLayerSearcher.v
Phrase.v
SearchTheorems.v
Bits.v
Bitmap.v
BitmapRanges.v
ExpandableCorrect.v
BitmapTheorems.v
Locator.v
LocatorCorrect.v
LocatorSerialize.v
LocatorTheorems.v
HashBucket.v
DenseHashTable.v
DenseHashTableCorrect.v
DenseHashTableShrink.v
SpecialKeyTable.v
HashTableSpec.v
DenseHashTableInstances.v
HashTableTheorems.v
CuckooHashTable.v
CuckooPlaces.v
CuckooMoves.v
CuckooSearch.v
CuckooInsert.v
CuckooTheorems.v
WordCode.v
WordStream.v
BlockLoops.v
Pack.v
UnalignedUnpack.v
Unpack.v
PackCorrect.v
UnpackCorrect.v
Unpack6Sse.v
Simd.v
SimdBits.v
DecompressSse4.v
DecompressSse4Correct.v
S9Compressor.v
PForDelta.v
PForDeltaFrames.v
PForDeltaExceptions.v
PForDeltaSelect.v
PForDeltaCorrect.v
CodecTheorems.v
ByteSliceList.v
SliceChain.v
VbyteCompressor.v
ByteSliceWriter.v
BlockByteSliceList.v
ByteSliceReader.v
ByteSliceWriterCorrect.v
ByteSliceReaderCorrect.v
BlockSliceCorrect.v
ByteSliceHistories.v
IntEncoders.v
IntEncodersCorrect.v
ReferenceEncoderCorrect.v
PostingRecords.v
ByteSliceTheorems.v
PostingBuffer.v
ShortBufferCorrect.v
PostingBufferCorrect.v
PostingColumns.v
SkipList.v
SkipListCorrect.v
DocList.v
DocListRows.v
DocListEncoding.v
DocListDecoding.v
DocListSearch.v
PostingTheorems.v
