(* ===== verification/Prelude.v ===== *)
(** * Havenask: a verification development

    Havenask is a search engine. This development models the parts of it that decide which documents a
    query returns and the data structures the storage engine rests on, and proves them correct.

    ** The parts and their files

    Query execution (src/aios/ha3/ha3/search). A query is a tree of executors; each is a cursor that
    [seek]s to the next matching document. The searcher of a layer drives the root of the tree through
    ranges of document ids under a quota.
    - QueryExecutor.v: the base class, [QueryExecutor.h].
    - MultiExecutors.v: [AndQueryExecutor], [AndNotQueryExecutor], [BitmapAndQueryExecutor].
    - ExecutorHeap.v, HeapExecutors.v: [QueryExecutorHeap.h], [OrQueryExecutor], [WeakAndQueryExecutor].
    - ExecutorTree.v: the leaves ([TermQueryExecutor], [RangeTermQueryExecutor], [BitmapTermQueryExecutor],
      [DocIdsQueryExecutor], [RangeQueryExecutor], [PKQueryExecutor]), the tree as an inductive type, the
      virtual functions as functions on it, and the constructors.
    - ExecutorCorrect.v: a tree stands for a set of documents and seeks through it.
    - SingleLayerSearcher.v: [SingleLayerSearcher] and [QueryExecutorRestrictor].
    - Phrase.v: [PhraseQueryExecutor].
    - SearchTheorems.v: the theorems of this part.
    Posting iterators and bitmaps of the index are not part of it: they are parameters of the executors
    (an interface with laws: they enumerate a set of documents), and so are the deletion map and filters.

    Bitmaps (src/aios/storage/indexlib/util).
    - Bits.v: words and the masks and bit counts of [Bitmap.h].
    - Bitmap.v: [Bitmap] and [ExpandableBitmap] on lists of 32-bit slots, with their lemmas; BitmapRanges.v:
      the operations on ranges; ExpandableCorrect.v: growth.
    - BitmapTheorems.v: the theorems.

    Locators (src/aios/storage/indexlib/framework/Locator.h, Locator.cpp, base/Progress.h): how far a build
    has read its sources, per range of hash ids.
    - Locator.v: the operations; LocatorSerialize.v: the binary formats and their round trip.
    - LocatorCorrect.v: a vector of progress as a map from hash ids to offsets.
    - LocatorTheorems.v: the theorems.

    Closed hash tables (src/aios/storage/indexlib/index/common/hash_table), the maps of the kv tables.
    - HashBucket.v: what a table asks of a bucket, as a class with laws, and the bucket types as instances.
    - DenseHashTable.v: [DenseHashTableBase]; SpecialKeyTable.v: the table with special keys.
    - DenseHashTableCorrect.v, DenseHashTableShrink.v: linear probing and shrinking in place against a map.
    - HashTableSpec.v: what a table promises, as a class with laws, and its histories;
      DenseHashTableInstances.v: both tables implement it.
    - HashTableTheorems.v: the theorems on the dense tables.
    - CuckooHashTable.v: [CuckooHashTableBase] with its hash functions; CuckooPlaces.v: where a key may be and
      lookups; CuckooMoves.v: moving keys along a path of the search tree; CuckooSearch.v: the breadth first
      search; CuckooInsert.v: a bucket for a key; CuckooTheorems.v: the theorems.

    Compression of posting lists (src/aios/storage/indexlib/index/common/numeric_compress).
    - WordCode.v: the statements of unrolled code on 32-bit words, its loops, and the general [pack].
    - Pack.v, Unpack.v, UnalignedUnpack.v: [Pack.h], [Unpack.h], [UnalignedUnpack.h], statement by statement;
      Unpack6Sse.v: the specialisation of [unpack_6] written in SSE assembly.
    - WordStream.v: a list of words as one number and its digits of any width, and a decision procedure for
      expressions that cut a field out of words; BlockLoops.v: what a block, a loop or a function converts.
    - PackCorrect.v, UnpackCorrect.v: every function of the tables converts between digits.
    - Simd.v: the SSE intrinsics on 128-bit numbers; SimdBits.v: where each bit of a result comes from, computed.
    - DecompressSse4.v: [DecompressSse4.cpp], statement by statement; DecompressSse4Correct.v: its functions
      convert between digits too.
    - S9Compressor.v: [S9Compressor].
    - PForDelta.v: [NosseNewPForDeltaCompressor] and [NewPForDeltaCompressor] as instances of a class, and the
      encoder of records on them. PForDeltaFrames.v: the laws of the class, headers, frames and special blocks; PForDeltaExceptions.v: exceptions; PForDeltaSelect.v: the choice of the
      width; PForDeltaCorrect.v: blocks and lists.
    - CodecTheorems.v: the theorems.

    Byte slices (src/aios/storage/indexlib/util/byte_slice_list, file_system/ByteSliceWriter.h, ByteSliceReader.h and
    file/BlockByteSliceList.h), the memory the lists of a posting are written to, and the encoders on them.
    - ByteSliceList.v: slices and lists as objects of a store, and the iterator; SliceChain.v: chains in a store.
    - ByteSliceWriter.v, ByteSliceReader.v: the cursors; BlockByteSliceList.v: lists that are loaded block by block. What
      loads a block is a class with laws.
    - ByteSliceWriterCorrect.v, ByteSliceReaderCorrect.v, BlockSliceCorrect.v,
      ByteSliceHistories.v: a list stands for the bytes that were written, a reader for a position in them.
    - VbyteCompressor.v: numbers of variable length; IntEncoders.v: the encoders of numeric_compress as instances of a
      class, and [EncoderProvider]; IntEncodersCorrect.v, ReferenceEncoderCorrect.v, PostingRecords.v: their round trips.
    - ByteSliceTheorems.v: the theorems.

    Document lists that are built in memory (src/aios/storage/indexlib/index/common/ShortBuffer.h and
    index/inverted_index/format), on byte slices and encoders. The documents of a term are pushed as columns of a
    buffer; every 128 of them are encoded to slices, and an item of a skip list says where the record ends. A search
    takes a snapshot of both and decodes it, while the writer goes on.
    - PostingBuffer.v: [FlushInfo], [MultiValue] and the formats, [ShortBuffer], [BufferedByteSlice] and
      [BufferedByteSliceReader]; ShortBufferCorrect.v, PostingBufferCorrect.v: rows and records are kept and read;
      PostingColumns.v: all columns as long rows, in chunks; what a snapshot shows, and that later writes do not
      disturb it.
    - SkipList.v: [ShortListOptimizeUtil], [BufferedSkipListWriter], and the readers of pairs and triples;
      SkipListCorrect.v: the readers find the first item at or above a key.
    - DocList.v: [DocListEncoder], [PositionBitmapWriter], [InMemDocListDecoder], and [DictInlineEncoder], [DictInlineDecoder] and [DictInlineFormatter] for
      postings that are kept in the dictionary; DocListRows.v: differences,
      formats and the items of the skip list; DocListEncoding.v: the state of the encoder against a list of documents;
      DocListDecoding.v, DocListSearch.v: what a decoder finds, by the number of the record it stands at.
    - PostingTheorems.v: the theorems.

    ** How the code is modelled

    A class is a record of its members, a method a function of the record that returns the new one. C++
    integers are [Z]; a wrap-around is written with [u32], [u64] and [i32]. Calls that may fail return [res]
    (below): [Error] is an [ErrorCode] or an exception, [Undefined] an access outside an array or through a null
    pointer or an assertion that does not hold, [OutOfFuel] the end of the fuel of a loop. Of the assertions, those that ask for a condition on the
    state ([SkipTo] of the skip lists) or end a [switch] are modelled; those that restate a condition on the arguments
    of a call are not. Loops are structural where they count, and
    have fuel where they do not; the theorems show that the fuel given is enough, so that [OutOfFuel] and
    [Undefined] do not arise, except that C17 shows that the growth of a bitmap for an index of [2^32 - 32] or more has no fuel that is enough.
    Sizes that the code computes with doubles (the occupancy and the stretch memory of hash tables) are taken as exact. Fuel bounds: a seek loop of an executor moves its document id forward, so
    the distance to [END_DOCID] bounds it; a probe visits every bucket at most once, so the number of
    buckets bounds it; an eviction marks a bucket, so its square bounds the evictions; a node of the cuckoo
    search but the first ones marks a block, so the number of blocks bounds the search; a word of the
    simple-9 code takes at least one value, so their number bounds its encoder; a block takes at least
    one word, so the number of words bounds the loop of [Decompress]; a read or write of bytes takes at least
    one byte from each slice it visits; a skip goes through each item at most once, so the number of items and two
    bounds it; a scan of a document list decodes each record once, so the number of documents and one bounds it.

    Objects that are shared by pointer (slices, lists) are in a [Store], and the operations on them are functions from
    a store to a result and a new store ([SM], with the notation [let*]); memory that was not written yet is [None].

    ** What the theorems show

    - Executors: each kind of executor enumerates exactly the documents it stands for (C1 to C7); a layer
      search returns the matching documents of its ranges in order within the quota (C8, C9); phrase
      matching decides whether the phrase occurs (C10).
    - Bitmaps: bit counting (C12), histories against a set (C13, and C17 for bitmaps that grow, with indices below [2^31]), set operations (C14), iteration (C15),
      ranges (C16).
    - Locators: updates (C20) and their monotony, when all ranges have started (C21), comparisons against maps (C22), ranges (C23), round trips
      of both formats (C24). A range that has not started has the offset [INVALID_OFFSET], and C20 says what an update does with it.
    - Hash tables: histories against finite maps (C28, C29), memory and capacity (C31), insertion (C32) and
      shrinking (C33). The cuckoo table: histories (C34), with and without memory to stretch.
    - Posting lists: compressing and decompressing is a round trip (C37), across the two compressors, as are
      packing and unpacking with each number of bits, with words or registers (C38), and the
      simple-9 code (C39); a record fits the buffer of its encoder (C40).
    - Byte slices: histories of writers and readers against one string of bytes (C11, C19), readers of blocks of a
      file (C26), numbers of variable length (C27), sequences of records with the encoders of a posting (C30), search in
      reference compressed records (C35).
    - Document lists: decoders made while the list is built and after it was flushed find, for sequences of
      document ids that go forward, the records of the documents of their time (C18), and a scan reads every document once and
      ends (C25). Values of the dictionary, which hold documents or an offset, give back what they were made of (C36). The documents have ascending ids below [2^31 - 1], are fewer than [2^24] and have fewer than [2^31] positions in
      all: with these bounds the counts and the lengths of the slices fit the 30 and 31 bits of [FlushInfo].

    The theorem files also hold theorems on behaviour that does not seem to be meant: phrase executors that do not check
    positions, updates of locators that lose progress, lookups that miss special keys, deleted keys that come back, a key that shrinking a cuckoo table loses, iteration past the
    last item of a bitmap, merged lists that lose slices.

    ** Not modelled

    Sub documents and match data of the executors; the other numeric codecs (simple-16, group varint, equivalent
    compression); position lists, and the readers of postings on disk above the skip lists; the file system, the tablet framework, the other
    index readers and writers, and the services around them: I/O, threads and orchestration. Concurrency of
    readers with one writer is not modelled: the operations run one after the other. [DocListEncoder::Dump], reference compressed
    document lists, the bitmap of positions and the file readers of skip lists are modelled, without theorems. *)

From stdpp Require Import base list numbers option tactics sorting.
From Stdlib Require Import ZArith Lia Bool.

#[local] Open Scope Z_scope.

(** ** Fallible, fuelled computations

    [res A] is the result of a call that may fail with an
    [indexlib::index::ErrorCode]. [Undefined] is an access the C++ code makes
    outside an array or through a null pointer, or an assertion that does not hold; [OutOfFuel] only arises when
    the fuel given to a modelled [while] loop is too small, never in the code. *)

(** [enum class ErrorCode] without its success value [OK] (see [Ok]). *)
Inductive ErrorCode : Set :=
| BufferOverflow | FileIO | AssertEqual | UnImplement | Schema
| InitializeFailed | OutOfRange | IndexCollapsed | InconsistentState | Runtime
| NonExist | Duplicate | InvalidVersion | SegmentFile | BadParameter
| DumpingThread | UnSupported | OutOfMemory | AssertCompatible
| ReachMaxIndexSize | ReachMaxResource | Exist | MemFileIO
| DocumentDeserialize | Timeout.

Inductive res (A : Type) : Type :=
| Ok (a : A)
| Error (ec : ErrorCode)
| Undefined
| OutOfFuel.
Arguments Ok {A} a.
Arguments Error {A} ec.
Arguments Undefined {A}.
Arguments OutOfFuel {A}.

(** [IE_RETURN_CODE_IF_ERROR]: continue on [OK], return the code otherwise. *)
Definition res_bind {A B : Type} (m : res A) (k : A -> res B) : res B :=
  match m with
  | Ok a => k a
  | Error ec => Error ec
  | Undefined => Undefined
  | OutOfFuel => OutOfFuel
  end.

Declare Scope havenask_scope.
Delimit Scope havenask_scope with hv.
Notation "'let!' x ':=' m 'in' k" := (res_bind m (fun x => k))
  (at level 10, x pattern, m at level 100, k at level 200)
  : havenask_scope.
#[global] Open Scope havenask_scope.

#[global] Instance ErrorCode_eq_dec : EqDecision ErrorCode.
Proof. solve_decision. Defined.

(** [*p] for a pointer that may be null or outside its array. *)
Definition deref {A : Type} (o : option A) : res A :=
  match o with Some a => Ok a | None => Undefined end.

(** A [while (true)] loop: [body] returns [inl] to go on with the next iteration
    ([continue]) and [inr] to leave it ([break], [return]). *)
Fixpoint iter {S R : Type} (fuel : nat) (body : S -> res (S + R)) (s : S) : res R :=
  match fuel with
  | O => OutOfFuel
  | Datatypes.S fuel' =>
      let! x := body s in
      match x with
      | inl s' => iter fuel' body s'
      | inr r => Ok r
      end
  end.

(** [m] returns [a] for every large enough fuel. *)
Definition evals {A : Type} (m : nat -> res A) (a : A) : Prop :=
  exists F, forall f, (F <= f)%nat -> m f = Ok a.

Lemma evals_ret {A} (a : A) : evals (fun _ => Ok a) a.
Proof. by exists O. Qed.

Lemma evals_const {A} (m : res A) a : m = Ok a -> evals (fun _ => m) a.
Proof. intros ->. apply evals_ret. Qed.

Lemma evals_bind {A B} (m : nat -> res A) (k : nat -> A -> res B) a b :
  evals m a -> evals (fun f => k f a) b -> evals (fun f => let! x := m f in k f x) b.
Proof.
  intros [F HF] [G HG]. exists (F + G)%nat. intros f Hf.
  rewrite HF by lia. apply HG. lia.
Qed.

(** The continuation needs no fuel. *)
Lemma evals_bind_ok {A B} (m : nat -> res A) (k : A -> res B) a b :
  evals m a -> k a = Ok b -> evals (fun f => let! x := m f in k x) b.
Proof. intros Hm Hk. eapply evals_bind; [exact Hm|]. by apply evals_const. Qed.

Lemma evals_ext {A} (m m' : nat -> res A) a :
  evals m a -> (forall f, m f = m' f) -> evals m' a.
Proof. intros [F HF] He. exists F. intros f Hf. rewrite <- He. by apply HF. Qed.

Lemma evals_S {A} (m : nat -> res A) a :
  evals (fun f => m (S f)) a -> evals m a.
Proof.
  intros [F HF]. exists (S F). intros [|f] Hf; [lia|]. apply HF. lia.
Qed.

Lemma evals_unique {A} (m : nat -> res A) a b : evals m a -> evals m b -> a = b.
Proof.
  intros [F HF] [G HG].
  assert (Ok a = Ok b) as [= ->]; [|done].
  rewrite <- (HF (F + G)%nat), <- (HG (F + G)%nat) by lia. done.
Qed.

(** The rule for loops: an invariant [I], a measure that every further iteration
    decreases, and what holds when the loop is left. The loop returns. *)
Lemma iter_total {S R : Type} (body : nat -> S -> res (S + R))
    (I : S -> Prop) (Q : R -> Prop) (mu : S -> nat) :
  (forall s, I s -> exists x, evals (fun f => body f s) x /\
     match x with inl s' => I s' /\ (mu s' < mu s)%nat | inr r => Q r end) ->
  forall s, I s -> exists r, Q r /\ evals (fun f => iter f (body f) s) r.
Proof.
  intros Hbody s HI.
  enough (exists r, Q r /\ exists F, forall f n, (F <= f)%nat -> (F <= n)%nat ->
            iter n (body f) s = Ok r) as (r & HQ & F & HF).
  { exists r. split; [done|]. exists F. auto. }
  remember (mu s) as m eqn:Hm. revert s HI Hm.
  induction m as [m IH] using (well_founded_induction lt_wf). intros s HI ->.
  destruct (Hbody s HI) as ([s'|r] & [F HF] & Hx).
  - destruct Hx as [HI' Hlt]. destruct (IH _ Hlt s' HI' eq_refl) as (r & HQ & G & HG).
    exists r. split; [done|]. exists (Datatypes.S (F + G)). intros f [|n] ??; [lia|].
    cbn. rewrite HF by lia. cbn. apply HG; lia.
  - exists r. split; [done|]. exists (Datatypes.S F). intros f [|n] ??; [lia|].
    cbn. rewrite HF by lia. done.
Qed.

(** ** Machine integers *)

Definition u32_max : Z := 4294967295.
Definition u32 (x : Z) : Z := x mod 2 ^ 32.
Definition u64 (x : Z) : Z := x mod 2 ^ 64.
(** Two's complement reading of the low 32 (64) bits. *)
Definition i32 (x : Z) : Z := (x + 2 ^ 31) mod 2 ^ 32 - 2 ^ 31.
Definition i64 (x : Z) : Z := (x + 2 ^ 63) mod 2 ^ 64 - 2 ^ 63.

Lemma u32_small x : 0 <= x < 2 ^ 32 -> u32 x = x.
Proof. apply Z.mod_small. Qed.

Lemma u64_small x : 0 <= x < 2 ^ 64 -> u64 x = x.
Proof. apply Z.mod_small. Qed.

Lemma u32_range x : 0 <= u32 x < 2 ^ 32.
Proof. apply Z.mod_pos_bound. lia. Qed.

Lemma u64_range x : 0 <= u64 x < 2 ^ 64.
Proof. apply Z.mod_pos_bound. lia. Qed.

Lemma i32_small x : - 2 ^ 31 <= x < 2 ^ 31 -> i32 x = x.
Proof. intros. unfold i32. rewrite Z.mod_small; lia. Qed.

Lemma i64_small x : - 2 ^ 63 <= x < 2 ^ 63 -> i64 x = x.
Proof. intros. unfold i64. rewrite Z.mod_small; lia. Qed.

(** Stored in an unsigned integer and read back *)
Lemma i32_u32 x : - 2 ^ 31 <= x < 2 ^ 31 -> i32 (u32 x) = x.
Proof. intros Hx. unfold i32, u32. rewrite Z.add_mod_idemp_l by lia. rewrite Z.mod_small; lia. Qed.

(** ** Document ids *)

Definition docid_t := Z.
(** [constexpr docid_t INVALID_DOCID = -1] *)
Definition INVALID_DOCID : docid_t := -1.
(** [#define END_DOCID ((docid_t)0x7FFFFFFF)] *)
Definition END_DOCID : docid_t := 2147483647.

(** A set of documents, as what a query matches. *)
Definition docset := docid_t -> Prop.

(** Documents are numbered in [0, END_DOCID). *)
Definition valid_docset (D : docset) : Prop := forall d, D d -> 0 <= d < END_DOCID.

(** No document of [D] in [lo, hi). *)
Definition gap (D : docset) (lo hi : docid_t) : Prop := forall x, lo <= x < hi -> ~ D x.

(** [d] is the first document of [D] that is at least [lo], [END_DOCID] when there
    is none: what [QueryExecutor::seek] documents. *)
Record first_ge (D : docset) (lo d : docid_t) : Prop := {
  first_ge_lo : lo <= d;
  first_ge_end : d <= END_DOCID;
  first_ge_in : d <> END_DOCID -> D d;
  first_ge_gap : gap D lo d
}.

Lemma gap_mono D lo lo' hi hi' : gap D lo hi -> lo <= lo' -> hi' <= hi -> gap D lo' hi'.
Proof. intros H ?? x ?. apply H. lia. Qed.

Lemma gap_empty D lo hi : hi <= lo -> gap D lo hi.
Proof. intros ? x ?. lia. Qed.

Lemma gap_join D lo mid hi : gap D lo mid -> gap D mid hi -> gap D lo hi.
Proof. intros H1 H2 x ?. destruct (Z.lt_ge_cases x mid); [apply H1 | apply H2]; lia. Qed.

Lemma gap_sub (D D' : docset) lo hi : gap D lo hi -> (forall x, D' x -> D x) -> gap D' lo hi.
Proof. intros H Hs x ? Hx. exact (H x ltac:(lia) (Hs x Hx)). Qed.

(** The answer to a seek is unique. *)
Lemma first_ge_unique D lo d d' :
  valid_docset D -> first_ge D lo d -> first_ge D lo d' -> d = d'.
Proof.
  intros HD [l1 e1 i1 g1] [l2 e2 i2 g2].
  destruct (Z.lt_trichotomy d d') as [Hlt|[->|Hlt]]; [exfalso| done |exfalso].
  - apply (g2 d); [lia|]. apply i1. lia.
  - apply (g1 d'); [lia|]. apply i2. lia.
Qed.

Lemma first_ge_extend D lo lo' d : gap D lo lo' -> lo <= lo' -> first_ge D lo' d -> first_ge D lo d.
Proof. intros Hg ? [l e i g]. split; [lia | done | done | by eapply gap_join]. Qed.

Lemma first_ge_weaken D lo lo' d : first_ge D lo d -> lo <= lo' <= d -> first_ge D lo' d.
Proof. intros [l e i g] ?. split; [lia | done | done | eapply gap_mono; eauto; lia]. Qed.

Lemma first_ge_iff (D D' : docset) lo d :
  (forall x, D x <-> D' x) -> first_ge D lo d -> first_ge D' lo d.
Proof.
  intros Hiff [l e i g]. split; [done..| |].
  - intros H. apply Hiff, i, H.
  - intros x Hx HD'. apply (g x Hx), Hiff, HD'.
Qed.

Lemma first_ge_END D lo : gap D lo END_DOCID -> lo <= END_DOCID -> first_ge D lo END_DOCID.
Proof. intros. split; [lia..| congruence | done]. Qed.

(** Two elements of a sorted list, by their positions. *)
Lemma StronglySorted_lookup_lt {A : Type} (R : A -> A -> Prop) (l : list A) i j x y :
  StronglySorted R l -> l !! i = Some x -> l !! j = Some y -> (i < j)%nat -> R x y.
Proof.
  intros Hs. revert i j. induction Hs as [|z l Hs IH Hz]; intros i j Hi Hj Hij; [done|].
  destruct j as [|j]; [lia|]. destruct i as [|i]; cbn in Hi, Hj.
  - simplify_eq. rewrite Forall_forall in Hz. by eapply Hz, list_elem_of_lookup_2.
  - eapply (IH i j); eauto. lia.
Qed.

Create HintDb hv.
#[export] Hint Resolve gap_empty gap_join : hv.

(** ** Generic tactics *)

(** Unfold one [res_bind] whose computation is known. *)
Ltac step_bind H := rewrite H; cbn [res_bind].
