(* ===== verification/QueryExecutor.v ===== *)
(** * The query executor interface of ha3

    [QueryExecutor] (src/aios/ha3/ha3/search/query_executor/QueryExecutor.h) is the
    cursor every query is executed through: [seek(id)] moves it to the first
    matching document that is at least [id]. This file has the fields and the
    non-virtual operations of the class, and the contract ([seek_laws]) that an
    executor promises to the executors and searchers that drive it. The
    executors themselves are in [MultiExecutors] and [ExecutorTree]. *)

From stdpp Require Import base list numbers option tactics.
From Stdlib Require Import ZArith Lia.
From S2P Require Import Prelude.

#[local] Open Scope Z_scope.

(** ** The fields of the base class *)

Record QueryExecutor := mkQueryExecutor {
  _current : docid_t;
  _currentSub : docid_t;
  _seekDocCount : Z;
  _hasSubDocExecutor : bool;
  _isEmpty : bool
}.

(** The constructor. *)
Definition new_QueryExecutor : QueryExecutor :=
  mkQueryExecutor INVALID_DOCID INVALID_DOCID 0 true false.

Definition setDocId (d : docid_t) (b : QueryExecutor) : QueryExecutor :=
  mkQueryExecutor d (_currentSub b) (_seekDocCount b) (_hasSubDocExecutor b) (_isEmpty b).

Definition setHasSub (h : bool) (b : QueryExecutor) : QueryExecutor :=
  mkQueryExecutor (_current b) (_currentSub b) (_seekDocCount b) h (_isEmpty b).

(** [++_seekDocCount], a [uint32_t]. *)
Definition countSeek (b : QueryExecutor) : QueryExecutor :=
  mkQueryExecutor (_current b) (_currentSub b) (u32 (_seekDocCount b + 1))
    (_hasSubDocExecutor b) (_isEmpty b).

Definition base_moveToEnd (b : QueryExecutor) : QueryExecutor := setDocId END_DOCID b.

Definition base_setEmpty (b : QueryExecutor) : QueryExecutor :=
  base_moveToEnd
    (mkQueryExecutor (_current b) (_currentSub b) (_seekDocCount b) (_hasSubDocExecutor b) true).

Definition base_setCurrSub (d : docid_t) (b : QueryExecutor) : QueryExecutor :=
  mkQueryExecutor (_current b) d (_seekDocCount b) (_hasSubDocExecutor b) (_isEmpty b).

Definition base_reset (b : QueryExecutor) : QueryExecutor :=
  if _isEmpty b then base_moveToEnd b else setDocId INVALID_DOCID b.

Definition isEmpty (b : QueryExecutor) : bool := _isEmpty b || (_current b =? END_DOCID).

(** [enum GetDFType] *)
Inductive GetDFType := GDT_MAIN_CHAIN | GDT_CURRENT_CHAIN.

(** [DocValueFilter::Test] *)
Definition DocValueFilter := docid_t -> bool.

(** [seek]: [doSeek(id, _current)] only when [id] is beyond the current document.
    The result is written into [_current]. *)
Definition seek_with {E : Type} (base : E -> QueryExecutor) (setBase : E -> QueryExecutor -> E)
    (doSeek : E -> docid_t -> res (docid_t * E)) (e : E) (id : docid_t) : res (docid_t * E) :=
  if _current (base e) <? id then
    let! (result, e') := doSeek e id in
    Ok (result, setBase e' (setDocId result (base e')))
  else Ok (_current (base e), e).

(** [seekWithoutCheck]: [assert(id > _current)], then [doSeek]. *)
Definition seekWithoutCheck_with {E : Type} (base : E -> QueryExecutor)
    (setBase : E -> QueryExecutor -> E)
    (doSeek : E -> docid_t -> res (docid_t * E)) (e : E) (id : docid_t) : res (docid_t * E) :=
  let! (result, e') := doSeek e id in
  Ok (result, setBase e' (setDocId result (base e'))).

(** ** The contract of a cursor *)

(** [cur] is where a cursor over [D] stands once it has been asked for documents
    from [lo] on. *)
Record positioned (D : docset) (lo cur : docid_t) : Prop := {
  pos_valid : valid_docset D;
  pos_range : INVALID_DOCID <= cur <= END_DOCID;
  pos_gap : gap D lo cur;
  pos_in : 0 <= cur < END_DOCID -> D cur
}.

(** What [seek] promises to a caller that only moves forward: for a cursor that
    stands for the documents [D] and was asked for documents up to [lo], any
    [id >= lo] gets the first document of [D] from [id] on, and the cursor still
    stands for [D]. The loops of the executor are given fuel; [evals] says that
    the call returns for every large enough fuel. *)
Record seek_laws {E : Type} (seek : nat -> E -> docid_t -> res (docid_t * E))
    (P : E -> docset -> docid_t -> Prop) : Prop := {
  sl_valid e D lo : P e D lo -> valid_docset D;
  sl_mono e D lo lo' : P e D lo -> lo <= lo' -> P e D lo';
  sl_seek e D lo id : P e D lo -> lo <= id -> 0 <= id <= END_DOCID ->
    exists d e', evals (fun f => seek f e id) (d, e') /\ first_ge D id d /\ P e' D id
}.

Lemma positioned_mono D lo lo' cur : positioned D lo cur -> lo <= lo' -> positioned D lo' cur.
Proof. intros [v r g i] ?. split; [done..| eapply gap_mono; eauto; lia | done]. Qed.

Lemma positioned_first_ge D lo cur id :
  positioned D lo cur -> lo <= id <= cur -> 0 <= id -> first_ge D id cur.
Proof.
  intros [v r g i] ??. split; [lia | lia | intros; apply i; unfold END_DOCID in *; lia |].
  eapply gap_mono; eauto; lia.
Qed.

Lemma first_ge_positioned D id d :
  valid_docset D -> 0 <= id -> first_ge D id d -> positioned D id d.
Proof.
  intros v ? [l e i g]. split; [done | unfold INVALID_DOCID; lia | done |].
  intros. apply i. lia.
Qed.

(** A cursor that has not moved. *)
Lemma positioned_fresh D lo : valid_docset D -> 0 <= lo -> positioned D lo INVALID_DOCID.
Proof.
  intros v ?. split; [done | unfold INVALID_DOCID, END_DOCID; lia | | ].
  - apply gap_empty. unfold INVALID_DOCID. lia.
  - unfold INVALID_DOCID. lia.
Qed.

Lemma positioned_END D lo : valid_docset D -> gap D lo END_DOCID -> positioned D lo END_DOCID.
Proof. intros v g. split; [done | unfold INVALID_DOCID, END_DOCID; lia | done | lia]. Qed.

#[export] Hint Resolve positioned_mono positioned_first_ge first_ge_positioned
  positioned_fresh positioned_END : hv.

(** A cursor that calls [doSeek] exactly when [id] is beyond its current document
    satisfies the contract if [doSeek] answers and keeps the internal state
    [Inner]. Nothing is needed of the internal state of a cursor at the end. *)
Section SeekWrapper.
Context {E : Type} (base : E -> QueryExecutor) (setBase : E -> QueryExecutor -> E).
Context (doSeek : nat -> E -> docid_t -> res (docid_t * E)).
Context (Inner : E -> docset -> Prop).

Definition cursor_pos (e : E) (D : docset) (lo : docid_t) : Prop :=
  positioned D lo (_current (base e)) /\ (_current (base e) < END_DOCID -> Inner e D).

Hypothesis base_setBase : forall e b, base (setBase e b) = b.
Hypothesis doSeek_ok : forall e D id,
  valid_docset D -> Inner e D -> _current (base e) < id -> 0 <= id <= END_DOCID ->
  INVALID_DOCID <= _current (base e) ->
  exists d e', evals (fun f => doSeek f e id) (d, e') /\ first_ge D id d /\
    (d < END_DOCID -> Inner (setBase e' (setDocId d (base e'))) D).

Lemma seek_with_laws :
  seek_laws (fun f => seek_with base setBase (doSeek f)) cursor_pos.
Proof using All.
  split.
  - intros e D lo [[v _ _ _] _]. exact v.
  - intros e D lo lo' [Hp Hi] ?. split; eauto with hv.
  - intros e D lo id [Hp Hi] ??. unfold seek_with.
    destruct (Z.ltb_spec (_current (base e)) id) as [Hlt|Hge].
    + destruct Hp as [v r g i].
      destruct (doSeek_ok e D id v (Hi ltac:(lia)) Hlt ltac:(lia) ltac:(lia))
        as (d & e' & He & Hd & Hi').
      exists d, (setBase e' (setDocId d (base e'))). split; [|split; [done|]].
      * eapply evals_bind; [exact He|]. apply evals_ret.
      * split; rewrite base_setBase; cbn; [apply first_ge_positioned; [done|lia|done] | done].
    + exists (_current (base e)), e. split; [apply evals_ret|]. split.
      * eapply positioned_first_ge; eauto; lia.
      * split; eauto with hv.
Qed.
End SeekWrapper.
