(* ===== verification/MultiExecutors.v ===== *)
(** * Executors that combine other executors: AND, ANDNOT, bitmap AND, phrase

    [AndQueryExecutor], [AndNotQueryExecutor], [BitmapAndQueryExecutor] and
    [PhraseQueryExecutor] of src/aios/ha3/ha3/search/query_executor. Each
    [doSeek] is written over an arbitrary type [E] of children with their [seek],
    and its correctness is proved from the children's contract
    [QueryExecutor.seek_laws] alone. *)

From stdpp Require Import base list numbers option tactics.
From Stdlib Require Import ZArith Lia.
From S2P Require Import Prelude QueryExecutor.

#[local] Open Scope Z_scope.

(** Apply an operation to child [i], which the C++ code reaches by pointer. *)
Definition with_child {E A : Type} (children : list E) (i : nat)
    (f : E -> res (A * E)) : res (A * list E) :=
  let! e := deref (children !! i) in
  let! (a, e') := f e in
  Ok (a, <[i := e']> children).

Lemma with_child_evals {E A : Type} (children : list E) i e (f : nat -> E -> res (A * E)) a e' :
  children !! i = Some e -> evals (fun n => f n e) (a, e') ->
  evals (fun n => with_child children i (f n)) (a, <[i := e']> children).
Proof. intros Hi Hf. unfold with_child. rewrite Hi. by eapply evals_bind_ok. Qed.

(** ** AND *)

Module And.

Section Ops.
Context {E : Type}.

(** [testCurrentDoc]: all stolen filters must pass; [_testDocCount] counts the tests. *)
Fixpoint testCurrentDoc (filters : list DocValueFilter) (docid : docid_t)
    (testDocCount : Z) : bool * Z :=
  match filters with
  | [] => (true, testDocCount)
  | f :: fs =>
      if f docid then testCurrentDoc fs docid (testDocCount + 1)
      else (false, testDocCount + 1)
  end.

(** The variables of the [do ... while (true)] loop of [doSeek]: the children
    ([_queryExecutors]), [currentExecutor - firstExecutor], [current] and
    [_testDocCount]. *)
Record loop := mkLoop {
  l_children : list E;
  l_cursor : nat;
  l_current : docid_t;
  l_testDocCount : Z
}.

(** One iteration. [sorted] has the positions in [_queryExecutors] of
    [_sortedQueryExecutors]. The loop is left with a document, or with [None]
    when a child has reached its end. *)
Definition doSeek_body (seekE : E -> docid_t -> res (docid_t * E))
    (sorted : list nat) (filters : list DocValueFilter) (s : loop)
    : res (loop + (option docid_t * list E * Z)) :=
  let! i := deref (sorted !! l_cursor s) in
  let! (tmpid, children) := with_child (l_children s) i (fun e => seekE e (l_current s)) in
  if tmpid =? END_DOCID then Ok (inr (None, children, l_testDocCount s))
  else if negb (tmpid =? l_current s) then
    Ok (inl (mkLoop children 0 tmpid (l_testDocCount s)))
  else if (length sorted <=? S (l_cursor s))%nat then
    let '(pass, count) := testCurrentDoc filters (l_current s) (l_testDocCount s) in
    if pass then Ok (inr (Some (l_current s), children, count))
    else Ok (inl (mkLoop children 0 (l_current s + 1) count))
  else Ok (inl (mkLoop children (S (l_cursor s)) (l_current s) (l_testDocCount s))).

(** [doSeek]: the first document from [id] on that every child has. At the end all
    children are moved to the end, so that none of them is unpacked. *)
Definition doSeek (seekE : nat -> E -> docid_t -> res (docid_t * E))
    (moveToEndE : E -> E) (fuel : nat) (sorted : list nat)
    (filters : list DocValueFilter) (children : list E) (testDocCount : Z) (id : docid_t)
    : res (docid_t * list E * Z) :=
  let! (found, children', count) :=
    iter fuel (doSeek_body (seekE fuel) sorted filters) (mkLoop children 0 id testDocCount) in
  match found with
  | Some d => Ok (d, children', count)
  | None => Ok (END_DOCID, moveToEndE <$> children', count)
  end.
End Ops.
Arguments loop : clear implicits.

(** The documents of an AND: those of every sought child that pass all filters. *)
Definition docs (Ds : list docset) (sorted : list nat) (filters : list DocValueFilter) : docset :=
  fun d => (forall i (Di : docset), i ∈ sorted -> Ds !! i = Some Di -> Di d) /\
           Forall (fun f : DocValueFilter => f d = true) filters.

Lemma testCurrentDoc_spec filters d n :
  fst (testCurrentDoc filters d n) = true <-> Forall (fun f : DocValueFilter => f d = true) filters.
Proof.
  revert n. induction filters as [|f fs IH]; intros n; cbn; [by split|].
  rewrite Forall_cons_iff. specialize (IH (n + 1)). destruct (f d); cbn; intuition congruence.
Qed.

Section Correct.
Context {E : Type} (seekE : nat -> E -> docid_t -> res (docid_t * E)) (moveToEndE : E -> E).
Context (P : E -> docset -> docid_t -> Prop) (laws : seek_laws seekE P).
Context (Ds : list docset) (sorted : list nat) (filters : list DocValueFilter).

(** Every sought child stands for its document set, asked up to [lo]. *)
Definition children_at (children : list E) (lo : docid_t) : Prop :=
  forall i, i ∈ sorted -> exists e (Di : docset), children !! i = Some e /\ Ds !! i = Some Di /\ P e Di lo.

(** Seeking one child keeps the others where they are. *)
Lemma children_at_seek children lo i e e' Di d :
  children_at children lo -> children !! i = Some e -> Ds !! i = Some Di ->
  P e' Di lo -> lo <= d -> children_at (<[i := e']> children) d.
Proof using laws.
  intros Hc Hi HDi HP Hd j Hj. destruct (Hc j Hj) as (ej & Dj & Hej & HDj & HPj).
  destruct (decide (i = j)) as [->|Hne].
  - exists e', Di. rewrite list_lookup_insert_eq by eauto using lookup_lt_Some.
    split; [done|]. split; [done|]. eapply sl_mono; eauto.
  - exists ej, Dj. rewrite list_lookup_insert_ne by done.
    split; [done|]. split; [done|]. eapply sl_mono; eauto.
Qed.

#[local] Ltac loop_cbn :=
  cbn [l_children l_cursor l_current l_testDocCount negb fst snd].

Definition loop_inv (id : docid_t) (s : loop E) : Prop :=
  0 <= id <= l_current s /\ l_current s <= END_DOCID /\ (l_cursor s < length sorted)%nat /\
  children_at (l_children s) (l_current s) /\
  gap (docs Ds sorted filters) id (l_current s) /\
  (forall j i (Di : docset), (j < l_cursor s)%nat -> sorted !! j = Some i -> Ds !! i = Some Di ->
     Di (l_current s)).

Definition loop_measure (s : loop E) : nat :=
  Z.to_nat (END_DOCID - l_current s) * S (length sorted) + (length sorted - l_cursor s).

Definition loop_post (id : docid_t) (r : option docid_t * list E * Z) : Prop :=
  match r with
  | (Some d, children, _) =>
      first_ge (docs Ds sorted filters) id d /\ children_at children d /\ d < END_DOCID
  | (None, _, _) => gap (docs Ds sorted filters) id END_DOCID
  end.

Lemma docs_gap_child i Di lo hi :
  i ∈ sorted -> Ds !! i = Some Di -> gap Di lo hi -> gap (docs Ds sorted filters) lo hi.
Proof. intros Hi HD Hg. eapply gap_sub; [exact Hg|]. intros x [Hx _]. exact (Hx i Di Hi HD). Qed.

Lemma and_doSeek_body_ok id s :
  loop_inv id s -> exists x, evals (fun f => doSeek_body (seekE f) sorted filters s) x /\
    match x with
    | inl s' => loop_inv id s' /\ (loop_measure s' < loop_measure s)%nat
    | inr r => loop_post id r
    end.
Proof using laws.
  destruct s as [cs k cur n]. intros (Hid & Hend & Hk & Hcs & Hgap & Hseen). cbn in *.
  destruct (lookup_lt_is_Some_2 sorted k Hk) as [i Hi].
  assert (i ∈ sorted) as Hin by (eapply list_elem_of_lookup_2; eauto).
  destruct (Hcs i Hin) as (e & Di & He & HDi & HP).
  destruct (sl_seek _ _ laws e Di cur cur HP ltac:(lia) ltac:(lia))
    as (d & e' & Hev & [Hlo Hhi Hd Hg] & HP').
  pose proof (docs_gap_child i Di cur d Hin HDi Hg) as Hgd.
  assert (Hc' : forall t, cur <= t -> children_at (<[i:=e']> cs) t)
    by (intros; eapply children_at_seek; eauto).
  pose proof (with_child_evals cs i e (fun f e => seekE f e cur) d e' He Hev) as Hw.
  unfold doSeek_body; loop_cbn. rewrite Hi. cbn [deref res_bind].
  destruct (Z.eqb_spec d END_DOCID) as [->|Hne].
  { eexists. split; [eapply evals_bind_ok; [exact Hw|]; loop_cbn; reflexivity|].
    cbn. eauto with hv. }
  destruct (Z.eqb_spec d cur) as [->|Hcur]; cycle 1.
  { eexists. split; [eapply evals_bind_ok; [exact Hw|]; loop_cbn|].
    { rewrite (proj2 (Z.eqb_neq _ _) Hne), (proj2 (Z.eqb_neq _ _) Hcur). reflexivity. }
    cbn. unfold loop_inv, loop_measure; cbn. split; [|nia].
    split_and!; eauto with hv; try lia. }
  destruct (Nat.leb_spec (length sorted) (S k)) as [Hlast|Hmore]; cycle 1.
  { eexists. split; [eapply evals_bind_ok; [exact Hw|]; loop_cbn|].
    { rewrite (proj2 (Z.eqb_neq _ _) Hne), Z.eqb_refl. reflexivity. }
    cbn. unfold loop_inv, loop_measure; cbn. split; [|lia].
    split_and!; eauto with hv; try lia.
    intros j i' D' Hj Hij HD'. destruct (decide (j = k)) as [->|]; [|eapply Hseen; eauto; lia].
    simplify_eq. auto. }
  destruct (testCurrentDoc filters cur n) as [[] n'] eqn:Htest.
  - exists (inr (Some cur, <[i:=e']> cs, n')). split; [eapply evals_bind_ok; [exact Hw|]; loop_cbn|].
    { rewrite (proj2 (Z.eqb_neq _ _) Hne), Z.eqb_refl. reflexivity. }
    cbn. split_and!; [|eauto with lia|lia]. split; [lia..| |done]. intros _. split.
    + intros i' D' [j Hij]%list_elem_of_lookup HD'.
      destruct (decide (j = k)) as [->|]; [simplify_eq; auto|].
      eapply Hseen; eauto. apply lookup_lt_Some in Hij. lia.
    + apply (testCurrentDoc_spec _ _ n). by rewrite Htest.
  - eexists. split; [eapply evals_bind_ok; [exact Hw|]; loop_cbn|].
    { rewrite (proj2 (Z.eqb_neq _ _) Hne), Z.eqb_refl. reflexivity. }
    cbn. unfold loop_inv, loop_measure; cbn. split; [|nia].
    split_and!; eauto with hv; try lia.
    + apply Hc'. lia.
    + eapply gap_join; [exact Hgap|]. intros x Hx [_ Hf]. assert (x = cur) as -> by lia.
      apply (testCurrentDoc_spec _ _ n) in Hf. rewrite Htest in Hf. done.
Qed.

(** AND finds the first common document, or none when there is none; the sought
    children then stand at it. *)
Lemma and_doSeek_ok children n id :
  0 <= id <= END_DOCID -> sorted <> [] -> children_at children id ->
  exists d children' n',
    evals (fun f => doSeek seekE moveToEndE f sorted filters children n id) (d, children', n') /\
    first_ge (docs Ds sorted filters) id d /\ (d < END_DOCID -> children_at children' d).
Proof using laws.
  intros Hid Hs Hc.
  destruct (iter_total (fun f => doSeek_body (seekE f) sorted filters)
              (loop_inv id) (loop_post id) loop_measure (and_doSeek_body_ok id)
              (mkLoop children 0 id n)) as ([[[d|] cs'] n'] & Hpost & Hev).
  - split_and!; cbn; [lia..| destruct sorted; [done|cbn; lia] | done | apply gap_empty; lia | lia].
  - destruct Hpost as (Hf & Hc' & Hd).
    exists d, cs', n'. split; [eapply evals_bind_ok; [exact Hev|reflexivity] | by split].
  - exists END_DOCID, (moveToEndE <$> cs'), n'.
    split; [eapply evals_bind_ok; [exact Hev|reflexivity] |].
    split; [apply first_ge_END; [done|lia] | lia].
Qed.
End Correct.
End And.

(** ** ANDNOT *)

Module AndNot.

Section Ops.
Context {E : Type}.

(** The state [doSeek] changes: [_leftQueryExecutor], [_rightQueryExecutor] (null is
    [None]) and [_testDocCount]. *)
Record state := mkState {
  s_left : E;
  s_right : option E;
  s_testDocCount : Z
}.

(** Ask the right side for [docId]: its stolen filter when there is one, the
    executor itself otherwise. *)
Definition seekRight (seekE : E -> docid_t -> res (docid_t * E)) (r : E)
    (rightFilter : option DocValueFilter) (testDocCount : Z) (docId : docid_t)
    : res (docid_t * E * Z) :=
  match rightFilter with
  | Some f => Ok (if f docId then docId else END_DOCID, r, testDocCount + 1)
  | None => let! (tmpId, r') := seekE r docId in Ok (tmpId, r', testDocCount)
  end.

(** One iteration of [while (_rightQueryExecutor && docId != END_DOCID)]. *)
Definition doSeek_body (seekE : E -> docid_t -> res (docid_t * E))
    (rightFilter : option DocValueFilter) (rightExecutorHasSub : bool)
    (s : docid_t * state) : res (docid_t * state + docid_t * state) :=
  let '(docId, st) := s in
  match s_right st with
  | None => Ok (inr (docId, st))
  | Some r =>
      if docId =? END_DOCID then Ok (inr (docId, st))
      else
        let! (tmpId, r', count) := seekRight seekE r rightFilter (s_testDocCount st) docId in
        if rightExecutorHasSub then Ok (inr (docId, mkState (s_left st) (Some r') count))
        else if docId =? tmpId then
          let! (docId', l') := seekE (s_left st) (docId + 1) in
          Ok (inl (docId', mkState l' (Some r') count))
        else Ok (inr (docId, mkState (s_left st) (Some r') count))
  end.

(** [doSeek]: the first document of the left child from [id] on that the right
    child does not have. *)
Definition doSeek (seekE : nat -> E -> docid_t -> res (docid_t * E)) (fuel : nat)
    (rightFilter : option DocValueFilter) (rightExecutorHasSub : bool)
    (st : state) (id : docid_t) : res (docid_t * state) :=
  let! (docId, l) := seekE fuel (s_left st) id in
  iter fuel (doSeek_body (seekE fuel) rightFilter rightExecutorHasSub)
    (docId, mkState l (s_right st) (s_testDocCount st)).
End Ops.
Arguments state : clear implicits.

(** The documents of an ANDNOT. When the right side has sub documents the
    difference is taken per sub document and the main documents are all kept. *)
Definition docs (DL DR : docset) (rightExecutorHasSub : bool) : docset :=
  fun d => DL d /\ (rightExecutorHasSub = false -> ~ DR d).

Section Correct.
Context {E : Type} (seekE : nat -> E -> docid_t -> res (docid_t * E)).
Context (P : E -> docset -> docid_t -> Prop) (laws : seek_laws seekE P).
Context (DL DR : docset) (rightFilter : option DocValueFilter) (rightHasSub : bool).

(** The right side stands for [DR]: through its filter if it was stolen, else by
    seeking; a null right side has no document. *)
Definition right_at (r : option E) (lo : docid_t) : Prop :=
  match r with
  | None => forall d, ~ DR d
  | Some r =>
      match rightFilter with
      | Some f => forall d, 0 <= d < END_DOCID -> DR d <-> f d = true
      | None => P r DR lo
      end
  end.

Lemma right_at_mono r lo lo' : right_at r lo -> lo <= lo' -> right_at r lo'.
Proof using laws.
  unfold right_at. destruct r, rightFilter; try done. intros. eapply sl_mono; eauto.
Qed.

(** Asking the right side for [d] tells whether it has [d]. *)
Lemma seekRight_ok r d n :
  right_at (Some r) d -> 0 <= d < END_DOCID ->
  exists t r' n', evals (fun f => seekRight (seekE f) r rightFilter n d) (t, r', n') /\
    (d = t <-> DR d) /\ right_at (Some r') d.
Proof using laws.
  intros Hr Hd. unfold seekRight, right_at in *. destruct rightFilter as [f|].
  - do 3 eexists. split; [apply evals_ret|]. split; [|done].
    rewrite Hr by done. destruct (f d); split; intros; try done; lia.
  - destruct (sl_seek _ _ laws r DR d d Hr ltac:(lia) ltac:(lia)) as (t & r' & He & [l e i g] & HP).
    exists t, r', n. split; [eapply evals_bind_ok; [exact He|done]|]. split; [|done].
    split; [intros ->; apply i; lia|]. intros HDR.
    destruct (Z.eq_dec d t) as [|Hne]; [done|]. exfalso. apply (g d); [lia|done].
Qed.

Definition loop_inv (id : docid_t) (s : docid_t * state E) : Prop :=
  let '(docId, st) := s in
  0 <= id <= docId /\ docId <= END_DOCID /\ (docId <> END_DOCID -> DL docId) /\
  P (s_left st) DL docId /\ right_at (s_right st) docId /\
  gap (docs DL DR rightHasSub) id docId.

Definition loop_post (id : docid_t) (s : docid_t * state E) : Prop :=
  let '(docId, st) := s in
  first_ge (docs DL DR rightHasSub) id docId /\
  P (s_left st) DL docId /\ right_at (s_right st) docId.

Lemma seek_left_inv id lo l r n :
  0 <= id <= lo -> lo <= END_DOCID -> P l DL lo -> right_at r lo ->
  gap (docs DL DR rightHasSub) id lo ->
  exists d l', evals (fun f => seekE f l lo) (d, l') /\
    loop_inv id (d, mkState l' r n) /\ lo <= d.
Proof using laws.
  intros Hid Hlo HP Hr Hg.
  destruct (sl_seek _ _ laws l DL lo lo HP ltac:(lia) ltac:(lia)) as (d & l' & He & [? ? i g] & HP').
  exists d, l'. split; [done|]. split; [|done]. split_and!; cbn; [lia..|done| | |].
  - eapply sl_mono; eauto.
  - eapply right_at_mono; eauto.
  - eapply gap_join; [done|]. eapply gap_sub; [exact g|]. intros x [Hx _]. exact Hx.
Qed.

Lemma andNot_doSeek_body_ok id s :
  loop_inv id s ->
  exists x, evals (fun f => doSeek_body (seekE f) rightFilter rightHasSub s) x /\
    match x with
    | inl s' => loop_inv id s' /\
        (Z.to_nat (END_DOCID - fst s') < Z.to_nat (END_DOCID - fst s))%nat
    | inr r => loop_post id r
    end.
Proof using laws.
  destruct s as [d [l r n]]. intros (Hid & Hend & HL & HP & Hr & Hg). cbn in *.
  assert (Hexit : forall r' n', right_at r' d -> (d <> END_DOCID -> rightHasSub = false -> ~ DR d) ->
            loop_post id (d, mkState l r' n')).
  { intros. split; [|by split]. split; [lia..| |done]. intros. by split; auto. }
  destruct r as [r|]; cycle 1.
  { eexists. split; [apply evals_ret|]. apply Hexit; [done|]. intros. apply Hr. }
  destruct (Z.eqb_spec d END_DOCID) as [->|Hne].
  { eexists. split; [apply evals_ret|]. apply Hexit; [done|]. congruence. }
  destruct (seekRight_ok r d n Hr ltac:(lia)) as (t & r' & n' & He & Ht & Hr').
  destruct rightHasSub eqn:Hsub.
  { eexists. split; [eapply evals_bind_ok; [exact He|]; cbn; reflexivity|].
    apply Hexit; [done|]. congruence. }
  destruct (Z.eqb_spec d t) as [Heq|Hneq]; cycle 1.
  { eexists. split; [eapply evals_bind; [exact He|]; cbn|].
    { rewrite (proj2 (Z.eqb_neq _ _) Hneq). apply evals_ret. }
    apply Hexit; [done|]. intros _ _ HDR. apply Hneq, Ht, HDR. }
  destruct (seek_left_inv id (d + 1) l (Some r') n') as (d' & l' & He' & Hinv & Hd'); try lia.
  - eapply sl_mono; eauto. lia.
  - eapply right_at_mono; eauto. lia.
  - eapply gap_join; [rewrite Hsub; exact Hg|]. intros x Hx [_ Hn]. assert (x = d) as -> by lia.
    apply (Hn Hsub). by apply Ht.
  - eexists. split.
    { eapply evals_bind; [exact He|]. cbn. rewrite (proj2 (Z.eqb_eq _ _) Heq).
      eapply evals_bind_ok; [exact He'|reflexivity]. }
    split; [done|cbn; lia].
Qed.

(** ANDNOT finds the first document of the difference. *)
Lemma andNot_doSeek_ok st id lo :
  lo <= id -> 0 <= id <= END_DOCID -> P (s_left st) DL lo -> right_at (s_right st) lo ->
  exists d st', evals (fun f => doSeek seekE f rightFilter rightHasSub st id) (d, st') /\
    first_ge (docs DL DR rightHasSub) id d /\
    P (s_left st') DL d /\ right_at (s_right st') d.
Proof using laws.
  intros Hlo Hid HP Hr. destruct st as [l r n]; cbn in *.
  destruct (seek_left_inv id id l r n) as (d & l' & He & Hinv & _);
    [lia | lia | eapply sl_mono; eauto | eapply right_at_mono; eauto | apply gap_empty; lia |].
  destruct (iter_total (fun f => doSeek_body (seekE f) rightFilter rightHasSub)
              (loop_inv id) (loop_post id) (fun s => Z.to_nat (END_DOCID - fst s))
              (andNot_doSeek_body_ok id) _ Hinv) as ([d' st'] & (H1 & H2 & H3) & Hev).
  exists d', st'. split; [|done]. unfold doSeek. cbn.
  eapply evals_bind; [exact He|]. exact Hev.
Qed.
End Correct.
End AndNot.

(** ** Bitmap AND *)

(** What [BitmapTermQueryExecutor::test] promises to a caller that asks for
    non-decreasing documents: the answer is membership. *)
Record test_laws {B : Type} (test : nat -> B -> docid_t -> res (bool * B))
    (P : B -> docset -> docid_t -> Prop) : Prop := {
  tl_mono b D lo lo' : P b D lo -> lo <= lo' -> P b D lo';
  tl_test b D lo d : P b D lo -> lo <= d -> 0 <= d < END_DOCID ->
    exists r b', evals (fun f => test f b d) (r, b') /\ (r = true <-> D d) /\ P b' D d
}.

Module BitmapAnd.

Section Ops.
Context {E B : Type}.

(** [do { if (!cur->test(docId)) break; } while (++cur < end)] and
    [cur == end]: whether all bitmaps have [docId]. *)
Fixpoint testAll (test : B -> docid_t -> res (bool * B)) (bitmaps : list B) (docId : docid_t)
    : res (bool * list B) :=
  match bitmaps with
  | [] => Ok (true, [])
  | b :: bs =>
      let! (r, b') := test b docId in
      if r then
        let! (rs, bs') := testAll test bs docId in
        Ok (rs, b' :: bs')
      else Ok (false, b' :: bs)
  end.

(** The first iteration dereferences [_firstExecutor]. *)
Definition testBitmaps (test : B -> docid_t -> res (bool * B)) (bitmaps : list B)
    (docId : docid_t) : res (bool * list B) :=
  match bitmaps with
  | [] => Undefined
  | _ => testAll test bitmaps docId
  end.

(** One iteration of [while (true)]. *)
Definition doSeek_body (seekE : E -> docid_t -> res (docid_t * E))
    (test : B -> docid_t -> res (bool * B)) (s : docid_t * E * list B)
    : res (docid_t * E * list B + docid_t * E * list B) :=
  let '(docId, e, bitmaps) := s in
  let! (docId', e') := seekE e docId in
  if docId' =? END_DOCID then Ok (inr (docId', e', bitmaps))
  else
    let! (all, bitmaps') := testBitmaps test bitmaps docId' in
    if all then Ok (inr (docId', e', bitmaps'))
    else Ok (inl (docId' + 1, e', bitmaps')).

(** [doSeek]; at the end [moveToEnd] moves every child to the end. *)
Definition doSeek (seekE : nat -> E -> docid_t -> res (docid_t * E))
    (moveToEndE : E -> E) (test : nat -> B -> docid_t -> res (bool * B)) (moveToEndB : B -> B)
    (fuel : nat) (e : E) (bitmaps : list B) (docId : docid_t)
    : res (docid_t * E * list B) :=
  let! (docId', e', bitmaps') :=
    iter fuel (doSeek_body (seekE fuel) (test fuel)) (docId, e, bitmaps) in
  if docId' =? END_DOCID then Ok (docId', moveToEndE e', moveToEndB <$> bitmaps')
  else Ok (docId', e', bitmaps').
End Ops.

(** The documents of a bitmap AND: those of the sought child that every bitmap has. *)
Definition docs (D : docset) (Bs : list docset) : docset :=
  fun d => D d /\ Forall (fun Bi : docset => Bi d) Bs.

Section Correct.
Context {E B : Type} (seekE : nat -> E -> docid_t -> res (docid_t * E)).
Context (test : nat -> B -> docid_t -> res (bool * B)).
Context (P : E -> docset -> docid_t -> Prop) (laws : seek_laws seekE P).
Context (PB : B -> docset -> docid_t -> Prop) (blaws : test_laws test PB).
Context (D : docset) (Bs : list docset).

Definition bitmaps_at (bitmaps : list B) (Bs' : list docset) (lo : docid_t) : Prop :=
  Forall2 (fun b Bi => PB b Bi lo) bitmaps Bs'.

Lemma bitmaps_at_mono bitmaps Bs' lo lo' :
  bitmaps_at bitmaps Bs' lo -> lo <= lo' -> bitmaps_at bitmaps Bs' lo'.
Proof using blaws.
  intros H Hlo. eapply list.Forall2_impl; [exact H|].
  intros b Bi Hb. exact (tl_mono _ _ blaws b Bi lo lo' Hb Hlo).
Qed.

Lemma testAll_ok bitmaps Bs' d :
  bitmaps_at bitmaps Bs' d -> 0 <= d < END_DOCID ->
  exists r bitmaps', evals (fun f => testAll (test f) bitmaps d) (r, bitmaps') /\
    (r = true <-> Forall (fun Bi : docset => Bi d) Bs') /\ bitmaps_at bitmaps' Bs' d.
Proof using blaws.
  intros H Hd. induction H as [|b Bi bs Bs' HP H IH]; cbn.
  { exists true, []. split; [apply evals_ret|]. split; [by split|constructor]. }
  destruct (tl_test _ _ blaws b Bi d d HP ltac:(lia) Hd) as (r & b' & He & Hr & HP').
  destruct IH as (rs & bs' & He' & Hrs & Hbs).
  destruct r.
  - exists rs, (b' :: bs'). split; [|split].
    + eapply evals_bind; [exact He|]. cbn. eapply evals_bind_ok; [exact He'|done].
    + rewrite Hrs, Forall_cons_iff. tauto.
    + by constructor.
  - exists false, (b' :: bs). split; [|split].
    + eapply evals_bind; [exact He|]. apply evals_ret.
    + rewrite Forall_cons_iff. intuition congruence.
    + by constructor.
Qed.

Definition loop_inv (id : docid_t) (s : docid_t * E * list B) : Prop :=
  let '(docId, e, bitmaps) := s in
  0 <= id <= docId /\ docId <= END_DOCID /\ bitmaps <> [] /\ P e D docId /\
  bitmaps_at bitmaps Bs docId /\ gap (docs D Bs) id docId.

Definition loop_post (id : docid_t) (s : docid_t * E * list B) : Prop :=
  let '(docId, e, bitmaps) := s in
  first_ge (docs D Bs) id docId /\
  (docId < END_DOCID -> P e D docId /\ bitmaps_at bitmaps Bs docId).

Lemma bitmapAnd_doSeek_body_ok id s :
  loop_inv id s ->
  exists x, evals (fun f => doSeek_body (seekE f) (test f) s) x /\
    match x with
    | inl s' => loop_inv id s' /\
        (Z.to_nat (END_DOCID - fst (fst s')) < Z.to_nat (END_DOCID - fst (fst s)))%nat
    | inr r => loop_post id r
    end.
Proof using laws blaws.
  destruct s as [[d e] bs]. intros (Hid & Hend & Hne & HP & Hbs & Hg). cbn in *.
  destruct (sl_seek _ _ laws e D d d HP ltac:(lia) ltac:(lia))
    as (d' & e' & He & [Hlo Hhi Hin Hgd] & HP').
  assert (gap (docs D Bs) id d') as Hg'.
  { eapply gap_join; [exact Hg|]. eapply gap_sub; [exact Hgd|]. by intros x [? _]. }
  destruct (Z.eq_dec d' END_DOCID) as [->|Hd'].
  { eexists. split; [eapply evals_bind; [exact He|]; cbn; apply evals_ret|].
    split; [apply first_ge_END; [done|lia] | lia]. }
  destruct (testAll_ok bs Bs d') as (r & bs' & He' & Hr & Hbs'); [|split; [lia|]|].
  { eapply bitmaps_at_mono; eauto. }
  { unfold END_DOCID in *; lia. }
  assert (evals (fun f => testBitmaps (test f) bs d') (r, bs')) as Ht by (destruct bs; done).
  assert (HP'' : P e' D d') by (eapply sl_mono; eauto).
  exists (if r then inr (d', e', bs') else inl (d' + 1, e', bs')). split.
  { eapply evals_bind; [exact He|]. cbn. rewrite (proj2 (Z.eqb_neq _ _) Hd').
    eapply evals_bind_ok; [exact Ht|]. by destruct r. }
  destruct r.
  - split; [|done]. split; [lia..| |done]. intros _. split; [auto|by apply Hr].
  - split; [|cbn; lia]. split_and!; [lia..| | | |].
    + intros ->. by inversion Hbs'; subst; inversion Hbs; subst.
    + eapply sl_mono; eauto. lia.
    + eapply bitmaps_at_mono; eauto. lia.
    + eapply gap_join; [exact Hg'|]. intros x Hx [_ Hf]. assert (x = d') as -> by lia.
      by apply Hr in Hf.
Qed.

Context (moveToEndE : E -> E) (moveToEndB : B -> B).

(** Bitmap AND finds the first document of the sought child that all bitmaps have. *)
Lemma bitmapAnd_doSeek_ok e bitmaps id lo :
  lo <= id -> 0 <= id <= END_DOCID -> bitmaps <> [] -> P e D lo -> bitmaps_at bitmaps Bs lo ->
  exists d e' bitmaps',
    evals (fun f => doSeek seekE moveToEndE test moveToEndB f e bitmaps id) (d, e', bitmaps') /\
    first_ge (docs D Bs) id d /\
    (d < END_DOCID -> P e' D d /\ bitmaps_at bitmaps' Bs d).
Proof using laws blaws.
  intros Hlo Hid Hne HP Hbs.
  destruct (iter_total (fun f => doSeek_body (seekE f) (test f))
              (loop_inv id) (loop_post id) (fun s => Z.to_nat (END_DOCID - fst (fst s)))
              (bitmapAnd_doSeek_body_ok id) (id, e, bitmaps)) as ([[d e'] bs'] & [Hf Hp] & Hev).
  { split_and!; [lia..|done| eapply sl_mono; eauto | eapply bitmaps_at_mono; eauto |
      apply gap_empty; lia]. }
  destruct (Z.eqb_spec d END_DOCID) as [->|Hd].
  - do 3 eexists. split; [eapply evals_bind_ok; [exact Hev|]; cbn; reflexivity|].
    split; [done|lia].
  - exists d, e', bs'. split; [eapply evals_bind_ok; [exact Hev|]; cbn|done].
    by rewrite (proj2 (Z.eqb_neq _ _) Hd).
Qed.
End Correct.
End BitmapAnd.
