(* ===== verification/ExecutorHeap.v ===== *)
(** * The min-heap of executor entries

    src/aios/ha3/ha3/search/query_executor/QueryExecutorHeap.h: the entries of the
    OR and WEAKAND executors, kept as a binary min-heap on the document id in an
    array whose slot 0 is a dummy. WEAKAND uses a suffix of its array as the
    heap, so every operation takes the offset [off] that the C++ code adds to
    the array's address. *)

From stdpp Require Import base list numbers option tactics.
From Stdlib Require Import ZArith Lia ZifyNat.
From S2P Require Import Prelude.

#[local] Open Scope Z_scope.
#[local] Ltac Zify.zify_post_hook ::= Z.to_euclidean_division_equations.

(** [struct QueryExecutorEntry] *)
Record QueryExecutorEntry := mkEntry { docId : docid_t; entryId : nat }.

(** The default constructor. *)
#[export] Instance QueryExecutorEntry_inhabited : Inhabited QueryExecutorEntry :=
  populate (mkEntry INVALID_DOCID 0).

(** [std::swap(heap[i], heap[j])] *)
Definition swap (heap : list QueryExecutorEntry) (i j : nat) : res (list QueryExecutorEntry) :=
  let! x := deref (heap !! i) in
  let! y := deref (heap !! j) in
  Ok (<[i := y]> (<[j := x]> heap)).

(** [c <= end && heap[c].docId < heap[min].docId ? c : min] *)
Definition smaller (off end_ : nat) (heap : list QueryExecutorEntry) (c min : nat) : res nat :=
  if (c <=? end_)%nat then
    let! ec := deref (heap !! (off + c)%nat) in
    let! em := deref (heap !! (off + min)%nat) in
    Ok (if docId ec <? docId em then c else min)
  else Ok min.

(** One iteration of the [do ... while (min != idx)] loop of [adjustDown]. *)
Definition adjustDown_body (off end_ : nat) (s : nat * list QueryExecutorEntry)
    : res (nat * list QueryExecutorEntry + list QueryExecutorEntry) :=
  let '(idx, heap) := s in
  let left := (2 * idx)%nat in
  let right := (left + 1)%nat in
  let! min := smaller off end_ heap left idx in
  let! min := smaller off end_ heap right min in
  if (min =? idx)%nat then Ok (inr heap)
  else
    let! heap' := swap heap (off + idx) (off + min) in
    Ok (inl (min, heap')).

Definition adjustDown (fuel off idx end_ : nat) (heap : list QueryExecutorEntry)
    : res (list QueryExecutorEntry) :=
  iter fuel (adjustDown_body off end_) (idx, heap).

(** ** Specification *)

(** The document id in slot [i] of the heap at offset [off]. *)
Definition key (off : nat) (heap : list QueryExecutorEntry) (i : nat) : docid_t :=
  docId (heap !!! (off + i)%nat).

(** The heap order on slots [1 .. n]. *)
Definition heap_ok (off n : nat) (heap : list QueryExecutorEntry) : Prop :=
  forall i, (2 <= i <= n)%nat -> key off heap (i / 2) <= key off heap i.

(** The heap order, except that slot [k] may be larger than its children. *)
Definition heap_except (off n k : nat) (heap : list QueryExecutorEntry) : Prop :=
  (forall i, (2 <= i <= n)%nat -> (i / 2 <> k)%nat -> key off heap (i / 2) <= key off heap i) /\
  (forall i, (2 <= i <= n)%nat -> (i / 2 = k)%nat -> (2 <= k)%nat ->
     key off heap (k / 2) <= key off heap i).

(** The root of a heap is its minimum. *)
Lemma heap_root_min off n heap i :
  heap_ok off n heap -> (1 <= i <= n)%nat -> key off heap 1 <= key off heap i.
Proof.
  intros H. induction i as [i IH] using (well_founded_induction lt_wf). intros Hi.
  destruct (decide (i = 1)%nat) as [->|Hne]; [lia|].
  assert (1 <= i / 2 < i)%nat as Hd.
  { split; [apply Nat.div_le_lower_bound; lia | apply Nat.div_lt; lia]. }
  etrans; [apply (IH (i / 2)%nat); lia | apply H; lia].
Qed.

Lemma lookup_total_of_lt (heap : list QueryExecutorEntry) i :
  (i < length heap)%nat -> heap !! i = Some (heap !!! i).
Proof. intros. by apply list_lookup_lookup_total_lt. Qed.

(** Exchanging two entries permutes the list. *)
Lemma swap_Permutation {A} (l : list A) i j x y :
  l !! i = Some x -> l !! j = Some y -> <[i := y]> (<[j := x]> l) ≡ₚ l.
Proof.
  intros Hi Hj. pose proof (lookup_lt_Some _ _ _ Hi). pose proof (lookup_lt_Some _ _ _ Hj).
  apply Permutation_inj. rewrite !length_insert. split; [done|].
  exists (fun k => if decide (k = i) then j else if decide (k = j) then i else k). split.
  - intros a b. repeat case_decide; congruence.
  - intros k. destruct (decide (k = i)) as [->|Hki].
    { rewrite list_lookup_insert_eq by (rewrite length_insert; done). done. }
    rewrite list_lookup_insert_ne by done. destruct (decide (k = j)) as [->|Hkj].
    { by rewrite list_lookup_insert_eq. }
    by rewrite list_lookup_insert_ne.
Qed.

(** What a rearrangement of the slots above [off] keeps. *)
Record rearranged (off : nat) (heap heap' : list QueryExecutorEntry) : Prop := {
  ra_perm : heap' ≡ₚ heap;
  ra_prefix i : (i <= off)%nat -> heap' !! i = heap !! i
}.

Lemma rearranged_refl off heap : rearranged off heap heap.
Proof. by split. Qed.

Lemma rearranged_trans off h1 h2 h3 :
  rearranged off h1 h2 -> rearranged off h2 h3 -> rearranged off h1 h3.
Proof.
  intros [p1 q1] [p2 q2]. split; [by etrans|]. intros i ?. by rewrite q2, q1.
Qed.

Lemma rearranged_length off h h' : rearranged off h h' -> length h' = length h.
Proof. intros [p _]. by apply Permutation_length. Qed.

Lemma swap_ok off heap i j :
  (off + i < length heap)%nat -> (off + j < length heap)%nat -> (1 <= i)%nat -> (1 <= j)%nat ->
  exists heap', swap heap (off + i) (off + j) = Ok heap' /\ rearranged off heap heap' /\
    (forall k, key off heap' k =
       if decide (k = i) then key off heap j else if decide (k = j) then key off heap i
       else key off heap k).
Proof.
  intros Hi Hj ??. unfold swap.
  pose proof (lookup_total_of_lt heap _ Hi) as Ei. pose proof (lookup_total_of_lt heap _ Hj) as Ej.
  rewrite Ei, Ej. cbn. eexists. split; [done|]. split.
  - split; [by apply swap_Permutation|].
    intros k ?. rewrite !list_lookup_insert_ne by lia. done.
  - intros k. unfold key. destruct (decide (k = i)) as [->|Hki].
    { rewrite list_lookup_total_insert_eq by (rewrite length_insert; done). done. }
    rewrite list_lookup_total_insert_ne by lia. destruct (decide (k = j)) as [->|Hkj].
    { by rewrite list_lookup_total_insert_eq. }
    by rewrite list_lookup_total_insert_ne by lia.
Qed.

Lemma smaller_ok off n heap c m :
  (off + n < length heap)%nat -> (m <= n)%nat -> 
  smaller off n heap c m =
    Ok (if decide ((c <= n)%nat /\ key off heap c < key off heap m) then c else m).
Proof.
  intros Hlen Hm. unfold smaller, key. destruct (Nat.leb_spec c n) as [Hc|Hc].
  - rewrite !lookup_total_of_lt by lia. cbn.
    destruct (Z.ltb_spec (docId (heap !!! (off + c)%nat)) (docId (heap !!! (off + m)%nat)));
      case_decide; first [done | lia].
  - case_decide; [lia|done].
Qed.

(** Sifting down: when slot [k] is the only one that may break the heap order, the
    loop moves its entry to where it belongs and restores the order. *)
Section AdjustDown.
Context (off n : nat) (heap : list QueryExecutorEntry).
Context (Hlen : (off + n < length heap)%nat).

Definition adjust_inv (s : nat * list QueryExecutorEntry) : Prop :=
  (1 <= fst s <= n)%nat /\ rearranged off heap (snd s) /\ heap_except off n (fst s) (snd s).

(** Exchanging slot [idx] with its smaller child [c] moves the defect to [c]. *)
Lemma heap_except_swap idx c h h' :
  heap_except off n idx h -> (1 <= idx)%nat -> (c / 2 = idx)%nat -> (2 <= c <= n)%nat ->
  key off h c < key off h idx ->
  (forall i, (2 <= i <= n)%nat -> (i / 2 = idx)%nat -> key off h c <= key off h i) ->
  (forall k, key off h' k = if decide (k = idx) then key off h c
                            else if decide (k = c) then key off h idx else key off h k) ->
  heap_except off n c h'.
Proof.
  intros [Hord Hup] Hidx Hc Hcn Hlt Hmin Hkey. split.
  - intros i Hi Hne. rewrite !Hkey.
    destruct (decide (i = c)) as [->|Hic].
    { repeat case_decide; try lia. }
    destruct (decide (i = idx)) as [->|Hii].
    { repeat case_decide; try lia. apply (Hup c); lia. }
    destruct (decide (i / 2 = idx)%nat) as [Hi2|Hi2].
    { repeat case_decide; try lia. by apply Hmin. }
    repeat case_decide; try lia. by apply Hord.
  - intros i Hi Hi2 _. rewrite !Hkey. repeat case_decide; try lia.
    rewrite <- Hi2. apply Hord; lia.
Qed.

Lemma adjustDown_body_ok s :
  adjust_inv s -> exists x, evals (fun _ => adjustDown_body off n s) x /\
    match x with
    | inl s' => adjust_inv s' /\ (n - fst s' < n - fst s)%nat
    | inr h => rearranged off heap h /\ heap_ok off n h
    end.
Proof using Hlen.
  destruct s as [idx h]. intros (Hidx & Hra & [Hord Hup]). cbn [fst snd] in *.
  pose proof (rearranged_length _ _ _ Hra) as Hlh.
  unfold adjustDown_body. rewrite smaller_ok by lia. cbn [res_bind].
  set (m1 := if decide _ then _ else idx). set (r := (2 * idx + 1)%nat) in *.
  assert (m1 = idx \/ (m1 = 2 * idx /\ 2 * idx <= n)%nat) as Hm1 by (subst m1; case_decide; lia).
  rewrite smaller_ok by lia. cbn [res_bind].
  set (m2 := if decide _ then r else m1).
  assert (m2 = idx \/ (2 <= m2 <= n /\ m2 / 2 = idx)%nat) as Hm2.
  { subst m2. case_decide; [right; subst r; lia|].
    destruct Hm1 as [->|[-> ?]]; [by left|right]. lia. }
  assert (forall i, (2 <= i <= n)%nat -> (i / 2 = idx)%nat -> key off h m2 <= key off h i) as Hmin.
  { intros i Hi Hi2. assert (i = 2 * idx \/ i = r)%nat as [->| ->] by (subst r; lia);
      subst m2 m1; repeat case_decide; lia. }
  assert (m2 = idx \/ key off h m2 < key off h idx) as Hlt.
  { subst m2 m1. repeat case_decide; lia. }
  destruct (Nat.eqb_spec m2 idx) as [Heq|Hne].
  - eexists. split; [apply evals_ret|]. split; [done|]. intros i Hi.
    destruct (decide (i / 2 = idx)%nat) as [Hi2|]; [|by apply Hord].
    rewrite Hi2. rewrite <- Heq at 1. by apply Hmin.
  - destruct Hm2 as [|[Hr Hm2]]; [done|]. destruct Hlt as [|Hlt]; [done|].
    destruct (swap_ok off h idx m2) as (h' & Hsw & Hra' & Hkey); try lia.
    rewrite Hsw. cbn. eexists. split; [apply evals_ret|]. cbn.
    split; [|subst r; lia]. split; [cbn; lia|]. split; [by eapply rearranged_trans|].
    cbn. apply (heap_except_swap idx m2 h h'); first [done | by split | lia].
Qed.

Lemma adjustDown_ok k :
  (1 <= k <= n)%nat -> heap_except off n k heap ->
  exists heap', evals (fun f => adjustDown f off k n heap) heap' /\
    rearranged off heap heap' /\ heap_ok off n heap'.
Proof using Hlen.
  intros Hk Hex.
  destruct (iter_total (fun _ => adjustDown_body off n) adjust_inv
              (fun h => rearranged off heap h /\ heap_ok off n h)
              (fun s => (n - fst s)%nat) adjustDown_body_ok (k, heap)) as (h' & [? ?] & Hev).
  - split; [done|]. split; [apply rearranged_refl|done].
  - exists h'. by split_and!.
Qed.
End AdjustDown.

(** Changing the root of a heap leaves at most the root out of order. *)
Lemma heap_except_root off n heap heap' :
  heap_ok off n heap -> (forall k, (2 <= k)%nat -> key off heap' k = key off heap k) ->
  heap_except off n 1 heap'.
Proof.
  intros H Hk. split; [|lia]. intros i Hi Hne. rewrite !Hk by lia. by apply H.
Qed.
