(* ===== verification/HeapExecutors.v ===== *)
(** * The OR and WEAKAND executors

    [OrQueryExecutor] and [WeakAndQueryExecutor] of
    src/aios/ha3/ha3/search/query_executor keep the position of every child in a
    heap of [QueryExecutorEntry] and only seek the child at the top. As in
    [MultiExecutors] the children are of an arbitrary type with [seek_laws]. *)

From stdpp Require Import base list numbers option tactics sets.
From Stdlib Require Import ZArith Lia ZifyNat.
From S2P Require Import Prelude QueryExecutor MultiExecutors ExecutorHeap.

#[local] Open Scope Z_scope.

(** [addQueryExecutors]: slot 0 is a dummy, child [i] gets an entry at [INVALID_DOCID]. *)
Definition initHeap (count : nat) : list QueryExecutorEntry :=
  mkEntry INVALID_DOCID 0 :: ((fun i => mkEntry INVALID_DOCID i) <$> seq 0 count).

(** Seek the child of the top entry and write the answer into the entry. *)
Definition seekTop {E : Type} (seekE : E -> docid_t -> res (docid_t * E)) (id : docid_t)
    (children : list E) (heap : list QueryExecutorEntry)
    : res (list E * list QueryExecutorEntry) :=
  let! top := deref (heap !! 1%nat) in
  let! (d, children') := with_child children (entryId top) (fun e => seekE e id) in
  Ok (children', <[1%nat := mkEntry d (entryId top)]> heap).

(** ** What the entries say about the children *)
Section Entries.
Context {E : Type} (seekE : nat -> E -> docid_t -> res (docid_t * E)).
Context (P : E -> docset -> docid_t -> Prop) (laws : seek_laws seekE P).
Context (Ds : list docset).

(** The child of an entry was last asked for something from [lo] on and stands at the
    entry's document. *)
Definition entry_at (children : list E) (lo : docid_t) (e : QueryExecutorEntry) : Prop :=
  exists c (Di : docset), children !! entryId e = Some c /\ Ds !! entryId e = Some Di /\
    positioned Di lo (docId e) /\ P c Di (Z.max 0 (docId e)).

(** One entry for every child. *)
Record entries_ok (children : list E) (lo : docid_t) (es : list QueryExecutorEntry) : Prop := {
  eo_length : length Ds = length children;
  eo_ids : entryId <$> es ≡ₚ seq 0 (length children);
  eo_at : Forall (entry_at children lo) es
}.

Lemma entries_ok_perm children lo es es' :
  entries_ok children lo es -> es' ≡ₚ es -> entries_ok children lo es'.
Proof.
  intros [l i a] Hp. split; [done| |by rewrite Hp].
  rewrite <- i. by apply fmap_Permutation.
Qed.

Lemma entries_ok_mono children lo lo' es :
  entries_ok children lo es -> lo <= lo' -> entries_ok children lo' es.
Proof.
  intros [l i a] Hlo. split; [done..|]. eapply Forall_impl; [exact a|].
  intros e (c & Di & ? & ? & ? & ?). exists c, Di. eauto with hv.
Qed.

Lemma entries_ok_NoDup children lo es :
  entries_ok children lo es -> NoDup (entryId <$> es).
Proof. intros [_ i _]. rewrite i. apply NoDup_seq. Qed.

Lemma entries_ok_length children lo es :
  entries_ok children lo es -> length es = length children.
Proof.
  intros [_ i _]. apply Permutation_length in i. by rewrite length_fmap, length_seq in i.
Qed.

(** Every child has an entry. *)
Lemma entries_ok_child children lo es i (Di : docset) :
  entries_ok children lo es -> Ds !! i = Some Di ->
  exists e, e ∈ es /\ entryId e = i /\ positioned Di lo (docId e).
Proof.
  intros [l ids a] Hi. assert (i ∈ entryId <$> es) as Hin.
  { rewrite ids. apply elem_of_seq. apply lookup_lt_Some in Hi. lia. }
  apply list_elem_of_fmap in Hin as (e & -> & He). exists e. split; [done|]. split; [done|].
  rewrite Forall_forall in a. destruct (a e He) as (c & Di' & ? & ? & ? & ?). by simplify_eq.
Qed.

(** Seeking the child of the first entry moves that entry to the first document of the
    child from [id] on and keeps what the other entries say. *)
Lemma seekTop_ok children id d0 top es :
  entries_ok children id (top :: es) -> docId top < id -> 0 <= id <= END_DOCID ->
  exists d children', id <= d /\
    evals (fun f => seekTop (seekE f) id children (d0 :: top :: es))
      (children', d0 :: mkEntry d (entryId top) :: es) /\
    entries_ok children' id (mkEntry d (entryId top) :: es).
Proof using laws.
  intros Hok Htop Hid. pose proof (entries_ok_NoDup _ _ _ Hok) as Hnd.
  destruct Hok as [Hl Hids Hat].
  apply Forall_cons_iff in Hat as [(c & Di & Hc & HDi & Hpos & HP) Hat].
  destruct (sl_seek _ _ laws c Di _ id HP ltac:(lia) Hid) as (d & c' & Hev & Hd & HP').
  exists d, (<[entryId top := c']> children). pose proof (first_ge_lo _ _ _ Hd). split; [done|]. split.
  - unfold seekTop; cbn. eapply evals_bind_ok; [|].
    + exact (with_child_evals children _ c (fun f e => seekE f e id) d c' Hc Hev).
    + reflexivity.
  - split; [by rewrite length_insert | by rewrite length_insert |]. constructor.
    + exists c', Di. cbn. rewrite list_lookup_insert_eq by eauto using lookup_lt_Some.
      split_and!; [done..| |].
      * apply first_ge_positioned; [by eapply sl_valid|lia|done].
      * eapply sl_mono; eauto. lia.
    + apply Forall_forall. intros e He. rewrite Forall_forall in Hat.
      destruct (Hat e He) as (ce & De & ? & ? & ? & ?). exists ce, De.
      rewrite list_lookup_insert_ne; [done|].
      intros Heq. cbn in Hnd. apply NoDup_cons in Hnd as [Hn _]. apply Hn.
      rewrite Heq. by apply list_elem_of_fmap_2.
Qed.

(** The entries of fresh children. *)
Lemma initHeap_ok children lo :
  length Ds = length children -> 0 <= lo ->
  (forall i c (Di : docset), children !! i = Some c -> Ds !! i = Some Di -> P c Di 0) ->
  exists d0 es, initHeap (length children) = d0 :: es /\ entries_ok children lo es /\
    Forall (fun e => docId e = INVALID_DOCID) es.
Proof using laws.
  intros Hl Hlo HP. eexists _, _. split; [reflexivity|]. split; [split|].
  - done.
  - rewrite <- list_fmap_compose. cbn. by rewrite list_fmap_id.
  - apply Forall_fmap, Forall_forall. intros i [_ Hi]%elem_of_seq.
    destruct (lookup_lt_is_Some_2 children i) as [c Hc]; [lia|].
    destruct (lookup_lt_is_Some_2 Ds i) as [Di HDi]; [lia|].
    exists c, Di. cbn. split_and!; [done..| |].
    + apply positioned_fresh; [by eapply sl_valid, HP|lia].
    + eapply sl_mono; [done|by eapply HP|done].
  - apply Forall_fmap, Forall_forall. done.
Qed.
End Entries.

(** The number of entries before [id], which a seek of the top decreases. *)
Definition behind (id : docid_t) (es : list QueryExecutorEntry) : nat :=
  length (filter (fun e => docId e < id) es).

Lemma behind_perm id es es' : es ≡ₚ es' -> behind id es = behind id es'.
Proof. intros H. apply Permutation_length. by rewrite H. Qed.

Lemma behind_top id d i top es :
  docId top < id -> id <= d -> (behind id (mkEntry d i :: es) < behind id (top :: es))%nat.
Proof.
  intros. unfold behind. rewrite !filter_cons. cbn.
  rewrite decide_False by lia. rewrite decide_True by lia. cbn. lia.
Qed.

Lemma behind_length id es : (behind id es <= length es)%nat.
Proof. apply length_filter. Qed.

(** ** OR *)

Module Or.

Section Ops.
Context {E : Type}.

(** One iteration of the [do ... while (id > _qeMinHeap[1].docId)] loop. *)
Definition doSeek_body (seekE : E -> docid_t -> res (docid_t * E)) (fuel count : nat)
    (id : docid_t) (s : list E * list QueryExecutorEntry)
    : res (list E * list QueryExecutorEntry + docid_t * list E * list QueryExecutorEntry) :=
  let '(children, heap) := s in
  let! (children', heap1) := seekTop seekE id children heap in
  let! heap2 := adjustDown fuel 0 1 count heap1 in
  let! top := deref (heap2 !! 1%nat) in
  if docId top <? id then Ok (inl (children', heap2))
  else Ok (inr (docId top, children', heap2)).

(** [doSeek]: seek the child that is furthest behind until none is before [id]. *)
Definition doSeek (seekE : nat -> E -> docid_t -> res (docid_t * E)) (fuel count : nat)
    (children : list E) (heap : list QueryExecutorEntry) (id : docid_t)
    : res (docid_t * list E * list QueryExecutorEntry) :=
  iter fuel (doSeek_body (seekE fuel) fuel count id) (children, heap).
End Ops.

(** The documents of an OR: those of any child. *)
Definition docs (Ds : list docset) : docset :=
  fun d => exists i (Di : docset), Ds !! i = Some Di /\ Di d.

Section Correct.
Context {E : Type} (seekE : nat -> E -> docid_t -> res (docid_t * E)).
Context (P : E -> docset -> docid_t -> Prop) (laws : seek_laws seekE P).
Context (Ds : list docset).

(** The state between two calls: a heap with one entry per child. *)
Record heap_at (children : list E) (lo : docid_t) (heap : list QueryExecutorEntry) : Prop := {
  ha_shape : exists d0 es, heap = d0 :: es /\ entries_ok P Ds children lo es;
  ha_heap : heap_ok 0 (length children) heap;
  ha_nonempty : children <> []
}.

Definition root (heap : list QueryExecutorEntry) : docid_t := key 0 heap 1.

Lemma root_cons d0 top es : root (d0 :: top :: es) = docId top.
Proof. done. Qed.

Lemma heap_at_cons children lo heap :
  heap_at children lo heap ->
  exists d0 top es, heap = d0 :: top :: es /\ entries_ok P Ds children lo (top :: es).
Proof.
  intros [(d0 & es & -> & Hok) _ Hne]. pose proof (entries_ok_length _ _ _ _ _ Hok).
  destruct es as [|top es]; [by destruct children|]. by exists d0, top, es.
Qed.

Lemma or_heap_at_mono children lo lo' heap :
  heap_at children lo heap -> lo <= lo' -> heap_at children lo' heap.
Proof.
  intros [(d0 & es & -> & Hok) Hh Hne] Hlo. split; [|done..].
  exists d0, es. split; [done|]. by eapply entries_ok_mono.
Qed.

Lemma root_min children lo d0 es e :
  heap_at children lo (d0 :: es) -> e ∈ es -> root (d0 :: es) <= docId e.
Proof.
  intros Hat [i Hi]%list_elem_of_lookup.
  destruct (ha_shape _ _ _ Hat) as (? & ? & [= <- <-] & Hok).
  pose proof (entries_ok_length _ _ _ _ _ Hok) as Hlen. pose proof (lookup_lt_Some _ _ _ Hi).
  etrans; [apply (heap_root_min 0 (length children) _ (S i)); [apply Hat|lia]|].
  unfold key. cbn [Nat.add]. change ((d0 :: es) !!! S i) with (es !!! i).
  by rewrite (list_lookup_total_correct _ _ _ Hi).
Qed.

(** All entries at or after [id]: the root is the first document of the union. *)
Lemma root_first_ge children id heap :
  heap_at children id heap -> 0 <= id <= root heap -> first_ge (docs Ds) id (root heap).
Proof.
  intros Hat Hid. destruct (heap_at_cons _ _ _ Hat) as (d0 & top & es & -> & Hok).
  pose proof (eo_at _ _ _ _ _ Hok) as Ha.
  apply Forall_cons_iff in Ha as [(c & Di & _ & HDi & Hpos & _) _].
  pose proof (pos_range _ _ _ Hpos) as Hr. unfold root, key in *. cbn in *.
  split; [lia | lia | |].
  - intros Hend. exists (entryId top), Di. split; [done|]. apply (pos_in _ _ _ Hpos). lia.
  - intros x Hx (i & Dx & HDx & Hin).
    destruct (entries_ok_child _ _ _ _ _ i Dx Hok HDx) as (e & He & _ & Hpe).
    pose proof (root_min _ _ _ _ _ Hat He) as Hle. unfold root, key in Hle. cbn in Hle.
    apply (pos_gap _ _ _ Hpe x); [lia|done].
Qed.

Lemma or_heap_at_seek children id heap :
  heap_at children id heap -> root heap < id -> 0 <= id <= END_DOCID ->
  exists children' heap1 heap2,
    evals (fun f => seekTop (seekE f) id children heap) (children', heap1) /\
    evals (fun f => adjustDown f 0 1 (length children) heap1) heap2 /\
    heap_at children' id heap2 /\ length children' = length children /\
    (behind id (tail heap2) < behind id (tail heap))%nat.
Proof using laws.
  intros Hat Hroot Hid. pose proof (ha_heap _ _ _ Hat) as Hheap.
  destruct (heap_at_cons _ _ _ Hat) as (d0 & top & es & -> & Hok).
  pose proof (entries_ok_length _ _ _ _ _ Hok) as Hlen. cbn in Hlen.
  destruct (seekTop_ok seekE P laws Ds children id d0 top es Hok Hroot Hid)
    as (d & cs' & Hd & Hev & Hok').
  set (heap1 := d0 :: mkEntry d (entryId top) :: es) in *.
  pose proof (entries_ok_length _ _ _ _ _ Hok') as Hlen'. cbn in Hlen'.
  destruct (adjustDown_ok 0 (length children) heap1 ltac:(subst heap1; cbn; lia) 1)
    as (heap2 & Hadj & Hra & Hh2); [lia | |].
  { eapply heap_except_root; [exact Hheap|]. intros [|[|k]] Hk; [lia..|done]. }
  assert (exists es2, heap2 = d0 :: es2) as [es2 ->].
  { pose proof (ra_prefix _ _ _ Hra 0 ltac:(lia)) as H0. destruct heap2; [done|].
    cbn in H0. simplify_eq. eauto. }
  pose proof (ra_perm _ _ _ Hra) as Hp. apply Permutation_cons_inv in Hp.
  exists cs', heap1, (d0 :: es2). split; [done|]. split; [done|]. split; [split|].
  - exists d0, es2. split; [done|]. by eapply entries_ok_perm.
  - replace (length cs') with (length children) by lia. done.
  - intros ->. cbn in Hlen'. lia.
  - split; [lia|]. cbn [tail]. rewrite (behind_perm id _ _ Hp). by apply behind_top.
Qed.

Definition loop_inv (n : nat) (id : docid_t) (s : list E * list QueryExecutorEntry) : Prop :=
  heap_at (fst s) id (snd s) /\ root (snd s) < id /\ length (fst s) = n.

Definition loop_post (n : nat) (id : docid_t)
    (r : docid_t * list E * list QueryExecutorEntry) : Prop :=
  let '(d, children, heap) := r in
  heap_at children id heap /\ d = root heap /\ id <= d /\ length children = n.

Lemma or_doSeek_body_ok n id s :
  0 <= id <= END_DOCID -> loop_inv n id s ->
  exists x, evals (fun f => doSeek_body (seekE f) f n id s) x /\
    match x with
    | inl s' => loop_inv n id s' /\ (behind id (tail (snd s')) < behind id (tail (snd s)))%nat
    | inr r => loop_post n id r
    end.
Proof using laws.
  intros Hid. destruct s as [cs heap]. intros (Hat & Hroot & Hn). cbn in *.
  destruct (or_heap_at_seek cs id heap Hat Hroot Hid)
    as (cs' & h1 & h2 & Hs & Ha & Hat2 & Hl & Hb).
  destruct (heap_at_cons _ _ _ Hat2) as (d0 & top & es & -> & _).
  rewrite Hn in *.
  exists (if docId top <? id then inl (cs', d0 :: top :: es) else inr (docId top, cs', d0 :: top :: es)).
  split.
  { unfold doSeek_body. eapply evals_bind; [exact Hs|]. eapply evals_bind_ok; [exact Ha|]. cbn.
    by destruct (_ <? _). }
  destruct (Z.ltb_spec (docId top) id).
  - split; [|done]. split; [done|]. cbn. by split.
  - split; [done|]. split; [done|]. by split.
Qed.

(** OR finds the first document of the union; every child is then at or after it. *)
Lemma or_doSeek_ok children heap id lo :
  heap_at children lo heap -> lo <= id -> root heap < id -> 0 <= id <= END_DOCID ->
  exists d children' heap',
    evals (fun f => doSeek seekE f (length children) children heap id) (d, children', heap') /\
    first_ge (docs Ds) id d /\ heap_at children' d heap' /\ root heap' = d /\
    length children' = length children.
Proof using laws.
  intros Hat Hlo Hroot Hid.
  destruct (iter_total (fun f => doSeek_body (seekE f) f (length children) id)
              (loop_inv (length children) id) (loop_post (length children) id)
              (fun s => behind id (tail (snd s)))
              (fun s => or_doSeek_body_ok (length children) id s Hid) (children, heap))
    as ([[d cs'] h'] & (Hat' & -> & Hd & Hn) & Hev).
  { split; [|done]. by eapply or_heap_at_mono. }
  exists (root h'), cs', h'. split; [done|]. split; [|split; [|done]].
  - apply (root_first_ge cs'); [done|lia].
  - by eapply or_heap_at_mono.
Qed.
End Correct.
End Or.

(** ** WEAKAND *)

Module WeakAnd.

(** One step of the [for] loop of [doNthElement]. *)
Definition bubble_body (minShouldMatch : nat) (s : nat * list QueryExecutorEntry)
    : res (nat * list QueryExecutorEntry + nat * list QueryExecutorEntry) :=
  let '(i, heap) := s in
  if (i <? minShouldMatch)%nat then
    let! x := deref (heap !! i) in
    let! y := deref (heap !! (i + 1)%nat) in
    if docId y <? docId x then
      let! heap' := swap heap i (i + 1) in
      Ok (inl ((i + 1)%nat, heap'))
    else Ok (inr (i, heap))
  else Ok (inr (i, heap)).

(** [doNthElement]: the first [minShouldMatch] entries are sorted and the others form a
    heap below the last of them; put a changed first entry back in its place. *)
Definition doNthElement (fuel minShouldMatch count : nat) (heap : list QueryExecutorEntry)
    : res (list QueryExecutorEntry) :=
  let! (i, heap1) := iter fuel (bubble_body minShouldMatch) (1%nat, heap) in
  if (i <? minShouldMatch)%nat then Ok heap1
  else adjustDown fuel (minShouldMatch - 1) 1 (count - minShouldMatch + 1) heap1.

Section Ops.
Context {E : Type}.

(** One iteration of the [do ... while (END_DOCID != id)] loop of [doSeek]. *)
Definition doSeek_body (seekE : E -> docid_t -> res (docid_t * E))
    (fuel minShouldMatch count : nat) (s : docid_t * list E * list QueryExecutorEntry)
    : res (docid_t * list E * list QueryExecutorEntry +
           docid_t * list E * list QueryExecutorEntry) :=
  let '(id, children, heap) := s in
  let! (children', heap1) := seekTop seekE id children heap in
  let! heap2 := doNthElement fuel minShouldMatch count heap1 in
  let! first := deref (heap2 !! 1%nat) in
  if docId first <? id then
    (* continue; the loop condition is tested *)
    if id =? END_DOCID then Ok (inr (id, children', heap2))
    else Ok (inl (id, children', heap2))
  else
    let! nth := deref (heap2 !! minShouldMatch) in
    if docId first =? docId nth then Ok (inr (docId nth, children', heap2))
    else if docId nth =? END_DOCID then Ok (inr (docId nth, children', heap2))
    else Ok (inl (docId nth, children', heap2)).

(** [doSeek]; at the end [moveToEnd] moves every child to the end. *)
Definition doSeek (seekE : nat -> E -> docid_t -> res (docid_t * E)) (moveToEndE : E -> E)
    (fuel minShouldMatch count : nat) (children : list E) (heap : list QueryExecutorEntry)
    (id : docid_t) : res (docid_t * list E * list QueryExecutorEntry) :=
  let! (id', children', heap') :=
    iter fuel (doSeek_body (seekE fuel) fuel minShouldMatch count) (id, children, heap) in
  if id' =? END_DOCID then Ok (id', moveToEndE <$> children', heap')
  else Ok (id', children', heap').
End Ops.

(** The documents of a WEAKAND: those of at least [m] children. *)
Definition docs (Ds : list docset) (m : nat) : docset :=
  fun d => exists l : list nat, NoDup l /\ length l = m /\
    forall i, i ∈ l -> exists Di : docset, Ds !! i = Some Di /\ Di d.

(** The order of the entries: slots [1 .. m] sorted, slots [m .. n] a heap. *)
Record nth_ok (m n : nat) (heap : list QueryExecutorEntry) : Prop := {
  no_sorted i j : (1 <= i <= j)%nat -> (j <= m)%nat -> key 0 heap i <= key 0 heap j;
  no_heap : heap_ok (m - 1) (n - m + 1) heap
}.

Lemma key_off off heap i : key off heap i = key 0 heap (off + i).
Proof. done. Qed.

(** Slot [m] is the [m]-th smallest. *)
Lemma nth_ok_above m n heap j :
  nth_ok m n heap -> (1 <= m <= j)%nat -> (j <= n)%nat -> key 0 heap m <= key 0 heap j.
Proof.
  intros [_ Hh] Hj Hn. pose proof (heap_root_min _ _ _ (j - m + 1) Hh ltac:(lia)) as Hr.
  rewrite !(key_off (m - 1)) in Hr. by replace (m - 1 + 1)%nat with m in Hr by lia;
    replace (m - 1 + (j - m + 1))%nat with j in Hr by lia.
Qed.

Lemma nth_ok_first m n heap j :
  nth_ok m n heap -> (1 <= m <= n)%nat -> (1 <= j <= n)%nat -> key 0 heap 1 <= key 0 heap j.
Proof.
  intros H ??. destruct (decide (j <= m)%nat); [apply H; lia|].
  etrans; [apply (no_sorted _ _ _ H 1 m); lia|]. apply (nth_ok_above m n); [done|lia..].
Qed.

(** A slot above [off] holds, after a rearrangement, an entry that was above [off]. *)
Lemma rearranged_above off h h' j :
  rearranged off h h' -> (off < j < length h)%nat ->
  exists j', (off < j' < length h)%nat /\ h' !!! j = h !!! j'.
Proof.
  intros Hra Hj. pose proof (rearranged_length _ _ _ Hra) as Hlen.
  assert (take (S off) h' = take (S off) h) as Ht.
  { apply list_eq. intros i. destruct (decide (i < S off)%nat) as [Hi|Hi].
    - rewrite !lookup_take_lt by done. apply Hra. lia.
    - rewrite !lookup_take_ge by lia. done. }
  assert (drop (S off) h' ≡ₚ drop (S off) h) as Hd.
  { apply (Permutation_app_inv_l (take (S off) h)). rewrite <- Ht at 1.
    rewrite !take_drop. apply Hra. }
  assert (h' !!! j ∈ drop (S off) h') as Hin.
  { apply list_elem_of_lookup. exists (j - S off)%nat. rewrite lookup_drop.
    replace (S off + (j - S off))%nat with j by lia. apply lookup_total_of_lt. lia. }
  rewrite Hd in Hin. apply list_elem_of_lookup in Hin as [k Hk]. rewrite lookup_drop in Hk.
  pose proof (lookup_lt_Some _ _ _ Hk). exists (S off + k)%nat. split; [lia|].
  symmetry. by apply list_lookup_total_correct.
Qed.

Section NthElement.
Context (m n : nat) (heap : list QueryExecutorEntry).
Context (Hm : (1 <= m <= n)%nat) (Hlen : length heap = S n).

(** The moving entry is in slot [i]; everything else is in order. *)
Record bubble_inv (s : nat * list QueryExecutorEntry) : Prop := {
  bi_range : (1 <= fst s <= m)%nat;
  bi_ra : rearranged 0 heap (snd s);
  bi_sorted a b : (1 <= a <= b)%nat -> (b <= m)%nat -> a <> fst s -> b <> fst s ->
    key 0 (snd s) a <= key 0 (snd s) b;
  bi_before a : (1 <= a < fst s)%nat -> key 0 (snd s) a <= key 0 (snd s) (fst s);
  bi_heap : (fst s < m)%nat -> heap_ok (m - 1) (n - m + 1) (snd s);
  bi_last : fst s = m -> heap_except (m - 1) (n - m + 1) 1 (snd s) /\
    forall a j, (1 <= a < m)%nat -> (m <= j <= n)%nat -> key 0 (snd s) a <= key 0 (snd s) j
}.

Definition bubble_post (s : nat * list QueryExecutorEntry) : Prop :=
  ((fst s < m)%nat /\ rearranged 0 heap (snd s) /\ nth_ok m n (snd s)) \/
  (fst s = m /\ bubble_inv s).

Lemma bubble_step i h h' :
  bubble_inv (i, h) -> (i < m)%nat -> key 0 h (i + 1) < key 0 h i -> rearranged 0 h h' ->
  (forall k, key 0 h' k = if decide (k = i) then key 0 h (i + 1)
                          else if decide (k = i + 1)%nat then key 0 h i else key 0 h k) ->
  bubble_inv ((i + 1)%nat, h').
Proof.
  intros [Hr Hra Hs Hb Hh _] Him Hlt Hra' Hk. cbn in *. specialize (Hh Him).
  assert (Hsub : forall j, (m < j <= n)%nat -> key 0 h m <= key 0 h j).
  { intros j Hj. pose proof (heap_root_min _ _ _ (j - m + 1) Hh ltac:(lia)) as Hr'.
    rewrite !(key_off (m - 1)) in Hr'. by replace (m - 1 + 1)%nat with m in Hr' by lia;
      replace (m - 1 + (j - m + 1))%nat with j in Hr' by lia. }
  split; cbn.
  - lia.
  - by eapply rearranged_trans.
  - intros a b ????. rewrite !Hk. repeat case_decide; try lia; apply Hs; lia.
  - intros a Ha. rewrite !Hk. repeat case_decide; try lia. apply Hb. lia.
  - intros Hi1 j Hj. rewrite !(key_off (m - 1)), !Hk. repeat case_decide; try lia.
    rewrite <- !(key_off (m - 1)). by apply Hh.
  - intros Hi1. split.
    + eapply heap_except_root; [exact Hh|]. intros k Hk1. rewrite !(key_off (m - 1)), Hk.
      repeat case_decide; lia.
    + intros a j Ha Hj. assert (i = m - 1)%nat by lia.
      rewrite !Hk. replace (i + 1)%nat with m in * by lia.
      repeat case_decide; try lia;
        first [ apply Hsub; lia | apply Hb; lia
              | etrans; [apply (Hs a m); lia|]; apply Hsub; lia ].
Qed.

Lemma bubble_body_ok s :
  bubble_inv s -> exists x, evals (fun _ => bubble_body m s) x /\
    match x with
    | inl s' => bubble_inv s' /\ (m - fst s' < m - fst s)%nat
    | inr r => bubble_post r
    end.
Proof using Hm Hlen.
  destruct s as [i h]. intros Hinv. pose proof Hinv as [Hr Hra Hs Hb Hh _]. cbn [fst snd] in *.
  pose proof (rearranged_length _ _ _ Hra) as Hl.
  unfold bubble_body. destruct (Nat.ltb_spec i m) as [Him|Him]; cycle 1.
  { eexists. split; [apply evals_ret|]. right. cbn. split; [lia|done]. }
  rewrite (lookup_total_of_lt h i) by lia. rewrite (lookup_total_of_lt h (i + 1)) by lia.
  cbn [deref res_bind].
  destruct (Z.ltb_spec (docId (h !!! (i + 1)%nat)) (docId (h !!! i))) as [Hlt|Hge].
  - destruct (swap_ok 0 h i (i + 1)) as (h' & Hsw & Hra' & Hk); try lia.
    cbn [Nat.add] in Hsw. rewrite Hsw. cbn. eexists. split; [apply evals_ret|].
    split; [|cbn; lia]. by eapply bubble_step.
  - eexists. split; [apply evals_ret|]. left. cbn. split; [done|]. split; [done|].
    split; [|by apply Hh]. intros a b Ha Hbm.
    assert (key 0 h i <= key 0 h (i + 1)) as Hi1 by exact Hge.
    destruct (decide (a = i)) as [->|]; [destruct (decide (b = i)) as [->|]; [lia|]|].
    + etrans; [exact Hi1|]. apply Hs; lia.
    + destruct (decide (b = i)) as [->|]; [apply Hb; lia|]. apply Hs; lia.
Qed.

Lemma doNthElement_ok :
  bubble_inv (1%nat, heap) ->
  exists heap', evals (fun f => doNthElement f m n heap) heap' /\
    rearranged 0 heap heap' /\ nth_ok m n heap'.
Proof using Hm Hlen.
  intros Hinv.
  destruct (iter_total (fun _ => bubble_body m) bubble_inv bubble_post
              (fun s => (m - fst s)%nat) bubble_body_ok _ Hinv)
    as ([i h] & [(Hi & Hra & Hok)|[Hi Hinv']] & Hev); cbn in Hi.
  - exists h. split; [|done]. unfold doNthElement. eapply evals_bind; [exact Hev|]. cbv beta iota.
    rewrite (proj2 (Nat.ltb_lt _ _) Hi). apply evals_ret.
  - subst i. pose proof Hinv' as [_ Hra Hs Hb _ Hlast]. cbn in *.
    destruct (Hlast eq_refl) as [Hex Habove].
    pose proof (rearranged_length _ _ _ Hra) as Hl.
    destruct (adjustDown_ok (m - 1) (n - m + 1) h ltac:(lia) 1 ltac:(lia) Hex)
      as (h' & Hadj & Hra' & Hh).
    assert (forall a, (a < m)%nat -> key 0 h' a = key 0 h a) as Hpre.
    { intros a Ha. unfold key. cbn. f_equal. rewrite !list_lookup_total_alt.
      by rewrite (ra_prefix _ _ _ Hra') by lia. }
    exists h'. split; [|split; [|split; [|done]]].
    + unfold doNthElement. eapply evals_bind; [exact Hev|]. cbv beta iota.
      rewrite (proj2 (Nat.ltb_ge m m)) by lia. exact Hadj.
    + destruct Hra as [p1 q1], Hra' as [p2 q2]. split; [by etrans|].
      intros i Hi. rewrite q2, q1 by lia. done.
    + intros a b Hab Hbm. destruct (decide (b = m)) as [->|].
      * destruct (decide (a = m)) as [->|]; [lia|].
        destruct (rearranged_above (m - 1) h h' m Hra') as (j & Hj & Hjm); [lia|].
        rewrite Hpre by lia. unfold key at 2. cbn [Nat.add]. rewrite Hjm.
        apply Habove; lia.
      * rewrite !Hpre by lia. apply Hs; lia.
Qed.
End NthElement.

Section Correct.
Context {E : Type} (seekE : nat -> E -> docid_t -> res (docid_t * E)).
Context (P : E -> docset -> docid_t -> Prop) (laws : seek_laws seekE P).
Context (Ds : list docset) (m : nat).

(** The state between two calls. *)
Record heap_at (children : list E) (lo : docid_t) (heap : list QueryExecutorEntry) : Prop := {
  ha_shape : exists d0 es, heap = d0 :: es /\ entries_ok P Ds children lo es;
  ha_nth : nth_ok m (length children) heap;
  ha_range : (1 <= m <= length children)%nat
}.

Definition first (heap : list QueryExecutorEntry) : docid_t := key 0 heap 1.
Definition nth (heap : list QueryExecutorEntry) : docid_t := key 0 heap m.

Lemma weakAnd_heap_at_mono children lo lo' heap :
  heap_at children lo heap -> lo <= lo' -> heap_at children lo' heap.
Proof.
  intros [(d0 & es & -> & Hok) Hn Hr] Hlo. split; [|done..].
  exists d0, es. split; [done|]. by eapply entries_ok_mono.
Qed.

Lemma key_entry d0 es p e : es !! p = Some e -> key 0 (d0 :: es) (S p) = docId e.
Proof.
  intros He. unfold key. change ((d0 :: es) !!! (0 + S p)%nat) with (es !!! p).
  by rewrite (list_lookup_total_correct _ _ _ He).
Qed.

Lemma weakAnd_heap_at_seek children id heap :
  heap_at children id heap -> first heap < id -> 0 <= id <= END_DOCID ->
  exists children' heap1 heap2,
    evals (fun f => seekTop (seekE f) id children heap) (children', heap1) /\
    evals (fun f => doNthElement f m (length children) heap1) heap2 /\
    heap_at children' id heap2 /\ length children' = length children /\
    (behind id (tail heap2) < behind id (tail heap))%nat.
Proof using laws.
  intros [(d0 & es & -> & Hok) Hnth Hr] Hfirst Hid.
  pose proof (entries_ok_length _ _ _ _ _ Hok) as Hlen.
  destruct es as [|top es]; [cbn in Hlen; lia|].
  destruct (seekTop_ok seekE P laws Ds children id d0 top es Hok Hfirst Hid)
    as (d & cs' & Hd & Hev & Hok').
  set (heap1 := d0 :: mkEntry d (entryId top) :: es) in *.
  pose proof (entries_ok_length _ _ _ _ _ Hok') as Hlen'. cbn in Hlen, Hlen'.
  assert (forall k, (2 <= k)%nat -> key 0 heap1 k = key 0 (d0 :: top :: es) k) as Hk.
  { intros [|[|k]] ?; [lia..|done]. }
  destruct (doNthElement_ok m (length children) heap1) as (heap2 & Hn & Hra & Hok2);
    [done | subst heap1; cbn; lia | |].
  { split; cbn [fst snd].
    - lia.
    - apply rearranged_refl.
    - intros a b ????. rewrite !Hk by lia. apply Hnth; lia.
    - lia.
    - intros Hm1 i Hi. rewrite !(key_off (m - 1)), !Hk by lia. rewrite <- !(key_off (m - 1)).
      by apply (no_heap _ _ _ Hnth).
    - intros Hm1. split; [|lia]. eapply heap_except_root; [apply Hnth|].
      intros k Hk2. rewrite !(key_off (m - 1)). apply Hk. lia. }
  assert (exists es2, heap2 = d0 :: es2) as [es2 ->].
  { pose proof (ra_prefix _ _ _ Hra 0 ltac:(lia)) as H0. destruct heap2; [done|].
    cbn in H0. simplify_eq. eauto. }
  pose proof (ra_perm _ _ _ Hra) as Hp. apply Permutation_cons_inv in Hp.
  exists cs', heap1, (d0 :: es2). split; [done|]. split; [done|]. split; [split|].
  - exists d0, es2. split; [done|]. by eapply entries_ok_perm.
  - by replace (length cs') with (length children) by lia.
  - lia.
  - split; [lia|]. cbn [tail]. rewrite (behind_perm id _ _ Hp). by apply behind_top.
Qed.

(** Before the [m]-th smallest entry fewer than [m] children have documents. *)
Lemma nth_gap children id heap :
  heap_at children id heap -> gap (docs Ds m) id (nth heap).
Proof.
  intros [(d0 & es & -> & Hok) Hnth Hr] x Hx (l & Hnd & Hl & Hin).
  pose proof (entries_ok_length _ _ _ _ _ Hok) as Hlen.
  assert (l ⊆ entryId <$> take (m - 1) es) as Hsub.
  { intros i Hi. destruct (Hin i Hi) as (Di & HDi & Hdx).
    destruct (entries_ok_child _ _ _ _ _ i Di Hok HDi) as (e & He & <- & Hpe).
    assert (docId e <= x) as Hle.
    { destruct (Z.le_gt_cases (docId e) x); [done|]. exfalso.
      apply (pos_gap _ _ _ Hpe x); [lia|done]. }
    apply list_elem_of_lookup in He as [p Hp]. apply list_elem_of_fmap_2.
    apply list_elem_of_lookup. exists p. rewrite lookup_take_lt; [done|].
    destruct (decide (p < m - 1)%nat); [done|]. exfalso.
    pose proof (lookup_lt_Some _ _ _ Hp).
    pose proof (nth_ok_above m _ _ (S p) Hnth ltac:(lia) ltac:(lia)) as Ha.
    rewrite (key_entry _ _ _ _ Hp) in Ha. unfold nth in Hx. lia. }
  apply (NoDup_submseteq _ _ Hnd), submseteq_length in Hsub.
  rewrite length_fmap, length_take in Hsub. lia.
Qed.

(** When the first [m] entries agree, [m] children have that document. *)
Lemma nth_match children id heap :
  heap_at children id heap -> 0 <= id -> id <= first heap -> first heap = nth heap ->
  nth heap < END_DOCID -> docs Ds m (nth heap).
Proof.
  intros [(d0 & es & -> & Hok) Hnth Hr] Hid Hf Heq Hend.
  pose proof (entries_ok_length _ _ _ _ _ Hok) as Hlen.
  exists (entryId <$> take m es). split; [|split].
  - rewrite fmap_take. eapply sublist_NoDup; [by eapply entries_ok_NoDup|].
    apply sublist_take.
  - rewrite length_fmap, length_take. lia.
  - intros i (e & -> & He)%list_elem_of_fmap.
    apply list_elem_of_lookup in He as [p Hp].
    apply lookup_take_Some in Hp as [Hp Hpm].
    pose proof (eo_at _ _ _ _ _ Hok) as Hat. rewrite Forall_forall in Hat.
    destruct (Hat e ltac:(by eapply list_elem_of_lookup_2)) as (c & Di & _ & HDi & Hpos & _).
    exists Di. split; [done|].
    assert (docId e = nth (d0 :: es)) as Hde.
    { rewrite <- (key_entry d0 es p e Hp).
      pose proof (no_sorted _ _ _ Hnth 1 (S p) ltac:(lia) ltac:(lia)).
      pose proof (no_sorted _ _ _ Hnth (S p) m ltac:(lia) ltac:(lia)).
      unfold first, nth in *. lia. }
    rewrite <- Hde. apply (pos_in _ _ _ Hpos). lia.
Qed.

Definition loop_inv (n : nat) (id : docid_t) (s : docid_t * list E * list QueryExecutorEntry)
    : Prop :=
  let '(id', children, heap) := s in
  heap_at children id' heap /\ first heap < id' /\ 0 <= id <= id' /\ id' <= END_DOCID /\
  gap (docs Ds m) id id' /\ length children = n.

Definition loop_post (n : nat) (id : docid_t) (s : docid_t * list E * list QueryExecutorEntry)
    : Prop :=
  let '(d, children, heap) := s in
  first_ge (docs Ds m) id d /\ length children = n /\
  (d < END_DOCID -> heap_at children d heap /\ first heap = d).

Definition loop_measure (n : nat) (s : docid_t * list E * list QueryExecutorEntry) : nat :=
  let '(id', _, heap) := s in
  (Z.to_nat (END_DOCID - id') * (n + 1) + behind id' (tail heap))%nat.

Lemma weakAnd_doSeek_body_ok n id s :
  loop_inv n id s ->
  exists x, evals (fun f => doSeek_body (seekE f) f m n s) x /\
    match x with
    | inl s' => loop_inv n id s' /\ (loop_measure n s' < loop_measure n s)%nat
    | inr r => loop_post n id r
    end.
Proof using laws.
  destruct s as [[id' cs] heap]. intros (Hat & Hf & Hid & Hend & Hg & Hn).
  destruct (weakAnd_heap_at_seek cs id' heap Hat Hf ltac:(lia))
    as (cs' & h1 & h2 & Hs & Hd & Hat2 & Hl & Hb). rewrite Hn in *.
  pose proof (nth_gap _ _ _ Hat2) as Hgap.
  pose proof (nth_match _ _ _ Hat2 ltac:(lia)) as Hmatch.
  pose proof Hat2 as [(d0 & es & Heq & Hok) Hnth Hr].
  pose proof (entries_ok_length _ _ _ _ _ Hok) as Hlen.
  assert (length h2 = S n) as Hlh by (rewrite Heq; cbn; lia).
  set (out := if first h2 <? id' then
       if id' =? END_DOCID then inr (id', cs', h2) else inl (id', cs', h2)
     else if first h2 =? nth h2 then inr (nth h2, cs', h2)
     else if nth h2 =? END_DOCID then inr (nth h2, cs', h2)
     else inl (nth h2, cs', h2)).
  assert (evals (fun f => doSeek_body (seekE f) f m n (id', cs, heap)) out) as Hev.
  { unfold doSeek_body. eapply evals_bind; [exact Hs|]. eapply evals_bind_ok; [exact Hd|].
    rewrite (lookup_total_of_lt h2 1) by lia. rewrite (lookup_total_of_lt h2 m) by lia.
    cbn [deref res_bind]. subst out. unfold first, nth, key. cbn [Nat.add].
    by repeat case_match. }
  assert (behind (nth h2) (tail h2) <= n)%nat as Hbn.
  { rewrite behind_length, Heq. cbn. lia. }
  exists out. split; [exact Hev|]. subst out.
  destruct (Z.ltb_spec (first h2) id') as [Hlt|Hge].
  { destruct (Z.eqb_spec id' END_DOCID) as [->|Hne].
    - split; [apply first_ge_END; [done|lia]|]. split; [lia|lia].
    - split; [|cbn; lia]. split_and!; first [done | lia]. }
  assert (first h2 <= nth h2) as Hfn by (apply Hnth; lia).
  assert (gap (docs Ds m) id (nth h2)) as Hg' by (eapply gap_join; eauto).
  assert (nth h2 <= END_DOCID) as Hne.
  { destruct (lookup_lt_is_Some_2 es (m - 1)) as [e He]; [lia|].
    pose proof (eo_at _ _ _ _ _ Hok) as Ha. rewrite Forall_forall in Ha.
    destruct (Ha e ltac:(by eapply list_elem_of_lookup_2)) as (_ & Di & _ & _ & Hpos & _).
    unfold nth. rewrite Heq. replace m with (S (m - 1)) by lia.
    rewrite (key_entry _ _ _ _ He). apply Hpos. }
  destruct (Z.eqb_spec (first h2) (nth h2)) as [Hfe|Hfe].
  { split; [|split; [lia|]].
    - split; [lia..| |done]. intros. apply Hmatch; lia.
    - intros _. split; [eapply weakAnd_heap_at_mono; [done|lia]|done]. }
  destruct (Z.eqb_spec (nth h2) END_DOCID) as [Hnth_end|Hnend].
  - rewrite Hnth_end in *. split; [apply first_ge_END; [done|lia]|]. split; [lia|lia].
  - split.
    + split_and!; first [lia | done | eapply weakAnd_heap_at_mono; [done|lia]].
    + cbn. nia.
Qed.

Context (moveToEndE : E -> E).

(** WEAKAND finds the first document that at least [m] children have. *)
Lemma weakAnd_doSeek_ok children heap id lo :
  heap_at children lo heap -> lo <= id -> first heap < id -> 0 <= id <= END_DOCID ->
  exists d children' heap',
    evals (fun f => doSeek seekE moveToEndE f m (length children) children heap id)
      (d, children', heap') /\
    first_ge (docs Ds m) id d /\
    (d < END_DOCID -> heap_at children' d heap' /\ first heap' = d) /\
    length children' = length children.
Proof using laws.
  intros Hat Hlo Hf Hid.
  destruct (iter_total (fun f => doSeek_body (seekE f) f m (length children))
              (loop_inv (length children) id) (loop_post (length children) id)
              (loop_measure (length children))
              (weakAnd_doSeek_body_ok (length children) id) (id, children, heap))
    as ([[d cs'] h'] & (Hd & Hl & Hp) & Hev).
  { split_and!; [by eapply weakAnd_heap_at_mono | done | lia..| apply gap_empty; lia | done]. }
  destruct (Z.eqb_spec d END_DOCID) as [->|Hne].
  - do 3 eexists. split; [eapply evals_bind_ok; [exact Hev|]; cbn; reflexivity|].
    rewrite length_fmap. split; [done|]. split; [lia|done].
  - exists d, cs', h'. split; [eapply evals_bind_ok; [exact Hev|]; cbv beta iota|done].
    by rewrite (proj2 (Z.eqb_neq _ _) Hne).
Qed.
End Correct.
End WeakAnd.
