(* ===== verification/ExecutorTree.v ===== *)
(** * Executor trees

    The leaf executors of src/aios/ha3/ha3/search/query_executor ([TermQueryExecutor],
    [BitmapTermQueryExecutor], [RangeTermQueryExecutor], [DocIdsQueryExecutor],
    [RangeQueryExecutor], [PKQueryExecutor]), the tree of executors a query is
    turned into, and the virtual operations of [QueryExecutor] on that tree.
    Inverted index iterators come in through the interface [PostingIterator]. *)

From stdpp Require Import base list numbers option tactics sorting.
From Stdlib Require Import ZArith Lia ZifyNat.
From S2P Require Import Prelude QueryExecutor MultiExecutors ExecutorHeap HeapExecutors.

#[local] Open Scope Z_scope.

(** ** What the inverted index provides *)

(** [indexlib::index::PostingIterator]: a forward cursor over the documents of a term. *)
Class PostingIterator (I : Type) := {
  SeekDoc : I -> docid_t -> res (docid_t * I);
  Clone : I -> I
}.

(** [indexlib::index::BitmapPostingIterator] can also test a document. *)
Class BitmapPostingIterator (B : Type) `{PostingIterator B} := {
  Test : B -> docid_t -> res (bool * B)
}.

(** [indexlib::index::SeekAndFilterIterator], the iterator of a range term: the document filter
    that may be tested instead of seeking (null is [None]), and the number of seeks so far. *)
Class SeekAndFilterIterator (I : Type) `{PostingIterator I} := {
  GetDocValueFilter : I -> option DocValueFilter;
  GetSeekDocCount : I -> Z
}.

(** What [SeekDoc] promises: for an iterator that stands for the documents [D] and has been
    asked for documents before [lo], any [id >= lo] gets the first document from [id] on, or
    [INVALID_DOCID]. A found document is not returned again. [Clone] starts over. *)
Record posting_laws {I : Type} `{PostingIterator I} (Q : I -> docset -> docid_t -> Prop) : Prop := {
  pl_valid it D lo : Q it D lo -> valid_docset D;
  pl_mono it D lo lo' : Q it D lo -> lo <= lo' -> Q it D lo';
  pl_seek it D lo id : Q it D lo -> lo <= id -> 0 <= id <= END_DOCID ->
    exists d it', SeekDoc it id = Ok (d, it') /\
      (d = INVALID_DOCID /\ gap D id END_DOCID \/
       0 <= d < END_DOCID /\ first_ge D id d /\ Q it' D (d + 1));
  pl_clone it D lo : Q it D lo -> Q (Clone it) D 0
}.

(** What [Test] promises to a caller that asks for non-decreasing documents. *)
Record posting_test_laws {B : Type} `{BitmapPostingIterator B} (Q : B -> docset -> docid_t -> Prop)
    : Prop := {
  ptl_mono b D lo lo' : Q b D lo -> lo <= lo' -> Q b D lo';
  ptl_test b D lo d : Q b D lo -> lo <= d -> 0 <= d < END_DOCID ->
    exists r b', Test b d = Ok (r, b') /\ (r = true <-> D d) /\ Q b' D d
}.

(** What a filter promises: it passes exactly the documents the iterator would find. *)
Definition filter_laws {I : Type} `{SeekAndFilterIterator I} (Q : I -> docset -> docid_t -> Prop)
    : Prop :=
  forall it D lo f, Q it D lo -> GetDocValueFilter it = Some f ->
    forall d, 0 <= d < END_DOCID -> D d <-> f d = true.

(** ** Leaf executors *)

(** [struct DocIdRangeMeta] *)
Inductive OrderedType := OT_ORDERED | OT_UNORDERED | OT_UNKNOWN.

Record DocIdRangeMeta := mkRange {
  r_nextBegin : docid_t;
  r_end : docid_t;
  r_quota : Z;
  r_begin : docid_t;
  r_ordered : OrderedType
}.

(** [class LayerMeta], without its memory pool and display string. *)
Abbreviation LayerMeta := (list DocIdRangeMeta).

(** [DocIdsQueryExecutor::doSeek]: scan the sorted ids from [_curPos] on. *)
Fixpoint docIds_scan (ids : list docid_t) (pos : nat) (id : docid_t) : docid_t * nat :=
  match ids with
  | [] => (END_DOCID, pos)
  | x :: ids' => if id <=? x then (x, pos) else docIds_scan ids' (S pos) id
  end.

(** [RangeQueryExecutor::doSeek]: scan the ranges from [_rangeIdx] on. *)
Fixpoint range_scan (ranges : LayerMeta) (idx : nat) (id : docid_t) : docid_t * nat :=
  match ranges with
  | [] => (END_DOCID, idx)
  | r :: ranges' =>
      if id <=? r_end r then ((if r_begin r <=? id then id else r_begin r), idx)
      else range_scan ranges' (S idx) id
  end.

(** [RangeQueryExecutor]'s constructor sums the sizes of the ranges. *)
Definition range_df (ranges : LayerMeta) : Z :=
  foldl (fun acc r => i32 (acc + (r_end r - r_begin r + 1))) 0 ranges.

Section Tree.
Context {I B : Type} `{!PostingIterator I} `{!SeekAndFilterIterator I}.
Context `{!PostingIterator B} `{!BitmapPostingIterator B}.

(** A bitmap term executor: its iterator may be null. *)
Record bitmap_term := mkBitmapTerm {
  bt_base : QueryExecutor;
  bt_iter : option B;
  bt_mainDF : Z;
  bt_currentDF : Z
}.

(** Executors by class, with their fields. A null pointer is [None]; the vectors of
    pointers [_sortedQueryExecutors] and the heap entries are positions in
    [_queryExecutors], so that all of them share the children. *)
Inductive executor : Type :=
| TermQueryExecutor (b : QueryExecutor) (iter : option I) (mainDF currentDF : Z)
| RangeTermQueryExecutor (b : QueryExecutor) (iter : option I) (mainDF currentDF : Z)
    (filter : option DocValueFilter)
| BitmapTermQueryExecutor (t : bitmap_term)
| DocIdsQueryExecutor (b : QueryExecutor) (docIds : list docid_t) (curPos : nat)
| RangeQueryExecutor (b : QueryExecutor) (layerMeta : LayerMeta) (rangeIdx : nat) (df : Z)
| PKQueryExecutor (b : QueryExecutor) (queryExecutor : option executor) (docId : docid_t)
    (count : Z)
| AndQueryExecutor (b : QueryExecutor) (queryExecutors : list executor)
    (sortedQueryExecutors : list nat) (filters : list DocValueFilter) (testDocCount : Z)
| OrQueryExecutor (b : QueryExecutor) (queryExecutors : list executor)
    (qeMinHeap : list QueryExecutorEntry) (count : nat)
| AndNotQueryExecutor (b : QueryExecutor) (left : executor) (right : option executor)
    (rightFilter : option DocValueFilter) (testDocCount : Z) (rightExecutorHasSub : bool)
| WeakAndQueryExecutor (b : QueryExecutor) (queryExecutors : list executor)
    (minShouldMatch count : nat) (sortNHeap sortNHeapSub : list QueryExecutorEntry)
| BitmapAndQueryExecutor (b : QueryExecutor) (seekQueryExecutor : executor)
    (bitmapTermExecutors : list bitmap_term).

(** *** Fields of the base class *)

Definition base (e : executor) : QueryExecutor :=
  match e with
  | TermQueryExecutor b _ _ _ => b
  | RangeTermQueryExecutor b _ _ _ _ => b
  | BitmapTermQueryExecutor t => bt_base t
  | DocIdsQueryExecutor b _ _ => b
  | RangeQueryExecutor b _ _ _ => b
  | PKQueryExecutor b _ _ _ => b
  | AndQueryExecutor b _ _ _ _ => b
  | OrQueryExecutor b _ _ _ => b
  | AndNotQueryExecutor b _ _ _ _ _ => b
  | WeakAndQueryExecutor b _ _ _ _ _ => b
  | BitmapAndQueryExecutor b _ _ => b
  end.

Definition setBase (e : executor) (b : QueryExecutor) : executor :=
  match e with
  | TermQueryExecutor _ it m c => TermQueryExecutor b it m c
  | RangeTermQueryExecutor _ it m c f => RangeTermQueryExecutor b it m c f
  | BitmapTermQueryExecutor t =>
      BitmapTermQueryExecutor (mkBitmapTerm b (bt_iter t) (bt_mainDF t) (bt_currentDF t))
  | DocIdsQueryExecutor _ ids p => DocIdsQueryExecutor b ids p
  | RangeQueryExecutor _ rs i df => RangeQueryExecutor b rs i df
  | PKQueryExecutor _ q d c => PKQueryExecutor b q d c
  | AndQueryExecutor _ cs s fs n => AndQueryExecutor b cs s fs n
  | OrQueryExecutor _ cs h n => OrQueryExecutor b cs h n
  | AndNotQueryExecutor _ l r f n h => AndNotQueryExecutor b l r f n h
  | WeakAndQueryExecutor _ cs m n h hs => WeakAndQueryExecutor b cs m n h hs
  | BitmapAndQueryExecutor _ q bs => BitmapAndQueryExecutor b q bs
  end.

Lemma base_setBase e b : base (setBase e b) = b.
Proof. by destruct e. Qed.

Definition hasSubDocExecutor (e : executor) : bool := _hasSubDocExecutor (base e).
Definition getDocId (e : executor) : docid_t := _current (base e).

(** *** [moveToEnd], [setEmpty], [setCurrSub] *)

Definition bt_moveToEnd (t : bitmap_term) : bitmap_term :=
  mkBitmapTerm (base_moveToEnd (bt_base t)) (bt_iter t) (bt_mainDF t) (bt_currentDF t).

Fixpoint moveToEnd (e : executor) : executor :=
  match e with
  | DocIdsQueryExecutor b ids _ => DocIdsQueryExecutor (base_moveToEnd b) ids (length ids)
  | AndQueryExecutor b cs s fs n =>
      AndQueryExecutor (base_moveToEnd b) (map moveToEnd cs) s fs n
  | OrQueryExecutor b cs h n => OrQueryExecutor (base_moveToEnd b) (map moveToEnd cs) h n
  | AndNotQueryExecutor b l r f n h =>
      AndNotQueryExecutor (base_moveToEnd b) (moveToEnd l)
        (match r with Some r => Some (moveToEnd r) | None => None end) f n h
  | WeakAndQueryExecutor b cs m n h hs =>
      WeakAndQueryExecutor (base_moveToEnd b) (map moveToEnd cs) m n h hs
  | BitmapAndQueryExecutor b q bs =>
      BitmapAndQueryExecutor (base_moveToEnd b) (moveToEnd q) (map bt_moveToEnd bs)
  | _ => setBase e (base_moveToEnd (base e))
  end.

Definition bt_setEmpty (t : bitmap_term) : bitmap_term :=
  mkBitmapTerm (base_setEmpty (bt_base t)) (bt_iter t) (bt_mainDF t) (bt_currentDF t).

(** [QueryExecutor::setEmpty] calls the virtual [moveToEnd]; the composite classes then
    call [setEmpty] on their children. *)
Fixpoint setEmpty (e : executor) : executor :=
  match e with
  | DocIdsQueryExecutor b ids _ => DocIdsQueryExecutor (base_setEmpty b) ids (length ids)
  | AndQueryExecutor b cs s fs n => AndQueryExecutor (base_setEmpty b) (map setEmpty cs) s fs n
  | OrQueryExecutor b cs h n => OrQueryExecutor (base_setEmpty b) (map setEmpty cs) h n
  | AndNotQueryExecutor b l r f n h =>
      AndNotQueryExecutor (base_setEmpty b) (setEmpty l)
        (match r with Some r => Some (setEmpty r) | None => None end) f n h
  | WeakAndQueryExecutor b cs m n h hs =>
      WeakAndQueryExecutor (base_setEmpty b) (map setEmpty cs) m n h hs
  | BitmapAndQueryExecutor b q bs =>
      BitmapAndQueryExecutor (base_setEmpty b) (setEmpty q) (map bt_setEmpty bs)
  | _ => setBase e (base_setEmpty (base e))
  end.

Definition bt_setCurrSub (d : docid_t) (t : bitmap_term) : bitmap_term :=
  mkBitmapTerm (base_setCurrSub d (bt_base t)) (bt_iter t) (bt_mainDF t) (bt_currentDF t).

(** [AndNotQueryExecutor] only passes it to its left child. *)
Fixpoint setCurrSub (d : docid_t) (e : executor) : executor :=
  match e with
  | AndQueryExecutor b cs s fs n =>
      AndQueryExecutor (base_setCurrSub d b) (map (setCurrSub d) cs) s fs n
  | OrQueryExecutor b cs h n =>
      OrQueryExecutor (base_setCurrSub d b) (map (setCurrSub d) cs) h n
  | AndNotQueryExecutor b l r f n h =>
      AndNotQueryExecutor (base_setCurrSub d b) (setCurrSub d l) r f n h
  | WeakAndQueryExecutor b cs m n h hs =>
      WeakAndQueryExecutor (base_setCurrSub d b) (map (setCurrSub d) cs) m n h hs
  | BitmapAndQueryExecutor b q bs =>
      BitmapAndQueryExecutor (base_setCurrSub d b) (setCurrSub d q) (map (bt_setCurrSub d) bs)
  | _ => setBase e (base_setCurrSub d (base e))
  end.

(** *** Document frequency *)

Definition df_max : Z := 2147483647.

Definition notNull {A : Type} (p : option A) : bool :=
  match p with Some _ => true | None => false end.

Definition leaf_df (hasIter : bool) (mainDF currentDF : Z) (type : GetDFType) : Z :=
  if hasIter then match type with GDT_MAIN_CHAIN => mainDF | GDT_CURRENT_CHAIN => currentDF end
  else 0.

Definition bt_getDF (type : GetDFType) (t : bitmap_term) : Z :=
  leaf_df (notNull (bt_iter t)) (bt_mainDF t) (bt_currentDF t) type.

(** [getDF]: the minimum for conjunctions, the [int32_t] sum for disjunctions. *)
Fixpoint getDF (type : GetDFType) (e : executor) : Z :=
  match e with
  | TermQueryExecutor _ it m c => leaf_df (notNull it) m c type
  | RangeTermQueryExecutor _ it m c _ => leaf_df (notNull it) m c type
  | BitmapTermQueryExecutor t => bt_getDF type t
  | DocIdsQueryExecutor _ _ _ => 1
  | RangeQueryExecutor _ _ _ df => df
  | PKQueryExecutor _ _ _ _ => 1
  | AndQueryExecutor _ cs _ _ _ => fold_right (fun c acc => Z.min (getDF type c) acc) df_max cs
  | OrQueryExecutor _ cs _ _ => fold_right (fun c acc => i32 (getDF type c + acc)) 0 cs
  | AndNotQueryExecutor _ l _ _ _ _ => getDF type l
  | WeakAndQueryExecutor _ cs _ _ _ _ => fold_right (fun c acc => i32 (getDF type c + acc)) 0 cs
  | BitmapAndQueryExecutor _ q bs =>
      Z.min (getDF type q) (fold_right (fun t acc => Z.min (bt_getDF type t) acc) df_max bs)
  end.

(** *** [stealFilter]: only range terms have a filter, and give it away once *)

Definition stealFilter (e : executor) : option DocValueFilter * executor :=
  match e with
  | RangeTermQueryExecutor b it m c f => (f, RangeTermQueryExecutor b it m c None)
  | _ => (None, e)
  end.

(** *** [doSeek] and [seek] *)

Definition toEnd (d : docid_t) : docid_t := if d =? INVALID_DOCID then END_DOCID else d.

(** [BitmapTermQueryExecutor::test]: a document that passes becomes the current one. *)
Definition bt_test (t : bitmap_term) (docId : docid_t) : res (bool * bitmap_term) :=
  let! it := deref (bt_iter t) in
  let! (r, it') := Test it docId in
  Ok (r, mkBitmapTerm (if r then setDocId docId (bt_base t) else bt_base t) (Some it')
           (bt_mainDF t) (bt_currentDF t)).

(** The virtual [doSeek] of every class; [seekE] is [seek] of the children. *)
Definition doSeek_with (seekE : executor -> docid_t -> res (docid_t * executor)) (fuel : nat)
    (e : executor) (id : docid_t) : res (docid_t * executor) :=
  match e with
  | TermQueryExecutor b iter m c =>
      let! it := deref iter in
      let! (d, it') := SeekDoc it id in
      Ok (toEnd d, TermQueryExecutor (countSeek b) (Some it') m c)
  | RangeTermQueryExecutor b iter m c f =>
      let! it := deref iter in
      let! (d, it') := SeekDoc it id in
      Ok (toEnd d, RangeTermQueryExecutor b (Some it') m c f)
  | BitmapTermQueryExecutor t =>
      let! it := deref (bt_iter t) in
      let! (d, it') := SeekDoc it id in
      Ok (toEnd d, BitmapTermQueryExecutor
                     (mkBitmapTerm (countSeek (bt_base t)) (Some it') (bt_mainDF t) (bt_currentDF t)))
  | DocIdsQueryExecutor b ids p =>
      let '(d, p') := docIds_scan (drop p ids) p id in
      Ok (d, DocIdsQueryExecutor b ids p')
  | RangeQueryExecutor b rs i df =>
      if id =? END_DOCID then Ok (END_DOCID, e)
      else
        let '(d, i') := range_scan (drop i rs) i id in
        Ok (d, RangeQueryExecutor (countSeek b) rs i' df)
  | PKQueryExecutor b q docId count =>
      match q with
      | None => Ok (END_DOCID, e)
      | Some q =>
          if docId <? id then Ok (END_DOCID, e)
          else if 0 <? count then Ok (END_DOCID, e)
          else if docId =? END_DOCID then Ok (docId, e)
          else
            let! (tmpid, q') := seekE q docId in
            if negb (docId =? tmpid)
            then Ok (END_DOCID, PKQueryExecutor (countSeek b) (Some q') docId count)
            else Ok (docId, PKQueryExecutor (countSeek b) (Some q') docId (count + 1))
      end
  | AndQueryExecutor b cs s fs n =>
      let! (d, cs', n') := And.doSeek (fun _ => seekE) moveToEnd fuel s fs cs n id in
      Ok (d, AndQueryExecutor b cs' s fs n')
  | OrQueryExecutor b cs h n =>
      let! (d, cs', h') := Or.doSeek (fun _ => seekE) fuel n cs h id in
      Ok (d, OrQueryExecutor b cs' h' n)
  | AndNotQueryExecutor b l r f n hs =>
      let! (d, st) := AndNot.doSeek (fun _ => seekE) fuel f hs (AndNot.mkState l r n) id in
      Ok (d, AndNotQueryExecutor b (AndNot.s_left st) (AndNot.s_right st) f
               (AndNot.s_testDocCount st) hs)
  | WeakAndQueryExecutor b cs m n h hs =>
      let! (d, cs', h') := WeakAnd.doSeek (fun _ => seekE) moveToEnd fuel m n cs h id in
      Ok (d, WeakAndQueryExecutor b cs' m n h' hs)
  | BitmapAndQueryExecutor b q bs =>
      let! (d, q', bs') :=
        BitmapAnd.doSeek (fun _ => seekE) moveToEnd (fun _ => bt_test) bt_moveToEnd fuel q bs id in
      Ok (d, BitmapAndQueryExecutor b q' bs')
  end.

(** [QueryExecutor::seek]. The fuel bounds the depth of the tree and every loop. *)
Fixpoint seek (fuel : nat) (e : executor) (id : docid_t) : res (docid_t * executor) :=
  match fuel with
  | O => OutOfFuel
  | S fuel' => seek_with base setBase (doSeek_with (seek fuel') fuel') e id
  end.

(** [QueryExecutor::seekWithoutCheck] *)
Definition seekWithoutCheck (fuel : nat) (e : executor) (id : docid_t) : res (docid_t * executor) :=
  match fuel with
  | O => OutOfFuel
  | S fuel' => seekWithoutCheck_with base setBase (doSeek_with (seek fuel') fuel') e id
  end.

Lemma seek_current f e id d e' : seek f e id = Ok (d, e') -> getDocId e' = d.
Proof.
  destruct f as [|f]; [done|]. cbn [seek]. unfold seek_with, getDocId.
  destruct (_ <? _); [|by intros [= <- <-]].
  destruct (doSeek_with _ _ _ _) as [[r e1]| | |]; cbn [res_bind]; try done.
  intros [= <- <-]. by rewrite base_setBase.
Qed.

Lemma seekWithoutCheck_seek f e id :
  getDocId e < id -> seekWithoutCheck f e id = seek f e id.
Proof.
  intros Hlt. destruct f as [|f]; [done|]. unfold seekWithoutCheck, getDocId in *. cbn [seek].
  unfold seek_with, seekWithoutCheck_with. by rewrite (proj2 (Z.ltb_lt _ _) Hlt).
Qed.

(** *** Building executors *)

Definition leaf_base : QueryExecutor := setHasSub false new_QueryExecutor.

(** The constructors of the term executors: a non-null iterator and its document frequencies. *)
Definition new_Term (it : I) (mainDF currentDF : Z) : executor :=
  TermQueryExecutor leaf_base (Some it) mainDF currentDF.
Definition new_RangeTerm (it : I) (mainDF currentDF : Z) : executor :=
  RangeTermQueryExecutor leaf_base (Some it) mainDF currentDF (GetDocValueFilter it).
Definition new_BitmapTerm (it : B) (mainDF currentDF : Z) : bitmap_term :=
  mkBitmapTerm leaf_base (Some it) mainDF currentDF.

Definition new_DocIds (docIds : list docid_t) : executor :=
  DocIdsQueryExecutor leaf_base (merge_sort Z.le docIds) 0.

Definition new_Range (layerMeta : LayerMeta) : executor :=
  RangeQueryExecutor leaf_base layerMeta 0 (range_df layerMeta).

Definition new_PK (queryExecutor : option executor) (docId : docid_t) : executor :=
  PKQueryExecutor
    (match queryExecutor with
     | Some q => setHasSub (hasSubDocExecutor q) new_QueryExecutor
     | None => new_QueryExecutor
     end) queryExecutor docId 0.

Definition anyHasSub (cs : list executor) : bool := existsb hasSubDocExecutor cs.

(** [DFCompare]: ascending current document frequency. [std::sort] may order children of
    equal frequency in any way; [df_order] keeps them in place. *)
Definition df_le (cs : list executor) (i j : nat) : Prop :=
  match cs !! i, cs !! j with
  | Some a, Some b => getDF GDT_CURRENT_CHAIN a <= getDF GDT_CURRENT_CHAIN b
  | _, _ => True
  end.
#[global] Instance df_le_dec cs : RelDecision (df_le cs).
Proof. intros i j. unfold df_le. destruct (cs !! i), (cs !! j); apply _. Defined.
Definition df_order (cs : list executor) : list nat := merge_sort (df_le cs) (seq 0 (length cs)).

(** The loop over all but the rarest child: a child with a filter gives it away and is not
    sought. Returns what is pushed to [_sortedQueryExecutors] and to [_filters]. *)
Fixpoint stealFilters (order : list nat) (cs : list executor)
    : res (list nat * list DocValueFilter * list executor) :=
  match order with
  | [] => Ok ([], [], cs)
  | i :: order' =>
      let! c := deref (cs !! i) in
      let '(f, c') := stealFilter c in
      let! (sorted, filters, cs') := stealFilters order' (<[i := c']> cs) in
      match f with
      | Some f => Ok (sorted, f :: filters, cs')
      | None => Ok (i :: sorted, filters, cs')
      end
  end.

(** [AndQueryExecutor::addQueryExecutors] on a new executor, for the order [order] that
    [std::sort] gives. *)
Definition new_And_ordered (order : list nat) (cs : list executor) : res executor :=
  let b := setHasSub false new_QueryExecutor in
  match order with
  | [] => Ok (AndQueryExecutor b [] [] [] 0)
  | first :: rest =>
      let! (sorted, filters, cs') := stealFilters rest cs in
      Ok (AndQueryExecutor (setHasSub (anyHasSub cs) b) cs' (first :: sorted) filters 0)
  end.

Definition new_And (cs : list executor) : res executor := new_And_ordered (df_order cs) cs.

(** [OrQueryExecutor::addQueryExecutors] *)
Definition or_addQueryExecutors (b : QueryExecutor) (cs : list executor) : executor :=
  OrQueryExecutor (setHasSub (anyHasSub cs) b) cs (initHeap (length cs)) (length cs).
Definition new_Or (cs : list executor) : executor := or_addQueryExecutors new_QueryExecutor cs.

(** [AndNotQueryExecutor::addQueryExecutors]: [rightExecutor->hasSubDocExecutor()] is called
    before [rightExecutor] is compared with null. *)
Definition new_AndNot (left : executor) (right : option executor) : res executor :=
  let! r := deref right in
  let '(rightFilter, r') :=
    if getDF GDT_CURRENT_CHAIN left <? getDF GDT_CURRENT_CHAIN r then stealFilter r
    else (None, r) in
  Ok (AndNotQueryExecutor
        (setHasSub (hasSubDocExecutor left || hasSubDocExecutor r) new_QueryExecutor)
        left (Some r') rightFilter 0 (hasSubDocExecutor r)).

(** [WeakAndQueryExecutor::addQueryExecutors]: [_sortNHeapSub] is extended, not rebuilt. *)
Definition weakAnd_addQueryExecutors (b : QueryExecutor) (minShouldMatch : nat)
    (sortNHeapSub : list QueryExecutorEntry) (cs : list executor) : executor :=
  WeakAndQueryExecutor (setHasSub (anyHasSub cs) b) cs
    (Nat.min minShouldMatch (length cs)) (length cs)
    (initHeap (length cs)) (sortNHeapSub ++ initHeap (length cs)).
Definition new_WeakAnd (minShouldMatch : nat) (cs : list executor) : executor :=
  weakAnd_addQueryExecutors new_QueryExecutor (Nat.max 1 minShouldMatch) [] cs.

(** [BitmapAndQueryExecutor::addQueryExecutors]: the bitmap terms, sorted by frequency, are
    tested; what is left is sought, through an AND if there are several. *)
Fixpoint splitBitmaps (cs : list executor) : list bitmap_term * list executor :=
  match cs with
  | [] => ([], [])
  | c :: cs' =>
      let '(bs, es) := splitBitmaps cs' in
      match c with
      | BitmapTermQueryExecutor t => (t :: bs, es)
      | _ => (bs, c :: es)
      end
  end.

Definition bt_df_le (s t : bitmap_term) : Prop :=
  bt_getDF GDT_CURRENT_CHAIN s <= bt_getDF GDT_CURRENT_CHAIN t.
#[global] Instance bt_df_le_dec : RelDecision bt_df_le.
Proof. intros s t. unfold bt_df_le. apply _. Defined.

Definition bitmapAnd_of (q : executor) (bs : list bitmap_term) : executor :=
  BitmapAndQueryExecutor
    (setHasSub (hasSubDocExecutor q || existsb (fun t => _hasSubDocExecutor (bt_base t)) bs)
       new_QueryExecutor) q bs.

Definition new_BitmapAnd (cs : list executor) : res executor :=
  let '(bs, es) := splitBitmaps cs in
  let bs := merge_sort bt_df_le bs in
  match es with
  | [] =>
      match bs with
      | [] => Undefined
      | t :: bs' => Ok (bitmapAnd_of (BitmapTermQueryExecutor t) bs')
      end
  | [e] => Ok (bitmapAnd_of e bs)
  | _ => let! q := new_And es in Ok (bitmapAnd_of q bs)
  end.

(** *** [reset] *)

(** [for (it : _queryExecutors) (it)->reset()] *)
Fixpoint resetAll (resetE : executor -> res executor) (cs : list executor) : res (list executor) :=
  match cs with
  | [] => Ok []
  | c :: cs' =>
      let! c' := resetE c in
      let! cs'' := resetAll resetE cs' in
      Ok (c' :: cs'')
  end.

(** The children of a composite are moved to the end first when it was set empty. *)
Definition resetChildren (resetE : executor -> res executor) (b : QueryExecutor)
    (cs : list executor) : res (list executor) :=
  resetAll resetE (if _isEmpty b then map moveToEnd cs else cs).

Definition bt_reset (t : bitmap_term) : bitmap_term :=
  mkBitmapTerm (base_reset (bt_base t)) (Clone <$> bt_iter t) (bt_mainDF t) (bt_currentDF t).

Definition bt_resetChild (b : QueryExecutor) (t : bitmap_term) : bitmap_term :=
  bt_reset (if _isEmpty b then bt_moveToEnd t else t).

(** The fuel bounds the depth of the tree. [RangeQueryExecutor] and [PKQueryExecutor]
    override [reset] without calling the base class. *)
Fixpoint reset (fuel : nat) (e : executor) : res executor :=
  match fuel with
  | O => OutOfFuel
  | S fuel' =>
      match e with
      | TermQueryExecutor b it m c => Ok (TermQueryExecutor (base_reset b) (Clone <$> it) m c)
      | RangeTermQueryExecutor b it m c _ =>
          let! it := deref it in
          let it' := Clone it in
          Ok (RangeTermQueryExecutor (base_reset b) (Some it') m c (GetDocValueFilter it'))
      | BitmapTermQueryExecutor t => Ok (BitmapTermQueryExecutor (bt_reset t))
      | DocIdsQueryExecutor b ids _ => Ok (DocIdsQueryExecutor (base_reset b) ids 0)
      | RangeQueryExecutor b rs _ df => Ok (RangeQueryExecutor b rs 0 df)
      | PKQueryExecutor b q d _ => Ok (PKQueryExecutor b q d 0)
      | AndQueryExecutor b cs s fs n =>
          let! cs' := resetChildren (reset fuel') b cs in
          Ok (AndQueryExecutor (base_reset b) cs' s fs n)
      | OrQueryExecutor b cs _ _ =>
          let! cs' := resetChildren (reset fuel') b cs in
          Ok (or_addQueryExecutors (base_reset b) cs')
      | AndNotQueryExecutor b l r f n hs =>
          let mv c := if _isEmpty b then moveToEnd c else c in
          let! l' := reset fuel' (mv l) in
          match r with
          | None => Ok (AndNotQueryExecutor (base_reset b) l' None f n hs)
          | Some r =>
              let! r' := reset fuel' (mv r) in
              Ok (AndNotQueryExecutor (base_reset b) l' (Some r') f n hs)
          end
      | WeakAndQueryExecutor b cs m _ _ hs =>
          let! cs' := resetChildren (reset fuel') b cs in
          Ok (weakAnd_addQueryExecutors (base_reset b) m hs cs')
      | BitmapAndQueryExecutor b q bs =>
          let! q' := reset fuel' (if _isEmpty b then moveToEnd q else q) in
          Ok (BitmapAndQueryExecutor (base_reset b) q' (map (bt_resetChild b) bs))
      end
  end.
End Tree.

Arguments bitmap_term : clear implicits.
Arguments executor : clear implicits.
