(* ===== verification/ExecutorCorrect.v ===== *)
(** * Correctness of [seek] on executor trees

    [pos n e D lo] relates an executor tree [e] to the set [D] of documents it stands for,
    once it has been asked for documents from [lo] on. The main result is that [seek]
    satisfies the contract [QueryExecutor.seek_laws] for [pos n] at every depth [n], given
    the contract of the posting iterators. *)

From stdpp Require Import base list numbers option tactics sorting sets.
From Stdlib Require Import ZArith Lia ZifyNat.
From S2P Require Import Prelude QueryExecutor MultiExecutors ExecutorHeap HeapExecutors ExecutorTree.

#[local] Open Scope Z_scope.

(** ** The documents of the leaves *)

Definition range_docs (ranges : LayerMeta) : docset :=
  fun d => Exists (fun r => r_begin r <= d <= r_end r) ranges.

(** The ranges of a layer are not empty, ascending and disjoint. *)
Definition ranges_ok (ranges : LayerMeta) : Prop :=
  Forall (fun r => r_begin r <= r_end r) ranges /\
  StronglySorted (fun r r' => r_end r < r_begin r') ranges.

Lemma docIds_scan_ok ids p id d p' :
  StronglySorted Z.le ids -> docIds_scan ids p id = (d, p') ->
  exists k, p' = (p + k)%nat /\ Forall (fun x => x < id) (take k ids) /\
    (ids !! k = Some d /\ id <= d /\ (forall x, x ∈ ids -> id <= x -> d <= x) \/
     d = END_DOCID /\ k = length ids).
Proof.
  revert p. induction ids as [|x ids IH]; intros p Hs; cbn.
  - intros [= <- <-]. exists 0%nat. split; [lia|]. split; [constructor|]. by right.
  - apply StronglySorted_inv in Hs as [Hs Hx].
    destruct (Z.leb_spec id x) as [Hle|Hlt].
    + intros [= <- <-]. exists 0%nat. split; [lia|]. split; [constructor|]. left.
      split; [done|]. split; [done|]. intros y [->|Hy]%elem_of_cons ?; [lia|].
      rewrite Forall_forall in Hx. auto.
    + intros H. destruct (IH _ Hs H) as (k & -> & Hk & Hd). exists (S k). split; [lia|].
      split; [by constructor|]. destruct Hd as [(Hk1 & Hd & Hmin)|[-> ->]]; [left|by right].
      split; [done|]. split; [done|]. intros y [->|Hy]%elem_of_cons ?; [lia|auto].
Qed.

Lemma range_scan_ok ranges i id d i' :
  ranges_ok ranges -> range_scan ranges i id = (d, i') ->
  exists k, i' = (i + k)%nat /\ Forall (fun r => r_end r < id) (take k ranges) /\ id <= Z.max id d /\
    (range_docs ranges d /\ id <= d /\ gap (range_docs ranges) id d \/
     d = END_DOCID /\ k = length ranges /\ forall x, id <= x -> ~ range_docs ranges x).
Proof.
  revert i. induction ranges as [|r rs IH]; intros i [Hne Hs]; cbn.
  - intros [= <- <-]. exists 0%nat. split; [lia|]. split; [constructor|]. split; [lia|].
    right. split; [done|]. split; [done|]. intros x _ H. by apply Exists_nil in H.
  - apply StronglySorted_inv in Hs as [Hs Hr]. apply Forall_cons_iff in Hne as [Hn Hne].
    destruct (Z.leb_spec id (r_end r)) as [Hle|Hlt].
    + intros H. injection H as Hd <-. exists 0%nat. split; [lia|]. split; [constructor|].
      assert (d = Z.max id (r_begin r)) as -> by (destruct (Z.leb_spec (r_begin r) id); lia).
      split; [lia|]. left. split; [apply Exists_cons; left; lia|]. split; [lia|].
      intros x Hx [Hx'|Hx']%Exists_cons; [lia|]. apply Exists_exists in Hx' as (r' & Hin & ?).
      rewrite Forall_forall in Hr. specialize (Hr r' Hin). lia.
    + intros H. destruct (IH _ (conj Hne Hs) H) as (k & -> & Hk & Hm & Hd). exists (S k).
      split; [lia|]. split; [by constructor|]. split; [done|].
      destruct Hd as [(Hin & Hd & Hg)|(-> & -> & Hnone)]; [left|right].
      * split; [by apply Exists_cons; right|]. split; [done|].
        intros x Hx [?|Hx']%Exists_cons; [lia|]. by apply (Hg x).
      * split; [done|]. split; [done|]. intros x Hx [?|Hx']%Exists_cons; [lia|]. by apply (Hnone x).
Qed.

Section Correct.
Context {I B : Type} `{!PostingIterator I} `{!SeekAndFilterIterator I}.
Context `{!PostingIterator B} `{!BitmapPostingIterator B}.
Context (Q : I -> docset -> docid_t -> Prop) (QB : B -> docset -> docid_t -> Prop).

Abbreviation executor := (executor I B).
Abbreviation bitmap_term := (bitmap_term B).

(** A bitmap term that is only tested. *)
Definition bitmap_at (t : bitmap_term) (D : docset) (lo : docid_t) : Prop :=
  exists it, bt_iter t = Some it /\ QB it D lo.

(** The documents an executor stands for, and where its children and iterators stand, by
    class; [P] is the same relation for the children. *)
Definition inner (P : executor -> docset -> docid_t -> Prop) (e : executor) (D : docset) : Prop :=
  let cur := _current (base e) in
  let lo := Z.max 0 cur in
  match e with
  | TermQueryExecutor _ iter _ _ => exists it, iter = Some it /\ Q it D (cur + 1)
  | RangeTermQueryExecutor _ iter _ _ f =>
      (exists it, iter = Some it /\ Q it D (cur + 1)) /\
      (forall g, f = Some g -> forall d, 0 <= d < END_DOCID -> D d <-> g d = true)
  | BitmapTermQueryExecutor t => bitmap_at t D (cur + 1)
  | DocIdsQueryExecutor _ ids p =>
      StronglySorted Z.le ids /\ (forall d, d ∈ ids <-> D d) /\
      Forall (fun x => x <= cur) (take p ids)
  | RangeQueryExecutor _ rs i _ =>
      ranges_ok rs /\ (forall d, range_docs rs d <-> D d) /\
      Forall (fun r => r_end r <= cur) (take i rs)
  | PKQueryExecutor _ q docId count =>
      docId <= END_DOCID /\
      match q with
      | None => forall d, ~ D d
      | Some c => exists Dc, (forall d, d = docId /\ Dc d <-> D d) /\ valid_docset Dc /\
          (count = 0 /\ (0 <= docId -> P c Dc docId) \/ docId <= cur)
      end
  | AndQueryExecutor _ cs s fs _ =>
      exists Ds, (forall d, And.docs Ds s fs d <-> D d) /\ s <> [] /\ And.children_at P Ds s cs lo
  | OrQueryExecutor _ cs h n =>
      exists Ds, (forall d, Or.docs Ds d <-> D d) /\ n = length cs /\
        Or.heap_at P Ds cs lo h /\ Or.root h = cur
  | AndNotQueryExecutor _ l r f _ hs =>
      exists DL DR, (forall d, AndNot.docs DL DR hs d <-> D d) /\
        P l DL lo /\ AndNot.right_at P DR f r lo
  | WeakAndQueryExecutor _ cs m n h _ =>
      exists Ds, (forall d, WeakAnd.docs Ds m d <-> D d) /\ n = length cs /\
        WeakAnd.heap_at P Ds m cs lo h /\ WeakAnd.first h = cur
  | BitmapAndQueryExecutor _ q bs =>
      exists Dq Bs, (forall d, BitmapAnd.docs Dq Bs d <-> D d) /\ bs <> [] /\
        P q Dq lo /\ BitmapAnd.bitmaps_at bitmap_at bs Bs lo
  end.

(** Trees of depth at most [n]. *)
Fixpoint pos (n : nat) : executor -> docset -> docid_t -> Prop :=
  match n with
  | O => fun _ _ _ => False
  | S n => cursor_pos base (inner (pos n))
  end.

Hypothesis Q_laws : posting_laws Q.
Hypothesis QB_laws : posting_laws QB.
Hypothesis QB_test_laws : posting_test_laws QB.

Lemma bt_test_laws : test_laws (fun _ => bt_test) bitmap_at.
Proof using QB_test_laws.
  split.
  - intros t D lo lo' (it & Hit & HQ) Hlo. exists it. split; [done|]. by eapply ptl_mono.
  - intros t D lo d (it & Hit & HQ) Hlo Hd.
    destruct (ptl_test _ QB_test_laws it D lo d HQ Hlo Hd) as (r & it' & Ht & Hr & HQ').
    unfold bt_test. rewrite Hit. cbn [deref res_bind]. rewrite Ht. cbn [res_bind].
    do 2 eexists. split; [apply evals_ret|]. split; [done|]. by exists it'.
Qed.

(** What the posting iterators give, with [INVALID_DOCID] turned into [END_DOCID]. *)
Lemma posting_seek {J : Type} `{!PostingIterator J} (R : J -> docset -> docid_t -> Prop)
    (R_laws : posting_laws R) it D cur id :
  R it D (cur + 1) -> cur < id -> 0 <= id <= END_DOCID ->
  exists d it', SeekDoc it id = Ok (d, it') /\ first_ge D id (toEnd d) /\
    (toEnd d < END_DOCID -> R it' D (toEnd d + 1)).
Proof.
  intros HR Hcur Hid.
  destruct (pl_seek _ R_laws it D _ id HR ltac:(lia) Hid) as (d & it' & Hs & Hd).
  exists d, it'. split; [done|]. unfold toEnd.
  destruct Hd as [[-> Hg]|(Hr & Hf & HR')].
  - rewrite Z.eqb_refl. split; [apply first_ge_END; [done|lia]|lia].
  - unfold INVALID_DOCID. destruct (Z.eqb_spec d (-1)); [lia|]. by split.
Qed.

(** *** The leaves *)

(** The statement proved for each class: [doSeek] answers and keeps [inner]. *)
Definition doSeek_correct (P : executor -> docset -> docid_t -> Prop) (e : executor) : Prop :=
  forall D id, valid_docset D -> inner P e D -> _current (base e) < id -> 0 <= id <= END_DOCID ->
    INVALID_DOCID <= _current (base e) ->
    exists d e', evals (fun f => doSeek_with (seek f) f e id) (d, e') /\ first_ge D id d /\
      (d < END_DOCID -> inner P (setBase e' (setDocId d (base e'))) D).

Lemma doSeek_Term P b iter m c : doSeek_correct P (TermQueryExecutor b iter m c).
Proof using Q_laws.
  intros D id _ (it & -> & HQ) Hid Hr _. cbn in *.
  destruct (posting_seek Q Q_laws it D _ id HQ Hid Hr) as (d & it' & Hs & Hf & HQ').
  do 2 eexists. split; [apply evals_const; cbn; rewrite Hs; reflexivity|]. split; [done|].
  intros Hd. exists it'. cbn. auto.
Qed.

Lemma doSeek_RangeTerm P b iter m c g : doSeek_correct P (RangeTermQueryExecutor b iter m c g).
Proof using Q_laws.
  intros D id _ [(it & -> & HQ) Hg] Hid Hr _. cbn in *.
  destruct (posting_seek Q Q_laws it D _ id HQ Hid Hr) as (d & it' & Hs & Hf & HQ').
  do 2 eexists. split; [apply evals_const; cbn; rewrite Hs; reflexivity|]. split; [done|].
  intros Hd. split; [|done]. exists it'. cbn. auto.
Qed.

Lemma doSeek_BitmapTerm P t : doSeek_correct P (BitmapTermQueryExecutor t).
Proof using QB_laws.
  intros D id _ (it & Hit & HQ) Hid Hr _. cbn in *.
  destruct (posting_seek QB QB_laws it D _ id HQ Hid Hr) as (d & it' & Hs & Hf & HQ').
  do 2 eexists. split; [apply evals_const; cbn; rewrite Hit; cbn; rewrite Hs; reflexivity|].
  split; [done|]. intros Hd. exists it'. cbn. auto.
Qed.

Lemma doSeek_DocIds P b ids p : doSeek_correct P (DocIdsQueryExecutor b ids p).
Proof.
  intros D id Hv (Hs & HD & Hp) Hid Hr _. cbn in *.
  destruct (docIds_scan (drop p ids) p id) as [d p'] eqn:Hscan.
  assert (StronglySorted Z.le (drop p ids)) as Hsd.
  { rewrite <- (take_drop p ids) in Hs. by eapply StronglySorted_app_1_r. }
  destruct (docIds_scan_ok _ _ _ _ _ Hsd Hscan) as (k & -> & Hk & Hd).
  assert (Hlt : forall x, x ∈ take p ids -> x < id).
  { intros x Hx. rewrite Forall_forall in Hp. specialize (Hp x Hx). lia. }
  do 2 eexists. split; [apply evals_const; reflexivity|].
  destruct Hd as [(Hkd & Hle & Hmin)|[-> Hk']].
  - assert (d ∈ ids) as Hin.
    { rewrite lookup_drop in Hkd. by eapply list_elem_of_lookup_2. }
    split; [split|].
    + done.
    + apply HD, Hv in Hin. lia.
    + intros _. by apply HD.
    + intros x Hx Hx'. apply HD in Hx'. rewrite <- (take_drop p ids) in Hx'.
      apply elem_of_app in Hx' as [Hx'|Hx']; [specialize (Hlt x Hx'); lia|].
      specialize (Hmin x Hx'). lia.
    + intros _. split; [done|]. split; [done|]. cbn.
      rewrite <- take_take_drop. apply Forall_app. split.
      * eapply Forall_impl; [exact Hp|]. cbn; intros; lia.
      * eapply Forall_impl; [exact Hk|]. cbn; intros; lia.
  - split; [|lia]. apply first_ge_END; [|lia]. intros x Hx Hx'. apply HD in Hx'.
    rewrite <- (take_drop p ids) in Hx'. apply elem_of_app in Hx' as [Hx'|Hx'].
    + specialize (Hlt x Hx'). lia.
    + subst k. rewrite firstn_all, Forall_forall in Hk. specialize (Hk x Hx'). lia.
Qed.

Lemma ranges_ok_drop i rs : ranges_ok rs -> ranges_ok (drop i rs).
Proof.
  intros [H1 H2]. rewrite <- (take_drop i rs) in H1, H2. split.
  - apply Forall_app in H1. apply H1.
  - by eapply StronglySorted_app_1_r.
Qed.

Lemma doSeek_Range P b rs i df : doSeek_correct P (RangeQueryExecutor b rs i df).
Proof.
  intros D id Hv (Hs & HD & Hp) Hid Hr _. cbn in *.
  destruct (Z.eqb_spec id END_DOCID) as [->|Hne].
  { do 2 eexists. split; [apply evals_ret|]. split; [|lia].
    apply first_ge_END; [apply gap_empty; lia | lia]. }
  destruct (range_scan (drop i rs) i id) as [d i'] eqn:Hscan.
  destruct (range_scan_ok _ _ _ _ _ (ranges_ok_drop i rs Hs) Hscan) as (k & -> & Hk & _ & Hd).
  assert (Hdrop : forall x, id <= x -> D x -> range_docs (drop i rs) x).
  { intros x Hx Hx'. apply HD in Hx'. unfold range_docs in Hx'.
    rewrite <- (take_drop i rs) in Hx'. apply Exists_app in Hx' as [Hx'|Hx']; [|done].
    apply Exists_exists in Hx' as (r & Hin & ?). rewrite Forall_forall in Hp.
    specialize (Hp r Hin). lia. }
  do 2 eexists. split; [apply evals_ret|].
  destruct Hd as [(Hin & Hle & Hg)|(-> & -> & Hnone)].
  - assert (D d) as HDd.
    { apply HD. unfold range_docs. rewrite <- (take_drop i rs). apply Exists_app. by right. }
    split; [split|].
    + done.
    + apply Hv in HDd. lia.
    + done.
    + intros x Hx Hx'. apply (Hg x Hx), Hdrop; [lia|done].
    + intros _. split; [done|]. split; [done|]. cbn. rewrite <- take_take_drop. apply Forall_app. split.
      * eapply Forall_impl; [exact Hp|]. cbn; intros; lia.
      * eapply Forall_impl; [exact Hk|]. cbn; intros; lia.
  - split; [|lia]. apply first_ge_END; [|lia]. intros x Hx Hx'.
    apply (Hnone x); [lia|]. apply Hdrop; [lia|done].
Qed.

(** *** The composites *)

Section Composite.
Context (P : executor -> docset -> docid_t -> Prop) (laws : seek_laws seek P).

Lemma doSeek_PK b q docId count : doSeek_correct P (PKQueryExecutor b q docId count).
Proof using laws.
  intros D id Hv [Hend Hq] Hid Hr _. cbn in *.
  assert (Hnone : (forall d, id <= d -> ~ D d) -> first_ge D id END_DOCID).
  { intros Hn. apply first_ge_END; [|lia]. intros x Hx. apply Hn. lia. }
  destruct q as [q|]; cycle 1.
  { do 2 eexists. split; [apply evals_ret|]. split; [|lia]. apply Hnone. intros. apply Hq. }
  destruct Hq as (Dc & HD & Hvc & Hcase).
  destruct (Z.ltb_spec docId id) as [Hlt|Hle].
  { do 2 eexists. split; [apply evals_ret|]. split; [|lia]. apply Hnone.
    intros d ? [-> _]%HD. lia. }
  destruct Hcase as [[-> HP]|?]; [|lia]. cbn [Z.ltb].
  destruct (Z.eqb_spec docId END_DOCID) as [->|Hne].
  { do 2 eexists. split; [apply evals_ret|]. split; [|lia]. apply Hnone.
    intros d ? [-> Hx]%HD. apply Hvc in Hx. lia. }
  destruct (sl_seek _ _ laws q Dc docId docId (HP ltac:(lia)) ltac:(lia) ltac:(lia))
    as (d & q' & Hev & [Hl He Hi Hg] & HP').
  destruct (Z.eqb_spec docId d) as [<-|Hnd].
  - do 2 eexists. split.
    { eapply evals_bind_ok; [exact Hev|]. cbv beta iota. rewrite Z.eqb_refl. reflexivity. }
    split; [split; [lia..| |]|].
    + intros _. apply HD. split; [done|]. apply Hi. done.
    + intros x Hx [-> _]%HD. lia.
    + intros _. split; [done|]. exists Dc. cbn. split; [done|]. split; [done|]. right. lia.
  - do 2 eexists. split.
    { eapply evals_bind_ok; [exact Hev|]. cbv beta iota.
      rewrite (proj2 (Z.eqb_neq _ _) Hnd). reflexivity. }
    split; [|lia]. apply Hnone. intros x Hx [-> Hx']%HD. apply (Hg docId); [lia|done].
Qed.

Lemma doSeek_And b cs s fs n : doSeek_correct P (AndQueryExecutor b cs s fs n).
Proof using laws.
  intros D id Hv (Ds & HD & Hs & Hc) Hid Hr Hcur. cbn in *.
  destruct (And.and_doSeek_ok seek moveToEnd P laws Ds s fs cs n id Hr Hs)
    as (d & cs' & n' & Hev & Hf & Hc').
  { intros i Hi. destruct (Hc i Hi) as (e & Di & ? & ? & HP). exists e, Di.
    split; [done|]. split; [done|]. eapply sl_mono; eauto. lia. }
  do 2 eexists. split; [eapply evals_bind_ok; [exact Hev|reflexivity]|].
  split; [by eapply first_ge_iff|]. intros Hd. exists Ds. split; [done|]. split; [done|].
  cbn. rewrite Z.max_r by (destruct Hf; lia). auto.
Qed.

Lemma doSeek_Or b cs h n : doSeek_correct P (OrQueryExecutor b cs h n).
Proof using laws.
  intros D id Hv (Ds & HD & -> & Hh & Hroot) Hid Hr Hcur. cbn in *.
  destruct (Or.or_doSeek_ok seek P laws Ds cs h id _ Hh ltac:(lia) ltac:(lia) Hr)
    as (d & cs' & h' & Hev & Hf & Hh' & Hroot' & Hl).
  do 2 eexists. split; [eapply evals_bind_ok; [exact Hev|reflexivity]|].
  split; [by eapply first_ge_iff|]. intros Hd. exists Ds. cbn.
  rewrite Z.max_r by (destruct Hf; lia). auto.
Qed.

Lemma doSeek_AndNot b l r f n hs : doSeek_correct P (AndNotQueryExecutor b l r f n hs).
Proof using laws.
  intros D id Hv (DL & DR & HD & HL & HR) Hid Hr Hcur. cbn in *.
  destruct (AndNot.andNot_doSeek_ok seek P laws DL DR f hs (AndNot.mkState l r n) id _
              (ltac:(lia) : Z.max 0 (_current b) <= id) Hr HL HR)
    as (d & st & Hev & Hf & HL' & HR').
  do 2 eexists. split; [eapply evals_bind_ok; [exact Hev|reflexivity]|].
  split; [by eapply first_ge_iff|]. intros Hd. exists DL, DR. cbn.
  rewrite Z.max_r by (destruct Hf; lia). auto.
Qed.

Lemma doSeek_WeakAnd b cs m n h hs : doSeek_correct P (WeakAndQueryExecutor b cs m n h hs).
Proof using laws.
  intros D id Hv (Ds & HD & -> & Hh & Hfirst) Hid Hr Hcur. cbn in *.
  destruct (WeakAnd.weakAnd_doSeek_ok seek P laws Ds m moveToEnd cs h id _ Hh
              ltac:(lia) ltac:(lia) Hr) as (d & cs' & h' & Hev & Hf & Hp & Hl).
  do 2 eexists. split; [eapply evals_bind_ok; [exact Hev|reflexivity]|].
  split; [by eapply first_ge_iff|]. intros Hd. destruct (Hp Hd) as [Hh' Hfirst'].
  exists Ds. cbn. rewrite Z.max_r by (destruct Hf; lia). auto.
Qed.

Lemma doSeek_BitmapAnd b q bs : doSeek_correct P (BitmapAndQueryExecutor b q bs).
Proof using laws QB_test_laws.
  intros D id Hv (Dq & Bs & HD & Hne & HP & Hbs) Hid Hr Hcur. cbn in *.
  destruct (BitmapAnd.bitmapAnd_doSeek_ok seek (fun _ => bt_test) P laws bitmap_at bt_test_laws
              Dq Bs moveToEnd bt_moveToEnd q bs id _
              (ltac:(lia) : Z.max 0 (_current b) <= id) Hr Hne HP Hbs)
    as (d & q' & bs' & Hev & Hf & Hp).
  do 2 eexists. split; [eapply evals_bind_ok; [exact Hev|reflexivity]|].
  split; [by eapply first_ge_iff|]. intros Hd. destruct (Hp Hd) as [HP' Hbs'].
  exists Dq, Bs. cbn. rewrite Z.max_r by (destruct Hf; lia). split; [done|].
  split; [|done]. intros ->. inversion Hbs'; subst. by inversion Hbs; subst.
Qed.

Lemma doSeek_with_ok e : doSeek_correct P e.
Proof using laws Q_laws QB_laws QB_test_laws.
  destruct e; auto using doSeek_Term, doSeek_RangeTerm, doSeek_BitmapTerm, doSeek_DocIds,
    doSeek_Range, doSeek_PK, doSeek_And, doSeek_Or, doSeek_AndNot, doSeek_WeakAnd,
    doSeek_BitmapAnd.
Qed.
End Composite.

(** [seek] keeps its contract on trees of every depth. *)
Lemma seek_pos_laws n : seek_laws seek (pos n).
Proof using Q_laws QB_laws QB_test_laws.
  induction n as [|n IH].
  { split; cbn; done. }
  pose proof (seek_with_laws base setBase (fun f => doSeek_with (seek f) f) (inner (pos n))
                base_setBase) as [H1 H2 H3].
  { intros e D id. apply (doSeek_with_ok (pos n) IH e D id). }
  split; [exact H1 | exact H2|]. intros e D lo id HP Hlo Hid.
  destruct (H3 e D lo id HP Hlo Hid) as (d & e' & Hev & Hd). exists d, e'. split; [|exact Hd].
  apply evals_S. exact Hev.
Qed.

(** *** Depth *)

Lemma inner_impl P P' e D :
  (forall e D lo, P e D lo -> P' e D lo) -> inner P e D -> inner P' e D.
Proof.
  intros HP. assert (Hentries : forall Ds cs lo es, entries_ok P Ds cs lo es -> entries_ok P' Ds cs lo es).
  { intros Ds cs lo es [l i a]. split; [done..|]. eapply Forall_impl; [exact a|].
    intros en (c & Di & ? & ? & ? & ?). exists c, Di. auto. }
  destruct e; cbn; try done.
  - intros [He Hq]. split; [done|]. destruct queryExecutor as [c|]; [|done].
    destruct Hq as (Dc & ? & ? & Hc). exists Dc. split; [done|]. split; [done|].
    destruct Hc as [[-> Hc]|Hc]; [left; auto | right; done].
  - intros (Ds & ? & ? & Hc). exists Ds. split; [done|]. split; [done|]. intros i Hi.
    destruct (Hc i Hi) as (c & Di & ? & ? & ?). exists c, Di. auto.
  - intros (Ds & ? & ? & [(d0 & es & -> & Hes) Hh Hne] & ?). exists Ds. split; [done|]. split; [done|].
    split; [|done]. split; [|done..]. exists d0, es. auto.
  - intros (DL & DR & ? & HL & HR). exists DL, DR. split; [done|]. split; [auto|].
    unfold AndNot.right_at in *. destruct right as [r|], rightFilter; auto.
  - intros (Ds & ? & ? & [(d0 & es & -> & Hes) Hh Hne] & ?). exists Ds. split; [done|]. split; [done|].
    split; [|done]. split; [|done..]. exists d0, es. auto.
  - intros (Dq & Bs & ? & ? & ? & ?). exists Dq, Bs. auto.
Qed.

Lemma pos_S n e D lo : pos n e D lo -> pos (S n) e D lo.
Proof.
  revert e D lo. induction n as [|n IH]; intros e D lo; [done|].
  intros [Hp Hi]. split; [done|]. intros Hc. eapply inner_impl; [exact IH|]. by apply Hi.
Qed.

Lemma pos_le n m e D lo : pos n e D lo -> (n <= m)%nat -> pos m e D lo.
Proof. intros H Hle. induction Hle; [done|]. by apply pos_S. Qed.

(** [e] is a cursor over [D] that has not been asked for anything. *)
Definition denotes (e : executor) (D : docset) : Prop :=
  getDocId e = INVALID_DOCID /\ exists n, pos n e D 0.

Definition new_at (n : nat) (e : executor) (D : docset) : Prop :=
  getDocId e = INVALID_DOCID /\ pos n e D 0.

Lemma denotes_valid e D : denotes e D -> valid_docset D.
Proof using Q_laws QB_laws QB_test_laws.
  intros [_ [n Hn]]. eapply sl_valid; [apply (seek_pos_laws n)|exact Hn].
Qed.

Lemma denotes_common cs Ds :
  Forall2 denotes cs Ds -> exists n, Forall2 (new_at n) cs Ds.
Proof.
  induction 1 as [|c D cs Ds [Hc [n Hn]] _ [m Hm]].
  - exists O. constructor.
  - exists (n + m)%nat. constructor; [split; [done|]; eapply pos_le; eauto; lia|].
    eapply list.Forall2_impl; [exact Hm|]. intros ? ? []. split; [done|].
    eapply pos_le; eauto; lia.
Qed.

(** A new executor stands before every document. *)
Lemma denotes_new n e D :
  valid_docset D -> _current (base e) = INVALID_DOCID -> inner (pos n) e D -> denotes e D.
Proof.
  intros Hv Hc Hi. split; [done|]. exists (S n). split; [|done]. rewrite Hc. by apply positioned_fresh.
Qed.

(** *** Leaves *)

Lemma new_Term_denotes it m c D : Q it D 0 -> denotes (new_Term it m c) D.
Proof using Q_laws.
  intros HQ. apply (denotes_new 0); [exact (pl_valid _ Q_laws _ _ _ HQ) | done |]. by exists it.
Qed.

Lemma new_RangeTerm_denotes it m c D : filter_laws Q -> Q it D 0 -> denotes (new_RangeTerm it m c) D.
Proof using Q_laws.
  intros Hf HQ. apply (denotes_new 0); [exact (pl_valid _ Q_laws _ _ _ HQ) | done |].
  split; [by exists it|]. intros g Hg. by eapply Hf.
Qed.

Lemma new_BitmapTerm_denotes it m c D :
  QB it D 0 -> denotes (BitmapTermQueryExecutor (new_BitmapTerm it m c)) D.
Proof using QB_laws.
  intros HQ. apply (denotes_new 0); [exact (pl_valid _ QB_laws _ _ _ HQ) | done |]. by exists it.
Qed.

Lemma new_DocIds_denotes ids :
  Forall (fun d => 0 <= d < END_DOCID) ids -> denotes (new_DocIds ids) (fun d => d ∈ ids).
Proof.
  intros Hv. apply (denotes_new 0); [|done|].
  - intros d Hd. rewrite Forall_forall in Hv. auto.
  - cbn. split; [apply (StronglySorted_merge_sort Z.le)|]. split; [|constructor].
    intros d. by rewrite merge_sort_Permutation.
Qed.

Lemma new_Range_denotes rs :
  ranges_ok rs -> Forall (fun r => 0 <= r_begin r /\ r_end r < END_DOCID) rs ->
  denotes (new_Range rs) (range_docs rs).
Proof.
  intros Hok Hv. apply (denotes_new 0); [|done|].
  - intros d Hd. apply Exists_exists in Hd as (r & Hr & ?). rewrite Forall_forall in Hv.
    specialize (Hv r Hr). lia.
  - split; [done|]. split; [done|constructor].
Qed.

Lemma new_PK_denotes q docId D :
  denotes q D -> docId <= END_DOCID -> denotes (new_PK (Some q) docId) (fun d => d = docId /\ D d).
Proof using Q_laws QB_laws QB_test_laws.
  intros Hq Hd. pose proof (denotes_valid _ _ Hq) as Hv. destruct Hq as [_ [n Hn]].
  apply (denotes_new n); [|done|].
  - intros d [_ Hx]. auto.
  - split; [done|]. exists D. split; [done|]. split; [done|]. left. split; [done|].
    intros. by eapply sl_mono; [apply seek_pos_laws|exact Hn|].
Qed.

(** *** AND *)

Lemma stealFilter_new n c D f c' :
  new_at n c D -> stealFilter c = (f, c') ->
  new_at n c' D /\ (forall g, f = Some g -> forall d, 0 <= d < END_DOCID -> D d <-> g d = true) /\
  getDF GDT_CURRENT_CHAIN c' = getDF GDT_CURRENT_CHAIN c.
Proof.
  intros [Hc Hp] Hs.
  destruct c; cbn in Hs; injection Hs as <- <-; try (split; [by split|done]).
  destruct n as [|n]; [done|]. destruct Hp as [Hp Hi]. cbn in *.
  assert (_current b < END_DOCID) as Hlt by (unfold getDocId in Hc; cbn in Hc; rewrite Hc; done).
  destruct (Hi Hlt) as [Hit Hf]. split; [|by split]. split; [done|]. split; [done|].
  intros _. split; [done|]. done.
Qed.

(** After the filters are stolen the sought children and the filters together still mean
    what all children meant. *)
Lemma stealFilters_ok n order cs Ds :
  Forall2 (new_at n) cs Ds -> NoDup order -> Forall (fun i => i < length cs)%nat order ->
  exists sorted filters cs', stealFilters order cs = Ok (sorted, filters, cs') /\
    Forall2 (new_at n) cs' Ds /\ sorted ⊆ order /\
    (forall d, 0 <= d < END_DOCID ->
       (forall i (Di : docset), i ∈ order -> Ds !! i = Some Di -> Di d) <->
       And.docs Ds sorted filters d).
Proof.
  revert cs. induction order as [|i order IH]; intros cs Hcs Hnd Hlt; cbn.
  { exists [], [], cs. split; [done|]. split; [done|]. split; [done|]. intros d _.
    unfold And.docs. split; [|by intros [? _]]. intros H. split; [done|constructor]. }
  apply NoDup_cons in Hnd as [Hni Hnd]. apply Forall_cons_iff in Hlt as [Hi Hlt].
  destruct (lookup_lt_is_Some_2 cs i Hi) as [c Hc].
  destruct (Forall2_lookup_l _ _ _ _ _ Hcs Hc) as (Di & HDi & Hnew).
  destruct (stealFilter c) as [f c'] eqn:Hst.
  destruct (stealFilter_new n c Di f c' Hnew Hst) as (Hnew' & Hf & _).
  destruct (IH (<[i:=c']> cs)) as (sorted & filters & cs' & Hs & Hcs' & Hsub & Hiff).
  { rewrite <- (list_insert_id Ds i Di HDi). by apply Forall2_insert. }
  { done. }
  { by rewrite length_insert. }
  rewrite Hc. cbn [deref res_bind]. rewrite Hst, Hs. cbn [res_bind].
  assert (Hcons : forall d, (forall j (Dj : docset), j ∈ i :: order -> Ds !! j = Some Dj -> Dj d) <->
            Di d /\ (forall j (Dj : docset), j ∈ order -> Ds !! j = Some Dj -> Dj d)).
  { intros d. split.
    - intros H. split; [eapply (H i); [by left|done]|]. intros j Dj Hj. apply H. by right.
    - intros [H1 H2] j Dj [->|Hj]%elem_of_cons HDj; [by simplify_eq|exact (H2 j Dj Hj HDj)]. }
  destruct f as [f|].
  - exists sorted, (f :: filters), cs'. split; [done|]. split; [done|]. split; [set_solver|].
    intros d Hd. rewrite Hcons, (Hiff d Hd), (Hf f eq_refl d Hd). unfold And.docs.
    rewrite Forall_cons_iff. tauto.
  - exists (i :: sorted), filters, cs'. split; [done|]. split; [done|]. split; [set_solver|].
    intros d Hd. rewrite Hcons, (Hiff d Hd). unfold And.docs. split.
    + intros [H1 [H2 H3]]. split; [|done]. intros j Dj [->|Hj]%elem_of_cons HDj;
        [by simplify_eq|exact (H2 j Dj Hj HDj)].
    + intros [H1 H2]. split; [eapply (H1 i); [by left|done]|]. split; [|done].
      intros j Dj Hj. apply H1. by right.
Qed.

Lemma children_at_new n s cs Ds :
  Forall2 (new_at n) cs Ds -> Forall (fun i => i < length cs)%nat s ->
  And.children_at (pos n) Ds s cs 0.
Proof.
  intros Hcs Hs i Hi. rewrite Forall_forall in Hs.
  destruct (lookup_lt_is_Some_2 cs i (Hs i Hi)) as [c Hc].
  destruct (Forall2_lookup_l _ _ _ _ _ Hcs Hc) as (Di & HDi & [_ Hp]). by exists c, Di.
Qed.

(** The documents that all of [Ds] have. *)
Definition inter (Ds : list docset) : docset :=
  fun d => forall i (Di : docset), Ds !! i = Some Di -> Di d.

Lemma new_And_ordered_denotes order cs Ds :
  order ≡ₚ seq 0 (length cs) -> cs <> [] -> Forall2 denotes cs Ds ->
  exists e, new_And_ordered order cs = Ok e /\ denotes e (inter Ds).
Proof using Q_laws QB_laws QB_test_laws.
  intros Hperm Hne Hcs. destruct (denotes_common _ _ Hcs) as [n Hn].
  pose proof (Forall2_length _ _ _ Hn) as Hlen.
  assert (Hlt : Forall (fun i => i < length cs)%nat order).
  { apply Forall_forall. intros i Hi. rewrite Hperm in Hi. apply elem_of_seq in Hi. lia. }
  assert (NoDup order) as Hnd by (rewrite Hperm; apply NoDup_seq).
  destruct order as [|i0 order].
  { apply Permutation_nil_l in Hperm. by destruct cs. }
  apply NoDup_cons in Hnd as [_ Hnd]. pose proof Hlt as Hlt0. apply Forall_cons_iff in Hlt as [Hi0 Hlt].
  destruct (stealFilters_ok n order cs Ds Hn Hnd Hlt) as (s & fs & cs' & Hs & Hcs' & Hsub & Hiff).
  unfold new_And_ordered. rewrite Hs. cbn [res_bind]. eexists. split; [reflexivity|].
  destruct (lookup_lt_is_Some_2 Ds i0) as [D0 HD0]; [lia|].
  assert (Hv : valid_docset (inter Ds)).
  { intros d Hd. specialize (Hd i0 D0 HD0). destruct (Forall2_lookup_r _ _ _ _ _ Hcs HD0) as (c & _ & Hc).
    exact (denotes_valid _ _ Hc d Hd). }
  apply (denotes_new n); [done|done|]. exists Ds. split; [|split; [done|]].
  - intros d. destruct (Forall2_lookup_r _ _ _ _ _ Hcs HD0) as (c0 & _ & Hc0).
    assert (Hspl : inter Ds d <-> D0 d /\ forall i (Di : docset), i ∈ order -> Ds !! i = Some Di -> Di d).
    { split; [intros H; split; [exact (H _ _ HD0)|intros i Di _; apply H]|]. intros [H1 H2] i Di HDi.
      assert (i ∈ i0 :: order) as [->|Hi]%elem_of_cons; [|by simplify_eq|exact (H2 i Di Hi HDi)].
      rewrite Hperm. apply elem_of_seq. apply lookup_lt_Some in HDi. lia. }
    rewrite Hspl. split.
    + intros [H1 H2]. pose proof (H1 i0 D0 ltac:(by left) HD0) as H0. split; [done|].
      apply (Hiff d (denotes_valid _ _ Hc0 d H0)). split; [|done]. intros i Di Hi.
      apply H1. by right.
    + intros [H0 H1]. apply (Hiff d (denotes_valid _ _ Hc0 d H0)) in H1 as [H1 H2].
      split; [|done]. intros i Di [->|Hi]%elem_of_cons HDi; [by simplify_eq|exact (H1 i Di Hi HDi)].
  - apply children_at_new; [done|]. rewrite <- (Forall2_length _ _ _ Hcs') in Hlen.
    rewrite <- Hlen in *. apply Forall_forall. intros i [->|Hi]%elem_of_cons; [lia|].
    rewrite Forall_forall in Hlt. apply Hlt, Hsub, Hi.
Qed.

Lemma new_And_denotes cs Ds :
  cs <> [] -> Forall2 denotes cs Ds ->
  exists e, new_And cs = Ok e /\ denotes e (inter Ds).
Proof using Q_laws QB_laws QB_test_laws.
  apply new_And_ordered_denotes. apply merge_sort_Permutation.
Qed.

(** *** OR, WEAKAND *)

Lemma initHeap_key n i : (i <= n)%nat -> key 0 (initHeap n) i = INVALID_DOCID.
Proof.
  intros Hi. unfold key, initHeap. cbn [Nat.add]. destruct i as [|i]; [done|].
  change ((?a :: ?l) !!! S i) with (l !!! i).
  rewrite (list_lookup_total_correct _ _ (mkEntry INVALID_DOCID i)); [done|].
  rewrite list_lookup_fmap, lookup_seq_lt by lia. done.
Qed.

Lemma initHeap_entries n cs Ds :
  Forall2 (new_at n) cs Ds ->
  exists d0 es, initHeap (length cs) = d0 :: es /\ entries_ok (pos n) Ds cs 0 es.
Proof using Q_laws QB_laws QB_test_laws.
  intros Hn. destruct (initHeap_ok seek (pos n) (seek_pos_laws n) Ds cs 0) as (d0 & es & Hi & He & _).
  - symmetry. by eapply Forall2_length.
  - lia.
  - intros i c Di Hc HDi. destruct (Forall2_lookup_lr _ _ _ _ _ _ Hn Hc HDi) as [_ Hp]. done.
  - by exists d0, es.
Qed.

Lemma valid_docset_children cs Ds i (Di : docset) d :
  Forall2 denotes cs Ds -> Ds !! i = Some Di -> Di d -> 0 <= d < END_DOCID.
Proof using Q_laws QB_laws QB_test_laws.
  intros Hcs HDi Hd. destruct (Forall2_lookup_r _ _ _ _ _ Hcs HDi) as (c & _ & Hc).
  exact (denotes_valid _ _ Hc d Hd).
Qed.

Lemma new_Or_denotes cs Ds :
  cs <> [] -> Forall2 denotes cs Ds -> denotes (new_Or cs) (Or.docs Ds).
Proof using Q_laws QB_laws QB_test_laws.
  intros Hne Hcs. destruct (denotes_common _ _ Hcs) as [n Hn].
  apply (denotes_new n); [|done|].
  { intros d (i & Di & HDi & Hd). by eapply valid_docset_children. }
  exists Ds. split; [done|]. split; [done|]. split.
  2: { apply initHeap_key. destruct cs; [done|cbn; lia]. }
  split; [by apply initHeap_entries| |done].
  intros i Hi. pose proof (Nat.div_lt i 2 ltac:(lia) ltac:(lia)). rewrite !initHeap_key by lia. lia.
Qed.

Lemma new_WeakAnd_denotes m cs Ds :
  cs <> [] -> Forall2 denotes cs Ds ->
  denotes (new_WeakAnd m cs) (WeakAnd.docs Ds (Nat.min (Nat.max 1 m) (length cs))).
Proof using Q_laws QB_laws QB_test_laws.
  intros Hne Hcs. destruct (denotes_common _ _ Hcs) as [n Hn].
  assert (1 <= length cs)%nat as Hl by (destruct cs; [done|cbn; lia]).
  apply (denotes_new n); [|done|].
  { intros d (l & _ & Hlen & Hin). destruct l as [|i l]; [cbn in Hlen; lia|].
    destruct (Hin i ltac:(by left)) as (Di & HDi & Hd). by eapply valid_docset_children. }
  exists Ds. split; [done|]. split; [done|]. split; [|apply initHeap_key; lia].
  split; [by apply initHeap_entries| |lia]. split.
  - intros a b Hab Hb. rewrite !initHeap_key by lia. lia.
  - intros i Hi. pose proof (Nat.div_lt i 2 ltac:(lia) ltac:(lia)).
    rewrite !(WeakAnd.key_off (Nat.min (Nat.max 1 m) (length cs) - 1)).
    rewrite !initHeap_key by lia. lia.
Qed.

(** *** ANDNOT *)

Lemma new_AndNot_denotes l r DL DR :
  denotes l DL -> denotes r DR ->
  exists e, new_AndNot l (Some r) = Ok e /\
    denotes e (AndNot.docs DL DR (hasSubDocExecutor r)).
Proof using Q_laws QB_laws QB_test_laws.
  intros Hl Hr. pose proof (denotes_valid _ _ Hl) as Hv.
  destruct (denotes_common [l; r] [DL; DR]) as [n Hn].
  { by rewrite !Forall2_cons. }
  apply Forall2_cons in Hn as [Hl' Hn]. apply Forall2_cons in Hn as [Hr' _].
  unfold new_AndNot. cbn [deref res_bind].
  set (p := if _ <? _ then _ else _). destruct p as [f r'] eqn:Hp.
  assert (new_at n r' DR /\
    (forall g, f = Some g -> forall d, 0 <= d < END_DOCID -> DR d <-> g d = true)) as [Hnew Hf].
  { subst p. destruct (_ <? _); [|by injection Hp as <- <-].
    destruct (stealFilter_new n r DR f r' Hr' Hp) as (? & ? & _). done. }
  eexists. split; [reflexivity|]. apply (denotes_new n); [|done|].
  { intros d [Hd _]. auto. }
  exists DL, DR. split; [done|]. split; [apply Hl'|]. cbn.
  destruct f as [f|]; [by apply Hf|apply Hnew].
Qed.

(** *** Bitmap AND *)

(** A new bitmap term may be tested from the first document on. *)
Definition new_bitmap (t : bitmap_term) (D : docset) : Prop :=
  _current (bt_base t) = INVALID_DOCID /\ valid_docset D /\ bitmap_at t D 0.

Lemma denotes_bitmap t D :
  denotes (BitmapTermQueryExecutor t) D -> new_bitmap t D.
Proof using Q_laws QB_laws QB_test_laws.
  intros H. pose proof (denotes_valid _ _ H) as Hv. destruct H as [Hc [[|n] Hp]]; [done|].
  destruct Hp as [_ Hi]. unfold getDocId in Hc. cbn in Hc, Hi. split; [done|]. split; [done|].
  rewrite Hc in Hi. by apply Hi.
Qed.

Lemma new_bitmap_denotes t D : new_bitmap t D -> denotes (BitmapTermQueryExecutor t) D.
Proof.
  intros (Hc & Hv & Ha). apply (denotes_new 0); [done..|]. cbn. by rewrite Hc.
Qed.

Lemma splitBitmaps_ok cs Ds bs es :
  Forall2 denotes cs Ds -> splitBitmaps cs = (bs, es) ->
  exists DBs DEs, Forall2 new_bitmap bs DBs /\ Forall2 denotes es DEs /\ Ds ≡ₚ DBs ++ DEs.
Proof using Q_laws QB_laws QB_test_laws.
  intros H. revert bs es. induction H as [|c D cs Ds Hc _ IH]; intros bs es; cbn.
  { intros [= <- <-]. by exists [], []. }
  destruct (splitBitmaps cs) as [bs' es'].
  destruct (IH _ _ eq_refl) as (DBs & DEs & Hb & He & HDs).
  assert (Hother : (bs, es) = (bs', c :: es') ->
    exists DBs DEs, Forall2 new_bitmap bs DBs /\ Forall2 denotes es DEs /\ D :: Ds ≡ₚ DBs ++ DEs).
  { intros [= -> ->]. exists DBs, (D :: DEs). split; [done|]. split; [by constructor|].
    by rewrite HDs, Permutation_middle. }
  destruct c; intros Heq; try (apply Hother; done).
  injection Heq as <- <-. exists (D :: DBs), DEs. split; [|split; [done|by rewrite HDs]].
  constructor; [by apply denotes_bitmap|done].
Qed.

Lemma Forall2_perm_l {X Y : Type} (R : X -> Y -> Prop) xs xs' ys :
  Forall2 R xs ys -> xs' ≡ₚ xs -> exists ys', Forall2 R xs' ys' /\ ys' ≡ₚ ys.
Proof.
  intros H Hp. symmetry in Hp. revert ys H.
  induction Hp as [|x l l' _ IH|x y l|l l' l'' _ IH1 _ IH2]; intros ys H.
  - inversion H; subst. by exists [].
  - inversion H as [|? y ? ys' ? H' ]; subst. destruct (IH ys' H') as (ys'' & ? & Hp).
    exists (y :: ys''). split; [by constructor|by rewrite Hp].
  - inversion H as [|? a ? ys1 Ha H1]; subst. inversion H1 as [|? b ? ys2 Hb H2]; subst.
    exists (b :: a :: ys2). split; [by repeat constructor|by constructor].
  - destruct (IH1 _ H) as (ys' & H' & ?). destruct (IH2 _ H') as (ys'' & ? & ?).
    exists ys''. split; [done|by etrans].
Qed.

Lemma inter_perm Ds Ds' d : Ds ≡ₚ Ds' -> inter Ds d <-> Forall (fun Di : docset => Di d) Ds'.
Proof.
  intros Hp. rewrite <- Hp. unfold inter. rewrite Forall_lookup. done.
Qed.

Lemma bitmapAnd_of_denotes q Dq bs DBs Ds :
  denotes q Dq -> Forall2 new_bitmap bs DBs -> bs <> [] ->
  (forall d, inter Ds d <-> BitmapAnd.docs Dq DBs d) ->
  denotes (bitmapAnd_of q bs) (inter Ds).
Proof using Q_laws QB_laws QB_test_laws.
  intros Hq Hb Hne Hiff. pose proof (denotes_valid _ _ Hq) as Hv. destruct Hq as [_ [n Hn]].
  apply (denotes_new n); [|done|].
  - intros d [Hd _]%Hiff. auto.
  - exists Dq, DBs. split; [intros d; by rewrite Hiff|]. split; [done|]. split; [done|].
    eapply list.Forall2_impl; [exact Hb|]. intros t D (_ & _ & ?). done.
Qed.

Lemma new_BitmapAnd_denotes cs Ds :
  Forall2 denotes cs Ds -> (2 <= length cs)%nat -> fst (splitBitmaps cs) <> [] ->
  exists e, new_BitmapAnd cs = Ok e /\ denotes e (inter Ds).
Proof using Q_laws QB_laws QB_test_laws.
  intros Hcs Hlen Hne. unfold new_BitmapAnd.
  destruct (splitBitmaps cs) as [bs0 es] eqn:Hsplit. cbn in Hne.
  destruct (splitBitmaps_ok cs Ds bs0 es Hcs Hsplit) as (DBs0 & DEs & Hb0 & He & HDs0).
  pose proof (merge_sort_Permutation bt_df_le bs0) as Hp.
  destruct (Forall2_perm_l _ _ _ _ Hb0 Hp) as (DBs & Hb & HpD).
  set (bs := merge_sort bt_df_le bs0) in *.
  assert (Ds ≡ₚ DBs ++ DEs) as HDs by (by rewrite HpD).
  assert (bs <> []) as Hbs.
  { intros Heq. rewrite Heq in Hp. by apply Permutation_nil_l in Hp. }
  clearbody bs.
  destruct es as [|e [|e' es]].
  - destruct bs as [|t bs']; [done|].
    inversion Hb as [|? Dt ? DBs' Ht Hb']; subst. inversion He; subst.
    eexists. split; [reflexivity|]. eapply bitmapAnd_of_denotes.
    + apply new_bitmap_denotes, Ht.
    + exact Hb'.
    + intros ->. apply Forall2_length in Hcs. apply Permutation_length in HDs.
      inversion Hb'; subst. cbn in HDs. lia.
    + intros d. rewrite (inter_perm _ _ _ HDs), app_nil_r, Forall_cons_iff. done.
  - inversion He as [|? De ? ? Hde He']; subst. inversion He'; subst.
    eexists. split; [reflexivity|]. eapply bitmapAnd_of_denotes; [exact Hde|exact Hb|done|].
    intros d. rewrite (inter_perm _ _ _ HDs), Forall_app, Forall_cons_iff, Forall_nil.
    unfold BitmapAnd.docs. tauto.
  - destruct (new_And_denotes (e :: e' :: es) DEs) as (q & Hq & Hdq); [done..|].
    rewrite Hq. cbn [res_bind]. eexists. split; [reflexivity|].
    eapply bitmapAnd_of_denotes; [exact Hdq|exact Hb|done|].
    intros d. rewrite (inter_perm _ _ _ HDs), Forall_app. unfold BitmapAnd.docs.
    rewrite (inter_perm DEs DEs d) by done. tauto.
Qed.

(** *** Sequences of seeks *)

(** The calls a searcher makes: document ids that do not go back. *)
Definition forward (lo : docid_t) (ids : list docid_t) : Prop :=
  StronglySorted Z.le ids /\ Forall (fun id => lo <= id <= END_DOCID) ids.

Fixpoint seeks (fuel : nat) (e : executor) (ids : list docid_t) : res (list docid_t * executor) :=
  match ids with
  | [] => Ok ([], e)
  | id :: ids' =>
      let! (d, e') := seek fuel e id in
      let! (ds, e'') := seeks fuel e' ids' in
      Ok (d :: ds, e'')
  end.

(** Every forward sequence of seeks returns, with the first document of [D] from each id on. *)
Definition cursor_over (e : executor) (D : docset) : Prop :=
  forall ids, forward 0 ids ->
    exists ds e', evals (fun f => seeks f e ids) (ds, e') /\ Forall2 (first_ge D) ids ds.

Lemma seeks_ok n e D lo ids :
  pos n e D lo -> 0 <= lo -> forward lo ids ->
  exists ds e', evals (fun f => seeks f e ids) (ds, e') /\ Forall2 (first_ge D) ids ds.
Proof using Q_laws QB_laws QB_test_laws.
  intros Hp Hlo [Hs Hf]. revert e lo Hp Hlo Hf.
  induction Hs as [|id ids Hs IH Hid]; intros e lo Hp Hlo Hf.
  { exists [], e. split; [apply evals_ret|constructor]. }
  apply Forall_cons_iff in Hf as [H1 H2].
  destruct (sl_seek _ _ (seek_pos_laws n) e D lo id Hp ltac:(lia) ltac:(lia))
    as (d & e' & Hev & Hd & Hp').
  destruct (IH e' id Hp' ltac:(lia)) as (ds & e'' & Hev' & Hds).
  { rewrite Forall_forall in *. intros x Hx. specialize (Hid x Hx). specialize (H2 x Hx). lia. }
  exists (d :: ds), e''. split; [|by constructor].
  eapply evals_bind; [exact Hev|]. cbv beta iota. eapply evals_bind_ok; [exact Hev'|done].
Qed.

Lemma denotes_cursor e D : denotes e D -> cursor_over e D.
Proof using Q_laws QB_laws QB_test_laws.
  intros [_ [n Hp]] ids Hf. eapply seeks_ok; [exact Hp|lia|exact Hf].
Qed.
End Correct.

(** ** A posting iterator over a list of documents

    Shows that the contracts of the posting iterators can be met: the first list is the whole
    posting list, the second what is left of it. *)

Definition list_iter : Type := list docid_t * list docid_t.

Fixpoint list_seek (ids : list docid_t) (id : docid_t) : docid_t * list docid_t :=
  match ids with
  | [] => (INVALID_DOCID, [])
  | x :: ids' => if id <=? x then (x, ids') else list_seek ids' id
  end.

#[export] Instance list_PostingIterator : PostingIterator list_iter := {
  SeekDoc it id := let '(d, rest) := list_seek (snd it) id in Ok (d, (fst it, rest));
  Clone it := (fst it, fst it)
}.

#[export] Instance list_SeekAndFilterIterator : SeekAndFilterIterator list_iter := {
  GetDocValueFilter it := Some (fun d => existsb (Z.eqb d) (fst it));
  GetSeekDocCount it := 0
}.

#[export] Instance list_BitmapPostingIterator : BitmapPostingIterator list_iter := {
  Test it d := Ok (existsb (Z.eqb d) (fst it), it)
}.

Definition list_at (it : list_iter) (D : docset) (lo : docid_t) : Prop :=
  StronglySorted Z.lt (fst it) /\ Forall (fun d => 0 <= d < END_DOCID) (fst it) /\
  (forall d, d ∈ fst it <-> D d) /\
  exists pre, fst it = pre ++ snd it /\ Forall (fun d => d < lo) pre.

Lemma list_seek_ok ids id :
  StronglySorted Z.lt ids ->
  exists pre, (list_seek ids id = (INVALID_DOCID, []) /\ Forall (fun d => d < id) ids) \/
    exists x rest, list_seek ids id = (x, rest) /\ ids = pre ++ x :: rest /\ id <= x /\
      Forall (fun d => d < id) pre.
Proof.
  induction ids as [|y ids IH]; intros Hs; cbn.
  { exists []. left. by split. }
  apply StronglySorted_inv in Hs as [Hs Hy]. destruct (Z.leb_spec id y).
  - exists []. right. by exists y, ids.
  - destruct (IH Hs) as (pre & [[-> Hf]|(x & rest & -> & -> & Hx & Hf)]).
    + exists []. left. by split; [|constructor].
    + exists (y :: pre). right. exists x, rest. split_and!; try done. by constructor.
Qed.

Lemma list_posting_laws : posting_laws list_at.
Proof.
  split.
  - intros it D lo (_ & Hv & HD & _) d Hd%HD. rewrite Forall_forall in Hv. auto.
  - intros it D lo lo' (Hs & Hv & HD & pre & Hpre & Hf) Hlo. split; [done|]. split; [done|].
    split; [done|]. exists pre. split; [done|]. eapply Forall_impl; [exact Hf|]. cbn. lia.
  - intros [full rest] D lo id (Hs & Hv & HD & pre & Hpre & Hf) Hlo Hid. cbn in *. subst full.
    assert (StronglySorted Z.lt rest) as Hsr by (by eapply StronglySorted_app_1_r).
    assert (forall y, y ∈ pre -> y < id) as Hpre.
    { intros y Hy. rewrite Forall_forall in Hf. specialize (Hf y Hy). lia. }
    destruct (list_seek_ok rest id Hsr) as (mid & [[-> Hn]|(x & r & -> & -> & Hx & Hmid)]).
    + do 2 eexists. split; [reflexivity|]. left. split; [done|].
      intros y Hy [Hy'|Hy']%HD%elem_of_app; [specialize (Hpre y Hy'); lia|].
      rewrite Forall_forall in Hn. specialize (Hn y Hy'). lia.
    + assert (x ∈ pre ++ mid ++ x :: r) as Hin by set_solver.
      assert (0 <= x < END_DOCID) as Hxr by (rewrite Forall_forall in Hv; auto).
      do 2 eexists. split; [reflexivity|]. right. split; [done|]. split.
      * split; [done|lia|intros; by apply HD|]. intros y Hy Hy'%HD.
        apply elem_of_app in Hy' as [Hy'|Hy']; [specialize (Hpre y Hy'); lia|].
        apply StronglySorted_app in Hsr as (_ & _ & Hsr).
        apply elem_of_app in Hy' as [Hy'|Hy'].
        { rewrite Forall_forall in Hmid. specialize (Hmid y Hy'). lia. }
        apply elem_of_cons in Hy' as [->|Hy']; [lia|].
        apply StronglySorted_inv in Hsr as [_ Hsr].
        rewrite Forall_forall in Hsr. specialize (Hsr y Hy'). lia.
      * split; [done|]. split; [done|]. split; [done|]. exists (pre ++ mid ++ [x]). cbn.
        split; [by rewrite <- !app_assoc|]. rewrite !Forall_app. split_and!.
        -- eapply Forall_impl; [exact Hf|]. cbn. lia.
        -- eapply Forall_impl; [exact Hmid|]. cbn. lia.
        -- constructor; [lia|constructor].
  - intros it D lo (Hs & Hv & HD & _). split; [done|]. split; [done|]. split; [done|].
    exists []. by split.
Qed.

Lemma existsb_elem_of d ids : existsb (Z.eqb d) ids = true <-> d ∈ ids.
Proof.
  rewrite existsb_exists. split.
  - intros (x & Hx & ->%Z.eqb_eq). by apply list_elem_of_In.
  - intros Hd. exists d. rewrite Z.eqb_refl. split; [by apply list_elem_of_In|done].
Qed.

Lemma list_test_laws : posting_test_laws list_at.
Proof.
  split.
  - apply list_posting_laws.
  - intros it D lo d Hat Hlo Hd. do 2 eexists. split; [reflexivity|]. split.
    + rewrite existsb_elem_of. apply Hat.
    + by eapply list_posting_laws.
Qed.

Lemma list_filter_laws : filter_laws list_at.
Proof.
  intros it D lo f Hat [= <-] d _. rewrite existsb_elem_of. symmetry. apply Hat.
Qed.

(** A fresh iterator over a concrete list. *)
Lemma list_at_new ids :
  StronglySorted Z.lt ids -> Forall (fun d => 0 <= d < END_DOCID) ids ->
  list_at (ids, ids) (fun d => d ∈ ids) 0.
Proof. intros. split; [done|]. split; [done|]. split; [done|]. by exists []. Qed.
