(* ===== verification/SingleLayerSearcher.v ===== *)
(** * Searching one layer

    [SingleLayerSearcher] (src/aios/ha3/ha3/search/single_layer_searcher) drives a query
    executor over the document ranges of a layer, drops deleted and filtered documents and
    stops when the quota is used up. [LayerMetaWrapper] and [QueryExecutorRestrictor]
    (src/aios/ha3/ha3/search/query_executor/QueryExecutorRestrictor.cpp) restrict single
    seeks to the ranges of a layer. The executor is of an arbitrary type with
    [QueryExecutor.seek_laws]. Sub documents and match data are not modelled. *)

From stdpp Require Import base list numbers option tactics sorting.
From Stdlib Require Import ZArith Lia ZifyNat.
From S2P Require Import Prelude QueryExecutor MultiExecutors ExecutorTree ExecutorCorrect.

#[local] Open Scope Z_scope.

(** ** Restricting to the ranges of a layer *)

Module Restrictor.
(** [class LayerMetaWrapper] *)
Record LayerMetaWrapper := mkWrapper {
  w_layerMeta : LayerMeta;
  w_offset : nat
}.

Definition new_LayerMetaWrapper (layerMeta : LayerMeta) : LayerMetaWrapper := mkWrapper layerMeta 0.

(** The [while] loop of [seek]: the first range from [offset] on that does not end before
    [curDocId]. *)
Fixpoint skipRanges (ranges : LayerMeta) (offset : nat) (curDocId : docid_t) : nat :=
  match ranges with
  | [] => offset
  | r :: ranges' => if r_end r <? curDocId then skipRanges ranges' (S offset) curDocId else offset
  end.

Definition seek (w : LayerMetaWrapper) (curDocId : docid_t) : docid_t * LayerMetaWrapper :=
  let offset := skipRanges (drop (w_offset w) (w_layerMeta w)) (w_offset w) curDocId in
  (match w_layerMeta w !! offset with
   | Some r => Z.max curDocId (r_begin r)
   | None => END_DOCID
   end, mkWrapper (w_layerMeta w) offset).

Definition reset (w : LayerMetaWrapper) : LayerMetaWrapper := mkWrapper (w_layerMeta w) 0.

(** [QueryExecutorRestrictor::meetRestrict]: [timeout] is what [checkRestrictTimeout] answers,
    [None] without a terminator. *)
Definition meetRestrict (timeout : option bool) (w : option LayerMetaWrapper) (curDocId : docid_t)
    : docid_t * option LayerMetaWrapper :=
  match timeout with
  | Some true => (END_DOCID, w)
  | _ =>
      match w with
      | Some w => let '(d, w') := seek w curDocId in (d, Some w')
      | None => (curDocId, None)
      end
  end.

(** The ranges before the offset end before [lo]. *)
Definition wrapper_at (ranges : LayerMeta) (lo : docid_t) (w : LayerMetaWrapper) : Prop :=
  w_layerMeta w = ranges /\ Forall (fun r => r_end r < lo) (take (w_offset w) ranges).

Lemma skipRanges_ok rs off id :
  exists k, skipRanges rs off id = (off + k)%nat /\ Forall (fun r => r_end r < id) (take k rs) /\
    (forall r, rs !! k = Some r -> id <= r_end r).
Proof.
  revert off. induction rs as [|r rs IH]; intros off; cbn.
  { exists 0%nat. split; [lia|]. split; [constructor|done]. }
  destruct (Z.ltb_spec (r_end r) id).
  - destruct (IH (S off)) as (k & -> & Hk & Hn). exists (S k). split; [lia|].
    split; [by constructor|done].
  - exists 0%nat. split; [lia|]. split; [constructor|]. intros r' [= <-]. lia.
Qed.

(** For calls that do not go back, the answer is the first document id of the layer's ranges
    from [id] on. *)
Lemma wrapper_seek_ok ranges lo w id :
  ranges_ok ranges -> Forall (fun r => r_end r < END_DOCID) ranges -> wrapper_at ranges lo w ->
  lo <= id <= END_DOCID ->
  exists d w', seek w id = (d, w') /\ first_ge (range_docs ranges) id d /\ wrapper_at ranges id w'.
Proof.
  intros [Hne Hs] Hend [Hw Hbefore] Hid. unfold seek. rewrite Hw.
  destruct (skipRanges_ok (drop (w_offset w) ranges) (w_offset w) id) as (k & -> & Hk & Hnext).
  set (off := w_offset w) in *. rewrite lookup_drop in Hnext.
  assert (Hall : Forall (fun r => r_end r < id) (take (off + k) ranges)).
  { rewrite <- take_take_drop. apply Forall_app. split; [|done].
    eapply Forall_impl; [exact Hbefore|]. cbn. lia. }
  do 2 eexists. split; [reflexivity|]. split; [|by split].
  rewrite Forall_forall in Hne, Hend, Hall.
  assert (Hbehind : forall j r, (j < off + k)%nat -> ranges !! j = Some r -> r_end r < id).
  { intros j r Hj Hr. apply (Hall r), list_elem_of_lookup. exists j. by rewrite lookup_take_lt. }
  destruct (ranges !! (off + k)%nat) as [r|] eqn:Hr.
  - specialize (Hnext r eq_refl). pose proof (list_elem_of_lookup_2 _ _ _ Hr) as Hin.
    pose proof (Hne r Hin) as Hbe. pose proof (Hend r Hin) as He. cbn in Hbe, He. split; [lia..| |].
    + intros _. apply Exists_exists. exists r. split; [done|lia].
    + intros x Hx Hd. apply Exists_exists in Hd as (r' & [j Hj]%list_elem_of_lookup & Hr').
      destruct (Nat.lt_trichotomy j (off + k)) as [Hlt|[->|Hgt]].
      * specialize (Hbehind j r' Hlt Hj). lia.
      * simplify_eq. lia.
      * pose proof (StronglySorted_lookup_lt _ ranges _ j r r' Hs Hr Hj Hgt) as Hlt. cbn in Hlt. lia.
  - apply first_ge_END; [|lia]. intros x Hx Hd.
    apply Exists_exists in Hd as (r' & [j Hj]%list_elem_of_lookup & Hr').
    apply lookup_ge_None in Hr. pose proof (lookup_lt_Some _ _ _ Hj).
    specialize (Hbehind j r' ltac:(lia) Hj). lia.
Qed.
End Restrictor.

(** ** The searcher *)

(** [ds] are the first [q] documents of [D] from [lo] on, in order; all of them if there are
    fewer than [q]. *)
Record first_docs (D : docset) (lo : docid_t) (q : Z) (ds : list docid_t) : Prop := {
  fd_sorted : StronglySorted Z.lt ds;
  fd_in : Forall (fun d => D d /\ lo <= d) ds;
  fd_length : Z.of_nat (length ds) <= q;
  fd_all x : D x -> lo <= x ->
    x ∈ ds \/ Z.of_nat (length ds) = q /\ Forall (fun d => d < x) ds
}.

Lemma first_docs_cons (D : docset) lo q d ds :
  lo <= d -> D d -> gap D lo d -> 0 < q -> first_docs D (d + 1) (q - 1) ds ->
  first_docs D lo q (d :: ds).
Proof.
  intros Hlo Hd Hg Hq [s i l a]. rewrite Forall_forall in i. split.
  - constructor; [done|]. apply Forall_forall. intros x Hx. specialize (i x Hx). cbn in i. lia.
  - constructor; [by split|]. apply Forall_forall. intros x Hx. specialize (i x Hx). cbn in i.
    split; [apply i|lia].
  - cbn [length]. lia.
  - intros x Hx Hlox. destruct (Z.lt_trichotomy x d) as [Hlt|[->|Hgt]].
    + exfalso. apply (Hg x); [lia|done].
    + left. by left.
    + destruct (a x Hx ltac:(lia)) as [Hin|[Hlen Hall]]; [left; by right|right].
      cbn [length]. split; [lia|by constructor].
Qed.

(** [enum QuotaMode] *)
Inductive QuotaMode := QM_PER_DOC | QM_PER_LAYER.
#[global] Instance QuotaMode_eq_dec : EqDecision QuotaMode.
Proof. solve_decision. Defined.

Module Searcher.

(** The fields of [SingleLayerSearcher] that change, and those of the layer it writes to. *)
Record state {E : Type} := mkState {
  _curDocId : docid_t;
  _curBegin : docid_t;
  _curEnd : docid_t;
  _curQuota : Z;
  _cursorNextBegin : docid_t;
  _rangeCursor : nat;
  _queryExecutor : E;
  _layerMeta : LayerMeta;
  _seekTimes : Z
}.
Arguments state : clear implicits.
Arguments mkState {E} _ _ _ _ _ _ _ _ _.

Definition setNextBegin (d : docid_t) (r : DocIdRangeMeta) : DocIdRangeMeta :=
  mkRange d (r_end r) (r_quota r) (r_begin r) (r_ordered r).
Definition clearQuota (r : DocIdRangeMeta) : DocIdRangeMeta :=
  mkRange (r_nextBegin r) (r_end r) 0 (r_begin r) (r_ordered r).

(** The index of the first range that has documents left. *)
Fixpoint findRange (ranges : LayerMeta) (cursor : nat) : nat :=
  match ranges with
  | [] => cursor
  | r :: ranges' => if r_nextBegin r <=? r_end r then cursor else findRange ranges' (S cursor)
  end.

Section Ops.
Context {E : Type}.
Context (quotaMode : QuotaMode).
Context (seekWithoutCheck : nat -> E -> docid_t -> res (docid_t * E)) (resetE : nat -> E -> res E).
(** [_deletionMapReader->IsDeleted] and [_filterWrapper->pass]; [None] for a null pointer. *)
Context (isDeleted : option (docid_t -> bool)) (pass : option (docid_t -> bool)).

(** The constructor. *)
Definition new_searcher (e : E) (layerMeta : LayerMeta) (maxQuota : Z) : res (state E) :=
  let! r := deref (layerMeta !! 0%nat) in
  match quotaMode with
  | QM_PER_LAYER =>
      Ok (mkState (r_nextBegin r) (r_nextBegin r) (r_end r) maxQuota (r_nextBegin r) 0 e layerMeta 0)
  | QM_PER_DOC =>
      Ok (mkState (r_nextBegin r) (r_nextBegin r) (r_end r) (r_quota r) (r_nextBegin r) 0 e
            (<[0%nat := clearQuota r]> layerMeta) 0)
  end.

(** [moveToNextRange]: record where the search of the current range stopped, go to the next
    range that has documents left and take over its quota. *)
Definition moveToNextRange (s : state E) : res (bool * state E) :=
  let! r := deref (_layerMeta s !! _rangeCursor s) in
  let stop := if 0 <? _curQuota s then _curEnd s + 1 else _cursorNextBegin s in
  let layerMeta := <[_rangeCursor s := setNextBegin stop r]> (_layerMeta s) in
  let cursor := findRange (drop (S (_rangeCursor s)) layerMeta) (S (_rangeCursor s)) in
  match layerMeta !! cursor with
  | Some r' =>
      Ok (true, mkState (_curDocId s) (r_nextBegin r') (r_end r') (u32 (_curQuota s + r_quota r'))
                  (r_nextBegin r') cursor (_queryExecutor s)
                  (<[cursor := clearQuota r']> layerMeta) (_seekTimes s))
  | None =>
      Ok (false, mkState (_curDocId s) (_curBegin s) (_curEnd s) (_curQuota s)
                   (_cursorNextBegin s) cursor (_queryExecutor s) layerMeta (_seekTimes s))
  end.

(** [moveBack]: with quota left, start again at the first range that has documents left. *)
Definition moveBack (fuel : nat) (s : state E) : res (bool * state E) :=
  if bool_decide (quotaMode <> QM_PER_DOC) || (_curQuota s =? 0) then Ok (false, s)
  else
    let i := findRange (_layerMeta s) 0 in
    match _layerMeta s !! i with
    | Some r =>
        let! e := resetE fuel (_queryExecutor s) in
        Ok (true, mkState (r_nextBegin r) (r_nextBegin r) (r_end r) (_curQuota s) (r_nextBegin r)
                    i e (_layerMeta s) (_seekTimes s))
    | None => Ok (false, s)
    end.

Definition setCursorNextBegin (d : docid_t) (s : state E) : state E :=
  mkState (_curDocId s) (_curBegin s) (_curEnd s) (_curQuota s) d (_rangeCursor s)
    (_queryExecutor s) (_layerMeta s) (_seekTimes s).
Definition setExecutor (e : E) (s : state E) : state E :=
  mkState (_curDocId s) (_curBegin s) (_curEnd s) (_curQuota s) (_cursorNextBegin s) (_rangeCursor s)
    e (_layerMeta s) (_seekTimes s).
Definition setCurDocId (d : docid_t) (s : state E) : state E :=
  mkState d (_curBegin s) (_curEnd s) (_curQuota s) (_cursorNextBegin s) (_rangeCursor s)
    (_queryExecutor s) (_layerMeta s) (_seekTimes s).
Definition countSeekTimes (s : state E) : state E :=
  mkState (_curDocId s) (_curBegin s) (_curEnd s) (_curQuota s) (_cursorNextBegin s) (_rangeCursor s)
    (_queryExecutor s) (_layerMeta s) (u32 (_seekTimes s + 1)).
Definition useQuota (s : state E) : state E :=
  mkState (_curDocId s) (_curBegin s) (_curEnd s) (u32 (_curQuota s - 1)) (_cursorNextBegin s)
    (_rangeCursor s) (_queryExecutor s) (_layerMeta s) (_seekTimes s).

(** One iteration of [moveToCorrectRange]; the loop is left with the return value and [docId]. *)
Definition moveToCorrectRange_body (fuel : nat) (docId : docid_t) (s : state E)
    : res (state E + bool * docid_t * state E) :=
  let! (moved, s1) := moveToNextRange s in
  if negb moved then
    let! (back, s2) := moveBack fuel s1 in
    Ok (inr (false, if back then _curBegin s2 else END_DOCID, s2))
  else if (_curEnd s1 <? docId) || (_curQuota s1 =? 0) then Ok (inl s1)
  else if docId <? _curBegin s1 then Ok (inr (false, _curBegin s1, s1))
  else Ok (inr (true, docId, setCursorNextBegin (docId + 1) s1)).

Definition moveToCorrectRange (fuel : nat) (docId : docid_t) (s : state E)
    : res (bool * docid_t * state E) :=
  iter fuel (moveToCorrectRange_body fuel docId) s.

Definition tryToMakeItInRange (fuel : nat) (docId : docid_t) (s : state E)
    : res (bool * docid_t * state E) :=
  if (0 <? _curQuota s) && (docId <=? _curEnd s)
  then Ok (true, docId, setCursorNextBegin (docId + 1) s)
  else moveToCorrectRange fuel docId s.

Definition test (p : option (docid_t -> bool)) (dflt : bool) (d : docid_t) : bool :=
  match p with Some f => f d | None => dflt end.

(** One iteration of the loop of [seek] on the local [docId]; [timeout k] is what
    [_timeoutTerminator->checkTimeout()] answers in iteration [k]. The loop is left with the
    matched document, or with [None] at the end or when the time is up. *)
Definition seek_body (fuel : nat) (timeout : nat -> bool) (ds : nat * docid_t * state E)
    : res (nat * docid_t * state E + option docid_t * state E) :=
  let '(k, docId, s) := ds in
  if timeout k then Ok (inr (None, setCurDocId docId s))
  else
    let! (d, e) := seekWithoutCheck fuel (_queryExecutor s) docId in
    let! (inRange, d, s) := tryToMakeItInRange fuel d (setExecutor e s) in
    if negb inRange then
      if d =? END_DOCID then Ok (inr (None, setCurDocId d s)) else Ok (inl (S k, d, s))
    else
      let s := countSeekTimes s in
      if test isDeleted false d then Ok (inl (S k, d + 1, s))
      else if test pass true d then Ok (inr (Some d, setCurDocId (d + 1) (useQuota s)))
      else Ok (inl (S k, d + 1, s)).

(** [seek(needSubDoc = false)] without match data. *)
Definition seek (fuel : nat) (timeout : nat -> bool) (s : state E) : res (option docid_t * state E) :=
  iter fuel (seek_body fuel timeout) (0%nat, _curDocId s, s).

(** Call [seek] until it finds nothing, at most [n] times. *)
Fixpoint search (n fuel : nat) (timeout : nat -> bool) (s : state E)
    : res (list docid_t * state E) :=
  match n with
  | O => Ok ([], s)
  | S n' =>
      let! (m, s1) := seek fuel timeout s in
      match m with
      | None => Ok ([], s1)
      | Some d => let! (ds, s2) := search n' fuel timeout s1 in Ok (d :: ds, s2)
      end
  end.

(** [getLeftQuotaInTheEnd] *)
Definition getLeftQuotaInTheEnd (quota maxQuota : Z) (s : state E) : Z :=
  match quotaMode with
  | QM_PER_LAYER =>
      let usedQuota := u32 (maxQuota - _curQuota s) in
      if quota <=? usedQuota then 0 else u32 (quota - usedQuota)
  | QM_PER_DOC => _curQuota s
  end.

(** [getSeekedCount] *)
Definition getSeekedCount (s : state E) : Z :=
  foldl (fun acc '(i, r) =>
      u32 (acc + ((if decide (i = _rangeCursor s) then _cursorNextBegin s else r_nextBegin r)
                  - r_begin r)))
    0 (imap (fun i r => (i, r)) (_layerMeta s)).

(** [getWholeDocCount] *)
Definition getWholeDocCount (s : state E) : Z :=
  foldl (fun acc r => u32 (acc + (r_end r - r_begin r))) 0 (_layerMeta s).
End Ops.

(** ** What a search finds

    In quota mode [QM_PER_LAYER], over a layer that has not been searched before. *)
Section Correct.
Context {E : Type} (seekE : nat -> E -> docid_t -> res (docid_t * E)).
Context (P : E -> docset -> docid_t -> Prop) (laws : seek_laws seekE P).
Context (getDocIdE : E -> docid_t).
Context (seekWithoutCheck : nat -> E -> docid_t -> res (docid_t * E)) (resetE : nat -> E -> res E).
Context (cur_seek : forall f e id d e', seekE f e id = Ok (d, e') -> getDocIdE e' = d).
Context (swc_seek : forall f e id, getDocIdE e < id -> seekWithoutCheck f e id = seekE f e id).
Context (isDeleted pass : option (docid_t -> bool)).
Context (D : docset) (ranges : LayerMeta).

(** A layer that has not been searched: ascending ranges, without quotas of their own. *)
Definition fresh_layer : Prop :=
  ranges_ok ranges /\
  Forall (fun r => r_nextBegin r = r_begin r /\ r_quota r = 0 /\ 0 <= r_begin r /\
                   r_end r < END_DOCID) ranges.

(** The documents a search should find. *)
Definition found : docset :=
  fun d => D d /\ range_docs ranges d /\ test isDeleted false d = false /\ test pass true d = true.

(** The ranges behind the cursor are untouched, the cursor's range is the current one. *)
Definition cursor_at (q : Z) (s : state E) : Prop :=
  length (_layerMeta s) = length ranges /\
  drop (S (_rangeCursor s)) (_layerMeta s) = drop (S (_rangeCursor s)) ranges /\
  _curQuota s = q /\
  exists r, ranges !! _rangeCursor s = Some r /\ _curBegin s = r_begin r /\ _curEnd s = r_end r.

Definition executor_at (docId : docid_t) (s : state E) : Prop :=
  P (_queryExecutor s) D docId /\ getDocIdE (_queryExecutor s) < docId.

Hypothesis Hfresh : fresh_layer.

Lemma range_before i j r r' x :
  ranges !! i = Some r -> ranges !! j = Some r' -> (i <= j)%nat -> x <= r_end r -> x <= r_end r'.
Proof using All.
  intros Hi Hj Hij Hx. destruct (decide (i = j)) as [->|Hne]; [by simplify_eq|].
  destruct Hfresh as [[Hok Hs] _].
  pose proof (StronglySorted_lookup_lt _ ranges i j r r' Hs Hi Hj ltac:(lia)) as Hlt.
  rewrite Forall_forall in Hok. pose proof (Hok r' (list_elem_of_lookup_2 _ _ _ Hj)) as Hr'.
  cbn in Hlt, Hr'. clear - Hlt Hr' Hx. lia.
Qed.

Lemma range_fresh i r :
  ranges !! i = Some r ->
  r_nextBegin r = r_begin r /\ r_quota r = 0 /\ 0 <= r_begin r <= r_end r /\ r_end r < END_DOCID.
Proof using All.
  intros Hi%list_elem_of_lookup_2. destruct Hfresh as [[Hok _] Hf].
  rewrite Forall_forall in Hok, Hf. specialize (Hok r Hi). specialize (Hf r Hi). cbn in Hok, Hf.
  clear - Hok Hf. lia.
Qed.

(** The cursor moves by one range as long as there is one. *)
Lemma moveToNextRange_ok q s :
  0 <= q < 2 ^ 32 -> cursor_at q s ->
  exists b s', moveToNextRange s = Ok (b, s') /\ _queryExecutor s' = _queryExecutor s /\
    _curQuota s' = q /\ _rangeCursor s' = S (_rangeCursor s) /\
    if b then cursor_at q s' else (length ranges <= _rangeCursor s')%nat.
Proof using All.
  intros Hq (Hlen & Hdrop & Hquota & r & Hr & Hbegin & Hend).
  unfold moveToNextRange. set (c := _rangeCursor s) in *.
  pose proof (lookup_lt_Some _ _ _ Hr) as Hc.
  destruct (lookup_lt_is_Some_2 (_layerMeta s) c) as [r1 Hr1]; [lia|].
  rewrite Hr1. cbn [deref res_bind].
  set (stop := if _ : bool then _ else _). set (ms := <[c := setNextBegin stop r1]> (_layerMeta s)).
  assert (drop (S c) ms = drop (S c) ranges) as Hd.
  { subst ms. rewrite drop_insert_lt by lia. done. }
  assert (forall j, (c < j)%nat -> ms !! j = ranges !! j) as Hlk.
  { intros j Hj. replace j with (S c + (j - S c))%nat by lia. by rewrite <- !lookup_drop, Hd. }
  rewrite Hd. destruct (drop (S c) ranges) as [|r' rest] eqn:Hrest.
  - assert (length ranges <= S c)%nat as Hle.
    { apply (f_equal length) in Hrest. rewrite length_drop in Hrest. cbn in Hrest. lia. }
    cbn [findRange]. rewrite (lookup_ge_None_2 ms) by (subst ms; rewrite length_insert; lia).
    do 2 eexists. split; [reflexivity|]. cbn. done.
  - assert (ranges !! S c = Some r') as Hr'.
    { rewrite <- (Nat.add_0_r (S c)), <- lookup_drop, Hrest. done. }
    destruct (range_fresh _ _ Hr') as (Hnb & Hqr & Hbe & He).
    cbn [findRange]. rewrite (proj2 (Z.leb_le _ _)) by lia. rewrite Hlk, Hr' by lia.
    do 2 eexists. split; [reflexivity|]. unfold cursor_at.
    cbn [_queryExecutor _curQuota _rangeCursor _layerMeta _curBegin _curEnd].
    rewrite Hquota, Hqr, Z.add_0_r, u32_small by lia.
    split_and!; try done.
    + subst ms. by rewrite !length_insert.
    + rewrite drop_insert_lt by lia. replace (S (S c)) with (S c + 1)%nat by lia.
      rewrite <- !drop_drop, Hd, Hrest. done.
    + by exists r'.
Qed.

(** No range document at or after [d] when the cursor has passed all ranges. *)
Lemma ranges_passed c d :
  (forall i r, ranges !! i = Some r -> (i < c)%nat -> r_end r < d) -> (length ranges <= c)%nat ->
  forall x, d <= x -> ~ range_docs ranges x.
Proof.
  intros Hlt Hc x Hx Hin. apply Exists_exists in Hin as (r & [i Hi]%list_elem_of_lookup & Hr).
  pose proof (lookup_lt_Some _ _ _ Hi). specialize (Hlt i r Hi ltac:(lia)). lia.
Qed.

Definition range_post (q : Z) (d : docid_t) (e : E) (r : bool * docid_t * state E) : Prop :=
  let '(b, d', s') := r in
  _queryExecutor s' = e /\
  (q = 0 -> b = false /\ d' = END_DOCID) /\
  (0 < q ->
     b = true /\ d' = d /\ cursor_at q s' /\ _curBegin s' <= d <= _curEnd s' \/
     b = false /\ d < d' /\ d' = _curBegin s' /\ cursor_at q s' /\ gap (range_docs ranges) d d' \/
     b = false /\ d' = END_DOCID /\ forall x, d <= x -> ~ range_docs ranges x).

Definition passed (d : docid_t) (c : nat) : Prop :=
  forall i r, ranges !! i = Some r -> (i < c)%nat -> r_end r < d.

(** [moveToCorrectRange] finds the range of [d], or the next range, or the end. *)
Lemma moveToCorrectRange_ok q d s :
  0 <= q < 2 ^ 32 -> cursor_at q s -> q = 0 \/ passed d (S (_rangeCursor s)) ->
  exists r, evals (fun f => moveToCorrectRange QM_PER_LAYER resetE f d s) r /\
    range_post q d (_queryExecutor s) r.
Proof using All.
  intros Hq Hat Hp. set (e := _queryExecutor s).
  destruct (iter_total (fun f => moveToCorrectRange_body QM_PER_LAYER resetE f d)
              (fun s => cursor_at q s /\ (q = 0 \/ passed d (S (_rangeCursor s))) /\
                        _queryExecutor s = e)
              (range_post q d e) (fun s => length ranges - _rangeCursor s)%nat)
    with (s := s) as (r & Hpost & Hev); [|done|by exists r].
  clearbody e. clear s Hat Hp. intros s (Hat & Hp & He).
  destruct (moveToNextRange_ok q s Hq Hat) as (b & s1 & Hm & He1 & Hq1 & Hc1 & Hb).
  assert (_rangeCursor s < length ranges)%nat as Hc.
  { destruct Hat as (_ & _ & _ & r & Hr & _). by eapply lookup_lt_Some. }
  unfold moveToCorrectRange_body. rewrite Hm. cbn [res_bind].
  destruct b; cbn [negb]; cycle 1.
  { unfold moveBack. rewrite bool_decide_eq_true_2 by done. cbn [orb res_bind].
    eexists. split; [apply evals_ret|]. cbn. split; [congruence|]. split; [done|].
    intros Hq0. right. right. split; [done|]. split; [done|].
    destruct Hp as [?|Hp]; [lia|]. rewrite Hc1 in Hb. by eapply ranges_passed. }
  destruct Hb as (Hl & Hd & Hq' & r & Hr & Hbeg & Hend).
  assert (cursor_at q s1) as Hat1 by (split_and!; eauto).
  destruct (range_fresh _ _ Hr) as (_ & _ & Hbe & _).
  destruct ((_curEnd s1 <? d) || (_curQuota s1 =? 0)) eqn:Hcond.
  { eexists. split; [apply evals_ret|]. cbn. split; [|lia]. split; [done|]. split; [|congruence].
    apply orb_true_iff in Hcond as [Hlt%Z.ltb_lt|Hz%Z.eqb_eq]; [|left; lia].
    right. intros i r' Hi Hic. rewrite Hend in Hlt.
    pose proof (range_before i (_rangeCursor s1) r' r (r_end r') Hi Hr ltac:(lia) ltac:(lia)). lia. }
  apply orb_false_iff in Hcond as [Hle%Z.ltb_ge Hnz%Z.eqb_neq].
  destruct (Z.ltb_spec d (_curBegin s1)) as [Hlt|Hge].
  - eexists. split; [apply evals_ret|]. cbn. split; [congruence|]. split; [lia|]. intros Hq0.
    right. left. split; [done|]. split; [done|]. split; [done|]. split; [done|].
    intros x Hx Hin. apply Exists_exists in Hin as (r' & [i Hi]%list_elem_of_lookup & Hr').
    destruct (decide (i < _rangeCursor s1)%nat) as [Hic|Hic].
    + destruct Hp as [?|Hp]; [lia|]. specialize (Hp i r' Hi ltac:(lia)). lia.
    + destruct (decide (i = _rangeCursor s1)) as [->|Hne]; [simplify_eq; lia|].
      destruct Hfresh as [[_ Hs] _].
      pose proof (StronglySorted_lookup_lt _ ranges _ i r r' Hs Hr Hi ltac:(lia)). cbn in *. lia.
  - eexists. split; [apply evals_ret|]. cbn. split; [congruence|]. split; [lia|]. intros Hq0.
    left. by split_and!; try lia.
Qed.

Lemma tryToMakeItInRange_ok q d s :
  0 <= q < 2 ^ 32 -> cursor_at q s -> _curBegin s <= d ->
  exists r, evals (fun f => tryToMakeItInRange QM_PER_LAYER resetE f d s) r /\
    range_post q d (_queryExecutor s) r.
Proof using All.
  intros Hq Hat Hd. pose proof Hat as (Hl & Hdr & Hq' & r & Hr & Hbeg & Hend).
  unfold tryToMakeItInRange. destruct ((0 <? _curQuota s) && (d <=? _curEnd s)) eqn:Hc.
  - apply andb_true_iff in Hc as [Hpos%Z.ltb_lt Hle%Z.leb_le].
    eexists. split; [apply evals_ret|]. cbn. split; [done|]. split; [lia|]. intros _.
    left. by split_and!.
  - apply moveToCorrectRange_ok; [done..|].
    apply andb_false_iff in Hc as [Hz%Z.ltb_ge|Hlt%Z.leb_gt]; [left; lia|right].
    intros i r' Hi Hic. rewrite Hend in Hlt.
    pose proof (range_before i (_rangeCursor s) r' r (r_end r') Hi Hr ltac:(lia) ltac:(lia)). lia.
Qed.

(** The state between two calls of [seek]. *)
Definition searching (q : Z) (s : state E) : Prop :=
  cursor_at q s /\ executor_at (_curDocId s) s /\ _curBegin s <= _curDocId s <= END_DOCID.

Definition loop_inv (q : Z) (id : docid_t) (ds : nat * docid_t * state E) : Prop :=
  let '(_, docId, s) := ds in
  cursor_at q s /\ executor_at docId s /\ _curBegin s <= docId <= END_DOCID /\
  id <= docId /\ gap found id docId.

(** The answer of [seek]: the next document, one quota less; or none is left. *)
Definition loop_post (q : Z) (id : docid_t) (r : option docid_t * state E) : Prop :=
  match r with
  | (Some d, s') =>
      first_ge found id d /\ d < END_DOCID /\ 0 < q /\ searching (q - 1) s' /\ _curDocId s' = d + 1
  | (None, _) => q = 0 \/ gap found id END_DOCID
  end.

(** Going on from [d + 1] when [d] is not a document to find. *)
Lemma loop_inv_skip q id k d s :
  cursor_at q s -> P (_queryExecutor s) D d -> getDocIdE (_queryExecutor s) = d ->
  _curBegin s <= d <= _curEnd s -> id <= d -> gap found id d -> ~ found d ->
  loop_inv q id (k, d + 1, s).
Proof using All.
  intros Hat HP Hcur Hd Hid Hg Hn. pose proof Hat as (_ & _ & _ & r & Hr & _ & Hend).
  destruct (range_fresh _ _ Hr) as (_ & _ & _ & He). split; [done|]. split.
  - split; [eapply sl_mono; eauto; lia|lia].
  - split; [lia|]. split; [lia|]. eapply gap_join; [exact Hg|].
    intros x Hx. by replace x with d by lia.
Qed.

Lemma seek_body_ok q id timeout ds :
  0 <= q < 2 ^ 32 -> (forall k, timeout k = false) -> loop_inv q id ds ->
  exists x, evals (fun f => seek_body QM_PER_LAYER seekWithoutCheck resetE isDeleted pass f timeout ds) x /\
    match x with
    | inl ds' => loop_inv q id ds' /\
        (Z.to_nat (END_DOCID - snd (fst ds')) < Z.to_nat (END_DOCID - snd (fst ds)))%nat
    | inr r => loop_post q id r
    end.
Proof using All.
  intros Hq Htime. destruct ds as [[k docId] s]. intros (Hat & [HP Hcur] & Hb & Hid & Hg).
  pose proof Hat as (_ & _ & _ & r & Hr & Hbeg & _). destruct (range_fresh _ _ Hr) as (_ & _ & Hr0 & _).
  destruct (sl_seek _ _ laws _ D docId docId HP ltac:(lia) ltac:(lia)) as (d & e' & Hev & Hd & HP').
  assert (getDocIdE e' = d) as Hcur'.
  { destruct Hev as [F HF]. by eapply cur_seek, HF. }
  destruct Hd as [Hlo Hhi Hin Hgd].
  assert (gap found id d) as Hgap.
  { eapply gap_join; [exact Hg|]. eapply gap_sub; [exact Hgd|]. by intros x [? _]. }
  destruct (tryToMakeItInRange_ok q d (setExecutor e' s) Hq Hat ltac:(cbn; lia))
    as ([[b d'] s1] & Hev1 & He1 & Hq0 & Hqpos). cbn in He1.
  assert (HPd : P e' D d) by (eapply sl_mono; eauto).
  assert (Hbody : evals (fun f => let! (d, e) := seekWithoutCheck f (_queryExecutor s) docId in
            tryToMakeItInRange QM_PER_LAYER resetE f d (setExecutor e s)) (b, d', s1)).
  { eapply evals_bind; [eapply evals_ext; [exact Hev|]; intros f; by rewrite swc_seek|].
    exact Hev1. }
  assert (Hfinish : forall x,
     (if negb b then if d' =? END_DOCID then Ok (inr (None, setCurDocId d' s1))
                     else Ok (inl (S k, d', s1))
      else if test isDeleted false d' then Ok (inl (S k, d' + 1, countSeekTimes s1))
      else if test pass true d'
           then Ok (inr (Some d', setCurDocId (d' + 1) (useQuota (countSeekTimes s1))))
      else Ok (inl (S k, d' + 1, countSeekTimes s1))) = Ok x ->
     evals (fun f => seek_body QM_PER_LAYER seekWithoutCheck resetE isDeleted pass f timeout
                       (k, docId, s)) x).
  { intros x Hx. unfold seek_body. rewrite Htime.
    destruct Hbody as [F HF]. exists F. intros f Hf. specialize (HF f Hf).
    destruct (seekWithoutCheck f _ docId) as [[d1 e1]| | |]; cbn [res_bind] in HF |- *; try done.
    rewrite HF. cbn [res_bind]. exact Hx. }
  destruct (Z.eq_dec q 0) as [Hz|Hnz].
  { destruct (Hq0 Hz) as [-> ->]. eexists. split; [apply Hfinish; reflexivity|]. by left. }
  destruct (Hqpos ltac:(lia)) as [(-> & -> & Hat1 & Hrange)|[(-> & Hlt & -> & Hat1 & Hgr)|(-> & -> & Hnone)]].
  - (* in range *)
    pose proof Hat1 as (Hl1 & Hd1 & Hq1 & r1 & Hr1 & Hb1 & Hend1).
    destruct (range_fresh _ _ Hr1) as (_ & _ & _ & He).
    assert (range_docs ranges d) as Hrd.
    { apply Exists_exists. exists r1. split; [by eapply list_elem_of_lookup_2|lia]. }
    cbn [negb] in Hfinish. destruct (test isDeleted false d) eqn:Hdel; [|destruct (test pass true d) eqn:Hpass].
    + eexists. split; [apply Hfinish; reflexivity|]. split; [|cbn; lia].
      apply loop_inv_skip; cbn; rewrite ?He1; try done; try lia. unfold found. intuition congruence.
    + eexists. split; [apply Hfinish; reflexivity|]. cbn. split; [|split; [lia|]].
      * split; [lia..| |done]. intros _. split; [apply Hin; lia|]. done.
      * split; [lia|]. split; [|done]. split; [|split].
        -- split; [done|]. split; [done|]. cbn. split; [rewrite Hq1, u32_small; lia|]. by exists r1.
        -- split; cbn; rewrite He1; [eapply sl_mono; eauto; lia|lia].
        -- cbn. lia.
    + eexists. split; [apply Hfinish; reflexivity|]. split; [|cbn; lia].
      apply loop_inv_skip; cbn; rewrite ?He1; try done; try lia. unfold found. intuition congruence.
  - (* before the next range *)
    pose proof Hat1 as (Hl1 & Hd1 & Hq1 & r1 & Hr1 & Hb1 & Hend1).
    destruct (range_fresh _ _ Hr1) as (_ & _ & Hbe & He).
    eexists. split; [apply Hfinish; cbn [negb]; rewrite (proj2 (Z.eqb_neq _ _)) by lia; reflexivity|].
    split; [|cbn; lia]. split; [done|]. split; [|split; [lia|]].
    + split; rewrite He1; [eapply sl_mono; eauto; lia|lia].
    + split; [lia|]. eapply gap_join; [exact Hgap|]. eapply gap_sub; [exact Hgr|]. by intros x (_ & ? & _).
  - (* past the last range *)
    eexists. split; [apply Hfinish; reflexivity|]. right. eapply gap_join; [exact Hgap|].
    intros x Hx (_ & Hx' & _). apply (Hnone x); [lia|done].
Qed.

Lemma seek_ok q timeout s :
  0 <= q < 2 ^ 32 -> (forall k, timeout k = false) -> searching q s ->
  exists r, evals (fun f => seek QM_PER_LAYER seekWithoutCheck resetE isDeleted pass f timeout s) r /\
    loop_post q (_curDocId s) r.
Proof using All.
  intros Hq Ht (Hat & Hex & Hb).
  destruct (iter_total (fun f => seek_body QM_PER_LAYER seekWithoutCheck resetE isDeleted pass f timeout)
              (loop_inv q (_curDocId s)) (loop_post q (_curDocId s))
              (fun ds => Z.to_nat (END_DOCID - snd (fst ds)))
              (fun ds => seek_body_ok q (_curDocId s) timeout ds Hq Ht) (0%nat, _curDocId s, s))
    as (r & Hpost & Hev).
  { split; [done|]. split; [done|]. split; [lia|]. split; [lia|]. apply gap_empty. lia. }
  exists r. by split.
Qed.

(** Going on until nothing is found returns the first [q] documents. *)
Lemma search_ok n q timeout s :
  0 <= q < 2 ^ 32 -> (Z.to_nat q < n)%nat -> (forall k, timeout k = false) -> searching q s ->
  exists ds s', evals (fun f => search QM_PER_LAYER seekWithoutCheck resetE isDeleted pass n f
                                  timeout s) (ds, s') /\
    first_docs found (_curDocId s) q ds.
Proof using All.
  revert q s. induction n as [|n IH]; intros q s Hq Hn Ht Hs; [lia|]. cbn [search].
  destruct (seek_ok q timeout s Hq Ht Hs) as ([[d|] s1] & Hev & Hpost).
  - destruct Hpost as ([Hlo _ Hin Hg] & Hend & Hq0 & Hs1 & Hcur).
    destruct (IH (q - 1) s1) as (ds & s2 & Hev2 & Hfd); [lia|lia|done..|].
    exists (d :: ds), s2. split.
    { eapply evals_bind; [exact Hev|]. eapply evals_bind_ok; [exact Hev2|done]. }
    rewrite Hcur in Hfd. apply first_docs_cons; [lia|apply Hin; lia|done|done|done].
  - exists [], s1. split; [eapply evals_bind; [exact Hev|apply evals_ret]|]. split; [constructor|constructor|cbn; lia|].
    intros x Hx Hlo. right. destruct Hpost as [->|Hg]; [done|].
    exfalso. apply (Hg x); [|done]. split; [lia|].
    destruct Hx as (_ & Hx & _). apply Exists_exists in Hx as (r & [i Hr]%list_elem_of_lookup & ?).
    destruct (range_fresh _ _ Hr) as (_ & _ & _ & ?). lia.
Qed.

(** A new searcher over an executor that has not moved. *)
Lemma new_searcher_ok e maxQuota :
  P e D 0 -> getDocIdE e = INVALID_DOCID -> ranges <> [] ->
  exists s, new_searcher QM_PER_LAYER e ranges maxQuota = Ok s /\ searching maxQuota s /\
    forall x, found x -> _curDocId s <= x.
Proof using All.
  intros HP Hcur Hne. unfold new_searcher. destruct ranges as [|r rs] eqn:Heq; [done|].
  rewrite <- Heq in *. assert (ranges !! 0%nat = Some r) as Hr by (by rewrite Heq).
  destruct (range_fresh _ _ Hr) as (Hnb & _ & Hbe & Hend). rewrite Hr. cbn [deref res_bind].
  eexists. split; [reflexivity|]. split; [split; [|split]|].
  - split; [done|]. split; [done|]. cbn. split; [done|]. exists r. by rewrite Hr.
  - split; cbn; [eapply sl_mono; eauto; lia|]. unfold INVALID_DOCID in *. lia.
  - cbn. lia.
  - intros x (_ & Hx & _). cbn. apply Exists_exists in Hx as (r' & [i Hr']%list_elem_of_lookup & ?).
    destruct i as [|i]; [by simplify_eq; lia|]. destruct Hfresh as [[_ Hs] _].
    pose proof (StronglySorted_lookup_lt _ ranges 0 (S i) r r' Hs Hr Hr' ltac:(lia)) as Hlt.
    cbn in Hlt. lia.
Qed.
End Correct.
End Searcher.
