(* ===== verification/Phrase.v ===== *)
(** * Phrase queries

    [PhraseQueryExecutor] (src/aios/ha3/ha3/search/query_executor): an AND executor that
    should also require the terms to occur next to each other. [phraseFreq] aligns the
    positions of the terms in the current document; it is proved to decide whether there is
    an occurrence of the phrase. *)

From stdpp Require Import base list numbers option tactics.
From Stdlib Require Import ZArith Lia ZifyNat.
From S2P Require Import Prelude QueryExecutor MultiExecutors.

#[local] Open Scope Z_scope.

(** [pos_t] is a [uint32_t]. *)
Definition INVALID_POSITION : Z := u32_max.

Module Phrase.

Section Ops.
Context {T : Type} (seekPosition : T -> Z -> res (Z * T)).

(** The variables of the loop of [phraseFreq], and the terms ([_termExecutors]). *)
Record loop := mkLoop {
  p_index : nat;
  p_count : nat;
  p_curPos : Z;
  p_terms : list T
}.

(** One iteration; [rel] is [_termReleativePos], [marks] is [_postingsMark]. *)
Definition phraseFreq_body (rel : list Z) (marks : list nat) (s : loop)
    : res (loop + bool * list T) :=
  let! relativePos := deref (rel !! p_index s) in
  let! mark := deref (marks !! p_index s) in
  let! (tmpocc, terms) :=
    with_child (p_terms s) mark (fun t => seekPosition t (u32 (p_curPos s + relativePos))) in
  if tmpocc =? INVALID_POSITION then Ok (inr (false, terms))
  else
    let '(curPos, count) :=
      if negb (tmpocc =? u32 (p_curPos s + relativePos))
      then (u32 (tmpocc - relativePos), 1%nat)
      else (p_curPos s, S (p_count s)) in
    let index := if (S (p_index s) =? length rel)%nat then 0%nat else S (p_index s) in
    if (count <? length rel)%nat then Ok (inl (mkLoop index count curPos terms))
    else Ok (inr (true, terms)).

Definition phraseFreq (fuel : nat) (rel : list Z) (marks : list nat) (terms : list T)
    : res (bool * list T) :=
  match rel with
  | [] => Ok (true, terms)
  | _ => iter fuel (phraseFreq_body rel marks) (mkLoop 0 0 0 terms)
  end.
End Ops.
Arguments loop : clear implicits.

Section DoSeek.
Context {E : Type} (seekE : nat -> E -> docid_t -> res (docid_t * E)) (moveToEndE : E -> E).
Context (seekPosition : E -> Z -> res (Z * E)).

(** The fields [doSeek] changes: those of [AndQueryExecutor] and [_lastMatchedDocId]. The
    terms are the children of the AND. *)
Record state := mkState {
  ph_children : list E;
  ph_testDocCount : Z;
  ph_lastMatchedDocId : docid_t
}.

Definition new_state (children : list E) : state := mkState children 0 INVALID_DOCID.

(** One iteration of the loop of [doSeek]: [if (_lastMatchedDocId)] is a test against 0. *)
Definition doSeek_body (fuel : nat) (sorted : list nat) (filters : list DocValueFilter)
    (rel : list Z) (marks : list nat) (s : docid_t * state) : res (docid_t * state + docid_t * state) :=
  let '(tmpid, st) := s in
  let! (d, children, n) :=
    And.doSeek seekE moveToEndE fuel sorted filters (ph_children st) (ph_testDocCount st) tmpid in
  if negb (d =? END_DOCID) then
    if negb (ph_lastMatchedDocId st =? 0) then Ok (inr (d, mkState children n d))
    else
      let! (isPhraseFreq, children') := phraseFreq seekPosition fuel rel marks children in
      if isPhraseFreq : bool then Ok (inr (d, mkState children' n d))
      else Ok (inl (d + 1, mkState children' n (ph_lastMatchedDocId st)))
  else Ok (inr (END_DOCID, mkState children n (ph_lastMatchedDocId st))).

Definition doSeek (fuel : nat) (hasSubDocExecutor : bool) (sorted : list nat)
    (filters : list DocValueFilter) (rel : list Z) (marks : list nat) (st : state) (id : docid_t)
    : res (docid_t * state) :=
  if hasSubDocExecutor then
    let! (d, children, n) :=
      And.doSeek seekE moveToEndE fuel sorted filters (ph_children st) (ph_testDocCount st) id in
    Ok (d, mkState children n (ph_lastMatchedDocId st))
  else iter fuel (doSeek_body fuel sorted filters rel marks) (id, st).
End DoSeek.
Arguments state : clear implicits.

(** What [seekPosition] promises for positions that do not go back: the first position of the
    term in the current document from [pos] on, or [INVALID_POSITION]. A position is not
    returned twice. *)
Record position_laws {T : Type} (seekPosition : T -> Z -> res (Z * T))
    (Q : T -> (Z -> Prop) -> Z -> Prop) : Prop := {
  pol_mono t S lo lo' : Q t S lo -> lo <= lo' -> Q t S lo';
  pol_seek t S lo p : Q t S lo -> lo <= p -> 0 <= p < INVALID_POSITION ->
    exists occ t', seekPosition t p = Ok (occ, t') /\
      (occ = INVALID_POSITION /\ (forall x, p <= x -> ~ S x) \/
       p <= occ < INVALID_POSITION /\ S occ /\ (forall x, p <= x < occ -> ~ S x) /\ Q t' S (occ + 1))
}.

Section Correct.
Context {T : Type} (seekPosition : T -> Z -> res (Z * T)).
Context (Q : T -> (Z -> Prop) -> Z -> Prop) (laws : position_laws seekPosition Q).
(** The positions of the terms, the relative positions of the phrase and an upper bound of
    both that keeps their sums in 32 bits. *)
Context (Ss : list (Z -> Prop)) (rel : list Z) (marks : list nat) (R : Z).

(** The phrase occurs at [p]. *)
Definition occurs (p : Z) : Prop :=
  forall i r m (S : Z -> Prop), rel !! i = Some r -> marks !! i = Some m -> Ss !! m = Some S -> S (p + r).

Record phrase_ok : Prop := {
  po_marks : length marks = length rel;
  po_nodup : NoDup marks;
  po_lt : Forall (fun m => m < length Ss)%nat marks;
  po_rel : Forall (fun r => 0 <= r <= R) rel;
  po_pos : forall m (S : Z -> Prop) x, Ss !! m = Some S -> S x -> 0 <= x /\ x + R < INVALID_POSITION;
  po_R : R < INVALID_POSITION
}.
Hypothesis Hok : phrase_ok.

(** The number of iterations since term [i] was last asked, in a loop that is about to ask
    term [index] of [n]. *)
Definition age (n index i : nat) : nat :=
  if (i <? index)%nat then index - i else index + n - i.

(** Term [i] was found at its place since [curPos] was set. *)
Definition checked (s : loop T) (i : nat) : Prop := (age (length rel) (p_index s) i <= p_count s)%nat.

Definition term_ok (s : loop T) (i : nat) (m : nat) (r : Z) : Prop :=
  exists t (S : Z -> Prop), p_terms s !! m = Some t /\ Ss !! m = Some S /\
    (checked s i -> S (p_curPos s + r) /\ Q t S (p_curPos s + r + 1)) /\
    (~ checked s i -> Q t S (p_curPos s + r)).

Record loop_inv (s : loop T) : Prop := {
  li_index : (p_index s < length rel)%nat;
  li_count : (p_count s < length rel)%nat;
  li_pos : 0 <= p_curPos s /\ p_curPos s + R < INVALID_POSITION;
  li_terms : forall i m r, marks !! i = Some m -> rel !! i = Some r -> term_ok s i m r;
  li_none : forall p, 0 <= p -> occurs p -> p_curPos s <= p
}.

Definition loop_post (r : bool * list T) : Prop :=
  fst r = true <-> exists p, 0 <= p /\ occurs p.

Definition loop_measure (s : loop T) : nat :=
  Z.to_nat (INVALID_POSITION - p_curPos s) * S (length rel) + (length rel - p_count s).

Definition next (index : nat) : nat := if (S index =? length rel)%nat then 0 else S index.

Lemma age_next index i :
  (index < length rel)%nat -> (i < length rel)%nat ->
  age (length rel) (next index) i = if decide (i = index) then 1%nat else S (age (length rel) index i).
Proof using.
  intros Hi Hj. unfold age, next. repeat (case_decide || case_match);
    repeat match goal with
    | H : (_ =? _)%nat = true |- _ => apply Nat.eqb_eq in H
    | H : (_ =? _)%nat = false |- _ => apply Nat.eqb_neq in H
    | H : (_ <? _)%nat = true |- _ => apply Nat.ltb_lt in H
    | H : (_ <? _)%nat = false |- _ => apply Nat.ltb_ge in H
    end; lia.
Qed.

(** The other terms stay as they are when term [i] is asked. *)
Lemma term_other s i m t' i' m' r' curPos count :
  loop_inv s -> marks !! i = Some m -> i = p_index s -> i' <> i ->
  marks !! i' = Some m' -> rel !! i' = Some r' ->
  (p_curPos s = curPos /\ count = S (p_count s) \/ p_curPos s < curPos /\ count = 1%nat) ->
  term_ok (mkLoop (next (p_index s)) count curPos (<[m := t']> (p_terms s))) i' m' r'.
Proof using laws Hok.
  intros Hinv Hm -> Hne Hm' Hr' Hcase.
  assert (m <> m') as Hmm.
  { intros ->. apply Hne. by eapply (NoDup_lookup marks); [apply Hok|..]. }
  destruct (li_terms s Hinv i' m' r' Hm' Hr') as (t & S' & Ht & HS & Hyes & Hno).
  pose proof (li_index s Hinv) as Hi. pose proof (lookup_lt_Some _ _ _ Hr') as Hi'.
  pose proof (age_next (p_index s) i' Hi Hi') as Hage. rewrite decide_False in Hage by done.
  assert (1 <= age (length rel) (p_index s) i')%nat as Hpos.
  { unfold age. case_match eqn:Hlt; [apply Nat.ltb_lt in Hlt|apply Nat.ltb_ge in Hlt]; lia. }
  exists t, S'. cbn. rewrite list_lookup_insert_ne by done. split; [done|]. split; [done|].
  unfold checked in *. cbn. rewrite Hage. destruct Hcase as [[<- ->]|[Hlt ->]].
  - split; intros Hc; [apply Hyes; lia|apply Hno; lia].
  - split; intros Hc; [lia|].
    destruct (decide (age (length rel) (p_index s) i' <= p_count s)%nat) as [Hd|Hd].
    + eapply pol_mono; [done|by apply Hyes|lia].
    + eapply pol_mono; [done|by apply Hno|lia].
Qed.

(** When all terms have been found at their place, the phrase occurs. *)
Lemma all_checked s count :
  (length rel <= count)%nat -> (p_index s < length rel)%nat ->
  (forall i m r, marks !! i = Some m -> rel !! i = Some r ->
     term_ok (mkLoop (p_index s) count (p_curPos s) (p_terms s)) i m r) ->
  occurs (p_curPos s).
Proof using.
  intros Hc Hi Ht i r m S Hr Hm HS. destruct (Ht i m r Hm Hr) as (t & S' & _ & HS' & Hyes & _).
  simplify_eq. apply Hyes. unfold checked, age. cbn. pose proof (lookup_lt_Some _ _ _ Hr).
  case_match eqn:Hlt; [apply Nat.ltb_lt in Hlt|apply Nat.ltb_ge in Hlt]; lia.
Qed.

Lemma phraseFreq_body_ok s :
  loop_inv s ->
  exists x, phraseFreq_body seekPosition rel marks s = Ok x /\
    match x with
    | inl s' => loop_inv s' /\ (loop_measure s' < loop_measure s)%nat
    | inr r => loop_post r
    end.
Proof using laws Hok.
  intros Hinv. pose proof Hinv as [Hi Hc Hpos Hterms Hnone].
  destruct (lookup_lt_is_Some_2 rel (p_index s) Hi) as [r Hr].
  destruct (lookup_lt_is_Some_2 marks (p_index s)) as [m Hm]; [rewrite (po_marks Hok); done|].
  destruct (Hterms _ m r Hm Hr) as (t & S & Ht & HS & _ & Hno).
  assert (0 <= r <= R) as Hrr.
  { exact (Forall_lookup_1 _ _ _ _ (po_rel Hok) Hr). }
  assert (~ checked s (p_index s)) as Hnc.
  { unfold checked, age. rewrite (proj2 (Nat.ltb_ge _ _)) by lia. lia. }
  specialize (Hno Hnc).
  assert (u32 (p_curPos s + r) = p_curPos s + r) as Hu.
  { apply u32_small. unfold INVALID_POSITION, u32_max in *. lia. }
  destruct (pol_seek _ _ laws t S _ (p_curPos s + r) Hno ltac:(lia) ltac:(lia)) as (occ & t' & Hs & Hocc).
  unfold phraseFreq_body, with_child. rewrite Hr, Hm. cbn [deref res_bind].
  rewrite Ht. cbn [deref res_bind]. rewrite Hu, Hs. cbn [res_bind]. fold (next (p_index s)).
  destruct Hocc as [[-> Hn]|(Hle & Hin & Hgap & HQ')].
  { rewrite Z.eqb_refl. eexists. split; [reflexivity|]. split; [done|].
    intros (p & Hp & Hpo). exfalso. specialize (Hnone p Hp Hpo).
    apply (Hn (p + r)); [lia|]. eapply Hpo; eauto. }
  rewrite (proj2 (Z.eqb_neq occ INVALID_POSITION)) by lia.
  destruct (po_pos Hok m S occ HS Hin) as [Hocc0 HoccR].
  assert (Hnext : (next (p_index s) < length rel)%nat).
  { unfold next. case_match eqn:Heq; [lia|]. apply Nat.eqb_neq in Heq. lia. }
  pose proof (age_next (p_index s) (p_index s) Hi Hi) as Hage. rewrite decide_True in Hage by done.
  pose proof (lookup_lt_Some _ _ _ Ht) as Hmt.
  set (cc := if negb (occ =? p_curPos s + r) then (u32 (occ - r), 1%nat)
             else (p_curPos s, Datatypes.S (p_count s))).
  assert (exists curPos count, cc = (curPos, count) /\ p_curPos s <= curPos /\ occ = curPos + r /\
     (p_curPos s = curPos /\ count = Datatypes.S (p_count s) \/ p_curPos s < curPos /\ count = 1%nat))
    as (curPos & count & Hcc & Hge & Hoccr & Hcase).
  { subst cc. destruct (Z.eqb_spec occ (p_curPos s + r)) as [->|Hne]; cbn [negb].
    - do 2 eexists. split; [reflexivity|]. split; [lia|]. split; [done|]. left. done.
    - do 2 eexists. split; [reflexivity|].
      rewrite u32_small by (unfold INVALID_POSITION, u32_max in *; lia). split; [lia|].
      split; [lia|]. right. split; [lia|done]. }
  rewrite Hcc.
  assert (Hnone' : forall p, 0 <= p -> occurs p -> curPos <= p).
  { intros p Hp Hpo. specialize (Hnone p Hp Hpo). pose proof (Hpo _ r m S Hr Hm HS) as Hx.
    destruct (Z.le_gt_cases occ (p + r)) as [|Hlt]; [lia|]. exfalso. apply (Hgap (p + r)); [lia|done]. }
  assert (Hterms' : forall i' m' r', marks !! i' = Some m' -> rel !! i' = Some r' ->
            term_ok (mkLoop (next (p_index s)) count curPos (<[m := t']> (p_terms s))) i' m' r').
  { intros i' m' r' Hm' Hr'. destruct (decide (i' = p_index s)) as [->|Hne].
    - simplify_eq. exists t', S. cbn. rewrite list_lookup_insert_eq by done.
      split; [done|]. split; [done|]. unfold checked. cbn. rewrite Hage. split; [done|lia].
    - by eapply term_other. }
  destruct (Nat.ltb_spec count (length rel)) as [Hlt|Hfull].
  - eexists. split; [reflexivity|]. split.
    + split; cbn; [done|done|lia|done|done].
    + unfold loop_measure. cbn [p_curPos p_count]. destruct Hcase as [[<- ->]|[Hgt ->]]; nia.
  - eexists. split; [reflexivity|]. split; [|done]. intros _. exists curPos. split; [lia|].
    apply (all_checked (mkLoop (next (p_index s)) count curPos (<[m := t']> (p_terms s))) count);
      cbn; done.
Qed.

(** [phraseFreq] returns, and tells whether the phrase occurs in the document. *)
Lemma phraseFreq_ok terms :
  (forall m (S : Z -> Prop), Ss !! m = Some S -> exists t, terms !! m = Some t /\ Q t S 0) ->
  exists b terms', evals (fun f => phraseFreq seekPosition f rel marks terms) (b, terms') /\
    (b = true <-> exists p, 0 <= p /\ occurs p).
Proof using laws Hok.
  intros Hterms. unfold phraseFreq. destruct rel as [|r0 rel'] eqn:Hrel.
  { exists true, terms. split; [apply evals_ret|]. split; [|done]. intros _. exists 0. split; [lia|].
    intros i r m S Hr. rewrite Hrel in Hr. done. }
  rewrite <- Hrel in *.
  destruct (iter_total (fun _ => phraseFreq_body seekPosition rel marks) loop_inv loop_post
              loop_measure) with (s := mkLoop 0 0 0 terms) as ([b terms'] & Hpost & Hev).
  - intros s Hs. destruct (phraseFreq_body_ok s Hs) as (x & Hx & Hpx). exists x.
    split; [by apply evals_const|done].
  - split; cbn.
    + rewrite Hrel. cbn. lia.
    + rewrite Hrel. cbn. lia.
    + pose proof (po_R Hok). lia.
    + intros i m r Hm Hr.
      destruct (lookup_lt_is_Some_2 Ss m (Forall_lookup_1 _ _ _ _ (po_lt Hok) Hm)) as [S HS].
      destruct (Hterms m S HS) as (t & Ht & HQ). exists t, S. cbn. split; [done|]. split; [done|].
      pose proof (Forall_lookup_1 _ _ _ _ (po_rel Hok) Hr) as Hrr. cbn in Hrr.
      split.
      * unfold checked, age. cbn. pose proof (lookup_lt_Some _ _ _ Hr). lia.
      * intros _. eapply pol_mono; [done|exact HQ|lia].
    + intros p Hp _. done.
  - exists b, terms'. by split.
Qed.
End Correct.
End Phrase.
