(* ===== verification/SearchTheorems.v ===== *)
(** * What the query executors guarantee

    The theorems on executor trees, phrases and the searcher, stated for the operations of
    [ExecutorTree], [Phrase] and [SingleLayerSearcher], with a concrete instance of each. *)

From stdpp Require Import base list numbers option tactics sorting sets.
From Stdlib Require Import ZArith Lia ZifyNat.
From S2P Require Import Prelude QueryExecutor MultiExecutors ExecutorHeap HeapExecutors ExecutorTree.
From S2P Require Import ExecutorCorrect SingleLayerSearcher Phrase.

#[local] Open Scope Z_scope.

(** ** Executor trees *)

Section Trees.
Context {I B : Type} `{!PostingIterator I} `{!SeekAndFilterIterator I}.
Context `{!PostingIterator B} `{!BitmapPostingIterator B}.
Context (Q : I -> docset -> docid_t -> Prop) (QB : B -> docset -> docid_t -> Prop).
Hypothesis Q_laws : posting_laws Q.
Hypothesis QB_laws : posting_laws QB.
Hypothesis QB_test_laws : posting_test_laws QB.

Abbreviation denotes := (denotes Q QB).

(** C1. Every tree of executors that stands for a document set [D] (leaves over posting
    iterators, ids and ranges; AND, OR, ANDNOT, WEAKAND, bitmap AND, primary key nodes over such
    trees) is a correct cursor: any sequence of seeks that does not go back terminates and returns,
    for each id asked, the first document of [D] from that id on, [END_DOCID] when there is none. *)
Theorem executor_seek_correct (e : executor I B) (D : docset) :
  denotes e D ->
  forall ids, forward 0 ids ->
    exists ds e', evals (fun f => seeks f e ids) (ds, e') /\ Forall2 (first_ge D) ids ds.
Proof using Q_laws QB_laws QB_test_laws. intros H. by apply (denotes_cursor Q QB). Qed.

(** C2. [AndQueryExecutor::addQueryExecutors], in whatever order [std::sort] puts children of equal
    document frequency and with the filters it steals from range terms, builds an executor that
    enumerates exactly the intersection of its children. *)
Theorem and_executor_correct (order : list nat) (cs : list (executor I B)) (Ds : list docset) :
  order ≡ₚ seq 0 (length cs) -> cs <> [] -> Forall2 denotes cs Ds ->
  exists e, new_And_ordered order cs = Ok e /\ denotes e (inter Ds) /\ cursor_over e (inter Ds).
Proof using Q_laws QB_laws QB_test_laws.
  intros Ho Hne Hcs.
  destruct (new_And_ordered_denotes Q QB Q_laws QB_laws QB_test_laws order cs Ds Ho Hne Hcs)
    as (e & He & Hd).
  exists e. split; [done|]. split; [done|]. by eapply denotes_cursor.
Qed.

(** C3. [OrQueryExecutor] enumerates exactly the union of its children. *)
Theorem or_executor_correct (cs : list (executor I B)) (Ds : list docset) :
  cs <> [] -> Forall2 denotes cs Ds ->
  denotes (new_Or cs) (fun d => exists i (Di : docset), Ds !! i = Some Di /\ Di d) /\
  cursor_over (new_Or cs) (fun d => exists i (Di : docset), Ds !! i = Some Di /\ Di d).
Proof using Q_laws QB_laws QB_test_laws.
  intros Hne Hcs.
  pose proof (new_Or_denotes Q QB Q_laws QB_laws QB_test_laws cs Ds Hne Hcs) as Hd.
  split; [done|]. by apply (denotes_cursor Q QB).
Qed.

(** C4. [AndNotQueryExecutor] enumerates exactly the documents of the left child that the right
    child does not have, when the right side has no sub documents, whether the right side is sought
    or tested through a stolen filter. *)
Theorem andnot_executor_correct (l r : executor I B) (DL DR : docset) :
  denotes l DL -> denotes r DR -> hasSubDocExecutor r = false ->
  exists e, new_AndNot l (Some r) = Ok e /\
    cursor_over e (fun d => DL d /\ ~ DR d).
Proof using Q_laws QB_laws QB_test_laws.
  intros Hl Hr Hsub.
  destruct (new_AndNot_denotes Q QB Q_laws QB_laws QB_test_laws l r DL DR Hl Hr) as (e & He & Hd).
  exists e. split; [done|]. apply (denotes_cursor Q QB Q_laws QB_laws QB_test_laws) in Hd.
  intros ids Hf. destruct (Hd ids Hf) as (ds & e' & Hev & Hds). exists ds, e'. split; [done|].
  eapply list.Forall2_impl; [exact Hds|]. intros id d. apply first_ge_iff.
  intros x. unfold AndNot.docs. rewrite Hsub. intuition.
Qed.

(** C5. [WeakAndQueryExecutor] with [minShouldMatch = m] enumerates exactly the documents that at
    least [m] different children have ([m] is taken as 1 if it is 0 and as the number of children if
    it is larger). *)
Theorem weakand_executor_correct (m : nat) (cs : list (executor I B)) (Ds : list docset) :
  cs <> [] -> Forall2 denotes cs Ds ->
  let k := Nat.min (Nat.max 1 m) (length cs) in
  let D := fun d => exists l : list nat, NoDup l /\ length l = k /\
             forall i, i ∈ l -> exists Di : docset, Ds !! i = Some Di /\ Di d in
  denotes (new_WeakAnd m cs) D /\ cursor_over (new_WeakAnd m cs) D.
Proof using Q_laws QB_laws QB_test_laws.
  intros Hne Hcs k D.
  pose proof (new_WeakAnd_denotes Q QB Q_laws QB_laws QB_test_laws m cs Ds Hne Hcs) as Hd.
  split; [done|]. by apply (denotes_cursor Q QB).
Qed.

(** C6. [BitmapAndQueryExecutor] over at least two children, one of them a bitmap term, enumerates
    exactly their intersection, although it tests the bitmaps instead of seeking them. *)
Theorem bitmapand_executor_correct (cs : list (executor I B)) (Ds : list docset) :
  (2 <= length cs)%nat -> fst (splitBitmaps cs) <> [] -> Forall2 denotes cs Ds ->
  exists e, new_BitmapAnd cs = Ok e /\ denotes e (inter Ds) /\ cursor_over e (inter Ds).
Proof using Q_laws QB_laws QB_test_laws.
  intros Hlen Hne Hcs.
  destruct (new_BitmapAnd_denotes Q QB Q_laws QB_laws QB_test_laws cs Ds Hcs Hlen Hne) as (e & He & Hd).
  exists e. split; [done|]. split; [done|]. by eapply denotes_cursor.
Qed.

(** C7. The leaf executors are correct cursors: [DocIdsQueryExecutor] over any list of valid ids
    (also unsorted, with duplicates), [RangeQueryExecutor] over the documents of its ranges, and
    [PKQueryExecutor] over its document if the wrapped executor has it. *)
Theorem leaf_executors_correct (ids : list docid_t) (rs : LayerMeta) (q : executor I B) (Dq : docset)
    (docId : docid_t) :
  Forall (fun d => 0 <= d < END_DOCID) ids ->
  ranges_ok rs -> Forall (fun r => 0 <= r_begin r /\ r_end r < END_DOCID) rs ->
  denotes q Dq -> docId <= END_DOCID ->
  cursor_over (new_DocIds (I := I) (B := B) ids) (fun d => d ∈ ids) /\
  cursor_over (new_Range (I := I) (B := B) rs) (range_docs rs) /\
  cursor_over (new_PK (Some q) docId) (fun d => d = docId /\ Dq d).
Proof using Q_laws QB_laws QB_test_laws.
  intros H1 H2 H3 H4 H5.
  split; [|split]; apply (denotes_cursor Q QB Q_laws QB_laws QB_test_laws).
  - by apply new_DocIds_denotes.
  - by apply new_Range_denotes.
  - by apply new_PK_denotes.
Qed.

(** C8. Searching a layer that has not been searched, in quota mode [QM_PER_LAYER] and without a
    timeout: calling [SingleLayerSearcher::seek] until it finds nothing returns, in ascending order
    and without duplicates, exactly the documents that the executor matches inside the layer's
    ranges, that are not deleted and that pass the filter; only the first [maxQuota] of them if
    there are more. *)
Theorem layer_search_correct (e : executor I B) (D : docset) (ranges : LayerMeta) (maxQuota : Z)
    (isDeleted pass : option (docid_t -> bool)) (timeout : nat -> bool) (n : nat) :
  denotes e D -> Searcher.fresh_layer ranges -> ranges <> [] -> 0 <= maxQuota < 2 ^ 32 ->
  (forall k, timeout k = false) -> (Z.to_nat maxQuota < n)%nat ->
  exists s, Searcher.new_searcher QM_PER_LAYER e ranges maxQuota = Ok s /\
    exists ds s',
      evals (fun f => Searcher.search QM_PER_LAYER seekWithoutCheck reset isDeleted pass n f timeout s)
        (ds, s') /\
      first_docs (fun d => D d /\ range_docs ranges d /\
                    Searcher.test isDeleted false d = false /\ Searcher.test pass true d = true)
        (Searcher._curDocId s) maxQuota ds /\
      (forall x, range_docs ranges x -> Searcher._curDocId s <= x).
Proof using Q_laws QB_laws QB_test_laws.
  intros [Hcur [k Hp]] Hl Hne Hq Ht Hn.
  pose proof (seek_pos_laws Q QB Q_laws QB_laws QB_test_laws k) as laws.
  assert (HD : pos Q QB k e D 0) by done.
  destruct (Searcher.new_searcher_ok seek (pos Q QB k) laws getDocId seekWithoutCheck reset
              seek_current seekWithoutCheck_seek None None D ranges Hl e maxQuota HD Hcur Hne)
    as (s & Hs & Hst & _).
  exists s. split; [done|].
  destruct (Searcher.search_ok seek (pos Q QB k) laws getDocId seekWithoutCheck reset
              seek_current seekWithoutCheck_seek isDeleted pass D ranges Hl n maxQuota timeout s
              Hq Hn Ht Hst) as (ds & s' & Hev & Hfd).
  exists ds, s'. split; [done|]. split; [done|].
  intros x Hx. destruct Hst as ((_ & _ & _ & r & Hr & Hb & _) & _ & Hcb).
  unfold Searcher.new_searcher in Hs. destruct (ranges !! 0%nat) as [r0|] eqn:Hr0; [|done].
  injection Hs as <-. cbn. destruct Hl as [[Hok Hsort] Hf].
  apply Exists_exists in Hx as (r' & [i Hr']%list_elem_of_lookup & Hx).
  pose proof (Forall_lookup_1 _ _ _ _ Hf Hr0) as [-> _].
  destruct i as [|i]; [simplify_eq; lia|].
  pose proof (StronglySorted_lookup_lt _ ranges 0 (S i) r0 r' Hsort Hr0 Hr' ltac:(lia)) as Hlt.
  pose proof (Forall_lookup_1 _ _ _ _ Hok Hr0) as Hbe. cbn in Hlt, Hbe. lia.
Qed.
End Trees.

(** ** Concrete instances *)

Definition docsA : list docid_t := [1; 4; 9].
Definition docsB : list docid_t := [4; 7; 9].
Definition docsC : list docid_t := [0; 4].

Definition termOf (ids : list docid_t) : executor list_iter list_iter :=
  new_Term (ids, ids) (Z.of_nat (length ids)) (Z.of_nat (length ids)).
Definition rangeTermOf (ids : list docid_t) : executor list_iter list_iter :=
  new_RangeTerm (ids, ids) (Z.of_nat (length ids)) (Z.of_nat (length ids)).
Definition bitmapOf (ids : list docid_t) : executor list_iter list_iter :=
  BitmapTermQueryExecutor (new_BitmapTerm (ids, ids) (Z.of_nat (length ids)) (Z.of_nat (length ids))).

(** An ascending list of document ids, as a computation. *)
Fixpoint ascending (lo : docid_t) (ids : list docid_t) : bool :=
  match ids with
  | [] => true
  | d :: ids' => (lo <? d) && (d <? END_DOCID) && ascending d ids'
  end.

Lemma ascending_ok lo ids :
  ascending lo ids = true -> -1 <= lo ->
  StronglySorted Z.lt ids /\ Forall (fun d => lo < d < END_DOCID) ids.
Proof.
  revert lo. induction ids as [|d ids IH]; intros lo; cbn; [intros _ _; split; constructor|].
  rewrite !andb_true_iff, !Z.ltb_lt. intros [[Hd He] Ha] Hlo.
  destruct (IH d Ha ltac:(lia)) as [Hs Hf].
  split; [constructor; [done|]|constructor; [lia|]]; (eapply Forall_impl; [exact Hf|]; cbn; lia).
Qed.

Lemma list_at_of ids : ascending (-1) ids = true -> list_at (ids, ids) (fun d => d ∈ ids) 0.
Proof.
  intros H. destruct (ascending_ok _ _ H ltac:(lia)) as [Hs Hf]. apply list_at_new; [done|].
  eapply Forall_impl; [exact Hf|]. cbn. lia.
Qed.

Abbreviation denotesL := (denotes (I := list_iter) (B := list_iter) list_at list_at).

Lemma termOf_denotes ids : ascending (-1) ids = true -> denotesL (termOf ids) (fun d => d ∈ ids).
Proof. intros H. apply new_Term_denotes; [apply list_posting_laws|by apply list_at_of]. Qed.

Lemma rangeTermOf_denotes ids :
  ascending (-1) ids = true -> denotesL (rangeTermOf ids) (fun d => d ∈ ids).
Proof.
  intros H. apply new_RangeTerm_denotes; [apply list_posting_laws|apply list_filter_laws|].
  by apply list_at_of.
Qed.

Lemma bitmapOf_denotes ids :
  ascending (-1) ids = true -> denotesL (bitmapOf ids) (fun d => d ∈ ids).
Proof. intros H. apply new_BitmapTerm_denotes; [apply list_posting_laws|by apply list_at_of]. Qed.

(** The children of the examples and their documents. *)
Definition children : list (executor list_iter list_iter) :=
  [termOf docsA; rangeTermOf docsB; termOf docsC].
Definition childrenDocs : list docset :=
  [fun d => d ∈ docsA; fun d => d ∈ docsB; fun d => d ∈ docsC].

Lemma children_denote : Forall2 denotesL children childrenDocs.
Proof.
  unfold children, childrenDocs. rewrite !Forall2_cons.
  split_and!; [by apply termOf_denotes|by apply rangeTermOf_denotes|by apply termOf_denotes|done].
Qed.

(** The answers to [seek] for a list of ids, and those of a layer search. *)
Definition answers (e : executor list_iter list_iter) (ids : list docid_t) : option (list docid_t) :=
  match seeks 40 e ids with Ok (ds, _) => Some ds | _ => None end.

Example and_answers :
  match new_And children with Ok e => answers e [0; 3; 5] | _ => None end = Some [4; 4; END_DOCID].
Proof. vm_compute. reflexivity. Qed.

Example or_answers : answers (new_Or children) [0; 1; 2; 5; 8; 10] = Some [0; 1; 4; 7; 9; END_DOCID].
Proof. vm_compute. reflexivity. Qed.

Example weakand_answers : answers (new_WeakAnd 2 children) [0; 5; 10] = Some [4; 9; END_DOCID].
Proof. vm_compute. reflexivity. Qed.

Example andnot_answers :
  match new_AndNot (termOf docsA) (Some (rangeTermOf docsB)) with
  | Ok e => answers e [0; 2] | _ => None end = Some [1; END_DOCID].
Proof. vm_compute. reflexivity. Qed.

Example bitmapand_answers :
  match new_BitmapAnd [bitmapOf docsA; bitmapOf docsB; termOf docsC] with
  | Ok e => answers e [0; 5] | _ => None end = Some [4; END_DOCID].
Proof. vm_compute. reflexivity. Qed.

Lemma executor_seek_witness :
  let D : docset := fun d => exists i (Di : docset), childrenDocs !! i = Some Di /\ Di d in
  exists ds e', evals (fun f => seeks f (new_Or children) [0; 2; 5; 10]) (ds, e') /\ Forall2 (first_ge D) [0; 2; 5; 10] ds.
Proof.
  intros D. apply (executor_seek_correct list_at list_at list_posting_laws list_posting_laws list_test_laws (new_Or children) D).
  - apply (new_Or_denotes list_at list_at list_posting_laws list_posting_laws list_test_laws); [done | apply children_denote].
  - split; repeat constructor; unfold END_DOCID; lia.
Defined.

Lemma and_executor_witness :
  exists e, new_And_ordered [2; 0; 1]%nat children = Ok e /\ denotesL e (inter childrenDocs) /\
    cursor_over e (inter childrenDocs).
Proof.
  apply (and_executor_correct list_at list_at list_posting_laws list_posting_laws list_test_laws
           [2; 0; 1]%nat children childrenDocs).
  - change (seq 0 (length children)) with [0; 1; 2]%nat. by apply (Permutation_app_comm [2]%nat [0; 1]%nat).
  - done.
  - apply children_denote.
Defined.

Lemma or_executor_witness :
  denotesL (new_Or children) (fun d => exists i (Di : docset), childrenDocs !! i = Some Di /\ Di d) /\
  cursor_over (new_Or children) (fun d => exists i (Di : docset), childrenDocs !! i = Some Di /\ Di d).
Proof.
  apply (or_executor_correct list_at list_at list_posting_laws list_posting_laws list_test_laws);
    [done|apply children_denote].
Defined.

Lemma andnot_executor_witness :
  exists e, new_AndNot (termOf docsA) (Some (rangeTermOf docsB)) = Ok e /\
    cursor_over e (fun d => d ∈ docsA /\ ~ d ∈ docsB).
Proof.
  apply (andnot_executor_correct list_at list_at list_posting_laws list_posting_laws list_test_laws
           (termOf docsA) (rangeTermOf docsB) (fun d => d ∈ docsA) (fun d => d ∈ docsB)).
  - apply termOf_denotes. reflexivity.
  - apply rangeTermOf_denotes. reflexivity.
  - reflexivity.
Defined.

Lemma weakand_executor_witness :
  let D := fun d => exists l : list nat, NoDup l /\ length l = 2%nat /\
             forall i, i ∈ l -> exists Di : docset, childrenDocs !! i = Some Di /\ Di d in
  denotesL (new_WeakAnd 2 children) D /\ cursor_over (new_WeakAnd 2 children) D.
Proof.
  apply (weakand_executor_correct list_at list_at list_posting_laws list_posting_laws list_test_laws
           2 children childrenDocs); [done|apply children_denote].
Defined.

Lemma bitmapand_executor_witness :
  exists e, new_BitmapAnd [bitmapOf docsA; termOf docsB] = Ok e /\
    denotesL e (inter [fun d => d ∈ docsA; fun d => d ∈ docsB]) /\
    cursor_over e (inter [fun d => d ∈ docsA; fun d => d ∈ docsB]).
Proof.
  apply (bitmapand_executor_correct list_at list_at list_posting_laws list_posting_laws list_test_laws).
  - cbn. lia.
  - done.
  - rewrite !Forall2_cons. split_and!; [by apply bitmapOf_denotes|by apply termOf_denotes|done].
Defined.

(** Two ranges of a layer. *)
Definition layer2 : LayerMeta := [mkRange 1 3 0 1 OT_UNKNOWN; mkRange 5 9 0 5 OT_UNKNOWN].

Lemma layer2_ok : ranges_ok layer2.
Proof. split; repeat constructor; cbn; lia. Qed.

Lemma leaf_executors_witness :
  cursor_over (new_DocIds (I := list_iter) (B := list_iter) [7; 2; 2]) (fun d => d ∈ [7; 2; 2]) /\
  cursor_over (new_Range (I := list_iter) (B := list_iter) layer2) (range_docs layer2) /\
  cursor_over (new_PK (Some (termOf docsA)) 4) (fun d => d = 4 /\ d ∈ docsA).
Proof.
  apply (leaf_executors_correct list_at list_at list_posting_laws list_posting_laws list_test_laws
           [7; 2; 2] layer2 (termOf docsA) (fun d => d ∈ docsA) 4).
  - repeat constructor; unfold END_DOCID; lia.
  - apply layer2_ok.
  - repeat constructor; cbn; unfold END_DOCID; lia.
  - apply termOf_denotes. reflexivity.
  - unfold END_DOCID. lia.
Defined.

Example layer_search_answers :
  match Searcher.new_searcher QM_PER_LAYER (new_Or children) layer2 10 with
  | Ok s =>
      match Searcher.search QM_PER_LAYER seekWithoutCheck reset (Some (Z.eqb 7)) None 11 40
              (fun _ => false) s with
      | Ok (ds, _) => Some ds
      | _ => None
      end
  | _ => None
  end = Some [1; 9].
Proof. vm_compute. reflexivity. Qed.

Lemma layer_search_witness :
  exists s, Searcher.new_searcher QM_PER_LAYER (termOf docsA) layer2 10 = Ok s /\
    exists ds s',
      evals (fun f => Searcher.search QM_PER_LAYER seekWithoutCheck reset (Some (Z.eqb 7)) None 11 f
                        (fun _ => false) s) (ds, s') /\
      first_docs (fun d => d ∈ docsA /\ range_docs layer2 d /\
                    Searcher.test (Some (Z.eqb 7)) false d = false /\
                    Searcher.test None true d = true)
        (Searcher._curDocId s) 10 ds /\
      (forall x, range_docs layer2 x -> Searcher._curDocId s <= x).
Proof.
  apply (layer_search_correct list_at list_at list_posting_laws list_posting_laws list_test_laws
           (termOf docsA) (fun d => d ∈ docsA) layer2 10 (Some (Z.eqb 7)) None (fun _ => false) 11).
  - apply termOf_denotes. reflexivity.
  - split; [apply layer2_ok|]. repeat constructor; cbn; unfold END_DOCID; lia.
  - done.
  - lia.
  - done.
  - cbn. lia.
Defined.

(** ** Restricted seeks *)

(** C9. [QueryExecutorRestrictor::meetRestrict] without a timeout, called with ids that do not go
    back: the answer is the first document id of the layer's ranges from the given id on, or
    [END_DOCID], and the wrapper's offset stays valid for the next call. *)
Theorem restrictor_correct (ranges : LayerMeta) (lo id : docid_t) (w : Restrictor.LayerMetaWrapper) :
  ranges_ok ranges -> Forall (fun r => r_end r < END_DOCID) ranges ->
  Restrictor.wrapper_at ranges lo w -> lo <= id <= END_DOCID ->
  exists d w', Restrictor.meetRestrict (Some false) (Some w) id = (d, Some w') /\
    first_ge (range_docs ranges) id d /\ Restrictor.wrapper_at ranges id w'.
Proof.
  intros H1 H2 H3 H4. destruct (Restrictor.wrapper_seek_ok ranges lo w id H1 H2 H3 H4) as (d & w' & Hs & H).
  exists d, w'. unfold Restrictor.meetRestrict. by rewrite Hs.
Qed.

Lemma restrictor_witness :
  exists d w', Restrictor.meetRestrict (Some false) (Some (Restrictor.new_LayerMetaWrapper layer2)) 4
      = (d, Some w') /\
    first_ge (range_docs layer2) 4 d /\ Restrictor.wrapper_at layer2 4 w'.
Proof.
  apply (restrictor_correct layer2 0 4 (Restrictor.new_LayerMetaWrapper layer2)).
  - apply layer2_ok.
  - repeat constructor; cbn; unfold END_DOCID; lia.
  - split; [reflexivity|constructor].
  - unfold END_DOCID. lia.
Defined.

(** ** Phrases *)

(** C10. [PhraseQueryExecutor::phraseFreq] terminates and decides whether the phrase occurs in the
    current document: whether there is a position at which every term of the phrase stands at its
    relative position (each term with its own posting iterator, positions small enough that adding
    a relative position does not wrap around in 32 bits). *)
Theorem phraseFreq_correct {T : Type} (seekPosition : T -> Z -> res (Z * T))
    (Q : T -> (Z -> Prop) -> Z -> Prop) (Ss : list (Z -> Prop)) (rel : list Z) (marks : list nat)
    (R : Z) (terms : list T) :
  Phrase.position_laws seekPosition Q -> Phrase.phrase_ok Ss rel marks R ->
  (forall m (S : Z -> Prop), Ss !! m = Some S -> exists t, terms !! m = Some t /\ Q t S 0) ->
  exists b terms', evals (fun f => Phrase.phraseFreq seekPosition f rel marks terms) (b, terms') /\
    (b = true <-> exists p, 0 <= p /\
       forall i r m (S : Z -> Prop),
         rel !! i = Some r -> marks !! i = Some m -> Ss !! m = Some S -> S (p + r)).
Proof. intros laws Hok Ht. exact (Phrase.phraseFreq_ok seekPosition Q laws Ss rel marks R Hok terms Ht). Qed.

(** Positions as an ascending list. *)
Fixpoint list_seekPosition (ps : list Z) (p : Z) : Z * list Z :=
  match ps with
  | [] => (INVALID_POSITION, [])
  | x :: ps' => if p <=? x then (x, ps') else list_seekPosition ps' p
  end.

Definition positions_at (ps : list Z) (S : Z -> Prop) (lo : Z) : Prop :=
  StronglySorted Z.lt ps /\ Forall (fun x => x < INVALID_POSITION) ps /\
  forall x, lo <= x -> S x <-> x ∈ ps.

Lemma list_position_laws : Phrase.position_laws (fun ps p => Ok (list_seekPosition ps p)) positions_at.
Proof.
  split.
  - intros ps S lo lo' (Hs & Hb & HS) Hlo. split; [done|]. split; [done|]. intros x Hx. apply HS. lia.
  - intros ps S lo p (Hs & Hb & HS) Hlo Hp. exists (fst (list_seekPosition ps p)), (snd (list_seekPosition ps p)).
    split; [by destruct (list_seekPosition ps p)|].
    assert (HS' : forall x, p <= x -> S x <-> x ∈ ps) by (intros; apply HS; lia). clear HS Hlo.
    induction Hs as [|y ps Hs IH Hy]; cbn.
    { left. split; [done|]. intros x Hx Hin%HS'; [|done]. by apply not_elem_of_nil in Hin. }
    apply Forall_cons_iff in Hb as [Hyb Hb]. rewrite Forall_forall in Hy.
    destruct (Z.leb_spec p y) as [Hle|Hgt]; cbn.
    + right. split; [lia|]. split; [apply HS'; [lia|by left]|]. split.
      * intros x Hx Hin%HS'; [|lia]. apply elem_of_cons in Hin as [->|Hin]; [lia|].
        specialize (Hy x Hin). lia.
      * split; [done|]. split; [done|]. intros x Hx. rewrite HS' by lia. rewrite elem_of_cons.
        intuition lia.
    + apply IH; [done|]. intros x Hx. rewrite HS', elem_of_cons by lia. intuition lia.
Qed.

Lemma phraseFreq_witness :
  exists b terms',
    evals (fun f => Phrase.phraseFreq (fun ps p => Ok (list_seekPosition ps p)) f [0; 1]
                      [0; 1]%nat [[2; 5]; [3; 7]]) (b, terms') /\
    (b = true <-> exists p, 0 <= p /\
       forall i r m (S : Z -> Prop), [0; 1] !! i = Some r -> [0; 1]%nat !! i = Some m ->
         [fun x => x ∈ [2; 5]; fun x => x ∈ [3; 7]] !! m = Some S -> S (p + r)).
Proof.
  apply (phraseFreq_correct (fun ps p => Ok (list_seekPosition ps p)) positions_at
           [fun x => x ∈ [2; 5]; fun x => x ∈ [3; 7]] [0; 1] [0; 1]%nat 1 [[2; 5]; [3; 7]]).
  - apply list_position_laws.
  - split; try done.
    + repeat constructor; cbn; set_solver.
    + repeat constructor; cbn; lia.
    + repeat constructor; lia.
    + unfold INVALID_POSITION, u32_max. intros m S x HS Hx.
      destruct m as [|[|m]]; [| |done]; injection HS as <-;
        repeat (apply elem_of_cons in Hx as [->|Hx]; [lia|]); by apply not_elem_of_nil in Hx.
  - intros m S HS. destruct m as [|[|m]]; [| |done]; injection HS as <-; eexists; (split; [reflexivity|]);
      split; [|split|idtac| split]; try done; repeat constructor; unfold INVALID_POSITION, u32_max; lia.
Defined.

(** A phrase executor ignores the positions: [if (_lastMatchedDocId)] in
    [PhraseQueryExecutor::doSeek] holds for the initial value [INVALID_DOCID], so a new executor
    returns the first document that has all terms, without calling [phraseFreq]. *)
Theorem phrase_positions_ignored {E : Type} (seekE : nat -> E -> docid_t -> res (docid_t * E))
    (moveToEndE : E -> E) (seekPosition : E -> Z -> res (Z * E)) (f : nat) (sorted : list nat)
    (filters : list DocValueFilter) (rel : list Z) (marks : list nat) (children : list E) (id : docid_t) :
  Phrase.doSeek seekE moveToEndE seekPosition (S f) false sorted filters rel marks
      (Phrase.new_state children) id =
    let! (d, children', n) := And.doSeek seekE moveToEndE (S f) sorted filters children 0 id in
    Ok (d, Phrase.mkState children' n (if d =? END_DOCID then INVALID_DOCID else d)).
Proof.
  unfold Phrase.doSeek. cbn [iter]. unfold Phrase.doSeek_body at 1. cbn [Phrase.ph_children Phrase.ph_testDocCount
    Phrase.ph_lastMatchedDocId Phrase.new_state].
  destruct (And.doSeek _ _ _ _ _ _ _ _) as [[[d cs] n]| | |]; cbn [res_bind]; try done.
  destruct (Z.eqb_spec d END_DOCID) as [->|Hne]; cbn [negb res_bind]; reflexivity.
Qed.
