(* ===== verification/Bits.v ===== *)
(** * Counting bits

    The bit counting of [indexlib::util::Bitmap] (src/aios/storage/indexlib/util/Bitmap.h,
    both [CountBits]) and its bit masks, proved equal to a count of bits one by one. *)

From stdpp Require Import base list numbers option tactics.
From Stdlib Require Import ZArith Lia ZifyNat.
From S2P Require Import Prelude.

#[local] Open Scope Z_scope.

(** ** The code *)

Definition SLOT_SIZE : Z := 32.
Definition SLOT_SIZE_BIT_NUM : Z := 5.
Definition SLOT_SIZE_BIT_MASK : Z := 31.
Definition INVALID_INDEX : Z := 4294967295.

(** [BITMAPOPMASK]: bit 0 of a bitmap is the most significant bit of its first slot. *)
Definition BITMAPOPMASK_table : list Z :=
  [2147483648; 1073741824; 536870912; 268435456; 134217728; 67108864; 33554432; 16777216;
   8388608; 4194304; 2097152; 1048576; 524288; 262144; 131072; 65536;
   32768; 16384; 8192; 4096; 2048; 1024; 512; 256; 128; 64; 32; 16; 8; 4; 2; 1].

Definition BITMAP_NEXT_MASK_table : list Z :=
  [4294967295; 2147483647; 1073741823; 536870911; 268435455; 134217727; 67108863; 33554431;
   16777215; 8388607; 4194303; 2097151; 1048575; 524287; 262143; 131071;
   65535; 32767; 16383; 8191; 4095; 2047; 1023; 511; 255; 127; 63; 31; 15; 7; 3; 1].

Definition BITMAPOPMASK (rem : Z) : Z := BITMAPOPMASK_table !!! Z.to_nat rem.
Definition BITMAP_NEXT_MASK (rem : Z) : Z := BITMAP_NEXT_MASK_table !!! Z.to_nat rem.

(** [CountBits(uint64_t)]: the parallel bit count. *)
Definition CountBits64 (value : Z) : Z :=
  let value := u64 (value - Z.land (Z.shiftr value 1) 0x5555555555555555) in
  let value := u64 (Z.land value 0x3333333333333333 +
                    Z.land (Z.shiftr value 2) 0x3333333333333333) in
  u32 (Z.shiftr (u64 (Z.land (u64 (value + Z.shiftr value 4)) 0xF0F0F0F0F0F0F0F * 0x101010101010101)) 56).

(** [CountBits(uint32_t, validCount)]: the set bits among the first [validCount]. *)
Fixpoint CountBits32_loop (n : nat) (value count : Z) : Z :=
  match n with
  | O => count
  | S n' =>
      if value =? 0 then count
      else CountBits32_loop n' (u32 (Z.shiftl value 1))
             (if negb (Z.land value (BITMAPOPMASK 0) =? 0) then u32 (count + 1) else count)
  end.
Definition CountBits32 (value validCount : Z) : Z := CountBits32_loop (Z.to_nat validCount) value 0.

(** ** The specification *)

(** The number of [i < n] with [f i]. *)
Fixpoint count (f : nat -> bool) (n : nat) : Z :=
  match n with
  | O => 0
  | S n' => count f n' + Z.b2z (f n')
  end.

Lemma count_range f n : 0 <= count f n <= Z.of_nat n.
Proof. induction n as [|n IH]; cbn [count]; [lia|]. destruct (f n); cbn; lia. Qed.

Lemma count_ext f g n : (forall i, (i < n)%nat -> f i = g i) -> count f n = count g n.
Proof.
  induction n as [|n IH]; intros H; [done|]. cbn [count]. rewrite IH, H by auto with lia. done.
Qed.

Lemma count_add f n m : count f (n + m) = count f n + count (fun i => f (n + i)%nat) m.
Proof.
  induction m as [|m IH]; [rewrite Nat.add_0_r; cbn; lia|].
  rewrite Nat.add_succ_r. cbn [count]. rewrite IH. lia.
Qed.

Lemma count_false f n : (forall i, (i < n)%nat -> f i = false) -> count f n = 0.
Proof.
  intros H. rewrite (count_ext f (fun _ => false)) by done. clear H.
  induction n as [|n IH]; [done|]. cbn [count]. rewrite IH. done.
Qed.

(** Changing one bit changes the count by one. *)
Lemma count_update f g n k :
  (k < n)%nat -> (forall i, (i < n)%nat -> i <> k -> f i = g i) ->
  count g n = count f n + Z.b2z (g k) - Z.b2z (f k).
Proof.
  intros Hk Hfg. replace n with (k + S (n - S k))%nat by lia.
  rewrite !count_add. cbn [Nat.add]. change (S (n - S k)) with (1 + (n - S k))%nat.
  rewrite !count_add. cbn [count Nat.add]. rewrite Nat.add_0_r.
  rewrite (count_ext f g k) by (intros; apply Hfg; lia).
  rewrite (count_ext (fun i => f (k + S i)%nat) (fun i => g (k + S i)%nat))
    by (intros; apply Hfg; lia). lia.
Qed.

(** The bits of a word, most significant first. *)
Definition wbit (w : Z) (r : nat) : bool := Z.testbit w (31 - Z.of_nat r).

(** ** The masks *)

Lemma mask_cases r (P : Z -> Prop) :
  (forall k, (k < 32)%nat -> P (Z.of_nat k)) -> 0 <= r < 32 -> P r.
Proof. intros H Hr. rewrite <- (Z2Nat.id r) by lia. apply H. lia. Qed.

Lemma BITMAPOPMASK_eq r : 0 <= r < 32 -> BITMAPOPMASK r = 2 ^ (31 - r).
Proof.
  apply (mask_cases r (fun r => BITMAPOPMASK r = 2 ^ (31 - r))). intros k Hk.
  do 32 (destruct k as [|k]; [reflexivity|]). lia.
Qed.

Lemma BITMAP_NEXT_MASK_eq r : 0 <= r < 32 -> BITMAP_NEXT_MASK r = Z.ones (32 - r).
Proof.
  apply (mask_cases r (fun r => BITMAP_NEXT_MASK r = Z.ones (32 - r))). intros k Hk.
  do 32 (destruct k as [|k]; [reflexivity|]). lia.
Qed.

(** ** [CountBits(uint32_t, validCount)] *)

Lemma testbit_u32 w i : Z.testbit (u32 w) i = (i <? 32) && Z.testbit w i.
Proof. unfold u32. rewrite Z.testbit_mod_pow2 by lia. done. Qed.

Lemma testbit_high w n i : 0 <= w < 2 ^ n -> n <= i -> 0 <= n -> Z.testbit w i = false.
Proof.
  intros Hw Hi Hn. destruct (Z.eq_dec w 0) as [->|Hne]; [by rewrite Z.testbit_0_l|].
  assert (Z.log2 w < n) by (apply Z.log2_lt_pow2; lia). apply Z.bits_above_log2; lia.
Qed.

Lemma bound_by_bits x n : 0 <= n -> (forall i, n <= i -> Z.testbit x i = false) -> 0 <= x < 2 ^ n.
Proof.
  intros Hn Hx. replace x with (x mod 2 ^ n); [apply Z.mod_pos_bound; lia|].
  apply Z.bits_inj'. intros i Hi. rewrite Z.testbit_mod_pow2 by lia.
  destruct (Z.ltb_spec i n); [done|]. by rewrite Hx by lia.
Qed.

Lemma land_bound x m n : 0 <= n -> 0 <= m < 2 ^ n -> 0 <= Z.land x m < 2 ^ n.
Proof.
  intros Hn Hm. apply bound_by_bits; [done|]. intros i Hi.
  by rewrite Z.land_spec, (testbit_high m n i), andb_false_r by lia.
Qed.

Lemma land_pow2_testbit w k : 0 <= k -> (Z.land w (2 ^ k) =? 0) = negb (Z.testbit w k).
Proof.
  intros Hk. rewrite Z.land_comm. destruct (Z.testbit w k) eqn:Hb; cbn.
  - apply Z.eqb_neq. intros H0. assert (Z.testbit (Z.land (2 ^ k) w) k = false) as H.
    { rewrite H0. apply Z.testbit_0_l. }
    rewrite Z.land_spec, Z.pow2_bits_true, Hb in H by done. done.
  - apply Z.eqb_eq. apply Z.bits_inj'. intros n Hn. rewrite Z.land_spec, Z.testbit_0_l.
    destruct (Z.eq_dec n k) as [->|Hne]; [by rewrite Hb, andb_false_r|].
    by rewrite Z.pow2_bits_false by lia.
Qed.

Lemma CountBits32_loop_ok n value c :
  0 <= value < 2 ^ 32 -> (n <= 32)%nat -> 0 <= c -> c + Z.of_nat n < 2 ^ 32 ->
  CountBits32_loop n value c = c + count (wbit value) n.
Proof.
  revert value c. induction n as [|n IH]; intros value c Hv Hn Hc Hcn; [cbn; lia|].
  cbn [CountBits32_loop]. destruct (Z.eqb_spec value 0) as [->|Hne].
  { rewrite count_false; [lia|]. intros i Hi. apply Z.testbit_0_l. }
  rewrite BITMAPOPMASK_eq, land_pow2_testbit, negb_involutive by lia.
  assert (count (wbit value) (S n) =
          Z.b2z (Z.testbit value 31) + count (wbit (u32 (Z.shiftl value 1))) n) as Hcount.
  { change (S n) with (1 + n)%nat. rewrite count_add. cbn [count]. f_equal.
    apply count_ext. intros i Hi. unfold wbit. rewrite testbit_u32, Z.shiftl_spec by lia.
    rewrite (proj2 (Z.ltb_lt _ _)) by lia. cbn [andb]. f_equal. lia. }
  rewrite Hcount. pose proof (u32_range (Z.shiftl value 1)).
  replace (31 - 0) with 31 by lia.
  destruct (Z.testbit value 31); cbn [Z.b2z].
  - rewrite (u32_small (c + 1)) by lia. rewrite IH by lia. lia.
  - rewrite IH by lia. lia.
Qed.

Lemma CountBits32_ok value n :
  0 <= value < 2 ^ 32 -> 0 <= n <= 32 -> CountBits32 value n = count (wbit value) (Z.to_nat n).
Proof. intros. unfold CountBits32. rewrite CountBits32_loop_ok by lia. lia. Qed.

(** ** [CountBits(uint64_t)] *)

(** The count works on the eight bytes of a word in parallel: no step carries from one byte
    into the next. *)
Definition join (bs : list Z) : Z := fold_right (fun b acc => b + 256 * acc) 0 bs.

Definition byte (b : Z) : Prop := 0 <= b < 256.

Lemma testbit_join b x i :
  byte b -> 0 <= i -> Z.testbit (b + 256 * x) i = if i <? 8 then Z.testbit b i else Z.testbit x (i - 8).
Proof.
  intros Hb Hi. unfold byte in Hb. destruct (Z.ltb_spec i 8) as [Hlt|Hge].
  - rewrite <- (Z.mod_pow2_bits_low _ 8) by lia. change (2 ^ 8) with 256.
    rewrite Z.mul_comm, Z_mod_plus_full, Z.mod_small by lia. done.
  - replace i with (i - 8 + 8) at 1 by lia. rewrite <- Z.div_pow2_bits by lia. change (2 ^ 8) with 256.
    rewrite Z.mul_comm, Z.div_add, Z.div_small by lia. f_equal.
Qed.

(** A mask that keeps the low [8 - k] bits of a byte keeps a shift by [k] within the byte. *)
Lemma land_shiftr_join k b x m y :
  byte b -> 0 <= k < 8 -> 0 <= m < 2 ^ (8 - k) ->
  Z.land (Z.shiftr (b + 256 * x) k) (m + 256 * y) =
  Z.land (Z.shiftr b k) m + 256 * Z.land (Z.shiftr x k) y.
Proof.
  intros Hb Hk Hm.
  assert (byte m) as Hm8.
  { split; [lia|]. assert (2 ^ (8 - k) <= 2 ^ 8) by (apply Z.pow_le_mono_r; lia). lia. }
  assert (byte (Z.land (Z.shiftr b k) m)) as Hbm.
  { apply (land_bound _ m 8); [lia|exact Hm8]. }
  apply Z.bits_inj'. intros i Hi. rewrite (testbit_join (Z.land _ _)), !Z.land_spec by done.
  rewrite (testbit_join m), !Z.shiftr_spec, (testbit_join b) by (done || lia).
  destruct (Z.ltb_spec i 8) as [Hlt|Hge].
  - destruct (Z.ltb_spec (i + k) 8); [done|].
    rewrite (testbit_high m (8 - k) i) by lia. by rewrite !andb_false_r.
  - rewrite Z.shiftr_spec by lia. destruct (Z.ltb_spec (i + k) 8); [lia|].
    replace (i + k - 8) with (i - 8 + k) by lia. done.
Qed.

Lemma land_join b x m y :
  byte b -> 0 <= m < 256 -> Z.land (b + 256 * x) (m + 256 * y) = Z.land b m + 256 * Z.land x y.
Proof.
  intros Hb Hm. pose proof (land_shiftr_join 0 b x m y Hb ltac:(lia) ltac:(lia)) as H.
  by rewrite !Z.shiftr_0_r in H.
Qed.

(** One byte through the three steps. *)
Definition step1 (b : Z) : Z := b - Z.land (Z.shiftr b 1) 0x55.
Definition step2 (b : Z) : Z := Z.land (step1 b) 0x33 + Z.land (Z.shiftr (step1 b) 2) 0x33.
Definition step3 (b : Z) : Z := Z.land (step2 b + Z.shiftr (step2 b) 4) 0x0F.

Definition byte_ok (b : Z) : bool :=
  (0 <=? step1 b) && (step1 b <? 256) && (0 <=? step2 b) && (step2 b <? 256) &&
  (step2 b mod 16 <=? 4) && (step2 b / 16 <=? 4) &&
  (step3 b =? count (fun r => Z.testbit b (Z.of_nat r)) 8).

Lemma byte_ok_all b : byte b -> byte_ok b = true.
Proof.
  intros Hb. assert (forallb byte_ok (map Z.of_nat (seq 0 256)) = true) as H by (vm_compute; reflexivity).
  rewrite forallb_forall in H. apply H. apply in_map_iff. exists (Z.to_nat b).
  unfold byte in Hb. split; [lia|]. apply in_seq. lia.
Qed.

Lemma byte_steps b :
  byte b -> byte (step1 b) /\ byte (step2 b) /\ step2 b mod 16 <= 4 /\ step2 b / 16 <= 4 /\
    step3 b = count (fun r => Z.testbit b (Z.of_nat r)) 8.
Proof.
  intros Hb. pose proof (byte_ok_all b Hb) as H. unfold byte_ok in H.
  rewrite !andb_true_iff, !Z.leb_le, !Z.ltb_lt, Z.eqb_eq in H. unfold byte.
  destruct H as [[[[[[? ?] ?] ?] ?] ?] ?]. by split_and!; try lia.
Qed.

Fixpoint bytes (n : nat) (v : Z) : list Z :=
  match n with O => [] | S n' => v mod 256 :: bytes n' (v / 256) end.

Lemma length_bytes n v : length (bytes n v) = n.
Proof. revert v. induction n as [|n IH]; intros v; cbn; [done|]. by rewrite IH. Qed.

Lemma join_bytes n v : 0 <= v < 256 ^ Z.of_nat n -> join (bytes n v) = v.
Proof.
  revert v. induction n as [|n IH]; intros v Hv; cbn [bytes join fold_right].
  { change (256 ^ Z.of_nat 0) with 1 in Hv. lia. }
  change (fold_right _ 0 (bytes n (v / 256))) with (join (bytes n (v / 256))).
  rewrite IH; [pose proof (Z.div_mod v 256); lia|].
  rewrite Nat2Z.inj_succ, Z.pow_succ_r in Hv by lia. split; [apply Z.div_pos; lia|].
  apply Z.div_lt_upper_bound; lia.
Qed.

Lemma bytes_byte n v : Forall byte (bytes n v).
Proof.
  revert v. induction n as [|n IH]; intros v; cbn; constructor; [apply Z.mod_pos_bound; lia|done].
Qed.

Lemma bytes_mod n v : bytes n (v mod 256 ^ Z.of_nat n) = bytes n v.
Proof.
  revert v. induction n as [|n IH]; intros v; cbn [bytes]; [done|].
  rewrite Nat2Z.inj_succ, Z.pow_succ_r by lia. set (M := 256 ^ Z.of_nat n) in *.
  assert (0 < M) by (apply Z.pow_pos_nonneg; lia). rewrite Z.rem_mul_r by lia.
  f_equal.
  - rewrite (Z.mul_comm 256), Z_mod_plus_full. apply Z.mod_mod. lia.
  - rewrite <- (IH (v / 256)). f_equal. rewrite (Z.mul_comm 256), Z_div_plus_full by lia.
    rewrite (Z.div_small (v mod 256)) by (apply Z.mod_pos_bound; lia). lia.
Qed.

Lemma bytes_add n m v : bytes (n + m) v = bytes n v ++ bytes m (v / 256 ^ Z.of_nat n).
Proof.
  revert v. induction n as [|n IH]; intros v; cbn [Nat.add bytes app]; [by rewrite Z.div_1_r|].
  rewrite IH, Nat2Z.inj_succ, Z.pow_succ_r, Z.div_div by (lia || apply Z.pow_pos_nonneg; lia). done.
Qed.

Lemma bytes_join bs : Forall byte bs -> bytes (length bs) (join bs) = bs.
Proof.
  induction 1 as [|b bs Hb _ IH]; [done|]. unfold byte in Hb. cbn [length join fold_right bytes]. fold (join bs).
  rewrite (Z.mul_comm 256), Z_mod_plus_full, Z_div_plus_full, Z.mod_small, Z.div_small, Z.add_0_l, IH by lia. done.
Qed.

(** Bytewise operations on [n] bytes with the mask [m] in each. *)
Definition maskOf (m : Z) (n : nat) : Z := join (repeat m n).

Lemma join_land_shiftr k m bs :
  Forall byte bs -> 0 <= k < 8 -> 0 <= m < 2 ^ (8 - k) ->
  Z.land (Z.shiftr (join bs) k) (maskOf m (length bs)) =
  join (map (fun b => Z.land (Z.shiftr b k) m) bs).
Proof.
  intros Hbs Hk Hm. induction Hbs as [|b bs Hb Hbs IH]; cbn [map join fold_right length].
  { rewrite Z.shiftr_0_l, Z.land_0_l. done. }
  unfold maskOf in *. cbn [repeat join fold_right]. fold (join bs) (join (repeat m (length bs))).
  rewrite land_shiftr_join by done. unfold join in *. rewrite IH. done.
Qed.

Lemma join_sub (f g : Z -> Z) bs : join (map f bs) - join (map g bs) = join (map (fun b => f b - g b) bs).
Proof. induction bs as [|b bs IH]; cbn [map join fold_right]; [done|]. unfold join in *. lia. Qed.

Lemma join_plus (f g : Z -> Z) bs : join (map f bs) + join (map g bs) = join (map (fun b => f b + g b) bs).
Proof. induction bs as [|b bs IH]; cbn [map join fold_right]; [done|]. unfold join in *. lia. Qed.

Lemma join_bound bs : Forall byte bs -> 0 <= join bs < 256 ^ Z.of_nat (length bs).
Proof.
  induction 1 as [|b bs Hb Hbs IH]; cbn [join fold_right length]; [done|]. fold (join bs).
  rewrite Nat2Z.inj_succ, Z.pow_succ_r by lia. unfold byte in Hb. lia.
Qed.

Lemma Forall_map_byte (f : Z -> Z) bs : (forall b, byte b -> byte (f b)) -> Forall byte bs -> Forall byte (map f bs).
Proof. intros Hf. induction 1; cbn; constructor; auto. Qed.

(** The number of set bits of the bytes, one by one. *)
Definition popcount (bs : list Z) : Z := fold_right (fun b acc => step3 b + acc) 0 bs.

Lemma step3_byte b : byte b -> 0 <= step3 b <= 8.
Proof. intros Hb. destruct (byte_steps b Hb) as (_ & _ & _ & _ & ->). apply count_range. Qed.

(** Bytes whose nibbles are at most 4: adding the nibbles of each byte does not carry. *)
Definition nibbles (c : Z) : Prop := byte c /\ c mod 16 <= 4 /\ c / 16 <= 4.

Lemma nibble_sum cs :
  Forall nibbles cs ->
  join cs mod 16 <= 4 /\
  0 <= join cs + Z.shiftr (join cs) 4 < 256 ^ Z.of_nat (length cs) /\
  Z.land (join cs + Z.shiftr (join cs) 4) (maskOf 0x0F (length cs)) =
    join (map (fun c => Z.land (c + Z.shiftr c 4) 0x0F) cs).
Proof.
  induction 1 as [|c cs (Hc & Hlo & Hhi) Hcs (IHm & IHb & IHl)]; [done|].
  cbn [map join fold_right length]. fold (join cs).
  fold (join (map (fun c => Z.land (c + Z.shiftr c 4) 0x0F) cs)).
  set (x := join cs) in *. unfold byte in Hc.
  assert (Hx : c + 256 * x + Z.shiftr (c + 256 * x) 4 =
               (c + c / 16 + 16 * (x mod 16)) + 256 * (x + Z.shiftr x 4)).
  { rewrite !Z.shiftr_div_pow2 by lia. change (2 ^ 4) with 16.
    replace (c + 256 * x) with (c + (16 * x) * 16) at 2 by lia. rewrite Z.div_add by lia.
    pose proof (Z.div_mod x 16). lia. }
  pose proof (Z.mod_pos_bound x 16). pose proof (Z.div_mod c 16). pose proof (Z.mod_pos_bound c 16).
  assert (byte (c + c / 16 + 16 * (x mod 16))) as Hbr by (unfold byte; lia).
  split; [|rewrite Hx; split].
  - replace (c + 256 * x) with (c + (16 * x) * 16) by lia. rewrite Z_mod_plus_full. done.
  - rewrite Nat2Z.inj_succ, Z.pow_succ_r by lia. unfold byte in Hbr. lia.
  - unfold maskOf in *. cbn [repeat join fold_right]. fold (join (repeat 15 (length cs))).
    rewrite land_join by (done || lia). rewrite IHl. f_equal.
    rewrite !Z.shiftr_div_pow2 by lia. change (2 ^ 4) with 16. change 15 with (Z.ones 4).
    rewrite !Z.land_ones by lia. change (2 ^ 4) with 16.
    replace (c + c / 16 + 16 * (x mod 16)) with (c + c / 16 + (x mod 16) * 16) by lia.
    by rewrite Z_mod_plus_full.
Qed.

(** The multiplication adds the eight bytes into the most significant one. *)
Lemma sum_bytes ss :
  length ss = 8%nat -> Forall (fun s => 0 <= s <= 8) ss ->
  Z.shiftr (u64 (join ss * 0x101010101010101)) 56 = fold_right Z.add 0 ss.
Proof.
  intros Hlen Hs.
  destruct ss as [|s0 [|s1 [|s2 [|s3 [|s4 [|s5 [|s6 [|s7 [|]]]]]]]]]; try done. clear Hlen.
  rewrite !Forall_cons_iff in Hs. destruct Hs as (?&?&?&?&?&?&?&?&_).
  cbn [join fold_right]. rewrite Z.shiftr_div_pow2 by lia. unfold u64.
  match goal with |- (?X mod 2 ^ 64) / 2 ^ 56 = ?T =>
    set (q := (s1 + s2 + s3 + s4 + s5 + s6 + s7) + 256 * ((s2 + s3 + s4 + s5 + s6 + s7) +
              256 * ((s3 + s4 + s5 + s6 + s7) + 256 * ((s4 + s5 + s6 + s7) + 256 * ((s5 + s6 + s7) +
              256 * ((s6 + s7) + 256 * s7))))));
    set (r := s0 + 256 * ((s0 + s1) + 256 * ((s0 + s1 + s2) + 256 * ((s0 + s1 + s2 + s3) + 256 *
              ((s0 + s1 + s2 + s3 + s4) + 256 * ((s0 + s1 + s2 + s3 + s4 + s5) + 256 *
              (s0 + s1 + s2 + s3 + s4 + s5 + s6)))))));
    assert (HX : X = (T * 2 ^ 56 + r) + q * 2 ^ 64) by (subst q r; lia)
  end.
  rewrite HX, Z_mod_plus_full, Z.mod_small by (subst r; lia).
  rewrite Z.add_comm, Z.div_add, Z.div_small by (subst r; lia). done.
Qed.

Lemma map_join_steps bs :
  Forall byte bs -> length bs = 8%nat -> CountBits64 (join bs) = popcount bs.
Proof.
  intros Hbs Hlen. unfold CountBits64.
  change 0x5555555555555555 with (maskOf 0x55 8). change 0x3333333333333333 with (maskOf 0x33 8).
  change 0xF0F0F0F0F0F0F0F with (maskOf 0x0F 8).
  assert (Hf1 : Forall byte (map step1 bs)) by (apply Forall_map_byte; [apply byte_steps|done]).
  assert (Hf2 : Forall byte (map step2 bs)) by (apply Forall_map_byte; [apply byte_steps|done]).
  assert (Hu : forall l, Forall byte l -> length l = 8%nat -> u64 (join l) = join l).
  { intros l Hl Hll. apply u64_small. pose proof (join_bound l Hl) as Hj. rewrite Hll in Hj. exact Hj. }
  assert (Hs1 : join bs - Z.land (Z.shiftr (join bs) 1) (maskOf 0x55 8) = join (map step1 bs)).
  { rewrite <- Hlen. rewrite join_land_shiftr by (done || lia).
    rewrite <- (map_id bs) at 1. rewrite join_sub. done. }
  rewrite Hs1, (Hu (map step1 bs)) by (rewrite ?length_map; done).
  assert (Hs2 : Z.land (join (map step1 bs)) (maskOf 0x33 8) +
                Z.land (Z.shiftr (join (map step1 bs)) 2) (maskOf 0x33 8) = join (map step2 bs)).
  { rewrite <- (Z.shiftr_0_r (join (map step1 bs))) at 1.
    replace 8%nat with (length (map step1 bs)) by (by rewrite length_map).
    rewrite !join_land_shiftr by (done || lia). rewrite !map_map, join_plus. done. }
  rewrite Hs2, (Hu (map step2 bs)) by (rewrite ?length_map; done).
  assert (Hn : Forall nibbles (map step2 bs)).
  { apply Forall_map. eapply Forall_impl; [|exact Hbs]. intros b Hb.
    destruct (byte_steps b Hb) as (_ & ? & ? & ? & _). by split. }
  destruct (nibble_sum (map step2 bs) Hn) as (_ & Hb & Hl).
  rewrite length_map, Hlen in Hb, Hl. rewrite (u64_small (_ + _)) by exact Hb. rewrite Hl, map_map.
  change (fun x => Z.land (step2 x + Z.shiftr (step2 x) 4) 15) with step3.
  rewrite sum_bytes; [|by rewrite length_map|].
  - replace (fold_right Z.add 0 (map step3 bs)) with (popcount bs)
      by (clear; induction bs as [|b bs IH]; cbn; [done|by rewrite <- IH]).
    unfold popcount. apply u32_small.
    assert (0 <= fold_right (fun b acc => step3 b + acc) 0 bs <= 8 * Z.of_nat (length bs)); [|lia].
    clear - Hbs. induction Hbs as [|b bs Hb Hbs IH]; cbn [fold_right length]; [lia|].
    pose proof (step3_byte b Hb). lia.
  - apply Forall_map. eapply Forall_impl; [|exact Hbs]. intros b. apply step3_byte.
Qed.

Lemma count_bytes n v :
  popcount (bytes n v) = count (fun r => Z.testbit v (Z.of_nat r)) (8 * n).
Proof.
  revert v. induction n as [|n IH]; intros v; [done|]. cbn [bytes popcount fold_right].
  fold (popcount (bytes n (v / 256))). rewrite IH.
  assert (byte (v mod 256)) as Hb by (apply Z.mod_pos_bound; lia).
  destruct (byte_steps _ Hb) as (_ & _ & _ & _ & ->).
  replace (8 * S n)%nat with (8 + 8 * n)%nat by lia. rewrite count_add. f_equal.
  - apply count_ext. intros i Hi. change 256 with (2 ^ 8). rewrite Z.testbit_mod_pow2 by lia.
    by rewrite (proj2 (Z.ltb_lt _ _)) by lia.
  - apply count_ext. intros i Hi. change 256 with (2 ^ 8). rewrite Z.div_pow2_bits by lia. f_equal. lia.
Qed.

(** The parallel count is the number of set bits. *)
Lemma CountBits64_ok v :
  0 <= v < 2 ^ 64 -> CountBits64 v = count (fun r => Z.testbit v (Z.of_nat r)) 64.
Proof.
  intros Hv. rewrite <- (join_bytes 8 v) at 1 by exact Hv.
  rewrite map_join_steps by (apply bytes_byte || done). apply (count_bytes 8).
Qed.

(** Counting in the other order. *)
Lemma count_rev f n : count (fun i => f (n - 1 - i)%nat) n = count f n.
Proof.
  revert f. induction n as [|n IH]; intros f; [done|].
  assert (count f (S n) = Z.b2z (f 0%nat) + count (fun i => f (S i)) n) as ->.
  { change (S n) with (1 + n)%nat at 1. by rewrite (count_add f 1 n). }
  rewrite <- (IH (fun i => f (S i))). cbn [count]. replace (S n - 1 - n)%nat with 0%nat by lia.
  rewrite (count_ext (fun i => f (S n - 1 - i)%nat) (fun i => f (S (n - 1 - i))%nat)); [lia|].
  intros i Hi. f_equal. lia.
Qed.

(** Two slots read as one 64-bit word, least significant slot first. *)
Lemma CountBits64_pair a b :
  0 <= a < 2 ^ 32 -> 0 <= b < 2 ^ 32 ->
  CountBits64 (a + 2 ^ 32 * b) = count (wbit a) 32 + count (wbit b) 32.
Proof.
  intros Ha Hb. rewrite CountBits64_ok by lia. rewrite (count_add _ 32 32).
  rewrite <- (count_rev (wbit a)), <- (count_rev (wbit b)). f_equal.
  - apply count_ext. intros i Hi. unfold wbit.
    rewrite <- (Z.mod_pow2_bits_low _ 32) by lia. rewrite Z.mul_comm, Z_mod_plus_full, Z.mod_small by lia.
    f_equal. lia.
  - apply count_ext. intros i Hi. unfold wbit.
    replace (Z.of_nat (32 + i)) with (Z.of_nat i + 32) by lia. rewrite <- Z.div_pow2_bits by lia.
    rewrite Z.mul_comm, Z.div_add, Z.div_small by lia. f_equal. lia.
Qed.

#[global] Arguments count : simpl never.

Lemma count_S f n : count f (S n) = count f n + Z.b2z (f n).
Proof. reflexivity. Qed.
