(* ===== verification/Bitmap.v ===== *)
(** * Bitmaps

    [indexlib::util::Bitmap] and [ExpandableBitmap] (src/aios/storage/indexlib/util): a
    sequence of bits in 32-bit slots, bit 0 the most significant of the first slot, with a
    count of the set bits that is kept up to date. The operations are proved against the
    abstract view of a bitmap as a boolean function on indices ([represents]). *)

From stdpp Require Import base list numbers option tactics.
From Stdlib Require Import ZArith Lia ZifyNat.
From S2P Require Import Prelude Bits.

#[local] Open Scope Z_scope.
#[local] Ltac Zify.zify_post_hook ::= Z.to_euclidean_division_equations.

(** ** The code *)

(** [class Bitmap], without its memory pool; a null [_data] is [None]. *)
Record Bitmap := mkBitmap {
  _itemCount : Z;
  _slotCount : Z;
  _data : option (list Z);
  _setCount : Z;
  _mount : bool;
  _initSet : bool
}.

(** [Bitmap(bool bSet)] *)
Definition new_Bitmap_empty (bSet : bool) : Bitmap :=
  let n := if bSet then INVALID_INDEX else 0 in
  mkBitmap n n None 0 false bSet.

(** [(nItemCount + SLOT_SIZE - 1) >> 5] *)
Definition slotsFor (nItemCount : Z) : Z := Z.shiftr (u32 (nItemCount + SLOT_SIZE - 1)) 5.

(** [memset(p, bSet ? 0xFF : 0, n * sizeof(uint32_t))] *)
Definition fill (bSet : bool) (n : Z) : list Z := replicate (Z.to_nat n) (if bSet then u32_max else 0).

(** [Bitmap(uint32_t nItemCount, bool bSet)] *)
Definition new_Bitmap (nItemCount : Z) (bSet : bool) : Bitmap :=
  mkBitmap nItemCount (slotsFor nItemCount) (Some (fill bSet (slotsFor nItemCount)))
    (if bSet then nItemCount else 0) false bSet.

(** The copy constructor, [operator=] and [Clone] copy the slots. *)
Definition copyOf (rhs : Bitmap) : Bitmap :=
  mkBitmap (_itemCount rhs) (_slotCount rhs) (_data rhs) (_setCount rhs) false (_initSet rhs).

Definition Clear (b : Bitmap) : Bitmap :=
  mkBitmap 0 (_slotCount b) None 0 (_mount b) (_initSet b).

Definition Alloc (nItemCount : Z) (bSet : bool) (b : Bitmap) : Bitmap :=
  mkBitmap nItemCount (slotsFor nItemCount) (Some (fill bSet (slotsFor nItemCount)))
    (if bSet then nItemCount else 0) (_mount b) (_initSet b).

Definition setData (ws : list Z) (b : Bitmap) : Bitmap :=
  mkBitmap (_itemCount b) (_slotCount b) (Some ws) (_setCount b) (_mount b) (_initSet b).

Definition SetSetCount (nCount : Z) (b : Bitmap) : Bitmap :=
  mkBitmap (_itemCount b) (_slotCount b) (_data b) nCount (_mount b) (_initSet b).

(** [_data[i]] *)
Definition slot (ws : list Z) (i : Z) : res Z := if i <? 0 then Undefined else deref (ws !! Z.to_nat i).

(** [_data[i] = w] *)
Definition setSlot (ws : list Z) (i : Z) (w : Z) : res (list Z) :=
  let! _ := slot ws i in Ok (<[Z.to_nat i := w]> ws).

Definition quot (nIndex : Z) : Z := Z.shiftr nIndex SLOT_SIZE_BIT_NUM.
Definition rem (nIndex : Z) : Z := Z.land nIndex SLOT_SIZE_BIT_MASK.

(** [Test] *)
Definition Test (b : Bitmap) (nIndex : Z) : res bool :=
  let! ws := deref (_data b) in
  let! w := slot ws (quot nIndex) in
  Ok (negb (Z.land w (BITMAPOPMASK (rem nIndex)) =? 0)).

(** [Set]: whether the bit was clear. *)
Definition Set_ (b : Bitmap) (nIndex : Z) : res (bool * Bitmap) :=
  let! ws := deref (_data b) in
  let! w := slot ws (quot nIndex) in
  if Z.land w (BITMAPOPMASK (rem nIndex)) =? 0 then
    let! ws' := setSlot ws (quot nIndex) (Z.lor w (BITMAPOPMASK (rem nIndex))) in
    Ok (true, SetSetCount (u32 (_setCount b + 1)) (setData ws' b))
  else Ok (false, b).

(** [~w] on a [uint32_t] *)
Definition not32 (w : Z) : Z := Z.lxor w u32_max.

(** [Reset]: whether the bit was set; an index outside the bitmap is ignored. *)
Definition Reset_ (b : Bitmap) (nIndex : Z) : res (bool * Bitmap) :=
  if _itemCount b <=? nIndex then Ok (false, b)
  else
    let! ws := deref (_data b) in
    let! w := slot ws (quot nIndex) in
    if negb (Z.land w (BITMAPOPMASK (rem nIndex)) =? 0) then
      let! ws' := setSlot ws (quot nIndex) (Z.land w (not32 (BITMAPOPMASK (rem nIndex)))) in
      Ok (true, SetSetCount (u32 (_setCount b - 1)) (setData ws' b))
    else Ok (false, b).

Definition ResetAll (b : Bitmap) : res Bitmap :=
  let! ws := deref (_data b) in
  if (Z.of_nat (length ws) <? _slotCount b) then Undefined
  else Ok (SetSetCount 0 (setData (fill false (_slotCount b) ++ drop (Z.to_nat (_slotCount b)) ws) b)).

(** The loop of [RefreshSetCountByScanning] over pairs of slots read as [uint64_t]. *)
Fixpoint countPairs (ws : list Z) (n : nat) (acc : Z) {struct n} : res Z :=
  match n with
  | O => Ok acc
  | S n' =>
      match ws with
      | a :: b :: ws' =>
          let nData := a + 2 ^ 32 * b in
          countPairs ws' n' (if nData =? 0 then acc else u32 (acc + CountBits64 nData))
      | _ => Undefined
      end
  end.

(** [RefreshSetCountByScanning]: the last slot up to the last item, then one slot if needed for
    the rest to be a number of pairs. Returns the count. *)
Definition scanSetCount (itemCount slotCount : Z) (ws : list Z) : res Z :=
  let lastSlot := u32 (slotCount - 1) in
  let testBitInLastSlot := Z.land itemCount SLOT_SIZE_BIT_MASK in
  let! (done, count, lastSlot) :=
    if negb (testBitInLastSlot =? 0) then
      let! w := slot ws lastSlot in
      let count := CountBits32 w testBitInLastSlot in
      if lastSlot =? 0 then Ok (true, count, lastSlot) else Ok (false, count, lastSlot - 1)
    else Ok (false, 0, lastSlot) in
  if done : bool then Ok count
  else
    let! (done, count, lastSlot) :=
      if Z.land lastSlot 1 =? 0 then
        let! w := slot ws lastSlot in
        let count := u32 (count + CountBits32 w 32) in
        if lastSlot =? 0 then Ok (true, count, lastSlot) else Ok (false, count, lastSlot - 1)
      else Ok (false, count, lastSlot) in
    if done : bool then Ok count
    else countPairs ws (Z.to_nat (lastSlot / 2 + 1)) count.

Definition RefreshSetCountByScanning (b : Bitmap) : res Bitmap :=
  match _data b with
  | None => Ok (SetSetCount 0 b)
  | Some ws => let! n := scanSetCount (_itemCount b) (_slotCount b) ws in Ok (SetSetCount n b)
  end.

Definition GetUnsetCount (b : Bitmap) : Z := u32 (_itemCount b - _setCount b).

(** [__builtin_clz], for a value that is not 0 *)
Definition clz (w : Z) : Z := 31 - Z.log2 w.

Fixpoint scanSlots (ws : list Z) (i : Z) : Z :=
  match ws with
  | [] => INVALID_INDEX
  | w :: ws' => if w =? 0 then scanSlots ws' (i + 1) else u32 (i * SLOT_SIZE + clz w)
  end.

(** [Begin]: the first set bit. *)
Definition Begin (b : Bitmap) : res Z :=
  let! ws := deref (_data b) in
  if Z.of_nat (length ws) <? _slotCount b then Undefined
  else Ok (scanSlots (take (Z.to_nat (_slotCount b)) ws) 0).

(** [Next]: the first set bit after [nIndex]. *)
Definition Next (b : Bitmap) (nIndex : Z) : res Z :=
  let nIndex := u32 (nIndex + 1) in
  if nIndex <? _itemCount b then
    let! ws := deref (_data b) in
    if Z.of_nat (length ws) <? _slotCount b then Undefined
    else
      match drop (Z.to_nat (quot nIndex)) (take (Z.to_nat (_slotCount b)) ws) with
      | [] => Ok INVALID_INDEX
      | nData :: rest =>
          let restData := Z.land nData (BITMAP_NEXT_MASK (rem nIndex)) in
          if negb (restData =? 0) then Ok (u32 (quot nIndex * SLOT_SIZE + clz restData))
          else Ok (scanSlots rest (quot nIndex + 1))
      end
  else Ok INVALID_INDEX.

(** The loop of [ResetAllAfter] over the masks of one slot. *)
Fixpoint clearFrom (n : nat) (i w : Z) : Z :=
  match n with
  | O => w
  | S n' => clearFrom n' (i + 1) (Z.land w (not32 (BITMAPOPMASK i)))
  end.

Definition ResetAllAfter (b : Bitmap) (nIndex : Z) : res Bitmap :=
  let! ws := deref (_data b) in
  let! w := slot ws (quot nIndex) in
  let! ws1 := setSlot ws (quot nIndex) (clearFrom (Z.to_nat (SLOT_SIZE - rem nIndex)) (rem nIndex) w) in
  let ws2 :=
    if quot nIndex <? u32 (_slotCount b - 1) then
      take (Z.to_nat (quot nIndex + 1)) ws1 ++ fill false (_slotCount b - quot nIndex - 1) ++
        drop (Z.to_nat (_slotCount b)) ws1
    else ws1 in
  RefreshSetCountByScanning (setData ws2 b).

Definition MountWithoutRefreshSetCount (nItemCount : Z) (pData : list Z) (doNotDelete : bool)
    (b : Bitmap) : Bitmap :=
  mkBitmap nItemCount (slotsFor nItemCount) (Some pData) (_setCount b) doNotDelete (_initSet b).

Definition Mount (nItemCount : Z) (pData : list Z) (doNotDelete : bool) (b : Bitmap) : res Bitmap :=
  RefreshSetCountByScanning (MountWithoutRefreshSetCount nItemCount pData doNotDelete b).

(** [for (i = 0; i < _slotCount; ++i) _data[i] = f(_data[i], b[i])] *)
Fixpoint zipSlots (f : Z -> Z -> Z) (n : nat) (ws vs : list Z) : res (list Z) :=
  match n with
  | O => Ok ws
  | S n' =>
      match ws, vs with
      | w :: ws', v :: vs' => let! r := zipSlots f n' ws' vs' in Ok (f w v :: r)
      | _, _ => Undefined
      end
  end.

Definition combine (f : Z -> Z -> Z) (b bitmap : Bitmap) : res Bitmap :=
  let! ws := deref (_data b) in
  let! vs := deref (_data bitmap) in
  let! r := zipSlots f (Z.to_nat (_slotCount b)) ws vs in
  RefreshSetCountByScanning (setData r b).

(** [operator&], [operator-] *)
Definition and_op : Bitmap -> Bitmap -> res Bitmap := combine Z.land.
Definition minus_op : Bitmap -> Bitmap -> res Bitmap := combine (fun w v => Z.land w (not32 v)).

(** [operator|]: batches of 32 slots, then the rest. *)
Fixpoint orBatches (n : nat) (ws vs : list Z) : res (list Z * list Z * list Z) :=
  match n with
  | O => Ok ([], ws, vs)
  | S n' =>
      let! r := zipSlots Z.lor 32 (take 32 ws) vs in
      let! (acc, ws', vs') := orBatches n' (drop 32 ws) (drop 32 vs) in
      Ok (r ++ acc, ws', vs')
  end.

Definition or_op (b bitmap : Bitmap) : res Bitmap :=
  let! ws := deref (_data b) in
  let! vs := deref (_data bitmap) in
  let! (acc, ws', vs') := orBatches (Z.to_nat (_slotCount b / 32)) ws vs in
  let! r := zipSlots Z.lor (Z.to_nat (_slotCount b mod 32)) ws' vs' in
  RefreshSetCountByScanning (setData (acc ++ r) b).

(** The loop of [operator~] over the items of the last slot. *)
Fixpoint flipBits (n : nat) (i nData w : Z) : Z :=
  match n with
  | O => w
  | S n' =>
      flipBits n' (i + 1) nData
        (if negb (Z.land nData (BITMAPOPMASK i) =? 0) then Z.land w (not32 (BITMAPOPMASK i))
         else Z.lor w (BITMAPOPMASK i))
  end.

Definition not_op (b : Bitmap) : res Bitmap :=
  let! ws := deref (_data b) in
  let nLastSlot := u32 (_slotCount b - 1) in
  let! nData := slot ws nLastSlot in
  let nCount := _itemCount b - nLastSlot * SLOT_SIZE in
  let ws' := (not32 <$> take (Z.to_nat nLastSlot) ws) ++ drop (Z.to_nat nLastSlot) ws in
  Ok (SetSetCount (GetUnsetCount b)
        (setData (<[Z.to_nat nLastSlot := flipBits (Z.to_nat nCount) 0 nData nData]> ws') b)).

(** [operator==], for two objects that do not share their slots *)
Definition eq_op (b bitmap : Bitmap) : bool :=
  (_itemCount b =? _itemCount bitmap) && (_slotCount b =? _slotCount bitmap) &&
  (_setCount b =? _setCount bitmap) && bool_decide (_data b = _data bitmap).

(** [while (nData != 0) { if (nData & BITMAPOPMASK[0]) setCount++; nData <<= 1; }] *)
Fixpoint countShifted (n : nat) (nData setCount : Z) : Z :=
  match n with
  | O => setCount
  | S n' =>
      if nData =? 0 then setCount
      else countShifted n' (u32 (Z.shiftl nData 1))
             (if negb (Z.land nData (BITMAPOPMASK 0) =? 0) then u32 (setCount + 1) else setCount)
  end.

(** The rest of the first slot in [GetSetCount(begin, end)], if [begin] is not its first bit. *)
Definition firstSlotCount (ws : list Z) (begin_ testEndSlot testBitInEndSlot : Z) : res (Z * Z) :=
  let testBeginSlot := begin_ / SLOT_SIZE in
  if negb (SLOT_SIZE - Z.land begin_ SLOT_SIZE_BIT_MASK =? SLOT_SIZE) then
    let! nData := slot ws testBeginSlot in
    let nData :=
      if testBeginSlot =? testEndSlot
      then Z.land nData (u32 (Z.shiftl u32_max (SLOT_SIZE - testBitInEndSlot))) else nData in
    let nData := u32 (Z.shiftl nData (Z.land begin_ SLOT_SIZE_BIT_MASK)) in
    Ok (countShifted 32 nData 0, testBeginSlot + 1)
  else Ok (0, testBeginSlot).

(** [GetSetCount(begin, end)]: the set bits from [begin] to [end], both included. *)
Definition GetSetCount_range (b : Bitmap) (begin_ end_ : Z) : res Z :=
  let end_ := if _itemCount b <=? end_ then u32 (_itemCount b - 1) else end_ in
  match _data b with
  | None => Ok 0
  | Some ws =>
      if end_ <? begin_ then Ok 0
      else
        let testEndSlot := (end_ + 1) / SLOT_SIZE in
        let testBitInEndSlot := Z.land (end_ + 1) SLOT_SIZE_BIT_MASK in
        let! (setCount, testBeginSlot) := firstSlotCount ws begin_ testEndSlot testBitInEndSlot in
        let! setCount :=
          if (testBeginSlot <=? testEndSlot) && negb (testBitInEndSlot =? 0) then
            let! nData := slot ws testEndSlot in
            Ok (u32 (setCount + CountBits32 nData testBitInEndSlot))
          else Ok setCount in
        let! (setCount, testBeginSlot) :=
          if (testBeginSlot <? testEndSlot) && negb (Z.land (testEndSlot - testBeginSlot) 1 =? 0) then
            let! nData := slot ws testBeginSlot in
            Ok (if negb (nData =? 0) then u32 (setCount + CountBits32 nData 32) else setCount,
                testBeginSlot + 1)
          else Ok (setCount, testBeginSlot) in
        countPairs (drop (Z.to_nat testBeginSlot) ws)
          (Z.to_nat ((testEndSlot - testBeginSlot + 1) / 2)) setCount
  end.

(** The whole slots between two indices, and the masks of the slots at both ends. *)
Definition testStart (beginIndex : Z) : Z :=
  if rem beginIndex =? 0 then quot beginIndex else quot beginIndex + 1.
Definition testEnd (endIndex : Z) : Z :=
  if rem endIndex =? SLOT_SIZE_BIT_MASK then quot endIndex else quot endIndex - 1.
Definition beginMask (beginIndex : Z) : Z :=
  Z.lor (BITMAPOPMASK (rem beginIndex) - 1) (BITMAPOPMASK (rem beginIndex)).
Definition endMask (endIndex : Z) : Z := not32 (BITMAPOPMASK (rem endIndex) - 1).
Definition bothMask (beginIndex endIndex : Z) : Z :=
  u32 (beginMask beginIndex - (BITMAPOPMASK (rem endIndex) - 1)).

(** [HasSetData]: whether a bit from [beginIndex] to [endIndex] is set. *)
Definition HasSetData (b : Bitmap) (beginIndex endIndex : Z) : res bool :=
  let! ws := deref (_data b) in
  let n := Z.to_nat (testEnd endIndex - testStart beginIndex + 1) in
  let whole := take n (drop (Z.to_nat (testStart beginIndex)) ws) in
  if (length whole <? n)%nat then Undefined
  else if existsb (fun w => negb (w =? 0)) whole then Ok true
  else
    let! wb := slot ws (quot beginIndex) in
    let! we := slot ws (quot endIndex) in
    if negb (quot beginIndex =? quot endIndex) then
      if negb (rem beginIndex =? 0) && negb (Z.land wb (beginMask beginIndex) =? 0) then Ok true
      else if negb (rem endIndex =? SLOT_SIZE_BIT_MASK) && negb (Z.land we (endMask endIndex) =? 0)
      then Ok true
      else Ok false
    else if (negb (rem beginIndex =? 0) || negb (rem endIndex =? SLOT_SIZE_BIT_MASK)) &&
            negb (Z.land wb (bothMask beginIndex endIndex) =? 0)
    then Ok true
    else Ok false.

(** [ResetBetween]: clear the bits from [beginIndex] to [endIndex]; [_setCount] is not changed. *)
Definition ResetBetween (b : Bitmap) (beginIndex endIndex : Z) : res Bitmap :=
  let! ws := deref (_data b) in
  let n := Z.to_nat (testEnd endIndex - testStart beginIndex + 1) in
  let start := Z.to_nat (testStart beginIndex) in
  if (length (take n (drop start ws)) <? n)%nat then Undefined
  else
    let ws1 := take start ws ++ replicate n 0 ++ drop (start + n) ws in
    let! ws2 :=
      if negb (quot beginIndex =? quot endIndex) then
        let! ws2 :=
          if negb (rem beginIndex =? 0) then
            let! w := slot ws1 (quot beginIndex) in
            setSlot ws1 (quot beginIndex) (Z.land w (not32 (beginMask beginIndex)))
          else Ok ws1 in
        if negb (rem endIndex =? SLOT_SIZE_BIT_MASK) then
          let! w := slot ws2 (quot endIndex) in
          setSlot ws2 (quot endIndex) (Z.land w (BITMAPOPMASK (rem endIndex) - 1))
        else Ok ws2
      else if negb (rem beginIndex =? 0) || negb (rem endIndex =? SLOT_SIZE_BIT_MASK) then
        let! w := slot ws1 (quot beginIndex) in
        setSlot ws1 (quot beginIndex) (Z.land w (not32 (bothMask beginIndex endIndex)))
      else Ok ws1 in
    Ok (setData ws2 b).

(** [class ExpandableBitmap] *)
Module Expandable.
Abbreviation base_Set := Set_.
Abbreviation base_Reset := Reset_.
Abbreviation base_Mount := Mount.

Record ExpandableBitmap := mkExpandable {
  base : Bitmap;
  _validItemCount : Z
}.

Definition new_Expandable (nItemCount : Z) (bSet : bool) : ExpandableBitmap :=
  mkExpandable (new_Bitmap nItemCount bSet) nItemCount.

(** [do { allocSlotCount += addSlotCount; } while (nIndex >= allocSlotCount * SLOT_SIZE)] *)
Definition growSlots (fuel : nat) (slotCount nIndex : Z) : res Z :=
  let addSlotCount := if 0 <? slotCount / 2 then slotCount / 2 else 1 in
  iter fuel (fun alloc =>
    let alloc := u32 (alloc + addSlotCount) in
    if u32 (alloc * SLOT_SIZE) <=? nIndex then Ok (inl alloc) else Ok (inr alloc)) slotCount.

(** [Expand]: at least [nIndex + 1] items; the new ones are like the initial ones. Without data the
    slots before [_slotCount] are left as they are allocated; none for a bitmap that was never filled. *)
Definition Expand (fuel : nat) (e : ExpandableBitmap) (nIndex : Z) : res ExpandableBitmap :=
  let b := base e in
  let! alloc := growSlots fuel (_slotCount b) nIndex in
  match _data b with
  | Some ws =>
      Ok (mkExpandable
            (mkBitmap (u32 (alloc * SLOT_SIZE)) alloc
               (Some (take (Z.to_nat (_slotCount b)) ws ++ fill (_initSet b) (alloc - _slotCount b)))
               (_setCount b) (_mount b) (_initSet b)) (_validItemCount e))
  | None =>
      if _slotCount b =? 0 then
        Ok (mkExpandable
              (mkBitmap (u32 (alloc * SLOT_SIZE)) alloc (Some (fill (_initSet b) alloc))
                 (_setCount b) (_mount b) (_initSet b)) (_validItemCount e))
      else Undefined
  end.

Definition Set_ (fuel : nat) (e : ExpandableBitmap) (nIndex : Z) : res (bool * ExpandableBitmap) :=
  let! e :=
    if _itemCount (base e) <=? nIndex then
      let! e' := Expand fuel e nIndex in
      Ok (mkExpandable (base e') (_itemCount (base e')))
    else Ok e in
  let! (r, b) := base_Set (base e) nIndex in
  Ok (r, mkExpandable b (_validItemCount e)).

Definition Reset_ (fuel : nat) (e : ExpandableBitmap) (nIndex : Z) : res (bool * ExpandableBitmap) :=
  let! e := if _itemCount (base e) <=? nIndex then Expand fuel e nIndex else Ok e in
  let! (r, b) := base_Reset (base e) nIndex in
  Ok (r, mkExpandable b (_validItemCount e)).

Definition ReSize (fuel : nat) (e : ExpandableBitmap) (nItemCount : Z) : res ExpandableBitmap :=
  if _itemCount (base e) <=? nItemCount then
    let! e' := Expand fuel e nItemCount in Ok (mkExpandable (base e') nItemCount)
  else Ok (mkExpandable (base e) nItemCount).

Definition CloneWithOnlyValidData (e : ExpandableBitmap) : ExpandableBitmap :=
  let b := base e in
  let n := slotsFor (_validItemCount e) in
  mkExpandable
    (mkBitmap (_validItemCount e) n (take (Z.to_nat n) <$> _data b) (_setCount b) false (_initSet b))
    (_validItemCount e).

Definition Mount (nItemCount : Z) (pData : list Z) (doNotDelete : bool) (e : ExpandableBitmap)
    : res ExpandableBitmap :=
  let! b := base_Mount nItemCount pData doNotDelete (base e) in Ok (mkExpandable b nItemCount).
End Expandable.

(** ** Bits *)

(** Bit [i] of the slots. *)
Definition bit (ws : list Z) (i : Z) : bool :=
  match ws !! Z.to_nat (i / 32) with
  | Some w => Z.testbit w (31 - i mod 32)
  | None => false
  end.

Definition word (w : Z) : Prop := 0 <= w < 2 ^ 32.

Definition bitN (ws : list Z) (k : nat) : bool := bit ws (Z.of_nat k).

(** The shape of a bitmap in memory. The bound keeps [nItemCount + 31] in 32 bits. *)
Record wf (b : Bitmap) (ws : list Z) : Prop := {
  wf_data : _data b = Some ws;
  wf_items : 0 <= _itemCount b <= 2 ^ 32 - 32;
  wf_slots : _slotCount b = (_itemCount b + 31) / 32;
  wf_length : Z.of_nat (length ws) = _slotCount b;
  wf_words : Forall word ws
}.

(** A bitmap stands for the function [f] on its indices and counts its set bits. *)
Record represents (b : Bitmap) (f : Z -> bool) : Prop := {
  rep_wf : exists ws, wf b ws /\ forall i, 0 <= i < _itemCount b -> bit ws i = f i;
  rep_count : _setCount b = count (fun k => f (Z.of_nat k)) (Z.to_nat (_itemCount b))
}.

Lemma quot_rem i : 0 <= i -> quot i = i / 32 /\ rem i = i mod 32.
Proof.
  intros Hi. unfold quot, rem, SLOT_SIZE_BIT_NUM, SLOT_SIZE_BIT_MASK. split.
  - by rewrite Z.shiftr_div_pow2 by lia.
  - change 31 with (Z.ones 5). by rewrite Z.land_ones by lia.
Qed.

Lemma slot_lookup ws i w : 0 <= i -> slot ws i = Ok w <-> ws !! Z.to_nat i = Some w.
Proof.
  intros Hi. unfold slot. rewrite (proj2 (Z.ltb_ge i 0)) by lia.
  destruct (ws !! Z.to_nat i); cbn; split; congruence.
Qed.

Lemma setSlot_ok ws i w w' : ws !! Z.to_nat i = Some w -> 0 <= i ->
  setSlot ws i w' = Ok (<[Z.to_nat i := w']> ws).
Proof. intros Hw Hi. unfold setSlot. by rewrite (proj2 (slot_lookup ws i w Hi) Hw). Qed.

(** Every index has a slot. *)
Lemma wf_slot b ws i :
  wf b ws -> 0 <= i < _itemCount b ->
  exists w, ws !! Z.to_nat (i / 32) = Some w /\ word w.
Proof.
  intros [Hd Hi Hs Hl Hw] Hii. destruct (lookup_lt_is_Some_2 ws (Z.to_nat (i / 32))) as [w Hlk]; [lia|].
  exists w. split; [done|]. exact (Forall_lookup_1 _ _ _ _ Hw Hlk).
Qed.

Lemma testbit_not32 w k : 0 <= k -> Z.testbit (not32 w) k = if k <? 32 then negb (Z.testbit w k) else Z.testbit w k.
Proof.
  intros Hk. unfold not32. rewrite Z.lxor_spec. change u32_max with (Z.ones 32).
  rewrite Z.testbit_ones_nonneg by lia. destruct (Z.ltb_spec k 32).
  - by rewrite xorb_true_r.
  - by rewrite xorb_false_r.
Qed.

Lemma word_bits w : (forall i, 32 <= i -> Z.testbit w i = false) <-> word w.
Proof.
  split; [apply bound_by_bits; lia|]. intros Hw i Hi. apply (testbit_high w 32); [exact Hw|lia..].
Qed.

Lemma word_lor a b : word a -> word b -> word (Z.lor a b).
Proof.
  rewrite <- !word_bits. intros Ha Hb i Hi. by rewrite Z.lor_spec, Ha, Hb.
Qed.

Lemma word_land a b : word a -> word (Z.land a b).
Proof. rewrite <- !word_bits. intros Ha i Hi. by rewrite Z.land_spec, Ha. Qed.

Lemma word_not32 w : word w -> word (not32 w).
Proof.
  rewrite <- !word_bits. intros Hw i Hi. rewrite testbit_not32 by lia.
  rewrite (proj2 (Z.ltb_ge _ _)) by lia. auto.
Qed.

Lemma word_mask r : 0 <= r < 32 -> word (BITMAPOPMASK r).
Proof.
  intros Hr. rewrite BITMAPOPMASK_eq by done. split; [lia|]. apply Z.pow_lt_mono_r; lia.
Qed.

Lemma testbit_mask r k : 0 <= r < 32 -> 0 <= k -> Z.testbit (BITMAPOPMASK r) k = (k =? 31 - r).
Proof.
  intros Hr Hk. rewrite BITMAPOPMASK_eq by done. rewrite Z.pow2_bits_eqb by lia. apply Z.eqb_sym.
Qed.

(** Changing one slot. *)
Lemma bit_insert ws q w' i :
  0 <= i -> (q < length ws)%nat ->
  bit (<[q := w']> ws) i = if decide (Z.to_nat (i / 32) = q) then Z.testbit w' (31 - i mod 32) else bit ws i.
Proof.
  intros Hi Hq. unfold bit. case_decide as Hd.
  - rewrite Hd. by rewrite list_lookup_insert_eq.
  - by rewrite list_lookup_insert_ne.
Qed.

Lemma land_mask w i : 0 <= i -> (Z.land w (BITMAPOPMASK (rem i)) =? 0) = negb (Z.testbit w (31 - i mod 32)).
Proof.
  intros Hi. rewrite (proj2 (quot_rem i Hi)), BITMAPOPMASK_eq by lia. apply land_pow2_testbit. lia.
Qed.

(** ** Test, set and reset one bit *)

Lemma Test_ok b f i : represents b f -> 0 <= i < _itemCount b -> Test b i = Ok (f i).
Proof.
  intros [(ws & Hwf & Hbit) _] Hi. destruct (wf_slot b ws i Hwf Hi) as (w & Hw & _).
  unfold Test. rewrite (wf_data _ _ Hwf). cbn [deref res_bind].
  rewrite (proj1 (quot_rem i ltac:(lia))), (proj2 (slot_lookup ws (i / 32) w ltac:(lia)) Hw).
  cbn [res_bind]. rewrite land_mask, negb_involutive by lia. rewrite <- Hbit by done. unfold bit. by rewrite Hw.
Qed.

(** Replacing the slot of index [i] by one that differs in that bit only. *)
Lemma represents_update b ws f i w w' (v : bool) :
  wf b ws -> (forall j, 0 <= j < _itemCount b -> bit ws j = f j) ->
  _setCount b = count (fun k => f (Z.of_nat k)) (Z.to_nat (_itemCount b)) ->
  0 <= i < _itemCount b -> ws !! Z.to_nat (i / 32) = Some w -> word w' ->
  (forall k, 0 <= k < 32 -> Z.testbit w' k = if k =? 31 - i mod 32 then v else Z.testbit w k) ->
  represents (SetSetCount (u32 (_setCount b + Z.b2z v - Z.b2z (f i))) (setData (<[Z.to_nat (i / 32) := w']> ws) b))
    (fun j => if j =? i then v else f j).
Proof.
  intros [Hd Hi Hs Hl Hw] Hbit Hcount Hii Hlk Hw' Htest. split.
  - exists (<[Z.to_nat (i / 32) := w']> ws). split.
    + split; cbn; [done|done|done|by rewrite length_insert|by apply Forall_insert].
    + cbn. intros j Hj. rewrite bit_insert by (lia || by eapply lookup_lt_Some).
      case_decide as Hdec.
      * rewrite Htest by lia.
        destruct (Z.eqb_spec (31 - j mod 32) (31 - i mod 32)); destruct (Z.eqb_spec j i); try lia; try done.
        rewrite <- Hbit by done. unfold bit. by rewrite Hdec, Hlk.
      * destruct (Z.eqb_spec j i) as [->|]; [done|]. by apply Hbit.
  - cbn. rewrite Hcount. set (n := Z.to_nat (_itemCount b)).
    rewrite (count_update (fun k => f (Z.of_nat k)) (fun k => if Z.of_nat k =? i then v else f (Z.of_nat k))
               n (Z.to_nat i)); [|lia|].
    + rewrite Z2Nat.id, Z.eqb_refl by lia.
      pose proof (count_update (fun k => f (Z.of_nat k)) (fun k => if Z.of_nat k =? i then v else f (Z.of_nat k))
               n (Z.to_nat i) ltac:(lia)) as Hu.
      pose proof (count_range (fun k => if Z.of_nat k =? i then v else f (Z.of_nat k)) n) as Hr.
      rewrite Hu in Hr.
      * rewrite Z2Nat.id, Z.eqb_refl in Hr by lia. apply u32_small. lia.
      * intros k Hk Hne. by rewrite (proj2 (Z.eqb_neq _ _)) by lia.
    + intros k Hk Hne. by rewrite (proj2 (Z.eqb_neq _ _)) by lia.
Qed.

(** Setting a set bit or resetting a clear one changes nothing. *)
Lemma represents_ext b f g :
  represents b f -> (forall i, 0 <= i < _itemCount b -> f i = g i) -> represents b g.
Proof.
  intros [(ws & Hwf & Hbit) Hc] Hfg. split.
  - exists ws. split; [done|]. intros i Hi. by rewrite Hbit, Hfg.
  - rewrite Hc. apply count_ext. intros k Hk. apply Hfg. lia.
Qed.

Lemma Set_ok b f i :
  represents b f -> 0 <= i < _itemCount b ->
  exists b', Set_ b i = Ok (negb (f i), b') /\ _itemCount b' = _itemCount b /\
    represents b' (fun j => if j =? i then true else f j).
Proof.
  intros Hrep Hi. pose proof Hrep as [(ws & Hwf & Hbit) Hc].
  destruct (wf_slot b ws i Hwf Hi) as (w & Hw & Hword).
  unfold Set_. rewrite (wf_data _ _ Hwf). cbn [deref res_bind].
  rewrite (proj1 (quot_rem i ltac:(lia))), (proj2 (slot_lookup ws (i / 32) w ltac:(lia)) Hw). cbn [res_bind].
  rewrite land_mask by lia.
  assert (Z.testbit w (31 - i mod 32) = f i) as Hfi.
  { rewrite <- Hbit by done. unfold bit. by rewrite Hw. }
  rewrite Hfi. destruct (f i) eqn:Hf; cbn [negb].
  - exists b. split; [done|]. split; [done|]. eapply represents_ext; [exact Hrep|]. intros j _. cbn.
    destruct (Z.eqb_spec j i) as [->|]; done.
  - rewrite (setSlot_ok _ _ _ _ Hw) by lia. cbn [res_bind]. eexists. split; [reflexivity|]. split; [done|].
    replace (_setCount b + 1) with (_setCount b + Z.b2z true - Z.b2z (f i)) by (rewrite Hf; cbn; lia).
    apply (represents_update b ws f i w); try done.
    + apply word_lor; [done|]. apply word_mask. rewrite (proj2 (quot_rem i ltac:(lia))). lia.
    + intros k Hk. rewrite Z.lor_spec, (proj2 (quot_rem i ltac:(lia))), testbit_mask by lia.
      destruct (_ =? _); [apply orb_true_r|apply orb_false_r].
Qed.

Lemma Reset_ok b f i :
  represents b f -> 0 <= i < _itemCount b ->
  exists b', Reset_ b i = Ok (f i, b') /\ _itemCount b' = _itemCount b /\
    represents b' (fun j => if j =? i then false else f j).
Proof.
  intros Hrep Hi. pose proof Hrep as [(ws & Hwf & Hbit) Hc].
  destruct (wf_slot b ws i Hwf Hi) as (w & Hw & Hword).
  unfold Reset_. rewrite (proj2 (Z.leb_gt _ _)) by lia. rewrite (wf_data _ _ Hwf). cbn [deref res_bind].
  rewrite (proj1 (quot_rem i ltac:(lia))), (proj2 (slot_lookup ws (i / 32) w ltac:(lia)) Hw). cbn [res_bind].
  rewrite land_mask, negb_involutive by lia.
  assert (Z.testbit w (31 - i mod 32) = f i) as Hfi.
  { rewrite <- Hbit by done. unfold bit. by rewrite Hw. }
  rewrite Hfi. destruct (f i) eqn:Hf; cbn [negb].
  - rewrite (setSlot_ok _ _ _ _ Hw) by lia. cbn [res_bind]. eexists. split; [reflexivity|]. split; [done|].
    replace (_setCount b - 1) with (_setCount b + Z.b2z false - Z.b2z (f i)) by (rewrite Hf; cbn; lia).
    apply (represents_update b ws f i w); try done.
    + by apply word_land.
    + intros k Hk. rewrite Z.land_spec, testbit_not32 by lia.
      rewrite (proj2 (quot_rem i ltac:(lia))), testbit_mask by lia.
      rewrite (proj2 (Z.ltb_lt k 32)) by lia. destruct (_ =? _); cbn; [apply andb_false_r|apply andb_true_r].
  - exists b. split; [done|]. split; [done|]. eapply represents_ext; [exact Hrep|]. intros j _. cbn.
    destruct (Z.eqb_spec j i) as [->|]; done.
Qed.

(** ** Counting *)

(** The set bits of whole slots. *)
Definition wcount (w : Z) : Z := count (wbit w) 32.

Fixpoint wsum (ws : list Z) : Z :=
  match ws with
  | [] => 0
  | w :: ws' => wcount w + wsum ws'
  end.

Lemma wcount_range w : 0 <= wcount w <= 32.
Proof. apply (count_range (wbit w) 32). Qed.

Lemma wcount_pair a b : word a -> word b -> CountBits64 (a + 2 ^ 32 * b) = wcount a + wcount b.
Proof. unfold wcount. apply CountBits64_pair. Qed.

Lemma wcount_CountBits32 w : word w -> CountBits32 w 32 = wcount w.
Proof. intros Hw. unfold wcount. rewrite CountBits32_ok by (exact Hw || lia). f_equal. Qed.

Lemma wcount_0 : wcount 0 = 0.
Proof. apply count_false. intros. apply Z.testbit_0_l. Qed.

Lemma wsum_app ws vs : wsum (ws ++ vs) = wsum ws + wsum vs.
Proof. induction ws as [|w ws IH]; cbn [app wsum]; [done|]. lia.
Qed.

Lemma wsum_range ws : 0 <= wsum ws <= 32 * Z.of_nat (length ws).
Proof.
  induction ws as [|w ws IH]; cbn [wsum length]; [lia|].
  pose proof (wcount_range w). lia.
Qed.

Lemma count_partial ws n r w :
  ws !! n = Some w -> (r <= 32)%nat ->
  count (bitN ws) (32 * n + r) = wsum (take n ws) + count (wbit w) r.
Proof.
  revert ws. induction n as [|n IH]; intros ws Hw Hr; destruct ws as [|v ws]; try done; cbn [lookup] in Hw.
  - injection Hw as <-. cbn [firstn wsum]. rewrite Nat.mul_0_r, Nat.add_0_l, Z.add_0_l.
    apply count_ext. intros i Hi. unfold bitN, bit, wbit.
    replace (Z.to_nat (Z.of_nat i / 32)) with 0%nat by lia. cbn. f_equal. lia.
  - cbn [firstn wsum].
    replace (32 * S n + r)%nat with (32 + (32 * n + r))%nat by lia. rewrite count_add.
    rewrite (count_ext (bitN (v :: ws)) (wbit v) 32).
    + rewrite (count_ext (fun i => bitN (v :: ws) (32 + i)) (bitN ws)).
      * rewrite (IH ws Hw Hr). unfold wcount. lia.
      * intros i Hi. unfold bitN, bit.
        replace (Z.to_nat (Z.of_nat (32 + i) / 32)) with (S (Z.to_nat (Z.of_nat i / 32))) by lia.
        change ((v :: ws) !! S (Z.to_nat (Z.of_nat i / 32))) with (ws !! Z.to_nat (Z.of_nat i / 32)).
        destruct (ws !! _); [|done]. f_equal. lia.
    + intros i Hi. unfold bitN, bit, wbit. replace (Z.to_nat (Z.of_nat i / 32)) with 0%nat by lia. cbn.
      f_equal. lia.
Qed.

Lemma count_whole ws n :
  (n <= length ws)%nat -> count (bitN ws) (32 * n) = wsum (take n ws).
Proof.
  intros Hn. destruct n as [|n]; [by rewrite Nat.mul_0_r|].
  destruct (lookup_lt_is_Some_2 ws n) as [w Hw]; [lia|].
  replace (32 * S n)%nat with (32 * n + 32)%nat by lia. rewrite (count_partial ws n 32 w Hw) by lia.
  rewrite (take_S_r _ _ w) by done. rewrite wsum_app. cbn [wsum]. unfold wcount. lia.
Qed.

(** One pair of slots. *)
Lemma pair_step a b acc :
  word a -> word b -> 0 <= acc -> acc + wcount a + wcount b < 2 ^ 32 ->
  (if a + 2 ^ 32 * b =? 0 then acc else u32 (acc + CountBits64 (a + 2 ^ 32 * b))) =
  acc + (wcount a + wcount b).
Proof.
  intros Ha Hb Hacc Hlt. pose proof (wcount_range a). pose proof (wcount_range b).
  rewrite wcount_pair by done. destruct (Z.eqb_spec (a + 2 ^ 32 * b) 0) as [Hz|Hnz].
  - unfold word in *. assert (a = 0 /\ b = 0) as [-> ->] by lia. rewrite wcount_0. lia.
  - rewrite u32_small by lia. done.
Qed.

Lemma countPairs_S a b ws n acc :
  countPairs (a :: b :: ws) (S n) acc =
  countPairs ws n (if a + 2 ^ 32 * b =? 0 then acc else u32 (acc + CountBits64 (a + 2 ^ 32 * b))).
Proof. reflexivity. Qed.

Lemma countPairs_ok n ws acc :
  Forall word ws -> (2 * n <= length ws)%nat -> 0 <= acc ->
  acc + wsum (take (2 * n) ws) < 2 ^ 32 ->
  countPairs ws n acc = Ok (acc + wsum (take (2 * n) ws)).
Proof.
  revert ws acc. induction n as [|n IH]; intros ws acc Hw Hlen Hacc Hb.
  { rewrite Nat.mul_0_r. cbn. by rewrite Z.add_0_r. }
  destruct ws as [|a [|b ws]]; cbn [length] in Hlen; [lia..|].
  apply Forall_cons_iff in Hw as [Ha Hw]. apply Forall_cons_iff in Hw as [Hb' Hw].
  assert (Htake : wsum (take (2 * S n) (a :: b :: ws)) = wcount a + wcount b + wsum (take (2 * n) ws)).
  { replace (2 * S n)%nat with (S (S (2 * n))) by lia. cbn [firstn wsum]. lia. }
  rewrite Htake in Hb |- *.
  pose proof (wsum_range (take (2 * n) ws)). pose proof (wcount_range a). pose proof (wcount_range b).
  rewrite countPairs_S, pair_step by (done || lia).
  rewrite IH by (done || lia). f_equal. lia.
Qed.

#[local] Opaque CountBits32 CountBits64 count wcount Z.pow.

(** [RefreshSetCountByScanning] counts the set bits below the item count, on any bitmap that has
    an item. *)
Lemma scanSetCount_ok ws n :
  Forall word ws -> 0 < n <= 2 ^ 32 - 32 -> Z.of_nat (length ws) = (n + 31) / 32 ->
  scanSetCount n ((n + 31) / 32) ws = Ok (count (bitN ws) (Z.to_nat n)).
Proof.
  intros Hw Hn Hlen. unfold scanSetCount. cbv zeta. rewrite u32_small by lia.
  change SLOT_SIZE_BIT_MASK with (Z.ones 5). rewrite Z.land_ones by lia. change (2 ^ 5) with 32.
  set (L := (n + 31) / 32) in *.
  destruct (lookup_lt_is_Some_2 ws (Z.to_nat (L - 1))) as [w Hlast]; [lia|].
  pose proof (Forall_lookup_1 _ _ _ _ Hw Hlast) as Hword.
  (* after the items of a partial last slot, [c] whole slots are left *)
  assert (exists c acc, (if negb (n mod 32 =? 0)
      then let! w := slot ws (L - 1) in
           if L - 1 =? 0 then Ok (true, CountBits32 w (n mod 32), L - 1)
           else Ok (false, CountBits32 w (n mod 32), L - 1 - 1)
      else Ok (false, 0, L - 1)) = Ok (c =? 0, acc, if c =? 0 then L - 1 else c - 1) /\
      0 <= c <= L /\ 0 <= acc <= 32 * (L - c) /\
      count (bitN ws) (Z.to_nat n) = acc + wsum (take (Z.to_nat c) ws)) as (c & acc & -> & Hc & Hacc & Hcount).
  { destruct (Z.eqb_spec (n mod 32) 0) as [Hz|Hnz]; cbn [negb].
    - exists L, 0. rewrite (proj2 (Z.eqb_neq L 0)) by lia. split; [done|]. split; [lia|]. split; [lia|].
      replace (Z.to_nat n) with (32 * Z.to_nat L)%nat by lia. rewrite count_whole by lia. lia.
    - exists (L - 1), (CountBits32 w (n mod 32)).
      rewrite (proj2 (slot_lookup ws (L - 1) w ltac:(lia)) Hlast). cbn [res_bind].
      rewrite CountBits32_ok by (exact Hword || lia).
      pose proof (count_range (wbit w) (Z.to_nat (n mod 32))).
      split; [by destruct (Z.eqb_spec (L - 1) 0)|]. split; [lia|]. split; [lia|].
      replace (Z.to_nat n) with (32 * Z.to_nat (L - 1) + Z.to_nat (n mod 32))%nat by lia.
      rewrite (count_partial ws _ _ w Hlast) by lia. lia. }
  cbn [res_bind]. destruct (Z.eqb_spec c 0) as [->|Hc0].
  { rewrite Hcount. change (wsum (take (Z.to_nat 0) ws)) with 0. f_equal. lia. }
  pose proof (wsum_range (take (Z.to_nat c) ws)) as Hsum. rewrite length_take in Hsum.
  (* an odd number of slots: one more slot by itself *)
  assert (Z.land (c - 1) 1 = (c - 1) mod 2) as -> by (apply (Z.land_ones (c - 1) 1); lia).
  destruct (lookup_lt_is_Some_2 ws (Z.to_nat (c - 1))) as [v Hv]; [lia|].
  pose proof (Forall_lookup_1 _ _ _ _ Hw Hv) as Hvw.
  pose proof (take_S_r ws (Z.to_nat (c - 1)) v Hv) as Htake.
  replace (S (Z.to_nat (c - 1))) with (Z.to_nat c) in Htake by lia.
  destruct (Z.eqb_spec ((c - 1) mod 2) 0) as [Heven|Hodd].
  - rewrite (proj2 (slot_lookup ws (c - 1) v ltac:(lia)) Hv). cbn [res_bind].
    rewrite wcount_CountBits32 by exact Hvw.
    rewrite Htake, wsum_app in Hcount. cbn [wsum] in Hcount.
    pose proof (wcount_range v). pose proof (wsum_range (take (Z.to_nat (c - 1)) ws)) as Hs2.
    rewrite length_take in Hs2. rewrite u32_small by lia.
    destruct (Z.eqb_spec (c - 1) 0) as [Hc1|Hc1]; cbn [res_bind].
    + rewrite Hcount. replace (take (Z.to_nat (c - 1)) ws) with (@nil Z) by (by rewrite Hc1).
      cbn. f_equal. lia.
    + assert (Hn2 : Z.to_nat (c - 1) = (2 * Z.to_nat ((c - 1 - 1) / 2 + 1))%nat) by lia.
      rewrite Hn2 in Hcount, Hs2. rewrite countPairs_ok by (done || lia).
      rewrite Hcount. f_equal. lia.
  - cbn [res_bind]. assert (Hn2 : Z.to_nat c = (2 * Z.to_nat ((c - 1) / 2 + 1))%nat) by lia.
    rewrite Hn2 in Hcount, Hsum. rewrite countPairs_ok by (done || lia).
    rewrite Hcount. done.
Qed.

Lemma Refresh_ok b ws f :
  wf b ws -> 0 < _itemCount b -> (forall i, 0 <= i < _itemCount b -> bit ws i = f i) ->
  exists b', RefreshSetCountByScanning b = Ok b' /\ _itemCount b' = _itemCount b /\ _data b' = Some ws /\
    represents b' f.
Proof.
  intros Hwf Hpos Hbit. pose proof Hwf as [Hd Hi Hs Hl Hw]. unfold RefreshSetCountByScanning.
  rewrite Hd, Hs. rewrite scanSetCount_ok by (done || lia). cbn [res_bind].
  eexists. split; [reflexivity|]. split; [done|]. split; [done|]. split.
  - exists ws. split; [|done]. by split.
  - cbn. apply count_ext. intros k Hk. apply Hbit. lia.
Qed.

(** ** Slot by slot operations *)

Lemma zipSlots_ok f n ws vs :
  (n <= length ws)%nat -> (n <= length vs)%nat ->
  zipSlots f n ws vs = Ok (zip_with f (take n ws) (take n vs) ++ drop n ws).
Proof.
  revert ws vs. induction n as [|n IH]; intros ws vs Hw Hv; [done|].
  destruct ws as [|w ws], vs as [|v vs]; cbn [length] in *; try lia. cbn. rewrite IH by lia. done.
Qed.

Lemma bit_zip f g ws vs i :
  length ws = length vs -> 0 <= i < 32 * Z.of_nat (length ws) ->
  (forall w v k, 0 <= k < 32 -> Z.testbit (f w v) k = g (Z.testbit w k) (Z.testbit v k)) ->
  bit (zip_with f ws vs) i = g (bit ws i) (bit vs i).
Proof.
  intros Hl Hi Hf. unfold bit.
  destruct (lookup_lt_is_Some_2 ws (Z.to_nat (i / 32))) as [w Hw]; [lia|].
  destruct (lookup_lt_is_Some_2 vs (Z.to_nat (i / 32))) as [v Hv]; [lia|].
  rewrite lookup_zip_with, Hw, Hv. cbn. apply Hf. lia.
Qed.

Lemma Forall_zip_with (f : Z -> Z -> Z) ws vs :
  (forall w v, word w -> word v -> word (f w v)) -> Forall word ws -> Forall word vs ->
  Forall word (zip_with f ws vs).
Proof.
  intros Hf Hw. revert vs. induction Hw as [|w ws Hw1 Hw IH]; intros vs Hv; [constructor|].
  destruct Hv as [|v vs Hv1 Hv]; [constructor|]. cbn. constructor; auto.
Qed.

(** The result of combining the slots of two bitmaps of the same size. *)
Lemma zipped_ok b ws vs r h g f :
  wf b ws -> 0 < _itemCount b -> length vs = length ws -> Forall word vs ->
  (forall w v, word w -> word v -> word (h w v)) ->
  (forall w v k, 0 <= k < 32 -> Z.testbit (h w v) k = g (Z.testbit w k) (Z.testbit v k)) ->
  r = zip_with h ws vs -> (forall i, 0 <= i < _itemCount b -> g (bit ws i) (bit vs i) = f i) ->
  exists b', RefreshSetCountByScanning (setData r b) = Ok b' /\ _itemCount b' = _itemCount b /\
    represents b' f.
Proof.
  intros [Hd Hi Hs Hl Hw] Hpos Hlv Hvw Hword Htest -> Hf.
  destruct (Refresh_ok (setData (zip_with h ws vs) b) (zip_with h ws vs) f) as (b' & Hb & Hi' & _ & Hrep).
  - split; cbn; try done.
    + rewrite length_zip_with. lia.
    + by apply Forall_zip_with.
  - done.
  - cbn. intros i Hii. rewrite (bit_zip h g) by (done || lia). by apply Hf.
  - by exists b'.
Qed.

Lemma combine_ok b b2 f1 f2 h g :
  represents b f1 -> represents b2 f2 -> _itemCount b2 = _itemCount b -> 0 < _itemCount b ->
  (forall w v, word w -> word v -> word (h w v)) ->
  (forall w v k, 0 <= k < 32 -> Z.testbit (h w v) k = g (Z.testbit w k) (Z.testbit v k)) ->
  exists b', combine h b b2 = Ok b' /\ _itemCount b' = _itemCount b /\
    represents b' (fun i => g (f1 i) (f2 i)).
Proof.
  intros [(ws & Hwf & Hbit) _] [(vs & Hwf2 & Hbit2) _] Heq Hpos Hword Htest.
  pose proof (wf_length _ _ Hwf) as Hl. pose proof (wf_length _ _ Hwf2) as Hl2.
  pose proof (wf_slots _ _ Hwf) as Hs. pose proof (wf_slots _ _ Hwf2) as Hs2.
  unfold combine. rewrite (wf_data _ _ Hwf), (wf_data _ _ Hwf2). cbn [deref res_bind].
  rewrite zipSlots_ok by lia. cbn [res_bind].
  rewrite !take_ge, drop_ge, app_nil_r by lia.
  assert (length vs = length ws) as Hll by (rewrite Heq in Hs2; lia).
  eapply (zipped_ok b ws vs); [exact Hwf|done|exact Hll|apply Hwf2|exact Hword|exact Htest|done|].
  intros i Hi. cbn. rewrite Hbit, Hbit2 by lia. done.
Qed.

Lemma testbit_minus w v k :
  0 <= k < 32 -> Z.testbit (Z.land w (not32 v)) k = Z.testbit w k && negb (Z.testbit v k).
Proof.
  intros Hk. rewrite Z.land_spec, testbit_not32 by lia. by rewrite (proj2 (Z.ltb_lt k 32)) by lia.
Qed.

(** Whole batches of 32 slots are combined like single slots. *)
Lemma orBatches_ok n ws vs :
  (32 * n <= length ws)%nat -> (32 * n <= length vs)%nat ->
  orBatches n ws vs = Ok (zip_with Z.lor (take (32 * n) ws) (take (32 * n) vs),
                          drop (32 * n) ws, drop (32 * n) vs).
Proof.
  revert ws vs. induction n as [|n IH]; intros ws vs Hw Hv; [done|].
  cbn [orBatches]. rewrite zipSlots_ok by (rewrite ?length_take; lia). cbn [res_bind].
  rewrite IH by (rewrite length_drop; lia). cbn [res_bind].
  rewrite take_take, Nat.min_id, drop_ge, app_nil_r by (rewrite length_take; lia).
  rewrite !drop_drop. replace (32 + 32 * n)%nat with (32 * S n)%nat by lia.
  do 2 f_equal. f_equal.
  replace (32 * S n)%nat with (32 + 32 * n)%nat by lia.
  rewrite <- (take_take_drop ws 32 (32 * n)), <- (take_take_drop vs 32 (32 * n)).
  rewrite zip_with_app by (rewrite !length_take; lia). done.
Qed.

Lemma or_op_zip b b2 ws vs :
  wf b ws -> wf b2 vs -> _itemCount b2 = _itemCount b ->
  or_op b b2 = RefreshSetCountByScanning (setData (zip_with Z.lor ws vs) b).
Proof.
  intros Hwf Hwf2 Heq.
  pose proof (wf_length _ _ Hwf) as Hl. pose proof (wf_length _ _ Hwf2) as Hl2.
  pose proof (wf_slots _ _ Hwf) as Hs. pose proof (wf_slots _ _ Hwf2) as Hs2.
  unfold or_op. rewrite (wf_data _ _ Hwf), (wf_data _ _ Hwf2). cbn [deref res_bind].
  set (q := Z.to_nat (_slotCount b / 32)). set (r := Z.to_nat (_slotCount b mod 32)).
  assert (length ws = 32 * q + r)%nat as Hqr by (subst q r; lia).
  assert (length vs = 32 * q + r)%nat as Hqr2 by (subst q r; lia). clearbody q r.
  rewrite orBatches_ok by lia. cbn [res_bind].
  rewrite zipSlots_ok by (rewrite length_drop; lia). cbn [res_bind].
  rewrite !(take_ge (drop _ _)) by (rewrite length_drop; lia).
  rewrite (drop_ge (drop _ _)), app_nil_r by (rewrite length_drop; lia).
  rewrite <- zip_with_app by (rewrite !length_take; lia). by rewrite !take_drop.
Qed.

(** ** Complement *)

Lemma testbit_flipBits n i nData w k :
  0 <= i -> i + Z.of_nat n <= 32 -> 0 <= k < 32 ->
  Z.testbit (flipBits n i nData w) k =
    if (i <=? 31 - k) && (31 - k <? i + Z.of_nat n) then negb (Z.testbit nData k) else Z.testbit w k.
Proof.
  revert i w. induction n as [|n IH]; intros i w Hi Hn Hk; cbn [flipBits].
  { destruct (Z.leb_spec i (31 - k)); destruct (Z.ltb_spec (31 - k) (i + Z.of_nat 0)); cbn; try lia; done. }
  rewrite IH by lia. rewrite BITMAPOPMASK_eq, land_pow2_testbit, negb_involutive by lia.
  rewrite <- BITMAPOPMASK_eq by lia.
  destruct (Z.eq_dec i (31 - k)) as [Heq|Hne].
  - rewrite (proj2 (Z.leb_gt (i + 1) (31 - k))), (proj2 (Z.leb_le i (31 - k))),
      (proj2 (Z.ltb_lt (31 - k) (i + Z.of_nat (S n)))) by lia. cbn [andb].
    replace (31 - i) with k by lia. destruct (Z.testbit nData k) eqn:Hb; cbn [negb].
    + rewrite Z.land_spec, testbit_not32, testbit_mask by lia.
      rewrite (proj2 (Z.ltb_lt k 32)), (proj2 (Z.eqb_eq k (31 - i))) by lia. apply andb_false_r.
    + rewrite Z.lor_spec, testbit_mask, (proj2 (Z.eqb_eq k (31 - i))) by lia. apply orb_true_r.
  - assert ((i + 1 <=? 31 - k) = (i <=? 31 - k)) as ->.
    { destruct (Z.leb_spec (i + 1) (31 - k)); destruct (Z.leb_spec i (31 - k)); lia || done. }
    replace (i + 1 + Z.of_nat n) with (i + Z.of_nat (S n)) by lia.
    destruct (_ && _); [done|]. destruct (Z.testbit nData (31 - i)).
    + rewrite Z.land_spec, testbit_not32, testbit_mask by lia.
      rewrite (proj2 (Z.ltb_lt k 32)), (proj2 (Z.eqb_neq k (31 - i))) by lia. apply andb_true_r.
    + rewrite Z.lor_spec, testbit_mask, (proj2 (Z.eqb_neq k (31 - i))) by lia. apply orb_false_r.
Qed.

Lemma word_flipBits n i nData w :
  word w -> 0 <= i -> i + Z.of_nat n <= 32 -> word (flipBits n i nData w).
Proof.
  revert i w. induction n as [|n IH]; intros i w Hw Hi Hn; [done|]. cbn [flipBits].
  apply IH; [|lia..]. destruct (negb _); [by apply word_land|].
  apply word_lor; [done|]. apply word_mask. lia.
Qed.

Lemma count_negb f n : count (fun k => negb (f k)) n = Z.of_nat n - count f n.
Proof.
  induction n as [|n IH]; [done|].
  replace (S n) with (n + 1)%nat by lia. rewrite !count_add, IH.
  change (count (fun i => negb (f (n + i)%nat)) 1) with (0 + Z.b2z (negb (f (n + 0)%nat))).
  change (count (fun i => f (n + i)%nat) 1) with (0 + Z.b2z (f (n + 0)%nat)).
  destruct (f (n + 0)%nat); cbn; lia.
Qed.

Lemma not_op_ok b f :
  represents b f -> 0 < _itemCount b ->
  exists b', not_op b = Ok b' /\ _itemCount b' = _itemCount b /\ represents b' (fun i => negb (f i)).
Proof.
  intros [(ws & Hwf & Hbit) Hc] Hpos. pose proof Hwf as [Hd Hi Hs Hl Hw].
  unfold not_op. rewrite Hd. cbn [deref res_bind]. rewrite u32_small by lia.
  set (L := _slotCount b - 1). destruct (lookup_lt_is_Some_2 ws (Z.to_nat L)) as [w Hlk]; [lia|].
  rewrite (proj2 (slot_lookup ws L w ltac:(lia)) Hlk). cbn [res_bind].
  pose proof (Forall_lookup_1 _ _ _ _ Hw Hlk) as Hword. eexists. split; [reflexivity|]. split; [done|].
  set (ws' := _ ++ _).
  assert (length ws' = length ws) as Hlen'.
  { subst ws'. rewrite length_app, length_fmap, length_take, length_drop. lia. }
  assert (HlL : (Z.to_nat L < length ws')%nat) by lia.
  set (m := Z.to_nat (_itemCount b - L * SLOT_SIZE)).
  assert (Hm : Z.of_nat m = _itemCount b - L * 32 /\ (1 <= m <= 32)%nat) by (unfold m, SLOT_SIZE; lia).
  split.
  - eexists. split.
    + split; cbn; [done|done|done|by rewrite length_insert, Hlen'|].
      apply Forall_insert; [|apply word_flipBits; [done|lia..]].
      apply Forall_app. split; [|by apply Forall_drop].
      apply Forall_fmap. eapply Forall_impl; [apply word_not32|by apply Forall_take].
    + cbn. intros i Hii. rewrite <- Hbit by done. rewrite bit_insert by lia.
      case_decide as Hdec.
      * rewrite testbit_flipBits by lia.
        rewrite (proj2 (Z.leb_le _ _)), (proj2 (Z.ltb_lt _ _)) by lia. cbn [andb].
        unfold bit. by rewrite Hdec, Hlk.
      * unfold bit. subst ws'. rewrite lookup_app_l by (rewrite length_fmap, length_take; lia).
        rewrite list_lookup_fmap, lookup_take_lt by lia.
        destruct (lookup_lt_is_Some_2 ws (Z.to_nat (i / 32))) as [v Hv]; [lia|]. rewrite Hv. cbn.
        rewrite testbit_not32 by lia. by rewrite (proj2 (Z.ltb_lt _ 32)) by lia.
  - cbn. unfold GetUnsetCount. rewrite Hc, count_negb, Z2Nat.id by lia.
    pose proof (count_range (fun k => f (Z.of_nat k)) (Z.to_nat (_itemCount b))). apply u32_small. lia.
Qed.

(** ** Clearing everything from an index on *)

Lemma testbit_clearFrom n i w k :
  0 <= i -> i + Z.of_nat n <= 32 -> 0 <= k < 32 ->
  Z.testbit (clearFrom n i w) k =
    if (i <=? 31 - k) && (31 - k <? i + Z.of_nat n) then false else Z.testbit w k.
Proof.
  revert i w. induction n as [|n IH]; intros i w Hi Hn Hk; cbn [clearFrom].
  { destruct (Z.leb_spec i (31 - k)); destruct (Z.ltb_spec (31 - k) (i + Z.of_nat 0)); cbn; try lia; done. }
  rewrite IH by lia. rewrite testbit_minus, testbit_mask by lia.
  destruct (Z.leb_spec (i + 1) (31 - k)); destruct (Z.leb_spec i (31 - k));
    destruct (Z.ltb_spec (31 - k) (i + 1 + Z.of_nat n));
    destruct (Z.ltb_spec (31 - k) (i + Z.of_nat (S n))); cbn [andb]; try lia; try done;
    destruct (Z.eqb_spec k (31 - i)); try lia; cbn [negb]; by rewrite ?andb_true_r, ?andb_false_r.
Qed.

Lemma word_clearFrom n i w : word w -> word (clearFrom n i w).
Proof. revert i w. induction n as [|n IH]; intros i w Hw; [done|]. apply IH. by apply word_land. Qed.

Lemma bit_zero ws i : ws !! Z.to_nat (i / 32) = Some 0 -> bit ws i = false.
Proof. unfold bit. intros ->. apply Z.testbit_0_l. Qed.

Lemma fill_false n : fill false n = replicate (Z.to_nat n) 0.
Proof. done. Qed.

Lemma ResetAllAfter_ok b f i :
  represents b f -> 0 <= i < _itemCount b ->
  exists b', ResetAllAfter b i = Ok b' /\ _itemCount b' = _itemCount b /\
    represents b' (fun j => (j <? i) && f j).
Proof.
  intros [(ws & Hwf & Hbit) Hc] Hi. pose proof Hwf as [Hd Hit Hs Hl Hw].
  destruct (wf_slot b ws i Hwf Hi) as (w & Hlk & Hword).
  unfold ResetAllAfter. rewrite Hd. cbn [deref res_bind]. destruct (quot_rem i ltac:(lia)) as [-> ->].
  rewrite (proj2 (slot_lookup ws (i / 32) w ltac:(lia)) Hlk). cbn [res_bind].
  rewrite (setSlot_ok _ _ _ _ Hlk) by lia. cbn [res_bind]. rewrite u32_small by lia.
  set (w' := clearFrom _ _ w). set (ws1 := <[_ := w']> ws).
  set (ws2 := if _ : bool then _ else ws1).
  set (q := Z.to_nat (i / 32)) in *.
  assert (Hlen1 : length ws1 = length ws) by apply length_insert.
  assert (Hw1 : Forall word ws1) by (apply Forall_insert; [done|by apply word_clearFrom]).
  assert (Hq : (q < length ws)%nat) by (by eapply lookup_lt_Some).
  assert (Hws2 : length ws2 = length ws /\ Forall word ws2 /\
    forall s, (s < length ws)%nat -> ws2 !! s = if decide (s <= q)%nat then ws1 !! s else Some 0).
  { subst ws2. destruct (Z.ltb_spec (i / 32) (_slotCount b - 1)) as [Hlt|Hge].
    - replace (Z.to_nat (i / 32 + 1)) with (S q) by (subst q; lia).
      rewrite (drop_ge ws1), app_nil_r by lia. rewrite fill_false. split_and!.
      + rewrite length_app, length_take, length_replicate. subst q. lia.
      + apply Forall_app. split; [by apply Forall_take|]. apply Forall_replicate. split; lia.
      + intros s Hsl. case_decide as Hsq.
        * rewrite lookup_app_l by (rewrite length_take; lia). by rewrite lookup_take_lt by lia.
        * rewrite lookup_app_r by (rewrite length_take; lia). rewrite length_take.
          apply lookup_replicate. split; [done|]. subst q. lia.
    - split_and!; [done..|]. intros s Hsl. by rewrite decide_True by (subst q; lia). }
  destruct Hws2 as (Hlen2 & Hw2 & Hlk2). clearbody ws2.
  destruct (Refresh_ok (setData ws2 b) ws2 (fun j => (j <? i) && f j)) as (b' & Hb' & Hi' & _ & Hrep).
  - split; cbn; try done. lia.
  - cbn. lia.
  - cbn. intros j Hj. unfold bit at 1. rewrite Hlk2 by lia. case_decide as Hsq.
    + change (ws1 !! Z.to_nat (j / 32)) with (<[q := w']> ws !! Z.to_nat (j / 32)).
      destruct (decide (Z.to_nat (j / 32) = q)) as [Heq|Hne].
      * rewrite Heq, list_lookup_insert_eq by done. subst w'. unfold SLOT_SIZE. rewrite testbit_clearFrom by lia.
        assert (Z.testbit w (31 - j mod 32) = f j) as ->.
        { rewrite <- Hbit by done. unfold bit. by rewrite Heq, Hlk. }
        destruct (Z.leb_spec (i mod 32) (31 - (31 - j mod 32))); destruct (Z.ltb_spec j i);
          destruct (Z.ltb_spec (31 - (31 - j mod 32)) (i mod 32 + Z.of_nat (Z.to_nat (32 - i mod 32))));
          cbn [andb]; subst q; try lia; done.
      * rewrite list_lookup_insert_ne by done. fold (bit ws j). rewrite Hbit by done.
        rewrite (proj2 (Z.ltb_lt j i)) by (subst q; lia). done.
    + rewrite Z.testbit_0_l. rewrite (proj2 (Z.ltb_ge j i)) by (subst q; lia). done.
  - exists b'. done.
Qed.

(** ** Finding set bits *)

Lemma clz_ok w :
  word w -> w <> 0 -> 0 <= clz w < 32 /\ Z.testbit w (31 - clz w) = true /\
    forall r, 0 <= r < clz w -> Z.testbit w (31 - r) = false.
Proof.
  intros Hw Hne. unfold clz, word in *. pose proof (Z.log2_nonneg w).
  assert (Z.log2 w < 32) by (apply Z.log2_lt_pow2; lia).
  split; [lia|]. split.
  - replace (31 - (31 - Z.log2 w)) with (Z.log2 w) by lia. apply Z.bit_log2. lia.
  - intros r Hr. apply Z.bits_above_log2; lia.
Qed.

Lemma bit_cons w ws i :
  0 <= i -> bit (w :: ws) i = if i <? 32 then Z.testbit w (31 - i) else bit ws (i - 32).
Proof.
  intros Hi. unfold bit. destruct (Z.ltb_spec i 32).
  - replace (Z.to_nat (i / 32)) with 0%nat by lia. cbn. f_equal. lia.
  - replace (Z.to_nat (i / 32)) with (S (Z.to_nat ((i - 32) / 32))) by lia.
    change ((w :: ws) !! S ?n) with (ws !! n). destruct (ws !! _); [|done]. f_equal. lia.
Qed.

(** [r] is the first set bit from [lo] on, or [INVALID_INDEX] if there is none. *)
Definition first_bit (ws : list Z) (lo r : Z) : Prop :=
  r = INVALID_INDEX /\ (forall j, lo <= j -> bit ws j = false) \/
  lo <= r < 32 * Z.of_nat (length ws) /\ bit ws r = true /\ (forall j, lo <= j < r -> bit ws j = false).

Lemma bit_nil i : bit [] i = false.
Proof. done. Qed.

Lemma scanSlots_ok ws k :
  Forall word ws -> 0 <= k -> 32 * (k + Z.of_nat (length ws)) < 2 ^ 32 ->
  exists r, (scanSlots ws k = INVALID_INDEX /\ r = INVALID_INDEX \/ scanSlots ws k = 32 * k + r /\ r <> INVALID_INDEX) /\
    first_bit ws 0 r.
Proof.
  intros Hw. revert k. induction Hw as [|w ws Hw1 Hw IH]; intros k Hk Hb; cbn [scanSlots].
  { exists INVALID_INDEX. split; [by left|]. left. split; [done|]. intros. apply bit_nil. }
  cbn [length] in Hb. destruct (Z.eqb_spec w 0) as [->|Hne].
  - destruct (IH (k + 1)) as (r & Hr & Hf); [lia|lia|].
    destruct Hf as [[-> Hf]|(Hr1 & Hr2 & Hr3)].
    + exists INVALID_INDEX. split; [destruct Hr as [[-> _]|[_ ?]]; [by left|done]|]. left. split; [done|].
      intros j Hj. rewrite bit_cons by lia. destruct (Z.ltb_spec j 32); [apply Z.testbit_0_l|].
      apply Hf. lia.
    + exists (r + 32). unfold INVALID_INDEX in *. split; [right; split; [|lia]|].
      * destruct Hr as [[-> ->]|[-> _]]; lia.
      * right. cbn [length]. split; [lia|]. split.
        -- rewrite bit_cons, (proj2 (Z.ltb_ge _ _)) by lia. rewrite <- Hr2. f_equal. lia.
        -- intros j Hj. rewrite bit_cons by lia. destruct (Z.ltb_spec j 32); [apply Z.testbit_0_l|].
           apply Hr3. lia.
  - destruct (clz_ok w Hw1 Hne) as (Hc & Ht & Hz). exists (clz w). unfold INVALID_INDEX, SLOT_SIZE.
    split; [right; split; [rewrite u32_small; lia|lia]|]. right. cbn [length]. split; [lia|]. split.
    + by rewrite bit_cons, (proj2 (Z.ltb_lt _ _)) by lia.
    + intros j Hj. rewrite bit_cons, (proj2 (Z.ltb_lt _ _)) by lia. apply Hz. lia.
Qed.

(** The rest of the slots from slot [k] on. *)
Lemma bit_drop ws k i : 0 <= k -> 0 <= i -> bit (drop (Z.to_nat k) ws) i = bit ws (32 * k + i).
Proof.
  intros Hk Hi. unfold bit. rewrite lookup_drop.
  replace (Z.to_nat k + Z.to_nat (i / 32))%nat with (Z.to_nat ((32 * k + i) / 32)) by lia.
  destruct (ws !! _); [|done]. f_equal. lia.
Qed.

Lemma bit_above ws i : 32 * Z.of_nat (length ws) <= i -> bit ws i = false.
Proof. intros Hi. unfold bit. rewrite lookup_ge_None_2 by lia. done. Qed.

Lemma Begin_first b ws :
  wf b ws -> exists r, Begin b = Ok r /\ first_bit ws 0 r.
Proof.
  intros [Hd Hi Hs Hl Hw]. unfold Begin. rewrite Hd. cbn [deref res_bind].
  rewrite (proj2 (Z.ltb_ge _ _)), take_ge by lia.
  destruct (scanSlots_ok ws 0 Hw ltac:(lia) ltac:(lia)) as (r & Hr & Hf).
  eexists. split; [reflexivity|]. destruct Hr as [[-> ->]|[-> _]]; [done|]. by rewrite Z.mul_0_r, Z.add_0_l.
Qed.

Lemma testbit_next_mask w r k :
  0 <= r < 32 -> 0 <= k < 32 ->
  Z.testbit (Z.land w (BITMAP_NEXT_MASK r)) k = (k <=? 31 - r) && Z.testbit w k.
Proof.
  intros Hr Hk. rewrite BITMAP_NEXT_MASK_eq, Z.land_spec, Z.testbit_ones_nonneg by lia.
  rewrite andb_comm. f_equal. destruct (Z.ltb_spec k (32 - r)); destruct (Z.leb_spec k (31 - r)); lia || done.
Qed.

Lemma Next_first b ws i :
  wf b ws -> 0 <= i < 2 ^ 32 - 1 -> i + 1 < _itemCount b ->
  exists r, Next b i = Ok r /\ first_bit ws (i + 1) r.
Proof.
  intros [Hd Hit Hs Hl Hw] Hi Hlt. unfold Next. rewrite (u32_small (i + 1)) by lia.
  rewrite (proj2 (Z.ltb_lt _ _)) by done. rewrite Hd. cbn [deref res_bind].
  rewrite (proj2 (Z.ltb_ge _ _)), take_ge by lia. set (n := i + 1) in *.
  destruct (quot_rem n ltac:(lia)) as [-> ->].
  destruct (lookup_lt_is_Some_2 ws (Z.to_nat (n / 32))) as [w Hlk]; [lia|].
  rewrite (drop_S _ _ _ Hlk). pose proof (Forall_lookup_1 _ _ _ _ Hw Hlk) as Hword.
  set (rd := Z.land w (BITMAP_NEXT_MASK (n mod 32))).
  assert (word rd) as Hrd by (by apply word_land).
  assert (Hslot : forall j, n / 32 * 32 <= j < n / 32 * 32 + 32 -> bit ws j = Z.testbit w (31 - j mod 32)).
  { intros j Hj. unfold bit. replace (Z.to_nat (j / 32)) with (Z.to_nat (n / 32)) by lia. by rewrite Hlk. }
  destruct (Z.eqb_spec rd 0) as [Hz|Hnz]; cbn [negb].
  - assert (Hrest : forall j, n <= j < n / 32 * 32 + 32 -> bit ws j = false).
    { intros j Hj. rewrite Hslot by lia.
      pose proof (testbit_next_mask w (n mod 32) (31 - j mod 32) ltac:(lia) ltac:(lia)) as Ht.
      fold rd in Ht. rewrite Hz, Z.testbit_0_l, (proj2 (Z.leb_le _ _)) in Ht by lia. by rewrite Ht. }
    replace (S (Z.to_nat (n / 32))) with (Z.to_nat (n / 32 + 1)) by lia.
    destruct (scanSlots_ok (drop (Z.to_nat (n / 32 + 1)) ws) (n / 32 + 1)) as (r & Hr & Hf);
      [by apply Forall_drop|lia|rewrite length_drop; lia|].
    assert (Hall : forall j, n <= j -> (0 <= j - 32 * (n / 32 + 1) ->
              bit (drop (Z.to_nat (n / 32 + 1)) ws) (j - 32 * (n / 32 + 1)) = false) -> bit ws j = false).
    { intros j Hj Hd'. destruct (Z.lt_ge_cases j (n / 32 * 32 + 32)); [apply Hrest; lia|].
      specialize (Hd' ltac:(lia)). rewrite bit_drop in Hd' by lia. rewrite <- Hd'. f_equal. lia. }
    eexists. split; [reflexivity|]. destruct Hf as [[-> Hf]|(Hr1 & Hr2 & Hr3)].
    + destruct Hr as [[-> _]|[_ ?]]; [|done]. left. split; [done|]. intros j Hj. apply Hall; [done|].
      intros. apply Hf. done.
    + rewrite length_drop in Hr1. destruct Hr as [[_ ->]|[-> _]]; [unfold INVALID_INDEX in *; lia|].
      right. split; [lia|]. split; [by rewrite <- bit_drop by lia|].
      intros j Hj. apply Hall; [lia|]. intros. apply Hr3. lia.
  - destruct (clz_ok rd Hrd Hnz) as (Hc & Ht & Hzero). eexists. split; [reflexivity|].
    unfold SLOT_SIZE. rewrite u32_small by lia.
    subst rd. rewrite testbit_next_mask in Ht by lia. apply andb_true_iff in Ht as [Hle%Z.leb_le Ht].
    set (c := clz _) in *. right. split; [lia|]. split.
    + rewrite Hslot by lia. rewrite <- Ht. f_equal. lia.
    + intros j Hj. rewrite Hslot by lia. specialize (Hzero (j mod 32) ltac:(lia)).
      rewrite testbit_next_mask, (proj2 (Z.leb_le _ _)) in Hzero by lia. exact Hzero.
Qed.

(** ** Ranges of bits *)

Lemma testbit_beginMask i k :
  0 <= i -> 0 <= k < 32 -> Z.testbit (beginMask i) k = (i mod 32 <=? 31 - k) && (31 - k <=? 31).
Proof.
  intros Hi Hk. unfold beginMask. rewrite (proj2 (quot_rem i Hi)), BITMAPOPMASK_eq by lia.
  replace (2 ^ (31 - i mod 32) - 1) with (Z.ones (31 - i mod 32)) by (rewrite Z.ones_equiv; lia).
  rewrite Z.lor_spec, Z.testbit_ones_nonneg, Z.pow2_bits_eqb by lia.
  destruct (Z.ltb_spec k (31 - i mod 32)); destruct (Z.eqb_spec (31 - i mod 32) k);
    destruct (Z.leb_spec (i mod 32) (31 - k)); destruct (Z.leb_spec (31 - k) 31); lia || done.
Qed.

Lemma testbit_endMask i k :
  0 <= i -> 0 <= k < 32 -> Z.testbit (endMask i) k = (0 <=? 31 - k) && (31 - k <=? i mod 32).
Proof.
  intros Hi Hk. unfold endMask. rewrite (proj2 (quot_rem i Hi)), BITMAPOPMASK_eq by lia.
  replace (2 ^ (31 - i mod 32) - 1) with (Z.ones (31 - i mod 32)) by (rewrite Z.ones_equiv; lia).
  rewrite testbit_not32, (proj2 (Z.ltb_lt k 32)), Z.testbit_ones_nonneg by lia.
  destruct (Z.ltb_spec k (31 - i mod 32)); destruct (Z.leb_spec 0 (31 - k));
    destruct (Z.leb_spec (31 - k) (i mod 32)); lia || done.
Qed.

Lemma testbit_bothMask i j k :
  0 <= i -> 0 <= j -> i mod 32 <= j mod 32 -> 0 <= k < 32 ->
  Z.testbit (bothMask i j) k = (i mod 32 <=? 31 - k) && (31 - k <=? j mod 32).
Proof.
  intros Hi Hj Hij Hk. unfold bothMask.
  assert (Hbegin : beginMask i = Z.ones (32 - i mod 32)).
  { apply Z.bits_inj'. intros n Hn. rewrite Z.testbit_ones_nonneg by lia.
    destruct (Z.lt_ge_cases n 32) as [Hlt|Hge].
    - rewrite testbit_beginMask by lia. destruct (Z.leb_spec (i mod 32) (31 - n));
        destruct (Z.leb_spec (31 - n) 31); destruct (Z.ltb_spec n (32 - i mod 32)); lia || done.
    - rewrite (proj2 (Z.ltb_ge _ _)) by lia. revert n Hn Hge. intros n _ Hge.
      assert (word (beginMask i)) as Hw; [|by apply word_bits].
      unfold beginMask. rewrite (proj2 (quot_rem i Hi)), BITMAPOPMASK_eq by lia.
      assert (2 ^ (31 - i mod 32) <= 2 ^ 31) by (apply Z.pow_le_mono_r; lia).
      assert (0 < 2 ^ (31 - i mod 32)) by (apply Z.pow_pos_nonneg; lia).
      apply word_lor; split; lia. }
  rewrite Hbegin, (proj2 (quot_rem j Hj)), BITMAPOPMASK_eq, Z.ones_equiv by lia.
  replace (Z.pred (2 ^ (32 - i mod 32)) - (2 ^ (31 - j mod 32) - 1))
    with (Z.shiftl (Z.ones (j mod 32 - i mod 32 + 1)) (31 - j mod 32)).
  2: { rewrite Z.shiftl_mul_pow2, Z.ones_equiv by lia.
       replace (32 - i mod 32) with ((j mod 32 - i mod 32 + 1) + (31 - j mod 32)) by lia.
       rewrite (Z.pow_add_r 2 (j mod 32 - i mod 32 + 1) (31 - j mod 32)) by lia.
       generalize (2 ^ (j mod 32 - i mod 32 + 1)), (2 ^ (31 - j mod 32)). intros x y.
       rewrite <- !Z.sub_1_r, Z.mul_sub_distr_r. lia. }
  rewrite testbit_u32, (proj2 (Z.ltb_lt k 32)), Z.shiftl_spec by lia. cbn [andb].
  destruct (Z.lt_ge_cases (k - (31 - j mod 32)) 0) as [Hneg|Hnn].
  - rewrite Z.testbit_neg_r by lia.
    destruct (Z.leb_spec (i mod 32) (31 - k)); destruct (Z.leb_spec (31 - k) (j mod 32)); lia || done.
  - rewrite Z.testbit_ones_nonneg by lia. destruct (Z.ltb_spec (k - (31 - j mod 32)) (j mod 32 - i mod 32 + 1));
      destruct (Z.leb_spec (i mod 32) (31 - k)); destruct (Z.leb_spec (31 - k) (j mod 32)); lia || done.
Qed.

(** A mask of the positions [lo .. hi] of a slot. *)
Definition is_mask (m lo hi : Z) : Prop :=
  forall k, 0 <= k < 32 -> Z.testbit m k = (lo <=? 31 - k) && (31 - k <=? hi).

Lemma mask_test w m lo hi :
  word w -> 0 <= lo -> hi <= 31 -> is_mask m lo hi ->
  (Z.land w m =? 0) = false <-> exists r, lo <= r <= hi /\ Z.testbit w (31 - r) = true.
Proof.
  intros Hw Hlo Hhi Hm. rewrite Z.eqb_neq. split.
  - intros Hne. destruct (clz_ok (Z.land w m) (word_land w m Hw) Hne) as (Hc & Ht & _).
    set (c := clz _) in *. rewrite Z.land_spec, Hm in Ht by lia.
    apply andb_true_iff in Ht as [Ht [H1%Z.leb_le H2%Z.leb_le]%andb_true_iff]. exists c. split; [lia|done].
  - intros (r & Hr & Ht) H0. assert (Z.testbit (Z.land w m) (31 - r) = false) as H by (rewrite H0; apply Z.testbit_0_l).
    rewrite Z.land_spec, Ht, Hm in H by lia.
    rewrite (proj2 (Z.leb_le _ _)), (proj2 (Z.leb_le (31 - (31 - r)) hi)) in H by lia. done.
Qed.

Lemma whole_slots ws s n :
  Forall word ws -> (s + n <= length ws)%nat ->
  existsb (fun w => negb (w =? 0)) (take n (drop s ws)) = true <->
  exists j, 32 * Z.of_nat s <= j < 32 * Z.of_nat (s + n) /\ bit ws j = true.
Proof.
  intros Hw Hlen. rewrite existsb_exists. split.
  - intros (w & Hin & Hne). apply list_elem_of_In, list_elem_of_lookup in Hin as [k Hk].
    apply lookup_take_Some in Hk as [Hk Hkn]. rewrite lookup_drop in Hk.
    apply negb_true_iff, Z.eqb_neq in Hne. pose proof (Forall_lookup_1 _ _ _ _ Hw Hk) as Hword.
    destruct (clz_ok w Hword Hne) as (Hc & Ht & _). exists (32 * Z.of_nat (s + k) + clz w).
    split; [lia|]. unfold bit. replace (Z.to_nat ((32 * Z.of_nat (s + k) + clz w) / 32)) with (s + k)%nat by lia.
    rewrite Hk. rewrite <- Ht. f_equal. lia.
  - intros (j & Hj & Hb). unfold bit in Hb.
    destruct (ws !! Z.to_nat (j / 32)) as [w|] eqn:Hk; [|done]. exists w. split.
    + apply list_elem_of_In, list_elem_of_lookup. exists (Z.to_nat (j / 32) - s)%nat.
      rewrite lookup_take_lt by lia. rewrite lookup_drop. rewrite <- Hk. f_equal. lia.
    + apply negb_true_iff, Z.eqb_neq. intros ->. by rewrite Z.testbit_0_l in Hb.
Qed.

(** The slots [testStart .. testEnd] are those that lie between the two indices as a whole. *)
Lemma test_slots i j :
  0 <= i <= j -> quot i = i / 32 /\ rem i = i mod 32 /\ quot j = j / 32 /\ rem j = j mod 32 /\
  testStart i = (i + 31) / 32 /\ testEnd j = (j + 1) / 32 - 1.
Proof.
  intros Hij. destruct (quot_rem i ltac:(lia)) as [Hq Hr]. destruct (quot_rem j ltac:(lia)) as [Hq' Hr'].
  unfold testStart, testEnd, SLOT_SIZE_BIT_MASK. rewrite Hq, Hr, Hq', Hr'. split_and!; try done.
  - destruct (Z.eqb_spec (i mod 32) 0); lia.
  - destruct (Z.eqb_spec (j mod 32) 31); lia.
Qed.

(** Some bit from [lo] to [hi] is set. *)
Definition has (ws : list Z) (lo hi : Z) : Prop := exists k, lo <= k <= hi /\ bit ws k = true.

Lemma has_split ws lo m hi : lo - 1 <= m <= hi -> has ws lo hi <-> has ws lo m \/ has ws (m + 1) hi.
Proof.
  intros Hm. split.
  - intros (k & Hk & Hb). destruct (Z.le_gt_cases k m); [left|right]; exists k; (split; [lia|done]).
  - intros [(k & Hk & Hb)|(k & Hk & Hb)]; exists k; (split; [lia|done]).
Qed.

Lemma has_empty ws lo hi : hi < lo -> ~ has ws lo hi.
Proof. intros H (k & Hk & _). lia. Qed.

(** Testing a slot against a mask. *)
Lemma mask_has ws q w m lo hi :
  ws !! Z.to_nat q = Some w -> word w -> 0 <= q -> 0 <= lo -> hi <= 31 -> is_mask m lo hi ->
  negb (Z.land w m =? 0) = true <-> has ws (32 * q + lo) (32 * q + hi).
Proof.
  intros Hq Hw Hq0 Hlo Hhi Hm. rewrite negb_true_iff, (mask_test w m lo hi Hw Hlo Hhi Hm).
  assert (Hb : forall r, 0 <= r < 32 -> bit ws (32 * q + r) = Z.testbit w (31 - r)).
  { intros r Hr. unfold bit. replace ((32 * q + r) / 32) with q by lia. rewrite Hq. f_equal. lia. }
  split.
  - intros (r & Hr & Ht). exists (32 * q + r). split; [lia|]. by rewrite Hb by lia.
  - intros (k & Hk & Ht). exists (k - 32 * q). split; [lia|]. rewrite <- Hb by lia. rewrite <- Ht. f_equal. lia.
Qed.

Lemma HasSetData_has b ws i j :
  wf b ws -> 0 <= i <= j -> j < _itemCount b ->
  exists r, HasSetData b i j = Ok r /\ (r = true <-> has ws i j).
Proof.
  intros Hwf Hij Hj. pose proof Hwf as [Hd Hit Hs Hl Hw].
  destruct (wf_slot b ws i Hwf ltac:(lia)) as (wi & Hwi & Hwordi).
  destruct (wf_slot b ws j Hwf ltac:(lia)) as (wj & Hwj & Hwordj).
  destruct (test_slots i j Hij) as (Hqi & Hri & Hqj & Hrj & Hts & Hte).
  unfold HasSetData. rewrite Hd. cbn [deref res_bind]. rewrite Hqi, Hri, Hqj, Hrj, Hts, Hte.
  set (s := Z.to_nat ((i + 31) / 32)). set (n := Z.to_nat ((j + 1) / 32 - 1 - (i + 31) / 32 + 1)).
  assert ((length (take n (drop s ws)) <? n)%nat = false) as ->.
  { apply Nat.ltb_ge. rewrite length_take, length_drop. subst s n. lia. }
  assert (Hwhole : existsb (fun w => negb (w =? 0)) (take n (drop s ws)) = true <->
            has ws (32 * Z.of_nat s) (32 * Z.of_nat (s + n) - 1)).
  { destruct (decide (n = 0)%nat) as [->|Hn0].
    - cbn. split; [done|]. intros H. exfalso. revert H. apply has_empty. lia.
    - rewrite whole_slots by (done || (subst s n; lia)). unfold has.
      split; intros (k & Hk & Hb); exists k; (split; [lia|done]). }
  pose proof (mask_has ws (i / 32) wi (beginMask i) (i mod 32) 31 Hwi Hwordi ltac:(lia) ltac:(lia) ltac:(lia)
                (fun k Hk => testbit_beginMask i k ltac:(lia) Hk)) as Hmb.
  pose proof (mask_has ws (j / 32) wj (endMask j) 0 (j mod 32) Hwj Hwordj ltac:(lia) ltac:(lia) ltac:(lia)
                (fun k Hk => testbit_endMask j k ltac:(lia) Hk)) as Hme.
  rewrite (proj2 (slot_lookup ws (i / 32) wi ltac:(lia)) Hwi),
    (proj2 (slot_lookup ws (j / 32) wj ltac:(lia)) Hwj). cbn [res_bind].
  change SLOT_SIZE_BIT_MASK with 31.
  replace (32 * (i / 32) + i mod 32) with i in Hmb by lia.
  replace (32 * (j / 32) + j mod 32) with j in Hme by lia.
  destruct (Z.eqb_spec (i / 32) (j / 32)) as [Heq|Hne]; cbn [negb].
  - pose proof (mask_has ws (i / 32) wi (bothMask i j) (i mod 32) (j mod 32) Hwi Hwordi ltac:(lia) ltac:(lia)
                  ltac:(lia) (fun k Hk => testbit_bothMask i j k ltac:(lia) ltac:(lia) ltac:(lia) Hk)) as Hmm.
    replace (32 * (i / 32) + i mod 32) with i in Hmm by lia.
    replace (32 * (i / 32) + j mod 32) with j in Hmm by lia.
    destruct (existsb _ _).
    { exists true. split; [done|]. split; [|done]. intros _. destruct (proj1 Hwhole eq_refl) as (k & Hk & Hb).
      exists k. split; [subst s n; lia|done]. }
    destruct (Z.eqb_spec (i mod 32) 0); destruct (Z.eqb_spec (j mod 32) 31); cbn [negb orb andb];
      try (exists (negb (Z.land wi (bothMask i j) =? 0)); split;
        [by case (negb (Z.land wi (bothMask i j) =? 0))|exact Hmm]).
    exists false. split; [done|]. rewrite Hwhole. split; intros (k & Hk & Hb); exists k; (split; [subst s n; lia|done]).
  - pose proof (has_split ws i (32 * Z.of_nat s - 1) j ltac:(subst s; lia)) as Hall.
    rewrite (has_split ws (32 * Z.of_nat s - 1 + 1) (32 * Z.of_nat (s + n) - 1) j) in Hall by (subst s n; lia).
    replace (32 * Z.of_nat s - 1 + 1) with (32 * Z.of_nat s) in Hall by lia. rewrite <- Hwhole in Hall.
    assert (Hbeg : negb (i mod 32 =? 0) && negb (Z.land wi (beginMask i) =? 0) = true <->
                   has ws i (32 * Z.of_nat s - 1)).
    { destruct (Z.eqb_spec (i mod 32) 0); cbn [negb andb].
      - split; [done|]. intros H. exfalso. revert H. apply has_empty. subst s. lia.
      - rewrite Hmb. replace (32 * (i / 32) + 31) with (32 * Z.of_nat s - 1) by (subst s; lia). done. }
    assert (Hend : negb (j mod 32 =? 31) && negb (Z.land wj (endMask j) =? 0) = true <->
                   has ws (32 * Z.of_nat (s + n) - 1 + 1) j).
    { destruct (Z.eqb_spec (j mod 32) 31); cbn [negb andb].
      - split; [done|]. intros H. exfalso. revert H. apply has_empty. subst s n. lia.
      - rewrite Hme. replace (32 * (j / 32) + 0) with (32 * Z.of_nat (s + n) - 1 + 1) by (subst s n; lia). done. }
    rewrite <- Hbeg, <- Hend in Hall. clear - Hall.
    destruct (existsb _ _), (negb (i mod 32 =? 0) && _), (negb (j mod 32 =? 31) && _);
      eexists; (split; [reflexivity|]); rewrite Hall; intuition congruence.
Qed.
