(* ===== verification/BitmapRanges.v ===== *)
(** * Ranges of a bitmap

    [Bitmap::ResetBetween] and [Bitmap::GetSetCount(begin, end)]
    (src/aios/storage/indexlib/util/Bitmap.cpp): clearing and counting the bits between two
    indices slot by slot. *)

From stdpp Require Import base list numbers option tactics.
From Stdlib Require Import ZArith Lia ZifyNat ZifyBool.
From S2P Require Import Prelude Bits Bitmap.

#[local] Open Scope Z_scope.
#[local] Ltac Zify.zify_post_hook ::= Z.to_euclidean_division_equations.
#[local] Opaque CountBits32 CountBits64 count wcount Z.pow.

(** ** Clearing *)

(** Clear the bits of slot [q] that a mask names. *)
Lemma bit_clear ws q w w' m k :
  ws !! Z.to_nat q = Some w -> 0 <= q -> 0 <= k ->
  (forall r, 0 <= r < 32 -> Z.testbit w' r = Z.testbit w r && negb (m (31 - r))) ->
  bit (<[Z.to_nat q := w']> ws) k = bit ws k && negb ((k / 32 =? q) && m (k mod 32)).
Proof.
  intros Hq Hq0 Hk Hw'. rewrite bit_insert by (lia || by eapply lookup_lt_Some).
  case_decide as Hd.
  - rewrite (proj2 (Z.eqb_eq _ _)) by lia. cbn [andb]. rewrite Hw' by lia. unfold bit. rewrite Hd, Hq.
    do 3 f_equal. lia.
  - rewrite (proj2 (Z.eqb_neq _ _)) by lia. cbn. by rewrite andb_true_r.
Qed.

Lemma setSlot_mask ws q w w' :
  ws !! Z.to_nat q = Some w -> 0 <= q -> Forall word ws -> word w' ->
  setSlot ws q w' = Ok (<[Z.to_nat q := w']> ws) /\ Forall word (<[Z.to_nat q := w']> ws) /\
  length (<[Z.to_nat q := w']> ws) = length ws.
Proof.
  intros Hq Hq0 Hf Hw. split_and!; [by eapply setSlot_ok|by apply Forall_insert|apply length_insert].
Qed.

(** Overwriting [n] slots from [s] on with 0. *)
Lemma bit_zeroed ws s n k :
  (s + n <= length ws \/ n = 0)%nat -> 0 <= k ->
  bit (take s ws ++ replicate n 0 ++ drop (s + n) ws) k =
  bit ws k && negb ((32 * Z.of_nat s <=? k) && (k <? 32 * Z.of_nat (s + n))).
Proof.
  intros Hlen Hk. destruct (decide (n = 0)%nat) as [->|Hn].
  { cbn [replicate app]. rewrite Nat.add_0_r, take_drop.
    destruct (Z.leb_spec (32 * Z.of_nat s) k); destruct (Z.ltb_spec k (32 * Z.of_nat s)); cbn; try lia;
      by rewrite andb_true_r. }
  assert (s + n <= length ws)%nat as Hl by lia. unfold bit.
  destruct (decide (Z.to_nat (k / 32) < s)%nat) as [H1|H1].
  - rewrite lookup_app_l by (rewrite length_take; lia). rewrite lookup_take_lt by lia.
    rewrite (proj2 (Z.leb_gt _ _)) by lia. cbn. by rewrite andb_true_r.
  - rewrite lookup_app_r by (rewrite length_take; lia). rewrite length_take.
    destruct (decide (Z.to_nat (k / 32) < s + n)%nat) as [H2|H2].
    + rewrite lookup_app_l by (rewrite length_replicate; lia).
      rewrite (proj2 (lookup_replicate n 0 0 _)) by (split; [done|lia]). rewrite Z.testbit_0_l.
      rewrite (proj2 (Z.leb_le _ _)), (proj2 (Z.ltb_lt _ _)) by lia. cbn. by rewrite andb_false_r.
    + rewrite lookup_app_r by (rewrite length_replicate; lia). rewrite length_replicate, lookup_drop.
      rewrite (proj2 (Z.ltb_ge _ _)) by lia. rewrite andb_false_r. cbn. rewrite andb_true_r.
      replace (s + n + (Z.to_nat (k / 32) - s `min` length ws - n))%nat with (Z.to_nat (k / 32)) by lia. done.
Qed.

Lemma zeroed_ok ws s n :
  (s + n <= length ws \/ n = 0)%nat -> Forall word ws ->
  length (take s ws ++ replicate n 0 ++ drop (s + n) ws) = length ws /\
  Forall word (take s ws ++ replicate n 0 ++ drop (s + n) ws).
Proof.
  intros Hlen Hw. split.
  - rewrite !length_app, length_take, length_replicate, length_drop. lia.
  - rewrite !Forall_app. split_and!; [by apply Forall_take| |by apply Forall_drop].
    apply Forall_replicate. split; lia.
Qed.

Lemma testbit_land_low w j r :
  0 <= j -> 0 <= r < 32 ->
  Z.testbit (Z.land w (BITMAPOPMASK (j mod 32) - 1)) r = Z.testbit w r && negb (31 - r <=? j mod 32).
Proof.
  intros Hj Hr. rewrite BITMAPOPMASK_eq by lia.
  replace (2 ^ (31 - j mod 32) - 1) with (Z.ones (31 - j mod 32)) by (rewrite Z.ones_equiv; lia).
  rewrite Z.land_spec, Z.testbit_ones_nonneg by lia. f_equal.
  destruct (Z.ltb_spec r (31 - j mod 32)); destruct (Z.leb_spec (31 - r) (j mod 32)); lia || done.
Qed.

(** Clear part of one slot: what the slot writes of [ResetBetween] do. *)
Lemma clear_slot ws q m p :
  Forall word ws -> 0 <= q < Z.of_nat (length ws) ->
  (forall w r, 0 <= r < 32 -> Z.testbit (Z.land w m) r = Z.testbit w r && negb (p (31 - r))) ->
  exists ws', (let! w := slot ws q in setSlot ws q (Z.land w m)) = Ok ws' /\ length ws' = length ws /\
    Forall word ws' /\
    forall k, 0 <= k -> bit ws' k = bit ws k && negb ((k / 32 =? q) && p (k mod 32)).
Proof.
  intros Hw Hq Hm. destruct (lookup_lt_is_Some_2 ws (Z.to_nat q)) as [w Hlk]; [lia|].
  pose proof (Forall_lookup_1 _ _ _ _ Hw Hlk) as Hword.
  rewrite (proj2 (slot_lookup ws q w ltac:(lia)) Hlk). cbn [res_bind].
  destruct (setSlot_mask ws q w (Z.land w m) Hlk ltac:(lia) Hw (word_land _ _ Hword)) as (Hset & Hw2 & Hl2).
  eexists. split; [exact Hset|]. split; [done|]. split; [done|]. intros k Hk.
  apply (bit_clear ws q w _ p k Hlk); [lia..|]. intros r Hr. by apply Hm.
Qed.

Lemma land_bothMask i j w r :
  0 <= i -> 0 <= j -> i mod 32 <= j mod 32 -> 0 <= r < 32 ->
  Z.testbit (Z.land w (not32 (bothMask i j))) r =
  Z.testbit w r && negb ((i mod 32 <=? 31 - r) && (31 - r <=? j mod 32)).
Proof. intros. by rewrite testbit_minus, testbit_bothMask. Qed.

Lemma land_beginMask i w r :
  0 <= i -> 0 <= r < 32 ->
  Z.testbit (Z.land w (not32 (beginMask i))) r =
  Z.testbit w r && negb ((i mod 32 <=? 31 - r) && (31 - r <=? 31)).
Proof. intros. by rewrite testbit_minus, testbit_beginMask. Qed.

(** The bits between the two indices are cleared and no others; the count of set bits is left as
    it was. *)
Lemma ResetBetween_bits b ws i j :
  wf b ws -> 0 <= i <= j -> j < _itemCount b ->
  exists b' ws', ResetBetween b i j = Ok b' /\ wf b' ws' /\ _itemCount b' = _itemCount b /\
    _setCount b' = _setCount b /\
    (forall k, 0 <= k -> bit ws' k = bit ws k && negb ((i <=? k) && (k <=? j))).
Proof.
  intros Hwf Hij Hj. pose proof Hwf as [Hd Hit Hs Hl Hw].
  destruct (test_slots i j Hij) as (Hqi & Hri & Hqj & Hrj & Hts & Hte).
  unfold ResetBetween. rewrite Hd. cbn [deref res_bind]. rewrite Hqi, Hri, Hqj, Hrj, Hts, Hte.
  set (s := Z.to_nat ((i + 31) / 32)). set (n := Z.to_nat ((j + 1) / 32 - 1 - (i + 31) / 32 + 1)).
  assert ((length (take n (drop s ws)) <? n)%nat = false) as ->.
  { apply Nat.ltb_ge. rewrite length_take, length_drop. subst s n. lia. }
  assert (Hlen : (s + n <= length ws \/ n = 0)%nat) by (subst s n; lia).
  set (ws1 := take s ws ++ replicate n 0 ++ drop (s + n) ws).
  destruct (zeroed_ok ws s n Hlen Hw) as [Hlen1 Hw1].
  pose proof (fun k => bit_zeroed ws s n k Hlen) as Hbit1. fold ws1 in Hlen1, Hw1, Hbit1. clearbody ws1.
  match goal with |- exists b' ws', res_bind ?m _ = Ok b' /\ _ =>
    enough (exists ws2, m = Ok ws2 /\ length ws2 = length ws /\
      Forall word ws2 /\ forall k, 0 <= k -> bit ws2 k = bit ws k && negb ((i <=? k) && (k <=? j)))
      as (ws2 & Heq & Hlen2 & Hw2 & Hbit2)
  end.
  { rewrite Heq. cbn [res_bind]. exists (setData ws2 b), ws2. split; [done|].
    split; [split; cbn; try done; lia|]. done. }
  change SLOT_SIZE_BIT_MASK with 31.
  destruct (Z.eqb_spec (i / 32) (j / 32)) as [Heq|Hne]; cbn [negb].
  - destruct (negb (i mod 32 =? 0) || negb (j mod 32 =? 31)) eqn:Hc.
    + destruct (clear_slot ws1 (i / 32) _ (fun p => (i mod 32 <=? p) && (p <=? j mod 32)) Hw1 ltac:(lia)
        (fun w r Hr => land_bothMask i j w r ltac:(lia) ltac:(lia) ltac:(lia) Hr)) as (ws2 & -> & Hl2 & Hw2 & Hb2).
      exists ws2. split_and!; [done|lia|done|]. intros k Hk. rewrite Hb2, Hbit1 by done.
      destruct (bit ws k); [|done]. subst s n. cbn [andb]. lia.
    + exists ws1. split_and!; [done..|]. intros k Hk. rewrite Hbit1 by done.
      destruct (bit ws k); [|done]. subst s n. cbn [andb]. lia.
  - match goal with |- exists ws2, res_bind ?m _ = Ok ws2 /\ _ =>
      assert (exists ws2, m = Ok ws2 /\ length ws2 = length ws /\ Forall word ws2 /\
        forall k, 0 <= k -> bit ws2 k = bit ws k && negb ((i <=? k) && (k <? 32 * Z.of_nat (s + n))))
        as (ws2 & -> & Hlen2 & Hw2 & Hbit2)
    end.
    { destruct (Z.eqb_spec (i mod 32) 0) as [Hi0|Hi0]; cbn [negb].
      - exists ws1. split_and!; [done..|]. intros k Hk. rewrite Hbit1 by done.
        destruct (bit ws k); [|done]. subst s n. cbn [andb]. lia.
      - destruct (clear_slot ws1 (i / 32) _ (fun p => (i mod 32 <=? p) && (p <=? 31)) Hw1 ltac:(lia)
          (fun w r Hr => land_beginMask i w r ltac:(lia) Hr)) as (ws2 & -> & Hl2 & Hw2 & Hb2).
        exists ws2. split_and!; [done|lia|done|]. intros k Hk. rewrite Hb2, Hbit1 by done.
        destruct (bit ws k); [|done]. subst s n. cbn [andb]. lia. }
    cbn [res_bind]. destruct (Z.eqb_spec (j mod 32) 31) as [Hj0|Hj0]; cbn [negb].
    + exists ws2. split_and!; [done..|]. intros k Hk. rewrite Hbit2 by done.
      destruct (bit ws k); [|done]. subst s n. cbn [andb]. lia.
    + destruct (clear_slot ws2 (j / 32) _ (fun p => p <=? j mod 32) Hw2 ltac:(lia)
        (fun w r Hr => testbit_land_low w j r ltac:(lia) Hr)) as (ws3 & -> & Hl3 & Hw3 & Hb3).
      exists ws3. split_and!; [done|lia|done|]. intros k Hk. rewrite Hb3, Hbit2 by done.
      destruct (bit ws k); [|done]. subst s n. cbn [andb]. lia.
Qed.

(** ** Counting *)

(** The number of set bits before index [x]. *)
Definition before (ws : list Z) (x : Z) : Z := count (bitN ws) (Z.to_nat x).

Lemma count_mono f n m : (n <= m)%nat -> count f n <= count f m.
Proof.
  intros Hnm. replace m with (n + (m - n))%nat by lia. rewrite count_add.
  pose proof (count_range (fun i => f (n + i)%nat) (m - n)). lia.
Qed.

Lemma before_mono ws x y : x <= y -> before ws x <= before ws y.
Proof. intros Hxy. apply count_mono. lia. Qed.

Lemma before_range ws x : 0 <= x -> 0 <= before ws x <= x.
Proof. intros Hx. pose proof (count_range (bitN ws) (Z.to_nat x)). unfold before. lia. Qed.

Lemma before_slot ws q w r :
  ws !! Z.to_nat q = Some w -> 0 <= q -> 0 <= r <= 32 ->
  before ws (32 * q + r) = before ws (32 * q) + count (wbit w) (Z.to_nat r).
Proof.
  intros Hw Hq Hr. pose proof (lookup_lt_Some _ _ _ Hw). unfold before.
  replace (Z.to_nat (32 * q + r)) with (32 * Z.to_nat q + Z.to_nat r)%nat by lia.
  replace (Z.to_nat (32 * q)) with (32 * Z.to_nat q)%nat by lia.
  rewrite (count_partial ws _ _ w Hw), count_whole by lia. done.
Qed.

(** The [i < n] whose shift by [s] is below [t]. *)
Lemma count_window f s t n :
  (s <= t)%nat -> (t - s <= n)%nat ->
  count (fun r => (r + s <? t)%nat && f (r + s)%nat) n = count f t - count f s.
Proof.
  intros Hst Hn. replace n with ((t - s) + (n - (t - s)))%nat by lia. rewrite count_add.
  rewrite (count_false (fun i => (t - s + i + s <? t)%nat && _)).
  2:{ intros i Hi. rewrite (proj2 (Nat.ltb_ge _ _)) by lia. done. }
  replace (count f t) with (count f (s + (t - s))) by (f_equal; lia). rewrite count_add.
  rewrite (count_ext _ (fun i => f (s + i)%nat)); [lia|].
  intros i Hi. rewrite (proj2 (Nat.ltb_lt _ _)) by lia. cbn [andb]. f_equal. lia.
Qed.

Lemma countShifted_loop n v c : countShifted n v c = CountBits32_loop n v c.
Proof. reflexivity. Qed.

Lemma countShifted_ok v : word v -> countShifted 32 v 0 = count (wbit v) 32.
Proof. intros Hv. rewrite countShifted_loop, CountBits32_loop_ok by (exact Hv || lia). done. Qed.

(** The value [GetSetCount] counts in the first slot: the bits from [s] on, before [t]. *)
Lemma wbit_first w s t r :
  word w -> 0 <= s < 32 -> 0 < t <= 32 -> (r < 32)%nat ->
  wbit (u32 (Z.shiftl (if t =? 32 then w else Z.land w (u32 (Z.shiftl u32_max (32 - t)))) s)) r =
  (r + Z.to_nat s <? Z.to_nat t)%nat && wbit w (r + Z.to_nat s)%nat.
Proof.
  intros Hw Hs Ht Hr. unfold wbit. rewrite testbit_u32, Z.shiftl_spec by lia.
  rewrite (proj2 (Z.ltb_lt (31 - Z.of_nat r) 32)) by lia. cbn [andb].
  replace (31 - Z.of_nat (r + Z.to_nat s)) with (31 - Z.of_nat r - s) by lia.
  set (k := 31 - Z.of_nat r - s). destruct (Z.eqb_spec t 32) as [->|Hne].
  - destruct (Z.le_gt_cases 0 k); [|rewrite Z.testbit_neg_r, andb_false_r by lia; done].
    rewrite (proj2 (Nat.ltb_lt _ _)) by lia. done.
  - rewrite Z.land_spec, testbit_u32. destruct (Z.le_gt_cases 0 k).
    + rewrite (proj2 (Z.ltb_lt k 32)), Z.shiftl_spec by lia. change u32_max with (Z.ones 32).
      destruct (Z.le_gt_cases 0 (k - (32 - t))).
      * rewrite Z.testbit_ones_nonneg, (proj2 (Z.ltb_lt _ 32)), (proj2 (Nat.ltb_lt _ _)) by lia.
        cbn [andb]. apply andb_true_r.
      * rewrite (Z.testbit_neg_r (Z.ones 32)), (proj2 (Nat.ltb_ge _ _)) by lia. apply andb_false_r.
    + rewrite !(Z.testbit_neg_r w) by lia. by rewrite andb_false_r.
Qed.

Lemma word_u32 v : word (u32 v).
Proof. apply Z.mod_pos_bound. lia. Qed.

Lemma firstSlotCount_ok ws i e :
  Forall word ws -> 0 <= i <= e -> e < 32 * Z.of_nat (length ws) ->
  firstSlotCount ws i ((e + 1) / 32) ((e + 1) mod 32) =
  Ok (before ws (Z.min (32 * ((i + 31) / 32)) (e + 1)) - before ws i, (i + 31) / 32).
Proof.
  intros Hw Hie He. unfold firstSlotCount, SLOT_SIZE, SLOT_SIZE_BIT_MASK. cbv zeta.
  change (Z.land i 31) with (Z.land i (Z.ones 5)). rewrite Z.land_ones by lia. change (2 ^ 5) with 32.
  destruct (Z.eqb_spec (32 - i mod 32) 32) as [H0|H0]; cbn [negb].
  { replace ((i + 31) / 32) with (i / 32) by lia. replace (Z.min _ _) with i by lia.
    do 2 f_equal. lia. }
  destruct (lookup_lt_is_Some_2 ws (Z.to_nat (i / 32))) as [w Hlk]; [lia|].
  pose proof (Forall_lookup_1 _ _ _ _ Hw Hlk) as Hword.
  rewrite (proj2 (slot_lookup ws (i / 32) w ltac:(lia)) Hlk). cbn [res_bind].
  rewrite countShifted_ok by apply word_u32.
  set (t := if i / 32 =? (e + 1) / 32 then (e + 1) mod 32 else 32).
  rewrite (count_ext _ (fun r => (r + Z.to_nat (i mod 32) <? Z.to_nat t)%nat && wbit w (r + Z.to_nat (i mod 32))%nat)).
  2:{ intros r Hr. rewrite <- wbit_first by (done || lia || (subst t; destruct (Z.eqb_spec (i / 32) ((e + 1) / 32)); lia)).
      subst t. destruct (Z.eqb_spec (i / 32) ((e + 1) / 32)); [|done].
      by rewrite (proj2 (Z.eqb_neq _ _)) by lia. }
  rewrite count_window by (subst t; destruct (Z.eqb_spec (i / 32) ((e + 1) / 32)); lia).
  replace (Z.min (32 * ((i + 31) / 32)) (e + 1)) with (32 * (i / 32) + t) by
    (subst t; destruct (Z.eqb_spec (i / 32) ((e + 1) / 32)); lia).
  rewrite (before_slot ws _ w t Hlk) by (subst t; destruct (Z.eqb_spec (i / 32) ((e + 1) / 32)); lia).
  replace (before ws i) with (before ws (32 * (i / 32) + i mod 32)) by (f_equal; lia).
  rewrite (before_slot ws _ w (i mod 32) Hlk) by lia. do 2 f_equal; lia.
Qed.

(** Counting the whole slots from [q] to [q'] in pairs. *)
Lemma countPairs_before ws q n acc :
  Forall word ws -> 0 <= q -> q + 2 * Z.of_nat n <= Z.of_nat (length ws) -> 0 <= acc ->
  acc + before ws (32 * (q + 2 * Z.of_nat n)) - before ws (32 * q) < 2 ^ 32 ->
  countPairs (drop (Z.to_nat q) ws) n acc =
  Ok (acc + (before ws (32 * (q + 2 * Z.of_nat n)) - before ws (32 * q))).
Proof.
  intros Hw Hq Hlen Hacc Hb.
  assert (wsum (take (2 * n) (drop (Z.to_nat q) ws)) =
          before ws (32 * (q + 2 * Z.of_nat n)) - before ws (32 * q)) as Hsum.
  { unfold before. replace (Z.to_nat (32 * (q + 2 * Z.of_nat n))) with (32 * (Z.to_nat q + 2 * n))%nat by lia.
    replace (Z.to_nat (32 * q)) with (32 * Z.to_nat q)%nat by lia. rewrite !count_whole by lia.
    rewrite <- (take_take_drop ws (Z.to_nat q) (2 * n)), wsum_app. lia. }
  rewrite countPairs_ok, Hsum; [done|by apply Forall_drop|rewrite length_drop; lia|done|rewrite Hsum; lia].
Qed.

(** Counting the first [r] bits of a slot. *)
Lemma count_slot ws q r acc :
  Forall word ws -> 0 <= q < Z.of_nat (length ws) -> 0 <= r <= 32 -> 0 <= acc ->
  acc + (before ws (32 * q + r) - before ws (32 * q)) < 2 ^ 32 ->
  exists w, slot ws q = Ok w /\ (w = 0 -> before ws (32 * q + r) = before ws (32 * q)) /\
    u32 (acc + CountBits32 w r) = acc + (before ws (32 * q + r) - before ws (32 * q)).
Proof.
  intros Hw Hq Hr Hacc Hlt. destruct (lookup_lt_is_Some_2 ws (Z.to_nat q)) as [w Hlk]; [lia|].
  pose proof (Forall_lookup_1 _ _ _ _ Hw Hlk) as Hword. exists w.
  rewrite (slot_lookup ws q w) by lia. split; [done|]. rewrite (before_slot ws q w r Hlk) in * by lia.
  pose proof (count_range (wbit w) (Z.to_nat r)) as Hc. split.
  - intros ->. rewrite (count_false (wbit 0)); [lia|]. intros. apply Z.testbit_0_l.
  - rewrite CountBits32_ok by (exact Hword || lia). rewrite u32_small; lia.
Qed.

(** Counting whole slots: one if their number is odd, then the pairs. *)
Lemma countSlots_ok ws q q' acc :
  Forall word ws -> 0 <= q <= q' -> q' <= Z.of_nat (length ws) -> 0 <= acc ->
  acc + (before ws (32 * q') - before ws (32 * q)) < 2 ^ 32 ->
  (let! (acc, q) :=
     if (q <? q') && negb (Z.land (q' - q) 1 =? 0) then
       let! nData := slot ws q in
       Ok (if negb (nData =? 0) then u32 (acc + CountBits32 nData 32) else acc, q + 1)
     else Ok (acc, q) in
   countPairs (drop (Z.to_nat q) ws) (Z.to_nat ((q' - q + 1) / 2)) acc) =
  Ok (acc + (before ws (32 * q') - before ws (32 * q))).
Proof.
  intros Hw Hq Hq' Hacc Hlt. change 1 with (Z.ones 1) at 1. rewrite Z.land_ones by lia. change (2 ^ 1) with 2.
  destruct (Z.eqb_spec ((q' - q) mod 2) 0) as [He|He]; cbn [negb]; rewrite ?andb_false_r.
  - cbn [res_bind]. assert (q' = q + 2 * Z.of_nat (Z.to_nat ((q' - q + 1) / 2))) as Hq2 by lia.
    rewrite countPairs_before; rewrite <- ?Hq2; (done || lia).
  - rewrite (proj2 (Z.ltb_lt _ _)) by lia. cbn [andb].
    assert (q' = q + 1 + 2 * Z.of_nat (Z.to_nat ((q' - (q + 1) + 1) / 2))) as Hq2 by lia.
    pose proof (before_mono ws (32 * q) (32 * q + 32) ltac:(lia)) as H1.
    pose proof (before_mono ws (32 * q + 32) (32 * q') ltac:(lia)) as H2.
    destruct (count_slot ws q 32 acc Hw ltac:(lia) ltac:(lia) Hacc ltac:(lia)) as (w & -> & H0 & Hc).
    cbn [res_bind]. replace (32 * q + 32) with (32 * (q + 1)) in * by lia.
    assert ((if negb (w =? 0) then u32 (acc + CountBits32 w 32) else acc) =
            acc + (before ws (32 * (q + 1)) - before ws (32 * q))) as ->.
    { destruct (Z.eqb_spec w 0) as [Hw0|]; cbn [negb]; [rewrite H0 by done; lia|done]. }
    rewrite countPairs_before; rewrite <- ?Hq2; (done || lia || (f_equal; lia)).
Qed.

(** The number of set bits from [begin] to [end], the end cut to the last item. *)
Lemma GetSetCount_range_ok b ws i j :
  wf b ws -> 0 <= i -> i <= Z.min j (_itemCount b - 1) ->
  GetSetCount_range b i j = Ok (before ws (Z.min j (_itemCount b - 1) + 1) - before ws i).
Proof.
  intros Hwf Hi Hij. pose proof Hwf as [Hd Hit Hs Hl Hw]. unfold GetSetCount_range. rewrite Hd.
  assert ((if _itemCount b <=? j then u32 (_itemCount b - 1) else j) = Z.min j (_itemCount b - 1)) as ->.
  { destruct (Z.leb_spec (_itemCount b) j); [rewrite u32_small|]; lia. }
  set (e := Z.min j (_itemCount b - 1)) in *. assert (Hlen : e < 32 * Z.of_nat (length ws)) by lia.
  assert (He : i <= e /\ e + 1 < 2 ^ 32) by lia. clearbody e. clear Hij Hd Hs.
  rewrite (proj2 (Z.ltb_ge _ _)) by lia. unfold SLOT_SIZE, SLOT_SIZE_BIT_MASK. cbv zeta.
  change (Z.land (e + 1) 31) with (Z.land (e + 1) (Z.ones 5)). rewrite Z.land_ones by lia. change (2 ^ 5) with 32.
  rewrite firstSlotCount_ok by (done || lia). cbn [res_bind].
  set (q := (i + 31) / 32). set (q' := (e + 1) / 32).
  pose proof (before_range ws (e + 1) ltac:(lia)) as Hall. pose proof (before_range ws i ltac:(lia)) as Hfirst.
  destruct (Z.leb_spec q q') as [Hle|Hgt]; cbn [andb].
  - rewrite (Z.min_l (32 * q)) by lia.
    pose proof (before_mono ws i (32 * q) ltac:(lia)) as Hm1.
    pose proof (before_mono ws (32 * q) (32 * q') ltac:(lia)) as Hm2.
    pose proof (before_mono ws (32 * q') (e + 1) ltac:(lia)) as Hm3.
    match goal with |- res_bind ?m _ = _ =>
      assert (m = Ok (before ws (32 * q) - before ws i + (before ws (e + 1) - before ws (32 * q')))) as ->
    end.
    { replace (e + 1) with (32 * q' + (e + 1) mod 32) in Hm3, Hall |- * at 2 by lia.
      destruct (Z.eqb_spec ((e + 1) mod 32) 0) as [H0|H0]; cbn [negb].
      - rewrite H0, Z.add_0_r. f_equal. lia.
      - destruct (count_slot ws q' ((e + 1) mod 32) (before ws (32 * q) - before ws i) Hw) as (w & -> & _ & Hc);
          [lia..|]. cbn [res_bind]. by rewrite Hc. }
    cbn [res_bind]. rewrite countSlots_ok by (done || lia). f_equal. lia.
  - rewrite (proj2 (Z.ltb_ge q q')) by lia. cbn [andb res_bind].
    replace ((q' - q + 1) / 2) with 0 by lia. cbn [Z.to_nat countPairs]. do 3 f_equal. lia.
Qed.
