(* ===== verification/ExpandableCorrect.v ===== *)
(** * Expandable bitmaps

    [ExpandableBitmap] (src/aios/storage/indexlib/util/ExpandableBitmap.cpp) grows when a bit
    beyond its end is written. Proved against the view of the bitmap as a total boolean function
    that is false from some index on ([exact]). *)

From stdpp Require Import base list numbers option tactics.
From Stdlib Require Import ZArith Lia ZifyNat.
From S2P Require Import Prelude Bits Bitmap.

#[local] Open Scope Z_scope.
#[local] Ltac Zify.zify_post_hook ::= Z.to_euclidean_division_equations.
#[local] Opaque CountBits32 CountBits64 count wcount Z.pow.

(** All bits of the slots as items. *)
Definition full (b : Bitmap) : Bitmap :=
  mkBitmap (32 * _slotCount b) (_slotCount b) (_data b) (_setCount b) (_mount b) (_initSet b).

(** The bitmap stands for [f] on all indices: the bits of the slots beyond the last item are clear. *)
Record exact (b : Bitmap) (f : Z -> bool) : Prop := {
  ex_full : represents (full b) f;
  ex_items : 0 <= _itemCount b;
  ex_slots : _slotCount b = (_itemCount b + 31) / 32;
  ex_out : forall i, _itemCount b <= i -> f i = false
}.

Lemma count_cut f n m : (n <= m)%nat -> (forall i, (n <= i)%nat -> f i = false) -> count f m = count f n.
Proof.
  intros Hnm Hf. replace m with (n + (m - n))%nat by lia. rewrite count_add.
  rewrite (count_false (fun i => f (n + i)%nat)); [lia|]. intros i Hi. apply Hf. lia.
Qed.

Lemma exact_represents b f : exact b f -> represents b f.
Proof.
  intros [[(ws & [Hd Hi Hs Hl Hw] & Hbit) Hc] Hi0 Hs0 Ho]. cbn in *. split.
  - exists ws. split; [split; try done; lia|]. intros i Hii. apply Hbit. lia.
  - rewrite Hc. apply count_cut; [lia|]. intros i Hii. apply Ho. lia.
Qed.

Lemma Set_full b i r b' : Set_ (full b) i = Ok (r, b') ->
  exists b2, Set_ b i = Ok (r, b2) /\ b' = full b2 /\ _itemCount b2 = _itemCount b /\
    _slotCount b2 = _slotCount b /\ _initSet b2 = _initSet b.
Proof.
  unfold Set_. cbn. destruct (_data b) as [ws|]; cbn; [|done]. destruct (slot ws (quot i)) as [w| | |] eqn:E; cbn; try done.
  destruct (_ =? 0).
  - unfold setSlot. rewrite E. cbn. intros [= <- <-]. eexists. by split_and!.
  - intros [= <- <-]. eexists. by split_and!.
Qed.

Lemma Reset_full b i r b' : i < _itemCount b -> i < 32 * _slotCount b -> Reset_ (full b) i = Ok (r, b') ->
  exists b2, Reset_ b i = Ok (r, b2) /\ b' = full b2 /\ _itemCount b2 = _itemCount b /\
    _slotCount b2 = _slotCount b /\ _initSet b2 = _initSet b.
Proof.
  intros Hi Hi2. unfold Reset_. cbn. rewrite !(proj2 (Z.leb_gt _ _)) by lia.
  destruct (_data b) as [ws|]; cbn; [|done]. destruct (slot ws (quot i)) as [w| | |] eqn:E; cbn; try done.
  destruct (negb (_ =? 0)).
  - unfold setSlot. rewrite E. cbn. intros [= <- <-]. eexists. by split_and!.
  - intros [= <- <-]. eexists. by split_and!.
Qed.

Lemma exact_Set b f i :
  exact b f -> 0 <= i < _itemCount b ->
  exists b', Set_ b i = Ok (negb (f i), b') /\ exact b' (fun j => if j =? i then true else f j) /\
    _itemCount b' = _itemCount b /\ _initSet b' = _initSet b.
Proof.
  intros [Hf Hi0 Hs Ho] Hi. destruct (Set_ok (full b) f i Hf ltac:(cbn; lia)) as (b' & Hset & _ & Hrep).
  destruct (Set_full b i _ _ Hset) as (b2 & -> & -> & Hi2 & Hs2 & Hinit). exists b2.
  split; [done|]. split; [|done]. split; [done|lia|lia|]. intros j Hj.
  rewrite (proj2 (Z.eqb_neq _ _)) by lia. apply Ho. lia.
Qed.

Lemma exact_Reset b f i :
  exact b f -> 0 <= i < _itemCount b ->
  exists b', Reset_ b i = Ok (f i, b') /\ exact b' (fun j => if j =? i then false else f j) /\
    _itemCount b' = _itemCount b /\ _initSet b' = _initSet b.
Proof.
  intros [Hf Hi0 Hs Ho] Hi. destruct (Reset_ok (full b) f i Hf ltac:(cbn; lia)) as (b' & Hset & _ & Hrep).
  destruct (Reset_full b i _ _ ltac:(lia) ltac:(lia) Hset) as (b2 & -> & -> & Hi2 & Hs2 & Hinit). exists b2.
  split; [done|]. split; [|done]. split; [done|lia|lia|]. intros j Hj.
  destruct (j =? i); [done|]. apply Ho. lia.
Qed.

Lemma growSlots_ok s i :
  0 <= s -> 32 * s <= i + 31 -> 0 <= i < 2 ^ 31 ->
  exists r, (s < r /\ i < 32 * r /\ 32 * r <= 2 ^ 32 - 32) /\ evals (fun fuel => Expandable.growSlots fuel s i) r.
Proof.
  intros Hs His Hi. unfold Expandable.growSlots.
  set (add := if 0 <? s / 2 then s / 2 else 1).
  assert (Hadd : 1 <= add <= s / 2 + 1) by (subst add; destruct (Z.ltb_spec 0 (s / 2)); lia).
  clearbody add. change (2 ^ 31) with 2147483648 in Hi.
  apply (iter_total (fun _ alloc => let alloc := u32 (alloc + add) in
      if u32 (alloc * SLOT_SIZE) <=? i then Ok (inl alloc) else Ok (inr alloc))
    (fun alloc => s <= alloc /\ 32 * alloc <= i + 31)
    (fun r => s < r /\ i < 32 * r /\ 32 * r <= 2 ^ 32 - 32)
    (fun alloc => Z.to_nat (i + 64 - 32 * alloc))); [|lia].
  intros alloc [Hlo Hhi]. cbv zeta. unfold SLOT_SIZE. change (2 ^ 32) with 4294967296.
  rewrite (u32_small (alloc + add)), (u32_small (_ * 32)) by (change (2 ^ 32) with 4294967296; lia).
  destruct (Z.leb_spec ((alloc + add) * 32) i); eexists; (split; [apply evals_ret|]); cbn; lia.
Qed.

(** No product of 32-bit numbers with 32 is above [2^32 - 32]: the loop does not end for such an index. *)
Lemma growSlots_diverges fuel s i : 2 ^ 32 - 32 <= i -> Expandable.growSlots fuel s i = OutOfFuel.
Proof.
  intros Hi. unfold Expandable.growSlots. set (add := if 0 <? s / 2 then s / 2 else 1). clearbody add.
  revert s. induction fuel as [|fuel IH]; intros s; [done|]. cbn [iter]. set (alloc := u32 (s + add)).
  assert (u32 (alloc * SLOT_SIZE) <= i) as Hle.
  { unfold u32, SLOT_SIZE. clearbody alloc. change (2 ^ 32) with 4294967296 in *. lia. }
  rewrite (proj2 (Z.leb_le _ _) Hle). apply IH.
Qed.

Lemma Expand_diverges fuel e i : 2 ^ 32 - 32 <= i -> Expandable.Expand fuel e i = OutOfFuel.
Proof. intros Hi. unfold Expandable.Expand. by rewrite growSlots_diverges. Qed.

Lemma bit_app_zero ws n k : bit (ws ++ replicate n 0) k = bit ws k.
Proof.
  unfold bit. destruct (decide (Z.to_nat (k / 32) < length ws)%nat).
  - by rewrite lookup_app_l.
  - rewrite lookup_app_r by lia. rewrite (lookup_ge_None_2 ws) by lia.
    destruct (replicate n 0 !! _) as [w|] eqn:E; [|done].
    apply lookup_replicate in E as [-> _]. apply Z.testbit_0_l.
Qed.

(** After [Expand] the index is an item, and the bitmap stands for the same function. *)
Lemma Expand_ok e f i :
  exact (Expandable.base e) f -> _initSet (Expandable.base e) = false ->
  _itemCount (Expandable.base e) <= i < 2 ^ 31 ->
  exists e', exact (Expandable.base e') f /\ _initSet (Expandable.base e') = false /\
    i < _itemCount (Expandable.base e') /\ evals (fun fuel => Expandable.Expand fuel e i) e'.
Proof.
  intros [[(ws & [Hd Hi Hs Hl Hw] & Hbit) Hc] Hi0 Hs0 Ho] Hinit Hit. cbn in *.
  set (b := Expandable.base e) in *.
  destruct (growSlots_ok (_slotCount b) i) as (r & (Hr1 & Hr2 & Hr3) & Hgrow); [lia..|].
  assert (Hu : u32 (r * SLOT_SIZE) = 32 * r) by (unfold SLOT_SIZE; rewrite u32_small; lia).
  eexists. split; [|split; [|split]]; cycle 3.
  - unfold Expandable.Expand. fold b. rewrite Hd. eapply evals_bind_ok; [exact Hgrow|reflexivity].
  - cbn. rewrite Hinit, Hu, take_ge by lia. split; cbn; [split; cbn|lia|lia|].
    + exists (ws ++ fill false (r - _slotCount b)). unfold fill. split.
      * split; cbn; [done|lia|lia|rewrite length_app, length_replicate; lia|].
        apply Forall_app. split; [done|]. apply Forall_replicate. split; lia.
      * intros k Hk. cbn in Hk. rewrite bit_app_zero.
        destruct (Z.lt_ge_cases k (32 * _slotCount b)); [apply Hbit; lia|].
        rewrite bit_above, Ho by lia. done.
    + rewrite Hc. symmetry. apply count_cut; [lia|]. intros k Hk. apply Ho. lia.
    + intros k Hk. apply Ho. lia.
  - cbn. done.
  - cbn. rewrite Hu. lia.
Qed.

(** ** The operations *)

Definition expands (e : Expandable.ExpandableBitmap) (f : Z -> bool) : Prop :=
  exact (Expandable.base e) f /\ _initSet (Expandable.base e) = false.

Lemma new_Expandable_expands n :
  0 <= n <= 2 ^ 32 - 32 -> expands (Expandable.new_Expandable n false) (fun _ => false).
Proof.
  intros Hn. split; [|done].
  assert (slotsFor n = (n + 31) / 32) as Hs.
  { unfold slotsFor, SLOT_SIZE. rewrite u32_small, Z.shiftr_div_pow2 by lia. change (2 ^ 5) with 32. f_equal. lia. }
  split; cbn; [|lia|done|done]. split; cbn; rewrite ?Hs.
  - exists (fill false ((n + 31) / 32)). unfold fill. split.
    + split; cbn; [by rewrite Hs|lia|lia|rewrite length_replicate; lia|]. apply Forall_replicate. split; lia.
    + intros i Hi. apply (bit_app_zero [] _ i).
  - symmetry. by apply count_false.
Qed.

Lemma Set_expands e f i :
  expands e f -> 0 <= i < 2 ^ 31 ->
  exists e', expands e' (fun j => if j =? i then true else f j) /\
    i < _itemCount (Expandable.base e') /\
    evals (fun fuel => Expandable.Set_ fuel e i) (negb (f i), e').
Proof.
  intros [Hex Hinit] Hi. unfold Expandable.Set_.
  destruct (Z.leb_spec (_itemCount (Expandable.base e)) i) as [Hle|Hlt].
  - destruct (Expand_ok e f i Hex Hinit ltac:(lia)) as (e' & Hex' & Hinit' & Hi' & Hev).
    destruct (exact_Set _ f i Hex' ltac:(lia)) as (b2 & Hset & Hex2 & Hi2 & Hinit2).
    eexists. split; [|split]; cycle 2.
    + eapply evals_bind_ok; [eapply evals_bind_ok; [exact Hev|reflexivity]|].
      cbn [Expandable.base]. rewrite Hset. reflexivity.
    + split; [done|]. cbn. congruence.
    + cbn. lia.
  - destruct (exact_Set _ f i Hex ltac:(lia)) as (b2 & Hset & Hex2 & Hi2 & Hinit2).
    eexists. split; [|split]; cycle 2.
    + eapply evals_bind_ok; [apply evals_ret|]. rewrite Hset. reflexivity.
    + split; [done|]. cbn. congruence.
    + cbn. lia.
Qed.

Lemma Reset_expands e f i :
  expands e f -> 0 <= i < 2 ^ 31 ->
  exists e', expands e' (fun j => if j =? i then false else f j) /\
    i < _itemCount (Expandable.base e') /\
    evals (fun fuel => Expandable.Reset_ fuel e i) (f i, e').
Proof.
  intros [Hex Hinit] Hi. unfold Expandable.Reset_.
  destruct (Z.leb_spec (_itemCount (Expandable.base e)) i) as [Hle|Hlt].
  - destruct (Expand_ok e f i Hex Hinit ltac:(lia)) as (e' & Hex' & Hinit' & Hi' & Hev).
    destruct (exact_Reset _ f i Hex' ltac:(lia)) as (b2 & Hset & Hex2 & Hi2 & Hinit2).
    eexists. split; [|split]; cycle 2.
    + eapply evals_bind_ok; [exact Hev|]. cbv beta. rewrite Hset. reflexivity.
    + split; [done|]. cbn. congruence.
    + cbn. lia.
  - destruct (exact_Reset _ f i Hex ltac:(lia)) as (b2 & Hset & Hex2 & Hi2 & Hinit2).
    eexists. split; [|split]; cycle 2.
    + eapply evals_bind_ok; [apply evals_ret|]. cbv beta. rewrite Hset. reflexivity.
    + split; [done|]. cbn. congruence.
    + cbn. lia.
Qed.
