(* ===== verification/BitmapTheorems.v ===== *)
(** * What the bitmaps guarantee

    The theorems on [util::Bitmap] and [util::ExpandableBitmap], against the view of a bitmap as a
    boolean function, with a concrete instance of each. *)

From stdpp Require Import base list numbers option tactics.
From Stdlib Require Import ZArith Lia ZifyNat.
From S2P Require Import Prelude Bits Bitmap BitmapRanges ExpandableCorrect.

#[local] Open Scope Z_scope.
#[local] Ltac Zify.zify_post_hook ::= Z.to_euclidean_division_equations.

(** ** The abstract view: histories of single bit operations *)

Inductive op := OTest (i : Z) | OSet (i : Z) | OReset (i : Z).

Definition index_of (o : op) : Z := match o with OTest i | OSet i | OReset i => i end.

(** What an operation answers on a boolean function of [n] items, and the function after it. *)
Definition spec_step (o : op) (f : Z -> bool) : bool * (Z -> bool) :=
  match o with
  | OTest i => (f i, f)
  | OSet i => (negb (f i), fun j => if j =? i then true else f j)
  | OReset i => (f i, fun j => if j =? i then false else f j)
  end.

Fixpoint spec_run (os : list op) (f : Z -> bool) : list bool * (Z -> bool) :=
  match os with
  | [] => ([], f)
  | o :: os' => let (r, f1) := spec_step o f in let (rs, f2) := spec_run os' f1 in (r :: rs, f2)
  end.

Definition bitmap_step (o : op) (b : Bitmap) : res (bool * Bitmap) :=
  match o with
  | OTest i => let! r := Test b i in Ok (r, b)
  | OSet i => Set_ b i
  | OReset i => Reset_ b i
  end.

Fixpoint bitmap_run (os : list op) (b : Bitmap) : res (list bool * Bitmap) :=
  match os with
  | [] => Ok ([], b)
  | o :: os' =>
      let! (r, b1) := bitmap_step o b in
      let! (rs, b2) := bitmap_run os' b1 in Ok (r :: rs, b2)
  end.

(** Operations on an expandable bitmap; [Test] is inherited and needs an item. *)
Definition expandable_step (fuel : nat) (o : op) (e : Expandable.ExpandableBitmap)
    : res (bool * Expandable.ExpandableBitmap) :=
  match o with
  | OTest i => let! r := Test (Expandable.base e) i in Ok (r, e)
  | OSet i => Expandable.Set_ fuel e i
  | OReset i => Expandable.Reset_ fuel e i
  end.

Fixpoint expandable_run (fuel : nat) (os : list op) (e : Expandable.ExpandableBitmap)
    : res (list bool * Expandable.ExpandableBitmap) :=
  match os with
  | [] => Ok ([], e)
  | o :: os' =>
      let! (r, e1) := expandable_step fuel o e in
      let! (rs, e2) := expandable_run fuel os' e1 in Ok (r :: rs, e2)
  end.

(** ** Helper lemmas *)

Lemma slotsFor_eq n : 0 <= n <= 2 ^ 32 - 32 -> slotsFor n = (n + 31) / 32.
Proof.
  intros Hn. unfold slotsFor, SLOT_SIZE. rewrite u32_small, Z.shiftr_div_pow2 by lia.
  change (2 ^ 5) with 32. f_equal. lia.
Qed.

Lemma count_true n : count (fun _ => true) n = Z.of_nat n.
Proof. induction n as [|n IH]; [done|]. rewrite count_S, IH. cbn [Z.b2z]. lia. Qed.

Lemma new_Bitmap_represents n bSet :
  0 <= n <= 2 ^ 32 - 32 -> represents (new_Bitmap n bSet) (fun _ => bSet).
Proof.
  intros Hn. pose proof (slotsFor_eq n Hn) as Hs. split; cbn [_itemCount _setCount new_Bitmap].
  - exists (fill bSet (slotsFor n)). split.
    + split; cbn; [done|done|done|unfold fill; rewrite length_replicate; lia|].
      apply Forall_replicate. destruct bSet; split; (done || lia).
    + intros i Hi. unfold bit, fill.
      rewrite (proj2 (lookup_replicate _ _ (if bSet then u32_max else 0) _)) by (split; [done|lia]).
      destruct bSet; [|apply Z.testbit_0_l]. change u32_max with (Z.ones 32).
      rewrite Z.testbit_ones_nonneg by lia. by rewrite (proj2 (Z.ltb_lt _ _)) by lia.
  - destruct bSet; [rewrite count_true; lia|]. by rewrite count_false.
Qed.

Lemma bitmap_step_ok o b f :
  represents b f -> 0 <= index_of o < _itemCount b ->
  exists b', bitmap_step o b = Ok (fst (spec_step o f), b') /\ _itemCount b' = _itemCount b /\
    represents b' (snd (spec_step o f)).
Proof.
  intros Hrep. destruct o as [i|i|i]; cbn; intros Hi.
  - rewrite (Test_ok b f i Hrep Hi). by exists b.
  - by apply Set_ok.
  - by apply Reset_ok.
Qed.

Lemma bitmap_run_ok os b f :
  represents b f -> Forall (fun o => 0 <= index_of o < _itemCount b) os ->
  exists b', bitmap_run os b = Ok (fst (spec_run os f), b') /\ _itemCount b' = _itemCount b /\
    represents b' (snd (spec_run os f)).
Proof.
  revert b f. induction os as [|o os IH]; intros b f Hrep Hos; cbn [bitmap_run spec_run].
  { exists b. done. }
  apply Forall_cons_iff in Hos as [Ho Hos].
  destruct (bitmap_step_ok o b f Hrep Ho) as (b1 & -> & Hi1 & Hrep1). cbn [res_bind].
  destruct (spec_step o f) as [r f1]. cbn [fst snd] in *.
  destruct (IH b1 f1 Hrep1) as (b2 & -> & Hi2 & Hrep2); [by rewrite Hi1|].
  destruct (spec_run os f1) as [rs f2]. cbn in *. exists b2. split_and!; [done|congruence|done].
Qed.

Lemma expandable_step_ok o e f :
  expands e f -> 0 <= index_of o < 2 ^ 31 ->
  match o with OTest i => i < _itemCount (Expandable.base e) | _ => True end ->
  exists e', expands e' (snd (spec_step o f)) /\
    evals (fun fuel => expandable_step fuel o e) (fst (spec_step o f), e').
Proof.
  intros Hex. destruct o as [i|i|i]; cbn; intros Hi Ht.
  - exists e. split; [done|]. apply evals_const.
    rewrite (Test_ok _ f i (exact_represents _ _ (proj1 Hex)) ltac:(lia)). done.
  - destruct (Set_expands e f i Hex Hi) as (e' & H1 & _ & H2). by exists e'.
  - destruct (Reset_expands e f i Hex Hi) as (e' & H1 & _ & H2). by exists e'.
Qed.

Lemma expandable_run_ok os e f :
  expands e f ->
  Forall (fun o => 0 <= index_of o < 2 ^ 31 /\ match o with OTest _ => False | _ => True end) os ->
  exists e', expands e' (snd (spec_run os f)) /\
    evals (fun fuel => expandable_run fuel os e) (fst (spec_run os f), e').
Proof.
  revert e f. induction os as [|o os IH]; intros e f Hex Hos; cbn [expandable_run spec_run].
  { exists e. split; [done|]. apply evals_ret. }
  apply Forall_cons_iff in Hos as [[Ho Hn] Hos].
  destruct (expandable_step_ok o e f Hex Ho) as (e1 & Hex1 & Hev1); [destruct o; done|].
  destruct (spec_step o f) as [r f1]. cbn [fst snd] in *.
  destruct (IH e1 f1 Hex1 Hos) as (e2 & Hex2 & Hev2).
  destruct (spec_run os f1) as [rs f2]. cbn in *. exists e2. split; [done|].
  eapply evals_bind; [exact Hev1|]. cbv beta. eapply evals_bind_ok; [exact Hev2|]. done.
Qed.

(** [r] is the first index from [lo] on with [f], [INVALID_INDEX] if no item from [lo] on has it. *)
Definition first_set (f : Z -> bool) (n lo r : Z) : Prop :=
  r = INVALID_INDEX /\ (forall j, lo <= j < n -> f j = false) \/
  lo <= r < n /\ f r = true /\ (forall j, lo <= j < r -> f j = false).

Lemma first_bit_set b f ws lo r :
  exact b f -> wf b ws -> 0 <= lo -> first_bit ws lo r -> first_set f (_itemCount b) lo r.
Proof.
  intros [[(ws' & [Hd' _ _ _ _] & Hbit) _] Hi Hs Ho] [Hd _ _ Hl _] Hlo Hfirst. cbn in *.
  assert (ws' = ws) as -> by congruence.
  destruct Hfirst as [[-> Hn]|(Hr & Hb & Hn)]; [left|right].
  - split; [done|]. intros j Hj. rewrite <- Hbit by lia. apply Hn. lia.
  - rewrite Hbit in Hb by lia. split_and!; [lia| |done|].
    + destruct (Z.lt_ge_cases r (_itemCount b)); [done|]. rewrite Ho in Hb by lia. done.
    + intros j Hj. rewrite <- Hbit by lia. apply Hn. lia.
Qed.

Lemma exact_wf b f : exact b f -> exists ws, wf b ws /\ forall i, 0 <= i < _itemCount b -> bit ws i = f i.
Proof. intros H. apply (exact_represents b f H). Qed.

Lemma before_ext ws f n x :
  (forall i, 0 <= i < n -> bit ws i = f i) -> x <= n -> before ws x = count (fun k => f (Z.of_nat k)) (Z.to_nat x).
Proof. intros Hbit Hx. apply count_ext. intros i Hi. apply Hbit. lia. Qed.

(** ** The theorems *)

(** C12. [CountBits(uint64_t)], the parallel bit count with its wrap-around arithmetic, is the
    number of set bits of its argument, for every 64-bit value. *)
Theorem countBits64_correct (v : Z) :
  0 <= v < 2 ^ 64 -> CountBits64 v = count (fun r => Z.testbit v (Z.of_nat r)) 64.
Proof. apply CountBits64_ok. Qed.

(** C13. Every history of [Test], [Set] and [Reset] on items of a bitmap that was constructed with
    all bits clear or all set answers as on a boolean function: [Test] the bit, [Set] and [Reset]
    whether they changed it. Afterwards the bitmap stands for the function the history gives, and
    [_setCount] is its number of set items. The bitmap has at most [2^32 - 32] items. *)
Theorem bitmap_history_correct (n : Z) (bSet : bool) (os : list op) :
  0 <= n <= 2 ^ 32 - 32 -> Forall (fun o => 0 <= index_of o < n) os ->
  exists b', bitmap_run os (new_Bitmap n bSet) = Ok (fst (spec_run os (fun _ => bSet)), b') /\
    represents b' (snd (spec_run os (fun _ => bSet))).
Proof.
  intros Hn Hos. destruct (bitmap_run_ok os (new_Bitmap n bSet) (fun _ => bSet)) as (b' & Hr & _ & Hrep).
  - by apply new_Bitmap_represents.
  - exact Hos.
  - by exists b'.
Qed.

(** C14. On bitmaps with the same number of items, at least one, [operator&], [operator|] (with its batches of 32
    slots), [operator-] and [operator~] are the bitwise operations, and the count of set items that
    each of them leaves is right. *)
Theorem bitmap_operators_correct (b1 b2 : Bitmap) (f1 f2 : Z -> bool) :
  represents b1 f1 -> represents b2 f2 -> _itemCount b2 = _itemCount b1 -> 0 < _itemCount b1 ->
  (exists b', and_op b1 b2 = Ok b' /\ represents b' (fun i => f1 i && f2 i)) /\
  (exists b', or_op b1 b2 = Ok b' /\ represents b' (fun i => f1 i || f2 i)) /\
  (exists b', minus_op b1 b2 = Ok b' /\ represents b' (fun i => f1 i && negb (f2 i))) /\
  (exists b', not_op b1 = Ok b' /\ represents b' (fun i => negb (f1 i))).
Proof.
  intros H1 H2 Heq Hpos. split_and!.
  - destruct (combine_ok b1 b2 f1 f2 Z.land andb H1 H2 Heq Hpos) as (b' & Hb & _ & Hr); [|intros; apply Z.land_spec|by exists b'].
    intros w v Hw _. by apply word_land.
  - destruct H1 as [(ws & Hwf & Hbit) Hc], H2 as [(vs & Hwf2 & Hbit2) _].
    rewrite (or_op_zip b1 b2 ws vs Hwf Hwf2 Heq).
    destruct (zipped_ok b1 ws vs (zip_with Z.lor ws vs) Z.lor orb (fun i => f1 i || f2 i)) as (b' & -> & _ & Hr);
      try done; [|apply Hwf2|apply word_lor|intros; apply Z.lor_spec| |by exists b'].
    + destruct Hwf as [_ _ Hs Hl _], Hwf2 as [_ _ Hs2 Hl2 _]. rewrite Heq in Hs2. lia.
    + intros i Hi. cbv beta. rewrite Hbit, Hbit2 by lia. done.
  - destruct (combine_ok b1 b2 f1 f2 (fun w v => Z.land w (not32 v)) (fun x y => x && negb y) H1 H2 Heq Hpos)
      as (b' & Hb & _ & Hr); [|intros; by apply testbit_minus|by exists b'].
    intros w v Hw _. by apply word_land.
  - destruct (not_op_ok b1 f1 H1 Hpos) as (b' & Hb & _ & Hr). by exists b'.
Qed.

(** C15. On a bitmap whose bits beyond the last item are clear, [Begin] returns the first set item
    and [Next] the first set item after an index; both return [INVALID_INDEX] when there is none. *)
Theorem bitmap_iteration_correct (b : Bitmap) (f : Z -> bool) :
  exact b f ->
  (exists r, Begin b = Ok r /\ first_set f (_itemCount b) 0 r) /\
  (forall i, 0 <= i < 2 ^ 32 - 1 -> exists r, Next b i = Ok r /\ first_set f (_itemCount b) (i + 1) r).
Proof.
  intros Hex. destruct (exact_wf b f Hex) as (ws & Hwf & _). split.
  - destruct (Begin_first b ws Hwf) as (r & -> & Hr). exists r. split; [done|]. by apply (first_bit_set b f ws).
  - intros i Hi. destruct (Z.lt_ge_cases (i + 1) (_itemCount b)).
    + destruct (Next_first b ws i Hwf Hi) as (r & -> & Hr); [done|]. exists r. split; [done|].
      apply (first_bit_set b f ws); (done || lia).
    + exists INVALID_INDEX. unfold Next. rewrite u32_small, (proj2 (Z.ltb_ge _ _)) by lia. split; [done|].
      left. split; [done|]. intros j Hj. lia.
Qed.

(** C16. The operations on a range of items: [GetSetCount(begin, end)] is the number of set items
    from [begin] to [end] (cut to the last item), [HasSetData] whether there is one, [ResetBetween]
    clears exactly those bits and keeps [_setCount], [ResetAllAfter] clears the items from an index
    on and recounts. *)
Theorem bitmap_ranges_correct (b : Bitmap) (f : Z -> bool) (i j : Z) :
  represents b f -> 0 <= i <= j -> j < _itemCount b ->
  (forall k, j <= k -> GetSetCount_range b i k =
     Ok (count (fun x => f (Z.of_nat x)) (Z.to_nat (Z.min k (_itemCount b - 1) + 1)) -
         count (fun x => f (Z.of_nat x)) (Z.to_nat i))) /\
  (exists r, HasSetData b i j = Ok r /\ (r = true <-> exists k, i <= k <= j /\ f k = true)) /\
  (exists b', ResetBetween b i j = Ok b' /\ _itemCount b' = _itemCount b /\ _setCount b' = _setCount b /\
     forall k, 0 <= k < _itemCount b -> Test b' k = Ok (f k && negb ((i <=? k) && (k <=? j)))) /\
  (exists b', ResetAllAfter b i = Ok b' /\ represents b' (fun k => (k <? i) && f k)).
Proof.
  intros Hrep Hij Hj. pose proof Hrep as [(ws & Hwf & Hbit) _]. split_and!.
  - intros k Hk. rewrite (GetSetCount_range_ok b ws) by (done || lia).
    rewrite !(before_ext ws f (_itemCount b)) by (done || lia). done.
  - destruct (HasSetData_has b ws i j Hwf Hij Hj) as (r & -> & Hr). exists r. split; [done|].
    rewrite Hr. unfold has. split; intros (k & Hk & Hb); exists k; (split; [done|]); rewrite Hbit in * by lia; done.
  - destruct (ResetBetween_bits b ws i j Hwf Hij Hj) as (b' & ws' & -> & Hwf' & Hi' & Hs' & Hb').
    exists b'. split_and!; [done..|]. intros k Hk.
    assert (represents (SetSetCount (count (fun x => bit ws' (Z.of_nat x)) (Z.to_nat (_itemCount b'))) b') (bit ws'))
      as Hrep'.
    { destruct Hwf' as [Hd' Hit' Hsl' Hl' Hw']. split; [|done]. exists ws'. by split. }
    pose proof (Test_ok _ _ k Hrep' ltac:(cbn; lia)) as Ht. unfold Test in Ht |- *. cbn in Ht. rewrite Ht.
    rewrite Hb', Hbit by lia. done.
  - destruct (ResetAllAfter_ok b f i Hrep ltac:(lia)) as (b' & -> & _ & Hr). by exists b'.
Qed.

(** C17. An [ExpandableBitmap] that is constructed with up to [2^32 - 32] items, all bits clear, answers every history of [Set] and
    [Reset] at indices below [2^31], inside or beyond its items, as a boolean function does; the growth loop terminates for these
    indices, the bits it adds are clear and no bit is lost. For an index from [2^32 - 32] on that is not an item, which no product of the 32-bit
    arithmetic of [Expand] exceeds, the loop never ends. *)
Theorem expandable_history_correct (n : Z) (os : list op) :
  0 <= n <= 2 ^ 32 - 32 ->
  Forall (fun o => 0 <= index_of o < 2 ^ 31 /\ match o with OTest _ => False | _ => True end) os ->
  exists e', evals (fun fuel => expandable_run fuel os (Expandable.new_Expandable n false))
      (fst (spec_run os (fun _ => false)), e') /\
    represents (Expandable.base e') (snd (spec_run os (fun _ => false))) /\
    (forall i, _itemCount (Expandable.base e') <= i -> snd (spec_run os (fun _ => false)) i = false) /\
    forall i fuel, 2 ^ 32 - 32 <= i < 2 ^ 32 -> _itemCount (Expandable.base e') <= i ->
      Expandable.Set_ fuel e' i = OutOfFuel /\ Expandable.Reset_ fuel e' i = OutOfFuel.
Proof.
  intros Hn Hos.
  destruct (expandable_run_ok os _ _ (new_Expandable_expands n Hn) Hos) as (e' & [Hex _] & Hev).
  exists e'. split; [done|]. split; [by apply exact_represents|]. split; [apply Hex|].
  intros i fuel Hi Hle. unfold Expandable.Set_, Expandable.Reset_. rewrite (proj2 (Z.leb_le _ _)) by lia.
  by rewrite Expand_diverges by apply Hi.
Qed.

(** [Mount] on slots from elsewhere counts their set items. *)
Theorem bitmap_mount_correct (b : Bitmap) (n : Z) (ws : list Z) (doNotDelete : bool) :
  0 < n <= 2 ^ 32 - 32 -> Z.of_nat (length ws) = (n + 31) / 32 -> Forall (fun w => 0 <= w < 2 ^ 32) ws ->
  exists b', Mount n ws doNotDelete b = Ok b' /\ _itemCount b' = n /\ represents b' (bit ws).
Proof.
  intros Hn Hl Hw. pose proof (slotsFor_eq n ltac:(lia)) as Hs. unfold Mount.
  destruct (Refresh_ok (MountWithoutRefreshSetCount n ws doNotDelete b) ws (bit ws)) as (b' & -> & Hi & _ & Hr);
    [split; cbn; [done|lia|done|lia|done]|cbn; lia|done|]. by exists b'.
Qed.

(** On a bitmap constructed with all bits set and a number of items that does not fill the
    last slot, [Next] returns an index that is not an item: the last item is reset, and the search
    goes on into the unused bits of the slot. *)
Theorem bitmap_next_past_end :
  exists b, Reset_ (new_Bitmap 33 true) 32 = Ok (true, b) /\ Next b 31 = Ok 33 /\ _itemCount b = 33.
Proof. eexists. split; [reflexivity|]. split; reflexivity. Qed.

(** ** Concrete instances *)

(** Items 0, 31 and 39 of 40. *)
Definition sample_slots : list Z := [2147483649; 16777216].
Definition sample : Bitmap := mkBitmap 40 2 (Some sample_slots) 3 false false.
Definition sample2 : Bitmap := mkBitmap 40 2 (Some [1; 50331648]) 3 false false.

Lemma sample_exact : exact sample (bit sample_slots).
Proof.
  split; [split| | |]; cbn; [|reflexivity|lia|reflexivity|].
  - exists sample_slots. split; [|done]. split; cbn; [done|lia|reflexivity|reflexivity|].
    repeat constructor; cbn; lia.
  - intros i Hi. destruct (Z.le_gt_cases 64 i); [by apply bit_above|].
    assert (forall k, (40 <= k < 64)%nat -> bit sample_slots (Z.of_nat k) = false) as Hk.
    { intros k Hk. do 40 (destruct k as [|k]; [lia|]). do 24 (destruct k as [|k]; [reflexivity|]). lia. }
    rewrite <- (Z2Nat.id i) by lia. apply Hk. lia.
Qed.

Lemma sample_represents : represents sample (bit sample_slots).
Proof. apply exact_represents, sample_exact. Qed.

Lemma sample2_represents : represents sample2 (bit [1; 50331648]).
Proof.
  split; cbn; [|reflexivity]. exists [1; 50331648]. split; [|done].
  split; cbn; [done|lia|reflexivity|reflexivity|]. repeat constructor; cbn; lia.
Qed.

Lemma countBits64_witness : CountBits64 0xF0F0F0F0F0F0F0F1 = count (fun r => Z.testbit 0xF0F0F0F0F0F0F0F1 (Z.of_nat r)) 64.
Proof. apply countBits64_correct. lia. Defined.

Lemma bitmap_history_witness :
  exists b', bitmap_run [OSet 3; OSet 35; OTest 35; OReset 3; OTest 3; OSet 35] (new_Bitmap 40 false) =
    Ok ([true; true; true; true; false; false], b') /\
    represents b' (snd (spec_run [OSet 3; OSet 35; OTest 35; OReset 3; OTest 3; OSet 35] (fun _ => false))).
Proof. apply (bitmap_history_correct 40 false); [lia|]. repeat constructor; cbn; lia. Defined.

Lemma bitmap_operators_witness :
  (exists b', and_op sample sample2 = Ok b' /\
     represents b' (fun i => bit sample_slots i && bit [1; 50331648] i)) /\
  and_op sample sample2 = Ok (mkBitmap 40 2 (Some [1; 16777216]) 2 false false) /\
  or_op sample sample2 = Ok (mkBitmap 40 2 (Some [2147483649; 50331648]) 4 false false) /\
  minus_op sample sample2 = Ok (mkBitmap 40 2 (Some [2147483648; 0]) 1 false false) /\
  not_op sample = Ok (mkBitmap 40 2 (Some [2147483646; 4261412864]) 37 false false).
Proof.
  split; [|vm_compute; auto].
  apply (bitmap_operators_correct sample sample2 (bit sample_slots) (bit [1; 50331648])
           sample_represents sample2_represents); [reflexivity|cbn; lia].
Defined.

Lemma bitmap_iteration_witness :
  (exists r, Next sample 0 = Ok r /\ first_set (bit sample_slots) 40 1 r) /\
  Begin sample = Ok 0 /\ Next sample 0 = Ok 31 /\ Next sample 31 = Ok 39 /\ Next sample 39 = Ok INVALID_INDEX.
Proof.
  split; [|vm_compute; auto].
  apply (proj2 (bitmap_iteration_correct sample _ sample_exact) 0). lia.
Defined.

Lemma bitmap_ranges_witness :
  (exists b', ResetBetween sample 1 35 = Ok b' /\ _itemCount b' = 40 /\ _setCount b' = 3 /\
     forall k, 0 <= k < 40 -> Test b' k = Ok (bit sample_slots k && negb ((1 <=? k) && (k <=? 35)))) /\
  GetSetCount_range sample 1 50 = Ok 2 /\ HasSetData sample 1 35 = Ok true /\ HasSetData sample 1 30 = Ok false.
Proof.
  split; [|vm_compute; auto].
  apply (bitmap_ranges_correct sample (bit sample_slots) 1 35 sample_represents); cbn; lia.
Defined.

Lemma expandable_history_witness :
  exists e', evals (fun fuel => expandable_run fuel [OSet 3; OSet 100; OReset 500; OReset 3] (Expandable.new_Expandable 10 false))
      ([true; true; false; true], e') /\
    represents (Expandable.base e') (snd (spec_run [OSet 3; OSet 100; OReset 500; OReset 3] (fun _ => false))) /\
    (forall i, _itemCount (Expandable.base e') <= i ->
      snd (spec_run [OSet 3; OSet 100; OReset 500; OReset 3] (fun _ => false)) i = false) /\
    forall i fuel, 2 ^ 32 - 32 <= i < 2 ^ 32 -> _itemCount (Expandable.base e') <= i ->
      Expandable.Set_ fuel e' i = OutOfFuel /\ Expandable.Reset_ fuel e' i = OutOfFuel.
Proof. apply (expandable_history_correct 10); [lia|]. repeat constructor; cbn; lia. Defined.

Lemma bitmap_mount_witness :
  exists b', Mount 40 sample_slots true (new_Bitmap_empty false) = Ok b' /\ _itemCount b' = 40 /\
    represents b' (bit sample_slots).
Proof. apply bitmap_mount_correct; [lia|reflexivity|repeat constructor; cbn; lia]. Defined.
