(* ===== verification/Locator.v ===== *)
(** * Locators

    [indexlibv2::framework::Locator] (src/aios/storage/indexlib/framework/Locator.h, .cpp) and
    [base::Progress] (base/Progress.h): how far the documents of a source have been consumed, as
    offsets per range of hash ids and per source. The operations; what they guarantee is in
    [LocatorCorrect] and [LocatorSerialize]. *)

From stdpp Require Import base list numbers option tactics.
From Stdlib Require Import ZArith Lia ZifyNat.
From S2P Require Import Prelude Bits.

#[local] Open Scope Z_scope.

(** ** Progress *)

(** [using Offset = std::pair<int64_t, uint32_t>] with the lexicographic order of [std::pair] *)
Definition Offset : Type := Z * Z.
Definition INVALID_OFFSET : Offset := (-1, 0).
Definition MIN_OFFSET : Offset := (0, 0).

Definition offset_lt (a b : Offset) : bool := (fst a <? fst b) || ((fst a =? fst b) && (snd a <? snd b)).
Definition offset_le (a b : Offset) : bool := negb (offset_lt b a).
Definition offset_eq (a b : Offset) : bool := (fst a =? fst b) && (snd a =? snd b).

(** [std::min] and [std::max] *)
Definition offset_min (a b : Offset) : Offset := if offset_lt b a then b else a.
Definition offset_max (a b : Offset) : Offset := if offset_lt a b then b else a.

(** [struct Progress] *)
Record Progress := mkProgress {
  from : Z;
  to : Z;
  offset : Offset
}.

Definition new_Progress : Progress := mkProgress 0 65535 INVALID_OFFSET.
Definition Progress_at (o : Offset) : Progress := mkProgress 0 65535 o.
Definition progress_eq (p q : Progress) : bool :=
  offset_eq (offset p) (offset q) && (from p =? from q) && (to p =? to q).

Abbreviation ProgressVector := (list Progress).
Abbreviation MultiProgress := (list (list Progress)).

(** [class Locator]; [_userData] as its bytes *)
Record Locator := mkLocator {
  _src : Z;
  _minOffset : Offset;
  _multiProgress : MultiProgress;
  _userData : list Z;
  _isLegacyLocator : bool
}.

Inductive LocatorCompareResult := LCR_INVALID | LCR_SLOWER | LCR_PARTIAL_FASTER | LCR_FULLY_FASTER.

#[export] Instance LocatorCompareResult_eq : EqDecision LocatorCompareResult.
Proof. solve_decision. Defined.

(** [struct DocInfo] *)
Record DocInfo := mkDocInfo {
  timestamp : Z;
  concurrentIdx : Z;
  hashId : Z;
  sourceIdx : Z
}.
Definition GetProgressOffset (d : DocInfo) : Offset := (timestamp d, concurrentIdx d).

(** [for (progressVec : multiProgress) for (progress : progressVec) acc = f(acc, progress.offset)] *)
Definition fold_offsets (f : Offset -> Offset -> Offset) (m : MultiProgress) (acc : Offset) : Offset :=
  fold_left (fun acc pv => fold_left (fun acc p => f acc (offset p)) pv acc) m acc.

(** [SetMultiProgress]: the minimum; an empty source makes the offset invalid and leaves the progress
    as it was. *)
Fixpoint minOffsets (m : MultiProgress) (acc : Offset) : option Offset :=
  match m with
  | [] => Some acc
  | [] :: _ => None
  | pv :: m' => minOffsets m' (fold_left (fun acc p => offset_min acc (offset p)) pv acc)
  end.

Definition set_minOffset (o : Offset) (l : Locator) : Locator :=
  mkLocator (_src l) o (_multiProgress l) (_userData l) (_isLegacyLocator l).
Definition set_multiProgress (m : MultiProgress) (l : Locator) : Locator :=
  mkLocator (_src l) (_minOffset l) m (_userData l) (_isLegacyLocator l).
Definition SetUserData (u : list Z) (l : Locator) : Locator :=
  mkLocator (_src l) (_minOffset l) (_multiProgress l) u (_isLegacyLocator l).
Definition SetSrc (src : Z) (l : Locator) : Locator :=
  mkLocator src (_minOffset l) (_multiProgress l) (_userData l) (_isLegacyLocator l).
Definition SetLegacyLocator (l : Locator) : Locator :=
  mkLocator (_src l) (_minOffset l) (_multiProgress l) (_userData l) true.

Definition SetMultiProgress (m : MultiProgress) (l : Locator) : Locator :=
  match m with
  | [] | [] :: _ => l
  | (p :: _) :: _ =>
      match minOffsets m (offset p) with
      | None => set_minOffset INVALID_OFFSET l
      | Some o => set_multiProgress m (set_minOffset o l)
      end
  end.

(** The constructors *)
Definition new_Locator : Locator := mkLocator 0 INVALID_OFFSET [[]] [] false.
Definition new_Locator_at (src : Z) (minOffset : Offset) : Locator :=
  SetMultiProgress [[Progress_at minOffset]] (mkLocator src minOffset [] [] false).

Definition SetOffset (o : Offset) (l : Locator) : Locator := SetMultiProgress [[Progress_at o]] l.
Definition GetOffset (l : Locator) : Offset := _minOffset l.
Definition GetMaxOffset (l : Locator) : Offset := fold_offsets offset_max (_multiProgress l) INVALID_OFFSET.

Definition Reset (l : Locator) : Locator :=
  mkLocator 0 INVALID_OFFSET [[]] [] (_isLegacyLocator l).

Definition IsValid (l : Locator) : bool :=
  offset_le MIN_OFFSET (_minOffset l) ||
  existsb (existsb (fun p => offset_le MIN_OFFSET (offset p))) (_multiProgress l).

(** ** Update *)

(** [struct CompareStruct]: the progress from [cursor] on, and [from] *)
Record CompareStruct := mkCompare {
  rest : ProgressVector;
  cfrom : Z
}.

Definition new_Compare (pv : ProgressVector) : CompareStruct :=
  mkCompare pv (match pv with [] => 0 | p :: _ => from p end).

Definition IsEof (c : CompareStruct) : bool := match rest c with [] => true | _ => false end.

Definition GetCurrentProgress (c : CompareStruct) : res Progress :=
  match rest c with
  | [] => Undefined
  | p :: _ => Ok (mkProgress (cfrom c) (to p) (offset p))
  end.

Definition MoveToNext (c : CompareStruct) : CompareStruct :=
  match rest c with
  | _ :: p :: r => mkCompare (p :: r) (from p)
  | _ => mkCompare [] (cfrom c)
  end.

Definition set_cfrom (f : Z) (c : CompareStruct) : CompareStruct := mkCompare (rest c) f.

(** [GetLeftProgress]: the leftmost piece of the merge, [None] when the update goes back there; and the
    two cursors after it. *)
Definition GetLeftProgress (currentProgress updateProgress : CompareStruct)
    : res (option Progress * CompareStruct * CompareStruct) :=
  let! current := GetCurrentProgress currentProgress in
  let! update := GetCurrentProgress updateProgress in
  if from current <? from update then
    if to current <? from update then
      Ok (Some current, MoveToNext currentProgress, updateProgress)
    else
      Ok (Some (mkProgress (from current) (u32 (from update - 1)) (offset current)),
          set_cfrom (from update) currentProgress, updateProgress)
  else if from update <? from current then
    if to update <? from current then
      Ok (Some update, currentProgress, MoveToNext updateProgress)
    else
      Ok (Some (mkProgress (from update) (u32 (from current - 1)) (offset update)),
          currentProgress, set_cfrom (from current) updateProgress)
  else
    let updateOffset := offset update in
    let currentOffset := offset current in
    if negb (offset_eq updateOffset INVALID_OFFSET) && offset_lt updateOffset currentOffset then
      Ok (None, currentProgress, updateProgress)
    else if to update <? to current then
      Ok (Some update, set_cfrom (u32 (to update + 1)) currentProgress, MoveToNext updateProgress)
    else if to current <? to update then
      Ok (Some (mkProgress (from current) (to current) updateOffset),
          MoveToNext currentProgress, set_cfrom (u32 (to current + 1)) updateProgress)
    else
      Ok (Some update, MoveToNext currentProgress, MoveToNext updateProgress).

(** [MergeProgress]: join neighbours with the same offset. [acc] is [mergeResult], last first. *)
Fixpoint MergeProgress_loop (pv acc : ProgressVector) : ProgressVector :=
  match pv with
  | [] => rev acc
  | p :: pv' =>
      match acc with
      | [] => MergeProgress_loop pv' [p]
      | last :: acc' =>
          if offset_eq (offset last) (offset p) && (u32 (to last + 1) =? from p)
          then MergeProgress_loop pv' (mkProgress (from last) (to p) (offset last) :: acc')
          else MergeProgress_loop pv' (p :: acc)
      end
  end.
Definition MergeProgress (mergeProgress : ProgressVector) : ProgressVector :=
  MergeProgress_loop mergeProgress [].

(** The two loops that copy what is left of one side *)
Definition remaining (c : CompareStruct) : ProgressVector :=
  match rest c with
  | [] => []
  | p :: r => mkProgress (cfrom c) (to p) (offset p) :: r
  end.

(** The merge of [UpdateProgressVec]: the pieces in order, [None] when the update goes back. *)
Definition mergeLoop (fuel : nat) (current progressVec : ProgressVector) : res (option ProgressVector) :=
  iter fuel (fun '(c, u, updateResult) =>
    if IsEof c || IsEof u then Ok (inr (Some (updateResult ++ remaining c ++ remaining u)))
    else
      let! (status, c', u') := GetLeftProgress c u in
      match status with
      | None => Ok (inr None)
      | Some progress => Ok (inl (c', u', updateResult ++ [progress]))
      end) (new_Compare current, new_Compare progressVec, []).

(** [UpdateProgressVec]: the new progress of the source, [None] when the update goes back. *)
Definition UpdateProgressVec (fuel : nat) (current progressVec : ProgressVector) : res (option ProgressVector) :=
  let general :=
    let! r := mergeLoop fuel current progressVec in Ok (MergeProgress <$> r) in
  match progressVec, current with
  | [u], [c] =>
      if (from u =? from c) && (to u =? to c) then
        if offset_lt (offset u) (offset c) then Ok None
        else Ok (Some [mkProgress (from c) (to c) (offset u)])
      else general
  | _, _ => general
  end.

(** The loop of [Update] over the sources, which stops at the first one that goes back and leaves the
    sources before it updated. *)
Fixpoint updateSources (fuel : nat) (mine others : MultiProgress) : res (bool * MultiProgress) :=
  match others, mine with
  | [], _ => Ok (true, mine)
  | o :: others', c :: mine' =>
      let! r := UpdateProgressVec fuel c o in
      match r with
      | None => Ok (false, mine)
      | Some c' => let! (ok, rest) := updateSources fuel mine' others' in Ok (ok, c' :: rest)
      end
  | _ :: _, [] => Undefined
  end.

Definition Update (fuel : nat) (l other : Locator) : res (bool * Locator) :=
  if negb (_src other =? _src l) then Ok (true, other)
  else if negb (length (_multiProgress l) =? length (_multiProgress other))%nat then Ok (false, l)
  else
    let! (ok, m) := updateSources fuel (_multiProgress l) (_multiProgress other) in
    if ok : bool then
      let o := fold_offsets (fun acc o => if offset_eq acc INVALID_OFFSET then o else offset_min acc o) m
                 INVALID_OFFSET in
      Ok (true, SetUserData (_userData other) (set_minOffset o (set_multiProgress m l)))
    else Ok (false, set_multiProgress m l).

(** ** Comparison *)

(** The inner loop of [IsFullyFasterThan]: whether the progress covers [ofrom, oto] at [ooffset]. *)
Fixpoint fasterOn (pv : ProgressVector) (ofrom oto : Z) (ooffset : Offset) : bool :=
  match pv with
  | [] => false
  | current :: pv' =>
      if offset_le ooffset MIN_OFFSET then true
      else if ofrom <? from current then false
      else if to current <? ofrom then fasterOn pv' ofrom oto ooffset
      else if oto <=? to current then offset_le ooffset (offset current)
      else if offset_lt (offset current) ooffset then false
      else fasterOn pv' (u32 (to current + 1)) oto ooffset
  end.

Definition IsFullyFasterThan_vec (progressVec otherProgressVec : ProgressVector) : bool :=
  forallb (fun o => fasterOn progressVec (from o) (to o) (offset o)) otherProgressVec.

(** [for (i = 0; i < _multiProgress.size(); i++)] on two locators with as many sources *)
Fixpoint IsFullyFasterThan (m other : MultiProgress) : res bool :=
  match m, other with
  | [], _ => Ok true
  | pv :: m', o :: other' =>
      if IsFullyFasterThan_vec pv o then IsFullyFasterThan m' other' else Ok false
  | _ :: _, [] => Undefined
  end.

Definition IsSameSrc (l other : Locator) (ignoreLegacyDiffSrc : bool) : bool :=
  if ignoreLegacyDiffSrc && (_isLegacyLocator l || _isLegacyLocator other) then true
  else _src l =? _src other.

Definition IsFasterThan (l locator : Locator) (ignoreLegacyDiffSrc : bool) : res LocatorCompareResult :=
  if negb (IsSameSrc l locator ignoreLegacyDiffSrc) then Ok LCR_INVALID
  else if ignoreLegacyDiffSrc && (_isLegacyLocator l || _isLegacyLocator locator) then
    if _isLegacyLocator l then
      let maxOffset := GetMaxOffset locator in
      let minOffset := GetOffset locator in
      if offset_lt (_minOffset l) minOffset then Ok LCR_SLOWER
      else if offset_le maxOffset (_minOffset l) then Ok LCR_FULLY_FASTER
      else Ok LCR_PARTIAL_FASTER
    else
      let maxOffset := GetMaxOffset l in
      let minOffset := _minOffset l in
      if offset_le (GetOffset locator) minOffset then Ok LCR_FULLY_FASTER
      else if offset_lt maxOffset (GetOffset locator) then Ok LCR_SLOWER
      else Ok LCR_PARTIAL_FASTER
  else if negb (IsValid locator) then Ok LCR_FULLY_FASTER
  else if negb (IsValid l) then Ok LCR_SLOWER
  else if negb (length (_multiProgress l) =? length (_multiProgress locator))%nat then Ok LCR_INVALID
  else
    let! isFullyFaster := IsFullyFasterThan (_multiProgress l) (_multiProgress locator) in
    if isFullyFaster : bool then Ok LCR_FULLY_FASTER
    else
      let! isFullySlower := IsFullyFasterThan (_multiProgress locator) (_multiProgress l) in
      Ok (if isFullySlower : bool then LCR_SLOWER else LCR_PARTIAL_FASTER).

(** [operator==] *)
Definition eq_op (l other : Locator) : res bool :=
  if negb (bool_decide (_userData l = _userData other)) then Ok false
  else
    let! a := IsFasterThan l other false in
    if negb (bool_decide (a = LCR_FULLY_FASTER)) then Ok false
    else let! b := IsFasterThan other l false in Ok (bool_decide (b = LCR_FULLY_FASTER)).

(** The loop of [IsFasterThan(DocInfo)] over one source *)
Fixpoint docFaster (pv : ProgressVector) (hashId : Z) (o : Offset) : LocatorCompareResult :=
  match pv with
  | [] => LCR_SLOWER
  | p :: pv' =>
      if (from p <=? hashId) && (hashId <=? to p) then
        if offset_lt o (offset p) then LCR_FULLY_FASTER else LCR_SLOWER
      else docFaster pv' hashId o
  end.

Definition IsFasterThan_doc (l : Locator) (docInfo : DocInfo) : LocatorCompareResult :=
  if negb (IsValid l) then LCR_SLOWER
  else
    match _multiProgress l !! Z.to_nat (sourceIdx docInfo) with
    | None => LCR_INVALID
    | Some pv => docFaster pv (hashId docInfo) (GetProgressOffset docInfo)
    end.

(** ** Ranges *)

Definition shrinkVec (from_ to_ : Z) (pv : ProgressVector) : ProgressVector :=
  omap (fun p =>
    if (to p <? from_) || (to_ <? from p) then None
    else Some (mkProgress (Z.max (from p) from_) (Z.min (to p) to_) (offset p))) pv.

Fixpoint shrinkSources (from_ to_ : Z) (m : MultiProgress) : res (option MultiProgress) :=
  match m with
  | [] => Ok (Some [])
  | pv :: m' =>
      match pv !! 0%nat, pv !! (length pv - 1)%nat with
      | Some p, Some q =>
          if (from_ <? from p) || (to q <? to_) then Ok None
          else let! r := shrinkSources from_ to_ m' in Ok (cons (shrinkVec from_ to_ pv) <$> r)
      | _, _ => Undefined
      end
  end.

(** [ShrinkToRange]: the progress cut to a range of hash ids, if every source covers its ends. *)
Definition ShrinkToRange (from_ to_ : Z) (l : Locator) : res (bool * Locator) :=
  let! r := shrinkSources from_ to_ (_multiProgress l) in
  match r with
  | None => Ok (false, l)
  | Some m => Ok (true, set_multiProgress m l)
  end.

Definition GetLocatorRange (l : Locator) : Z * Z :=
  fold_left (fun acc pv => fold_left (fun '(f, t) p => (Z.min f (from p), Z.max t (to p))) pv acc)
    (_multiProgress l) (65535, 0).
