(* ===== verification/LocatorCorrect.v ===== *)
(** * Locators: merging and comparing progress

    The progress of a source is a partial map from hash ids to offsets ([offset_at]). [Update] is
    proved to be the pointwise replacement that refuses to go back, and the comparisons to be the
    pointwise comparisons. *)

From stdpp Require Import base list numbers option tactics.
From Stdlib Require Import ZArith Lia ZifyNat ZifyBool.
From S2P Require Import Prelude Bits Locator.

#[local] Open Scope Z_scope.

(** ** Offsets *)

Ltac offsets :=
  repeat match goal with o : Offset |- _ => destruct o end;
  unfold offset_le, offset_lt, offset_eq, INVALID_OFFSET, MIN_OFFSET in *; cbn [fst snd] in *.

Lemma offset_eq_true a b : offset_eq a b = true <-> a = b.
Proof. offsets. split; [|intros [= -> ->]; lia]. intros H. f_equal; lia. Qed.

Lemma offset_le_refl a : offset_le a a = true.
Proof. offsets. lia. Qed.

Lemma offset_le_trans a b c : offset_le a b = true -> offset_le b c = true -> offset_le a c = true.
Proof. offsets. lia. Qed.

Lemma offset_lt_le a b : offset_lt a b = negb (offset_le b a).
Proof. unfold offset_le. by rewrite negb_involutive. Qed.

Lemma offset_le_total a b : offset_le a b = true \/ offset_le b a = true.
Proof. offsets. lia. Qed.

(** ** Progress as a map *)

Definition covers (p : Progress) (h : Z) : bool := (from p <=? h) && (h <=? to p).

(** The offset the progress has for a hash id. *)
Fixpoint offset_at (pv : ProgressVector) (h : Z) : option Offset :=
  match pv with
  | [] => None
  | p :: r => if covers p h then Some (offset p) else offset_at r h
  end.

(** Ranges of hash ids, from [lo] on, in increasing order. *)
Fixpoint ordered (lo : Z) (pv : ProgressVector) : Prop :=
  match pv with
  | [] => True
  | p :: r => lo <= from p /\ from p <= to p /\ to p <= 65535 /\ ordered (to p + 1) r
  end.

Definition wf_vec (pv : ProgressVector) : Prop := ordered 0 pv.

Lemma ordered_weaken lo lo' pv : ordered lo' pv -> lo <= lo' -> ordered lo pv.
Proof. destruct pv; cbn; [done|]. intros (? & ? & ? & ?) ?. split_and!; (done || lia). Qed.

Lemma offset_at_below lo pv h : ordered lo pv -> h < lo -> offset_at pv h = None.
Proof.
  revert lo. induction pv as [|p pv IH]; intros lo Ho Hh; [done|]. cbn in Ho |- *.
  destruct Ho as (H1 & H2 & H3 & H4). unfold covers. rewrite (proj2 (Z.leb_gt _ _)) by lia. cbn.
  apply (IH (to p + 1)); [done|lia].
Qed.

Lemma offset_at_app a b h : offset_at (a ++ b) h = match offset_at a h with Some o => Some o | None => offset_at b h end.
Proof. induction a as [|p a IH]; cbn; [done|]. by destruct (covers p h). Qed.

(** [last a] is below [lo]: ranges in order that end before [lo]. *)
Definition ends_before (pv : ProgressVector) (lo : Z) : Prop := Forall (fun p => to p < lo) pv.

Lemma ordered_app lo a b mid :
  ordered lo a -> ends_before a mid -> ordered mid b -> lo <= mid -> ordered lo (a ++ b).
Proof.
  revert lo. induction a as [|p a IH]; intros lo Ha He Hb Hlo; cbn; [by eapply ordered_weaken|].
  destruct Ha as (H1 & H2 & H3 & H4). apply Forall_cons_iff in He as [He1 He].
  split_and!; [done..|]. apply IH; (done || lia).
Qed.

Lemma ordered_snoc lo a p :
  ordered lo (a ++ [p]) <->
  ordered lo a /\ ends_before a (from p) /\ lo <= from p /\ from p <= to p /\ to p <= 65535.
Proof.
  revert lo. induction a as [|q a IH]; intros lo; cbn.
  - split; [intros (? & ? & ? & _)|intros (_ & _ & ? & ? & ?)]; split_and!; (done || constructor).
  - rewrite IH. unfold ends_before. rewrite Forall_cons_iff. naive_solver lia.
Qed.

(** ** The merge of [UpdateProgressVec] *)

(** The update goes back at a hash id; the invalid offset is let through. *)
Definition goes_back (current update : Offset) : Prop := update <> INVALID_OFFSET /\ offset_lt update current = true.

Definition compatible (c u : ProgressVector) : Prop :=
  forall h a b, offset_at c h = Some a -> offset_at u h = Some b -> ~ goes_back a b.

(** The map after an update: the update's offset where it has one. *)
Definition updated (c u : ProgressVector) (h : Z) : option Offset :=
  match offset_at u h with Some o => Some o | None => offset_at c h end.

Lemma current_of c p cr : remaining c = p :: cr -> GetCurrentProgress c = Ok p.
Proof. unfold remaining, GetCurrentProgress. destruct (rest c); [done|]. by intros [= <- <-]. Qed.

Lemma remaining_next c p cr : remaining c = p :: cr -> remaining (MoveToNext c) = cr.
Proof.
  unfold remaining, MoveToNext. destruct (rest c) as [|x [|y r]] eqn:E; cbn; [done|..].
  - by intros [= _ <-].
  - intros [= _ <-]. by destruct y.
Qed.

Lemma remaining_set c p cr f : remaining c = p :: cr -> remaining (set_cfrom f c) = mkProgress f (to p) (offset p) :: cr.
Proof. unfold remaining, set_cfrom. destruct (rest c); [done|]. by intros [= <- <-]. Qed.

Lemma remaining_eof c : IsEof c = match remaining c with [] => true | _ => false end.
Proof. unfold IsEof, remaining. by destruct (rest c). Qed.

Lemma remaining_new pv : remaining (new_Compare pv) = pv.
Proof. unfold remaining, new_Compare. destruct pv as [|p pv]; cbn; [done|]. by destruct p. Qed.

Definition aligned (c u : ProgressVector) : nat :=
  match c, u with
  | p :: _, q :: _ => if from p =? from q then 0%nat else 1%nat
  | _, _ => 0%nat
  end.

Definition mergeMeasure (c u : ProgressVector) : nat := 2 * (length c + length u) + aligned c u.

Lemma aligned_le c u : (aligned c u <= 1)%nat.
Proof. unfold aligned. destruct c, u; try lia. destruct (_ =? _); lia. Qed.

(** What one piece of the merge is. *)
Record piece_ok (lo : Z) (c u c' u' : ProgressVector) (x : Progress) : Prop := {
  piece_range : lo <= from x <= to x /\ to x <= 65535;
  piece_c : ordered (to x + 1) c';
  piece_u : ordered (to x + 1) u';
  piece_after : forall h, to x < h -> offset_at c' h = offset_at c h /\ offset_at u' h = offset_at u h;
  piece_before : forall h, h <= to x -> updated c u h = offset_at [x] h;
  piece_compatible : forall h a b, h <= to x -> offset_at c h = Some a -> offset_at u h = Some b -> ~ goes_back a b;
  piece_measure : (mergeMeasure c' u' < mergeMeasure c u)%nat
}.

(** Case analysis on the ranges of the two heads; the tails have nothing before their bound. *)
Ltac leb_cases := repeat match goal with |- context [Z.leb ?a ?b] => destruct (Z.leb_spec a b) end; cbn [andb].

Ltac piece_maps Hcr Hur h :=
  cbn [offset_at]; unfold covers; cbn [from to offset]; leb_cases; try lia;
  rewrite ?(offset_at_below _ _ h Hcr), ?(offset_at_below _ _ h Hur) by lia.

Ltac piece_ordered := cbn [ordered from to]; split_and?; first [done | lia | eapply ordered_weaken; [done|lia]].

Ltac piece_measure :=
  unfold mergeMeasure; cbn [length];
  first [ match goal with |- (_ + aligned ?c ?u < _)%nat => pose proof (aligned_le c u); lia end
        | cbn [aligned from]; rewrite Z.eqb_refl, (proj2 (Z.eqb_neq _ _)) by lia; lia ].

Ltac piece Hcr Hur :=
  split; cbn [from to offset];
  [ lia | piece_ordered | piece_ordered
  | let h := fresh "h" in intros h ?; split; piece_maps Hcr Hur h; done
  | let h := fresh "h" in intros h ?; unfold updated; piece_maps Hcr Hur h; done
  | let h := fresh "h" in intros h ? ? ?; piece_maps Hcr Hur h; try done
  | piece_measure ].

Lemma GetLeftProgress_ok lo c u p cr q ur :
  0 <= lo -> remaining c = p :: cr -> remaining u = q :: ur -> ordered lo (p :: cr) -> ordered lo (q :: ur) ->
  (exists h a b, offset_at (p :: cr) h = Some a /\ offset_at (q :: ur) h = Some b /\ goes_back a b /\
     exists c' u', GetLeftProgress c u = Ok (None, c', u')) \/
  (exists x c' u', GetLeftProgress c u = Ok (Some x, c', u') /\
     piece_ok lo (p :: cr) (q :: ur) (remaining c') (remaining u') x).
Proof.
  intros Hlo Hc Hu (Hp1 & Hp2 & Hp3 & Hcr) (Hq1 & Hq2 & Hq3 & Hur). unfold GetLeftProgress.
  rewrite (current_of c p cr Hc), (current_of u q ur Hu). cbn [res_bind].
  destruct p as [pf pt po], q as [qf qt qo]. cbn [from to offset] in *.
  destruct (Z.ltb_spec pf qf).
  { right. destruct (Z.ltb_spec pt qf); do 3 eexists; (split; [reflexivity|]); cbn [to].
    - rewrite (remaining_next c _ _ Hc), Hu. piece Hcr Hur.
    - rewrite (remaining_set c _ _ _ Hc), Hu, u32_small by lia. piece Hcr Hur. }
  destruct (Z.ltb_spec qf pf).
  { right. destruct (Z.ltb_spec qt pf); do 3 eexists; (split; [reflexivity|]); cbn [to].
    - rewrite (remaining_next u _ _ Hu), Hc. piece Hcr Hur.
    - rewrite (remaining_set u _ _ _ Hu), Hc, u32_small by lia. piece Hcr Hur. }
  assert (pf = qf) as -> by lia.
  destruct (negb (offset_eq qo INVALID_OFFSET) && offset_lt qo po) eqn:Hback.
  { left. exists qf, po, qo. cbn [offset_at]. unfold covers, goes_back. cbn [from to].
    rewrite !(proj2 (Z.leb_le _ _)) by lia. apply andb_true_iff in Hback as [Hinv Hlt].
    split_and!; [done..| |done|by do 2 eexists]. intros ->. cbn in Hinv. done. }
  right. assert (Hok : ~ goes_back po qo).
  { intros [Hi Hlt]. rewrite Hlt, andb_true_r in Hback. apply negb_false_iff, offset_eq_true in Hback. done. }
  destruct (Z.ltb_spec qt pt); [|destruct (Z.ltb_spec pt qt)]; do 3 eexists; (split; [reflexivity|]); cbn [to].
  - rewrite (remaining_next u _ _ Hu), (remaining_set c _ _ _ Hc), u32_small by lia. piece Hcr Hur. congruence.
  - rewrite (remaining_next c _ _ Hc), (remaining_set u _ _ _ Hu), u32_small by lia. piece Hcr Hur. congruence.
  - rewrite (remaining_next c _ _ Hc), (remaining_next u _ _ Hu). piece Hcr Hur. congruence.
Qed.

(** The state of the merge: the pieces emitted stand for the result below [lo], the cursors for the
    arguments from [lo] on. *)
Record merging (c0 u0 : ProgressVector) (s : CompareStruct * CompareStruct * ProgressVector) (lo : Z) : Prop := {
  mg_lo : 0 <= lo;
  mg_c : ordered lo (remaining s.1.1);
  mg_u : ordered lo (remaining s.1.2);
  mg_acc : ordered 0 s.2;
  mg_ends : ends_before s.2 lo;
  mg_below : forall h, h < lo -> offset_at s.2 h = updated c0 u0 h;
  mg_compatible : forall h a b, h < lo -> offset_at c0 h = Some a -> offset_at u0 h = Some b -> ~ goes_back a b;
  mg_above : forall h, lo <= h -> offset_at (remaining s.1.1) h = offset_at c0 h /\
                                  offset_at (remaining s.1.2) h = offset_at u0 h
}.

(** What the merge returns. *)
Definition merged (c u : ProgressVector) (r : option ProgressVector) : Prop :=
  match r with
  | None => ~ compatible c u
  | Some pv => compatible c u /\ wf_vec pv /\ forall h, offset_at pv h = updated c u h
  end.

Lemma offset_at_ends pv lo h : ends_before pv lo -> lo <= h -> offset_at pv h = None.
Proof.
  induction 1 as [|p pv Hp _ IH]; intros Hh; cbn; [done|]. unfold covers.
  rewrite (proj2 (Z.leb_gt h (to p))), andb_false_r by lia. auto.
Qed.

(** One side is used up: the rest of the other side is copied. *)
Lemma merging_eof c0 u0 c u acc lo :
  merging c0 u0 (c, u, acc) lo -> remaining c = [] \/ remaining u = [] ->
  merged c0 u0 (Some (acc ++ remaining c ++ remaining u)).
Proof.
  intros [Hlo Hc Hu Hacc He Hb Hcomp Ha] Hnil. cbn [fst snd] in *. split_and!.
  - intros h a b H1 H2. destruct (Z.lt_ge_cases h lo) as [Hh|Hh]; [by eapply Hcomp|].
    destruct (Ha h Hh) as [E1 E2]. rewrite <- E1 in H1. rewrite <- E2 in H2.
    destruct Hnil as [E|E]; rewrite E in *; done.
  - apply (ordered_app _ _ _ lo); [done..| |done].
    destruct Hnil as [->| ->]; [done|]. by rewrite app_nil_r.
  - intros h. rewrite offset_at_app. destruct (Z.lt_ge_cases h lo) as [Hh|Hh].
    + rewrite (Hb h Hh). destruct (updated c0 u0 h); [done|]. rewrite offset_at_app.
      by rewrite (offset_at_below _ _ h Hc), (offset_at_below _ _ h Hu) by lia.
    + rewrite (offset_at_ends acc lo h He Hh), offset_at_app. destruct (Ha h Hh) as [E1 E2]. unfold updated.
      rewrite <- E1, <- E2. destruct Hnil as [E|E]; rewrite E; cbn; [by destruct (offset_at (remaining u) h)|].
      by destruct (offset_at (remaining c) h).
Qed.

Lemma updated_lookups c u c' u' h :
  offset_at c' h = offset_at c h -> offset_at u' h = offset_at u h -> updated c' u' h = updated c u h.
Proof. unfold updated. by intros -> ->. Qed.

Lemma merging_piece c0 u0 c u acc lo x c' u' :
  merging c0 u0 (c, u, acc) lo -> piece_ok lo (remaining c) (remaining u) (remaining c') (remaining u') x ->
  merging c0 u0 (c', u', acc ++ [x]) (to x + 1).
Proof.
  intros [Hlo Hc Hu Hacc He Hb Hcomp Ha] [Hr Hc' Hu' Haft Hbef Hpc _]. cbn [fst snd] in *.
  split; cbn [fst snd]; [lia|done|done| | | | |].
  - apply (ordered_app _ _ _ lo); [done..| |done]. cbn. split_and!; (done || lia).
  - apply Forall_app. split; [|repeat constructor; lia]. eapply Forall_impl; [|exact He]. cbn. lia.
  - intros h Hh. rewrite offset_at_app. destruct (Z.lt_ge_cases h lo) as [Hl|Hl].
    + rewrite (Hb h Hl). destruct (updated c0 u0 h); [done|]. cbn. unfold covers.
      by rewrite (proj2 (Z.leb_gt _ _)) by lia.
    + rewrite (offset_at_ends acc lo h He Hl), <- Hbef by lia. destruct (Ha h Hl). by apply updated_lookups.
  - intros h a b Hh H1 H2. destruct (Z.lt_ge_cases h lo) as [Hl|Hl]; [by eapply Hcomp|].
    destruct (Ha h Hl) as [E1 E2]. rewrite <- E1 in H1. rewrite <- E2 in H2.
    eapply Hpc; [|done..]. lia.
  - intros h Hh. destruct (Haft h ltac:(lia)) as [-> ->]. apply Ha. lia.
Qed.

Lemma mergeLoop_ok c0 u0 :
  wf_vec c0 -> wf_vec u0 -> exists r, merged c0 u0 r /\ evals (fun f => mergeLoop f c0 u0) r.
Proof.
  unfold wf_vec. intros Hc0 Hu0. unfold mergeLoop.
  apply (iter_total (fun _ => _) (fun s => exists lo, merging c0 u0 s lo) (merged c0 u0)
           (fun s => mergeMeasure (remaining s.1.1) (remaining s.1.2))).
  - intros [[c u] acc] [lo Hm]. rewrite !remaining_eof.
    destruct (remaining c) as [|p cr] eqn:Ec; [|destruct (remaining u) as [|q ur] eqn:Eu]; cbn [orb].
    + eexists. split; [apply evals_ret|]. rewrite <- Ec. apply (merging_eof _ _ _ _ _ _ Hm). by left.
    + eexists. split; [apply evals_ret|]. rewrite <- Ec, <- Eu. apply (merging_eof _ _ _ _ _ _ Hm). by right.
    + pose proof Hm as [Hlo Hc Hu _ _ _ _ Ha]. cbn [fst snd] in *. rewrite Ec in Hc. rewrite Eu in Hu.
      destruct (GetLeftProgress_ok lo c u p cr q ur Hlo Ec Eu Hc Hu)
        as [(h & a & b & H1 & H2 & Hback & c' & u' & Heq)|(x & c' & u' & Heq & Hx)]; rewrite Heq; cbn [res_bind].
      * eexists. split; [apply evals_ret|]. intros Hcomp. cbn.
        assert (lo <= h) as Hh.
        { destruct (Z.lt_ge_cases h lo); [|done]. by rewrite (offset_at_below lo _ h Hc) in H1. }
        destruct (Ha h Hh) as [E1 E2]. rewrite Ec in E1. rewrite Eu in E2. rewrite E1 in H1. rewrite E2 in H2.
        by apply (Hcomp h a b).
      * eexists. split; [apply evals_ret|]. cbn [fst snd]. split; [|rewrite Ec, Eu; apply Hx].
        exists (to x + 1). apply (merging_piece _ _ _ _ _ _ _ _ _ Hm). by rewrite Ec, Eu.
  - exists 0. split; cbn [fst snd]; rewrite ?remaining_new; try done.
    + constructor.
    + intros h Hh. unfold updated. by rewrite !(offset_at_below 0) by done.
    + intros h a b Hh H1. by rewrite (offset_at_below 0) in H1 by done.
Qed.

(** ** [MergeProgress] *)

(** Joining neighbours keeps the map. *)
Lemma MergeProgress_loop_ok pv acc lo :
  0 <= lo -> ordered 0 (rev acc) -> ends_before (rev acc) lo -> ordered lo pv ->
  wf_vec (MergeProgress_loop pv acc) /\
  forall h, offset_at (MergeProgress_loop pv acc) h = offset_at (rev acc ++ pv) h.
Proof.
  revert acc lo. induction pv as [|p pv IH]; intros acc lo Hlo Hacc He Hpv; cbn [MergeProgress_loop].
  { split; [done|]. intros h. by rewrite app_nil_r. }
  destruct Hpv as (H1 & H2 & H3 & H4). destruct acc as [|l acc].
  { destruct (IH [p] (to p + 1)) as [Hw Hl]; [lia|cbn; split_and!; (done || lia)|repeat constructor; lia|done|].
    by split. }
  assert (Hends : forall xs, ends_before xs lo -> ends_before xs (to p + 1)).
  { intros xs Hxs. eapply Forall_impl; [|exact Hxs]. cbn. lia. }
  destruct (offset_eq (offset l) (offset p) && (u32 (to l + 1) =? from p)) eqn:Hj.
  - apply andb_true_iff in Hj as [Ho Hf]. apply offset_eq_true in Ho. apply Z.eqb_eq in Hf.
    cbn [rev] in Hacc, He. apply ordered_snoc in Hacc as (Ha1 & Ha2 & Ha3 & Ha4 & Ha5).
    rewrite u32_small in Hf by lia. apply Forall_app in He as [He1 He2].
    destruct (IH (mkProgress (from l) (to p) (offset l) :: acc) (to p + 1)) as [Hw Hl]; [lia| | |done|].
    + cbn [rev]. apply ordered_snoc. cbn [from to]. split_and!; (done || lia).
    + cbn [rev]. apply Forall_app. split; [by apply Hends|]. repeat constructor. cbn. lia.
    + split; [done|]. intros h. rewrite Hl. cbn [rev]. rewrite <- !app_assoc, !offset_at_app.
      destruct (offset_at (rev acc) h); [done|]. cbn [app offset_at]. unfold covers. cbn [from to offset].
      rewrite <- Ho. destruct (Z.leb_spec (from l) h), (Z.leb_spec h (to l)), (Z.leb_spec (from p) h),
        (Z.leb_spec h (to p)); cbn [andb]; (done || lia).
  - destruct (IH (p :: l :: acc) (to p + 1)) as [Hw Hl]; [lia| | |done|].
    + cbn [rev]. apply ordered_snoc. split_and!; [done| |lia..].
      eapply Forall_impl; [|exact He]. cbn. lia.
    + cbn [rev]. apply Forall_app. split; [by apply Hends|]. repeat constructor. lia.
    + split; [done|]. intros h. rewrite Hl. cbn [rev]. by rewrite <- !app_assoc.
Qed.

Lemma MergeProgress_ok pv :
  wf_vec pv -> wf_vec (MergeProgress pv) /\ forall h, offset_at (MergeProgress pv) h = offset_at pv h.
Proof. intros H. apply (MergeProgress_loop_ok pv [] 0); [lia|done|constructor|done]. Qed.

(** ** [UpdateProgressVec] *)

Lemma general_ok c u :
  wf_vec c -> wf_vec u ->
  exists r, merged c u r /\ evals (fun f => let! r := mergeLoop f c u in Ok (MergeProgress <$> r)) r.
Proof.
  intros Hc Hu. destruct (mergeLoop_ok c u Hc Hu) as (r & Hr & Hev). exists (MergeProgress <$> r).
  split; [|eapply evals_bind_ok; [exact Hev|reflexivity]].
  destruct r as [pv|]; cbn in *; [|done]. destruct Hr as (H1 & H2 & H3).
  destruct (MergeProgress_ok pv H2) as [Hw Hm]. split_and!; [done..|]. intros h. by rewrite Hm.
Qed.

Definition valid_offsets (pv : ProgressVector) : Prop := Forall (fun p => offset p <> INVALID_OFFSET) pv.

(** One range is updated by the same range. *)
Definition sameRange (p q : Progress) : bool := (from q =? from p) && (to q =? to p).

(** When a source takes an update: no hash id goes back, where an invalid offset does not count as going back, unless
    the source has one range and the update is for just this range. *)
Definition accepts (c u : ProgressVector) : Prop :=
  compatible c u /\
  match c, u with
  | [p], [q] => sameRange p q = true -> offset_lt (offset q) (offset p) = false
  | _, _ => True
  end.

Lemma sameRange_compatible p q :
  sameRange p q = true -> offset_lt (offset q) (offset p) = false -> compatible [p] [q].
Proof.
  intros _ Hlt h a b. cbn. destruct (covers p h), (covers q h); try done. intros [= <-] [= <-] [_ Hb]. congruence.
Qed.

(** Without invalid offsets in the update nothing else is refused. *)
Lemma accepts_valid c u : wf_vec c -> valid_offsets u -> accepts c u <-> compatible c u.
Proof.
  intros Hc Hv. split; [by intros []|]. intros Hcomp. split; [done|]. destruct c as [|p [|p2 c]], u as [|q [|q2 u]]; try done.
  intros [Hf%Z.eqb_eq Ht%Z.eqb_eq]%andb_true_iff. apply Forall_cons_iff in Hv as [Hv _]. destruct Hc as (_ & Hc2 & _).
  destruct (offset_lt (offset q) (offset p)) eqn:Hlt; [|done]. exfalso.
  apply (Hcomp (from p) (offset p) (offset q)); [cbn; unfold covers..|done];
    rewrite ?Hf, ?Ht; rewrite (proj2 (Z.leb_le (from p) (from p))), (proj2 (Z.leb_le _ (to p))) by lia; done.
Qed.

(** The update of one source. *)
Lemma UpdateProgressVec_ok c u :
  wf_vec c -> wf_vec u ->
  exists r, evals (fun f => UpdateProgressVec f c u) r /\
    match r with
    | None => ~ accepts c u
    | Some c' => accepts c u /\ wf_vec c' /\ forall h, offset_at c' h = updated c u h
    end.
Proof.
  intros Hc Hu. unfold UpdateProgressVec, accepts. destruct (general_ok c u Hc Hu) as (r & Hr & Hg).
  assert (forall P : Prop, P -> exists r, evals (fun f => let! r := mergeLoop f c u in Ok (MergeProgress <$> r)) r /\
    match r with None => ~ (compatible c u /\ P) | Some c' => (compatible c u /\ P) /\ wf_vec c' /\ forall h, offset_at c' h = updated c u h end) as Hgen.
  { intros P HP. exists r. split; [done|]. destruct r as [pv|]; cbn in Hr; [|tauto]. destruct Hr as (H1 & H2 & H3). by split_and!. }
  destruct u as [|q [|q2 u]], c as [|p [|p2 c]]; try (by apply Hgen). fold (sameRange p q).
  destruct (sameRange p q) eqn:Heq; [clear Hgen|by apply Hgen].
  pose proof (sameRange_compatible p q Heq) as Hcomp. apply andb_true_iff in Heq as [Hf%Z.eqb_eq Ht%Z.eqb_eq].
  destruct Hc as (Hc1 & Hc2 & Hc3 & _).
  destruct (offset_lt (offset q) (offset p)) eqn:Hlt; eexists; (split; [apply evals_ret|]); cbn.
  - intros [_ H]. by specialize (H eq_refl).
  - split_and!; [by apply Hcomp|done|done|lia|done|done|]. intros h. unfold updated. cbn. unfold covers. cbn. rewrite Hf, Ht.
    by destruct ((from p <=? h) && (h <=? to p)).
Qed.

(** ** Comparing the progress of one source *)

Lemma offset_at_in lo pv q h : ordered lo pv -> q ∈ pv -> covers q h = true -> offset_at pv h = Some (offset q).
Proof.
  revert lo. induction pv as [|p pv IH]; intros lo Ho Hq Hh; [by apply elem_of_nil in Hq|].
  destruct Ho as (H1 & H2 & H3 & H4). cbn. apply elem_of_cons in Hq as [->|Hq]; [by rewrite Hh|].
  pose proof (IH _ H4 Hq Hh) as Hat. destruct (covers p h) eqn:Hp; [|done].
  unfold covers in Hp. rewrite (offset_at_below _ _ h H4) in Hat by lia. done.
Qed.

Lemma offset_at_some pv h o : offset_at pv h = Some o -> exists q, q ∈ pv /\ covers q h = true /\ offset q = o.
Proof.
  induction pv as [|p pv IH]; cbn; [done|]. destruct (covers p h) eqn:Hp.
  - intros [= <-]. exists p. split; [left|done].
  - intros H. destruct (IH H) as (q & Hq & Hc). exists q. split; [by right|done].
Qed.

Lemma ordered_bounds lo pv q : ordered lo pv -> q ∈ pv -> lo <= from q <= to q /\ to q <= 65535.
Proof.
  revert lo. induction pv as [|p pv IH]; intros lo Ho Hq; [by apply elem_of_nil in Hq|].
  destruct Ho as (H1 & H2 & H3 & H4). apply elem_of_cons in Hq as [->|Hq]; [lia|].
  specialize (IH _ H4 Hq). lia.
Qed.

(** The progress has an offset of at least [o] for every hash id of a range. *)
Definition reaches (pv : ProgressVector) (o : Offset) (h : Z) : Prop :=
  exists a, offset_at pv h = Some a /\ offset_le o a = true.

Lemma fasterOn_ok lo pv f t o :
  0 <= lo -> ordered lo pv -> f <= t -> offset_le o MIN_OFFSET = false ->
  fasterOn pv f t o = true <-> forall h, f <= h <= t -> reaches pv o h.
Proof.
  intros Hlo Ho Hft Hmin. revert lo f Hlo Ho Hft.
  induction pv as [|p pv IH]; intros lo f Hlo Ho Hft; cbn [fasterOn].
  { split; [done|]. intros H. destruct (H f ltac:(lia)) as (a & Ha & _). done. }
  destruct Ho as (H1 & H2 & H3 & H4). rewrite Hmin. unfold reaches. cbn [offset_at]. unfold covers.
  destruct (Z.ltb_spec f (from p)).
  { split; [done|]. intros H'. destruct (H' f ltac:(lia)) as (a & Ha & _).
    rewrite (proj2 (Z.leb_gt _ _)), (offset_at_below _ _ _ H4) in Ha by lia. done. }
  assert (Hin : forall h, f <= h <= to p -> ((from p <=? h) && (h <=? to p)) = true) by lia.
  assert (Hout : forall h, to p < h -> ((from p <=? h) && (h <=? to p)) = false) by lia.
  destruct (Z.ltb_spec (to p) f).
  { rewrite (IH (to p + 1) f ltac:(lia) H4 Hft). split; intros H' h Hh; specialize (H' h Hh); unfold reaches in *;
      rewrite Hout in * by lia; done. }
  destruct (Z.leb_spec t (to p)).
  { split; intros H'.
    - intros h Hh. rewrite Hin by lia. eauto.
    - destruct (H' f ltac:(lia)) as (a & Ha & Hle). rewrite Hin in Ha by lia. by simplify_eq. }
  rewrite offset_lt_le. destruct (offset_le o (offset p)) eqn:Hle; cbn [negb].
  - rewrite u32_small, (IH (to p + 1) _ ltac:(lia) H4) by lia. split; intros H' h Hh.
    + destruct (Z.le_gt_cases h (to p)); [rewrite Hin by lia; eauto|]. rewrite Hout by lia. apply H'. lia.
    + specialize (H' h ltac:(lia)). by rewrite Hout in H' by lia.
  - split; [done|]. intros H'. destruct (H' f ltac:(lia)) as (a & Ha & Hla). rewrite Hin in Ha by lia.
    simplify_eq. congruence.
Qed.

(** Pointwise: every offset of the other is no later than this one's, offsets of at most 0 aside. *)
Definition ahead (pv other : ProgressVector) : Prop :=
  forall h b, offset_at other h = Some b -> offset_le b MIN_OFFSET = true \/ reaches pv b h.

Lemma IsFullyFasterThan_vec_ok pv other :
  wf_vec pv -> wf_vec other -> pv <> [] -> IsFullyFasterThan_vec pv other = true <-> ahead pv other.
Proof.
  intros Hw Ho Hne. unfold IsFullyFasterThan_vec. rewrite forallb_forall.
  assert (Hpre : forall q, offset_le (offset q) MIN_OFFSET = true -> fasterOn pv (from q) (to q) (offset q) = true).
  { intros q Hq. destruct pv; [done|]. cbn. by rewrite Hq. }
  split.
  - intros H h b Hb. destruct (offset_at_some _ _ _ Hb) as (q & Hq & Hc & <-).
    destruct (offset_le (offset q) MIN_OFFSET) eqn:Hm; [by left|]. right.
    destruct (ordered_bounds _ _ _ Ho Hq). specialize (H q (proj1 (list_elem_of_In _ _) Hq)).
    rewrite (fasterOn_ok 0) in H by (done || lia). apply H. unfold covers in Hc. lia.
  - intros H q Hq%list_elem_of_In. destruct (offset_le (offset q) MIN_OFFSET) eqn:Hm; [by apply Hpre|].
    destruct (ordered_bounds _ _ _ Ho Hq). rewrite (fasterOn_ok 0) by (done || lia). intros h Hh.
    destruct (H h (offset q)) as [Hl|Hr]; [|congruence|done].
    apply (offset_at_in 0); [done..|]. unfold covers. lia.
Qed.

(** ** Whole locators *)

(** The sources of a locator as the code builds them. *)
Definition wf_multi (m : MultiProgress) : Prop := Forall (fun pv => wf_vec pv /\ pv <> []) m.

Lemma IsFullyFasterThan_ok m other :
  wf_multi m -> wf_multi other -> length m = length other ->
  exists r, IsFullyFasterThan m other = Ok r /\ (r = true <-> Forall2 ahead m other).
Proof.
  intros Hm. revert other. induction Hm as [|pv m [Hw Hne] Hm IH]; intros [|o other] Ho Hl; try done.
  - exists true. split; [done|]. split; [constructor|done].
  - apply Forall_cons_iff in Ho as [[How Hone] Ho]. injection Hl as Hl. cbn [IsFullyFasterThan].
    pose proof (IsFullyFasterThan_vec_ok pv o Hw How Hne) as Hv.
    destruct (IsFullyFasterThan_vec pv o).
    + destruct (IH other Ho Hl) as (r & -> & Hr). exists r. split; [done|]. rewrite Hr, Forall2_cons_iff. tauto.
    + exists false. split; [done|]. rewrite Forall2_cons_iff. split; [done|]. intros [H _]. by apply Hv in H.
Qed.

(** A source after a successful update. *)
Definition update_of (c u c' : ProgressVector) : Prop :=
  compatible c u /\ wf_vec c' /\ forall h, offset_at c' h = updated c u h.

Lemma updateSources_ok mine others :
  Forall wf_vec mine -> Forall wf_vec others -> length mine = length others ->
  exists ok m, evals (fun f => updateSources f mine others) (ok, m) /\
    (if ok : bool then Forall2 accepts mine others /\ Forall3 update_of mine others m else ~ Forall2 accepts mine others).
Proof.
  intros Hm. revert others. induction Hm as [|c mine Hc Hm IH]; intros [|u others] Ho Hl; try done.
  - exists true, []. split; [apply evals_ret|by repeat constructor].
  - apply Forall_cons_iff in Ho as [Hu Ho]. injection Hl as Hl.
    cbn [updateSources]. destruct (UpdateProgressVec_ok c u Hc Hu) as ([c'|] & Hev & Hr).
    + destruct (IH others Ho Hl) as (ok & m & Hev2 & Hok). exists ok, (c' :: m). split.
      * eapply evals_bind; [exact Hev|]. cbv beta iota. eapply evals_bind_ok; [exact Hev2|]. done.
      * destruct ok; [|rewrite Forall2_cons_iff; tauto]. destruct Hok as [Ha Hok], Hr as (Hr & Hw & Hat).
        split; [by constructor|]. constructor; [|done]. split; [apply Hr|done].
    + exists false, (c :: mine). split; [eapply evals_bind; [exact Hev|apply evals_ret]|].
      rewrite Forall2_cons_iff. tauto.
Qed.

(** No hash id of either side is lost or goes back. *)
Lemma updated_reaches c u c' h b :
  update_of c u c' -> valid_offsets u -> offset_at c h = Some b \/ offset_at u h = Some b -> reaches c' b h.
Proof.
  intros (Hcomp & Hw & Hat) Hv Hb. unfold reaches. rewrite Hat. unfold updated.
  destruct (offset_at u h) as [o|] eqn:Hu.
  - destruct Hb as [Hb|[= ->]]; [|exists b; by rewrite offset_le_refl].
    exists o. split; [done|]. destruct (offset_le b o) eqn:Hle; [done|]. exfalso.
    apply (Hcomp h b o Hb Hu). split; [|by rewrite offset_lt_le, Hle].
    destruct (offset_at_some _ _ _ Hu) as (q & Hq & _ & <-). unfold valid_offsets in Hv.
    rewrite Forall_forall in Hv. apply Hv. by apply list_elem_of_In.
  - destruct Hb as [Hb|]; [|done]. exists b. by rewrite offset_le_refl.
Qed.

Lemma updated_ahead c u c' :
  update_of c u c' -> valid_offsets u -> ahead c' c /\ ahead c' u.
Proof. intros H Hv. split; intros h b Hb; right; eapply updated_reaches; eauto. Qed.

Lemma offset_at_nonempty pv h o : offset_at pv h = Some o -> pv <> [].
Proof. by intros H ->. Qed.

Lemma updated_nonempty c u c' : update_of c u c' -> wf_vec u -> u <> [] -> c' <> [].
Proof.
  intros (_ & _ & Hat) Hu Hne. destruct u as [|q u]; [done|]. destruct Hu as (H1 & H2 & _).
  apply (offset_at_nonempty _ (from q) (offset q)). rewrite Hat. unfold updated. cbn. unfold covers.
  by rewrite !(proj2 (Z.leb_le _ _)) by lia.
Qed.

(** ** The result of [Update] *)

(** All offsets of a locator, in order. *)
Definition offsets_of (m : MultiProgress) : list Offset := offset <$> concat m.

Lemma fold_offsets_flat f m acc : fold_offsets f m acc = fold_left f (offsets_of m) acc.
Proof.
  unfold fold_offsets, offsets_of. revert acc. induction m as [|pv m IH]; intros acc; cbn; [done|].
  rewrite IH, fmap_app, fold_left_app. f_equal. clear IH. revert acc.
  induction pv as [|p pv IHp]; intros acc; cbn; [done|]. apply IHp.
Qed.

Lemma offset_min_cases a b :
  (offset_min a b = a \/ offset_min a b = b) /\ offset_le (offset_min a b) a = true /\ offset_le (offset_min a b) b = true.
Proof.
  unfold offset_min. rewrite offset_lt_le. destruct (offset_le a b) eqn:E; cbn [negb].
  - split_and!; [by left|apply offset_le_refl|done].
  - split_and!; [by right| |apply offset_le_refl]. destruct (offset_le_total a b); [congruence|done].
Qed.

Definition minStep (acc o : Offset) : Offset := if offset_eq acc INVALID_OFFSET then o else offset_min acc o.

Lemma fold_min os acc :
  acc <> INVALID_OFFSET -> Forall (fun o => o <> INVALID_OFFSET) os ->
  (fold_left minStep os acc = acc \/ fold_left minStep os acc ∈ os) /\
  offset_le (fold_left minStep os acc) acc = true /\
  Forall (fun o => offset_le (fold_left minStep os acc) o = true) os.
Proof.
  intros Hacc Hos. revert acc Hacc. induction Hos as [|o os Ho Hos IH]; intros acc Hacc; cbn [fold_left].
  { split_and!; [by left|apply offset_le_refl|constructor]. }
  assert (minStep acc o = offset_min acc o) as Hs.
  { unfold minStep. destruct (offset_eq acc INVALID_OFFSET) eqn:E; [|done]. by apply offset_eq_true in E. }
  destruct (offset_min_cases acc o) as (Hc & Ha & Hb). rewrite <- Hs in Hc, Ha, Hb.
  destruct (IH (minStep acc o)) as (H1 & H2 & H3); [destruct Hc as [->| ->]; done|].
  set (r := fold_left minStep os (minStep acc o)) in *. clearbody r. split_and!.
  - destruct H1 as [->|H1]; [|right; by right]. destruct Hc as [->| ->]; [by left|right; left].
  - by eapply offset_le_trans.
  - constructor; [by eapply offset_le_trans|done].
Qed.

(** The least offset, when there is one and none is invalid. *)
Definition least (os : list Offset) (o : Offset) : Prop := o ∈ os /\ Forall (fun x => offset_le o x = true) os.

Lemma fold_least m :
  Forall (fun o => o <> INVALID_OFFSET) (offsets_of m) -> offsets_of m <> [] ->
  least (offsets_of m) (fold_offsets minStep m INVALID_OFFSET).
Proof.
  intros Hv Hne. rewrite fold_offsets_flat. destruct (offsets_of m) as [|o os]; [done|].
  apply Forall_cons_iff in Hv as [Ho Hos]. cbn [fold_left]. change (minStep INVALID_OFFSET o) with o.
  destruct (fold_min os o Ho Hos) as (H1 & H2 & H3). split; [|by constructor].
  destruct H1 as [->|H1]; [left|by right].
Qed.
