(* ===== verification/LocatorSerialize.v ===== *)
(** * Locators: the binary format

    [Locator::Serialize] and [Locator::Deserialize]
    (src/aios/storage/indexlib/framework/Locator.cpp): two versions of the format, of which the
    first has no version number, and their round trip. Bytes are [Z] in [0, 256), the machine is
    little endian. *)

From stdpp Require Import base list numbers option tactics.
From Stdlib Require Import ZArith Lia ZifyNat ZifyBool.
From S2P Require Import Prelude Bits Locator.

#[local] Open Scope Z_scope.

(** ** The code *)

Definition MAGIC_NUMBER : Z := -502344248.
Definition LOCATOR_DEFAULT_VERSION : Z := 0.
Definition LOCATOR_SUBOFFSET_VERSION : Z := 1.

Definition calculateSerializeVersion (l : Locator) : Z :=
  if (1 <? length (_multiProgress l))%nat then LOCATOR_SUBOFFSET_VERSION
  else if 0 <? snd (_minOffset l) then LOCATOR_SUBOFFSET_VERSION
  else if existsb (existsb (fun p => 0 <? snd (offset p))) (_multiProgress l) then LOCATOR_SUBOFFSET_VERSION
  else LOCATOR_DEFAULT_VERSION.

Definition ProgressSize (l : Locator) (count : Z) : Z :=
  let serializeVersion := calculateSerializeVersion l in
  (if LOCATOR_DEFAULT_VERSION <=? serializeVersion then (4 + 4 + 8) * count else 0) +
  (if LOCATOR_SUBOFFSET_VERSION <=? serializeVersion then 8 + 4 * count else 0).

Definition UserDataSize (len : Z) : Z := if len =? 0 then 0 else 8 + len.

Definition Size (l : Locator) : Z :=
  let ret := 8 + 8 + 8 + UserDataSize (Z.of_nat (length (_userData l))) in
  let ret := fold_left (fun ret pv => ret + ProgressSize l (Z.of_nat (length pv))) (_multiProgress l) ret in
  if calculateSerializeVersion l =? LOCATOR_SUBOFFSET_VERSION then ret + (4 + 4 + 4) else ret.

(** [write<T>]: the bytes of a value of [n] bytes, lowest first *)
Definition write (n : nat) (v : Z) : list Z := bytes n (v mod 256 ^ Z.of_nat n).

(** [read<T>]: an unsigned value of [n] bytes and what follows, [None] when there are not enough *)
Definition read (n : nat) (data : list Z) : option (Z * list Z) :=
  if (length data <? n)%nat then None else Some (join (take n data), drop n data).

Definition writeUserData (u : list Z) : list Z :=
  match u with [] => [] | _ => write 8 (Z.of_nat (length u)) ++ u end.

Definition SerializeV0 (l : Locator) : list Z :=
  write 8 (_src l) ++ write 8 (fst (_minOffset l)) ++
  match _multiProgress l with
  | [] => write 8 0
  | pv :: _ =>
      write 8 (Z.of_nat (length pv)) ++
      concat (map (fun p => write 8 (fst (offset p)) ++ write 4 (from p) ++ write 4 (to p)) pv)
  end ++ writeUserData (_userData l).

Definition SerializeV1 (l : Locator) : list Z :=
  write 8 (_src l) ++ write 4 MAGIC_NUMBER ++ write 4 LOCATOR_SUBOFFSET_VERSION ++
  write 8 (fst (_minOffset l)) ++ write 4 (snd (_minOffset l)) ++
  write 8 (Z.of_nat (length (_multiProgress l))) ++
  concat (map (fun pv =>
    write 8 (Z.of_nat (length pv)) ++
    concat (map (fun p => write 8 (fst (offset p)) ++ write 4 (snd (offset p)) ++ write 4 (from p) ++ write 4 (to p))
              pv)) (_multiProgress l)) ++
  writeUserData (_userData l).

Definition Serialize (l : Locator) : list Z :=
  if calculateSerializeVersion l =? 0 then SerializeV0 l else SerializeV1 l.

(** [singleProgress.offset < _minOffset || from > 65535 || to > 65535] *)
Definition badProgress (minOffset : Offset) (p : Progress) : bool :=
  offset_lt (offset p) minOffset || (from p <? 0) || (65535 <? from p) || (to p <? 0) || (65535 <? to p).

(** The loop of [DeserializeProgressV0] *)
Fixpoint readProgressV0 (minOffset : Offset) (n : nat) (data : list Z) : option (ProgressVector * list Z) :=
  match n with
  | O => Some ([], data)
  | S n' =>
      '(o, data) ← read 8 data; '(f, data) ← read 4 data; '(t, data) ← read 4 data;
      let singleProgress := mkProgress f t (i64 o, 0) in
      if badProgress minOffset singleProgress then None
      else '(pv, data) ← readProgressV0 minOffset n' data; Some (singleProgress :: pv, data)
  end.

(** [DeserializeProgressV0]: the progress and the rest of the data *)
Definition DeserializeProgressV0 (minOffset : Offset) (data : list Z) : option (ProgressVector * list Z) :=
  '(progressSize, data) ← read 8 data;
  if 65535 <? progressSize then None else readProgressV0 minOffset (Z.to_nat progressSize) data.

(** The user data at the end of both versions: [None] when its length is wrong *)
Definition readUserData (data : list Z) : option (list Z) :=
  '(userDataLen, data) ← read 8 data;
  if userDataLen =? Z.of_nat (length data) then Some data else None.

(** [DeserializeV0] on a locator that was reset *)
Definition DeserializeV0 (l : Locator) (data : list Z) : option Locator :=
  '(m, data) ← read 8 data;
  let l := set_minOffset (i64 m, snd (_minOffset l)) l in
  let single := [[mkProgress 0 65535 (_minOffset l)]] in
  match data with
  | [] => Some (SetLegacyLocator (set_multiProgress single l))
  | _ =>
      match DeserializeProgressV0 (_minOffset l) data with
      | None => Some (SetLegacyLocator (SetUserData (_userData l ++ data) (set_multiProgress single l)))
      | Some (pv, rest) =>
          let l := set_multiProgress [pv] l in
          match rest with
          | [] => Some l
          | _ => u ← readUserData rest; Some (SetUserData (_userData l ++ u) l)
          end
      end
  end.

(** The loops of [DeserializeV1]. Every turn reads bytes or fails, so a turn for every byte is enough for
    any count the data claims. *)
Fixpoint readProgressV1 (fuel : nat) (minOffset : Offset) (n : Z) (data : list Z)
    : option (ProgressVector * list Z) :=
  if n <=? 0 then Some ([], data)
  else
    match fuel with
    | O => None
    | S fuel' =>
        '(o1, data) ← read 8 data; '(o2, data) ← read 4 data; '(f, data) ← read 4 data; '(t, data) ← read 4 data;
        let singleProgress := mkProgress f t (i64 o1, o2) in
        if badProgress minOffset singleProgress || (i64 o1 <? -1) then None
        else
          '(pv, data) ← readProgressV1 fuel' minOffset (n - 1) data; Some (singleProgress :: pv, data)
    end.

Fixpoint readMultiProgress (fuel : nat) (minOffset : Offset) (n : Z) (data : list Z)
    : option (MultiProgress * list Z) :=
  if n <=? 0 then Some ([], data)
  else
    match fuel with
    | O => None
    | S fuel' =>
        '(progressSize, data) ← read 8 data;
        '(pv, data) ← readProgressV1 (length data) minOffset progressSize data;
        '(m, data) ← readMultiProgress fuel' minOffset (n - 1) data; Some (pv :: m, data)
    end.

(** [std::vector<ProgressVector>::max_size()]; [resize] beyond it throws. *)
Definition max_sources : Z := (2 ^ 63 - 1) / 24.

(** [DeserializeV1] on a locator that was reset; [Undefined] for the exception of [resize] *)
Definition DeserializeV1 (l : Locator) (data : list Z) : res (option Locator) :=
  match '(o1, data) ← read 8 data; '(o2, data) ← read 4 data; '(n, data) ← read 8 data; Some (o1, o2, n, data) with
  | None => Ok None
  | Some (o1, o2, multiProgressSize, data) =>
      let l := set_minOffset (i64 o1, o2) l in
      if i64 o1 <? -1 then Ok None
      else if max_sources <? multiProgressSize then Undefined
      else
        Ok ('(m, data) ← readMultiProgress (length data) (_minOffset l) multiProgressSize data;
            let l := set_multiProgress m l in
            match data with
            | [] => Some l
            | _ => u ← readUserData data; Some (SetUserData (_userData l ++ u) l)
            end)
  end.

(** [Deserialize]: whether it succeeded, and the locator after it *)
Definition Deserialize (l : Locator) (data : list Z) : res (bool * Locator) :=
  let l := Reset l in
  match read 8 data with
  | None => Ok (false, Reset l)
  | Some (src, data) =>
      let l := SetSrc src l in
      let legacyLocatorPtr := data in
      match read 4 data with
      | None => Ok (false, Reset l)
      | Some (maybeMagicNumber, data) =>
          if negb (i32 maybeMagicNumber =? MAGIC_NUMBER) then
            match DeserializeV0 l legacyLocatorPtr with
            | None => Ok (false, Reset l)
            | Some l => Ok (true, l)
            end
          else
            let '(locatorType, data) :=
              match read 4 data with Some (t, data) => (i32 t, data) | None => (0, data) end in
            if locatorType =? LOCATOR_SUBOFFSET_VERSION then
              let! r := DeserializeV1 l data in
              match r with
              | None => Ok (false, Reset l)
              | Some l => Ok (true, l)
              end
            else Ok (false, l)
      end
  end.

(** ** The round trip *)

Lemma read_write n v rest : read n (write n v ++ rest) = Some (v mod 256 ^ Z.of_nat n, rest).
Proof.
  unfold read, write. rewrite (proj2 (Nat.ltb_ge _ _)) by (rewrite length_app, length_bytes; lia).
  rewrite take_app_length', drop_app_length' by (by rewrite length_bytes).
  rewrite join_bytes; [done|]. apply Z.mod_pos_bound. apply Z.pow_pos_nonneg; lia.
Qed.

Lemma read8 v rest : read 8 (write 8 v ++ rest) = Some (u64 v, rest).
Proof. apply read_write. Qed.

Lemma read4 v rest : read 4 (write 4 v ++ rest) = Some (u32 v, rest).
Proof. apply read_write. Qed.

Lemma i64_u64 x : - 2 ^ 63 <= x < 2 ^ 63 -> i64 (u64 x) = x.
Proof.
  intros Hx. unfold i64, u64. rewrite Z.add_mod_idemp_l by lia. rewrite Z.mod_small; lia.
Qed.

(** The values of an [Offset] and a [Progress] in their types, and as the code keeps them. *)
Definition offset_ok (o : Offset) : Prop := -1 <= fst o < 2 ^ 63 /\ 0 <= snd o < 2 ^ 32.
Definition progress_ok (minOffset : Offset) (p : Progress) : Prop :=
  offset_ok (offset p) /\ offset_le minOffset (offset p) = true /\ 0 <= from p <= 65535 /\ 0 <= to p <= 65535.

Lemma progress_ok_bad m p : progress_ok m p -> badProgress m p = false.
Proof. unfold progress_ok, badProgress, offset_le. lia. Qed.

Lemma readProgressV0_ok m pv rest :
  Forall (progress_ok m) pv -> Forall (fun p => snd (offset p) = 0) pv ->
  readProgressV0 m (length pv)
    (concat (map (fun p => write 8 (fst (offset p)) ++ write 4 (from p) ++ write 4 (to p)) pv) ++ rest) =
  Some (pv, rest).
Proof.
  induction 1 as [|p pv Hp Hpv IH]; intros Hz; [done|]. apply Forall_cons_iff in Hz as [Hz1 Hz].
  cbn [map concat length readProgressV0]. rewrite <- !app_assoc, read8. cbn [mbind option_bind].
  rewrite read4. cbn [mbind option_bind]. rewrite read4. cbn [mbind option_bind].
  destruct p as [f t [o1 o2]]. pose proof (progress_ok_bad _ _ Hp) as Hbad.
  destruct Hp as ((Ho1 & Ho2) & Hle & Hf & Ht). cbn [from to offset fst snd] in *. subst o2.
  rewrite i64_u64, !u32_small by lia. rewrite Hbad, IH by done. done.
Qed.

Lemma readProgressV1_ok fuel m pv rest :
  (length pv <= fuel)%nat -> Forall (progress_ok m) pv ->
  readProgressV1 fuel m (Z.of_nat (length pv))
    (concat (map (fun p => write 8 (fst (offset p)) ++ write 4 (snd (offset p)) ++ write 4 (from p) ++ write 4 (to p))
               pv) ++ rest) = Some (pv, rest).
Proof.
  intros Hf Hpv. revert fuel Hf. induction Hpv as [|p pv Hp Hpv IH]; intros fuel Hf; [by destruct fuel|].
  destruct fuel as [|fuel]; [cbn in Hf; lia|]. cbn [length] in Hf.
  cbn [map concat length readProgressV1]. rewrite (proj2 (Z.leb_gt _ _)) by lia.
  rewrite <- !app_assoc, read8. cbn [mbind option_bind]. do 3 (rewrite read4; cbn [mbind option_bind]).
  destruct p as [f t [o1 o2]]. pose proof (progress_ok_bad _ _ Hp) as Hbad.
  destruct Hp as ((Ho1 & Ho2) & Hle & Hf' & Ht). cbn [from to offset fst snd] in *.
  rewrite i64_u64, !u32_small by lia. rewrite Hbad, (proj2 (Z.ltb_ge _ _)) by lia. cbn [orb].
  replace (Z.of_nat (S (length pv)) - 1) with (Z.of_nat (length pv)) by lia. rewrite IH by lia. done.
Qed.

Lemma length_write n v : length (write n v) = n.
Proof. apply length_bytes. Qed.

Lemma length_concat_map {A} (f : A -> list Z) k xs :
  (forall x, length (f x) = k) -> length (concat (map f xs)) = (k * length xs)%nat.
Proof.
  intros Hf. induction xs as [|x xs IH]; cbn [map concat length]; [lia|]. rewrite length_app, Hf, IH. lia.
Qed.

Lemma length_concat_ge {A} (f : A -> list Z) xs :
  (forall x, (1 <= length (f x))%nat) -> (length xs <= length (concat (map f xs)))%nat.
Proof.
  intros Hf. induction xs as [|x xs IH]; cbn [map concat length]; [lia|].
  rewrite length_app. specialize (Hf x). lia.
Qed.

Lemma readMultiProgress_ok fuel m mp rest :
  (length mp <= fuel)%nat -> Forall (Forall (progress_ok m)) mp -> Forall (fun pv => Z.of_nat (length pv) < 2 ^ 64) mp ->
  readMultiProgress fuel m (Z.of_nat (length mp))
    (concat (map (fun pv => write 8 (Z.of_nat (length pv)) ++
       concat (map (fun p => write 8 (fst (offset p)) ++ write 4 (snd (offset p)) ++ write 4 (from p) ++ write 4 (to p))
                 pv)) mp) ++ rest) = Some (mp, rest).
Proof.
  intros Hf Hmp. revert fuel Hf. induction Hmp as [|pv mp Hpv Hmp IH]; intros fuel Hf Hl; [by destruct fuel|].
  apply Forall_cons_iff in Hl as [Hl1 Hl].
  destruct fuel as [|fuel]; [cbn in Hf; lia|]. cbn [length] in Hf.
  cbn [map concat length readMultiProgress]. rewrite (proj2 (Z.leb_gt _ _)) by lia.
  rewrite <- !app_assoc, read8. cbn [mbind option_bind]. rewrite u64_small by lia.
  rewrite readProgressV1_ok; [|rewrite length_app, (length_concat_map _ 20%nat);
    [lia|intros p; by rewrite !length_app, !length_write]|done].
  cbn [mbind option_bind]. replace (Z.of_nat (S (length mp)) - 1) with (Z.of_nat (length mp)) by lia.
  rewrite IH by (done || lia). done.
Qed.

Lemma readUserData_ok u : u <> [] -> Z.of_nat (length u) < 2 ^ 64 -> readUserData (writeUserData u) = Some u.
Proof.
  intros Hu Hl. unfold readUserData, writeUserData. destruct u as [|x u]; [done|].
  rewrite read8. cbn [mbind option_bind]. by rewrite u64_small, Z.eqb_refl by lia.
Qed.

Lemma writeUserData_nil u : writeUserData u = [] <-> u = [].
Proof.
  unfold writeUserData. destruct u; [done|]. split; [|done]. intros [H _]%app_eq_nil.
  apply (f_equal length) in H. by rewrite length_write in H.
Qed.

(** Both versions end with the user data. *)
Lemma userData_tail u (l : Locator) :
  Z.of_nat (length u) < 2 ^ 64 -> _userData l = [] ->
  match writeUserData u with
  | [] => Some l
  | _ => u' ← readUserData (writeUserData u); Some (SetUserData (_userData l ++ u') l)
  end = Some (SetUserData u l).
Proof.
  intros Hl Hn. destruct (decide (u = [])) as [->|Hu].
  - cbn. destruct l. cbn in Hn. by subst.
  - rewrite readUserData_ok by done. cbn [mbind option_bind]. rewrite Hn. cbn [app].
    destruct (writeUserData u) eqn:E; [|done]. by rewrite writeUserData_nil in E.
Qed.

(** What the fields of a locator that is written and read back may hold. *)
Record serializable (l : Locator) : Prop := {
  ser_src : 0 <= _src l < 2 ^ 64;
  ser_min : offset_ok (_minOffset l);
  ser_progress : Forall (Forall (progress_ok (_minOffset l))) (_multiProgress l);
  ser_count : Forall (fun pv => Z.of_nat (length pv) <= 65535) (_multiProgress l);
  ser_sources : 1 <= Z.of_nat (length (_multiProgress l)) <= max_sources;
  ser_user : Z.of_nat (length (_userData l)) < 2 ^ 64
}.

(** Reading back only leaves the legacy flag of the locator that is read into. *)
Definition as_read (l0 l : Locator) : Locator :=
  mkLocator (_src l) (_minOffset l) (_multiProgress l) (_userData l) (_isLegacyLocator l0).

Lemma read_SerializeV1 l0 l :
  serializable l -> Deserialize l0 (SerializeV1 l) = Ok (true, as_read l0 l).
Proof.
  intros [Hsrc [Hm1 Hm2] Hp Hc Hn Hu]. unfold Deserialize, SerializeV1.
  rewrite read8, read4, read4, !i32_u32 by (unfold MAGIC_NUMBER, LOCATOR_SUBOFFSET_VERSION; lia).
  rewrite !Z.eqb_refl. cbn [negb]. unfold DeserializeV1.
  rewrite read8. cbn [mbind option_bind]. rewrite read4. cbn [mbind option_bind]. rewrite read8. cbn [mbind option_bind].
  assert (max_sources < 2 ^ 64) by (unfold max_sources; lia).
  rewrite !i64_u64, u32_small, (u64_small (_src l)), (u64_small (Z.of_nat _)) by lia.
  rewrite (proj2 (Z.ltb_ge _ (-1))), (proj2 (Z.ltb_ge max_sources _)) by lia.
  cbn [_minOffset set_minOffset]. rewrite <- surjective_pairing.
  rewrite readMultiProgress_ok; [| |done|eapply Forall_impl; [|exact Hc]; cbn; lia].
  2:{ rewrite length_app. apply Nat.le_trans with (2 := Nat.le_add_r _ _). apply length_concat_ge.
      intros pv. rewrite length_app, length_write. lia. }
  cbn [mbind option_bind res_bind]. rewrite userData_tail by done. done.
Qed.

(** The first format has no version number: the low half of the least offset is read as one. *)
Lemma write8_split v : write 8 v = write 4 v ++ write 4 (v / 2 ^ 32).
Proof. unfold write. rewrite !bytes_mod. apply (bytes_add 4 4). Qed.

Lemma read_SerializeV0 l0 l :
  serializable l -> calculateSerializeVersion l = LOCATOR_DEFAULT_VERSION ->
  i32 (fst (_minOffset l)) <> MAGIC_NUMBER ->
  Deserialize l0 (SerializeV0 l) = Ok (true, as_read l0 l).
Proof.
  intros [Hsrc [Hm1 Hm2] Hp Hc Hn Hu] Hver Hmagic.
  destruct l as [src [o1 o2] mp u lg]. unfold calculateSerializeVersion in Hver.
  cbn [_src _minOffset _multiProgress _userData fst snd] in *.
  destruct (Nat.ltb_spec 1 (length mp)); [done|]. destruct (Z.ltb_spec 0 o2); [done|].
  assert (o2 = 0) as -> by lia. destruct mp as [|pv [|]]; cbn [length] in *; try lia.
  destruct (existsb (existsb (fun p => 0 <? snd (offset p))) [pv]) eqn:Hz; [done|]. apply Forall_cons_iff in Hp as [Hp _], Hc as [Hc _].
  assert (Forall (fun p => snd (offset p) = 0) pv) as Hz0.
  { cbn in Hz. rewrite orb_false_r in Hz. clear -Hz Hp. induction Hp as [|p pv [[_ Ho] _] Hp IH]; [constructor|].
    cbn in Hz. apply orb_false_iff in Hz as [Hz1 Hz]. constructor; [lia|auto]. }
  unfold Deserialize, SerializeV0. cbn [_src _minOffset _multiProgress _userData fst snd].
  rewrite read8, write8_split, <- !app_assoc, read4.
  assert (i32 (u32 o1) = i32 o1) as ->.
  { unfold i32, u32. by rewrite Z.add_mod_idemp_l by lia. }
  rewrite (proj2 (Z.eqb_neq _ _)) by done. cbn [negb]. unfold DeserializeV0.
  rewrite (app_assoc (write 4 o1)), <- write8_split, read8. cbn [mbind option_bind].
  rewrite i64_u64, u64_small by lia. cbn [_minOffset set_minOffset SetSrc Reset snd].
  change INVALID_OFFSET.2 with 0.
  destruct (write 8 (Z.of_nat (length pv)) ++ _) eqn:E.
  { apply (f_equal length) in E. rewrite length_app, length_write in E. done. }
  rewrite <- E. clear E. unfold DeserializeProgressV0. rewrite read8. cbn [mbind option_bind].
  rewrite u64_small, (proj2 (Z.ltb_ge _ _)), Nat2Z.id by lia.
  rewrite readProgressV0_ok by done. rewrite userData_tail by done. done.
Qed.

(** ** The size *)

Lemma length_userData u : Z.of_nat (length (writeUserData u)) = UserDataSize (Z.of_nat (length u)).
Proof.
  unfold writeUserData, UserDataSize. destruct u as [|x u]; [done|]. rewrite length_app, length_write.
  rewrite (proj2 (Z.eqb_neq _ _)) by (cbn; lia). lia.
Qed.

Lemma fold_add {A} (f : A -> Z) xs z : fold_left (fun acc x => acc + f x) xs z = z + fold_left (fun acc x => acc + f x) xs 0.
Proof.
  revert z. induction xs as [|x xs IH]; intros z; cbn [fold_left]; [lia|]. rewrite IH, (IH (0 + f x)). lia.
Qed.

Lemma length_concat_fold {A} (f : A -> list Z) (g : A -> Z) xs :
  (forall x, Z.of_nat (length (f x)) = g x) ->
  Z.of_nat (length (concat (map f xs))) = fold_left (fun acc x => acc + g x) xs 0.
Proof.
  intros Hf. induction xs as [|x xs IH]; cbn [map concat fold_left]; [done|].
  rewrite length_app, fold_add, <- IH, <- Hf. lia.
Qed.

(** [Serialize] writes exactly the bytes it allocates: the assertion at the end of both versions. *)
Lemma version_cases l :
  calculateSerializeVersion l = LOCATOR_DEFAULT_VERSION \/ calculateSerializeVersion l = LOCATOR_SUBOFFSET_VERSION.
Proof. unfold calculateSerializeVersion. repeat case_match; auto. Qed.

Lemma length_Serialize l :
  (length (_multiProgress l) >= 1)%nat -> Z.of_nat (length (Serialize l)) = Size l.
Proof.
  intros Hn. unfold Serialize, Size, ProgressSize.
  pose proof (version_cases l : calculateSerializeVersion l = 0 \/ calculateSerializeVersion l = 1) as Hv.
  rewrite fold_add. destruct Hv as [Hv|Hv]; rewrite Hv.
  - change (0 =? 0) with true. cbn iota. assert (length (_multiProgress l) <= 1)%nat as Hle.
    { unfold calculateSerializeVersion in Hv. destruct (Nat.ltb_spec 1 (length (_multiProgress l))); [done|lia]. }
    unfold SerializeV0. destruct (_multiProgress l) as [|pv [|]]; cbn [length] in *; try lia.
    rewrite !length_app, !length_write, (length_concat_map _ 16%nat) by (intros; rewrite !length_app, !length_write; lia).
    cbn [fold_left]. pose proof (length_userData (_userData l)).
    change (LOCATOR_DEFAULT_VERSION <=? 0) with true. change (LOCATOR_SUBOFFSET_VERSION <=? 0) with false. cbn iota.
    change (0 =? LOCATOR_SUBOFFSET_VERSION) with false. cbn iota. lia.
  - change (1 =? 0) with false. cbn iota. unfold SerializeV1. rewrite !length_app, !length_write.
    change (LOCATOR_DEFAULT_VERSION <=? 1) with true. change (LOCATOR_SUBOFFSET_VERSION <=? 1) with true. cbn iota.
    change (1 =? LOCATOR_SUBOFFSET_VERSION) with true. cbn iota.
    pose proof (length_concat_fold (fun pv => write 8 (Z.of_nat (length pv)) ++
       concat (map (fun p => write 8 (fst (offset p)) ++ write 4 (snd (offset p)) ++ write 4 (from p) ++ write 4 (to p)) pv))
      (fun pv => (4 + 4 + 8) * Z.of_nat (length pv) + (8 + 4 * Z.of_nat (length pv))) (_multiProgress l)) as Hc.
    pose proof (length_userData (_userData l)). rewrite !Nat2Z.inj_add, Hc; [lia|].
    intros pv. rewrite length_app, length_write, (length_concat_map _ 20%nat) by (intros; rewrite !length_app, !length_write; lia).
    lia.
Qed.
