(* ===== verification/LocatorTheorems.v ===== *)
(** * What locators guarantee

    The theorems on [framework::Locator]: updates, comparisons, ranges and the binary format, with a
    concrete instance of each. *)

From stdpp Require Import base list numbers option tactics.
From Stdlib Require Import ZArith Lia ZifyNat ZifyBool.
From S2P Require Import Prelude Bits Locator LocatorCorrect LocatorSerialize.

#[local] Open Scope Z_scope.

(** No offset is negative: every range has been started. *)
Definition started (m : MultiProgress) : Prop := Forall (Forall (fun p => offset_le MIN_OFFSET (offset p) = true)) m.

(** The progress of a locator: at least one source, each with ranges of hash ids in order. *)
Definition wf_progress (m : MultiProgress) : Prop := wf_multi m /\ started m /\ m <> [].

Lemma started_valid m : started m -> Forall valid_offsets m.
Proof.
  intros Hm. eapply Forall_impl; [|exact Hm]. intros pv Hpv. eapply Forall_impl; [|exact Hpv].
  cbn. intros p Hp Hi. by rewrite Hi in Hp.
Qed.

Lemma wf_multi_vec m : wf_multi m -> Forall wf_vec m.
Proof. intros Hm. eapply Forall_impl; [|exact Hm]. by intros ? []. Qed.

Lemma started_at pv h o :
  Forall (fun p => offset_le MIN_OFFSET (offset p) = true) pv -> offset_at pv h = Some o -> offset_le MIN_OFFSET o = true.
Proof.
  intros Hpv Ho. destruct (offset_at_some _ _ _ Ho) as (q & Hq & _ & <-). rewrite Forall_forall in Hpv.
  apply Hpv. by apply list_elem_of_In.
Qed.

(** The pieces of an updated source are pieces of the two. *)
Lemma update_of_started c u c' :
  update_of c u c' -> Forall (fun p => offset_le MIN_OFFSET (offset p) = true) c ->
  Forall (fun p => offset_le MIN_OFFSET (offset p) = true) u ->
  Forall (fun p => offset_le MIN_OFFSET (offset p) = true) c'.
Proof.
  intros (_ & Hw & Hat) Hc Hu. apply Forall_forall. intros p Hp%list_elem_of_In.
  destruct (ordered_bounds _ _ _ Hw Hp) as [Hb _].
  assert (offset_at c' (from p) = Some (offset p)) as Hp'.
  { apply (offset_at_in 0); [done..|]. unfold covers. lia. }
  rewrite Hat in Hp'. unfold updated in Hp'. destruct (offset_at u (from p)) eqn:E.
  - simplify_eq. exact (started_at u (from p) _ Hu E).
  - exact (started_at c (from p) _ Hc Hp').
Qed.

Lemma updated_wf_multi mine others m : Forall3 update_of mine others m -> wf_multi mine -> wf_multi others -> wf_multi m.
Proof.
  intros H Hm Ho. induction H as [|c u c' mine others m Hc H IH]; [constructor|].
  apply Forall_cons_iff in Hm as [[Hc1 _] Hm], Ho as [[Hu1 Hu2] Ho].
  constructor; [|by apply IH]. split; [apply Hc|by eapply updated_nonempty].
Qed.

Lemma updated_wf mine others m :
  Forall3 update_of mine others m -> wf_progress mine -> wf_progress others -> wf_progress m.
Proof.
  intros H (Hm1 & Hm2 & Hm3) (Ho1 & Ho2 & Ho3). split_and!.
  - by eapply updated_wf_multi.
  - clear Hm3 Ho3 Ho1 Hm1. induction H as [|c u c' mine others m Hc H IH]; [constructor|].
    apply Forall_cons_iff in Hm2 as [Hc1 Hm2], Ho2 as [Hu1 Ho2].
    constructor; [|by apply IH]. by eapply update_of_started.
  - inversion H; subst; done.
Qed.


Lemma valid_all m : Forall valid_offsets m -> Forall (fun o => o <> INVALID_OFFSET) (offsets_of m).
Proof.
  intros Hm. unfold offsets_of. apply Forall_fmap, Forall_concat. eapply Forall_impl; [|exact Hm].
  intros pv Hpv. exact Hpv.
Qed.

Lemma offsets_nonempty m : wf_multi m -> m <> [] -> offsets_of m <> [].
Proof.
  intros Hm Hne. destruct m as [|pv m]; [done|]. apply Forall_cons_iff in Hm as [[_ Hpv] _].
  unfold offsets_of. cbn. destruct pv; done.
Qed.

(** The outcome of an update from the same source. *)
Lemma Update_ok l other :
  _src other = _src l -> length (_multiProgress l) = length (_multiProgress other) ->
  wf_multi (_multiProgress l) -> wf_multi (_multiProgress other) -> _multiProgress l <> [] ->
  exists ok l', evals (fun f => Update f l other) (ok, l') /\
    (if ok : bool then
       Forall2 accepts (_multiProgress l) (_multiProgress other) /\
       Forall3 update_of (_multiProgress l) (_multiProgress other) (_multiProgress l') /\
       wf_multi (_multiProgress l') /\
       (Forall valid_offsets (_multiProgress l') -> least (offsets_of (_multiProgress l')) (_minOffset l')) /\
       _src l' = _src l /\ _userData l' = _userData other /\ _isLegacyLocator l' = _isLegacyLocator l
     else ~ Forall2 accepts (_multiProgress l) (_multiProgress other)).
Proof.
  intros Hsrc Hlen Hl Ho Hne.
  destruct (updateSources_ok (_multiProgress l) (_multiProgress other) (wf_multi_vec _ Hl) (wf_multi_vec _ Ho) Hlen) as (ok & m & Hev & Hok).
  exists ok. eexists. split.
  - unfold Update. rewrite Hsrc, Z.eqb_refl, Hlen, Nat.eqb_refl. cbn [negb].
    eapply evals_bind_ok; [exact Hev|]. cbv beta iota.
    instantiate (1 := if ok then _ else _). destruct ok; reflexivity.
  - destruct ok; [|done]. cbn [_multiProgress _minOffset _src _userData _isLegacyLocator SetUserData set_minOffset set_multiProgress].
    destruct Hok as [Ha Hok]. pose proof (updated_wf_multi _ _ _ Hok Hl Ho) as Hm. split_and!; try done.
    intros Hv. apply fold_least; [by apply valid_all|]. apply offsets_nonempty; [done|]. destruct Hok; done.
Qed.

Lemma wf_progress_valid l : wf_progress (_multiProgress l) -> IsValid l = true.
Proof.
  intros (Hm & Hs & Hne). unfold IsValid. apply orb_true_iff. right.
  destruct (_multiProgress l) as [|pv m]; [done|]. apply Forall_cons_iff in Hm as [[_ Hpv] _], Hs as [Hs _].
  destruct pv as [|p pv]; [done|]. apply Forall_cons_iff in Hs as [Hp _]. cbn. by rewrite Hp.
Qed.

(** The comparison of two locators of the same source. *)
Lemma IsFasterThan_ok l other :
  _src l = _src other -> length (_multiProgress l) = length (_multiProgress other) ->
  wf_progress (_multiProgress l) -> wf_progress (_multiProgress other) ->
  exists r, IsFasterThan l other false = Ok r /\
    match r with
    | LCR_FULLY_FASTER => Forall2 ahead (_multiProgress l) (_multiProgress other)
    | LCR_SLOWER => ~ Forall2 ahead (_multiProgress l) (_multiProgress other) /\
                    Forall2 ahead (_multiProgress other) (_multiProgress l)
    | LCR_PARTIAL_FASTER => ~ Forall2 ahead (_multiProgress l) (_multiProgress other) /\
                            ~ Forall2 ahead (_multiProgress other) (_multiProgress l)
    | LCR_INVALID => False
    end.
Proof.
  intros Hsrc Hlen Hl Ho. unfold IsFasterThan, IsSameSrc. cbn [andb]. rewrite Hsrc, Z.eqb_refl. cbn [negb].
  rewrite (wf_progress_valid l Hl), (wf_progress_valid other Ho), Hlen, Nat.eqb_refl. cbn [negb].
  destruct (IsFullyFasterThan_ok (_multiProgress l) (_multiProgress other)) as (r & -> & Hr); [apply Hl|apply Ho|done|].
  destruct (IsFullyFasterThan_ok (_multiProgress other) (_multiProgress l)) as (r' & -> & Hr'); [apply Ho|apply Hl|done|].
  cbn [res_bind]. destruct r; [|destruct r']; eexists; (split; [reflexivity|]).
  - by apply Hr.
  - split; [|by apply Hr']. intros H. by apply Hr in H.
  - split; intros H; [by apply Hr in H|by apply Hr' in H].
Qed.

Lemma Forall3_ahead mine others m :
  Forall3 update_of mine others m -> Forall valid_offsets others -> Forall2 ahead m mine /\ Forall2 ahead m others.
Proof.
  induction 1 as [|c u c' mine others m Hc H IH]; intros Hv; [split; constructor|].
  apply Forall_cons_iff in Hv as [Hv1 Hv]. destruct (IH Hv) as [H1 H2].
  destruct (updated_ahead c u c' Hc Hv1) as [H3 H4]. split; by constructor.
Qed.

Lemma docFaster_ok pv h o :
  docFaster pv h o = match offset_at pv h with
                     | Some a => if offset_lt o a then LCR_FULLY_FASTER else LCR_SLOWER
                     | None => LCR_SLOWER
                     end.
Proof.
  induction pv as [|p pv IH]; cbn; [done|]. unfold covers. by destruct ((from p <=? h) && (h <=? to p)).
Qed.

Lemma offset_lt_le_trans a b c : offset_lt a b = true -> offset_le b c = true -> offset_lt a c = true.
Proof. offsets. lia. Qed.

(** The progress cut to a range. *)
Lemma shrinkVec_cons f t p pv :
  shrinkVec f t (p :: pv) =
  if (to p <? f) || (t <? from p) then shrinkVec f t pv
  else mkProgress (Z.max (from p) f) (Z.min (to p) t) (offset p) :: shrinkVec f t pv.
Proof. unfold shrinkVec. cbn. by destruct ((to p <? f) || (t <? from p)). Qed.

Lemma shrinkVec_ok lo pv f t :
  f <= t -> ordered lo pv ->
  ordered lo (shrinkVec f t pv) /\
  forall h, offset_at (shrinkVec f t pv) h = if (f <=? h) && (h <=? t) then offset_at pv h else None.
Proof.
  intros Hft. revert lo. induction pv as [|p pv IH]; intros lo Ho.
  { split; [done|]. intros h. by destruct (_ && _). }
  destruct Ho as (H1 & H2 & H3 & H4). destruct (IH _ H4) as [IH1 IH2]. rewrite shrinkVec_cons.
  destruct ((to p <? f) || (t <? from p)) eqn:Hc.
  - split; [eapply ordered_weaken; [exact IH1|lia]|]. intros h. rewrite IH2. cbn. unfold covers.
    destruct ((f <=? h) && (h <=? t)) eqn:Hh; [|done]. destruct ((from p <=? h) && (h <=? to p)) eqn:Hp; [lia|done].
  - split.
    + cbn. split_and!; [lia..|]. eapply ordered_weaken; [exact IH1|lia].
    + intros h. cbn [offset_at]. rewrite IH2. unfold covers. cbn [from to offset].
      destruct ((f <=? h) && (h <=? t)) eqn:Hh.
      * destruct ((from p <=? h) && (h <=? to p)) eqn:Hp;
          destruct ((Z.max (from p) f <=? h) && (h <=? Z.min (to p) t)) eqn:Hq; (done || lia).
      * destruct ((Z.max (from p) f <=? h) && (h <=? Z.min (to p) t)) eqn:Hq; (done || lia).
Qed.

(** A source covers the ends of the range. *)
Definition spans (f t : Z) (pv : ProgressVector) : bool :=
  match pv !! 0%nat, pv !! (length pv - 1)%nat with
  | Some p, Some q => negb ((f <? from p) || (to q <? t))
  | _, _ => false
  end.

Lemma shrinkSources_ok f t m :
  Forall (fun pv => pv <> []) m ->
  shrinkSources f t m = Ok (if forallb (spans f t) m then Some (map (shrinkVec f t) m) else None).
Proof.
  induction 1 as [|pv m Hpv Hm IH]; [done|]. cbn [shrinkSources forallb map]. unfold spans at 1.
  destruct (lookup_lt_is_Some_2 pv 0) as [p Hp]; [destruct pv; [done|cbn; lia]|].
  destruct (lookup_lt_is_Some_2 pv (length pv - 1)) as [q Hq]; [destruct pv; [done|cbn; lia]|].
  rewrite Hp, Hq, IH. destruct ((f <? from p) || (to q <? t)); [done|]. cbn.
  by destruct (forallb (spans f t) m).
Qed.

(** ** The theorems *)


(** C21. Among locators all of whose ranges have been started (no offset is below [MIN_OFFSET], so none is
    [INVALID_OFFSET]), a successful [Update] with a locator of the same [_src] and as many sources only goes forward: the
    new locator is fully faster than the old one and than the update, and a document that the old locator counts as
    consumed stays consumed. *)
Theorem locator_update_monotone (l other l' : Locator) :
  _src other = _src l -> length (_multiProgress l) = length (_multiProgress other) ->
  wf_progress (_multiProgress l) -> wf_progress (_multiProgress other) ->
  evals (fun f => Update f l other) (true, l') ->
  IsFasterThan l' l false = Ok LCR_FULLY_FASTER /\ IsFasterThan l' other false = Ok LCR_FULLY_FASTER /\
  forall d, IsFasterThan_doc l d = LCR_FULLY_FASTER -> IsFasterThan_doc l' d = LCR_FULLY_FASTER.
Proof.
  intros Hsrc Hlen Hl Ho Hev. destruct (Update_ok l other Hsrc Hlen) as (ok & l2 & Hev2 & H); [apply Hl|apply Ho|apply Hl|].
  pose proof (evals_unique _ _ _ Hev Hev2) as Heq. injection Heq as <- <-.
  destruct H as (_ & H1 & _ & _ & Hs & _ & _). pose proof (updated_wf _ _ _ H1 Hl Ho) as H2.
  destruct (Forall3_ahead _ _ _ H1 (started_valid _ (proj1 (proj2 Ho)))) as [Ha1 Ha2].
  pose proof (Forall2_length Ha1) as Hl1. pose proof (Forall2_length Ha2) as Hl2. split_and!.
  - destruct (IsFasterThan_ok l' l Hs Hl1 H2 Hl) as ([| | |] & -> & Hr); by try destruct Hr.
  - destruct (IsFasterThan_ok l' other ltac:(congruence) Hl2 H2 Ho) as ([| | |] & -> & Hr); by try destruct Hr.
  - intros d. unfold IsFasterThan_doc. rewrite (wf_progress_valid l Hl), (wf_progress_valid l' H2). cbn [negb].
    destruct (_multiProgress l !! Z.to_nat (sourceIdx d)) as [pv|] eqn:E; [|done].
    destruct (Forall3_lookup_l _ _ _ _ _ _ H1 E) as (u & pv' & Eu & Epv & Hup).
    change (_multiProgress l' !! Z.to_nat (sourceIdx d) = Some pv') in Epv. rewrite Epv, !docFaster_ok.
    destruct (offset_at pv (hashId d)) as [a|] eqn:Ea; [|done].
    destruct (offset_lt (GetProgressOffset d) a) eqn:Hlt; [|done]. intros _.
    destruct (updated_reaches pv u pv' (hashId d) a Hup) as (a' & -> & Hle); [|by left|].
    + exact (Forall_lookup_1 _ _ _ _ (started_valid _ (proj1 (proj2 Ho))) Eu).
    + by rewrite (offset_lt_le_trans _ _ _ Hlt Hle).
Qed.


(** C23. [ShrinkToRange] refuses, without a change, exactly when some source does not span the range;
    otherwise every source keeps its offsets on the range and loses all others. *)
Theorem locator_shrink_correct (l : Locator) (f t : Z) :
  wf_multi (_multiProgress l) -> f <= t ->
  exists l', ShrinkToRange f t l = Ok (forallb (spans f t) (_multiProgress l), l') /\
    (if forallb (spans f t) (_multiProgress l)
     then Forall2 (fun pv pv' => wf_vec pv' /\
            forall h, offset_at pv' h = if (f <=? h) && (h <=? t) then offset_at pv h else None)
            (_multiProgress l) (_multiProgress l')
     else l' = l).
Proof.
  intros Hm Hft. unfold ShrinkToRange.
  rewrite shrinkSources_ok by (eapply Forall_impl; [|exact Hm]; by intros ? []).
  destruct (forallb (spans f t) (_multiProgress l)); cbn [res_bind]; eexists; (split; [reflexivity|]); [|done].
  cbn. clear -Hm Hft. induction Hm as [|pv m [Hw _] Hm IH]; cbn; constructor; [|done].
  by apply shrinkVec_ok.
Qed.

(** C24. Reading what was written gives the locator back, in both versions of the format, but for the legacy flag, which
    reading leaves as it is; whatever else the locator held that is read into is replaced, and the bytes written are as many as were
    allocated for them. The locator has at least one source, at most 65535 ranges in each, hash ids up to 65535, and no offset below -1 or below
    [_minOffset]. [Serialize] picks the version: the first one for a locator with one source and without sub
    offsets, which is read back when the low half of [_minOffset] is not the magic number that marks the second version; the
    second one otherwise, without this condition. *)
Theorem locator_roundtrip (l0 l : Locator) :
  serializable l ->
  (calculateSerializeVersion l = LOCATOR_DEFAULT_VERSION -> i32 (fst (_minOffset l)) <> MAGIC_NUMBER) ->
  (calculateSerializeVersion l = LOCATOR_DEFAULT_VERSION \/ calculateSerializeVersion l = LOCATOR_SUBOFFSET_VERSION) /\
  Deserialize l0 (Serialize l) = Ok (true, as_read l0 l) /\ Z.of_nat (length (Serialize l)) = Size l.
Proof.
  intros Hs Hm. pose proof (length_Serialize l) as Hlen. pose proof (version_cases l) as Hv. split; [done|].
  split; [|apply Hlen; destruct Hs; lia]. unfold Serialize. destruct Hv as [Hv|Hv]; rewrite Hv; [|by apply read_SerializeV1].
  apply read_SerializeV0; [done..|by apply Hm].
Qed.

(** [Update] computes [_minOffset] past an unstarted range: with progress at 5, an unstarted
    range and progress at 7, in this order, the least offset becomes 7, later than a range still at 5. *)
Theorem locator_minOffset_skips :
  let l := mkLocator 0 INVALID_OFFSET
             [[mkProgress 0 9 (4, 0); mkProgress 10 19 INVALID_OFFSET; mkProgress 20 29 (6, 0)]] [] false in
  let other := mkLocator 0 INVALID_OFFSET
             [[mkProgress 0 9 (5, 0); mkProgress 10 19 INVALID_OFFSET; mkProgress 20 29 (7, 0)]] [] false in
  exists l', evals (fun f => Update f l other) (true, l') /\ _multiProgress l' = _multiProgress other /\
    _minOffset l' = (7, 0).
Proof.
  exists (mkLocator 0 (7, 0)
    [[mkProgress 0 9 (5, 0); mkProgress 10 19 INVALID_OFFSET; mkProgress 20 29 (7, 0)]] [] false).
  split; [|split; reflexivity]. exists 10%nat. intros f Hf.
  do 10 (destruct f as [|f]; [lia|]). reflexivity.
Qed.

(** The two ways [UpdateProgressVec] goes disagree on an invalid offset: an update of one range
    by the same range is refused, an update by two ranges that make it up is taken, and the progress
    of 5 is lost. *)
Theorem locator_update_loses_progress :
  let c := [mkProgress 0 9 (5, 0)] in
  evals (fun f => UpdateProgressVec f c [mkProgress 0 9 INVALID_OFFSET]) None /\
  evals (fun f => UpdateProgressVec f c [mkProgress 0 4 INVALID_OFFSET; mkProgress 5 9 INVALID_OFFSET])
    (Some [mkProgress 0 9 INVALID_OFFSET]).
Proof.
  split; exists 10%nat; intros f Hf; do 10 (destruct f as [|f]; [lia|]); reflexivity.
Qed.

(** ** Concrete instances *)

Definition sample_old : Locator :=
  mkLocator 3 (5, 0) [[mkProgress 0 99 (5, 0); mkProgress 100 199 (8, 1)]] [] false.
Definition sample_update : Locator :=
  mkLocator 3 (9, 0) [[mkProgress 50 149 (9, 0)]] [65; 66] false.
Definition sample_new : Locator :=
  mkLocator 3 (5, 0) [[mkProgress 0 49 (5, 0); mkProgress 50 149 (9, 0); mkProgress 150 199 (8, 1)]] [65; 66] false.

Lemma sample_wf : wf_progress (_multiProgress sample_old) /\ wf_progress (_multiProgress sample_update).
Proof. unfold wf_progress, wf_multi, started, wf_vec. cbn. repeat (split || constructor); cbn; (done || lia). Qed.

Lemma sample_run : evals (fun f => Update f sample_old sample_update) (true, sample_new).
Proof. exists 10%nat. intros f Hf. do 10 (destruct f as [|f]; [lia|]). reflexivity. Qed.




Lemma locator_monotone_witness :
  IsFasterThan sample_new sample_old false = Ok LCR_FULLY_FASTER /\
  IsFasterThan sample_new sample_update false = Ok LCR_FULLY_FASTER /\
  forall d, IsFasterThan_doc sample_old d = LCR_FULLY_FASTER -> IsFasterThan_doc sample_new d = LCR_FULLY_FASTER.
Proof.
  apply (locator_update_monotone sample_old sample_update sample_new);
    [reflexivity..|apply sample_wf|apply sample_wf|exact sample_run].
Defined.


Lemma locator_shrink_witness :
  exists l', ShrinkToRange 50 120 sample_old = Ok (true, l') /\
    Forall2 (fun pv pv' => wf_vec pv' /\
      forall h, offset_at pv' h = if (50 <=? h) && (h <=? 120) then offset_at pv h else None)
      (_multiProgress sample_old) (_multiProgress l').
Proof. apply (locator_shrink_correct sample_old 50 120); [apply sample_wf|lia]. Defined.

Lemma sample_serializable : serializable sample_new /\ serializable sample_update.
Proof.
  split; split; cbn; unfold offset_ok, max_sources; cbn; try lia; repeat constructor; cbn; (done || lia).
Qed.

(** One locator in each version of the format *)
Lemma locator_roundtrip_witness :
  (calculateSerializeVersion sample_update = LOCATOR_DEFAULT_VERSION /\
   Deserialize new_Locator (Serialize sample_update) = Ok (true, sample_update) /\
   Z.of_nat (length (Serialize sample_update)) = Size sample_update) /\
  (calculateSerializeVersion sample_new = LOCATOR_SUBOFFSET_VERSION /\
   Deserialize new_Locator (Serialize sample_new) = Ok (true, sample_new) /\
   Z.of_nat (length (Serialize sample_new)) = Size sample_new).
Proof.
  split; (split; [reflexivity|]).
  - apply (locator_roundtrip new_Locator sample_update); [apply sample_serializable|done].
  - apply (locator_roundtrip new_Locator sample_new); [apply sample_serializable|done].
Defined.
