(* ===== verification/HashBucket.v ===== *)
(** * Buckets of the closed hash tables

    What [DenseHashTable] asks of its bucket type, as a class with its laws, and the bucket types that
    [ClosedHashTableTraits] selects (src/aios/storage/indexlib/index/common/hash_table):
    [SpecialKeyBucket], which marks an empty or deleted bucket in the key, and [SpecialValueBucket]
    over [TimestampValue] or [SpecialValue], which marks it in the value. *)

From stdpp Require Import base list numbers option tactics.
From Stdlib Require Import ZArith Lia ZifyNat ZifyBool.
From S2P Require Import Prelude Bits.

#[local] Open Scope Z_scope.

(** ** The interface *)

Class Bucket (B V : Type) := {
  new_Bucket : B;
  IsEmpty : B -> bool;
  IsEqual : B -> Z -> bool;
  IsDeleted : B -> bool;
  Key : B -> Z;
  Value : B -> V;
  DeletedOrValue : B -> bool * V;
  BSet : Z -> V -> B -> B;
  BSetDelete : Z -> V -> B -> B
}.

(** What the table relies on, for the keys and values it may hold. *)
Class BucketLaws (B V : Type) `{!Bucket B V} (good_key : Z -> Prop) (good_value : V -> Prop) := {
  law_new : IsEmpty new_Bucket = true;
  law_new_deleted : IsDeleted new_Bucket = false;
  law_deleted_full : forall b, IsEmpty b = true -> IsDeleted b = false;
  law_equal : forall b k, good_key k -> IsEmpty b = false -> IsEqual b k = (Key b =? k);
  law_set : forall b k v, good_key k -> good_value v ->
    IsEmpty (BSet k v b) = false /\ IsDeleted (BSet k v b) = false /\ Key (BSet k v b) = k /\ Value (BSet k v b) = v;
  law_delete : forall b k v, good_key k ->
    IsEmpty (BSetDelete k v b) = false /\ IsDeleted (BSetDelete k v b) = true /\ Key (BSetDelete k v b) = k;
  law_pair : forall b, DeletedOrValue b = (IsDeleted b, Value b)
}.

(** ** [SpecialKeyBucket] *)

Module SpecialKey.
Section SpecialKey.
(** The template parameters and the union of the value and the key of a deleted bucket:
    [decode] reads the bytes of a key as a value. *)
Context {V : Type} (_EmptyKey _DeleteKey : Z) (default : V) (decode : Z -> V).

Inductive content := Val (v : V) | KeyInValue (k : Z).

Record SpecialKeyBucket := mkBucket {
  _key : Z;
  _content : content
}.

Definition new_SpecialKeyBucket : SpecialKeyBucket := mkBucket _EmptyKey (Val default).
Definition IsEmptyKey (key : Z) : bool := key =? _EmptyKey.
Definition IsDeleteKey (key : Z) : bool := key =? _DeleteKey.

Definition IsEmpty (b : SpecialKeyBucket) : bool := _key b =? _EmptyKey.
Definition IsDeleted (b : SpecialKeyBucket) : bool := _key b =? _DeleteKey.

(** The bytes of the union read as a key; only read when a key was written. *)
Definition keyInValue (b : SpecialKeyBucket) : Z :=
  match _content b with KeyInValue k => k | Val _ => 0 end.
Definition Value (b : SpecialKeyBucket) : V :=
  match _content b with Val v => v | KeyInValue k => decode k end.

Definition Key (b : SpecialKeyBucket) : Z := if IsDeleted b then keyInValue b else _key b.
Definition IsEqual (b : SpecialKeyBucket) (key : Z) : bool :=
  if _key b =? _DeleteKey then keyInValue b =? key else _key b =? key.
Definition DeletedOrValue (b : SpecialKeyBucket) : bool * V := (IsDeleted b, Value b).
Definition UpdateValue (v : V) (b : SpecialKeyBucket) : SpecialKeyBucket := mkBucket (_key b) (Val v).
Definition Set_ (key : Z) (value : V) (b : SpecialKeyBucket) : SpecialKeyBucket := mkBucket key (Val value).
Definition SetDelete (key : Z) (value : V) (b : SpecialKeyBucket) : SpecialKeyBucket :=
  mkBucket _DeleteKey (KeyInValue key).
Definition SetEmpty (b : SpecialKeyBucket) : SpecialKeyBucket := mkBucket _EmptyKey (Val default).

Definition good_key (k : Z) : Prop := k <> _EmptyKey /\ k <> _DeleteKey.

#[export] Instance specialKey_Bucket : Bucket SpecialKeyBucket V := {|
  HashBucket.new_Bucket := new_SpecialKeyBucket;
  HashBucket.IsEmpty := IsEmpty;
  HashBucket.IsEqual := IsEqual;
  HashBucket.IsDeleted := IsDeleted;
  HashBucket.Key := Key;
  HashBucket.Value := Value;
  HashBucket.DeletedOrValue := DeletedOrValue;
  HashBucket.BSet := Set_;
  HashBucket.BSetDelete := SetDelete
|}.

Hypothesis special_distinct : _EmptyKey <> _DeleteKey.

#[export] Instance specialKey_laws : BucketLaws SpecialKeyBucket V good_key (fun _ => True).
Proof using special_distinct.
  unfold good_key. split; cbn; unfold IsEmpty, IsDeleted, IsEqual, Key, IsDeleted; cbn.
  - apply Z.eqb_refl.
  - by apply Z.eqb_neq.
  - intros b He. apply Z.eqb_eq in He. by rewrite He, (proj2 (Z.eqb_neq _ _)).
  - intros b k _ _. by destruct (_key b =? _DeleteKey).
  - intros b k v [Hk1 Hk2] _. rewrite !(proj2 (Z.eqb_neq k _)) by done. done.
  - intros b k v _. rewrite Z.eqb_refl, (proj2 (Z.eqb_neq _ _)) by done. done.
  - done.
Qed.
End SpecialKey.
Arguments content : clear implicits.
Arguments SpecialKeyBucket : clear implicits.
End SpecialKey.

(** ** [SpecialValueBucket] *)

(** What [SpecialValueBucket] asks of the value type. *)
Class SpecialVal (V : Type) := {
  new_Value : V;
  VIsEmpty : V -> bool;
  VIsDeleted : V -> bool;
  VSetValue : V -> V -> V;
  VSetDelete : V -> V -> V
}.

Module SpecialValue.
Section SpecialValue.
Context {V : Type} `{!SpecialVal V}.

Record SpecialValueBucket := mkBucket {
  _key : Z;
  _value : V
}.

Definition new_SpecialValueBucket : SpecialValueBucket := mkBucket 0 new_Value.
Definition Key (b : SpecialValueBucket) : Z := _key b.
Definition Value (b : SpecialValueBucket) : V := _value b.
Definition IsEmpty (b : SpecialValueBucket) : bool := VIsEmpty (_value b).
Definition IsEqual (b : SpecialValueBucket) (key : Z) : bool := _key b =? key.
Definition IsDeleted (b : SpecialValueBucket) : bool := VIsDeleted (_value b).
Definition DeletedOrValue (b : SpecialValueBucket) : bool * V :=
  let value := _value b in (VIsDeleted value, value).
Definition Set_ (key : Z) (value : V) (b : SpecialValueBucket) : SpecialValueBucket :=
  mkBucket key (VSetValue value (_value b)).
Definition SetDelete (key : Z) (value : V) (b : SpecialValueBucket) : SpecialValueBucket :=
  mkBucket key (VSetDelete value (_value b)).

#[export] Instance specialValue_Bucket : Bucket SpecialValueBucket V := {|
  HashBucket.new_Bucket := new_SpecialValueBucket;
  HashBucket.IsEmpty := IsEmpty;
  HashBucket.IsEqual := IsEqual;
  HashBucket.IsDeleted := IsDeleted;
  HashBucket.Key := Key;
  HashBucket.Value := Value;
  HashBucket.DeletedOrValue := DeletedOrValue;
  HashBucket.BSet := Set_;
  HashBucket.BSetDelete := SetDelete
|}.

(** The laws of the value type give those of the bucket. *)
Class SpecialValLaws (good : V -> Prop) := {
  vlaw_new : VIsEmpty new_Value = true;
  vlaw_deleted_full : forall v, VIsEmpty v = true -> VIsDeleted v = false;
  vlaw_set : forall v w, good v ->
    VIsEmpty (VSetValue v w) = false /\ VIsDeleted (VSetValue v w) = false /\ VSetValue v w = v;
  vlaw_delete : forall v w, VIsEmpty (VSetDelete v w) = false /\ VIsDeleted (VSetDelete v w) = true
}.

#[export] Instance specialValue_laws good `{!SpecialValLaws good} :
  BucketLaws SpecialValueBucket V (fun _ => True) good.
Proof.
  split; cbn; unfold IsEmpty, IsDeleted, IsEqual, Key, Value; cbn.
  - apply vlaw_new.
  - apply vlaw_deleted_full, vlaw_new.
  - intros b. apply vlaw_deleted_full.
  - done.
  - intros b k v _ Hv. destruct (vlaw_set v (_value b) Hv) as (? & ? & ?). by split_and!.
  - intros b k v _. destruct (vlaw_delete v (_value b)) as (? & ?). by split_and!.
  - done.
Qed.
End SpecialValue.
Arguments SpecialValueBucket : clear implicits.
Arguments SpecialValLaws V {_} good.
End SpecialValue.

(** [TimestampValue]: the value with a timestamp whose highest bit marks a delete *)
Module Timestamp.
Section Timestamp.
Context {R : Type} (default : R).

Definition Empty : Z := 0x7FFFFFFF.
Definition DeleteMask : Z := 0x80000000.
Definition TimestampMask : Z := 0x7FFFFFFF.

Record TimestampValue := mkTimestamp {
  _timestamp : Z;
  _value : R
}.

Definition new_TimestampValue : TimestampValue := mkTimestamp Empty default.
(** The two explicit constructors *)
Definition deleted_TimestampValue (timestamp : Z) : TimestampValue :=
  mkTimestamp (Z.lor timestamp DeleteMask) default.
Definition valued_TimestampValue (timestamp : Z) (value : R) : TimestampValue :=
  mkTimestamp (Z.land timestamp TimestampMask) value.

Definition Timestamp (v : TimestampValue) : Z := Z.land (_timestamp v) TimestampMask.
Definition IsEmpty (v : TimestampValue) : bool := _timestamp v =? Empty.
Definition IsDeleted (v : TimestampValue) : bool := negb (Z.land (_timestamp v) DeleteMask =? 0).
Definition SetDelete (value self : TimestampValue) : TimestampValue :=
  mkTimestamp (Z.lor (Timestamp value) DeleteMask) (_value self).
(** [SetValue], which marks the old value deleted before it overwrites it *)
Definition SetValue (value self : TimestampValue) : TimestampValue :=
  let self := if negb (IsEmpty self) && negb (IsDeleted self) then SetDelete value self else self in
  let self := mkTimestamp (_timestamp self) (_value value) in
  mkTimestamp (Timestamp value) (_value self).

#[export] Instance timestamp_SpecialVal : SpecialVal TimestampValue := {|
  new_Value := new_TimestampValue;
  VIsEmpty := IsEmpty;
  VIsDeleted := IsDeleted;
  VSetValue := SetValue;
  VSetDelete := SetDelete
|}.

Definition good (v : TimestampValue) : Prop := 0 <= _timestamp v < Empty.

Lemma mask_timestamp t : 0 <= t < 2 ^ 31 -> Z.land t TimestampMask = t /\ Z.land t DeleteMask = 0.
Proof.
  intros Ht. split.
  - change TimestampMask with (Z.ones 31). rewrite Z.land_ones by lia. apply Z.mod_small. lia.
  - apply Z.bits_inj'. intros i Hi. rewrite Z.land_spec, Z.testbit_0_l.
    change DeleteMask with (2 ^ 31). rewrite Z.pow2_bits_eqb by lia.
    destruct (Z.eqb_spec 31 i) as [<-|]; [|apply andb_false_r].
    rewrite (testbit_high t 31 31) by lia. done.
Qed.

#[export] Instance timestamp_laws : SpecialValue.SpecialValLaws TimestampValue good.
Proof.
  split; cbn.
  - done.
  - intros v He. unfold IsEmpty, IsDeleted in *. apply Z.eqb_eq in He. by rewrite He.
  - intros [t r] w Hg. unfold good, SetValue, IsEmpty, IsDeleted, Timestamp in *. cbn in *.
    unfold Empty in *. destruct (mask_timestamp t ltac:(lia)) as [-> ->]. cbn. split_and!; [lia|done|done].
  - intros v w. unfold IsEmpty, IsDeleted, SetDelete. cbn.
    assert (Z.land (Z.lor (Timestamp v) DeleteMask) DeleteMask = DeleteMask) as Hd.
    { rewrite Z.land_lor_distr_l, Z.land_diag.
      assert (0 <= Timestamp v < 2 ^ 31) as Ht.
      { unfold Timestamp. change TimestampMask with (Z.ones 31). rewrite Z.land_ones by lia. by apply Z.mod_pos_bound. }
      rewrite (proj2 (mask_timestamp _ Ht)). apply Z.lor_0_l. }
    rewrite Hd. split; [|done]. apply Z.eqb_neq. intros He. rewrite He in Hd. done.
Qed.
End Timestamp.
Arguments TimestampValue : clear implicits.
End Timestamp.

(** [SpecialValue] and [OffsetValue]: two values mark an empty and a deleted bucket *)
Module Offset.
Section Offset.
Context (_EmptyValue _DeleteValue : Z).

Record OffsetValue := mkOffset { _value : Z }.

Definition new_OffsetValue : OffsetValue := mkOffset _EmptyValue.
Definition IsEmpty (v : OffsetValue) : bool := _value v =? _EmptyValue.
Definition IsDeleted (v : OffsetValue) : bool := _value v =? _DeleteValue.
Definition SetValue (value self : OffsetValue) : OffsetValue := mkOffset (_value value).
Definition SetDelete (value self : OffsetValue) : OffsetValue := mkOffset _DeleteValue.

#[export] Instance offset_SpecialVal : SpecialVal OffsetValue := {|
  new_Value := new_OffsetValue;
  VIsEmpty := IsEmpty;
  VIsDeleted := IsDeleted;
  VSetValue := SetValue;
  VSetDelete := SetDelete
|}.

Definition good (v : OffsetValue) : Prop := _value v <> _EmptyValue /\ _value v <> _DeleteValue.

Hypothesis special_distinct : _EmptyValue <> _DeleteValue.

#[export] Instance offset_laws : SpecialValue.SpecialValLaws OffsetValue good.
Proof using special_distinct.
  split; cbn; unfold IsEmpty, IsDeleted; cbn.
  - apply Z.eqb_refl.
  - intros v He. apply Z.eqb_eq in He. rewrite He. by apply Z.eqb_neq.
  - intros [x] w [H1 H2]. cbn in *. rewrite !(proj2 (Z.eqb_neq _ _)) by done. done.
  - intros v w. rewrite Z.eqb_refl, (proj2 (Z.eqb_neq _ _)) by done. done.
Qed.
End Offset.
End Offset.
