(* ===== verification/DenseHashTable.v ===== *)
(** * The dense hash table

    [DenseHashTableBase] and [DenseHashTable]
    (src/aios/storage/indexlib/index/common/hash_table/DenseHashTable.h): open addressing with linear
    probing in memory that the caller provides, deletion by inserting a mark, and shrinking in place.
    The operations, over any bucket type ([HashBucket.Bucket]). *)

From stdpp Require Import base list numbers option tactics.
From Stdlib Require Import ZArith Lia ZifyNat.
From S2P Require Import Prelude HashBucket.

#[local] Open Scope Z_scope.

Definition OCCUPANCY_PCT : Z := 50.
Definition INVALID_OCCUPANCY : Z := - 2 ^ 31.
(** [sizeof(HashTableHeader)] *)
Definition sizeof_Header : Z := 16.

(** [util::Status] *)
Inductive Status := OK | NOT_FOUND | DELETED.

#[export] Instance Status_eq : EqDecision Status.
Proof. solve_decision. Defined.

(** [struct HashTableOptions] *)
Record HashTableOptions := mkOptions {
  occupancyPct : Z
}.
Definition Valid (o : HashTableOptions) : bool := negb (occupancyPct o =? INVALID_OCCUPANCY).

(** ** Sizes *)

(** The code divides doubles; below 2^53 the quotients round to what the integer divisions give. *)
Definition BucketCountToCapacity (bucketCount occupancyPct : Z) : Z := u64 (bucketCount * occupancyPct) / 100.
Definition CapacityToBucketCount (maxKeyCount occupancyPct : Z) : Z :=
  ((if 0 <? maxKeyCount then maxKeyCount else 1) * 100 + occupancyPct - 1) / occupancyPct.

Definition DoGetRecommendedOccupancy (occupancy : Z) : Z := if 80 <? occupancy then 80 else occupancy.

(** [Probe]: whether to go on, and the next [probeCount] and [bucketId] *)
Definition Probe (probeCount bucketId bucketCount : Z) : bool * Z * Z :=
  let probeCount := u64 (probeCount + 1) in
  let bucketId := u64 (bucketId + 1) in
  let bucketId := if bucketCount <=? bucketId then bucketId mod bucketCount else bucketId in
  (negb (bucketCount <=? probeCount), probeCount, bucketId).

Section Table.
Context {B V : Type} `{!Bucket B V} (sizeof_Bucket : Z) (default : V).

(** The members of [DenseHashTableBase] and the header in front of the buckets. [_bucket] is the memory the
    table was mounted on, of which the first [_bucketCount] buckets are the table. *)
Record Table := mkTable {
  _bucket : list B;
  _bucketCount : Z;
  _occupancyPct : Z;
  _deleteCount : Z;
  keyCount : Z
}.

Definition new_Table : Table := mkTable [] 0 0 0 0.

Definition set_bucket (i : Z) (b : B) (t : Table) : Table :=
  mkTable (<[Z.to_nat i := b]> (_bucket t)) (_bucketCount t) (_occupancyPct t) (_deleteCount t) (keyCount t).
Definition set_bucketCount (n : Z) (t : Table) : Table :=
  mkTable (_bucket t) n (_occupancyPct t) (_deleteCount t) (keyCount t).
Definition set_memory (bs : list B) (t : Table) : Table :=
  mkTable bs (_bucketCount t) (_occupancyPct t) (_deleteCount t) (keyCount t).

Definition DoCapacityToTableMemory (maxKeyCount : Z) (options : HashTableOptions) : Z :=
  u64 (sizeof_Header + sizeof_Bucket * CapacityToBucketCount maxKeyCount (occupancyPct options)).
Definition DoTableMemroyToCapacity (tableMemory occupancyPct : Z) : Z :=
  if tableMemory <? sizeof_Header then 0
  else u64 ((tableMemory - sizeof_Header) / sizeof_Bucket * occupancyPct) / 100.

(** [MountForWrite] on [size] bytes *)
Definition MountForWrite (size : Z) (inputOptions : HashTableOptions) (t : Table) : bool * Table :=
  let options := if Valid inputOptions then inputOptions else mkOptions OCCUPANCY_PCT in
  if size <? sizeof_Header then (false, t)
  else
    let bucketCount := (size - sizeof_Header) / sizeof_Bucket in
    (true, mkTable (replicate (Z.to_nat bucketCount) new_Bucket) bucketCount (occupancyPct options)
             (_deleteCount t) 0).

(** [MountForRead] on [size] bytes with a header and buckets in them *)
Definition MountForRead (size headerBucketCount headerKeyCount : Z) (bs : list B) (t : Table) : res (bool * Table) :=
  if size <? sizeof_Header then Ok (false, t)
  else if headerBucketCount =? 0 then Undefined
  else
    let pct := i32 (u64 (headerKeyCount * 100) / headerBucketCount) in
    if size <? u64 (sizeof_Header + headerBucketCount * sizeof_Bucket) then
      Ok (false, mkTable (_bucket t) headerBucketCount pct (_deleteCount t) (keyCount t))
    else Ok (true, mkTable bs headerBucketCount pct (_deleteCount t) headerKeyCount).

Definition Size (t : Table) : Z := keyCount t.
Definition Capacity (t : Table) : Z := BucketCountToCapacity (_bucketCount t) (_occupancyPct t).
Definition IsFull (t : Table) : bool := Capacity t <=? Size t.
Definition MemoryUse (t : Table) : Z := u64 (_bucketCount t * sizeof_Bucket + sizeof_Header).

(** ** Finding *)

(** The loop of [InternalFindBucket]; [Probe] ends it after [bucketCount] turns. *)
Fixpoint findLoop (fuel : nat) (bs : list B) (key bucketCount probeCount bucketId : Z) : res (option Z) :=
  match fuel with
  | O => OutOfFuel
  | S fuel' =>
      let! bucket := deref (bs !! Z.to_nat bucketId) in
      if IsEmpty bucket || IsEqual bucket key then Ok (Some bucketId)
      else
        let '(go_on, probeCount, bucketId) := Probe probeCount bucketId bucketCount in
        if go_on : bool then findLoop fuel' bs key bucketCount probeCount bucketId else Ok None
  end.

(** [InternalFindBucket]: the index of the bucket *)
Definition InternalFindBucket (t : Table) (key : Z) : res (option Z) :=
  if _bucketCount t =? 0 then Undefined
  else findLoop (S (Z.to_nat (_bucketCount t))) (_bucket t) key (_bucketCount t) 0 (key mod _bucketCount t).

Definition Find (t : Table) (key : Z) : res (Status * option V) :=
  let! r := InternalFindBucket t key in
  match r with
  | None => Ok (NOT_FOUND, None)
  | Some i =>
      let! bucket := deref (_bucket t !! Z.to_nat i) in
      if IsEmpty bucket then Ok (NOT_FOUND, None)
      else Ok (if IsDeleted bucket then DELETED else OK, Some (Value bucket))
  end.

Definition FindForReadWrite (t : Table) (key : Z) : res (Status * option V) :=
  let! r := InternalFindBucket t key in
  match r with
  | None => Ok (NOT_FOUND, None)
  | Some i =>
      let! bucket := deref (_bucket t !! Z.to_nat i) in
      if IsEmpty bucket then Ok (NOT_FOUND, None)
      else
        let '(isDeleted, tmpValue) := DeletedOrValue bucket in
        Ok (if isDeleted : bool then DELETED else OK, Some tmpValue)
  end.

(** ** Inserting and deleting *)

(** [InsertFunctor] and [DeleteFunctor]: the new bucket and delete count *)
Definition InsertFunctor (bucket : B) (key : Z) (value : V) (deleteCount : Z) : B * Z :=
  (BSet key value bucket, if IsDeleted bucket then u64 (deleteCount - 1) else deleteCount).
Definition DeleteFunctor (bucket : B) (key : Z) (value : V) (deleteCount : Z) : B * Z :=
  (BSetDelete key value bucket, if IsDeleted bucket then deleteCount else u64 (deleteCount + 1)).

Definition InternalInsert (functor : B -> Z -> V -> Z -> B * Z) (key : Z) (value : V) (t : Table)
    : res (bool * Table) :=
  let! r := InternalFindBucket t key in
  match r with
  | None => Ok (false, t)
  | Some i =>
      let! bucket := deref (_bucket t !! Z.to_nat i) in
      let isNewKey := IsEmpty bucket in
      let '(bucket', deleteCount) := functor bucket key value (_deleteCount t) in
      Ok (true, mkTable (<[Z.to_nat i := bucket']> (_bucket t)) (_bucketCount t) (_occupancyPct t) deleteCount
                  (if isNewKey then u64 (keyCount t + 1) else keyCount t))
  end.

Definition Insert (key : Z) (value : V) (t : Table) : res (bool * Table) :=
  InternalInsert InsertFunctor key value t.

(** [Delete], with the value of the deletion if there is one *)
Definition Delete (key : Z) (value : option V) (t : Table) : res (bool * Table) :=
  InternalInsert DeleteFunctor key (match value with Some v => v | None => default end) t.

(** ** Shrinking *)

(** The loop of [EvictionInsert] *)
Fixpoint evictLoop (fuel : nat) (bs : list B) (bitmap : list bool) (seekingBucket : B)
    (bucketCount bucketId probeCount evictionCount : Z) : res (bool * list B * list bool) :=
  match fuel with
  | O => OutOfFuel
  | S fuel' =>
      let! bucket := deref (bs !! Z.to_nat bucketId) in
      let! processed := deref (bitmap !! Z.to_nat bucketId) in
      if IsEmpty bucket then
        Ok (true, <[Z.to_nat bucketId := seekingBucket]> bs, <[Z.to_nat bucketId := true]> bitmap)
      else if processed : bool then
        let '(go_on, probeCount, bucketId) := Probe probeCount bucketId bucketCount in
        if go_on : bool then evictLoop fuel' bs bitmap seekingBucket bucketCount bucketId probeCount evictionCount
        else Ok (false, bs, bitmap)
      else
        let bitmap := <[Z.to_nat bucketId := true]> bitmap in
        let bs := <[Z.to_nat bucketId := seekingBucket]> bs in
        let evictionCount := evictionCount + 1 in
        if bucketCount <? evictionCount then Ok (false, bs, bitmap)
        else evictLoop fuel' bs bitmap bucket bucketCount (Key bucket mod bucketCount) 0 evictionCount
  end.

(** A turn for every probe of every evicted bucket *)
Definition evictFuel (bucketCount : Z) : nat := (S (Z.to_nat bucketCount) * S (Z.to_nat bucketCount))%nat.

Definition EvictionInsert (bs : list B) (bitmap : list bool) (bucketCount : Z) (firstSeekingBucket : B)
    : res (bool * list B * list bool) :=
  evictLoop (evictFuel bucketCount) bs bitmap firstSeekingBucket bucketCount
    (Key firstSeekingBucket mod bucketCount) 0 0.

(** The first loop of [Shrink]: [n] buckets from [i] on *)
Fixpoint shrinkFirst (n : nat) (i : Z) (newBucketCount : Z) (bs : list B) (bitmap : list bool)
    : res (bool * list B) :=
  match n with
  | O => Ok (true, bs)
  | S n' =>
      let! processed := deref (bitmap !! Z.to_nat i) in
      let! bucket := deref (bs !! Z.to_nat i) in
      if processed : bool then shrinkFirst n' (i + 1) newBucketCount bs bitmap
      else if IsEmpty bucket then shrinkFirst n' (i + 1) newBucketCount bs (<[Z.to_nat i := true]> bitmap)
      else
        let! (ok, bs, bitmap) :=
          EvictionInsert (<[Z.to_nat i := new_Bucket]> bs) (<[Z.to_nat i := true]> bitmap) newBucketCount bucket in
        if ok : bool then shrinkFirst n' (i + 1) newBucketCount bs bitmap else Ok (false, bs)
  end.

(** The second loop: [n] buckets from [i] on into the table *)
Fixpoint shrinkSecond (n : nat) (i : Z) (t : Table) : res (bool * Table) :=
  match n with
  | O => Ok (true, t)
  | S n' =>
      let! bucket := deref (_bucket t !! Z.to_nat i) in
      if IsEmpty bucket then shrinkSecond n' (i + 1) t
      else
        let! r := InternalFindBucket t (Key bucket) in
        match r with
        | None => Ok (false, t)
        | Some j => shrinkSecond n' (i + 1) (set_bucket j bucket t)
        end
  end.

(** [Shrink]: fewer buckets, for the keys there are *)
Definition Shrink (occupancyPct : Z) (t : Table) : res (bool * Table) :=
  let oldBucketCount := _bucketCount t in
  let pct := if 0 <? occupancyPct then occupancyPct else _occupancyPct t in
  if pct =? 0 then Undefined
  else
    let newBucketCount := CapacityToBucketCount (Size t) pct in
    if oldBucketCount <=? newBucketCount then Ok (true, t)
    else
      let! (ok, bs) := shrinkFirst (Z.to_nat newBucketCount) 0 newBucketCount (_bucket t)
                         (replicate (Z.to_nat newBucketCount) false) in
      let t := set_memory bs (set_bucketCount newBucketCount t) in
      if negb ok then Ok (false, set_bucketCount oldBucketCount t)
      else
        let! (ok, t) := shrinkSecond (Z.to_nat (oldBucketCount - newBucketCount)) newBucketCount t in
        if negb ok then Ok (false, set_bucketCount oldBucketCount t)
        else
          Ok (true, mkTable (_bucket t) (_bucketCount t) pct (_deleteCount t) (keyCount t)).
End Table.
Arguments Table B : clear implicits.
Arguments mkTable {B}.
Arguments new_Table {B}.
