(* ===== verification/DenseHashTableCorrect.v ===== *)
(** * The dense hash table: lookups, insertion and shrinking

    The buckets of a table stand for a finite map from keys to entries ([contents]). Linear probing
    keeps, for every key, the buckets between its home and its place occupied ([probing]); insertion
    and shrinking are proved to keep this and to change the map as they should. *)

From stdpp Require Import base list numbers option tactics gmap.
From Stdlib Require Import ZArith Lia ZifyNat.
From S2P Require Import Prelude HashBucket DenseHashTable.

#[local] Open Scope Z_scope.

(** What a key is mapped to: a value, or a mark that it was deleted. *)
Inductive entry (V : Type) := Live (v : V) | Dead.
Arguments Live {V} v.
Arguments Dead {V}.

(** The [j]-th bucket that probing for a key visits. *)
Definition slot (n : Z) (k : Z) (j : Z) : Z := (k + j) mod n.

Lemma slot_range n k j : 0 < n -> 0 <= slot n k j < n.
Proof. intros. by apply Z.mod_pos_bound. Qed.

Lemma slot_inj n k j j' : 0 <= j < n -> 0 <= j' < n -> slot n k j = slot n k j' -> j = j'.
Proof.
  unfold slot. intros Hj Hj' H.
  assert (n <> 0) as Hn by lia. apply Z.cong_iff_0 in H. replace (k + j - (k + j')) with (j - j') in H by lia.
  apply Z.mod_divide in H as [q Hq]; [|done].
  destruct (Z.lt_trichotomy q 0) as [Hq0|[->|Hq0]]; [|lia|].
  - assert (q * n <= - 1 * n) by (apply Z.mul_le_mono_nonneg_r; lia). lia.
  - assert (1 * n <= q * n) by (apply Z.mul_le_mono_nonneg_r; lia). lia.
Qed.

(** Every bucket is visited. *)
Lemma slot_surj n k i : 0 <= i < n -> exists j, 0 <= j < n /\ slot n k j = i.
Proof.
  intros Hi. exists ((i - k) mod n). split; [apply Z.mod_pos_bound; lia|]. unfold slot.
  rewrite Zplus_mod_idemp_r. replace (k + (i - k)) with i by lia. by apply Z.mod_small.
Qed.

Lemma Probe_slot n k j :
  0 < n < 2 ^ 62 -> 0 <= j < n ->
  Probe j (slot n k j) n = (negb (n <=? j + 1), j + 1, slot n k (j + 1)).
Proof.
  intros Hn Hj. unfold Probe. pose proof (slot_range n k j ltac:(lia)) as Hs.
  rewrite !u64_small by lia. do 2 f_equal.
  unfold slot in *. replace (k + (j + 1)) with ((k + j) + 1) by lia.
  destruct (Z.leb_spec n ((k + j) mod n + 1)).
  - by rewrite Zplus_mod_idemp_l.
  - rewrite <- (Zplus_mod_idemp_l (k + j)). by rewrite (Z.mod_small (_ + 1)) by lia.
Qed.

Section Correct.
Context {B V : Type} `{!Bucket B V} {good_key : Z -> Prop} {good_value : V -> Prop}.
Context `{!BucketLaws B V good_key good_value}.

(** ** The map of the buckets *)

Definition entry_of (b : B) : entry V := if IsDeleted b then Dead else Live (Value b).

Definition lives (bs : list B) : list B := filter (fun b => IsEmpty b = false) bs.
#[local] Arguments lives : simpl never.

Definition contents (bs : list B) : gmap Z (entry V) :=
  list_to_map ((fun b => (Key b, entry_of b)) <$> lives bs).

Definition lv (b : B) : list B := if IsEmpty b then [] else [b].

Lemma lives_cons b bs : lives (b :: bs) = lv b ++ lives bs.
Proof. unfold lives, lv. rewrite filter_cons. destruct (IsEmpty b); by case_decide. Qed.

Lemma lives_app bs bs' : lives (bs ++ bs') = lives bs ++ lives bs'.
Proof. apply filter_app. Qed.

(** Overwriting a bucket. *)
Lemma lives_insert bs i o b :
  bs !! i = Some o -> lives (<[i := b]> bs) ++ lv o ≡ₚ lives bs ++ lv b.
Proof.
  revert i. induction bs as [|x bs IH]; intros i Hi; [done|]. destruct i as [|i]; cbn in Hi |- *.
  - simplify_eq. rewrite !lives_cons. rewrite <- !app_assoc, (Permutation_app_comm (lv o)).
    rewrite (Permutation_app_comm (lives bs) (lv b)), app_assoc. done.
  - rewrite !lives_cons, <- !app_assoc. by rewrite IH.
Qed.

Lemma lives_elem bs b : b ∈ lives bs <-> IsEmpty b = false /\ exists i, bs !! i = Some b.
Proof. unfold lives. rewrite list_elem_of_filter, list_elem_of_lookup. done. Qed.

Lemma lives_length bs : (length (lives bs) <= length bs)%nat.
Proof. apply length_filter. Qed.

(** Fewer live buckets than buckets: some bucket is empty. *)
Lemma lives_room bs : (length (lives bs) < length bs)%nat -> exists i b, bs !! i = Some b /\ IsEmpty b = true.
Proof.
  induction bs as [|x bs IH]; cbn [length]; [lia|]. rewrite lives_cons, length_app. unfold lv.
  destruct (IsEmpty x) eqn:E; cbn [length]; intros H.
  - by exists 0%nat, x.
  - destruct IH as (i & b & Hi & Hb); [lia|]. by exists (S i), b.
Qed.

(** ** Tables *)

(** Bucket [i] is occupied. *)
Definition occupied (bs : list B) (i : Z) : Prop := exists b, bs !! Z.to_nat i = Some b /\ IsEmpty b = false.

(** Key [k] at [i]: the buckets visited before it satisfy [P]. *)
Definition path (n : Z) (P : Z -> Prop) (k i : Z) : Prop :=
  exists j, 0 <= j < n /\ i = slot n k j /\ forall j', 0 <= j' < j -> P (slot n k j').

(** The invariant of the first [n] buckets. *)
Record wf_buckets (n : Z) (bs : list B) : Prop := {
  wf_count : 0 < n < 2 ^ 62;
  wf_len : n <= Z.of_nat (length bs);
  wf_keys : Forall (fun b => good_key (Key b)) (lives (take (Z.to_nat n) bs));
  wf_distinct : NoDup (Key <$> lives (take (Z.to_nat n) bs));
  wf_probing : forall i b, 0 <= i < n -> bs !! Z.to_nat i = Some b -> IsEmpty b = false ->
    path n (occupied bs) (Key b) i
}.

Lemma wf_lookup n bs i : wf_buckets n bs -> 0 <= i < n -> exists b, bs !! Z.to_nat i = Some b.
Proof. intros [Hn Hl _ _ _] Hi. apply lookup_lt_is_Some_2. lia. Qed.

Lemma live_in n bs i b :
  0 <= i < n -> bs !! Z.to_nat i = Some b -> IsEmpty b = false -> b ∈ lives (take (Z.to_nat n) bs).
Proof.
  intros Hi Hb He. apply lives_elem. split; [done|]. exists (Z.to_nat i). rewrite lookup_take_lt by lia. done.
Qed.

Lemma live_at n bs b : b ∈ lives (take (Z.to_nat n) bs) -> IsEmpty b = false /\ exists i, 0 <= i < n /\ bs !! Z.to_nat i = Some b.
Proof.
  intros Hb. apply lives_elem in Hb as [He [i Hi]]. split; [done|].
  apply lookup_take_Some in Hi as [Hi Hlt]. exists (Z.of_nat i). rewrite Nat2Z.id. split; [lia|done].
Qed.

(** ** Finding a bucket *)

(** The bucket at which a probe stops. *)
Definition stops (b : B) (k : Z) : bool := IsEmpty b || IsEqual b k.

Lemma findLoop_ok n bs k fuel j :
  0 < n < 2 ^ 62 -> n <= Z.of_nat (length bs) -> 0 <= j < n -> n - j <= Z.of_nat fuel ->
  exists r, findLoop fuel bs k n j (slot n k j) = Ok r /\
    match r with
    | Some i => exists j' b, j <= j' < n /\ i = slot n k j' /\ bs !! Z.to_nat i = Some b /\ stops b k = true /\
        forall j'', j <= j'' < j' -> exists b', bs !! Z.to_nat (slot n k j'') = Some b' /\ stops b' k = false
    | None => forall j', j <= j' < n -> exists b', bs !! Z.to_nat (slot n k j') = Some b' /\ stops b' k = false
    end.
Proof.
  intros Hn Hl. revert j. induction fuel as [|fuel IH]; intros j Hj Hf; [lia|]. cbn [findLoop].
  pose proof (slot_range n k j ltac:(lia)) as Hs.
  destruct (lookup_lt_is_Some_2 bs (Z.to_nat (slot n k j))) as [b Hb]; [lia|].
  rewrite Hb. cbn [deref res_bind]. fold (stops b k). destruct (stops b k) eqn:Hstop.
  { eexists. split; [reflexivity|]. exists j, b. split_and!; [lia..|done|done|done|]. intros; lia. }
  rewrite Probe_slot by lia. destruct (Z.leb_spec n (j + 1)); cbn [negb].
  { eexists. split; [reflexivity|]. intros j' Hj'. assert (j' = j) as -> by lia. eauto. }
  destruct (IH (j + 1)) as (r & -> & Hr); [lia..|]. exists r. split; [done|].
  destruct r as [i|].
  - destruct Hr as (j' & b' & Hj' & Hi & Hb' & Hs' & Hbefore). exists j', b'. split_and!; try done; [lia..|].
    intros j'' Hj''. destruct (decide (j'' = j)) as [->|]; [eauto|]. apply Hbefore. lia.
  - intros j' Hj'. destruct (decide (j' = j)) as [->|]; [eauto|]. apply Hr. lia.
Qed.

Definition keys (n : Z) (bs : list B) : list Z := Key <$> lives (take (Z.to_nat n) bs).

Lemma stops_full b k : good_key k -> stops b k = false -> IsEmpty b = false /\ Key b <> k.
Proof.
  intros Hk. unfold stops. intros [He Hq]%orb_false_iff. split; [done|].
  rewrite (law_equal b k Hk He) in Hq. by apply Z.eqb_neq.
Qed.

Lemma stops_cases b k : good_key k -> stops b k = true -> IsEmpty b = true \/ IsEmpty b = false /\ Key b = k.
Proof.
  intros Hk. unfold stops. destruct (IsEmpty b) eqn:He; [by left|]. cbn. intros Hq. right. split; [done|].
  rewrite (law_equal b k Hk He) in Hq. by apply Z.eqb_eq.
Qed.

Lemma keys_at n bs k : k ∈ keys n bs <-> exists i b, 0 <= i < n /\ bs !! Z.to_nat i = Some b /\ IsEmpty b = false /\ Key b = k.
Proof.
  unfold keys. rewrite list_elem_of_fmap. split.
  - intros (b & -> & Hb). apply live_at in Hb as [He (i & Hi & Hb)]. eauto 8.
  - intros (i & b & Hi & Hb & He & <-). exists b. split; [done|]. by eapply live_in.
Qed.

(** What [InternalFindBucket] finds. *)
Definition found (n : Z) (bs : list B) (k : Z) (r : option Z) : Prop :=
  match r with
  | Some i => 0 <= i < n /\ path n (occupied bs) k i /\ exists b, bs !! Z.to_nat i = Some b /\
      ((IsEmpty b = true /\ k ∉ keys n bs) \/ (IsEmpty b = false /\ Key b = k))
  | None => (k ∉ keys n bs) /\ (forall i, 0 <= i < n -> occupied bs i)
  end.

Lemma find_ok n bs k :
  wf_buckets n bs -> good_key k ->
  exists r, findLoop (S (Z.to_nat n)) bs k n 0 (k mod n) = Ok r /\ found n bs k r.
Proof.
  intros [Hn Hl Hgood Hnd Hprobe] Hk.
  destruct (findLoop_ok n bs k (S (Z.to_nat n)) 0) as (r & Hr & Hspec); [lia..|].
  replace (slot n k 0) with (k mod n) in Hr by (unfold slot; f_equal; lia).
  exists r. split; [done|]. destruct r as [i|]; cbn.
  - destruct Hspec as (j & b & Hj & -> & Hb & Hstop & Hbefore).
    assert (forall j', 0 <= j' < j -> exists b', bs !! Z.to_nat (slot n k j') = Some b' /\ IsEmpty b' = false /\ Key b' <> k)
      as Hbefore'.
    { intros j' Hj'. destruct (Hbefore j' Hj') as (b' & Hb' & Hs). exists b'. split; [done|]. by apply stops_full. }
    split; [apply slot_range; lia|]. split.
    { exists j. split_and!; [lia..|done|]. intros j' Hj'. destruct (Hbefore' j' Hj') as (b' & ? & ? & _). by exists b'. }
    exists b. split; [done|]. destruct (stops_cases b k Hk Hstop) as [He|[He Hkey]]; [left|by right].
    split; [done|]. rewrite keys_at. intros (i & b0 & Hi & Hb0 & He0 & Hk0).
    destruct (Hprobe i b0 Hi Hb0 He0) as (j0 & Hj0 & Hi0 & Hocc). rewrite Hk0 in Hi0, Hocc. subst i.
    destruct (Z.lt_trichotomy j0 j) as [Hlt|[->|Hlt]].
    + destruct (Hbefore' j0 ltac:(lia)) as (b' & Hb' & _ & Hne). congruence.
    + congruence.
    + destruct (Hocc j ltac:(lia)) as (b' & Hb' & He'). congruence.
  - assert (forall i, 0 <= i < n -> exists b', bs !! Z.to_nat i = Some b' /\ IsEmpty b' = false /\ Key b' <> k) as Hall.
    { intros i Hi. destruct (slot_surj n k i Hi) as (j & Hj & <-). destruct (Hspec j Hj) as (b' & Hb' & Hs).
      exists b'. split; [done|]. by apply stops_full. }
    split.
    + rewrite keys_at. intros (i & b0 & Hi & Hb0 & He0 & Hk0). destruct (Hall i Hi) as (b' & Hb' & _ & Hne). congruence.
    + intros i Hi. destruct (Hall i Hi) as (b' & ? & ? & _). by exists b'.
Qed.

(** ** Writing a bucket *)

Lemma take_insert_in (n : Z) (bs : list B) (i : Z) (b : B) :
  0 <= i < n -> take (Z.to_nat n) (<[Z.to_nat i := b]> bs) = <[Z.to_nat i := b]> (take (Z.to_nat n) bs).
Proof. intros Hi. rewrite take_insert_lt by lia. done. Qed.

Lemma lives_write n bs i o b :
  0 <= i < n -> bs !! Z.to_nat i = Some o ->
  lives (take (Z.to_nat n) (<[Z.to_nat i := b]> bs)) ++ lv o ≡ₚ lives (take (Z.to_nat n) bs) ++ lv b.
Proof.
  intros Hi Ho. rewrite take_insert_in by done. apply lives_insert. rewrite lookup_take_lt by lia. done.
Qed.

Lemma lv_full b : IsEmpty b = false -> lv b = [b].
Proof. unfold lv. by intros ->. Qed.
Lemma lv_empty b : IsEmpty b = true -> lv b = [].
Proof. unfold lv. by intros ->. Qed.

Lemma occupied_write bs i b j :
  IsEmpty b = false -> occupied bs j -> occupied (<[Z.to_nat i := b]> bs) j.
Proof.
  intros He (b' & Hb' & He'). destruct (decide (Z.to_nat i = Z.to_nat j)) as [Heq|Hne].
  - exists b. rewrite Heq. split; [|done]. apply list_lookup_insert_eq. by eapply lookup_lt_Some.
  - exists b'. by rewrite list_lookup_insert_ne.
Qed.

Lemma path_mono n (P P' : Z -> Prop) k i : (forall j, P j -> P' j) -> path n P k i -> path n P' k i.
Proof. intros H (j & Hj & Hi & Hp). exists j. split_and!; [lia..|done|]. intros. by apply H, Hp. Qed.

(** Writing a bucket with key [k] over an empty bucket when [k] is new, or over the bucket of [k]. *)
Definition overwrites (n : Z) (bs : list B) (k : Z) (o : B) : Prop :=
  (IsEmpty o = true /\ k ∉ keys n bs) \/ (IsEmpty o = false /\ Key o = k).

Lemma put_lives n bs k i o b :
  0 <= i < n -> bs !! Z.to_nat i = Some o -> IsEmpty b = false -> Key b = k -> overwrites n bs k o ->
  exists r, lives (take (Z.to_nat n) (<[Z.to_nat i := b]> bs)) ≡ₚ b :: r /\
    (lives (take (Z.to_nat n) bs) ≡ₚ r /\ k ∉ keys n bs \/
     exists o, lives (take (Z.to_nat n) bs) ≡ₚ o :: r /\ Key o = k).
Proof.
  intros Hi Ho He Hkey Hcase. pose proof (lives_write n bs i o b Hi Ho) as Hperm. rewrite (lv_full b He) in Hperm.
  set (ws := lives (take (Z.to_nat n) bs)) in *. destruct Hcase as [ [Heo Hnew]|[Heo Hko]].
  - rewrite (lv_empty o Heo), app_nil_r in Hperm. exists ws. split; [by rewrite Hperm, Permutation_app_comm|by left].
  - rewrite (lv_full o Heo) in Hperm.
    assert (o ∈ ws) as Hin by (by eapply live_in). apply list.elem_of_Permutation in Hin as [r Hr].
    exists r. split; [|right; by exists o]. rewrite Hr in Hperm. apply (Permutation_app_inv_r [o]).
    rewrite Hperm, (Permutation_app_comm (o :: r) [b]), (Permutation_app_comm (b :: r) [o]). apply perm_swap.
Qed.

(** What such a write does to the keys and the map. *)
Lemma put_ok n bs k i o b :
  0 <= i < n -> bs !! Z.to_nat i = Some o -> IsEmpty b = false -> Key b = k -> overwrites n bs k o ->
  NoDup (keys n bs) -> Forall (fun b => good_key (Key b)) (lives (take (Z.to_nat n) bs)) -> good_key k ->
  NoDup (keys n (<[Z.to_nat i := b]> bs)) /\
  Forall (fun b => good_key (Key b)) (lives (take (Z.to_nat n) (<[Z.to_nat i := b]> bs))) /\
  contents (take (Z.to_nat n) (<[Z.to_nat i := b]> bs)) = <[k := entry_of b]> (contents (take (Z.to_nat n) bs)) /\
  (length (lives (take (Z.to_nat n) (<[Z.to_nat i := b]> bs))) =
   length (lives (take (Z.to_nat n) bs)) + (if decide (k ∈ keys n bs) then 0 else 1))%nat.
Proof.
  intros Hi Ho He Hkey Hcase Hnd Hgood Hk.
  destruct (put_lives n bs k i o b Hi Ho He Hkey Hcase) as (r & Hws' & Hws). unfold keys in *.
  set (ws := lives (take (Z.to_nat n) bs)) in *. set (ws' := lives (take (Z.to_nat n) (<[Z.to_nat i := b]> bs))) in *.
  assert (Hk' : Key <$> ws' ≡ₚ k :: (Key <$> r)) by (rewrite Hws'; cbn; by rewrite Hkey).
  assert (Hnd' : NoDup (k :: (Key <$> r))).
  { destruct Hws as [ [Hws Hnew]|(o' & Hws & Hko)].
    - rewrite Hws in Hnd, Hnew. by constructor.
    - rewrite Hws in Hnd. cbn in Hnd. by rewrite Hko in Hnd. }
  split_and!.
  - by rewrite Hk'.
  - rewrite Hws'. rewrite Forall_cons. split; [by rewrite Hkey|].
    destruct Hws as [ [Hws _]|(o' & Hws & _)]; rewrite Hws in Hgood; [done|]. by apply Forall_cons in Hgood as [_ ?].
  - unfold contents. fold ws ws'.
    rewrite (list_to_map_proper _ ((fun b => (Key b, entry_of b)) <$> b :: r)).
    2:{ rewrite <- list_fmap_compose. change (NoDup (Key <$> ws')). by rewrite Hk'. }
    2:{ by rewrite Hws'. }
    cbn. rewrite Hkey. destruct Hws as [ [Hws _]|(o' & Hws & Hko)].
    + f_equal. apply list_to_map_proper; [|by rewrite Hws].
      rewrite <- list_fmap_compose. change (NoDup (Key <$> r)). by apply NoDup_cons in Hnd' as [_ ?].
    + rewrite (list_to_map_proper (_ <$> ws) ((fun b => (Key b, entry_of b)) <$> o' :: r)).
      * cbn. rewrite Hko. by rewrite insert_insert_eq.
      * rewrite <- list_fmap_compose. exact Hnd.
      * by rewrite Hws.
  - rewrite Hws'. cbn [length]. destruct Hws as [ [Hws Hnew]|(o' & Hws & Hko)].
    + rewrite decide_False by exact Hnew. rewrite Hws. lia.
    + rewrite decide_True; [rewrite Hws; cbn; lia|]. rewrite Hws. cbn. rewrite Hko. left.
Qed.

(** Writing the key of a found bucket keeps the invariant and adds the key to the map. *)
Lemma write_ok n bs k i b :
  wf_buckets n bs -> good_key k -> found n bs k (Some i) -> IsEmpty b = false -> Key b = k ->
  wf_buckets n (<[Z.to_nat i := b]> bs) /\
  contents (take (Z.to_nat n) (<[Z.to_nat i := b]> bs)) = <[k := entry_of b]> (contents (take (Z.to_nat n) bs)) /\
  (length (lives (take (Z.to_nat n) (<[Z.to_nat i := b]> bs))) =
   length (lives (take (Z.to_nat n) bs)) + (if decide (k ∈ keys n bs) then 0 else 1))%nat.
Proof.
  intros Hwf Hk (Hi & Hpath & o & Ho & Hcase) He Hkey. pose proof Hwf as [Hn Hl Hgood Hnd Hprobe].
  destruct (put_ok n bs k i o b Hi Ho He Hkey Hcase Hnd Hgood Hk) as (P1 & P2 & P3 & P4).
  split; [|done]. split; [done|by rewrite length_insert|done|done|].
  intros j b' Hj Hb' He'. apply (path_mono n (occupied bs)); [intros ?; by apply occupied_write|].
  destruct (decide (Z.to_nat i = Z.to_nat j)) as [Heq|Hne].
  - rewrite Heq, list_lookup_insert_eq in Hb' by (apply lookup_lt_Some in Ho; lia). injection Hb' as <-.
    replace j with i by lia. by rewrite Hkey.
  - rewrite list_lookup_insert_ne in Hb' by done. by apply Hprobe.
Qed.

(** ** The operations on the map *)

Definition wf_table (t : Table B) : Prop := wf_buckets (_bucketCount t) (_bucket t).
Definition tmap (t : Table B) : gmap Z (entry V) := contents (take (Z.to_nat (_bucketCount t)) (_bucket t)).

Lemma contents_lookup n bs k :
  match contents (take (Z.to_nat n) bs) !! k with
  | Some e => exists b, b ∈ lives (take (Z.to_nat n) bs) /\ Key b = k /\ entry_of b = e
  | None => k ∉ keys n bs
  end.
Proof.
  unfold contents. destruct (list_to_map _ !! k) as [e|] eqn:E.
  - apply elem_of_list_to_map_2, list_elem_of_fmap in E as (b & [= -> ->] & Hb). by exists b.
  - apply not_elem_of_list_to_map_2 in E. rewrite <- list_fmap_compose in E. exact E.
Qed.

Lemma contents_some n bs b :
  NoDup (keys n bs) -> b ∈ lives (take (Z.to_nat n) bs) ->
  contents (take (Z.to_nat n) bs) !! Key b = Some (entry_of b).
Proof.
  intros Hnd Hb. unfold contents. apply elem_of_list_to_map_1.
  - rewrite <- list_fmap_compose. exact Hnd.
  - apply list_elem_of_fmap. by exists b.
Qed.

Lemma contents_none n bs k : k ∉ keys n bs -> contents (take (Z.to_nat n) bs) !! k = None.
Proof.
  intros Hk. unfold contents. apply not_elem_of_list_to_map_1. rewrite <- list_fmap_compose. exact Hk.
Qed.

Lemma contents_size n bs :
  NoDup (keys n bs) -> size (contents (take (Z.to_nat n) bs)) = length (lives (take (Z.to_nat n) bs)).
Proof.
  intros Hnd. unfold contents. rewrite map_size_list_to_map.
  - by rewrite length_fmap.
  - rewrite <- list_fmap_compose. exact Hnd.
Qed.

(** What the bucket found says about the map. *)
Lemma found_map n bs k r :
  wf_buckets n bs -> found n bs k r ->
  match r with
  | Some i => exists b, bs !! Z.to_nat i = Some b /\
      contents (take (Z.to_nat n) bs) !! k = (if IsEmpty b then None else Some (entry_of b)) /\
      (IsEmpty b = true -> (size (contents (take (Z.to_nat n) bs)) < Z.to_nat n)%nat)
  | None => contents (take (Z.to_nat n) bs) !! k = None /\ (size (contents (take (Z.to_nat n) bs)) = Z.to_nat n)%nat
  end.
Proof.
  intros Hwf Hfound. pose proof Hwf as [Hn Hl _ Hnd _]. rewrite !contents_size by done.
  destruct r as [i|]; cbn in Hfound.
  - destruct Hfound as (Hi & _ & b & Hb & Hcase). exists b. split; [done|].
    destruct Hcase as [ [He Hk]|[He <-]]; rewrite He.
    + split; [by apply contents_none|]. intros _.
      assert (exists l1 l2, take (Z.to_nat n) bs = l1 ++ b :: l2) as (l1 & l2 & Hsplit).
      { exists (take (Z.to_nat i) (take (Z.to_nat n) bs)), (drop (S (Z.to_nat i)) (take (Z.to_nat n) bs)).
        symmetry. apply take_drop_middle. by rewrite lookup_take_lt by lia. }
      assert (length (take (Z.to_nat n) bs) = Z.to_nat n) as Hlen by (rewrite length_take; lia).
      rewrite Hsplit in Hlen |- *. rewrite <- Hlen, lives_app, lives_cons, lv_empty by done. rewrite !length_app. cbn [length app].
      pose proof (lives_length l1). pose proof (lives_length l2). lia.
    + split; [|done]. apply contents_some; [done|]. by eapply live_in.
  - destruct Hfound as [Hk Hall]. split; [by apply contents_none|].
    assert (length (take (Z.to_nat n) bs) = Z.to_nat n) as Hlen by (rewrite length_take; lia).
    pose proof (lives_length (take (Z.to_nat n) bs)).
    destruct (decide (length (lives (take (Z.to_nat n) bs)) < length (take (Z.to_nat n) bs))%nat) as [Hlt|]; [|lia].
    destruct (lives_room _ Hlt) as (i & b & Hb & He). apply lookup_take_Some in Hb as [Hb Hi].
    destruct (Hall (Z.of_nat i) ltac:(lia)) as (b' & Hb' & He'). rewrite Nat2Z.id in Hb'. congruence.
Qed.

Lemma InternalFindBucket_ok t k :
  wf_table t -> good_key k ->
  exists r, InternalFindBucket t k = Ok r /\ found (_bucketCount t) (_bucket t) k r.
Proof.
  intros Hwf Hk. destruct (find_ok _ _ k Hwf Hk) as (r & Hr & Hf). exists r. split; [|done].
  unfold InternalFindBucket. destruct Hwf as [Hn _ _ _ _]. by rewrite (proj2 (Z.eqb_neq _ _)) by lia.
Qed.

(** [Find] and [FindForReadWrite]: the status, and the value of a key that is live. *)
Definition find_spec (e : option (entry V)) (r : Status * option V) : Prop :=
  match e with
  | None => r = (NOT_FOUND, None)
  | Some (Live v) => r = (OK, Some v)
  | Some Dead => fst r = DELETED
  end.

Lemma Find_ok t k :
  wf_table t -> good_key k -> exists r, Find t k = Ok r /\ find_spec (tmap t !! k) r.
Proof.
  intros Hwf Hk. destruct (InternalFindBucket_ok t k Hwf Hk) as (r & Hr & Hf). unfold Find. rewrite Hr.
  cbn [res_bind]. pose proof (found_map _ _ _ _ Hwf Hf) as Hmap. destruct r as [i|].
  - destruct Hmap as (b & Hb & Hl & _). rewrite Hb. cbn [deref res_bind]. unfold tmap. rewrite Hl.
    destruct (IsEmpty b); eexists; (split; [reflexivity|]); [done|]. cbn. unfold entry_of.
    by destruct (IsDeleted b).
  - destruct Hmap as [Hl _]. unfold tmap. rewrite Hl. by eexists.
Qed.

Lemma FindForReadWrite_Find t k : FindForReadWrite t k = Find t k.
Proof.
  unfold FindForReadWrite, Find. destruct (InternalFindBucket t k) as [ [i|]| | |]; cbn [res_bind]; try done.
  destruct (deref _) as [b| | |]; cbn [res_bind]; try done. rewrite law_pair. done.
Qed.

Definition is_dead (e : option (entry V)) : bool := match e with Some Dead => true | _ => false end.

(** A table that differs in its buckets and counts only. *)
Definition same_shape (t t' : Table B) : Prop :=
  _bucketCount t' = _bucketCount t /\ _occupancyPct t' = _occupancyPct t /\
  length (_bucket t') = length (_bucket t).

(** Inserting through a functor that writes the key and the entry [e]. *)
Lemma InternalInsert_ok (functor : B -> Z -> V -> Z -> B * Z) (dc : bool -> Z -> Z) k v e t :
  wf_table t -> good_key k ->
  (forall b n, IsEmpty (fst (functor b k v n)) = false /\ Key (fst (functor b k v n)) = k /\
     entry_of (fst (functor b k v n)) = e /\ snd (functor b k v n) = dc (IsDeleted b) n) ->
  (tmap t !! k = None /\ size (tmap t) = Z.to_nat (_bucketCount t) /\ InternalInsert functor k v t = Ok (false, t)) \/
  ((tmap t !! k = None -> (size (tmap t) < Z.to_nat (_bucketCount t))%nat) /\
   exists t', InternalInsert functor k v t = Ok (true, t') /\ wf_table t' /\ same_shape t t' /\
     tmap t' = <[k := e]> (tmap t) /\
     keyCount t' = (match tmap t !! k with Some _ => keyCount t | None => u64 (keyCount t + 1) end) /\
     _deleteCount t' = dc (is_dead (tmap t !! k)) (_deleteCount t)).
Proof.
  intros Hwf Hk Hfun. destruct (InternalFindBucket_ok t k Hwf Hk) as (r & Hr & Hf).
  unfold InternalInsert. rewrite Hr. cbn [res_bind]. pose proof (found_map _ _ _ _ Hwf Hf) as Hmap.
  destruct r as [i|]; [right|left; by destruct Hmap].
  destruct Hmap as (b & Hb & Hl & Hroom). fold (tmap t) in Hl, Hroom. split.
  { rewrite Hl. destruct (IsEmpty b); [by intros _; apply Hroom|done]. }
  rewrite Hb. cbn [deref res_bind]. destruct (Hfun b (_deleteCount t)) as (He & Hkey & Hent & Hdc).
  destruct (functor b k v (_deleteCount t)) as [b' dc'] eqn:E. cbn [fst snd] in *.
  destruct (write_ok _ _ k i b' Hwf Hk Hf He Hkey) as (Hwf' & Hmap' & _).
  eexists. split; [reflexivity|]. split; [exact Hwf'|]. split; [|split; [|split]].
  - unfold same_shape. cbn. by rewrite length_insert.
  - unfold tmap. cbn. by rewrite Hmap', Hent.
  - cbn. rewrite Hl. by destruct (IsEmpty b).
  - cbn. rewrite Hl, Hdc. f_equal. destruct (IsEmpty b) eqn:Eb; [by apply law_deleted_full|].
    cbn. unfold entry_of. by destruct (IsDeleted b).
Qed.

(** [Insert] and [Delete] are insertions into the map; they fail only for a new key in a full table. *)
Definition insert_spec (dc : bool -> Z -> Z) (k : Z) (e : entry V) (t : Table B) (r : res (bool * Table B)) : Prop :=
  (tmap t !! k = None /\ size (tmap t) = Z.to_nat (_bucketCount t) /\ r = Ok (false, t)) \/
  ((tmap t !! k = None -> (size (tmap t) < Z.to_nat (_bucketCount t))%nat) /\
   exists t', r = Ok (true, t') /\ wf_table t' /\ same_shape t t' /\ tmap t' = <[k := e]> (tmap t) /\
     keyCount t' = (match tmap t !! k with Some _ => keyCount t | None => u64 (keyCount t + 1) end) /\
     _deleteCount t' = dc (is_dead (tmap t !! k)) (_deleteCount t)).

Definition insert_dc (dead : bool) (n : Z) : Z := if dead then u64 (n - 1) else n.
Definition delete_dc (dead : bool) (n : Z) : Z := if dead then n else u64 (n + 1).

Lemma Insert_ok k v t :
  wf_table t -> good_key k -> good_value v -> insert_spec insert_dc k (Live v) t (Insert k v t).
Proof.
  intros Hwf Hk Hv. apply (InternalInsert_ok InsertFunctor insert_dc k v (Live v) t Hwf Hk).
  intros b n. cbn. destruct (law_set b k v Hk Hv) as (H1 & H2 & H3 & H4). unfold entry_of. rewrite H2, H4.
  by split_and!.
Qed.

Lemma Delete_ok default k v t :
  wf_table t -> good_key k -> insert_spec delete_dc k Dead t (Delete default k v t).
Proof.
  intros Hwf Hk. apply (InternalInsert_ok DeleteFunctor delete_dc k _ Dead t Hwf Hk).
  intros b n. cbn. destruct (law_delete b k (match v with Some v => v | None => default end) Hk) as (H1 & H2 & H3).
  unfold entry_of. rewrite H2. by split_and!.
Qed.

(** A table that has just been mounted is empty. *)
Lemma lives_new n : lives (replicate n new_Bucket) = [].
Proof.
  induction n as [|n IH]; [done|]. cbn [replicate]. rewrite lives_cons, IH.
  unfold lv. by rewrite law_new.
Qed.

Lemma mounted_ok n m :
  0 < n < 2 ^ 62 -> (Z.to_nat n <= m)%nat -> wf_buckets n (replicate m new_Bucket) /\
    contents (take (Z.to_nat n) (replicate m new_Bucket)) = ∅.
Proof.
  intros Hn Hm. assert (take (Z.to_nat n) (replicate m new_Bucket) = replicate (Z.to_nat n) new_Bucket) as Ht.
  { rewrite take_replicate. f_equal. lia. }
  split; [split|].
  - done.
  - rewrite length_replicate. lia.
  - rewrite Ht, lives_new. constructor.
  - rewrite Ht, lives_new. constructor.
  - intros i b Hi Hb He. apply lookup_replicate in Hb as [-> _]. by rewrite law_new in He.
  - unfold contents. by rewrite Ht, lives_new.
Qed.
End Correct.
