(* ===== verification/DenseHashTableShrink.v ===== *)
(** * The dense hash table: shrinking in place

    [Shrink] (src/aios/storage/indexlib/index/common/hash_table/DenseHashTable.h) places the buckets again
    for a smaller number of buckets without other memory: the buckets of the new region first, with
    evictions, then those behind it. The map is proved to be kept. *)

From stdpp Require Import base list numbers option tactics gmap.
From Stdlib Require Import ZArith Lia ZifyNat.
From S2P Require Import Prelude HashBucket DenseHashTable DenseHashTableCorrect.

#[local] Open Scope Z_scope.

(** The buckets that are still to be processed. *)
Definition falses (P : list bool) : nat := length (filter (fun x => x = false) P).

#[local] Arguments falses : simpl never.

Lemma falses_cons x P : falses (x :: P) = ((if x : bool then 0 else 1) + falses P)%nat.
Proof. unfold falses. rewrite filter_cons. destruct x; by case_decide. Qed.

Lemma falses_mark P i : P !! i = Some false -> S (falses (<[i := true]> P)) = falses P.
Proof.
  revert i. induction P as [|x P IH]; intros i Hi; [done|]. destruct i as [|i]; cbn in Hi.
  - simplify_eq. change (<[0%nat := true]> (false :: P)) with (true :: P). by rewrite !falses_cons.
  - change (<[S i := true]> (x :: P)) with (x :: <[i := true]> P). rewrite !falses_cons. specialize (IH i Hi). lia.
Qed.

Lemma falses_length P : (falses P <= length P)%nat.
Proof. apply length_filter. Qed.

Section Shrink.
Context {B V : Type} `{!Bucket B V} {good_key : Z -> Prop} {good_value : V -> Prop}.
Context `{!BucketLaws B V good_key good_value}.

Abbreviation region n bs := (lives (take (Z.to_nat n) bs)).
Abbreviation wf := (wf_table (good_key := good_key)).

(** Bucket [i] has been processed and is occupied: it stays where it is. *)
Definition placed (bs : list B) (P : list bool) (i : Z) : Prop := P !! Z.to_nat i = Some true /\ occupied bs i.

(** The invariant: the buckets that a placed key was probed past are placed. *)
Record shrinking (n : Z) (bs : list B) (P : list bool) : Prop := {
  sh_count : 0 < n < 2 ^ 62;
  sh_memory : n <= Z.of_nat (length bs);
  sh_bitmap : Z.of_nat (length P) = n;
  sh_path : forall i b, 0 <= i < n -> bs !! Z.to_nat i = Some b -> IsEmpty b = false ->
    P !! Z.to_nat i = Some true -> path n (placed bs P) (Key b) i
}.

Definition mark (i : Z) (P : list bool) : list bool := <[Z.to_nat i := true]> P.

Lemma mark_true i j P : P !! Z.to_nat j = Some true -> mark i P !! Z.to_nat j = Some true.
Proof.
  intros Hj. unfold mark. destruct (decide (Z.to_nat i = Z.to_nat j)) as [->|Hne].
  - apply list_lookup_insert_eq. by eapply lookup_lt_Some.
  - by rewrite list_lookup_insert_ne.
Qed.

Lemma mark_self i P : 0 <= i < Z.of_nat (length P) -> mark i P !! Z.to_nat i = Some true.
Proof. intros Hi. apply list_lookup_insert_eq. lia. Qed.

(** Placing a bucket at a free or unprocessed place. *)
Lemma placed_put bs P i b j : IsEmpty b = false -> placed bs P j -> placed (<[Z.to_nat i := b]> bs) (mark i P) j.
Proof. intros He [HP Ho]. split; [by apply mark_true|by apply occupied_write]. Qed.

Lemma shrinking_put n bs P i b :
  shrinking n bs P -> 0 <= i < n -> IsEmpty b = false -> path n (placed bs P) (Key b) i ->
  shrinking n (<[Z.to_nat i := b]> bs) (mark i P).
Proof.
  intros [Hn Hm Hb Hp] Hi He Hpath. split.
  - done.
  - by rewrite length_insert.
  - unfold mark. by rewrite length_insert.
  - intros j b' Hj Hb' He' HP. apply (path_mono n (placed bs P)); [intros ?; by apply placed_put|].
    destruct (decide (Z.to_nat i = Z.to_nat j)) as [Heq|Hne].
    + rewrite Heq, list_lookup_insert_eq in Hb' by lia. injection Hb' as <-. replace j with i by lia. done.
    + rewrite list_lookup_insert_ne in Hb' by done. apply Hp; [done..|].
      unfold mark in HP. by rewrite list_lookup_insert_ne in HP.
Qed.

(** Clearing an unprocessed place, or marking one that is empty. *)
Lemma placed_clear bs P i b j :
  P !! Z.to_nat i = Some false -> placed bs P j -> placed (<[Z.to_nat i := b]> bs) (mark i P) j.
Proof.
  intros Hi [HP (b' & Hb' & He')]. assert (Z.to_nat i <> Z.to_nat j) as Hne by (intros Heq; rewrite Heq in Hi; congruence).
  split; [by apply mark_true|]. exists b'. by rewrite list_lookup_insert_ne.
Qed.

Lemma shrinking_clear n bs P i b :
  shrinking n bs P -> 0 <= i < n -> IsEmpty b = true -> P !! Z.to_nat i = Some false ->
  shrinking n (<[Z.to_nat i := b]> bs) (mark i P).
Proof.
  intros [Hn Hm Hb Hp] Hi He HPi. split.
  - done.
  - by rewrite length_insert.
  - unfold mark. by rewrite length_insert.
  - intros j b' Hj Hb' He' HP. apply (path_mono n (placed bs P)); [intros ?; by apply placed_clear|].
    destruct (decide (Z.to_nat i = Z.to_nat j)) as [Heq|Hne].
    + rewrite Heq, list_lookup_insert_eq in Hb' by lia. injection Hb' as <-. congruence.
    + rewrite list_lookup_insert_ne in Hb' by done. apply Hp; [done..|].
      unfold mark in HP. by rewrite list_lookup_insert_ne in HP.
Qed.

(** What [EvictionInsert] leaves. *)
Record evicted (n : Z) (b : B) (bs : list B) (P : list bool) (bs' : list B) (P' : list bool) : Prop := {
  ev_shrinking : shrinking n bs' P';
  ev_lives : region n bs' ≡ₚ b :: region n bs;
  ev_rest : drop (Z.to_nat n) bs' = drop (Z.to_nat n) bs;
  ev_length : length bs' = length bs;
  ev_marks : forall i, P !! Z.to_nat i = Some true -> P' !! Z.to_nat i = Some true
}.

Lemma drop_write n (bs : list B) i (b : B) :
  0 <= i < n -> drop (Z.to_nat n) (<[Z.to_nat i := b]> bs) = drop (Z.to_nat n) bs.
Proof. intros Hi. rewrite drop_insert_lt by lia. done. Qed.

Lemma evictLoop_ok n fuel bs P b j ec :
  shrinking n bs P -> IsEmpty b = false -> 0 <= j < n ->
  (forall j', 0 <= j' < j -> placed bs P (slot n (Key b) j')) ->
  (exists i0 b0, 0 <= i0 < n /\ bs !! Z.to_nat i0 = Some b0 /\ IsEmpty b0 = true) ->
  0 <= ec -> ec + Z.of_nat (falses P) <= n ->
  Z.of_nat (falses P) * (n + 1) + (n - j) <= Z.of_nat fuel ->
  exists bs' P', evictLoop fuel bs P b n (slot n (Key b) j) j ec = Ok (true, bs', P') /\ evicted n b bs P bs' P'.
Proof.
  revert bs P b j ec. induction fuel as [|fuel IH]; intros bs P b j ec Hsh He Hj Hpl Hroom Hec0 Hec Hfuel; [nia|].
  pose proof Hsh as [Hn Hm Hbm Hp]. cbn [evictLoop].
  set (i := slot n (Key b) j). assert (Hi : 0 <= i < n) by (apply slot_range; lia).
  assert (Hpath : path n (placed bs P) (Key b) i) by (exists j; split_and!; (lia || done)).
  destruct (lookup_lt_is_Some_2 bs (Z.to_nat i)) as [o Ho]; [lia|].
  destruct (lookup_lt_is_Some_2 P (Z.to_nat i)) as [p HP]; [lia|].
  rewrite Ho, HP. cbn [deref res_bind]. destruct (IsEmpty o) eqn:Eo; [|destruct p].
  - do 2 eexists. split; [reflexivity|]. fold (mark i P). split.
    + by apply shrinking_put.
    + pose proof (lives_write n bs i o b Hi Ho) as Hl. rewrite (lv_empty o Eo), (lv_full b He), app_nil_r in Hl.
      by rewrite Hl, Permutation_app_comm.
    + by apply drop_write.
    + apply length_insert.
    + intros. by apply mark_true.
  - assert (Hpl' : forall j', 0 <= j' < j + 1 -> placed bs P (slot n (Key b) j')).
    { intros j' Hj'. destruct (decide (j' = j)) as [->|]; [|apply Hpl; lia]. split; [done|]. by exists o. }
    unfold i. rewrite Probe_slot by lia. destruct (Z.leb_spec n (j + 1)) as [Hle|Hlt]; cbn [negb].
    + exfalso. destruct Hroom as (i0 & b0 & Hi0 & Hb0 & Eb0).
      destruct (slot_surj n (Key b) i0 Hi0) as (j0 & Hj0 & <-).
      destruct (Hpl' j0 ltac:(lia)) as [_ (b1 & Hb1 & Eb1)]. congruence.
    + apply (IH bs P b (j + 1) ec); (done || lia).
  - rewrite (proj2 (Z.ltb_ge n (ec + 1))) by (rewrite <- (falses_mark P (Z.to_nat i) HP) in Hec; lia).
    fold (mark i P). pose proof (falses_mark P (Z.to_nat i) HP) as Hfm. fold (mark i P) in Hfm.
    destruct (IH (<[Z.to_nat i := b]> bs) (mark i P) o 0 (ec + 1)) as (bs' & P' & Heq & Hev).
    + by apply shrinking_put.
    + done.
    + lia.
    + intros; lia.
    + destruct Hroom as (i0 & b0 & Hi0 & Hb0 & Eb0). exists i0, b0. split; [done|]. split; [|done].
      rewrite list_lookup_insert_ne; [done|]. intros Heq. rewrite Heq in Ho. congruence.
    + lia.
    + lia.
    + nia.
    + exists bs', P'. split.
      { rewrite <- Heq. unfold slot. do 2 f_equal. lia. }
      destruct Hev as [E1 E2 E3 E4 E5]. split.
      * done.
      * rewrite E2. pose proof (lives_write n bs i o b Hi Ho) as Hl. rewrite (lv_full o Eo), (lv_full b He) in Hl.
        by rewrite (Permutation_app_comm _ [o]), (Permutation_app_comm _ [b]) in Hl.
      * rewrite E3. by apply drop_write.
      * rewrite E4. apply length_insert.
      * intros k Hk. apply E5. by apply mark_true.
Qed.

Lemma EvictionInsert_ok n bs P b :
  shrinking n bs P -> IsEmpty b = false ->
  (exists i0 b0, 0 <= i0 < n /\ bs !! Z.to_nat i0 = Some b0 /\ IsEmpty b0 = true) ->
  exists bs' P', EvictionInsert bs P n b = Ok (true, bs', P') /\ evicted n b bs P bs' P'.
Proof.
  intros Hsh He Hroom. unfold EvictionInsert. pose proof Hsh as [Hn Hm Hbm _]. pose proof (falses_length P).
  replace (Key b mod n) with (slot n (Key b) 0) by (unfold slot; f_equal; lia).
  apply evictLoop_ok; [done|done|lia|intros; lia|done|lia|lia|]. unfold evictFuel.
  assert (Z.of_nat (falses P) * (n + 1) <= n * (n + 1)) by (apply Z.mul_le_mono_nonneg_r; lia).
  rewrite Nat2Z.inj_mul, Nat2Z.inj_succ, Z2Nat.id by lia. nia.
Qed.

(** ** The first loop *)

(** The buckets of the region keep their keys and become probed correctly. *)
Record replaced (n : Z) (bs bs' : list B) : Prop := {
  rp_path : forall i b, 0 <= i < n -> bs' !! Z.to_nat i = Some b -> IsEmpty b = false -> path n (occupied bs') (Key b) i;
  rp_lives : region n bs' ≡ₚ region n bs;
  rp_rest : drop (Z.to_nat n) bs' = drop (Z.to_nat n) bs;
  rp_length : length bs' = length bs
}.

Lemma shrinkFirst_ok n m i bs P :
  shrinking n bs P -> 0 <= i -> i + Z.of_nat m = n -> (forall j, 0 <= j < i -> P !! Z.to_nat j = Some true) ->
  exists bs', shrinkFirst m i n bs P = Ok (true, bs') /\ replaced n bs bs'.
Proof.
  revert i bs P. induction m as [|m IH]; intros i bs P Hsh Hi Hm Hdone; cbn [shrinkFirst].
  { exists bs. split; [done|]. pose proof Hsh as [Hn _ Hbm Hp]. split; try done.
    intros j b Hj Hb He. apply (path_mono n (placed bs P)); [by intros ? []|]. apply Hp; [done..|]. apply Hdone. lia. }
  pose proof Hsh as [Hn Hmem Hbm Hp].
  destruct (lookup_lt_is_Some_2 bs (Z.to_nat i)) as [o Ho]; [lia|].
  destruct (lookup_lt_is_Some_2 P (Z.to_nat i)) as [p HP]; [lia|].
  rewrite Ho, HP. cbn [deref res_bind].
  assert (Hnext : forall P' : list bool, P' !! Z.to_nat i = Some true -> (forall j, P !! Z.to_nat j = Some true -> P' !! Z.to_nat j = Some true) ->
            forall j, 0 <= j < i + 1 -> P' !! Z.to_nat j = Some true).
  { intros P' H1 H2 j Hj. destruct (decide (j = i)) as [->|]; [done|]. apply H2, Hdone. lia. }
  destruct p; [|destruct (IsEmpty o) eqn:Eo].
  - apply IH; [done|lia|lia|]. by apply Hnext.
  - fold (mark i P). pose proof (shrinking_clear n bs P i o Hsh ltac:(lia) Eo HP) as Hsh'.
    rewrite list_insert_id in Hsh' by done. apply IH; [done|lia|lia|].
    apply Hnext; [apply mark_self; lia|intros; by apply mark_true].
  - fold (mark i P). pose proof (shrinking_clear n bs P i new_Bucket Hsh ltac:(lia) law_new HP) as Hsh'.
    destruct (EvictionInsert_ok n _ _ o Hsh' Eo) as (bs' & P' & -> & [E1 E2 E3 E4 E5]).
    { exists i, new_Bucket. split; [lia|]. split; [|apply law_new]. apply list_lookup_insert_eq. lia. }
    cbn [res_bind]. destruct (IH (i + 1) bs' P') as (bs2 & -> & [R1 R2 R3 R4]); [done|lia|lia| |].
    { apply Hnext; [apply E5, mark_self; lia|]. intros j Hj. by apply E5, mark_true. }
    exists bs2. split; [done|]. split.
    + done.
    + rewrite R2, E2. pose proof (lives_write n bs i o new_Bucket ltac:(lia) Ho) as Hl.
      rewrite (lv_full o Eo), (lv_empty new_Bucket law_new), app_nil_r in Hl.
      by rewrite (Permutation_app_comm _ [o]) in Hl.
    + rewrite R3, E3. apply drop_write. lia.
    + rewrite R4, E4. apply length_insert.
Qed.

(** ** The second loop *)

Lemma drop_S_lookup {A} (l : list A) i x : l !! i = Some x -> drop i l = x :: drop (S i) l.
Proof. intros. by apply drop_S. Qed.

Lemma shrinkSecond_ok n m i t :
  _bucketCount t = n -> wf t -> n <= i -> i + Z.of_nat m <= Z.of_nat (length (_bucket t)) ->
  let more := lives (take m (drop (Z.to_nat i) (_bucket t))) in
  NoDup (Key <$> region n (_bucket t) ++ more) -> Forall (fun b => good_key (Key b)) more ->
  (length (region n (_bucket t)) + length more <= Z.to_nat n)%nat ->
  exists t', shrinkSecond m i t = Ok (true, t') /\ wf t' /\ same_shape t t' /\
    region n (_bucket t') ≡ₚ region n (_bucket t) ++ more /\
    keyCount t' = keyCount t /\ _deleteCount t' = _deleteCount t.
Proof.
  revert i t. induction m as [|m IH]; intros i t Hn Hwf Hi Hlen more Hnd Hgood Hroom; cbn [shrinkSecond].
  { exists t. subst more. cbn. rewrite app_nil_r. by split_and!. }
  pose proof Hwf as [Hcount _ _ _ _]. rewrite Hn in Hcount.
  destruct (lookup_lt_is_Some_2 (_bucket t) (Z.to_nat i)) as [b Hb]; [lia|]. rewrite Hb. cbn [deref res_bind].
  assert (Hmore : more = lv b ++ lives (take m (drop (Z.to_nat (i + 1)) (_bucket t)))).
  { subst more. rewrite (drop_S_lookup _ _ b Hb). cbn [take]. rewrite lives_cons.
    by replace (S (Z.to_nat i)) with (Z.to_nat (i + 1)) by lia. }
  set (more' := lives (take m (drop (Z.to_nat (i + 1)) (_bucket t)))) in *.
  destruct (IsEmpty b) eqn:Eb.
  { rewrite (lv_empty b Eb) in Hmore. cbn in Hmore. rewrite Hmore in *. apply IH; (done || lia). }
  rewrite (lv_full b Eb) in Hmore. cbn in Hmore. rewrite Hmore in Hnd, Hgood, Hroom.
  apply Forall_cons in Hgood as [Hgb Hgood]. cbn [length] in Hroom.
  assert (Hnew : Key b ∉ keys n (_bucket t)).
  { unfold keys. rewrite fmap_app, fmap_cons in Hnd. apply NoDup_app in Hnd as (_ & Hdisj & _).
    intros Hin. apply (Hdisj _ Hin). left. }
  destruct (InternalFindBucket_ok t (Key b) Hwf Hgb) as (r & -> & Hf). cbn [res_bind]. rewrite Hn in Hf.
  pose proof Hwf as Hwf0. unfold wf_table in Hwf0. rewrite Hn in Hwf0.
  destruct r as [j|].
  2:{ pose proof (found_map _ _ _ _ Hwf0 Hf) as [_ Hfull]. rewrite contents_size in Hfull by apply Hwf0. lia. }
  destruct (write_ok n (_bucket t) (Key b) j b Hwf0 Hgb Hf Eb eq_refl) as (Hwf' & _ & Hlen').
  destruct Hf as (Hj & _ & o & Ho & Hcase).
  assert (Eo : IsEmpty o = true).
  { destruct Hcase as [ [? _]|[Eo Hko]]; [done|]. exfalso. apply Hnew, keys_at. by exists j, o. }
  pose proof (lives_write n (_bucket t) j o b Hj Ho) as Hl. rewrite (lv_empty o Eo), (lv_full b Eb), app_nil_r in Hl.
  destruct (IH (i + 1) (set_bucket j b t)) as (t' & -> & W1 & [S1 [S2 S3]] & W3 & W4 & W5).
  - done.
  - unfold wf_table. cbn. by rewrite Hn.
  - lia.
  - cbn. rewrite length_insert. lia.
  - cbn. rewrite drop_insert_lt by lia. fold more'. rewrite Hl, <- app_assoc. exact Hnd.
  - cbn. rewrite drop_insert_lt by lia. exact Hgood.
  - cbn. rewrite drop_insert_lt by lia. fold more'. rewrite Hl, length_app. cbn. lia.
  - exists t'. split; [done|]. split; [done|]. split; [|split; [|split]].
    + unfold same_shape. rewrite S1, S2, S3. cbn. by rewrite length_insert.
    + rewrite W3. cbn. rewrite drop_insert_lt by lia. fold more'. by rewrite Hl, Hmore, <- app_assoc.
    + by rewrite W4.
    + by rewrite W5.
Qed.

(** ** [Shrink] *)

Lemma region_split n m bs :
  0 <= n <= m -> region m bs = region n bs ++ lives (take (Z.to_nat (m - n)) (drop (Z.to_nat n) bs)).
Proof.
  intros Hm. rewrite <- lives_app. f_equal. rewrite take_take_drop. f_equal. lia.
Qed.

(** Buckets with the same keys, probed correctly, are a table. *)
Lemma replaced_wf n bs bs' more :
  0 < n < 2 ^ 62 -> n <= Z.of_nat (length bs) -> replaced n bs bs' ->
  NoDup (Key <$> region n bs ++ more) -> Forall (fun b => good_key (Key b)) (region n bs ++ more) ->
  wf_buckets (good_key := good_key) n bs'.
Proof.
  intros Hn Hl [R1 R2 R3 R4] Hnd Hgood. apply Forall_app in Hgood as [Hgood _].
  rewrite fmap_app in Hnd. apply NoDup_app in Hnd as [Hnd _]. split; [done|lia| | |done].
  - by rewrite R2.
  - by rewrite R2.
Qed.

Lemma contents_perm bs bs' :
  NoDup (Key <$> lives bs) -> lives bs ≡ₚ lives bs' -> contents bs = contents bs'.
Proof.
  intros Hnd Hp. unfold contents. apply list_to_map_proper; [|by rewrite Hp].
  rewrite <- list_fmap_compose. exact Hnd.
Qed.

Lemma CapacityToBucketCount_bounds n pct : 0 <= n -> 0 < pct <= 100 -> Z.max 1 n <= CapacityToBucketCount n pct.
Proof.
  intros Hn Hp. unfold CapacityToBucketCount. apply Z.div_le_lower_bound; [lia|].
  destruct (Z.ltb_spec 0 n); nia.
Qed.

Definition shrinkPct (pct : Z) (t : Table B) : Z := if 0 <? pct then pct else _occupancyPct t.

Lemma Shrink_ok pct t :
  wf t -> Z.of_nat (size (tmap t)) <= keyCount t -> 0 < shrinkPct pct t <= 100 ->
  exists t', Shrink pct t = Ok (true, t') /\ wf t' /\ tmap t' = tmap t /\
    keyCount t' = keyCount t /\ _deleteCount t' = _deleteCount t /\
    _bucketCount t' = Z.min (_bucketCount t) (CapacityToBucketCount (keyCount t) (shrinkPct pct t)).
Proof.
  intros Hwf Hcount Hpct. pose proof Hwf as [Hn Hlen Hgood Hnd _]. unfold Shrink. fold (shrinkPct pct t).
  set (pct' := shrinkPct pct t) in *. rewrite (proj2 (Z.eqb_neq pct' 0)) by lia. unfold Size.
  set (n' := CapacityToBucketCount (keyCount t) pct').
  pose proof (CapacityToBucketCount_bounds (keyCount t) pct' ltac:(lia) Hpct) as Hn'. fold n' in Hn'.
  destruct (Z.leb_spec (_bucketCount t) n') as [Hle|Hlt].
  { exists t. split_and!; try done. lia. }
  unfold tmap in Hcount. rewrite contents_size in Hcount by exact Hnd.
  rewrite (region_split n' (_bucketCount t)) in Hgood, Hnd, Hcount by lia.
  set (more := lives (take (Z.to_nat (_bucketCount t - n')) (drop (Z.to_nat n') (_bucket t)))) in *.
  rewrite length_app in Hcount.
  destruct (shrinkFirst_ok n' (Z.to_nat n') 0 (_bucket t) (replicate (Z.to_nat n') false)) as (bs & -> & Hrep).
  { split; [lia|lia|rewrite length_replicate; lia|]. intros i b _ _ _ HP. by apply lookup_replicate in HP as [? _]. }
  { lia. }
  { lia. }
  { intros; lia. }
  pose proof (replaced_wf n' (_bucket t) bs more ltac:(lia) ltac:(lia) Hrep Hnd Hgood) as Hwf1.
  destruct Hrep as [_ R2 R3 R4]. cbn [res_bind negb].
  destruct (shrinkSecond_ok n' (Z.to_nat (_bucketCount t - n')) n' (set_memory bs (set_bucketCount n' t)))
    as (t' & -> & W1 & (S1 & S2 & S3) & W3 & W4 & W5); try done; cbn [_bucket _bucketCount set_memory set_bucketCount] in *.
  { rewrite R4. lia. }
  { rewrite R2, R3. exact Hnd. }
  { rewrite R3. by apply Forall_app in Hgood as [_ ?]. }
  { rewrite R2, R3. fold more. lia. }
  cbn [res_bind negb]. eexists. split; [reflexivity|]. rewrite R2, R3 in W3. fold more in W3.
  split; [exact W1|]. split_and!; cbn; try done; [|lia].
  unfold tmap. cbn. rewrite S1. apply contents_perm.
  - rewrite W3. exact Hnd.
  - rewrite W3, (region_split n' (_bucketCount t)) by lia. done.
Qed.
End Shrink.
