(* ===== verification/SpecialKeyTable.v ===== *)
(** * The dense hash table with special keys

    [DenseHashTable<_KT, _VT, true, ...>]
    (src/aios/storage/indexlib/index/common/hash_table/DenseHashTable.h): the two keys that mark a
    bucket as empty or deleted are kept in two buckets of their own behind the table, so that every
    key can be stored. The operations, and their effect on the map. *)

From stdpp Require Import base list numbers option tactics gmap.
From Stdlib Require Import ZArith Lia ZifyNat.
From S2P Require Import Prelude HashBucket DenseHashTable DenseHashTableCorrect DenseHashTableShrink.

#[local] Open Scope Z_scope.

Module SpecialTable.
Section SpecialTable.
Context {V : Type} (_EmptyKey _DeleteKey : Z) (default : V) (decode : Z -> V).
Context (sizeof_Bucket sizeof_SpecialBucket : Z).

Abbreviation B := (SpecialKey.SpecialKeyBucket V).
Abbreviation bkt := (SpecialKey.specialKey_Bucket _EmptyKey _DeleteKey default decode).
(** [SpecialBucket], whose own marks are the keys 0 and 1 *)
Abbreviation sbkt := (SpecialKey.specialKey_Bucket 0 1 default decode).

Record DenseHashTable := mkDense {
  base : Table B;
  EmptyBucket : B;
  DeleteBucket : B
}.

Definition new_DenseHashTable : DenseHashTable :=
  mkDense new_Table (new_Bucket (Bucket := sbkt)) (new_Bucket (Bucket := sbkt)).

Definition IsEmptyKey : Z -> bool := SpecialKey.IsEmptyKey _EmptyKey.
Definition IsDeleteKey : Z -> bool := SpecialKey.IsDeleteKey _DeleteKey.

Definition MountForWrite (size : Z) (inputOptions : HashTableOptions) (t : DenseHashTable) : bool * DenseHashTable :=
  let options := if Valid inputOptions then inputOptions else mkOptions OCCUPANCY_PCT in
  let minSize := sizeof_Header + sizeof_SpecialBucket * 2 in
  if size <? minSize then (false, t)
  else
    let leftSize := size - sizeof_SpecialBucket * 2 in
    let '(ok, b) := DenseHashTable.MountForWrite (Bucket0 := bkt) sizeof_Bucket leftSize options (base t) in
    if negb ok then (false, mkDense b (EmptyBucket t) (DeleteBucket t))
    else (true, mkDense b (new_Bucket (Bucket := sbkt)) (new_Bucket (Bucket := sbkt))).

Definition MemoryUse (t : DenseHashTable) : Z :=
  u64 (DenseHashTable.MemoryUse sizeof_Bucket (base t) + sizeof_SpecialBucket * 2).
Definition DoCapacityToTableMemory (maxKeyCount : Z) (options : HashTableOptions) : Z :=
  u64 (DenseHashTable.DoCapacityToTableMemory sizeof_Bucket maxKeyCount options + sizeof_SpecialBucket * 2).
Definition DoTableMemroyToCapacity (tableMemory occupancyPct : Z) : Z :=
  DenseHashTable.DoTableMemroyToCapacity sizeof_Bucket (u64 (tableMemory - sizeof_SpecialBucket * 2)) occupancyPct.

Definition Find (t : DenseHashTable) (key : Z) : res (Status * option V) :=
  if negb (IsEmptyKey key) && negb (IsDeleteKey key) then
    let! r := InternalFindBucket (Bucket0 := bkt) (base t) key in
    match r with
    | None => Ok (NOT_FOUND, None)
    | Some i =>
        let! bucket := deref (_bucket (base t) !! Z.to_nat i) in
        if IsEmpty (Bucket := bkt) bucket then Ok (NOT_FOUND, None)
        else Ok (if IsDeleted (Bucket := bkt) bucket then DELETED else OK, Some (Value (Bucket := bkt) bucket))
    end
  else
    let bucket := if IsEmptyKey key then EmptyBucket t else DeleteBucket t in
    if IsEmpty (Bucket := sbkt) bucket then Ok (NOT_FOUND, None)
    else Ok (if IsDeleted (Bucket := sbkt) bucket then DELETED else OK, Some (Value (Bucket := sbkt) bucket)).

(** [FindForReadWrite] is that of the base class *)
Definition FindForReadWrite (t : DenseHashTable) (key : Z) : res (Status * option V) :=
  DenseHashTable.FindForReadWrite (Bucket0 := bkt) (base t) key.

Definition set_counts (deleteCount keyCount : Z) (b : Table B) : Table B :=
  mkTable (_bucket b) (_bucketCount b) (_occupancyPct b) deleteCount keyCount.

(** The functor is overloaded on the bucket type: [functor] for [Bucket], [sfunctor] for [SpecialBucket]. *)
Definition InternalInsert (functor sfunctor : B -> Z -> V -> Z -> B * Z) (key : Z) (value : V) (t : DenseHashTable)
    : res (bool * DenseHashTable) :=
  if IsEmptyKey key then
    let bucket := EmptyBucket t in
    let isNewKey := IsEmpty (Bucket := sbkt) bucket in
    let '(bucket', deleteCount) := sfunctor bucket key value (_deleteCount (base t)) in
    let keyCount' := if isNewKey then u64 (keyCount (base t) + 1) else keyCount (base t) in
    Ok (true, mkDense (set_counts deleteCount keyCount' (base t)) bucket' (DeleteBucket t))
  else if IsDeleteKey key then
    let bucket := DeleteBucket t in
    let isNewKey := IsEmpty (Bucket := sbkt) bucket in
    let '(bucket', deleteCount) := sfunctor bucket key value (_deleteCount (base t)) in
    let keyCount' := if isNewKey then u64 (keyCount (base t) + 1) else keyCount (base t) in
    Ok (true, mkDense (set_counts deleteCount keyCount' (base t)) (EmptyBucket t) bucket')
  else
    let! r := InternalFindBucket (Bucket0 := bkt) (base t) key in
    match r with
    | None => Ok (false, t)
    | Some i =>
        let! bucket := deref (_bucket (base t) !! Z.to_nat i) in
        let isNewKey := IsEmpty (Bucket := bkt) bucket in
        let '(bucket', deleteCount) := functor bucket key value (_deleteCount (base t)) in
        let keyCount' := if isNewKey then u64 (keyCount (base t) + 1) else keyCount (base t) in
        Ok (true, mkDense (set_counts deleteCount keyCount' (set_bucket i bucket' (base t)))
                    (EmptyBucket t) (DeleteBucket t))
    end.

Definition Insert (key : Z) (value : V) (t : DenseHashTable) : res (bool * DenseHashTable) :=
  InternalInsert (InsertFunctor (Bucket0 := bkt)) (InsertFunctor (Bucket0 := sbkt)) key value t.

Definition Delete (key : Z) (value : option V) (t : DenseHashTable) : res (bool * DenseHashTable) :=
  InternalInsert (DeleteFunctor (Bucket0 := bkt)) (DeleteFunctor (Bucket0 := sbkt)) key
    (match value with Some v => v | None => default end) t.

(** [Shrink] moves the two buckets behind the new end of the table *)
Definition Shrink (occupancyPct : Z) (t : DenseHashTable) : res (bool * DenseHashTable) :=
  let emptyBucket := EmptyBucket t in
  let deleteBucket := DeleteBucket t in
  let! (ok, b) := DenseHashTable.Shrink (Bucket0 := bkt) occupancyPct (base t) in
  if negb ok then Ok (false, mkDense b (EmptyBucket t) (DeleteBucket t))
  else Ok (true, mkDense b emptyBucket deleteBucket).
End SpecialTable.
Arguments DenseHashTable : clear implicits.
End SpecialTable.
