(* ===== verification/HashTableSpec.v ===== *)
(** * What a closed hash table promises

    The interface of a hash table as a class, its laws against finite maps from keys to entries, and
    the history of operations that the laws give. The dense tables are instances
    (DenseHashTableInstances.v). *)

From stdpp Require Import base list numbers option tactics gmap.
From Stdlib Require Import ZArith Lia ZifyNat.
From S2P Require Import Prelude DenseHashTable DenseHashTableCorrect.

#[local] Open Scope Z_scope.

(** ** Deleted keys of a map *)

Definition dead_entry {V} (e : entry V) : bool := match e with Dead => true | Live _ => false end.

Definition dead_count {V} (m : gmap Z (entry V)) : nat := size (filter (fun kv => dead_entry (snd kv) = true) m).

Lemma dead_count_live {V} (m : gmap Z (entry V)) k v :
  dead_count (<[k := Live v]> m) = (dead_count m - (if is_dead (m !! k) then 1 else 0))%nat.
Proof.
  unfold dead_count. rewrite map_filter_insert_False by done. rewrite map_filter_delete, map_size_delete.
  rewrite map_lookup_filter. destruct (m !! k) as [ [v'|]|]; cbn; try case_guard; cbn in *; done || lia.
Qed.

Lemma dead_count_dead {V} (m : gmap Z (entry V)) k :
  dead_count (<[k := Dead]> m) = (dead_count m + (if is_dead (m !! k) then 0 else 1))%nat.
Proof.
  unfold dead_count. rewrite map_filter_insert_True by done. rewrite map_size_insert.
  rewrite map_lookup_filter. destruct (m !! k) as [ [v'|]|]; cbn; try case_guard; cbn in *; done || lia.
Qed.

Lemma dead_count_le {V} (m : gmap Z (entry V)) : (dead_count m <= size m)%nat.
Proof. apply map_subseteq_size, map_filter_subseteq. Qed.

Lemma dead_count_pos {V} (m : gmap Z (entry V)) k : is_dead (m !! k) = true -> (0 < dead_count m)%nat.
Proof.
  intros Hk. assert (dead_count m <> 0%nat); [|lia]. unfold dead_count. intros H0. apply map_size_empty_iff in H0.
  assert (filter (fun kv => dead_entry (snd kv) = true) m !! k = None) as Hn by by rewrite H0.
  rewrite map_lookup_filter in Hn. destruct (m !! k) as [ [v|]|]; done.
Qed.

(** ** The interface *)

Class HashTable (T V : Type) := {
  tfind : T -> Z -> res (Status * option V);
  tinsert : Z -> V -> T -> res (bool * T);
  tdelete : Z -> option V -> T -> res (bool * T);
  tshrink : Z -> T -> res (bool * T);
  tsize : T -> Z;
  tdeleted : T -> Z;
  tbuckets : T -> Z
}.

(** A write of the entry [e] for [k]: done, or refused when the key is new and there are no fewer keys than buckets. *)
Inductive wrote {V} (n : Z) (m : gmap Z (entry V)) (k : Z) (e : entry V) : bool -> gmap Z (entry V) -> Prop :=
| wrote_done : wrote n m k e true (<[k := e]> m)
| wrote_refused : m !! k = None -> n <= Z.of_nat (size m) -> wrote n m k e false m.

Class HashTableLaws (T V : Type) `{!HashTable T V} (good_key : Z -> Prop) (good_value : V -> Prop)
    (twf : T -> Prop) (tabs : T -> gmap Z (entry V)) := {
  law_counts : forall t, twf t ->
    tsize t = Z.of_nat (size (tabs t)) /\ tdeleted t = Z.of_nat (dead_count (tabs t));
  law_find : forall t k, twf t -> good_key k -> exists r, tfind t k = Ok r /\ find_spec (tabs t !! k) r;
  law_insert : forall t k v, twf t -> good_key k -> good_value v ->
    exists ok t', tinsert k v t = Ok (ok, t') /\ twf t' /\ tbuckets t' = tbuckets t /\
      wrote (tbuckets t) (tabs t) k (Live v) ok (tabs t');
  law_remove : forall t k v, twf t -> good_key k ->
    exists ok t', tdelete k v t = Ok (ok, t') /\ twf t' /\ tbuckets t' = tbuckets t /\
      wrote (tbuckets t) (tabs t) k Dead ok (tabs t');
  law_shrink : forall t pct, twf t -> 0 < pct <= 100 ->
    exists t', tshrink pct t = Ok (true, t') /\ twf t' /\ tabs t' = tabs t /\
      tbuckets t' = Z.min (tbuckets t) (CapacityToBucketCount (tsize t) pct)
}.

(** ** Histories *)

Inductive op (V : Type) := OFind (k : Z) | OInsert (k : Z) (v : V) | ODelete (k : Z) (v : option V) | OShrink (pct : Z).
Arguments OFind {V}.
Arguments OInsert {V}.
Arguments ODelete {V}.
Arguments OShrink {V}.

Inductive output (V : Type) := Found (r : Status * option V) | Done (ok : bool).
Arguments Found {V}.
Arguments Done {V}.

(** The history of a finite map of entries in [n] buckets. *)
Inductive map_step {V} : Z * gmap Z (entry V) -> op V -> output V -> Z * gmap Z (entry V) -> Prop :=
| step_find n m k r : find_spec (m !! k) r -> map_step (n, m) (OFind k) (Found r) (n, m)
| step_insert n m k v ok m' : wrote n m k (Live v) ok m' -> map_step (n, m) (OInsert k v) (Done ok) (n, m')
| step_delete n m k v ok m' : wrote n m k Dead ok m' -> map_step (n, m) (ODelete k v) (Done ok) (n, m')
| step_shrink n m pct :
    map_step (n, m) (OShrink pct) (Done true)
      (Z.min n (CapacityToBucketCount (Z.of_nat (size m)) pct), m).

Inductive map_steps {V} : Z * gmap Z (entry V) -> list (op V) -> list (output V) -> Z * gmap Z (entry V) -> Prop :=
| steps_nil s : map_steps s [] [] s
| steps_cons s s' s'' o out os outs : map_step s o out s' -> map_steps s' os outs s'' ->
    map_steps s (o :: os) (out :: outs) s''.

Create HintDb hashtable.
#[export] Hint Constructors map_step map_steps : hashtable.

Definition good_op {V} (good_key : Z -> Prop) (good_value : V -> Prop) (o : op V) : Prop :=
  match o with
  | OFind k => good_key k
  | OInsert k v => good_key k /\ good_value v
  | ODelete k _ => good_key k
  | OShrink pct => 0 < pct <= 100
  end.

Section History.
Context {T V : Type} `{!HashTable T V}.

Definition step (o : op V) (t : T) : res (output V * T) :=
  match o with
  | OFind k => let! r := tfind t k in Ok (Found r, t)
  | OInsert k v => let! (ok, t') := tinsert k v t in Ok (Done ok, t')
  | ODelete k v => let! (ok, t') := tdelete k v t in Ok (Done ok, t')
  | OShrink pct => let! (ok, t') := tshrink pct t in Ok (Done ok, t')
  end.

Fixpoint run (os : list (op V)) (t : T) : res (list (output V) * T) :=
  match os with
  | [] => Ok ([], t)
  | o :: os =>
      let! (out, t) := step o t in
      let! (outs, t) := run os t in
      Ok (out :: outs, t)
  end.

Context {good_key : Z -> Prop} {good_value : V -> Prop} {twf : T -> Prop} {tabs : T -> gmap Z (entry V)}.
Context `{!HashTableLaws T V good_key good_value twf tabs}.

Lemma step_ok o t :
  twf t -> good_op good_key good_value o ->
  exists out t', step o t = Ok (out, t') /\ twf t' /\ map_step (tbuckets t, tabs t) o out (tbuckets t', tabs t').
Proof using Type*.
  intros Hwf Hg. destruct o as [k|k v|k v|pct]; cbn in Hg |- *.
  - destruct (law_find t k Hwf Hg) as (r & -> & Hr). cbn. eauto 6 with hashtable.
  - destruct Hg as [Hk Hv]. destruct (law_insert t k v Hwf Hk Hv) as (ok & t' & -> & Hwf' & Hb & Hw).
    eexists _, t'. rewrite Hb. eauto with hashtable.
  - destruct (law_remove t k v Hwf Hg) as (ok & t' & -> & Hwf' & Hb & Hw). eexists _, t'. rewrite Hb. eauto with hashtable.
  - destruct (law_shrink t pct Hwf Hg) as (t' & -> & Hwf' & Hm & Hb). eexists _, t'.
    rewrite Hb, Hm, (proj1 (law_counts t Hwf)). eauto with hashtable.
Qed.

Lemma run_ok os t :
  twf t -> Forall (good_op good_key good_value) os ->
  exists outs t', run os t = Ok (outs, t') /\ twf t' /\ map_steps (tbuckets t, tabs t) os outs (tbuckets t', tabs t').
Proof using Type*.
  intros Hwf Hg. revert t Hwf. induction Hg as [|o os Ho _ IH]; intros t Hwf; cbn [run].
  - eauto 6 with hashtable.
  - destruct (step_ok o t Hwf Ho) as (out & t1 & -> & Hwf1 & Hs). cbn [res_bind].
    destruct (IH t1 Hwf1) as (outs & t2 & -> & Hwf2 & Hss). cbn [res_bind]. eauto 7 with hashtable.
Qed.
End History.
