(* ===== verification/DenseHashTableInstances.v ===== *)
(** * The dense hash tables implement the interface

    [DenseHashTableBase] over any lawful bucket type, and the table with special keys, as instances
    of [HashTableSpec.HashTable] with its laws. *)

From stdpp Require Import base list numbers option tactics gmap.
From Stdlib Require Import ZArith Lia ZifyNat.
From S2P Require Import Prelude HashBucket DenseHashTable DenseHashTableCorrect DenseHashTableShrink.
From S2P Require Import SpecialKeyTable HashTableSpec.

#[local] Open Scope Z_scope.

(** ** The counts *)

Definition counted {V} (m : gmap Z (entry V)) (keyCount deleteCount : Z) : Prop :=
  keyCount = Z.of_nat (size m) /\ deleteCount = Z.of_nat (dead_count m).

Definition next_count {V} (m : gmap Z (entry V)) (k n : Z) : Z :=
  match m !! k with Some _ => n | None => u64 (n + 1) end.

Lemma next_count_ok {V} (m : gmap Z (entry V)) k e n :
  n = Z.of_nat (size m) -> Z.of_nat (size m) < 2 ^ 63 -> next_count m k n = Z.of_nat (size (<[k := e]> m)).
Proof.
  intros -> Hsize. unfold next_count. rewrite map_size_insert. destruct (m !! k); [done|].
  rewrite u64_small; lia.
Qed.

Lemma counted_live {V} (m : gmap Z (entry V)) k v kc dc :
  counted m kc dc -> Z.of_nat (size m) < 2 ^ 63 ->
  counted (<[k := Live v]> m) (next_count m k kc) (insert_dc (is_dead (m !! k)) dc).
Proof.
  intros [Hk ->] Hsize. split; [by apply next_count_ok|]. rewrite dead_count_live. unfold insert_dc.
  pose proof (dead_count_le m). destruct (is_dead (m !! k)) eqn:E; [|lia].
  apply dead_count_pos in E. rewrite u64_small; lia.
Qed.

Lemma counted_dead {V} (m : gmap Z (entry V)) k kc dc :
  counted m kc dc -> Z.of_nat (size m) < 2 ^ 63 ->
  counted (<[k := Dead]> m) (next_count m k kc) (delete_dc (is_dead (m !! k)) dc).
Proof.
  intros [Hk ->] Hsize. split; [by apply next_count_ok|]. rewrite dead_count_dead. unfold delete_dc.
  pose proof (dead_count_le m). destruct (is_dead (m !! k)) eqn:E; [lia|]. rewrite u64_small; lia.
Qed.

(** ** [DenseHashTableBase] *)

Section Dense.
Context {B V : Type} `{!Bucket B V} {good_key : Z -> Prop} {good_value : V -> Prop}.
Context `{!BucketLaws B V good_key good_value}.

Definition dense_wf (t : Table B) : Prop :=
  wf_table (good_key := good_key) t /\ counted (tmap t) (keyCount t) (_deleteCount t).

Lemma tmap_size t : wf_table (good_key := good_key) t -> Z.of_nat (size (tmap t)) <= _bucketCount t < 2 ^ 62.
Proof using Type*.
  intros Hwf. unfold tmap. rewrite contents_size by apply Hwf. destruct Hwf as [Hn Hl _ _ _].
  pose proof (lives_length (take (Z.to_nat (_bucketCount t)) (_bucket t))) as H. rewrite length_take in H. lia.
Qed.

(** What [insert_spec] gives, for the counts that [dc] keeps. *)
Lemma insert_spec_wrote dc k e t r :
  dense_wf t -> insert_spec (good_key := good_key) dc k e t r ->
  (counted (tmap t) (keyCount t) (_deleteCount t) -> Z.of_nat (size (tmap t)) < 2 ^ 63 ->
   counted (<[k := e]> (tmap t)) (next_count (tmap t) k (keyCount t)) (dc (is_dead (tmap t !! k)) (_deleteCount t))) ->
  exists ok t', r = Ok (ok, t') /\ dense_wf t' /\ _bucketCount t' = _bucketCount t /\
    wrote (_bucketCount t) (tmap t) k e ok (tmap t').
Proof using Type*.
  intros [Hwf Hc] Hspec Hcount. pose proof (tmap_size t Hwf) as Hs.
  destruct Hspec as [(Hnone & Hfull & ->)|(_ & t' & -> & Hwf' & (Hb & _) & Hmap & Hkc & Hdc)].
  - eexists _, t. split; [done|]. split; [done|]. split; [done|]. constructor; [done|]. lia.
  - eexists _, t'. split; [done|]. unfold dense_wf. rewrite Hmap, Hkc, Hdc. split_and!; try done.
    + by apply Hcount; [|lia].
    + by constructor.
Qed.

(** The table that [MountForWrite] makes of [size] bytes. *)
Lemma mount_wf sizeof_Bucket size options t :
  _deleteCount t = 0 -> 0 < sizeof_Bucket -> sizeof_Header + sizeof_Bucket <= size < 2 ^ 62 ->
  exists t', MountForWrite sizeof_Bucket size options t = (true, t') /\ dense_wf t' /\ tmap t' = ∅ /\
    _bucketCount t' = (size - sizeof_Header) / sizeof_Bucket.
Proof using Type*.
  intros Hd Hb Hs. unfold MountForWrite. rewrite (proj2 (Z.ltb_ge size sizeof_Header)) by lia.
  set (n := (size - sizeof_Header) / sizeof_Bucket). eexists. split; [reflexivity|].
  assert (0 < n < 2 ^ 62) as Hn.
  { unfold n, sizeof_Header in *. split; [apply Z.div_str_pos; lia|]. apply Z.div_lt_upper_bound; nia. }
  destruct (mounted_ok (good_key := good_key) n (Z.to_nat n) Hn ltac:(lia)) as [Hwf Hmap].
  assert (tmap (mkTable (replicate (Z.to_nat n) new_Bucket) n
           (occupancyPct (if Valid options then options else mkOptions OCCUPANCY_PCT)) (_deleteCount t) 0) = ∅) as Hm by exact Hmap.
  split; [split; [exact Hwf|]|by split]. rewrite Hm. cbn. by rewrite Hd.
Qed.

Context (default : V).

#[export] Instance dense_HashTable : HashTable (Table B) V := {|
  tfind := Find;
  tinsert := Insert;
  tdelete := Delete default;
  tshrink := Shrink;
  tsize := Size;
  tdeleted := _deleteCount;
  tbuckets := _bucketCount
|}.

#[export] Instance dense_laws : HashTableLaws (Table B) V good_key good_value dense_wf tmap.
Proof using Type*.
  split; cbn [tfind tinsert tdelete tshrink tsize tdeleted tbuckets dense_HashTable].
  - by intros t [_ Hc].
  - intros t k [Hwf _] Hk. by apply Find_ok.
  - intros t k v Hwf Hk Hv. eapply insert_spec_wrote; [done|apply Insert_ok; by destruct Hwf|].
    intros. by apply counted_live.
  - intros t k v Hwf Hk. eapply insert_spec_wrote; [done|apply Delete_ok; by destruct Hwf|].
    intros. by apply counted_dead.
  - intros t pct [Hwf [Hk Hd]] Hpct.
    assert (shrinkPct pct t = pct) as Hp by (unfold shrinkPct; by rewrite (proj2 (Z.ltb_lt 0 pct)) by lia).
    destruct (Shrink_ok pct t Hwf ltac:(lia) ltac:(lia)) as (t' & -> & Hwf' & Hmap & H1 & H2 & H3).
    exists t'. unfold dense_wf, counted, Size. rewrite Hmap, H1, H2, H3, Hp. by split_and!.
Qed.
End Dense.

(** ** The table with special keys *)

Lemma size_partial_alter {V} (o : option (entry V)) k (m : gmap Z (entry V)) :
  (size (partial_alter (fun _ => o) k m) <= S (size m))%nat.
Proof.
  destruct o as [e|].
  - change (partial_alter (fun _ => Some e) k m) with (<[k := e]> m). rewrite map_size_insert. destruct (m !! k); cbn; lia.
  - change (partial_alter (fun _ => None) k m) with (delete k m). rewrite map_size_delete. destruct (m !! k); cbn; lia.
Qed.

Lemma zero_one : 0 <> 1.
Proof. done. Qed.

Module Special.
Import SpecialTable.
Section Special.
Context {V : Type} (E D : Z) (default : V) (decode : Z -> V).
Hypothesis keys_distinct : E <> D.
(** The marks of [SpecialBucket] are other keys. *)
Hypothesis E_special : E <> 0 /\ E <> 1.
Hypothesis D_special : D <> 0 /\ D <> 1.

Abbreviation B := (SpecialKey.SpecialKeyBucket V).
Abbreviation bkt := (SpecialKey.specialKey_Bucket E D default decode).
Abbreviation sbkt := (SpecialKey.specialKey_Bucket 0 1 default decode).
Abbreviation good := (SpecialKey.good_key E D).
Abbreviation laws := (SpecialKey.specialKey_laws E D default decode keys_distinct).
Abbreviation slaws := (SpecialKey.specialKey_laws 0 1 default decode zero_one).
Abbreviation bmap t := (tmap (Bucket0 := bkt) (base t)).

#[export] Instance special_HashTable : HashTable (SpecialTable.DenseHashTable V) V := {|
  tfind := SpecialTable.Find E D default decode;
  tinsert := SpecialTable.Insert E D default decode;
  tdelete := SpecialTable.Delete E D default decode;
  tshrink := SpecialTable.Shrink E D default decode;
  tsize := fun t => Size (base t);
  tdeleted := fun t => _deleteCount (base t);
  tbuckets := fun t => _bucketCount (base t)
|}.

(** The entry of a special bucket. *)
Definition special_entry (b : B) : option (entry V) :=
  if IsEmpty (Bucket := sbkt) b then None else Some (entry_of (Bucket0 := sbkt) b).

Definition smap (t : SpecialTable.DenseHashTable V) : gmap Z (entry V) :=
  partial_alter (fun _ => special_entry (EmptyBucket t)) E
    (partial_alter (fun _ => special_entry (DeleteBucket t)) D (bmap t)).

Definition swf (t : SpecialTable.DenseHashTable V) : Prop :=
  wf_table (Bucket0 := bkt) (good_key := good) (base t) /\
  counted (smap t) (keyCount (base t)) (_deleteCount (base t)).

Lemma smap_lookup t k :
  smap t !! k = if k =? E then special_entry (EmptyBucket t)
                else if k =? D then special_entry (DeleteBucket t) else bmap t !! k.
Proof.
  unfold smap. destruct (Z.eqb_spec k E) as [->|HE]; [by rewrite lookup_partial_alter_eq|].
  rewrite lookup_partial_alter_ne by done.
  destruct (Z.eqb_spec k D) as [->|HD]; [by rewrite lookup_partial_alter_eq|]. by rewrite lookup_partial_alter_ne.
Qed.

Lemma bmap_good t k e : swf t -> bmap t !! k = Some e -> good k.
Proof using keys_distinct.
  intros [Hwf _] Hk. pose proof (contents_lookup (Bucket0 := bkt) (_bucketCount (base t)) (_bucket (base t)) k) as H. unfold tmap in Hk. rewrite Hk in H.
  destruct H as (b & Hb & <- & _). destruct Hwf as [_ _ Hgood _ _]. rewrite Forall_forall in Hgood. by apply Hgood.
Qed.

Lemma bmap_smap t : swf t -> (size (bmap t) <= size (smap t))%nat.
Proof using keys_distinct.
  intros Hwf. apply map_subseteq_size, map_subseteq_spec. intros k e Hk. destruct (bmap_good t k e Hwf Hk) as [H1 H2].
  rewrite smap_lookup. by rewrite !(proj2 (Z.eqb_neq k _)).
Qed.

Lemma smap_size t : swf t -> Z.of_nat (size (smap t)) < 2 ^ 63.
Proof using keys_distinct.
  clear E_special D_special. intros [Hwf _]. pose proof (tmap_size (BucketLaws0 := laws) (base t) Hwf). unfold smap.
  pose proof (size_partial_alter (special_entry (EmptyBucket t)) E
    (partial_alter (fun _ => special_entry (DeleteBucket t)) D (bmap t))).
  pose proof (size_partial_alter (special_entry (DeleteBucket t)) D (bmap t)). lia.
Qed.

(** The special bucket of key [k] and its replacement. *)
Definition put_special (k : Z) (b : B) (t : SpecialTable.DenseHashTable V) : SpecialTable.DenseHashTable V :=
  if k =? E then mkDense (base t) b (DeleteBucket t) else mkDense (base t) (EmptyBucket t) b.
Definition get_special (k : Z) (t : SpecialTable.DenseHashTable V) : B :=
  if k =? E then EmptyBucket t else DeleteBucket t.

Lemma smap_special k t : k = E \/ k = D -> smap t !! k = special_entry (get_special k t).
Proof using keys_distinct.
  intros Hk. rewrite smap_lookup. unfold get_special. destruct (Z.eqb_spec k E); [done|].
  by destruct Hk as [ | -> ]; [|rewrite Z.eqb_refl].
Qed.

Lemma smap_put_special k b e t :
  k = E \/ k = D -> special_entry b = Some e -> smap (put_special k b t) = <[k := e]> (smap t).
Proof using keys_distinct.
  intros Hk Hb. apply map_eq. intros k'. destruct (decide (k' = k)) as [->|Hne].
  - rewrite lookup_insert_eq, smap_special by done. unfold get_special, put_special. by destruct (k =? E).
  - rewrite lookup_insert_ne, !smap_lookup by done. unfold put_special. destruct (Z.eqb_spec k E) as [->|]; cbn.
    + by rewrite (proj2 (Z.eqb_neq k' E)).
    + destruct Hk as [ | -> ]; [done|]. by rewrite (proj2 (Z.eqb_neq k' D)).
Qed.

(** Writing through the base table. *)
Lemma smap_base k e b t :
  good k -> tmap (Bucket0 := bkt) b = <[k := e]> (bmap t) ->
  smap (mkDense b (EmptyBucket t) (DeleteBucket t)) = <[k := e]> (smap t).
Proof.
  intros [HE HD] Hb. apply map_eq. intros k'. rewrite smap_lookup. cbn. rewrite Hb.
  destruct (decide (k' = k)) as [->|Hne].
  - by rewrite !(proj2 (Z.eqb_neq k _)), !lookup_insert_eq.
  - by rewrite !lookup_insert_ne, smap_lookup.
Qed.

Lemma InternalInsert_base f sf k v t :
  good k ->
  SpecialTable.InternalInsert E D default decode f sf k v t =
  (let! (ok, b) := DenseHashTable.InternalInsert (Bucket0 := bkt) f k v (base t) in
   Ok (ok, mkDense b (EmptyBucket t) (DeleteBucket t))).
Proof.
  intros [HE HD]. unfold SpecialTable.InternalInsert, DenseHashTable.InternalInsert.
  unfold IsEmptyKey, IsDeleteKey, SpecialKey.IsEmptyKey, SpecialKey.IsDeleteKey. rewrite !(proj2 (Z.eqb_neq k _)) by done.
  destruct (InternalFindBucket _ _) as [ [i|]| | |]; cbn [res_bind]; try done; [|by destruct t].
  destruct (deref _) as [b| | |]; cbn [res_bind]; try done. by destruct (f _ _ _ _).
Qed.

Lemma InternalInsert_special f sf k v t :
  k = E \/ k = D ->
  SpecialTable.InternalInsert E D default decode f sf k v t =
  (let b := get_special k t in
   let '(b', dc) := sf b k v (_deleteCount (base t)) in
   Ok (true, put_special k b' (mkDense (set_counts dc (if IsEmpty (Bucket := sbkt) b then u64 (keyCount (base t) + 1)
     else keyCount (base t)) (base t)) (EmptyBucket t) (DeleteBucket t)))).
Proof.
  intros Hk. unfold SpecialTable.InternalInsert, get_special, put_special.
  unfold IsEmptyKey, IsDeleteKey, SpecialKey.IsEmptyKey, SpecialKey.IsDeleteKey.
  destruct (Z.eqb_spec k E); [by destruct (sf _ _ _ _)|]. destruct Hk as [ | -> ]; [done|].
  rewrite Z.eqb_refl. by destruct (sf _ _ _ _).
Qed.

Lemma special_or_good k : (k = E \/ k = D) \/ good k.
Proof. destruct (decide (k = E)); [by left; left|]. destruct (decide (k = D)); [by left; right|]. by right. Qed.

(** Writing through functors that write [e], for the counts that [dc] keeps. *)
Lemma InternalInsert_wrote f sf dc k v e t :
  swf t ->
  (good k -> insert_spec (Bucket0 := bkt) (good_key := good) dc k e (base t)
               (DenseHashTable.InternalInsert (Bucket0 := bkt) f k v (base t))) ->
  (k = E \/ k = D -> forall b n, special_entry (fst (sf b k v n)) = Some e /\
     snd (sf b k v n) = dc (IsDeleted (Bucket := sbkt) b) n) ->
  (forall m kc dn, counted m kc dn -> Z.of_nat (size m) < 2 ^ 63 ->
     counted (<[k := e]> m) (next_count m k kc) (dc (is_dead (m !! k)) dn)) ->
  exists ok t', SpecialTable.InternalInsert E D default decode f sf k v t = Ok (ok, t') /\ swf t' /\
    _bucketCount (base t') = _bucketCount (base t) /\ wrote (_bucketCount (base t)) (smap t) k e ok (smap t').
Proof using keys_distinct.
  clear E_special D_special. intros Hwf Hbase Hspecial Hcount. pose proof (smap_size t Hwf) as Hsize. pose proof (bmap_smap t Hwf) as Hle.
  pose proof Hwf as [Hb Hc]. specialize (Hcount _ _ _ Hc Hsize).
  destruct (special_or_good k) as [Hk|Hk].
  - rewrite InternalInsert_special by done. cbv zeta. destruct (Hspecial Hk (get_special k t) (_deleteCount (base t))) as [He Hdc].
    destruct (sf _ _ _ _) as [b' dn]. cbn [fst snd] in He, Hdc. subst dn. eexists _, _. split; [reflexivity|].
    unfold swf. rewrite (smap_put_special k b' e) by done.
    replace (base (put_special k b' _)) with (set_counts (dc (IsDeleted (Bucket := sbkt) (get_special k t)) (_deleteCount (base t)))
      (if IsEmpty (Bucket := sbkt) (get_special k t) then u64 (keyCount (base t) + 1) else keyCount (base t)) (base t))
      by (unfold put_special; by destruct (k =? E)).
    split; [split; [exact Hb|]|split; [done|apply wrote_done]].
    unfold next_count in Hcount. rewrite smap_special in Hcount by done. unfold special_entry in Hcount.
    destruct (IsEmpty (get_special k t)) eqn:Eb; cbn [set_counts keyCount _deleteCount is_dead] in Hcount |- *; [by rewrite (law_deleted_full (BucketLaws := slaws))|].
    unfold entry_of in Hcount. by destruct (IsDeleted (get_special k t)).
  - rewrite InternalInsert_base by done. assert (smap t !! k = bmap t !! k) as Hl.
    { rewrite smap_lookup. destruct Hk as [HE HD]. by rewrite !(proj2 (Z.eqb_neq k _)). }
    destruct (Hbase Hk) as [(Hnone & Hfull & ->)|(_ & b & -> & Hwf' & (Hn & _) & Hmap & Hkc & Hdc)]; cbn [res_bind].
    + replace (mkDense (base t) (EmptyBucket t) (DeleteBucket t)) with t by by destruct t. eexists _, _. split; [reflexivity|]. split; [done|]. split; [done|].
      apply wrote_refused; [by rewrite Hl|]. pose proof (tmap_size (BucketLaws0 := laws) (base t) Hb). lia.
    + eexists _, _. split; [reflexivity|]. unfold swf. rewrite (smap_base k e b t) by done. cbn.
      split_and!; try done; [|apply wrote_done]. rewrite Hkc, Hdc, <- Hl. exact Hcount.
Qed.

Lemma special_good k : k = E \/ k = D -> SpecialKey.good_key 0 1 k.
Proof using E_special D_special. by intros [-> | ->]. Qed.

#[export] Instance special_laws :
  HashTableLaws (SpecialTable.DenseHashTable V) V (fun _ => True) (fun _ => True) swf smap.
Proof using keys_distinct E_special D_special.
  split; cbn [tfind tinsert tdelete tshrink tsize tdeleted tbuckets special_HashTable].
  - by intros t [_ Hc].
  - intros t k Hwf _. unfold SpecialTable.Find.
    unfold IsEmptyKey, IsDeleteKey, SpecialKey.IsEmptyKey, SpecialKey.IsDeleteKey.
    destruct (special_or_good k) as [Hk|Hk].
    + rewrite smap_special by done. replace (negb (k =? E) && negb (k =? D)) with false by
        (destruct (Z.eqb_spec k E), (Z.eqb_spec k D); [done..|by destruct Hk]).
      fold (get_special k t). unfold special_entry. destruct (IsEmpty (get_special k t)); eexists; (split; [reflexivity|]); [done|].
      unfold entry_of, find_spec. by destruct (IsDeleted (get_special k t)).
    + rewrite smap_lookup. pose proof Hk as [HE HD]. rewrite !(proj2 (Z.eqb_neq k _)) by done.
      apply (Find_ok (BucketLaws0 := laws) (base t) k); [by destruct Hwf|done].
  - intros t k v Hwf _ _. apply (InternalInsert_wrote _ _ insert_dc); [done| | |].
    + intros Hk. apply (Insert_ok (BucketLaws0 := laws)); [by destruct Hwf|done|done].
    + intros Hk b n. cbn [InsertFunctor fst snd]. destruct (law_set (BucketLaws := slaws) b k v (special_good k Hk) I)
        as (H1 & H2 & H3 & H4). unfold special_entry, entry_of. by rewrite H1, H2, H4.
    + intros. by apply counted_live.
  - intros t k v Hwf _. apply (InternalInsert_wrote _ _ delete_dc); [done| | |].
    + intros Hk. apply (Delete_ok (BucketLaws0 := laws) default k v); [by destruct Hwf|done].
    + intros Hk b n. cbn [DeleteFunctor fst snd].
      destruct (law_delete (BucketLaws := slaws) b k (match v with Some v => v | None => default end) (special_good k Hk))
        as (H1 & H2 & H3). unfold special_entry, entry_of. by rewrite H1, H2.
    + intros. by apply counted_dead.
  - intros t pct Hwf Hpct. pose proof (bmap_smap t Hwf) as Hle. destruct Hwf as [Hwf [Hk Hd]].
    assert (shrinkPct pct (base t) = pct) as Hp by (unfold shrinkPct; by rewrite (proj2 (Z.ltb_lt 0 pct)) by lia).
    destruct (Shrink_ok (BucketLaws0 := laws) pct (base t) Hwf ltac:(lia) ltac:(lia)) as (b & Hs & Hwf' & Hmap & H1 & H2 & H3).
    unfold SpecialTable.Shrink. rewrite Hs. cbn [res_bind negb]. eexists. split; [reflexivity|].
    assert (smap (mkDense b (EmptyBucket t) (DeleteBucket t)) = smap t) as Hm by (unfold smap; cbn; by rewrite Hmap).
    unfold swf, Size. rewrite Hm. cbn. rewrite H1, H2, H3, Hp. by split_and!.
Qed.

Lemma special_mount_wf sizeof_Bucket sizeof_SpecialBucket size options t :
  _deleteCount (base t) = 0 -> 0 < sizeof_Bucket -> 0 <= sizeof_SpecialBucket ->
  sizeof_Header + sizeof_SpecialBucket * 2 + sizeof_Bucket <= size < 2 ^ 62 ->
  exists t', SpecialTable.MountForWrite E D default decode sizeof_Bucket sizeof_SpecialBucket size options t = (true, t') /\
    swf t' /\ smap t' = ∅ /\
    _bucketCount (base t') = (size - sizeof_SpecialBucket * 2 - sizeof_Header) / sizeof_Bucket.
Proof using keys_distinct.
  clear E_special D_special. intros Hd Hb Hsb Hs. unfold SpecialTable.MountForWrite.
  rewrite (proj2 (Z.ltb_ge size (sizeof_Header + sizeof_SpecialBucket * 2))) by lia.
  set (options' := if Valid options then options else mkOptions OCCUPANCY_PCT).
  destruct (mount_wf (BucketLaws0 := laws) sizeof_Bucket (size - sizeof_SpecialBucket * 2) options' (base t) Hd Hb ltac:(lia))
    as (b & -> & [Hwf Hc] & Hm & Hn). cbn [negb]. eexists. split; [reflexivity|].
  assert (smap (mkDense b (new_Bucket (Bucket := sbkt)) (new_Bucket (Bucket := sbkt))) = ∅) as Hs0.
  { apply map_eq. intros k. rewrite smap_lookup. cbn. rewrite Hm. by destruct (k =? E), (k =? D). }
  rewrite Hm in Hc. split; [|done]. split; [done|]. by rewrite Hs0.
Qed.
End Special.
End Special.
