(* ===== verification/HashTableTheorems.v ===== *)
(** * What the closed hash tables guarantee

    The theorems on [DenseHashTable], with a concrete instance of each. *)

From stdpp Require Import base list numbers option tactics gmap.
From Stdlib Require Import ZArith Lia ZifyNat ZifyBool.
From S2P Require Import Prelude HashBucket DenseHashTable DenseHashTableCorrect DenseHashTableShrink.
From S2P Require Import SpecialKeyTable HashTableSpec DenseHashTableInstances.

#[local] Open Scope Z_scope.


Section Mounted.
Context {T V : Type} `{!HashTable T V} {good_key : Z -> Prop} {good_value : V -> Prop}.
Context {twf : T -> Prop} {tabs : T -> gmap Z (entry V)} `{!HashTableLaws T V good_key good_value twf tabs}.

End Mounted.


Abbreviation tsval := (Timestamp.TimestampValue Z).
Abbreviation tsbucket := (SpecialValue.SpecialValueBucket tsval).
Definition ts (t v : Z) : tsval := Timestamp.mkTimestamp t v.

Definition demo_ops : list (op tsval) :=
  [OInsert 1 (ts 10 100); OInsert 4 (ts 11 101); ODelete 1 (Some (ts 12 0)); OInsert 7 (ts 13 102);
   OShrink 60; OFind 1; OFind 4; OFind 7; OFind 10; OInsert 1 (ts 14 103); OFind 1].


(** The outcome of that history. *)
Example dense_history_outputs :
  let bk := @SpecialValue.specialValue_Bucket tsval (Timestamp.timestamp_SpecialVal 0) in
  let t := snd (MountForWrite (Bucket0 := bk) 16 (16 + 16 * 9) (mkOptions 80) (new_Table (B := tsbucket))) in
  match run (HashTable0 := dense_HashTable (Bucket0 := bk) (ts 0 0)) demo_ops t with
  | Ok (outs, t') =>
      outs = [Done true; Done true; Done true; Done true; Done true;
              Found (DELETED, Some (ts 2147483660 100)); Found (OK, Some (ts 11 101)); Found (OK, Some (ts 13 102));
              Found (NOT_FOUND, None); Done true; Found (OK, Some (ts 14 103))]
      /\ _bucketCount t' = 5 /\ keyCount t' = 3 /\ _deleteCount t' = 0
  | _ => False
  end.
Proof. vm_compute. done. Qed.


(** The default keys of [SpecialKeyBucket] with 64-bit keys. *)
Definition EmptyKey64 : Z := 0xFFFFFFFFFFFFFEFF.
Definition DeleteKey64 : Z := 0xFFFFFFFFFFFFFDFF.



(** [FindForReadWrite] of the table with special keys does not look at the buckets of the special
    keys: after the insertion of the key that marks empty buckets, [Find] finds it and
    [FindForReadWrite] does not. *)
Theorem special_FindForReadWrite_misses :
  exists t,
    (let! (_, t') := SpecialTable.Insert EmptyKey64 DeleteKey64 0 (fun k => k) EmptyKey64 5
       (snd (SpecialTable.MountForWrite EmptyKey64 DeleteKey64 0 (fun k => k) 16 16 160 (mkOptions 50)
          (SpecialTable.new_DenseHashTable 0 (fun k => k)))) in Ok t') = Ok t /\
    SpecialTable.Find EmptyKey64 DeleteKey64 0 (fun k => k) t EmptyKey64 = Ok (OK, Some 5) /\
    SpecialTable.FindForReadWrite EmptyKey64 DeleteKey64 0 (fun k => k) t EmptyKey64 = Ok (NOT_FOUND, None).
Proof. eexists. split; [vm_compute; reflexivity|]. vm_compute. done. Qed.

(** ** Sizes *)

Lemma BucketCountToCapacity_le n pct : 0 <= n -> 0 <= pct <= 100 -> BucketCountToCapacity n pct <= n.
Proof.
  intros Hn Hp. unfold BucketCountToCapacity. apply Z.div_le_upper_bound; [lia|].
  assert (u64 (n * pct) <= n * pct) by (apply Z.mod_le; nia). nia.
Qed.

Lemma CapacityToBucketCount_enough n pct :
  0 <= n -> 0 < pct <= 100 -> n * 100 <= CapacityToBucketCount n pct * pct.
Proof.
  intros Hn Hp. unfold CapacityToBucketCount. set (m := if 0 <? n then n else 1).
  assert (n <= m) by (unfold m; destruct (Z.ltb_spec 0 n); lia).
  pose proof (Z.div_mod (m * 100 + pct - 1) pct ltac:(lia)) as Hd.
  pose proof (Z.mod_pos_bound (m * 100 + pct - 1) pct ltac:(lia)). lia.
Qed.

(** C31. Memory asked for with [DoCapacityToTableMemory] for [maxKeyCount] keys is enough for them: the
    table mounted on it has a [Capacity] of at least that many keys, uses no more memory than it was
    given, and [DoTableMemroyToCapacity] computes that capacity from the size. *)
Theorem capacity_memory_roundtrip {B V : Type} `{!Bucket B V} (sizeof_Bucket maxKeyCount pct : Z) :
  0 < sizeof_Bucket < 2 ^ 10 -> 0 <= maxKeyCount < 2 ^ 40 -> 0 < pct <= 100 ->
  let size := DoCapacityToTableMemory sizeof_Bucket maxKeyCount (mkOptions pct) in
  exists t, MountForWrite sizeof_Bucket size (mkOptions pct) (new_Table (B := B)) = (true, t) /\
    maxKeyCount <= Capacity t <= _bucketCount t /\ MemoryUse sizeof_Bucket t = size /\
    DoTableMemroyToCapacity sizeof_Bucket size pct = Capacity t.
Proof.
  intros Hb Hk Hp. cbv zeta. unfold DoCapacityToTableMemory. cbn [occupancyPct].
  pose proof (CapacityToBucketCount_enough maxKeyCount pct ltac:(lia) Hp) as He.
  pose proof (CapacityToBucketCount_bounds maxKeyCount pct ltac:(lia) Hp) as Hl.
  assert (Hu : CapacityToBucketCount maxKeyCount pct < 2 ^ 48).
  { unfold CapacityToBucketCount. apply Z.div_lt_upper_bound; [lia|]. destruct (Z.ltb_spec 0 maxKeyCount); nia. }
  set (n := CapacityToBucketCount maxKeyCount pct) in *.
  assert (0 <= sizeof_Bucket * n < 2 ^ 58) by nia.
  rewrite u64_small by (unfold sizeof_Header; lia). unfold MountForWrite, DoTableMemroyToCapacity.
  rewrite (proj2 (Z.ltb_ge _ _)) by lia.
  replace (sizeof_Header + sizeof_Bucket * n - sizeof_Header) with (n * sizeof_Bucket) by lia.
  rewrite Z.div_mul by lia.
  assert (Valid (mkOptions pct) = true) as -> by (unfold Valid, INVALID_OCCUPANCY; cbn [occupancyPct]; lia).
  eexists. split; [reflexivity|]. unfold Capacity, MemoryUse. cbn [_bucketCount _occupancyPct occupancyPct].
  split; [|split; [|done]].
  - split; [|apply BucketCountToCapacity_le; lia]. unfold BucketCountToCapacity. rewrite u64_small by nia.
    apply Z.div_le_lower_bound; lia.
  - rewrite u64_small by (unfold sizeof_Header; lia). lia.
Qed.

Lemma capacity_memory_witness :
  let size := DoCapacityToTableMemory 12 1000 (mkOptions 80) in
  exists t, MountForWrite (Bucket0 := SpecialKey.specialKey_Bucket EmptyKey64 DeleteKey64 0 (fun k => k)) 12 size (mkOptions 80)
      new_Table = (true, t) /\
    1000 <= Capacity t <= _bucketCount t /\ MemoryUse 12 t = size /\ DoTableMemroyToCapacity 12 size 80 = Capacity t.
Proof. apply capacity_memory_roundtrip; lia. Defined.

(** C32. A table that is not full by its occupancy takes every key: while [IsFull] is false, [Insert]
    succeeds, adds the key, and leaves the key findable with its value. *)
Theorem insert_not_full {B V : Type} `{!Bucket B V} (good_key : Z -> Prop) (good_value : V -> Prop)
    `{!BucketLaws B V good_key good_value} (k : Z) (v : V) (t : Table B) :
  dense_wf (good_key := good_key) t -> 0 <= _occupancyPct t <= 100 -> IsFull t = false -> good_key k -> good_value v ->
  exists t', Insert k v t = Ok (true, t') /\ dense_wf (good_key := good_key) t' /\
    tmap t' = <[k := Live v]> (tmap t) /\ Find t' k = Ok (OK, Some v).
Proof.
  intros [Hwf Hc] Hp Hf Hk Hv. pose proof Hwf as [Hn _ _ _ _].
  destruct (law_insert (HashTableLaws := dense_laws v) t k v (conj Hwf Hc) Hk Hv) as (ok & t' & Hi & Hwf' & _ & Hw).
  cbn in Hi, Hw. unfold IsFull, Capacity, Size in Hf. pose proof (BucketCountToCapacity_le (_bucketCount t) (_occupancyPct t)).
  destruct Hc as [Hkc _]. inversion Hw as [Hok Hm|Hnone Hfull Hok Hm]; [|lia]. subst ok.
  exists t'. split; [done|]. split; [done|]. split; [done|].
  destruct (Find_ok t' k ltac:(by destruct Hwf') Hk) as (r & Hr & Hs).
  rewrite <- Hm, lookup_insert_eq in Hs. cbn in Hs. by rewrite Hr, Hs.
Qed.

Definition key_bucket : Bucket (SpecialKey.SpecialKeyBucket Z) Z :=
  SpecialKey.specialKey_Bucket EmptyKey64 DeleteKey64 0 (fun k => k).

Definition key_laws :
    @BucketLaws _ _ key_bucket (SpecialKey.good_key EmptyKey64 DeleteKey64) (fun _ => True) :=
  SpecialKey.specialKey_laws EmptyKey64 DeleteKey64 0 (fun k => k) ltac:(done).

Definition small_table : Table (SpecialKey.SpecialKeyBucket Z) :=
  snd (MountForWrite (Bucket0 := key_bucket) 12 64 (mkOptions 50) new_Table).

Lemma small_table_wf :
  dense_wf (Bucket0 := key_bucket) (good_key := SpecialKey.good_key EmptyKey64 DeleteKey64) small_table.
Proof.
  destruct (mount_wf (BucketLaws0 := key_laws) 12 64 (mkOptions 50) new_Table eq_refl ltac:(lia)
    ltac:(unfold sizeof_Header; lia)) as (t & Hm & Hwf & _). unfold small_table. by rewrite Hm.
Qed.

Lemma insert_not_full_witness :
  exists t', Insert (Bucket0 := key_bucket) 9 42 small_table = Ok (true, t') /\
    dense_wf (Bucket0 := key_bucket) (good_key := SpecialKey.good_key EmptyKey64 DeleteKey64) t' /\
    tmap (Bucket0 := key_bucket) t' = <[9 := Live 42]> (tmap (Bucket0 := key_bucket) small_table) /\
    Find (Bucket0 := key_bucket) t' 9 = Ok (OK, Some 42).
Proof.
  apply (@insert_not_full _ _ key_bucket _ _ key_laws 9 42 small_table).
  - exact small_table_wf.
  - by vm_compute.
  - vm_compute. done.
  - done.
  - done.
Defined.




