(* ===== verification/CuckooHashTable.v ===== *)
(** * The cuckoo hash table

    [CuckooHashTableBase] (src/aios/storage/indexlib/index/common/hash_table/CuckooHashTable.h) and the
    hash function it uses (src/aios/autil/autil/MurmurHash.cpp): blocks of four buckets, up to
    [maxNu_hashFunc] hash functions, a breadth first search for a chain of keys to move when all blocks
    of a key are full, and rehashing in place. *)

From stdpp Require Import base list numbers option tactics.
From Stdlib Require Import ZArith Lia ZifyNat.
From S2P Require Import Prelude HashBucket DenseHashTable.

#[local] Open Scope Z_scope.

(** ** The hash functions *)

Definition murmur_m : Z := 0xc6a4a7935bd1e995.
Definition murmur_r : Z := 47.

(** One turn of the loop over the 64-bit words. *)
Definition murmur_word (h k : Z) : Z :=
  let k := u64 (k * murmur_m) in
  let k := Z.lxor k (Z.shiftr k murmur_r) in
  let k := u64 (k * murmur_m) in
  let h := Z.lxor h k in
  u64 (h * murmur_m).

(** The [switch] on the bytes that are left, the last one first. *)
Fixpoint murmur_tail (h : Z) (bytes : list Z) (n : nat) : Z :=
  match n with
  | O => h
  | S n' => murmur_tail (Z.lxor h (Z.shiftl (bytes !!! n') (8 * Z.of_nat n'))) bytes n'
  end.

(** [MurmurHash64A] on [len] bytes, as its 64-bit words and the bytes left *)
Definition MurmurHash64A (words bytes : list Z) (len seed : Z) : Z :=
  let h := Z.lxor seed (u64 (len * murmur_m)) in
  let h := fold_left murmur_word words h in
  let h := if (length bytes =? 0)%nat then h else u64 (murmur_tail h bytes (length bytes) * murmur_m) in
  let h := Z.lxor h (Z.shiftr h murmur_r) in
  let h := u64 (h * murmur_m) in
  Z.lxor h (Z.shiftr h murmur_r).

Definition CUCKOO_MURMUR_SEED_MULTIPLIER : Z := 816922183.

(** [CuckooHash] for 64-bit and for 32-bit keys *)
Definition CuckooHash64 (key hashFuncId : Z) : Z :=
  MurmurHash64A [key] [] 8 (u64 (CUCKOO_MURMUR_SEED_MULTIPLIER * hashFuncId)).
Definition CuckooHash32 (key hashFuncId : Z) : Z :=
  u32 (MurmurHash64A [] (map (fun i => Z.land (Z.shiftr key (8 * i)) 255) [0; 1; 2; 3]) 4
         (u64 (CUCKOO_MURMUR_SEED_MULTIPLIER * hashFuncId))).

(** ** Moving buckets *)

(** [Bucket::Set(const Bucket& other)] and [SetEmpty] *)
Class MoveBucket (B : Type) := {
  BCopy : B -> B -> B;
  BSetEmpty : B -> B
}.

(** What the table relies on: a moved bucket is the bucket. *)
Class MoveLaws (B V : Type) `{!Bucket B V} `{!MoveBucket B} := {
  move_copy : forall other self, BCopy other self = other;
  move_empty : forall b, IsEmpty (BSetEmpty b) = true
}.

#[export] Instance specialKey_Move {V : Type} (_EmptyKey : Z) (default : V) : MoveBucket (SpecialKey.SpecialKeyBucket V) := {|
  BCopy := fun other _ => other;
  BSetEmpty := SpecialKey.SetEmpty _EmptyKey default
|}.

(** [SpecialValueBucket], with what [SetEmpty] does to the value *)
#[export] Instance specialValue_Move {V : Type} `{!SpecialVal V} (VSetEmpty : V -> V)
    : MoveBucket (SpecialValue.SpecialValueBucket V) := {|
  BCopy := fun other self =>
    SpecialValue.mkBucket (SpecialValue._key other) (VSetValue (SpecialValue._value other) (SpecialValue._value self));
  BSetEmpty := fun self => SpecialValue.mkBucket (SpecialValue._key self) (VSetEmpty (SpecialValue._value self))
|}.

Definition timestamp_SetEmpty {R : Type} (default : R) (v : Timestamp.TimestampValue R) : Timestamp.TimestampValue R :=
  Timestamp.mkTimestamp Timestamp.Empty default.
Definition offset_SetEmpty (_EmptyValue : Z) (v : Offset.OffsetValue) : Offset.OffsetValue :=
  Offset.mkOffset _EmptyValue.

Module Cuckoo.

Definition OCCUPANCY_PCT : Z := 80.
Definition BLOCK_SIZE : Z := 4.
Definition MAX_NUM_BFS_TREE_NODE : Z := 1048576.
Definition BFS_ROOT_IDX : Z := 2 ^ 56 - 1.
Definition sizeof_Header : Z := 64.
Definition sizeof_TreeNode : Z := 16.

(** [HashTableOptions] as the cuckoo table uses them *)
Record Options := mkOptions {
  occupancyPct : Z;
  mayStretch : bool;
  maxNu_hashFunc : Z
}.
Definition options (pct : Z) : Options := mkOptions pct false 8.
Definition Valid (o : Options) : bool := negb (occupancyPct o =? INVALID_OCCUPANCY).

Record TreeNode := mkNode {
  n_bucketId : Z;
  n_parent : Z;
  n_inBlockId : Z
}.

(** The first [n] numbers: the values of a loop variable. *)
Definition below (n : Z) : list Z := seqZ 0 n.

Definition GetFirstBucketIdInBlock (hash blockCount : Z) : Z :=
  if 2 ^ 32 - 1 <? blockCount then hash mod blockCount * BLOCK_SIZE
  else u32 hash mod blockCount * BLOCK_SIZE.

(** ** Sizes *)

Definition CapacityToBucketCount (maxKeyCount occupancyPct : Z) : Z :=
  let bucketCount := ((if 0 <? maxKeyCount then maxKeyCount else 1) * 100 + occupancyPct - 1) / occupancyPct in
  (bucketCount + BLOCK_SIZE - 1) / BLOCK_SIZE * BLOCK_SIZE.

Definition BucketCountToCapacity (bucketCount occupancyPct : Z) : Z := u64 (bucketCount * occupancyPct) / 100.
Definition DoGetRecommendedOccupancy (occupancy : Z) : Z := if 97 <? occupancy then 97 else occupancy.

Section Sizes.
Context (sizeof_Bucket : Z).

(** [STRETCH_MEM_RATIO] is 1/100; the doubles are taken as the numbers they stand for. *)
Definition DoCapacityToTableMemory (maxKeyCount : Z) (o : Options) : Z :=
  let bucketSize := u64 (sizeof_Bucket * CapacityToBucketCount maxKeyCount (occupancyPct o)) in
  let bucketSize := if mayStretch o then bucketSize * 101 / 100 + 1 + sizeof_Bucket * BLOCK_SIZE else bucketSize in
  u64 (bucketSize + sizeof_Header).

Definition DoCapacityToBuildMemory (maxKeyCount : Z) (o : Options) : Z :=
  let hashTableSize := DoCapacityToTableMemory maxKeyCount o in
  let bucketCount := CapacityToBucketCount maxKeyCount (occupancyPct o) in
  let blockCount := bucketCount / BLOCK_SIZE in
  let callIdSize := blockCount * 4 in
  let bfsTreeSize := Z.min blockCount MAX_NUM_BFS_TREE_NODE * sizeof_TreeNode in
  u64 (hashTableSize + callIdSize + bfsTreeSize).

Definition DoTableMemroyToCapacity (tableMemory occupancyPct : Z) : Z :=
  if tableMemory <? sizeof_Header then 0
  else u64 ((tableMemory - sizeof_Header) / sizeof_Bucket * occupancyPct) / 100.

Definition DoBuildMemoryToCapacity (buildMemory occupancyPct : Z) : Z :=
  if buildMemory <? sizeof_Header then 0
  else
    let leftMemory := buildMemory - sizeof_Header in
    let maxKeyCountThreshhold := MAX_NUM_BFS_TREE_NODE * BLOCK_SIZE * occupancyPct / 100 in
    let threshhold := DoCapacityToBuildMemory maxKeyCountThreshhold (options occupancyPct) in
    let bucketCount :=
      if threshhold <=? buildMemory then
        u64 (leftMemory - MAX_NUM_BFS_TREE_NODE * sizeof_TreeNode) / (4 + BLOCK_SIZE * sizeof_Bucket) * BLOCK_SIZE
      else leftMemory / (4 + sizeof_TreeNode + BLOCK_SIZE * sizeof_Bucket) * BLOCK_SIZE in
    u64 (bucketCount * occupancyPct) / 100.

Definition DoBuildMemoryToTableMemory (buildMemory occupancyPct : Z) : Z :=
  DoCapacityToTableMemory (DoBuildMemoryToCapacity buildMemory occupancyPct) (options occupancyPct).
End Sizes.

(** ** The table *)

Section Table.
Context {B V : Type} `{!Bucket B V} `{!MoveBucket B}.
Context (sizeof_Bucket : Z) (default : V) (CuckooHash : Z -> Z -> Z).

Record HashTableHeader := mkHeader {
  nu_hashFunc : Z;
  h_maxNu_hashFunc : Z;
  bucketCount : Z;
  keyCount : Z;
  stretchSize : Z
}.

Record Table := mkTable {
  _bucket : list B;
  _bucketCount : Z;
  _blockCount : Z;
  _nu_hashFunc : Z;
  _occupancyPct : Z;
  _bFSDepth : Z;
  _curCallId : Z;
  _callIdVec : list Z;
  _deleteCount : Z;
  Header : HashTableHeader
}.

Definition new_Table : Table := mkTable [] 0 0 2 0 100 0 [] 0 (mkHeader 0 8 0 0 0).

Definition set_memory (bs : list B) (t : Table) : Table :=
  mkTable bs (_bucketCount t) (_blockCount t) (_nu_hashFunc t) (_occupancyPct t) (_bFSDepth t) (_curCallId t)
    (_callIdVec t) (_deleteCount t) (Header t).
Definition set_callIds (cur : Z) (ids : list Z) (t : Table) : Table :=
  mkTable (_bucket t) (_bucketCount t) (_blockCount t) (_nu_hashFunc t) (_occupancyPct t) (_bFSDepth t) cur
    ids (_deleteCount t) (Header t).
Definition set_occupancyPct (pct : Z) (t : Table) : Table :=
  mkTable (_bucket t) (_bucketCount t) (_blockCount t) (_nu_hashFunc t) pct (_bFSDepth t) (_curCallId t)
    (_callIdVec t) (_deleteCount t) (Header t).
Definition set_counts (deleteCount kc : Z) (t : Table) : Table :=
  let h := Header t in
  mkTable (_bucket t) (_bucketCount t) (_blockCount t) (_nu_hashFunc t) (_occupancyPct t) (_bFSDepth t) (_curCallId t)
    (_callIdVec t) deleteCount (mkHeader (nu_hashFunc h) (h_maxNu_hashFunc h) (bucketCount h) kc (stretchSize h)).
(** [++_nu_hashFunc; ++Header()->nu_hashFunc] *)
Definition more_hashFuncs (t : Table) : Table :=
  let h := Header t in
  mkTable (_bucket t) (_bucketCount t) (_blockCount t) (_nu_hashFunc t + 1) (_occupancyPct t) (_bFSDepth t) (_curCallId t)
    (_callIdVec t) (_deleteCount t)
    (mkHeader (nu_hashFunc h + 1) (h_maxNu_hashFunc h) (bucketCount h) (keyCount h) (stretchSize h)).
Definition set_bucketCount (n : Z) (t : Table) : Table :=
  let h := Header t in
  mkTable (_bucket t) n (n / BLOCK_SIZE) (_nu_hashFunc t) (_occupancyPct t) (_bFSDepth t) (_curCallId t)
    (_callIdVec t) (_deleteCount t) (mkHeader (nu_hashFunc h) (h_maxNu_hashFunc h) n (keyCount h) (stretchSize h)).

(** [stretchSize] of [MountForWrite]: one block and what [STRETCH_MEM_RATIO] adds *)
Definition stretchFor (size : Z) (o : Options) : Z :=
  if mayStretch o then sizeof_Bucket * BLOCK_SIZE + (size - sizeof_Header) / 101 else 0.

Definition MountForWrite (size : Z) (inputOptions : Options) (t : Table) : bool * Table :=
  let o := if Valid inputOptions then inputOptions else options OCCUPANCY_PCT in
  if size <? sizeof_Header then (false, t)
  else
    let bucketSize := size - sizeof_Header in
    let stretch := stretchFor size o in
    let bucketSize := u64 (bucketSize - stretch) in
    let blockCount := bucketSize / sizeof_Bucket / BLOCK_SIZE in
    if blockCount <? 1 then
      (false, mkTable (_bucket t) (_bucketCount t) blockCount (_nu_hashFunc t) (occupancyPct o) (_bFSDepth t)
                (_curCallId t) (_callIdVec t) (_deleteCount t) (Header t))
    else
      let n := blockCount * BLOCK_SIZE in
      (true, mkTable (replicate (Z.to_nat n) new_Bucket) n blockCount (_nu_hashFunc t) (occupancyPct o) (_bFSDepth t)
               0 (resize (Z.to_nat blockCount) 0 (_callIdVec t)) (_deleteCount t)
               (mkHeader (_nu_hashFunc t) (maxNu_hashFunc o) n 0 stretch)).

(** [MountForRead] on [size] bytes with a header and buckets in them *)
Definition MountForRead (size : Z) (header : HashTableHeader) (bs : list B) (t : Table) : res (bool * Table) :=
  if size <? sizeof_Header then Ok (false, t)
  else if bucketCount header =? 0 then Undefined
  else
    let n := bucketCount header in
    let pct := i32 (u64 (keyCount header * 100) / n) in
    let mounted bs header :=
      mkTable bs n (n / BLOCK_SIZE) (nu_hashFunc header) pct (_bFSDepth t) (_curCallId t) (_callIdVec t) (_deleteCount t) in
    if size <? u64 (sizeof_Header + n * sizeof_Bucket) then
      Ok (false, mounted (_bucket t) header (Header t))
    else Ok (true, mounted bs header header).

Definition Size (t : Table) : Z := keyCount (Header t).
Definition Capacity (t : Table) : Z := BucketCountToCapacity (_bucketCount t) (_occupancyPct t).
Definition IsFull (t : Table) : bool := Capacity t <=? Size t.
Definition MemoryUse (t : Table) : Z := u64 (_bucketCount t * sizeof_Bucket + sizeof_Header).
Definition BuildAssistantMemoryUse (t : Table) : Z :=
  Z.of_nat (length (_callIdVec t)) * 4 + Z.min (_blockCount t) MAX_NUM_BFS_TREE_NODE * sizeof_TreeNode.

(** The first bucket of the block of a key under a hash function *)
Definition home (t : Table) (key hashFuncId : Z) : Z :=
  GetFirstBucketIdInBlock (CuckooHash key hashFuncId) (_blockCount t).

(** ** Reading *)

(** A block: [None] to go on, otherwise what is returned *)
Fixpoint scanRead (js : list Z) (bs : list B) (key first : Z) : res (option (option Z)) :=
  match js with
  | [] => Ok None
  | j :: js' =>
      let! curBucket := deref (bs !! Z.to_nat (first + j)) in
      if IsEmpty curBucket then Ok (Some None)
      else if IsEqual curBucket key then Ok (Some (Some (first + j)))
      else scanRead js' bs key first
  end.

Fixpoint readFuncs (hs : list Z) (t : Table) (key : Z) : res (option Z) :=
  match hs with
  | [] => Ok None
  | h :: hs' =>
      let! r := scanRead (below BLOCK_SIZE) (_bucket t) key (home t key h) in
      match r with
      | Some b => Ok b
      | None => readFuncs hs' t key
      end
  end.

(** [FindBucketForRead]: the functions 0 and 1, then the others *)
Definition FindBucketForRead (t : Table) (key nu : Z) : res (option Z) :=
  if _blockCount t =? 0 then Undefined else readFuncs ([0; 1] ++ seqZ 2 (nu - 2)) t key.

Definition Find (t : Table) (key : Z) : res (Status * option V) :=
  let! r := FindBucketForRead t key (_nu_hashFunc t) in
  match r with
  | None => Ok (NOT_FOUND, None)
  | Some i =>
      let! bucket := deref (_bucket t !! Z.to_nat i) in
      Ok (if IsDeleted bucket then DELETED else OK, Some (Value bucket))
  end.

(** [FindForReadWrite]; it reads again when a writer was in between *)
Definition FindForReadWrite (t : Table) (key : Z) : res (Status * option V) :=
  let! r := FindBucketForRead t key (nu_hashFunc (Header t)) in
  match r with
  | None => Ok (NOT_FOUND, None)
  | Some i =>
      let! bucket := deref (_bucket t !! Z.to_nat i) in
      Ok (if IsDeleted bucket then DELETED else OK, Some (Value bucket))
  end.

(** ** Moving keys along a path of the search tree *)

(** The loop of [CuckooKick] *)
Fixpoint kickLoop (fuel : nat) (bs : list B) (bfsTree : list TreeNode) (emptyIdx prevIdx emptyInBlockId : Z)
    : res (list B * Z) :=
  match fuel with
  | O => OutOfFuel
  | S fuel' =>
      let! emptyNode := deref (bfsTree !! Z.to_nat emptyIdx) in
      let e := n_bucketId emptyNode + emptyInBlockId in
      if prevIdx =? BFS_ROOT_IDX then Ok (bs, e)
      else
        let prevInBlockId := n_inBlockId emptyNode in
        let! prevNode := deref (bfsTree !! Z.to_nat prevIdx) in
        let p := n_bucketId prevNode + prevInBlockId in
        let! emptyBucket := deref (bs !! Z.to_nat e) in
        let! prevBucket := deref (bs !! Z.to_nat p) in
        let bs := <[Z.to_nat p := BSetEmpty prevBucket]> (<[Z.to_nat e := BCopy prevBucket emptyBucket]> bs) in
        kickLoop fuel' bs bfsTree prevIdx (n_parent prevNode) prevInBlockId
  end.

(** [CuckooKick]: the new buckets and the bucket that is free now *)
Definition CuckooKick (bs : list B) (bfsTree : list TreeNode) (emptyInBlockId : Z) : res (list B * Z) :=
  let emptyIdx := Z.of_nat (length bfsTree) - 1 in
  let! node := deref (bfsTree !! Z.to_nat emptyIdx) in
  kickLoop (S (length bfsTree)) bs bfsTree emptyIdx (n_parent node) emptyInBlockId.

(** ** Searching a bucket for a key *)

(** The first empty bucket of a block *)
Fixpoint firstEmpty (js : list Z) (bs : list B) (first : Z) : res (option Z) :=
  match js with
  | [] => Ok None
  | j :: js' =>
      let! b := deref (bs !! Z.to_nat (first + j)) in
      if IsEmpty b then Ok (Some j) else firstEmpty js' bs first
  end.

(** The innermost loop of [BFSFindBucket]: the blocks of a key in node [idx]. The call ids, the tree, and the
    empty bucket of the last node if one was found. *)
Fixpoint bfsFuncs (hs : list Z) (t : Table) (cur key idx inBlockId : Z) (ids : list Z) (tree : list TreeNode)
    : res (list Z * list TreeNode * option Z) :=
  match hs with
  | [] => Ok (ids, tree, None)
  | h :: hs' =>
      let firstBucketId := home t key h in
      let! id := deref (ids !! Z.to_nat (firstBucketId / BLOCK_SIZE)) in
      if id =? cur then bfsFuncs hs' t cur key idx inBlockId ids tree
      else if MAX_NUM_BFS_TREE_NODE <=? Z.of_nat (length tree) then bfsFuncs hs' t cur key idx inBlockId ids tree
      else
        let ids := <[Z.to_nat (firstBucketId / BLOCK_SIZE) := cur]> ids in
        let tree := tree ++ [mkNode firstBucketId idx inBlockId] in
        let! e := firstEmpty (below BLOCK_SIZE) (_bucket t) firstBucketId in
        match e with
        | Some j => Ok (ids, tree, Some j)
        | None => bfsFuncs hs' t cur key idx inBlockId ids tree
        end
  end.

(** The loop over the buckets of a node *)
Fixpoint bfsBlock (js : list Z) (t : Table) (cur idx bucketId : Z) (ids : list Z) (tree : list TreeNode)
    : res (list Z * list TreeNode * option Z) :=
  match js with
  | [] => Ok (ids, tree, None)
  | j :: js' =>
      let! b := deref (_bucket t !! Z.to_nat (bucketId + j)) in
      let! (ids, tree, e) := bfsFuncs (below (_nu_hashFunc t)) t cur (Key b) idx j ids tree in
      match e with
      | Some _ => Ok (ids, tree, e)
      | None => bfsBlock js' t cur idx bucketId ids tree
      end
  end.

(** The loop over the nodes *)
Fixpoint bfsLoop (fuel : nat) (t : Table) (cur idx nextDepthBeginIdx nextDepth : Z) (ids : list Z) (tree : list TreeNode)
    : res (list Z * list TreeNode * option Z) :=
  match fuel with
  | O => OutOfFuel
  | S fuel' =>
      if Z.of_nat (length tree) <=? idx then Ok (ids, tree, None)
      else
        let nextDepth' := if idx =? nextDepthBeginIdx then nextDepth + 1 else nextDepth in
        if (idx =? nextDepthBeginIdx) && (_bFSDepth t <? nextDepth') then Ok (ids, tree, None)
        else
          let nextDepthBeginIdx := if idx =? nextDepthBeginIdx then Z.of_nat (length tree) else nextDepthBeginIdx in
          let! node := deref (tree !! Z.to_nat idx) in
          let! (ids, tree, e) := bfsBlock (below BLOCK_SIZE) t cur idx (n_bucketId node) ids tree in
          match e with
          | Some _ => Ok (ids, tree, e)
          | None => bfsLoop fuel' t cur (idx + 1) nextDepthBeginIdx nextDepth' ids tree
          end
  end.

(** Every node but the roots is the first of its block. *)
Definition bfsFuel (t : Table) (tree : list TreeNode) : nat := S (length tree + length (_callIdVec t)).

(** The roots are marked as seen *)
Fixpoint markRoots (tree : list TreeNode) (cur : Z) (ids : list Z) : list Z :=
  match tree with
  | [] => ids
  | n :: tree' => markRoots tree' cur (<[Z.to_nat (n_bucketId n / BLOCK_SIZE) := cur]> ids)
  end.

Definition BFSFindBucket (bfsTree : list TreeNode) (t : Table) : res (option Z * Table) :=
  let cur := u32 (_curCallId t + 1) in
  let ids := markRoots bfsTree cur (_callIdVec t) in
  let! (ids, tree, e) := bfsLoop (bfsFuel t bfsTree) t cur 0 0 0 ids bfsTree in
  let t := set_callIds cur ids t in
  match e with
  | None => Ok (None, t)
  | Some j =>
      let! (bs, i) := CuckooKick (_bucket t) tree j in
      Ok (Some i, set_memory bs t)
  end.

(** A block: the bucket with the key, or the first empty bucket so far *)
Fixpoint scanFind (js : list Z) (bs : list B) (key first : Z) (ret : option Z) : res (Z + option Z) :=
  match js with
  | [] => Ok (inr ret)
  | j :: js' =>
      let! curBucket := deref (bs !! Z.to_nat (first + j)) in
      if IsEqual curBucket key then Ok (inl (first + j))
      else
        let ret :=
          match ret with
          | Some r => Some r
          | None => if IsEmpty curBucket then Some (first + j) else None
          end in
        scanFind js' bs key first ret
  end.

Fixpoint findFuncs (hs : list Z) (t : Table) (key : Z) (ret : option Z) (tree : list TreeNode)
    : res (Z + option Z * list TreeNode) :=
  match hs with
  | [] => Ok (inr (ret, tree))
  | h :: hs' =>
      let firstBucketId := home t key h in
      let! r := scanFind (below BLOCK_SIZE) (_bucket t) key firstBucketId ret in
      match r with
      | inl i => Ok (inl i)
      | inr ret => findFuncs hs' t key ret (tree ++ [mkNode firstBucketId BFS_ROOT_IDX 0])
      end
  end.

Definition DoInternalFindBucket (key : Z) (t : Table) : res (option Z * Table) :=
  if _blockCount t =? 0 then Undefined
  else
    let! r := findFuncs (below (_nu_hashFunc t)) t key None [] in
    match r with
    | inl i => Ok (Some i, t)
    | inr (Some i, _) => Ok (Some i, t)
    | inr (None, tree) => BFSFindBucket tree t
    end.

(** The loop of [InternalFindBucket] *)
Fixpoint findBucketLoop (fuel : nat) (key : Z) (t : Table) : res (option Z * Table) :=
  match fuel with
  | O => OutOfFuel
  | S fuel' =>
      let! (r, t) := DoInternalFindBucket key t in
      match r with
      | Some i => Ok (Some i, t)
      | None =>
          if h_maxNu_hashFunc (Header t) <=? _nu_hashFunc t then Ok (None, t)
          else findBucketLoop fuel' key (more_hashFuncs t)
      end
  end.

(** A turn for every number of hash functions *)
Definition InternalFindBucket (key : Z) (t : Table) : res (option Z * Table) :=
  findBucketLoop (S (Z.to_nat (h_maxNu_hashFunc (Header t) - _nu_hashFunc t))) key t.

Definition InternalInsert (functor : B -> Z -> V -> Z -> B * Z) (key : Z) (value : V) (t : Table) : res (bool * Table) :=
  let! (r, t) := InternalFindBucket key t in
  match r with
  | None => Ok (false, t)
  | Some i =>
      let! bucket := deref (_bucket t !! Z.to_nat i) in
      let isNewKey := IsEmpty bucket in
      let '(bucket', deleteCount) := functor bucket key value (_deleteCount t) in
      let keyCount' := if isNewKey then u64 (keyCount (Header t) + 1) else keyCount (Header t) in
      Ok (true, set_counts deleteCount keyCount' (set_memory (<[Z.to_nat i := bucket']> (_bucket t)) t))
  end.

Definition Insert (key : Z) (value : V) (t : Table) : res (bool * Table) :=
  InternalInsert InsertFunctor key value t.

Definition Delete (key : Z) (value : option V) (t : Table) : res (bool * Table) :=
  InternalInsert DeleteFunctor key (match value with Some v => v | None => default end) t.

(** ** Rehashing in place *)

(** A block, from [cur] on, a 32-bit loop variable: the first bucket that is empty or has not been processed *)
Fixpoint scanEvict (fuel : nat) (cur bound : Z) (bs : list B) (bitmap : list bool) : res (option Z) :=
  match fuel with
  | O => OutOfFuel
  | S fuel' =>
      if cur <? bound then
        let! curBucket := deref (bs !! Z.to_nat cur) in
        let! processed := deref (bitmap !! Z.to_nat cur) in
        if IsEmpty curBucket || negb processed then Ok (Some cur)
        else scanEvict fuel' (u32 (cur + 1)) bound bs bitmap
      else Ok None
  end.

Definition scanEvictBlock (firstBucketId : Z) (bs : list B) (bitmap : list bool) : res (option Z) :=
  scanEvict 5 (u32 firstBucketId) (firstBucketId + BLOCK_SIZE) bs bitmap.

(** The loops of [BFSFindBucketForEviction]; the last component is the bucket of the last node that was found *)
Fixpoint bfsEvictFuncs (hs : list Z) (t : Table) (bitmap : list bool) (cur key idx inBlockId : Z) (ids : list Z)
    (tree : list TreeNode) : res (list Z * list TreeNode * option Z) :=
  match hs with
  | [] => Ok (ids, tree, None)
  | h :: hs' =>
      let firstBucketId := home t key h in
      let! id := deref (ids !! Z.to_nat (firstBucketId / BLOCK_SIZE)) in
      if id =? cur then bfsEvictFuncs hs' t bitmap cur key idx inBlockId ids tree
      else
        let ids := <[Z.to_nat (firstBucketId / BLOCK_SIZE) := cur]> ids in
        let! r := scanEvictBlock firstBucketId (_bucket t) bitmap in
        let node := mkNode firstBucketId idx inBlockId in
        match r with
        | Some i => Ok (ids, tree ++ [node], Some (i - firstBucketId))
        | None =>
            let tree := if Z.of_nat (length tree) <? MAX_NUM_BFS_TREE_NODE then tree ++ [node] else tree in
            bfsEvictFuncs hs' t bitmap cur key idx inBlockId ids tree
        end
  end.

Fixpoint bfsEvictBlock (js : list Z) (t : Table) (bitmap : list bool) (cur idx bucketId : Z) (ids : list Z)
    (tree : list TreeNode) : res (list Z * list TreeNode * option Z) :=
  match js with
  | [] => Ok (ids, tree, None)
  | j :: js' =>
      let! b := deref (_bucket t !! Z.to_nat (bucketId + j)) in
      let! (ids, tree, e) := bfsEvictFuncs (below (_nu_hashFunc t)) t bitmap cur (Key b) idx j ids tree in
      match e with
      | Some _ => Ok (ids, tree, e)
      | None => bfsEvictBlock js' t bitmap cur idx bucketId ids tree
      end
  end.

Fixpoint bfsEvictLoop (fuel : nat) (t : Table) (bitmap : list bool) (cur idx nextDepthBeginIdx nextDepth : Z)
    (ids : list Z) (tree : list TreeNode) : res (list Z * list TreeNode * option Z) :=
  match fuel with
  | O => OutOfFuel
  | S fuel' =>
      if Z.of_nat (length tree) <=? idx then Ok (ids, tree, None)
      else
        let nextDepth' := if idx =? nextDepthBeginIdx then nextDepth + 1 else nextDepth in
        if (idx =? nextDepthBeginIdx) && (_bFSDepth t <? nextDepth') then Ok (ids, tree, None)
        else
          let nextDepthBeginIdx := if idx =? nextDepthBeginIdx then Z.of_nat (length tree) else nextDepthBeginIdx in
          let! node := deref (tree !! Z.to_nat idx) in
          let! (ids, tree, e) := bfsEvictBlock (below BLOCK_SIZE) t bitmap cur idx (n_bucketId node) ids tree in
          match e with
          | Some _ => Ok (ids, tree, e)
          | None => bfsEvictLoop fuel' t bitmap cur (idx + 1) nextDepthBeginIdx nextDepth' ids tree
          end
  end.

(** [BFSFindBucketForEviction]: a bucket that was not empty is left in the bucket that is returned *)
Definition BFSFindBucketForEviction (bfsTree : list TreeNode) (bitmap : list bool) (t : Table)
    : res (option Z * list bool * Table) :=
  let cur := u32 (_curCallId t + 1) in
  let ids := markRoots bfsTree cur (_callIdVec t) in
  let! (ids, tree, e) := bfsEvictLoop (bfsFuel t bfsTree) t bitmap cur 0 0 0 ids bfsTree in
  let t := set_callIds cur ids t in
  match e with
  | None => Ok (None, bitmap, t)
  | Some j =>
      let! node := deref (tree !! (length tree - 1)%nat) in
      let i := n_bucketId node + j in
      let! evictedBucket := deref (_bucket t !! Z.to_nat i) in
      let bitmap := <[Z.to_nat i := true]> bitmap in
      let! (bs, k) := CuckooKick (_bucket t) tree j in
      let bs := if IsEmpty evictedBucket then bs else <[Z.to_nat k := evictedBucket]> bs in
      Ok (Some k, bitmap, set_memory bs t)
  end.

Fixpoint evictFuncs (hs : list Z) (t : Table) (bitmap : list bool) (key : Z) (tree : list TreeNode)
    : res (Z + list TreeNode) :=
  match hs with
  | [] => Ok (inr tree)
  | h :: hs' =>
      let firstBucketId := home t key h in
      let! r := scanEvictBlock firstBucketId (_bucket t) bitmap in
      match r with
      | Some i => Ok (inl i)
      | None => evictFuncs hs' t bitmap key (tree ++ [mkNode firstBucketId BFS_ROOT_IDX 0])
      end
  end.

Definition FindBucketForEviction (key : Z) (bitmap : list bool) (t : Table) : res (option Z * list bool * Table) :=
  let! r := evictFuncs (below (_nu_hashFunc t)) t bitmap key [] in
  match r with
  | inl i => Ok (Some i, <[Z.to_nat i := true]> bitmap, t)
  | inr tree => BFSFindBucketForEviction tree bitmap t
  end.

(** The loop of [EvictionInsert] *)
Fixpoint evictionLoop (fuel : nat) (seekingBucket : B) (bitmap : list bool) (t : Table) : res (bool * list bool * Table) :=
  match fuel with
  | O => OutOfFuel
  | S fuel' =>
      let! (r, bitmap, t) := FindBucketForEviction (Key seekingBucket) bitmap t in
      match r with
      | None =>
          if h_maxNu_hashFunc (Header t) <=? _nu_hashFunc t then Ok (false, bitmap, t)
          else evictionLoop fuel' seekingBucket bitmap (more_hashFuncs t)
      | Some i =>
          let! bucket := deref (_bucket t !! Z.to_nat i) in
          let t := set_memory (<[Z.to_nat i := seekingBucket]> (_bucket t)) t in
          if IsEmpty bucket then Ok (true, bitmap, t)
          else evictionLoop fuel' bucket bitmap t
      end
  end.

(** A turn for every bucket that is evicted and every hash function *)
Definition evictionFuel (t : Table) : nat :=
  S (Z.to_nat (_bucketCount t) + Z.to_nat (h_maxNu_hashFunc (Header t) - _nu_hashFunc t)).
Definition EvictionInsert (seekingBucket : B) (bitmap : list bool) (t : Table) : res (bool * list bool * Table) :=
  evictionLoop (evictionFuel t) seekingBucket bitmap t.

(** The first loop of [ReHash]: [n] buckets from [i] on *)
Fixpoint rehashFirst (n : nat) (i : Z) (bitmap : list bool) (t : Table) : res (bool * Table) :=
  match n with
  | O => Ok (true, t)
  | S n' =>
      let! processed := deref (bitmap !! Z.to_nat i) in
      let! bucket := deref (_bucket t !! Z.to_nat i) in
      if processed : bool then rehashFirst n' (i + 1) bitmap t
      else
        let bitmap := <[Z.to_nat i := true]> bitmap in
        if IsEmpty bucket then rehashFirst n' (i + 1) bitmap t
        else
          let! (ok, bitmap, t) := EvictionInsert bucket bitmap (set_memory (<[Z.to_nat i := new_Bucket]> (_bucket t)) t) in
          if ok : bool then rehashFirst n' (i + 1) bitmap t else Ok (false, t)
  end.

(** The second loop: the buckets behind the new end *)
Fixpoint rehashSecond (n : nat) (i : Z) (t : Table) : res (bool * Table) :=
  match n with
  | O => Ok (true, t)
  | S n' =>
      let! bucket := deref (_bucket t !! Z.to_nat i) in
      if IsEmpty bucket then rehashSecond n' (i + 1) t
      else
        let! (r, t) := InternalFindBucket (Key bucket) t in
        match r with
        | None => Ok (false, t)
        | Some k => rehashSecond n' (i + 1) (set_memory (<[Z.to_nat k := bucket]> (_bucket t)) t)
        end
  end.

Definition ReHash (newBucketCount : Z) (t : Table) : res (bool * Table) :=
  let oldBucketCount := _bucketCount t in
  let h := Header t in
  let blockCount := newBucketCount / BLOCK_SIZE in
  let t := mkTable (_bucket t) newBucketCount blockCount 2 (_occupancyPct t) (_bFSDepth t) 0
             (replicate (Z.to_nat blockCount) 0) (_deleteCount t)
             (mkHeader 2 (h_maxNu_hashFunc h) newBucketCount (keyCount h) (stretchSize h)) in
  let! (ok, t) := rehashFirst (Z.to_nat newBucketCount) 0 (replicate (Z.to_nat newBucketCount) false) t in
  if negb ok then Ok (false, set_bucketCount oldBucketCount t)
  else
    let! (ok, t) := rehashSecond (Z.to_nat (oldBucketCount - newBucketCount)) newBucketCount t in
    if negb ok then Ok (false, set_bucketCount oldBucketCount t) else Ok (true, t).

Definition Shrink (occupancyPct : Z) (t : Table) : res (bool * Table) :=
  let oldBucketCount := _bucketCount t in
  let pct := if 0 <? occupancyPct then occupancyPct else _occupancyPct t in
  if pct =? 0 then Undefined
  else
    let newBucketCount := CapacityToBucketCount (Size t) pct in
    if oldBucketCount <=? newBucketCount then Ok (true, t)
    else
      let! (ok, t) := ReHash newBucketCount t in
      if ok : bool then Ok (true, set_occupancyPct pct t) else ReHash oldBucketCount t.

Definition set_stretchSize (n : Z) (t : Table) : Table :=
  let h := Header t in
  mkTable (_bucket t) (_bucketCount t) (_blockCount t) (_nu_hashFunc t) (_occupancyPct t) (_bFSDepth t) (_curCallId t)
    (_callIdVec t) (_deleteCount t) (mkHeader (nu_hashFunc h) (h_maxNu_hashFunc h) (bucketCount h) (keyCount h) n).

Definition Stretch (t : Table) : res (bool * Table) :=
  let newBlockCount := stretchSize (Header t) / sizeof_Bucket / BLOCK_SIZE + _blockCount t in
  if newBlockCount <=? _blockCount t then Ok (true, t)
  else
    let newBucketCount := newBlockCount * BLOCK_SIZE in
    let bs := take (Z.to_nat (_bucketCount t)) (_bucket t) ++
              replicate (Z.to_nat (newBucketCount - _bucketCount t)) new_Bucket in
    ReHash newBucketCount (set_memory bs (set_stretchSize 0 t)).
End Table.
Arguments Table B : clear implicits.
Arguments mkTable {B}.
Arguments new_Table {B}.
End Cuckoo.
