(* ===== verification/CuckooPlaces.v ===== *)
(** * The cuckoo hash table: places of keys and lookups

    Where a key may be: in the block of its [h]-th hash function, when the blocks of the functions
    before are full and the buckets before it in the block are occupied ([placed_at]). Lookups stop at
    the first empty bucket; they are correct when every key is where it may be. *)

From stdpp Require Import base list numbers option tactics gmap.
From Stdlib Require Import ZArith Lia ZifyNat.
From S2P Require Import Prelude HashBucket DenseHashTable DenseHashTableCorrect CuckooHashTable.

#[local] Open Scope Z_scope.

(** ** Blocks *)

Definition block_of (CuckooHash : Z -> Z -> Z) (nb k h : Z) : Z :=
  Cuckoo.GetFirstBucketIdInBlock (CuckooHash k h) nb / 4.

Lemma block_of_ok hash nb k h :
  0 < nb -> Cuckoo.GetFirstBucketIdInBlock (hash k h) nb = 4 * block_of hash nb k h /\ 0 <= block_of hash nb k h < nb.
Proof.
  intros Hn. unfold block_of, Cuckoo.GetFirstBucketIdInBlock, Cuckoo.BLOCK_SIZE. destruct (_ <? nb).
  - rewrite Z.div_mul by lia. pose proof (Z.mod_pos_bound (hash k h) nb Hn). lia.
  - rewrite Z.div_mul by lia. pose proof (Z.mod_pos_bound (u32 (hash k h)) nb Hn). lia.
Qed.

(** Bucket [4 * b + j] is in block [b]. *)
Lemma block_div b j : 0 <= j < 4 -> (4 * b + j) / 4 = b.
Proof. intros. rewrite Z.mul_comm, Z.div_add_l, Z.div_small by lia. lia. Qed.

Lemma block_split i : i = 4 * (i / 4) + i mod 4 /\ 0 <= i mod 4 < 4.
Proof. split; [apply Z.div_mod; lia|by apply Z.mod_pos_bound]. Qed.

(** ** Places *)

Section Places.
Context (hash : Z -> Z -> Z) (nb : Z).

(** [k] may be at [i], when [O] are the buckets that count as occupied and there are [nu] functions. *)
Definition placed_at (O : Z -> Prop) (nu k i : Z) : Prop :=
  exists h, 0 <= h < nu /\ i / 4 = block_of hash nb k h /\
    (forall h' j, 0 <= h' < h -> 0 <= j < 4 -> O (4 * block_of hash nb k h' + j)) /\
    (forall j, 4 * (i / 4) <= j < i -> O j).

Lemma placed_at_mono (O O' : Z -> Prop) nu nu' k i :
  (forall j, O j -> O' j) -> nu <= nu' -> placed_at O nu k i -> placed_at O' nu' k i.
Proof.
  intros HO Hnu (h & Hh & Hb & Hf & He). exists h. split; [lia|]. split; [done|]. split; intros; apply HO; auto.
Qed.
End Places.

Section Correct.
Context {B V : Type} `{!Bucket B V} {good_key : Z -> Prop} {good_value : V -> Prop}.
Context `{!BucketLaws B V good_key good_value} (hash : Z -> Z -> Z).

Abbreviation blk t := (block_of hash (Cuckoo._blockCount t)).

(** The invariant of the buckets of [nb] blocks. *)
Record wf_blocks (nu nb : Z) (bs : list B) : Prop := {
  wfb_count : 0 < nb < 2 ^ 60;
  wfb_funcs : 2 <= nu;
  wfb_len : 4 * nb <= Z.of_nat (length bs);
  wfb_keys : Forall (fun b => good_key (Key b)) (lives (take (Z.to_nat (4 * nb)) bs));
  wfb_distinct : NoDup (keys (4 * nb) bs);
  wfb_empty : forall i b, 0 <= i < 4 * nb -> bs !! Z.to_nat i = Some b -> IsEmpty b = true -> b = new_Bucket;
  wfb_placed : forall i b, 0 <= i < 4 * nb -> bs !! Z.to_nat i = Some b -> IsEmpty b = false ->
    placed_at hash nb (occupied bs) nu (Key b) i
}.

Lemma wf_bucket nu nb bs i : wf_blocks nu nb bs -> 0 <= i < 4 * nb -> exists b, bs !! Z.to_nat i = Some b.
Proof. intros [? ? ? ? ? ? ?] Hi. apply lookup_lt_is_Some_2. lia. Qed.

Lemma occupied_not_empty bs i b : occupied bs i -> bs !! Z.to_nat i = Some b -> IsEmpty b = false.
Proof. intros (b' & Hb' & He) Hb. congruence. Qed.

(** The bucket has another key. *)
Definition other_key (bs : list B) (k i : Z) : Prop :=
  exists b, bs !! Z.to_nat i = Some b /\ IsEmpty b = false /\ Key b <> k.

Lemma other_occupied bs k i : other_key bs k i -> occupied bs i.
Proof. intros (b & ? & ? & _). by exists b. Qed.

(** ** Keys that are not there *)

(** An empty bucket where the search of [k] ends: the blocks of the functions before [h] and the
    buckets before it have other keys. *)
Definition ends_at (nb : Z) (bs : list B) (k h j : Z) : Prop :=
  0 <= j < 4 /\
  (forall h' j', 0 <= h' < h -> 0 <= j' < 4 -> other_key bs k (4 * block_of hash nb k h' + j')) /\
  (forall j', 0 <= j' < j -> other_key bs k (4 * block_of hash nb k h + j')) /\
  exists b, bs !! Z.to_nat (4 * block_of hash nb k h + j) = Some b /\ IsEmpty b = true.

Lemma absent_all nu nb bs k :
  wf_blocks nu nb bs ->
  (forall h j, 0 <= h < nu -> 0 <= j < 4 -> other_key bs k (4 * block_of hash nb k h + j)) ->
  k ∉ keys (4 * nb) bs.
Proof.
  intros Hwf Hall. rewrite keys_at. intros (i & b & Hi & Hb & He & Hk). destruct Hwf as [_ _ _ _ _ _ Hp].
  destruct (Hp i b Hi Hb He) as (h & Hh & Hblk & _). rewrite Hk in Hblk.
  destruct (block_split i) as [Hsplit Hm]. destruct (Hall h (i mod 4) Hh Hm) as (b' & Hb' & _ & Hne).
  rewrite <- Hblk, <- Hsplit in Hb'. congruence.
Qed.

Lemma absent_end nu nb bs k h j :
  wf_blocks nu nb bs -> 0 <= h -> ends_at nb bs k h j -> k ∉ keys (4 * nb) bs.
Proof.
  intros Hwf Hh (Hj & Hf & Hbefore & e & He & Hee). rewrite keys_at. intros (i & b & Hi & Hb & Hb0 & Hk).
  destruct Hwf as [_ _ _ _ _ _ Hp]. destruct (Hp i b Hi Hb Hb0) as (h2 & Hh2 & Hblk & Hfull & Hbelow).
  rewrite Hk in Hblk, Hfull. destruct (block_split i) as [Hsplit Hm].
  destruct (Z.lt_trichotomy h2 h) as [Hlt|[->|Hgt]].
  - destruct (Hf h2 (i mod 4) ltac:(lia) Hm) as (b' & Hb' & _ & Hne). rewrite <- Hblk, <- Hsplit in Hb'. congruence.
  - destruct (Z.lt_trichotomy (i mod 4) j) as [Hlt|[Heq|Hgt]].
    + destruct (Hbefore (i mod 4) ltac:(lia)) as (b' & Hb' & _ & Hne). rewrite <- Hblk, <- Hsplit in Hb'. congruence.
    + rewrite <- Heq, <- Hblk, <- Hsplit in He. congruence.
    + specialize (Hbelow (4 * block_of hash nb k h + j) ltac:(lia)).
      pose proof (occupied_not_empty _ _ _ Hbelow He). congruence.
  - specialize (Hfull h j ltac:(lia) Hj). pose proof (occupied_not_empty _ _ _ Hfull He). congruence.
Qed.

(** A key may be put where its search ends. *)
Lemma ends_placed nu nb bs k h j :
  0 <= h < nu -> ends_at nb bs k h j -> placed_at hash nb (occupied bs) nu k (4 * block_of hash nb k h + j).
Proof.
  intros Hh (Hj & Hf & Hbefore & _). exists h. split; [done|]. rewrite block_div by done. split; [done|]. split.
  - intros h' j' Hh' Hj'. eapply other_occupied. by apply Hf.
  - intros i Hi. replace i with (4 * block_of hash nb k h + (i - 4 * block_of hash nb k h)) by lia.
    eapply other_occupied, Hbefore. lia.
Qed.

(** ** Reading *)

Lemma seqZ_step m n : 0 < n -> seqZ m n = m :: seqZ (m + 1) (n - 1).
Proof. intros. rewrite seqZ_cons by done. f_equal; f_equal; lia. Qed.

Lemma seqZ_end m n : n <= 0 -> seqZ m n = [].
Proof. apply seqZ_nil. Qed.

(** The buckets [first + j] on with other keys. *)
Definition others (bs : list B) (k first j j' : Z) : Prop := forall i, j <= i < j' -> other_key bs k (first + i).

Lemma others_step bs k first j j' :
  other_key bs k (first + j) -> others bs k first (j + 1) j' -> others bs k first j j'.
Proof. intros Hj Ho i Hi. destruct (decide (i = j)) as [->|]; [done|]. apply Ho. lia. Qed.

(** A bucket of a key that is being looked for. *)
Lemma bucket_cases b k :
  good_key k -> {IsEmpty b = true} + {IsEmpty b = false /\ IsEqual b k = true /\ Key b = k} +
    {IsEmpty b = false /\ IsEqual b k = false /\ Key b <> k}.
Proof.
  intros Hk. destruct (IsEmpty b) eqn:E; [by left; left|]. pose proof (law_equal b k Hk E) as Hq.
  destruct (IsEqual b k); [left; right|right]; split_and!; try done.
  - by apply Z.eqb_eq.
  - by apply Z.eqb_neq.
Qed.

Lemma scanRead_ok nb bs k first m j :
  4 * nb <= Z.of_nat (length bs) -> good_key k -> 0 <= first -> first + 4 <= 4 * nb -> 0 <= j -> j + Z.of_nat m = 4 ->
  exists r, Cuckoo.scanRead (seqZ j (Z.of_nat m)) bs k first = Ok r /\
    match r with
    | Some (Some i) => 0 <= i < 4 * nb /\ exists b, bs !! Z.to_nat i = Some b /\ IsEmpty b = false /\ Key b = k
    | Some None => exists j', j <= j' < 4 /\ others bs k first j j' /\
        exists b, bs !! Z.to_nat (first + j') = Some b /\ IsEmpty b = true
    | None => others bs k first j 4
    end.
Proof.
  intros Hl Hk H0 Hf. revert j. induction m as [|m IH]; intros j Hj Hm.
  { rewrite seqZ_end by lia. eexists. split; [reflexivity|]. intros i ?. lia. }
  rewrite seqZ_step by lia. cbn [Cuckoo.scanRead].
  destruct (lookup_lt_is_Some_2 bs (Z.to_nat (first + j))) as [b Hb]; [lia|]. rewrite Hb. cbn [deref res_bind].
  destruct (bucket_cases b k Hk) as [ [E|(E & Eq & Hkey)]|(E & Eq & Hkey)]; rewrite E.
  - eexists. split; [reflexivity|]. exists j. split; [lia|]. split; [intros ? ?; lia|]. by exists b.
  - rewrite Eq. eexists. split; [reflexivity|]. split; [lia|]. by exists b.
  - rewrite Eq. replace (Z.of_nat (S m) - 1) with (Z.of_nat m) by lia.
    assert (other_key bs k (first + j)) as Ho by by exists b.
    destruct (IH (j + 1) ltac:(lia) ltac:(lia)) as (r & -> & Hr). eexists. split; [reflexivity|].
    destruct r as [ [i|]|]; [done| |by apply others_step].
    destruct Hr as (j' & Hj' & Hos & He). exists j'. split; [lia|]. split; [by apply others_step|done].
Qed.

Lemma readFuncs_ok nu t k m h :
  wf_blocks nu (Cuckoo._blockCount t) (Cuckoo._bucket t) -> good_key k -> 0 <= h -> h + Z.of_nat m = nu ->
  (forall h' j, 0 <= h' < h -> 0 <= j < 4 -> other_key (Cuckoo._bucket t) k (4 * blk t k h' + j)) ->
  exists r, Cuckoo.readFuncs hash (seqZ h (Z.of_nat m)) t k = Ok r /\
    match r with
    | Some i => 0 <= i < 4 * Cuckoo._blockCount t /\
        exists b, Cuckoo._bucket t !! Z.to_nat i = Some b /\ IsEmpty b = false /\ Key b = k
    | None => k ∉ keys (4 * Cuckoo._blockCount t) (Cuckoo._bucket t)
    end.
Proof.
  intros Hwf Hk. revert h. induction m as [|m IH]; intros h Hh Hm Hbefore.
  { rewrite seqZ_end by lia. eexists. split; [reflexivity|]. apply (absent_all nu); [done|].
    intros h' j Hh' Hj. apply Hbefore; lia. }
  rewrite seqZ_step by lia. cbn [Cuckoo.readFuncs]. unfold Cuckoo.home, Cuckoo.below, Cuckoo.BLOCK_SIZE.
  pose proof Hwf as [Hc _ Hl _ _ _ _].
  destruct (block_of_ok hash (Cuckoo._blockCount t) k h ltac:(lia)) as [-> Hb].
  destruct (scanRead_ok (Cuckoo._blockCount t) (Cuckoo._bucket t) k (4 * blk t k h) 4 0 Hl Hk
    ltac:(lia) ltac:(lia) ltac:(lia) ltac:(lia)) as (r & Hr & Hspec). change (Z.of_nat 4) with 4 in Hr. rewrite Hr. cbn [res_bind].
  destruct r as [ [i|]|].
  - by eexists.
  - eexists. split; [reflexivity|]. destruct Hspec as (j & Hj & Hos & He). apply (absent_end nu _ _ _ h j Hwf Hh).
    split; [lia|]. split; [done|]. split; [|done]. intros j' Hj'. apply Hos. lia.
  - replace (Z.of_nat (S m) - 1) with (Z.of_nat m) by lia. apply IH; [lia|lia|].
    intros h' j Hh' Hj. destruct (decide (h' = h)) as [->|]; [apply Hspec; lia|apply Hbefore; lia].
Qed.

Lemma FindBucketForRead_ok nu t k :
  wf_blocks nu (Cuckoo._blockCount t) (Cuckoo._bucket t) -> good_key k ->
  exists r, Cuckoo.FindBucketForRead hash t k nu = Ok r /\
    match r with
    | Some i => 0 <= i < 4 * Cuckoo._blockCount t /\
        exists b, Cuckoo._bucket t !! Z.to_nat i = Some b /\ IsEmpty b = false /\ Key b = k
    | None => k ∉ keys (4 * Cuckoo._blockCount t) (Cuckoo._bucket t)
    end.
Proof.
  intros Hwf Hk. unfold Cuckoo.FindBucketForRead. pose proof Hwf as [Hc Hnu _ _ _ _ _].
  rewrite (proj2 (Z.eqb_neq _ _)) by lia.
  replace ([0; 1] ++ seqZ 2 (nu - 2)) with (seqZ 0 (Z.of_nat (Z.to_nat nu))).
  - apply (readFuncs_ok nu); [done|done|lia|lia|]. intros; lia.
  - rewrite Z2Nat.id by lia. rewrite (seqZ_step 0), (seqZ_step (0 + 1)) by lia.
    by replace (nu - 1 - 1) with (nu - 2) by lia.
Qed.

(** The map of a table. *)
Definition cmap (t : Cuckoo.Table B) : gmap Z (entry V) :=
  contents (take (Z.to_nat (4 * Cuckoo._blockCount t)) (Cuckoo._bucket t)).

Lemma Find_cuckoo t k :
  wf_blocks (Cuckoo._nu_hashFunc t) (Cuckoo._blockCount t) (Cuckoo._bucket t) -> good_key k ->
  exists r, Cuckoo.Find hash t k = Ok r /\ find_spec (cmap t !! k) r.
Proof.
  intros Hwf Hk. destruct (FindBucketForRead_ok _ t k Hwf Hk) as (r & Hr & Hspec). unfold Cuckoo.Find. rewrite Hr.
  cbn [res_bind]. destruct r as [i|].
  - destruct Hspec as (Hi & b & Hb & He & <-). rewrite Hb. cbn [deref res_bind]. eexists. split; [reflexivity|].
    unfold cmap. rewrite (contents_some (4 * Cuckoo._blockCount t)) by (apply Hwf || by eapply live_in).
    unfold entry_of, find_spec. by destruct (IsDeleted b).
  - eexists. split; [reflexivity|]. unfold cmap. by rewrite contents_none.
Qed.
End Correct.
