(* ===== verification/CuckooMoves.v ===== *)
(** * The cuckoo hash table: moving keys

    [CuckooKick] moves keys along a path of the search tree, so that a bucket of the first node
    becomes free. While it runs one bucket, the hole, has no key of its own. The keys that are kept
    and the places they may be at are followed through the moves. [P] are the buckets that have been
    processed: all of them in an insertion, those that were reached so far in a rehash. *)

From stdpp Require Import base list numbers option tactics gmap.
From Stdlib Require Import ZArith Lia ZifyNat.
From S2P Require Import Prelude HashBucket DenseHashTable DenseHashTableCorrect CuckooHashTable CuckooPlaces.

#[local] Open Scope Z_scope.
Import Cuckoo.

Section Moves.
Context {B V : Type} `{!Bucket B V} `{!MoveBucket B} {good_key : Z -> Prop} {good_value : V -> Prop}.
Context `{!BucketLaws B V good_key good_value} `{!MoveLaws B V} (hash : Z -> Z -> Z) (nu nb : Z) (P : Z -> Prop).

(** A bucket that is occupied and processed, or is the hole [i]. *)
Definition occ (i : Z) (bs : list B) (x : Z) : Prop := x = i \/ (occupied bs x /\ P x).

(** Every key but that of the hole is where it may be. *)
Record holed (i : Z) (bs : list B) : Prop := {
  hl_len : 4 * nb <= Z.of_nat (length bs);
  hl_hole : 0 <= i < 4 * nb;
  hl_empty : forall j b, 0 <= j < 4 * nb -> j <> i -> bs !! Z.to_nat j = Some b -> IsEmpty b = true -> b = new_Bucket;
  hl_placed : forall j b, 0 <= j < 4 * nb -> j <> i -> bs !! Z.to_nat j = Some b -> IsEmpty b = false -> P j ->
    placed_at hash nb (occ i bs) nu (Key b) j
}.

(** The keys without that of the hole. *)
Definition held (i : Z) (bs : list B) : list B :=
  lives (take (Z.to_nat (4 * nb)) (<[Z.to_nat i := new_Bucket]> bs)).

Lemma held_write i bs o b :
  0 <= i < 4 * nb -> bs !! Z.to_nat i = Some o -> held i (<[Z.to_nat i := b]> bs) = held i bs.
Proof. intros Hi Ho. unfold held. by rewrite list_insert_insert_eq. Qed.

(** Filling the hole. *)
Lemma held_fill i bs o b :
  0 <= i < 4 * nb -> bs !! Z.to_nat i = Some o ->
  lives (take (Z.to_nat (4 * nb)) (<[Z.to_nat i := b]> bs)) ≡ₚ held i bs ++ lv b.
Proof.
  intros Hi Ho. unfold held. apply (Permutation_app_inv_r (lv o)).
  rewrite (lives_write (4 * nb) bs i o b Hi Ho). rewrite <- app_assoc, (Permutation_app_comm (lv b)), app_assoc.
  pose proof (lives_write (4 * nb) bs i o new_Bucket Hi Ho) as Hw. rewrite (lv_empty new_Bucket law_new), app_nil_r in Hw.
  by rewrite Hw.
Qed.

(** ** One move *)

(** The bucket [pb] at [p] can be moved to the hole [i]. *)
Record movable (i p : Z) (bs : list B) (pb : B) : Prop := {
  mv_holed : holed i bs;
  mv_from : 0 <= p < 4 * nb;
  mv_other : p <> i;
  mv_bucket : bs !! Z.to_nat p = Some pb;
  mv_full : IsEmpty pb = false;
  mv_processed : P i
}.

Definition moved (i p : Z) (bs : list B) (pb : B) : list B :=
  <[Z.to_nat p := BSetEmpty pb]> (<[Z.to_nat i := pb]> bs).

Section Move.
Context (i p : Z) (bs : list B) (pb : B) (Hmv : movable i p bs pb).
#[local] Abbreviation moved := (moved i p bs pb).

Lemma moved_other x : 0 <= x -> x <> i -> x <> p -> moved !! Z.to_nat x = bs !! Z.to_nat x.
Proof using Type*.
  destruct Hmv as [ [] ]. intros H0 Hxi Hxp. unfold moved. rewrite !list_lookup_insert_ne by lia. done.
Qed.

Lemma moved_hole : moved !! Z.to_nat i = Some pb.
Proof using Type*.
  destruct Hmv as [ [] ]. unfold moved. rewrite list_lookup_insert_ne by lia. apply list_lookup_insert_eq. lia.
Qed.

Lemma moved_from : moved !! Z.to_nat p = Some (BSetEmpty pb).
Proof using Type*.
  destruct Hmv as [ [] ]. unfold moved. apply list_lookup_insert_eq. rewrite length_insert. lia.
Qed.

Lemma moved_length : length moved = length bs.
Proof. unfold moved. by rewrite !length_insert. Qed.

Lemma moved_occ x : 0 <= x -> occ i bs x -> occ p moved x.
Proof using Type*.
  destruct Hmv as [Hholed Hp Hne Hpb Hfull HP]. intros H0 Hx. destruct (decide (x = p)) as [->|Hxp]; [by left|]. right.
  destruct (decide (x = i)) as [->|Hxi].
  - split; [|done]. exists pb. by rewrite moved_hole.
  - destruct Hx as [|[(b & Hb & He) HPx]]; [done|]. split; [|done]. exists b. by rewrite moved_other.
Qed.

Lemma moved_held : held p moved ≡ₚ held i bs.
Proof using Type*.
  destruct Hmv as [Hholed Hp Hne Hpb Hfull HP]. pose proof (hl_len _ _ Hholed). pose proof (hl_hole _ _ Hholed) as Hi.
  destruct (lookup_lt_is_Some_2 bs (Z.to_nat i)) as [o Ho]; [lia|].
  assert (<[Z.to_nat i := pb]> bs !! Z.to_nat p = Some pb) as Hp' by (rewrite list_lookup_insert_ne by lia; done).
  unfold moved. rewrite (held_write p _ pb) by done. apply (Permutation_app_inv_r [pb]).
  pose proof (held_fill p (<[Z.to_nat i := pb]> bs) pb pb Hp Hp') as H1. rewrite (lv_full pb Hfull) in H1.
  rewrite <- H1. rewrite (list_insert_id (<[Z.to_nat i := pb]> bs)) by done.
  rewrite (held_fill i bs o pb Hi Ho). by rewrite (lv_full pb Hfull).
Qed.

Lemma moved_holed : placed_at hash nb (occ i bs) nu (Key pb) i -> holed p moved.
Proof using Type*.
  destruct Hmv as [Hholed Hp Hne Hpb Hfull HP]. intros Hplace. pose proof Hholed as [Hl Hi He Hpl]. split.
  - by rewrite moved_length.
  - done.
  - intros j b Hj Hjp Hb Hbe. destruct (decide (j = i)) as [->|Hji].
    + rewrite moved_hole in Hb. congruence.
    + rewrite moved_other in Hb by lia. by apply (He j).
  - intros j b Hj Hjp Hb Hbe HPj.
    assert (forall k, placed_at hash nb (occ i bs) nu k j -> placed_at hash nb (occ p moved) nu k j) as Hmono.
    { intros k (h & Hh & Hblk & Hf & Hbelow). exists h. split; [done|]. split; [done|]. split.
      - intros h' j' Hh' Hj'. apply moved_occ; [|by apply Hf].
        destruct (block_of_ok hash nb k h' ltac:(lia)) as [_ ?]. lia.
      - intros j' Hj'. apply moved_occ; [|by apply Hbelow]. pose proof (Z.div_pos j 4 ltac:(lia) ltac:(lia)). lia. }
    apply Hmono. destruct (decide (j = i)) as [->|Hji].
    + rewrite moved_hole in Hb. injection Hb as <-. done.
    + rewrite moved_other in Hb by lia. by apply Hpl.
Qed.
End Move.

(** ** The search tree *)

(** Node [n] was reached from a bucket of its parent, by a hash function of the key there such that the
    blocks of the functions before are full ([O]). *)
Definition linked (O : Z -> Prop) (bs : list B) (tree : list TreeNode) (n : nat) (node : TreeNode) : Prop :=
  exists p pnode pb h, n_parent node = Z.of_nat p /\ (p < n)%nat /\ tree !! p = Some pnode /\
    0 <= n_inBlockId node < 4 /\ bs !! Z.to_nat (n_bucketId pnode + n_inBlockId node) = Some pb /\ IsEmpty pb = false /\
    0 <= h < nu /\ n_bucketId node = 4 * block_of hash nb (Key pb) h /\
    forall h' j, 0 <= h' < h -> 0 <= j < 4 -> O (4 * block_of hash nb (Key pb) h' + j).

(** The shape of the tree of a search for key [k]: the blocks of [k] first, every other node in a block of its own. *)
Record tree_shape (k : Z) (tree : list TreeNode) : Prop := {
  ts_node : forall n node, tree !! n = Some node -> exists b, n_bucketId node = 4 * b /\ 0 <= b < nb;
  ts_root : forall n node, tree !! n = Some node -> n_parent node = BFS_ROOT_IDX ->
    (exists h, 0 <= h < nu /\ n_bucketId node = 4 * block_of hash nb k h) /\
    forall m mnode, (m < n)%nat -> tree !! m = Some mnode -> n_parent mnode = BFS_ROOT_IDX;
  ts_fresh : forall n node m mnode, tree !! n = Some node -> n_parent node <> BFS_ROOT_IDX -> (m < n)%nat ->
    tree !! m = Some mnode -> n_bucketId mnode <> n_bucketId node;
  ts_small : Z.of_nat (length tree) <= MAX_NUM_BFS_TREE_NODE + 1
}.

Definition linked_upto (O : Z -> Prop) (bs : list B) (tree : list TreeNode) (e : nat) : Prop :=
  forall n node, (n <= e)%nat -> tree !! n = Some node -> n_parent node <> BFS_ROOT_IDX -> linked O bs tree n node.

(** The blocks of the nodes before [e] are full. *)
Definition full_before (O : Z -> Prop) (tree : list TreeNode) (e : nat) : Prop :=
  forall m mnode j, (m < e)%nat -> tree !! m = Some mnode -> 0 <= j < 4 -> O (n_bucketId mnode + j).

Lemma same_block_ne b b' j j' : 4 * b <> 4 * b' -> 0 <= j < 4 -> 0 <= j' < 4 -> 4 * b + j <> 4 * b' + j'.
Proof. lia. Qed.

(** ** [CuckooKick] *)

(** What a run of moves leaves. *)
Record kicked (k : Z) (tree : list TreeNode) (i : Z) (bs : list B) (i' : Z) (bs' : list B) : Prop := {
  kd_holed : holed i' bs';
  kd_processed : P i';
  kd_root : exists h, 0 <= h < nu /\ i' / 4 = block_of hash nb k h;
  kd_held : held i' bs' ≡ₚ held i bs;
  kd_occ : forall x, 0 <= x -> occ i bs x -> occ i' bs' x;
  kd_length : length bs' = length bs
}.

(** The hole [i] is in node [e]. *)
Record kicking (k : Z) (tree : list TreeNode) (e : nat) (j : Z) (bs : list B) (node : TreeNode) : Prop := {
  kg_node : tree !! e = Some node;
  kg_in : 0 <= j < 4;
  kg_holed : holed (n_bucketId node + j) bs;
  kg_processed : P (n_bucketId node + j);
  kg_linked : linked_upto (occ (n_bucketId node + j) bs) bs tree e;
  kg_full : full_before (fun x => occ (n_bucketId node + j) bs x /\ P x) tree e;
  kg_below : forall x, n_bucketId node <= x < n_bucketId node + j -> occ (n_bucketId node + j) bs x
}.

(** One turn of the loop. *)
Lemma kick_step k tree e j bs node :
  tree_shape k tree -> kicking k tree e j bs node -> n_parent node <> BFS_ROOT_IDX ->
  exists p pnode pb eb, n_parent node = Z.of_nat p /\ (p < e)%nat /\ tree !! p = Some pnode /\
    bs !! Z.to_nat (n_bucketId node + j) = Some eb /\
    bs !! Z.to_nat (n_bucketId pnode + n_inBlockId node) = Some pb /\
    movable (n_bucketId node + j) (n_bucketId pnode + n_inBlockId node) bs pb /\
    kicking k tree p (n_inBlockId node) (moved (n_bucketId node + j) (n_bucketId pnode + n_inBlockId node) bs pb) pnode.
Proof using Type*.
  intros Hts [Hnode Hj Hholed HP Hlinks Hfull Hbelow] Hnr.
  destruct (Hlinks e node ltac:(lia) Hnode Hnr) as (p & pnode & pb & h & Hpar & Hp & Hpnode & Hin & Hpb & Hpe & Hh & Hblk & Hearlier).
  destruct (ts_node _ _ Hts e node Hnode) as (b & Hb & Hbr). destruct (ts_node _ _ Hts p pnode Hpnode) as (pn & Hpn & Hpr).
  pose proof (ts_fresh _ _ Hts e node p pnode Hnode Hnr Hp Hpnode) as Hfresh.
  set (i := n_bucketId node + j) in *. set (s := n_bucketId pnode + n_inBlockId node) in *.
  assert (Hsi : s <> i) by (unfold s, i; rewrite Hpn, Hb in *; lia).
  assert (Hmv : movable i s bs pb) by (split; (done || (unfold s; lia))).
  assert (Hocc : forall x, 0 <= x -> occ i bs x -> occ s (moved i s bs pb) x) by (intros x; by apply moved_occ).
  destruct (lookup_lt_is_Some_2 bs (Z.to_nat i)) as [eb Heb].
  { destruct Hholed. lia. }
  exists p, pnode, pb, eb. split_and!; try done. split.
  - done.
  - done.
  - apply moved_holed; [done|]. exists h. split; [done|]. split.
    { unfold i. rewrite Hb, block_div by done. lia. }
    split; [done|]. intros x Hx. apply Hbelow. revert Hx. unfold i. rewrite Hb, block_div by done. lia.
  - by apply (Hfull p pnode).
  - intros n nd Hn Hnd Hndr. destruct (Hlinks n nd ltac:(lia) Hnd Hndr) as (q & qnode & qb & h2 & Q1 & Q2 & Q3 & Q4 & Q5 & Q6 & Q7 & Q8 & Q9).
    destruct (ts_node _ _ Hts q qnode Q3) as (bq & Hbq & Hbqr).
    pose proof (ts_fresh _ _ Hts e node q qnode Hnode Hnr ltac:(lia) Q3) as F1.
    assert (F2 : n_bucketId qnode <> n_bucketId pnode).
    { destruct (decide (n_parent pnode = BFS_ROOT_IDX)) as [Hroot|Hroot].
      - destruct (decide (n = p)) as [->|]; [congruence|].
        exfalso. apply Hndr. by apply (proj2 (ts_root _ _ Hts p pnode Hpnode Hroot) n nd ltac:(lia)).
      - apply (ts_fresh _ _ Hts p pnode q qnode); (done || lia). }
    exists q, qnode, qb, h2. split_and!; try (done || lia).
    + rewrite (moved_other i s bs pb Hmv); [done|unfold s, i in *; lia..].
    + intros h' j' Hh' Hj'. apply Hocc; [|by apply Q9]. destruct (block_of_ok hash nb (Key qb) h' ltac:(lia)) as [_ ?]. lia.
  - intros m mnode j' Hm Hmn Hj'. destruct (Hfull m mnode j' ltac:(lia) Hmn Hj'). split; [|done]. apply Hocc; [|done].
    destruct (ts_node _ _ Hts m mnode Hmn) as (bm & Hbm & ?). lia.
  - intros x Hx. apply Hocc; [lia|].
    destruct (Hfull p pnode (x - n_bucketId pnode) Hp Hpnode ltac:(lia)) as [Ho _].
    by replace (n_bucketId pnode + (x - n_bucketId pnode)) with x in Ho by lia.
Qed.

Lemma kickLoop_ok k tree fuel e j bs node :
  tree_shape k tree -> kicking k tree e j bs node -> (e < fuel)%nat ->
  exists bs' i' o, kickLoop fuel bs tree (Z.of_nat e) (n_parent node) j = Ok (bs', i') /\
    kicked k tree (n_bucketId node + j) bs i' bs' /\
    bs' !! Z.to_nat i' = Some o /\ (n_parent node <> BFS_ROOT_IDX -> IsEmpty o = true) /\
    (n_parent node = BFS_ROOT_IDX -> bs !! Z.to_nat (n_bucketId node + j) = Some o).
Proof using Type*.
  intros Hts. revert e j bs node. induction fuel as [|fuel IH]; intros e j bs node Hkg Hf; [lia|]. cbn [kickLoop].
  pose proof Hkg as [Hnode Hj Hholed HP _ _ _]. rewrite Nat2Z.id, Hnode. cbn [deref res_bind].
  destruct (Z.eqb_spec (n_parent node) BFS_ROOT_IDX) as [Hroot|Hroot].
  - destruct (lookup_lt_is_Some_2 bs (Z.to_nat (n_bucketId node + j))) as [o Ho]; [destruct Hholed; lia|].
    eexists _, _, o. split; [reflexivity|]. split; [|split; [exact Ho|split; [by intros|by intros]]].
    destruct (proj1 (ts_root _ _ Hts e node Hnode Hroot)) as (h & Hh & Hb).
    split; try done. exists h. split; [done|]. rewrite Hb. by apply block_div.
  - destruct (kick_step k tree e j bs node Hts Hkg Hroot)
      as (p & pnode & pb & eb & Hpar & Hp & Hpnode & Heb & Hpb & Hmv & Hkg').
    rewrite Hpar in Hroot |- *. rewrite Nat2Z.id, Hpnode. cbn [deref res_bind]. rewrite Heb, Hpb. cbn [deref res_bind]. rewrite move_copy.
    fold (moved (n_bucketId node + j) (n_bucketId pnode + n_inBlockId node) bs pb).
    destruct (IH p (n_inBlockId node) _ pnode Hkg' ltac:(lia)) as (bs' & i' & o & -> & [K1 K2 K3 K4 K5 K6] & Ho & Hemp & Hsame).
    eexists _, _, o. split; [reflexivity|]. split; [|split; [done|split; [|done]]].
    + split; try done.
      * rewrite K4. by apply moved_held.
      * intros x Hx Hox. apply K5; [done|]. by apply moved_occ.
      * rewrite K6. apply moved_length.
    + intros _. destruct (decide (n_parent pnode = BFS_ROOT_IDX)) as [Hpr|Hpr]; [|by apply Hemp].
      specialize (Hsame Hpr). rewrite (moved_from _ _ _ _ Hmv) in Hsame. injection Hsame as <-. apply move_empty.
Qed.
End Moves.
