(* ===== verification/CuckooSearch.v ===== *)
(** * The cuckoo hash table: the breadth first search

    The tree that [BFSFindBucket] builds: its shape, the blocks that have been seen are full, and the
    search ends. *)

From stdpp Require Import base list numbers option tactics gmap.
From Stdlib Require Import ZArith Lia ZifyNat.
From S2P Require Import Prelude HashBucket DenseHashTable DenseHashTableCorrect CuckooHashTable CuckooPlaces.
From S2P Require Import CuckooMoves.

#[local] Open Scope Z_scope.
Import Cuckoo.

(** ** Marks *)

Definition marks (cur : Z) (ids : list Z) : nat := length (filter (fun x => x = cur) ids).
#[local] Arguments marks : simpl never.

Lemma marks_le cur ids : (marks cur ids <= length ids)%nat.
Proof. apply length_filter. Qed.

Lemma marks_cons cur x ids : marks cur (x :: ids) = ((if decide (x = cur) then 1 else 0) + marks cur ids)%nat.
Proof. unfold marks. rewrite filter_cons. by case_decide. Qed.

Lemma marks_insert cur ids i x : ids !! i = Some x -> x <> cur -> marks cur (<[i := cur]> ids) = S (marks cur ids).
Proof.
  revert i. induction ids as [|y ids IH]; intros i Hi Hx; [done|]. destruct i as [|i]; cbn in Hi.
  - injection Hi as ->. change (<[0%nat := cur]> (x :: ids)) with (cur :: ids). rewrite !marks_cons.
    by rewrite decide_True, decide_False.
  - change (<[S i := cur]> (y :: ids)) with (y :: <[i := cur]> ids). rewrite !marks_cons, IH by done. lia.
Qed.

(** ** Growing the tree *)

Lemma parent_not_root p : Z.of_nat p <= MAX_NUM_BFS_TREE_NODE -> Z.of_nat p <> BFS_ROOT_IDX.
Proof. unfold MAX_NUM_BFS_TREE_NODE, BFS_ROOT_IDX. lia. Qed.

Section Tree.
Context {B V : Type} `{!Bucket B V} (hash : Z -> Z -> Z) (nu nb : Z).

Lemma linked_mono (O O' : Z -> Prop) bs tree l n node :
  (forall x, O x -> O' x) -> linked hash nu nb O bs tree n node -> linked hash nu nb O' bs (tree ++ l) n node.
Proof.
  intros HO (p & pnode & pb & h & H1 & H2 & H3 & H4 & H5 & H6 & H7 & H8 & H9). exists p, pnode, pb, h.
  split_and!; try (done || lia).
  - by apply lookup_app_l_Some.
  - intros h' j Hh' Hj. by apply HO, H9.
Qed.

Lemma tree_shape_snoc k tree p bucketId inBlockId b :
  tree_shape hash nu nb k tree -> Z.of_nat (length tree) <= MAX_NUM_BFS_TREE_NODE -> (p < length tree)%nat ->
  bucketId = 4 * b -> 0 <= b < nb ->
  (forall m mnode, tree !! m = Some mnode -> n_bucketId mnode <> bucketId) ->
  tree_shape hash nu nb k (tree ++ [mkNode bucketId (Z.of_nat p) inBlockId]).
Proof.
  intros [Hn Hr Hf Hs] Hlen Hp Hb Hbr Hnew. pose proof (parent_not_root p ltac:(lia)) as Hpr. split.
  - intros n node. rewrite lookup_app_Some. intros [Hnode|[Hle Hnode]]; [by eapply Hn|].
    apply list_lookup_singleton_Some in Hnode as [_ <-]. by exists b.
  - intros n node. rewrite lookup_app_Some. intros [Hnode|[Hle Hnode]] Hroot.
    + destruct (Hr n node Hnode Hroot) as [Hh Hbefore]. split; [done|]. intros m mnode Hm Hmn.
      apply lookup_lt_Some in Hnode. rewrite lookup_app_l in Hmn by lia. by eapply Hbefore.
    + apply list_lookup_singleton_Some in Hnode as [_ <-]. done.
  - intros n node m mnode. rewrite lookup_app_Some. intros [Hnode|[Hle Hnode]] Hroot Hm Hmn.
    + pose proof (lookup_lt_Some _ _ _ Hnode). rewrite lookup_app_l in Hmn by lia. by eapply Hf.
    + apply list_lookup_singleton_Some in Hnode as [Hn0 <-]. rewrite lookup_app_l in Hmn by lia. by eapply Hnew.
  - rewrite length_app. cbn. lia.
Qed.

(** ** The invariant of the search *)

Context (P : Z -> Prop) (bs : list B) (k : Z) (cur : Z) (roots : nat).

(** A bucket that is occupied and processed. *)
Definition full (x : Z) : Prop := occupied bs x /\ P x.

Definition all_linked (tree : list TreeNode) : Prop :=
  forall n node, tree !! n = Some node -> n_parent node <> BFS_ROOT_IDX -> linked hash nu nb full bs tree n node.

Definition ids_ok (ids : list Z) : Prop := Z.of_nat (length ids) = nb /\ Forall (fun x => 0 <= x <= cur) ids.

Record searching (ids : list Z) (tree : list TreeNode) : Prop := {
  se_shape : tree_shape hash nu nb k tree;
  se_size : Z.of_nat (length tree) <= MAX_NUM_BFS_TREE_NODE;
  se_links : all_linked tree;
  se_ids : ids_ok ids;
  se_seen : forall n node, tree !! n = Some node -> ids !! Z.to_nat (n_bucketId node / 4) = Some cur;
  se_full : forall b j, 0 <= b < nb -> ids !! Z.to_nat b = Some cur -> 0 <= j < 4 -> full (4 * b + j);
  se_count : (length tree <= roots + marks cur ids)%nat
}.

(** The last node has a bucket that can be used, behind full buckets. *)
Record found_bucket (tree : list TreeNode) (j : Z) : Prop := {
  fb_shape : tree_shape hash nu nb k tree;
  fb_links : all_linked tree;
  fb_leaf : exists pre leaf, tree = pre ++ [leaf] /\ n_parent leaf <> BFS_ROOT_IDX /\ 0 <= j < 4 /\
    (forall x, n_bucketId leaf <= x < n_bucketId leaf + j -> full x) /\
    (forall m mnode j', pre !! m = Some mnode -> 0 <= j' < 4 -> full (n_bucketId mnode + j'))
}.

(** A new block [b], reached from bucket [i] of node [p]. *)
Lemma searching_new ids tree p pnode i pb h :
  searching ids tree -> tree !! p = Some pnode -> 0 <= i < 4 -> bs !! Z.to_nat (n_bucketId pnode + i) = Some pb ->
  IsEmpty pb = false -> 0 < nb -> 0 <= h < nu ->
  (forall h' j, 0 <= h' < h -> 0 <= j < 4 -> full (4 * block_of hash nb (Key pb) h' + j)) ->
  (exists x, ids !! Z.to_nat (block_of hash nb (Key pb) h) = Some x /\ x <> cur) ->
  let b := block_of hash nb (Key pb) h in
  let tree' := tree ++ [mkNode (4 * b) (Z.of_nat p) i] in
  let ids' := <[Z.to_nat b := cur]> ids in
  tree_shape hash nu nb k tree' /\ all_linked tree' /\ ids_ok ids' /\
  (forall n node, tree' !! n = Some node -> ids' !! Z.to_nat (n_bucketId node / 4) = Some cur) /\
  (length tree' <= roots + marks cur ids')%nat /\
  ((forall j, 0 <= j < 4 -> full (4 * b + j)) ->
   forall b' j, 0 <= b' < nb -> ids' !! Z.to_nat b' = Some cur -> 0 <= j < 4 -> full (4 * b' + j)).
Proof.
  intros [S1 S2 S3 [S4 S4'] S5 S6 S7] Hp Hi Hpb Hpe Hnb Hh Hearlier (x & Hx & Hxc) b tree' ids'.
  destruct (block_of_ok hash nb (Key pb) h Hnb) as [_ Hb]. fold b in Hb, Hx.
  assert (Hpl : (p < length tree)%nat) by by eapply lookup_lt_Some.
  split_and!.
  - apply (tree_shape_snoc k tree p (4 * b) i b); try done. intros m mnode Hm Heq.
    pose proof (S5 m mnode Hm) as Hseen. rewrite Heq in Hseen.
    replace (4 * b / 4) with b in Hseen by (rewrite Z.mul_comm, Z.div_mul; lia). congruence.
  - intros n node. unfold tree'. rewrite lookup_app_Some. intros [Hnode|[Hle Hnode]] Hroot.
    + apply (linked_mono full); [done|]. by apply S3.
    + apply list_lookup_singleton_Some in Hnode as [Hn0 <-]. exists p, pnode, pb, h. cbn.
      split_and!; try (done || lia). by apply lookup_app_l_Some.
  - unfold ids'. split; [by rewrite length_insert|]. apply Forall_insert; [done|]. rewrite Forall_forall in S4'.
    assert (0 <= cur) as Hcur; [|lia]. specialize (S4' x ltac:(by eapply list_elem_of_lookup_2)). lia.
  - intros n node. unfold tree'. rewrite lookup_app_Some. intros [Hnode|[Hle Hnode]].
    + unfold ids'. pose proof (S5 n node Hnode) as Hseen.
      destruct (decide (Z.to_nat b = Z.to_nat (n_bucketId node / 4))) as [->|Hne].
      * apply list_lookup_insert_eq. by eapply lookup_lt_Some.
      * by rewrite list_lookup_insert_ne.
    + apply list_lookup_singleton_Some in Hnode as [Hn0 <-]. cbn [n_bucketId]. rewrite Z.mul_comm, Z.div_mul by lia.
      unfold ids'. apply list_lookup_insert_eq. by eapply lookup_lt_Some.
  - unfold tree', ids'. rewrite length_app, (marks_insert cur ids _ x) by done. cbn. lia.
  - intros Hfull b' j Hb' Hids Hj. destruct (decide (b' = b)) as [->|Hne]; [by apply Hfull|].
    unfold ids' in Hids. rewrite list_lookup_insert_ne in Hids by lia. by apply S6.
Qed.
End Tree.

(** ** The loops of [BFSFindBucket] *)

Section Search.
Context {B V : Type} `{!Bucket B V} (hash : Z -> Z -> Z) (t : Table B) (k cur : Z) (roots : nat).

Abbreviation bs := (_bucket t).
Abbreviation nb := (_blockCount t).
Abbreviation nu := (_nu_hashFunc t).
Abbreviation always := (fun _ : Z => True).
Abbreviation full := (full always bs).
Abbreviation searching := (searching hash nu nb always bs k cur roots).
Abbreviation found_bucket := (found_bucket hash nu nb always bs k).

Hypothesis Hnb : 0 < nb.
Hypothesis Hlen : 4 * nb <= Z.of_nat (length bs).

Lemma firstEmpty_ok first m j :
  0 <= first -> first + 4 <= 4 * nb -> 0 <= j -> j + Z.of_nat m = 4 ->
  exists r, firstEmpty (seqZ j (Z.of_nat m)) bs first = Ok r /\
    match r with
    | Some j' => j <= j' < 4 /\ (forall i, j <= i < j' -> full (first + i)) /\
        exists b, bs !! Z.to_nat (first + j') = Some b /\ IsEmpty b = true
    | None => forall i, j <= i < 4 -> full (first + i)
    end.
Proof using All.
  intros H0 Hf. revert j. induction m as [|m IH]; intros j Hj Hm.
  { rewrite seqZ_end by lia. eexists. split; [reflexivity|]. intros i ?; exfalso; lia. }
  rewrite seqZ_step by lia. cbn [firstEmpty].
  destruct (lookup_lt_is_Some_2 bs (Z.to_nat (first + j))) as [b Hb]; [lia|]. rewrite Hb. cbn [deref res_bind].
  destruct (IsEmpty b) eqn:E.
  - eexists. split; [reflexivity|]. split; [lia|]. split; [intros i ?; exfalso; lia|]. by exists b.
  - replace (Z.of_nat (S m) - 1) with (Z.of_nat m) by lia.
    assert (full (first + j)) as Hfull by (split; [by exists b|done]).
    destruct (IH (j + 1) ltac:(lia) ltac:(lia)) as (r & -> & Hr). eexists. split; [reflexivity|].
    assert (forall j', (forall i, j + 1 <= i < j' -> full (first + i)) -> forall i, j <= i < j' -> full (first + i)) as Hext.
    { intros j' H i Hi. destruct (decide (i = j)) as [->|]; [done|]. apply H. lia. }
    destruct r as [j'|]; [|by apply Hext]. destruct Hr as (Hj' & Hfs & He). split; [lia|]. split; [by apply Hext|done].
Qed.

(** The empty bucket that was found *)
Definition empty_leaf (tree : list TreeNode) (j : Z) : Prop :=
  forall leaf, last tree = Some leaf -> exists b, bs !! Z.to_nat (n_bucketId leaf + j) = Some b /\ IsEmpty b = true.

Definition search_post (tree : list TreeNode) (r : list Z * list TreeNode * option Z) : Prop :=
  let '(ids', tree', e) := r in
  ids_ok nb cur ids' /\ (exists l, tree' = tree ++ l) /\
  match e with
  | None => searching ids' tree'
  | Some j => found_bucket tree' j /\ empty_leaf tree' j
  end.

Lemma search_post_app tree l r : search_post (tree ++ l) r -> search_post tree r.
Proof.
  destruct r as [ [ids' tree'] e]. intros (H1 & (l' & ->) & H2). split; [done|]. split; [|done].
  exists (l ++ l'). by rewrite app_assoc.
Qed.

Lemma bfsFuncs_ok m h idx pnode i pb ids tree :
  searching ids tree -> tree !! idx = Some pnode -> 0 <= i < 4 ->
  bs !! Z.to_nat (n_bucketId pnode + i) = Some pb -> IsEmpty pb = false ->
  0 <= h -> h + Z.of_nat m = nu ->
  (forall h', 0 <= h' < h -> (forall j, 0 <= j < 4 -> full (4 * block_of hash nb (Key pb) h' + j)) \/
     MAX_NUM_BFS_TREE_NODE <= Z.of_nat (length tree)) ->
  exists r, bfsFuncs hash (seqZ h (Z.of_nat m)) t cur (Key pb) (Z.of_nat idx) i ids tree = Ok r /\ search_post tree r.
Proof using All.
  intros Hse Hidx Hi Hpb Hpe. revert h ids tree Hse Hidx. induction m as [|m IH]; intros h ids tree Hse Hidx Hh Hm Hearlier.
  { rewrite seqZ_end by lia. eexists. split; [reflexivity|]. split; [apply Hse|]. split; [by exists []; rewrite app_nil_r|done]. }
  rewrite seqZ_step by lia. cbn [bfsFuncs]. unfold home, BLOCK_SIZE.
  destruct (block_of_ok hash nb (Key pb) h Hnb) as [-> Hb]. set (b := block_of hash nb (Key pb) h) in *.
  replace (4 * b / 4) with b by (rewrite Z.mul_comm, Z.div_mul; lia).
  replace (Z.of_nat (S m) - 1) with (Z.of_nat m) by lia.
  pose proof Hse as [S1 S2 S3 [S4 S4'] S5 S6 S7].
  destruct (lookup_lt_is_Some_2 ids (Z.to_nat b)) as [x Hx]; [lia|]. rewrite Hx. cbn [deref res_bind].
  assert (Hnext : forall tree' : list TreeNode, (length tree <= length tree')%nat ->
    (forall j, 0 <= j < 4 -> full (4 * b + j)) \/ MAX_NUM_BFS_TREE_NODE <= Z.of_nat (length tree') ->
    forall h', 0 <= h' < h + 1 -> (forall j, 0 <= j < 4 -> full (4 * block_of hash nb (Key pb) h' + j)) \/
      MAX_NUM_BFS_TREE_NODE <= Z.of_nat (length tree')).
  { intros tree' Hl Hor h' Hh'. destruct (decide (h' = h)) as [->|]; [done|].
    destruct (Hearlier h' ltac:(lia)); [by left|right; lia]. }
  destruct (Z.eqb_spec x cur) as [->|Hxc].
  { apply IH; [done|done|lia|lia|]. apply Hnext; [done|]. left. intros j Hj. by apply S6. }
  destruct (Z.leb_spec MAX_NUM_BFS_TREE_NODE (Z.of_nat (length tree))) as [Hmax|Hmax].
  { apply IH; [done|done|lia|lia|]. apply Hnext; [done|]. by right. }
  destruct (searching_new hash nu nb always bs k cur roots ids tree idx pnode i pb h Hse Hidx Hi Hpb Hpe Hnb ltac:(lia))
    as (N1 & N2 & N3 & N4 & N5 & N6).
  { intros h' j Hh' Hj. destruct (Hearlier h' Hh') as [Hf|]; [by apply Hf|lia]. }
  { by exists x. }
  fold b in N1, N2, N3, N4, N5, N6.
  destruct (firstEmpty_ok (4 * b) 4 0 ltac:(lia) ltac:(lia) ltac:(lia) ltac:(lia)) as (r & Hr & Hspec).
  unfold below. change (Z.of_nat 4) with 4 in Hr. rewrite Hr. cbn [res_bind].
  destruct r as [j|].
  - destruct Hspec as (Hj & Hfs & He). eexists. split; [reflexivity|]. split; [done|]. split; [by eexists|]. split.
    + split; [done|done|]. eexists _, _. split; [reflexivity|]. cbn [n_parent n_bucketId].
      apply lookup_lt_Some in Hidx. split; [apply parent_not_root; lia|]. split; [lia|]. split.
      * intros x' Hx'. replace x' with (4 * b + (x' - 4 * b)) by lia. apply Hfs. lia.
      * intros n node j' Hn Hj'. pose proof (S5 n node Hn) as H5.
        destruct (ts_node _ _ _ _ _ S1 n node Hn) as (bn & Heq & Hbn). rewrite Heq in H5 |- *.
        apply S6; [done| |done]. by replace (4 * bn / 4) with bn in H5 by (rewrite Z.mul_comm, Z.div_mul; lia).
    + intros leaf. rewrite last_snoc. intros [= <-]. done.
  - edestruct (IH (h + 1)) as (r & Hr' & Hpost);
      [|by apply lookup_app_l_Some| | | |exists r; split; [exact Hr'|by eapply search_post_app]]; [| lia | lia |].
    + split; try done; [rewrite length_app; cbn; lia|]. by apply N6.
    + apply Hnext; [rewrite length_app; lia|]. by left.
Qed.

(** The keys of the buckets of a node, from bucket [j] on *)
Lemma bfsBlock_ok m j idx pnode ids tree :
  searching ids tree -> tree !! idx = Some pnode -> 0 <= j -> j + Z.of_nat m = 4 -> 0 <= nu ->
  exists r, bfsBlock hash (seqZ j (Z.of_nat m)) t cur (Z.of_nat idx) (n_bucketId pnode) ids tree = Ok r /\ search_post tree r.
Proof using All.
  revert j ids tree. induction m as [|m IH]; intros j ids tree Hse Hidx Hj Hm Hnu.
  { rewrite seqZ_end by lia. eexists. split; [reflexivity|]. split; [apply Hse|]. split; [by exists []; rewrite app_nil_r|done]. }
  rewrite seqZ_step by lia. cbn [bfsBlock].
  pose proof Hse as [S1 S2 S3 S4 S5 S6 S7]. pose proof (S5 idx pnode Hidx) as Hseen.
  destruct (ts_node _ _ _ _ _ S1 idx pnode Hidx) as (b & Hb & Hbr).
  assert (full (n_bucketId pnode + j)) as [(pb & Hpb & Hpe) _].
  { rewrite Hb in Hseen |- *. replace (4 * b / 4) with b in Hseen by (rewrite Z.mul_comm, Z.div_mul; lia). apply S6; [done|done|lia]. }
  rewrite Hpb. cbn [deref res_bind]. unfold below.
  destruct (bfsFuncs_ok (Z.to_nat nu) 0 idx pnode j pb ids tree Hse Hidx ltac:(lia) Hpb Hpe ltac:(lia) ltac:(lia)
    ltac:(intros; lia)) as (r & Hr & Hpost). rewrite Z2Nat.id in Hr by lia. rewrite Hr. cbn [res_bind].
  destruct r as [ [ids' tree'] [e|]]; [by eexists|]. destruct Hpost as (_ & (l & ->) & Hse').
  replace (Z.of_nat (S m) - 1) with (Z.of_nat m) by lia.
  destruct (IH (j + 1) ids' (tree ++ l) Hse' ltac:(by apply lookup_app_l_Some) ltac:(lia) ltac:(lia) Hnu) as (r & -> & Hpost).
  exists r. split; [done|]. by eapply search_post_app.
Qed.

(** Without a bucket, the buckets are as before. *)
Definition loop_post (r : list Z * list TreeNode * option Z) : Prop :=
  let '(ids', tree', e) := r in
  ids_ok nb cur ids' /\ match e with None => True | Some j => found_bucket tree' j /\ empty_leaf tree' j end.

Lemma bfsLoop_ok fuel idx next depth ids tree :
  searching ids tree -> 0 <= nu -> (idx <= length tree)%nat -> (roots + length ids < fuel + idx)%nat ->
  exists r, bfsLoop hash fuel t cur (Z.of_nat idx) next depth ids tree = Ok r /\ loop_post r.
Proof using All.
  revert idx next depth ids tree. induction fuel as [|fuel IH]; intros idx next depth ids tree Hse Hnu Hle Hf; cbn [bfsLoop];
    pose proof Hse as [S1 S2 S3 S4 S5 S6 S7]; pose proof (marks_le cur ids); [lia|].
  destruct (Z.leb_spec (Z.of_nat (length tree)) (Z.of_nat idx)); [by eexists|].
  set (next' := if Z.of_nat idx =? next then depth + 1 else depth).
  destruct ((Z.of_nat idx =? next) && (_bFSDepth t <? next')); [by eexists|].
  destruct (lookup_lt_is_Some_2 tree idx) as [node Hnode]; [lia|]. rewrite Nat2Z.id, Hnode. cbn [deref res_bind].
  destruct (bfsBlock_ok 4 0 idx node ids tree Hse Hnode ltac:(lia) ltac:(lia) Hnu) as (r & Hr & Hpost).
  unfold below, BLOCK_SIZE. change (Z.of_nat 4) with 4 in Hr. rewrite Hr. cbn [res_bind].
  destruct r as [ [ids' tree'] [e|]]; destruct Hpost as (Hids & Hl & Hpost); [by eexists|].
  replace (Z.of_nat idx + 1) with (Z.of_nat (S idx)) by lia. destruct Hl as [l ->].
  destruct Hids as [Hids _], S4 as [S4 _]. apply IH; [done|done|rewrite length_app; lia|lia].
Qed.
End Search.
