(* ===== verification/CuckooInsert.v ===== *)
(** * The cuckoo hash table: insertion

    [DoInternalFindBucket] and [InternalFindBucket] give a bucket in which the key can be written, the
    bucket of the key or an empty one; the keys that were moved are kept. *)

From stdpp Require Import base list numbers option tactics gmap.
From Stdlib Require Import ZArith Lia ZifyNat.
From S2P Require Import Prelude HashBucket DenseHashTable DenseHashTableCorrect DenseHashTableShrink CuckooHashTable.
From S2P Require Import CuckooPlaces CuckooMoves CuckooSearch.

#[local] Open Scope Z_scope.
Import Cuckoo.

Section Insert.
Context {B V : Type} `{!Bucket B V} `{!MoveBucket B} {good_key : Z -> Prop} {good_value : V -> Prop}.
Context `{!BucketLaws B V good_key good_value} `{!MoveLaws B V} (hash : Z -> Z -> Z).

Abbreviation wf_blocks := (wf_blocks (good_key := good_key) hash).
Abbreviation always := (fun _ : Z => True).
Abbreviation region nb bs := (lives (take (Z.to_nat (4 * nb)) bs)).

(** ** A bucket for a key *)

(** The bucket [i] of [bs'] can take the key [k]; the keys of [bs'] are those of [bs]. *)
Record slot_for (nu nb k : Z) (bs : list B) (i : Z) (bs' : list B) : Prop := {
  sf_range : 0 <= i < 4 * nb;
  sf_bucket : exists o, bs' !! Z.to_nat i = Some o /\ overwrites (4 * nb) bs' k o;
  sf_lives : region nb bs' ≡ₚ region nb bs;
  sf_write : forall b, IsEmpty b = false -> Key b = k -> wf_blocks nu nb (<[Z.to_nat i := b]> bs')
}.

Lemma wf_blocks_more nu nu' nb bs : nu <= nu' -> wf_blocks nu nb bs -> wf_blocks nu' nb bs.
Proof.
  intros Hnu [W1 W2 W3 W4 W5 W6 W7]. split; try done; [lia|]. intros i b Hi Hb He.
  apply (placed_at_mono _ _ (occupied bs) _ nu); [done|done|by apply W7].
Qed.

(** The bucket that has the key already. *)
Lemma slot_existing nu nb k bs i b :
  wf_blocks nu nb bs -> good_key k -> 0 <= i < 4 * nb -> bs !! Z.to_nat i = Some b -> IsEmpty b = false -> Key b = k ->
  slot_for nu nb k bs i bs.
Proof.
  intros Hwf Hk Hi Hb He Hkey. pose proof Hwf as [W1 W2 W3 W4 W5 W6 W7].
  assert (overwrites (4 * nb) bs k b) as Hov by by right.
  split; [done|by exists b|done|]. intros b' He' Hk'.
  destruct (put_ok (4 * nb) bs k i b b' Hi Hb He' Hk' Hov W5 W4 Hk) as (P1 & P2 & _).
  split; try done.
  - by rewrite length_insert.
  - intros j x Hj Hx Hxe. destruct (decide (i = j)) as [->|Hne].
    + rewrite list_lookup_insert_eq in Hx by (apply lookup_lt_Some in Hb; lia). congruence.
    + rewrite list_lookup_insert_ne in Hx by lia. by apply (W6 j).
  - intros j x Hj Hx Hxe. apply (placed_at_mono _ _ (occupied bs) _ nu nu); [intros ?; by apply occupied_write|done|].
    destruct (decide (i = j)) as [->|Hne].
    + rewrite list_lookup_insert_eq in Hx by (apply lookup_lt_Some in Hb; lia). injection Hx as <-.
      rewrite Hk', <- Hkey. by apply W7.
    + rewrite list_lookup_insert_ne in Hx by lia. by apply W7.
Qed.

Lemma keys_perm nb bs bs' : region nb bs' ≡ₚ region nb bs -> keys (4 * nb) bs' ≡ₚ keys (4 * nb) bs.
Proof. intros Hp. unfold keys. by rewrite Hp. Qed.

(** A hole in which the key may be. *)
Lemma slot_hole nu nb k bs i bs' o :
  wf_blocks nu nb bs -> good_key k -> k ∉ keys (4 * nb) bs ->
  holed hash nu nb always i bs' -> bs' !! Z.to_nat i = Some o -> IsEmpty o = true ->
  region nb bs' ≡ₚ region nb bs -> placed_at hash nb (occ always i bs') nu k i ->
  slot_for nu nb k bs i bs'.
Proof.
  intros [W1 W2 W3 W4 W5 W6 W7] Hk Hnew [H1 H2 H3 H4] Ho Hoe Hperm Hplace.
  pose proof (keys_perm nb bs bs' Hperm) as Hkp.
  assert (overwrites (4 * nb) bs' k o) as Hov by (left; split; [done|by rewrite Hkp]).
  split; [done|by exists o|done|]. intros b He Hb.
  destruct (put_ok (4 * nb) bs' k i o b H2 Ho He Hb Hov ltac:(by rewrite Hkp) ltac:(by rewrite Hperm) Hk) as (P1 & P2 & _).
  assert (Hocc : forall x, occ always i bs' x -> occupied (<[Z.to_nat i := b]> bs') x).
  { intros x [->|[Hx _]]; [|by apply occupied_write]. exists b. split; [|done]. apply list_lookup_insert_eq. lia. }
  split; try done.
  - by rewrite length_insert.
  - intros j x Hj Hx Hxe. destruct (decide (i = j)) as [->|Hne].
    + rewrite list_lookup_insert_eq in Hx by lia. congruence.
    + rewrite list_lookup_insert_ne in Hx by lia. apply (H3 j); done || lia.
  - intros j x Hj Hx Hxe. apply (placed_at_mono _ _ (occ always i bs') _ nu nu); [done|done|].
    destruct (decide (i = j)) as [->|Hne].
    + rewrite list_lookup_insert_eq in Hx by lia. injection Hx as <-. by rewrite Hb.
    + rewrite list_lookup_insert_ne in Hx by lia. apply H4; done || lia.
Qed.

(** The table with an empty bucket as its hole. *)
Lemma wf_holed nu nb bs i :
  wf_blocks nu nb bs -> 0 <= i < 4 * nb -> holed hash nu nb always i bs.
Proof.
  intros [W1 W2 W3 W4 W5 W6 W7] Hi. split; try done.
  - intros j b Hj _. by apply W6.
  - intros j b Hj _ Hb He _. apply (placed_at_mono _ _ (occupied bs) _ nu nu); [|done|by apply W7].
    intros x Hx. by right.
Qed.

Lemma held_empty nu nb bs i b :
  wf_blocks nu nb bs -> 0 <= i < 4 * nb -> bs !! Z.to_nat i = Some b -> IsEmpty b = true -> held nb i bs = region nb bs.
Proof.
  intros [W1 W2 W3 W4 W5 W6 W7] Hi Hb He. unfold held. rewrite list_insert_id; [done|].
  rewrite <- (W6 i b Hi Hb He). done.
Qed.

(** The search ends at an empty bucket. *)
Lemma slot_end nu nb k bs h j :
  wf_blocks nu nb bs -> good_key k -> 0 <= h < nu -> ends_at hash nb bs k h j ->
  slot_for nu nb k bs (4 * block_of hash nb k h + j) bs.
Proof.
  intros Hwf Hk Hh Hend. pose proof Hwf as [W1 _ _ _ _ _ _].
  destruct (block_of_ok hash nb k h ltac:(lia)) as [_ Hb]. pose proof Hend as (Hj & _ & _ & o & Ho & Hoe).
  eapply slot_hole; [done|done|exact (absent_end hash nu nb bs k h j Hwf ltac:(lia) Hend)|apply wf_holed; [done|lia]|exact Ho|done|done|].
  apply (placed_at_mono _ _ (occupied bs) _ nu nu); [intros x Hx; by right|done|]. by apply ends_placed.
Qed.

(** ** The blocks of the key *)

(** An empty bucket where the search of [k] ends. *)
Definition end_slot (t : Table B) (k i : Z) : Prop :=
  exists h j, 0 <= h < _nu_hashFunc t /\ ends_at hash (_blockCount t) (_bucket t) k h j /\
    i = 4 * block_of hash (_blockCount t) k h + j.

(** What is known while the blocks are scanned: no empty bucket yet, or the first one. *)
Definition scanned (t : Table B) (k h j : Z) (ret : option Z) : Prop :=
  match ret with
  | None => (forall h' j', 0 <= h' < h -> 0 <= j' < 4 -> other_key (_bucket t) k (4 * block_of hash (_blockCount t) k h' + j')) /\
      (forall j', 0 <= j' < j -> other_key (_bucket t) k (4 * block_of hash (_blockCount t) k h + j'))
  | Some i => end_slot t k i
  end.

Definition find_result (t : Table B) (k i : Z) : Prop :=
  0 <= i < 4 * _blockCount t /\
  ((exists b, _bucket t !! Z.to_nat i = Some b /\ IsEmpty b = false /\ Key b = k) \/ end_slot t k i).

Lemma scanFind_ok t k h m j ret :
  wf_blocks (_nu_hashFunc t) (_blockCount t) (_bucket t) -> good_key k -> 0 <= h < _nu_hashFunc t ->
  0 <= j -> j + Z.of_nat m = 4 -> scanned t k h j ret -> (ret = None \/ IsEqual new_Bucket k = false) ->
  exists r, scanFind (seqZ j (Z.of_nat m)) (_bucket t) k (4 * block_of hash (_blockCount t) k h) ret = Ok r /\
    match r with
    | inl i => find_result t k i
    | inr ret' => scanned t k h 4 ret' /\ (ret' = None \/ IsEqual new_Bucket k = false)
    end.
Proof.
  intros Hwf Hk Hh. pose proof Hwf as [W1 W2 W3 _ _ W6 _].
  destruct (block_of_ok hash (_blockCount t) k h ltac:(lia)) as [_ Hb].
  revert j ret. induction m as [|m IH]; intros j ret Hj Hm Hsc Hret.
  { rewrite seqZ_end by lia. eexists. split; [reflexivity|]. by replace j with 4 in Hsc by lia. }
  rewrite seqZ_step by lia. cbn [scanFind].
  destruct (lookup_lt_is_Some_2 (_bucket t) (Z.to_nat (4 * block_of hash (_blockCount t) k h + j))) as [b Hbk]; [lia|].
  rewrite Hbk. cbn [deref res_bind]. replace (Z.of_nat (S m) - 1) with (Z.of_nat m) by lia.
  assert (Hend : IsEmpty b = true -> ret = None -> end_slot t k (4 * block_of hash (_blockCount t) k h + j)).
  { intros E ->. destruct Hsc as [Hf Hbefore]. exists h, j. split; [done|]. split; [|done]. split; [lia|]. split_and!; try done. by exists b. }
  destruct (bucket_cases b k Hk) as [ [E|(E & Eq & Hkey)]|(E & Eq & Hkey)].
  - pose proof (W6 (4 * block_of hash (_blockCount t) k h + j) b ltac:(lia) Hbk E) as Hnew. destruct (IsEqual b k) eqn:Eq.
    + eexists. split; [reflexivity|]. split; [lia|]. right. apply Hend; [done|].
      destruct Hret as [|Hret]; [done|]. rewrite Hnew in Eq. congruence.
    + rewrite E. apply IH; [lia|lia| |right; by rewrite <- Hnew]. destruct ret as [i|]; [done|]. by apply Hend.
  - rewrite Eq. eexists. split; [reflexivity|]. split; [lia|]. left. by exists b.
  - rewrite Eq, E. replace (match ret with Some r => Some r | None => None end) with ret by by destruct ret.
    apply IH; [lia|lia| |done]. destruct ret as [i|]; [done|]. destruct Hsc as [Hf Hbefore]. split; [done|].
    intros j' Hj'. destruct (decide (j' = j)) as [->|]; [by exists b|]. apply Hbefore. lia.
Qed.

(** The root nodes of the search tree. *)
Definition roots_of (t : Table B) (k : Z) (hs : list Z) : list TreeNode :=
  (fun h => mkNode (4 * block_of hash (_blockCount t) k h) BFS_ROOT_IDX 0) <$> hs.

Lemma findFuncs_ok t k m h ret tree :
  wf_blocks (_nu_hashFunc t) (_blockCount t) (_bucket t) -> good_key k -> 0 <= h -> h + Z.of_nat m = _nu_hashFunc t ->
  scanned t k h 0 ret -> (ret = None \/ IsEqual new_Bucket k = false) ->
  exists r, findFuncs hash (seqZ h (Z.of_nat m)) t k ret tree = Ok r /\
    match r with
    | inl i => find_result t k i
    | inr (ret', tree') => scanned t k (_nu_hashFunc t) 0 ret' /\ tree' = tree ++ roots_of t k (seqZ h (Z.of_nat m))
    end.
Proof.
  intros Hwf Hk. pose proof Hwf as [W1 _ _ _ _ _ _].
  revert h ret tree. induction m as [|m IH]; intros h ret tree Hh Hm Hsc Hret.
  { rewrite seqZ_end by lia. eexists. split; [reflexivity|]. cbn. rewrite app_nil_r. by replace h with (_nu_hashFunc t) in Hsc by lia. }
  rewrite seqZ_step by lia. cbn [findFuncs roots_of fmap list_fmap]. unfold home, below, BLOCK_SIZE.
  destruct (block_of_ok hash (_blockCount t) k h ltac:(lia)) as [-> _].
  destruct (scanFind_ok t k h 4 0 ret Hwf Hk ltac:(lia) ltac:(lia) ltac:(lia) Hsc Hret) as (r & Hr & Hspec).
  change (Z.of_nat 4) with 4 in Hr. rewrite Hr. cbn [res_bind]. destruct r as [i|ret']; [by eexists|].
  destruct Hspec as [Hsc' Hret']. replace (Z.of_nat (S m) - 1) with (Z.of_nat m) by lia.
  destruct (IH (h + 1) ret' (tree ++ [mkNode (4 * block_of hash (_blockCount t) k h) BFS_ROOT_IDX 0]))
    as (r & -> & Hspec); [lia|lia| |done|].
  - destruct ret' as [i|]; [done|]. destruct Hsc' as [Hf Hb]. split; [|intros; lia].
    intros h' j' Hh' Hj'. destruct (decide (h' = h)) as [->|]; [by apply Hb|]. apply Hf; lia.
  - eexists. split; [reflexivity|]. destruct r as [i|[ret'' tree'']]; [done|]. destruct Hspec as [? ->].
    split; [done|]. by rewrite <- app_assoc.
Qed.

(** ** The search *)

Lemma markRoots_length tree cur ids : length (markRoots tree cur ids) = length ids.
Proof. revert ids. induction tree as [|n tree IH]; intros ids; [done|]. cbn. by rewrite IH, length_insert. Qed.

Lemma markRoots_cases tree cur ids i x :
  markRoots tree cur ids !! i = Some x ->
  (exists n, n ∈ tree /\ Z.to_nat (n_bucketId n / 4) = i) \/ ids !! i = Some x.
Proof.
  revert ids. induction tree as [|n tree IH]; intros ids; cbn [markRoots]; [by right|]. intros Hx. unfold BLOCK_SIZE in Hx.
  apply IH in Hx as [(n' & Hn' & Hi)|Hx]; [left; exists n'; by split; [right|]|].
  destruct (decide (Z.to_nat (n_bucketId n / 4) = i)) as [Heq|Hne]; [left; exists n; by split; [left|]|].
  right. by rewrite list_lookup_insert_ne in Hx.
Qed.

Lemma markRoots_keep tree cur ids i : ids !! i = Some cur -> markRoots tree cur ids !! i = Some cur.
Proof.
  revert ids. induction tree as [|n tree IH]; intros ids Hi; [done|]. cbn. apply IH. unfold BLOCK_SIZE.
  destruct (decide (Z.to_nat (n_bucketId n / 4) = i)) as [->|Hne].
  - apply list_lookup_insert_eq. by eapply lookup_lt_Some.
  - by rewrite list_lookup_insert_ne.
Qed.

Lemma markRoots_seen tree cur ids n :
  n ∈ tree -> (Z.to_nat (n_bucketId n / 4) < length ids)%nat -> markRoots tree cur ids !! Z.to_nat (n_bucketId n / 4) = Some cur.
Proof.
  revert ids. induction tree as [|n' tree IH]; intros ids Hn Hl; [by apply not_elem_of_nil in Hn|]. cbn. unfold BLOCK_SIZE.
  apply elem_of_cons in Hn as [->|Hn].
  - apply markRoots_keep, list_lookup_insert_eq. done.
  - apply IH; [done|]. by rewrite length_insert.
Qed.

Lemma markRoots_bound tree cur ids :
  0 <= cur -> Forall (fun x => 0 <= x <= cur) ids -> Forall (fun x => 0 <= x <= cur) (markRoots tree cur ids).
Proof.
  intros Hc. revert ids. induction tree as [|n tree IH]; intros ids Hids; [done|]. cbn. apply IH, Forall_insert; [done|]. cbn. lia.
Qed.

(** The call ids of a table. *)
Definition calls_ok (t : Table B) : Prop :=
  0 <= _curCallId t /\ Z.of_nat (length (_callIdVec t)) = _blockCount t /\
  Forall (fun x => 0 <= x <= _curCallId t) (_callIdVec t).

Lemma roots_elem t k hs n :
  n ∈ roots_of t k hs <-> exists h, h ∈ hs /\ n = mkNode (4 * block_of hash (_blockCount t) k h) BFS_ROOT_IDX 0.
Proof.
  unfold roots_of. rewrite list_elem_of_fmap. split; intros (h & H1 & H2); by exists h.
Qed.

Lemma roots_shape t k :
  0 < _blockCount t -> 0 <= _nu_hashFunc t <= 255 ->
  tree_shape hash (_nu_hashFunc t) (_blockCount t) k (roots_of t k (seqZ 0 (_nu_hashFunc t))).
Proof.
  intros Hnb Hnu.
  assert (Hall : forall n node, roots_of t k (seqZ 0 (_nu_hashFunc t)) !! n = Some node ->
    exists h, 0 <= h < _nu_hashFunc t /\ node = mkNode (4 * block_of hash (_blockCount t) k h) BFS_ROOT_IDX 0).
  { intros n node Hn. apply list_elem_of_lookup_2, roots_elem in Hn as (h & Hh & ->). apply elem_of_seqZ in Hh.
    exists h. split; [lia|done]. }
  split.
  - intros n node Hn. destruct (Hall n node Hn) as (h & Hh & ->). cbn. eexists. split; [reflexivity|].
    by apply block_of_ok.
  - intros n node Hn _. destruct (Hall n node Hn) as (h & Hh & ->). split; [by exists h|].
    intros m mnode _ Hm. by destruct (Hall m mnode Hm) as (h' & _ & ->).
  - intros n node m mnode Hn Hnr. by destruct (Hall n node Hn) as (h & _ & ->).
  - unfold roots_of. rewrite length_fmap, length_seqZ. unfold MAX_NUM_BFS_TREE_NODE. lia.
Qed.

Lemma roots_searching t k :
  wf_blocks (_nu_hashFunc t) (_blockCount t) (_bucket t) -> _nu_hashFunc t <= 255 -> calls_ok t ->
  (forall h j, 0 <= h < _nu_hashFunc t -> 0 <= j < 4 -> other_key (_bucket t) k (4 * block_of hash (_blockCount t) k h + j)) ->
  let tree := roots_of t k (seqZ 0 (_nu_hashFunc t)) in
  let cur := _curCallId t + 1 in
  searching hash (_nu_hashFunc t) (_blockCount t) always (_bucket t) k cur (length tree)
    (markRoots tree cur (_callIdVec t)) tree.
Proof.
  intros [W1 W2 _ _ _ _ _] Hnu (Hc0 & Hlen & Hids) Hall tree cur.
  assert (Hblk : forall h, Z.to_nat (4 * block_of hash (_blockCount t) k h / 4) = Z.to_nat (block_of hash (_blockCount t) k h)).
  { intros h. by rewrite Z.mul_comm, Z.div_mul. }
  split.
  - apply roots_shape; lia.
  - unfold tree, roots_of. rewrite length_fmap, length_seqZ. unfold MAX_NUM_BFS_TREE_NODE. lia.
  - intros n node Hn Hnr. apply list_elem_of_lookup_2, roots_elem in Hn as (h & _ & ->). done.
  - split; [by rewrite markRoots_length|]. apply markRoots_bound; [lia|]. eapply Forall_impl; [exact Hids|]. cbn. lia.
  - intros n node Hn. apply list_elem_of_lookup_2 in Hn. apply markRoots_seen; [done|].
    apply roots_elem in Hn as (h & _ & ->). cbn. rewrite Hblk.
    destruct (block_of_ok hash (_blockCount t) k h ltac:(lia)) as [_ ?]. lia.
  - intros b j Hb Hcur Hj. apply markRoots_cases in Hcur as [(n & Hn & Heq)|Hcur].
    + apply roots_elem in Hn as (h & Hh & ->). cbn in Heq. rewrite Hblk in Heq. apply elem_of_seqZ in Hh.
      destruct (block_of_ok hash (_blockCount t) k h ltac:(lia)) as [_ ?].
      replace b with (block_of hash (_blockCount t) k h) by lia. split; [|done]. eapply other_occupied, Hall; [lia|done].
    + apply (Forall_lookup_1 _ _ _ _ Hids) in Hcur. unfold cur in Hcur. cbn in Hcur. lia.
  - lia.
Qed.

(** ** [BFSFindBucket] *)

(** The empty bucket of the last node is a hole that can be moved to the root. *)
Lemma found_kicking nu nb k bs pre leaf j :
  wf_blocks nu nb bs -> found_bucket hash nu nb always bs k (pre ++ [leaf]) j ->
  kicking hash nu nb always k (pre ++ [leaf]) (length pre) j bs leaf.
Proof.
  intros Hwf [F1 F2 (pre' & leaf' & Heq & Hnr & Hj & Hbelow & Hfull)].
  apply app_inj_tail in Heq as [<- <-].
  assert (Hleaf : (pre ++ [leaf]) !! length pre = Some leaf) by (by rewrite lookup_app_r, Nat.sub_diag).
  destruct (ts_node _ _ _ _ _ F1 _ _ Hleaf) as (b & Hb & Hbr).
  assert (Hocc : forall x, full always bs x -> occ always (n_bucketId leaf + j) bs x) by (intros x Hx; by right).
  split; try done.
  - apply wf_holed; [done|]. lia.
  - intros n node Hn Hnode Hnode_nr. rewrite <- (app_nil_r (pre ++ [leaf])). apply (linked_mono hash nu nb (full always bs)); [done|]. by apply F2.
  - intros m mnode j' Hm Hmn Hj'. rewrite lookup_app_l in Hmn by done. split; [|done]. by apply Hocc, (Hfull m).
  - intros x Hx. by apply Hocc, Hbelow.
Qed.

Lemma BFSFindBucket_ok t k :
  wf_blocks (_nu_hashFunc t) (_blockCount t) (_bucket t) -> _nu_hashFunc t <= 255 -> calls_ok t ->
  _curCallId t + 1 < 2 ^ 32 -> good_key k ->
  (forall h j, 0 <= h < _nu_hashFunc t -> 0 <= j < 4 -> other_key (_bucket t) k (4 * block_of hash (_blockCount t) k h + j)) ->
  exists r ids bs', BFSFindBucket hash (roots_of t k (seqZ 0 (_nu_hashFunc t))) t =
      Ok (r, set_memory bs' (set_callIds (_curCallId t + 1) ids t)) /\
    ids_ok (_blockCount t) (_curCallId t + 1) ids /\
    match r with
    | Some i => slot_for (_nu_hashFunc t) (_blockCount t) k (_bucket t) i bs'
    | None => bs' = _bucket t
    end.
Proof.
  intros Hwf Hnu Hcalls Hcur Hk Hall. pose proof Hwf as [W1 W2 W3 _ _ _ _].
  unfold BFSFindBucket. rewrite u32_small by (destruct Hcalls; lia).
  set (tree := roots_of t k (seqZ 0 (_nu_hashFunc t))). set (cur := _curCallId t + 1).
  pose proof (roots_searching t k Hwf Hnu Hcalls Hall) as Hse. fold tree cur in Hse.
  destruct (bfsLoop_ok hash t k cur (length tree) ltac:(lia) W3 (bfsFuel t tree) 0 0 0 (markRoots tree cur (_callIdVec t)) tree
    Hse ltac:(lia) ltac:(lia)) as (r & Hr & Hpost).
  { rewrite markRoots_length. unfold bfsFuel. lia. }
  change (Z.of_nat 0) with 0 in Hr. rewrite Hr. cbn [res_bind]. destruct r as [ [ids tree'] e]. destruct Hpost as [Hids He].
  destruct e as [j|].
  2:{ exists None, ids, (_bucket t). split; [by destruct t|done]. }
  destruct He as [Hfound Hempty]. pose proof Hfound as [F1 _ (pre & leaf & -> & Hnr & Hj & _ & _)].
  pose proof (found_kicking _ _ _ _ _ _ _ Hwf Hfound) as Hkg.
  assert (Hleaf : (pre ++ [leaf]) !! length pre = Some leaf) by (by rewrite lookup_app_r, Nat.sub_diag).
  destruct (kickLoop_ok hash _ _ always k (pre ++ [leaf]) (S (length (pre ++ [leaf]))) (length pre) j (_bucket t) leaf F1 Hkg)
    as (bs' & i & o & Hkick & [K1 K2 (h & Hh & Hblk) K4 K5 K6] & Ho & Hoe & _).
  { rewrite length_app. lia. }
  unfold CuckooKick. rewrite length_app. cbn [length].
  replace (Z.of_nat (length pre + 1) - 1) with (Z.of_nat (length pre)) by lia.
  rewrite Nat2Z.id, Hleaf. cbn [deref res_bind]. rewrite length_app in Hkick. cbn [length] in Hkick.
  change (_bucket (set_callIds cur ids t)) with (_bucket t). rewrite Hkick. cbn [res_bind]. exists (Some i), ids, bs'. split; [done|]. split; [done|].
  destruct (Hempty leaf) as (eb & Heb & Hebe); [by rewrite last_snoc|].
  destruct (ts_node _ _ _ _ _ F1 _ _ Hleaf) as (lb & Hlb & Hlbr).
  pose proof (hl_hole _ _ _ _ _ _ K1) as Hi.
  apply (slot_hole _ _ _ _ _ _ o); try done.
  - exact (absent_all hash _ _ _ _ Hwf Hall).
  - by apply Hoe.
  - rewrite <- (held_empty _ _ _ (n_bucketId leaf + j) eb Hwf) by (done || lia). rewrite <- K4.
    pose proof (held_fill (_blockCount t) i bs' o o Hi Ho) as Hfill. rewrite list_insert_id in Hfill by done.
    rewrite Hfill, (lv_empty o), app_nil_r by (by apply Hoe). done.
  - exists h. split; [done|]. split; [done|].
    assert (Hf : forall h' x, 0 <= h' < _nu_hashFunc t -> 0 <= x < 4 -> occ always i bs' (4 * block_of hash (_blockCount t) k h' + x)).
    { intros h' x Hh' Hx. destruct (block_of_ok hash (_blockCount t) k h' ltac:(lia)) as [_ ?]. apply K5; [lia|].
      right. split; [|done]. eapply other_occupied, Hall; done. }
    split; [intros h' x Hh' Hx; apply Hf; lia|]. intros x Hx. rewrite Hblk in Hx.
    replace x with (4 * block_of hash (_blockCount t) k h + (x - 4 * block_of hash (_blockCount t) k h)) by lia.
    apply Hf; [done|]. destruct (block_split i) as [Hs Hm]. rewrite Hblk in Hs. lia.
Qed.

(** ** [InternalFindBucket] *)

(** What is known of a table between operations, but for its counts. *)
Record table_ok (t : Table B) : Prop := {
  to_wf : wf_blocks (_nu_hashFunc t) (_blockCount t) (_bucket t);
  to_count : _bucketCount t = 4 * _blockCount t;
  to_calls : calls_ok t;
  to_header : nu_hashFunc (Header t) = _nu_hashFunc t;
  to_funcs : _nu_hashFunc t <= 255 /\ h_maxNu_hashFunc (Header t) <= 255
}.

(** A search changes the buckets, the call ids and the number of hash functions only. *)
Record searched (t t' : Table B) : Prop := {
  sd_blocks : _blockCount t' = _blockCount t;
  sd_buckets : _bucketCount t' = _bucketCount t;
  sd_pct : _occupancyPct t' = _occupancyPct t;
  sd_deleted : _deleteCount t' = _deleteCount t;
  sd_keys : keyCount (Header t') = keyCount (Header t);
  sd_max : h_maxNu_hashFunc (Header t') = h_maxNu_hashFunc (Header t)
}.

(** The bucket of a key after a search in [bs]. *)
Definition bucket_for (k : Z) (bs : list B) (r : option Z) (t' : Table B) : Prop :=
  match r with
  | Some i => slot_for (_nu_hashFunc t') (_blockCount t') k bs i (_bucket t')
  | None => _bucket t' = bs /\ k ∉ keys (4 * _blockCount t') bs
  end.

(** [table_ok] but for the invariant of the buckets, after a search in [t]. *)
Record after_search (t t' : Table B) : Prop := {
  af_frame : searched t t';
  af_calls : calls_ok t';
  af_header : nu_hashFunc (Header t') = _nu_hashFunc t';
  af_funcs : _nu_hashFunc t <= _nu_hashFunc t' <= 255
}.

Lemma DoInternalFindBucket_ok t k :
  table_ok t -> _curCallId t + 1 < 2 ^ 32 -> good_key k ->
  exists r t', DoInternalFindBucket hash k t = Ok (r, t') /\ after_search t t' /\ bucket_for k (_bucket t) r t' /\
    _nu_hashFunc t' = _nu_hashFunc t /\ _curCallId t <= _curCallId t' <= _curCallId t + 1.
Proof.
  intros [Hwf Hc Hcalls Hh [Hnu Hmax]] Hcur Hk. pose proof Hwf as [W1 W2 W3 _ _ _ _]. unfold DoInternalFindBucket.
  rewrite (proj2 (Z.eqb_neq _ _)) by lia.
  destruct (findFuncs_ok t k (Z.to_nat (_nu_hashFunc t)) 0 None [] Hwf Hk ltac:(lia) ltac:(lia)) as (r & Hr & Hspec).
  { split; intros; lia. }
  { by left. }
  rewrite Z2Nat.id in Hr, Hspec by lia. unfold below. rewrite Hr. cbn [res_bind].
  assert (Hsame : after_search t t) by (split; [done|done|done|lia]).
  destruct r as [i|[ [i|] tree]].
  - exists (Some i), t. split; [done|]. split; [done|]. split; [|lia].
    destruct Hspec as [Hi [(b & Hb & He & Hkey)|(h & j & Hhr & Hend & ->)]].
    + by eapply slot_existing.
    + by apply slot_end.
  - exists (Some i), t. split; [done|]. split; [done|]. split; [|lia].
    destruct Hspec as [(h & j & Hhr & Hend & ->) _]. by apply slot_end.
  - destruct Hspec as [ [Hall _] ->]. cbn [app].
    destruct (BFSFindBucket_ok t k Hwf Hnu Hcalls Hcur Hk Hall) as (r & ids & bs' & -> & [Hids Hids'] & Hpost).
    exists r, (set_memory bs' (set_callIds (_curCallId t + 1) ids t)). split; [done|]. split.
    + split; [done| |done|cbn; lia]. split; [cbn; destruct Hcalls; lia|done].
    + split; [|cbn; lia]. destruct r as [i|]; [done|]. subst bs'. split; [done|].
      exact (absent_all hash _ _ _ _ Hwf Hall).
Qed.

Lemma more_hashFuncs_ok t : table_ok t -> _nu_hashFunc t < 255 -> table_ok (more_hashFuncs t).
Proof.
  intros [Hwf Hc Hcalls Hh Hnu] Hlt. split; cbn; try done; [|lia|lia].
  apply (wf_blocks_more (_nu_hashFunc t)); [lia|done].
Qed.

Lemma after_search_trans t t' t'' : after_search t t' -> after_search t' t'' -> after_search t t''.
Proof.
  intros [ [] ? ? ?] [ [] ? ? ?]. split; [split; congruence|done|done|lia].
Qed.

Lemma more_after t : table_ok t -> _nu_hashFunc t < 255 -> after_search t (more_hashFuncs t).
Proof. intros Ht Hlt. destruct (more_hashFuncs_ok t Ht Hlt). split; [done|done|done|cbn; lia]. Qed.

Lemma findBucketLoop_ok fuel t k :
  table_ok t -> (Z.to_nat (h_maxNu_hashFunc (Header t) - _nu_hashFunc t) < fuel)%nat ->
  _curCallId t + Z.of_nat fuel < 2 ^ 32 -> good_key k ->
  exists r t', findBucketLoop hash fuel k t = Ok (r, t') /\ after_search t t' /\ bucket_for k (_bucket t) r t' /\
    _curCallId t' <= _curCallId t + 1 + (_nu_hashFunc t' - _nu_hashFunc t).
Proof.
  revert t. induction fuel as [|fuel IH]; intros t Ht Hf Hcur Hk; [lia|]. cbn [findBucketLoop].
  destruct (DoInternalFindBucket_ok t k Ht ltac:(lia) Hk) as (r & t' & -> & Haf & Hbk & Hnu & Hcur').
  cbn [res_bind]. destruct r as [i|]; [exists (Some i), t'; split_and!; try done; rewrite Hnu; lia|].
  destruct Haf as [ [Hs1 Hs2 Hs3 Hs4 Hs5 Hs6] A2 A3 A4]. pose proof Ht as [T1 T2 T3 T4 T5].
  destruct Hbk as [Hbs Hnew].
  destruct (Z.leb_spec (h_maxNu_hashFunc (Header t')) (_nu_hashFunc t')).
  { exists None, t'. split; [done|]. split; [done|]. split; [done|rewrite Hnu; lia]. }
  assert (table_ok t') as Ht'.
  { split; [by rewrite Hbs, Hs1, Hnu|congruence|done|done|lia]. }
  assert (_nu_hashFunc t' < 255) as Hlt by lia.
  destruct (IH (more_hashFuncs t') (more_hashFuncs_ok t' Ht' Hlt)) as (r & t'' & -> & Haf' & Hbk' & Hcur''); [cbn; lia|cbn; lia|done|].
  exists r, t''. split; [done|]. split; [|split].
  - eapply after_search_trans; [|exact Haf']. eapply after_search_trans; [|by apply more_after]. split; [done|done|done|lia].
  - cbn in Hbk'. by rewrite Hbs in Hbk'.
  - cbn in Hcur''. lia.
Qed.

Lemma InternalFindBucket_cuckoo t k :
  table_ok t -> _curCallId t + 256 < 2 ^ 32 -> good_key k ->
  exists r t', InternalFindBucket hash k t = Ok (r, t') /\ after_search t t' /\ bucket_for k (_bucket t) r t' /\
    _curCallId t' <= _curCallId t + 1 + (_nu_hashFunc t' - _nu_hashFunc t).
Proof.
  intros Ht Hcur Hk. unfold InternalFindBucket. pose proof Ht as [ [? ? ? ? ? ? ?] _ _ _ ?].
  destruct (findBucketLoop_ok (S (Z.to_nat (h_maxNu_hashFunc (Header t) - _nu_hashFunc t))) t k Ht ltac:(lia) ltac:(lia) Hk)
    as (r & t' & -> & H1 & H2 & H3). exists r, t'. by split_and!.
Qed.
End Insert.
