(* ===== verification/CuckooTheorems.v ===== *)
(** * What the cuckoo hash table guarantees

    Histories of finds, insertions and deletions against finite maps, for the bucket types whose
    buckets can be moved, and two ways in which keys go wrong. *)

From stdpp Require Import base list numbers option tactics gmap.
From Stdlib Require Import ZArith Lia ZifyNat.
From S2P Require Import Prelude HashBucket DenseHashTable DenseHashTableCorrect DenseHashTableShrink HashTableSpec.
From S2P Require Import DenseHashTableInstances CuckooHashTable CuckooPlaces CuckooMoves CuckooSearch CuckooInsert.

#[local] Open Scope Z_scope.
Import Cuckoo.

(** ** Buckets that can be moved *)

#[export] Instance specialKey_MoveLaws {V : Type} (E D : Z) (default : V) (decode : Z -> V) :
  @MoveLaws _ V (SpecialKey.specialKey_Bucket E D default decode) (specialKey_Move E default).
Proof. split; [done|]. intros b. apply Z.eqb_refl. Qed.

#[export] Instance offset_MoveLaws (E D : Z) :
  @MoveLaws _ _ (@SpecialValue.specialValue_Bucket _ (Offset.offset_SpecialVal E D))
    (@specialValue_Move _ (Offset.offset_SpecialVal E D) (offset_SetEmpty E)).
Proof. split; [by intros [k [v]] self|]. intros b. apply Z.eqb_refl. Qed.

(** The table with its operations. *)
Definition cuckoo_HashTable {B V : Type} `{!Bucket B V} `{!MoveBucket B} (default : V) (hash : Z -> Z -> Z)
    : HashTable (Table B) V := {|
  tfind := Find hash;
  tinsert := Insert hash;
  tdelete := Delete default hash;
  tshrink := Shrink hash;
  tsize := Size;
  tdeleted := _deleteCount;
  tbuckets := _bucketCount
|}.

Definition not_shrink {V} (o : op V) : Prop := match o with OShrink _ => False | _ => True end.

Section Cuckoo.
Context {B V : Type} `{!Bucket B V} `{!MoveBucket B} {good_key : Z -> Prop} {good_value : V -> Prop}.
Context `{!BucketLaws B V good_key good_value} `{!MoveLaws B V} (hash : Z -> Z -> Z) (default : V).

Abbreviation ht := (cuckoo_HashTable default hash).

(** The invariant of a table after [n] operations. *)
Definition cuckoo_wf (n : nat) (t : Table B) : Prop :=
  table_ok (good_key := good_key) hash t /\ counted (cmap t) (keyCount (Header t)) (_deleteCount t) /\
  _curCallId t <= Z.of_nat n + _nu_hashFunc t.

Lemma cmap_size t : table_ok (good_key := good_key) hash t -> Z.of_nat (size (cmap t)) < 2 ^ 63.
Proof.
  intros [ [W1 W2 W3 W4 W5 W6 W7] _ _ _ _]. unfold cmap. rewrite contents_size by exact W5.
  pose proof (lives_length (take (Z.to_nat (4 * _blockCount t)) (_bucket t))) as H. rewrite length_take in H. lia.
Qed.

(** Writing through a functor that writes [e], for the counts that [dc] keeps. *)
Lemma InternalInsert_cuckoo n (functor : B -> Z -> V -> Z -> B * Z) (dc : bool -> Z -> Z) k v e t :
  cuckoo_wf n t -> Z.of_nat n + 512 <= 2 ^ 32 -> good_key k ->
  (forall b n, IsEmpty (fst (functor b k v n)) = false /\ Key (fst (functor b k v n)) = k /\
     entry_of (fst (functor b k v n)) = e /\ snd (functor b k v n) = dc (IsDeleted b) n) ->
  (forall m kc dn, counted m kc dn -> Z.of_nat (size m) < 2 ^ 63 ->
     counted (<[k := e]> m) (next_count m k kc) (dc (is_dead (m !! k)) dn)) ->
  exists ok t', InternalInsert hash functor k v t = Ok (ok, t') /\ cuckoo_wf (S n) t' /\
    wrote 0 (cmap t) k e ok (cmap t').
Proof.
  intros (Ht & Hc & Hcur) Hn Hk Hfun Hcount. pose proof (cmap_size t Ht) as Hsize. pose proof (to_funcs _ _ Ht) as Hfuncs. unfold InternalInsert.
  destruct (InternalFindBucket_cuckoo hash t k Ht ltac:(lia) Hk) as (r & t' & -> & [ [S1 S2 S3 S4 S5 S6] A2 A3 A4] & Hbk & Hcur').
  pose proof Ht as [ [W1 W2 W3 W4 W5 W6 W7] T2 T3 T4 T5]. cbn [res_bind]. destruct r as [i|].
  - destruct Hbk as [Hi (o & Ho & Hov) Hl Hw]. rewrite Ho. cbn [deref res_bind].
    destruct (Hfun o (_deleteCount t')) as (F1 & F2 & F3 & F4).
    destruct (functor o k v (_deleteCount t')) as [b' dn] eqn:Ef. cbn [fst snd] in F1, F2, F3, F4. rewrite S1 in *.
    pose proof (keys_perm (_blockCount t) _ _ Hl) as Hkp.
    destruct (put_ok (4 * _blockCount t) (_bucket t') k i o b' Hi Ho F1 F2 Hov ltac:(by rewrite Hkp) ltac:(by rewrite Hl) Hk)
      as (P1 & P2 & P3 & P4).
    assert (Hm : contents (take (Z.to_nat (4 * _blockCount t)) (_bucket t')) = cmap t).
    { apply contents_perm; [|done]. change (NoDup (keys (4 * _blockCount t) (_bucket t'))). by rewrite Hkp. }
    assert (Hlook : cmap t !! k = if IsEmpty o then None else Some (entry_of o)).
    { rewrite <- Hm. destruct Hov as [ [Hoe Hnew]|[Hoe <-]]; rewrite Hoe; [by apply contents_none|].
      apply contents_some; [by rewrite Hkp|]. by eapply live_in. }
    eexists _, _. split; [reflexivity|].
    assert (Hm' : cmap (set_counts dn (if IsEmpty o then u64 (keyCount (Header t') + 1) else keyCount (Header t'))
      (set_memory (<[Z.to_nat i := b']> (_bucket t')) t')) = <[k := e]> (cmap t)).
    { unfold cmap at 1. cbn. by rewrite S1, P3, F3, Hm. }
    rewrite Hm'. split; [|constructor]. split; [|split].
    + split; cbn; try done; [rewrite S1; by apply Hw|by rewrite S1, S2|lia].
    + rewrite Hm'. cbn. specialize (Hcount _ _ _ Hc Hsize). unfold next_count in Hcount. rewrite Hlook in Hcount.
      rewrite S5, F4, S4. destruct (IsEmpty o) eqn:Eo; cbn in Hcount |- *.
      * by rewrite (law_deleted_full o Eo).
      * unfold entry_of in Hcount. by destruct (IsDeleted o).
    + cbn. lia.
  - destruct Hbk as [Hbs Hnew]. rewrite S1 in Hnew.
    assert (Hm : cmap t' = cmap t) by (unfold cmap; by rewrite S1, Hbs).
    eexists _, t'. split; [reflexivity|]. rewrite Hm. split.
    + split; [|split].
      * split; try done; [rewrite Hbs, S1|by rewrite S1, S2|lia]. by eapply wf_blocks_more; [|apply Ht]; lia.
      * by rewrite Hm, S5, S4.
      * lia.
    + constructor; [by apply contents_none|lia].
Qed.

Lemma cuckoo_step_ok n o t :
  cuckoo_wf n t -> Z.of_nat n + 512 <= 2 ^ 32 -> good_op good_key good_value o -> not_shrink o ->
  exists out t', step (HashTable0 := ht) o t = Ok (out, t') /\ cuckoo_wf (S n) t' /\
    map_step (0, cmap t) o out (0, cmap t').
Proof.
  intros Hwf Hn Hg Hns. destruct o as [k|k v|k v|pct]; cbn in Hg |- *; [| | |done].
  - pose proof Hwf as (Ht & Hc & Hcur). destruct (Find_cuckoo hash t k ltac:(apply Ht) Hg) as (r & -> & Hr).
    eexists _, t. split; [reflexivity|]. split; [|eauto with hashtable]. split; [done|]. split; [done|]. lia.
  - destruct Hg as [Hk Hv].
    destruct (InternalInsert_cuckoo n InsertFunctor insert_dc k v (Live v) t Hwf Hn Hk) as (ok & t' & Hi & Hwf' & Hw).
    + intros b m. cbn. destruct (law_set b k v Hk Hv) as (H1 & H2 & H3 & H4). unfold entry_of. rewrite H2, H4. by split_and!.
    + intros. by apply counted_live.
    + unfold Insert. rewrite Hi. eexists _, t'. eauto with hashtable.
  - set (w := match v with Some v => v | None => default end).
    destruct (InternalInsert_cuckoo n DeleteFunctor delete_dc k w Dead t Hwf Hn Hg) as (ok & t' & Hi & Hwf' & Hw).
    + intros b m. cbn. destruct (law_delete b k w Hg) as (H1 & H2 & H3). unfold entry_of. rewrite H2. by split_and!.
    + intros. by apply counted_dead.
    + unfold Delete. fold w. rewrite Hi. eexists _, t'. eauto with hashtable.
Qed.

Lemma cuckoo_run_ok os n t :
  cuckoo_wf n t -> Z.of_nat n + Z.of_nat (length os) + 511 <= 2 ^ 32 ->
  Forall (good_op good_key good_value) os -> Forall not_shrink os ->
  exists outs t', run (HashTable0 := ht) os t = Ok (outs, t') /\ cuckoo_wf (n + length os) t' /\
    map_steps (0, cmap t) os outs (0, cmap t').
Proof.
  revert n t. induction os as [|o os IH]; intros n t Hwf Hn Hg Hns; cbn [run length].
  - exists [], t. rewrite Nat.add_0_r. eauto with hashtable.
  - apply Forall_cons in Hg as [Hg Hgs], Hns as [Hns Hnss].
    destruct (cuckoo_step_ok n o t Hwf ltac:(cbn [length] in Hn; lia) Hg Hns) as (out & t1 & -> & Hwf1 & Hs).
    cbn [res_bind length] in *. destruct (IH (S n) t1 Hwf1 ltac:(lia) Hgs Hnss) as (outs & t2 & -> & Hwf2 & Hss).
    cbn [res_bind]. exists (out :: outs), t2. split; [done|]. rewrite Nat.add_succ_r. eauto with hashtable.
Qed.

(** The table that [MountForWrite] makes of [size] bytes. *)
Lemma cuckoo_mount_wf sizeof_Bucket size o :
  0 < sizeof_Bucket -> sizeof_Header + stretchFor sizeof_Bucket size o + 4 * sizeof_Bucket <= size < 2 ^ 62 ->
  maxNu_hashFunc o <= 255 ->
  exists t, MountForWrite sizeof_Bucket size o (new_Table (B := B)) = (true, t) /\ cuckoo_wf 0 t /\ cmap t = ∅.
Proof.
  intros Hb Hs Hmax. unfold MountForWrite. set (o' := if Valid o then o else options OCCUPANCY_PCT).
  assert (Hst : 0 <= stretchFor sizeof_Bucket size o' <= stretchFor sizeof_Bucket size o /\ maxNu_hashFunc o' <= 255).
  { unfold stretchFor, sizeof_Header, BLOCK_SIZE in *. pose proof (Z.div_mod (size - 64) 101 ltac:(lia)).
    pose proof (Z.mod_pos_bound (size - 64) 101 ltac:(lia)). unfold o'. destruct (Valid o), (mayStretch o); cbn [mayStretch maxNu_hashFunc options] in *; lia. }
  fold (stretchFor sizeof_Bucket size o'). destruct Hst as [Hst Hmax']. set (stretch := stretchFor sizeof_Bucket size o') in *. clearbody stretch.
  unfold sizeof_Header in *. rewrite (proj2 (Z.ltb_ge size 64)) by lia. rewrite u64_small by lia.
  set (nb := (size - 64 - stretch) / sizeof_Bucket / BLOCK_SIZE).
  assert (0 < nb < 2 ^ 60) as Hnb.
  { unfold nb, BLOCK_SIZE. assert (4 <= (size - 64 - stretch) / sizeof_Bucket < 2 ^ 62).
    - split; [apply Z.div_le_lower_bound; lia|]. apply Z.div_lt_upper_bound; nia.
    - split; [apply Z.div_str_pos; lia|]. apply Z.div_lt_upper_bound; lia. }
  rewrite (proj2 (Z.ltb_ge nb 1)) by lia. eexists. split; [reflexivity|].
  replace (nb * BLOCK_SIZE) with (4 * nb) by (unfold BLOCK_SIZE; lia).
  assert (Hl : lives (take (Z.to_nat (4 * nb)) (replicate (Z.to_nat (4 * nb)) new_Bucket)) = []).
  { by rewrite take_replicate, Nat.min_id, lives_new. }
  assert (Hm : contents (take (Z.to_nat (4 * nb)) (replicate (Z.to_nat (4 * nb)) new_Bucket)) = ∅).
  { unfold contents. by rewrite Hl. }
  split; [|exact Hm]. split; [|split; [|cbn; lia]].
  - split; cbn; try done.
    + split; try done.
      * rewrite length_replicate. lia.
      * by rewrite Hl.
      * unfold keys. rewrite Hl. constructor.
      * intros i b Hi Hbk _. by apply lookup_replicate in Hbk as [-> _].
      * intros i b Hi Hbk He. apply lookup_replicate in Hbk as [-> _]. by rewrite law_new in He.
    + split; [cbn; lia|]. split; cbn.
      * rewrite length_resize. lia.
      * rewrite resize_nil. apply Forall_replicate. lia.
  - cbn. unfold counted, cmap. cbn. by rewrite Hm.
Qed.
End Cuckoo.

(** C34. A sequence of up to [2^32 - 511] finds, insertions and deletions, without a [Shrink], on a cuckoo table that was mounted on
    memory for its header and at least one block, and for the stretch that [mayStretch] asks for (a block and the 101st part of the memory), with whatever
    hash functions, up to 255 of them, and for buckets that keep their contents when they are moved, runs without an undefined step or
    an unbounded loop and answers like a finite map from keys to entries: the breadth first search and the moves it
    makes lose no key and leave every key where lookups find it. A write is refused only for a new key, and then
    changes no key. The bound is that of the 32-bit call ids of the searches. *)
Theorem cuckoo_history_correct {B V : Type} `{!Bucket B V} `{!MoveBucket B} (good_key : Z -> Prop)
    (good_value : V -> Prop) `{!BucketLaws B V good_key good_value} `{!MoveLaws B V} (hash : Z -> Z -> Z) (default : V)
    (sizeof_Bucket size : Z) (o : Options) (os : list (op V)) :
  0 < sizeof_Bucket -> sizeof_Header + stretchFor sizeof_Bucket size o + 4 * sizeof_Bucket <= size < 2 ^ 62 ->
  maxNu_hashFunc o <= 255 -> Forall (good_op good_key good_value) os -> Forall not_shrink os ->
  Z.of_nat (length os) <= 2 ^ 32 - 511 ->
  exists t outs t' m,
    MountForWrite sizeof_Bucket size o (new_Table (B := B)) = (true, t) /\
    run (HashTable0 := cuckoo_HashTable default hash) os t = Ok (outs, t') /\
    map_steps (0, ∅) os outs (0, m) /\
    Size t' = Z.of_nat (base.size m) /\ _deleteCount t' = Z.of_nat (dead_count m).
Proof.
  intros Hb Hs Hmax Hg Hns Hn.
  destruct (cuckoo_mount_wf (good_key := good_key) hash sizeof_Bucket size o Hb Hs Hmax) as (t & Hm & Hwf & He).
  destruct (cuckoo_run_ok hash default os 0 t Hwf ltac:(lia) Hg Hns) as (outs & t' & Hr & (_ & [H1 H2] & _) & Hss).
  rewrite He in Hss. by exists t, outs, t', (cmap t').
Qed.

(** The tables of the examples: 64-bit keys, with buckets that mark in the key and with timestamps. *)
Definition E64 : Z := 0xFFFFFFFFFFFFFEFF.
Definition D64 : Z := 0xFFFFFFFFFFFFFDFF.
Definition key64_bucket : Bucket (SpecialKey.SpecialKeyBucket Z) Z := SpecialKey.specialKey_Bucket E64 D64 0 (fun k => k).
Definition key64_move : MoveBucket (SpecialKey.SpecialKeyBucket Z) := specialKey_Move E64 0.
Definition key64_table : HashTable (Table (SpecialKey.SpecialKeyBucket Z)) Z :=
  @cuckoo_HashTable _ _ key64_bucket key64_move 0 CuckooHash64.

Abbreviation tsval := (Timestamp.TimestampValue Z).
Definition ts_bucket : Bucket (SpecialValue.SpecialValueBucket tsval) tsval :=
  @SpecialValue.specialValue_Bucket tsval (Timestamp.timestamp_SpecialVal 0).
Definition ts_move : MoveBucket (SpecialValue.SpecialValueBucket tsval) :=
  @specialValue_Move tsval (Timestamp.timestamp_SpecialVal 0) (timestamp_SetEmpty 0).
Definition stamp (t v : Z) : tsval := Timestamp.mkTimestamp t v.
Definition ts_table : HashTable (Table (SpecialValue.SpecialValueBucket tsval)) tsval :=
  @cuckoo_HashTable _ _ ts_bucket ts_move (stamp 0 0) CuckooHash64.

(** Keys that fill the table, so that others are moved. *)
Definition kick_ops : list (op Z) :=
  map (fun k => OInsert k (k + 100)) (seqZ 1 12) ++ [ODelete 2 None; ODelete 10 None] ++
  map (fun k => OInsert k (k + 100)) (seqZ 20 4) ++ [OFind 2; OFind 9; OFind 23; OFind 24].

Lemma cuckoo_history_witness :
  let answers size o := exists t outs t' m,
    MountForWrite (Bucket0 := key64_bucket) 12 size o (new_Table (B := SpecialKey.SpecialKeyBucket Z)) = (true, t) /\
    run (HashTable0 := key64_table) kick_ops t = Ok (outs, t') /\
    map_steps (0, ∅) kick_ops outs (0, m) /\
    Size t' = Z.of_nat (base.size m) /\ _deleteCount t' = Z.of_nat (dead_count m) in
  answers (64 + 12 * 16) (options 80) /\ answers (64 + 12 * 21) (mkOptions 80 true 8).
Proof.
  intros answers. split;
    (apply (@cuckoo_history_correct _ _ key64_bucket key64_move (SpecialKey.good_key E64 D64) (fun _ => True)
      (SpecialKey.specialKey_laws E64 D64 0 (fun k => k) ltac:(done)) (specialKey_MoveLaws E64 D64 0 (fun k => k)));
    [lia|vm_compute; split; congruence|cbn; lia|unfold kick_ops; vm_compute; repeat constructor; done
    |unfold kick_ops; vm_compute; repeat constructor|vm_compute; congruence]).
Defined.

(** The search and the moves of that history took place, and the lookups answer. *)
Example cuckoo_history_outputs :
  match run (HashTable0 := key64_table) kick_ops
          (snd (MountForWrite (Bucket0 := key64_bucket) 12 (64 + 12 * 16) (options 80) new_Table)) with
  | Ok (outs, t) => drop 18 outs = [Found (DELETED, Some 2); Found (OK, Some 109); Found (OK, Some 123); Found (NOT_FOUND, None)]
      /\ _curCallId t = 2 /\ Size t = 16 /\ _deleteCount t = 2
  | _ => False
  end.
Proof. vm_compute. done. Qed.

(** Moving a bucket with a timestamp forgets that it was deleted: [Set(other)] of
    [SpecialValueBucket] writes the value of the other bucket with [SetValue], which clears the delete
    mark. A key that was inserted and deleted, and never written again, is found as a live key after
    insertions of other keys moved it. *)
Theorem moved_key_revives :
  exists outs t,
    run (HashTable0 := ts_table)
      (map (fun k => OInsert k (stamp 5 k)) (seqZ 1 12) ++ map (fun k => ODelete k (Some (stamp 7 0))) (seqZ 1 12) ++
       [OFind 2] ++ map (fun k => OInsert k (stamp 9 k)) (seqZ 20 4) ++ [OFind 2])
      (snd (MountForWrite (Bucket0 := ts_bucket) 16 (64 + 16 * 16) (options 80) new_Table)) = Ok (outs, t) /\
    outs !! 24%nat = Some (Found (DELETED, Some (stamp 2147483655 2))) /\
    outs !! 29%nat = Some (Found (OK, Some (stamp 7 2))).
Proof. eexists _, _. split; [vm_compute; reflexivity|]. vm_compute. done. Qed.

(** [Shrink] can lose a key and return true: when rehashing into fewer buckets fails for a bucket that
    was taken out of its place, this bucket is dropped, and the second rehash, which is to restore the
    table, succeeds without it. Six keys are stored; after [Shrink] returned true the table still counts
    six, and one of them is not found. *)
Theorem shrink_loses_key :
  exists outs t,
    run (HashTable0 := key64_table)
      (map (fun k => OInsert k (k + 1)) [438; 1020; 1381; 2205; 1590; 2135] ++ [OFind 1590; OShrink 100; OFind 1590])
      (snd (MountForWrite (Bucket0 := key64_bucket) 12 (64 + 12 * 12) (options 80) new_Table)) = Ok (outs, t) /\
    outs !! 6%nat = Some (Found (OK, Some 1591)) /\ outs !! 7%nat = Some (Done true) /\
    outs !! 8%nat = Some (Found (NOT_FOUND, None)) /\ Size t = 6.
Proof. eexists _, _. split; [vm_compute; reflexivity|]. vm_compute. done. Qed.
