(* ===== verification/WordCode.v ===== *)
(** * Straight line code on words

    What the unrolled bit packing code of src/aios/storage/indexlib/index/common/numeric_compress
    (Pack.h, Unpack.h, UnalignedUnpack.h) is written with: [uint32_t] expressions that read an array,
    stores through a pointer, loops over blocks that advance both pointers, and the loop [pack].

    A pointer into an array is the list of the elements from there on; [p += n] is [drop n]. Reading
    or writing outside the array is [Undefined]. Source and destination do not overlap. *)

From stdpp Require Import base list numbers option tactics.
From Stdlib Require Import ZArith Lia.
From S2P Require Import Prelude.

#[local] Open Scope Z_scope.

(** ** Expressions

    An expression is a computation, since it reads memory. A value of a type narrower than [uint32_t]
    is promoted to [int] and converted back to [uint32_t] where it is or-ed into a word, which leaves
    the same 32 bits. *)

Definition wread (l : list Z) (i : nat) : res Z := deref (l !! i).
Definition wshl (a : res Z) (n : Z) : res Z := let! x := a in Ok (u32 (Z.shiftl x n)).
Definition wshr (a : res Z) (n : Z) : res Z := let! x := a in Ok (Z.shiftr x n).
Definition wand (a : res Z) (m : Z) : res Z := let! x := a in Ok (Z.land x m).
Definition wor (a b : res Z) : res Z := let! x := a in let! y := b in Ok (Z.lor x y).

(** ** Statements *)

(** [uint32_t x = e;] *)
Definition assign {A : Type} (e : res Z) (k : res Z -> res A) : res A := let! x := e in k (Ok x).

(** [dest[i] = e;] for an array of [w]-bit elements. *)
Definition store (w : Z) (dest : list Z) (i : nat) (e : res Z) : res (list Z) :=
  let! v := e in
  if (i <? length dest)%nat then Ok (<[i := v mod 2 ^ w]> dest) else Undefined.

(** [dest[i] = e0; dest[i + 1] = e1; ...] *)
Fixpoint storeFrom (w : Z) (i : nat) (dest : list Z) (es : list (res Z)) : res (list Z) :=
  match es with
  | [] => Ok dest
  | e :: es' => let! dest := store w dest i e in storeFrom w (S i) dest es'
  end.
Definition storeAll (w : Z) (dest : list Z) (es : list (res Z)) : res (list Z) :=
  storeFrom w 0 dest es.

(** [if (--rest == 0) return;] *)
Definition countdown {A : Type} (rest : Z) (r : A) (k : Z -> res A) : res A :=
  let rest := u32 (rest - 1) in if rest =? 0 then Ok r else k rest.

Declare Scope word_scope.
Delimit Scope word_scope with word.
Notation "l .[ i ]" := (wread l i%nat) (at level 1, i at level 200, left associativity, format "l .[ i ]")
  : word_scope.
Notation "a << n" := (wshl a n%Z) (at level 41, left associativity) : word_scope.
Notation "a >> n" := (wshr a n%Z) (at level 41, left associativity) : word_scope.
Notation "a .& m" := (wand a m%Z) (at level 42, left associativity) : word_scope.
Notation "a .| b" := (wor a b) (at level 50, left associativity) : word_scope.
Notation "'uint32' x := e ;; k" := (assign e (fun x => k))
  (at level 10, x name, e at level 99, k at level 200) : word_scope.
Notation "'uint32' x |= e ;; k" := (assign (wor x e) (fun x => k))
  (at level 10, x name, e at level 99, k at level 200) : word_scope.
Notation "'return_if_last' x y ;; k" := (countdown x y (fun x => k))
  (at level 10, x name, y at level 0, k at level 200) : word_scope.

(** ** Loops over blocks *)

(** One block: [body] writes the first [dout] elements of [dest] from the first [din] of
    [encode], the pointers advance, and [k] goes on. *)
Definition block (din dout : nat) (body : list Z -> list Z -> res (list Z))
    (k : list Z -> list Z -> res (list Z)) (dest encode : list Z) : res (list Z) :=
  let! dest := body dest encode in
  let! rest := k (drop dout dest) (drop din encode) in
  Ok (take dout dest ++ rest).

(** [for (uint32_t i = 32; i <= n; i += 32, dest += dout, encode += din) body], then [tail]. *)
Fixpoint forLoop (fuel : nat) (din dout : nat) (body tail : list Z -> list Z -> res (list Z))
    (i n : Z) (dest encode : list Z) : res (list Z) :=
  match fuel with
  | O => OutOfFuel
  | S fuel' =>
      if i <=? n then block din dout body (forLoop fuel' din dout body tail (u32 (i + 32)) n) dest encode
      else tail dest encode
  end.
Definition forBlocks (din dout : nat) (n : Z) (body tail : list Z -> list Z -> res (list Z))
    (dest encode : list Z) : res (list Z) :=
  forLoop (S (Z.to_nat (n / 32))) din dout body tail 32 n dest encode.

(** [for (uint32_t block = 0; block < maxBlocks; block++, decode += dout)] with [din] reads of
    [encode[offset++]], then [tail]. *)
Fixpoint maxBlocksLoop (maxBlocks : nat) (din dout : nat) (body tail : list Z -> list Z -> res (list Z))
    (dest encode : list Z) : res (list Z) :=
  match maxBlocks with
  | O => tail dest encode
  | S nb => block din dout body (maxBlocksLoop nb din dout body tail) dest encode
  end.
Definition upToMaxBlocks (maxBlocks : Z) := maxBlocksLoop (Z.to_nat maxBlocks).

(** ** [pack]: values of [b] bits one after the other *)

(** [dest[i] |= v;] *)
Definition orWord (dest : list Z) (i : Z) (v : Z) : res (list Z) :=
  let! x := deref (dest !! Z.to_nat i) in Ok (<[Z.to_nat i := Z.lor x v]> dest).

Fixpoint packLoop (left i : nat) (dest src : list Z) (offset destLoc b : Z) : res (list Z) :=
  match left with
  | O => Ok dest
  | S left' =>
      let! x := deref (src !! i) in
      let! dest := orWord dest destLoc (u32 (Z.shiftl x offset)) in
      let! dest :=
        if 31 <? u32 (offset + b - 1) then orWord dest (u32 (destLoc + 1)) (Z.shiftr x (32 - offset))
        else Ok dest in
      packLoop left' (S i) dest src (Z.land (u32 (offset + b)) 31)
        (u32 (destLoc + Z.shiftr (u32 (offset + b)) 5)) b
  end.

Definition pack (dest src : list Z) (n b : Z) : res (list Z) := packLoop (Z.to_nat n) 0 dest src 0 0 b.

(** What every [pack_b] does after its blocks. *)
Definition packRest (n b : Z) (dest encode : list Z) : res (list Z) :=
  let rest := n mod 32 in
  if 0 <? rest then pack dest encode rest b else Ok dest.

(** What every [unpack_b] does after its blocks. *)
Definition unpackRest (n : Z) (unaligned : list Z -> list Z -> Z -> res (list Z))
    (dest encode : list Z) : res (list Z) :=
  if negb (Z.land n 0x1F =? 0) then unaligned dest encode (Z.land n 0x1F) else Ok dest.
