(* ===== verification/WordStream.v ===== *)
(** * Words as a stream of bits

    The specification of bit packing. A list of [b]-bit values is the number [num b l], its values
    being the digits; packing [k]-bit values into words writes the same number in another base.
    Expressions on words are reflected into [wexpr], whose bits can be computed: [check] decides
    whether an expression is a given field of the number, and [check_ok] is its correctness. *)

From stdpp Require Import base list numbers option tactics.
From Stdlib Require Import ZArith Lia ZifyNat.
From S2P Require Import Prelude Bits WordCode.

#[local] Open Scope Z_scope.

(** ** Numbers and their digits *)

Definition num (b : Z) (l : list Z) : Z := fold_right (fun x acc => x + 2 ^ b * acc) 0 l.

(** The [len] bits of [N] from bit [pos] on. *)
Definition field (pos len N : Z) : Z := Z.shiftr N pos mod 2 ^ len.

(** The lowest [n] digits of [b] bits. *)
Definition digits (b : Z) (n : nat) (N : Z) : list Z :=
  map (fun i => field (b * Z.of_nat i) b N) (seq 0 n).

(** A value of [b] bits. *)
Definition fits (b x : Z) : Prop := 0 <= x < 2 ^ b.

Lemma testbit_field pos len N n :
  0 <= pos -> 0 <= len -> 0 <= n -> Z.testbit (field pos len N) n = (n <? len) && Z.testbit N (pos + n).
Proof.
  intros. unfold field. rewrite Z.testbit_mod_pow2 by lia. rewrite Z.shiftr_spec by lia.
  by rewrite (Z.add_comm n pos).
Qed.

Lemma field_fits pos len N : 0 <= len -> fits len (field pos len N).
Proof. intros. apply Z.mod_pos_bound. lia. Qed.

Lemma testbit_num b l n :
  0 < b -> Forall (fits b) l -> 0 <= n ->
  Z.testbit (num b l) n = Z.testbit (nth (Z.to_nat (n / b)) l 0) (n mod b).
Proof.
  intros Hb Hl. revert n. induction Hl as [|x l Hx _ IH]; intros n Hn.
  { cbn [num fold_right]. rewrite nth_overflow by (cbn; lia). by rewrite !Z.bits_0. }
  cbn [num fold_right]. fold (num b l). red in Hx.
  destruct (Z.lt_ge_cases n b) as [Hlt|Hge].
  - rewrite Z.div_small, Z.mod_small by lia. cbn [nth Z.to_nat].
    rewrite <- (Z.mod_pow2_bits_low (x + _) b n) by lia.
    rewrite (Z.mul_comm (2 ^ b)), Z_mod_plus_full, Z.mod_small; [done | exact Hx].
  - replace n with (n - b + b) at 1 by lia.
    rewrite <- Z.div_pow2_bits by lia.
    replace ((x + 2 ^ b * num b l) / 2 ^ b) with (num b l).
    2:{ rewrite (Z.mul_comm (2 ^ b)), Z.div_add by lia. by rewrite (Z.div_small x) by lia. }
    rewrite IH by lia.
    replace (n / b) with ((n - b) / b + 1).
    2:{ replace n with (n - b + 1 * b) at 2 by lia. rewrite Z.div_add by lia. lia. }
    replace (n mod b) with ((n - b) mod b).
    2:{ replace n with (n - b + 1 * b) at 2 by lia. by rewrite Z_mod_plus_full. }
    rewrite Z2Nat.inj_add by (try apply Z.div_pos; lia).
    change (Z.to_nat 1) with 1%nat. rewrite Nat.add_1_r. done.
Qed.

Lemma num_app b l1 l2 :
  0 <= b -> num b (l1 ++ l2) = num b l1 + 2 ^ (b * Z.of_nat (length l1)) * num b l2.
Proof.
  intros. induction l1 as [|x l1 IH].
  { cbn [app length]. rewrite Z.mul_0_r. change (num b []) with 0. rewrite Z.pow_0_r. ring. }
  cbn [app length num fold_right]. fold (num b (l1 ++ l2)) (num b l1). rewrite IH.
  replace (b * Z.of_nat (S (length l1))) with (b + b * Z.of_nat (length l1)) by lia.
  rewrite Z.pow_add_r by lia. ring.
Qed.

Lemma num_bound b l : 0 <= b -> Forall (fits b) l -> fits (b * Z.of_nat (length l)) (num b l).
Proof.
  intros Hb. induction 1 as [|x l Hx _ IH].
  { unfold fits, num. cbn. rewrite Z.mul_0_r. cbn. lia. }
  cbn [length num fold_right]. fold (num b l). unfold fits in *.
  replace (b * Z.of_nat (S (length l))) with (b + b * Z.of_nat (length l)) by lia.
  rewrite Z.pow_add_r by lia. nia.
Qed.

Lemma digits_length b n N : length (digits b n N) = n.
Proof. unfold digits. by rewrite length_map, length_seq. Qed.

Lemma digits_fits b n N : 0 <= b -> Forall (fits b) (digits b n N).
Proof. intros. unfold digits. apply Forall_fmap, Forall_forall. intros i _. by apply field_fits. Qed.

Lemma nth_digits b n N i : (i < n)%nat -> nth i (digits b n N) 0 = field (b * Z.of_nat i) b N.
Proof.
  intros. unfold digits. rewrite (nth_indep _ 0 (field (b * Z.of_nat 0) b N))
    by (rewrite length_map, length_seq; lia).
  rewrite (map_nth (fun i => field (b * Z.of_nat i) b N)). by rewrite seq_nth by lia.
Qed.

(** The digits determine the number up to its size, and only depend on it. *)
Lemma digits_ext b n N N' :
  0 <= b -> (forall i, 0 <= i < b * Z.of_nat n -> Z.testbit N i = Z.testbit N' i) ->
  digits b n N = digits b n N'.
Proof.
  intros Hb H. unfold digits. apply map_ext_in. intros i Hi%in_seq.
  apply Z.bits_inj'. intros m Hm. rewrite !testbit_field by nia.
  destruct (m <? b) eqn:E; [|done]. cbn. apply H. nia.
Qed.

Lemma nth_fits b l i : 0 <= b -> Forall (fits b) l -> fits b (nth i l 0).
Proof.
  intros Hb Hl. destruct (nth_in_or_default i l 0) as [Hin| ->].
  - rewrite List.Forall_forall in Hl. by apply Hl.
  - unfold fits. lia.
Qed.

Lemma digits_num b l : 0 < b -> Forall (fits b) l -> digits b (length l) (num b l) = l.
Proof.
  intros Hb Hl. apply (nth_ext _ _ 0 0); rewrite digits_length; [done|].
  intros i Hi. rewrite nth_digits by done. apply Z.bits_inj'. intros m Hm.
  rewrite testbit_field by lia. destruct (m <? b) eqn:E; cbn.
  - rewrite testbit_num by (done || nia).
    replace ((b * Z.of_nat i + m) / b) with (Z.of_nat i).
    2:{ rewrite Z.mul_comm, Z.div_add_l by lia. rewrite Z.div_small by lia. lia. }
    replace ((b * Z.of_nat i + m) mod b) with m; [by rewrite Nat2Z.id|].
    rewrite Z.mul_comm, Z.add_comm, Z_mod_plus_full, Z.mod_small; lia.
  - symmetry. apply (testbit_high _ b); [by apply nth_fits; [lia|] | lia | lia].
Qed.

Lemma testbit_num_digits b n N i :
  0 < b -> 0 <= i < b * Z.of_nat n -> Z.testbit (num b (digits b n N)) i = Z.testbit N i.
Proof.
  intros Hb Hi. rewrite testbit_num by (try apply digits_fits; lia).
  assert (0 <= i / b < Z.of_nat n).
  { split; [apply Z.div_pos; lia|]. apply Z.div_lt_upper_bound; lia. }
  rewrite nth_digits by lia. pose proof (Z.mod_pos_bound i b ltac:(lia)).
  rewrite testbit_field by nia. rewrite Z2Nat.id by lia.
  rewrite (proj2 (Z.ltb_lt _ _)) by lia. cbn. f_equal.
  rewrite (Z.div_mod i b) at 3 by lia. done.
Qed.

(** Writing a number in base [2 ^ c] and reading it back in base [2 ^ b]. *)
Lemma digits_digits b n c m N :
  0 < c -> 0 <= b -> b * Z.of_nat n <= c * Z.of_nat m ->
  digits b n (num c (digits c m N)) = digits b n N.
Proof.
  intros Hc Hb H. apply digits_ext; [done|]. intros i Hi. apply testbit_num_digits; lia.
Qed.

Lemma map_seq_shift {A : Type} (f : nat -> A) s n : map f (seq s n) = map (fun i => f (s + i)%nat) (seq 0 n).
Proof.
  revert f s. induction n as [|n IH]; intros f s; [done|]. cbn [seq map]. rewrite Nat.add_0_r. f_equal.
  rewrite IH, (IH _ 1%nat). apply map_ext. intros i. f_equal. lia.
Qed.

(** The digits of a number that consists of two parts. *)
Lemma digits_app b n m A B :
  0 <= b -> fits (b * Z.of_nat n) A ->
  digits b (n + m) (A + 2 ^ (b * Z.of_nat n) * B) = digits b n A ++ digits b m B.
Proof.
  intros Hb HA. unfold digits. rewrite seq_app, map_app, (map_seq_shift _ (0 + n)).
  f_equal; apply map_ext_in; intros i Hi%in_seq.
  - apply Z.bits_inj'. intros k Hk. rewrite !testbit_field by nia.
    destruct (k <? b) eqn:E; [|done]. cbn.
    rewrite <- (Z.mod_pow2_bits_low (A + _) (b * Z.of_nat n)) by nia.
    rewrite (Z.mul_comm (2 ^ _)), Z_mod_plus_full, Z.mod_small; [done | exact HA].
  - unfold field. f_equal. rewrite !Z.shiftr_div_pow2 by nia.
    replace (b * Z.of_nat (0 + n + i)) with (b * Z.of_nat n + b * Z.of_nat i) by lia.
    rewrite Z.pow_add_r, <- Z.div_div by (try apply Z.pow_pos_nonneg; nia). f_equal.
    rewrite (Z.mul_comm (2 ^ _) B), Z.div_add by (apply Z.pow_nonzero; nia).
    rewrite Z.div_small by exact HA. lia.
Qed.

(** ** Expressions, reflected *)

Inductive wexpr : Set :=
| WRead (i : nat)
| WVal (i : nat)
| WZero
| WAnd (e : wexpr) (m : Z)
| WOr (e1 e2 : wexpr)
| WShl (e : wexpr) (n : nat)
| WShr (e : wexpr) (n : nat).

(** The computation it stands for, on an array, and its value. *)
Fixpoint wmon (l : list Z) (e : wexpr) : res Z :=
  match e with
  | WRead i => wread l i
  | WVal i => Ok (nth i l 0)
  | WZero => Ok 0
  | WAnd e m => wand (wmon l e) m
  | WOr e1 e2 => wor (wmon l e1) (wmon l e2)
  | WShl e n => wshl (wmon l e) (Z.of_nat n)
  | WShr e n => wshr (wmon l e) (Z.of_nat n)
  end.

Fixpoint wval (l : list Z) (e : wexpr) : Z :=
  match e with
  | WRead i | WVal i => nth i l 0
  | WZero => 0
  | WAnd e m => Z.land (wval l e) m
  | WOr e1 e2 => Z.lor (wval l e1) (wval l e2)
  | WShl e n => u32 (Z.shiftl (wval l e) (Z.of_nat n))
  | WShr e n => Z.shiftr (wval l e) (Z.of_nat n)
  end.

(** All indices read are below the bound. *)
Fixpoint wbelow (m : nat) (e : wexpr) : bool :=
  match e with
  | WRead i | WVal i => (i <? m)%nat
  | WZero => true
  | WAnd e _ | WShl e _ | WShr e _ => wbelow m e
  | WOr e1 e2 => wbelow m e1 && wbelow m e2
  end.

Lemma wread_ok l i : (i < length l)%nat -> wread l i = Ok (nth i l 0).
Proof.
  intros H. unfold wread. destruct (lookup_lt_is_Some_2 l i H) as [x Hx]. rewrite Hx. cbn.
  by rewrite (nth_lookup_Some _ _ _ _ Hx).
Qed.

Lemma wmon_ok l e m : wbelow m e = true -> (m <= length l)%nat -> wmon l e = Ok (wval l e).
Proof.
  intros H Hm. induction e as [i|i| |e IH k|e1 IH1 e2 IH2|e IH k|e IH k]; cbn in *;
    rewrite ?andb_true_iff in *; destruct_and?; try rewrite ?IH, ?IH1, ?IH2 by done; try done.
  apply wread_ok. apply Nat.ltb_lt in H. lia.
Qed.

(** The bits of an expression: for each of the 32 bits, the bits of the array or-ed into it. *)
Fixpoint wbits (e : wexpr) : list (list (nat * nat)) :=
  match e with
  | WRead i | WVal i => map (fun n => [(i, n)]) (seq 0 32)
  | WZero => replicate 32 []
  | WAnd e m => imap (fun n s => if Z.testbit m (Z.of_nat n) then s else []) (wbits e)
  | WOr e1 e2 => zip_with app (wbits e1) (wbits e2)
  | WShl e n => take 32 (replicate n [] ++ wbits e)
  | WShr e n => drop n (wbits e ++ replicate n [])
  end.

Definition bitOf (l : list Z) (s : list (nat * nat)) : bool :=
  existsb (fun '(i, n) => Z.testbit (nth i l 0) (Z.of_nat n)) s.

Lemma bitOf_app l s1 s2 : bitOf l (s1 ++ s2) = bitOf l s1 || bitOf l s2.
Proof. apply existsb_app. Qed.

Lemma length_wbits e : length (wbits e) = 32%nat.
Proof.
  induction e as [i|i| |e IH k|e1 IH1 e2 IH2|e IH k|e IH k]; cbn [wbits].
  - by rewrite length_map, length_seq.
  - by rewrite length_map, length_seq.
  - done.
  - by rewrite length_imap.
  - rewrite length_zip_with, IH1, IH2. done.
  - rewrite length_take, length_app, length_replicate, IH. lia.
  - rewrite length_drop, length_app, length_replicate, IH. lia.
Qed.

Lemma nth_zip_app (l1 l2 : list (list (nat * nat))) n :
  length l1 = length l2 -> nth n (zip_with app l1 l2) [] = nth n l1 [] ++ nth n l2 [].
Proof. revert l2 n. induction l1 as [|x l1 IH]; intros [|y l2] [|n] H; cbn; naive_solver. Qed.

Lemma nth_imap {A B : Type} (f : nat -> A -> B) l n d d' :
  (n < length l)%nat -> nth n (imap f l) d' = f n (nth n l d).
Proof.
  revert f n. induction l as [|x l IH]; intros f [|n] H; cbn in *; try lia; [done|].
  rewrite IH by lia. done.
Qed.

Lemma nth_drop {A : Type} (l : list A) n m d : nth m (drop n l) d = nth (n + m) l d.
Proof. revert n. induction l as [|x l IH]; intros [|n]; cbn; try done. by destruct m. Qed.

Lemma nth_take {A : Type} (l : list A) n m d : (m < n)%nat -> nth m (take n l) d = nth m l d.
Proof. revert n m. induction l as [|x l IH]; intros [|n] [|m] H; cbn; try (done || lia). apply IH. lia. Qed.

Lemma nth_replicate {A : Type} (d : A) n m : nth m (replicate n d) d = d.
Proof. revert m. induction n as [|n IH]; intros [|m]; cbn; done. Qed.

(** The computed bits are the bits of the value, and there are no others. *)
Lemma wbits_ok l e n :
  wbelow (length l) e = true -> Forall (fits 32) l ->
  Z.testbit (wval l e) (Z.of_nat n) = bitOf l (nth n (wbits e) []).
Proof.
  intros He Hl. revert n. induction e as [i|i| |e IH k|e1 IH1 e2 IH2|e IH k|e IH k]; intros n; cbn [wval wbits] in *.
  1,2: destruct (Nat.lt_ge_cases n 32);
    [ rewrite (nth_indep _ [] [(i, 0%nat)]) by (rewrite length_map, length_seq; lia);
      rewrite (map_nth (fun n => [(i, n)])), seq_nth by lia; cbn; by rewrite orb_false_r
    | rewrite (nth_overflow (map _ _)) by (rewrite length_map, length_seq; lia); cbn;
      apply (testbit_high _ 32); [by apply nth_fits; [lia|] | lia | lia] ].
  - rewrite nth_replicate. apply Z.bits_0.
  - rewrite Z.land_spec, IH by done. destruct (Nat.lt_ge_cases n 32).
    + rewrite (nth_imap _ _ _ []) by (by rewrite length_wbits).
      destruct (Z.testbit k (Z.of_nat n)); [apply andb_true_r | apply andb_false_r].
    + rewrite !nth_overflow by (rewrite ?length_imap, length_wbits; lia). done.
  - cbn in He. apply andb_true_iff in He as [??].
    rewrite Z.lor_spec, IH1, IH2 by done. rewrite nth_zip_app by (by rewrite !length_wbits).
    by rewrite bitOf_app.
  - rewrite testbit_u32. destruct (Z.ltb_spec (Z.of_nat n) 32).
    + cbn. rewrite nth_take by lia. rewrite Z.shiftl_spec by lia. destruct (Nat.lt_ge_cases n k).
      * rewrite app_nth1 by (rewrite length_replicate; lia). rewrite nth_replicate.
        apply Z.testbit_neg_r. lia.
      * rewrite app_nth2 by (rewrite length_replicate; lia). rewrite length_replicate.
        rewrite <- IH by done. f_equal. lia.
    + rewrite nth_overflow; [done|].
      rewrite length_take, length_app, length_replicate, length_wbits. lia.
  - rewrite Z.shiftr_spec by lia. rewrite <- Nat2Z.inj_add, IH by done.
    rewrite nth_drop, (Nat.add_comm k n). destruct (Nat.lt_ge_cases (n + k) 32).
    + rewrite app_nth1 by (rewrite length_wbits; lia). done.
    + rewrite app_nth2 by (rewrite length_wbits; lia). rewrite nth_replicate.
      by rewrite nth_overflow by (rewrite length_wbits; lia).
Qed.

(** ** The check *)

Definition bit_eqb (s t : list (nat * nat)) : bool :=
  match s, t with
  | [], [] => true
  | [(i, n)], [(j, m)] => (i =? j)%nat && (n =? m)%nat
  | _, _ => false
  end.

Fixpoint bits_eqb (s t : list (list (nat * nat))) : bool :=
  match s, t with
  | [], [] => true
  | x :: s', y :: t' => bit_eqb x y && bits_eqb s' t'
  | _, _ => false
  end.

(** The bits of the field [pos, pos + len) of [num b l]. *)
Definition fieldBits (b pos len : nat) : list (list (nat * nat)) :=
  map (fun n => if (n <? len)%nat then [((pos + n) / b, (pos + n) mod b)%nat] else []) (seq 0 32).

Definition check (m b pos len : nat) (e : wexpr) : bool :=
  wbelow m e && (len <=? 32)%nat && bits_eqb (wbits e) (fieldBits b pos len).

Lemma bits_eqb_eq s t : bits_eqb s t = true -> s = t.
Proof.
  revert t. induction s as [|x s IH]; intros [|y t]; cbn; try done.
  intros [Hx ->%IH]%andb_true_iff. f_equal.
  destruct x as [|[i n] [|]], y as [|[j m] [|]]; cbn in Hx; try done.
  apply andb_true_iff in Hx as [->%Nat.eqb_eq ->%Nat.eqb_eq]. done.
Qed.

Lemma fits_le b c x : 0 <= b -> b <= c -> fits b x -> fits c x.
Proof. unfold fits. intros. pose proof (Z.pow_le_mono_r 2 b c). lia. Qed.

Lemma wbelow_mono m m' e : wbelow m e = true -> (m <= m')%nat -> wbelow m' e = true.
Proof.
  intros He Hm. induction e as [i|i| |e IH k|e1 IH1 e2 IH2|e IH k|e IH k]; cbn in *; auto.
  1,2: apply Nat.ltb_lt; apply Nat.ltb_lt in He; lia.
  apply andb_true_iff in He as [??]. by rewrite IH1, IH2.
Qed.

(** An expression that passes the check is a field of the number its array stands for. *)
Lemma check_ok l m b pos len e :
  check m b pos len e = true -> (m <= length l)%nat -> (0 < b <= 32)%nat ->
  Forall (fits (Z.of_nat b)) l ->
  wmon l e = Ok (field (Z.of_nat pos) (Z.of_nat len) (num (Z.of_nat b) l)).
Proof.
  unfold check. intros [[He Hlen%Nat.leb_le]%andb_true_iff Hb%bits_eqb_eq]%andb_true_iff Hm Hb0 Hl.
  rewrite (wmon_ok l e m) by done. f_equal.
  assert (wbelow (length l) e = true) as He'.
  { by apply (wbelow_mono m). }
  assert (Forall (fits 32) l) as Hl32.
  { revert Hl. apply Forall_impl. intros x. apply fits_le; lia. }
  apply Z.bits_inj'. intros n Hn. rewrite testbit_field by lia.
  rewrite <- (Z2Nat.id n) at 1 by done. rewrite wbits_ok, Hb by done. unfold fieldBits.
  destruct (Nat.lt_ge_cases (Z.to_nat n) 32).
  - rewrite (nth_indep _ [] (if (0 <? len)%nat then [((pos + 0) / b, (pos + 0) mod b)%nat] else []))
      by (rewrite length_map, length_seq; lia).
    rewrite (map_nth (fun n => if (n <? len)%nat then [((pos + n) / b, (pos + n) mod b)%nat] else [])).
    rewrite seq_nth by lia. cbn [Nat.add].
    replace (n <? Z.of_nat len) with (Z.to_nat n <? len)%nat
      by (destruct (Nat.ltb_spec (Z.to_nat n) len), (Z.ltb_spec n (Z.of_nat len)); lia || done).
    destruct (Z.to_nat n <? len)%nat; [|done].
    cbn [bitOf existsb andb]. rewrite orb_false_r. rewrite testbit_num by (done || lia).
    rewrite Nat2Z.inj_mod, Nat2Z.inj_add, Z2Nat.id by lia. f_equal. f_equal.
    rewrite <- (Nat2Z.id ((pos + Z.to_nat n) / b)). rewrite Nat2Z.inj_div, Nat2Z.inj_add, Z2Nat.id by lia. done.
  - rewrite nth_overflow by (rewrite length_map, length_seq; lia). cbn.
    destruct (Z.ltb_spec n (Z.of_nat len)); [lia|done].
Qed.

(** The same where only the first [m] elements of the array are known. *)
Lemma wmon_take l e m : wbelow m e = true -> (m <= length l)%nat -> wmon l e = wmon (take m l) e.
Proof.
  intros He Hm. rewrite (wmon_ok l e m), (wmon_ok (take m l) e m) by (rewrite ?length_take; done || lia).
  f_equal. induction e as [i|i| |e IH k|e1 IH1 e2 IH2|e IH k|e IH k]; cbn in *.
  1,2: apply Nat.ltb_lt in He; by rewrite nth_take.
  all: try (done || by rewrite IH). apply andb_true_iff in He as [??]. by rewrite IH1, IH2.
Qed.

Lemma check_take_ok l m b pos len e :
  check m b pos len e = true -> (m <= length l)%nat -> (0 < b <= 32)%nat ->
  Forall (fits (Z.of_nat b)) (take m l) ->
  wmon l e = Ok (field (Z.of_nat pos) (Z.of_nat len) (num (Z.of_nat b) (take m l))).
Proof.
  intros Hc Hm Hb Hl. rewrite (wmon_take l e m); [|unfold check in Hc|done].
  - apply (check_ok _ m); try done. rewrite length_take. lia.
  - apply andb_true_iff in Hc as [Hc _]. by apply andb_true_iff in Hc as [? _].
Qed.

(** A list of expressions that are the digits of the number, in order. *)
Fixpoint checkDigits (m b len i : nat) (es : list wexpr) : bool :=
  match es with
  | [] => true
  | e :: es' => check m b (len * i) len e && checkDigits m b len (S i) es'
  end.

Lemma checkDigits_ok l m b len i es :
  checkDigits m b len i es = true -> (m <= length l)%nat -> (0 < b <= 32)%nat ->
  Forall (fits (Z.of_nat b)) (take m l) ->
  map (wmon l) es =
  map (fun j => Ok (field (Z.of_nat len * Z.of_nat j) (Z.of_nat len) (num (Z.of_nat b) (take m l))))
    (seq i (length es)).
Proof.
  revert i. induction es as [|e es IH]; intros i Hc Hm Hb Hl; cbn in *; [done|].
  apply andb_true_iff in Hc as [He Hes]. rewrite (check_take_ok l m b (len * i) len e) by done.
  rewrite Nat2Z.inj_mul, (IH (S i)) by done. done.
Qed.

(** ** Stores *)

Definition cast (w x : Z) : Z := x mod 2 ^ w.

Lemma store_ok w dest i v :
  (i < length dest)%nat -> store w dest i (Ok v) = Ok (<[i := cast w v]> dest).
Proof. intros. unfold store. cbn [res_bind]. by rewrite (proj2 (Nat.ltb_lt _ _)). Qed.

Lemma storeFrom_ok w pre dest vs :
  (length vs <= length dest)%nat ->
  storeFrom w (length pre) (pre ++ dest) (map Ok vs) =
  Ok (pre ++ map (cast w) vs ++ drop (length vs) dest).
Proof.
  revert pre dest. induction vs as [|v vs IH]; intros pre dest H; cbn [map storeFrom length app]; [done|].
  destruct dest as [|d dest]; cbn in H; [lia|].
  rewrite store_ok by (rewrite length_app; cbn; lia). cbn [res_bind].
  rewrite insert_app_r_alt by lia. rewrite Nat.sub_diag. cbn [insert list_insert].
  replace (pre ++ cast w v :: dest) with ((pre ++ [cast w v]) ++ dest) by (by rewrite <- app_assoc).
  replace (S (length pre)) with (length (pre ++ [cast w v])) by (rewrite length_app; cbn; lia).
  rewrite IH by lia. rewrite <- app_assoc. done.
Qed.

Lemma storeAll_ok w dest vs :
  (length vs <= length dest)%nat ->
  storeAll w dest (map Ok vs) = Ok (map (cast w) vs ++ drop (length vs) dest).
Proof. intros. apply (storeFrom_ok w [] dest vs). done. Qed.

(** A block of stores of the digits of the number. *)
Lemma storeDigits_ok w dest l m b len es :
  checkDigits m b len 0 es = true -> (m <= length l)%nat -> (0 < b <= 32)%nat ->
  Forall (fits (Z.of_nat b)) (take m l) -> (length es <= length dest)%nat ->
  storeAll w dest (map (wmon l) es) =
  Ok (map (cast w) (digits (Z.of_nat len) (length es) (num (Z.of_nat b) (take m l))) ++ drop (length es) dest).
Proof.
  intros Hc Hm Hb Hl Hd. rewrite (checkDigits_ok l m b len 0 es) by done.
  rewrite <- (map_map (fun j => field (Z.of_nat len * Z.of_nat j) (Z.of_nat len) (num (Z.of_nat b) (take m l))) Ok).
  rewrite storeAll_ok by (by rewrite length_map, length_seq).
  by rewrite length_map, length_seq.
Qed.
