(* ===== verification/BlockLoops.v ===== *)
(** * Loops that change the base of a stream

    The block loops of Pack.h and Unpack.h read values of one width and write values of another.
    [converts] says so of a block, a loop, or a whole function; the tactics prove it of the unrolled
    code, one statement at a time, through the reflected expressions of WordStream. *)

From stdpp Require Import base list numbers option tactics.
From Stdlib Require Import ZArith Lia ZifyNat.
From S2P Require Import Prelude Bits WordCode WordStream.

#[local] Open Scope Z_scope.

(** [body] writes [p] values of [b] bits that are the same number as the first [q] values of [c]
    bits of its source, stored in elements of [w] bits. [zero] says whether the destination has to
    be cleared before. *)
Record converts (w : Z) (zero : bool) (b c p q : nat) (body : list Z -> list Z -> res (list Z)) : Prop :=
  mk_converts {
  converts_eq dest enc :
    (p <= length dest)%nat -> (q <= length enc)%nat -> Forall (fits (Z.of_nat c)) (take q enc) ->
    (zero = true -> Forall (eq 0) (take p dest)) ->
    body dest enc =
    Ok (map (cast w) (digits (Z.of_nat b) p (num (Z.of_nat c) (take q enc))) ++ drop p dest)
}.

(** The smallest number of [c]-bit values that hold [n] bits. *)
Definition ceil (n c : nat) : nat := ((n + (c - 1)) / c)%nat.

Lemma ceil_spec n c : (0 < c)%nat -> (n <= c * ceil n c < n + c)%nat.
Proof.
  intros. unfold ceil. pose proof (Nat.div_mod (n + (c - 1)) c ltac:(lia)).
  pose proof (Nat.mod_upper_bound (n + (c - 1)) c ltac:(lia)). lia.
Qed.

Lemma ceil_unique n c q : (0 < c)%nat -> (n <= c * q < n + c)%nat -> q = ceil n c.
Proof. intros Hc H. pose proof (ceil_spec n c Hc). nia. Qed.

(** ** Loops *)

Lemma take_add_drop {A : Type} (l : list A) n m : take (n + m) l = take n l ++ take m (drop n l).
Proof. by rewrite take_take_drop. Qed.

Lemma digits_take_app b c p p' q q' enc :
  (b * p = c * q)%nat -> (0 < c)%nat -> (q + q' <= length enc)%nat ->
  Forall (fits (Z.of_nat c)) (take (q + q') enc) ->
  digits (Z.of_nat b) (p + p') (num (Z.of_nat c) (take (q + q') enc)) =
  digits (Z.of_nat b) p (num (Z.of_nat c) (take q enc)) ++
  digits (Z.of_nat b) p' (num (Z.of_nat c) (take q' (drop q enc))).
Proof.
  intros Hbc Hc Hlen Hf. rewrite take_add_drop in Hf |- *. apply Forall_app in Hf as [Hf _].
  rewrite num_app by lia. rewrite length_take, (Nat.min_l q) by lia.
  replace (Z.of_nat c * Z.of_nat q) with (Z.of_nat b * Z.of_nat p) by lia.
  apply digits_app; [lia|].
  pose proof (num_bound (Z.of_nat c) (take q enc) ltac:(lia) Hf) as Hn.
  rewrite length_take, (Nat.min_l q) in Hn by lia.
  by replace (Z.of_nat b * Z.of_nat p) with (Z.of_nat c * Z.of_nat q) by lia.
Qed.

Lemma block_converts w zero b c din dout p q body k :
  (b * dout = c * din)%nat -> (0 < c)%nat ->
  converts w zero b c dout din body -> converts w zero b c p q k ->
  converts w zero b c (dout + p) (din + q) (block din dout body k).
Proof.
  intros Hbc Hc Hbody Hk. split. intros dest enc Hd He Hf Hz. unfold block.
  assert (Forall (fits (Z.of_nat c)) (take din enc) /\ Forall (fits (Z.of_nat c)) (take q (drop din enc))) as [Hf1 Hf2].
  { rewrite take_add_drop in Hf. by apply Forall_app. }
  assert (zero = true -> Forall (eq 0) (take dout dest) /\ Forall (eq 0) (take p (drop dout dest))) as Hz'.
  { intros E. specialize (Hz E). rewrite take_add_drop in Hz. by apply Forall_app. }
  rewrite (converts_eq _ _ _ _ _ _ _ Hbody) by (done || lia || (intros E; by apply Hz')).
  cbn [res_bind]. set (ds := map (cast w) _).
  assert (length ds = dout) as Hds by (unfold ds; by rewrite length_map, digits_length).
  rewrite drop_app_length', take_app_length' by done.
  rewrite (converts_eq _ _ _ _ _ _ _ Hk) by (rewrite ?length_drop; done || lia || (intros E; by apply Hz')).
  cbn [res_bind]. f_equal. rewrite drop_drop, app_assoc. f_equal.
  rewrite (digits_take_app b c dout p din q) by (done || lia). by rewrite map_app.
Qed.

Lemma maxBlocksLoop_converts w zero b c din dout p q nb body tail :
  (b * dout = c * din)%nat -> (0 < c)%nat ->
  converts w zero b c dout din body -> converts w zero b c p q tail ->
  converts w zero b c (nb * dout + p) (nb * din + q) (maxBlocksLoop nb din dout body tail).
Proof.
  intros Hbc Hc Hbody Htail. induction nb as [|nb IH]; [exact Htail|].
  cbn [Nat.mul maxBlocksLoop]. rewrite <- !Nat.add_assoc. by apply block_converts.
Qed.

Lemma forLoop_S f din dout body tail i n dest enc :
  forLoop (S f) din dout body tail i n dest enc =
  if i <=? n then block din dout body (forLoop f din dout body tail (u32 (i + 32)) n) dest enc
  else tail dest enc.
Proof. done. Qed.

(** The [for] loop runs [n / 32] times. *)
Lemma forLoop_eq nb din dout body tail i n dest enc :
  0 <= i -> i + 32 * Z.of_nat nb - 32 <= n < i + 32 * Z.of_nat nb -> i + 32 * Z.of_nat nb < 2 ^ 32 ->
  forLoop (S nb) din dout body tail i n dest enc = maxBlocksLoop nb din dout body tail dest enc.
Proof.
  revert i dest enc. induction nb as [|nb IH]; intros i dest enc Hi Hn Hmax; rewrite forLoop_S.
  - rewrite (proj2 (Z.leb_gt _ _)) by lia. done.
  - rewrite (proj2 (Z.leb_le _ _)) by lia. cbn [maxBlocksLoop]. unfold block.
    destruct (body dest enc) as [d| | |]; cbn [res_bind]; try done.
    rewrite u32_small by lia. by rewrite (IH (i + 32)) by lia.
Qed.

Lemma forBlocks_eq din dout n body tail dest enc :
  0 <= n -> n + 32 < 2 ^ 32 ->
  forBlocks din dout n body tail dest enc = maxBlocksLoop (Z.to_nat (n / 32)) din dout body tail dest enc.
Proof.
  intros Hn Hmax. unfold forBlocks. pose proof (Z.div_mod n 32 ltac:(lia)).
  pose proof (Z.mod_pos_bound n 32 ltac:(lia)). apply forLoop_eq; lia.
Qed.

Lemma converts_ext w zero b c p q f g :
  (forall dest enc, f dest enc = g dest enc) -> converts w zero b c p q f -> converts w zero b c p q g.
Proof. intros Hfg [H]. split. intros. rewrite <- Hfg. by apply H. Qed.

(** A whole function: blocks of 32 values, then what is left. *)
Lemma forBlocks_converts w zero b c din dout n p q body tail :
  (b * dout = c * din)%nat -> (0 < c)%nat -> 0 <= n -> n + 32 < 2 ^ 32 ->
  converts w zero b c dout din body -> converts w zero b c p q tail ->
  converts w zero b c (Z.to_nat (n / 32) * dout + p) (Z.to_nat (n / 32) * din + q)
    (forBlocks din dout n body tail).
Proof.
  intros. eapply converts_ext; [intros; symmetry; by apply forBlocks_eq|].
  by apply maxBlocksLoop_converts.
Qed.

Lemma upToMaxBlocks_converts w zero b c din dout maxBlocks p q body tail :
  (b * dout = c * din)%nat -> (0 < c)%nat ->
  converts w zero b c dout din body -> converts w zero b c p q tail ->
  converts w zero b c (Z.to_nat maxBlocks * dout + p) (Z.to_nat maxBlocks * din + q)
    (upToMaxBlocks maxBlocks din dout body tail).
Proof. apply maxBlocksLoop_converts. Qed.

Lemma converts_weaken w zero b c p q body : converts w false b c p q body -> converts w zero b c p q body.
Proof. intros [H]. split. intros. by apply H. Qed.

(** Blocks that need no cleared destination do not look at what they overwrite. *)
Lemma maxBlocksLoop_overwrites w b c din dout q nb body tail dest dest' enc :
  converts w false b c dout din body -> length dest' = length dest -> (nb * dout <= length dest)%nat ->
  (nb * din + q <= length enc)%nat -> Forall (fits (Z.of_nat c)) (take (nb * din + q) enc) ->
  drop (nb * dout) dest' = drop (nb * dout) dest ->
  maxBlocksLoop nb din dout body tail dest' enc = maxBlocksLoop nb din dout body tail dest enc.
Proof.
  intros Hbody. revert dest dest' enc. induction nb as [|nb IH]; intros dest dest' enc Hl Hd He Hf Hdrop.
  { cbn in Hdrop |- *. by rewrite !drop_0 in Hdrop; subst. }
  cbn [Nat.mul maxBlocksLoop] in *. rewrite <- Nat.add_assoc in Hf, He. unfold block.
  rewrite take_add_drop in Hf. apply Forall_app in Hf as [Hf1 Hf2].
  rewrite !(converts_eq _ _ _ _ _ _ _ Hbody) by (done || lia). cbn [res_bind]. set (ds := map (cast w) _).
  assert (length ds = dout) as Hds by (unfold ds; by rewrite length_map, digits_length).
  rewrite !drop_app_length', !take_app_length' by done.
  rewrite (IH (drop dout dest) (drop dout dest') (drop din enc)); rewrite ?length_drop; try done; try lia.
  by rewrite !drop_drop.
Qed.

(** ** Unrolled blocks *)

Lemma assign_step l e m t (k : res Z -> res (list Z)) r :
  t = wmon l e -> wbelow m e = true -> (m <= length l)%nat -> k (wmon l e) = r -> assign t k = r.
Proof. intros -> He Hm <-. rewrite (wmon_ok l e m) by done. done. Qed.

(** [reify l t] is the expression of the computation [t] on the array [l]. *)
Ltac reify l t :=
  lazymatch t with
  | wmon l ?e => e
  | wread l ?i => constr:(WRead i)
  | Ok 0 => constr:(WZero)
  | wand ?a ?m => let a' := reify l a in constr:(WAnd a' m)
  | wor ?a ?b => let a' := reify l a in let b' := reify l b in constr:(WOr a' b')
  | wshl ?a ?n => let a' := reify l a in let n' := eval vm_compute in (Z.to_nat n) in constr:(WShl a' n')
  | wshr ?a ?n => let a' := reify l a in let n' := eval vm_compute in (Z.to_nat n) in constr:(WShr a' n')
  end.

Ltac reifyList l ts :=
  lazymatch ts with
  | nil => constr:(@nil wexpr)
  | ?t :: ?ts' => let e := reify l t in let es := reifyList l ts' in constr:(e :: es)
  end.

(** Execute the assignments of a block whose reads are below [m]. *)
Ltac assign_all l m :=
  repeat lazymatch goal with
  | |- assign ?t ?k = ?r =>
      let e := reify l t in
      refine (assign_step l e m t k r eq_refl eq_refl _ _); [lia | cbv beta]
  end.

(** The block writes the [len]-bit digits of the number of its first [m] values of [b] bits. *)
Ltac convert_block m :=
  split; intros dest enc Hd He Hf _; cbv beta;
  assign_all enc m;
  lazymatch goal with
  | |- storeAll ?w dest ?ts = Ok (map _ (digits (Z.of_nat ?len) ?p (num (Z.of_nat ?b) _)) ++ _) =>
      let es := reifyList enc ts in
      change ts with (map (wmon enc) es);
      refine (storeDigits_ok w dest enc m b len es _ He _ Hf Hd);
      [vm_compute; reflexivity | lia]
  end.
