(* ===== verification/UnalignedUnpack.v ===== *)
(** * UnalignedUnpack.h

    The functions [unaligned_unpack_0] to [unaligned_unpack_31] of
    src/aios/storage/indexlib/index/common/numeric_compress/UnalignedUnpack.h, statement by statement:
    they unpack the [dataNum < 32] values that are left after the blocks of 32. The offsets of
    [decode[++decodedOffset]] and [encode[offset++]] are written out; a loop over blocks
    leaves [encode] at its next word. [w] is the width of the template's [Type]. *)

From stdpp Require Import base list numbers.
From Stdlib Require Import ZArith.
From S2P Require Import Prelude WordCode.

#[local] Open Scope Z_scope.
#[local] Open Scope word_scope.

Section Unaligned.
Context (w : Z).

(** [decode[i] = e;] *)
#[local] Notation "'put' x [ i ] := e ;; k" := (res_bind (store w x i%nat e) (fun x => k))
  (at level 10, x name, i at level 99, e at level 99, k at level 200) : word_scope.

(** [for (uint32_t i = 0; i < dataNum; ++i) decode[i] = 0;] *)
Definition unaligned_unpack_0 (decode encode : list Z) (dataNum : Z) : res (list Z) :=
  storeAll w decode (replicate (Z.to_nat dataNum) (Ok 0)).

Definition unaligned_unpack_1 (decode encode : list Z) (dataNum : Z) : res (list Z) :=
  let rest := dataNum in
  uint32 val := encode.[0] ;;
  put decode[0] := (val << 31) >> 31 ;;
  return_if_last rest decode ;;
  put decode[1] := (val << 30) >> 31 ;;
  return_if_last rest decode ;;
  put decode[2] := (val << 29) >> 31 ;;
  return_if_last rest decode ;;
  put decode[3] := (val << 28) >> 31 ;;
  return_if_last rest decode ;;
  put decode[4] := (val << 27) >> 31 ;;
  return_if_last rest decode ;;
  put decode[5] := (val << 26) >> 31 ;;
  return_if_last rest decode ;;
  put decode[6] := (val << 25) >> 31 ;;
  return_if_last rest decode ;;
  put decode[7] := (val << 24) >> 31 ;;
  return_if_last rest decode ;;
  put decode[8] := (val << 23) >> 31 ;;
  return_if_last rest decode ;;
  put decode[9] := (val << 22) >> 31 ;;
  return_if_last rest decode ;;
  put decode[10] := (val << 21) >> 31 ;;
  return_if_last rest decode ;;
  put decode[11] := (val << 20) >> 31 ;;
  return_if_last rest decode ;;
  put decode[12] := (val << 19) >> 31 ;;
  return_if_last rest decode ;;
  put decode[13] := (val << 18) >> 31 ;;
  return_if_last rest decode ;;
  put decode[14] := (val << 17) >> 31 ;;
  return_if_last rest decode ;;
  put decode[15] := (val << 16) >> 31 ;;
  return_if_last rest decode ;;
  put decode[16] := (val << 15) >> 31 ;;
  return_if_last rest decode ;;
  put decode[17] := (val << 14) >> 31 ;;
  return_if_last rest decode ;;
  put decode[18] := (val << 13) >> 31 ;;
  return_if_last rest decode ;;
  put decode[19] := (val << 12) >> 31 ;;
  return_if_last rest decode ;;
  put decode[20] := (val << 11) >> 31 ;;
  return_if_last rest decode ;;
  put decode[21] := (val << 10) >> 31 ;;
  return_if_last rest decode ;;
  put decode[22] := (val << 9) >> 31 ;;
  return_if_last rest decode ;;
  put decode[23] := (val << 8) >> 31 ;;
  return_if_last rest decode ;;
  put decode[24] := (val << 7) >> 31 ;;
  return_if_last rest decode ;;
  put decode[25] := (val << 6) >> 31 ;;
  return_if_last rest decode ;;
  put decode[26] := (val << 5) >> 31 ;;
  return_if_last rest decode ;;
  put decode[27] := (val << 4) >> 31 ;;
  return_if_last rest decode ;;
  put decode[28] := (val << 3) >> 31 ;;
  return_if_last rest decode ;;
  put decode[29] := (val << 2) >> 31 ;;
  return_if_last rest decode ;;
  put decode[30] := (val << 1) >> 31 ;;
  Ok decode.

Definition unaligned_unpack_2 (decode encode : list Z) (dataNum : Z) : res (list Z) :=
  let maxBlocks := Z.shiftr dataNum 4 in
  let rest := dataNum mod 16 in
  upToMaxBlocks maxBlocks 1 16 (fun decode encode =>
    uint32 val := encode.[0] ;;
    storeAll w decode [(val << 30) >> 30; (val << 28) >> 30; (val << 26) >> 30; (val << 24) >> 30;
                       (val << 22) >> 30; (val << 20) >> 30; (val << 18) >> 30; (val << 16) >> 30;
                       (val << 14) >> 30; (val << 12) >> 30; (val << 10) >> 30; (val << 8) >> 30;
                       (val << 6) >> 30; (val << 4) >> 30; (val << 2) >> 30; val >> 30]
  ) (fun decode encode =>
    if rest =? 0 then Ok decode else
    uint32 val := encode.[0] ;;
    put decode[0] := (val << 30) >> 30 ;;
    return_if_last rest decode ;;
    put decode[1] := (val << 28) >> 30 ;;
    return_if_last rest decode ;;
    put decode[2] := (val << 26) >> 30 ;;
    return_if_last rest decode ;;
    put decode[3] := (val << 24) >> 30 ;;
    return_if_last rest decode ;;
    put decode[4] := (val << 22) >> 30 ;;
    return_if_last rest decode ;;
    put decode[5] := (val << 20) >> 30 ;;
    return_if_last rest decode ;;
    put decode[6] := (val << 18) >> 30 ;;
    return_if_last rest decode ;;
    put decode[7] := (val << 16) >> 30 ;;
    return_if_last rest decode ;;
    put decode[8] := (val << 14) >> 30 ;;
    return_if_last rest decode ;;
    put decode[9] := (val << 12) >> 30 ;;
    return_if_last rest decode ;;
    put decode[10] := (val << 10) >> 30 ;;
    return_if_last rest decode ;;
    put decode[11] := (val << 8) >> 30 ;;
    return_if_last rest decode ;;
    put decode[12] := (val << 6) >> 30 ;;
    return_if_last rest decode ;;
    put decode[13] := (val << 4) >> 30 ;;
    return_if_last rest decode ;;
    put decode[14] := (val << 2) >> 30 ;;
    Ok decode
  ) decode encode.

Definition unaligned_unpack_3 (decode encode : list Z) (dataNum : Z) : res (list Z) :=
  let rest := dataNum in
  uint32 val1 := encode.[0] ;;
  put decode[0] := (val1 << 29) >> 29 ;;
  return_if_last rest decode ;;
  put decode[1] := (val1 << 26) >> 29 ;;
  return_if_last rest decode ;;
  put decode[2] := (val1 << 23) >> 29 ;;
  return_if_last rest decode ;;
  put decode[3] := (val1 << 20) >> 29 ;;
  return_if_last rest decode ;;
  put decode[4] := (val1 << 17) >> 29 ;;
  return_if_last rest decode ;;
  put decode[5] := (val1 << 14) >> 29 ;;
  return_if_last rest decode ;;
  put decode[6] := (val1 << 11) >> 29 ;;
  return_if_last rest decode ;;
  put decode[7] := (val1 << 8) >> 29 ;;
  return_if_last rest decode ;;
  put decode[8] := (val1 << 5) >> 29 ;;
  return_if_last rest decode ;;
  put decode[9] := (val1 << 2) >> 29 ;;
  return_if_last rest decode ;;
  uint32 val2 := encode.[1] ;;
  put decode[10] := ((val2 << 31) >> 29) .| (val1 >> 30) ;;
  return_if_last rest decode ;;
  put decode[11] := (val2 << 28) >> 29 ;;
  return_if_last rest decode ;;
  put decode[12] := (val2 << 25) >> 29 ;;
  return_if_last rest decode ;;
  put decode[13] := (val2 << 22) >> 29 ;;
  return_if_last rest decode ;;
  put decode[14] := (val2 << 19) >> 29 ;;
  return_if_last rest decode ;;
  put decode[15] := (val2 << 16) >> 29 ;;
  return_if_last rest decode ;;
  put decode[16] := (val2 << 13) >> 29 ;;
  return_if_last rest decode ;;
  put decode[17] := (val2 << 10) >> 29 ;;
  return_if_last rest decode ;;
  put decode[18] := (val2 << 7) >> 29 ;;
  return_if_last rest decode ;;
  put decode[19] := (val2 << 4) >> 29 ;;
  return_if_last rest decode ;;
  put decode[20] := (val2 << 1) >> 29 ;;
  return_if_last rest decode ;;
  uint32 val3 := encode.[2] ;;
  put decode[21] := ((val3 << 30) >> 29) .| (val2 >> 31) ;;
  return_if_last rest decode ;;
  put decode[22] := (val3 << 27) >> 29 ;;
  return_if_last rest decode ;;
  put decode[23] := (val3 << 24) >> 29 ;;
  return_if_last rest decode ;;
  put decode[24] := (val3 << 21) >> 29 ;;
  return_if_last rest decode ;;
  put decode[25] := (val3 << 18) >> 29 ;;
  return_if_last rest decode ;;
  put decode[26] := (val3 << 15) >> 29 ;;
  return_if_last rest decode ;;
  put decode[27] := (val3 << 12) >> 29 ;;
  return_if_last rest decode ;;
  put decode[28] := (val3 << 9) >> 29 ;;
  return_if_last rest decode ;;
  put decode[29] := (val3 << 6) >> 29 ;;
  return_if_last rest decode ;;
  put decode[30] := (val3 << 3) >> 29 ;;
  Ok decode.

Definition unaligned_unpack_4 (decode encode : list Z) (dataNum : Z) : res (list Z) :=
  let maxBlocks := Z.shiftr dataNum 3 in
  let rest := dataNum mod 8 in
  upToMaxBlocks maxBlocks 1 8 (fun decode encode =>
    uint32 val1 := encode.[0] ;;
    storeAll w decode [(val1 << 28) >> 28; (val1 << 24) >> 28; (val1 << 20) >> 28; (val1 << 16) >> 28;
                       (val1 << 12) >> 28; (val1 << 8) >> 28; (val1 << 4) >> 28; val1 >> 28]
  ) (fun decode encode =>
    if rest =? 0 then Ok decode else
    uint32 val1 := encode.[0] ;;
    put decode[0] := (val1 << 28) >> 28 ;;
    return_if_last rest decode ;;
    put decode[1] := (val1 << 24) >> 28 ;;
    return_if_last rest decode ;;
    put decode[2] := (val1 << 20) >> 28 ;;
    return_if_last rest decode ;;
    put decode[3] := (val1 << 16) >> 28 ;;
    return_if_last rest decode ;;
    put decode[4] := (val1 << 12) >> 28 ;;
    return_if_last rest decode ;;
    put decode[5] := (val1 << 8) >> 28 ;;
    return_if_last rest decode ;;
    put decode[6] := (val1 << 4) >> 28 ;;
    Ok decode
  ) decode encode.

Definition unaligned_unpack_5 (decode encode : list Z) (dataNum : Z) : res (list Z) :=
  let rest := dataNum in
  uint32 val1 := encode.[0] ;;
  put decode[0] := (val1 << 27) >> 27 ;;
  return_if_last rest decode ;;
  put decode[1] := (val1 << 22) >> 27 ;;
  return_if_last rest decode ;;
  put decode[2] := (val1 << 17) >> 27 ;;
  return_if_last rest decode ;;
  put decode[3] := (val1 << 12) >> 27 ;;
  return_if_last rest decode ;;
  put decode[4] := (val1 << 7) >> 27 ;;
  return_if_last rest decode ;;
  put decode[5] := (val1 << 2) >> 27 ;;
  return_if_last rest decode ;;
  uint32 val2 := encode.[1] ;;
  put decode[6] := ((val2 << 29) >> 27) .| (val1 >> 30) ;;
  return_if_last rest decode ;;
  put decode[7] := (val2 << 24) >> 27 ;;
  return_if_last rest decode ;;
  put decode[8] := (val2 << 19) >> 27 ;;
  return_if_last rest decode ;;
  put decode[9] := (val2 << 14) >> 27 ;;
  return_if_last rest decode ;;
  put decode[10] := (val2 << 9) >> 27 ;;
  return_if_last rest decode ;;
  put decode[11] := (val2 << 4) >> 27 ;;
  return_if_last rest decode ;;
  uint32 val3 := encode.[2] ;;
  put decode[12] := ((val3 << 31) >> 27) .| (val2 >> 28) ;;
  return_if_last rest decode ;;
  put decode[13] := (val3 << 26) >> 27 ;;
  return_if_last rest decode ;;
  put decode[14] := (val3 << 21) >> 27 ;;
  return_if_last rest decode ;;
  put decode[15] := (val3 << 16) >> 27 ;;
  return_if_last rest decode ;;
  put decode[16] := (val3 << 11) >> 27 ;;
  return_if_last rest decode ;;
  put decode[17] := (val3 << 6) >> 27 ;;
  return_if_last rest decode ;;
  put decode[18] := (val3 << 1) >> 27 ;;
  return_if_last rest decode ;;
  uint32 val4 := encode.[3] ;;
  put decode[19] := ((val4 << 28) >> 27) .| (val3 >> 31) ;;
  return_if_last rest decode ;;
  put decode[20] := (val4 << 23) >> 27 ;;
  return_if_last rest decode ;;
  put decode[21] := (val4 << 18) >> 27 ;;
  return_if_last rest decode ;;
  put decode[22] := (val4 << 13) >> 27 ;;
  return_if_last rest decode ;;
  put decode[23] := (val4 << 8) >> 27 ;;
  return_if_last rest decode ;;
  put decode[24] := (val4 << 3) >> 27 ;;
  return_if_last rest decode ;;
  uint32 val5 := encode.[4] ;;
  put decode[25] := ((val5 << 30) >> 27) .| (val4 >> 29) ;;
  return_if_last rest decode ;;
  put decode[26] := (val5 << 25) >> 27 ;;
  return_if_last rest decode ;;
  put decode[27] := (val5 << 20) >> 27 ;;
  return_if_last rest decode ;;
  put decode[28] := (val5 << 15) >> 27 ;;
  return_if_last rest decode ;;
  put decode[29] := (val5 << 10) >> 27 ;;
  return_if_last rest decode ;;
  put decode[30] := (val5 << 5) >> 27 ;;
  Ok decode.

Definition unaligned_unpack_6 (decode encode : list Z) (dataNum : Z) : res (list Z) :=
  let maxBlocks := Z.shiftr dataNum 4 in
  let rest := dataNum mod 16 in
  upToMaxBlocks maxBlocks 3 16 (fun decode encode =>
    uint32 val1 := encode.[0] ;;
    uint32 val2 := encode.[1] ;;
    uint32 val3 := encode.[2] ;;
    storeAll w decode [(val1 << 26) >> 26; (val1 << 20) >> 26; (val1 << 14) >> 26; (val1 << 8) >> 26;
                       (val1 << 2) >> 26; ((val2 << 28) >> 26) .| (val1 >> 30); (val2 << 22) >> 26;
                       (val2 << 16) >> 26; (val2 << 10) >> 26; (val2 << 4) >> 26;
                       ((val3 << 30) >> 26) .| (val2 >> 28); (val3 << 24) >> 26; (val3 << 18) >> 26;
                       (val3 << 12) >> 26; (val3 << 6) >> 26; val3 >> 26]
  ) (fun decode encode =>
    if rest =? 0 then Ok decode else
    uint32 val1 := encode.[0] ;;
    put decode[0] := (val1 << 26) >> 26 ;;
    return_if_last rest decode ;;
    put decode[1] := (val1 << 20) >> 26 ;;
    return_if_last rest decode ;;
    put decode[2] := (val1 << 14) >> 26 ;;
    return_if_last rest decode ;;
    put decode[3] := (val1 << 8) >> 26 ;;
    return_if_last rest decode ;;
    put decode[4] := (val1 << 2) >> 26 ;;
    return_if_last rest decode ;;
    uint32 val2 := encode.[1] ;;
    put decode[5] := ((val2 << 28) >> 26) .| (val1 >> 30) ;;
    return_if_last rest decode ;;
    put decode[6] := (val2 << 22) >> 26 ;;
    return_if_last rest decode ;;
    put decode[7] := (val2 << 16) >> 26 ;;
    return_if_last rest decode ;;
    put decode[8] := (val2 << 10) >> 26 ;;
    return_if_last rest decode ;;
    put decode[9] := (val2 << 4) >> 26 ;;
    return_if_last rest decode ;;
    uint32 val3 := encode.[2] ;;
    put decode[10] := ((val3 << 30) >> 26) .| (val2 >> 28) ;;
    return_if_last rest decode ;;
    put decode[11] := (val3 << 24) >> 26 ;;
    return_if_last rest decode ;;
    put decode[12] := (val3 << 18) >> 26 ;;
    return_if_last rest decode ;;
    put decode[13] := (val3 << 12) >> 26 ;;
    return_if_last rest decode ;;
    put decode[14] := (val3 << 6) >> 26 ;;
    return_if_last rest decode ;;
    put decode[15] := val3 >> 26 ;;
    Ok decode
  ) decode encode.

Definition unaligned_unpack_7 (decode encode : list Z) (dataNum : Z) : res (list Z) :=
  let rest := dataNum in
  uint32 val1 := encode.[0] ;;
  put decode[0] := (val1 << 25) >> 25 ;;
  return_if_last rest decode ;;
  put decode[1] := (val1 << 18) >> 25 ;;
  return_if_last rest decode ;;
  put decode[2] := (val1 << 11) >> 25 ;;
  return_if_last rest decode ;;
  put decode[3] := (val1 << 4) >> 25 ;;
  return_if_last rest decode ;;
  uint32 val2 := encode.[1] ;;
  put decode[4] := ((val2 << 29) >> 25) .| (val1 >> 28) ;;
  return_if_last rest decode ;;
  put decode[5] := (val2 << 22) >> 25 ;;
  return_if_last rest decode ;;
  put decode[6] := (val2 << 15) >> 25 ;;
  return_if_last rest decode ;;
  put decode[7] := (val2 << 8) >> 25 ;;
  return_if_last rest decode ;;
  put decode[8] := (val2 << 1) >> 25 ;;
  return_if_last rest decode ;;
  uint32 val3 := encode.[2] ;;
  put decode[9] := ((val3 << 26) >> 25) .| (val2 >> 31) ;;
  return_if_last rest decode ;;
  put decode[10] := (val3 << 19) >> 25 ;;
  return_if_last rest decode ;;
  put decode[11] := (val3 << 12) >> 25 ;;
  return_if_last rest decode ;;
  put decode[12] := (val3 << 5) >> 25 ;;
  return_if_last rest decode ;;
  uint32 val4 := encode.[3] ;;
  put decode[13] := ((val4 << 30) >> 25) .| (val3 >> 27) ;;
  return_if_last rest decode ;;
  put decode[14] := (val4 << 23) >> 25 ;;
  return_if_last rest decode ;;
  put decode[15] := (val4 << 16) >> 25 ;;
  return_if_last rest decode ;;
  put decode[16] := (val4 << 9) >> 25 ;;
  return_if_last rest decode ;;
  put decode[17] := (val4 << 2) >> 25 ;;
  return_if_last rest decode ;;
  uint32 val5 := encode.[4] ;;
  put decode[18] := ((val5 << 27) >> 25) .| (val4 >> 30) ;;
  return_if_last rest decode ;;
  put decode[19] := (val5 << 20) >> 25 ;;
  return_if_last rest decode ;;
  put decode[20] := (val5 << 13) >> 25 ;;
  return_if_last rest decode ;;
  put decode[21] := (val5 << 6) >> 25 ;;
  return_if_last rest decode ;;
  uint32 val6 := encode.[5] ;;
  put decode[22] := ((val6 << 31) >> 25) .| (val5 >> 26) ;;
  return_if_last rest decode ;;
  put decode[23] := (val6 << 24) >> 25 ;;
  return_if_last rest decode ;;
  put decode[24] := (val6 << 17) >> 25 ;;
  return_if_last rest decode ;;
  put decode[25] := (val6 << 10) >> 25 ;;
  return_if_last rest decode ;;
  put decode[26] := (val6 << 3) >> 25 ;;
  return_if_last rest decode ;;
  uint32 val7 := encode.[6] ;;
  put decode[27] := ((val7 << 28) >> 25) .| (val6 >> 29) ;;
  return_if_last rest decode ;;
  put decode[28] := (val7 << 21) >> 25 ;;
  return_if_last rest decode ;;
  put decode[29] := (val7 << 14) >> 25 ;;
  return_if_last rest decode ;;
  put decode[30] := (val7 << 7) >> 25 ;;
  Ok decode.

Definition unaligned_unpack_8 (decode encode : list Z) (dataNum : Z) : res (list Z) :=
  let maxBlocks := Z.shiftr dataNum 2 in
  let rest := dataNum mod 4 in
  upToMaxBlocks maxBlocks 1 4 (fun decode encode =>
    uint32 val1 := encode.[0] ;;
    storeAll w decode [(val1 << 24) >> 24; (val1 << 16) >> 24; (val1 << 8) >> 24; val1 >> 24]
  ) (fun decode encode =>
    if rest =? 0 then Ok decode else
    uint32 val1 := encode.[0] ;;
    put decode[0] := (val1 << 24) >> 24 ;;
    return_if_last rest decode ;;
    put decode[1] := (val1 << 16) >> 24 ;;
    return_if_last rest decode ;;
    put decode[2] := (val1 << 8) >> 24 ;;
    Ok decode
  ) decode encode.

Definition unaligned_unpack_9 (decode encode : list Z) (dataNum : Z) : res (list Z) :=
  let rest := dataNum in
  uint32 val1 := encode.[0] ;;
  put decode[0] := (val1 << 23) >> 23 ;;
  return_if_last rest decode ;;
  put decode[1] := (val1 << 14) >> 23 ;;
  return_if_last rest decode ;;
  put decode[2] := (val1 << 5) >> 23 ;;
  return_if_last rest decode ;;
  uint32 val2 := encode.[1] ;;
  put decode[3] := ((val2 << 28) >> 23) .| (val1 >> 27) ;;
  return_if_last rest decode ;;
  put decode[4] := (val2 << 19) >> 23 ;;
  return_if_last rest decode ;;
  put decode[5] := (val2 << 10) >> 23 ;;
  return_if_last rest decode ;;
  put decode[6] := (val2 << 1) >> 23 ;;
  return_if_last rest decode ;;
  uint32 val3 := encode.[2] ;;
  put decode[7] := ((val3 << 24) >> 23) .| (val2 >> 31) ;;
  return_if_last rest decode ;;
  put decode[8] := (val3 << 15) >> 23 ;;
  return_if_last rest decode ;;
  put decode[9] := (val3 << 6) >> 23 ;;
  return_if_last rest decode ;;
  uint32 val4 := encode.[3] ;;
  put decode[10] := ((val4 << 29) >> 23) .| (val3 >> 26) ;;
  return_if_last rest decode ;;
  put decode[11] := (val4 << 20) >> 23 ;;
  return_if_last rest decode ;;
  put decode[12] := (val4 << 11) >> 23 ;;
  return_if_last rest decode ;;
  put decode[13] := (val4 << 2) >> 23 ;;
  return_if_last rest decode ;;
  uint32 val5 := encode.[4] ;;
  put decode[14] := ((val5 << 25) >> 23) .| (val4 >> 30) ;;
  return_if_last rest decode ;;
  put decode[15] := (val5 << 16) >> 23 ;;
  return_if_last rest decode ;;
  put decode[16] := (val5 << 7) >> 23 ;;
  return_if_last rest decode ;;
  uint32 val6 := encode.[5] ;;
  put decode[17] := ((val6 << 30) >> 23) .| (val5 >> 25) ;;
  return_if_last rest decode ;;
  put decode[18] := (val6 << 21) >> 23 ;;
  return_if_last rest decode ;;
  put decode[19] := (val6 << 12) >> 23 ;;
  return_if_last rest decode ;;
  put decode[20] := (val6 << 3) >> 23 ;;
  return_if_last rest decode ;;
  uint32 val7 := encode.[6] ;;
  put decode[21] := ((val7 << 26) >> 23) .| (val6 >> 29) ;;
  return_if_last rest decode ;;
  put decode[22] := (val7 << 17) >> 23 ;;
  return_if_last rest decode ;;
  put decode[23] := (val7 << 8) >> 23 ;;
  return_if_last rest decode ;;
  uint32 val8 := encode.[7] ;;
  put decode[24] := ((val8 << 31) >> 23) .| (val7 >> 24) ;;
  return_if_last rest decode ;;
  put decode[25] := (val8 << 22) >> 23 ;;
  return_if_last rest decode ;;
  put decode[26] := (val8 << 13) >> 23 ;;
  return_if_last rest decode ;;
  put decode[27] := (val8 << 4) >> 23 ;;
  return_if_last rest decode ;;
  uint32 val9 := encode.[8] ;;
  put decode[28] := ((val9 << 27) >> 23) .| (val8 >> 28) ;;
  return_if_last rest decode ;;
  put decode[29] := (val9 << 18) >> 23 ;;
  return_if_last rest decode ;;
  put decode[30] := (val9 << 9) >> 23 ;;
  Ok decode.

Definition unaligned_unpack_10 (decode encode : list Z) (dataNum : Z) : res (list Z) :=
  let maxBlocks := Z.shiftr dataNum 4 in
  let rest := dataNum mod 16 in
  upToMaxBlocks maxBlocks 5 16 (fun decode encode =>
    uint32 val1 := encode.[0] ;;
    uint32 val2 := encode.[1] ;;
    uint32 val3 := encode.[2] ;;
    uint32 val4 := encode.[3] ;;
    uint32 val5 := encode.[4] ;;
    storeAll w decode [(val1 << 22) >> 22; (val1 << 12) >> 22; (val1 << 2) >> 22;
                       ((val2 << 24) >> 22) .| (val1 >> 30); (val2 << 14) >> 22; (val2 << 4) >> 22;
                       ((val3 << 26) >> 22) .| (val2 >> 28); (val3 << 16) >> 22; (val3 << 6) >> 22;
                       ((val4 << 28) >> 22) .| (val3 >> 26); (val4 << 18) >> 22; (val4 << 8) >> 22;
                       ((val5 << 30) >> 22) .| (val4 >> 24); (val5 << 20) >> 22; (val5 << 10) >> 22;
                       val5 >> 22]
  ) (fun decode encode =>
    if rest =? 0 then Ok decode else
    uint32 val1 := encode.[0] ;;
    put decode[0] := (val1 << 22) >> 22 ;;
    return_if_last rest decode ;;
    put decode[1] := (val1 << 12) >> 22 ;;
    return_if_last rest decode ;;
    put decode[2] := (val1 << 2) >> 22 ;;
    return_if_last rest decode ;;
    uint32 val2 := encode.[1] ;;
    put decode[3] := ((val2 << 24) >> 22) .| (val1 >> 30) ;;
    return_if_last rest decode ;;
    put decode[4] := (val2 << 14) >> 22 ;;
    return_if_last rest decode ;;
    put decode[5] := (val2 << 4) >> 22 ;;
    return_if_last rest decode ;;
    uint32 val3 := encode.[2] ;;
    put decode[6] := ((val3 << 26) >> 22) .| (val2 >> 28) ;;
    return_if_last rest decode ;;
    put decode[7] := (val3 << 16) >> 22 ;;
    return_if_last rest decode ;;
    put decode[8] := (val3 << 6) >> 22 ;;
    return_if_last rest decode ;;
    uint32 val4 := encode.[3] ;;
    put decode[9] := ((val4 << 28) >> 22) .| (val3 >> 26) ;;
    return_if_last rest decode ;;
    put decode[10] := (val4 << 18) >> 22 ;;
    return_if_last rest decode ;;
    put decode[11] := (val4 << 8) >> 22 ;;
    return_if_last rest decode ;;
    uint32 val5 := encode.[4] ;;
    put decode[12] := ((val5 << 30) >> 22) .| (val4 >> 24) ;;
    return_if_last rest decode ;;
    put decode[13] := (val5 << 20) >> 22 ;;
    return_if_last rest decode ;;
    put decode[14] := (val5 << 10) >> 22 ;;
    Ok decode
  ) decode encode.

Definition unaligned_unpack_11 (decode encode : list Z) (dataNum : Z) : res (list Z) :=
  let rest := dataNum in
  uint32 val1 := encode.[0] ;;
  put decode[0] := (val1 << 21) >> 21 ;;
  return_if_last rest decode ;;
  put decode[1] := (val1 << 10) >> 21 ;;
  return_if_last rest decode ;;
  uint32 val2 := encode.[1] ;;
  put decode[2] := ((val2 << 31) >> 21) .| (val1 >> 22) ;;
  return_if_last rest decode ;;
  put decode[3] := (val2 << 20) >> 21 ;;
  return_if_last rest decode ;;
  put decode[4] := (val2 << 9) >> 21 ;;
  return_if_last rest decode ;;
  uint32 val3 := encode.[2] ;;
  put decode[5] := ((val3 << 30) >> 21) .| (val2 >> 23) ;;
  return_if_last rest decode ;;
  put decode[6] := (val3 << 19) >> 21 ;;
  return_if_last rest decode ;;
  put decode[7] := (val3 << 8) >> 21 ;;
  return_if_last rest decode ;;
  uint32 val4 := encode.[3] ;;
  put decode[8] := ((val4 << 29) >> 21) .| (val3 >> 24) ;;
  return_if_last rest decode ;;
  put decode[9] := (val4 << 18) >> 21 ;;
  return_if_last rest decode ;;
  put decode[10] := (val4 << 7) >> 21 ;;
  return_if_last rest decode ;;
  uint32 val5 := encode.[4] ;;
  put decode[11] := ((val5 << 28) >> 21) .| (val4 >> 25) ;;
  return_if_last rest decode ;;
  put decode[12] := (val5 << 17) >> 21 ;;
  return_if_last rest decode ;;
  put decode[13] := (val5 << 6) >> 21 ;;
  return_if_last rest decode ;;
  uint32 val6 := encode.[5] ;;
  put decode[14] := ((val6 << 27) >> 21) .| (val5 >> 26) ;;
  return_if_last rest decode ;;
  put decode[15] := (val6 << 16) >> 21 ;;
  return_if_last rest decode ;;
  put decode[16] := (val6 << 5) >> 21 ;;
  return_if_last rest decode ;;
  uint32 val7 := encode.[6] ;;
  put decode[17] := ((val7 << 26) >> 21) .| (val6 >> 27) ;;
  return_if_last rest decode ;;
  put decode[18] := (val7 << 15) >> 21 ;;
  return_if_last rest decode ;;
  put decode[19] := (val7 << 4) >> 21 ;;
  return_if_last rest decode ;;
  uint32 val8 := encode.[7] ;;
  put decode[20] := ((val8 << 25) >> 21) .| (val7 >> 28) ;;
  return_if_last rest decode ;;
  put decode[21] := (val8 << 14) >> 21 ;;
  return_if_last rest decode ;;
  put decode[22] := (val8 << 3) >> 21 ;;
  return_if_last rest decode ;;
  uint32 val9 := encode.[8] ;;
  put decode[23] := ((val9 << 24) >> 21) .| (val8 >> 29) ;;
  return_if_last rest decode ;;
  put decode[24] := (val9 << 13) >> 21 ;;
  return_if_last rest decode ;;
  put decode[25] := (val9 << 2) >> 21 ;;
  return_if_last rest decode ;;
  uint32 val10 := encode.[9] ;;
  put decode[26] := ((val10 << 23) >> 21) .| (val9 >> 30) ;;
  return_if_last rest decode ;;
  put decode[27] := (val10 << 12) >> 21 ;;
  return_if_last rest decode ;;
  put decode[28] := (val10 << 1) >> 21 ;;
  return_if_last rest decode ;;
  uint32 val11 := encode.[10] ;;
  put decode[29] := ((val11 << 22) >> 21) .| (val10 >> 31) ;;
  return_if_last rest decode ;;
  put decode[30] := (val11 << 11) >> 21 ;;
  Ok decode.

Definition unaligned_unpack_12 (decode encode : list Z) (dataNum : Z) : res (list Z) :=
  let maxBlocks := Z.shiftr dataNum 3 in
  let rest := dataNum mod 8 in
  upToMaxBlocks maxBlocks 3 8 (fun decode encode =>
    uint32 val1 := encode.[0] ;;
    uint32 val2 := encode.[1] ;;
    uint32 val3 := encode.[2] ;;
    storeAll w decode [(val1 << 20) >> 20; (val1 << 8) >> 20; ((val2 << 28) >> 20) .| (val1 >> 24);
                       (val2 << 16) >> 20; (val2 << 4) >> 20; ((val3 << 24) >> 20) .| (val2 >> 28);
                       (val3 << 12) >> 20; val3 >> 20]
  ) (fun decode encode =>
    if rest =? 0 then Ok decode else
    uint32 val1 := encode.[0] ;;
    put decode[0] := (val1 << 20) >> 20 ;;
    return_if_last rest decode ;;
    put decode[1] := (val1 << 8) >> 20 ;;
    return_if_last rest decode ;;
    uint32 val2 := encode.[1] ;;
    put decode[2] := ((val2 << 28) >> 20) .| (val1 >> 24) ;;
    return_if_last rest decode ;;
    put decode[3] := (val2 << 16) >> 20 ;;
    return_if_last rest decode ;;
    put decode[4] := (val2 << 4) >> 20 ;;
    return_if_last rest decode ;;
    uint32 val3 := encode.[2] ;;
    put decode[5] := ((val3 << 24) >> 20) .| (val2 >> 28) ;;
    return_if_last rest decode ;;
    put decode[6] := (val3 << 12) >> 20 ;;
    return_if_last rest decode ;;
    put decode[7] := val3 >> 20 ;;
    Ok decode
  ) decode encode.

Definition unaligned_unpack_13 (decode encode : list Z) (dataNum : Z) : res (list Z) :=
  let rest := dataNum in
  uint32 val1 := encode.[0] ;;
  put decode[0] := (val1 << 19) >> 19 ;;
  return_if_last rest decode ;;
  put decode[1] := (val1 << 6) >> 19 ;;
  return_if_last rest decode ;;
  uint32 val2 := encode.[1] ;;
  put decode[2] := ((val2 << 25) >> 19) .| (val1 >> 26) ;;
  return_if_last rest decode ;;
  put decode[3] := (val2 << 12) >> 19 ;;
  return_if_last rest decode ;;
  uint32 val3 := encode.[2] ;;
  put decode[4] := ((val3 << 31) >> 19) .| (val2 >> 20) ;;
  return_if_last rest decode ;;
  put decode[5] := (val3 << 18) >> 19 ;;
  return_if_last rest decode ;;
  put decode[6] := (val3 << 5) >> 19 ;;
  return_if_last rest decode ;;
  uint32 val4 := encode.[3] ;;
  put decode[7] := ((val4 << 24) >> 19) .| (val3 >> 27) ;;
  return_if_last rest decode ;;
  put decode[8] := (val4 << 11) >> 19 ;;
  return_if_last rest decode ;;
  uint32 val5 := encode.[4] ;;
  put decode[9] := ((val5 << 30) >> 19) .| (val4 >> 21) ;;
  return_if_last rest decode ;;
  put decode[10] := (val5 << 17) >> 19 ;;
  return_if_last rest decode ;;
  put decode[11] := (val5 << 4) >> 19 ;;
  return_if_last rest decode ;;
  uint32 val6 := encode.[5] ;;
  put decode[12] := ((val6 << 23) >> 19) .| (val5 >> 28) ;;
  return_if_last rest decode ;;
  put decode[13] := (val6 << 10) >> 19 ;;
  return_if_last rest decode ;;
  uint32 val7 := encode.[6] ;;
  put decode[14] := ((val7 << 29) >> 19) .| (val6 >> 22) ;;
  return_if_last rest decode ;;
  put decode[15] := (val7 << 16) >> 19 ;;
  return_if_last rest decode ;;
  put decode[16] := (val7 << 3) >> 19 ;;
  return_if_last rest decode ;;
  uint32 val8 := encode.[7] ;;
  put decode[17] := ((val8 << 22) >> 19) .| (val7 >> 29) ;;
  return_if_last rest decode ;;
  put decode[18] := (val8 << 9) >> 19 ;;
  return_if_last rest decode ;;
  uint32 val9 := encode.[8] ;;
  put decode[19] := ((val9 << 28) >> 19) .| (val8 >> 23) ;;
  return_if_last rest decode ;;
  put decode[20] := (val9 << 15) >> 19 ;;
  return_if_last rest decode ;;
  put decode[21] := (val9 << 2) >> 19 ;;
  return_if_last rest decode ;;
  uint32 val10 := encode.[9] ;;
  put decode[22] := ((val10 << 21) >> 19) .| (val9 >> 30) ;;
  return_if_last rest decode ;;
  put decode[23] := (val10 << 8) >> 19 ;;
  return_if_last rest decode ;;
  uint32 val11 := encode.[10] ;;
  put decode[24] := ((val11 << 27) >> 19) .| (val10 >> 24) ;;
  return_if_last rest decode ;;
  put decode[25] := (val11 << 14) >> 19 ;;
  return_if_last rest decode ;;
  put decode[26] := (val11 << 1) >> 19 ;;
  return_if_last rest decode ;;
  uint32 val12 := encode.[11] ;;
  put decode[27] := ((val12 << 20) >> 19) .| (val11 >> 31) ;;
  return_if_last rest decode ;;
  put decode[28] := (val12 << 7) >> 19 ;;
  return_if_last rest decode ;;
  uint32 val13 := encode.[12] ;;
  put decode[29] := ((val13 << 26) >> 19) .| (val12 >> 25) ;;
  return_if_last rest decode ;;
  put decode[30] := (val13 << 13) >> 19 ;;
  Ok decode.

Definition unaligned_unpack_14 (decode encode : list Z) (dataNum : Z) : res (list Z) :=
  let maxBlocks := Z.shiftr dataNum 4 in
  let rest := dataNum mod 16 in
  upToMaxBlocks maxBlocks 7 16 (fun decode encode =>
    uint32 val1 := encode.[0] ;;
    uint32 val2 := encode.[1] ;;
    uint32 val3 := encode.[2] ;;
    uint32 val4 := encode.[3] ;;
    uint32 val5 := encode.[4] ;;
    uint32 val6 := encode.[5] ;;
    uint32 val7 := encode.[6] ;;
    storeAll w decode [(val1 << 18) >> 18; (val1 << 4) >> 18; ((val2 << 22) >> 18) .| (val1 >> 28);
                       (val2 << 8) >> 18; ((val3 << 26) >> 18) .| (val2 >> 24); (val3 << 12) >> 18;
                       ((val4 << 30) >> 18) .| (val3 >> 20); (val4 << 16) >> 18; (val4 << 2) >> 18;
                       ((val5 << 20) >> 18) .| (val4 >> 30); (val5 << 6) >> 18;
                       ((val6 << 24) >> 18) .| (val5 >> 26); (val6 << 10) >> 18;
                       ((val7 << 28) >> 18) .| (val6 >> 22); (val7 << 14) >> 18; val7 >> 18]
  ) (fun decode encode =>
    if rest =? 0 then Ok decode else
    uint32 val1 := encode.[0] ;;
    put decode[0] := (val1 << 18) >> 18 ;;
    return_if_last rest decode ;;
    put decode[1] := (val1 << 4) >> 18 ;;
    return_if_last rest decode ;;
    uint32 val2 := encode.[1] ;;
    put decode[2] := ((val2 << 22) >> 18) .| (val1 >> 28) ;;
    return_if_last rest decode ;;
    put decode[3] := (val2 << 8) >> 18 ;;
    return_if_last rest decode ;;
    uint32 val3 := encode.[2] ;;
    put decode[4] := ((val3 << 26) >> 18) .| (val2 >> 24) ;;
    return_if_last rest decode ;;
    put decode[5] := (val3 << 12) >> 18 ;;
    return_if_last rest decode ;;
    uint32 val4 := encode.[3] ;;
    put decode[6] := ((val4 << 30) >> 18) .| (val3 >> 20) ;;
    return_if_last rest decode ;;
    put decode[7] := (val4 << 16) >> 18 ;;
    return_if_last rest decode ;;
    put decode[8] := (val4 << 2) >> 18 ;;
    return_if_last rest decode ;;
    uint32 val5 := encode.[4] ;;
    put decode[9] := ((val5 << 20) >> 18) .| (val4 >> 30) ;;
    return_if_last rest decode ;;
    put decode[10] := (val5 << 6) >> 18 ;;
    return_if_last rest decode ;;
    uint32 val6 := encode.[5] ;;
    put decode[11] := ((val6 << 24) >> 18) .| (val5 >> 26) ;;
    return_if_last rest decode ;;
    put decode[12] := (val6 << 10) >> 18 ;;
    return_if_last rest decode ;;
    uint32 val7 := encode.[6] ;;
    put decode[13] := ((val7 << 28) >> 18) .| (val6 >> 22) ;;
    return_if_last rest decode ;;
    put decode[14] := (val7 << 14) >> 18 ;;
    return_if_last rest decode ;;
    put decode[15] := val7 >> 18 ;;
    Ok decode
  ) decode encode.

Definition unaligned_unpack_15 (decode encode : list Z) (dataNum : Z) : res (list Z) :=
  let rest := dataNum in
  uint32 val1 := encode.[0] ;;
  put decode[0] := (val1 << 17) >> 17 ;;
  return_if_last rest decode ;;
  put decode[1] := (val1 << 2) >> 17 ;;
  return_if_last rest decode ;;
  uint32 val2 := encode.[1] ;;
  put decode[2] := ((val2 << 19) >> 17) .| (val1 >> 30) ;;
  return_if_last rest decode ;;
  put decode[3] := (val2 << 4) >> 17 ;;
  return_if_last rest decode ;;
  uint32 val3 := encode.[2] ;;
  put decode[4] := ((val3 << 21) >> 17) .| (val2 >> 28) ;;
  return_if_last rest decode ;;
  put decode[5] := (val3 << 6) >> 17 ;;
  return_if_last rest decode ;;
  uint32 val4 := encode.[3] ;;
  put decode[6] := ((val4 << 23) >> 17) .| (val3 >> 26) ;;
  return_if_last rest decode ;;
  put decode[7] := (val4 << 8) >> 17 ;;
  return_if_last rest decode ;;
  uint32 val5 := encode.[4] ;;
  put decode[8] := ((val5 << 25) >> 17) .| (val4 >> 24) ;;
  return_if_last rest decode ;;
  put decode[9] := (val5 << 10) >> 17 ;;
  return_if_last rest decode ;;
  uint32 val6 := encode.[5] ;;
  put decode[10] := ((val6 << 27) >> 17) .| (val5 >> 22) ;;
  return_if_last rest decode ;;
  put decode[11] := (val6 << 12) >> 17 ;;
  return_if_last rest decode ;;
  uint32 val7 := encode.[6] ;;
  put decode[12] := ((val7 << 29) >> 17) .| (val6 >> 20) ;;
  return_if_last rest decode ;;
  put decode[13] := (val7 << 14) >> 17 ;;
  return_if_last rest decode ;;
  uint32 val8 := encode.[7] ;;
  put decode[14] := ((val8 << 31) >> 17) .| (val7 >> 18) ;;
  return_if_last rest decode ;;
  put decode[15] := (val8 << 16) >> 17 ;;
  return_if_last rest decode ;;
  put decode[16] := (val8 << 1) >> 17 ;;
  return_if_last rest decode ;;
  uint32 val9 := encode.[8] ;;
  put decode[17] := ((val9 << 18) >> 17) .| (val8 >> 31) ;;
  return_if_last rest decode ;;
  put decode[18] := (val9 << 3) >> 17 ;;
  return_if_last rest decode ;;
  uint32 val10 := encode.[9] ;;
  put decode[19] := ((val10 << 20) >> 17) .| (val9 >> 29) ;;
  return_if_last rest decode ;;
  put decode[20] := (val10 << 5) >> 17 ;;
  return_if_last rest decode ;;
  uint32 val11 := encode.[10] ;;
  put decode[21] := ((val11 << 22) >> 17) .| (val10 >> 27) ;;
  return_if_last rest decode ;;
  put decode[22] := (val11 << 7) >> 17 ;;
  return_if_last rest decode ;;
  uint32 val12 := encode.[11] ;;
  put decode[23] := ((val12 << 24) >> 17) .| (val11 >> 25) ;;
  return_if_last rest decode ;;
  put decode[24] := (val12 << 9) >> 17 ;;
  return_if_last rest decode ;;
  uint32 val13 := encode.[12] ;;
  put decode[25] := ((val13 << 26) >> 17) .| (val12 >> 23) ;;
  return_if_last rest decode ;;
  put decode[26] := (val13 << 11) >> 17 ;;
  return_if_last rest decode ;;
  uint32 val14 := encode.[13] ;;
  put decode[27] := ((val14 << 28) >> 17) .| (val13 >> 21) ;;
  return_if_last rest decode ;;
  put decode[28] := (val14 << 13) >> 17 ;;
  return_if_last rest decode ;;
  uint32 val15 := encode.[14] ;;
  put decode[29] := ((val15 << 30) >> 17) .| (val14 >> 19) ;;
  return_if_last rest decode ;;
  put decode[30] := (val15 << 15) >> 17 ;;
  return_if_last rest decode ;;
  put decode[31] := val15 >> 17 ;;
  Ok decode.

Definition unaligned_unpack_16 (decode encode : list Z) (dataNum : Z) : res (list Z) :=
  let maxBlocks := Z.shiftr dataNum 1 in
  let rest := dataNum mod 2 in
  upToMaxBlocks maxBlocks 1 2 (fun decode encode =>
    uint32 val1 := encode.[0] ;;
    storeAll w decode [(val1 << 16) >> 16; (val1 >> 16)]
  ) (fun decode encode =>
    if rest =? 0 then Ok decode else
    uint32 val1 := encode.[0] ;;
    put decode[0] := (val1 << 16) >> 16 ;;
    Ok decode
  ) decode encode.

Definition unaligned_unpack_17 (decode encode : list Z) (dataNum : Z) : res (list Z) :=
  let rest := dataNum in
  uint32 val1 := encode.[0] ;;
  put decode[0] := (val1 << 15) >> 15 ;;
  return_if_last rest decode ;;
  uint32 val2 := encode.[1] ;;
  put decode[1] := ((val2 << 30) >> 15) .| (val1 >> 17) ;;
  return_if_last rest decode ;;
  put decode[2] := (val2 << 13) >> 15 ;;
  return_if_last rest decode ;;
  uint32 val3 := encode.[2] ;;
  put decode[3] := ((val3 << 28) >> 15) .| (val2 >> 19) ;;
  return_if_last rest decode ;;
  put decode[4] := (val3 << 11) >> 15 ;;
  return_if_last rest decode ;;
  uint32 val4 := encode.[3] ;;
  put decode[5] := ((val4 << 26) >> 15) .| (val3 >> 21) ;;
  return_if_last rest decode ;;
  put decode[6] := (val4 << 9) >> 15 ;;
  return_if_last rest decode ;;
  uint32 val5 := encode.[4] ;;
  put decode[7] := ((val5 << 24) >> 15) .| (val4 >> 23) ;;
  return_if_last rest decode ;;
  put decode[8] := (val5 << 7) >> 15 ;;
  return_if_last rest decode ;;
  uint32 val6 := encode.[5] ;;
  put decode[9] := ((val6 << 22) >> 15) .| (val5 >> 25) ;;
  return_if_last rest decode ;;
  put decode[10] := (val6 << 5) >> 15 ;;
  return_if_last rest decode ;;
  uint32 val7 := encode.[6] ;;
  put decode[11] := ((val7 << 20) >> 15) .| (val6 >> 27) ;;
  return_if_last rest decode ;;
  put decode[12] := (val7 << 3) >> 15 ;;
  return_if_last rest decode ;;
  uint32 val8 := encode.[7] ;;
  put decode[13] := ((val8 << 18) >> 15) .| (val7 >> 29) ;;
  return_if_last rest decode ;;
  put decode[14] := (val8 << 1) >> 15 ;;
  return_if_last rest decode ;;
  uint32 val9 := encode.[8] ;;
  put decode[15] := ((val9 << 16) >> 15) .| (val8 >> 31) ;;
  return_if_last rest decode ;;
  uint32 val10 := encode.[9] ;;
  put decode[16] := ((val10 << 31) >> 15) .| (val9 >> 16) ;;
  return_if_last rest decode ;;
  put decode[17] := (val10 << 14) >> 15 ;;
  return_if_last rest decode ;;
  uint32 val11 := encode.[10] ;;
  put decode[18] := ((val11 << 29) >> 15) .| (val10 >> 18) ;;
  return_if_last rest decode ;;
  put decode[19] := (val11 << 12) >> 15 ;;
  return_if_last rest decode ;;
  uint32 val12 := encode.[11] ;;
  put decode[20] := ((val12 << 27) >> 15) .| (val11 >> 20) ;;
  return_if_last rest decode ;;
  put decode[21] := (val12 << 10) >> 15 ;;
  return_if_last rest decode ;;
  uint32 val13 := encode.[12] ;;
  put decode[22] := ((val13 << 25) >> 15) .| (val12 >> 22) ;;
  return_if_last rest decode ;;
  put decode[23] := (val13 << 8) >> 15 ;;
  return_if_last rest decode ;;
  uint32 val14 := encode.[13] ;;
  put decode[24] := ((val14 << 23) >> 15) .| (val13 >> 24) ;;
  return_if_last rest decode ;;
  put decode[25] := (val14 << 6) >> 15 ;;
  return_if_last rest decode ;;
  uint32 val15 := encode.[14] ;;
  put decode[26] := ((val15 << 21) >> 15) .| (val14 >> 26) ;;
  return_if_last rest decode ;;
  put decode[27] := (val15 << 4) >> 15 ;;
  return_if_last rest decode ;;
  uint32 val16 := encode.[15] ;;
  put decode[28] := ((val16 << 19) >> 15) .| (val15 >> 28) ;;
  return_if_last rest decode ;;
  put decode[29] := (val16 << 2) >> 15 ;;
  return_if_last rest decode ;;
  uint32 val17 := encode.[16] ;;
  put decode[30] := ((val17 << 17) >> 15) .| (val16 >> 30) ;;
  Ok decode.

Definition unaligned_unpack_18 (decode encode : list Z) (dataNum : Z) : res (list Z) :=
  let maxBlocks := Z.shiftr dataNum 4 in
  let rest := dataNum mod 16 in
  upToMaxBlocks maxBlocks 9 16 (fun decode encode =>
    uint32 val1 := encode.[0] ;;
    uint32 val2 := encode.[1] ;;
    uint32 val3 := encode.[2] ;;
    uint32 val4 := encode.[3] ;;
    uint32 val5 := encode.[4] ;;
    uint32 val6 := encode.[5] ;;
    uint32 val7 := encode.[6] ;;
    uint32 val8 := encode.[7] ;;
    uint32 val9 := encode.[8] ;;
    storeAll w decode [(val1 << 14) >> 14; ((val2 << 28) >> 14) .| (val1 >> 18); (val2 << 10) >> 14;
                       ((val3 << 24) >> 14) .| (val2 >> 22); (val3 << 6) >> 14;
                       ((val4 << 20) >> 14) .| (val3 >> 26); (val4 << 2) >> 14;
                       ((val5 << 16) >> 14) .| (val4 >> 30); ((val6 << 30) >> 14) .| (val5 >> 16);
                       (val6 << 12) >> 14; ((val7 << 26) >> 14) .| (val6 >> 20); (val7 << 8) >> 14;
                       ((val8 << 22) >> 14) .| (val7 >> 24); (val8 << 4) >> 14;
                       ((val9 << 18) >> 14) .| (val8 >> 28); val9 >> 14]
  ) (fun decode encode =>
    if rest =? 0 then Ok decode else
    uint32 val1 := encode.[0] ;;
    put decode[0] := (val1 << 14) >> 14 ;;
    return_if_last rest decode ;;
    uint32 val2 := encode.[1] ;;
    put decode[1] := ((val2 << 28) >> 14) .| (val1 >> 18) ;;
    return_if_last rest decode ;;
    put decode[2] := (val2 << 10) >> 14 ;;
    return_if_last rest decode ;;
    uint32 val3 := encode.[2] ;;
    put decode[3] := ((val3 << 24) >> 14) .| (val2 >> 22) ;;
    return_if_last rest decode ;;
    put decode[4] := (val3 << 6) >> 14 ;;
    return_if_last rest decode ;;
    uint32 val4 := encode.[3] ;;
    put decode[5] := ((val4 << 20) >> 14) .| (val3 >> 26) ;;
    return_if_last rest decode ;;
    put decode[6] := (val4 << 2) >> 14 ;;
    return_if_last rest decode ;;
    uint32 val5 := encode.[4] ;;
    put decode[7] := ((val5 << 16) >> 14) .| (val4 >> 30) ;;
    return_if_last rest decode ;;
    uint32 val6 := encode.[5] ;;
    put decode[8] := ((val6 << 30) >> 14) .| (val5 >> 16) ;;
    return_if_last rest decode ;;
    put decode[9] := (val6 << 12) >> 14 ;;
    return_if_last rest decode ;;
    uint32 val7 := encode.[6] ;;
    put decode[10] := ((val7 << 26) >> 14) .| (val6 >> 20) ;;
    return_if_last rest decode ;;
    put decode[11] := (val7 << 8) >> 14 ;;
    return_if_last rest decode ;;
    uint32 val8 := encode.[7] ;;
    put decode[12] := ((val8 << 22) >> 14) .| (val7 >> 24) ;;
    return_if_last rest decode ;;
    put decode[13] := (val8 << 4) >> 14 ;;
    return_if_last rest decode ;;
    uint32 val9 := encode.[8] ;;
    put decode[14] := ((val9 << 18) >> 14) .| (val8 >> 28) ;;
    Ok decode
  ) decode encode.

Definition unaligned_unpack_19 (decode encode : list Z) (dataNum : Z) : res (list Z) :=
  let rest := dataNum in
  put decode[0] := encode.[0] .& 0x7FFFF ;;
  return_if_last rest decode ;;
  put decode[1] := ((encode.[0] >> 19) .| (encode.[1] << 13)) .& 0x7FFFF ;;
  return_if_last rest decode ;;
  put decode[2] := (encode.[1] >> 6) .& 0x7FFFF ;;
  return_if_last rest decode ;;
  put decode[3] := ((encode.[1] >> 25) .| (encode.[2] << 7)) .& 0x7FFFF ;;
  return_if_last rest decode ;;
  put decode[4] := (encode.[2] >> 12) .& 0x7FFFF ;;
  return_if_last rest decode ;;
  put decode[5] := ((encode.[2] >> 31) .| (encode.[3] << 1)) .& 0x7FFFF ;;
  return_if_last rest decode ;;
  put decode[6] := ((encode.[3] >> 18) .| (encode.[4] << 14)) .& 0x7FFFF ;;
  return_if_last rest decode ;;
  put decode[7] := (encode.[4] >> 5) .& 0x7FFFF ;;
  return_if_last rest decode ;;
  put decode[8] := ((encode.[4] >> 24) .| (encode.[5] << 8)) .& 0x7FFFF ;;
  return_if_last rest decode ;;
  put decode[9] := (encode.[5] >> 11) .& 0x7FFFF ;;
  return_if_last rest decode ;;
  put decode[10] := ((encode.[5] >> 30) .| (encode.[6] << 2)) .& 0x7FFFF ;;
  return_if_last rest decode ;;
  put decode[11] := ((encode.[6] >> 17) .| (encode.[7] << 15)) .& 0x7FFFF ;;
  return_if_last rest decode ;;
  put decode[12] := (encode.[7] >> 4) .& 0x7FFFF ;;
  return_if_last rest decode ;;
  put decode[13] := ((encode.[7] >> 23) .| (encode.[8] << 9)) .& 0x7FFFF ;;
  return_if_last rest decode ;;
  put decode[14] := (encode.[8] >> 10) .& 0x7FFFF ;;
  return_if_last rest decode ;;
  put decode[15] := ((encode.[8] >> 29) .| (encode.[9] << 3)) .& 0x7FFFF ;;
  return_if_last rest decode ;;
  put decode[16] := ((encode.[9] >> 16) .| (encode.[10] << 16)) .& 0x7FFFF ;;
  return_if_last rest decode ;;
  put decode[17] := (encode.[10] >> 3) .& 0x7FFFF ;;
  return_if_last rest decode ;;
  put decode[18] := ((encode.[10] >> 22) .| (encode.[11] << 10)) .& 0x7FFFF ;;
  return_if_last rest decode ;;
  put decode[19] := (encode.[11] >> 9) .& 0x7FFFF ;;
  return_if_last rest decode ;;
  put decode[20] := ((encode.[11] >> 28) .| (encode.[12] << 4)) .& 0x7FFFF ;;
  return_if_last rest decode ;;
  put decode[21] := ((encode.[12] >> 15) .| (encode.[13] << 17)) .& 0x7FFFF ;;
  return_if_last rest decode ;;
  put decode[22] := (encode.[13] >> 2) .& 0x7FFFF ;;
  return_if_last rest decode ;;
  put decode[23] := ((encode.[13] >> 21) .| (encode.[14] << 11)) .& 0x7FFFF ;;
  return_if_last rest decode ;;
  put decode[24] := (encode.[14] >> 8) .& 0x7FFFF ;;
  return_if_last rest decode ;;
  put decode[25] := ((encode.[14] >> 27) .| (encode.[15] << 5)) .& 0x7FFFF ;;
  return_if_last rest decode ;;
  put decode[26] := ((encode.[15] >> 14) .| (encode.[16] << 18)) .& 0x7FFFF ;;
  return_if_last rest decode ;;
  put decode[27] := (encode.[16] >> 1) .& 0x7FFFF ;;
  return_if_last rest decode ;;
  put decode[28] := ((encode.[16] >> 20) .| (encode.[17] << 12)) .& 0x7FFFF ;;
  return_if_last rest decode ;;
  put decode[29] := (encode.[17] >> 7) .& 0x7FFFF ;;
  return_if_last rest decode ;;
  put decode[30] := ((encode.[17] >> 26) .| (encode.[18] << 6)) .& 0x7FFFF ;;
  Ok decode.

Definition unaligned_unpack_20 (decode encode : list Z) (dataNum : Z) : res (list Z) :=
  let maxBlocks := Z.shiftr dataNum 3 in
  let rest := dataNum mod 8 in
  upToMaxBlocks maxBlocks 5 8 (fun decode encode =>
    uint32 val1 := encode.[0] ;;
    uint32 val2 := encode.[1] ;;
    uint32 val3 := encode.[2] ;;
    uint32 val4 := encode.[3] ;;
    uint32 val5 := encode.[4] ;;
    storeAll w decode [(val1 << 12) >> 12; ((val2 << 24) >> 12) .| (val1 >> 20); (val2 << 4) >> 12;
                       ((val3 << 16) >> 12) .| (val2 >> 28); ((val4 << 28) >> 12) .| (val3 >> 16);
                       (val4 << 8) >> 12; ((val5 << 20) >> 12) .| (val4 >> 24); val5 >> 12]
  ) (fun decode encode =>
    if rest =? 0 then Ok decode else
    uint32 val1 := encode.[0] ;;
    put decode[0] := (val1 << 12) >> 12 ;;
    return_if_last rest decode ;;
    uint32 val2 := encode.[1] ;;
    put decode[1] := ((val2 << 24) >> 12) .| (val1 >> 20) ;;
    return_if_last rest decode ;;
    put decode[2] := (val2 << 4) >> 12 ;;
    return_if_last rest decode ;;
    uint32 val3 := encode.[2] ;;
    put decode[3] := ((val3 << 16) >> 12) .| (val2 >> 28) ;;
    return_if_last rest decode ;;
    uint32 val4 := encode.[3] ;;
    put decode[4] := ((val4 << 28) >> 12) .| (val3 >> 16) ;;
    return_if_last rest decode ;;
    put decode[5] := (val4 << 8) >> 12 ;;
    return_if_last rest decode ;;
    uint32 val5 := encode.[4] ;;
    put decode[6] := ((val5 << 20) >> 12) .| (val4 >> 24) ;;
    Ok decode
  ) decode encode.

Definition unaligned_unpack_21 (decode encode : list Z) (dataNum : Z) : res (list Z) :=
  let rest := dataNum in
  uint32 val1 := encode.[0] ;;
  put decode[0] := (val1 << 11) >> 11 ;;
  return_if_last rest decode ;;
  uint32 val2 := encode.[1] ;;
  put decode[1] := ((val2 << 22) >> 11) .| (val1 >> 21) ;;
  return_if_last rest decode ;;
  put decode[2] := (val2 << 1) >> 11 ;;
  return_if_last rest decode ;;
  uint32 val3 := encode.[2] ;;
  put decode[3] := ((val3 << 12) >> 11) .| (val2 >> 31) ;;
  return_if_last rest decode ;;
  uint32 val4 := encode.[3] ;;
  put decode[4] := ((val4 << 23) >> 11) .| (val3 >> 20) ;;
  return_if_last rest decode ;;
  put decode[5] := (val4 << 2) >> 11 ;;
  return_if_last rest decode ;;
  uint32 val5 := encode.[4] ;;
  put decode[6] := ((val5 << 13) >> 11) .| (val4 >> 30) ;;
  return_if_last rest decode ;;
  uint32 val6 := encode.[5] ;;
  put decode[7] := ((val6 << 24) >> 11) .| (val5 >> 19) ;;
  return_if_last rest decode ;;
  put decode[8] := (val6 << 3) >> 11 ;;
  return_if_last rest decode ;;
  uint32 val7 := encode.[6] ;;
  put decode[9] := ((val7 << 14) >> 11) .| (val6 >> 29) ;;
  return_if_last rest decode ;;
  uint32 val8 := encode.[7] ;;
  put decode[10] := ((val8 << 25) >> 11) .| (val7 >> 18) ;;
  return_if_last rest decode ;;
  put decode[11] := (val8 << 4) >> 11 ;;
  return_if_last rest decode ;;
  uint32 val9 := encode.[8] ;;
  put decode[12] := ((val9 << 15) >> 11) .| (val8 >> 28) ;;
  return_if_last rest decode ;;
  uint32 val10 := encode.[9] ;;
  put decode[13] := ((val10 << 26) >> 11) .| (val9 >> 17) ;;
  return_if_last rest decode ;;
  put decode[14] := (val10 << 5) >> 11 ;;
  return_if_last rest decode ;;
  uint32 val11 := encode.[10] ;;
  put decode[15] := ((val11 << 16) >> 11) .| (val10 >> 27) ;;
  return_if_last rest decode ;;
  uint32 val12 := encode.[11] ;;
  put decode[16] := ((val12 << 27) >> 11) .| (val11 >> 16) ;;
  return_if_last rest decode ;;
  put decode[17] := (val12 << 6) >> 11 ;;
  return_if_last rest decode ;;
  uint32 val13 := encode.[12] ;;
  put decode[18] := ((val13 << 17) >> 11) .| (val12 >> 26) ;;
  return_if_last rest decode ;;
  uint32 val14 := encode.[13] ;;
  put decode[19] := ((val14 << 28) >> 11) .| (val13 >> 15) ;;
  return_if_last rest decode ;;
  put decode[20] := (val14 << 7) >> 11 ;;
  return_if_last rest decode ;;
  uint32 val15 := encode.[14] ;;
  put decode[21] := ((val15 << 18) >> 11) .| (val14 >> 25) ;;
  return_if_last rest decode ;;
  uint32 val16 := encode.[15] ;;
  put decode[22] := ((val16 << 29) >> 11) .| (val15 >> 14) ;;
  return_if_last rest decode ;;
  put decode[23] := (val16 << 8) >> 11 ;;
  return_if_last rest decode ;;
  uint32 val17 := encode.[16] ;;
  put decode[24] := ((val17 << 19) >> 11) .| (val16 >> 24) ;;
  return_if_last rest decode ;;
  uint32 val18 := encode.[17] ;;
  put decode[25] := ((val18 << 30) >> 11) .| (val17 >> 13) ;;
  return_if_last rest decode ;;
  put decode[26] := (val18 << 9) >> 11 ;;
  return_if_last rest decode ;;
  uint32 val19 := encode.[18] ;;
  put decode[27] := ((val19 << 20) >> 11) .| (val18 >> 23) ;;
  return_if_last rest decode ;;
  uint32 val20 := encode.[19] ;;
  put decode[28] := ((val20 << 31) >> 11) .| (val19 >> 12) ;;
  return_if_last rest decode ;;
  put decode[29] := (val20 << 10) >> 11 ;;
  return_if_last rest decode ;;
  uint32 val21 := encode.[20] ;;
  put decode[30] := ((val21 << 21) >> 11) .| (val20 >> 22) ;;
  Ok decode.

Definition unaligned_unpack_22 (decode encode : list Z) (dataNum : Z) : res (list Z) :=
  let maxBlocks := Z.shiftr dataNum 4 in
  let rest := dataNum mod 16 in
  upToMaxBlocks maxBlocks 11 16 (fun decode encode =>
    uint32 val1 := encode.[0] ;;
    uint32 val2 := encode.[1] ;;
    uint32 val3 := encode.[2] ;;
    uint32 val4 := encode.[3] ;;
    uint32 val5 := encode.[4] ;;
    uint32 val6 := encode.[5] ;;
    uint32 val7 := encode.[6] ;;
    uint32 val8 := encode.[7] ;;
    uint32 val9 := encode.[8] ;;
    uint32 val10 := encode.[9] ;;
    uint32 val11 := encode.[10] ;;
    storeAll w decode [(val1 << 10) >> 10; ((val2 << 20) >> 10) .| (val1 >> 22);
                       ((val3 << 30) >> 10) .| (val2 >> 12); (val3 << 8) >> 10;
                       ((val4 << 18) >> 10) .| (val3 >> 24); ((val5 << 28) >> 10) .| (val4 >> 14);
                       (val5 << 6) >> 10; ((val6 << 16) >> 10) .| (val5 >> 26);
                       ((val7 << 26) >> 10) .| (val6 >> 16); (val7 << 4) >> 10;
                       ((val8 << 14) >> 10) .| (val7 >> 28); ((val9 << 24) >> 10) .| (val8 >> 18);
                       (val9 << 2) >> 10; ((val10 << 12) >> 10) .| (val9 >> 30);
                       ((val11 << 22) >> 10) .| (val10 >> 20); val11 >> 10]
  ) (fun decode encode =>
    if rest =? 0 then Ok decode else
    uint32 val1 := encode.[0] ;;
    put decode[0] := (val1 << 10) >> 10 ;;
    return_if_last rest decode ;;
    uint32 val2 := encode.[1] ;;
    put decode[1] := ((val2 << 20) >> 10) .| (val1 >> 22) ;;
    return_if_last rest decode ;;
    uint32 val3 := encode.[2] ;;
    put decode[2] := ((val3 << 30) >> 10) .| (val2 >> 12) ;;
    return_if_last rest decode ;;
    put decode[3] := (val3 << 8) >> 10 ;;
    return_if_last rest decode ;;
    uint32 val4 := encode.[3] ;;
    put decode[4] := ((val4 << 18) >> 10) .| (val3 >> 24) ;;
    return_if_last rest decode ;;
    uint32 val5 := encode.[4] ;;
    put decode[5] := ((val5 << 28) >> 10) .| (val4 >> 14) ;;
    return_if_last rest decode ;;
    put decode[6] := (val5 << 6) >> 10 ;;
    return_if_last rest decode ;;
    uint32 val6 := encode.[5] ;;
    put decode[7] := ((val6 << 16) >> 10) .| (val5 >> 26) ;;
    return_if_last rest decode ;;
    uint32 val7 := encode.[6] ;;
    put decode[8] := ((val7 << 26) >> 10) .| (val6 >> 16) ;;
    return_if_last rest decode ;;
    put decode[9] := (val7 << 4) >> 10 ;;
    return_if_last rest decode ;;
    uint32 val8 := encode.[7] ;;
    put decode[10] := ((val8 << 14) >> 10) .| (val7 >> 28) ;;
    return_if_last rest decode ;;
    uint32 val9 := encode.[8] ;;
    put decode[11] := ((val9 << 24) >> 10) .| (val8 >> 18) ;;
    return_if_last rest decode ;;
    put decode[12] := (val9 << 2) >> 10 ;;
    return_if_last rest decode ;;
    uint32 val10 := encode.[9] ;;
    put decode[13] := ((val10 << 12) >> 10) .| (val9 >> 30) ;;
    return_if_last rest decode ;;
    uint32 val11 := encode.[10] ;;
    put decode[14] := ((val11 << 22) >> 10) .| (val10 >> 20) ;;
    Ok decode
  ) decode encode.

Definition unaligned_unpack_23 (decode encode : list Z) (dataNum : Z) : res (list Z) :=
  let rest := dataNum in
  put decode[0] := encode.[0] .& 0x7FFFFF ;;
  return_if_last rest decode ;;
  put decode[1] := ((encode.[0] >> 23) .| (encode.[1] << 9)) .& 0x7FFFFF ;;
  return_if_last rest decode ;;
  put decode[2] := ((encode.[1] >> 14) .| (encode.[2] << 18)) .& 0x7FFFFF ;;
  return_if_last rest decode ;;
  put decode[3] := (encode.[2] >> 5) .& 0x7FFFFF ;;
  return_if_last rest decode ;;
  put decode[4] := ((encode.[2] >> 28) .| (encode.[3] << 4)) .& 0x7FFFFF ;;
  return_if_last rest decode ;;
  put decode[5] := ((encode.[3] >> 19) .| (encode.[4] << 13)) .& 0x7FFFFF ;;
  return_if_last rest decode ;;
  put decode[6] := ((encode.[4] >> 10) .| (encode.[5] << 22)) .& 0x7FFFFF ;;
  return_if_last rest decode ;;
  put decode[7] := (encode.[5] >> 1) .& 0x7FFFFF ;;
  return_if_last rest decode ;;
  put decode[8] := ((encode.[5] >> 24) .| (encode.[6] << 8)) .& 0x7FFFFF ;;
  return_if_last rest decode ;;
  put decode[9] := ((encode.[6] >> 15) .| (encode.[7] << 17)) .& 0x7FFFFF ;;
  return_if_last rest decode ;;
  put decode[10] := (encode.[7] >> 6) .& 0x7FFFFF ;;
  return_if_last rest decode ;;
  put decode[11] := ((encode.[7] >> 29) .| (encode.[8] << 3)) .& 0x7FFFFF ;;
  return_if_last rest decode ;;
  put decode[12] := ((encode.[8] >> 20) .| (encode.[9] << 12)) .& 0x7FFFFF ;;
  return_if_last rest decode ;;
  put decode[13] := ((encode.[9] >> 11) .| (encode.[10] << 21)) .& 0x7FFFFF ;;
  return_if_last rest decode ;;
  put decode[14] := (encode.[10] >> 2) .& 0x7FFFFF ;;
  return_if_last rest decode ;;
  put decode[15] := ((encode.[10] >> 25) .| (encode.[11] << 7)) .& 0x7FFFFF ;;
  return_if_last rest decode ;;
  put decode[16] := ((encode.[11] >> 16) .| (encode.[12] << 16)) .& 0x7FFFFF ;;
  return_if_last rest decode ;;
  put decode[17] := (encode.[12] >> 7) .& 0x7FFFFF ;;
  return_if_last rest decode ;;
  put decode[18] := ((encode.[12] >> 30) .| (encode.[13] << 2)) .& 0x7FFFFF ;;
  return_if_last rest decode ;;
  put decode[19] := ((encode.[13] >> 21) .| (encode.[14] << 11)) .& 0x7FFFFF ;;
  return_if_last rest decode ;;
  put decode[20] := ((encode.[14] >> 12) .| (encode.[15] << 20)) .& 0x7FFFFF ;;
  return_if_last rest decode ;;
  put decode[21] := (encode.[15] >> 3) .& 0x7FFFFF ;;
  return_if_last rest decode ;;
  put decode[22] := ((encode.[15] >> 26) .| (encode.[16] << 6)) .& 0x7FFFFF ;;
  return_if_last rest decode ;;
  put decode[23] := ((encode.[16] >> 17) .| (encode.[17] << 15)) .& 0x7FFFFF ;;
  return_if_last rest decode ;;
  put decode[24] := (encode.[17] >> 8) .& 0x7FFFFF ;;
  return_if_last rest decode ;;
  put decode[25] := ((encode.[17] >> 31) .| (encode.[18] << 1)) .& 0x7FFFFF ;;
  return_if_last rest decode ;;
  put decode[26] := ((encode.[18] >> 22) .| (encode.[19] << 10)) .& 0x7FFFFF ;;
  return_if_last rest decode ;;
  put decode[27] := ((encode.[19] >> 13) .| (encode.[20] << 19)) .& 0x7FFFFF ;;
  return_if_last rest decode ;;
  put decode[28] := (encode.[20] >> 4) .& 0x7FFFFF ;;
  return_if_last rest decode ;;
  put decode[29] := ((encode.[20] >> 27) .| (encode.[21] << 5)) .& 0x7FFFFF ;;
  return_if_last rest decode ;;
  put decode[30] := ((encode.[21] >> 18) .| (encode.[22] << 14)) .& 0x7FFFFF ;;
  Ok decode.

Definition unaligned_unpack_24 (decode encode : list Z) (dataNum : Z) : res (list Z) :=
  let maxBlocks := Z.shiftr dataNum 2 in
  let rest := dataNum mod 4 in
  upToMaxBlocks maxBlocks 3 4 (fun decode encode =>
    uint32 val1 := encode.[0] ;;
    uint32 val2 := encode.[1] ;;
    uint32 val3 := encode.[2] ;;
    storeAll w decode [val1 .& 0xFFFFFF; ((val1 >> 24) .| (val2 << 8)) .& 0xFFFFFF;
                       ((val2 >> 16) .| (val3 << 16)) .& 0xFFFFFF; (val3 >> 8) .& 0xFFFFFF]
  ) (fun decode encode =>
    if rest =? 0 then Ok decode else
    put decode[0] := encode.[0] .& 0xFFFFFF ;;
    return_if_last rest decode ;;
    put decode[1] := ((encode.[0] >> 24) .| (encode.[1] << 8)) .& 0xFFFFFF ;;
    return_if_last rest decode ;;
    put decode[2] := ((encode.[1] >> 16) .| (encode.[2] << 16)) .& 0xFFFFFF ;;
    Ok decode
  ) decode encode.

Definition unaligned_unpack_25 (decode encode : list Z) (dataNum : Z) : res (list Z) :=
  let rest := dataNum in
  put decode[0] := encode.[0] .& 0x1FFFFFF ;;
  return_if_last rest decode ;;
  put decode[1] := ((encode.[0] >> 25) .| (encode.[1] << 7)) .& 0x1FFFFFF ;;
  return_if_last rest decode ;;
  put decode[2] := ((encode.[1] >> 18) .| (encode.[2] << 14)) .& 0x1FFFFFF ;;
  return_if_last rest decode ;;
  put decode[3] := ((encode.[2] >> 11) .| (encode.[3] << 21)) .& 0x1FFFFFF ;;
  return_if_last rest decode ;;
  put decode[4] := (encode.[3] >> 4) .& 0x1FFFFFF ;;
  return_if_last rest decode ;;
  put decode[5] := ((encode.[3] >> 29) .| (encode.[4] << 3)) .& 0x1FFFFFF ;;
  return_if_last rest decode ;;
  put decode[6] := ((encode.[4] >> 22) .| (encode.[5] << 10)) .& 0x1FFFFFF ;;
  return_if_last rest decode ;;
  put decode[7] := ((encode.[5] >> 15) .| (encode.[6] << 17)) .& 0x1FFFFFF ;;
  return_if_last rest decode ;;
  put decode[8] := ((encode.[6] >> 8) .| (encode.[7] << 24)) .& 0x1FFFFFF ;;
  return_if_last rest decode ;;
  put decode[9] := (encode.[7] >> 1) .& 0x1FFFFFF ;;
  return_if_last rest decode ;;
  put decode[10] := ((encode.[7] >> 26) .| (encode.[8] << 6)) .& 0x1FFFFFF ;;
  return_if_last rest decode ;;
  put decode[11] := ((encode.[8] >> 19) .| (encode.[9] << 13)) .& 0x1FFFFFF ;;
  return_if_last rest decode ;;
  put decode[12] := ((encode.[9] >> 12) .| (encode.[10] << 20)) .& 0x1FFFFFF ;;
  return_if_last rest decode ;;
  put decode[13] := (encode.[10] >> 5) .& 0x1FFFFFF ;;
  return_if_last rest decode ;;
  put decode[14] := ((encode.[10] >> 30) .| (encode.[11] << 2)) .& 0x1FFFFFF ;;
  return_if_last rest decode ;;
  put decode[15] := ((encode.[11] >> 23) .| (encode.[12] << 9)) .& 0x1FFFFFF ;;
  return_if_last rest decode ;;
  put decode[16] := ((encode.[12] >> 16) .| (encode.[13] << 16)) .& 0x1FFFFFF ;;
  return_if_last rest decode ;;
  put decode[17] := ((encode.[13] >> 9) .| (encode.[14] << 23)) .& 0x1FFFFFF ;;
  return_if_last rest decode ;;
  put decode[18] := (encode.[14] >> 2) .& 0x1FFFFFF ;;
  return_if_last rest decode ;;
  put decode[19] := ((encode.[14] >> 27) .| (encode.[15] << 5)) .& 0x1FFFFFF ;;
  return_if_last rest decode ;;
  put decode[20] := ((encode.[15] >> 20) .| (encode.[16] << 12)) .& 0x1FFFFFF ;;
  return_if_last rest decode ;;
  put decode[21] := ((encode.[16] >> 13) .| (encode.[17] << 19)) .& 0x1FFFFFF ;;
  return_if_last rest decode ;;
  put decode[22] := (encode.[17] >> 6) .& 0x1FFFFFF ;;
  return_if_last rest decode ;;
  put decode[23] := ((encode.[17] >> 31) .| (encode.[18] << 1)) .& 0x1FFFFFF ;;
  return_if_last rest decode ;;
  put decode[24] := ((encode.[18] >> 24) .| (encode.[19] << 8)) .& 0x1FFFFFF ;;
  return_if_last rest decode ;;
  put decode[25] := ((encode.[19] >> 17) .| (encode.[20] << 15)) .& 0x1FFFFFF ;;
  return_if_last rest decode ;;
  put decode[26] := ((encode.[20] >> 10) .| (encode.[21] << 22)) .& 0x1FFFFFF ;;
  return_if_last rest decode ;;
  put decode[27] := (encode.[21] >> 3) .& 0x1FFFFFF ;;
  return_if_last rest decode ;;
  put decode[28] := ((encode.[21] >> 28) .| (encode.[22] << 4)) .& 0x1FFFFFF ;;
  return_if_last rest decode ;;
  put decode[29] := ((encode.[22] >> 21) .| (encode.[23] << 11)) .& 0x1FFFFFF ;;
  return_if_last rest decode ;;
  put decode[30] := ((encode.[23] >> 14) .| (encode.[24] << 18)) .& 0x1FFFFFF ;;
  Ok decode.

Definition unaligned_unpack_26 (decode encode : list Z) (dataNum : Z) : res (list Z) :=
  let maxBlocks := Z.shiftr dataNum 4 in
  let rest := dataNum mod 16 in
  upToMaxBlocks maxBlocks 13 16 (fun decode encode =>
    uint32 val1 := encode.[0] ;;
    uint32 val2 := encode.[1] ;;
    uint32 val3 := encode.[2] ;;
    uint32 val4 := encode.[3] ;;
    uint32 val5 := encode.[4] ;;
    uint32 val6 := encode.[5] ;;
    uint32 val7 := encode.[6] ;;
    uint32 val8 := encode.[7] ;;
    uint32 val9 := encode.[8] ;;
    uint32 val10 := encode.[9] ;;
    uint32 val11 := encode.[10] ;;
    uint32 val12 := encode.[11] ;;
    uint32 val13 := encode.[12] ;;
    storeAll w decode [(val1 << 6) >> 6; ((val2 << 12) >> 6) .| (val1 >> 26);
                       ((val3 << 18) >> 6) .| (val2 >> 20); ((val4 << 24) >> 6) .| (val3 >> 14);
                       ((val5 << 30) >> 6) .| (val4 >> 8); (val5 << 4) >> 6;
                       ((val6 << 10) >> 6) .| (val5 >> 28); ((val7 << 16) >> 6) .| (val6 >> 22);
                       ((val8 << 22) >> 6) .| (val7 >> 16); ((val9 << 28) >> 6) .| (val8 >> 10);
                       (val9 << 2) >> 6; ((val10 << 8) >> 6) .| (val9 >> 30);
                       ((val11 << 14) >> 6) .| (val10 >> 24); ((val12 << 20) >> 6) .| (val11 >> 18);
                       ((val13 << 26) >> 6) .| (val12 >> 12); val13 >> 6]
  ) (fun decode encode =>
    if rest =? 0 then Ok decode else
    uint32 val1 := encode.[0] ;;
    put decode[0] := (val1 << 6) >> 6 ;;
    return_if_last rest decode ;;
    uint32 val2 := encode.[1] ;;
    put decode[1] := ((val2 << 12) >> 6) .| (val1 >> 26) ;;
    return_if_last rest decode ;;
    uint32 val3 := encode.[2] ;;
    put decode[2] := ((val3 << 18) >> 6) .| (val2 >> 20) ;;
    return_if_last rest decode ;;
    uint32 val4 := encode.[3] ;;
    put decode[3] := ((val4 << 24) >> 6) .| (val3 >> 14) ;;
    return_if_last rest decode ;;
    uint32 val5 := encode.[4] ;;
    put decode[4] := ((val5 << 30) >> 6) .| (val4 >> 8) ;;
    return_if_last rest decode ;;
    put decode[5] := (val5 << 4) >> 6 ;;
    return_if_last rest decode ;;
    uint32 val6 := encode.[5] ;;
    put decode[6] := ((val6 << 10) >> 6) .| (val5 >> 28) ;;
    return_if_last rest decode ;;
    uint32 val7 := encode.[6] ;;
    put decode[7] := ((val7 << 16) >> 6) .| (val6 >> 22) ;;
    return_if_last rest decode ;;
    uint32 val8 := encode.[7] ;;
    put decode[8] := ((val8 << 22) >> 6) .| (val7 >> 16) ;;
    return_if_last rest decode ;;
    uint32 val9 := encode.[8] ;;
    put decode[9] := ((val9 << 28) >> 6) .| (val8 >> 10) ;;
    return_if_last rest decode ;;
    put decode[10] := (val9 << 2) >> 6 ;;
    return_if_last rest decode ;;
    uint32 val10 := encode.[9] ;;
    put decode[11] := ((val10 << 8) >> 6) .| (val9 >> 30) ;;
    return_if_last rest decode ;;
    uint32 val11 := encode.[10] ;;
    put decode[12] := ((val11 << 14) >> 6) .| (val10 >> 24) ;;
    return_if_last rest decode ;;
    uint32 val12 := encode.[11] ;;
    put decode[13] := ((val12 << 20) >> 6) .| (val11 >> 18) ;;
    return_if_last rest decode ;;
    uint32 val13 := encode.[12] ;;
    put decode[14] := ((val13 << 26) >> 6) .| (val12 >> 12) ;;
    Ok decode
  ) decode encode.

Definition unaligned_unpack_27 (decode encode : list Z) (dataNum : Z) : res (list Z) :=
  let rest := dataNum in
  put decode[0] := encode.[0] .& 0x7FFFFFF ;;
  return_if_last rest decode ;;
  put decode[1] := ((encode.[0] >> 27) .| (encode.[1] << 5)) .& 0x7FFFFFF ;;
  return_if_last rest decode ;;
  put decode[2] := ((encode.[1] >> 22) .| (encode.[2] << 10)) .& 0x7FFFFFF ;;
  return_if_last rest decode ;;
  put decode[3] := ((encode.[2] >> 17) .| (encode.[3] << 15)) .& 0x7FFFFFF ;;
  return_if_last rest decode ;;
  put decode[4] := ((encode.[3] >> 12) .| (encode.[4] << 20)) .& 0x7FFFFFF ;;
  return_if_last rest decode ;;
  put decode[5] := ((encode.[4] >> 7) .| (encode.[5] << 25)) .& 0x7FFFFFF ;;
  return_if_last rest decode ;;
  put decode[6] := (encode.[5] >> 2) .& 0x7FFFFFF ;;
  return_if_last rest decode ;;
  put decode[7] := ((encode.[5] >> 29) .| (encode.[6] << 3)) .& 0x7FFFFFF ;;
  return_if_last rest decode ;;
  put decode[8] := ((encode.[6] >> 24) .| (encode.[7] << 8)) .& 0x7FFFFFF ;;
  return_if_last rest decode ;;
  put decode[9] := ((encode.[7] >> 19) .| (encode.[8] << 13)) .& 0x7FFFFFF ;;
  return_if_last rest decode ;;
  put decode[10] := ((encode.[8] >> 14) .| (encode.[9] << 18)) .& 0x7FFFFFF ;;
  return_if_last rest decode ;;
  put decode[11] := ((encode.[9] >> 9) .| (encode.[10] << 23)) .& 0x7FFFFFF ;;
  return_if_last rest decode ;;
  put decode[12] := (encode.[10] >> 4) .& 0x7FFFFFF ;;
  return_if_last rest decode ;;
  put decode[13] := ((encode.[10] >> 31) .| (encode.[11] << 1)) .& 0x7FFFFFF ;;
  return_if_last rest decode ;;
  put decode[14] := ((encode.[11] >> 26) .| (encode.[12] << 6)) .& 0x7FFFFFF ;;
  return_if_last rest decode ;;
  put decode[15] := ((encode.[12] >> 21) .| (encode.[13] << 11)) .& 0x7FFFFFF ;;
  return_if_last rest decode ;;
  put decode[16] := ((encode.[13] >> 16) .| (encode.[14] << 16)) .& 0x7FFFFFF ;;
  return_if_last rest decode ;;
  put decode[17] := ((encode.[14] >> 11) .| (encode.[15] << 21)) .& 0x7FFFFFF ;;
  return_if_last rest decode ;;
  put decode[18] := ((encode.[15] >> 6) .| (encode.[16] << 26)) .& 0x7FFFFFF ;;
  return_if_last rest decode ;;
  put decode[19] := (encode.[16] >> 1) .& 0x7FFFFFF ;;
  return_if_last rest decode ;;
  put decode[20] := ((encode.[16] >> 28) .| (encode.[17] << 4)) .& 0x7FFFFFF ;;
  return_if_last rest decode ;;
  put decode[21] := ((encode.[17] >> 23) .| (encode.[18] << 9)) .& 0x7FFFFFF ;;
  return_if_last rest decode ;;
  put decode[22] := ((encode.[18] >> 18) .| (encode.[19] << 14)) .& 0x7FFFFFF ;;
  return_if_last rest decode ;;
  put decode[23] := ((encode.[19] >> 13) .| (encode.[20] << 19)) .& 0x7FFFFFF ;;
  return_if_last rest decode ;;
  put decode[24] := ((encode.[20] >> 8) .| (encode.[21] << 24)) .& 0x7FFFFFF ;;
  return_if_last rest decode ;;
  put decode[25] := (encode.[21] >> 3) .& 0x7FFFFFF ;;
  return_if_last rest decode ;;
  put decode[26] := ((encode.[21] >> 30) .| (encode.[22] << 2)) .& 0x7FFFFFF ;;
  return_if_last rest decode ;;
  put decode[27] := ((encode.[22] >> 25) .| (encode.[23] << 7)) .& 0x7FFFFFF ;;
  return_if_last rest decode ;;
  put decode[28] := ((encode.[23] >> 20) .| (encode.[24] << 12)) .& 0x7FFFFFF ;;
  return_if_last rest decode ;;
  put decode[29] := ((encode.[24] >> 15) .| (encode.[25] << 17)) .& 0x7FFFFFF ;;
  return_if_last rest decode ;;
  put decode[30] := ((encode.[25] >> 10) .| (encode.[26] << 22)) .& 0x7FFFFFF ;;
  Ok decode.

Definition unaligned_unpack_28 (decode encode : list Z) (dataNum : Z) : res (list Z) :=
  let maxBlocks := Z.shiftr dataNum 3 in
  let rest := dataNum mod 8 in
  upToMaxBlocks maxBlocks 7 8 (fun decode encode =>
    uint32 val1 := encode.[0] ;;
    uint32 val2 := encode.[1] ;;
    uint32 val3 := encode.[2] ;;
    uint32 val4 := encode.[3] ;;
    uint32 val5 := encode.[4] ;;
    uint32 val6 := encode.[5] ;;
    uint32 val7 := encode.[6] ;;
    storeAll w decode [(val1 << 4) >> 4; ((val2 << 8) >> 4) .| (val1 >> 28);
                       ((val3 << 12) >> 4) .| (val2 >> 24); ((val4 << 16) >> 4) .| (val3 >> 20);
                       ((val5 << 20) >> 4) .| (val4 >> 16); ((val6 << 24) >> 4) .| (val5 >> 12);
                       ((val7 << 28) >> 4) .| (val6 >> 8); val7 >> 4]
  ) (fun decode encode =>
    if rest =? 0 then Ok decode else
    uint32 val1 := encode.[0] ;;
    put decode[0] := (val1 << 4) >> 4 ;;
    return_if_last rest decode ;;
    uint32 val2 := encode.[1] ;;
    put decode[1] := ((val2 << 8) >> 4) .| (val1 >> 28) ;;
    return_if_last rest decode ;;
    uint32 val3 := encode.[2] ;;
    put decode[2] := ((val3 << 12) >> 4) .| (val2 >> 24) ;;
    return_if_last rest decode ;;
    uint32 val4 := encode.[3] ;;
    put decode[3] := ((val4 << 16) >> 4) .| (val3 >> 20) ;;
    return_if_last rest decode ;;
    uint32 val5 := encode.[4] ;;
    put decode[4] := ((val5 << 20) >> 4) .| (val4 >> 16) ;;
    return_if_last rest decode ;;
    uint32 val6 := encode.[5] ;;
    put decode[5] := ((val6 << 24) >> 4) .| (val5 >> 12) ;;
    return_if_last rest decode ;;
    uint32 val7 := encode.[6] ;;
    put decode[6] := ((val7 << 28) >> 4) .| (val6 >> 8) ;;
    Ok decode
  ) decode encode.

Definition unaligned_unpack_29 (decode encode : list Z) (dataNum : Z) : res (list Z) :=
  let rest := dataNum in
  uint32 val1 := encode.[0] ;;
  put decode[0] := (val1 << 3) >> 3 ;;
  return_if_last rest decode ;;
  uint32 val2 := encode.[1] ;;
  put decode[1] := ((val2 << 6) >> 3) .| (val1 >> 29) ;;
  return_if_last rest decode ;;
  uint32 val3 := encode.[2] ;;
  put decode[2] := ((val3 << 9) >> 3) .| (val2 >> 26) ;;
  return_if_last rest decode ;;
  uint32 val4 := encode.[3] ;;
  put decode[3] := ((val4 << 12) >> 3) .| (val3 >> 23) ;;
  return_if_last rest decode ;;
  uint32 val5 := encode.[4] ;;
  put decode[4] := ((val5 << 15) >> 3) .| (val4 >> 20) ;;
  return_if_last rest decode ;;
  uint32 val6 := encode.[5] ;;
  put decode[5] := ((val6 << 18) >> 3) .| (val5 >> 17) ;;
  return_if_last rest decode ;;
  uint32 val7 := encode.[6] ;;
  put decode[6] := ((val7 << 21) >> 3) .| (val6 >> 14) ;;
  return_if_last rest decode ;;
  uint32 val8 := encode.[7] ;;
  put decode[7] := ((val8 << 24) >> 3) .| (val7 >> 11) ;;
  return_if_last rest decode ;;
  uint32 val9 := encode.[8] ;;
  put decode[8] := ((val9 << 27) >> 3) .| (val8 >> 8) ;;
  return_if_last rest decode ;;
  uint32 val10 := encode.[9] ;;
  put decode[9] := ((val10 << 30) >> 3) .| (val9 >> 5) ;;
  return_if_last rest decode ;;
  put decode[10] := (val10 << 1) >> 3 ;;
  return_if_last rest decode ;;
  uint32 val11 := encode.[10] ;;
  put decode[11] := ((val11 << 4) >> 3) .| (val10 >> 31) ;;
  return_if_last rest decode ;;
  uint32 val12 := encode.[11] ;;
  put decode[12] := ((val12 << 7) >> 3) .| (val11 >> 28) ;;
  return_if_last rest decode ;;
  uint32 val13 := encode.[12] ;;
  put decode[13] := ((val13 << 10) >> 3) .| (val12 >> 25) ;;
  return_if_last rest decode ;;
  uint32 val14 := encode.[13] ;;
  put decode[14] := ((val14 << 13) >> 3) .| (val13 >> 22) ;;
  return_if_last rest decode ;;
  uint32 val15 := encode.[14] ;;
  put decode[15] := ((val15 << 16) >> 3) .| (val14 >> 19) ;;
  return_if_last rest decode ;;
  uint32 val16 := encode.[15] ;;
  put decode[16] := ((val16 << 19) >> 3) .| (val15 >> 16) ;;
  return_if_last rest decode ;;
  uint32 val17 := encode.[16] ;;
  put decode[17] := ((val17 << 22) >> 3) .| (val16 >> 13) ;;
  return_if_last rest decode ;;
  uint32 val18 := encode.[17] ;;
  put decode[18] := ((val18 << 25) >> 3) .| (val17 >> 10) ;;
  return_if_last rest decode ;;
  uint32 val19 := encode.[18] ;;
  put decode[19] := ((val19 << 28) >> 3) .| (val18 >> 7) ;;
  return_if_last rest decode ;;
  uint32 val20 := encode.[19] ;;
  put decode[20] := ((val20 << 31) >> 3) .| (val19 >> 4) ;;
  return_if_last rest decode ;;
  put decode[21] := (val20 << 2) >> 3 ;;
  return_if_last rest decode ;;
  uint32 val21 := encode.[20] ;;
  put decode[22] := ((val21 << 5) >> 3) .| (val20 >> 30) ;;
  return_if_last rest decode ;;
  uint32 val22 := encode.[21] ;;
  put decode[23] := ((val22 << 8) >> 3) .| (val21 >> 27) ;;
  return_if_last rest decode ;;
  uint32 val23 := encode.[22] ;;
  put decode[24] := ((val23 << 11) >> 3) .| (val22 >> 24) ;;
  return_if_last rest decode ;;
  uint32 val24 := encode.[23] ;;
  put decode[25] := ((val24 << 14) >> 3) .| (val23 >> 21) ;;
  return_if_last rest decode ;;
  uint32 val25 := encode.[24] ;;
  put decode[26] := ((val25 << 17) >> 3) .| (val24 >> 18) ;;
  return_if_last rest decode ;;
  uint32 val26 := encode.[25] ;;
  put decode[27] := ((val26 << 20) >> 3) .| (val25 >> 15) ;;
  return_if_last rest decode ;;
  uint32 val27 := encode.[26] ;;
  put decode[28] := ((val27 << 23) >> 3) .| (val26 >> 12) ;;
  return_if_last rest decode ;;
  uint32 val28 := encode.[27] ;;
  put decode[29] := ((val28 << 26) >> 3) .| (val27 >> 9) ;;
  return_if_last rest decode ;;
  uint32 val29 := encode.[28] ;;
  put decode[30] := ((val29 << 29) >> 3) .| (val28 >> 6) ;;
  Ok decode.

Definition unaligned_unpack_30 (decode encode : list Z) (dataNum : Z) : res (list Z) :=
  let maxBlocks := Z.shiftr dataNum 4 in
  let rest := dataNum mod 16 in
  upToMaxBlocks maxBlocks 15 16 (fun decode encode =>
    storeAll w decode [encode.[0] .& 0x3FFFFFFF; ((encode.[0] >> 30) .| (encode.[1] << 2)) .& 0x3FFFFFFF;
                       ((encode.[1] >> 28) .| (encode.[2] << 4)) .& 0x3FFFFFFF;
                       ((encode.[2] >> 26) .| (encode.[3] << 6)) .& 0x3FFFFFFF;
                       ((encode.[3] >> 24) .| (encode.[4] << 8)) .& 0x3FFFFFFF;
                       ((encode.[4] >> 22) .| (encode.[5] << 10)) .& 0x3FFFFFFF;
                       ((encode.[5] >> 20) .| (encode.[6] << 12)) .& 0x3FFFFFFF;
                       ((encode.[6] >> 18) .| (encode.[7] << 14)) .& 0x3FFFFFFF;
                       ((encode.[7] >> 16) .| (encode.[8] << 16)) .& 0x3FFFFFFF;
                       ((encode.[8] >> 14) .| (encode.[9] << 18)) .& 0x3FFFFFFF;
                       ((encode.[9] >> 12) .| (encode.[10] << 20)) .& 0x3FFFFFFF;
                       ((encode.[10] >> 10) .| (encode.[11] << 22)) .& 0x3FFFFFFF;
                       ((encode.[11] >> 8) .| (encode.[12] << 24)) .& 0x3FFFFFFF;
                       ((encode.[12] >> 6) .| (encode.[13] << 26)) .& 0x3FFFFFFF;
                       ((encode.[13] >> 4) .| (encode.[14] << 28)) .& 0x3FFFFFFF;
                       (encode.[14] >> 2) .& 0x3FFFFFFF]
  ) (fun decode encode =>
    if rest =? 0 then Ok decode else
    put decode[0] := encode.[0] .& 0x3FFFFFFF ;;
    return_if_last rest decode ;;
    put decode[1] := ((encode.[0] >> 30) .| (encode.[1] << 2)) .& 0x3FFFFFFF ;;
    return_if_last rest decode ;;
    put decode[2] := ((encode.[1] >> 28) .| (encode.[2] << 4)) .& 0x3FFFFFFF ;;
    return_if_last rest decode ;;
    put decode[3] := ((encode.[2] >> 26) .| (encode.[3] << 6)) .& 0x3FFFFFFF ;;
    return_if_last rest decode ;;
    put decode[4] := ((encode.[3] >> 24) .| (encode.[4] << 8)) .& 0x3FFFFFFF ;;
    return_if_last rest decode ;;
    put decode[5] := ((encode.[4] >> 22) .| (encode.[5] << 10)) .& 0x3FFFFFFF ;;
    return_if_last rest decode ;;
    put decode[6] := ((encode.[5] >> 20) .| (encode.[6] << 12)) .& 0x3FFFFFFF ;;
    return_if_last rest decode ;;
    put decode[7] := ((encode.[6] >> 18) .| (encode.[7] << 14)) .& 0x3FFFFFFF ;;
    return_if_last rest decode ;;
    put decode[8] := ((encode.[7] >> 16) .| (encode.[8] << 16)) .& 0x3FFFFFFF ;;
    return_if_last rest decode ;;
    put decode[9] := ((encode.[8] >> 14) .| (encode.[9] << 18)) .& 0x3FFFFFFF ;;
    return_if_last rest decode ;;
    put decode[10] := ((encode.[9] >> 12) .| (encode.[10] << 20)) .& 0x3FFFFFFF ;;
    return_if_last rest decode ;;
    put decode[11] := ((encode.[10] >> 10) .| (encode.[11] << 22)) .& 0x3FFFFFFF ;;
    return_if_last rest decode ;;
    put decode[12] := ((encode.[11] >> 8) .| (encode.[12] << 24)) .& 0x3FFFFFFF ;;
    return_if_last rest decode ;;
    put decode[13] := ((encode.[12] >> 6) .| (encode.[13] << 26)) .& 0x3FFFFFFF ;;
    return_if_last rest decode ;;
    put decode[14] := ((encode.[13] >> 4) .| (encode.[14] << 28)) .& 0x3FFFFFFF ;;
    Ok decode
  ) decode encode.

Definition unaligned_unpack_31 (decode encode : list Z) (dataNum : Z) : res (list Z) :=
  let rest := dataNum in
  put decode[0] := encode.[0] .& 0x7FFFFFFF ;;
  return_if_last rest decode ;;
  put decode[1] := ((encode.[0] >> 31) .| (encode.[1] << 1)) .& 0x7FFFFFFF ;;
  return_if_last rest decode ;;
  put decode[2] := ((encode.[1] >> 30) .| (encode.[2] << 2)) .& 0x7FFFFFFF ;;
  return_if_last rest decode ;;
  put decode[3] := ((encode.[2] >> 29) .| (encode.[3] << 3)) .& 0x7FFFFFFF ;;
  return_if_last rest decode ;;
  put decode[4] := ((encode.[3] >> 28) .| (encode.[4] << 4)) .& 0x7FFFFFFF ;;
  return_if_last rest decode ;;
  put decode[5] := ((encode.[4] >> 27) .| (encode.[5] << 5)) .& 0x7FFFFFFF ;;
  return_if_last rest decode ;;
  put decode[6] := ((encode.[5] >> 26) .| (encode.[6] << 6)) .& 0x7FFFFFFF ;;
  return_if_last rest decode ;;
  put decode[7] := ((encode.[6] >> 25) .| (encode.[7] << 7)) .& 0x7FFFFFFF ;;
  return_if_last rest decode ;;
  put decode[8] := ((encode.[7] >> 24) .| (encode.[8] << 8)) .& 0x7FFFFFFF ;;
  return_if_last rest decode ;;
  put decode[9] := ((encode.[8] >> 23) .| (encode.[9] << 9)) .& 0x7FFFFFFF ;;
  return_if_last rest decode ;;
  put decode[10] := ((encode.[9] >> 22) .| (encode.[10] << 10)) .& 0x7FFFFFFF ;;
  return_if_last rest decode ;;
  put decode[11] := ((encode.[10] >> 21) .| (encode.[11] << 11)) .& 0x7FFFFFFF ;;
  return_if_last rest decode ;;
  put decode[12] := ((encode.[11] >> 20) .| (encode.[12] << 12)) .& 0x7FFFFFFF ;;
  return_if_last rest decode ;;
  put decode[13] := ((encode.[12] >> 19) .| (encode.[13] << 13)) .& 0x7FFFFFFF ;;
  return_if_last rest decode ;;
  put decode[14] := ((encode.[13] >> 18) .| (encode.[14] << 14)) .& 0x7FFFFFFF ;;
  return_if_last rest decode ;;
  put decode[15] := ((encode.[14] >> 17) .| (encode.[15] << 15)) .& 0x7FFFFFFF ;;
  return_if_last rest decode ;;
  put decode[16] := ((encode.[15] >> 16) .| (encode.[16] << 16)) .& 0x7FFFFFFF ;;
  return_if_last rest decode ;;
  put decode[17] := ((encode.[16] >> 15) .| (encode.[17] << 17)) .& 0x7FFFFFFF ;;
  return_if_last rest decode ;;
  put decode[18] := ((encode.[17] >> 14) .| (encode.[18] << 18)) .& 0x7FFFFFFF ;;
  return_if_last rest decode ;;
  put decode[19] := ((encode.[18] >> 13) .| (encode.[19] << 19)) .& 0x7FFFFFFF ;;
  return_if_last rest decode ;;
  put decode[20] := ((encode.[19] >> 12) .| (encode.[20] << 20)) .& 0x7FFFFFFF ;;
  return_if_last rest decode ;;
  put decode[21] := ((encode.[20] >> 11) .| (encode.[21] << 21)) .& 0x7FFFFFFF ;;
  return_if_last rest decode ;;
  put decode[22] := ((encode.[21] >> 10) .| (encode.[22] << 22)) .& 0x7FFFFFFF ;;
  return_if_last rest decode ;;
  put decode[23] := ((encode.[22] >> 9) .| (encode.[23] << 23)) .& 0x7FFFFFFF ;;
  return_if_last rest decode ;;
  put decode[24] := ((encode.[23] >> 8) .| (encode.[24] << 24)) .& 0x7FFFFFFF ;;
  return_if_last rest decode ;;
  put decode[25] := ((encode.[24] >> 7) .| (encode.[25] << 25)) .& 0x7FFFFFFF ;;
  return_if_last rest decode ;;
  put decode[26] := ((encode.[25] >> 6) .| (encode.[26] << 26)) .& 0x7FFFFFFF ;;
  return_if_last rest decode ;;
  put decode[27] := ((encode.[26] >> 5) .| (encode.[27] << 27)) .& 0x7FFFFFFF ;;
  return_if_last rest decode ;;
  put decode[28] := ((encode.[27] >> 4) .| (encode.[28] << 28)) .& 0x7FFFFFFF ;;
  return_if_last rest decode ;;
  put decode[29] := ((encode.[28] >> 3) .| (encode.[29] << 29)) .& 0x7FFFFFFF ;;
  return_if_last rest decode ;;
  put decode[30] := ((encode.[29] >> 2) .| (encode.[30] << 30)) .& 0x7FFFFFFF ;;
  Ok decode.
End Unaligned.
