(* ===== verification/Unpack.v ===== *)
(** * Unpack.h

    The templates [unpack_0] to [unpack_32] of
    src/aios/storage/indexlib/index/common/numeric_compress/Unpack.h, statement by statement: they
    unpack [n] values of [b] bits, blocks of 32 by unrolled code and the rest by UnalignedUnpack.h. [w] is the
    width of the template's [Type]. *)

From stdpp Require Import base list numbers.
From Stdlib Require Import ZArith.
From S2P Require Import Prelude WordCode UnalignedUnpack.

#[local] Open Scope Z_scope.
#[local] Open Scope word_scope.

Section Unpack.
Context (w : Z).

(** [for (uint32_t i = 0; i < (n & 0x1F); ++i) dest[i] = encode[i] & 0xFFFFFFFF;] *)
Definition copyRest (dest encode : list Z) (n : Z) : res (list Z) :=
  storeAll w dest (map (fun i => wread encode i .& 0xFFFFFFFF) (seq 0 (Z.to_nat n))).

Definition unpack_0 (dest encode : list Z) (n : Z) : res (list Z) :=
  forBlocks 1 32 n (fun dest encode =>
    storeAll w dest [Ok 0; Ok 0; Ok 0; Ok 0; Ok 0; Ok 0; Ok 0; Ok 0; Ok 0; Ok 0; Ok 0; Ok 0; Ok 0; Ok 0;
                     Ok 0; Ok 0; Ok 0; Ok 0; Ok 0; Ok 0; Ok 0; Ok 0; Ok 0; Ok 0; Ok 0; Ok 0; Ok 0; Ok 0;
                     Ok 0; Ok 0; Ok 0; Ok 0]
  ) (unpackRest n (unaligned_unpack_0 w)) dest encode.

Definition unpack_1 (dest encode : list Z) (n : Z) : res (list Z) :=
  forBlocks 1 32 n (fun dest encode =>
    storeAll w dest [encode.[0] .& 0x1; (encode.[0] >> 1) .& 0x1; (encode.[0] >> 2) .& 0x1;
                     (encode.[0] >> 3) .& 0x1; (encode.[0] >> 4) .& 0x1; (encode.[0] >> 5) .& 0x1;
                     (encode.[0] >> 6) .& 0x1; (encode.[0] >> 7) .& 0x1; (encode.[0] >> 8) .& 0x1;
                     (encode.[0] >> 9) .& 0x1; (encode.[0] >> 10) .& 0x1; (encode.[0] >> 11) .& 0x1;
                     (encode.[0] >> 12) .& 0x1; (encode.[0] >> 13) .& 0x1; (encode.[0] >> 14) .& 0x1;
                     (encode.[0] >> 15) .& 0x1; (encode.[0] >> 16) .& 0x1; (encode.[0] >> 17) .& 0x1;
                     (encode.[0] >> 18) .& 0x1; (encode.[0] >> 19) .& 0x1; (encode.[0] >> 20) .& 0x1;
                     (encode.[0] >> 21) .& 0x1; (encode.[0] >> 22) .& 0x1; (encode.[0] >> 23) .& 0x1;
                     (encode.[0] >> 24) .& 0x1; (encode.[0] >> 25) .& 0x1; (encode.[0] >> 26) .& 0x1;
                     (encode.[0] >> 27) .& 0x1; (encode.[0] >> 28) .& 0x1; (encode.[0] >> 29) .& 0x1;
                     (encode.[0] >> 30) .& 0x1; (encode.[0] >> 31) .& 0x1]
  ) (unpackRest n (unaligned_unpack_1 w)) dest encode.

Definition unpack_2 (dest encode : list Z) (n : Z) : res (list Z) :=
  forBlocks 2 32 n (fun dest encode =>
    storeAll w dest [encode.[0] .& 0x3; (encode.[0] >> 2) .& 0x3; (encode.[0] >> 4) .& 0x3;
                     (encode.[0] >> 6) .& 0x3; (encode.[0] >> 8) .& 0x3; (encode.[0] >> 10) .& 0x3;
                     (encode.[0] >> 12) .& 0x3; (encode.[0] >> 14) .& 0x3; (encode.[0] >> 16) .& 0x3;
                     (encode.[0] >> 18) .& 0x3; (encode.[0] >> 20) .& 0x3; (encode.[0] >> 22) .& 0x3;
                     (encode.[0] >> 24) .& 0x3; (encode.[0] >> 26) .& 0x3; (encode.[0] >> 28) .& 0x3;
                     (encode.[0] >> 30) .& 0x3; encode.[1] .& 0x3; (encode.[1] >> 2) .& 0x3;
                     (encode.[1] >> 4) .& 0x3; (encode.[1] >> 6) .& 0x3; (encode.[1] >> 8) .& 0x3;
                     (encode.[1] >> 10) .& 0x3; (encode.[1] >> 12) .& 0x3; (encode.[1] >> 14) .& 0x3;
                     (encode.[1] >> 16) .& 0x3; (encode.[1] >> 18) .& 0x3; (encode.[1] >> 20) .& 0x3;
                     (encode.[1] >> 22) .& 0x3; (encode.[1] >> 24) .& 0x3; (encode.[1] >> 26) .& 0x3;
                     (encode.[1] >> 28) .& 0x3; (encode.[1] >> 30) .& 0x3]
  ) (unpackRest n (unaligned_unpack_2 w)) dest encode.

Definition unpack_3 (dest encode : list Z) (n : Z) : res (list Z) :=
  forBlocks 3 32 n (fun dest encode =>
    storeAll w dest [encode.[0] .& 0x7; (encode.[0] >> 3) .& 0x7; (encode.[0] >> 6) .& 0x7;
                     (encode.[0] >> 9) .& 0x7; (encode.[0] >> 12) .& 0x7; (encode.[0] >> 15) .& 0x7;
                     (encode.[0] >> 18) .& 0x7; (encode.[0] >> 21) .& 0x7; (encode.[0] >> 24) .& 0x7;
                     (encode.[0] >> 27) .& 0x7; ((encode.[0] >> 30) .| (encode.[1] << 2)) .& 0x7;
                     (encode.[1] >> 1) .& 0x7; (encode.[1] >> 4) .& 0x7; (encode.[1] >> 7) .& 0x7;
                     (encode.[1] >> 10) .& 0x7; (encode.[1] >> 13) .& 0x7; (encode.[1] >> 16) .& 0x7;
                     (encode.[1] >> 19) .& 0x7; (encode.[1] >> 22) .& 0x7; (encode.[1] >> 25) .& 0x7;
                     (encode.[1] >> 28) .& 0x7; ((encode.[1] >> 31) .| (encode.[2] << 1)) .& 0x7;
                     (encode.[2] >> 2) .& 0x7; (encode.[2] >> 5) .& 0x7; (encode.[2] >> 8) .& 0x7;
                     (encode.[2] >> 11) .& 0x7; (encode.[2] >> 14) .& 0x7; (encode.[2] >> 17) .& 0x7;
                     (encode.[2] >> 20) .& 0x7; (encode.[2] >> 23) .& 0x7; (encode.[2] >> 26) .& 0x7;
                     (encode.[2] >> 29) .& 0x7]
  ) (unpackRest n (unaligned_unpack_3 w)) dest encode.

Definition unpack_4 (dest encode : list Z) (n : Z) : res (list Z) :=
  forBlocks 4 32 n (fun dest encode =>
    storeAll w dest [encode.[0] .& 0xF; (encode.[0] >> 4) .& 0xF; (encode.[0] >> 8) .& 0xF;
                     (encode.[0] >> 12) .& 0xF; (encode.[0] >> 16) .& 0xF; (encode.[0] >> 20) .& 0xF;
                     (encode.[0] >> 24) .& 0xF; (encode.[0] >> 28) .& 0xF; encode.[1] .& 0xF;
                     (encode.[1] >> 4) .& 0xF; (encode.[1] >> 8) .& 0xF; (encode.[1] >> 12) .& 0xF;
                     (encode.[1] >> 16) .& 0xF; (encode.[1] >> 20) .& 0xF; (encode.[1] >> 24) .& 0xF;
                     (encode.[1] >> 28) .& 0xF; encode.[2] .& 0xF; (encode.[2] >> 4) .& 0xF;
                     (encode.[2] >> 8) .& 0xF; (encode.[2] >> 12) .& 0xF; (encode.[2] >> 16) .& 0xF;
                     (encode.[2] >> 20) .& 0xF; (encode.[2] >> 24) .& 0xF; (encode.[2] >> 28) .& 0xF;
                     encode.[3] .& 0xF; (encode.[3] >> 4) .& 0xF; (encode.[3] >> 8) .& 0xF;
                     (encode.[3] >> 12) .& 0xF; (encode.[3] >> 16) .& 0xF; (encode.[3] >> 20) .& 0xF;
                     (encode.[3] >> 24) .& 0xF; (encode.[3] >> 28) .& 0xF]
  ) (unpackRest n (unaligned_unpack_4 w)) dest encode.

Definition unpack_5 (dest encode : list Z) (n : Z) : res (list Z) :=
  forBlocks 5 32 n (fun dest encode =>
    storeAll w dest [encode.[0] .& 0x1F; (encode.[0] >> 5) .& 0x1F; (encode.[0] >> 10) .& 0x1F;
                     (encode.[0] >> 15) .& 0x1F; (encode.[0] >> 20) .& 0x1F; (encode.[0] >> 25) .& 0x1F;
                     ((encode.[0] >> 30) .| (encode.[1] << 2)) .& 0x1F; (encode.[1] >> 3) .& 0x1F;
                     (encode.[1] >> 8) .& 0x1F; (encode.[1] >> 13) .& 0x1F; (encode.[1] >> 18) .& 0x1F;
                     (encode.[1] >> 23) .& 0x1F; ((encode.[1] >> 28) .| (encode.[2] << 4)) .& 0x1F;
                     (encode.[2] >> 1) .& 0x1F; (encode.[2] >> 6) .& 0x1F; (encode.[2] >> 11) .& 0x1F;
                     (encode.[2] >> 16) .& 0x1F; (encode.[2] >> 21) .& 0x1F; (encode.[2] >> 26) .& 0x1F;
                     ((encode.[2] >> 31) .| (encode.[3] << 1)) .& 0x1F; (encode.[3] >> 4) .& 0x1F;
                     (encode.[3] >> 9) .& 0x1F; (encode.[3] >> 14) .& 0x1F; (encode.[3] >> 19) .& 0x1F;
                     (encode.[3] >> 24) .& 0x1F; ((encode.[3] >> 29) .| (encode.[4] << 3)) .& 0x1F;
                     (encode.[4] >> 2) .& 0x1F; (encode.[4] >> 7) .& 0x1F; (encode.[4] >> 12) .& 0x1F;
                     (encode.[4] >> 17) .& 0x1F; (encode.[4] >> 22) .& 0x1F; (encode.[4] >> 27) .& 0x1F]
  ) (unpackRest n (unaligned_unpack_5 w)) dest encode.

Definition unpack_6 (dest encode : list Z) (n : Z) : res (list Z) :=
  forBlocks 6 32 n (fun dest encode =>
    storeAll w dest [encode.[0] .& 0x3F; (encode.[0] >> 6) .& 0x3F; (encode.[0] >> 12) .& 0x3F;
                     (encode.[0] >> 18) .& 0x3F; (encode.[0] >> 24) .& 0x3F;
                     ((encode.[0] >> 30) .| (encode.[1] << 2)) .& 0x3F; (encode.[1] >> 4) .& 0x3F;
                     (encode.[1] >> 10) .& 0x3F; (encode.[1] >> 16) .& 0x3F; (encode.[1] >> 22) .& 0x3F;
                     ((encode.[1] >> 28) .| (encode.[2] << 4)) .& 0x3F; (encode.[2] >> 2) .& 0x3F;
                     (encode.[2] >> 8) .& 0x3F; (encode.[2] >> 14) .& 0x3F; (encode.[2] >> 20) .& 0x3F;
                     (encode.[2] >> 26) .& 0x3F; encode.[3] .& 0x3F; (encode.[3] >> 6) .& 0x3F;
                     (encode.[3] >> 12) .& 0x3F; (encode.[3] >> 18) .& 0x3F; (encode.[3] >> 24) .& 0x3F;
                     ((encode.[3] >> 30) .| (encode.[4] << 2)) .& 0x3F; (encode.[4] >> 4) .& 0x3F;
                     (encode.[4] >> 10) .& 0x3F; (encode.[4] >> 16) .& 0x3F; (encode.[4] >> 22) .& 0x3F;
                     ((encode.[4] >> 28) .| (encode.[5] << 4)) .& 0x3F; (encode.[5] >> 2) .& 0x3F;
                     (encode.[5] >> 8) .& 0x3F; (encode.[5] >> 14) .& 0x3F; (encode.[5] >> 20) .& 0x3F;
                     (encode.[5] >> 26) .& 0x3F]
  ) (unpackRest n (unaligned_unpack_6 w)) dest encode.

Definition unpack_7 (dest encode : list Z) (n : Z) : res (list Z) :=
  forBlocks 7 32 n (fun dest encode =>
    storeAll w dest [encode.[0] .& 0x7F; (encode.[0] >> 7) .& 0x7F; (encode.[0] >> 14) .& 0x7F;
                     (encode.[0] >> 21) .& 0x7F; ((encode.[0] >> 28) .| (encode.[1] << 4)) .& 0x7F;
                     (encode.[1] >> 3) .& 0x7F; (encode.[1] >> 10) .& 0x7F; (encode.[1] >> 17) .& 0x7F;
                     (encode.[1] >> 24) .& 0x7F; ((encode.[1] >> 31) .| (encode.[2] << 1)) .& 0x7F;
                     (encode.[2] >> 6) .& 0x7F; (encode.[2] >> 13) .& 0x7F; (encode.[2] >> 20) .& 0x7F;
                     ((encode.[2] >> 27) .| (encode.[3] << 5)) .& 0x7F; (encode.[3] >> 2) .& 0x7F;
                     (encode.[3] >> 9) .& 0x7F; (encode.[3] >> 16) .& 0x7F; (encode.[3] >> 23) .& 0x7F;
                     ((encode.[3] >> 30) .| (encode.[4] << 2)) .& 0x7F; (encode.[4] >> 5) .& 0x7F;
                     (encode.[4] >> 12) .& 0x7F; (encode.[4] >> 19) .& 0x7F;
                     ((encode.[4] >> 26) .| (encode.[5] << 6)) .& 0x7F; (encode.[5] >> 1) .& 0x7F;
                     (encode.[5] >> 8) .& 0x7F; (encode.[5] >> 15) .& 0x7F; (encode.[5] >> 22) .& 0x7F;
                     ((encode.[5] >> 29) .| (encode.[6] << 3)) .& 0x7F; (encode.[6] >> 4) .& 0x7F;
                     (encode.[6] >> 11) .& 0x7F; (encode.[6] >> 18) .& 0x7F; (encode.[6] >> 25) .& 0x7F]
  ) (unpackRest n (unaligned_unpack_7 w)) dest encode.

Definition unpack_8 (dest encode : list Z) (n : Z) : res (list Z) :=
  forBlocks 8 32 n (fun dest encode =>
    storeAll w dest [encode.[0] .& 0xFF; (encode.[0] >> 8) .& 0xFF; (encode.[0] >> 16) .& 0xFF;
                     (encode.[0] >> 24) .& 0xFF; encode.[1] .& 0xFF; (encode.[1] >> 8) .& 0xFF;
                     (encode.[1] >> 16) .& 0xFF; (encode.[1] >> 24) .& 0xFF; encode.[2] .& 0xFF;
                     (encode.[2] >> 8) .& 0xFF; (encode.[2] >> 16) .& 0xFF; (encode.[2] >> 24) .& 0xFF;
                     encode.[3] .& 0xFF; (encode.[3] >> 8) .& 0xFF; (encode.[3] >> 16) .& 0xFF;
                     (encode.[3] >> 24) .& 0xFF; encode.[4] .& 0xFF; (encode.[4] >> 8) .& 0xFF;
                     (encode.[4] >> 16) .& 0xFF; (encode.[4] >> 24) .& 0xFF; encode.[5] .& 0xFF;
                     (encode.[5] >> 8) .& 0xFF; (encode.[5] >> 16) .& 0xFF; (encode.[5] >> 24) .& 0xFF;
                     encode.[6] .& 0xFF; (encode.[6] >> 8) .& 0xFF; (encode.[6] >> 16) .& 0xFF;
                     (encode.[6] >> 24) .& 0xFF; encode.[7] .& 0xFF; (encode.[7] >> 8) .& 0xFF;
                     (encode.[7] >> 16) .& 0xFF; (encode.[7] >> 24) .& 0xFF]
  ) (unpackRest n (unaligned_unpack_8 w)) dest encode.

Definition unpack_9 (dest encode : list Z) (n : Z) : res (list Z) :=
  forBlocks 9 32 n (fun dest encode =>
    storeAll w dest [encode.[0] .& 0x1FF; (encode.[0] >> 9) .& 0x1FF; (encode.[0] >> 18) .& 0x1FF;
                     ((encode.[0] >> 27) .| (encode.[1] << 5)) .& 0x1FF; (encode.[1] >> 4) .& 0x1FF;
                     (encode.[1] >> 13) .& 0x1FF; (encode.[1] >> 22) .& 0x1FF;
                     ((encode.[1] >> 31) .| (encode.[2] << 1)) .& 0x1FF; (encode.[2] >> 8) .& 0x1FF;
                     (encode.[2] >> 17) .& 0x1FF; ((encode.[2] >> 26) .| (encode.[3] << 6)) .& 0x1FF;
                     (encode.[3] >> 3) .& 0x1FF; (encode.[3] >> 12) .& 0x1FF; (encode.[3] >> 21) .& 0x1FF;
                     ((encode.[3] >> 30) .| (encode.[4] << 2)) .& 0x1FF; (encode.[4] >> 7) .& 0x1FF;
                     (encode.[4] >> 16) .& 0x1FF; ((encode.[4] >> 25) .| (encode.[5] << 7)) .& 0x1FF;
                     (encode.[5] >> 2) .& 0x1FF; (encode.[5] >> 11) .& 0x1FF; (encode.[5] >> 20) .& 0x1FF;
                     ((encode.[5] >> 29) .| (encode.[6] << 3)) .& 0x1FF; (encode.[6] >> 6) .& 0x1FF;
                     (encode.[6] >> 15) .& 0x1FF; ((encode.[6] >> 24) .| (encode.[7] << 8)) .& 0x1FF;
                     (encode.[7] >> 1) .& 0x1FF; (encode.[7] >> 10) .& 0x1FF; (encode.[7] >> 19) .& 0x1FF;
                     ((encode.[7] >> 28) .| (encode.[8] << 4)) .& 0x1FF; (encode.[8] >> 5) .& 0x1FF;
                     (encode.[8] >> 14) .& 0x1FF; (encode.[8] >> 23) .& 0x1FF]
  ) (unpackRest n (unaligned_unpack_9 w)) dest encode.

Definition unpack_10 (dest encode : list Z) (n : Z) : res (list Z) :=
  forBlocks 10 32 n (fun dest encode =>
    storeAll w dest [encode.[0] .& 0x3FF; (encode.[0] >> 10) .& 0x3FF; (encode.[0] >> 20) .& 0x3FF;
                     ((encode.[0] >> 30) .| (encode.[1] << 2)) .& 0x3FF; (encode.[1] >> 8) .& 0x3FF;
                     (encode.[1] >> 18) .& 0x3FF; ((encode.[1] >> 28) .| (encode.[2] << 4)) .& 0x3FF;
                     (encode.[2] >> 6) .& 0x3FF; (encode.[2] >> 16) .& 0x3FF;
                     ((encode.[2] >> 26) .| (encode.[3] << 6)) .& 0x3FF; (encode.[3] >> 4) .& 0x3FF;
                     (encode.[3] >> 14) .& 0x3FF; ((encode.[3] >> 24) .| (encode.[4] << 8)) .& 0x3FF;
                     (encode.[4] >> 2) .& 0x3FF; (encode.[4] >> 12) .& 0x3FF; (encode.[4] >> 22) .& 0x3FF;
                     encode.[5] .& 0x3FF; (encode.[5] >> 10) .& 0x3FF; (encode.[5] >> 20) .& 0x3FF;
                     ((encode.[5] >> 30) .| (encode.[6] << 2)) .& 0x3FF; (encode.[6] >> 8) .& 0x3FF;
                     (encode.[6] >> 18) .& 0x3FF; ((encode.[6] >> 28) .| (encode.[7] << 4)) .& 0x3FF;
                     (encode.[7] >> 6) .& 0x3FF; (encode.[7] >> 16) .& 0x3FF;
                     ((encode.[7] >> 26) .| (encode.[8] << 6)) .& 0x3FF; (encode.[8] >> 4) .& 0x3FF;
                     (encode.[8] >> 14) .& 0x3FF; ((encode.[8] >> 24) .| (encode.[9] << 8)) .& 0x3FF;
                     (encode.[9] >> 2) .& 0x3FF; (encode.[9] >> 12) .& 0x3FF; (encode.[9] >> 22) .& 0x3FF]
  ) (unpackRest n (unaligned_unpack_10 w)) dest encode.

Definition unpack_11 (dest encode : list Z) (n : Z) : res (list Z) :=
  forBlocks 11 32 n (fun dest encode =>
    storeAll w dest [encode.[0] .& 0x7FF; (encode.[0] >> 11) .& 0x7FF;
                     ((encode.[0] >> 22) .| (encode.[1] << 10)) .& 0x7FF; (encode.[1] >> 1) .& 0x7FF;
                     (encode.[1] >> 12) .& 0x7FF; ((encode.[1] >> 23) .| (encode.[2] << 9)) .& 0x7FF;
                     (encode.[2] >> 2) .& 0x7FF; (encode.[2] >> 13) .& 0x7FF;
                     ((encode.[2] >> 24) .| (encode.[3] << 8)) .& 0x7FF; (encode.[3] >> 3) .& 0x7FF;
                     (encode.[3] >> 14) .& 0x7FF; ((encode.[3] >> 25) .| (encode.[4] << 7)) .& 0x7FF;
                     (encode.[4] >> 4) .& 0x7FF; (encode.[4] >> 15) .& 0x7FF;
                     ((encode.[4] >> 26) .| (encode.[5] << 6)) .& 0x7FF; (encode.[5] >> 5) .& 0x7FF;
                     (encode.[5] >> 16) .& 0x7FF; ((encode.[5] >> 27) .| (encode.[6] << 5)) .& 0x7FF;
                     (encode.[6] >> 6) .& 0x7FF; (encode.[6] >> 17) .& 0x7FF;
                     ((encode.[6] >> 28) .| (encode.[7] << 4)) .& 0x7FF; (encode.[7] >> 7) .& 0x7FF;
                     (encode.[7] >> 18) .& 0x7FF; ((encode.[7] >> 29) .| (encode.[8] << 3)) .& 0x7FF;
                     (encode.[8] >> 8) .& 0x7FF; (encode.[8] >> 19) .& 0x7FF;
                     ((encode.[8] >> 30) .| (encode.[9] << 2)) .& 0x7FF; (encode.[9] >> 9) .& 0x7FF;
                     (encode.[9] >> 20) .& 0x7FF; ((encode.[9] >> 31) .| (encode.[10] << 1)) .& 0x7FF;
                     (encode.[10] >> 10) .& 0x7FF; (encode.[10] >> 21) .& 0x7FF]
  ) (unpackRest n (unaligned_unpack_11 w)) dest encode.

Definition unpack_12 (dest encode : list Z) (n : Z) : res (list Z) :=
  forBlocks 12 32 n (fun dest encode =>
    storeAll w dest [encode.[0] .& 0xFFF; (encode.[0] >> 12) .& 0xFFF;
                     ((encode.[0] >> 24) .| (encode.[1] << 8)) .& 0xFFF; (encode.[1] >> 4) .& 0xFFF;
                     (encode.[1] >> 16) .& 0xFFF; ((encode.[1] >> 28) .| (encode.[2] << 4)) .& 0xFFF;
                     (encode.[2] >> 8) .& 0xFFF; (encode.[2] >> 20) .& 0xFFF; encode.[3] .& 0xFFF;
                     (encode.[3] >> 12) .& 0xFFF; ((encode.[3] >> 24) .| (encode.[4] << 8)) .& 0xFFF;
                     (encode.[4] >> 4) .& 0xFFF; (encode.[4] >> 16) .& 0xFFF;
                     ((encode.[4] >> 28) .| (encode.[5] << 4)) .& 0xFFF; (encode.[5] >> 8) .& 0xFFF;
                     (encode.[5] >> 20) .& 0xFFF; encode.[6] .& 0xFFF; (encode.[6] >> 12) .& 0xFFF;
                     ((encode.[6] >> 24) .| (encode.[7] << 8)) .& 0xFFF; (encode.[7] >> 4) .& 0xFFF;
                     (encode.[7] >> 16) .& 0xFFF; ((encode.[7] >> 28) .| (encode.[8] << 4)) .& 0xFFF;
                     (encode.[8] >> 8) .& 0xFFF; (encode.[8] >> 20) .& 0xFFF; encode.[9] .& 0xFFF;
                     (encode.[9] >> 12) .& 0xFFF; ((encode.[9] >> 24) .| (encode.[10] << 8)) .& 0xFFF;
                     (encode.[10] >> 4) .& 0xFFF; (encode.[10] >> 16) .& 0xFFF;
                     ((encode.[10] >> 28) .| (encode.[11] << 4)) .& 0xFFF; (encode.[11] >> 8) .& 0xFFF;
                     (encode.[11] >> 20) .& 0xFFF]
  ) (unpackRest n (unaligned_unpack_12 w)) dest encode.

Definition unpack_13 (dest encode : list Z) (n : Z) : res (list Z) :=
  forBlocks 13 32 n (fun dest encode =>
    storeAll w dest [encode.[0] .& 0x1FFF; (encode.[0] >> 13) .& 0x1FFF;
                     ((encode.[0] >> 26) .| (encode.[1] << 6)) .& 0x1FFF; (encode.[1] >> 7) .& 0x1FFF;
                     ((encode.[1] >> 20) .| (encode.[2] << 12)) .& 0x1FFF; (encode.[2] >> 1) .& 0x1FFF;
                     (encode.[2] >> 14) .& 0x1FFF; ((encode.[2] >> 27) .| (encode.[3] << 5)) .& 0x1FFF;
                     (encode.[3] >> 8) .& 0x1FFF; ((encode.[3] >> 21) .| (encode.[4] << 11)) .& 0x1FFF;
                     (encode.[4] >> 2) .& 0x1FFF; (encode.[4] >> 15) .& 0x1FFF;
                     ((encode.[4] >> 28) .| (encode.[5] << 4)) .& 0x1FFF; (encode.[5] >> 9) .& 0x1FFF;
                     ((encode.[5] >> 22) .| (encode.[6] << 10)) .& 0x1FFF; (encode.[6] >> 3) .& 0x1FFF;
                     (encode.[6] >> 16) .& 0x1FFF; ((encode.[6] >> 29) .| (encode.[7] << 3)) .& 0x1FFF;
                     (encode.[7] >> 10) .& 0x1FFF; ((encode.[7] >> 23) .| (encode.[8] << 9)) .& 0x1FFF;
                     (encode.[8] >> 4) .& 0x1FFF; (encode.[8] >> 17) .& 0x1FFF;
                     ((encode.[8] >> 30) .| (encode.[9] << 2)) .& 0x1FFF; (encode.[9] >> 11) .& 0x1FFF;
                     ((encode.[9] >> 24) .| (encode.[10] << 8)) .& 0x1FFF; (encode.[10] >> 5) .& 0x1FFF;
                     (encode.[10] >> 18) .& 0x1FFF; ((encode.[10] >> 31) .| (encode.[11] << 1)) .& 0x1FFF;
                     (encode.[11] >> 12) .& 0x1FFF; ((encode.[11] >> 25) .| (encode.[12] << 7)) .& 0x1FFF;
                     (encode.[12] >> 6) .& 0x1FFF; (encode.[12] >> 19) .& 0x1FFF]
  ) (unpackRest n (unaligned_unpack_13 w)) dest encode.

Definition unpack_14 (dest encode : list Z) (n : Z) : res (list Z) :=
  forBlocks 14 32 n (fun dest encode =>
    storeAll w dest [encode.[0] .& 0x3FFF; (encode.[0] >> 14) .& 0x3FFF;
                     ((encode.[0] >> 28) .| (encode.[1] << 4)) .& 0x3FFF; (encode.[1] >> 10) .& 0x3FFF;
                     ((encode.[1] >> 24) .| (encode.[2] << 8)) .& 0x3FFF; (encode.[2] >> 6) .& 0x3FFF;
                     ((encode.[2] >> 20) .| (encode.[3] << 12)) .& 0x3FFF; (encode.[3] >> 2) .& 0x3FFF;
                     (encode.[3] >> 16) .& 0x3FFF; ((encode.[3] >> 30) .| (encode.[4] << 2)) .& 0x3FFF;
                     (encode.[4] >> 12) .& 0x3FFF; ((encode.[4] >> 26) .| (encode.[5] << 6)) .& 0x3FFF;
                     (encode.[5] >> 8) .& 0x3FFF; ((encode.[5] >> 22) .| (encode.[6] << 10)) .& 0x3FFF;
                     (encode.[6] >> 4) .& 0x3FFF; (encode.[6] >> 18) .& 0x3FFF; encode.[7] .& 0x3FFF;
                     (encode.[7] >> 14) .& 0x3FFF; ((encode.[7] >> 28) .| (encode.[8] << 4)) .& 0x3FFF;
                     (encode.[8] >> 10) .& 0x3FFF; ((encode.[8] >> 24) .| (encode.[9] << 8)) .& 0x3FFF;
                     (encode.[9] >> 6) .& 0x3FFF; ((encode.[9] >> 20) .| (encode.[10] << 12)) .& 0x3FFF;
                     (encode.[10] >> 2) .& 0x3FFF; (encode.[10] >> 16) .& 0x3FFF;
                     ((encode.[10] >> 30) .| (encode.[11] << 2)) .& 0x3FFF; (encode.[11] >> 12) .& 0x3FFF;
                     ((encode.[11] >> 26) .| (encode.[12] << 6)) .& 0x3FFF; (encode.[12] >> 8) .& 0x3FFF;
                     ((encode.[12] >> 22) .| (encode.[13] << 10)) .& 0x3FFF; (encode.[13] >> 4) .& 0x3FFF;
                     (encode.[13] >> 18) .& 0x3FFF]
  ) (unpackRest n (unaligned_unpack_14 w)) dest encode.

Definition unpack_15 (dest encode : list Z) (n : Z) : res (list Z) :=
  forBlocks 15 32 n (fun dest encode =>
    storeAll w dest [encode.[0] .& 0x7FFF; (encode.[0] >> 15) .& 0x7FFF;
                     ((encode.[0] >> 30) .| (encode.[1] << 2)) .& 0x7FFF; (encode.[1] >> 13) .& 0x7FFF;
                     ((encode.[1] >> 28) .| (encode.[2] << 4)) .& 0x7FFF; (encode.[2] >> 11) .& 0x7FFF;
                     ((encode.[2] >> 26) .| (encode.[3] << 6)) .& 0x7FFF; (encode.[3] >> 9) .& 0x7FFF;
                     ((encode.[3] >> 24) .| (encode.[4] << 8)) .& 0x7FFF; (encode.[4] >> 7) .& 0x7FFF;
                     ((encode.[4] >> 22) .| (encode.[5] << 10)) .& 0x7FFF; (encode.[5] >> 5) .& 0x7FFF;
                     ((encode.[5] >> 20) .| (encode.[6] << 12)) .& 0x7FFF; (encode.[6] >> 3) .& 0x7FFF;
                     ((encode.[6] >> 18) .| (encode.[7] << 14)) .& 0x7FFF; (encode.[7] >> 1) .& 0x7FFF;
                     (encode.[7] >> 16) .& 0x7FFF; ((encode.[7] >> 31) .| (encode.[8] << 1)) .& 0x7FFF;
                     (encode.[8] >> 14) .& 0x7FFF; ((encode.[8] >> 29) .| (encode.[9] << 3)) .& 0x7FFF;
                     (encode.[9] >> 12) .& 0x7FFF; ((encode.[9] >> 27) .| (encode.[10] << 5)) .& 0x7FFF;
                     (encode.[10] >> 10) .& 0x7FFF; ((encode.[10] >> 25) .| (encode.[11] << 7)) .& 0x7FFF;
                     (encode.[11] >> 8) .& 0x7FFF; ((encode.[11] >> 23) .| (encode.[12] << 9)) .& 0x7FFF;
                     (encode.[12] >> 6) .& 0x7FFF; ((encode.[12] >> 21) .| (encode.[13] << 11)) .& 0x7FFF;
                     (encode.[13] >> 4) .& 0x7FFF; ((encode.[13] >> 19) .| (encode.[14] << 13)) .& 0x7FFF;
                     (encode.[14] >> 2) .& 0x7FFF; (encode.[14] >> 17) .& 0x7FFF]
  ) (unpackRest n (unaligned_unpack_15 w)) dest encode.

Definition unpack_16 (dest encode : list Z) (n : Z) : res (list Z) :=
  forBlocks 16 32 n (fun dest encode =>
    storeAll w dest [encode.[0] .& 0xFFFF; (encode.[0] >> 16) .& 0xFFFF; encode.[1] .& 0xFFFF;
                     (encode.[1] >> 16) .& 0xFFFF; encode.[2] .& 0xFFFF; (encode.[2] >> 16) .& 0xFFFF;
                     encode.[3] .& 0xFFFF; (encode.[3] >> 16) .& 0xFFFF; encode.[4] .& 0xFFFF;
                     (encode.[4] >> 16) .& 0xFFFF; encode.[5] .& 0xFFFF; (encode.[5] >> 16) .& 0xFFFF;
                     encode.[6] .& 0xFFFF; (encode.[6] >> 16) .& 0xFFFF; encode.[7] .& 0xFFFF;
                     (encode.[7] >> 16) .& 0xFFFF; encode.[8] .& 0xFFFF; (encode.[8] >> 16) .& 0xFFFF;
                     encode.[9] .& 0xFFFF; (encode.[9] >> 16) .& 0xFFFF; encode.[10] .& 0xFFFF;
                     (encode.[10] >> 16) .& 0xFFFF; encode.[11] .& 0xFFFF; (encode.[11] >> 16) .& 0xFFFF;
                     encode.[12] .& 0xFFFF; (encode.[12] >> 16) .& 0xFFFF; encode.[13] .& 0xFFFF;
                     (encode.[13] >> 16) .& 0xFFFF; encode.[14] .& 0xFFFF; (encode.[14] >> 16) .& 0xFFFF;
                     encode.[15] .& 0xFFFF; (encode.[15] >> 16) .& 0xFFFF]
  ) (unpackRest n (unaligned_unpack_16 w)) dest encode.

Definition unpack_17 (dest encode : list Z) (n : Z) : res (list Z) :=
  forBlocks 17 32 n (fun dest encode =>
    storeAll w dest [encode.[0] .& 0x1FFFF; ((encode.[0] >> 17) .| (encode.[1] << 15)) .& 0x1FFFF;
                     (encode.[1] >> 2) .& 0x1FFFF; ((encode.[1] >> 19) .| (encode.[2] << 13)) .& 0x1FFFF;
                     (encode.[2] >> 4) .& 0x1FFFF; ((encode.[2] >> 21) .| (encode.[3] << 11)) .& 0x1FFFF;
                     (encode.[3] >> 6) .& 0x1FFFF; ((encode.[3] >> 23) .| (encode.[4] << 9)) .& 0x1FFFF;
                     (encode.[4] >> 8) .& 0x1FFFF; ((encode.[4] >> 25) .| (encode.[5] << 7)) .& 0x1FFFF;
                     (encode.[5] >> 10) .& 0x1FFFF; ((encode.[5] >> 27) .| (encode.[6] << 5)) .& 0x1FFFF;
                     (encode.[6] >> 12) .& 0x1FFFF; ((encode.[6] >> 29) .| (encode.[7] << 3)) .& 0x1FFFF;
                     (encode.[7] >> 14) .& 0x1FFFF; ((encode.[7] >> 31) .| (encode.[8] << 1)) .& 0x1FFFF;
                     ((encode.[8] >> 16) .| (encode.[9] << 16)) .& 0x1FFFF; (encode.[9] >> 1) .& 0x1FFFF;
                     ((encode.[9] >> 18) .| (encode.[10] << 14)) .& 0x1FFFF; (encode.[10] >> 3) .& 0x1FFFF;
                     ((encode.[10] >> 20) .| (encode.[11] << 12)) .& 0x1FFFF;
                     (encode.[11] >> 5) .& 0x1FFFF;
                     ((encode.[11] >> 22) .| (encode.[12] << 10)) .& 0x1FFFF;
                     (encode.[12] >> 7) .& 0x1FFFF; ((encode.[12] >> 24) .| (encode.[13] << 8)) .& 0x1FFFF;
                     (encode.[13] >> 9) .& 0x1FFFF; ((encode.[13] >> 26) .| (encode.[14] << 6)) .& 0x1FFFF;
                     (encode.[14] >> 11) .& 0x1FFFF;
                     ((encode.[14] >> 28) .| (encode.[15] << 4)) .& 0x1FFFF;
                     (encode.[15] >> 13) .& 0x1FFFF;
                     ((encode.[15] >> 30) .| (encode.[16] << 2)) .& 0x1FFFF; (encode.[16] >> 15) .& 0x1FFFF]
  ) (unpackRest n (unaligned_unpack_17 w)) dest encode.

Definition unpack_18 (dest encode : list Z) (n : Z) : res (list Z) :=
  forBlocks 18 32 n (fun dest encode =>
    storeAll w dest [encode.[0] .& 0x3FFFF; ((encode.[0] >> 18) .| (encode.[1] << 14)) .& 0x3FFFF;
                     (encode.[1] >> 4) .& 0x3FFFF; ((encode.[1] >> 22) .| (encode.[2] << 10)) .& 0x3FFFF;
                     (encode.[2] >> 8) .& 0x3FFFF; ((encode.[2] >> 26) .| (encode.[3] << 6)) .& 0x3FFFF;
                     (encode.[3] >> 12) .& 0x3FFFF; ((encode.[3] >> 30) .| (encode.[4] << 2)) .& 0x3FFFF;
                     ((encode.[4] >> 16) .| (encode.[5] << 16)) .& 0x3FFFF; (encode.[5] >> 2) .& 0x3FFFF;
                     ((encode.[5] >> 20) .| (encode.[6] << 12)) .& 0x3FFFF; (encode.[6] >> 6) .& 0x3FFFF;
                     ((encode.[6] >> 24) .| (encode.[7] << 8)) .& 0x3FFFF; (encode.[7] >> 10) .& 0x3FFFF;
                     ((encode.[7] >> 28) .| (encode.[8] << 4)) .& 0x3FFFF; (encode.[8] >> 14) .& 0x3FFFF;
                     encode.[9] .& 0x3FFFF; ((encode.[9] >> 18) .| (encode.[10] << 14)) .& 0x3FFFF;
                     (encode.[10] >> 4) .& 0x3FFFF;
                     ((encode.[10] >> 22) .| (encode.[11] << 10)) .& 0x3FFFF;
                     (encode.[11] >> 8) .& 0x3FFFF; ((encode.[11] >> 26) .| (encode.[12] << 6)) .& 0x3FFFF;
                     (encode.[12] >> 12) .& 0x3FFFF;
                     ((encode.[12] >> 30) .| (encode.[13] << 2)) .& 0x3FFFF;
                     ((encode.[13] >> 16) .| (encode.[14] << 16)) .& 0x3FFFF;
                     (encode.[14] >> 2) .& 0x3FFFF;
                     ((encode.[14] >> 20) .| (encode.[15] << 12)) .& 0x3FFFF;
                     (encode.[15] >> 6) .& 0x3FFFF; ((encode.[15] >> 24) .| (encode.[16] << 8)) .& 0x3FFFF;
                     (encode.[16] >> 10) .& 0x3FFFF;
                     ((encode.[16] >> 28) .| (encode.[17] << 4)) .& 0x3FFFF; (encode.[17] >> 14) .& 0x3FFFF]
  ) (unpackRest n (unaligned_unpack_18 w)) dest encode.

Definition unpack_19 (dest encode : list Z) (n : Z) : res (list Z) :=
  forBlocks 19 32 n (fun dest encode =>
    storeAll w dest [encode.[0] .& 0x7FFFF; ((encode.[0] >> 19) .| (encode.[1] << 13)) .& 0x7FFFF;
                     (encode.[1] >> 6) .& 0x7FFFF; ((encode.[1] >> 25) .| (encode.[2] << 7)) .& 0x7FFFF;
                     (encode.[2] >> 12) .& 0x7FFFF; ((encode.[2] >> 31) .| (encode.[3] << 1)) .& 0x7FFFF;
                     ((encode.[3] >> 18) .| (encode.[4] << 14)) .& 0x7FFFF; (encode.[4] >> 5) .& 0x7FFFF;
                     ((encode.[4] >> 24) .| (encode.[5] << 8)) .& 0x7FFFF; (encode.[5] >> 11) .& 0x7FFFF;
                     ((encode.[5] >> 30) .| (encode.[6] << 2)) .& 0x7FFFF;
                     ((encode.[6] >> 17) .| (encode.[7] << 15)) .& 0x7FFFF; (encode.[7] >> 4) .& 0x7FFFF;
                     ((encode.[7] >> 23) .| (encode.[8] << 9)) .& 0x7FFFF; (encode.[8] >> 10) .& 0x7FFFF;
                     ((encode.[8] >> 29) .| (encode.[9] << 3)) .& 0x7FFFF;
                     ((encode.[9] >> 16) .| (encode.[10] << 16)) .& 0x7FFFF; (encode.[10] >> 3) .& 0x7FFFF;
                     ((encode.[10] >> 22) .| (encode.[11] << 10)) .& 0x7FFFF;
                     (encode.[11] >> 9) .& 0x7FFFF; ((encode.[11] >> 28) .| (encode.[12] << 4)) .& 0x7FFFF;
                     ((encode.[12] >> 15) .| (encode.[13] << 17)) .& 0x7FFFF;
                     (encode.[13] >> 2) .& 0x7FFFF;
                     ((encode.[13] >> 21) .| (encode.[14] << 11)) .& 0x7FFFF;
                     (encode.[14] >> 8) .& 0x7FFFF; ((encode.[14] >> 27) .| (encode.[15] << 5)) .& 0x7FFFF;
                     ((encode.[15] >> 14) .| (encode.[16] << 18)) .& 0x7FFFF;
                     (encode.[16] >> 1) .& 0x7FFFF;
                     ((encode.[16] >> 20) .| (encode.[17] << 12)) .& 0x7FFFF;
                     (encode.[17] >> 7) .& 0x7FFFF; ((encode.[17] >> 26) .| (encode.[18] << 6)) .& 0x7FFFF;
                     (encode.[18] >> 13) .& 0x7FFFF]
  ) (unpackRest n (unaligned_unpack_19 w)) dest encode.

Definition unpack_20 (dest encode : list Z) (n : Z) : res (list Z) :=
  forBlocks 20 32 n (fun dest encode =>
    storeAll w dest [encode.[0] .& 0xFFFFF; ((encode.[0] >> 20) .| (encode.[1] << 12)) .& 0xFFFFF;
                     (encode.[1] >> 8) .& 0xFFFFF; ((encode.[1] >> 28) .| (encode.[2] << 4)) .& 0xFFFFF;
                     ((encode.[2] >> 16) .| (encode.[3] << 16)) .& 0xFFFFF; (encode.[3] >> 4) .& 0xFFFFF;
                     ((encode.[3] >> 24) .| (encode.[4] << 8)) .& 0xFFFFF; (encode.[4] >> 12) .& 0xFFFFF;
                     encode.[5] .& 0xFFFFF; ((encode.[5] >> 20) .| (encode.[6] << 12)) .& 0xFFFFF;
                     (encode.[6] >> 8) .& 0xFFFFF; ((encode.[6] >> 28) .| (encode.[7] << 4)) .& 0xFFFFF;
                     ((encode.[7] >> 16) .| (encode.[8] << 16)) .& 0xFFFFF; (encode.[8] >> 4) .& 0xFFFFF;
                     ((encode.[8] >> 24) .| (encode.[9] << 8)) .& 0xFFFFF; (encode.[9] >> 12) .& 0xFFFFF;
                     encode.[10] .& 0xFFFFF; ((encode.[10] >> 20) .| (encode.[11] << 12)) .& 0xFFFFF;
                     (encode.[11] >> 8) .& 0xFFFFF; ((encode.[11] >> 28) .| (encode.[12] << 4)) .& 0xFFFFF;
                     ((encode.[12] >> 16) .| (encode.[13] << 16)) .& 0xFFFFF;
                     (encode.[13] >> 4) .& 0xFFFFF; ((encode.[13] >> 24) .| (encode.[14] << 8)) .& 0xFFFFF;
                     (encode.[14] >> 12) .& 0xFFFFF; encode.[15] .& 0xFFFFF;
                     ((encode.[15] >> 20) .| (encode.[16] << 12)) .& 0xFFFFF;
                     (encode.[16] >> 8) .& 0xFFFFF; ((encode.[16] >> 28) .| (encode.[17] << 4)) .& 0xFFFFF;
                     ((encode.[17] >> 16) .| (encode.[18] << 16)) .& 0xFFFFF;
                     (encode.[18] >> 4) .& 0xFFFFF; ((encode.[18] >> 24) .| (encode.[19] << 8)) .& 0xFFFFF;
                     (encode.[19] >> 12) .& 0xFFFFF]
  ) (unpackRest n (unaligned_unpack_20 w)) dest encode.

Definition unpack_21 (dest encode : list Z) (n : Z) : res (list Z) :=
  forBlocks 21 32 n (fun dest encode =>
    storeAll w dest [encode.[0] .& 0x1FFFFF; ((encode.[0] >> 21) .| (encode.[1] << 11)) .& 0x1FFFFF;
                     (encode.[1] >> 10) .& 0x1FFFFF; ((encode.[1] >> 31) .| (encode.[2] << 1)) .& 0x1FFFFF;
                     ((encode.[2] >> 20) .| (encode.[3] << 12)) .& 0x1FFFFF; (encode.[3] >> 9) .& 0x1FFFFF;
                     ((encode.[3] >> 30) .| (encode.[4] << 2)) .& 0x1FFFFF;
                     ((encode.[4] >> 19) .| (encode.[5] << 13)) .& 0x1FFFFF; (encode.[5] >> 8) .& 0x1FFFFF;
                     ((encode.[5] >> 29) .| (encode.[6] << 3)) .& 0x1FFFFF;
                     ((encode.[6] >> 18) .| (encode.[7] << 14)) .& 0x1FFFFF; (encode.[7] >> 7) .& 0x1FFFFF;
                     ((encode.[7] >> 28) .| (encode.[8] << 4)) .& 0x1FFFFF;
                     ((encode.[8] >> 17) .| (encode.[9] << 15)) .& 0x1FFFFF; (encode.[9] >> 6) .& 0x1FFFFF;
                     ((encode.[9] >> 27) .| (encode.[10] << 5)) .& 0x1FFFFF;
                     ((encode.[10] >> 16) .| (encode.[11] << 16)) .& 0x1FFFFF;
                     (encode.[11] >> 5) .& 0x1FFFFF;
                     ((encode.[11] >> 26) .| (encode.[12] << 6)) .& 0x1FFFFF;
                     ((encode.[12] >> 15) .| (encode.[13] << 17)) .& 0x1FFFFF;
                     (encode.[13] >> 4) .& 0x1FFFFF;
                     ((encode.[13] >> 25) .| (encode.[14] << 7)) .& 0x1FFFFF;
                     ((encode.[14] >> 14) .| (encode.[15] << 18)) .& 0x1FFFFF;
                     (encode.[15] >> 3) .& 0x1FFFFF;
                     ((encode.[15] >> 24) .| (encode.[16] << 8)) .& 0x1FFFFF;
                     ((encode.[16] >> 13) .| (encode.[17] << 19)) .& 0x1FFFFF;
                     (encode.[17] >> 2) .& 0x1FFFFF;
                     ((encode.[17] >> 23) .| (encode.[18] << 9)) .& 0x1FFFFF;
                     ((encode.[18] >> 12) .| (encode.[19] << 20)) .& 0x1FFFFF;
                     (encode.[19] >> 1) .& 0x1FFFFF;
                     ((encode.[19] >> 22) .| (encode.[20] << 10)) .& 0x1FFFFF;
                     (encode.[20] >> 11) .& 0x1FFFFF]
  ) (unpackRest n (unaligned_unpack_21 w)) dest encode.

Definition unpack_22 (dest encode : list Z) (n : Z) : res (list Z) :=
  forBlocks 22 32 n (fun dest encode =>
    storeAll w dest [encode.[0] .& 0x3FFFFF; ((encode.[0] >> 22) .| (encode.[1] << 10)) .& 0x3FFFFF;
                     ((encode.[1] >> 12) .| (encode.[2] << 20)) .& 0x3FFFFF; (encode.[2] >> 2) .& 0x3FFFFF;
                     ((encode.[2] >> 24) .| (encode.[3] << 8)) .& 0x3FFFFF;
                     ((encode.[3] >> 14) .| (encode.[4] << 18)) .& 0x3FFFFF; (encode.[4] >> 4) .& 0x3FFFFF;
                     ((encode.[4] >> 26) .| (encode.[5] << 6)) .& 0x3FFFFF;
                     ((encode.[5] >> 16) .| (encode.[6] << 16)) .& 0x3FFFFF; (encode.[6] >> 6) .& 0x3FFFFF;
                     ((encode.[6] >> 28) .| (encode.[7] << 4)) .& 0x3FFFFF;
                     ((encode.[7] >> 18) .| (encode.[8] << 14)) .& 0x3FFFFF; (encode.[8] >> 8) .& 0x3FFFFF;
                     ((encode.[8] >> 30) .| (encode.[9] << 2)) .& 0x3FFFFF;
                     ((encode.[9] >> 20) .| (encode.[10] << 12)) .& 0x3FFFFF;
                     (encode.[10] >> 10) .& 0x3FFFFF; encode.[11] .& 0x3FFFFF;
                     ((encode.[11] >> 22) .| (encode.[12] << 10)) .& 0x3FFFFF;
                     ((encode.[12] >> 12) .| (encode.[13] << 20)) .& 0x3FFFFF;
                     (encode.[13] >> 2) .& 0x3FFFFF;
                     ((encode.[13] >> 24) .| (encode.[14] << 8)) .& 0x3FFFFF;
                     ((encode.[14] >> 14) .| (encode.[15] << 18)) .& 0x3FFFFF;
                     (encode.[15] >> 4) .& 0x3FFFFF;
                     ((encode.[15] >> 26) .| (encode.[16] << 6)) .& 0x3FFFFF;
                     ((encode.[16] >> 16) .| (encode.[17] << 16)) .& 0x3FFFFF;
                     (encode.[17] >> 6) .& 0x3FFFFF;
                     ((encode.[17] >> 28) .| (encode.[18] << 4)) .& 0x3FFFFF;
                     ((encode.[18] >> 18) .| (encode.[19] << 14)) .& 0x3FFFFF;
                     (encode.[19] >> 8) .& 0x3FFFFF;
                     ((encode.[19] >> 30) .| (encode.[20] << 2)) .& 0x3FFFFF;
                     ((encode.[20] >> 20) .| (encode.[21] << 12)) .& 0x3FFFFF;
                     (encode.[21] >> 10) .& 0x3FFFFF]
  ) (unpackRest n (unaligned_unpack_22 w)) dest encode.

Definition unpack_23 (dest encode : list Z) (n : Z) : res (list Z) :=
  forBlocks 23 32 n (fun dest encode =>
    storeAll w dest [encode.[0] .& 0x7FFFFF; ((encode.[0] >> 23) .| (encode.[1] << 9)) .& 0x7FFFFF;
                     ((encode.[1] >> 14) .| (encode.[2] << 18)) .& 0x7FFFFF; (encode.[2] >> 5) .& 0x7FFFFF;
                     ((encode.[2] >> 28) .| (encode.[3] << 4)) .& 0x7FFFFF;
                     ((encode.[3] >> 19) .| (encode.[4] << 13)) .& 0x7FFFFF;
                     ((encode.[4] >> 10) .| (encode.[5] << 22)) .& 0x7FFFFF; (encode.[5] >> 1) .& 0x7FFFFF;
                     ((encode.[5] >> 24) .| (encode.[6] << 8)) .& 0x7FFFFF;
                     ((encode.[6] >> 15) .| (encode.[7] << 17)) .& 0x7FFFFF; (encode.[7] >> 6) .& 0x7FFFFF;
                     ((encode.[7] >> 29) .| (encode.[8] << 3)) .& 0x7FFFFF;
                     ((encode.[8] >> 20) .| (encode.[9] << 12)) .& 0x7FFFFF;
                     ((encode.[9] >> 11) .| (encode.[10] << 21)) .& 0x7FFFFF;
                     (encode.[10] >> 2) .& 0x7FFFFF;
                     ((encode.[10] >> 25) .| (encode.[11] << 7)) .& 0x7FFFFF;
                     ((encode.[11] >> 16) .| (encode.[12] << 16)) .& 0x7FFFFF;
                     (encode.[12] >> 7) .& 0x7FFFFF;
                     ((encode.[12] >> 30) .| (encode.[13] << 2)) .& 0x7FFFFF;
                     ((encode.[13] >> 21) .| (encode.[14] << 11)) .& 0x7FFFFF;
                     ((encode.[14] >> 12) .| (encode.[15] << 20)) .& 0x7FFFFF;
                     (encode.[15] >> 3) .& 0x7FFFFF;
                     ((encode.[15] >> 26) .| (encode.[16] << 6)) .& 0x7FFFFF;
                     ((encode.[16] >> 17) .| (encode.[17] << 15)) .& 0x7FFFFF;
                     (encode.[17] >> 8) .& 0x7FFFFF;
                     ((encode.[17] >> 31) .| (encode.[18] << 1)) .& 0x7FFFFF;
                     ((encode.[18] >> 22) .| (encode.[19] << 10)) .& 0x7FFFFF;
                     ((encode.[19] >> 13) .| (encode.[20] << 19)) .& 0x7FFFFF;
                     (encode.[20] >> 4) .& 0x7FFFFF;
                     ((encode.[20] >> 27) .| (encode.[21] << 5)) .& 0x7FFFFF;
                     ((encode.[21] >> 18) .| (encode.[22] << 14)) .& 0x7FFFFF;
                     (encode.[22] >> 9) .& 0x7FFFFF]
  ) (unpackRest n (unaligned_unpack_23 w)) dest encode.

Definition unpack_24 (dest encode : list Z) (n : Z) : res (list Z) :=
  forBlocks 24 32 n (fun dest encode =>
    storeAll w dest [encode.[0] .& 0xFFFFFF; ((encode.[0] >> 24) .| (encode.[1] << 8)) .& 0xFFFFFF;
                     ((encode.[1] >> 16) .| (encode.[2] << 16)) .& 0xFFFFFF; (encode.[2] >> 8) .& 0xFFFFFF;
                     encode.[3] .& 0xFFFFFF; ((encode.[3] >> 24) .| (encode.[4] << 8)) .& 0xFFFFFF;
                     ((encode.[4] >> 16) .| (encode.[5] << 16)) .& 0xFFFFFF; (encode.[5] >> 8) .& 0xFFFFFF;
                     encode.[6] .& 0xFFFFFF; ((encode.[6] >> 24) .| (encode.[7] << 8)) .& 0xFFFFFF;
                     ((encode.[7] >> 16) .| (encode.[8] << 16)) .& 0xFFFFFF; (encode.[8] >> 8) .& 0xFFFFFF;
                     encode.[9] .& 0xFFFFFF; ((encode.[9] >> 24) .| (encode.[10] << 8)) .& 0xFFFFFF;
                     ((encode.[10] >> 16) .| (encode.[11] << 16)) .& 0xFFFFFF;
                     (encode.[11] >> 8) .& 0xFFFFFF; encode.[12] .& 0xFFFFFF;
                     ((encode.[12] >> 24) .| (encode.[13] << 8)) .& 0xFFFFFF;
                     ((encode.[13] >> 16) .| (encode.[14] << 16)) .& 0xFFFFFF;
                     (encode.[14] >> 8) .& 0xFFFFFF; encode.[15] .& 0xFFFFFF;
                     ((encode.[15] >> 24) .| (encode.[16] << 8)) .& 0xFFFFFF;
                     ((encode.[16] >> 16) .| (encode.[17] << 16)) .& 0xFFFFFF;
                     (encode.[17] >> 8) .& 0xFFFFFF; encode.[18] .& 0xFFFFFF;
                     ((encode.[18] >> 24) .| (encode.[19] << 8)) .& 0xFFFFFF;
                     ((encode.[19] >> 16) .| (encode.[20] << 16)) .& 0xFFFFFF;
                     (encode.[20] >> 8) .& 0xFFFFFF; encode.[21] .& 0xFFFFFF;
                     ((encode.[21] >> 24) .| (encode.[22] << 8)) .& 0xFFFFFF;
                     ((encode.[22] >> 16) .| (encode.[23] << 16)) .& 0xFFFFFF;
                     (encode.[23] >> 8) .& 0xFFFFFF]
  ) (unpackRest n (unaligned_unpack_24 w)) dest encode.

Definition unpack_25 (dest encode : list Z) (n : Z) : res (list Z) :=
  forBlocks 25 32 n (fun dest encode =>
    storeAll w dest [encode.[0] .& 0x1FFFFFF; ((encode.[0] >> 25) .| (encode.[1] << 7)) .& 0x1FFFFFF;
                     ((encode.[1] >> 18) .| (encode.[2] << 14)) .& 0x1FFFFFF;
                     ((encode.[2] >> 11) .| (encode.[3] << 21)) .& 0x1FFFFFF;
                     (encode.[3] >> 4) .& 0x1FFFFFF;
                     ((encode.[3] >> 29) .| (encode.[4] << 3)) .& 0x1FFFFFF;
                     ((encode.[4] >> 22) .| (encode.[5] << 10)) .& 0x1FFFFFF;
                     ((encode.[5] >> 15) .| (encode.[6] << 17)) .& 0x1FFFFFF;
                     ((encode.[6] >> 8) .| (encode.[7] << 24)) .& 0x1FFFFFF;
                     (encode.[7] >> 1) .& 0x1FFFFFF;
                     ((encode.[7] >> 26) .| (encode.[8] << 6)) .& 0x1FFFFFF;
                     ((encode.[8] >> 19) .| (encode.[9] << 13)) .& 0x1FFFFFF;
                     ((encode.[9] >> 12) .| (encode.[10] << 20)) .& 0x1FFFFFF;
                     (encode.[10] >> 5) .& 0x1FFFFFF;
                     ((encode.[10] >> 30) .| (encode.[11] << 2)) .& 0x1FFFFFF;
                     ((encode.[11] >> 23) .| (encode.[12] << 9)) .& 0x1FFFFFF;
                     ((encode.[12] >> 16) .| (encode.[13] << 16)) .& 0x1FFFFFF;
                     ((encode.[13] >> 9) .| (encode.[14] << 23)) .& 0x1FFFFFF;
                     (encode.[14] >> 2) .& 0x1FFFFFF;
                     ((encode.[14] >> 27) .| (encode.[15] << 5)) .& 0x1FFFFFF;
                     ((encode.[15] >> 20) .| (encode.[16] << 12)) .& 0x1FFFFFF;
                     ((encode.[16] >> 13) .| (encode.[17] << 19)) .& 0x1FFFFFF;
                     (encode.[17] >> 6) .& 0x1FFFFFF;
                     ((encode.[17] >> 31) .| (encode.[18] << 1)) .& 0x1FFFFFF;
                     ((encode.[18] >> 24) .| (encode.[19] << 8)) .& 0x1FFFFFF;
                     ((encode.[19] >> 17) .| (encode.[20] << 15)) .& 0x1FFFFFF;
                     ((encode.[20] >> 10) .| (encode.[21] << 22)) .& 0x1FFFFFF;
                     (encode.[21] >> 3) .& 0x1FFFFFF;
                     ((encode.[21] >> 28) .| (encode.[22] << 4)) .& 0x1FFFFFF;
                     ((encode.[22] >> 21) .| (encode.[23] << 11)) .& 0x1FFFFFF;
                     ((encode.[23] >> 14) .| (encode.[24] << 18)) .& 0x1FFFFFF;
                     (encode.[24] >> 7) .& 0x1FFFFFF]
  ) (unpackRest n (unaligned_unpack_25 w)) dest encode.

Definition unpack_26 (dest encode : list Z) (n : Z) : res (list Z) :=
  forBlocks 26 32 n (fun dest encode =>
    storeAll w dest [encode.[0] .& 0x3FFFFFF; ((encode.[0] >> 26) .| (encode.[1] << 6)) .& 0x3FFFFFF;
                     ((encode.[1] >> 20) .| (encode.[2] << 12)) .& 0x3FFFFFF;
                     ((encode.[2] >> 14) .| (encode.[3] << 18)) .& 0x3FFFFFF;
                     ((encode.[3] >> 8) .| (encode.[4] << 24)) .& 0x3FFFFFF;
                     (encode.[4] >> 2) .& 0x3FFFFFF;
                     ((encode.[4] >> 28) .| (encode.[5] << 4)) .& 0x3FFFFFF;
                     ((encode.[5] >> 22) .| (encode.[6] << 10)) .& 0x3FFFFFF;
                     ((encode.[6] >> 16) .| (encode.[7] << 16)) .& 0x3FFFFFF;
                     ((encode.[7] >> 10) .| (encode.[8] << 22)) .& 0x3FFFFFF;
                     (encode.[8] >> 4) .& 0x3FFFFFF;
                     ((encode.[8] >> 30) .| (encode.[9] << 2)) .& 0x3FFFFFF;
                     ((encode.[9] >> 24) .| (encode.[10] << 8)) .& 0x3FFFFFF;
                     ((encode.[10] >> 18) .| (encode.[11] << 14)) .& 0x3FFFFFF;
                     ((encode.[11] >> 12) .| (encode.[12] << 20)) .& 0x3FFFFFF;
                     (encode.[12] >> 6) .& 0x3FFFFFF; encode.[13] .& 0x3FFFFFF;
                     ((encode.[13] >> 26) .| (encode.[14] << 6)) .& 0x3FFFFFF;
                     ((encode.[14] >> 20) .| (encode.[15] << 12)) .& 0x3FFFFFF;
                     ((encode.[15] >> 14) .| (encode.[16] << 18)) .& 0x3FFFFFF;
                     ((encode.[16] >> 8) .| (encode.[17] << 24)) .& 0x3FFFFFF;
                     (encode.[17] >> 2) .& 0x3FFFFFF;
                     ((encode.[17] >> 28) .| (encode.[18] << 4)) .& 0x3FFFFFF;
                     ((encode.[18] >> 22) .| (encode.[19] << 10)) .& 0x3FFFFFF;
                     ((encode.[19] >> 16) .| (encode.[20] << 16)) .& 0x3FFFFFF;
                     ((encode.[20] >> 10) .| (encode.[21] << 22)) .& 0x3FFFFFF;
                     (encode.[21] >> 4) .& 0x3FFFFFF;
                     ((encode.[21] >> 30) .| (encode.[22] << 2)) .& 0x3FFFFFF;
                     ((encode.[22] >> 24) .| (encode.[23] << 8)) .& 0x3FFFFFF;
                     ((encode.[23] >> 18) .| (encode.[24] << 14)) .& 0x3FFFFFF;
                     ((encode.[24] >> 12) .| (encode.[25] << 20)) .& 0x3FFFFFF;
                     (encode.[25] >> 6) .& 0x3FFFFFF]
  ) (unpackRest n (unaligned_unpack_26 w)) dest encode.

Definition unpack_27 (dest encode : list Z) (n : Z) : res (list Z) :=
  forBlocks 27 32 n (fun dest encode =>
    storeAll w dest [encode.[0] .& 0x7FFFFFF; ((encode.[0] >> 27) .| (encode.[1] << 5)) .& 0x7FFFFFF;
                     ((encode.[1] >> 22) .| (encode.[2] << 10)) .& 0x7FFFFFF;
                     ((encode.[2] >> 17) .| (encode.[3] << 15)) .& 0x7FFFFFF;
                     ((encode.[3] >> 12) .| (encode.[4] << 20)) .& 0x7FFFFFF;
                     ((encode.[4] >> 7) .| (encode.[5] << 25)) .& 0x7FFFFFF;
                     (encode.[5] >> 2) .& 0x7FFFFFF;
                     ((encode.[5] >> 29) .| (encode.[6] << 3)) .& 0x7FFFFFF;
                     ((encode.[6] >> 24) .| (encode.[7] << 8)) .& 0x7FFFFFF;
                     ((encode.[7] >> 19) .| (encode.[8] << 13)) .& 0x7FFFFFF;
                     ((encode.[8] >> 14) .| (encode.[9] << 18)) .& 0x7FFFFFF;
                     ((encode.[9] >> 9) .| (encode.[10] << 23)) .& 0x7FFFFFF;
                     (encode.[10] >> 4) .& 0x7FFFFFF;
                     ((encode.[10] >> 31) .| (encode.[11] << 1)) .& 0x7FFFFFF;
                     ((encode.[11] >> 26) .| (encode.[12] << 6)) .& 0x7FFFFFF;
                     ((encode.[12] >> 21) .| (encode.[13] << 11)) .& 0x7FFFFFF;
                     ((encode.[13] >> 16) .| (encode.[14] << 16)) .& 0x7FFFFFF;
                     ((encode.[14] >> 11) .| (encode.[15] << 21)) .& 0x7FFFFFF;
                     ((encode.[15] >> 6) .| (encode.[16] << 26)) .& 0x7FFFFFF;
                     (encode.[16] >> 1) .& 0x7FFFFFF;
                     ((encode.[16] >> 28) .| (encode.[17] << 4)) .& 0x7FFFFFF;
                     ((encode.[17] >> 23) .| (encode.[18] << 9)) .& 0x7FFFFFF;
                     ((encode.[18] >> 18) .| (encode.[19] << 14)) .& 0x7FFFFFF;
                     ((encode.[19] >> 13) .| (encode.[20] << 19)) .& 0x7FFFFFF;
                     ((encode.[20] >> 8) .| (encode.[21] << 24)) .& 0x7FFFFFF;
                     (encode.[21] >> 3) .& 0x7FFFFFF;
                     ((encode.[21] >> 30) .| (encode.[22] << 2)) .& 0x7FFFFFF;
                     ((encode.[22] >> 25) .| (encode.[23] << 7)) .& 0x7FFFFFF;
                     ((encode.[23] >> 20) .| (encode.[24] << 12)) .& 0x7FFFFFF;
                     ((encode.[24] >> 15) .| (encode.[25] << 17)) .& 0x7FFFFFF;
                     ((encode.[25] >> 10) .| (encode.[26] << 22)) .& 0x7FFFFFF;
                     (encode.[26] >> 5) .& 0x7FFFFFF]
  ) (unpackRest n (unaligned_unpack_27 w)) dest encode.

Definition unpack_28 (dest encode : list Z) (n : Z) : res (list Z) :=
  forBlocks 28 32 n (fun dest encode =>
    storeAll w dest [encode.[0] .& 0xFFFFFFF; ((encode.[0] >> 28) .| (encode.[1] << 4)) .& 0xFFFFFFF;
                     ((encode.[1] >> 24) .| (encode.[2] << 8)) .& 0xFFFFFFF;
                     ((encode.[2] >> 20) .| (encode.[3] << 12)) .& 0xFFFFFFF;
                     ((encode.[3] >> 16) .| (encode.[4] << 16)) .& 0xFFFFFFF;
                     ((encode.[4] >> 12) .| (encode.[5] << 20)) .& 0xFFFFFFF;
                     ((encode.[5] >> 8) .| (encode.[6] << 24)) .& 0xFFFFFFF;
                     (encode.[6] >> 4) .& 0xFFFFFFF; encode.[7] .& 0xFFFFFFF;
                     ((encode.[7] >> 28) .| (encode.[8] << 4)) .& 0xFFFFFFF;
                     ((encode.[8] >> 24) .| (encode.[9] << 8)) .& 0xFFFFFFF;
                     ((encode.[9] >> 20) .| (encode.[10] << 12)) .& 0xFFFFFFF;
                     ((encode.[10] >> 16) .| (encode.[11] << 16)) .& 0xFFFFFFF;
                     ((encode.[11] >> 12) .| (encode.[12] << 20)) .& 0xFFFFFFF;
                     ((encode.[12] >> 8) .| (encode.[13] << 24)) .& 0xFFFFFFF;
                     (encode.[13] >> 4) .& 0xFFFFFFF; encode.[14] .& 0xFFFFFFF;
                     ((encode.[14] >> 28) .| (encode.[15] << 4)) .& 0xFFFFFFF;
                     ((encode.[15] >> 24) .| (encode.[16] << 8)) .& 0xFFFFFFF;
                     ((encode.[16] >> 20) .| (encode.[17] << 12)) .& 0xFFFFFFF;
                     ((encode.[17] >> 16) .| (encode.[18] << 16)) .& 0xFFFFFFF;
                     ((encode.[18] >> 12) .| (encode.[19] << 20)) .& 0xFFFFFFF;
                     ((encode.[19] >> 8) .| (encode.[20] << 24)) .& 0xFFFFFFF;
                     (encode.[20] >> 4) .& 0xFFFFFFF; encode.[21] .& 0xFFFFFFF;
                     ((encode.[21] >> 28) .| (encode.[22] << 4)) .& 0xFFFFFFF;
                     ((encode.[22] >> 24) .| (encode.[23] << 8)) .& 0xFFFFFFF;
                     ((encode.[23] >> 20) .| (encode.[24] << 12)) .& 0xFFFFFFF;
                     ((encode.[24] >> 16) .| (encode.[25] << 16)) .& 0xFFFFFFF;
                     ((encode.[25] >> 12) .| (encode.[26] << 20)) .& 0xFFFFFFF;
                     ((encode.[26] >> 8) .| (encode.[27] << 24)) .& 0xFFFFFFF;
                     (encode.[27] >> 4) .& 0xFFFFFFF]
  ) (unpackRest n (unaligned_unpack_28 w)) dest encode.

Definition unpack_29 (dest encode : list Z) (n : Z) : res (list Z) :=
  forBlocks 29 32 n (fun dest encode =>
    storeAll w dest [encode.[0] .& 0x1FFFFFFF; ((encode.[0] >> 29) .| (encode.[1] << 3)) .& 0x1FFFFFFF;
                     ((encode.[1] >> 26) .| (encode.[2] << 6)) .& 0x1FFFFFFF;
                     ((encode.[2] >> 23) .| (encode.[3] << 9)) .& 0x1FFFFFFF;
                     ((encode.[3] >> 20) .| (encode.[4] << 12)) .& 0x1FFFFFFF;
                     ((encode.[4] >> 17) .| (encode.[5] << 15)) .& 0x1FFFFFFF;
                     ((encode.[5] >> 14) .| (encode.[6] << 18)) .& 0x1FFFFFFF;
                     ((encode.[6] >> 11) .| (encode.[7] << 21)) .& 0x1FFFFFFF;
                     ((encode.[7] >> 8) .| (encode.[8] << 24)) .& 0x1FFFFFFF;
                     ((encode.[8] >> 5) .| (encode.[9] << 27)) .& 0x1FFFFFFF;
                     (encode.[9] >> 2) .& 0x1FFFFFFF;
                     ((encode.[9] >> 31) .| (encode.[10] << 1)) .& 0x1FFFFFFF;
                     ((encode.[10] >> 28) .| (encode.[11] << 4)) .& 0x1FFFFFFF;
                     ((encode.[11] >> 25) .| (encode.[12] << 7)) .& 0x1FFFFFFF;
                     ((encode.[12] >> 22) .| (encode.[13] << 10)) .& 0x1FFFFFFF;
                     ((encode.[13] >> 19) .| (encode.[14] << 13)) .& 0x1FFFFFFF;
                     ((encode.[14] >> 16) .| (encode.[15] << 16)) .& 0x1FFFFFFF;
                     ((encode.[15] >> 13) .| (encode.[16] << 19)) .& 0x1FFFFFFF;
                     ((encode.[16] >> 10) .| (encode.[17] << 22)) .& 0x1FFFFFFF;
                     ((encode.[17] >> 7) .| (encode.[18] << 25)) .& 0x1FFFFFFF;
                     ((encode.[18] >> 4) .| (encode.[19] << 28)) .& 0x1FFFFFFF;
                     (encode.[19] >> 1) .& 0x1FFFFFFF;
                     ((encode.[19] >> 30) .| (encode.[20] << 2)) .& 0x1FFFFFFF;
                     ((encode.[20] >> 27) .| (encode.[21] << 5)) .& 0x1FFFFFFF;
                     ((encode.[21] >> 24) .| (encode.[22] << 8)) .& 0x1FFFFFFF;
                     ((encode.[22] >> 21) .| (encode.[23] << 11)) .& 0x1FFFFFFF;
                     ((encode.[23] >> 18) .| (encode.[24] << 14)) .& 0x1FFFFFFF;
                     ((encode.[24] >> 15) .| (encode.[25] << 17)) .& 0x1FFFFFFF;
                     ((encode.[25] >> 12) .| (encode.[26] << 20)) .& 0x1FFFFFFF;
                     ((encode.[26] >> 9) .| (encode.[27] << 23)) .& 0x1FFFFFFF;
                     ((encode.[27] >> 6) .| (encode.[28] << 26)) .& 0x1FFFFFFF;
                     (encode.[28] >> 3) .& 0x1FFFFFFF]
  ) (unpackRest n (unaligned_unpack_29 w)) dest encode.

Definition unpack_30 (dest encode : list Z) (n : Z) : res (list Z) :=
  forBlocks 30 32 n (fun dest encode =>
    storeAll w dest [encode.[0] .& 0x3FFFFFFF; ((encode.[0] >> 30) .| (encode.[1] << 2)) .& 0x3FFFFFFF;
                     ((encode.[1] >> 28) .| (encode.[2] << 4)) .& 0x3FFFFFFF;
                     ((encode.[2] >> 26) .| (encode.[3] << 6)) .& 0x3FFFFFFF;
                     ((encode.[3] >> 24) .| (encode.[4] << 8)) .& 0x3FFFFFFF;
                     ((encode.[4] >> 22) .| (encode.[5] << 10)) .& 0x3FFFFFFF;
                     ((encode.[5] >> 20) .| (encode.[6] << 12)) .& 0x3FFFFFFF;
                     ((encode.[6] >> 18) .| (encode.[7] << 14)) .& 0x3FFFFFFF;
                     ((encode.[7] >> 16) .| (encode.[8] << 16)) .& 0x3FFFFFFF;
                     ((encode.[8] >> 14) .| (encode.[9] << 18)) .& 0x3FFFFFFF;
                     ((encode.[9] >> 12) .| (encode.[10] << 20)) .& 0x3FFFFFFF;
                     ((encode.[10] >> 10) .| (encode.[11] << 22)) .& 0x3FFFFFFF;
                     ((encode.[11] >> 8) .| (encode.[12] << 24)) .& 0x3FFFFFFF;
                     ((encode.[12] >> 6) .| (encode.[13] << 26)) .& 0x3FFFFFFF;
                     ((encode.[13] >> 4) .| (encode.[14] << 28)) .& 0x3FFFFFFF;
                     (encode.[14] >> 2) .& 0x3FFFFFFF; encode.[15] .& 0x3FFFFFFF;
                     ((encode.[15] >> 30) .| (encode.[16] << 2)) .& 0x3FFFFFFF;
                     ((encode.[16] >> 28) .| (encode.[17] << 4)) .& 0x3FFFFFFF;
                     ((encode.[17] >> 26) .| (encode.[18] << 6)) .& 0x3FFFFFFF;
                     ((encode.[18] >> 24) .| (encode.[19] << 8)) .& 0x3FFFFFFF;
                     ((encode.[19] >> 22) .| (encode.[20] << 10)) .& 0x3FFFFFFF;
                     ((encode.[20] >> 20) .| (encode.[21] << 12)) .& 0x3FFFFFFF;
                     ((encode.[21] >> 18) .| (encode.[22] << 14)) .& 0x3FFFFFFF;
                     ((encode.[22] >> 16) .| (encode.[23] << 16)) .& 0x3FFFFFFF;
                     ((encode.[23] >> 14) .| (encode.[24] << 18)) .& 0x3FFFFFFF;
                     ((encode.[24] >> 12) .| (encode.[25] << 20)) .& 0x3FFFFFFF;
                     ((encode.[25] >> 10) .| (encode.[26] << 22)) .& 0x3FFFFFFF;
                     ((encode.[26] >> 8) .| (encode.[27] << 24)) .& 0x3FFFFFFF;
                     ((encode.[27] >> 6) .| (encode.[28] << 26)) .& 0x3FFFFFFF;
                     ((encode.[28] >> 4) .| (encode.[29] << 28)) .& 0x3FFFFFFF;
                     (encode.[29] >> 2) .& 0x3FFFFFFF]
  ) (unpackRest n (unaligned_unpack_30 w)) dest encode.

Definition unpack_31 (dest encode : list Z) (n : Z) : res (list Z) :=
  forBlocks 31 32 n (fun dest encode =>
    storeAll w dest [encode.[0] .& 0x7FFFFFFF; ((encode.[0] >> 31) .| (encode.[1] << 1)) .& 0x7FFFFFFF;
                     ((encode.[1] >> 30) .| (encode.[2] << 2)) .& 0x7FFFFFFF;
                     ((encode.[2] >> 29) .| (encode.[3] << 3)) .& 0x7FFFFFFF;
                     ((encode.[3] >> 28) .| (encode.[4] << 4)) .& 0x7FFFFFFF;
                     ((encode.[4] >> 27) .| (encode.[5] << 5)) .& 0x7FFFFFFF;
                     ((encode.[5] >> 26) .| (encode.[6] << 6)) .& 0x7FFFFFFF;
                     ((encode.[6] >> 25) .| (encode.[7] << 7)) .& 0x7FFFFFFF;
                     ((encode.[7] >> 24) .| (encode.[8] << 8)) .& 0x7FFFFFFF;
                     ((encode.[8] >> 23) .| (encode.[9] << 9)) .& 0x7FFFFFFF;
                     ((encode.[9] >> 22) .| (encode.[10] << 10)) .& 0x7FFFFFFF;
                     ((encode.[10] >> 21) .| (encode.[11] << 11)) .& 0x7FFFFFFF;
                     ((encode.[11] >> 20) .| (encode.[12] << 12)) .& 0x7FFFFFFF;
                     ((encode.[12] >> 19) .| (encode.[13] << 13)) .& 0x7FFFFFFF;
                     ((encode.[13] >> 18) .| (encode.[14] << 14)) .& 0x7FFFFFFF;
                     ((encode.[14] >> 17) .| (encode.[15] << 15)) .& 0x7FFFFFFF;
                     ((encode.[15] >> 16) .| (encode.[16] << 16)) .& 0x7FFFFFFF;
                     ((encode.[16] >> 15) .| (encode.[17] << 17)) .& 0x7FFFFFFF;
                     ((encode.[17] >> 14) .| (encode.[18] << 18)) .& 0x7FFFFFFF;
                     ((encode.[18] >> 13) .| (encode.[19] << 19)) .& 0x7FFFFFFF;
                     ((encode.[19] >> 12) .| (encode.[20] << 20)) .& 0x7FFFFFFF;
                     ((encode.[20] >> 11) .| (encode.[21] << 21)) .& 0x7FFFFFFF;
                     ((encode.[21] >> 10) .| (encode.[22] << 22)) .& 0x7FFFFFFF;
                     ((encode.[22] >> 9) .| (encode.[23] << 23)) .& 0x7FFFFFFF;
                     ((encode.[23] >> 8) .| (encode.[24] << 24)) .& 0x7FFFFFFF;
                     ((encode.[24] >> 7) .| (encode.[25] << 25)) .& 0x7FFFFFFF;
                     ((encode.[25] >> 6) .| (encode.[26] << 26)) .& 0x7FFFFFFF;
                     ((encode.[26] >> 5) .| (encode.[27] << 27)) .& 0x7FFFFFFF;
                     ((encode.[27] >> 4) .| (encode.[28] << 28)) .& 0x7FFFFFFF;
                     ((encode.[28] >> 3) .| (encode.[29] << 29)) .& 0x7FFFFFFF;
                     ((encode.[29] >> 2) .| (encode.[30] << 30)) .& 0x7FFFFFFF;
                     (encode.[30] >> 1) .& 0x7FFFFFFF]
  ) (unpackRest n (unaligned_unpack_31 w)) dest encode.

Definition unpack_32 (dest encode : list Z) (n : Z) : res (list Z) :=
  forBlocks 32 32 n (fun dest encode =>
    storeAll w dest [encode.[0] .& 0xFFFFFFFF; encode.[1] .& 0xFFFFFFFF; encode.[2] .& 0xFFFFFFFF;
                     encode.[3] .& 0xFFFFFFFF; encode.[4] .& 0xFFFFFFFF; encode.[5] .& 0xFFFFFFFF;
                     encode.[6] .& 0xFFFFFFFF; encode.[7] .& 0xFFFFFFFF; encode.[8] .& 0xFFFFFFFF;
                     encode.[9] .& 0xFFFFFFFF; encode.[10] .& 0xFFFFFFFF; encode.[11] .& 0xFFFFFFFF;
                     encode.[12] .& 0xFFFFFFFF; encode.[13] .& 0xFFFFFFFF; encode.[14] .& 0xFFFFFFFF;
                     encode.[15] .& 0xFFFFFFFF; encode.[16] .& 0xFFFFFFFF; encode.[17] .& 0xFFFFFFFF;
                     encode.[18] .& 0xFFFFFFFF; encode.[19] .& 0xFFFFFFFF; encode.[20] .& 0xFFFFFFFF;
                     encode.[21] .& 0xFFFFFFFF; encode.[22] .& 0xFFFFFFFF; encode.[23] .& 0xFFFFFFFF;
                     encode.[24] .& 0xFFFFFFFF; encode.[25] .& 0xFFFFFFFF; encode.[26] .& 0xFFFFFFFF;
                     encode.[27] .& 0xFFFFFFFF; encode.[28] .& 0xFFFFFFFF; encode.[29] .& 0xFFFFFFFF;
                     encode.[30] .& 0xFFFFFFFF; encode.[31] .& 0xFFFFFFFF]
  ) (unpackRest n copyRest) dest encode.

(** The table of [NosseNewPForDeltaCompressor::DecompressBlock]. *)
Definition unpack_func : list (list Z -> list Z -> Z -> res (list Z)) :=
  [unpack_0; unpack_1; unpack_2; unpack_3; unpack_4; unpack_5; unpack_6; unpack_7; unpack_8; unpack_9;
   unpack_10; unpack_11; unpack_12; unpack_13; unpack_14; unpack_15; unpack_16; unpack_17; unpack_18;
   unpack_19; unpack_20; unpack_21; unpack_22; unpack_23; unpack_24; unpack_25; unpack_26; unpack_27;
   unpack_28; unpack_29; unpack_30; unpack_31; unpack_32].
End Unpack.
