(* ===== verification/PackCorrect.v ===== *)
(** * Packing is a change of base

    [pack] and [pack_0] to [pack_32] write the number whose digits are the values. *)

From stdpp Require Import base list numbers option tactics.
From Stdlib Require Import ZArith Lia ZifyNat.
From S2P Require Import Prelude Bits WordCode WordStream BlockLoops Pack.

#[local] Open Scope Z_scope.

(** ** [pack] *)

Lemma lookup_map_seq {A : Type} (f : nat -> A) W i : (i < W)%nat -> map f (seq 0 W) !! i = Some (f i).
Proof.
  intros. change (map f (seq 0 W)) with (f <$> seq 0 W). rewrite list_lookup_fmap, lookup_seq_lt by done. done.
Qed.

Lemma insert_map_seq {A : Type} (f : nat -> A) W j v :
  (j < W)%nat -> <[j := v]> (map f (seq 0 W)) = map (fun i => if decide (i = j) then v else f i) (seq 0 W).
Proof.
  intros Hj. apply list_eq_same_length with W; rewrite ?length_insert, ?length_map, ?length_seq; [done..|].
  intros i x y Hi. rewrite lookup_map_seq by done. destruct (decide (i = j)) as [->|Hne].
  - rewrite list_lookup_insert_eq by (by rewrite length_map, length_seq). naive_solver.
  - rewrite list_lookup_insert_ne, lookup_map_seq by done. naive_solver.
Qed.

Lemma lookup_digits b n N i : (i < n)%nat -> digits b n N !! i = Some (field (b * Z.of_nat i) b N).
Proof. apply (lookup_map_seq (fun i => field (b * Z.of_nat i) b N)). Qed.

Lemma orWord_digits W N j v tail :
  0 <= j < Z.of_nat W ->
  orWord (digits 32 W N ++ tail) j v =
  Ok (map (fun i => if decide (i = Z.to_nat j) then Z.lor (field (32 * j) 32 N) v
                    else field (32 * Z.of_nat i) 32 N) (seq 0 W) ++ tail).
Proof.
  intros Hj. unfold orWord. rewrite lookup_app_l by (rewrite digits_length; lia).
  rewrite lookup_digits by lia. cbn [deref res_bind]. rewrite insert_app_l by (rewrite digits_length; lia).
  unfold digits. rewrite insert_map_seq by lia. by rewrite Z2Nat.id by lia.
Qed.

(** The number with one more value on top. *)
Lemma testbit_push N x P k n :
  fits P N -> fits k x -> 0 <= P -> 0 <= k -> 0 <= n ->
  Z.testbit (N + 2 ^ P * x) n = if n <? P then Z.testbit N n else Z.testbit x (n - P).
Proof.
  intros HN Hx HP Hk Hn. destruct (Z.ltb_spec n P).
  - rewrite <- (Z.mod_pow2_bits_low (N + _) P) by lia.
    rewrite (Z.mul_comm (2 ^ P)), Z_mod_plus_full, Z.mod_small; [done | exact HN].
  - replace n with (n - P + P) at 1 by lia. rewrite <- Z.div_pow2_bits by lia. f_equal.
    rewrite (Z.mul_comm (2 ^ P)), Z.div_add by (apply Z.pow_nonzero; lia).
    rewrite Z.div_small by exact HN. done.
Qed.

(** The word of the new number at [i], from the word of the old one. *)
Lemma field_push N x P k i off j :
  fits P N -> fits k x -> 0 <= k <= 32 -> P = 32 * j + off -> 0 <= off < 32 -> 0 <= j -> 0 <= i ->
  field (32 * i) 32 (N + 2 ^ P * x) =
  if i =? j then Z.lor (field (32 * j) 32 N) (u32 (Z.shiftl x off))
  else if i =? j + 1 then Z.shiftr x (32 - off)
  else field (32 * i) 32 N.
Proof.
  intros HN Hx Hk HP Hoff Hj Hi. apply Z.bits_inj'. intros m Hm. rewrite testbit_field by lia.
  rewrite (testbit_push N x P k) by (done || lia).
  destruct (Z.eqb_spec i j) as [->|Hne].
  - rewrite Z.lor_spec, testbit_u32, Z.shiftl_spec, testbit_field by lia.
    destruct (Z.ltb_spec m 32); [|done]. cbn. destruct (Z.ltb_spec (32 * j + m) P).
    + rewrite (Z.testbit_neg_r x) by lia. by rewrite orb_false_r.
    + rewrite (testbit_high N P) by (done || lia). cbn. f_equal. lia.
  - destruct (Z.eqb_spec i (j + 1)) as [->|Hne'].
    + rewrite Z.shiftr_spec by lia. destruct (Z.ltb_spec m 32); cbn.
      * destruct (Z.ltb_spec (32 * (j + 1) + m) P); [lia|]. f_equal. lia.
      * symmetry. apply (testbit_high x k); [done | lia | lia].
    + rewrite testbit_field by lia. destruct (Z.ltb_spec m 32); [|done]. cbn.
      destruct (Z.ltb_spec (32 * i + m) P); [done|].
      rewrite (testbit_high x k) by (done || lia). by rewrite (testbit_high N P) by (done || lia).
Qed.

Lemma field_above N P pos len : fits P N -> 0 <= P <= pos -> field pos len N = 0.
Proof.
  intros HN HP. unfold field. rewrite Z.shiftr_div_pow2, Z.div_small; [done| |lia].
  exact (fits_le P pos N ltac:(lia) ltac:(lia) HN).
Qed.

Lemma shiftr_above x k n : fits k x -> 0 <= k <= n -> Z.shiftr x n = 0.
Proof.
  intros Hx Hk. rewrite Z.shiftr_div_pow2 by lia. apply Z.div_small.
  exact (fits_le k n x ltac:(lia) ltac:(lia) Hx).
Qed.

(** One iteration of [pack] adds a value on top of the number. *)
Lemma pack_step W N x P k tail :
  fits P N -> fits k x -> 0 < k <= 32 -> 0 <= P -> P + k <= 32 * Z.of_nat W -> 32 * Z.of_nat W + 32 < 2 ^ 32 ->
  (let! dest := orWord (digits 32 W N ++ tail) (P / 32) (u32 (Z.shiftl x (P mod 32))) in
   if 31 <? u32 (P mod 32 + k - 1) then orWord dest (u32 (P / 32 + 1)) (Z.shiftr x (32 - P mod 32)) else Ok dest) =
  Ok (digits 32 W (N + 2 ^ P * x) ++ tail).
Proof.
  intros HN Hx Hk HP HPk HW. pose proof (Z.div_mod P 32 ltac:(lia)) as Hdm.
  pose proof (Z.mod_pos_bound P 32 ltac:(lia)) as Hmod. pose proof (Z.div_pos P 32 ltac:(lia) ltac:(lia)).
  set (j := P / 32) in *. set (off := P mod 32) in *.
  rewrite orWord_digits by lia. cbn [res_bind].
  rewrite (u32_small (off + k - 1)), (u32_small (j + 1)) by lia.
  assert (forall i, 0 <= i -> field (32 * i) 32 (N + 2 ^ P * x) = _) as Hpush
    by (intros i Hi; apply (field_push N x P k i off j); done || lia).
  destruct (Z.ltb_spec 31 (off + k - 1)).
  - assert (j + 1 < Z.of_nat W) by lia. unfold orWord.
    rewrite lookup_app_l by (rewrite length_map, length_seq; lia).
    rewrite lookup_map_seq by lia. cbn [deref res_bind].
    rewrite insert_app_l by (rewrite length_map, length_seq; lia). rewrite insert_map_seq by lia.
    f_equal. f_equal. unfold digits. apply map_ext_in. intros i Hi%in_seq. rewrite Hpush by lia.
    destruct (decide (i = Z.to_nat (j + 1))) as [->|Hne].
    + rewrite decide_False by lia. rewrite (proj2 (Z.eqb_neq _ _)), (proj2 (Z.eqb_eq _ _)) by lia.
      rewrite (field_above N P) by (done || lia). apply Z.lor_0_l.
    + rewrite (proj2 (Z.eqb_neq _ (j + 1))) by lia. destruct (decide (i = Z.to_nat j)) as [->|].
      * by rewrite Z2Nat.id, Z.eqb_refl by lia.
      * by rewrite (proj2 (Z.eqb_neq _ j)) by lia.
  - f_equal. f_equal. unfold digits. apply map_ext_in. intros i Hi%in_seq. rewrite Hpush by lia.
    destruct (decide (i = Z.to_nat j)) as [->|Hne].
    + rewrite Z2Nat.id, Z.eqb_refl by lia. done.
    + rewrite (proj2 (Z.eqb_neq _ _)) by lia. destruct (Z.eqb_spec (Z.of_nat i) (j + 1)) as [E|]; [|done].
      rewrite E, (field_above N P), (shiftr_above x k) by (done || lia). done.
Qed.

Lemma num_snoc b l x : 0 <= b -> num b (l ++ [x]) = num b l + 2 ^ (b * Z.of_nat (length l)) * x.
Proof. intros. rewrite num_app by done. cbn. lia. Qed.

Lemma packLoop_ok k W enc tail left i :
  0 < k <= 32 -> (i + left <= length enc)%nat -> Forall (fits k) (take (i + left) enc) ->
  k * Z.of_nat (i + left) <= 32 * Z.of_nat W -> 32 * Z.of_nat W + 32 < 2 ^ 32 ->
  packLoop left i (digits 32 W (num k (take i enc)) ++ tail) enc
    ((k * Z.of_nat i) mod 32) ((k * Z.of_nat i) / 32) k =
  Ok (digits 32 W (num k (take (i + left) enc)) ++ tail).
Proof.
  intros Hk. revert i. induction left as [|left IH]; intros i Hlen Hf Hbits HW; cbn [packLoop].
  { by rewrite Nat.add_0_r. }
  destruct (lookup_lt_is_Some_2 enc i ltac:(lia)) as [x Hx]. rewrite Hx. cbn [deref res_bind].
  assert (take (S i) enc = take i enc ++ [x]) as Ht by (by apply take_S_r).
  assert (Forall (fits k) (take i enc) /\ fits k x) as [Hfi Hfx].
  { replace (i + S left)%nat with (S i + left)%nat in Hf by lia. rewrite take_add_drop, Ht in Hf.
    apply Forall_app in Hf as [[??]%Forall_app _]. split; [done|]. by eapply Forall_singleton. }
  pose proof (num_bound k (take i enc) ltac:(lia) Hfi) as HN. rewrite length_take, Nat.min_l in HN by lia.
  pose proof (pack_step W (num k (take i enc)) x (k * Z.of_nat i) k tail HN Hfx Hk ltac:(lia) ltac:(nia) HW) as Hs.
  destruct (orWord (digits 32 W (num k (take i enc)) ++ tail) _ _) as [d| | |]; cbn [res_bind] in *; try done.
  rewrite Hs. cbn [res_bind].
  assert (num k (take i enc) + 2 ^ (k * Z.of_nat i) * x = num k (take (S i) enc)) as ->.
  { rewrite Ht, num_snoc, length_take, Nat.min_l by lia. done. }
  pose proof (Z.mod_pos_bound (k * Z.of_nat i) 32 ltac:(lia)).
  pose proof (Z.div_mod (k * Z.of_nat i) 32 ltac:(lia)).
  pose proof (Z.div_pos (k * Z.of_nat i) 32 ltac:(lia) ltac:(lia)).
  pose proof (Z.div_mod ((k * Z.of_nat i) mod 32 + k) 32 ltac:(lia)).
  pose proof (Z.mod_pos_bound ((k * Z.of_nat i) mod 32 + k) 32 ltac:(lia)).
  rewrite (u32_small ((k * Z.of_nat i) mod 32 + k)) by lia.
  change 31 with (Z.ones 5). rewrite Z.land_ones, Z.shiftr_div_pow2 by lia. change (2 ^ 5) with 32.
  rewrite u32_small by nia.
  replace (((k * Z.of_nat i) mod 32 + k) mod 32) with ((k * Z.of_nat (S i)) mod 32).
  2:{ rewrite Zplus_mod_idemp_l. f_equal. lia. }
  replace ((k * Z.of_nat i) / 32 + ((k * Z.of_nat i) mod 32 + k) / 32) with ((k * Z.of_nat (S i)) / 32).
  2:{ replace (k * Z.of_nat (S i)) with ((k * Z.of_nat i) mod 32 + k + (k * Z.of_nat i) / 32 * 32) by lia.
      rewrite Z.div_add by lia. lia. }
  replace (i + S left)%nat with (S i + left)%nat in * by lia. by apply IH.
Qed.

Lemma digits_0 b n : digits b n 0 = replicate n 0.
Proof.
  apply (nth_ext _ _ 0 0); rewrite digits_length; [by rewrite length_replicate|]. intros i Hi.
  rewrite nth_digits, nth_replicate by done. unfold field. by rewrite Z.shiftr_0_l.
Qed.

Lemma Forall_eq_replicate (l : list Z) : Forall (eq 0) l -> l = replicate (length l) 0.
Proof. induction 1 as [|x l <- _ IH]; cbn; [done|]. by f_equal. Qed.

Lemma map_cast_fits w l : Forall (fits w) l -> map (cast w) l = l.
Proof. induction 1 as [|x l Hx _ IH]; cbn; [done|]. rewrite IH. f_equal. by apply Z.mod_small. Qed.

(** [pack] on a cleared destination. *)
Lemma pack_converts k r :
  (0 < k <= 32)%nat -> 0 <= r < 2 ^ 25 ->
  converts 32 true 32 k (ceil (k * Z.to_nat r) 32) (Z.to_nat r) (fun dest enc => pack dest enc r (Z.of_nat k)).
Proof.
  intros Hk Hr. set (W := ceil _ 32). pose proof (ceil_spec (k * Z.to_nat r) 32 ltac:(lia)) as HW. fold W in HW.
  split. intros dest enc Hd He Hf Hz. specialize (Hz eq_refl).
  rewrite map_cast_fits by (by apply digits_fits).
  apply Forall_eq_replicate in Hz. rewrite length_take, Nat.min_l, <- (digits_0 32) in Hz by lia.
  unfold pack. rewrite <- (take_drop W dest) at 1. rewrite Hz.
  pose proof (packLoop_ok (Z.of_nat k) W enc (drop W dest) (Z.to_nat r) 0) as H.
  cbn [Nat.add] in H. rewrite Z.mul_0_r in H.
  assert (k * Z.to_nat r <= 32 * Z.to_nat r)%nat by nia. apply H; try done; lia.
Qed.

Lemma packRest_converts k n :
  (0 < k <= 32)%nat -> 0 <= n ->
  converts 32 true 32 k (ceil (k * Z.to_nat (n mod 32)) 32) (Z.to_nat (n mod 32)) (packRest n (Z.of_nat k)).
Proof.
  intros Hk Hn. pose proof (Z.mod_pos_bound n 32 ltac:(lia)). unfold packRest.
  destruct (Z.ltb_spec 0 (n mod 32)); [apply pack_converts; lia|].
  replace (n mod 32) with 0 by lia. split. intros dest enc _ _ _ _.
  replace (ceil _ 32) with 0%nat; [done|]. apply ceil_unique; lia.
Qed.

(** The function packs [n] values of [k] bits on cleared words; those for whole blocks of 32 values it overwrites, whatever
    they hold. *)
Record packs (k : nat) (n : Z) (f : list Z -> list Z -> res (list Z)) : Prop := {
  packs_converts : converts 32 true 32 k (ceil (k * Z.to_nat n) 32) (Z.to_nat n) f;
  packs_overwrites dest dest' enc :
    length dest' = length dest -> (ceil (k * Z.to_nat n) 32 <= length dest)%nat -> (Z.to_nat n <= length enc)%nat ->
    Forall (fits (Z.of_nat k)) (take (Z.to_nat n) enc) ->
    drop (k * Z.to_nat (n / 32)) dest' = drop (k * Z.to_nat (n / 32)) dest -> f dest' enc = f dest enc
}.

(** A function that packs blocks of 32 values and leaves the rest to [pack]. *)
Lemma pack_function k n body :
  (0 < k <= 32)%nat -> 0 <= n < 2 ^ 31 -> converts 32 false 32 k k 32 body ->
  packs k n (forBlocks 32 k n body (packRest n (Z.of_nat k))).
Proof.
  intros Hk Hn Hbody.
  pose proof (forBlocks_converts 32 true 32 k 32 k n _ _ body _ ltac:(lia) ltac:(lia) ltac:(lia) ltac:(lia)
    (converts_weaken _ _ _ _ _ _ _ Hbody) (packRest_converts k n Hk ltac:(lia))) as H.
  pose proof (Z.div_mod n 32 ltac:(lia)). pose proof (Z.mod_pos_bound n 32 ltac:(lia)).
  pose proof (Z.div_pos n 32 ltac:(lia) ltac:(lia)).
  pose proof (ceil_spec (k * Z.to_nat (n mod 32)) 32 ltac:(lia)).
  assert (ceil (k * Z.to_nat n) 32 = Z.to_nat (n / 32) * k + ceil (k * Z.to_nat (n mod 32)) 32)%nat as Hceil.
  { symmetry. apply ceil_unique; [lia|]. replace (Z.to_nat n) with (32 * Z.to_nat (n / 32) + Z.to_nat (n mod 32))%nat by lia. nia. }
  assert (Z.to_nat n = Z.to_nat (n / 32) * 32 + Z.to_nat (n mod 32))%nat as Hsplit by lia.
  split; rewrite Hceil; [by rewrite Hsplit|]. rewrite Hsplit.
  intros dest dest' enc Hl Hd He Hf Hdrop. rewrite !forBlocks_eq by lia. rewrite (Nat.mul_comm k) in Hdrop.
  by apply (maxBlocksLoop_overwrites 32 32 k 32 k (Z.to_nat (n mod 32))); try lia.
Qed.

(** ** The unrolled functions *)

(** Split on a position of a table of functions. *)
Ltac table_cases k Hf :=
  repeat (destruct k as [|k]; cbn in Hf;
          [injection Hf as <- | try discriminate Hf]).

(** Every function of the table packs values of its width. *)
Lemma pack_func_packs k f n : pack_func !! k = Some f -> 0 <= n < 2 ^ 31 -> packs k n (fun dest enc => f dest enc n).
Proof.
  intros Hf Hn. unfold pack_func in Hf. table_cases k Hf.
  { split; [by split; intros dest enc _ _ _ _|]. intros dest dest' enc _ _ _ _ Hdrop. cbn in Hdrop. rewrite !drop_0 in Hdrop. by subst. }
  all: refine (pack_function _ n _ _ Hn _); [lia|]; convert_block 32%nat.
Qed.

Lemma pack_func_converts k f n :
  pack_func !! k = Some f -> 0 <= n < 2 ^ 31 ->
  converts 32 true 32 k (ceil (k * Z.to_nat n) 32) (Z.to_nat n) (fun dest enc => f dest enc n).
Proof. intros Hf Hn. by apply pack_func_packs. Qed.
