(* ===== verification/UnpackCorrect.v ===== *)
(** * Unpacking is a change of base

    [unaligned_unpack_0] to [unaligned_unpack_31] and [unpack_0] to [unpack_32] write the digits of the
    number that the words stand for. *)

From stdpp Require Import base list numbers option tactics.
From Stdlib Require Import ZArith Lia ZifyNat.
From S2P Require Import Prelude Bits WordCode WordStream BlockLoops UnalignedUnpack Unpack PackCorrect.

#[local] Open Scope Z_scope.

(** ** Straight line code with early returns *)

Lemma digits_S b n N : digits b (S n) N = digits b n N ++ [field (b * Z.of_nat n) b N].
Proof. unfold digits. rewrite seq_S, map_app. done. Qed.

(** What [decode] holds when [i] values are written. *)
Definition written (w : Z) (k i : nat) (N : Z) (decode : list Z) : list Z :=
  map (cast w) (digits (Z.of_nat k) i N) ++ drop i decode.

Lemma put_step w k q enc decode i n e (kont : list Z -> res (list Z)) r :
  check ((k * i + k + 31) / 32) 32 (k * i) k e = true ->
  (i < n)%nat -> (n <= length decode)%nat -> (k * n <= 32 * q)%nat -> (q <= length enc)%nat ->
  Forall (fits 32) (take q enc) ->
  kont (written w k (S i) (num 32 (take q enc)) decode) = r ->
  res_bind (store w (written w k i (num 32 (take q enc)) decode) i (wmon enc e)) kont = r.
Proof.
  intros Hc Hi Hn Hq Hlen Hf <-.
  assert (wbelow ((k * i + k + 31) / 32) e = true) as Hb.
  { unfold check in Hc. apply andb_true_iff in Hc as [Hc _]. by apply andb_true_iff in Hc as [? _]. }
  pose proof (Nat.div_mod (k * i + k + 31) 32 ltac:(lia)).
  assert (((k * i + k + 31) / 32 <= q)%nat) as Hm by nia.
  rewrite (wmon_take enc e q) by (by apply (wbelow_mono _ _ _ Hb) || done).
  rewrite (check_ok (take q enc) _ 32 (k * i) k e Hc); [|rewrite length_take; lia | lia | done].
  unfold written. assert (length (map (cast w) (digits (Z.of_nat k) i (num 32 (take q enc)))) = i) as Hl
    by (by rewrite length_map, digits_length).
  rewrite store_ok by (rewrite length_app, Hl, length_drop; lia). cbn [res_bind]. f_equal.
  rewrite insert_app_r_alt by lia. rewrite Hl, Nat.sub_diag.
  destruct (lookup_lt_is_Some_2 decode i ltac:(lia)) as [x Hx]. rewrite (drop_S decode x i Hx).
  cbn [insert list_insert]. rewrite digits_S, map_app, <- app_assoc. cbn [map app].
  by rewrite Nat2Z.inj_mul.
Qed.

Lemma countdown_step w k N decode i n (kont : Z -> res (list Z)) :
  (i < n)%nat -> Z.of_nat n < 2 ^ 32 ->
  ((S i < n)%nat -> kont (Z.of_nat (n - S i)) = Ok (written w k n N decode)) ->
  countdown (Z.of_nat (n - i)) (written w k (S i) N decode) kont = Ok (written w k n N decode).
Proof.
  intros Hi Hn Hk. unfold countdown. rewrite u32_small by lia.
  destruct (Z.eqb_spec (Z.of_nat (n - i) - 1) 0).
  - by replace n with (S i) by lia.
  - replace (Z.of_nat (n - i) - 1) with (Z.of_nat (n - S i)) by lia. apply Hk. lia.
Qed.

(** The number of words an expression reads. *)
Fixpoint wreads (e : wexpr) : nat :=
  match e with
  | WRead i | WVal i => S i
  | WZero => 0%nat
  | WAnd e _ | WShl e _ | WShr e _ => wreads e
  | WOr e1 e2 => Nat.max (wreads e1) (wreads e2)
  end.

(** Execute the statements one by one. *)
Ltac unaligned_step k n :=
  lazymatch goal with
  | enc : list Z, decode : list Z, Hq : (_ <= 32 * ?q)%nat, He : (?q <= length ?enc)%nat,
    Hd : (n <= length ?decode)%nat, Hf : Forall (fits 32) (take ?q ?enc), Hi : (?i < n)%nat |- _ =>
      lazymatch goal with
      | |- assign ?t ?kont = ?r =>
          let e := reify enc t in
          let m := eval vm_compute in (wreads e) in
          refine (assign_step enc e m t kont r eq_refl eq_refl _ _); [lia | cbv beta]
      | |- res_bind (store ?w _ ?j ?t) ?kont = ?r =>
          let e := reify enc t in
          change (res_bind (store w (written w k j (num 32 (take q enc)) decode) j (wmon enc e)) kont = r);
          refine (put_step w k q enc decode j n e kont r _ Hi Hd Hq He Hf _);
          [vm_compute; reflexivity | cbv beta]
      | |- countdown _ _ ?kont = _ =>
          refine (countdown_step _ k _ decode i n kont Hi _ _);
          [lia | clear Hi; intros Hi; cbv beta]
      | |- Ok (written ?w k ?j ?N decode) = Ok _ =>
          replace n with j by lia; reflexivity
      end
  end.

(** [f] unpacks [n] values. *)
Definition unpacks (w : Z) (k n : nat) (f : list Z -> list Z -> res (list Z)) : Prop :=
  converts w false k 32 n (ceil (k * n) 32) f.

Ltac unaligned_straight k :=
  split; intros decode enc Hd He Hf _;
  match type of Hd with (?n <= _)%nat =>
    pose proof (proj1 (ceil_spec (k * n) 32 ltac:(lia))) as Hq;
    set (q := ceil (k * n) 32) in *; clearbody q;
    assert (Hi : (0 < n)%nat) by lia;
    change (Forall (fits 32) (take q enc)) in Hf;
    lazymatch goal with
    | |- ?lhs = Ok (map (cast ?w) _ ++ _) =>
        change (lhs = Ok (written w k n (num 32 (take q enc)) decode))
    end;
    cbv beta zeta; repeat unaligned_step k n
  end.

(** ** Blocks before the straight line code *)

Lemma unaligned_of_blocks w k sh din per n body tail :
  (k * per = 32 * din)%nat -> 0 <= sh -> Z.of_nat per = 2 ^ sh -> 0 <= n ->
  converts w false k 32 per din body -> unpacks w k (Z.to_nat (n mod Z.of_nat per)) tail ->
  unpacks w k (Z.to_nat n) (upToMaxBlocks (Z.shiftr n sh) din per body tail).
Proof.
  intros Hk Hsh Hper Hn Hbody Htail. rewrite Z.shiftr_div_pow2 by done. rewrite <- Hper.
  assert (0 < Z.of_nat per) by (rewrite Hper; apply Z.pow_pos_nonneg; lia).
  pose proof (upToMaxBlocks_converts w false k 32 din per (n / Z.of_nat per) _ _ body tail Hk ltac:(lia) Hbody Htail) as Hconv.
  pose proof (Z.div_mod n (Z.of_nat per) ltac:(lia)). pose proof (Z.mod_pos_bound n (Z.of_nat per) ltac:(lia)).
  pose proof (Z.div_pos n (Z.of_nat per) ltac:(lia) ltac:(lia)).
  assert (Z.to_nat n = Z.to_nat (n / Z.of_nat per) * per + Z.to_nat (n mod Z.of_nat per))%nat as Hsum by nia.
  pose proof (ceil_spec (k * Z.to_nat (n mod Z.of_nat per)) 32 ltac:(lia)).
  unfold unpacks. replace (ceil (k * Z.to_nat n) 32)
    with (Z.to_nat (n / Z.of_nat per) * din + ceil (k * Z.to_nat (n mod Z.of_nat per)) 32)%nat.
  2:{ apply ceil_unique; [lia|]. rewrite Hsum. nia. }
  rewrite Hsum. exact Hconv.
Qed.

Lemma unpacks_rest w k rest tail :
  (0 < rest -> unpacks w k (Z.to_nat rest) tail) -> 0 <= rest ->
  unpacks w k (Z.to_nat rest) (fun decode enc => if rest =? 0 then Ok decode else tail decode enc).
Proof.
  intros H Hr. destruct (Z.eqb_spec rest 0) as [->|]; [|apply H; lia].
  split. intros dest enc _ _ _ _. done.
Qed.

Lemma unaligned_unpack_0_ok w n : 0 <= n -> unpacks w 0 (Z.to_nat n) (fun d e => unaligned_unpack_0 w d e n).
Proof.
  intros Hn. split. intros dest enc Hd _ _ _. unfold unaligned_unpack_0.
  rewrite <- (fmap_replicate Ok). change (Ok <$> ?l) with (map Ok l).
  rewrite storeAll_ok by (by rewrite length_replicate). rewrite length_replicate. do 2 f_equal.
  unfold digits. rewrite map_map. apply list_eq. intros i.
  destruct (Nat.lt_ge_cases i (Z.to_nat n)) as [Hi|Hi].
  - change (map (cast w) ?l) with (cast w <$> l). rewrite list_lookup_fmap, lookup_replicate_2 by done.
    rewrite (lookup_map_seq (fun x => cast w (field _ _ _))) by done. cbn. unfold field.
    by rewrite Z.mod_1_r.
  - rewrite !lookup_ge_None_2; [done | rewrite length_map, length_seq; lia |].
    rewrite length_map, length_replicate. lia.
Qed.

Definition unaligned_table (w : Z) : list (list Z -> list Z -> Z -> res (list Z)) :=
  [unaligned_unpack_0 w; unaligned_unpack_1 w; unaligned_unpack_2 w; unaligned_unpack_3 w;
   unaligned_unpack_4 w; unaligned_unpack_5 w; unaligned_unpack_6 w; unaligned_unpack_7 w;
   unaligned_unpack_8 w; unaligned_unpack_9 w; unaligned_unpack_10 w; unaligned_unpack_11 w;
   unaligned_unpack_12 w; unaligned_unpack_13 w; unaligned_unpack_14 w; unaligned_unpack_15 w;
   unaligned_unpack_16 w; unaligned_unpack_17 w; unaligned_unpack_18 w; unaligned_unpack_19 w;
   unaligned_unpack_20 w; unaligned_unpack_21 w; unaligned_unpack_22 w; unaligned_unpack_23 w;
   unaligned_unpack_24 w; unaligned_unpack_25 w; unaligned_unpack_26 w; unaligned_unpack_27 w;
   unaligned_unpack_28 w; unaligned_unpack_29 w; unaligned_unpack_30 w; unaligned_unpack_31 w].

(** [rest] as a natural number, in the form the steps keep it. *)
Ltac rest_to_nat rest n :=
  pose (n := Z.to_nat rest);
  assert (rest = Z.of_nat (n - 0)) as Hrest by (unfold n; lia);
  assert (0 < n < 32)%nat as Hn' by (unfold n; lia);
  change (Z.to_nat rest) with n; clearbody n; subst rest.

Ltac unaligned_function k :=
  cbv beta zeta;
  lazymatch goal with
  | |- unpacks ?w k (Z.to_nat ?x) (fun d e => upToMaxBlocks (Z.shiftr _ ?sh) ?din ?per ?body ?tail d e) =>
      refine (unaligned_of_blocks w k sh din per x body tail _ _ _ _ _ _);
      [lia | lia | reflexivity | lia
      | convert_block din
      | let rest := fresh "rest" in
        let y := eval cbv in (Z.of_nat per) in
        change (Z.of_nat per) with y;
        pose proof (Z.mod_pos_bound x y ltac:(lia));
        generalize dependent (x mod y); intros rest ?;
        refine (unpacks_rest w k rest _ _ _); [intros ?; let n := fresh "n" in rest_to_nat rest n; unaligned_straight k | lia] ]
  | |- unpacks ?w k (Z.to_nat ?x) _ =>
      let n := fresh "n" in rest_to_nat x n; unaligned_straight k
  end.

(** Every unaligned function unpacks up to 31 values of its width. *)
Lemma unaligned_converts w k f x :
  unaligned_table w !! k = Some f -> 0 < x < 32 -> unpacks w k (Z.to_nat x) (fun d e => f d e x).
Proof.
  intros Hf Hx. unfold unaligned_table in Hf. table_cases k Hf.
  { apply unaligned_unpack_0_ok. lia. }
  all: lazymatch goal with |- unpacks _ ?k _ (fun d e => ?f _ d e _) => unfold f; unaligned_function k end.
Qed.

(** ** [unpack_0] to [unpack_32] *)

Lemma unpackRest_unpacks w k n una :
  0 <= n -> (forall x, 0 < x < 32 -> unpacks w k (Z.to_nat x) (fun d e => una d e x)) ->
  unpacks w k (Z.to_nat (n mod 32)) (unpackRest n una).
Proof.
  intros Hn Huna. unfold unpackRest. change 0x1F with (Z.ones 5). rewrite Z.land_ones by lia.
  change (2 ^ 5) with 32. pose proof (Z.mod_pos_bound n 32 ltac:(lia)).
  destruct (Z.eqb_spec (n mod 32) 0) as [->|]; cbn [negb]; [|apply Huna; lia].
  split. intros dest enc _ _ _ _. done.
Qed.

Lemma unpack_function w k n body una :
  (0 < k)%nat -> 0 <= n < 2 ^ 31 -> converts w false k 32 32 k body ->
  (forall x, 0 < x < 32 -> unpacks w k (Z.to_nat x) (fun d e => una d e x)) ->
  unpacks w k (Z.to_nat n) (forBlocks k 32 n body (unpackRest n una)).
Proof.
  intros Hk Hn Hbody Huna.
  pose proof (forBlocks_converts w false k 32 k 32 n _ _ body _ ltac:(lia) ltac:(lia) ltac:(lia) ltac:(lia)
    Hbody (unpackRest_unpacks w k n una ltac:(lia) Huna)) as Hconv.
  pose proof (Z.div_mod n 32 ltac:(lia)). pose proof (Z.mod_pos_bound n 32 ltac:(lia)).
  pose proof (Z.div_pos n 32 ltac:(lia) ltac:(lia)).
  pose proof (ceil_spec (k * Z.to_nat (n mod 32)) 32 ltac:(lia)).
  assert (Z.to_nat n = Z.to_nat (n / 32) * 32 + Z.to_nat (n mod 32))%nat as Hsum by lia.
  unfold unpacks. replace (ceil (k * Z.to_nat n) 32)
    with (Z.to_nat (n / 32) * k + ceil (k * Z.to_nat (n mod 32)) 32)%nat.
  2:{ apply ceil_unique; [lia|]. rewrite Hsum. nia. }
  rewrite Hsum. exact Hconv.
Qed.

(** [unpack_0] advances [encode] although there is nothing to read. *)
Lemma maxBlocksLoop_skip nb din din' dout body tail dest enc enc' :
  (forall d e e', body d e = body d e') -> (forall d e e', tail d e = tail d e') ->
  maxBlocksLoop nb din dout body tail dest enc = maxBlocksLoop nb din' dout body tail dest enc'.
Proof.
  intros Hb Ht. revert dest enc enc'. induction nb as [|nb IH]; intros dest enc enc'; cbn [maxBlocksLoop]; [apply Ht|].
  unfold block. rewrite (Hb dest enc enc'). destruct (body dest enc'); cbn [res_bind]; try done.
  by rewrite (IH _ _ (drop din' enc')).
Qed.

Lemma unpack_0_unpacks w n : 0 <= n < 2 ^ 31 -> unpacks w 0 (Z.to_nat n) (fun d e => unpack_0 w d e n).
Proof.
  intros Hn. pose proof (Z.div_mod n 32 ltac:(lia)). pose proof (Z.mod_pos_bound n 32 ltac:(lia)).
  pose proof (Z.div_pos n 32 ltac:(lia) ltac:(lia)).
  unfold unpack_0. eapply converts_ext.
  { intros dest enc. symmetry. etransitivity; [apply forBlocks_eq; lia|].
    apply (maxBlocksLoop_skip _ 1 0 _ _ _ _ enc enc); [done|].
    intros. unfold unpackRest. by destruct (negb _). }
  assert (Z.to_nat n = Z.to_nat (n / 32) * 32 + Z.to_nat (n mod 32))%nat as Hsum by lia.
  replace (ceil (0 * Z.to_nat n) 32) with (Z.to_nat (n / 32) * 0 + ceil (0 * Z.to_nat (n mod 32)) 32)%nat
    by (cbn; lia).
  rewrite Hsum. apply maxBlocksLoop_converts; [lia | lia | |].
  - split. intros dest enc Hd _ _ _. change [Ok 0; Ok 0; _; _; _; _; _; _; _; _; _; _; _; _; _; _;
      _; _; _; _; _; _; _; _; _; _; _; _; _; _; _; _] with (map Ok (replicate 32 0)).
    rewrite storeAll_ok by done. done.
  - apply unpackRest_unpacks; [lia|]. intros x Hx. apply unaligned_unpack_0_ok. lia.
Qed.

Lemma map_nth_take (l : list Z) n : (n <= length l)%nat -> map (fun i => nth i l 0) (seq 0 n) = take n l.
Proof.
  intros H. apply (nth_ext _ _ 0 0).
  - rewrite length_map, length_seq, length_take. lia.
  - rewrite length_map, length_seq. intros i Hi. rewrite nth_take by done.
    rewrite (nth_indep _ 0 (nth 0 l 0)) by (by rewrite length_map, length_seq).
    rewrite (map_nth (fun i => nth i l 0)). by rewrite seq_nth by done.
Qed.

Lemma copyRest_unpacks w x : 0 < x < 32 -> unpacks w 32 (Z.to_nat x) (fun d e => copyRest w d e x).
Proof.
  intros Hx. unfold unpacks. replace (ceil (32 * Z.to_nat x) 32) with (Z.to_nat x) by (apply ceil_unique; lia).
  split. intros dest enc Hd He Hf _. unfold copyRest. set (n := Z.to_nat x) in *.
  replace (map _ (seq 0 n)) with (map Ok (take n enc)).
  2:{ rewrite <- map_nth_take, map_map by done. apply map_ext_in. intros i Hi%in_seq. unfold wand.
      rewrite wread_ok by lia. cbn [res_bind]. change 0xFFFFFFFF with (Z.ones 32).
      rewrite Z.land_ones, Z.mod_small; [done | | lia].
      rewrite <- (nth_take enc n i 0) by lia. apply nth_fits; [lia | exact Hf]. }
  assert (length (take n enc) = n) as Hl by (rewrite length_take; lia).
  rewrite storeAll_ok, Hl by lia. rewrite <- Hl at 3. by rewrite (digits_num 32).
Qed.

(** Every function of the table unpacks values of its width. *)
Lemma unpack_func_unpacks w k f n :
  unpack_func w !! k = Some f -> 0 <= n < 2 ^ 31 -> unpacks w k (Z.to_nat n) (fun d e => f d e n).
Proof.
  intros Hf Hn. pose proof (unaligned_converts w) as Huna. unfold unpack_func in Hf. table_cases k Hf.
  { by apply unpack_0_unpacks. }
  all: lazymatch goal with |- unpacks _ ?k _ (fun d e => ?f _ d e _) =>
    unfold f; refine (unpack_function w k n _ _ _ Hn _ _); [lia | convert_block k |] end.
  all: try (intros x Hx; refine (Huna _ _ x _ Hx); reflexivity).
  apply copyRest_unpacks.
Qed.
