(* ===== verification/Unpack6Sse.v ===== *)
(** * [unpack_6<uint32_t>]

    The specialisation of [unpack_6] for [uint32_t] in Unpack.h, which unpacks a block with SSE
    instructions, and its agreement with the template. A register is its four dwords; the instructions
    are the ones of the inline assembly. *)

From stdpp Require Import base list numbers option tactics.
From Stdlib Require Import ZArith Lia ZifyNat.
From S2P Require Import Prelude Bits WordCode WordStream BlockLoops UnalignedUnpack Unpack PackCorrect UnpackCorrect.

#[local] Open Scope Z_scope.
#[local] Open Scope word_scope.

(** ** Instructions *)

Abbreviation xmm := (list (res Z)).

(** [movdqu] from memory. *)
Definition movdqu (p : list Z) (i : nat) : xmm := [wread p i; wread p (i + 1); wread p (i + 2); wread p (i + 3)].

(** Byte [j] of a register. *)
Definition byteOf (r : xmm) (j : Z) : res Z := (nth (Z.to_nat (j / 4)) r (Ok 0) >> (8 * (j mod 4))) .& 0xFF.

(** A byte of the result of [pshufb]: zero when the top bit of the mask byte is set. *)
Definition shuffled (r : xmm) (m : Z) : res Z := if 128 <=? m then Ok 0 else byteOf r (m mod 16).

Fixpoint pshufb (mask : list Z) (r : xmm) : xmm :=
  match mask with
  | m0 :: m1 :: m2 :: m3 :: mask' =>
      (shuffled r m0 .| (shuffled r m1 << 8) .| (shuffled r m2 << 16) .| (shuffled r m3 << 24)) :: pshufb mask' r
  | _ => []
  end.

Definition psrld (n : Z) (r : xmm) : xmm := map (fun x => x >> n) r.
Definition pand (m : list Z) (r : xmm) : xmm := zip_with (fun x m => x .& m) r m.

(** [psrldq $4]: shift the whole register by four bytes. *)
Definition psrldq4 (r : xmm) : xmm := tail r ++ [Ok 0].

(** [punpckldq src, dst] and [punpckhdq src, dst]. *)
Definition punpckldq (src dst : xmm) : xmm :=
  match src, dst with s0 :: s1 :: _, d0 :: d1 :: _ => [d0; s0; d1; s1] | _, _ => [] end.
Definition punpckhdq (src dst : xmm) : xmm :=
  match src, dst with [_; _; s2; s3], [_; _; d2; d3] => [d2; s2; d3; s3] | _, _ => [] end.

(** ** The code *)

Definition mask_6_0 : list Z := [0; 0xff; 0xff; 0xff; 3; 0xff; 0xff; 0xff; 6; 0xff; 0xff; 0xff; 9; 0xff; 0xff; 0xff].
Definition mask_6_1 : list Z := [0; 1; 0xff; 0xff; 3; 4; 0xff; 0xff; 6; 7; 0xff; 0xff; 9; 10; 0xff; 0xff].
Definition mask_6_2 : list Z := [1; 2; 0xff; 0xff; 4; 5; 0xff; 0xff; 7; 8; 0xff; 0xff; 10; 11; 0xff; 0xff].
Definition mask_6_3 : list Z := [2; 0xff; 0xff; 0xff; 5; 0xff; 0xff; 0xff; 8; 0xff; 0xff; 0xff; 11; 0xff; 0xff; 0xff].
(** Pairs of 16-bit elements as dwords. *)
Definition and_6_0 : list Z := [0x3f; 0x3f; 0x3f; 0x3f].

(** Each of the two [__asm__] blocks after its load: the four registers it stores, in the order of their
    addresses. *)
Definition unpack6Asm (xmm5 : xmm) : list xmm :=
  let xmm6 := xmm5 in
  let xmm7 := xmm5 in
  let xmm8 := xmm5 in
  let xmm5 := pshufb mask_6_0 xmm5 in
  let xmm5 := pand and_6_0 xmm5 in
  let xmm6 := pshufb mask_6_1 xmm6 in
  let xmm6 := psrld 6 xmm6 in
  let xmm6 := pand and_6_0 xmm6 in
  let xmm7 := pshufb mask_6_2 xmm7 in
  let xmm7 := psrld 4 xmm7 in
  let xmm7 := pand and_6_0 xmm7 in
  let xmm8 := pshufb mask_6_3 xmm8 in
  let xmm8 := psrld 2 xmm8 in
  let xmm8 := pand and_6_0 xmm8 in
  let xmm9 := xmm5 in
  let xmm10 := xmm6 in
  let xmm5 := punpckldq xmm7 xmm5 in
  let xmm9 := punpckhdq xmm7 xmm9 in
  let xmm6 := punpckldq xmm8 xmm6 in
  let xmm10 := punpckhdq xmm8 xmm10 in
  let xmm7 := xmm5 in
  let xmm5 := punpckldq xmm6 xmm5 in
  let out0 := xmm5 in
  let xmm7 := punpckhdq xmm6 xmm7 in
  let out1 := xmm7 in
  let xmm8 := xmm9 in
  let xmm9 := punpckldq xmm10 xmm9 in
  let out2 := xmm9 in
  let xmm8 := punpckhdq xmm10 xmm8 in
  let out3 := xmm8 in
  [out0; out1; out2; out3].

Definition unpack_6_uint32 (dest encode : list Z) (n : Z) : res (list Z) :=
  forBlocks 6 32 n (fun dest encode =>
    storeAll 32 dest (concat (unpack6Asm (movdqu encode 0) ++ unpack6Asm (psrldq4 (movdqu encode 2))))
  ) (unpackRest n (unaligned_unpack_6 32)) dest encode.

(** The table of [DecompressBlock<T>]: for [uint32_t] the entry of 6 bits is the specialisation. *)
Definition unpack_func_of (w : Z) : list (list Z -> list Z -> Z -> res (list Z)) :=
  if w =? 32 then <[6%nat := unpack_6_uint32]> (unpack_func w) else unpack_func w.

(** ** It unpacks 6-bit values *)

Lemma unpack_6_uint32_unpacks n : 0 <= n < 2 ^ 31 -> unpacks 32 6 (Z.to_nat n) (fun d e => unpack_6_uint32 d e n).
Proof.
  intros Hn. unfold unpack_6_uint32. refine (unpack_function 32 6 n _ _ _ Hn _ _); [lia | |].
  - lazymatch goal with
    | |- converts ?w ?z ?b ?c ?p ?q ?body =>
        let t := eval cbv -[wread wand wor wshl wshr storeAll] in body in
        change (converts w z b c p q t)
    end.
    convert_block 6%nat.
  - intros x Hx. exact (unaligned_converts 32 6 _ x eq_refl Hx).
Qed.

Lemma unpack_func_of_unpacks w k f n :
  unpack_func_of w !! k = Some f -> 0 <= n < 2 ^ 31 -> unpacks w k (Z.to_nat n) (fun d e => f d e n).
Proof.
  unfold unpack_func_of. destruct (Z.eqb_spec w 32) as [->|]; [|apply unpack_func_unpacks].
  destruct (decide (k = 6%nat)) as [->|Hne].
  - rewrite list_lookup_insert_eq by (cbn; lia). intros [= <-]. apply unpack_6_uint32_unpacks.
  - rewrite list_lookup_insert_ne by done. apply unpack_func_unpacks.
Qed.

(** ** Packed values are read back *)

Lemma Forall_fits_0 vs : Forall (fits 0) vs -> vs = replicate (length vs) 0.
Proof.
  intros H. apply Forall_eq_replicate. revert H. apply Forall_impl. intros x Hx. unfold fits in Hx. cbn in Hx. lia.
Qed.

Lemma cast_digits_0 w n N : map (cast w) (digits 0 n N) = replicate n 0.
Proof.
  unfold digits. rewrite map_map. apply list_eq. intros i. destruct (Nat.lt_ge_cases i n).
  - rewrite (lookup_map_seq (fun x => cast w (field _ _ _))), lookup_replicate_2 by done.
    unfold field, cast. by rewrite Z.mod_1_r.
  - rewrite !lookup_ge_None_2; rewrite ?length_map, ?length_seq, ?length_replicate; done.
Qed.

(** A function that unpacks [k]-bit values reads them from the words of their bits, in order. *)
Lemma unpacks_reads w k (f : list Z -> list Z -> Z -> res (list Z)) vs dest rest :
  unpacks w k (length vs) (fun d e => f d e (Z.of_nat (length vs))) ->
  Forall (fits (Z.of_nat k)) vs -> Forall (fits w) vs -> (length vs <= length dest)%nat ->
  f dest (digits 32 (ceil (k * length vs) 32) (num (Z.of_nat k) vs) ++ rest) (Z.of_nat (length vs)) =
  Ok (vs ++ drop (length vs) dest).
Proof.
  intros Hc Hfb Hfw Hd.
  set (q := ceil (k * length vs) 32) in *. set (N := num (Z.of_nat k) vs).
  assert (length (digits 32 q N) = q) as Hfl by apply digits_length.
  rewrite (converts_eq _ _ _ _ _ _ _ Hc); [|done | rewrite length_app; lia | | intros [=]].
  2:{ rewrite take_app_length' by done. apply digits_fits. lia. }
  rewrite take_app_length' by done. do 2 f_equal.
  pose proof (ceil_spec (k * length vs) 32 ltac:(lia)). fold q in H.
  rewrite (digits_digits (Z.of_nat k) (length vs) 32) by lia.
  destruct (decide (k = 0%nat)) as [->|].
  - change (Z.of_nat 0) with 0 in *. by rewrite cast_digits_0, <- Forall_fits_0.
  - unfold N. rewrite digits_num by (done || lia). by apply map_cast_fits.
Qed.
