(* ===== verification/Simd.v ===== *)
(** * Vector instructions

    The SSE intrinsics that DecompressSse4.cpp uses, and its loop over blocks. A register of type [__m128i] is
    its 128-bit number; its lanes of [w] bits are digits of this number, the first one lowest. *)

From stdpp Require Import base list numbers option tactics.
From Stdlib Require Import ZArith Lia ZifyNat.
From S2P Require Import Prelude WordCode WordStream.

#[local] Open Scope Z_scope.

Abbreviation m128i := Z (only parsing).

Definition lane (w : Z) (a : m128i) (i : nat) : Z := field (w * Z.of_nat i) w a.

(** The register of [k] lanes of [w] bits. *)
Definition lanes (w : Z) (k : nat) (f : nat -> Z) : m128i := num w (map f (seq 0 k)).

(** The arguments of [_mm_set] come highest first and are converted to the type of a lane. *)
Definition _mm_set_epi8 (l : list Z) : m128i := num 8 (rev (map (fun x => x mod 2 ^ 8) l)).
Definition _mm_set_epi32 (l : list Z) : m128i := num 32 (rev (map (fun x => x mod 2 ^ 32) l)).

(** A byte of the result is zero when the top bit of the mask byte is set. *)
Definition _mm_shuffle_epi8 (a b : m128i) : m128i :=
  lanes 8 16 (fun i => let m := lane 8 b i in if 128 <=? m then 0 else lane 8 a (Z.to_nat (m mod 16))).

Definition _mm_and_si128 (a b : m128i) : m128i := Z.land a b.
Definition _mm_mullo_epi32 (a b : m128i) : m128i := lanes 32 4 (fun i => (lane 32 a i * lane 32 b i) mod 2 ^ 32).
Definition _mm_srli_epi32 (a : m128i) (n : Z) : m128i := lanes 32 4 (fun i => Z.shiftr (lane 32 a i) n).
Definition _mm_srli_epi64 (a : m128i) (n : Z) : m128i := lanes 64 2 (fun i => Z.shiftr (lane 64 a i) n).
Definition _mm_slli_epi64 (a : m128i) (n : Z) : m128i := lanes 64 2 (fun i => Z.shiftl (lane 64 a i) n mod 2 ^ 64).
Definition _mm_blend_epi16 (a b : m128i) (mask : Z) : m128i :=
  lanes 16 8 (fun i => if Z.testbit mask (Z.of_nat i) then lane 16 b i else lane 16 a i).

(** The bytes of [b] and then [a], from byte [n] on. *)
Definition _mm_alignr_epi8 (a b : m128i) (n : Z) : m128i := field (8 * n) 128 (b + 2 ^ 128 * a).

(** [_mm_loadu_si128(p + i)] for a pointer to registers. *)
Definition _mm_loadu_si128 (p : list Z) (i : nat) : res m128i :=
  let! a := deref (p !! (4 * i)%nat) in
  let! b := deref (p !! (4 * i + 1)%nat) in
  let! c := deref (p !! (4 * i + 2)%nat) in
  let! d := deref (p !! (4 * i + 3)%nat) in
  Ok (num 32 [a; b; c; d]).

(** [unsigned int* presult]: the array and the position in it. *)
Abbreviation cursor := (list Z * nat)%type (only parsing).

Definition _mm_storeu_si128 (presult : cursor) (v : m128i) : res cursor :=
  let! dest := storeFrom 32 (snd presult) (fst presult) [Ok (lane 32 v 0); Ok (lane 32 v 1); Ok (lane 32 v 2); Ok (lane 32 v 3)] in
  Ok (dest, snd presult).

(** [presult = presult + n] *)
Definition advance (presult : cursor) (n : nat) : cursor := (fst presult, (snd presult + n)%nat).

(** ** The loop *)

(** [while (index + size <= n) { body; offset += vectors; index += size; }], then [tail]. [body] and [tail] get
    the arrays from [dest + index] and [encode + offset * 4] on. *)
Fixpoint whileLoop (fuel : nat) (size : Z) (vectors : nat) (body tail : list Z -> list Z -> res (list Z))
    (index n : Z) (dest encode : list Z) : res (list Z) :=
  match fuel with
  | O => OutOfFuel
  | S fuel' =>
      if u32 (index + size) <=? n
      then block (vectors * 4) (Z.to_nat size) body (whileLoop fuel' size vectors body tail (u32 (index + size)) n) dest encode
      else tail dest encode
  end.
Definition whileBlocks (size : Z) (vectors : nat) (n : Z) (body tail : list Z -> list Z -> res (list Z))
    (dest encode : list Z) : res (list Z) :=
  whileLoop (S (Z.to_nat (n / size))) size vectors body tail 0 n dest encode.

(** [if (n & mask) f(dest, encode, (n & mask));] *)
Definition restOf (mask n : Z) (f : list Z -> list Z -> Z -> res (list Z)) (dest encode : list Z) : res (list Z) :=
  if negb (Z.land n mask =? 0) then f dest encode (Z.land n mask) else Ok dest.
