(* ===== verification/SimdBits.v ===== *)
(** * Where the bits of a register come from

    The instructions of Simd.v move bits. A [source] says of each bit of a result which bit of an
    input it copies, or that it is zero; [denotes] relates it to the numbers. Each instruction has a counterpart on
    sources, so that what a sequence of instructions does to any input is computed. *)

From stdpp Require Import base list numbers option tactics.
From Stdlib Require Import ZArith Lia ZifyNat.
From S2P Require Import Prelude Bits WordCode WordStream BlockLoops PackCorrect Simd.

#[local] Open Scope Z_scope.

Abbreviation source := (list (option nat)).

Definition bitAt (m : source) (x i : Z) : bool :=
  match m !! Z.to_nat i with Some (Some j) => Z.testbit x (Z.of_nat j) | _ => false end.

Definition denotes (m : source) (x r : Z) : Prop := forall i, 0 <= i -> Z.testbit r i = bitAt m x i.

Lemma bitAt_high m x i : Z.of_nat (length m) <= i -> bitAt m x i = false.
Proof. intros H. unfold bitAt. by rewrite lookup_ge_None_2 by lia. Qed.

Lemma denotes_fits m x r : denotes m x r -> fits (Z.of_nat (length m)) r.
Proof.
  intros H. assert (r = r mod 2 ^ Z.of_nat (length m)) as ->; [|by apply Z.mod_pos_bound; lia].
  apply Z.bits_inj'. intros i Hi. rewrite Z.testbit_mod_pow2 by lia.
  destruct (Z.ltb_spec i (Z.of_nat (length m))); [done|]. by rewrite H, bitAt_high by lia.
Qed.

(** ** Lanes *)

Lemma lookup_concat_lanes {A : Type} (L : nat -> list A) w k s n :
  (forall i, length (L i) = w) -> (n < w * k)%nat ->
  concat (map L (seq s k)) !! n = L (s + n / w)%nat !! (n mod w)%nat.
Proof.
  intros HL. revert s n. induction k as [|k IH]; intros s n Hn; [lia|]. cbn [seq map concat].
  destruct (Nat.lt_ge_cases n w) as [Hlt|Hge].
  - rewrite lookup_app_l by (rewrite HL; done). by rewrite Nat.div_small, Nat.mod_small, Nat.add_0_r.
  - rewrite lookup_app_r, HL by (rewrite HL; done). rewrite IH by lia.
    replace n with (n - w + 1 * w)%nat at 3 4 by lia. rewrite Nat.div_add, Nat.Div0.mod_add by lia.
    f_equal. f_equal. lia.
Qed.

Lemma concat_lanes_length {A : Type} (L : nat -> list A) w k s :
  (forall i, length (L i) = w) -> length (concat (map L (seq s k))) = (w * k)%nat.
Proof.
  intros HL. revert s. induction k as [|k IH]; intros s; cbn [seq map concat length]; [lia|].
  rewrite length_app, HL, IH. lia.
Qed.

Lemma denotes_lanes (w k : nat) L V x :
  (0 < w)%nat -> (forall i, length (L i) = w) -> (forall i, (i < k)%nat -> denotes (L i) x (V i)) ->
  denotes (concat (map L (seq 0 k))) x (lanes (Z.of_nat w) k V).
Proof.
  intros Hw HL HV i Hi. unfold lanes.
  assert (Forall (fits (Z.of_nat w)) (map V (seq 0 k))) as Hf.
  { apply Forall_fmap, Forall_forall. intros j Hj%in_seq. rewrite <- (HL j). apply (denotes_fits _ x), HV. lia. }
  rewrite testbit_num by (done || lia). destruct (Z.lt_ge_cases i (Z.of_nat (w * k))) as [Hlt|Hge].
  - unfold bitAt. rewrite (lookup_concat_lanes L w k 0) by (done || lia). cbn [Nat.add].
    assert (Z.to_nat i / w < k)%nat as Hik by (apply Nat.Div0.div_lt_upper_bound; lia).
    replace (Z.to_nat (i / Z.of_nat w)) with (Z.to_nat i / w)%nat by (rewrite Z2Nat.inj_div, Nat2Z.id; lia).
    rewrite (nth_lookup_Some _ _ _ _ (lookup_map_seq V k _ Hik)). rewrite HV by (done || apply Z.mod_pos_bound; lia).
    unfold bitAt. rewrite Z2Nat.inj_mod, Nat2Z.id by lia. done.
  - rewrite bitAt_high by (rewrite (concat_lanes_length L w); done). rewrite nth_overflow; [by rewrite Z.bits_0|].
    rewrite length_map, length_seq. assert (Z.of_nat k <= i / Z.of_nat w) by (apply Z.div_le_lower_bound; lia). lia.
Qed.

Definition laneOf (w : nat) (m : source) (i : nat) : source := take w (drop (w * i) m ++ replicate w None).

Lemma laneOf_length w m i : length (laneOf w m i) = w.
Proof. unfold laneOf. rewrite length_take, length_app, length_replicate. lia. Qed.

Lemma denotes_lane (w : nat) m x r i : denotes m x r -> denotes (laneOf w m i) x (lane (Z.of_nat w) r i).
Proof.
  intros Hr j Hj. unfold lane. rewrite testbit_field by lia. unfold bitAt, laneOf.
  destruct (Z.ltb_spec j (Z.of_nat w)); cbn [andb].
  - rewrite lookup_take_lt by lia. rewrite Hr by lia. unfold bitAt.
    replace (Z.to_nat (Z.of_nat w * Z.of_nat i + j)) with (w * i + Z.to_nat j)%nat by lia. rewrite <- lookup_drop.
    destruct (drop (w * i) m !! Z.to_nat j) as [o|] eqn:E.
    + by rewrite (lookup_app_l_Some _ _ _ _ E).
    + rewrite lookup_app_r by (by apply lookup_ge_None_1). by rewrite lookup_replicate_2 by (apply lookup_ge_None_1 in E; lia).
  - by rewrite lookup_take_ge by lia.
Qed.

(** ** Instructions *)

Definition shuffleBits (m : source) (mask : Z) : source :=
  concat (map (fun i => let b := lane 8 mask i in
    if 128 <=? b then replicate 8 None else laneOf 8 m (Z.to_nat (b mod 16))) (seq 0 16)).
Definition andBits (m : source) (k : Z) : source := imap (fun i o => if Z.testbit k (Z.of_nat i) then o else None) m.
Definition shlBits (w : nat) (n : nat) (m : source) : source := take w (replicate n None ++ m).
Definition shrBits (w : nat) (n : nat) (m : source) : source := take w (drop n m ++ replicate w None).
Definition mulBits (m : source) (k : Z) : source :=
  concat (map (fun i => shlBits 32 (Z.to_nat (Z.log2 (lane 32 k i))) (laneOf 32 m i)) (seq 0 4)).
Definition srl32Bits (m : source) (n : Z) : source := concat (map (fun i => shrBits 32 (Z.to_nat n) (laneOf 32 m i)) (seq 0 4)).
Definition srl64Bits (m : source) (n : Z) : source := concat (map (fun i => shrBits 64 (Z.to_nat n) (laneOf 64 m i)) (seq 0 2)).
Definition sll64Bits (m : source) (n : Z) : source := concat (map (fun i => shlBits 64 (Z.to_nat n) (laneOf 64 m i)) (seq 0 2)).
Definition blendBits (m m' : source) (mask : Z) : source :=
  concat (map (fun i => if Z.testbit mask (Z.of_nat i) then laneOf 16 m' i else laneOf 16 m i) (seq 0 8)).

Lemma denotes_zero w x : denotes (replicate w None) x 0.
Proof.
  intros i Hi. rewrite Z.bits_0. unfold bitAt. destruct (replicate w None !! Z.to_nat i) as [o|] eqn:E; [|done].
  apply lookup_replicate in E as [-> _]. done.
Qed.

Lemma denotes_shl (w n : nat) m x v :
  (length m = w)%nat -> denotes m x v -> denotes (shlBits w n m) x (Z.shiftl v (Z.of_nat n) mod 2 ^ Z.of_nat w).
Proof.
  intros Hl Hv i Hi. rewrite Z.testbit_mod_pow2 by lia. unfold shlBits. destruct (Z.ltb_spec i (Z.of_nat w)); cbn [andb].
  - rewrite Z.shiftl_spec by lia. unfold bitAt. rewrite lookup_take_lt by lia.
    destruct (Nat.lt_ge_cases (Z.to_nat i) n).
    + rewrite lookup_app_l, lookup_replicate_2 by (rewrite ?length_replicate; lia). apply Z.testbit_neg_r. lia.
    + rewrite lookup_app_r, length_replicate by (rewrite length_replicate; lia).
      rewrite Hv by lia. unfold bitAt. do 2 f_equal. by replace (Z.to_nat (i - Z.of_nat n)) with (Z.to_nat i - n)%nat by lia.
  - unfold bitAt. by rewrite lookup_take_ge by lia.
Qed.

Lemma denotes_shr (w n : nat) m x v :
  (length m = w)%nat -> denotes m x v -> denotes (shrBits w n m) x (Z.shiftr v (Z.of_nat n)).
Proof.
  intros Hl Hv i Hi. rewrite Z.shiftr_spec by lia. rewrite Hv by lia. unfold bitAt, shrBits.
  replace (Z.to_nat (i + Z.of_nat n)) with (n + Z.to_nat i)%nat by lia.
  destruct (Nat.lt_ge_cases (Z.to_nat i) w).
  - rewrite lookup_take_lt by lia. rewrite <- lookup_drop. destruct (drop n m !! Z.to_nat i) as [o|] eqn:E.
    + by rewrite (lookup_app_l_Some _ _ _ _ E).
    + rewrite lookup_app_r by (by apply lookup_ge_None_1). by rewrite lookup_replicate_2 by (apply lookup_ge_None_1 in E; lia).
  - rewrite lookup_take_ge by lia. by rewrite lookup_ge_None_2 by lia.
Qed.

Lemma shlBits_length w n m : length m = w -> length (shlBits w n m) = w.
Proof. intros. unfold shlBits. rewrite length_take, length_app, length_replicate. lia. Qed.
Lemma shrBits_length w n m : length (shrBits w n m) = w.
Proof. unfold shrBits. rewrite length_take, length_app, length_replicate. lia. Qed.

Lemma denotes_shuffle m x r mask : denotes m x r -> denotes (shuffleBits m mask) x (_mm_shuffle_epi8 r mask).
Proof.
  intros Hr. apply (denotes_lanes 8); [lia | |].
  - intros i. cbv zeta. destruct (128 <=? _); [done | apply laneOf_length].
  - intros i _. cbv zeta. destruct (128 <=? _); [apply denotes_zero | by apply (denotes_lane 8)].
Qed.

Lemma denotes_and m x r k : denotes m x r -> denotes (andBits m k) x (_mm_and_si128 r k).
Proof.
  intros Hr i Hi. unfold _mm_and_si128. rewrite Z.land_spec, Hr by done. unfold bitAt, andBits. rewrite list_lookup_imap.
  destruct (m !! Z.to_nat i) as [[j|]|]; cbn; rewrite ?Z2Nat.id by done; destruct (Z.testbit k i); by rewrite ?andb_true_r, ?andb_false_r.
Qed.

(** Every lane of [k] is a power of two. *)
Definition powers (k : Z) : bool := forallb (fun i => lane 32 k i =? 2 ^ Z.log2 (lane 32 k i)) (seq 0 4).

Lemma denotes_mul m x r k : powers k = true -> denotes m x r -> denotes (mulBits m k) x (_mm_mullo_epi32 r k).
Proof.
  intros Hk Hr. apply (denotes_lanes 32); [lia | intros i; apply shlBits_length, laneOf_length|].
  intros i Hi. unfold powers in Hk. rewrite forallb_forall in Hk. specialize (Hk i ltac:(apply in_seq; lia)).
  apply Z.eqb_eq in Hk. set (p := lane 32 k i) in *. pose proof (Z.log2_nonneg p). set (s := Z.log2 p) in *. clearbody s. rewrite Hk.
  rewrite <- Z.shiftl_mul_pow2 by done. rewrite <- (Z2Nat.id s) at 2 by done.
  apply (denotes_shl 32); [apply laneOf_length | by apply (denotes_lane 32)].
Qed.

Lemma denotes_srl32 m x r n : 0 <= n -> denotes m x r -> denotes (srl32Bits m n) x (_mm_srli_epi32 r n).
Proof.
  intros Hn Hr. apply (denotes_lanes 32); [lia | intros i; apply shrBits_length|].
  intros i _. rewrite <- (Z2Nat.id n) at 2 by done. apply (denotes_shr 32); [apply laneOf_length | by apply (denotes_lane 32)].
Qed.

Lemma denotes_srl64 m x r n : 0 <= n -> denotes m x r -> denotes (srl64Bits m n) x (_mm_srli_epi64 r n).
Proof.
  intros Hn Hr. apply (denotes_lanes 64); [lia | intros i; apply shrBits_length|].
  intros i _. rewrite <- (Z2Nat.id n) at 2 by done. apply (denotes_shr 64); [apply laneOf_length | by apply (denotes_lane 64)].
Qed.

Lemma denotes_sll64 m x r n : 0 <= n -> denotes m x r -> denotes (sll64Bits m n) x (_mm_slli_epi64 r n).
Proof.
  intros Hn Hr. apply (denotes_lanes 64); [lia | intros i; apply shlBits_length, laneOf_length|].
  intros i _. rewrite <- (Z2Nat.id n) at 2 by done. apply (denotes_shl 64); [apply laneOf_length | by apply (denotes_lane 64)].
Qed.

Lemma denotes_blend m m' x r r' mask :
  denotes m x r -> denotes m' x r' -> denotes (blendBits m m' mask) x (_mm_blend_epi16 r r' mask).
Proof.
  intros Hr Hr'. apply (denotes_lanes 16); [lia | |].
  - intros i. destruct (Z.testbit _ _); apply laneOf_length.
  - intros i _. destruct (Z.testbit _ _); by apply (denotes_lane 16).
Qed.

Create HintDb denotes discriminated.
#[export] Hint Resolve denotes_shuffle denotes_and denotes_mul denotes_srl32 denotes_srl64 denotes_sll64 denotes_blend : denotes.

(** The register itself. *)
Definition whole : source := map Some (seq 0 128).

Lemma denotes_whole x : fits 128 x -> denotes whole x x.
Proof.
  intros Hx i Hi. unfold bitAt, whole. destruct (Z.lt_ge_cases i 128).
  - rewrite lookup_map_seq by lia. by rewrite Z2Nat.id by lia.
  - rewrite lookup_ge_None_2 by (rewrite length_map, length_seq; lia). by apply (testbit_high x 128).
Qed.

(** ** Fields *)

(** Four lanes that hold the fields of [c] bits from bit [start] on. *)
Definition fieldsFrom (c start : nat) : source :=
  concat (map (fun l => map (fun t => if (t <? c)%nat then Some (start + c * l + t)%nat else None) (seq 0 32)) (seq 0 4)).

Lemma denotes_fields c start x r l :
  (c <= 32)%nat -> denotes (fieldsFrom c start) x r -> (l < 4)%nat ->
  lane 32 r l = field (Z.of_nat (start + c * l)) (Z.of_nat c) x.
Proof.
  intros Hc Hr Hl. apply Z.bits_inj'. intros i Hi. unfold lane. rewrite !testbit_field by lia.
  destruct (Z.ltb_spec i 32); cbn [andb].
  2:{ destruct (Z.ltb_spec i (Z.of_nat c)); [lia | done]. }
  rewrite Hr by lia. unfold bitAt, fieldsFrom.
  rewrite (lookup_concat_lanes _ 32 4 0) by (intros; rewrite ?length_map, ?length_seq; lia). cbn [Nat.add].
  replace (Z.to_nat (32 * Z.of_nat l + i)) with (Z.to_nat i + l * 32)%nat by lia.
  rewrite Nat.div_add, Nat.div_small, Nat.Div0.mod_add, Nat.mod_small by lia.
  rewrite lookup_map_seq by lia. destruct (Nat.ltb_spec (Z.to_nat i) c), (Z.ltb_spec i (Z.of_nat c)); try lia; try done.
  cbn [andb]. f_equal. lia.
Qed.

(** ** Windows *)

(** [q] words as a number. *)
Definition stream (q : nat) (enc : list Z) : Z := num 32 (take q enc).

Lemma loadu_window q enc i :
  (4 * i + 4 <= q)%nat -> (q <= length enc)%nat -> Forall (fits 32) (take q enc) ->
  _mm_loadu_si128 enc i = Ok (field (128 * Z.of_nat i) 128 (stream q enc)).
Proof.
  intros Hi Hq Hf. unfold _mm_loadu_si128.
  assert (forall j, (j < q)%nat -> enc !! j = Some (nth j (take q enc) 0)) as Hn.
  { intros j Hj. destruct (lookup_lt_is_Some_2 enc j ltac:(lia)) as [v Hv].
    rewrite <- (lookup_take_lt enc q) in Hv by done. rewrite (nth_lookup_Some _ _ _ _ Hv).
    by rewrite (lookup_take_lt enc q) in Hv by done. }
  rewrite !Hn by lia. cbn [deref res_bind]. f_equal. set (l := take q enc) in *.
  assert (forall j, fits 32 (nth j l 0)) as Hfit by (intros; apply nth_fits; [lia | done]).
  apply Z.bits_inj'. intros b Hb. rewrite testbit_field by lia. rewrite (testbit_num 32) by (lia || by repeat (constructor; [apply Hfit|])).
  destruct (Z.ltb_spec b 128); cbn [andb].
  - unfold stream. fold l. rewrite testbit_num by (done || lia).
    replace (128 * Z.of_nat i + b) with (b + (4 * Z.of_nat i) * 32) by lia.
    rewrite Z.div_add, Z_mod_plus_full by lia. f_equal.
    replace (Z.to_nat (b / 32 + 4 * Z.of_nat i)) with (4 * i + Z.to_nat (b / 32))%nat by (pose proof (Z.div_pos b 32); lia).
    assert (0 <= b / 32 < 4) by (split; [apply Z.div_pos | apply Z.div_lt_upper_bound]; lia).
    remember (Z.to_nat (b / 32)) as k. do 4 (destruct k as [|k]; [cbn [nth]; f_equal; lia|]). lia.
  - rewrite nth_overflow; [by rewrite Z.bits_0|]. cbn [length].
    assert (4 <= b / 32) by (apply Z.div_le_lower_bound; lia). lia.
Qed.

Lemma alignr_window o n N :
  0 <= o -> 0 <= n <= 16 ->
  _mm_alignr_epi8 (field (o + 128) 128 N) (field o 128 N) n = field (o + 8 * n) 128 N.
Proof.
  intros Ho Hn. unfold _mm_alignr_epi8. apply Z.bits_inj'. intros b Hb. rewrite !testbit_field by lia.
  destruct (Z.ltb_spec b 128); cbn [andb]; [|done].
  rewrite (testbit_push (field o 128 N) (field (o + 128) 128 N) 128 128) by (try apply field_fits; lia).
  destruct (Z.ltb_spec (8 * n + b) 128); rewrite testbit_field by lia.
  - rewrite (proj2 (Z.ltb_lt _ _)) by lia. cbn [andb]. f_equal. lia.
  - rewrite (proj2 (Z.ltb_lt _ _)) by lia. cbn [andb]. f_equal. lia.
Qed.

Lemma field_window s c o N : 0 <= s -> 0 <= c -> 0 <= o -> s + c <= 128 -> field s c (field o 128 N) = field (o + s) c N.
Proof.
  intros. apply Z.bits_inj'. intros b Hb. rewrite !testbit_field by lia. destruct (Z.ltb_spec b c); cbn [andb]; [|done].
  rewrite (proj2 (Z.ltb_lt _ _)) by lia. cbn [andb]. f_equal. lia.
Qed.
