(* ===== verification/DecompressSse4.v ===== *)
(** * DecompressSse4.cpp

    The functions [decompress_sse4_c0] to [decompress_sse4_c32] of
    src/aios/storage/indexlib/index/common/numeric_compress/DecompressSse4.cpp, statement by statement: they unpack
    values of 0 to 32 bits with vector instructions. Of a width [c], [m2] takes four or eight values out of a
    register, from byte [segment] on; [m1] loads and aligns the registers of a block and unpacks them. The
    arrays of [m1] start at [vector_m128i + offset] and [presult + index]. *)

From stdpp Require Import base list numbers.
From Stdlib Require Import ZArith.
From S2P Require Import Prelude WordCode UnalignedUnpack Unpack Unpack6Sse Simd.

#[local] Open Scope Z_scope.
#[local] Open Scope word_scope.

Definition decompress_sse4_c0 (dest encode : list Z) (n : Z) : res (list Z) :=
  forBlocks 1 32 n (fun dest encode =>
    storeAll 32 dest [Ok 0; Ok 0; Ok 0; Ok 0; Ok 0; Ok 0; Ok 0; Ok 0; Ok 0; Ok 0; Ok 0; Ok 0; Ok 0; Ok 0;
                     Ok 0; Ok 0; Ok 0; Ok 0; Ok 0; Ok 0; Ok 0; Ok 0; Ok 0; Ok 0; Ok 0; Ok 0; Ok 0; Ok 0;
                     Ok 0; Ok 0; Ok 0; Ok 0]
  ) (unpackRest n (unaligned_unpack_0 32)) dest encode.

Definition SSE4_c1_and_msk1_m128i : m128i :=
  _mm_set_epi8 [0x00; 0x00; 0x00; 0x08; 0x00; 0x00; 0x00; 0x04; 0x00; 0x00; 0x00; 0x02; 0x00; 0x00; 0x00;
                0x01].

Definition SSE4_c1_mul_msk1_m128i : m128i :=
  _mm_set_epi32 [0x01; 0x02; 0x04; 0x08].

Definition SSE4_c1_and_msk2_m128i : m128i :=
  _mm_set_epi8 [0x00; 0x00; 0x00; 0x80; 0x00; 0x00; 0x00; 0x40; 0x00; 0x00; 0x00; 0x20; 0x00; 0x00; 0x00;
                0x10].

Definition SSE4_c1_mul_msk2_m128i : m128i :=
  _mm_set_epi32 [0x01; 0x02; 0x4; 0x08].

Definition decompress_sse4_c1_m2 (segment : Z) (c1_load_vec_m128i : m128i) (presult : cursor) : res cursor :=
  let SSE4_c1_shfl_msk_m128i := _mm_set_epi8 [0xFF; 0xFF; 0xFF; segment; 0xFF; 0xFF; 0xFF; segment; 0xFF;
                                              0xFF; 0xFF; segment; 0xFF; 0xFF; 0xFF; segment] in
  let c1_shfl_rslt_m128i := _mm_shuffle_epi8 c1_load_vec_m128i SSE4_c1_shfl_msk_m128i in
  let c1_and_rslt_m128i := _mm_and_si128 c1_shfl_rslt_m128i SSE4_c1_and_msk1_m128i in
  let c1_mul_rslt_m128i := _mm_mullo_epi32 c1_and_rslt_m128i SSE4_c1_mul_msk1_m128i in
  let c1_rslt_m128i := _mm_srli_epi32 c1_mul_rslt_m128i 3 in
  let! presult := _mm_storeu_si128 presult c1_rslt_m128i in
  let presult := advance presult 4 in
  let SSE4_c1_shfl_msk_m128i := _mm_set_epi8 [0xFF; 0xFF; 0xFF; segment; 0xFF; 0xFF; 0xFF; segment; 0xFF;
                                              0xFF; 0xFF; segment; 0xFF; 0xFF; 0xFF; segment] in
  let c1_shfl_rslt_m128i := _mm_shuffle_epi8 c1_load_vec_m128i SSE4_c1_shfl_msk_m128i in
  let c1_and_rslt_m128i := _mm_and_si128 c1_shfl_rslt_m128i SSE4_c1_and_msk2_m128i in
  let c1_mul_rslt_m128i := _mm_mullo_epi32 c1_and_rslt_m128i SSE4_c1_mul_msk2_m128i in
  let c1_rslt_m128i := _mm_srli_epi32 c1_mul_rslt_m128i 7 in
  let! presult := _mm_storeu_si128 presult c1_rslt_m128i in
  let presult := advance presult 4 in
  Ok presult.

Definition decompress_sse4_c1_m1 (dest its_vector_m128i : list Z) : res (list Z) :=
  let presult := (dest, 0%nat) in
  let! c1_load_rslt_m128i := _mm_loadu_si128 its_vector_m128i 0 in
  let! presult := decompress_sse4_c1_m2 0 c1_load_rslt_m128i presult in
  let! presult := decompress_sse4_c1_m2 1 c1_load_rslt_m128i presult in
  let! presult := decompress_sse4_c1_m2 2 c1_load_rslt_m128i presult in
  let! presult := decompress_sse4_c1_m2 3 c1_load_rslt_m128i presult in
  let! presult := decompress_sse4_c1_m2 4 c1_load_rslt_m128i presult in
  let! presult := decompress_sse4_c1_m2 5 c1_load_rslt_m128i presult in
  let! presult := decompress_sse4_c1_m2 6 c1_load_rslt_m128i presult in
  let! presult := decompress_sse4_c1_m2 7 c1_load_rslt_m128i presult in
  let! presult := decompress_sse4_c1_m2 8 c1_load_rslt_m128i presult in
  let! presult := decompress_sse4_c1_m2 9 c1_load_rslt_m128i presult in
  let! presult := decompress_sse4_c1_m2 10 c1_load_rslt_m128i presult in
  let! presult := decompress_sse4_c1_m2 11 c1_load_rslt_m128i presult in
  let! presult := decompress_sse4_c1_m2 12 c1_load_rslt_m128i presult in
  let! presult := decompress_sse4_c1_m2 13 c1_load_rslt_m128i presult in
  let! presult := decompress_sse4_c1_m2 14 c1_load_rslt_m128i presult in
  let! presult := decompress_sse4_c1_m2 15 c1_load_rslt_m128i presult in
  Ok (fst presult).

Definition decompress_sse4_c1 (dest encode : list Z) (n : Z) : res (list Z) :=
  whileBlocks 128 1 n decompress_sse4_c1_m1 (restOf 0x7F n (unpack_1 32)) dest encode.

Definition SSE4_c2_and_msk_m128i : m128i :=
  _mm_set_epi8 [0x00; 0x00; 0x00; 0xC0; 0x00; 0x00; 0x00; 0x30; 0x00; 0x00; 0x00; 0x0C; 0x00; 0x00; 0x00;
                0x03].

Definition SSE4_c2_mul_msk_m128i : m128i :=
  _mm_set_epi32 [0x01; 0x04; 0x10; 0x40].

Definition decompress_sse4_c2_m2 (segment : Z) (c2_load_vec_m128i : m128i) (presult : cursor) : res cursor :=
  let SSE4_c2_shfl_msk_m128i := _mm_set_epi8 [0xFF; 0xFF; 0xFF; segment; 0xFF; 0xFF; 0xFF; segment; 0xFF;
                                              0xFF; 0xFF; segment; 0xFF; 0xFF; 0xFF; segment] in
  let c2_shfl_rslt_m128i := _mm_shuffle_epi8 c2_load_vec_m128i SSE4_c2_shfl_msk_m128i in
  let c2_and_rslt_m128i := _mm_and_si128 c2_shfl_rslt_m128i SSE4_c2_and_msk_m128i in
  let c2_mul_rslt_m128i := _mm_mullo_epi32 c2_and_rslt_m128i SSE4_c2_mul_msk_m128i in
  let c2_rslt_m128i := _mm_srli_epi32 c2_mul_rslt_m128i 6 in
  let! presult := _mm_storeu_si128 presult c2_rslt_m128i in
  let presult := advance presult 4 in
  Ok presult.

Definition decompress_sse4_c2_m1 (dest its_vector_m128i : list Z) : res (list Z) :=
  let presult := (dest, 0%nat) in
  let! c2_load_rslt_m128i := _mm_loadu_si128 its_vector_m128i 0 in
  let! presult := decompress_sse4_c2_m2 0 c2_load_rslt_m128i presult in
  let! presult := decompress_sse4_c2_m2 1 c2_load_rslt_m128i presult in
  let! presult := decompress_sse4_c2_m2 2 c2_load_rslt_m128i presult in
  let! presult := decompress_sse4_c2_m2 3 c2_load_rslt_m128i presult in
  let! presult := decompress_sse4_c2_m2 4 c2_load_rslt_m128i presult in
  let! presult := decompress_sse4_c2_m2 5 c2_load_rslt_m128i presult in
  let! presult := decompress_sse4_c2_m2 6 c2_load_rslt_m128i presult in
  let! presult := decompress_sse4_c2_m2 7 c2_load_rslt_m128i presult in
  let! presult := decompress_sse4_c2_m2 8 c2_load_rslt_m128i presult in
  let! presult := decompress_sse4_c2_m2 9 c2_load_rslt_m128i presult in
  let! presult := decompress_sse4_c2_m2 10 c2_load_rslt_m128i presult in
  let! presult := decompress_sse4_c2_m2 11 c2_load_rslt_m128i presult in
  let! presult := decompress_sse4_c2_m2 12 c2_load_rslt_m128i presult in
  let! presult := decompress_sse4_c2_m2 13 c2_load_rslt_m128i presult in
  let! presult := decompress_sse4_c2_m2 14 c2_load_rslt_m128i presult in
  let! presult := decompress_sse4_c2_m2 15 c2_load_rslt_m128i presult in
  Ok (fst presult).

Definition decompress_sse4_c2 (dest encode : list Z) (n : Z) : res (list Z) :=
  whileBlocks 64 1 n decompress_sse4_c2_m1 (restOf 0x3F n (unpack_2 32)) dest encode.

Definition SSE4_c3_and_msk1_m128i : m128i :=
  _mm_set_epi8 [0x00; 0x00; 0x00; 0x0E; 0x00; 0x00; 0x01; 0xC0; 0x00; 0x00; 0x00; 0x38; 0x00; 0x00; 0x00;
                0x07].

Definition SSE4_c3_and_msk2_m128i : m128i :=
  _mm_set_epi8 [0x00; 0x00; 0x00; 0xE0; 0x00; 0x00; 0x00; 0x1C; 0x00; 0x00; 0x03; 0x80; 0x00; 0x00; 0x00;
                0x70].

Definition SSE4_c3_mul_msk1_m128i : m128i :=
  _mm_set_epi32 [0x20; 0x01; 0x08; 0x40].

Definition SSE4_c3_mul_msk2_m128i : m128i :=
  _mm_set_epi32 [0x04; 0x20; 0x01; 0x08].

Definition decompress_sse4_c3_m2 (segment : Z) (c3_load_vec_m128i : m128i) (presult : cursor) : res cursor :=
  let SSE4_c3_shfl_msk_m128i := _mm_set_epi8 [0xFF; 0xFF; 0xFF; segment + 1; 0xFF; 0xFF; segment + 1;
                                              segment; 0xFF; 0xFF; 0xFF; segment; 0xFF; 0xFF; 0xFF;
                                              segment] in
  let c3_shfl_rslt_m128i := _mm_shuffle_epi8 c3_load_vec_m128i SSE4_c3_shfl_msk_m128i in
  let c3_and_rslt_m128i := _mm_and_si128 c3_shfl_rslt_m128i SSE4_c3_and_msk1_m128i in
  let c3_mul_rslt_m128i := _mm_mullo_epi32 c3_and_rslt_m128i SSE4_c3_mul_msk1_m128i in
  let c3_rslt_m128i := _mm_srli_epi32 c3_mul_rslt_m128i 6 in
  let! presult := _mm_storeu_si128 presult c3_rslt_m128i in
  let presult := advance presult 4 in
  let SSE4_c3_shfl_msk_m128i := _mm_set_epi8 [0xFF; 0xFF; 0xFF; segment + 2; 0xFF; 0xFF; 0xFF; segment + 2;
                                              0xFF; 0xFF; segment + 2; segment + 1; 0xFF; 0xFF; 0xFF;
                                              segment + 1] in
  let c3_shfl_rslt_m128i := _mm_shuffle_epi8 c3_load_vec_m128i SSE4_c3_shfl_msk_m128i in
  let c3_and_rslt_m128i := _mm_and_si128 c3_shfl_rslt_m128i SSE4_c3_and_msk2_m128i in
  let c3_mul_rslt_m128i := _mm_mullo_epi32 c3_and_rslt_m128i SSE4_c3_mul_msk2_m128i in
  let c3_rslt_m128i := _mm_srli_epi32 c3_mul_rslt_m128i 7 in
  let! presult := _mm_storeu_si128 presult c3_rslt_m128i in
  let presult := advance presult 4 in
  Ok presult.

Definition decompress_sse4_c3_m1 (dest its_vector_m128i : list Z) : res (list Z) :=
  let presult := (dest, 0%nat) in
  let! c3_load_rslt1_m128i := _mm_loadu_si128 its_vector_m128i 0 in
  let! presult := decompress_sse4_c3_m2 0 c3_load_rslt1_m128i presult in
  let! presult := decompress_sse4_c3_m2 3 c3_load_rslt1_m128i presult in
  let! presult := decompress_sse4_c3_m2 6 c3_load_rslt1_m128i presult in
  let! presult := decompress_sse4_c3_m2 9 c3_load_rslt1_m128i presult in
  let! presult := decompress_sse4_c3_m2 12 c3_load_rslt1_m128i presult in
  let! c3_load_rslt2_m128i := _mm_loadu_si128 its_vector_m128i 1 in
  let c3_align_rslt1_m128i := _mm_alignr_epi8 c3_load_rslt2_m128i c3_load_rslt1_m128i 15 in
  let! presult := decompress_sse4_c3_m2 0 c3_align_rslt1_m128i presult in
  let! presult := decompress_sse4_c3_m2 3 c3_align_rslt1_m128i presult in
  let! presult := decompress_sse4_c3_m2 6 c3_align_rslt1_m128i presult in
  let! presult := decompress_sse4_c3_m2 9 c3_align_rslt1_m128i presult in
  let! presult := decompress_sse4_c3_m2 12 c3_align_rslt1_m128i presult in
  let! c3_load_rslt3_m128i := _mm_loadu_si128 its_vector_m128i 2 in
  let c3_align_rslt2_m128i := _mm_alignr_epi8 c3_load_rslt3_m128i c3_load_rslt2_m128i 14 in
  let! presult := decompress_sse4_c3_m2 0 c3_align_rslt2_m128i presult in
  let! presult := decompress_sse4_c3_m2 3 c3_align_rslt2_m128i presult in
  let! presult := decompress_sse4_c3_m2 6 c3_align_rslt2_m128i presult in
  let! presult := decompress_sse4_c3_m2 9 c3_align_rslt2_m128i presult in
  let! presult := decompress_sse4_c3_m2 12 c3_align_rslt2_m128i presult in
  let! presult := decompress_sse4_c3_m2 13 c3_load_rslt3_m128i presult in
  Ok (fst presult).

Definition decompress_sse4_c3 (dest encode : list Z) (n : Z) : res (list Z) :=
  whileBlocks 128 3 n decompress_sse4_c3_m1 (restOf 0x7F n (unpack_3 32)) dest encode.

Definition SSE4_c4_and_msk_m128i : m128i :=
  _mm_set_epi8 [0x00; 0x00; 0x00; 0xF0; 0x00; 0x00; 0x00; 0x0F; 0x00; 0x00; 0x00; 0xF0; 0x00; 0x00; 0x00;
                0x0F].

Definition SSE4_c4_mul_msk_m128i : m128i :=
  _mm_set_epi32 [0x01; 0x10; 0x01; 0x10].

Definition decompress_sse4_c4_m2 (segment : Z) (c4_load_vec_m128i : m128i) (presult : cursor) : res cursor :=
  let SSE4_c4_shfl_msk_m128i := _mm_set_epi8 [0xFF; 0xFF; 0xFF; segment + 1; 0xFF; 0xFF; 0xFF; segment + 1;
                                              0xFF; 0xFF; 0xFF; segment; 0xFF; 0xFF; 0xFF; segment] in
  let c4_shfl_rslt_m128i := _mm_shuffle_epi8 c4_load_vec_m128i SSE4_c4_shfl_msk_m128i in
  let c4_and_rslt_m128i := _mm_and_si128 c4_shfl_rslt_m128i SSE4_c4_and_msk_m128i in
  let c4_mul_rslt_m128i := _mm_mullo_epi32 c4_and_rslt_m128i SSE4_c4_mul_msk_m128i in
  let c4_rslt_m128i := _mm_srli_epi32 c4_mul_rslt_m128i 4 in
  let! presult := _mm_storeu_si128 presult c4_rslt_m128i in
  let presult := advance presult 4 in
  Ok presult.

Definition decompress_sse4_c4_m1 (dest its_vector_m128i : list Z) : res (list Z) :=
  let presult := (dest, 0%nat) in
  let! c4_load_rslt_m128i := _mm_loadu_si128 its_vector_m128i 0 in
  let! presult := decompress_sse4_c4_m2 0 c4_load_rslt_m128i presult in
  let! presult := decompress_sse4_c4_m2 2 c4_load_rslt_m128i presult in
  let! presult := decompress_sse4_c4_m2 4 c4_load_rslt_m128i presult in
  let! presult := decompress_sse4_c4_m2 6 c4_load_rslt_m128i presult in
  let! presult := decompress_sse4_c4_m2 8 c4_load_rslt_m128i presult in
  let! presult := decompress_sse4_c4_m2 10 c4_load_rslt_m128i presult in
  let! presult := decompress_sse4_c4_m2 12 c4_load_rslt_m128i presult in
  let! presult := decompress_sse4_c4_m2 14 c4_load_rslt_m128i presult in
  Ok (fst presult).

Definition decompress_sse4_c4 (dest encode : list Z) (n : Z) : res (list Z) :=
  whileBlocks 32 1 n decompress_sse4_c4_m1 (restOf 0x1F n (unpack_4 32)) dest encode.

Definition SSE4_c5_and_msk1_m128i : m128i :=
  _mm_set_epi8 [0x00; 0x00; 0x0F; 0x80; 0x00; 0x00; 0x00; 0x7C; 0x00; 0x00; 0x03; 0xE0; 0x00; 0x00; 0x00;
                0x1F].

Definition SSE4_c5_and_msk2_m128i : m128i :=
  _mm_set_epi8 [0x00; 0x00; 0x00; 0xF8; 0x00; 0x00; 0x07; 0xC0; 0x00; 0x00; 0x00; 0x3E; 0x00; 0x00; 0x01;
                0xF0].

Definition SSE4_c5_mul_msk1_m128i : m128i :=
  _mm_set_epi32 [0x01; 0x20; 0x04; 0x80].

Definition SSE4_c5_mul_msk2_m128i : m128i :=
  _mm_set_epi32 [0x08; 0x01; 0x20; 0x04].

Definition decompress_sse4_c5_m2 (segment : Z) (c5_load_vec_m128i : m128i) (presult : cursor) : res cursor :=
  let SSE4_c5_shfl_msk_m128i := _mm_set_epi8 [0xFF; 0xFF; segment + 2; segment + 1; 0xFF; 0xFF; 0xFF;
                                              segment + 1; 0xFF; 0xFF; segment + 1; segment; 0xFF; 0xFF;
                                              0xFF; segment] in
  let c5_shfl_rslt_m128i := _mm_shuffle_epi8 c5_load_vec_m128i SSE4_c5_shfl_msk_m128i in
  let c5_and_rslt_m128i := _mm_and_si128 c5_shfl_rslt_m128i SSE4_c5_and_msk1_m128i in
  let c5_mul_rslt_m128i := _mm_mullo_epi32 c5_and_rslt_m128i SSE4_c5_mul_msk1_m128i in
  let c5_rslt_m128i := _mm_srli_epi32 c5_mul_rslt_m128i 7 in
  let! presult := _mm_storeu_si128 presult c5_rslt_m128i in
  let presult := advance presult 4 in
  let SSE4_c5_shfl_msk_m128i := _mm_set_epi8 [0xFF; 0xFF; 0xFF; segment + 4; 0xFF; 0xFF; segment + 4;
                                              segment + 3; 0xFF; 0xFF; 0xFF; segment + 3; 0xFF; 0xFF;
                                              segment + 3; segment + 2] in
  let c5_shfl_rslt_m128i := _mm_shuffle_epi8 c5_load_vec_m128i SSE4_c5_shfl_msk_m128i in
  let c5_and_rslt_m128i := _mm_and_si128 c5_shfl_rslt_m128i SSE4_c5_and_msk2_m128i in
  let c5_mul_rslt_m128i := _mm_mullo_epi32 c5_and_rslt_m128i SSE4_c5_mul_msk2_m128i in
  let c5_rslt_m128i := _mm_srli_epi32 c5_mul_rslt_m128i 6 in
  let! presult := _mm_storeu_si128 presult c5_rslt_m128i in
  let presult := advance presult 4 in
  Ok presult.

Definition decompress_sse4_c5_m1 (dest its_vector_m128i : list Z) : res (list Z) :=
  let presult := (dest, 0%nat) in
  let! c5_load_rslt1_m128i := _mm_loadu_si128 its_vector_m128i 0 in
  let! presult := decompress_sse4_c5_m2 0 c5_load_rslt1_m128i presult in
  let! presult := decompress_sse4_c5_m2 5 c5_load_rslt1_m128i presult in
  let! presult := decompress_sse4_c5_m2 10 c5_load_rslt1_m128i presult in
  let! c5_load_rslt2_m128i := _mm_loadu_si128 its_vector_m128i 1 in
  let c5_align_rslt1_m128i := _mm_alignr_epi8 c5_load_rslt2_m128i c5_load_rslt1_m128i 15 in
  let! presult := decompress_sse4_c5_m2 0 c5_align_rslt1_m128i presult in
  let! presult := decompress_sse4_c5_m2 5 c5_align_rslt1_m128i presult in
  let! presult := decompress_sse4_c5_m2 10 c5_align_rslt1_m128i presult in
  let! c5_load_rslt3_m128i := _mm_loadu_si128 its_vector_m128i 2 in
  let c5_align_rslt2_m128i := _mm_alignr_epi8 c5_load_rslt3_m128i c5_load_rslt2_m128i 14 in
  let! presult := decompress_sse4_c5_m2 0 c5_align_rslt2_m128i presult in
  let! presult := decompress_sse4_c5_m2 5 c5_align_rslt2_m128i presult in
  let! presult := decompress_sse4_c5_m2 10 c5_align_rslt2_m128i presult in
  let! c5_load_rslt4_m128i := _mm_loadu_si128 its_vector_m128i 3 in
  let c5_align_rslt3_m128i := _mm_alignr_epi8 c5_load_rslt4_m128i c5_load_rslt3_m128i 13 in
  let! presult := decompress_sse4_c5_m2 0 c5_align_rslt3_m128i presult in
  let! presult := decompress_sse4_c5_m2 5 c5_align_rslt3_m128i presult in
  let! presult := decompress_sse4_c5_m2 10 c5_align_rslt3_m128i presult in
  let! c5_load_rslt5_m128i := _mm_loadu_si128 its_vector_m128i 4 in
  let c5_align_rslt4_m128i := _mm_alignr_epi8 c5_load_rslt5_m128i c5_load_rslt4_m128i 12 in
  let! presult := decompress_sse4_c5_m2 0 c5_align_rslt4_m128i presult in
  let! presult := decompress_sse4_c5_m2 5 c5_align_rslt4_m128i presult in
  let! presult := decompress_sse4_c5_m2 10 c5_align_rslt4_m128i presult in
  let! presult := decompress_sse4_c5_m2 11 c5_load_rslt5_m128i presult in
  Ok (fst presult).

Definition decompress_sse4_c5 (dest encode : list Z) (n : Z) : res (list Z) :=
  whileBlocks 128 5 n decompress_sse4_c5_m1 (restOf 0x7F n (unpack_5 32)) dest encode.

Definition SSE4_c6_and_msk1_m128i : m128i :=
  _mm_set_epi8 [0x00; 0x00; 0x00; 0xFC; 0x00; 0x00; 0x03; 0xF0; 0x00; 0x00; 0x0F; 0xC0; 0x00; 0x00; 0x00;
                0x3F].

Definition SSE4_c6_mul_msk1_m128i : m128i :=
  _mm_set_epi32 [0x10; 0x04; 0x01; 0x40].

Definition decompress_sse4_c6_m2 (segment : Z) (c6_load_vec_m128i : m128i) (presult : cursor) : res cursor :=
  let SSE4_c6_shfl_msk_m128i := _mm_set_epi8 [0xFF; 0xFF; 0xFF; segment + 2; 0xFF; 0xFF; segment + 2;
                                              segment + 1; 0xFF; 0xFF; segment + 1; segment; 0xFF; 0xFF;
                                              0xFF; segment] in
  let c6_shfl_rslt_m128i := _mm_shuffle_epi8 c6_load_vec_m128i SSE4_c6_shfl_msk_m128i in
  let c6_and_rslt_m128i := _mm_and_si128 c6_shfl_rslt_m128i SSE4_c6_and_msk1_m128i in
  let c6_mul_rslt_m128i := _mm_mullo_epi32 c6_and_rslt_m128i SSE4_c6_mul_msk1_m128i in
  let c6_rslt_m128i := _mm_srli_epi32 c6_mul_rslt_m128i 6 in
  let! presult := _mm_storeu_si128 presult c6_rslt_m128i in
  let presult := advance presult 4 in
  Ok presult.

Definition decompress_sse4_c6_m1 (dest its_vector_m128i : list Z) : res (list Z) :=
  let presult := (dest, 0%nat) in
  let! c6_load_rslt1_m128i := _mm_loadu_si128 its_vector_m128i 0 in
  let! presult := decompress_sse4_c6_m2 0 c6_load_rslt1_m128i presult in
  let! presult := decompress_sse4_c6_m2 3 c6_load_rslt1_m128i presult in
  let! presult := decompress_sse4_c6_m2 6 c6_load_rslt1_m128i presult in
  let! presult := decompress_sse4_c6_m2 9 c6_load_rslt1_m128i presult in
  let! presult := decompress_sse4_c6_m2 12 c6_load_rslt1_m128i presult in
  let! c6_load_rslt2_m128i := _mm_loadu_si128 its_vector_m128i 1 in
  let c6_align_rslt1_m128i := _mm_alignr_epi8 c6_load_rslt2_m128i c6_load_rslt1_m128i 15 in
  let! presult := decompress_sse4_c6_m2 0 c6_align_rslt1_m128i presult in
  let! presult := decompress_sse4_c6_m2 3 c6_align_rslt1_m128i presult in
  let! presult := decompress_sse4_c6_m2 6 c6_align_rslt1_m128i presult in
  let! presult := decompress_sse4_c6_m2 9 c6_align_rslt1_m128i presult in
  let! presult := decompress_sse4_c6_m2 12 c6_align_rslt1_m128i presult in
  let! c6_load_rslt3_m128i := _mm_loadu_si128 its_vector_m128i 2 in
  let c6_align_rslt2_m128i := _mm_alignr_epi8 c6_load_rslt3_m128i c6_load_rslt2_m128i 14 in
  let! presult := decompress_sse4_c6_m2 0 c6_align_rslt2_m128i presult in
  let! presult := decompress_sse4_c6_m2 3 c6_align_rslt2_m128i presult in
  let! presult := decompress_sse4_c6_m2 6 c6_align_rslt2_m128i presult in
  let! presult := decompress_sse4_c6_m2 9 c6_align_rslt2_m128i presult in
  let! presult := decompress_sse4_c6_m2 12 c6_align_rslt2_m128i presult in
  let! presult := decompress_sse4_c6_m2 13 c6_load_rslt3_m128i presult in
  Ok (fst presult).

Definition decompress_sse4_c6 (dest encode : list Z) (n : Z) : res (list Z) :=
  whileBlocks 64 3 n decompress_sse4_c6_m1 (restOf 0x3F n unpack_6_uint32) dest encode.

Definition SSE4_c7_and_msk1_m128i : m128i :=
  _mm_set_epi8 [0x00; 0x00; 0x0F; 0xE0; 0x00; 0x00; 0x1F; 0xC0; 0x00; 0x00; 0x3F; 0x80; 0x00; 0x00; 0x00;
                0x7F].

Definition SSE4_c7_and_msk2_m128i : m128i :=
  _mm_set_epi8 [0x00; 0x00; 0x00; 0xFE; 0x00; 0x00; 0x01; 0xFC; 0x00; 0x00; 0x03; 0xF8; 0x00; 0x00; 0x07;
                0xF0].

Definition SSE4_c7_mul_msk1_m128i : m128i :=
  _mm_set_epi32 [0x04; 0x02; 0x01; 0x80].

Definition SSE4_c7_mul_msk2_m128i : m128i :=
  _mm_set_epi32 [0x08; 0x04; 0x02; 0x01].

Definition decompress_sse4_c7_m2 (segment : Z) (c7_load_vec_m128i : m128i) (presult : cursor) : res cursor :=
  let SSE4_c7_shfl_msk_m128i := _mm_set_epi8 [0xFF; 0xFF; segment + 3; segment + 2; 0xFF; 0xFF;
                                              segment + 2; segment + 1; 0xFF; 0xFF; segment + 1; segment;
                                              0xFF; 0xFF; 0xFF; segment] in
  let c7_shfl_rslt_m128i := _mm_shuffle_epi8 c7_load_vec_m128i SSE4_c7_shfl_msk_m128i in
  let c7_and_rslt_m128i := _mm_and_si128 c7_shfl_rslt_m128i SSE4_c7_and_msk1_m128i in
  let c7_mul_rslt_m128i := _mm_mullo_epi32 c7_and_rslt_m128i SSE4_c7_mul_msk1_m128i in
  let c7_rslt_m128i := _mm_srli_epi32 c7_mul_rslt_m128i 7 in
  let! presult := _mm_storeu_si128 presult c7_rslt_m128i in
  let presult := advance presult 4 in
  let SSE4_c7_shfl_msk_m128i := _mm_set_epi8 [0xFF; 0xFF; 0xFF; segment + 6; 0xFF; 0xFF; segment + 6;
                                              segment + 5; 0xFF; 0xFF; segment + 5; segment + 4; 0xFF;
                                              0xFF; segment + 4; segment + 3] in
  let c7_shfl_rslt_m128i := _mm_shuffle_epi8 c7_load_vec_m128i SSE4_c7_shfl_msk_m128i in
  let c7_and_rslt_m128i := _mm_and_si128 c7_shfl_rslt_m128i SSE4_c7_and_msk2_m128i in
  let c7_mul_rslt_m128i := _mm_mullo_epi32 c7_and_rslt_m128i SSE4_c7_mul_msk2_m128i in
  let c7_rslt_m128i := _mm_srli_epi32 c7_mul_rslt_m128i 4 in
  let! presult := _mm_storeu_si128 presult c7_rslt_m128i in
  let presult := advance presult 4 in
  Ok presult.

Definition decompress_sse4_c7_m1 (dest its_vector_m128i : list Z) : res (list Z) :=
  let presult := (dest, 0%nat) in
  let! c7_load_rslt1_m128i := _mm_loadu_si128 its_vector_m128i 0 in
  let! presult := decompress_sse4_c7_m2 0 c7_load_rslt1_m128i presult in
  let! presult := decompress_sse4_c7_m2 7 c7_load_rslt1_m128i presult in
  let! c7_load_rslt2_m128i := _mm_loadu_si128 its_vector_m128i 1 in
  let c7_align_rslt1_m128i := _mm_alignr_epi8 c7_load_rslt2_m128i c7_load_rslt1_m128i 14 in
  let! presult := decompress_sse4_c7_m2 0 c7_align_rslt1_m128i presult in
  let! presult := decompress_sse4_c7_m2 7 c7_align_rslt1_m128i presult in
  let! c7_load_rslt3_m128i := _mm_loadu_si128 its_vector_m128i 2 in
  let c7_align_rslt2_m128i := _mm_alignr_epi8 c7_load_rslt3_m128i c7_load_rslt2_m128i 12 in
  let! presult := decompress_sse4_c7_m2 0 c7_align_rslt2_m128i presult in
  let! presult := decompress_sse4_c7_m2 7 c7_align_rslt2_m128i presult in
  let! c7_load_rslt4_m128i := _mm_loadu_si128 its_vector_m128i 3 in
  let c7_align_rslt3_m128i := _mm_alignr_epi8 c7_load_rslt4_m128i c7_load_rslt3_m128i 10 in
  let! presult := decompress_sse4_c7_m2 0 c7_align_rslt3_m128i presult in
  let! presult := decompress_sse4_c7_m2 7 c7_align_rslt3_m128i presult in
  let! c7_load_rslt5_m128i := _mm_loadu_si128 its_vector_m128i 4 in
  let c7_align_rslt4_m128i := _mm_alignr_epi8 c7_load_rslt5_m128i c7_load_rslt4_m128i 8 in
  let! presult := decompress_sse4_c7_m2 0 c7_align_rslt4_m128i presult in
  let! presult := decompress_sse4_c7_m2 7 c7_align_rslt4_m128i presult in
  let! c7_load_rslt6_m128i := _mm_loadu_si128 its_vector_m128i 5 in
  let c7_align_rslt5_m128i := _mm_alignr_epi8 c7_load_rslt6_m128i c7_load_rslt5_m128i 6 in
  let! presult := decompress_sse4_c7_m2 0 c7_align_rslt5_m128i presult in
  let! presult := decompress_sse4_c7_m2 7 c7_align_rslt5_m128i presult in
  let! c7_load_rslt7_m128i := _mm_loadu_si128 its_vector_m128i 6 in
  let c7_align_rslt6_m128i := _mm_alignr_epi8 c7_load_rslt7_m128i c7_load_rslt6_m128i 4 in
  let! presult := decompress_sse4_c7_m2 0 c7_align_rslt6_m128i presult in
  let! presult := decompress_sse4_c7_m2 7 c7_align_rslt6_m128i presult in
  let! presult := decompress_sse4_c7_m2 2 c7_load_rslt7_m128i presult in
  let! presult := decompress_sse4_c7_m2 9 c7_load_rslt7_m128i presult in
  Ok (fst presult).

Definition decompress_sse4_c7 (dest encode : list Z) (n : Z) : res (list Z) :=
  whileBlocks 128 7 n decompress_sse4_c7_m1 (restOf 0x7F n (unpack_7 32)) dest encode.

Definition decompress_sse4_c8_m2 (segment : Z) (c8_load_vec_m128i : m128i) (presult : cursor) : res cursor :=
  let SSE4_c8_shfl_msk_m128i := _mm_set_epi8 [0xFF; 0xFF; 0xFF; segment + 3; 0xFF; 0xFF; 0xFF; segment + 2;
                                              0xFF; 0xFF; 0xFF; segment + 1; 0xFF; 0xFF; 0xFF; segment] in
  let c8_rslt_m128i := _mm_shuffle_epi8 c8_load_vec_m128i SSE4_c8_shfl_msk_m128i in
  let! presult := _mm_storeu_si128 presult c8_rslt_m128i in
  let presult := advance presult 4 in
  Ok presult.

Definition decompress_sse4_c8_m1 (dest its_vector_m128i : list Z) : res (list Z) :=
  let presult := (dest, 0%nat) in
  let! c8_load_rslt_m128i := _mm_loadu_si128 its_vector_m128i 0 in
  let! presult := decompress_sse4_c8_m2 0 c8_load_rslt_m128i presult in
  let! presult := decompress_sse4_c8_m2 4 c8_load_rslt_m128i presult in
  let! presult := decompress_sse4_c8_m2 8 c8_load_rslt_m128i presult in
  let! presult := decompress_sse4_c8_m2 12 c8_load_rslt_m128i presult in
  Ok (fst presult).

Definition decompress_sse4_c8 (dest encode : list Z) (n : Z) : res (list Z) :=
  whileBlocks 16 1 n decompress_sse4_c8_m1 (restOf 0xF n (unpack_8 32)) dest encode.

Definition SSE4_c9_and_msk1_m128i : m128i :=
  _mm_set_epi8 [0x00; 0x00; 0x0F; 0xF8; 0x00; 0x00; 0x07; 0xFC; 0x00; 0x00; 0x03; 0xFE; 0x00; 0x00; 0x01;
                0xFF].

Definition SSE4_c9_and_msk2_m128i : m128i :=
  _mm_set_epi8 [0x00; 0x00; 0xFF; 0x80; 0x00; 0x00; 0x7F; 0xC0; 0x00; 0x00; 0x3F; 0xE0; 0x00; 0x00; 0x1F;
                0xF0].

Definition SSE4_c9_mul_msk1_m128i : m128i :=
  _mm_set_epi32 [0x01; 0x02; 0x04; 0x08].

Definition SSE4_c9_mul_msk2_m128i : m128i :=
  _mm_set_epi32 [0x01; 0x02; 0x04; 0x08].

Definition decompress_sse4_c9_m2 (segment : Z) (c9_load_vec_m128i : m128i) (presult : cursor) : res cursor :=
  let SSE4_c9_shfl_msk_m128i := _mm_set_epi8 [0xFF; 0xFF; segment + 4; segment + 3; 0xFF; 0xFF;
                                              segment + 3; segment + 2; 0xFF; 0xFF; segment + 2;
                                              segment + 1; 0xFF; 0xFF; segment + 1; segment] in
  let c9_shfl_rslt_m128i := _mm_shuffle_epi8 c9_load_vec_m128i SSE4_c9_shfl_msk_m128i in
  let c9_and_rslt_m128i := _mm_and_si128 c9_shfl_rslt_m128i SSE4_c9_and_msk1_m128i in
  let c9_mul_rslt_m128i := _mm_mullo_epi32 c9_and_rslt_m128i SSE4_c9_mul_msk1_m128i in
  let c9_rslt_m128i := _mm_srli_epi32 c9_mul_rslt_m128i 3 in
  let! presult := _mm_storeu_si128 presult c9_rslt_m128i in
  let presult := advance presult 4 in
  let SSE4_c9_shfl_msk_m128i := _mm_set_epi8 [0xFF; 0xFF; segment + 8; segment + 7; 0xFF; 0xFF;
                                              segment + 7; segment + 6; 0xFF; 0xFF; segment + 6;
                                              segment + 5; 0xFF; 0xFF; segment + 5; segment + 4] in
  let c9_shfl_rslt_m128i := _mm_shuffle_epi8 c9_load_vec_m128i SSE4_c9_shfl_msk_m128i in
  let c9_and_rslt_m128i := _mm_and_si128 c9_shfl_rslt_m128i SSE4_c9_and_msk2_m128i in
  let c9_mul_rslt_m128i := _mm_mullo_epi32 c9_and_rslt_m128i SSE4_c9_mul_msk2_m128i in
  let c9_rslt_m128i := _mm_srli_epi32 c9_mul_rslt_m128i 7 in
  let! presult := _mm_storeu_si128 presult c9_rslt_m128i in
  let presult := advance presult 4 in
  Ok presult.

Definition decompress_sse4_c9_m1 (dest its_vector_m128i : list Z) : res (list Z) :=
  let presult := (dest, 0%nat) in
  let! c9_load_rslt1_m128i := _mm_loadu_si128 its_vector_m128i 0 in
  let! presult := decompress_sse4_c9_m2 0 c9_load_rslt1_m128i presult in
  let! c9_load_rslt2_m128i := _mm_loadu_si128 its_vector_m128i 1 in
  let c9_align_rslt1_m128i := _mm_alignr_epi8 c9_load_rslt2_m128i c9_load_rslt1_m128i 9 in
  let! presult := decompress_sse4_c9_m2 0 c9_align_rslt1_m128i presult in
  let! presult := decompress_sse4_c9_m2 2 c9_load_rslt2_m128i presult in
  let! c9_load_rslt3_m128i := _mm_loadu_si128 its_vector_m128i 2 in
  let c9_align_rslt2_m128i := _mm_alignr_epi8 c9_load_rslt3_m128i c9_load_rslt2_m128i 11 in
  let! presult := decompress_sse4_c9_m2 0 c9_align_rslt2_m128i presult in
  let! presult := decompress_sse4_c9_m2 4 c9_load_rslt3_m128i presult in
  let! c9_load_rslt4_m128i := _mm_loadu_si128 its_vector_m128i 3 in
  let c9_align_rslt3_m128i := _mm_alignr_epi8 c9_load_rslt4_m128i c9_load_rslt3_m128i 13 in
  let! presult := decompress_sse4_c9_m2 0 c9_align_rslt3_m128i presult in
  let! presult := decompress_sse4_c9_m2 6 c9_load_rslt4_m128i presult in
  let! c9_load_rslt5_m128i := _mm_loadu_si128 its_vector_m128i 4 in
  let c9_align_rslt4_m128i := _mm_alignr_epi8 c9_load_rslt5_m128i c9_load_rslt4_m128i 15 in
  let! presult := decompress_sse4_c9_m2 0 c9_align_rslt4_m128i presult in
  let! c9_load_rslt6_m128i := _mm_loadu_si128 its_vector_m128i 5 in
  let c9_align_rslt5_m128i := _mm_alignr_epi8 c9_load_rslt6_m128i c9_load_rslt5_m128i 8 in
  let! presult := decompress_sse4_c9_m2 0 c9_align_rslt5_m128i presult in
  let! presult := decompress_sse4_c9_m2 1 c9_load_rslt6_m128i presult in
  let! c9_load_rslt7_m128i := _mm_loadu_si128 its_vector_m128i 6 in
  let c9_align_rslt6_m128i := _mm_alignr_epi8 c9_load_rslt7_m128i c9_load_rslt6_m128i 10 in
  let! presult := decompress_sse4_c9_m2 0 c9_align_rslt6_m128i presult in
  let! presult := decompress_sse4_c9_m2 3 c9_load_rslt7_m128i presult in
  let! c9_load_rslt8_m128i := _mm_loadu_si128 its_vector_m128i 7 in
  let c9_align_rslt7_m128i := _mm_alignr_epi8 c9_load_rslt8_m128i c9_load_rslt7_m128i 12 in
  let! presult := decompress_sse4_c9_m2 0 c9_align_rslt7_m128i presult in
  let! presult := decompress_sse4_c9_m2 5 c9_load_rslt8_m128i presult in
  let! c9_load_rslt9_m128i := _mm_loadu_si128 its_vector_m128i 8 in
  let c9_align_rslt8_m128i := _mm_alignr_epi8 c9_load_rslt9_m128i c9_load_rslt8_m128i 14 in
  let! presult := decompress_sse4_c9_m2 0 c9_align_rslt8_m128i presult in
  let! presult := decompress_sse4_c9_m2 7 c9_load_rslt9_m128i presult in
  Ok (fst presult).

Definition decompress_sse4_c9 (dest encode : list Z) (n : Z) : res (list Z) :=
  whileBlocks 128 9 n decompress_sse4_c9_m1 (restOf 0x7F n (unpack_9 32)) dest encode.

Definition SSE4_c10_and_msk1_m128i : m128i :=
  _mm_set_epi8 [0x00; 0x00; 0xFF; 0xC0; 0x00; 0x00; 0x3F; 0xF0; 0x00; 0x00; 0x0F; 0xFC; 0x00; 0x00; 0x03;
                0xFF].

Definition SSE4_c10_mul_msk1_m128i : m128i :=
  _mm_set_epi32 [0x01; 0x04; 0x10; 0x40].

Definition decompress_sse4_c10_m2 (segment : Z) (c10_load_vec_m128i : m128i) (presult : cursor) : res cursor :=
  let SSE4_c10_shfl_msk_m128i := _mm_set_epi8 [0xFF; 0xFF; segment + 4; segment + 3; 0xFF; 0xFF;
                                               segment + 3; segment + 2; 0xFF; 0xFF; segment + 2;
                                               segment + 1; 0xFF; 0xFF; segment + 1; segment] in
  let c10_shfl_rslt_m128i := _mm_shuffle_epi8 c10_load_vec_m128i SSE4_c10_shfl_msk_m128i in
  let c10_and_rslt_m128i := _mm_and_si128 c10_shfl_rslt_m128i SSE4_c10_and_msk1_m128i in
  let c10_mul_rslt_m128i := _mm_mullo_epi32 c10_and_rslt_m128i SSE4_c10_mul_msk1_m128i in
  let c10_rslt_m128i := _mm_srli_epi32 c10_mul_rslt_m128i 6 in
  let! presult := _mm_storeu_si128 presult c10_rslt_m128i in
  let presult := advance presult 4 in
  Ok presult.

Definition decompress_sse4_c10_m1 (dest its_vector_m128i : list Z) : res (list Z) :=
  let presult := (dest, 0%nat) in
  let! c10_load_rslt1_m128i := _mm_loadu_si128 its_vector_m128i 0 in
  let! presult := decompress_sse4_c10_m2 0 c10_load_rslt1_m128i presult in
  let! presult := decompress_sse4_c10_m2 5 c10_load_rslt1_m128i presult in
  let! presult := decompress_sse4_c10_m2 10 c10_load_rslt1_m128i presult in
  let! c10_load_rslt2_m128i := _mm_loadu_si128 its_vector_m128i 1 in
  let c10_align_rslt1_m128i := _mm_alignr_epi8 c10_load_rslt2_m128i c10_load_rslt1_m128i 15 in
  let! presult := decompress_sse4_c10_m2 0 c10_align_rslt1_m128i presult in
  let! presult := decompress_sse4_c10_m2 5 c10_align_rslt1_m128i presult in
  let! presult := decompress_sse4_c10_m2 10 c10_align_rslt1_m128i presult in
  let! c10_load_rslt3_m128i := _mm_loadu_si128 its_vector_m128i 2 in
  let c10_align_rslt2_m128i := _mm_alignr_epi8 c10_load_rslt3_m128i c10_load_rslt2_m128i 14 in
  let! presult := decompress_sse4_c10_m2 0 c10_align_rslt2_m128i presult in
  let! presult := decompress_sse4_c10_m2 5 c10_align_rslt2_m128i presult in
  let! presult := decompress_sse4_c10_m2 10 c10_align_rslt2_m128i presult in
  let! c10_load_rslt4_m128i := _mm_loadu_si128 its_vector_m128i 3 in
  let c10_align_rslt3_m128i := _mm_alignr_epi8 c10_load_rslt4_m128i c10_load_rslt3_m128i 13 in
  let! presult := decompress_sse4_c10_m2 0 c10_align_rslt3_m128i presult in
  let! presult := decompress_sse4_c10_m2 5 c10_align_rslt3_m128i presult in
  let! presult := decompress_sse4_c10_m2 10 c10_align_rslt3_m128i presult in
  let! c10_load_rslt5_m128i := _mm_loadu_si128 its_vector_m128i 4 in
  let c10_align_rslt4_m128i := _mm_alignr_epi8 c10_load_rslt5_m128i c10_load_rslt4_m128i 12 in
  let! presult := decompress_sse4_c10_m2 0 c10_align_rslt4_m128i presult in
  let! presult := decompress_sse4_c10_m2 5 c10_align_rslt4_m128i presult in
  let! presult := decompress_sse4_c10_m2 10 c10_align_rslt4_m128i presult in
  let! presult := decompress_sse4_c10_m2 11 c10_load_rslt5_m128i presult in
  Ok (fst presult).

Definition decompress_sse4_c10 (dest encode : list Z) (n : Z) : res (list Z) :=
  whileBlocks 64 5 n decompress_sse4_c10_m1 (restOf 0x3F n (unpack_10 32)) dest encode.

Definition SSE4_c11_and_msk1_m128i : m128i :=
  _mm_set_epi8 [0x00; 0x00; 0x0F; 0xFE; 0x00; 0x01; 0xFF; 0xC0; 0x00; 0x00; 0x3F; 0xF8; 0x00; 0x00; 0x07;
                0xFF].

Definition SSE4_c11_and_msk2_m128i : m128i :=
  _mm_set_epi8 [0x00; 0x00; 0xFF; 0xE0; 0x00; 0x00; 0x1F; 0xFC; 0x00; 0x03; 0xFF; 0x80; 0x00; 0x00; 0x7F;
                0xF0].

Definition SSE4_c11_mul_msk1_m128i : m128i :=
  _mm_set_epi32 [0x20; 0x01; 0x08; 0x40].

Definition SSE4_c11_mul_msk2_m128i : m128i :=
  _mm_set_epi32 [0x04; 0x20; 0x01; 0x08].

Definition decompress_sse4_c11_m2 (segment : Z) (c11_load_vec_m128i : m128i) (presult : cursor) : res cursor :=
  let SSE4_c11_shfl_msk_m128i := _mm_set_epi8 [0xFF; 0xFF; segment + 5; segment + 4; 0xFF; segment + 4;
                                               segment + 3; segment + 2; 0xFF; 0xFF; segment + 2;
                                               segment + 1; 0xFF; 0xFF; segment + 1; segment] in
  let c11_shfl_rslt_m128i := _mm_shuffle_epi8 c11_load_vec_m128i SSE4_c11_shfl_msk_m128i in
  let c11_and_rslt_m128i := _mm_and_si128 c11_shfl_rslt_m128i SSE4_c11_and_msk1_m128i in
  let c11_mul_rslt_m128i := _mm_mullo_epi32 c11_and_rslt_m128i SSE4_c11_mul_msk1_m128i in
  let c11_rslt_m128i := _mm_srli_epi32 c11_mul_rslt_m128i 6 in
  let! presult := _mm_storeu_si128 presult c11_rslt_m128i in
  let presult := advance presult 4 in
  let SSE4_c11_shfl_msk_m128i := _mm_set_epi8 [0xFF; 0xFF; segment + 10; segment + 9; 0xFF; 0xFF;
                                               segment + 9; segment + 8; 0xFF; segment + 8; segment + 7;
                                               segment + 6; 0xFF; 0xFF; segment + 6; segment + 5] in
  let c11_shfl_rslt_m128i := _mm_shuffle_epi8 c11_load_vec_m128i SSE4_c11_shfl_msk_m128i in
  let c11_and_rslt_m128i := _mm_and_si128 c11_shfl_rslt_m128i SSE4_c11_and_msk2_m128i in
  let c11_mul_rslt_m128i := _mm_mullo_epi32 c11_and_rslt_m128i SSE4_c11_mul_msk2_m128i in
  let c11_rslt_m128i := _mm_srli_epi32 c11_mul_rslt_m128i 7 in
  let! presult := _mm_storeu_si128 presult c11_rslt_m128i in
  let presult := advance presult 4 in
  Ok presult.

Definition decompress_sse4_c11_m1 (dest its_vector_m128i : list Z) : res (list Z) :=
  let presult := (dest, 0%nat) in
  let! c11_load_rslt1_m128i := _mm_loadu_si128 its_vector_m128i 0 in
  let! presult := decompress_sse4_c11_m2 0 c11_load_rslt1_m128i presult in
  let! c11_load_rslt2_m128i := _mm_loadu_si128 its_vector_m128i 1 in
  let c11_align_rslt1_m128i := _mm_alignr_epi8 c11_load_rslt2_m128i c11_load_rslt1_m128i 11 in
  let! presult := decompress_sse4_c11_m2 0 c11_align_rslt1_m128i presult in
  let! c11_load_rslt3_m128i := _mm_loadu_si128 its_vector_m128i 2 in
  let c11_align_rslt2_m128i := _mm_alignr_epi8 c11_load_rslt3_m128i c11_load_rslt2_m128i 6 in
  let! presult := decompress_sse4_c11_m2 0 c11_align_rslt2_m128i presult in
  let! presult := decompress_sse4_c11_m2 1 c11_load_rslt3_m128i presult in
  let! c11_load_rslt4_m128i := _mm_loadu_si128 its_vector_m128i 3 in
  let c11_align_rslt3_m128i := _mm_alignr_epi8 c11_load_rslt4_m128i c11_load_rslt3_m128i 12 in
  let! presult := decompress_sse4_c11_m2 0 c11_align_rslt3_m128i presult in
  let! c11_load_rslt5_m128i := _mm_loadu_si128 its_vector_m128i 4 in
  let c11_align_rslt4_m128i := _mm_alignr_epi8 c11_load_rslt5_m128i c11_load_rslt4_m128i 7 in
  let! presult := decompress_sse4_c11_m2 0 c11_align_rslt4_m128i presult in
  let! presult := decompress_sse4_c11_m2 2 c11_load_rslt5_m128i presult in
  let! c11_load_rslt6_m128i := _mm_loadu_si128 its_vector_m128i 5 in
  let c11_align_rslt5_m128i := _mm_alignr_epi8 c11_load_rslt6_m128i c11_load_rslt5_m128i 13 in
  let! presult := decompress_sse4_c11_m2 0 c11_align_rslt5_m128i presult in
  let! c11_load_rslt7_m128i := _mm_loadu_si128 its_vector_m128i 6 in
  let c11_align_rslt6_m128i := _mm_alignr_epi8 c11_load_rslt7_m128i c11_load_rslt6_m128i 8 in
  let! presult := decompress_sse4_c11_m2 0 c11_align_rslt6_m128i presult in
  let! presult := decompress_sse4_c11_m2 3 c11_load_rslt7_m128i presult in
  let! c11_load_rslt8_m128i := _mm_loadu_si128 its_vector_m128i 7 in
  let c11_align_rslt7_m128i := _mm_alignr_epi8 c11_load_rslt8_m128i c11_load_rslt7_m128i 14 in
  let! presult := decompress_sse4_c11_m2 0 c11_align_rslt7_m128i presult in
  let! c11_load_rslt9_m128i := _mm_loadu_si128 its_vector_m128i 8 in
  let c11_align_rslt8_m128i := _mm_alignr_epi8 c11_load_rslt9_m128i c11_load_rslt8_m128i 9 in
  let! presult := decompress_sse4_c11_m2 0 c11_align_rslt8_m128i presult in
  let! presult := decompress_sse4_c11_m2 4 c11_load_rslt9_m128i presult in
  let! c11_load_rslt10_m128i := _mm_loadu_si128 its_vector_m128i 9 in
  let c11_align_rslt9_m128i := _mm_alignr_epi8 c11_load_rslt10_m128i c11_load_rslt9_m128i 15 in
  let! presult := decompress_sse4_c11_m2 0 c11_align_rslt9_m128i presult in
  let! c11_load_rslt11_m128i := _mm_loadu_si128 its_vector_m128i 10 in
  let c11_align_rslt10_m128i := _mm_alignr_epi8 c11_load_rslt11_m128i c11_load_rslt10_m128i 10 in
  let! presult := decompress_sse4_c11_m2 0 c11_align_rslt10_m128i presult in
  let! presult := decompress_sse4_c11_m2 5 c11_load_rslt11_m128i presult in
  Ok (fst presult).

Definition decompress_sse4_c11 (dest encode : list Z) (n : Z) : res (list Z) :=
  whileBlocks 128 11 n decompress_sse4_c11_m1 (restOf 0x7F n (unpack_11 32)) dest encode.

Definition SSE4_c12_and_msk1_m128i : m128i :=
  _mm_set_epi8 [0x00; 0x00; 0xFF; 0xF0; 0x00; 0x00; 0x0F; 0xFF; 0x00; 0x00; 0xFF; 0xF0; 0x00; 0x00; 0x0F;
                0xFF].

Definition SSE4_c12_mul_msk1_m128i : m128i :=
  _mm_set_epi32 [0x01; 0x10; 0x01; 0x10].

Definition decompress_sse4_c12_m2 (segment : Z) (c12_load_vec_m128i : m128i) (presult : cursor) : res cursor :=
  let SSE4_c12_shfl_msk_m128i := _mm_set_epi8 [0xFF; 0xFF; segment + 5; segment + 4; 0xFF; 0xFF;
                                               segment + 4; segment + 3; 0xFF; 0xFF; segment + 2;
                                               segment + 1; 0xFF; 0xFF; segment + 1; segment] in
  let c12_shfl_rslt_m128i := _mm_shuffle_epi8 c12_load_vec_m128i SSE4_c12_shfl_msk_m128i in
  let c12_and_rslt_m128i := _mm_and_si128 c12_shfl_rslt_m128i SSE4_c12_and_msk1_m128i in
  let c12_mul_rslt_m128i := _mm_mullo_epi32 c12_and_rslt_m128i SSE4_c12_mul_msk1_m128i in
  let c12_rslt_m128i := _mm_srli_epi32 c12_mul_rslt_m128i 4 in
  let! presult := _mm_storeu_si128 presult c12_rslt_m128i in
  let presult := advance presult 4 in
  Ok presult.

Definition decompress_sse4_c12_m1 (dest its_vector_m128i : list Z) : res (list Z) :=
  let presult := (dest, 0%nat) in
  let! c12_load_rslt1_m128i := _mm_loadu_si128 its_vector_m128i 0 in
  let! presult := decompress_sse4_c12_m2 0 c12_load_rslt1_m128i presult in
  let! presult := decompress_sse4_c12_m2 6 c12_load_rslt1_m128i presult in
  let! c12_load_rslt2_m128i := _mm_loadu_si128 its_vector_m128i 1 in
  let c12_align_rslt1_m128i := _mm_alignr_epi8 c12_load_rslt2_m128i c12_load_rslt1_m128i 12 in
  let! presult := decompress_sse4_c12_m2 0 c12_align_rslt1_m128i presult in
  let! presult := decompress_sse4_c12_m2 6 c12_align_rslt1_m128i presult in
  let! presult := decompress_sse4_c12_m2 8 c12_load_rslt2_m128i presult in
  let! c12_load_rslt3_m128i := _mm_loadu_si128 its_vector_m128i 2 in
  let c12_align_rslt2_m128i := _mm_alignr_epi8 c12_load_rslt3_m128i c12_load_rslt2_m128i 14 in
  let! presult := decompress_sse4_c12_m2 0 c12_align_rslt2_m128i presult in
  let! presult := decompress_sse4_c12_m2 6 c12_align_rslt2_m128i presult in
  let! presult := decompress_sse4_c12_m2 10 c12_load_rslt3_m128i presult in
  Ok (fst presult).

Definition decompress_sse4_c12 (dest encode : list Z) (n : Z) : res (list Z) :=
  whileBlocks 32 3 n decompress_sse4_c12_m1 (restOf 0x1F n (unpack_12 32)) dest encode.

Definition SSE4_c13_and_msk1_m128i : m128i :=
  _mm_set_epi8 [0x00; 0x0F; 0xFF; 0x80; 0x00; 0x00; 0x7F; 0xFC; 0x00; 0x03; 0xFF; 0xE0; 0x00; 0x00; 0x1F;
                0xFF].

Definition SSE4_c13_and_msk2_m128i : m128i :=
  _mm_set_epi8 [0x00; 0x00; 0xFF; 0xF8; 0x00; 0x07; 0xFF; 0xC0; 0x00; 0x00; 0x3F; 0xFE; 0x00; 0x01; 0xFF;
                0xF0].

Definition SSE4_c13_mul_msk1_m128i : m128i :=
  _mm_set_epi32 [0x01; 0x20; 0x04; 0x80].

Definition SSE4_c13_mul_msk2_m128i : m128i :=
  _mm_set_epi32 [0x08; 0x01; 0x20; 0x04].

Definition decompress_sse4_c13_m2 (segment : Z) (c13_load_vec_m128i : m128i) (presult : cursor) : res cursor :=
  let SSE4_c13_shfl_msk_m128i := _mm_set_epi8 [0xFF; segment + 6; segment + 5; segment + 4; 0xFF; 0xFF;
                                               segment + 4; segment + 3; 0xFF; segment + 3; segment + 2;
                                               segment + 1; 0xFF; 0xFF; segment + 1; segment] in
  let c13_shfl_rslt_m128i := _mm_shuffle_epi8 c13_load_vec_m128i SSE4_c13_shfl_msk_m128i in
  let c13_and_rslt_m128i := _mm_and_si128 c13_shfl_rslt_m128i SSE4_c13_and_msk1_m128i in
  let c13_mul_rslt_m128i := _mm_mullo_epi32 c13_and_rslt_m128i SSE4_c13_mul_msk1_m128i in
  let c13_rslt_m128i := _mm_srli_epi32 c13_mul_rslt_m128i 7 in
  let! presult := _mm_storeu_si128 presult c13_rslt_m128i in
  let presult := advance presult 4 in
  let SSE4_c13_shfl_msk_m128i := _mm_set_epi8 [0xFF; 0xFF; segment + 12; segment + 11; 0xFF; segment + 11;
                                               segment + 10; segment + 9; 0xFF; 0xFF; segment + 9;
                                               segment + 8; 0xFF; segment + 8; segment + 7; segment + 6] in
  let c13_shfl_rslt_m128i := _mm_shuffle_epi8 c13_load_vec_m128i SSE4_c13_shfl_msk_m128i in
  let c13_and_rslt_m128i := _mm_and_si128 c13_shfl_rslt_m128i SSE4_c13_and_msk2_m128i in
  let c13_mul_rslt_m128i := _mm_mullo_epi32 c13_and_rslt_m128i SSE4_c13_mul_msk2_m128i in
  let c13_rslt_m128i := _mm_srli_epi32 c13_mul_rslt_m128i 6 in
  let! presult := _mm_storeu_si128 presult c13_rslt_m128i in
  let presult := advance presult 4 in
  Ok presult.

Definition decompress_sse4_c13_m1 (dest its_vector_m128i : list Z) : res (list Z) :=
  let presult := (dest, 0%nat) in
  let! c13_load_rslt1_m128i := _mm_loadu_si128 its_vector_m128i 0 in
  let! presult := decompress_sse4_c13_m2 0 c13_load_rslt1_m128i presult in
  let! c13_load_rslt2_m128i := _mm_loadu_si128 its_vector_m128i 1 in
  let c13_align_rslt1_m128i := _mm_alignr_epi8 c13_load_rslt2_m128i c13_load_rslt1_m128i 13 in
  let! presult := decompress_sse4_c13_m2 0 c13_align_rslt1_m128i presult in
  let! c13_load_rslt3_m128i := _mm_loadu_si128 its_vector_m128i 2 in
  let c13_align_rslt2_m128i := _mm_alignr_epi8 c13_load_rslt3_m128i c13_load_rslt2_m128i 10 in
  let! presult := decompress_sse4_c13_m2 0 c13_align_rslt2_m128i presult in
  let! c13_load_rslt4_m128i := _mm_loadu_si128 its_vector_m128i 3 in
  let c13_align_rslt3_m128i := _mm_alignr_epi8 c13_load_rslt4_m128i c13_load_rslt3_m128i 7 in
  let! presult := decompress_sse4_c13_m2 0 c13_align_rslt3_m128i presult in
  let! c13_load_rslt5_m128i := _mm_loadu_si128 its_vector_m128i 4 in
  let c13_align_rslt4_m128i := _mm_alignr_epi8 c13_load_rslt5_m128i c13_load_rslt4_m128i 4 in
  let! presult := decompress_sse4_c13_m2 0 c13_align_rslt4_m128i presult in
  let! presult := decompress_sse4_c13_m2 1 c13_load_rslt5_m128i presult in
  let! c13_load_rslt6_m128i := _mm_loadu_si128 its_vector_m128i 5 in
  let c13_align_rslt5_m128i := _mm_alignr_epi8 c13_load_rslt6_m128i c13_load_rslt5_m128i 14 in
  let! presult := decompress_sse4_c13_m2 0 c13_align_rslt5_m128i presult in
  let! c13_load_rslt7_m128i := _mm_loadu_si128 its_vector_m128i 6 in
  let c13_align_rslt6_m128i := _mm_alignr_epi8 c13_load_rslt7_m128i c13_load_rslt6_m128i 11 in
  let! presult := decompress_sse4_c13_m2 0 c13_align_rslt6_m128i presult in
  let! c13_load_rslt8_m128i := _mm_loadu_si128 its_vector_m128i 7 in
  let c13_align_rslt7_m128i := _mm_alignr_epi8 c13_load_rslt8_m128i c13_load_rslt7_m128i 8 in
  let! presult := decompress_sse4_c13_m2 0 c13_align_rslt7_m128i presult in
  let! c13_load_rslt9_m128i := _mm_loadu_si128 its_vector_m128i 8 in
  let c13_align_rslt8_m128i := _mm_alignr_epi8 c13_load_rslt9_m128i c13_load_rslt8_m128i 5 in
  let! presult := decompress_sse4_c13_m2 0 c13_align_rslt8_m128i presult in
  let! presult := decompress_sse4_c13_m2 2 c13_load_rslt9_m128i presult in
  let! c13_load_rslt10_m128i := _mm_loadu_si128 its_vector_m128i 9 in
  let c13_align_rslt9_m128i := _mm_alignr_epi8 c13_load_rslt10_m128i c13_load_rslt9_m128i 15 in
  let! presult := decompress_sse4_c13_m2 0 c13_align_rslt9_m128i presult in
  let! c13_load_rslt11_m128i := _mm_loadu_si128 its_vector_m128i 10 in
  let c13_align_rslt10_m128i := _mm_alignr_epi8 c13_load_rslt11_m128i c13_load_rslt10_m128i 12 in
  let! presult := decompress_sse4_c13_m2 0 c13_align_rslt10_m128i presult in
  let! c13_load_rslt12_m128i := _mm_loadu_si128 its_vector_m128i 11 in
  let c13_align_rslt11_m128i := _mm_alignr_epi8 c13_load_rslt12_m128i c13_load_rslt11_m128i 9 in
  let! presult := decompress_sse4_c13_m2 0 c13_align_rslt11_m128i presult in
  let! c13_load_rslt13_m128i := _mm_loadu_si128 its_vector_m128i 12 in
  let c13_align_rslt12_m128i := _mm_alignr_epi8 c13_load_rslt13_m128i c13_load_rslt12_m128i 6 in
  let! presult := decompress_sse4_c13_m2 0 c13_align_rslt12_m128i presult in
  let! presult := decompress_sse4_c13_m2 3 c13_load_rslt13_m128i presult in
  Ok (fst presult).

Definition decompress_sse4_c13 (dest encode : list Z) (n : Z) : res (list Z) :=
  whileBlocks 128 13 n decompress_sse4_c13_m1 (restOf 0x7F n (unpack_13 32)) dest encode.

Definition SSE4_c14_and_msk1_m128i : m128i :=
  _mm_set_epi8 [0x00; 0x00; 0xFF; 0xFC; 0x00; 0x03; 0xFF; 0xF0; 0x00; 0x0F; 0xFF; 0xC0; 0x00; 0x00; 0x3F;
                0xFF].

Definition SSE4_c14_mul_msk1_m128i : m128i :=
  _mm_set_epi32 [0x10; 0x04; 0x01; 0x40].

Definition decompress_sse4_c14_m2 (segment : Z) (c14_load_vec_m128i : m128i) (presult : cursor) : res cursor :=
  let SSE4_c14_shfl_msk_m128i := _mm_set_epi8 [0xFF; 0xFF; segment + 6; segment + 5; 0xFF; segment + 5;
                                               segment + 4; segment + 3; 0xFF; segment + 3; segment + 2;
                                               segment + 1; 0xFF; 0xFF; segment + 1; segment] in
  let c14_shfl_rslt_m128i := _mm_shuffle_epi8 c14_load_vec_m128i SSE4_c14_shfl_msk_m128i in
  let c14_and_rslt_m128i := _mm_and_si128 c14_shfl_rslt_m128i SSE4_c14_and_msk1_m128i in
  let c14_mul_rslt_m128i := _mm_mullo_epi32 c14_and_rslt_m128i SSE4_c14_mul_msk1_m128i in
  let c14_rslt_m128i := _mm_srli_epi32 c14_mul_rslt_m128i 6 in
  let! presult := _mm_storeu_si128 presult c14_rslt_m128i in
  let presult := advance presult 4 in
  Ok presult.

Definition decompress_sse4_c14_m1 (dest its_vector_m128i : list Z) : res (list Z) :=
  let presult := (dest, 0%nat) in
  let! c14_load_rslt1_m128i := _mm_loadu_si128 its_vector_m128i 0 in
  let! presult := decompress_sse4_c14_m2 0 c14_load_rslt1_m128i presult in
  let! presult := decompress_sse4_c14_m2 7 c14_load_rslt1_m128i presult in
  let! c14_load_rslt2_m128i := _mm_loadu_si128 its_vector_m128i 1 in
  let c14_align_rslt1_m128i := _mm_alignr_epi8 c14_load_rslt2_m128i c14_load_rslt1_m128i 14 in
  let! presult := decompress_sse4_c14_m2 0 c14_align_rslt1_m128i presult in
  let! presult := decompress_sse4_c14_m2 7 c14_align_rslt1_m128i presult in
  let! c14_load_rslt3_m128i := _mm_loadu_si128 its_vector_m128i 2 in
  let c14_align_rslt2_m128i := _mm_alignr_epi8 c14_load_rslt3_m128i c14_load_rslt2_m128i 12 in
  let! presult := decompress_sse4_c14_m2 0 c14_align_rslt2_m128i presult in
  let! presult := decompress_sse4_c14_m2 7 c14_align_rslt2_m128i presult in
  let! c14_load_rslt4_m128i := _mm_loadu_si128 its_vector_m128i 3 in
  let c14_align_rslt3_m128i := _mm_alignr_epi8 c14_load_rslt4_m128i c14_load_rslt3_m128i 10 in
  let! presult := decompress_sse4_c14_m2 0 c14_align_rslt3_m128i presult in
  let! presult := decompress_sse4_c14_m2 7 c14_align_rslt3_m128i presult in
  let! c14_load_rslt5_m128i := _mm_loadu_si128 its_vector_m128i 4 in
  let c14_align_rslt4_m128i := _mm_alignr_epi8 c14_load_rslt5_m128i c14_load_rslt4_m128i 8 in
  let! presult := decompress_sse4_c14_m2 0 c14_align_rslt4_m128i presult in
  let! presult := decompress_sse4_c14_m2 7 c14_align_rslt4_m128i presult in
  let! c14_load_rslt6_m128i := _mm_loadu_si128 its_vector_m128i 5 in
  let c14_align_rslt5_m128i := _mm_alignr_epi8 c14_load_rslt6_m128i c14_load_rslt5_m128i 6 in
  let! presult := decompress_sse4_c14_m2 0 c14_align_rslt5_m128i presult in
  let! presult := decompress_sse4_c14_m2 7 c14_align_rslt5_m128i presult in
  let! c14_load_rslt7_m128i := _mm_loadu_si128 its_vector_m128i 6 in
  let c14_align_rslt6_m128i := _mm_alignr_epi8 c14_load_rslt7_m128i c14_load_rslt6_m128i 4 in
  let! presult := decompress_sse4_c14_m2 0 c14_align_rslt6_m128i presult in
  let! presult := decompress_sse4_c14_m2 7 c14_align_rslt6_m128i presult in
  let! presult := decompress_sse4_c14_m2 2 c14_load_rslt7_m128i presult in
  let! presult := decompress_sse4_c14_m2 9 c14_load_rslt7_m128i presult in
  Ok (fst presult).

Definition decompress_sse4_c14 (dest encode : list Z) (n : Z) : res (list Z) :=
  whileBlocks 64 7 n decompress_sse4_c14_m1 (restOf 0x3F n (unpack_14 32)) dest encode.

Definition SSE4_c15_and_msk1_m128i : m128i :=
  _mm_set_epi8 [0x00; 0x0F; 0xFF; 0xE0; 0x00; 0x1F; 0xFF; 0xC0; 0x00; 0x3F; 0xFF; 0x80; 0x00; 0x00; 0x7F;
                0xFF].

Definition SSE4_c15_and_msk2_m128i : m128i :=
  _mm_set_epi8 [0x00; 0x00; 0xFF; 0xFE; 0x00; 0x01; 0xFF; 0xFC; 0x00; 0x03; 0xFF; 0xF8; 0x00; 0x07; 0xFF;
                0xF0].

Definition SSE4_c15_mul_msk1_m128i : m128i :=
  _mm_set_epi32 [0x04; 0x02; 0x01; 0x80].

Definition SSE4_c15_mul_msk2_m128i : m128i :=
  _mm_set_epi32 [0x08; 0x04; 0x02; 0x01].

Definition decompress_sse4_c15_m2 (segment : Z) (c15_load_vec_m128i : m128i) (presult : cursor) : res cursor :=
  let SSE4_c15_shfl_msk_m128i := _mm_set_epi8 [0xFF; segment + 7; segment + 6; segment + 5; 0xFF;
                                               segment + 5; segment + 4; segment + 3; 0xFF; segment + 3;
                                               segment + 2; segment + 1; 0xFF; 0xFF; segment + 1;
                                               segment] in
  let c15_shfl_rslt_m128i := _mm_shuffle_epi8 c15_load_vec_m128i SSE4_c15_shfl_msk_m128i in
  let c15_and_rslt_m128i := _mm_and_si128 c15_shfl_rslt_m128i SSE4_c15_and_msk1_m128i in
  let c15_mul_rslt_m128i := _mm_mullo_epi32 c15_and_rslt_m128i SSE4_c15_mul_msk1_m128i in
  let c15_rslt_m128i := _mm_srli_epi32 c15_mul_rslt_m128i 7 in
  let! presult := _mm_storeu_si128 presult c15_rslt_m128i in
  let presult := advance presult 4 in
  let SSE4_c15_shfl_msk_m128i := _mm_set_epi8 [0xFF; 0xFF; segment + 14; segment + 13; 0xFF; segment + 13;
                                               segment + 12; segment + 11; 0xFF; segment + 11;
                                               segment + 10; segment + 9; 0xFF; segment + 9; segment + 8;
                                               segment + 7] in
  let c15_shfl_rslt_m128i := _mm_shuffle_epi8 c15_load_vec_m128i SSE4_c15_shfl_msk_m128i in
  let c15_and_rslt_m128i := _mm_and_si128 c15_shfl_rslt_m128i SSE4_c15_and_msk2_m128i in
  let c15_mul_rslt_m128i := _mm_mullo_epi32 c15_and_rslt_m128i SSE4_c15_mul_msk2_m128i in
  let c15_rslt_m128i := _mm_srli_epi32 c15_mul_rslt_m128i 4 in
  let! presult := _mm_storeu_si128 presult c15_rslt_m128i in
  let presult := advance presult 4 in
  Ok presult.

Definition decompress_sse4_c15_m1 (dest its_vector_m128i : list Z) : res (list Z) :=
  let presult := (dest, 0%nat) in
  let! c15_load_rslt1_m128i := _mm_loadu_si128 its_vector_m128i 0 in
  let! presult := decompress_sse4_c15_m2 0 c15_load_rslt1_m128i presult in
  let! c15_load_rslt2_m128i := _mm_loadu_si128 its_vector_m128i 1 in
  let c15_align_rslt1_m128i := _mm_alignr_epi8 c15_load_rslt2_m128i c15_load_rslt1_m128i 15 in
  let! presult := decompress_sse4_c15_m2 0 c15_align_rslt1_m128i presult in
  let! c15_load_rslt3_m128i := _mm_loadu_si128 its_vector_m128i 2 in
  let c15_align_rslt2_m128i := _mm_alignr_epi8 c15_load_rslt3_m128i c15_load_rslt2_m128i 14 in
  let! presult := decompress_sse4_c15_m2 0 c15_align_rslt2_m128i presult in
  let! c15_load_rslt4_m128i := _mm_loadu_si128 its_vector_m128i 3 in
  let c15_align_rslt3_m128i := _mm_alignr_epi8 c15_load_rslt4_m128i c15_load_rslt3_m128i 13 in
  let! presult := decompress_sse4_c15_m2 0 c15_align_rslt3_m128i presult in
  let! c15_load_rslt5_m128i := _mm_loadu_si128 its_vector_m128i 4 in
  let c15_align_rslt4_m128i := _mm_alignr_epi8 c15_load_rslt5_m128i c15_load_rslt4_m128i 12 in
  let! presult := decompress_sse4_c15_m2 0 c15_align_rslt4_m128i presult in
  let! c15_load_rslt6_m128i := _mm_loadu_si128 its_vector_m128i 5 in
  let c15_align_rslt5_m128i := _mm_alignr_epi8 c15_load_rslt6_m128i c15_load_rslt5_m128i 11 in
  let! presult := decompress_sse4_c15_m2 0 c15_align_rslt5_m128i presult in
  let! c15_load_rslt7_m128i := _mm_loadu_si128 its_vector_m128i 6 in
  let c15_align_rslt6_m128i := _mm_alignr_epi8 c15_load_rslt7_m128i c15_load_rslt6_m128i 10 in
  let! presult := decompress_sse4_c15_m2 0 c15_align_rslt6_m128i presult in
  let! c15_load_rslt8_m128i := _mm_loadu_si128 its_vector_m128i 7 in
  let c15_align_rslt7_m128i := _mm_alignr_epi8 c15_load_rslt8_m128i c15_load_rslt7_m128i 9 in
  let! presult := decompress_sse4_c15_m2 0 c15_align_rslt7_m128i presult in
  let! c15_load_rslt9_m128i := _mm_loadu_si128 its_vector_m128i 8 in
  let c15_align_rslt8_m128i := _mm_alignr_epi8 c15_load_rslt9_m128i c15_load_rslt8_m128i 8 in
  let! presult := decompress_sse4_c15_m2 0 c15_align_rslt8_m128i presult in
  let! c15_load_rslt10_m128i := _mm_loadu_si128 its_vector_m128i 9 in
  let c15_align_rslt9_m128i := _mm_alignr_epi8 c15_load_rslt10_m128i c15_load_rslt9_m128i 7 in
  let! presult := decompress_sse4_c15_m2 0 c15_align_rslt9_m128i presult in
  let! c15_load_rslt11_m128i := _mm_loadu_si128 its_vector_m128i 10 in
  let c15_align_rslt10_m128i := _mm_alignr_epi8 c15_load_rslt11_m128i c15_load_rslt10_m128i 6 in
  let! presult := decompress_sse4_c15_m2 0 c15_align_rslt10_m128i presult in
  let! c15_load_rslt12_m128i := _mm_loadu_si128 its_vector_m128i 11 in
  let c15_align_rslt11_m128i := _mm_alignr_epi8 c15_load_rslt12_m128i c15_load_rslt11_m128i 5 in
  let! presult := decompress_sse4_c15_m2 0 c15_align_rslt11_m128i presult in
  let! c15_load_rslt13_m128i := _mm_loadu_si128 its_vector_m128i 12 in
  let c15_align_rslt12_m128i := _mm_alignr_epi8 c15_load_rslt13_m128i c15_load_rslt12_m128i 4 in
  let! presult := decompress_sse4_c15_m2 0 c15_align_rslt12_m128i presult in
  let! c15_load_rslt14_m128i := _mm_loadu_si128 its_vector_m128i 13 in
  let c15_align_rslt13_m128i := _mm_alignr_epi8 c15_load_rslt14_m128i c15_load_rslt13_m128i 3 in
  let! presult := decompress_sse4_c15_m2 0 c15_align_rslt13_m128i presult in
  let! c15_load_rslt15_m128i := _mm_loadu_si128 its_vector_m128i 14 in
  let c15_align_rslt14_m128i := _mm_alignr_epi8 c15_load_rslt15_m128i c15_load_rslt14_m128i 2 in
  let! presult := decompress_sse4_c15_m2 0 c15_align_rslt14_m128i presult in
  let! presult := decompress_sse4_c15_m2 1 c15_load_rslt15_m128i presult in
  Ok (fst presult).

Definition decompress_sse4_c15 (dest encode : list Z) (n : Z) : res (list Z) :=
  whileBlocks 128 15 n decompress_sse4_c15_m1 (restOf 0x7F n (unpack_15 32)) dest encode.

Definition decompress_sse4_c16_m2 (segment : Z) (c16_load_vec_m128i : m128i) (presult : cursor) : res cursor :=
  let SSE4_c16_shfl_msk_m128i := _mm_set_epi8 [0xFF; 0xFF; segment + 7; segment + 6; 0xFF; 0xFF;
                                               segment + 5; segment + 4; 0xFF; 0xFF; segment + 3;
                                               segment + 2; 0xFF; 0xFF; segment + 1; segment] in
  let c16_rslt_m128i := _mm_shuffle_epi8 c16_load_vec_m128i SSE4_c16_shfl_msk_m128i in
  let! presult := _mm_storeu_si128 presult c16_rslt_m128i in
  let presult := advance presult 4 in
  Ok presult.

Definition decompress_sse4_c16_m1 (dest its_vector_m128i : list Z) : res (list Z) :=
  let presult := (dest, 0%nat) in
  let! c16_load_rslt_m128i := _mm_loadu_si128 its_vector_m128i 0 in
  let! presult := decompress_sse4_c16_m2 0 c16_load_rslt_m128i presult in
  let! presult := decompress_sse4_c16_m2 8 c16_load_rslt_m128i presult in
  Ok (fst presult).

Definition decompress_sse4_c16 (dest encode : list Z) (n : Z) : res (list Z) :=
  whileBlocks 8 1 n decompress_sse4_c16_m1 (restOf 0x7 n (unpack_16 32)) dest encode.

Definition SSE4_c17_and_msk1_m128i : m128i :=
  _mm_set_epi8 [0x00; 0x0F; 0xFF; 0xF8; 0x00; 0x07; 0xFF; 0xFC; 0x00; 0x03; 0xFF; 0xFE; 0x00; 0x01; 0xFF;
                0xFF].

Definition SSE4_c17_and_msk2_m128i : m128i :=
  _mm_set_epi8 [0x00; 0xFF; 0xFF; 0x80; 0x00; 0x7F; 0xFF; 0xC0; 0x00; 0x3F; 0xFF; 0xE0; 0x00; 0x1F; 0xFF;
                0xF0].

Definition SSE4_c17_mul_msk1_m128i : m128i :=
  _mm_set_epi32 [0x01; 0x02; 0x04; 0x08].

Definition SSE4_c17_mul_msk2_m128i : m128i :=
  _mm_set_epi32 [0x01; 0x02; 0x04; 0x08].

Definition decompress_sse4_c17_m2_s1 (segment : Z) (c17_load_vec_m128i : m128i) (presult : cursor) : res cursor :=
  let SSE4_c17_shfl_msk_m128i := _mm_set_epi8 [0xFF; segment + 8; segment + 7; segment + 6; 0xFF;
                                               segment + 6; segment + 5; segment + 4; 0xFF; segment + 4;
                                               segment + 3; segment + 2; 0xFF; segment + 2; segment + 1;
                                               segment] in
  let c17_shfl_rslt_m128i := _mm_shuffle_epi8 c17_load_vec_m128i SSE4_c17_shfl_msk_m128i in
  let c17_and_rslt_m128i := _mm_and_si128 c17_shfl_rslt_m128i SSE4_c17_and_msk1_m128i in
  let c17_mul_rslt_m128i := _mm_mullo_epi32 c17_and_rslt_m128i SSE4_c17_mul_msk1_m128i in
  let c17_rslt_m128i := _mm_srli_epi32 c17_mul_rslt_m128i 3 in
  let! presult := _mm_storeu_si128 presult c17_rslt_m128i in
  let presult := advance presult 4 in
  Ok presult.

Definition decompress_sse4_c17_m2_s2 (segment : Z) (c17_load_vec_m128i : m128i) (presult : cursor) : res cursor :=
  let SSE4_c17_shfl_msk_m128i := _mm_set_epi8 [0xFF; segment + 8; segment + 7; segment + 6; 0xFF;
                                               segment + 6; segment + 5; segment + 4; 0xFF; segment + 4;
                                               segment + 3; segment + 2; 0xFF; segment + 2; segment + 1;
                                               segment] in
  let c17_shfl_rslt_m128i := _mm_shuffle_epi8 c17_load_vec_m128i SSE4_c17_shfl_msk_m128i in
  let c17_and_rslt_m128i := _mm_and_si128 c17_shfl_rslt_m128i SSE4_c17_and_msk2_m128i in
  let c17_mul_rslt_m128i := _mm_mullo_epi32 c17_and_rslt_m128i SSE4_c17_mul_msk2_m128i in
  let c17_rslt_m128i := _mm_srli_epi32 c17_mul_rslt_m128i 7 in
  let! presult := _mm_storeu_si128 presult c17_rslt_m128i in
  let presult := advance presult 4 in
  Ok presult.

Definition decompress_sse4_c17_m1 (dest its_vector_m128i : list Z) : res (list Z) :=
  let presult := (dest, 0%nat) in
  let! c17_load_rslt1_m128i := _mm_loadu_si128 its_vector_m128i 0 in
  let! presult := decompress_sse4_c17_m2_s1 0 c17_load_rslt1_m128i presult in
  let! c17_load_rslt2_m128i := _mm_loadu_si128 its_vector_m128i 1 in
  let c17_align_rslt1_m128i := _mm_alignr_epi8 c17_load_rslt2_m128i c17_load_rslt1_m128i 8 in
  let! presult := decompress_sse4_c17_m2_s2 0 c17_align_rslt1_m128i presult in
  let! presult := decompress_sse4_c17_m2_s1 1 c17_load_rslt2_m128i presult in
  let! c17_load_rslt3_m128i := _mm_loadu_si128 its_vector_m128i 2 in
  let c17_align_rslt2_m128i := _mm_alignr_epi8 c17_load_rslt3_m128i c17_load_rslt2_m128i 9 in
  let! presult := decompress_sse4_c17_m2_s2 0 c17_align_rslt2_m128i presult in
  let! presult := decompress_sse4_c17_m2_s1 2 c17_load_rslt3_m128i presult in
  let! c17_load_rslt4_m128i := _mm_loadu_si128 its_vector_m128i 3 in
  let c17_align_rslt3_m128i := _mm_alignr_epi8 c17_load_rslt4_m128i c17_load_rslt3_m128i 10 in
  let! presult := decompress_sse4_c17_m2_s2 0 c17_align_rslt3_m128i presult in
  let! presult := decompress_sse4_c17_m2_s1 3 c17_load_rslt4_m128i presult in
  let! c17_load_rslt5_m128i := _mm_loadu_si128 its_vector_m128i 4 in
  let c17_align_rslt4_m128i := _mm_alignr_epi8 c17_load_rslt5_m128i c17_load_rslt4_m128i 11 in
  let! presult := decompress_sse4_c17_m2_s2 0 c17_align_rslt4_m128i presult in
  let! presult := decompress_sse4_c17_m2_s1 4 c17_load_rslt5_m128i presult in
  let! c17_load_rslt6_m128i := _mm_loadu_si128 its_vector_m128i 5 in
  let c17_align_rslt5_m128i := _mm_alignr_epi8 c17_load_rslt6_m128i c17_load_rslt5_m128i 12 in
  let! presult := decompress_sse4_c17_m2_s2 0 c17_align_rslt5_m128i presult in
  let! presult := decompress_sse4_c17_m2_s1 5 c17_load_rslt6_m128i presult in
  let! c17_load_rslt7_m128i := _mm_loadu_si128 its_vector_m128i 6 in
  let c17_align_rslt6_m128i := _mm_alignr_epi8 c17_load_rslt7_m128i c17_load_rslt6_m128i 13 in
  let! presult := decompress_sse4_c17_m2_s2 0 c17_align_rslt6_m128i presult in
  let! presult := decompress_sse4_c17_m2_s1 6 c17_load_rslt7_m128i presult in
  let! c17_load_rslt8_m128i := _mm_loadu_si128 its_vector_m128i 7 in
  let c17_align_rslt7_m128i := _mm_alignr_epi8 c17_load_rslt8_m128i c17_load_rslt7_m128i 14 in
  let! presult := decompress_sse4_c17_m2_s2 0 c17_align_rslt7_m128i presult in
  let! presult := decompress_sse4_c17_m2_s1 7 c17_load_rslt8_m128i presult in
  let! c17_load_rslt9_m128i := _mm_loadu_si128 its_vector_m128i 8 in
  let c17_align_rslt8_m128i := _mm_alignr_epi8 c17_load_rslt9_m128i c17_load_rslt8_m128i 15 in
  let! presult := decompress_sse4_c17_m2_s2 0 c17_align_rslt8_m128i presult in
  let! c17_load_rslt10_m128i := _mm_loadu_si128 its_vector_m128i 9 in
  let c17_align_rslt9_m128i := _mm_alignr_epi8 c17_load_rslt10_m128i c17_load_rslt9_m128i 8 in
  let! presult := decompress_sse4_c17_m2_s1 0 c17_align_rslt9_m128i presult in
  let! presult := decompress_sse4_c17_m2_s2 0 c17_load_rslt10_m128i presult in
  let! c17_load_rslt11_m128i := _mm_loadu_si128 its_vector_m128i 10 in
  let c17_align_rslt10_m128i := _mm_alignr_epi8 c17_load_rslt11_m128i c17_load_rslt10_m128i 9 in
  let! presult := decompress_sse4_c17_m2_s1 0 c17_align_rslt10_m128i presult in
  let! presult := decompress_sse4_c17_m2_s2 1 c17_load_rslt11_m128i presult in
  let! c17_load_rslt12_m128i := _mm_loadu_si128 its_vector_m128i 11 in
  let c17_align_rslt11_m128i := _mm_alignr_epi8 c17_load_rslt12_m128i c17_load_rslt11_m128i 10 in
  let! presult := decompress_sse4_c17_m2_s1 0 c17_align_rslt11_m128i presult in
  let! presult := decompress_sse4_c17_m2_s2 2 c17_load_rslt12_m128i presult in
  let! c17_load_rslt13_m128i := _mm_loadu_si128 its_vector_m128i 12 in
  let c17_align_rslt12_m128i := _mm_alignr_epi8 c17_load_rslt13_m128i c17_load_rslt12_m128i 11 in
  let! presult := decompress_sse4_c17_m2_s1 0 c17_align_rslt12_m128i presult in
  let! presult := decompress_sse4_c17_m2_s2 3 c17_load_rslt13_m128i presult in
  let! c17_load_rslt14_m128i := _mm_loadu_si128 its_vector_m128i 13 in
  let c17_align_rslt13_m128i := _mm_alignr_epi8 c17_load_rslt14_m128i c17_load_rslt13_m128i 12 in
  let! presult := decompress_sse4_c17_m2_s1 0 c17_align_rslt13_m128i presult in
  let! presult := decompress_sse4_c17_m2_s2 4 c17_load_rslt14_m128i presult in
  let! c17_load_rslt15_m128i := _mm_loadu_si128 its_vector_m128i 14 in
  let c17_align_rslt14_m128i := _mm_alignr_epi8 c17_load_rslt15_m128i c17_load_rslt14_m128i 13 in
  let! presult := decompress_sse4_c17_m2_s1 0 c17_align_rslt14_m128i presult in
  let! presult := decompress_sse4_c17_m2_s2 5 c17_load_rslt15_m128i presult in
  let! c17_load_rslt16_m128i := _mm_loadu_si128 its_vector_m128i 15 in
  let c17_align_rslt15_m128i := _mm_alignr_epi8 c17_load_rslt16_m128i c17_load_rslt15_m128i 14 in
  let! presult := decompress_sse4_c17_m2_s1 0 c17_align_rslt15_m128i presult in
  let! presult := decompress_sse4_c17_m2_s2 6 c17_load_rslt16_m128i presult in
  let! c17_load_rslt17_m128i := _mm_loadu_si128 its_vector_m128i 16 in
  let c17_align_rslt16_m128i := _mm_alignr_epi8 c17_load_rslt17_m128i c17_load_rslt16_m128i 15 in
  let! presult := decompress_sse4_c17_m2_s1 0 c17_align_rslt16_m128i presult in
  let! presult := decompress_sse4_c17_m2_s2 7 c17_load_rslt17_m128i presult in
  Ok (fst presult).

Definition decompress_sse4_c17 (dest encode : list Z) (n : Z) : res (list Z) :=
  whileBlocks 128 17 n decompress_sse4_c17_m1 (restOf 0x7F n (unpack_17 32)) dest encode.

Definition SSE4_c18_and_msk1_m128i : m128i :=
  _mm_set_epi8 [0x00; 0xFF; 0xFF; 0xC0; 0x00; 0x3F; 0xFF; 0xF0; 0x00; 0x0F; 0xFF; 0xFC; 0x00; 0x03; 0xFF;
                0xFF].

Definition SSE4_c18_mul_msk1_m128i : m128i :=
  _mm_set_epi32 [0x01; 0x04; 0x10; 0x40].

Definition decompress_sse4_c18_m2 (segment : Z) (c18_load_vec_m128i : m128i) (presult : cursor) : res cursor :=
  let SSE4_c18_shfl_msk_m128i := _mm_set_epi8 [0xFF; segment + 8; segment + 7; segment + 6; 0xFF;
                                               segment + 6; segment + 5; segment + 4; 0xFF; segment + 4;
                                               segment + 3; segment + 2; 0xFF; segment + 2; segment + 1;
                                               segment] in
  let c18_shfl_rslt_m128i := _mm_shuffle_epi8 c18_load_vec_m128i SSE4_c18_shfl_msk_m128i in
  let c18_and_rslt_m128i := _mm_and_si128 c18_shfl_rslt_m128i SSE4_c18_and_msk1_m128i in
  let c18_mul_rslt_m128i := _mm_mullo_epi32 c18_and_rslt_m128i SSE4_c18_mul_msk1_m128i in
  let c18_rslt_m128i := _mm_srli_epi32 c18_mul_rslt_m128i 6 in
  let! presult := _mm_storeu_si128 presult c18_rslt_m128i in
  let presult := advance presult 4 in
  Ok presult.

Definition decompress_sse4_c18_m1 (dest its_vector_m128i : list Z) : res (list Z) :=
  let presult := (dest, 0%nat) in
  let! c18_load_rslt1_m128i := _mm_loadu_si128 its_vector_m128i 0 in
  let! presult := decompress_sse4_c18_m2 0 c18_load_rslt1_m128i presult in
  let! c18_load_rslt2_m128i := _mm_loadu_si128 its_vector_m128i 1 in
  let c18_align_rslt1_m128i := _mm_alignr_epi8 c18_load_rslt2_m128i c18_load_rslt1_m128i 9 in
  let! presult := decompress_sse4_c18_m2 0 c18_align_rslt1_m128i presult in
  let! presult := decompress_sse4_c18_m2 2 c18_load_rslt2_m128i presult in
  let! c18_load_rslt3_m128i := _mm_loadu_si128 its_vector_m128i 2 in
  let c18_align_rslt2_m128i := _mm_alignr_epi8 c18_load_rslt3_m128i c18_load_rslt2_m128i 11 in
  let! presult := decompress_sse4_c18_m2 0 c18_align_rslt2_m128i presult in
  let! presult := decompress_sse4_c18_m2 4 c18_load_rslt3_m128i presult in
  let! c18_load_rslt4_m128i := _mm_loadu_si128 its_vector_m128i 3 in
  let c18_align_rslt3_m128i := _mm_alignr_epi8 c18_load_rslt4_m128i c18_load_rslt3_m128i 13 in
  let! presult := decompress_sse4_c18_m2 0 c18_align_rslt3_m128i presult in
  let! presult := decompress_sse4_c18_m2 6 c18_load_rslt4_m128i presult in
  let! c18_load_rslt5_m128i := _mm_loadu_si128 its_vector_m128i 4 in
  let c18_align_rslt4_m128i := _mm_alignr_epi8 c18_load_rslt5_m128i c18_load_rslt4_m128i 15 in
  let! presult := decompress_sse4_c18_m2 0 c18_align_rslt4_m128i presult in
  let! c18_load_rslt6_m128i := _mm_loadu_si128 its_vector_m128i 5 in
  let c18_align_rslt5_m128i := _mm_alignr_epi8 c18_load_rslt6_m128i c18_load_rslt5_m128i 8 in
  let! presult := decompress_sse4_c18_m2 0 c18_align_rslt5_m128i presult in
  let! presult := decompress_sse4_c18_m2 1 c18_load_rslt6_m128i presult in
  let! c18_load_rslt7_m128i := _mm_loadu_si128 its_vector_m128i 6 in
  let c18_align_rslt6_m128i := _mm_alignr_epi8 c18_load_rslt7_m128i c18_load_rslt6_m128i 10 in
  let! presult := decompress_sse4_c18_m2 0 c18_align_rslt6_m128i presult in
  let! presult := decompress_sse4_c18_m2 3 c18_load_rslt7_m128i presult in
  let! c18_load_rslt8_m128i := _mm_loadu_si128 its_vector_m128i 7 in
  let c18_align_rslt7_m128i := _mm_alignr_epi8 c18_load_rslt8_m128i c18_load_rslt7_m128i 12 in
  let! presult := decompress_sse4_c18_m2 0 c18_align_rslt7_m128i presult in
  let! presult := decompress_sse4_c18_m2 5 c18_load_rslt8_m128i presult in
  let! c18_load_rslt9_m128i := _mm_loadu_si128 its_vector_m128i 8 in
  let c18_align_rslt8_m128i := _mm_alignr_epi8 c18_load_rslt9_m128i c18_load_rslt8_m128i 14 in
  let! presult := decompress_sse4_c18_m2 0 c18_align_rslt8_m128i presult in
  let! presult := decompress_sse4_c18_m2 7 c18_load_rslt9_m128i presult in
  Ok (fst presult).

Definition decompress_sse4_c18 (dest encode : list Z) (n : Z) : res (list Z) :=
  whileBlocks 64 9 n decompress_sse4_c18_m1 (restOf 0x3F n (unpack_18 32)) dest encode.

Definition SSE4_c19_and_msk1_m128i : m128i :=
  _mm_set_epi8 [0x00; 0x0F; 0xFF; 0xFE; 0x01; 0xFF; 0xFF; 0xC0; 0x00; 0x3F; 0xFF; 0xF8; 0x00; 0x07; 0xFF;
                0xFF].

Definition SSE4_c19_and_msk2_m128i : m128i :=
  _mm_set_epi8 [0x00; 0xFF; 0xFF; 0xE0; 0x00; 0x1F; 0xFF; 0xFC; 0x03; 0xFF; 0xFF; 0x80; 0x00; 0x7F; 0xFF;
                0xF0].

Definition SSE4_c19_mul_msk1_m128i : m128i :=
  _mm_set_epi32 [0x20; 0x01; 0x08; 0x40].

Definition SSE4_c19_mul_msk2_m128i : m128i :=
  _mm_set_epi32 [0x04; 0x20; 0x01; 0x08].

Definition decompress_sse4_c19_m2_s1 (segment : Z) (c19_load_vec_m128i : m128i) (presult : cursor) : res cursor :=
  let SSE4_c19_shfl_msk_m128i := _mm_set_epi8 [0xFF; segment + 9; segment + 8; segment + 7; segment + 7;
                                               segment + 6; segment + 5; segment + 4; 0xFF; segment + 4;
                                               segment + 3; segment + 2; 0xFF; segment + 2; segment + 1;
                                               segment] in
  let c19_shfl_rslt_m128i := _mm_shuffle_epi8 c19_load_vec_m128i SSE4_c19_shfl_msk_m128i in
  let c19_and_rslt_m128i := _mm_and_si128 c19_shfl_rslt_m128i SSE4_c19_and_msk1_m128i in
  let c19_mul_rslt_m128i := _mm_mullo_epi32 c19_and_rslt_m128i SSE4_c19_mul_msk1_m128i in
  let c19_rslt_m128i := _mm_srli_epi32 c19_mul_rslt_m128i 6 in
  let! presult := _mm_storeu_si128 presult c19_rslt_m128i in
  let presult := advance presult 4 in
  Ok presult.

Definition decompress_sse4_c19_m2_s2 (segment : Z) (c19_load_vec_m128i : m128i) (presult : cursor) : res cursor :=
  let SSE4_c19_shfl_msk_m128i := _mm_set_epi8 [0xFF; segment + 9; segment + 8; segment + 7; 0xFF;
                                               segment + 7; segment + 6; segment + 5; segment + 5;
                                               segment + 4; segment + 3; segment + 2; 0xFF; segment + 2;
                                               segment + 1; segment] in
  let c19_shfl_rslt_m128i := _mm_shuffle_epi8 c19_load_vec_m128i SSE4_c19_shfl_msk_m128i in
  let c19_and_rslt_m128i := _mm_and_si128 c19_shfl_rslt_m128i SSE4_c19_and_msk2_m128i in
  let c19_mul_rslt_m128i := _mm_mullo_epi32 c19_and_rslt_m128i SSE4_c19_mul_msk2_m128i in
  let c19_rslt_m128i := _mm_srli_epi32 c19_mul_rslt_m128i 7 in
  let! presult := _mm_storeu_si128 presult c19_rslt_m128i in
  let presult := advance presult 4 in
  Ok presult.

Definition decompress_sse4_c19_m1 (dest its_vector_m128i : list Z) : res (list Z) :=
  let presult := (dest, 0%nat) in
  let! c19_load_rslt1_m128i := _mm_loadu_si128 its_vector_m128i 0 in
  let! presult := decompress_sse4_c19_m2_s1 0 c19_load_rslt1_m128i presult in
  let! c19_load_rslt2_m128i := _mm_loadu_si128 its_vector_m128i 1 in
  let c19_align_rslt1_m128i := _mm_alignr_epi8 c19_load_rslt2_m128i c19_load_rslt1_m128i 9 in
  let! presult := decompress_sse4_c19_m2_s2 0 c19_align_rslt1_m128i presult in
  let! presult := decompress_sse4_c19_m2_s1 3 c19_load_rslt2_m128i presult in
  let! c19_load_rslt3_m128i := _mm_loadu_si128 its_vector_m128i 2 in
  let c19_align_rslt2_m128i := _mm_alignr_epi8 c19_load_rslt3_m128i c19_load_rslt2_m128i 12 in
  let! presult := decompress_sse4_c19_m2_s2 0 c19_align_rslt2_m128i presult in
  let! presult := decompress_sse4_c19_m2_s1 6 c19_load_rslt3_m128i presult in
  let! c19_load_rslt4_m128i := _mm_loadu_si128 its_vector_m128i 3 in
  let c19_align_rslt3_m128i := _mm_alignr_epi8 c19_load_rslt4_m128i c19_load_rslt3_m128i 15 in
  let! presult := decompress_sse4_c19_m2_s2 0 c19_align_rslt3_m128i presult in
  let! c19_load_rslt5_m128i := _mm_loadu_si128 its_vector_m128i 4 in
  let c19_align_rslt4_m128i := _mm_alignr_epi8 c19_load_rslt5_m128i c19_load_rslt4_m128i 9 in
  let! presult := decompress_sse4_c19_m2_s1 0 c19_align_rslt4_m128i presult in
  let! presult := decompress_sse4_c19_m2_s2 2 c19_load_rslt5_m128i presult in
  let! c19_load_rslt6_m128i := _mm_loadu_si128 its_vector_m128i 5 in
  let c19_align_rslt5_m128i := _mm_alignr_epi8 c19_load_rslt6_m128i c19_load_rslt5_m128i 12 in
  let! presult := decompress_sse4_c19_m2_s1 0 c19_align_rslt5_m128i presult in
  let! presult := decompress_sse4_c19_m2_s2 5 c19_load_rslt6_m128i presult in
  let! c19_load_rslt7_m128i := _mm_loadu_si128 its_vector_m128i 6 in
  let c19_align_rslt6_m128i := _mm_alignr_epi8 c19_load_rslt7_m128i c19_load_rslt6_m128i 15 in
  let! presult := decompress_sse4_c19_m2_s1 0 c19_align_rslt6_m128i presult in
  let! c19_load_rslt8_m128i := _mm_loadu_si128 its_vector_m128i 7 in
  let c19_align_rslt7_m128i := _mm_alignr_epi8 c19_load_rslt8_m128i c19_load_rslt7_m128i 8 in
  let! presult := decompress_sse4_c19_m2_s2 0 c19_align_rslt7_m128i presult in
  let! presult := decompress_sse4_c19_m2_s1 2 c19_load_rslt8_m128i presult in
  let! c19_load_rslt9_m128i := _mm_loadu_si128 its_vector_m128i 8 in
  let c19_align_rslt8_m128i := _mm_alignr_epi8 c19_load_rslt9_m128i c19_load_rslt8_m128i 11 in
  let! presult := decompress_sse4_c19_m2_s2 0 c19_align_rslt8_m128i presult in
  let! presult := decompress_sse4_c19_m2_s1 5 c19_load_rslt9_m128i presult in
  let! c19_load_rslt10_m128i := _mm_loadu_si128 its_vector_m128i 9 in
  let c19_align_rslt9_m128i := _mm_alignr_epi8 c19_load_rslt10_m128i c19_load_rslt9_m128i 14 in
  let! presult := decompress_sse4_c19_m2_s2 0 c19_align_rslt9_m128i presult in
  let! c19_load_rslt11_m128i := _mm_loadu_si128 its_vector_m128i 10 in
  let c19_align_rslt10_m128i := _mm_alignr_epi8 c19_load_rslt11_m128i c19_load_rslt10_m128i 8 in
  let! presult := decompress_sse4_c19_m2_s1 0 c19_align_rslt10_m128i presult in
  let! presult := decompress_sse4_c19_m2_s2 1 c19_load_rslt11_m128i presult in
  let! c19_load_rslt12_m128i := _mm_loadu_si128 its_vector_m128i 11 in
  let c19_align_rslt11_m128i := _mm_alignr_epi8 c19_load_rslt12_m128i c19_load_rslt11_m128i 11 in
  let! presult := decompress_sse4_c19_m2_s1 0 c19_align_rslt11_m128i presult in
  let! presult := decompress_sse4_c19_m2_s2 4 c19_load_rslt12_m128i presult in
  let! c19_load_rslt13_m128i := _mm_loadu_si128 its_vector_m128i 12 in
  let c19_align_rslt12_m128i := _mm_alignr_epi8 c19_load_rslt13_m128i c19_load_rslt12_m128i 14 in
  let! presult := decompress_sse4_c19_m2_s1 0 c19_align_rslt12_m128i presult in
  let! c19_load_rslt14_m128i := _mm_loadu_si128 its_vector_m128i 13 in
  let c19_align_rslt13_m128i := _mm_alignr_epi8 c19_load_rslt14_m128i c19_load_rslt13_m128i 7 in
  let! presult := decompress_sse4_c19_m2_s2 0 c19_align_rslt13_m128i presult in
  let! presult := decompress_sse4_c19_m2_s1 1 c19_load_rslt14_m128i presult in
  let! c19_load_rslt15_m128i := _mm_loadu_si128 its_vector_m128i 14 in
  let c19_align_rslt14_m128i := _mm_alignr_epi8 c19_load_rslt15_m128i c19_load_rslt14_m128i 10 in
  let! presult := decompress_sse4_c19_m2_s2 0 c19_align_rslt14_m128i presult in
  let! presult := decompress_sse4_c19_m2_s1 4 c19_load_rslt15_m128i presult in
  let! c19_load_rslt16_m128i := _mm_loadu_si128 its_vector_m128i 15 in
  let c19_align_rslt15_m128i := _mm_alignr_epi8 c19_load_rslt16_m128i c19_load_rslt15_m128i 13 in
  let! presult := decompress_sse4_c19_m2_s2 0 c19_align_rslt15_m128i presult in
  let! c19_load_rslt17_m128i := _mm_loadu_si128 its_vector_m128i 16 in
  let c19_align_rslt16_m128i := _mm_alignr_epi8 c19_load_rslt17_m128i c19_load_rslt16_m128i 7 in
  let! presult := decompress_sse4_c19_m2_s1 0 c19_align_rslt16_m128i presult in
  let! presult := decompress_sse4_c19_m2_s2 0 c19_load_rslt17_m128i presult in
  let! c19_load_rslt18_m128i := _mm_loadu_si128 its_vector_m128i 17 in
  let c19_align_rslt17_m128i := _mm_alignr_epi8 c19_load_rslt18_m128i c19_load_rslt17_m128i 10 in
  let! presult := decompress_sse4_c19_m2_s1 0 c19_align_rslt17_m128i presult in
  let! presult := decompress_sse4_c19_m2_s2 3 c19_load_rslt18_m128i presult in
  let! c19_load_rslt19_m128i := _mm_loadu_si128 its_vector_m128i 18 in
  let c19_align_rslt18_m128i := _mm_alignr_epi8 c19_load_rslt19_m128i c19_load_rslt18_m128i 13 in
  let! presult := decompress_sse4_c19_m2_s1 0 c19_align_rslt18_m128i presult in
  let! presult := decompress_sse4_c19_m2_s2 6 c19_load_rslt19_m128i presult in
  Ok (fst presult).

Definition decompress_sse4_c19 (dest encode : list Z) (n : Z) : res (list Z) :=
  whileBlocks 128 19 n decompress_sse4_c19_m1 (restOf 0x7F n (unpack_19 32)) dest encode.

Definition SSE4_c20_and_msk1_m128i : m128i :=
  _mm_set_epi8 [0x00; 0xFF; 0xFF; 0xF0; 0x00; 0x0F; 0xFF; 0xFF; 0x00; 0xFF; 0xFF; 0xF0; 0x00; 0x0F; 0xFF;
                0xFF].

Definition SSE4_c20_mul_msk1_m128i : m128i :=
  _mm_set_epi32 [0x01; 0x10; 0x01; 0x10].

Definition decompress_sse4_c20_m2 (segment : Z) (c20_load_vec_m128i : m128i) (presult : cursor) : res cursor :=
  let SSE4_c20_shfl_msk_m128i := _mm_set_epi8 [0xFF; segment + 9; segment + 8; segment + 7; 0xFF;
                                               segment + 7; segment + 6; segment + 5; 0xFF; segment + 4;
                                               segment + 3; segment + 2; 0xFF; segment + 2; segment + 1;
                                               segment] in
  let c20_shfl_rslt_m128i := _mm_shuffle_epi8 c20_load_vec_m128i SSE4_c20_shfl_msk_m128i in
  let c20_and_rslt_m128i := _mm_and_si128 c20_shfl_rslt_m128i SSE4_c20_and_msk1_m128i in
  let c20_mul_rslt_m128i := _mm_mullo_epi32 c20_and_rslt_m128i SSE4_c20_mul_msk1_m128i in
  let c20_rslt_m128i := _mm_srli_epi32 c20_mul_rslt_m128i 4 in
  let! presult := _mm_storeu_si128 presult c20_rslt_m128i in
  let presult := advance presult 4 in
  Ok presult.

Definition decompress_sse4_c20_m1 (dest its_vector_m128i : list Z) : res (list Z) :=
  let presult := (dest, 0%nat) in
  let! c20_load_rslt1_m128i := _mm_loadu_si128 its_vector_m128i 0 in
  let! presult := decompress_sse4_c20_m2 0 c20_load_rslt1_m128i presult in
  let! c20_load_rslt2_m128i := _mm_loadu_si128 its_vector_m128i 1 in
  let c20_align_rslt1_m128i := _mm_alignr_epi8 c20_load_rslt2_m128i c20_load_rslt1_m128i 10 in
  let! presult := decompress_sse4_c20_m2 0 c20_align_rslt1_m128i presult in
  let! presult := decompress_sse4_c20_m2 4 c20_load_rslt2_m128i presult in
  let! c20_load_rslt3_m128i := _mm_loadu_si128 its_vector_m128i 2 in
  let c20_align_rslt2_m128i := _mm_alignr_epi8 c20_load_rslt3_m128i c20_load_rslt2_m128i 14 in
  let! presult := decompress_sse4_c20_m2 0 c20_align_rslt2_m128i presult in
  let! c20_load_rslt4_m128i := _mm_loadu_si128 its_vector_m128i 3 in
  let c20_align_rslt3_m128i := _mm_alignr_epi8 c20_load_rslt4_m128i c20_load_rslt3_m128i 8 in
  let! presult := decompress_sse4_c20_m2 0 c20_align_rslt3_m128i presult in
  let! presult := decompress_sse4_c20_m2 2 c20_load_rslt4_m128i presult in
  let! c20_load_rslt5_m128i := _mm_loadu_si128 its_vector_m128i 4 in
  let c20_align_rslt4_m128i := _mm_alignr_epi8 c20_load_rslt5_m128i c20_load_rslt4_m128i 12 in
  let! presult := decompress_sse4_c20_m2 0 c20_align_rslt4_m128i presult in
  let! presult := decompress_sse4_c20_m2 6 c20_load_rslt5_m128i presult in
  Ok (fst presult).

Definition decompress_sse4_c20 (dest encode : list Z) (n : Z) : res (list Z) :=
  whileBlocks 32 5 n decompress_sse4_c20_m1 (restOf 0x1F n (unpack_20 32)) dest encode.

Definition SSE4_c21_and_msk1_m128i : m128i :=
  _mm_set_epi8 [0x0F; 0xFF; 0xFF; 0x80; 0x00; 0x7F; 0xFF; 0xFC; 0x03; 0xFF; 0xFF; 0xE0; 0x00; 0x1F; 0xFF;
                0xFF].

Definition SSE4_c21_and_msk2_m128i : m128i :=
  _mm_set_epi8 [0x00; 0xFF; 0xFF; 0xF8; 0x07; 0xFF; 0xFF; 0xC0; 0x00; 0x3F; 0xFF; 0xFE; 0x01; 0xFF; 0xFF;
                0xF0].

Definition SSE4_c21_mul_msk1_m128i : m128i :=
  _mm_set_epi32 [0x01; 0x20; 0x04; 0x80].

Definition SSE4_c21_mul_msk2_m128i : m128i :=
  _mm_set_epi32 [0x08; 0x01; 0x20; 0x04].

Definition decompress_sse4_c21_m2_s1 (segment : Z) (c21_load_vec_m128i : m128i) (presult : cursor) : res cursor :=
  let SSE4_c21_shfl_msk_m128i := _mm_set_epi8 [segment + 10; segment + 9; segment + 8; segment + 7; 0xFF;
                                               segment + 7; segment + 6; segment + 5; segment + 5;
                                               segment + 4; segment + 3; segment + 2; 0xFF; segment + 2;
                                               segment + 1; segment] in
  let c21_shfl_rslt_m128i := _mm_shuffle_epi8 c21_load_vec_m128i SSE4_c21_shfl_msk_m128i in
  let c21_and_rslt_m128i := _mm_and_si128 c21_shfl_rslt_m128i SSE4_c21_and_msk1_m128i in
  let c21_mul_rslt_m128i := _mm_mullo_epi32 c21_and_rslt_m128i SSE4_c21_mul_msk1_m128i in
  let c21_rslt_m128i := _mm_srli_epi32 c21_mul_rslt_m128i 7 in
  let! presult := _mm_storeu_si128 presult c21_rslt_m128i in
  let presult := advance presult 4 in
  Ok presult.

Definition decompress_sse4_c21_m2_s2 (segment : Z) (c21_load_vec_m128i : m128i) (presult : cursor) : res cursor :=
  let SSE4_c21_shfl_msk_m128i := _mm_set_epi8 [0xFF; segment + 10; segment + 9; segment + 8; segment + 8;
                                               segment + 7; segment + 6; segment + 5; 0xFF; segment + 5;
                                               segment + 4; segment + 3; segment + 3; segment + 2;
                                               segment + 1; segment] in
  let c21_shfl_rslt_m128i := _mm_shuffle_epi8 c21_load_vec_m128i SSE4_c21_shfl_msk_m128i in
  let c21_and_rslt_m128i := _mm_and_si128 c21_shfl_rslt_m128i SSE4_c21_and_msk2_m128i in
  let c21_mul_rslt_m128i := _mm_mullo_epi32 c21_and_rslt_m128i SSE4_c21_mul_msk2_m128i in
  let c21_rslt_m128i := _mm_srli_epi32 c21_mul_rslt_m128i 6 in
  let! presult := _mm_storeu_si128 presult c21_rslt_m128i in
  let presult := advance presult 4 in
  Ok presult.

Definition decompress_sse4_c21_m1 (dest its_vector_m128i : list Z) : res (list Z) :=
  let presult := (dest, 0%nat) in
  let! c21_load_rslt1_m128i := _mm_loadu_si128 its_vector_m128i 0 in
  let! presult := decompress_sse4_c21_m2_s1 0 c21_load_rslt1_m128i presult in
  let! c21_load_rslt2_m128i := _mm_loadu_si128 its_vector_m128i 1 in
  let c21_align_rslt1_m128i := _mm_alignr_epi8 c21_load_rslt2_m128i c21_load_rslt1_m128i 10 in
  let! presult := decompress_sse4_c21_m2_s2 0 c21_align_rslt1_m128i presult in
  let! presult := decompress_sse4_c21_m2_s1 5 c21_load_rslt2_m128i presult in
  let! c21_load_rslt3_m128i := _mm_loadu_si128 its_vector_m128i 2 in
  let c21_align_rslt2_m128i := _mm_alignr_epi8 c21_load_rslt3_m128i c21_load_rslt2_m128i 15 in
  let! presult := decompress_sse4_c21_m2_s2 0 c21_align_rslt2_m128i presult in
  let! c21_load_rslt4_m128i := _mm_loadu_si128 its_vector_m128i 3 in
  let c21_align_rslt3_m128i := _mm_alignr_epi8 c21_load_rslt4_m128i c21_load_rslt3_m128i 10 in
  let! presult := decompress_sse4_c21_m2_s1 0 c21_align_rslt3_m128i presult in
  let! presult := decompress_sse4_c21_m2_s2 4 c21_load_rslt4_m128i presult in
  let! c21_load_rslt5_m128i := _mm_loadu_si128 its_vector_m128i 4 in
  let c21_align_rslt4_m128i := _mm_alignr_epi8 c21_load_rslt5_m128i c21_load_rslt4_m128i 15 in
  let! presult := decompress_sse4_c21_m2_s1 0 c21_align_rslt4_m128i presult in
  let! c21_load_rslt6_m128i := _mm_loadu_si128 its_vector_m128i 5 in
  let c21_align_rslt5_m128i := _mm_alignr_epi8 c21_load_rslt6_m128i c21_load_rslt5_m128i 9 in
  let! presult := decompress_sse4_c21_m2_s2 0 c21_align_rslt5_m128i presult in
  let! presult := decompress_sse4_c21_m2_s1 4 c21_load_rslt6_m128i presult in
  let! c21_load_rslt7_m128i := _mm_loadu_si128 its_vector_m128i 6 in
  let c21_align_rslt6_m128i := _mm_alignr_epi8 c21_load_rslt7_m128i c21_load_rslt6_m128i 14 in
  let! presult := decompress_sse4_c21_m2_s2 0 c21_align_rslt6_m128i presult in
  let! c21_load_rslt8_m128i := _mm_loadu_si128 its_vector_m128i 7 in
  let c21_align_rslt7_m128i := _mm_alignr_epi8 c21_load_rslt8_m128i c21_load_rslt7_m128i 9 in
  let! presult := decompress_sse4_c21_m2_s1 0 c21_align_rslt7_m128i presult in
  let! presult := decompress_sse4_c21_m2_s2 3 c21_load_rslt8_m128i presult in
  let! c21_load_rslt9_m128i := _mm_loadu_si128 its_vector_m128i 8 in
  let c21_align_rslt8_m128i := _mm_alignr_epi8 c21_load_rslt9_m128i c21_load_rslt8_m128i 14 in
  let! presult := decompress_sse4_c21_m2_s1 0 c21_align_rslt8_m128i presult in
  let! c21_load_rslt10_m128i := _mm_loadu_si128 its_vector_m128i 9 in
  let c21_align_rslt9_m128i := _mm_alignr_epi8 c21_load_rslt10_m128i c21_load_rslt9_m128i 8 in
  let! presult := decompress_sse4_c21_m2_s2 0 c21_align_rslt9_m128i presult in
  let! presult := decompress_sse4_c21_m2_s1 3 c21_load_rslt10_m128i presult in
  let! c21_load_rslt11_m128i := _mm_loadu_si128 its_vector_m128i 10 in
  let c21_align_rslt10_m128i := _mm_alignr_epi8 c21_load_rslt11_m128i c21_load_rslt10_m128i 13 in
  let! presult := decompress_sse4_c21_m2_s2 0 c21_align_rslt10_m128i presult in
  let! c21_load_rslt12_m128i := _mm_loadu_si128 its_vector_m128i 11 in
  let c21_align_rslt11_m128i := _mm_alignr_epi8 c21_load_rslt12_m128i c21_load_rslt11_m128i 8 in
  let! presult := decompress_sse4_c21_m2_s1 0 c21_align_rslt11_m128i presult in
  let! presult := decompress_sse4_c21_m2_s2 2 c21_load_rslt12_m128i presult in
  let! c21_load_rslt13_m128i := _mm_loadu_si128 its_vector_m128i 12 in
  let c21_align_rslt12_m128i := _mm_alignr_epi8 c21_load_rslt13_m128i c21_load_rslt12_m128i 13 in
  let! presult := decompress_sse4_c21_m2_s1 0 c21_align_rslt12_m128i presult in
  let! c21_load_rslt14_m128i := _mm_loadu_si128 its_vector_m128i 13 in
  let c21_align_rslt13_m128i := _mm_alignr_epi8 c21_load_rslt14_m128i c21_load_rslt13_m128i 7 in
  let! presult := decompress_sse4_c21_m2_s2 0 c21_align_rslt13_m128i presult in
  let! presult := decompress_sse4_c21_m2_s1 2 c21_load_rslt14_m128i presult in
  let! c21_load_rslt15_m128i := _mm_loadu_si128 its_vector_m128i 14 in
  let c21_align_rslt14_m128i := _mm_alignr_epi8 c21_load_rslt15_m128i c21_load_rslt14_m128i 12 in
  let! presult := decompress_sse4_c21_m2_s2 0 c21_align_rslt14_m128i presult in
  let! c21_load_rslt16_m128i := _mm_loadu_si128 its_vector_m128i 15 in
  let c21_align_rslt15_m128i := _mm_alignr_epi8 c21_load_rslt16_m128i c21_load_rslt15_m128i 7 in
  let! presult := decompress_sse4_c21_m2_s1 0 c21_align_rslt15_m128i presult in
  let! presult := decompress_sse4_c21_m2_s2 1 c21_load_rslt16_m128i presult in
  let! c21_load_rslt17_m128i := _mm_loadu_si128 its_vector_m128i 16 in
  let c21_align_rslt16_m128i := _mm_alignr_epi8 c21_load_rslt17_m128i c21_load_rslt16_m128i 12 in
  let! presult := decompress_sse4_c21_m2_s1 0 c21_align_rslt16_m128i presult in
  let! c21_load_rslt18_m128i := _mm_loadu_si128 its_vector_m128i 17 in
  let c21_align_rslt17_m128i := _mm_alignr_epi8 c21_load_rslt18_m128i c21_load_rslt17_m128i 6 in
  let! presult := decompress_sse4_c21_m2_s2 0 c21_align_rslt17_m128i presult in
  let! presult := decompress_sse4_c21_m2_s1 1 c21_load_rslt18_m128i presult in
  let! c21_load_rslt19_m128i := _mm_loadu_si128 its_vector_m128i 18 in
  let c21_align_rslt18_m128i := _mm_alignr_epi8 c21_load_rslt19_m128i c21_load_rslt18_m128i 11 in
  let! presult := decompress_sse4_c21_m2_s2 0 c21_align_rslt18_m128i presult in
  let! c21_load_rslt20_m128i := _mm_loadu_si128 its_vector_m128i 19 in
  let c21_align_rslt19_m128i := _mm_alignr_epi8 c21_load_rslt20_m128i c21_load_rslt19_m128i 6 in
  let! presult := decompress_sse4_c21_m2_s1 0 c21_align_rslt19_m128i presult in
  let! presult := decompress_sse4_c21_m2_s2 0 c21_load_rslt20_m128i presult in
  let! c21_load_rslt21_m128i := _mm_loadu_si128 its_vector_m128i 20 in
  let c21_align_rslt20_m128i := _mm_alignr_epi8 c21_load_rslt21_m128i c21_load_rslt20_m128i 11 in
  let! presult := decompress_sse4_c21_m2_s1 0 c21_align_rslt20_m128i presult in
  let! presult := decompress_sse4_c21_m2_s2 5 c21_load_rslt21_m128i presult in
  Ok (fst presult).

Definition decompress_sse4_c21 (dest encode : list Z) (n : Z) : res (list Z) :=
  whileBlocks 128 21 n decompress_sse4_c21_m1 (restOf 0x7F n (unpack_21 32)) dest encode.

Definition SSE4_c22_and_msk1_m128i : m128i :=
  _mm_set_epi8 [0x00; 0xFF; 0xFF; 0xFC; 0x03; 0xFF; 0xFF; 0xF0; 0x0F; 0xFF; 0xFF; 0xC0; 0x00; 0x3F; 0xFF;
                0xFF].

Definition SSE4_c22_mul_msk1_m128i : m128i :=
  _mm_set_epi32 [0x10; 0x04; 0x01; 0x40].

Definition decompress_sse4_c22_m2 (segment : Z) (c22_load_vec_m128i : m128i) (presult : cursor) : res cursor :=
  let SSE4_c22_shfl_msk_m128i := _mm_set_epi8 [0xFF; segment + 10; segment + 9; segment + 8; segment + 8;
                                               segment + 7; segment + 6; segment + 5; segment + 5;
                                               segment + 4; segment + 3; segment + 2; 0xFF; segment + 2;
                                               segment + 1; segment] in
  let c22_shfl_rslt_m128i := _mm_shuffle_epi8 c22_load_vec_m128i SSE4_c22_shfl_msk_m128i in
  let c22_and_rslt_m128i := _mm_and_si128 c22_shfl_rslt_m128i SSE4_c22_and_msk1_m128i in
  let c22_mul_rslt_m128i := _mm_mullo_epi32 c22_and_rslt_m128i SSE4_c22_mul_msk1_m128i in
  let c22_rslt_m128i := _mm_srli_epi32 c22_mul_rslt_m128i 6 in
  let! presult := _mm_storeu_si128 presult c22_rslt_m128i in
  let presult := advance presult 4 in
  Ok presult.

Definition decompress_sse4_c22_m1 (dest its_vector_m128i : list Z) : res (list Z) :=
  let presult := (dest, 0%nat) in
  let! c22_load_rslt1_m128i := _mm_loadu_si128 its_vector_m128i 0 in
  let! presult := decompress_sse4_c22_m2 0 c22_load_rslt1_m128i presult in
  let! c22_load_rslt2_m128i := _mm_loadu_si128 its_vector_m128i 1 in
  let c22_align_rslt1_m128i := _mm_alignr_epi8 c22_load_rslt2_m128i c22_load_rslt1_m128i 11 in
  let! presult := decompress_sse4_c22_m2 0 c22_align_rslt1_m128i presult in
  let! c22_load_rslt3_m128i := _mm_loadu_si128 its_vector_m128i 2 in
  let c22_align_rslt2_m128i := _mm_alignr_epi8 c22_load_rslt3_m128i c22_load_rslt2_m128i 6 in
  let! presult := decompress_sse4_c22_m2 0 c22_align_rslt2_m128i presult in
  let! presult := decompress_sse4_c22_m2 1 c22_load_rslt3_m128i presult in
  let! c22_load_rslt4_m128i := _mm_loadu_si128 its_vector_m128i 3 in
  let c22_align_rslt3_m128i := _mm_alignr_epi8 c22_load_rslt4_m128i c22_load_rslt3_m128i 12 in
  let! presult := decompress_sse4_c22_m2 0 c22_align_rslt3_m128i presult in
  let! c22_load_rslt5_m128i := _mm_loadu_si128 its_vector_m128i 4 in
  let c22_align_rslt4_m128i := _mm_alignr_epi8 c22_load_rslt5_m128i c22_load_rslt4_m128i 7 in
  let! presult := decompress_sse4_c22_m2 0 c22_align_rslt4_m128i presult in
  let! presult := decompress_sse4_c22_m2 2 c22_load_rslt5_m128i presult in
  let! c22_load_rslt6_m128i := _mm_loadu_si128 its_vector_m128i 5 in
  let c22_align_rslt5_m128i := _mm_alignr_epi8 c22_load_rslt6_m128i c22_load_rslt5_m128i 13 in
  let! presult := decompress_sse4_c22_m2 0 c22_align_rslt5_m128i presult in
  let! c22_load_rslt7_m128i := _mm_loadu_si128 its_vector_m128i 6 in
  let c22_align_rslt6_m128i := _mm_alignr_epi8 c22_load_rslt7_m128i c22_load_rslt6_m128i 8 in
  let! presult := decompress_sse4_c22_m2 0 c22_align_rslt6_m128i presult in
  let! presult := decompress_sse4_c22_m2 3 c22_load_rslt7_m128i presult in
  let! c22_load_rslt8_m128i := _mm_loadu_si128 its_vector_m128i 7 in
  let c22_align_rslt7_m128i := _mm_alignr_epi8 c22_load_rslt8_m128i c22_load_rslt7_m128i 14 in
  let! presult := decompress_sse4_c22_m2 0 c22_align_rslt7_m128i presult in
  let! c22_load_rslt9_m128i := _mm_loadu_si128 its_vector_m128i 8 in
  let c22_align_rslt8_m128i := _mm_alignr_epi8 c22_load_rslt9_m128i c22_load_rslt8_m128i 9 in
  let! presult := decompress_sse4_c22_m2 0 c22_align_rslt8_m128i presult in
  let! presult := decompress_sse4_c22_m2 4 c22_load_rslt9_m128i presult in
  let! c22_load_rslt10_m128i := _mm_loadu_si128 its_vector_m128i 9 in
  let c22_align_rslt9_m128i := _mm_alignr_epi8 c22_load_rslt10_m128i c22_load_rslt9_m128i 15 in
  let! presult := decompress_sse4_c22_m2 0 c22_align_rslt9_m128i presult in
  let! c22_load_rslt11_m128i := _mm_loadu_si128 its_vector_m128i 10 in
  let c22_align_rslt10_m128i := _mm_alignr_epi8 c22_load_rslt11_m128i c22_load_rslt10_m128i 10 in
  let! presult := decompress_sse4_c22_m2 0 c22_align_rslt10_m128i presult in
  let! presult := decompress_sse4_c22_m2 5 c22_load_rslt11_m128i presult in
  Ok (fst presult).

Definition decompress_sse4_c22 (dest encode : list Z) (n : Z) : res (list Z) :=
  whileBlocks 64 11 n decompress_sse4_c22_m1 (restOf 0x3F n (unpack_22 32)) dest encode.

Definition SSE4_c23_and_msk1_m128i : m128i :=
  _mm_set_epi8 [0x0F; 0xFF; 0xFF; 0xE0; 0x1F; 0xFF; 0xFF; 0xC0; 0x3F; 0xFF; 0xFF; 0x80; 0x00; 0x7F; 0xFF;
                0xFF].

Definition SSE4_c23_and_msk2_m128i : m128i :=
  _mm_set_epi8 [0xFF; 0xFF; 0xFF; 0xFE; 0x01; 0xFF; 0xFF; 0xFC; 0x03; 0xFF; 0xFF; 0xF8; 0x07; 0xFF; 0xFF;
                0xF0].

Definition SSE4_c23_mul_msk1_m128i : m128i :=
  _mm_set_epi32 [0x04; 0x02; 0x01; 0x80].

Definition SSE4_c23_mul_msk2_m128i : m128i :=
  _mm_set_epi32 [0x08; 0x04; 0x02; 0x01].

Definition decompress_sse4_c23_m2_s1 (segment : Z) (c23_load_vec_m128i : m128i) (presult : cursor) : res cursor :=
  let SSE4_c23_shfl_msk_m128i := _mm_set_epi8 [segment + 11; segment + 10; segment + 9; segment + 8;
                                               segment + 8; segment + 7; segment + 6; segment + 5;
                                               segment + 5; segment + 4; segment + 3; segment + 2; 0xFF;
                                               segment + 2; segment + 1; segment] in
  let c23_shfl_rslt_m128i := _mm_shuffle_epi8 c23_load_vec_m128i SSE4_c23_shfl_msk_m128i in
  let c23_and_rslt_m128i := _mm_and_si128 c23_shfl_rslt_m128i SSE4_c23_and_msk1_m128i in
  let c23_mul_rslt_m128i := _mm_mullo_epi32 c23_and_rslt_m128i SSE4_c23_mul_msk1_m128i in
  let c23_rslt_m128i := _mm_srli_epi32 c23_mul_rslt_m128i 7 in
  let! presult := _mm_storeu_si128 presult c23_rslt_m128i in
  let presult := advance presult 4 in
  Ok presult.

Definition decompress_sse4_c23_m2_s2 (segment : Z) (c23_load_vec_m128i : m128i) (presult : cursor) : res cursor :=
  let SSE4_c23_shfl_msk_m128i := _mm_set_epi8 [0xFF; segment + 11; segment + 10; segment + 9; segment + 9;
                                               segment + 8; segment + 7; segment + 6; segment + 6;
                                               segment + 5; segment + 4; segment + 3; segment + 3;
                                               segment + 2; segment + 1; segment] in
  let c23_shfl_rslt_m128i := _mm_shuffle_epi8 c23_load_vec_m128i SSE4_c23_shfl_msk_m128i in
  let c23_and_rslt_m128i := _mm_and_si128 c23_shfl_rslt_m128i SSE4_c23_and_msk2_m128i in
  let c23_mul_rslt_m128i := _mm_mullo_epi32 c23_and_rslt_m128i SSE4_c23_mul_msk2_m128i in
  let c23_rslt_m128i := _mm_srli_epi32 c23_mul_rslt_m128i 4 in
  let! presult := _mm_storeu_si128 presult c23_rslt_m128i in
  let presult := advance presult 4 in
  Ok presult.

Definition decompress_sse4_c23_m1 (dest its_vector_m128i : list Z) : res (list Z) :=
  let presult := (dest, 0%nat) in
  let! c23_load_rslt1_m128i := _mm_loadu_si128 its_vector_m128i 0 in
  let! presult := decompress_sse4_c23_m2_s1 0 c23_load_rslt1_m128i presult in
  let! c23_load_rslt2_m128i := _mm_loadu_si128 its_vector_m128i 1 in
  let c23_align_rslt1_m128i := _mm_alignr_epi8 c23_load_rslt2_m128i c23_load_rslt1_m128i 11 in
  let! presult := decompress_sse4_c23_m2_s2 0 c23_align_rslt1_m128i presult in
  let! c23_load_rslt3_m128i := _mm_loadu_si128 its_vector_m128i 2 in
  let c23_align_rslt2_m128i := _mm_alignr_epi8 c23_load_rslt3_m128i c23_load_rslt2_m128i 7 in
  let! presult := decompress_sse4_c23_m2_s1 0 c23_align_rslt2_m128i presult in
  let! presult := decompress_sse4_c23_m2_s2 2 c23_load_rslt3_m128i presult in
  let! c23_load_rslt4_m128i := _mm_loadu_si128 its_vector_m128i 3 in
  let c23_align_rslt3_m128i := _mm_alignr_epi8 c23_load_rslt4_m128i c23_load_rslt3_m128i 14 in
  let! presult := decompress_sse4_c23_m2_s1 0 c23_align_rslt3_m128i presult in
  let! c23_load_rslt5_m128i := _mm_loadu_si128 its_vector_m128i 4 in
  let c23_align_rslt4_m128i := _mm_alignr_epi8 c23_load_rslt5_m128i c23_load_rslt4_m128i 9 in
  let! presult := decompress_sse4_c23_m2_s2 0 c23_align_rslt4_m128i presult in
  let! c23_load_rslt6_m128i := _mm_loadu_si128 its_vector_m128i 5 in
  let c23_align_rslt5_m128i := _mm_alignr_epi8 c23_load_rslt6_m128i c23_load_rslt5_m128i 5 in
  let! presult := decompress_sse4_c23_m2_s1 0 c23_align_rslt5_m128i presult in
  let! presult := decompress_sse4_c23_m2_s2 0 c23_load_rslt6_m128i presult in
  let! c23_load_rslt7_m128i := _mm_loadu_si128 its_vector_m128i 6 in
  let c23_align_rslt6_m128i := _mm_alignr_epi8 c23_load_rslt7_m128i c23_load_rslt6_m128i 12 in
  let! presult := decompress_sse4_c23_m2_s1 0 c23_align_rslt6_m128i presult in
  let! c23_load_rslt8_m128i := _mm_loadu_si128 its_vector_m128i 7 in
  let c23_align_rslt7_m128i := _mm_alignr_epi8 c23_load_rslt8_m128i c23_load_rslt7_m128i 7 in
  let! presult := decompress_sse4_c23_m2_s2 0 c23_align_rslt7_m128i presult in
  let! presult := decompress_sse4_c23_m2_s1 3 c23_load_rslt8_m128i presult in
  let! c23_load_rslt9_m128i := _mm_loadu_si128 its_vector_m128i 8 in
  let c23_align_rslt8_m128i := _mm_alignr_epi8 c23_load_rslt9_m128i c23_load_rslt8_m128i 14 in
  let! presult := decompress_sse4_c23_m2_s2 0 c23_align_rslt8_m128i presult in
  let! c23_load_rslt10_m128i := _mm_loadu_si128 its_vector_m128i 9 in
  let c23_align_rslt9_m128i := _mm_alignr_epi8 c23_load_rslt10_m128i c23_load_rslt9_m128i 10 in
  let! presult := decompress_sse4_c23_m2_s1 0 c23_align_rslt9_m128i presult in
  let! c23_load_rslt11_m128i := _mm_loadu_si128 its_vector_m128i 10 in
  let c23_align_rslt10_m128i := _mm_alignr_epi8 c23_load_rslt11_m128i c23_load_rslt10_m128i 5 in
  let! presult := decompress_sse4_c23_m2_s2 0 c23_align_rslt10_m128i presult in
  let! presult := decompress_sse4_c23_m2_s1 1 c23_load_rslt11_m128i presult in
  let! c23_load_rslt12_m128i := _mm_loadu_si128 its_vector_m128i 11 in
  let c23_align_rslt11_m128i := _mm_alignr_epi8 c23_load_rslt12_m128i c23_load_rslt11_m128i 12 in
  let! presult := decompress_sse4_c23_m2_s2 0 c23_align_rslt11_m128i presult in
  let! c23_load_rslt13_m128i := _mm_loadu_si128 its_vector_m128i 12 in
  let c23_align_rslt12_m128i := _mm_alignr_epi8 c23_load_rslt13_m128i c23_load_rslt12_m128i 8 in
  let! presult := decompress_sse4_c23_m2_s1 0 c23_align_rslt12_m128i presult in
  let! presult := decompress_sse4_c23_m2_s2 3 c23_load_rslt13_m128i presult in
  let! c23_load_rslt14_m128i := _mm_loadu_si128 its_vector_m128i 13 in
  let c23_align_rslt13_m128i := _mm_alignr_epi8 c23_load_rslt14_m128i c23_load_rslt13_m128i 15 in
  let! presult := decompress_sse4_c23_m2_s1 0 c23_align_rslt13_m128i presult in
  let! c23_load_rslt15_m128i := _mm_loadu_si128 its_vector_m128i 14 in
  let c23_align_rslt14_m128i := _mm_alignr_epi8 c23_load_rslt15_m128i c23_load_rslt14_m128i 10 in
  let! presult := decompress_sse4_c23_m2_s2 0 c23_align_rslt14_m128i presult in
  let! c23_load_rslt16_m128i := _mm_loadu_si128 its_vector_m128i 15 in
  let c23_align_rslt15_m128i := _mm_alignr_epi8 c23_load_rslt16_m128i c23_load_rslt15_m128i 6 in
  let! presult := decompress_sse4_c23_m2_s1 0 c23_align_rslt15_m128i presult in
  let! presult := decompress_sse4_c23_m2_s2 1 c23_load_rslt16_m128i presult in
  let! c23_load_rslt17_m128i := _mm_loadu_si128 its_vector_m128i 16 in
  let c23_align_rslt16_m128i := _mm_alignr_epi8 c23_load_rslt17_m128i c23_load_rslt16_m128i 13 in
  let! presult := decompress_sse4_c23_m2_s1 0 c23_align_rslt16_m128i presult in
  let! c23_load_rslt18_m128i := _mm_loadu_si128 its_vector_m128i 17 in
  let c23_align_rslt17_m128i := _mm_alignr_epi8 c23_load_rslt18_m128i c23_load_rslt17_m128i 8 in
  let! presult := decompress_sse4_c23_m2_s2 0 c23_align_rslt17_m128i presult in
  let! presult := decompress_sse4_c23_m2_s1 4 c23_load_rslt18_m128i presult in
  let! c23_load_rslt19_m128i := _mm_loadu_si128 its_vector_m128i 18 in
  let c23_align_rslt18_m128i := _mm_alignr_epi8 c23_load_rslt19_m128i c23_load_rslt18_m128i 15 in
  let! presult := decompress_sse4_c23_m2_s2 0 c23_align_rslt18_m128i presult in
  let! c23_load_rslt20_m128i := _mm_loadu_si128 its_vector_m128i 19 in
  let c23_align_rslt19_m128i := _mm_alignr_epi8 c23_load_rslt20_m128i c23_load_rslt19_m128i 11 in
  let! presult := decompress_sse4_c23_m2_s1 0 c23_align_rslt19_m128i presult in
  let! c23_load_rslt21_m128i := _mm_loadu_si128 its_vector_m128i 20 in
  let c23_align_rslt20_m128i := _mm_alignr_epi8 c23_load_rslt21_m128i c23_load_rslt20_m128i 6 in
  let! presult := decompress_sse4_c23_m2_s2 0 c23_align_rslt20_m128i presult in
  let! presult := decompress_sse4_c23_m2_s1 2 c23_load_rslt21_m128i presult in
  let! c23_load_rslt22_m128i := _mm_loadu_si128 its_vector_m128i 21 in
  let c23_align_rslt21_m128i := _mm_alignr_epi8 c23_load_rslt22_m128i c23_load_rslt21_m128i 13 in
  let! presult := decompress_sse4_c23_m2_s2 0 c23_align_rslt21_m128i presult in
  let! c23_load_rslt23_m128i := _mm_loadu_si128 its_vector_m128i 22 in
  let c23_align_rslt22_m128i := _mm_alignr_epi8 c23_load_rslt23_m128i c23_load_rslt22_m128i 9 in
  let! presult := decompress_sse4_c23_m2_s1 0 c23_align_rslt22_m128i presult in
  let! presult := decompress_sse4_c23_m2_s2 4 c23_load_rslt23_m128i presult in
  Ok (fst presult).

Definition decompress_sse4_c23 (dest encode : list Z) (n : Z) : res (list Z) :=
  whileBlocks 128 23 n decompress_sse4_c23_m1 (restOf 0x7F n (unpack_23 32)) dest encode.

Definition decompress_sse4_c24_m2 (segment : Z) (c24_load_vec_m128i : m128i) (presult : cursor) : res cursor :=
  let SSE4_c24_shfl_msk_m128i := _mm_set_epi8 [0xFF; segment + 11; segment + 10; segment + 9; 0xFF;
                                               segment + 8; segment + 7; segment + 6; 0xFF; segment + 5;
                                               segment + 4; segment + 3; 0xFF; segment + 2; segment + 1;
                                               segment] in
  let c24_rslt_m128i := _mm_shuffle_epi8 c24_load_vec_m128i SSE4_c24_shfl_msk_m128i in
  let! presult := _mm_storeu_si128 presult c24_rslt_m128i in
  let presult := advance presult 4 in
  Ok presult.

Definition decompress_sse4_c24_m1 (dest its_vector_m128i : list Z) : res (list Z) :=
  let presult := (dest, 0%nat) in
  let! c24_load_rslt1_m128i := _mm_loadu_si128 its_vector_m128i 0 in
  let! presult := decompress_sse4_c24_m2 0 c24_load_rslt1_m128i presult in
  let! c24_load_rslt2_m128i := _mm_loadu_si128 its_vector_m128i 1 in
  let c24_align_rslt1_m128i := _mm_alignr_epi8 c24_load_rslt2_m128i c24_load_rslt1_m128i 12 in
  let! presult := decompress_sse4_c24_m2 0 c24_align_rslt1_m128i presult in
  let! c24_load_rslt3_m128i := _mm_loadu_si128 its_vector_m128i 2 in
  let c24_align_rslt2_m128i := _mm_alignr_epi8 c24_load_rslt3_m128i c24_load_rslt2_m128i 8 in
  let! presult := decompress_sse4_c24_m2 0 c24_align_rslt2_m128i presult in
  let! presult := decompress_sse4_c24_m2 4 c24_load_rslt3_m128i presult in
  Ok (fst presult).

Definition decompress_sse4_c24 (dest encode : list Z) (n : Z) : res (list Z) :=
  whileBlocks 16 3 n decompress_sse4_c24_m1 (restOf 0xF n (unpack_24 32)) dest encode.

Definition SSE4_c25_and_msk1_m128i : m128i :=
  _mm_set_epi8 [0x0F; 0xFF; 0xFF; 0xF8; 0x07; 0xFF; 0xFF; 0xFC; 0x03; 0xFF; 0xFF; 0xFE; 0x01; 0xFF; 0xFF;
                0xFF].

Definition SSE4_c25_and_msk2_m128i : m128i :=
  _mm_set_epi8 [0xFF; 0xFF; 0xFF; 0x80; 0x7F; 0xFF; 0xFF; 0xC0; 0x3F; 0xFF; 0xFF; 0xE0; 0x1F; 0xFF; 0xFF;
                0xF0].

Definition SSE4_c25_mul_msk1_m128i : m128i :=
  _mm_set_epi32 [0x01; 0x02; 0x04; 0x08].

Definition SSE4_c25_mul_msk2_m128i : m128i :=
  _mm_set_epi32 [0x01; 0x02; 0x04; 0x08].

Definition decompress_sse4_c25_m2_s1 (segment : Z) (c25_load_vec_m128i : m128i) (presult : cursor) : res cursor :=
  let SSE4_c25_shfl_msk_m128i := _mm_set_epi8 [segment + 12; segment + 11; segment + 10; segment + 9;
                                               segment + 9; segment + 8; segment + 7; segment + 6;
                                               segment + 6; segment + 5; segment + 4; segment + 3;
                                               segment + 3; segment + 2; segment + 1; segment] in
  let c25_shfl_rslt_m128i := _mm_shuffle_epi8 c25_load_vec_m128i SSE4_c25_shfl_msk_m128i in
  let c25_and_rslt_m128i := _mm_and_si128 c25_shfl_rslt_m128i SSE4_c25_and_msk1_m128i in
  let c25_mul_rslt_m128i := _mm_mullo_epi32 c25_and_rslt_m128i SSE4_c25_mul_msk1_m128i in
  let c25_rslt_m128i := _mm_srli_epi32 c25_mul_rslt_m128i 3 in
  let! presult := _mm_storeu_si128 presult c25_rslt_m128i in
  let presult := advance presult 4 in
  Ok presult.

Definition decompress_sse4_c25_m2_s2 (segment : Z) (c25_load_vec_m128i : m128i) (presult : cursor) : res cursor :=
  let SSE4_c25_shfl_msk_m128i := _mm_set_epi8 [segment + 12; segment + 11; segment + 10; segment + 9;
                                               segment + 9; segment + 8; segment + 7; segment + 6;
                                               segment + 6; segment + 5; segment + 4; segment + 3;
                                               segment + 3; segment + 2; segment + 1; segment] in
  let c25_shfl_rslt_m128i := _mm_shuffle_epi8 c25_load_vec_m128i SSE4_c25_shfl_msk_m128i in
  let c25_and_rslt_m128i := _mm_and_si128 c25_shfl_rslt_m128i SSE4_c25_and_msk2_m128i in
  let c25_mul_rslt_m128i := _mm_mullo_epi32 c25_and_rslt_m128i SSE4_c25_mul_msk2_m128i in
  let c25_rslt_m128i := _mm_srli_epi32 c25_mul_rslt_m128i 7 in
  let! presult := _mm_storeu_si128 presult c25_rslt_m128i in
  let presult := advance presult 4 in
  Ok presult.

Definition decompress_sse4_c25_m1 (dest its_vector_m128i : list Z) : res (list Z) :=
  let presult := (dest, 0%nat) in
  let! c25_load_rslt1_m128i := _mm_loadu_si128 its_vector_m128i 0 in
  let! presult := decompress_sse4_c25_m2_s1 0 c25_load_rslt1_m128i presult in
  let! c25_load_rslt2_m128i := _mm_loadu_si128 its_vector_m128i 1 in
  let c25_align_rslt1_m128i := _mm_alignr_epi8 c25_load_rslt2_m128i c25_load_rslt1_m128i 12 in
  let! presult := decompress_sse4_c25_m2_s2 0 c25_align_rslt1_m128i presult in
  let! c25_load_rslt3_m128i := _mm_loadu_si128 its_vector_m128i 2 in
  let c25_align_rslt2_m128i := _mm_alignr_epi8 c25_load_rslt3_m128i c25_load_rslt2_m128i 9 in
  let! presult := decompress_sse4_c25_m2_s1 0 c25_align_rslt2_m128i presult in
  let! c25_load_rslt4_m128i := _mm_loadu_si128 its_vector_m128i 3 in
  let c25_align_rslt3_m128i := _mm_alignr_epi8 c25_load_rslt4_m128i c25_load_rslt3_m128i 5 in
  let! presult := decompress_sse4_c25_m2_s2 0 c25_align_rslt3_m128i presult in
  let! presult := decompress_sse4_c25_m2_s1 2 c25_load_rslt4_m128i presult in
  let! c25_load_rslt5_m128i := _mm_loadu_si128 its_vector_m128i 4 in
  let c25_align_rslt4_m128i := _mm_alignr_epi8 c25_load_rslt5_m128i c25_load_rslt4_m128i 14 in
  let! presult := decompress_sse4_c25_m2_s2 0 c25_align_rslt4_m128i presult in
  let! c25_load_rslt6_m128i := _mm_loadu_si128 its_vector_m128i 5 in
  let c25_align_rslt5_m128i := _mm_alignr_epi8 c25_load_rslt6_m128i c25_load_rslt5_m128i 11 in
  let! presult := decompress_sse4_c25_m2_s1 0 c25_align_rslt5_m128i presult in
  let! c25_load_rslt7_m128i := _mm_loadu_si128 its_vector_m128i 6 in
  let c25_align_rslt6_m128i := _mm_alignr_epi8 c25_load_rslt7_m128i c25_load_rslt6_m128i 7 in
  let! presult := decompress_sse4_c25_m2_s2 0 c25_align_rslt6_m128i presult in
  let! c25_load_rslt8_m128i := _mm_loadu_si128 its_vector_m128i 7 in
  let c25_align_rslt7_m128i := _mm_alignr_epi8 c25_load_rslt8_m128i c25_load_rslt7_m128i 4 in
  let! presult := decompress_sse4_c25_m2_s1 0 c25_align_rslt7_m128i presult in
  let! presult := decompress_sse4_c25_m2_s2 0 c25_load_rslt8_m128i presult in
  let! c25_load_rslt9_m128i := _mm_loadu_si128 its_vector_m128i 8 in
  let c25_align_rslt8_m128i := _mm_alignr_epi8 c25_load_rslt9_m128i c25_load_rslt8_m128i 13 in
  let! presult := decompress_sse4_c25_m2_s1 0 c25_align_rslt8_m128i presult in
  let! c25_load_rslt10_m128i := _mm_loadu_si128 its_vector_m128i 9 in
  let c25_align_rslt9_m128i := _mm_alignr_epi8 c25_load_rslt10_m128i c25_load_rslt9_m128i 9 in
  let! presult := decompress_sse4_c25_m2_s2 0 c25_align_rslt9_m128i presult in
  let! c25_load_rslt11_m128i := _mm_loadu_si128 its_vector_m128i 10 in
  let c25_align_rslt10_m128i := _mm_alignr_epi8 c25_load_rslt11_m128i c25_load_rslt10_m128i 6 in
  let! presult := decompress_sse4_c25_m2_s1 0 c25_align_rslt10_m128i presult in
  let! presult := decompress_sse4_c25_m2_s2 2 c25_load_rslt11_m128i presult in
  let! c25_load_rslt12_m128i := _mm_loadu_si128 its_vector_m128i 11 in
  let c25_align_rslt11_m128i := _mm_alignr_epi8 c25_load_rslt12_m128i c25_load_rslt11_m128i 15 in
  let! presult := decompress_sse4_c25_m2_s1 0 c25_align_rslt11_m128i presult in
  let! c25_load_rslt13_m128i := _mm_loadu_si128 its_vector_m128i 12 in
  let c25_align_rslt12_m128i := _mm_alignr_epi8 c25_load_rslt13_m128i c25_load_rslt12_m128i 11 in
  let! presult := decompress_sse4_c25_m2_s2 0 c25_align_rslt12_m128i presult in
  let! c25_load_rslt14_m128i := _mm_loadu_si128 its_vector_m128i 13 in
  let c25_align_rslt13_m128i := _mm_alignr_epi8 c25_load_rslt14_m128i c25_load_rslt13_m128i 8 in
  let! presult := decompress_sse4_c25_m2_s1 0 c25_align_rslt13_m128i presult in
  let! c25_load_rslt15_m128i := _mm_loadu_si128 its_vector_m128i 14 in
  let c25_align_rslt14_m128i := _mm_alignr_epi8 c25_load_rslt15_m128i c25_load_rslt14_m128i 4 in
  let! presult := decompress_sse4_c25_m2_s2 0 c25_align_rslt14_m128i presult in
  let! presult := decompress_sse4_c25_m2_s1 1 c25_load_rslt15_m128i presult in
  let! c25_load_rslt16_m128i := _mm_loadu_si128 its_vector_m128i 15 in
  let c25_align_rslt15_m128i := _mm_alignr_epi8 c25_load_rslt16_m128i c25_load_rslt15_m128i 13 in
  let! presult := decompress_sse4_c25_m2_s2 0 c25_align_rslt15_m128i presult in
  let! c25_load_rslt17_m128i := _mm_loadu_si128 its_vector_m128i 16 in
  let c25_align_rslt16_m128i := _mm_alignr_epi8 c25_load_rslt17_m128i c25_load_rslt16_m128i 10 in
  let! presult := decompress_sse4_c25_m2_s1 0 c25_align_rslt16_m128i presult in
  let! c25_load_rslt18_m128i := _mm_loadu_si128 its_vector_m128i 17 in
  let c25_align_rslt17_m128i := _mm_alignr_epi8 c25_load_rslt18_m128i c25_load_rslt17_m128i 6 in
  let! presult := decompress_sse4_c25_m2_s2 0 c25_align_rslt17_m128i presult in
  let! presult := decompress_sse4_c25_m2_s1 3 c25_load_rslt18_m128i presult in
  let! c25_load_rslt19_m128i := _mm_loadu_si128 its_vector_m128i 18 in
  let c25_align_rslt18_m128i := _mm_alignr_epi8 c25_load_rslt19_m128i c25_load_rslt18_m128i 15 in
  let! presult := decompress_sse4_c25_m2_s2 0 c25_align_rslt18_m128i presult in
  let! c25_load_rslt20_m128i := _mm_loadu_si128 its_vector_m128i 19 in
  let c25_align_rslt19_m128i := _mm_alignr_epi8 c25_load_rslt20_m128i c25_load_rslt19_m128i 12 in
  let! presult := decompress_sse4_c25_m2_s1 0 c25_align_rslt19_m128i presult in
  let! c25_load_rslt21_m128i := _mm_loadu_si128 its_vector_m128i 20 in
  let c25_align_rslt20_m128i := _mm_alignr_epi8 c25_load_rslt21_m128i c25_load_rslt20_m128i 8 in
  let! presult := decompress_sse4_c25_m2_s2 0 c25_align_rslt20_m128i presult in
  let! c25_load_rslt22_m128i := _mm_loadu_si128 its_vector_m128i 21 in
  let c25_align_rslt21_m128i := _mm_alignr_epi8 c25_load_rslt22_m128i c25_load_rslt21_m128i 5 in
  let! presult := decompress_sse4_c25_m2_s1 0 c25_align_rslt21_m128i presult in
  let! presult := decompress_sse4_c25_m2_s2 1 c25_load_rslt22_m128i presult in
  let! c25_load_rslt23_m128i := _mm_loadu_si128 its_vector_m128i 22 in
  let c25_align_rslt22_m128i := _mm_alignr_epi8 c25_load_rslt23_m128i c25_load_rslt22_m128i 14 in
  let! presult := decompress_sse4_c25_m2_s1 0 c25_align_rslt22_m128i presult in
  let! c25_load_rslt24_m128i := _mm_loadu_si128 its_vector_m128i 23 in
  let c25_align_rslt23_m128i := _mm_alignr_epi8 c25_load_rslt24_m128i c25_load_rslt23_m128i 10 in
  let! presult := decompress_sse4_c25_m2_s2 0 c25_align_rslt23_m128i presult in
  let! c25_load_rslt25_m128i := _mm_loadu_si128 its_vector_m128i 24 in
  let c25_align_rslt24_m128i := _mm_alignr_epi8 c25_load_rslt25_m128i c25_load_rslt24_m128i 7 in
  let! presult := decompress_sse4_c25_m2_s1 0 c25_align_rslt24_m128i presult in
  let! presult := decompress_sse4_c25_m2_s2 3 c25_load_rslt25_m128i presult in
  Ok (fst presult).

Definition decompress_sse4_c25 (dest encode : list Z) (n : Z) : res (list Z) :=
  whileBlocks 128 25 n decompress_sse4_c25_m1 (restOf 0x7F n (unpack_25 32)) dest encode.

Definition SSE4_c26_and_msk1_m128i : m128i :=
  _mm_set_epi8 [0xFF; 0xFF; 0xFF; 0xC0; 0x3F; 0xFF; 0xFF; 0xF0; 0x0F; 0xFF; 0xFF; 0xFC; 0x03; 0xFF; 0xFF;
                0xFF].

Definition SSE4_c26_mul_msk1_m128i : m128i :=
  _mm_set_epi32 [0x01; 0x04; 0x10; 0x40].

Definition decompress_sse4_c26_m2 (segment : Z) (c26_load_vec_m128i : m128i) (presult : cursor) : res cursor :=
  let SSE4_c26_shfl_msk_m128i := _mm_set_epi8 [segment + 12; segment + 11; segment + 10; segment + 9;
                                               segment + 9; segment + 8; segment + 7; segment + 6;
                                               segment + 6; segment + 5; segment + 4; segment + 3;
                                               segment + 3; segment + 2; segment + 1; segment] in
  let c26_shfl_rslt_m128i := _mm_shuffle_epi8 c26_load_vec_m128i SSE4_c26_shfl_msk_m128i in
  let c26_and_rslt_m128i := _mm_and_si128 c26_shfl_rslt_m128i SSE4_c26_and_msk1_m128i in
  let c26_mul_rslt_m128i := _mm_mullo_epi32 c26_and_rslt_m128i SSE4_c26_mul_msk1_m128i in
  let c26_rslt_m128i := _mm_srli_epi32 c26_mul_rslt_m128i 6 in
  let! presult := _mm_storeu_si128 presult c26_rslt_m128i in
  let presult := advance presult 4 in
  Ok presult.

Definition decompress_sse4_c26_m1 (dest its_vector_m128i : list Z) : res (list Z) :=
  let presult := (dest, 0%nat) in
  let! c26_load_rslt1_m128i := _mm_loadu_si128 its_vector_m128i 0 in
  let! presult := decompress_sse4_c26_m2 0 c26_load_rslt1_m128i presult in
  let! c26_load_rslt2_m128i := _mm_loadu_si128 its_vector_m128i 1 in
  let c26_align_rslt1_m128i := _mm_alignr_epi8 c26_load_rslt2_m128i c26_load_rslt1_m128i 13 in
  let! presult := decompress_sse4_c26_m2 0 c26_align_rslt1_m128i presult in
  let! c26_load_rslt3_m128i := _mm_loadu_si128 its_vector_m128i 2 in
  let c26_align_rslt2_m128i := _mm_alignr_epi8 c26_load_rslt3_m128i c26_load_rslt2_m128i 10 in
  let! presult := decompress_sse4_c26_m2 0 c26_align_rslt2_m128i presult in
  let! c26_load_rslt4_m128i := _mm_loadu_si128 its_vector_m128i 3 in
  let c26_align_rslt3_m128i := _mm_alignr_epi8 c26_load_rslt4_m128i c26_load_rslt3_m128i 7 in
  let! presult := decompress_sse4_c26_m2 0 c26_align_rslt3_m128i presult in
  let! c26_load_rslt5_m128i := _mm_loadu_si128 its_vector_m128i 4 in
  let c26_align_rslt4_m128i := _mm_alignr_epi8 c26_load_rslt5_m128i c26_load_rslt4_m128i 4 in
  let! presult := decompress_sse4_c26_m2 0 c26_align_rslt4_m128i presult in
  let! presult := decompress_sse4_c26_m2 1 c26_load_rslt5_m128i presult in
  let! c26_load_rslt6_m128i := _mm_loadu_si128 its_vector_m128i 5 in
  let c26_align_rslt5_m128i := _mm_alignr_epi8 c26_load_rslt6_m128i c26_load_rslt5_m128i 14 in
  let! presult := decompress_sse4_c26_m2 0 c26_align_rslt5_m128i presult in
  let! c26_load_rslt7_m128i := _mm_loadu_si128 its_vector_m128i 6 in
  let c26_align_rslt6_m128i := _mm_alignr_epi8 c26_load_rslt7_m128i c26_load_rslt6_m128i 11 in
  let! presult := decompress_sse4_c26_m2 0 c26_align_rslt6_m128i presult in
  let! c26_load_rslt8_m128i := _mm_loadu_si128 its_vector_m128i 7 in
  let c26_align_rslt7_m128i := _mm_alignr_epi8 c26_load_rslt8_m128i c26_load_rslt7_m128i 8 in
  let! presult := decompress_sse4_c26_m2 0 c26_align_rslt7_m128i presult in
  let! c26_load_rslt9_m128i := _mm_loadu_si128 its_vector_m128i 8 in
  let c26_align_rslt8_m128i := _mm_alignr_epi8 c26_load_rslt9_m128i c26_load_rslt8_m128i 5 in
  let! presult := decompress_sse4_c26_m2 0 c26_align_rslt8_m128i presult in
  let! presult := decompress_sse4_c26_m2 2 c26_load_rslt9_m128i presult in
  let! c26_load_rslt10_m128i := _mm_loadu_si128 its_vector_m128i 9 in
  let c26_align_rslt9_m128i := _mm_alignr_epi8 c26_load_rslt10_m128i c26_load_rslt9_m128i 15 in
  let! presult := decompress_sse4_c26_m2 0 c26_align_rslt9_m128i presult in
  let! c26_load_rslt11_m128i := _mm_loadu_si128 its_vector_m128i 10 in
  let c26_align_rslt10_m128i := _mm_alignr_epi8 c26_load_rslt11_m128i c26_load_rslt10_m128i 12 in
  let! presult := decompress_sse4_c26_m2 0 c26_align_rslt10_m128i presult in
  let! c26_load_rslt12_m128i := _mm_loadu_si128 its_vector_m128i 11 in
  let c26_align_rslt11_m128i := _mm_alignr_epi8 c26_load_rslt12_m128i c26_load_rslt11_m128i 9 in
  let! presult := decompress_sse4_c26_m2 0 c26_align_rslt11_m128i presult in
  let! c26_load_rslt13_m128i := _mm_loadu_si128 its_vector_m128i 12 in
  let c26_align_rslt12_m128i := _mm_alignr_epi8 c26_load_rslt13_m128i c26_load_rslt12_m128i 6 in
  let! presult := decompress_sse4_c26_m2 0 c26_align_rslt12_m128i presult in
  let! presult := decompress_sse4_c26_m2 3 c26_load_rslt13_m128i presult in
  Ok (fst presult).

Definition decompress_sse4_c26 (dest encode : list Z) (n : Z) : res (list Z) :=
  whileBlocks 64 13 n decompress_sse4_c26_m1 (restOf 0x3F n (unpack_26 32)) dest encode.

Definition SSE4_c27_and_msk1_m128i : m128i :=
  _mm_set_epi8 [0x0F; 0xFF; 0xFF; 0xFE; 0x07; 0xFF; 0xFF; 0xFF; 0x3F; 0xFF; 0xFF; 0xF8; 0x07; 0xFF; 0xFF;
                0xFF].

Definition SSE4_c27_and_msk2_m128i : m128i :=
  _mm_set_epi8 [0xFF; 0xFF; 0xFF; 0xE0; 0x1F; 0xFF; 0xFF; 0xFC; 0x07; 0xFF; 0xFF; 0xFF; 0x7F; 0xFF; 0xFF;
                0xF0].

Definition SSE4_c27_mul_msk1_m128i : m128i :=
  _mm_set_epi32 [0x04; 0x08; 0x01; 0x08].

Definition SSE4_c27_mul_msk2_m128i : m128i :=
  _mm_set_epi32 [0x01; 0x08; 0x20; 0x02].

Definition decompress_sse4_c27_m2_s1 (segment : Z) (c27_load_vec_m128i : m128i) (presult : cursor) : res cursor :=
  let SSE4_c27_shfl_msk_m128i := _mm_set_epi8 [segment + 13; segment + 12; segment + 11; segment + 10;
                                               segment + 9; segment + 8; segment + 7; segment + 6;
                                               segment + 6; segment + 5; segment + 4; segment + 3;
                                               segment + 3; segment + 2; segment + 1; segment] in
  let c27_shfl_rslt_m128i := _mm_shuffle_epi8 c27_load_vec_m128i SSE4_c27_shfl_msk_m128i in
  let c27_shift_rslt_m128i := _mm_srli_epi64 c27_shfl_rslt_m128i 6 in
  let c27_blend_rslt_m128i := _mm_blend_epi16 c27_shfl_rslt_m128i c27_shift_rslt_m128i 0x30 in
  let c27_and_rslt_m128i := _mm_and_si128 c27_blend_rslt_m128i SSE4_c27_and_msk1_m128i in
  let c27_mul_rslt_m128i := _mm_mullo_epi32 c27_and_rslt_m128i SSE4_c27_mul_msk1_m128i in
  let c27_rslt_m128i := _mm_srli_epi32 c27_mul_rslt_m128i 3 in
  let! presult := _mm_storeu_si128 presult c27_rslt_m128i in
  let presult := advance presult 4 in
  Ok presult.

Definition decompress_sse4_c27_m2_s2 (segment : Z) (c27_load_vec_m128i : m128i) (presult : cursor) : res cursor :=
  let SSE4_c27_shfl_msk_m128i := _mm_set_epi8 [segment + 13; segment + 12; segment + 11; segment + 10;
                                               segment + 10; segment + 9; segment + 8; segment + 7;
                                               segment + 7; segment + 6; segment + 5; segment + 4;
                                               segment + 3; segment + 2; segment + 1; segment] in
  let c27_shfl_rslt_m128i := _mm_shuffle_epi8 c27_load_vec_m128i SSE4_c27_shfl_msk_m128i in
  let c27_shift_rslt_m128i := _mm_slli_epi64 c27_shfl_rslt_m128i 1 in
  let c27_blend_rslt_m128i := _mm_blend_epi16 c27_shfl_rslt_m128i c27_shift_rslt_m128i 0x0C in
  let c27_and_rslt_m128i := _mm_and_si128 c27_blend_rslt_m128i SSE4_c27_and_msk2_m128i in
  let c27_mul_rslt_m128i := _mm_mullo_epi32 c27_and_rslt_m128i SSE4_c27_mul_msk2_m128i in
  let c27_rslt_m128i := _mm_srli_epi32 c27_mul_rslt_m128i 5 in
  let! presult := _mm_storeu_si128 presult c27_rslt_m128i in
  let presult := advance presult 4 in
  Ok presult.

Definition decompress_sse4_c27_m1 (dest its_vector_m128i : list Z) : res (list Z) :=
  let presult := (dest, 0%nat) in
  let! c27_load_rslt1_m128i := _mm_loadu_si128 its_vector_m128i 0 in
  let! presult := decompress_sse4_c27_m2_s1 0 c27_load_rslt1_m128i presult in
  let! c27_load_rslt2_m128i := _mm_loadu_si128 its_vector_m128i 1 in
  let c27_align_rslt1_m128i := _mm_alignr_epi8 c27_load_rslt2_m128i c27_load_rslt1_m128i 13 in
  let! presult := decompress_sse4_c27_m2_s2 0 c27_align_rslt1_m128i presult in
  let! c27_load_rslt3_m128i := _mm_loadu_si128 its_vector_m128i 2 in
  let c27_align_rslt2_m128i := _mm_alignr_epi8 c27_load_rslt3_m128i c27_load_rslt2_m128i 11 in
  let! presult := decompress_sse4_c27_m2_s1 0 c27_align_rslt2_m128i presult in
  let! c27_load_rslt4_m128i := _mm_loadu_si128 its_vector_m128i 3 in
  let c27_align_rslt3_m128i := _mm_alignr_epi8 c27_load_rslt4_m128i c27_load_rslt3_m128i 8 in
  let! presult := decompress_sse4_c27_m2_s2 0 c27_align_rslt3_m128i presult in
  let! c27_load_rslt5_m128i := _mm_loadu_si128 its_vector_m128i 4 in
  let c27_align_rslt4_m128i := _mm_alignr_epi8 c27_load_rslt5_m128i c27_load_rslt4_m128i 6 in
  let! presult := decompress_sse4_c27_m2_s1 0 c27_align_rslt4_m128i presult in
  let! c27_load_rslt6_m128i := _mm_loadu_si128 its_vector_m128i 5 in
  let c27_align_rslt5_m128i := _mm_alignr_epi8 c27_load_rslt6_m128i c27_load_rslt5_m128i 3 in
  let! presult := decompress_sse4_c27_m2_s2 0 c27_align_rslt5_m128i presult in
  let! presult := decompress_sse4_c27_m2_s1 1 c27_load_rslt6_m128i presult in
  let! c27_load_rslt7_m128i := _mm_loadu_si128 its_vector_m128i 6 in
  let c27_align_rslt6_m128i := _mm_alignr_epi8 c27_load_rslt7_m128i c27_load_rslt6_m128i 14 in
  let! presult := decompress_sse4_c27_m2_s2 0 c27_align_rslt6_m128i presult in
  let! c27_load_rslt8_m128i := _mm_loadu_si128 its_vector_m128i 7 in
  let c27_align_rslt7_m128i := _mm_alignr_epi8 c27_load_rslt8_m128i c27_load_rslt7_m128i 12 in
  let! presult := decompress_sse4_c27_m2_s1 0 c27_align_rslt7_m128i presult in
  let! c27_load_rslt9_m128i := _mm_loadu_si128 its_vector_m128i 8 in
  let c27_align_rslt8_m128i := _mm_alignr_epi8 c27_load_rslt9_m128i c27_load_rslt8_m128i 9 in
  let! presult := decompress_sse4_c27_m2_s2 0 c27_align_rslt8_m128i presult in
  let! c27_load_rslt10_m128i := _mm_loadu_si128 its_vector_m128i 9 in
  let c27_align_rslt9_m128i := _mm_alignr_epi8 c27_load_rslt10_m128i c27_load_rslt9_m128i 7 in
  let! presult := decompress_sse4_c27_m2_s1 0 c27_align_rslt9_m128i presult in
  let! c27_load_rslt11_m128i := _mm_loadu_si128 its_vector_m128i 10 in
  let c27_align_rslt10_m128i := _mm_alignr_epi8 c27_load_rslt11_m128i c27_load_rslt10_m128i 4 in
  let! presult := decompress_sse4_c27_m2_s2 0 c27_align_rslt10_m128i presult in
  let! presult := decompress_sse4_c27_m2_s1 2 c27_load_rslt11_m128i presult in
  let! c27_load_rslt12_m128i := _mm_loadu_si128 its_vector_m128i 11 in
  let c27_align_rslt11_m128i := _mm_alignr_epi8 c27_load_rslt12_m128i c27_load_rslt11_m128i 15 in
  let! presult := decompress_sse4_c27_m2_s2 0 c27_align_rslt11_m128i presult in
  let! c27_load_rslt13_m128i := _mm_loadu_si128 its_vector_m128i 12 in
  let c27_align_rslt12_m128i := _mm_alignr_epi8 c27_load_rslt13_m128i c27_load_rslt12_m128i 13 in
  let! presult := decompress_sse4_c27_m2_s1 0 c27_align_rslt12_m128i presult in
  let! c27_load_rslt14_m128i := _mm_loadu_si128 its_vector_m128i 13 in
  let c27_align_rslt13_m128i := _mm_alignr_epi8 c27_load_rslt14_m128i c27_load_rslt13_m128i 10 in
  let! presult := decompress_sse4_c27_m2_s2 0 c27_align_rslt13_m128i presult in
  let! c27_load_rslt15_m128i := _mm_loadu_si128 its_vector_m128i 14 in
  let c27_align_rslt14_m128i := _mm_alignr_epi8 c27_load_rslt15_m128i c27_load_rslt14_m128i 8 in
  let! presult := decompress_sse4_c27_m2_s1 0 c27_align_rslt14_m128i presult in
  let! c27_load_rslt16_m128i := _mm_loadu_si128 its_vector_m128i 15 in
  let c27_align_rslt15_m128i := _mm_alignr_epi8 c27_load_rslt16_m128i c27_load_rslt15_m128i 5 in
  let! presult := decompress_sse4_c27_m2_s2 0 c27_align_rslt15_m128i presult in
  let! c27_load_rslt17_m128i := _mm_loadu_si128 its_vector_m128i 16 in
  let c27_align_rslt16_m128i := _mm_alignr_epi8 c27_load_rslt17_m128i c27_load_rslt16_m128i 3 in
  let! presult := decompress_sse4_c27_m2_s1 0 c27_align_rslt16_m128i presult in
  let! presult := decompress_sse4_c27_m2_s2 0 c27_load_rslt17_m128i presult in
  let! c27_load_rslt18_m128i := _mm_loadu_si128 its_vector_m128i 17 in
  let c27_align_rslt17_m128i := _mm_alignr_epi8 c27_load_rslt18_m128i c27_load_rslt17_m128i 14 in
  let! presult := decompress_sse4_c27_m2_s1 0 c27_align_rslt17_m128i presult in
  let! c27_load_rslt19_m128i := _mm_loadu_si128 its_vector_m128i 18 in
  let c27_align_rslt18_m128i := _mm_alignr_epi8 c27_load_rslt19_m128i c27_load_rslt18_m128i 11 in
  let! presult := decompress_sse4_c27_m2_s2 0 c27_align_rslt18_m128i presult in
  let! c27_load_rslt20_m128i := _mm_loadu_si128 its_vector_m128i 19 in
  let c27_align_rslt19_m128i := _mm_alignr_epi8 c27_load_rslt20_m128i c27_load_rslt19_m128i 9 in
  let! presult := decompress_sse4_c27_m2_s1 0 c27_align_rslt19_m128i presult in
  let! c27_load_rslt21_m128i := _mm_loadu_si128 its_vector_m128i 20 in
  let c27_align_rslt20_m128i := _mm_alignr_epi8 c27_load_rslt21_m128i c27_load_rslt20_m128i 6 in
  let! presult := decompress_sse4_c27_m2_s2 0 c27_align_rslt20_m128i presult in
  let! c27_load_rslt22_m128i := _mm_loadu_si128 its_vector_m128i 21 in
  let c27_align_rslt21_m128i := _mm_alignr_epi8 c27_load_rslt22_m128i c27_load_rslt21_m128i 4 in
  let! presult := decompress_sse4_c27_m2_s1 0 c27_align_rslt21_m128i presult in
  let! presult := decompress_sse4_c27_m2_s2 1 c27_load_rslt22_m128i presult in
  let! c27_load_rslt23_m128i := _mm_loadu_si128 its_vector_m128i 22 in
  let c27_align_rslt22_m128i := _mm_alignr_epi8 c27_load_rslt23_m128i c27_load_rslt22_m128i 15 in
  let! presult := decompress_sse4_c27_m2_s1 0 c27_align_rslt22_m128i presult in
  let! c27_load_rslt24_m128i := _mm_loadu_si128 its_vector_m128i 23 in
  let c27_align_rslt23_m128i := _mm_alignr_epi8 c27_load_rslt24_m128i c27_load_rslt23_m128i 12 in
  let! presult := decompress_sse4_c27_m2_s2 0 c27_align_rslt23_m128i presult in
  let! c27_load_rslt25_m128i := _mm_loadu_si128 its_vector_m128i 24 in
  let c27_align_rslt24_m128i := _mm_alignr_epi8 c27_load_rslt25_m128i c27_load_rslt24_m128i 10 in
  let! presult := decompress_sse4_c27_m2_s1 0 c27_align_rslt24_m128i presult in
  let! c27_load_rslt26_m128i := _mm_loadu_si128 its_vector_m128i 25 in
  let c27_align_rslt25_m128i := _mm_alignr_epi8 c27_load_rslt26_m128i c27_load_rslt25_m128i 7 in
  let! presult := decompress_sse4_c27_m2_s2 0 c27_align_rslt25_m128i presult in
  let! c27_load_rslt27_m128i := _mm_loadu_si128 its_vector_m128i 26 in
  let c27_align_rslt26_m128i := _mm_alignr_epi8 c27_load_rslt27_m128i c27_load_rslt26_m128i 5 in
  let! presult := decompress_sse4_c27_m2_s1 0 c27_align_rslt26_m128i presult in
  let! presult := decompress_sse4_c27_m2_s2 2 c27_load_rslt27_m128i presult in
  Ok (fst presult).

Definition decompress_sse4_c27 (dest encode : list Z) (n : Z) : res (list Z) :=
  whileBlocks 128 27 n decompress_sse4_c27_m1 (restOf 0x7F n (unpack_27 32)) dest encode.

Definition SSE4_c28_and_msk1_m128i : m128i :=
  _mm_set_epi8 [0xFF; 0xFF; 0xFF; 0xF0; 0x0F; 0xFF; 0xFF; 0xFF; 0xFF; 0xFF; 0xFF; 0xF0; 0x0F; 0xFF; 0xFF;
                0xFF].

Definition SSE4_c28_mul_msk1_m128i : m128i :=
  _mm_set_epi32 [0x01; 0x10; 0x01; 0x10].

Definition decompress_sse4_c28_m2 (segment : Z) (c28_load_vec_m128i : m128i) (presult : cursor) : res cursor :=
  let SSE4_c28_shfl_msk_m128i := _mm_set_epi8 [segment + 13; segment + 12; segment + 11; segment + 10;
                                               segment + 10; segment + 9; segment + 8; segment + 7;
                                               segment + 6; segment + 5; segment + 4; segment + 3;
                                               segment + 3; segment + 2; segment + 1; segment] in
  let c28_shfl_rslt_m128i := _mm_shuffle_epi8 c28_load_vec_m128i SSE4_c28_shfl_msk_m128i in
  let c28_and_rslt_m128i := _mm_and_si128 c28_shfl_rslt_m128i SSE4_c28_and_msk1_m128i in
  let c28_mul_rslt_m128i := _mm_mullo_epi32 c28_and_rslt_m128i SSE4_c28_mul_msk1_m128i in
  let c28_rslt_m128i := _mm_srli_epi32 c28_mul_rslt_m128i 4 in
  let! presult := _mm_storeu_si128 presult c28_rslt_m128i in
  let presult := advance presult 4 in
  Ok presult.

Definition decompress_sse4_c28_m1 (dest its_vector_m128i : list Z) : res (list Z) :=
  let presult := (dest, 0%nat) in
  let! c28_load_rslt1_m128i := _mm_loadu_si128 its_vector_m128i 0 in
  let! presult := decompress_sse4_c28_m2 0 c28_load_rslt1_m128i presult in
  let! c28_load_rslt2_m128i := _mm_loadu_si128 its_vector_m128i 1 in
  let c28_align_rslt1_m128i := _mm_alignr_epi8 c28_load_rslt2_m128i c28_load_rslt1_m128i 14 in
  let! presult := decompress_sse4_c28_m2 0 c28_align_rslt1_m128i presult in
  let! c28_load_rslt3_m128i := _mm_loadu_si128 its_vector_m128i 2 in
  let c28_align_rslt2_m128i := _mm_alignr_epi8 c28_load_rslt3_m128i c28_load_rslt2_m128i 12 in
  let! presult := decompress_sse4_c28_m2 0 c28_align_rslt2_m128i presult in
  let! c28_load_rslt4_m128i := _mm_loadu_si128 its_vector_m128i 3 in
  let c28_align_rslt3_m128i := _mm_alignr_epi8 c28_load_rslt4_m128i c28_load_rslt3_m128i 10 in
  let! presult := decompress_sse4_c28_m2 0 c28_align_rslt3_m128i presult in
  let! c28_load_rslt5_m128i := _mm_loadu_si128 its_vector_m128i 4 in
  let c28_align_rslt4_m128i := _mm_alignr_epi8 c28_load_rslt5_m128i c28_load_rslt4_m128i 8 in
  let! presult := decompress_sse4_c28_m2 0 c28_align_rslt4_m128i presult in
  let! c28_load_rslt6_m128i := _mm_loadu_si128 its_vector_m128i 5 in
  let c28_align_rslt5_m128i := _mm_alignr_epi8 c28_load_rslt6_m128i c28_load_rslt5_m128i 6 in
  let! presult := decompress_sse4_c28_m2 0 c28_align_rslt5_m128i presult in
  let! c28_load_rslt7_m128i := _mm_loadu_si128 its_vector_m128i 6 in
  let c28_align_rslt6_m128i := _mm_alignr_epi8 c28_load_rslt7_m128i c28_load_rslt6_m128i 4 in
  let! presult := decompress_sse4_c28_m2 0 c28_align_rslt6_m128i presult in
  let! presult := decompress_sse4_c28_m2 2 c28_load_rslt7_m128i presult in
  Ok (fst presult).

Definition decompress_sse4_c28 (dest encode : list Z) (n : Z) : res (list Z) :=
  whileBlocks 32 7 n decompress_sse4_c28_m1 (restOf 0x1F n (unpack_28 32)) dest encode.

Definition SSE4_c29_and_msk1_m128i : m128i :=
  _mm_set_epi8 [0xFF; 0xFF; 0xFF; 0xF8; 0x7F; 0xFF; 0xFF; 0xFC; 0x3F; 0xFF; 0xFF; 0xFF; 0x1F; 0xFF; 0xFF;
                0xFF].

Definition SSE4_c29_and_msk2_m128i : m128i :=
  _mm_set_epi8 [0xFF; 0xFF; 0xFF; 0xF8; 0x7F; 0xFF; 0xFF; 0xFC; 0x3F; 0xFF; 0xFF; 0xFE; 0x1F; 0xFF; 0xFF;
                0xFF].

Definition SSE4_c29_mul_msk1_m128i : m128i :=
  _mm_set_epi32 [0x01; 0x02; 0x04; 0x08].

Definition SSE4_c29_mul_msk2_m128i : m128i :=
  _mm_set_epi32 [0x01; 0x02; 0x04; 0x08].

Definition decompress_sse4_c29_m2_s1 (segment : Z) (c29_load_vec_m128i : m128i) (presult : cursor) : res cursor :=
  let SSE4_c29_shfl_msk_m128i := _mm_set_epi8 [segment + 14; segment + 13; segment + 12; segment + 11;
                                               segment + 10; segment + 9; segment + 8; segment + 7;
                                               segment + 7; segment + 6; segment + 5; segment + 4;
                                               segment + 3; segment + 2; segment + 1; segment] in
  let c29_shfl_rslt_m128i := _mm_shuffle_epi8 c29_load_vec_m128i SSE4_c29_shfl_msk_m128i in
  let c29_shift_rslt_m128i := _mm_slli_epi64 c29_shfl_rslt_m128i 4 in
  let c29_blend_rslt_m128i := _mm_blend_epi16 c29_shfl_rslt_m128i c29_shift_rslt_m128i 0xCC in
  let c29_and_rslt_m128i := _mm_and_si128 c29_blend_rslt_m128i SSE4_c29_and_msk1_m128i in
  let c29_mul_rslt_m128i := _mm_mullo_epi32 c29_and_rslt_m128i SSE4_c29_mul_msk1_m128i in
  let c29_rslt_m128i := _mm_srli_epi32 c29_mul_rslt_m128i 3 in
  let! presult := _mm_storeu_si128 presult c29_rslt_m128i in
  let presult := advance presult 4 in
  Ok presult.

Definition decompress_sse4_c29_m2_s2 (segment : Z) (c29_load_vec_m128i : m128i) (presult : cursor) : res cursor :=
  let SSE4_c29_shfl_msk_m128i := _mm_set_epi8 [segment + 14; segment + 13; segment + 12; segment + 11;
                                               segment + 10; segment + 9; segment + 8; segment + 7;
                                               segment + 7; segment + 6; segment + 5; segment + 4;
                                               segment + 3; segment + 2; segment + 1; segment] in
  let c29_shfl_rslt_m128i := _mm_shuffle_epi8 c29_load_vec_m128i SSE4_c29_shfl_msk_m128i in
  let c29_shift_rslt_m128i := _mm_srli_epi64 c29_shfl_rslt_m128i 4 in
  let c29_blend_rslt_m128i := _mm_blend_epi16 c29_shfl_rslt_m128i c29_shift_rslt_m128i 0x33 in
  let c29_and_rslt_m128i := _mm_and_si128 c29_blend_rslt_m128i SSE4_c29_and_msk2_m128i in
  let c29_mul_rslt_m128i := _mm_mullo_epi32 c29_and_rslt_m128i SSE4_c29_mul_msk2_m128i in
  let c29_rslt_m128i := _mm_srli_epi32 c29_mul_rslt_m128i 3 in
  let! presult := _mm_storeu_si128 presult c29_rslt_m128i in
  let presult := advance presult 4 in
  Ok presult.

Definition decompress_sse4_c29_m1 (dest its_vector_m128i : list Z) : res (list Z) :=
  let presult := (dest, 0%nat) in
  let! c29_load_rslt1_m128i := _mm_loadu_si128 its_vector_m128i 0 in
  let! presult := decompress_sse4_c29_m2_s1 0 c29_load_rslt1_m128i presult in
  let! c29_load_rslt2_m128i := _mm_loadu_si128 its_vector_m128i 1 in
  let c29_align_rslt1_m128i := _mm_alignr_epi8 c29_load_rslt2_m128i c29_load_rslt1_m128i 14 in
  let! presult := decompress_sse4_c29_m2_s2 0 c29_align_rslt1_m128i presult in
  let! c29_load_rslt3_m128i := _mm_loadu_si128 its_vector_m128i 2 in
  let c29_align_rslt2_m128i := _mm_alignr_epi8 c29_load_rslt3_m128i c29_load_rslt2_m128i 13 in
  let! presult := decompress_sse4_c29_m2_s1 0 c29_align_rslt2_m128i presult in
  let! c29_load_rslt4_m128i := _mm_loadu_si128 its_vector_m128i 3 in
  let c29_align_rslt3_m128i := _mm_alignr_epi8 c29_load_rslt4_m128i c29_load_rslt3_m128i 11 in
  let! presult := decompress_sse4_c29_m2_s2 0 c29_align_rslt3_m128i presult in
  let! c29_load_rslt5_m128i := _mm_loadu_si128 its_vector_m128i 4 in
  let c29_align_rslt4_m128i := _mm_alignr_epi8 c29_load_rslt5_m128i c29_load_rslt4_m128i 10 in
  let! presult := decompress_sse4_c29_m2_s1 0 c29_align_rslt4_m128i presult in
  let! c29_load_rslt6_m128i := _mm_loadu_si128 its_vector_m128i 5 in
  let c29_align_rslt5_m128i := _mm_alignr_epi8 c29_load_rslt6_m128i c29_load_rslt5_m128i 8 in
  let! presult := decompress_sse4_c29_m2_s2 0 c29_align_rslt5_m128i presult in
  let! c29_load_rslt7_m128i := _mm_loadu_si128 its_vector_m128i 6 in
  let c29_align_rslt6_m128i := _mm_alignr_epi8 c29_load_rslt7_m128i c29_load_rslt6_m128i 7 in
  let! presult := decompress_sse4_c29_m2_s1 0 c29_align_rslt6_m128i presult in
  let! c29_load_rslt8_m128i := _mm_loadu_si128 its_vector_m128i 7 in
  let c29_align_rslt7_m128i := _mm_alignr_epi8 c29_load_rslt8_m128i c29_load_rslt7_m128i 5 in
  let! presult := decompress_sse4_c29_m2_s2 0 c29_align_rslt7_m128i presult in
  let! c29_load_rslt9_m128i := _mm_loadu_si128 its_vector_m128i 8 in
  let c29_align_rslt8_m128i := _mm_alignr_epi8 c29_load_rslt9_m128i c29_load_rslt8_m128i 4 in
  let! presult := decompress_sse4_c29_m2_s1 0 c29_align_rslt8_m128i presult in
  let! c29_load_rslt10_m128i := _mm_loadu_si128 its_vector_m128i 9 in
  let c29_align_rslt9_m128i := _mm_alignr_epi8 c29_load_rslt10_m128i c29_load_rslt9_m128i 2 in
  let! presult := decompress_sse4_c29_m2_s2 0 c29_align_rslt9_m128i presult in
  let! presult := decompress_sse4_c29_m2_s1 1 c29_load_rslt10_m128i presult in
  let! c29_load_rslt11_m128i := _mm_loadu_si128 its_vector_m128i 10 in
  let c29_align_rslt10_m128i := _mm_alignr_epi8 c29_load_rslt11_m128i c29_load_rslt10_m128i 15 in
  let! presult := decompress_sse4_c29_m2_s2 0 c29_align_rslt10_m128i presult in
  let! c29_load_rslt12_m128i := _mm_loadu_si128 its_vector_m128i 11 in
  let c29_align_rslt11_m128i := _mm_alignr_epi8 c29_load_rslt12_m128i c29_load_rslt11_m128i 14 in
  let! presult := decompress_sse4_c29_m2_s1 0 c29_align_rslt11_m128i presult in
  let! c29_load_rslt13_m128i := _mm_loadu_si128 its_vector_m128i 12 in
  let c29_align_rslt12_m128i := _mm_alignr_epi8 c29_load_rslt13_m128i c29_load_rslt12_m128i 12 in
  let! presult := decompress_sse4_c29_m2_s2 0 c29_align_rslt12_m128i presult in
  let! c29_load_rslt14_m128i := _mm_loadu_si128 its_vector_m128i 13 in
  let c29_align_rslt13_m128i := _mm_alignr_epi8 c29_load_rslt14_m128i c29_load_rslt13_m128i 11 in
  let! presult := decompress_sse4_c29_m2_s1 0 c29_align_rslt13_m128i presult in
  let! c29_load_rslt15_m128i := _mm_loadu_si128 its_vector_m128i 14 in
  let c29_align_rslt14_m128i := _mm_alignr_epi8 c29_load_rslt15_m128i c29_load_rslt14_m128i 9 in
  let! presult := decompress_sse4_c29_m2_s2 0 c29_align_rslt14_m128i presult in
  let! c29_load_rslt16_m128i := _mm_loadu_si128 its_vector_m128i 15 in
  let c29_align_rslt15_m128i := _mm_alignr_epi8 c29_load_rslt16_m128i c29_load_rslt15_m128i 8 in
  let! presult := decompress_sse4_c29_m2_s1 0 c29_align_rslt15_m128i presult in
  let! c29_load_rslt17_m128i := _mm_loadu_si128 its_vector_m128i 16 in
  let c29_align_rslt16_m128i := _mm_alignr_epi8 c29_load_rslt17_m128i c29_load_rslt16_m128i 6 in
  let! presult := decompress_sse4_c29_m2_s2 0 c29_align_rslt16_m128i presult in
  let! c29_load_rslt18_m128i := _mm_loadu_si128 its_vector_m128i 17 in
  let c29_align_rslt17_m128i := _mm_alignr_epi8 c29_load_rslt18_m128i c29_load_rslt17_m128i 5 in
  let! presult := decompress_sse4_c29_m2_s1 0 c29_align_rslt17_m128i presult in
  let! c29_load_rslt19_m128i := _mm_loadu_si128 its_vector_m128i 18 in
  let c29_align_rslt18_m128i := _mm_alignr_epi8 c29_load_rslt19_m128i c29_load_rslt18_m128i 3 in
  let! presult := decompress_sse4_c29_m2_s2 0 c29_align_rslt18_m128i presult in
  let! c29_load_rslt20_m128i := _mm_loadu_si128 its_vector_m128i 19 in
  let c29_align_rslt19_m128i := _mm_alignr_epi8 c29_load_rslt20_m128i c29_load_rslt19_m128i 2 in
  let! presult := decompress_sse4_c29_m2_s1 0 c29_align_rslt19_m128i presult in
  let! presult := decompress_sse4_c29_m2_s2 0 c29_load_rslt20_m128i presult in
  let! c29_load_rslt21_m128i := _mm_loadu_si128 its_vector_m128i 20 in
  let c29_align_rslt20_m128i := _mm_alignr_epi8 c29_load_rslt21_m128i c29_load_rslt20_m128i 15 in
  let! presult := decompress_sse4_c29_m2_s1 0 c29_align_rslt20_m128i presult in
  let! c29_load_rslt22_m128i := _mm_loadu_si128 its_vector_m128i 21 in
  let c29_align_rslt21_m128i := _mm_alignr_epi8 c29_load_rslt22_m128i c29_load_rslt21_m128i 13 in
  let! presult := decompress_sse4_c29_m2_s2 0 c29_align_rslt21_m128i presult in
  let! c29_load_rslt23_m128i := _mm_loadu_si128 its_vector_m128i 22 in
  let c29_align_rslt22_m128i := _mm_alignr_epi8 c29_load_rslt23_m128i c29_load_rslt22_m128i 12 in
  let! presult := decompress_sse4_c29_m2_s1 0 c29_align_rslt22_m128i presult in
  let! c29_load_rslt24_m128i := _mm_loadu_si128 its_vector_m128i 23 in
  let c29_align_rslt23_m128i := _mm_alignr_epi8 c29_load_rslt24_m128i c29_load_rslt23_m128i 10 in
  let! presult := decompress_sse4_c29_m2_s2 0 c29_align_rslt23_m128i presult in
  let! c29_load_rslt25_m128i := _mm_loadu_si128 its_vector_m128i 24 in
  let c29_align_rslt24_m128i := _mm_alignr_epi8 c29_load_rslt25_m128i c29_load_rslt24_m128i 9 in
  let! presult := decompress_sse4_c29_m2_s1 0 c29_align_rslt24_m128i presult in
  let! c29_load_rslt26_m128i := _mm_loadu_si128 its_vector_m128i 25 in
  let c29_align_rslt25_m128i := _mm_alignr_epi8 c29_load_rslt26_m128i c29_load_rslt25_m128i 7 in
  let! presult := decompress_sse4_c29_m2_s2 0 c29_align_rslt25_m128i presult in
  let! c29_load_rslt27_m128i := _mm_loadu_si128 its_vector_m128i 26 in
  let c29_align_rslt26_m128i := _mm_alignr_epi8 c29_load_rslt27_m128i c29_load_rslt26_m128i 6 in
  let! presult := decompress_sse4_c29_m2_s1 0 c29_align_rslt26_m128i presult in
  let! c29_load_rslt28_m128i := _mm_loadu_si128 its_vector_m128i 27 in
  let c29_align_rslt27_m128i := _mm_alignr_epi8 c29_load_rslt28_m128i c29_load_rslt27_m128i 4 in
  let! presult := decompress_sse4_c29_m2_s2 0 c29_align_rslt27_m128i presult in
  let! c29_load_rslt29_m128i := _mm_loadu_si128 its_vector_m128i 28 in
  let c29_align_rslt28_m128i := _mm_alignr_epi8 c29_load_rslt29_m128i c29_load_rslt28_m128i 3 in
  let! presult := decompress_sse4_c29_m2_s1 0 c29_align_rslt28_m128i presult in
  let! presult := decompress_sse4_c29_m2_s2 1 c29_load_rslt29_m128i presult in
  Ok (fst presult).

Definition decompress_sse4_c29 (dest encode : list Z) (n : Z) : res (list Z) :=
  whileBlocks 128 29 n decompress_sse4_c29_m1 (restOf 0x7F n (unpack_29 32)) dest encode.

Definition SSE4_c30_and_msk1_m128i : m128i :=
  _mm_set_epi8 [0xFF; 0xFF; 0xFF; 0xFC; 0x3F; 0xFF; 0xFF; 0xFF; 0x3F; 0xFF; 0xFF; 0xFF; 0x3F; 0xFF; 0xFF;
                0xFF].

Definition SSE4_c30_mul_msk1_m128i : m128i :=
  _mm_set_epi32 [0x01; 0x04; 0x04; 0x04].

Definition decompress_sse4_c30_m2 (segment : Z) (c30_load_vec_m128i : m128i) (presult : cursor) : res cursor :=
  let SSE4_c30_shfl_msk_m128i := _mm_set_epi8 [segment + 14; segment + 13; segment + 12; segment + 11;
                                               segment + 10; segment + 9; segment + 8; segment + 7;
                                               segment + 7; segment + 6; segment + 5; segment + 4;
                                               segment + 3; segment + 2; segment + 1; segment] in
  let c30_shfl_rslt_m128i := _mm_shuffle_epi8 c30_load_vec_m128i SSE4_c30_shfl_msk_m128i in
  let c30_shift_rslt_t1_m128i := _mm_slli_epi64 c30_shfl_rslt_m128i 2 in
  let c30_shift_rslt_t2_m128i := _mm_srli_epi64 c30_shfl_rslt_m128i 4 in
  let c30_blend_rslt1_m128i := _mm_blend_epi16 c30_shfl_rslt_m128i c30_shift_rslt_t1_m128i 0x0C in
  let c30_blend_rslt2_m128i := _mm_blend_epi16 c30_blend_rslt1_m128i c30_shift_rslt_t2_m128i 0x30 in
  let c30_and_rslt_m128i := _mm_and_si128 c30_blend_rslt2_m128i SSE4_c30_and_msk1_m128i in
  let c30_mul_rslt_m128i := _mm_mullo_epi32 c30_and_rslt_m128i SSE4_c30_mul_msk1_m128i in
  let c30_rslt_m128i := _mm_srli_epi32 c30_mul_rslt_m128i 2 in
  let! presult := _mm_storeu_si128 presult c30_rslt_m128i in
  Ok presult.

Definition decompress_sse4_c30_m1 (dest its_vector_m128i : list Z) : res (list Z) :=
  let presult := (dest, 0%nat) in
  let! c30_load_rslt1_m128i := _mm_loadu_si128 its_vector_m128i 0 in
  let! presult := decompress_sse4_c30_m2 0 c30_load_rslt1_m128i presult in
  let presult := advance presult 4 in
  let! c30_load_rslt2_m128i := _mm_loadu_si128 its_vector_m128i 1 in
  let c30_align_rslt1_m128i := _mm_alignr_epi8 c30_load_rslt2_m128i c30_load_rslt1_m128i 15 in
  let! presult := decompress_sse4_c30_m2 0 c30_align_rslt1_m128i presult in
  let presult := advance presult 4 in
  let! c30_load_rslt3_m128i := _mm_loadu_si128 its_vector_m128i 2 in
  let c30_align_rslt2_m128i := _mm_alignr_epi8 c30_load_rslt3_m128i c30_load_rslt2_m128i 14 in
  let! presult := decompress_sse4_c30_m2 0 c30_align_rslt2_m128i presult in
  let presult := advance presult 4 in
  let! c30_load_rslt4_m128i := _mm_loadu_si128 its_vector_m128i 3 in
  let c30_align_rslt3_m128i := _mm_alignr_epi8 c30_load_rslt4_m128i c30_load_rslt3_m128i 13 in
  let! presult := decompress_sse4_c30_m2 0 c30_align_rslt3_m128i presult in
  let presult := advance presult 4 in
  let! c30_load_rslt5_m128i := _mm_loadu_si128 its_vector_m128i 4 in
  let c30_align_rslt4_m128i := _mm_alignr_epi8 c30_load_rslt5_m128i c30_load_rslt4_m128i 12 in
  let! presult := decompress_sse4_c30_m2 0 c30_align_rslt4_m128i presult in
  let presult := advance presult 4 in
  let! c30_load_rslt6_m128i := _mm_loadu_si128 its_vector_m128i 5 in
  let c30_align_rslt5_m128i := _mm_alignr_epi8 c30_load_rslt6_m128i c30_load_rslt5_m128i 11 in
  let! presult := decompress_sse4_c30_m2 0 c30_align_rslt5_m128i presult in
  let presult := advance presult 4 in
  let! c30_load_rslt7_m128i := _mm_loadu_si128 its_vector_m128i 6 in
  let c30_align_rslt6_m128i := _mm_alignr_epi8 c30_load_rslt7_m128i c30_load_rslt6_m128i 10 in
  let! presult := decompress_sse4_c30_m2 0 c30_align_rslt6_m128i presult in
  let presult := advance presult 4 in
  let! c30_load_rslt8_m128i := _mm_loadu_si128 its_vector_m128i 7 in
  let c30_align_rslt7_m128i := _mm_alignr_epi8 c30_load_rslt8_m128i c30_load_rslt7_m128i 9 in
  let! presult := decompress_sse4_c30_m2 0 c30_align_rslt7_m128i presult in
  let presult := advance presult 4 in
  let! c30_load_rslt9_m128i := _mm_loadu_si128 its_vector_m128i 8 in
  let c30_align_rslt8_m128i := _mm_alignr_epi8 c30_load_rslt9_m128i c30_load_rslt8_m128i 8 in
  let! presult := decompress_sse4_c30_m2 0 c30_align_rslt8_m128i presult in
  let presult := advance presult 4 in
  let! c30_load_rslt10_m128i := _mm_loadu_si128 its_vector_m128i 9 in
  let c30_align_rslt9_m128i := _mm_alignr_epi8 c30_load_rslt10_m128i c30_load_rslt9_m128i 7 in
  let! presult := decompress_sse4_c30_m2 0 c30_align_rslt9_m128i presult in
  let presult := advance presult 4 in
  let! c30_load_rslt11_m128i := _mm_loadu_si128 its_vector_m128i 10 in
  let c30_align_rslt10_m128i := _mm_alignr_epi8 c30_load_rslt11_m128i c30_load_rslt10_m128i 6 in
  let! presult := decompress_sse4_c30_m2 0 c30_align_rslt10_m128i presult in
  let presult := advance presult 4 in
  let! c30_load_rslt12_m128i := _mm_loadu_si128 its_vector_m128i 11 in
  let c30_align_rslt11_m128i := _mm_alignr_epi8 c30_load_rslt12_m128i c30_load_rslt11_m128i 5 in
  let! presult := decompress_sse4_c30_m2 0 c30_align_rslt11_m128i presult in
  let presult := advance presult 4 in
  let! c30_load_rslt13_m128i := _mm_loadu_si128 its_vector_m128i 12 in
  let c30_align_rslt12_m128i := _mm_alignr_epi8 c30_load_rslt13_m128i c30_load_rslt12_m128i 4 in
  let! presult := decompress_sse4_c30_m2 0 c30_align_rslt12_m128i presult in
  let presult := advance presult 4 in
  let! c30_load_rslt14_m128i := _mm_loadu_si128 its_vector_m128i 13 in
  let c30_align_rslt13_m128i := _mm_alignr_epi8 c30_load_rslt14_m128i c30_load_rslt13_m128i 3 in
  let! presult := decompress_sse4_c30_m2 0 c30_align_rslt13_m128i presult in
  let presult := advance presult 4 in
  let! c30_load_rslt15_m128i := _mm_loadu_si128 its_vector_m128i 14 in
  let c30_align_rslt14_m128i := _mm_alignr_epi8 c30_load_rslt15_m128i c30_load_rslt14_m128i 2 in
  let! presult := decompress_sse4_c30_m2 0 c30_align_rslt14_m128i presult in
  let presult := advance presult 4 in
  let! presult := decompress_sse4_c30_m2 1 c30_load_rslt15_m128i presult in
  let presult := advance presult 4 in
  Ok (fst presult).

Definition decompress_sse4_c30 (dest encode : list Z) (n : Z) : res (list Z) :=
  whileBlocks 64 15 n decompress_sse4_c30_m1 (restOf 0x3F n (unpack_30 32)) dest encode.

Definition decompress_sse4_c31 (dest encode : list Z) (n : Z) : res (list Z) :=
  forBlocks 31 32 n (fun dest encode =>
    storeAll 32 dest [encode.[0] .& 0x7FFFFFFF; ((encode.[0] >> 31) .| (encode.[1] << 1)) .& 0x7FFFFFFF;
                     ((encode.[1] >> 30) .| (encode.[2] << 2)) .& 0x7FFFFFFF;
                     ((encode.[2] >> 29) .| (encode.[3] << 3)) .& 0x7FFFFFFF;
                     ((encode.[3] >> 28) .| (encode.[4] << 4)) .& 0x7FFFFFFF;
                     ((encode.[4] >> 27) .| (encode.[5] << 5)) .& 0x7FFFFFFF;
                     ((encode.[5] >> 26) .| (encode.[6] << 6)) .& 0x7FFFFFFF;
                     ((encode.[6] >> 25) .| (encode.[7] << 7)) .& 0x7FFFFFFF;
                     ((encode.[7] >> 24) .| (encode.[8] << 8)) .& 0x7FFFFFFF;
                     ((encode.[8] >> 23) .| (encode.[9] << 9)) .& 0x7FFFFFFF;
                     ((encode.[9] >> 22) .| (encode.[10] << 10)) .& 0x7FFFFFFF;
                     ((encode.[10] >> 21) .| (encode.[11] << 11)) .& 0x7FFFFFFF;
                     ((encode.[11] >> 20) .| (encode.[12] << 12)) .& 0x7FFFFFFF;
                     ((encode.[12] >> 19) .| (encode.[13] << 13)) .& 0x7FFFFFFF;
                     ((encode.[13] >> 18) .| (encode.[14] << 14)) .& 0x7FFFFFFF;
                     ((encode.[14] >> 17) .| (encode.[15] << 15)) .& 0x7FFFFFFF;
                     ((encode.[15] >> 16) .| (encode.[16] << 16)) .& 0x7FFFFFFF;
                     ((encode.[16] >> 15) .| (encode.[17] << 17)) .& 0x7FFFFFFF;
                     ((encode.[17] >> 14) .| (encode.[18] << 18)) .& 0x7FFFFFFF;
                     ((encode.[18] >> 13) .| (encode.[19] << 19)) .& 0x7FFFFFFF;
                     ((encode.[19] >> 12) .| (encode.[20] << 20)) .& 0x7FFFFFFF;
                     ((encode.[20] >> 11) .| (encode.[21] << 21)) .& 0x7FFFFFFF;
                     ((encode.[21] >> 10) .| (encode.[22] << 22)) .& 0x7FFFFFFF;
                     ((encode.[22] >> 9) .| (encode.[23] << 23)) .& 0x7FFFFFFF;
                     ((encode.[23] >> 8) .| (encode.[24] << 24)) .& 0x7FFFFFFF;
                     ((encode.[24] >> 7) .| (encode.[25] << 25)) .& 0x7FFFFFFF;
                     ((encode.[25] >> 6) .| (encode.[26] << 26)) .& 0x7FFFFFFF;
                     ((encode.[26] >> 5) .| (encode.[27] << 27)) .& 0x7FFFFFFF;
                     ((encode.[27] >> 4) .| (encode.[28] << 28)) .& 0x7FFFFFFF;
                     ((encode.[28] >> 3) .| (encode.[29] << 29)) .& 0x7FFFFFFF;
                     ((encode.[29] >> 2) .| (encode.[30] << 30)) .& 0x7FFFFFFF;
                     (encode.[30] >> 1) .& 0x7FFFFFFF]
  ) (unpackRest n (unaligned_unpack_31 32)) dest encode.

Definition decompress_sse4_c32 (dest encode : list Z) (n : Z) : res (list Z) :=
  forBlocks 32 32 n (fun dest encode =>
    storeAll 32 dest [encode.[0] .& 0xFFFFFFFF; encode.[1] .& 0xFFFFFFFF; encode.[2] .& 0xFFFFFFFF;
                     encode.[3] .& 0xFFFFFFFF; encode.[4] .& 0xFFFFFFFF; encode.[5] .& 0xFFFFFFFF;
                     encode.[6] .& 0xFFFFFFFF; encode.[7] .& 0xFFFFFFFF; encode.[8] .& 0xFFFFFFFF;
                     encode.[9] .& 0xFFFFFFFF; encode.[10] .& 0xFFFFFFFF; encode.[11] .& 0xFFFFFFFF;
                     encode.[12] .& 0xFFFFFFFF; encode.[13] .& 0xFFFFFFFF; encode.[14] .& 0xFFFFFFFF;
                     encode.[15] .& 0xFFFFFFFF; encode.[16] .& 0xFFFFFFFF; encode.[17] .& 0xFFFFFFFF;
                     encode.[18] .& 0xFFFFFFFF; encode.[19] .& 0xFFFFFFFF; encode.[20] .& 0xFFFFFFFF;
                     encode.[21] .& 0xFFFFFFFF; encode.[22] .& 0xFFFFFFFF; encode.[23] .& 0xFFFFFFFF;
                     encode.[24] .& 0xFFFFFFFF; encode.[25] .& 0xFFFFFFFF; encode.[26] .& 0xFFFFFFFF;
                     encode.[27] .& 0xFFFFFFFF; encode.[28] .& 0xFFFFFFFF; encode.[29] .& 0xFFFFFFFF;
                     encode.[30] .& 0xFFFFFFFF; encode.[31] .& 0xFFFFFFFF]
  ) (unpackRest n (copyRest 32)) dest encode.

(** The table of [NewPForDeltaCompressor::DecompressBlock<uint32_t>]. *)
Definition unpack_sse_func : list (list Z -> list Z -> Z -> res (list Z)) :=
  [decompress_sse4_c0; decompress_sse4_c1; decompress_sse4_c2; decompress_sse4_c3; decompress_sse4_c4;
   decompress_sse4_c5; unpack_6_uint32; decompress_sse4_c7; decompress_sse4_c8; decompress_sse4_c9;
   decompress_sse4_c10; decompress_sse4_c11; decompress_sse4_c12; decompress_sse4_c13; decompress_sse4_c14;
   unpack_15 32; decompress_sse4_c16; decompress_sse4_c17; decompress_sse4_c18; decompress_sse4_c19;
   decompress_sse4_c20; decompress_sse4_c21; decompress_sse4_c22; decompress_sse4_c23; decompress_sse4_c24;
   decompress_sse4_c25; decompress_sse4_c26; decompress_sse4_c27; decompress_sse4_c28; decompress_sse4_c29;
   decompress_sse4_c30; decompress_sse4_c31; decompress_sse4_c32].
