(* ===== verification/DecompressSse4Correct.v ===== *)
(** * The vector code unpacks

    [m2] of each width takes fields out of a register, [m1] unpacks a block, and each function of the table
    unpacks the values of its width, as the template it replaces does. *)

From stdpp Require Import base list numbers option tactics.
From Stdlib Require Import ZArith Lia ZifyNat.
From S2P Require Import Prelude Bits WordCode WordStream BlockLoops UnalignedUnpack Unpack PackCorrect UnpackCorrect Unpack6Sse Simd SimdBits DecompressSse4.

#[local] Open Scope Z_scope.

(** ** [m2] *)

(** [cnt] fields of [c] bits of [x] from bit [start] on. *)
Definition fields (c cnt start : nat) (x : Z) : list Z :=
  map (fun l => field (Z.of_nat (start + c * l)) (Z.of_nat c) x) (seq 0 cnt).

Lemma fields_length c cnt start x : length (fields c cnt start x) = cnt.
Proof. unfold fields. by rewrite length_map, length_seq. Qed.

(** [f<segment>] stores these fields and moves the cursor by [adv]. *)
Definition extracts (c cnt adv start : nat) (f : Z -> cursor -> res cursor) : Prop :=
  forall x pre dest, fits 128 x -> (cnt <= length dest)%nat ->
    f x (pre ++ dest, length pre) = Ok (pre ++ fields c cnt start x ++ drop cnt dest, (length pre + adv)%nat).

Lemma storeu_fields c start s x r pre dest :
  (c <= 32)%nat -> denotes s x r -> s = fieldsFrom c start -> (4 <= length dest)%nat ->
  _mm_storeu_si128 (pre ++ dest, length pre) r = Ok (pre ++ fields c 4 start x ++ drop 4 dest, length pre).
Proof.
  intros Hc Hr -> Hd. unfold _mm_storeu_si128. cbn [fst snd].
  change [Ok (lane 32 r 0); _; _; _] with (map Ok (map (lane 32 r) (seq 0 4))).
  rewrite storeFrom_ok by done. cbn [res_bind]. do 2 f_equal.
  rewrite map_cast_fits by (apply Forall_fmap, Forall_forall; intros; by apply field_fits).
  do 2 f_equal. apply map_ext_in. intros l Hl%in_seq. apply (denotes_fields c start); done || lia.
Qed.

Lemma extracts_one c adv start s (f : Z -> cursor -> res cursor) (r : Z -> Z) :
  (forall x p, f x p = let! p := _mm_storeu_si128 p (r x) in Ok (fst p, (snd p + adv)%nat)) ->
  (c <= 32)%nat -> (forall x, denotes whole x x -> denotes s x (r x)) -> s = fieldsFrom c start ->
  extracts c 4 adv start f.
Proof.
  intros Hf Hc Hs He x pre dest Hx Hd. rewrite Hf.
  rewrite (storeu_fields c start s x) by (done || by apply Hs, denotes_whole). done.
Qed.

(** The function of 30 bits leaves the cursor where it is. *)
Lemma extracts_still c start s (f : Z -> cursor -> res cursor) (r : Z -> Z) :
  (forall x p, f x p = let! p := _mm_storeu_si128 p (r x) in Ok p) ->
  (c <= 32)%nat -> (forall x, denotes whole x x -> denotes s x (r x)) -> s = fieldsFrom c start ->
  extracts c 4 0 start f.
Proof.
  intros Hf. apply (extracts_one c 0 start s f r). intros x p. rewrite Hf.
  destruct (_mm_storeu_si128 p (r x)) as [[d i]| | |]; cbn [res_bind fst snd]; by rewrite ?Nat.add_0_r.
Qed.

Lemma fields_8 c start x : fields c 8 start x = fields c 4 start x ++ fields c 4 (start + c * 4) x.
Proof.
  unfold fields. change (seq 0 8) with (seq 0 4 ++ map (Nat.add 4) (seq 0 4)). rewrite map_app, map_map. f_equal.
  apply map_ext. intros l. do 2 f_equal. lia.
Qed.

Lemma extracts_two c start s s' (f : Z -> cursor -> res cursor) (r r' : Z -> Z) :
  (forall x p, f x p = let! p := _mm_storeu_si128 p (r x) in
                       let! p := _mm_storeu_si128 (advance p 4) (r' x) in Ok (advance p 4)) ->
  (c <= 32)%nat -> (forall x, denotes whole x x -> denotes s x (r x)) -> s = fieldsFrom c start ->
  (forall x, denotes whole x x -> denotes s' x (r' x)) -> s' = fieldsFrom c (start + c * 4) ->
  extracts c 8 8 start f.
Proof.
  intros Hf Hc Hs He Hs' He' x pre dest Hx Hd. rewrite Hf.
  rewrite (storeu_fields c start s x) by (done || lia || by apply Hs, denotes_whole). cbn [res_bind]. unfold advance.
  cbn [fst snd]. rewrite app_assoc.
  replace (length pre + 4)%nat with (length (pre ++ fields c 4 start x)) by (by rewrite length_app, fields_length).
  rewrite (storeu_fields c (start + c * 4) s' x) by (rewrite ?length_drop; done || lia || by apply Hs', denotes_whole).
  cbn [res_bind fst snd]. rewrite drop_drop, <- app_assoc, fields_8, <- app_assoc, length_app, fields_length.
  do 2 f_equal. lia.
Qed.

(** Go through the instructions of a result. *)
Ltac denote :=
  repeat lazymatch goal with
  | |- denotes _ _ (_mm_shuffle_epi8 _ _) => refine (denotes_shuffle _ _ _ _ _)
  | |- denotes _ _ (_mm_and_si128 _ _) => refine (denotes_and _ _ _ _ _)
  | |- denotes _ _ (_mm_mullo_epi32 _ _) => refine (denotes_mul _ _ _ _ _ _); [vm_compute; reflexivity|]
  | |- denotes _ _ (_mm_srli_epi32 _ _) => refine (denotes_srl32 _ _ _ _ _ _); [lia|]
  | |- denotes _ _ (_mm_srli_epi64 _ _) => refine (denotes_srl64 _ _ _ _ _ _); [lia|]
  | |- denotes _ _ (_mm_slli_epi64 _ _) => refine (denotes_sll64 _ _ _ _ _ _); [lia|]
  | |- denotes _ _ (_mm_blend_epi16 _ _ _) => refine (denotes_blend _ _ _ _ _ _ _ _)
  | H : denotes _ ?x ?x |- denotes _ ?x ?x => exact H
  end.

(** The code of an [m2] function at a given segment. *)
Ltac unfold_m2 :=
  intros x p;
  lazymatch goal with |- ?f _ _ _ = _ => unfold f end; cbv zeta; unfold advance; reflexivity.

Ltac extract :=
  lazymatch goal with
  | |- extracts _ 4 0 _ _ =>
      eapply extracts_still; [unfold_m2 | lia | intros x Hx; cbv beta; denote | vm_compute; reflexivity]
  | |- extracts _ 4 _ _ _ =>
      eapply extracts_one; [unfold_m2 | lia | intros x Hx; cbv beta; denote | vm_compute; reflexivity]
  | |- extracts _ 8 _ _ _ =>
      eapply extracts_two; [unfold_m2 | lia | intros x Hx; cbv beta; denote | vm_compute; reflexivity
                           | intros x Hx; cbv beta; denote | vm_compute; reflexivity]
  end.

(** ** [m1] *)

(** The cursor of [m1] after [p] values of [c] bits. *)
Definition after (c p : nat) (N : Z) (dest : list Z) : list Z := digits (Z.of_nat c) p N ++ drop p dest.

Lemma digits_fields c p cnt N :
  digits (Z.of_nat c) (p + cnt) N = digits (Z.of_nat c) p N ++ fields c cnt (c * p) N.
Proof.
  unfold digits, fields. rewrite seq_app, map_app. f_equal. cbn [Nat.add].
  rewrite <- (Nat.add_0_r p) at 1. rewrite <- fmap_add_seq. rewrite map_map. apply map_ext. intros l. f_equal. lia.
Qed.

Lemma fields_window c cnt start o N :
  0 <= o -> (start + c * cnt <= 128)%nat ->
  fields c cnt start (field o 128 N) = map (fun l => field (o + Z.of_nat (start + c * l)) (Z.of_nat c) N) (seq 0 cnt).
Proof.
  intros Ho Hs. apply map_ext_in. intros l Hl%in_seq. apply field_window; nia.
Qed.

Lemma m2_step c cnt adv start f o p N dest (k : cursor -> res (list Z)) r :
  extracts c cnt adv start f -> 0 <= o -> (start + c * cnt <= 128)%nat -> o + Z.of_nat start = Z.of_nat (c * p) ->
  (p + cnt <= length dest)%nat ->
  k (after c (p + cnt) N dest, (p + adv)%nat) = r -> (let! st := f (field o 128 N) (after c p N dest, p) in k st) = r.
Proof.
  intros Hf Ho Hs Hp Hd <-. unfold after. set (pre := digits (Z.of_nat c) p N).
  assert (length pre = p) as Hl by apply digits_length. rewrite <- Hl at 2.
  rewrite Hf by (try apply field_fits; rewrite ?length_drop; lia). cbn [res_bind]. do 2 f_equal.
  - rewrite fields_window by done. rewrite digits_fields, <- app_assoc. fold pre. f_equal. f_equal; [|by rewrite drop_drop].
    apply map_ext. intros l. f_equal. lia.
  - lia.
Qed.

Lemma load_step q enc i o N (k : Z -> res (list Z)) r :
  N = stream q enc -> (4 * i + 4 <= q)%nat -> (q <= length enc)%nat -> Forall (fits 32) (take q enc) -> o = 128 * Z.of_nat i ->
  k (field o 128 N) = r -> (let! x := _mm_loadu_si128 enc i in k x) = r.
Proof. intros -> Hi Hq Hf -> <-. by rewrite (loadu_window q). Qed.

Lemma alignr_step o o' o1 n N :
  0 <= o -> 0 <= n <= 16 -> o1 = o + 128 -> o' = o + 8 * n -> _mm_alignr_epi8 (field o1 128 N) (field o 128 N) n = field o' 128 N.
Proof. intros ? ? -> ->. by apply alignr_window. Qed.

Lemma m1_converts c size q m1 :
  (c <= 32)%nat ->
  (forall dest enc, (size <= length dest)%nat -> (q <= length enc)%nat -> Forall (fits 32) (take q enc) ->
     m1 dest enc = Ok (after c size (stream q enc) dest)) ->
  converts 32 false c 32 size q m1.
Proof.
  intros Hc Hm. split. intros dest enc Hd Hq Hf _. rewrite Hm by done.
  rewrite map_cast_fits; [done|].
  pose proof (digits_fits (Z.of_nat c) size (stream q enc) ltac:(lia)) as Hdig. revert Hdig. apply Forall_impl.
  intros v Hv. eapply (fits_le (Z.of_nat c)); [lia | lia | done].
Qed.

(** Execute an [m1] function whose [m2] functions store [cnt] values and move the cursor by [adv], after [p] values. *)
Ltac m1_run c cnt adv dest enc q Hq Hf p :=
  lazymatch goal with
  | |- (let! x := _mm_loadu_si128 enc ?i in @?k x) = ?r =>
      let o := eval vm_compute in (128 * Z.of_nat i) in
      refine (load_step q enc i o _ k r eq_refl _ Hq Hf eq_refl _); [lia|]; cbv beta;
      m1_run c cnt adv dest enc q Hq Hf p
  | |- context [_mm_alignr_epi8 (field ?o1 128 ?N) (field ?o 128 ?N) ?n] =>
      let o' := eval vm_compute in (o + 8 * n) in
      rewrite (alignr_step o o' o1 n N) by (lia || reflexivity);
      m1_run c cnt adv dest enc q Hq Hf p
  | |- (let! st := ?f (field ?o 128 ?N) _ in @?k st) = ?r =>
      let start := eval vm_compute in (c * p - Z.to_nat o)%nat in
      let p' := eval vm_compute in (p + cnt)%nat in
      refine (m2_step c cnt adv start f o p N dest k r _ _ _ _ _ _);
      [extract | lia | lia | reflexivity | lia |];
      cbv beta; change (p + cnt)%nat with p';
      m1_run c cnt adv dest enc q Hq Hf p'
  | |- Ok _ = Ok _ => reflexivity
  end.

Ltac m1_block c cnt adv q :=
  apply m1_converts; [lia|]; intros dest enc Hd Hq Hf;
  lazymatch goal with |- ?m1 _ _ = _ => unfold m1 end; cbv zeta;
  m1_run c cnt adv dest enc q Hq Hf 0%nat.

Lemma c1_m1_converts : converts 32 false 1 32 128 4 decompress_sse4_c1_m1.
Proof. m1_block 1%nat 8%nat 8%nat 4%nat. Qed.
Lemma c2_m1_converts : converts 32 false 2 32 64 4 decompress_sse4_c2_m1.
Proof. m1_block 2%nat 4%nat 4%nat 4%nat. Qed.
Lemma c3_m1_converts : converts 32 false 3 32 128 12 decompress_sse4_c3_m1.
Proof. m1_block 3%nat 8%nat 8%nat 12%nat. Qed.
Lemma c4_m1_converts : converts 32 false 4 32 32 4 decompress_sse4_c4_m1.
Proof. m1_block 4%nat 4%nat 4%nat 4%nat. Qed.
Lemma c5_m1_converts : converts 32 false 5 32 128 20 decompress_sse4_c5_m1.
Proof. m1_block 5%nat 8%nat 8%nat 20%nat. Qed.
Lemma c6_m1_converts : converts 32 false 6 32 64 12 decompress_sse4_c6_m1.
Proof. m1_block 6%nat 4%nat 4%nat 12%nat. Qed.
Lemma c7_m1_converts : converts 32 false 7 32 128 28 decompress_sse4_c7_m1.
Proof. m1_block 7%nat 8%nat 8%nat 28%nat. Qed.
Lemma c8_m1_converts : converts 32 false 8 32 16 4 decompress_sse4_c8_m1.
Proof. m1_block 8%nat 4%nat 4%nat 4%nat. Qed.
Lemma c9_m1_converts : converts 32 false 9 32 128 36 decompress_sse4_c9_m1.
Proof. m1_block 9%nat 8%nat 8%nat 36%nat. Qed.
Lemma c10_m1_converts : converts 32 false 10 32 64 20 decompress_sse4_c10_m1.
Proof. m1_block 10%nat 4%nat 4%nat 20%nat. Qed.
Lemma c11_m1_converts : converts 32 false 11 32 128 44 decompress_sse4_c11_m1.
Proof. m1_block 11%nat 8%nat 8%nat 44%nat. Qed.
Lemma c12_m1_converts : converts 32 false 12 32 32 12 decompress_sse4_c12_m1.
Proof. m1_block 12%nat 4%nat 4%nat 12%nat. Qed.
Lemma c13_m1_converts : converts 32 false 13 32 128 52 decompress_sse4_c13_m1.
Proof. m1_block 13%nat 8%nat 8%nat 52%nat. Qed.
Lemma c14_m1_converts : converts 32 false 14 32 64 28 decompress_sse4_c14_m1.
Proof. m1_block 14%nat 4%nat 4%nat 28%nat. Qed.
Lemma c15_m1_converts : converts 32 false 15 32 128 60 decompress_sse4_c15_m1.
Proof. m1_block 15%nat 8%nat 8%nat 60%nat. Qed.
Lemma c16_m1_converts : converts 32 false 16 32 8 4 decompress_sse4_c16_m1.
Proof. m1_block 16%nat 4%nat 4%nat 4%nat. Qed.
Lemma c17_m1_converts : converts 32 false 17 32 128 68 decompress_sse4_c17_m1.
Proof. m1_block 17%nat 4%nat 4%nat 68%nat. Qed.
Lemma c18_m1_converts : converts 32 false 18 32 64 36 decompress_sse4_c18_m1.
Proof. m1_block 18%nat 4%nat 4%nat 36%nat. Qed.
Lemma c19_m1_converts : converts 32 false 19 32 128 76 decompress_sse4_c19_m1.
Proof. m1_block 19%nat 4%nat 4%nat 76%nat. Qed.
Lemma c20_m1_converts : converts 32 false 20 32 32 20 decompress_sse4_c20_m1.
Proof. m1_block 20%nat 4%nat 4%nat 20%nat. Qed.
Lemma c21_m1_converts : converts 32 false 21 32 128 84 decompress_sse4_c21_m1.
Proof. m1_block 21%nat 4%nat 4%nat 84%nat. Qed.
Lemma c22_m1_converts : converts 32 false 22 32 64 44 decompress_sse4_c22_m1.
Proof. m1_block 22%nat 4%nat 4%nat 44%nat. Qed.
Lemma c23_m1_converts : converts 32 false 23 32 128 92 decompress_sse4_c23_m1.
Proof. m1_block 23%nat 4%nat 4%nat 92%nat. Qed.
Lemma c24_m1_converts : converts 32 false 24 32 16 12 decompress_sse4_c24_m1.
Proof. m1_block 24%nat 4%nat 4%nat 12%nat. Qed.
Lemma c25_m1_converts : converts 32 false 25 32 128 100 decompress_sse4_c25_m1.
Proof. m1_block 25%nat 4%nat 4%nat 100%nat. Qed.
Lemma c26_m1_converts : converts 32 false 26 32 64 52 decompress_sse4_c26_m1.
Proof. m1_block 26%nat 4%nat 4%nat 52%nat. Qed.
Lemma c27_m1_converts : converts 32 false 27 32 128 108 decompress_sse4_c27_m1.
Proof. m1_block 27%nat 4%nat 4%nat 108%nat. Qed.
Lemma c28_m1_converts : converts 32 false 28 32 32 28 decompress_sse4_c28_m1.
Proof. m1_block 28%nat 4%nat 4%nat 28%nat. Qed.
Lemma c29_m1_converts : converts 32 false 29 32 128 116 decompress_sse4_c29_m1.
Proof. m1_block 29%nat 4%nat 4%nat 116%nat. Qed.
Lemma c30_m1_converts : converts 32 false 30 32 64 60 decompress_sse4_c30_m1.
Proof. m1_block 30%nat 4%nat 0%nat 60%nat. Qed.

(** ** The functions *)

Lemma whileLoop_S f size vectors body tail index n dest enc :
  whileLoop (S f) size vectors body tail index n dest enc =
  if u32 (index + size) <=? n
  then block (vectors * 4) (Z.to_nat size) body (whileLoop f size vectors body tail (u32 (index + size)) n) dest enc
  else tail dest enc.
Proof. done. Qed.

Lemma whileLoop_eq nb size vectors body tail index n dest enc :
  0 <= index -> 0 < size -> index + size * Z.of_nat nb <= n < index + size * Z.of_nat nb + size -> n + size < 2 ^ 32 ->
  whileLoop (S nb) size vectors body tail index n dest enc =
  maxBlocksLoop nb (vectors * 4) (Z.to_nat size) body tail dest enc.
Proof.
  revert index dest enc. induction nb as [|nb IH]; intros index dest enc Hi Hs Hn Hmax; rewrite whileLoop_S, u32_small by lia.
  - rewrite (proj2 (Z.leb_gt _ _)) by lia. done.
  - rewrite (proj2 (Z.leb_le _ _)) by lia. cbn [maxBlocksLoop]. unfold block.
    destruct (body dest enc) as [d| | |]; cbn [res_bind]; try done. by rewrite (IH (index + size)) by lia.
Qed.

Lemma restOf_unpacks c j n f :
  0 <= n < 2 ^ 31 -> 0 <= j -> (forall x, 0 <= x < 2 ^ 31 -> unpacks 32 c (Z.to_nat x) (fun d e => f d e x)) ->
  unpacks 32 c (Z.to_nat (n mod 2 ^ j)) (restOf (Z.ones j) n f).
Proof.
  intros Hn Hj Hf. unfold restOf. rewrite Z.land_ones by done. pose proof (Z.mod_pos_bound n (2 ^ j) ltac:(lia)).
  pose proof (Z.mod_le n (2 ^ j) ltac:(lia) ltac:(lia)).
  destruct (Z.eqb_spec (n mod 2 ^ j) 0) as [->|]; cbn [negb]; [|apply Hf; lia].
  change (Z.to_nat 0) with 0%nat. unfold unpacks. rewrite Nat.mul_0_r. split. intros dest enc _ _ _ _. done.
Qed.

Lemma whileBlocks_unpacks c j vectors n m1 f :
  (0 < c)%nat -> 0 <= j <= 7 -> (c * Z.to_nat (2 ^ j) = 32 * (vectors * 4))%nat -> 0 <= n < 2 ^ 31 ->
  converts 32 false c 32 (Z.to_nat (2 ^ j)) (vectors * 4) m1 ->
  (forall x, 0 <= x < 2 ^ 31 -> unpacks 32 c (Z.to_nat x) (fun d e => f d e x)) ->
  unpacks 32 c (Z.to_nat n) (whileBlocks (2 ^ j) vectors n m1 (restOf (Z.ones j) n f)).
Proof.
  intros Hc Hj Hcv Hn Hm Hf. pose proof (restOf_unpacks c j n f Hn ltac:(lia) Hf) as Hrest.
  assert (1 <= 2 ^ j <= 128) as Hs.
  { split; [lia|]. change 128 with (2 ^ 7). apply Z.pow_le_mono_r; lia. }
  set (size := 2 ^ j) in *. clearbody size.
  pose proof (Z.div_mod n size ltac:(lia)). pose proof (Z.mod_pos_bound n size ltac:(lia)). pose proof (Z.div_pos n size ltac:(lia) ltac:(lia)).
  pose proof (maxBlocksLoop_converts 32 false c 32 (vectors * 4) (Z.to_nat size) _ _ (Z.to_nat (n / size)) m1 _
    Hcv ltac:(lia) Hm Hrest) as Hconv.
  pose proof (ceil_spec (c * Z.to_nat (n mod size)) 32 ltac:(lia)).
  assert (Z.to_nat n = Z.to_nat (n / size) * Z.to_nat size + Z.to_nat (n mod size))%nat as Hsum by nia.
  eapply converts_ext; [intros dest enc; symmetry; apply whileLoop_eq; lia|].
  replace (ceil (c * Z.to_nat n) 32)
    with (Z.to_nat (n / size) * (vectors * 4) + ceil (c * Z.to_nat (n mod size)) 32)%nat.
  2:{ apply ceil_unique; [lia|]. rewrite Hsum. nia. }
  rewrite Hsum. exact Hconv.
Qed.

Create HintDb m1_blocks discriminated.
#[export] Hint Resolve c1_m1_converts c2_m1_converts c3_m1_converts c4_m1_converts c5_m1_converts
  c6_m1_converts c7_m1_converts c8_m1_converts c9_m1_converts c10_m1_converts c11_m1_converts c12_m1_converts
  c13_m1_converts c14_m1_converts c15_m1_converts c16_m1_converts c17_m1_converts c18_m1_converts
  c19_m1_converts c20_m1_converts c21_m1_converts c22_m1_converts c23_m1_converts c24_m1_converts
  c25_m1_converts c26_m1_converts c27_m1_converts c28_m1_converts c29_m1_converts c30_m1_converts : m1_blocks.

#[export] Hint Opaque decompress_sse4_c1_m1 decompress_sse4_c2_m1 decompress_sse4_c3_m1 decompress_sse4_c4_m1
  decompress_sse4_c5_m1 decompress_sse4_c6_m1 decompress_sse4_c7_m1 decompress_sse4_c8_m1
  decompress_sse4_c9_m1 decompress_sse4_c10_m1 decompress_sse4_c11_m1 decompress_sse4_c12_m1
  decompress_sse4_c13_m1 decompress_sse4_c14_m1 decompress_sse4_c15_m1 decompress_sse4_c16_m1
  decompress_sse4_c17_m1 decompress_sse4_c18_m1 decompress_sse4_c19_m1 decompress_sse4_c20_m1
  decompress_sse4_c21_m1 decompress_sse4_c22_m1 decompress_sse4_c23_m1 decompress_sse4_c24_m1
  decompress_sse4_c25_m1 decompress_sse4_c26_m1 decompress_sse4_c27_m1 decompress_sse4_c28_m1
  decompress_sse4_c29_m1 decompress_sse4_c30_m1 : m1_blocks.

Ltac while_blocks k size v n m1 g Hn Hu :=
  let j := eval vm_compute in (Z.log2 size) in
  let p := eval vm_compute in (Z.to_nat size) in
  let q := eval vm_compute in (v * 4)%nat in
  refine (whileBlocks_unpacks k j v n m1 g _ _ _ Hn _ _);
  [lia | lia | reflexivity | change (converts 32 false k 32 p q m1); auto with m1_blocks nocore
  | apply (Hu k g); reflexivity].

(** Every function of the table of the vector code unpacks values of its width. *)
Lemma unpack_sse_func_unpacks k f n :
  unpack_sse_func !! k = Some f -> 0 <= n < 2 ^ 31 -> unpacks 32 k (Z.to_nat n) (fun d e => f d e n).
Proof.
  intros Hf Hn.
  assert (forall k g, unpack_func_of 32 !! k = Some g ->
    forall x, 0 <= x < 2 ^ 31 -> unpacks 32 k (Z.to_nat x) (fun d e => g d e x)) as Hu.
  { intros k' g Hg x Hx. by apply (unpack_func_of_unpacks 32 k'). }
  unfold unpack_sse_func in Hf. table_cases k Hf.
  all: lazymatch goal with
  | |- unpacks _ _ _ (fun d e => unpack_6_uint32 d e _) => exact (Hu 6%nat _ eq_refl n Hn)
  | |- unpacks _ _ _ (fun d e => unpack_15 _ d e _) => exact (Hu 15%nat _ eq_refl n Hn)
  | |- unpacks _ _ _ (fun d e => decompress_sse4_c0 d e _) => exact (Hu 0%nat (unpack_0 32) eq_refl n Hn)
  | |- unpacks _ _ _ (fun d e => decompress_sse4_c31 d e _) => exact (Hu 31%nat (unpack_31 32) eq_refl n Hn)
  | |- unpacks _ _ _ (fun d e => decompress_sse4_c32 d e _) => exact (Hu 32%nat (unpack_32 32) eq_refl n Hn)
  | |- unpacks _ ?k _ (fun d e => ?f d e _) => unfold f
  end.
  all: lazymatch goal with
  | |- unpacks _ ?k _ (fun d e => whileBlocks ?size ?v _ ?m1 (restOf _ _ ?g) d e) => while_blocks k size v n m1 g Hn Hu
  end.
Qed.
