(* ===== verification/S9Compressor.v ===== *)
(** * S9Compressor

    [S9Compressor] (src/aios/storage/indexlib/index/common/numeric_compress/S9Compressor.h): the simple-9
    code. A word holds a 4-bit header and up to 28 codes of equal width; the encoder takes the first of the
    nine layouts that fits the next values. *)

From stdpp Require Import base list numbers option tactics.
From Stdlib Require Import ZArith Lia ZifyNat.
From S2P Require Import Prelude Bits WordCode WordStream BlockLoops PackCorrect.

#[local] Open Scope Z_scope.
#[local] Open Scope word_scope.

Module S9.

Definition BIT_LENGTH : list Z := [1; 2; 3; 4; 5; 7; 9; 14; 28].
Definition CODE_NUM : list Z := [28; 14; 9; 7; 5; 4; 3; 2; 1].

(** [for (; (i < curSize) && (src[curPos + i] < (1u << b)); i++) res = (res << b) + src[curPos + i];]
    with [left] values to go: returns [i] and [res]. *)
Fixpoint fill (left : nat) (i curPos b res : Z) (src : list Z) : Prelude.res (Z * Z) :=
  match left with
  | O => Ok (i, res)
  | S left' =>
      let! v := deref (src !! Z.to_nat (u32 (curPos + i))) in
      if v <? u32 (Z.shiftl 1 b) then fill left' (i + 1) curPos b (u32 (u32 (Z.shiftl res b) + v)) src
      else Ok (i, res)
  end.

(** The [for] loop over the layouts from [k] on, [left] of them: [dest], [resNum] and [curPos] when
    it is left. *)
Fixpoint tryLayouts (left : nat) (k : nat) (dest src : list Z) (resNum curPos srcLen : Z)
    : Prelude.res (list Z * Z * Z) :=
  match left with
  | O => Ok (dest, resNum, curPos)
  | S left' =>
      let! curSize := deref (CODE_NUM !! k) in
      if srcLen <=? u32 (curPos + curSize - 1) then tryLayouts left' (S k) dest src resNum curPos srcLen
      else
        let! b := deref (BIT_LENGTH !! k) in
        let! (i, res) := fill (Z.to_nat curSize) 0 curPos b 0 src in
        if i =? curSize then
          let res := Z.lor res (u32 (Z.shiftl (Z.of_nat k) 28)) in
          let! dest := store 32 dest (Z.to_nat resNum) (Ok res) in
          Ok (dest, u32 (resNum + 1), u32 (curPos + curSize))
        else if (8 <=? k)%nat then Error OutOfRange
        else tryLayouts left' (S k) dest src resNum curPos srcLen
  end.

(** [while (curPos < srcLen)] *)
Fixpoint encodeLoop (fuel : nat) (dest src : list Z) (resNum curPos srcLen : Z) : Prelude.res (list Z * Z) :=
  match fuel with
  | O => OutOfFuel
  | S fuel' =>
      if curPos <? srcLen then
        let! (dest, resNum, curPos) := tryLayouts 9 0 dest src resNum curPos srcLen in
        encodeLoop fuel' dest src resNum curPos srcLen
      else Ok (dest, resNum)
  end.

(** [Encode] returns the number of words. *)
Definition Encode (dest src : list Z) (srcLen : Z) : Prelude.res (list Z * Z) :=
  encodeLoop (S (Z.to_nat srcLen)) dest src 0 0 srcLen.

(** The [switch] of [Decode]: the codes of a word. The [default] is a failed assertion. *)
Definition codesOf (header : Z) (val : Prelude.res Z) : Prelude.res (list (Prelude.res Z)) :=
  match header with
  | 0 => Ok (
      [(val << 4) >> 31; (val << 5) >> 31; (val << 6) >> 31; (val << 7) >> 31; (val << 8) >> 31;
       (val << 9) >> 31; (val << 10) >> 31; (val << 11) >> 31; (val << 12) >> 31; (val << 13) >> 31;
       (val << 14) >> 31; (val << 15) >> 31; (val << 16) >> 31; (val << 17) >> 31; (val << 18) >> 31;
       (val << 19) >> 31; (val << 20) >> 31; (val << 21) >> 31; (val << 22) >> 31; (val << 23) >> 31;
       (val << 24) >> 31; (val << 25) >> 31; (val << 26) >> 31; (val << 27) >> 31; (val << 28) >> 31;
       (val << 29) >> 31; (val << 30) >> 31; (val << 31) >> 31])
  | 1 => Ok (
      [(val << 4) >> 30; (val << 6) >> 30; (val << 8) >> 30; (val << 10) >> 30; (val << 12) >> 30;
       (val << 14) >> 30; (val << 16) >> 30; (val << 18) >> 30; (val << 20) >> 30; (val << 22) >> 30;
       (val << 24) >> 30; (val << 26) >> 30; (val << 28) >> 30; (val << 30) >> 30])
  | 2 => Ok (
      [(val << 5) >> 29; (val << 8) >> 29; (val << 11) >> 29; (val << 14) >> 29; (val << 17) >> 29;
       (val << 20) >> 29; (val << 23) >> 29; (val << 26) >> 29; (val << 29) >> 29])
  | 3 => Ok (
      [(val << 4) >> 28; (val << 8) >> 28; (val << 12) >> 28; (val << 16) >> 28; (val << 20) >> 28;
       (val << 24) >> 28; (val << 28) >> 28])
  | 4 => Ok (
      [(val << 7) >> 27; (val << 12) >> 27; (val << 17) >> 27; (val << 22) >> 27; (val << 27) >> 27])
  | 5 => Ok (
      [(val << 4) >> 25; (val << 11) >> 25; (val << 18) >> 25; (val << 25) >> 25])
  | 6 => Ok (
      [(val << 5) >> 23; (val << 14) >> 23; (val << 23) >> 23])
  | 7 => Ok (
      [(val << 4) >> 18; (val << 18) >> 18])
  | 8 => Ok (
      [(val << 4) >> 4])
  | _ => Undefined
  end.

(** [Decode] of [srcLen] words; [cursor] is [destCursor - dest]. *)
Fixpoint decodeLoop (w : Z) (left i : nat) (dest src : list Z) (cursor : nat) : Prelude.res (list Z * nat) :=
  match left with
  | O => Ok (dest, cursor)
  | S left' =>
      let! val := deref (src !! i) in
      let! codes := codesOf (Z.shiftr val 28) (Ok val) in
      let! dest := storeFrom w cursor dest codes in
      decodeLoop w left' (S i) dest src (cursor + length codes)
  end.
Definition Decode (w : Z) (dest src : list Z) (srcLen : Z) : Prelude.res (list Z * nat) :=
  decodeLoop w (Z.to_nat srcLen) 0 dest src 0.

(** ** What a word means *)

(** Width and number of the codes of layout [k]. *)
Definition width (k : nat) : nat := nth k [1; 2; 3; 4; 5; 7; 9; 14; 28]%nat 0%nat.
Definition codeNum (k : nat) : nat := nth k [28; 14; 9; 7; 5; 4; 3; 2; 1]%nat 0%nat.

(** The word of layout [k] with the codes [vs], the first one on top. *)
Definition wordOf (k : nat) (vs : list Z) : Z := num (Z.of_nat (width k)) (rev vs) + 2 ^ 28 * Z.of_nat k.

(** [vs] fits layout [k]. *)
Definition fitsLayout (k : nat) (vs : list Z) : Prop :=
  (k < 9)%nat /\ length vs = codeNum k /\ Forall (fits (Z.of_nat (width k))) vs.

Lemma layout_cases k (P : nat -> Prop) :
  (k < 9)%nat -> P 0%nat -> P 1%nat -> P 2%nat -> P 3%nat -> P 4%nat -> P 5%nat -> P 6%nat -> P 7%nat -> P 8%nat -> P k.
Proof. intros. do 9 (destruct k as [|k]; [done|]). lia. Qed.

Lemma layout_size k : (k < 9)%nat -> (0 < width k /\ 0 < codeNum k /\ width k * codeNum k <= 28)%nat.
Proof. intros H. apply (layout_cases k); [done | cbn; lia..]. Qed.

Lemma num_layout k vs : fitsLayout k vs -> fits 28 (num (Z.of_nat (width k)) (rev vs)).
Proof.
  intros (Hk & Hl & Hv). destruct (layout_size k Hk) as (? & ? & ?).
  eapply (fits_le (Z.of_nat (width k) * Z.of_nat (length (rev vs)))); [lia | rewrite length_rev; nia|].
  apply num_bound; [lia | by apply Forall_rev].
Qed.

Lemma wordOf_fits k vs : fitsLayout k vs -> fits 32 (wordOf k vs).
Proof. intros Hf. pose proof (num_layout k vs Hf). destruct Hf as [Hk _]. unfold fits, wordOf in *. lia. Qed.

Lemma wordOf_header k vs : fitsLayout k vs -> Z.shiftr (wordOf k vs) 28 = Z.of_nat k.
Proof.
  intros Hf. pose proof (num_layout k vs Hf) as Hn. unfold wordOf. rewrite Z.shiftr_div_pow2 by lia.
  rewrite (Z.mul_comm (2 ^ 28)), Z.div_add, Z.div_small; [done | exact Hn | lia].
Qed.

(** The codes of a word are the low digits of its value, the last one first. *)
Lemma codesOf_digits k v :
  (k < 9)%nat -> fits 32 v ->
  codesOf (Z.of_nat k) (Ok v) = Ok (rev (map Ok (digits (Z.of_nat (width k)) (codeNum k) v))).
Proof.
  intros Hk Hv. change (Ok v) with (wmon [v] (WVal 0)).
  assert (Forall (fits (Z.of_nat 32)) (take 1 [v])) as Hf by (by constructor).
  assert (num (Z.of_nat 32) (take 1 [v]) = v) as Hnum by (cbn; lia).
  assert (forall len es, checkDigits 1 32 len 0 es = true ->
    map (wmon [v]) (rev es) = rev (map Ok (digits (Z.of_nat len) (length es) v))) as Hes.
  { intros len es Hc. rewrite map_rev. f_equal.
    rewrite (checkDigits_ok [v] 1 32 len 0 es Hc ltac:(cbn; lia) ltac:(lia) Hf), Hnum. unfold digits.
    by rewrite map_map. }
  apply (layout_cases k); [done|..]; cbv beta iota delta [codesOf Z.of_nat Pos.of_succ_nat Pos.succ];
    (lazymatch goal with |- Ok ?ts = _ =>
       let es := reifyList constr:([v]) ts in
       let es' := eval cbv in (rev es) in
       let k := lazymatch goal with |- context [codeNum ?k] => k end in
       let len := eval cbv in (width k) in
       exact (f_equal Ok (Hes len es' eq_refl))
     end).
Qed.

(** A word decodes to the codes it was made of. *)
Lemma codesOf_wordOf k vs :
  fitsLayout k vs -> codesOf (Z.of_nat k) (Ok (wordOf k vs)) = Ok (map Ok vs).
Proof.
  intros Hf. pose proof (wordOf_fits k vs Hf). pose proof (num_layout k vs Hf) as Hn28.
  pose proof Hf as (Hk & Hl & Hv). rewrite codesOf_digits by done. destruct (layout_size k Hk) as (? & ? & ?).
  assert (digits (Z.of_nat (width k)) (codeNum k) (wordOf k vs) = rev vs) as ->.
  { rewrite (digits_ext _ _ _ (num (Z.of_nat (width k)) (rev vs))); [|lia|].
    - rewrite <- Hl, <- length_rev. apply digits_num; [lia | by apply Forall_rev].
    - intros i Hi. unfold wordOf. rewrite (testbit_push _ _ 28 4) by (done || (unfold fits; lia)).
      rewrite (proj2 (Z.ltb_lt _ _)) by nia. done. }
  by rewrite <- map_rev, rev_involutive.
Qed.

(** [ws] encodes the values [vs]. *)
Inductive encodes : list Z -> list Z -> Prop :=
| encodes_nil : encodes [] []
| encodes_cons k vs ws vs' :
    fitsLayout k vs -> encodes ws vs' -> encodes (wordOf k vs :: ws) (vs ++ vs').

Lemma encodes_length ws vs : encodes ws vs -> (length ws <= length vs)%nat.
Proof.
  induction 1 as [|k vs ws vs' (Hk & Hl & _) _ IH]; [done|].
  destruct (layout_size k Hk) as (? & ? & ?). rewrite length_app. cbn. lia.
Qed.

Lemma encodes_fits ws vs : encodes ws vs -> Forall (fits 32) ws.
Proof. induction 1; constructor; [by apply wordOf_fits | done]. Qed.

Lemma encodes_snoc ws vs k vs' :
  encodes ws vs -> fitsLayout k vs' -> encodes (ws ++ [wordOf k vs']) (vs ++ vs').
Proof.
  intros He Hk. induction He as [|k0 vs0 ws vs1 H0 _ IH]; cbn.
  - pose proof (encodes_cons k vs' [] [] Hk encodes_nil) as H. by rewrite app_nil_r in H.
  - rewrite <- app_assoc. by constructor.
Qed.

(** ** The encoder *)

Lemma drop_cons (l : list Z) i v : l !! i = Some v -> drop i l = v :: drop (S i) l.
Proof. apply drop_S. Qed.

(** The inner loop: either all values fit and are packed, or it stops before the end. *)
Lemma fill_ok left i curPos b r src :
  0 <= i -> 0 <= curPos -> 0 < b -> b * (i + Z.of_nat left) <= 28 -> fits (b * i) r ->
  curPos + i + Z.of_nat left <= Z.of_nat (length src) -> Z.of_nat (length src) < 2 ^ 32 ->
  Forall (fits 28) src ->
  let vs := take left (drop (Z.to_nat (curPos + i)) src) in
  (Forall (fits b) vs /\
   fill left i curPos b r src = Ok (i + Z.of_nat left, 2 ^ (b * Z.of_nat left) * r + num b (rev vs))) \/
  (~ Forall (fits b) vs /\ exists i' r', fill left i curPos b r src = Ok (i', r') /\ i' < i + Z.of_nat left).
Proof.
  intros Hi Hc Hb. revert i Hi r. induction left as [|left IH]; intros i Hi r Hbits Hr Hlen Hmax Hsrc vs; cbn [fill].
  { left. split; [constructor|]. subst vs. change (num b (rev (take 0 _))) with 0. rewrite Z.mul_0_r, Z.pow_0_r.
    do 2 f_equal; [lia | ring]. }
  destruct (lookup_lt_is_Some_2 src (Z.to_nat (curPos + i)) ltac:(lia)) as [v Hv].
  subst vs. rewrite (drop_cons _ _ _ Hv). cbn [take]. rewrite u32_small by lia. rewrite Hv. cbn [deref res_bind].
  assert (fits 28 v) as Hv28 by (by eapply Forall_lookup_1 in Hsrc).
  assert (u32 (Z.shiftl 1 b) = 2 ^ b) as ->.
  { rewrite Z.shiftl_1_l, u32_small; [done|]. pose proof (Z.pow_lt_mono_r 2 b 32 ltac:(lia) ltac:(lia) ltac:(lia)). lia. }
  destruct (Z.ltb_spec v (2 ^ b)) as [Hlt|Hge].
  - assert (fits b v) as Hfv by (unfold fits in *; lia).
    assert (u32 (u32 (Z.shiftl r b) + v) = r * 2 ^ b + v /\ fits (b * (i + 1)) (r * 2 ^ b + v)) as [-> Hr'].
    { assert (fits (b * (i + 1)) (r * 2 ^ b + v)) as Hf.
      { unfold fits in *. replace (b * (i + 1)) with (b * i + b) by lia. rewrite Z.pow_add_r by nia. nia. }
      pose proof (fits_le (b * (i + 1)) 32 _ ltac:(nia) ltac:(nia) Hf) as Hf32. unfold fits in *.
      rewrite Z.shiftl_mul_pow2 by lia. rewrite (u32_small (r * 2 ^ b)), u32_small by nia. done. }
    replace (S (Z.to_nat (curPos + i))) with (Z.to_nat (curPos + (i + 1))) by lia.
    destruct (IH (i + 1) ltac:(lia) (r * 2 ^ b + v) ltac:(nia) Hr' ltac:(lia) Hmax Hsrc)
      as [[Hf ->]|(Hf & i' & r' & -> & Hi')].
    + left. split; [by constructor|]. f_equal. f_equal; [lia|]. cbn [rev]. rewrite num_snoc by lia.
      rewrite length_rev, length_take, length_drop.
      replace (left `min` (length src - Z.to_nat (curPos + (i + 1))))%nat with left by lia.
      replace (b * Z.of_nat (S left)) with (b + b * Z.of_nat left) by lia. rewrite Z.pow_add_r by nia. ring.
    + right. split; [intros Hall; apply Hf; by inversion Hall|]. exists i', r'. split; [done | lia].
  - right. split; [intros Hall; inversion Hall; unfold fits in *; lia|]. exists i, r. split; [done | lia].
Qed.

Lemma lor_header k n : (k < 9)%nat -> fits 28 n -> Z.lor n (u32 (Z.shiftl (Z.of_nat k) 28)) = n + 2 ^ 28 * Z.of_nat k.
Proof.
  intros Hk Hn. rewrite u32_small by (rewrite Z.shiftl_mul_pow2 by lia; lia).
  apply Z.bits_inj'. intros i Hi. rewrite (testbit_push n (Z.of_nat k) 28 4) by (done || (unfold fits; lia)).
  rewrite Z.lor_spec, Z.shiftl_spec by lia. destruct (Z.ltb_spec i 28).
  - rewrite (Z.testbit_neg_r (Z.of_nat k)) by lia. apply orb_false_r.
  - rewrite (testbit_high n 28) by (done || lia). done.
Qed.

Lemma layout_tables k :
  (k < 9)%nat -> CODE_NUM !! k = Some (Z.of_nat (codeNum k)) /\ BIT_LENGTH !! k = Some (Z.of_nat (width k)).
Proof. intros H. apply (layout_cases k); done. Qed.

Lemma tryLayouts_ok left k dest src resNum curPos srcLen :
  (k + left = 9)%nat -> (0 < left)%nat -> 0 <= curPos < srcLen -> srcLen <= Z.of_nat (length src) ->
  Z.of_nat (length src) + 32 < 2 ^ 32 -> Forall (fits 28) src ->
  0 <= resNum < Z.of_nat (length dest) -> resNum + 1 < 2 ^ 32 ->
  exists k', let vs := take (codeNum k') (drop (Z.to_nat curPos) src) in
    fitsLayout k' vs /\ curPos + Z.of_nat (codeNum k') <= srcLen /\
    tryLayouts left k dest src resNum curPos srcLen =
      Ok (<[Z.to_nat resNum := wordOf k' vs]> dest, resNum + 1, curPos + Z.of_nat (codeNum k')).
Proof.
  intros Hk Hleft Hcur Hlen Hmax Hsrc Hres Hres'. revert k Hk Hleft.
  induction left as [|left IH]; intros k Hk Hleft; [lia|]. cbn [tryLayouts].
  destruct (layout_tables k ltac:(lia)) as [-> Hw]. cbn [deref res_bind].
  destruct (layout_size k ltac:(lia)) as (Hwk & Hnk & Hwn). rewrite u32_small by nia.
  assert (k = 8%nat -> codeNum k = 1%nat /\ width k = 28%nat) as H8 by (by intros ->).
  destruct (Z.leb_spec srcLen (curPos + Z.of_nat (codeNum k) - 1)).
  { apply IH; lia. }
  rewrite Hw. cbn [deref res_bind]. rewrite Nat2Z.id.
  destruct (fill_ok (codeNum k) 0 curPos (Z.of_nat (width k)) 0 src ltac:(lia) ltac:(lia) ltac:(lia) ltac:(nia)
      ltac:(unfold fits; rewrite Z.mul_0_r; cbn; lia) ltac:(lia) ltac:(lia) Hsrc)
    as [[Hf ->]|(Hf & i' & r' & -> & Hi')]; cbn [res_bind]; rewrite Z.add_0_l in *; rewrite Z.add_0_r in *.
  - rewrite Z.eqb_refl. exists k. cbv zeta. set (vs := take _ _) in *.
    assert (fitsLayout k vs) as Hfit.
    { split_and!; [lia | | done]. unfold vs. rewrite length_take, length_drop. lia. }
    split; [done|]. split; [lia|]. rewrite Z.mul_0_r, Z.add_0_l, lor_header by (lia || by apply num_layout).
    fold (wordOf k vs). rewrite store_ok by lia. cbn [res_bind].
    unfold cast. rewrite Z.mod_small by (by apply wordOf_fits). by rewrite !u32_small by lia.
  - rewrite (proj2 (Z.eqb_neq _ _)) by lia. destruct (8 <=? k)%nat eqn:E.
    + exfalso. apply Nat.leb_le in E. destruct (H8 ltac:(lia)) as [Hc Hw28].
      apply Hf. rewrite Hw28. by apply Forall_take, Forall_drop.
    + apply Nat.leb_gt in E. apply IH; lia.
Qed.

Lemma encodeLoop_ok fuel dest src ws curPos srcLen :
  0 <= curPos <= srcLen -> srcLen - curPos < Z.of_nat fuel -> srcLen <= Z.of_nat (length src) ->
  Z.of_nat (length src) + 32 < 2 ^ 32 -> Forall (fits 28) src ->
  encodes ws (take (Z.to_nat curPos) src) ->
  Z.of_nat (length ws) + (srcLen - curPos) <= Z.of_nat (length dest) ->
  take (length ws) dest = ws ->
  exists ws', encodes ws' (take (Z.to_nat srcLen) src) /\ (length ws <= length ws')%nat /\
    encodeLoop fuel dest src (Z.of_nat (length ws)) curPos srcLen =
      Ok (ws' ++ drop (length ws') dest, Z.of_nat (length ws')).
Proof.
  revert dest ws curPos.
  induction fuel as [|fuel IH]; intros dest ws curPos Hcur Hfuel Hlen Hmax Hsrc Henc Hd Hw; [lia|].
  cbn [encodeLoop]. destruct (Z.ltb_spec curPos srcLen) as [Hlt|Hge].
  2:{ replace curPos with srcLen in * by lia. exists ws. split_and!; [done..|].
      f_equal. f_equal. rewrite <- (take_drop (length ws) dest) at 1. by rewrite Hw. }
  pose proof (encodes_length _ _ Henc) as Hwl. rewrite length_take in Hwl.
  destruct (tryLayouts_ok 9 0 dest src (Z.of_nat (length ws)) curPos srcLen ltac:(lia) ltac:(lia) ltac:(lia)
      ltac:(lia) Hmax Hsrc ltac:(lia) ltac:(lia)) as (k & Hfit & Hcn & ->). cbn [res_bind].
  set (vs := take (codeNum k) _) in *. pose proof Hfit as (Hk & Hl & _). destruct (layout_size k Hk) as (? & ? & ?).
  replace (Z.of_nat (length ws) + 1) with (Z.of_nat (length (ws ++ [wordOf k vs]))) by (rewrite length_app; cbn; lia).
  rewrite Nat2Z.id.
  destruct (IH (<[length ws := wordOf k vs]> dest) (ws ++ [wordOf k vs]) (curPos + Z.of_nat (codeNum k)))
    as (ws' & Henc' & Hle & ->); try done; try lia.
  - replace (Z.to_nat (curPos + Z.of_nat (codeNum k))) with (Z.to_nat curPos + codeNum k)%nat by lia.
    rewrite take_add_drop. by apply encodes_snoc.
  - rewrite length_insert, length_app. cbn [length]. lia.
  - rewrite length_app. cbn [length]. rewrite Nat.add_1_r.
    rewrite (take_S_r _ _ (wordOf k vs)) by (apply list_lookup_insert_eq; lia).
    rewrite take_insert_ge by lia. by rewrite Hw.
  - rewrite length_app in Hle. cbn in Hle. exists ws'. split_and!; [done | lia|].
    by rewrite drop_insert_lt by lia.
Qed.

(** Values of 28 bits are encoded, in no more words than there are values. *)
Lemma Encode_ok dest src srcLen :
  0 <= srcLen <= Z.of_nat (length src) -> Z.of_nat (length src) + 32 < 2 ^ 32 -> Forall (fits 28) src ->
  srcLen <= Z.of_nat (length dest) ->
  exists ws, encodes ws (take (Z.to_nat srcLen) src) /\
    Encode dest src srcLen = Ok (ws ++ drop (length ws) dest, Z.of_nat (length ws)).
Proof.
  intros Hlen Hmax Hsrc Hd. unfold Encode.
  destruct (encodeLoop_ok (S (Z.to_nat srcLen)) dest src [] 0 srcLen) as (ws & He & _ & Heq);
    try done; try (cbn [length]; lia); [constructor|]. exists ws. split; [done | exact Heq].
Qed.

(** ** The decoder *)

Lemma decodeLoop_ok w ws vs pre dest src0 rest :
  encodes ws vs -> (length vs <= length dest)%nat ->
  decodeLoop w (length ws) (length src0) (pre ++ dest) (src0 ++ ws ++ rest) (length pre) =
  Ok (pre ++ map (cast w) vs ++ drop (length vs) dest, (length pre + length vs)%nat).
Proof.
  intros He. revert pre dest src0. induction He as [|k vs ws vs' Hk He IH]; intros pre dest src0 Hd; cbn [decodeLoop length].
  { cbn. by rewrite Nat.add_0_r. }
  rewrite lookup_app_r, Nat.sub_diag by lia. cbn [lookup list_lookup deref res_bind app].
  rewrite wordOf_header, codesOf_wordOf by done. cbn [res_bind].
  rewrite length_app in Hd. rewrite storeFrom_ok by lia. cbn [res_bind]. rewrite length_map.
  replace (src0 ++ wordOf k vs :: ws ++ rest) with ((src0 ++ [wordOf k vs]) ++ ws ++ rest) by (by rewrite <- app_assoc).
  replace (S (length src0)) with (length (src0 ++ [wordOf k vs])) by (rewrite length_app; cbn; lia).
  rewrite app_assoc. replace (length pre + length vs)%nat with (length (pre ++ map (cast w) vs))
    by (by rewrite length_app, length_map).
  rewrite IH by (rewrite length_drop; lia).
  rewrite map_app, !length_app, length_map, drop_drop, <- !app_assoc, Nat.add_assoc. done.
Qed.

(** What was encoded is decoded. *)
Lemma Decode_ok w ws vs dest rest :
  encodes ws vs -> (length vs <= length dest)%nat ->
  Decode w dest (ws ++ rest) (Z.of_nat (length ws)) = Ok (map (cast w) vs ++ drop (length vs) dest, length vs).
Proof.
  intros He Hd. unfold Decode. rewrite Nat2Z.id. exact (decodeLoop_ok w ws vs [] dest [] rest He Hd).
Qed.

End S9.
