(* ===== verification/PForDelta.v ===== *)
(** * NosseNewPForDeltaCompressor and NewPForDeltaCompressor

    The block codec of posting lists, src/aios/storage/indexlib/index/common/numeric_compress/
    NosseNewPfordeltaCompressor.h and .cpp, and NewPfordeltaCompressor.h and .cpp, which differ from them in two
    places. A block of up to 128 values is packed with a number of bits that
    leaves at most a tenth of them too large; the upper bits of these exceptions and the distances
    between them follow as S9 codes. [w] is the width of the template's value type: 8, 16 or 32.

    Arrays and pointers are lists (see WordCode). Length arguments that are only counted down or
    asserted on are left out; failed assertions of the [switch] are [Undefined]. Arrays on the stack that
    the code leaves uninitialised start as zeros; no theorem depends on what they hold. [CompressBlock]
    computes [1 << frameBits] also for 32 bits, where the shift is undefined and its value not used. *)

From stdpp Require Import base list numbers option tactics.
From Stdlib Require Import ZArith Lia ZifyNat.
From S2P Require Import Prelude WordCode WordStream Pack Unpack Unpack6Sse S9Compressor DecompressSse4.

#[local] Open Scope Z_scope.
#[local] Open Scope word_scope.

Module PFor.

Definition EXCEPTION_THRESHOLD_RATE : Z := 10.
Definition BLOCK_SIZE : Z := 128.
Definition HEADER_INT_SIZE : Z := 1.

Definition SAME_VALUE_INLINE : Z := 255.
Definition SAME_VALUE_ALONE : Z := 254.
Definition INCREASE_VALUE_INLINE : Z := 253.
Definition INCREASE_VALUE_ALONE : Z := 252.
Definition DECREASE_VALUE_INLINE : Z := 251.
Definition DECREASE_VALUE_ALONE : Z := 250.

Definition BASIC_MASK : list Z :=
  [0; 1; 3; 7; 15; 31; 63; 127; 255; 511; 1023; 2047; 4095; 8191; 16383; 32767; 65535; 131071;
   262143; 524287; 1048575; 2097151; 4194303; 8388607; 16777215; 33554431; 67108863; 134217727;
   268435455; 536870911; 1073741823; 2147483647; 4294967295].

Definition FRAME_BIT_MAP : list Z :=
  [0; 1; 2; 3; 4; 5; 6; 7; 8; 9; 10; 11; 12; 13; 14; 15; 16; 17; 18; 19; 20; 21; 22; 23; 24; 25; 26; 27; 28;
   29; 30; 32; 32].

(** ** The header: bit fields of a word *)

Record Header := mkHeader {
  isLastBlock : Z;
  exceptionIntRange : Z;
  frameBits : Z;
  firstExceptionPos : Z;
  dataNum : Z
}.

(** [NosseNewPForDeltaCompressorHeader(uint32_t x)] *)
Definition headerOf (x : Z) : Header :=
  mkHeader (field 0 1 x) (field 1 11 x) (field 12 5 x) (field 17 8 x) (field 25 7 x).

Definition ToUint32 (h : Header) : Z :=
  isLastBlock h + 2 ^ 1 * exceptionIntRange h + 2 ^ 12 * frameBits h + 2 ^ 17 * firstExceptionPos h
  + 2 ^ 25 * dataNum h.

Definition MakeHeader (bits firstPos codeLen intRange : Z) (lastBlock : bool) : Z :=
  let lastOrNot := if lastBlock then 1 else 0 in
  let bits := if 32 <=? bits then 31 else bits in
  ToUint32 (mkHeader (lastOrNot mod 2 ^ 1) (intRange mod 2 ^ 11) (bits mod 2 ^ 5) (firstPos mod 2 ^ 8)
    (u32 (codeLen - 1) mod 2 ^ 7)).

Definition GetCompressedLength (header : Z) : Z :=
  let h := headerOf header in
  let num := dataNum h + 1 in
  let bits := if frameBits h =? 31 then 32 else frameBits h in
  let pos := firstExceptionPos h in
  if (pos =? SAME_VALUE_INLINE) || (pos =? INCREASE_VALUE_INLINE) || (pos =? DECREASE_VALUE_INLINE)
  then HEADER_INT_SIZE
  else if (pos =? SAME_VALUE_ALONE) || (pos =? INCREASE_VALUE_ALONE) || (pos =? DECREASE_VALUE_ALONE)
  then HEADER_INT_SIZE + 1
  else HEADER_INT_SIZE + (num * bits + 31) / 32 + exceptionIntRange h.

Definition IsLastBlock (header : Z) : bool := negb (isLastBlock (headerOf header) =? 0).

(** ** The two compressors

    [NewPForDeltaCompressor] is the same code but for two places: which values are stored inline, and the
    functions that [DecompressBlock<uint32_t>] unpacks with. What a compressor brings is a class; its two
    instances are the two classes. [unpackTable w] is the table of [DecompressBlock<T>] for values of [w] bits. *)

Class Compressor : Type := {
  IsUniqValueStoreInline : Z -> bool;
  unpackTable : Z -> list (list Z -> list Z -> Z -> res (list Z))
}.

Definition nosse_IsUniqValueStoreInline (value : Z) : bool := value <? 2047.
Definition sse_IsUniqValueStoreInline (value : Z) : bool := value <=? 2047.
Definition sse_unpackTable (w : Z) : list (list Z -> list Z -> Z -> res (list Z)) :=
  if w =? 32 then unpack_sse_func else unpack_func w.

Definition NosseNewPForDeltaCompressor : Compressor :=
  {| IsUniqValueStoreInline := nosse_IsUniqValueStoreInline; unpackTable := unpack_func_of |}.
Definition NewPForDeltaCompressor : Compressor :=
  {| IsUniqValueStoreInline := sse_IsUniqValueStoreInline; unpackTable := sse_unpackTable |}.

(** ** Small helpers *)

(** [bsrl] with [-1] for zero, plus one. *)
Definition HighBitIdx (value : Z) : Z := if value =? 0 then 0 else Z.log2 value + 1.


(** Blocks of sixteen stores, then the rest. *)
Definition FastMemSet (w : Z) (dest : list Z) (destLen value : Z) : res (list Z) :=
  let maxBlocks := Z.shiftr destLen 4 in
  let rest := destLen mod 16 in
  upToMaxBlocks maxBlocks 0 16 (fun dest _ =>
    storeAll w dest [Ok value; Ok value; Ok value; Ok value; Ok value; Ok value; Ok value; Ok value;
                     Ok value; Ok value; Ok value; Ok value; Ok value; Ok value; Ok value; Ok value]
  ) (fun dest _ => storeAll w dest (replicate (Z.to_nat rest) (Ok value))) dest [].

Definition FastMemZero (dest : list Z) (destLen : Z) : res (list Z) := FastMemSet 32 dest destLen 0.

(** ** Choosing the number of bits *)

(** [firstValue + (T)i] and [firstValue - (T)i]: types narrower than [int] are promoted. *)
Definition addT (w a b : Z) : Z := if w <? 32 then a + b else u32 (a + b).
Definition subT (w a b : Z) : Z := if w <? 32 then a - b else u32 (a - b).

Record Scan := mkScan {
  firstValue : Z;
  isAllSame : bool;
  isIncrease : bool;
  isDecrease : bool;
  maxBits : Z;
  numBitArray : list Z
}.

Definition scanStep (w i v : Z) (s : Scan) : res Scan :=
  let first := if i =? 0 then v else firstValue s in
  let ti := i mod 2 ^ w in
  let highBit := HighBitIdx v in
  let! c := deref (numBitArray s !! Z.to_nat highBit) in
  Ok (mkScan first
        (if isAllSame s then v =? first else false)
        (if isIncrease s then v =? addT w first ti else false)
        (if isDecrease s then v =? subT w first ti else false)
        (if maxBits s <? highBit then highBit else maxBits s)
        (<[Z.to_nat highBit := u32 (c + 1)]> (numBitArray s))).

Fixpoint scanBlock (w : Z) (left i : nat) (block : list Z) (s : Scan) : res Scan :=
  match left with
  | O => Ok s
  | S left' =>
      let! v := deref (block !! i) in
      let! s := scanStep w (Z.of_nat i) v s in
      scanBlock w left' (S i) block s
  end.

(** [for (int j = 1; j < 33; j++) numBitArray[j] += numBitArray[j - 1];] *)
Fixpoint prefixSums (acc : Z) (l : list Z) : list Z :=
  match l with
  | [] => []
  | x :: l' => let y := u32 (x + acc) in y :: prefixSums y l'
  end.

Definition bytesPerException (exceptionBits : Z) : Z :=
  if exceptionBits <=? 7 then 2 else if exceptionBits <=? 9 then 3 else if exceptionBits <=? 14 then 4 else 8.

(** The loop over the frame widths from [n - 1] down: [bestFrameBits] and [numExceptions]. *)
Fixpoint selectLoop (n : nat) (blkLen maxBits maxExceptionNum : Z) (sums : list Z)
    (bestTotalBytes bestFrameBits numExceptions : Z) : res (Z * Z) :=
  match n with
  | O => Ok (bestFrameBits, numExceptions)
  | S i =>
      let! m := deref (FRAME_BIT_MAP !! i) in
      if negb (m =? Z.of_nat i)
      then selectLoop i blkLen maxBits maxExceptionNum sums bestTotalBytes bestFrameBits numExceptions
      else
        let bits := Z.of_nat i in
        let! c := deref (sums !! i) in
        let exceptionNum := u32 (blkLen - c) in
        if (maxExceptionNum <? exceptionNum) || (bits + 28 <? maxBits) then Ok (bestFrameBits, numExceptions)
        else
          let exceptionBits := maxBits - bits in
          let bytesForFrame := u32 ((blkLen * bits + 31) / 32 * 4) in
          let bytesForException := u32 ((exceptionNum * bytesPerException (u32 exceptionBits) + 3) / 4 * 4) in
          let totalBytes := u32 (bytesForException + bytesForFrame) in
          if totalBytes <? bestTotalBytes
          then selectLoop i blkLen maxBits maxExceptionNum sums totalBytes bits exceptionNum
          else selectLoop i blkLen maxBits maxExceptionNum sums bestTotalBytes bestFrameBits numExceptions
  end.

(** [SelectCompressBits]: the number of bits and [numExceptions]. *)
Definition SelectCompressBits {C : Compressor} (w : Z) (block : list Z) (blkLen : Z) (enableBlockOpt : bool) : res (Z * Z) :=
  let! s := scanBlock w (Z.to_nat blkLen) 0 block (mkScan 0 true true true 0 (replicate 33 0)) in
  if maxBits s =? 0 then Ok (0, 0)
  else if enableBlockOpt && isAllSame s then
    Ok (0, if IsUniqValueStoreInline (firstValue s) then SAME_VALUE_INLINE else SAME_VALUE_ALONE)
  else if enableBlockOpt && isIncrease s then
    Ok (0, if IsUniqValueStoreInline (firstValue s) then INCREASE_VALUE_INLINE else INCREASE_VALUE_ALONE)
  else if enableBlockOpt && isDecrease s then
    let! baseValue :=
      if 0 <? blkLen then deref (block !! Z.to_nat (blkLen - 1)) else Ok (firstValue s) in
    Ok (0, if IsUniqValueStoreInline baseValue then DECREASE_VALUE_INLINE else DECREASE_VALUE_ALONE)
  else
    let sums := prefixSums 0 (numBitArray s) in
    let maxExceptionNum := u32 (blkLen * EXCEPTION_THRESHOLD_RATE / 100) in
    let! top := deref (FRAME_BIT_MAP !! Z.to_nat (maxBits s)) in
    selectLoop (S (Z.to_nat top)) blkLen (maxBits s) maxExceptionNum sums (u32 (4 * blkLen)) 32 0.

(** ** Compressing a block *)

(** [Pack]: the function of the table for this number of bits. *)
Definition Pack (dest src : list Z) (srcLen bits : Z) : res (list Z) :=
  let! f := deref (pack_func !! Z.to_nat bits) in f dest src srcLen.

(** The header and the packed values, on cleared words. *)
Definition headerAndPack (dest : list Z) (bits header : Z) (code : list Z) (codeLen : Z) : res (list Z) :=
  let! dest := store 32 dest 0 (Ok header) in
  let! packed := Pack (drop 1 dest) code codeLen bits in
  Ok (take 1 dest ++ packed).

(** [for (i = 0; i < n; i++) exceptionDatum[2 * i + off] = vals[i];] *)
Fixpoint interleaveAt (left i : nat) (off : nat) (vals datum : list Z) : res (list Z) :=
  match left with
  | O => Ok datum
  | S left' =>
      let! v := deref (vals !! i) in
      let! datum := store 32 datum (2 * i + off) (Ok v) in
      interleaveAt left' (S i) off vals datum
  end.

Definition TransformToFrame (dest : list Z) (bits firstPos : Z) (code : list Z) (codeLen : Z)
    (exception exceptionOffset : list Z) (numExceptions : Z) (lastBlock : bool) : res (list Z * Z) :=
  let exceptionOffsetIntSize := HEADER_INT_SIZE + (codeLen * bits + 31) / 32 in
  if firstPos =? 0 then
    let! dest := FastMemZero dest exceptionOffsetIntSize in
    let! dest := headerAndPack dest bits (MakeHeader bits firstPos codeLen 0 lastBlock) code codeLen in
    Ok (dest, exceptionOffsetIntSize)
  else
    let exceptionOffsetNum := u32 (numExceptions - 1) in
    let! datum := interleaveAt (Z.to_nat numExceptions) 0 0 exception (replicate 128 0) in
    let! datum := interleaveAt (Z.to_nat exceptionOffsetNum) 0 1 exceptionOffset datum in
    let size := Z.to_nat exceptionOffsetIntSize in
    let! (tail, exceptionRange) := S9.Encode (drop size dest) datum (exceptionOffsetNum + numExceptions) in
    let dest := take size dest ++ tail in
    let! dest := FastMemZero dest exceptionOffsetIntSize in
    let! dest := headerAndPack dest bits (MakeHeader bits firstPos codeLen exceptionRange lastBlock) code codeLen in
    Ok (dest, exceptionOffsetIntSize + exceptionRange).

Definition isAlone (numExceptions : Z) : bool :=
  (numExceptions =? SAME_VALUE_ALONE) || (numExceptions =? INCREASE_VALUE_ALONE)
  || (numExceptions =? DECREASE_VALUE_ALONE).

Definition TransformToSpecialFrame (dest code : list Z) (codeLen numExceptions : Z) (lastFlag : bool)
    : res (list Z * Z) :=
  let storeAlone := isAlone numExceptions in
  let exceptionOffsetIntSize := if storeAlone then HEADER_INT_SIZE + 1 else HEADER_INT_SIZE in
  let! dest := FastMemZero dest exceptionOffsetIntSize in
  let! value :=
    if (numExceptions =? DECREASE_VALUE_ALONE) || (numExceptions =? DECREASE_VALUE_INLINE)
    then deref (code !! Z.to_nat (codeLen - 1)) else deref (code !! 0%nat) in
  let! dest := store 32 dest 0 (Ok (MakeHeader 0 numExceptions codeLen (if storeAlone then 0 else value) lastFlag)) in
  let! dest := if storeAlone then store 32 dest 1 (Ok value) else Ok dest in
  Ok (dest, exceptionOffsetIntSize).

(** Loop 1: copy the values and note the positions of the exceptions; [j] counts them. *)
Fixpoint findExceptions (w max : Z) (left i : nat) (src code miss : list Z) (j : nat)
    : res (list Z * list Z * nat) :=
  match left with
  | O => Ok (code, miss, j)
  | S left' =>
      let! val := deref (src !! i) in
      let! code := store w code i (Ok val) in
      let! miss := store w miss j (Ok (Z.of_nat i)) in
      findExceptions w max left' (S i) src code miss (if max <=? val then S j else j)
  end.

(** [exception = code[cur] >> frameBits; code[cur] = code[cur] & BASIC_MASK[frameBits];] *)
Definition splitCode (w bits : Z) (code : list Z) (cur : Z) : res (Z * list Z) :=
  let! x := deref (code !! Z.to_nat cur) in
  let! m := deref (BASIC_MASK !! Z.to_nat bits) in
  let! code := store w code (Z.to_nat cur) (Ok (Z.land x m)) in
  Ok (u32 (Z.shiftr x bits), code).

(** Loop 2, from [i] on. *)
Fixpoint splitExceptions (w bits : Z) (left i : nat) (pre : Z) (miss code exception exceptionOffset : list Z)
    : res (list Z * list Z * list Z) :=
  match left with
  | O => Ok (code, exception, exceptionOffset)
  | S left' =>
      let! cur := deref (miss !! i) in
      let! (e, code) := splitCode w bits code cur in
      let! exception := store 32 exception i (Ok e) in
      let! exceptionOffset := store 32 exceptionOffset (i - 1) (Ok (u32 (cur - pre - 1))) in
      splitExceptions w bits left' (S i) cur miss code exception exceptionOffset
  end.

Definition isSpecial (n : Z) : bool :=
  (n =? SAME_VALUE_ALONE) || (n =? SAME_VALUE_INLINE) || (n =? INCREASE_VALUE_ALONE)
  || (n =? INCREASE_VALUE_INLINE) || (n =? DECREASE_VALUE_ALONE) || (n =? DECREASE_VALUE_INLINE).

Definition CompressBlock (w : Z) (dest src : list Z) (srcLen bits numExceptions : Z) (lastBlock : bool)
    : res (list Z * Z) :=
  let max := Z.shiftl 1 bits mod 2 ^ w in
  let code := replicate 128 0 in
  if numExceptions =? 0 then TransformToFrame dest bits 0 src srcLen [] [] 0 lastBlock
  else if isSpecial numExceptions then TransformToSpecialFrame dest src srcLen numExceptions lastBlock
  else
    let! (code, miss, j) := findExceptions w max (Z.to_nat srcLen) 0 src code (replicate 128 0) 0 in
    let! cur := deref (miss !! 0%nat) in
    let! (e, code) := splitCode w bits code cur in
    let! exception := store 32 (replicate 128 0) 0 (Ok e) in
    let! (code, exception, exceptionOffset) :=
      splitExceptions w bits (j - 1) 1 cur miss code exception (replicate 128 0) in
    let! first := deref (miss !! 0%nat) in
    let firstPos := first + 1 in
    TransformToFrame dest bits firstPos code srcLen exception exceptionOffset numExceptions lastBlock.

(** [Compress]: block after block; [left] blocks are to go. Returns what [dest] holds and the number of
    words written. *)
Fixpoint compressBlocks {C : Compressor} (w : Z) (enableBlockOpt : bool) (left : nat) (dest src : list Z) (srcLeft : Z)
    : res (list Z * Z) :=
  match left with
  | O => Ok (dest, 0)
  | S left' =>
      let len := if srcLeft <=? BLOCK_SIZE then srcLeft else BLOCK_SIZE in
      let! (bestFrameBits, bestExceptions) := SelectCompressBits w src len enableBlockOpt in
      let! (dest, blkCompSize) :=
        CompressBlock w dest src len bestFrameBits bestExceptions (match left' with O => true | _ => false end) in
      let n := Z.to_nat blkCompSize in
      let! (rest, size) :=
        compressBlocks w enableBlockOpt left' (drop n dest) (drop (Z.to_nat BLOCK_SIZE) src) (srcLeft - BLOCK_SIZE) in
      Ok (take n dest ++ rest, blkCompSize + size)
  end.

Definition Compress {C : Compressor} (w : Z) (enableBlockOpt : bool) (dest src : list Z) (srcLen : Z) : res (list Z * Z) :=
  let totalBlk := (srcLen + BLOCK_SIZE - 1) / BLOCK_SIZE in
  compressBlocks w enableBlockOpt (Z.to_nat totalBlk) dest src srcLen.

(** ** Decompressing a block *)

(** The two kinds of statement of [S9Decode]: [dest[currentPos] |= e << frameBits] and
    [currentPos += e + 1]. *)
Inductive PatchStep : Type :=
| Patch (e : res Z)
| Skip (e : res Z).

Definition patchStep (w bits : Z) (p : PatchStep) (st : list Z * Z) : res (list Z * Z) :=
  let '(dest, currentPos) := st in
  match p with
  | Patch e =>
      let! v := e << bits in
      let! x := deref (dest !! Z.to_nat currentPos) in
      let! dest := store w dest (Z.to_nat currentPos) (Ok (Z.lor x v)) in
      Ok (dest, currentPos)
  | Skip e => let! v := e in Ok (dest, currentPos + (v + 1))
  end.

Fixpoint patchSteps (w bits : Z) (ps : list PatchStep) (st : list Z * Z) : res (list Z * Z) :=
  match ps with
  | [] => Ok st
  | p :: ps' => let! st := patchStep w bits p st in patchSteps w bits ps' st
  end.

(** The [switch] of [S9Decode], the cases that start with a distance: the statements of a case and the new
    [head]. *)
Definition s9OddCase (header : Z) (val : res Z) : res (list PatchStep * Z) :=
  match header with
  | 16 => Ok (
      [Skip ((val << 4) >> 31); Patch ((val << 5) >> 31); Skip ((val << 6) >> 31);
       Patch ((val << 7) >> 31); Skip ((val << 8) >> 31); Patch ((val << 9) >> 31);
       Skip ((val << 10) >> 31); Patch ((val << 11) >> 31); Skip ((val << 12) >> 31);
       Patch ((val << 13) >> 31); Skip ((val << 14) >> 31); Patch ((val << 15) >> 31);
       Skip ((val << 16) >> 31); Patch ((val << 17) >> 31); Skip ((val << 18) >> 31);
       Patch ((val << 19) >> 31); Skip ((val << 20) >> 31); Patch ((val << 21) >> 31);
       Skip ((val << 22) >> 31); Patch ((val << 23) >> 31); Skip ((val << 24) >> 31);
       Patch ((val << 25) >> 31); Skip ((val << 26) >> 31); Patch ((val << 27) >> 31);
       Skip ((val << 28) >> 31); Patch ((val << 29) >> 31); Skip ((val << 30) >> 31);
       Patch ((val << 31) >> 31)], 16)
  | 17 => Ok (
      [Skip ((val << 4) >> 30); Patch ((val << 6) >> 30); Skip ((val << 8) >> 30);
       Patch ((val << 10) >> 30); Skip ((val << 12) >> 30); Patch ((val << 14) >> 30);
       Skip ((val << 16) >> 30); Patch ((val << 18) >> 30); Skip ((val << 20) >> 30);
       Patch ((val << 22) >> 30); Skip ((val << 24) >> 30); Patch ((val << 26) >> 30);
       Skip ((val << 28) >> 30); Patch ((val << 30) >> 30)], 16)
  | 18 => Ok (
      [Skip ((val << 5) >> 29); Patch ((val << 8) >> 29); Skip ((val << 11) >> 29);
       Patch ((val << 14) >> 29); Skip ((val << 17) >> 29); Patch ((val << 20) >> 29);
       Skip ((val << 23) >> 29); Patch ((val << 26) >> 29); Skip ((val << 29) >> 29)], 0)
  | 19 => Ok (
      [Skip ((val << 4) >> 28); Patch ((val << 8) >> 28); Skip ((val << 12) >> 28);
       Patch ((val << 16) >> 28); Skip ((val << 20) >> 28); Patch ((val << 24) >> 28);
       Skip ((val << 28) >> 28)], 0)
  | 20 => Ok (
      [Skip ((val << 7) >> 27); Patch ((val << 12) >> 27); Skip ((val << 17) >> 27);
       Patch ((val << 22) >> 27); Skip ((val << 27) >> 27)], 0)
  | 21 => Ok (
      [Skip ((val << 4) >> 25); Patch ((val << 11) >> 25); Skip ((val << 18) >> 25);
       Patch ((val << 25) >> 25)], 16)
  | 22 => Ok (
      [Skip ((val << 5) >> 23); Patch ((val << 14) >> 23); Skip ((val << 23) >> 23)], 0)
  | 23 => Ok (
      [Skip ((val << 4) >> 18); Patch ((val << 18) >> 18)], 16)
  | 24 => Ok (
      [Skip ((val << 4) >> 4)], 0)
  | _ => Undefined
  end.

(** The whole [switch]: the other cases start with the bits of an exception. *)
Definition s9Case (header : Z) (val : res Z) : res (list PatchStep * Z) :=
  match header with
  | 0 => Ok (
      [Patch ((val << 4) >> 31); Skip ((val << 5) >> 31); Patch ((val << 6) >> 31);
       Skip ((val << 7) >> 31); Patch ((val << 8) >> 31); Skip ((val << 9) >> 31);
       Patch ((val << 10) >> 31); Skip ((val << 11) >> 31); Patch ((val << 12) >> 31);
       Skip ((val << 13) >> 31); Patch ((val << 14) >> 31); Skip ((val << 15) >> 31);
       Patch ((val << 16) >> 31); Skip ((val << 17) >> 31); Patch ((val << 18) >> 31);
       Skip ((val << 19) >> 31); Patch ((val << 20) >> 31); Skip ((val << 21) >> 31);
       Patch ((val << 22) >> 31); Skip ((val << 23) >> 31); Patch ((val << 24) >> 31);
       Skip ((val << 25) >> 31); Patch ((val << 26) >> 31); Skip ((val << 27) >> 31);
       Patch ((val << 28) >> 31); Skip ((val << 29) >> 31); Patch ((val << 30) >> 31);
       Skip ((val << 31) >> 31)], 0)
  | 1 => Ok (
      [Patch ((val << 4) >> 30); Skip ((val << 6) >> 30); Patch ((val << 8) >> 30);
       Skip ((val << 10) >> 30); Patch ((val << 12) >> 30); Skip ((val << 14) >> 30);
       Patch ((val << 16) >> 30); Skip ((val << 18) >> 30); Patch ((val << 20) >> 30);
       Skip ((val << 22) >> 30); Patch ((val << 24) >> 30); Skip ((val << 26) >> 30);
       Patch ((val << 28) >> 30); Skip ((val << 30) >> 30)], 0)
  | 2 => Ok (
      [Patch ((val << 5) >> 29); Skip ((val << 8) >> 29); Patch ((val << 11) >> 29);
       Skip ((val << 14) >> 29); Patch ((val << 17) >> 29); Skip ((val << 20) >> 29);
       Patch ((val << 23) >> 29); Skip ((val << 26) >> 29); Patch ((val << 29) >> 29)], 16)
  | 3 => Ok (
      [Patch ((val << 4) >> 28); Skip ((val << 8) >> 28); Patch ((val << 12) >> 28);
       Skip ((val << 16) >> 28); Patch ((val << 20) >> 28); Skip ((val << 24) >> 28);
       Patch ((val << 28) >> 28)], 16)
  | 4 => Ok (
      [Patch ((val << 7) >> 27); Skip ((val << 12) >> 27); Patch ((val << 17) >> 27);
       Skip ((val << 22) >> 27); Patch ((val << 27) >> 27)], 16)
  | 5 => Ok (
      [Patch ((val << 4) >> 25); Skip ((val << 11) >> 25); Patch ((val << 18) >> 25);
       Skip ((val << 25) >> 25)], 0)
  | 6 => Ok (
      [Patch ((val << 5) >> 23); Skip ((val << 14) >> 23); Patch ((val << 23) >> 23)], 16)
  | 7 => Ok (
      [Patch ((val << 4) >> 18); Skip ((val << 18) >> 18)], 0)
  | 8 => Ok (
      [Patch ((val << 4) >> 4)], 16)
  | _ => s9OddCase header val
  end.

Fixpoint S9DecodeLoop (w bits : Z) (left i : nat) (src : list Z) (head : Z) (st : list Z * Z) : res (list Z * Z) :=
  match left with
  | O => Ok st
  | S left' =>
      let! val := deref (src !! i) in
      let header := u32 (Z.shiftr val 28 + head) in
      let! (steps, head) := s9Case header (Ok val) in
      let! st := patchSteps w bits steps st in
      S9DecodeLoop w bits left' (S i) src head st
  end.

Definition S9Decode (w : Z) (dest src : list Z) (srcLen firstPos bits : Z) : res (list Z) :=
  let! (dest, _) := S9DecodeLoop w bits (Z.to_nat srcLen) 0 src 0 (dest, firstPos) in Ok dest.

(** [for (uint32_t i = 0; i < dataNum; i++) dest[i] = (T)value + (T)i;], or from the end. *)
Fixpoint fillSequence (w : Z) (left i : nat) (dest : list Z) (value dataNum : Z) (fromEnd : bool) : res (list Z) :=
  match left with
  | O => Ok dest
  | S left' =>
      let pos := if fromEnd then (Z.to_nat dataNum - i - 1)%nat else i in
      let! dest := store w dest pos (Ok (value mod 2 ^ w + Z.of_nat i mod 2 ^ w)) in
      fillSequence w left' (S i) dest value dataNum fromEnd
  end.

(** [TryDecompressSpecialBlock]: [None] when it returns false, else [dest] and how far [src] moves. *)
Definition TryDecompressSpecialBlock (w : Z) (dest : list Z) (num firstPos intRange : Z) (src : list Z)
    : res (option (list Z * nat)) :=
  if firstPos =? SAME_VALUE_INLINE then
    let! dest := FastMemSet w dest num intRange in Ok (Some (dest, 1%nat))
  else if firstPos =? SAME_VALUE_ALONE then
    let! value := deref (src !! 1%nat) in
    let! dest := FastMemSet w dest num value in Ok (Some (dest, 2%nat))
  else if firstPos =? INCREASE_VALUE_INLINE then
    let! dest := fillSequence w (Z.to_nat num) 0 dest intRange num false in Ok (Some (dest, 1%nat))
  else if firstPos =? INCREASE_VALUE_ALONE then
    let! value := deref (src !! 1%nat) in
    let! dest := fillSequence w (Z.to_nat num) 0 dest value num false in Ok (Some (dest, 2%nat))
  else if firstPos =? DECREASE_VALUE_INLINE then
    let! dest := fillSequence w (Z.to_nat num) 0 dest intRange num true in Ok (Some (dest, 1%nat))
  else if firstPos =? DECREASE_VALUE_ALONE then
    let! value := deref (src !! 1%nat) in
    let! dest := fillSequence w (Z.to_nat num) 0 dest value num true in Ok (Some (dest, 2%nat))
  else Ok None.

(** What a block is read into: [dest], [src] after it, the number of values, [isLastBlock]. *)
Definition DecompressBlock {C : Compressor} (w : Z) (dest src : list Z) : res (list Z * list Z * Z * bool) :=
  let! x := deref (src !! 0%nat) in
  let header := headerOf x in
  let num := dataNum header + 1 in
  let firstPos := firstExceptionPos header in
  let bits := if frameBits header =? 31 then 32 else frameBits header in
  let intRange := exceptionIntRange header in
  let last := negb (isLastBlock header =? 0) in
  let! special := TryDecompressSpecialBlock w dest num firstPos intRange src in
  match special with
  | Some (dest, n) => Ok (dest, drop n src, num, last)
  | None =>
      let! f := deref (unpackTable w !! Z.to_nat bits) in
      let! dest := f dest (drop 1 src) num in
      let intOffsetForExceptionRange := HEADER_INT_SIZE + (num * bits + 31) / 32 in
      let! dest :=
        if negb (firstPos =? 0)
        then S9Decode w dest (drop (Z.to_nat intOffsetForExceptionRange) src) intRange (firstPos - 1) bits
        else Ok dest in
      Ok (dest, drop (Z.to_nat (intOffsetForExceptionRange + intRange)) src, num, last)
  end.

(** [Decompress]: what [dest] holds and the number of values. *)
Fixpoint decompressBlocks {C : Compressor} (w : Z) (fuel : nat) (dest src : list Z) : res (list Z * Z) :=
  match fuel with
  | O => OutOfFuel
  | S fuel' =>
      let! (dest, src, num, last) := DecompressBlock w dest src in
      if (last : bool) then Ok (dest, num)
      else
        let! (rest, size) := decompressBlocks w fuel' (drop (Z.to_nat num) dest) src in
        Ok (take (Z.to_nat num) dest ++ rest, num + size)
  end.
Definition Decompress {C : Compressor} (w : Z) (dest src : list Z) : res (list Z * Z) :=
  decompressBlocks w (S (length src)) dest src.

(** ** The instances *)

Definition CompressInt32 {C : Compressor} (dest src : list Z) (srcLen : Z) (enableBlockOpt : bool) : res (list Z * Z) :=
  Compress 32 enableBlockOpt dest src srcLen.
Definition CompressInt16 {C : Compressor} (dest src : list Z) (srcLen : Z) (enableBlockOpt : bool) : res (list Z * Z) :=
  Compress 16 enableBlockOpt dest src srcLen.
Definition CompressInt8 {C : Compressor} (dest src : list Z) (srcLen : Z) (enableBlockOpt : bool) : res (list Z * Z) :=
  Compress 8 enableBlockOpt dest src srcLen.
Definition DecompressInt32 {C : Compressor} (dest src : list Z) : res (list Z * Z) := Decompress 32 dest src.
Definition DecompressInt16 {C : Compressor} (dest src : list Z) : res (list Z * Z) := Decompress 16 dest src.
Definition DecompressInt8 {C : Compressor} (dest src : list Z) : res (list Z * Z) := Decompress 8 dest src.

(** [NewPForDeltaIntEncoder<T, Compressor>] *)
Definition MAX_RECORD_SIZE : Z := 128.
Definition ENCODER_BUFFER_SIZE : Z := MAX_RECORD_SIZE + MAX_RECORD_SIZE / 2.

(** [Encode(uint8_t* dest, const T* src, uint32_t srcLen)]: the length is in bytes. *)
Definition IntEncode {C : Compressor} (w : Z) (enableBlockOpt : bool) (dest src : list Z) (srcLen : Z) : res (list Z * Z) :=
  let! (dest, len) := Compress w enableBlockOpt dest src srcLen in Ok (dest, u32 (len * 4)).

End PFor.
