(* ===== verification/PForDeltaFrames.v ===== *)
(** * Frames of the block codec

    Headers, cleared memory, special blocks and the packed part of a block: what [DecompressBlock] reads back
    from what the [TransformTo...] functions write. *)

From stdpp Require Import base list numbers option tactics.
From Stdlib Require Import ZArith Lia ZifyNat.
From S2P Require Import Prelude Bits WordCode WordStream BlockLoops Pack Unpack Unpack6Sse DecompressSse4 PackCorrect UnpackCorrect DecompressSse4Correct S9Compressor PForDelta.

#[local] Open Scope Z_scope.

Module Frames.
Import PFor.

(** ** What a compressor has to bring *)

Class CompressorLaws (C : Compressor) : Prop := {
  inline_fits (x : Z) : 0 <= x -> IsUniqValueStoreInline x = true -> fits 11 x;
  unpackTable_length (w : Z) : length (unpackTable w) = 33%nat;
  unpackTable_unpacks (w : Z) (k : nat) f (n : Z) :
    unpackTable w !! k = Some f -> 0 <= n < 2 ^ 31 -> unpacks w k (Z.to_nat n) (fun d e => f d e n)
}.

#[export] Instance nosse_laws : CompressorLaws NosseNewPForDeltaCompressor.
Proof.
  split.
  - intros x Hx Hi%Z.ltb_lt. unfold fits. lia.
  - intros w. cbn. unfold unpack_func_of. by destruct (w =? 32).
  - intros w k f n. apply unpack_func_of_unpacks.
Qed.

#[export] Instance sse_laws : CompressorLaws NewPForDeltaCompressor.
Proof.
  split.
  - intros x Hx Hi%Z.leb_le. unfold fits. lia.
  - intros w. cbn. unfold sse_unpackTable. by destruct (w =? 32).
  - intros w k f n. cbn. unfold sse_unpackTable.
    destruct (Z.eqb_spec w 32) as [->|]; [apply unpack_sse_func_unpacks | apply unpack_func_unpacks].
Qed.

(** ** Cleared memory *)

Lemma storeAll_replicate w dest n v :
  (n <= length dest)%nat ->
  storeAll w dest (replicate n (Ok v)) = Ok (replicate n (cast w v) ++ drop n dest).
Proof.
  intros H. rewrite <- (fmap_replicate Ok). change (Ok <$> ?l) with (map Ok l).
  rewrite storeAll_ok by (by rewrite length_replicate). rewrite length_replicate. do 2 f_equal.
  change (map (cast w) ?l) with (cast w <$> l). by rewrite fmap_replicate.
Qed.

Lemma FastMemSet_ok w dest n v :
  (n <= length dest)%nat -> FastMemSet w dest (Z.of_nat n) v = Ok (replicate n (cast w v) ++ drop n dest).
Proof.
  intros Hn. unfold FastMemSet, upToMaxBlocks. rewrite Z.shiftr_div_pow2 by lia. change (2 ^ 4) with 16.
  pose proof (Z.div_mod (Z.of_nat n) 16 ltac:(lia)). pose proof (Z.mod_pos_bound (Z.of_nat n) 16 ltac:(lia)).
  pose proof (Z.div_pos (Z.of_nat n) 16 ltac:(lia) ltac:(lia)).
  set (r := Z.to_nat (Z.of_nat n mod 16)). set (nb := Z.to_nat (Z.of_nat n / 16)).
  assert (n = 16 * nb + r)%nat as Hsum by lia. clearbody r nb. subst n. clear -Hn.
  revert dest Hn. induction nb as [|nb IH]; intros dest Hn; cbn [maxBlocksLoop].
  - apply storeAll_replicate. lia.
  - unfold block. change [Ok v; Ok v; _; _; _; _; _; _; _; _; _; _; _; _; _; _] with (replicate 16 (Ok v)).
    rewrite storeAll_replicate by lia. cbn [res_bind]. rewrite drop_app_length', take_app_length' by done.
    rewrite drop_nil, IH by (rewrite length_drop; lia). cbn [res_bind].
    rewrite app_assoc, <- replicate_add, drop_drop. do 2 f_equal; f_equal; lia.
Qed.

Lemma FastMemZero_ok dest n :
  (n <= length dest)%nat -> FastMemZero dest (Z.of_nat n) = Ok (replicate n 0 ++ drop n dest).
Proof. intros. unfold FastMemZero. rewrite FastMemSet_ok by done. done. Qed.

(** ** Headers *)

Definition wfHeader (h : Header) : Prop :=
  fits 1 (isLastBlock h) /\ fits 11 (exceptionIntRange h) /\ fits 5 (frameBits h) /\
  fits 8 (firstExceptionPos h) /\ fits 7 (dataNum h).

Lemma headerOf_ToUint32 h : wfHeader h -> headerOf (ToUint32 h) = h.
Proof.
  destruct h as [l e f p d]. unfold wfHeader, fits, headerOf, ToUint32, field. cbn. intros (? & ? & ? & ? & ?).
  rewrite !Z.shiftr_div_pow2 by lia.
  change (2 ^ 0) with 1. change (2 ^ 1) with 2. change (2 ^ 11) with 2048. change (2 ^ 12) with 4096.
  change (2 ^ 5) with 32. change (2 ^ 17) with 131072. change (2 ^ 8) with 256. change (2 ^ 25) with 33554432.
  change (2 ^ 7) with 128. change (Z.pow_pos 2 1) with 2 in *. change (Z.pow_pos 2 11) with 2048 in *.
  change (Z.pow_pos 2 5) with 32 in *. change (Z.pow_pos 2 8) with 256 in *. change (Z.pow_pos 2 7) with 128 in *.
  f_equal; Z.div_mod_to_equations; lia.
Qed.

Lemma ToUint32_fits h : wfHeader h -> fits 32 (ToUint32 h).
Proof. destruct h as [l e f p d]. unfold wfHeader, fits, ToUint32. cbn. lia. Qed.

(** What [SelectCompressBits] chooses. *)
Definition frameWidth (bits : Z) : Prop := 0 <= bits <= 30 \/ bits = 32.

Definition storedBits (bits : Z) : Z := if 32 <=? bits then 31 else bits.

Lemma MakeHeader_eq (bits pos len range : Z) (last : bool) :
  frameWidth bits -> fits 8 pos -> 1 <= len <= 128 -> fits 11 range ->
  let h := mkHeader (if last then 1 else 0) range (storedBits bits) pos (len - 1) in
  MakeHeader bits pos len range last = ToUint32 h /\ wfHeader h.
Proof.
  intros Hb Hp Hl Hr. unfold fits in *.
  assert (0 <= storedBits bits < 2 ^ 5) as Hs by (unfold storedBits, frameWidth in *; destruct (Z.leb_spec 32 bits); lia).
  split.
  - unfold MakeHeader. fold (storedBits bits). rewrite u32_small by lia.
    rewrite (Z.mod_small (storedBits bits)), (Z.mod_small range), (Z.mod_small pos), (Z.mod_small (len - 1)) by lia.
    by destruct last.
  - unfold wfHeader, fits. cbn -[Z.pow]. destruct last; lia.
Qed.

Lemma readBits bits : frameWidth bits -> (if storedBits bits =? 31 then 32 else storedBits bits) = bits.
Proof.
  unfold storedBits, frameWidth. intros H. destruct (Z.leb_spec 32 bits).
  - cbn. lia.
  - destruct (Z.eqb_spec bits 31); lia.
Qed.

(** ** The packed part *)

(** The words of [n] values of [bits] bits. *)
Definition wordsFor (n bits : Z) : nat := ceil (Z.to_nat bits * Z.to_nat n) 32.

Lemma wordsFor_eq n bits : 0 <= n -> 0 <= bits -> (n * bits + 31) / 32 = Z.of_nat (wordsFor n bits).
Proof.
  intros. unfold wordsFor, ceil. rewrite Nat2Z.inj_div, Nat2Z.inj_add, Nat2Z.inj_mul.
  rewrite !Z2Nat.id by lia. rewrite (Z.mul_comm bits). done.
Qed.

Definition frameWords (n bits : Z) (code : list Z) : list Z :=
  digits 32 (wordsFor n bits) (num bits (take (Z.to_nat n) code)).

Lemma frameWords_length n bits code : length (frameWords n bits code) = wordsFor n bits.
Proof. apply digits_length. Qed.

Lemma table_lookup {A : Type} (l : list A) bits :
  0 <= bits -> (Z.to_nat bits < length l)%nat -> exists f, l !! Z.to_nat bits = Some f.
Proof. intros. apply lookup_lt_is_Some_2. done. Qed.

Lemma headerAndPack_ok bits h code n tail :
  frameWidth bits -> 1 <= n <= 128 -> (Z.to_nat n <= length code)%nat ->
  Forall (fits bits) (take (Z.to_nat n) code) -> fits 32 h ->
  headerAndPack (replicate (1 + wordsFor n bits) 0 ++ tail) bits h code n =
  Ok (h :: frameWords n bits code ++ tail).
Proof.
  intros Hb Hn Hlen Hf Hh. unfold headerAndPack. cbn [replicate app Nat.add].
  rewrite store_ok by (cbn; lia). cbn [res_bind insert list_insert drop take].
  rewrite take_0, drop_0.
  unfold cast. rewrite Z.mod_small by exact Hh. unfold Pack.
  destruct (table_lookup pack_func bits) as [f Hft]; [unfold frameWidth in Hb; lia | unfold frameWidth in Hb; cbn; lia|].
  rewrite Hft. cbn [deref res_bind].
  pose proof (pack_func_converts _ f n Hft ltac:(lia)) as Hc.
  rewrite (converts_eq _ _ _ _ _ _ _ Hc).
  - rewrite Z2Nat.id by (unfold frameWidth in Hb; lia). cbn [res_bind].
    rewrite map_cast_fits by (by apply digits_fits). unfold frameWords, wordsFor.
    rewrite drop_app_length' by (by rewrite length_replicate). done.
  - rewrite length_app, length_replicate. unfold wordsFor. lia.
  - done.
  - rewrite Z2Nat.id by (unfold frameWidth in Hb; lia). done.
  - intros _. unfold wordsFor. rewrite take_app_length' by (by rewrite length_replicate). by apply Forall_replicate.
Qed.

(** Reading the packed part back. *)
Lemma unpackFrame_ok {D : Compressor} {DL : CompressorLaws D} w bits code n dest rest f :
  unpackTable w !! Z.to_nat bits = Some f ->
  frameWidth bits -> 1 <= n <= 128 -> (Z.to_nat n <= length code)%nat ->
  Forall (fits bits) (take (Z.to_nat n) code) -> Forall (fits w) (take (Z.to_nat n) code) ->
  (Z.to_nat n <= length dest)%nat ->
  f dest (frameWords n bits code ++ rest) n = Ok (take (Z.to_nat n) code ++ drop (Z.to_nat n) dest).
Proof.
  intros Hft Hb Hn Hlen Hfb Hfw Hd. assert (0 <= bits) by (unfold frameWidth in Hb; lia).
  unfold frameWords, wordsFor. assert (length (take (Z.to_nat n) code) = Z.to_nat n) as Hl by (rewrite length_take; lia).
  set (vs := take (Z.to_nat n) code) in *. clearbody vs. rewrite <- Hl. rewrite <- (Z2Nat.id n), <- Hl by lia.
  rewrite <- (Z2Nat.id bits) in Hfb |- * by done. rewrite !Nat2Z.id. apply (unpacks_reads w); try done; try lia.
  pose proof (unpackTable_unpacks w _ f (Z.of_nat (length vs)) Hft ltac:(lia)) as Hu. by rewrite Nat2Z.id in Hu.
Qed.

(** ** Blocks that decode to values *)

(** The words [ws] decode to the values [vs]: [DecompressBlock] writes them and moves past [ws], whatever
    follows. *)
Definition decodesTo (w : Z) (ws vs : list Z) (last : bool) : Prop :=
  forall (D : Compressor), CompressorLaws D -> forall dest rest, (length vs <= length dest)%nat ->
    DecompressBlock w dest (ws ++ rest) = Ok (vs ++ drop (length vs) dest, rest, Z.of_nat (length vs), last).

(** The header says how long the block is and whether it is the last one. *)
Definition headerTells (ws : list Z) (last : bool) : Prop :=
  exists h t, ws = h :: t /\ GetCompressedLength h = Z.of_nat (length ws) /\ IsLastBlock h = last.

(** What compressing a block yields: at most [m] words that decode to the values, written to the front of
    [dest]. *)
Definition compressesTo (w : Z) (m : nat) (r : res (list Z * Z)) (dest vs : list Z) (last : bool) : Prop :=
  exists ws, r = Ok (ws ++ drop (length ws) dest, Z.of_nat (length ws)) /\ (length ws <= m)%nat /\
    Forall (fits 32) ws /\ headerTells ws last /\ decodesTo w ws vs last.

Lemma compressesTo_mono w m m' r dest vs last :
  (m <= m')%nat -> compressesTo w m r dest vs last -> compressesTo w m' r dest vs last.
Proof. intros Hm (ws & Hr & Hl & Hrest). exists ws. split_and!; [done | lia | apply Hrest..]. Qed.

Definition notSpecialPos (pos : Z) : Prop := 0 <= pos < 250.

Lemma TryDecompress_no w dest n pos range src :
  notSpecialPos pos -> TryDecompressSpecialBlock w dest n pos range src = Ok None.
Proof.
  unfold notSpecialPos. intros H. unfold TryDecompressSpecialBlock, SAME_VALUE_INLINE, SAME_VALUE_ALONE,
    INCREASE_VALUE_INLINE, INCREASE_VALUE_ALONE, DECREASE_VALUE_INLINE, DECREASE_VALUE_ALONE.
  by do 6 rewrite (proj2 (Z.eqb_neq pos _)) by lia.
Qed.

Lemma last_flag (last : bool) : negb ((if last then 1 else 0) =? 0) = last.
Proof. by destruct last. Qed.

(** ** Special blocks *)

Lemma fillSequence_up w left i dest value n :
  (i + left <= length dest)%nat ->
  fillSequence w left i dest value n false =
  Ok (take i dest ++ map (fun j => cast w (value mod 2 ^ w + Z.of_nat j mod 2 ^ w)) (seq i left)
      ++ drop (i + left) dest).
Proof.
  revert i dest. induction left as [|left IH]; intros i dest H; cbn [fillSequence seq map].
  { cbn [app]. by rewrite Nat.add_0_r, take_drop. }
  rewrite store_ok by lia. cbn [res_bind]. rewrite IH by (rewrite length_insert; lia).
  rewrite (take_S_r _ _ (cast w (value mod 2 ^ w + Z.of_nat i mod 2 ^ w))) by (apply list_lookup_insert_eq; lia).
  rewrite take_insert_ge, drop_insert_lt by lia. rewrite <- app_assoc. cbn [app].
  by replace (S i + left)%nat with (i + S left)%nat by lia.
Qed.

Lemma fillSequence_down w left i dest value n :
  (i + left = n)%nat -> (n <= length dest)%nat ->
  fillSequence w left i dest value (Z.of_nat n) true =
  Ok (map (fun j => cast w (value mod 2 ^ w + Z.of_nat (n - 1 - j) mod 2 ^ w)) (seq 0 left) ++ drop left dest).
Proof.
  revert i dest. induction left as [|left IH]; intros i dest Hi H; cbn [fillSequence]; [done|].
  rewrite Nat2Z.id, store_ok by lia. cbn [res_bind]. rewrite IH by (rewrite ?length_insert; lia).
  f_equal. rewrite seq_S, map_app, <- app_assoc. cbn [map app Nat.add]. f_equal.
  replace (n - i - 1)%nat with left by lia. replace (n - 1 - left)%nat with i by lia.
  rewrite drop_insert_ge, Nat.sub_diag by lia.
  destruct (lookup_lt_is_Some_2 dest left ltac:(lia)) as [x Hx]. rewrite (drop_S dest x left Hx). done.
Qed.

(** The values a special position stands for. *)
Definition specialValues (w value : Z) (pos : Z) (n : nat) : list Z :=
  if (pos =? SAME_VALUE_INLINE) || (pos =? SAME_VALUE_ALONE) then replicate n (cast w value)
  else if (pos =? INCREASE_VALUE_INLINE) || (pos =? INCREASE_VALUE_ALONE)
  then map (fun j => cast w (value mod 2 ^ w + Z.of_nat j mod 2 ^ w)) (seq 0 n)
  else map (fun j => cast w (value mod 2 ^ w + Z.of_nat (n - 1 - j) mod 2 ^ w)) (seq 0 n).

Lemma specialValues_length w value pos n : length (specialValues w value pos n) = n.
Proof.
  unfold specialValues. destruct (_ || _); [by rewrite length_replicate|].
  destruct (_ || _); by rewrite length_map, length_seq.
Qed.

Lemma isSpecial_cases pos :
  isSpecial pos = true ->
  pos = SAME_VALUE_ALONE \/ pos = SAME_VALUE_INLINE \/ pos = INCREASE_VALUE_ALONE \/
  pos = INCREASE_VALUE_INLINE \/ pos = DECREASE_VALUE_ALONE \/ pos = DECREASE_VALUE_INLINE.
Proof. unfold isSpecial. rewrite !orb_true_iff, !Z.eqb_eq. tauto. Qed.

Lemma TryDecompress_yes w dest n pos value range src :
  isSpecial pos = true -> (n <= length dest)%nat ->
  (if isAlone pos then src !! 1%nat = Some value else range = value) ->
  TryDecompressSpecialBlock w dest (Z.of_nat n) pos range src =
  Ok (Some (specialValues w value pos n ++ drop n dest, if isAlone pos then 2%nat else 1%nat)).
Proof.
  intros Hs Hn Hv. destruct (isSpecial_cases pos Hs) as [->|[->|[->|[->|[->| ->]]]]]; clear Hs;
    cbn -[FastMemSet fillSequence cast seq map Z.of_nat] in *; try subst range; rewrite ?Hv; cbn [deref res_bind];
    rewrite ?FastMemSet_ok by done; rewrite ?Nat2Z.id.
  all: try (rewrite fillSequence_up by lia). all: try (rewrite (fillSequence_down _ n 0 dest value n) by lia).
  all: cbn [res_bind take app Nat.add]; rewrite ?take_0; done.
Qed.

Lemma special_header pos n range last :
  isSpecial pos = true -> 1 <= n <= 128 -> fits 11 range ->
  let h := mkHeader (if last : bool then 1 else 0) range 0 pos (n - 1) in
  MakeHeader 0 pos n range last = ToUint32 h /\ wfHeader h.
Proof.
  intros Hs Hn Hr. apply (MakeHeader_eq 0 pos n range last); [left; lia | | done | done].
  unfold fits. destruct (isSpecial_cases pos Hs) as [->|[->|[->|[->|[->| ->]]]]]; done.
Qed.

Lemma special_length pos x :
  isSpecial pos = true ->
  (if (pos =? SAME_VALUE_INLINE) || (pos =? INCREASE_VALUE_INLINE) || (pos =? DECREASE_VALUE_INLINE)
   then HEADER_INT_SIZE
   else if (pos =? SAME_VALUE_ALONE) || (pos =? INCREASE_VALUE_ALONE) || (pos =? DECREASE_VALUE_ALONE)
   then HEADER_INT_SIZE + 1 else x) = Z.of_nat (if isAlone pos then 2 else 1).
Proof. by intros [->|[->|[->|[->|[->| ->]]]]]%isSpecial_cases. Qed.

(** A special block of the values it stands for. *)
Lemma TransformToSpecialFrame_ok w dest code n pos value last :
  isSpecial pos = true -> (0 < n <= 128)%nat -> (n <= length code)%nat -> (2 <= length dest)%nat ->
  code !! (if (pos =? DECREASE_VALUE_ALONE) || (pos =? DECREASE_VALUE_INLINE) then (n - 1)%nat else 0%nat) = Some value ->
  fits 32 value -> (isAlone pos = false -> fits 11 value) ->
  specialValues w value pos n = take n code ->
  compressesTo w 2 (TransformToSpecialFrame dest code (Z.of_nat n) pos last) dest (take n code) last.
Proof.
  intros Hs Hn Hc Hd Hv Hf Hin Hvals. unfold TransformToSpecialFrame.
  set (size := if isAlone pos then 2%nat else 1%nat).
  replace (if isAlone pos then HEADER_INT_SIZE + 1 else HEADER_INT_SIZE) with (Z.of_nat size)
    by (unfold size; by destruct (isAlone pos)).
  assert (size <= length dest)%nat by (unfold size; destruct (isAlone pos); lia).
  rewrite FastMemZero_ok by done. cbn [res_bind].
  assert ((if (pos =? DECREASE_VALUE_ALONE) || (pos =? DECREASE_VALUE_INLINE)
           then deref (code !! Z.to_nat (Z.of_nat n - 1)) else deref (code !! 0%nat)) = Ok value) as ->.
  { destruct (_ || _); [replace (Z.to_nat _) with (n - 1)%nat by lia|]; by rewrite Hv. }
  cbn [res_bind]. set (range := if isAlone pos then 0 else value).
  assert (fits 11 range) as Hr by (unfold range; destruct (isAlone pos); [unfold fits; lia | by apply Hin]).
  destruct (special_header pos (Z.of_nat n) range last Hs ltac:(lia) Hr) as [-> Hwf].
  set (h := mkHeader _ _ _ _ _) in *. pose proof (ToUint32_fits h Hwf) as Hh.
  set (ws := ToUint32 h :: if isAlone pos then [value] else []).
  assert (length ws = size) as Hws by (unfold ws, size; by destruct (isAlone pos)).
  exists ws. split_and!.
  - rewrite store_ok by (rewrite length_app, length_replicate; unfold size; destruct (isAlone pos); lia).
    unfold cast. rewrite Z.mod_small by exact Hh. cbn [res_bind]. rewrite Hws. unfold ws, size.
    destruct (isAlone pos); cbn [replicate app insert list_insert]; [|done].
    rewrite store_ok by (cbn; lia). cbn [res_bind insert list_insert]. unfold cast. by rewrite Z.mod_small by exact Hf.
  - rewrite Hws. unfold size. destruct (isAlone pos); lia.
  - unfold ws. constructor; [done|]. destruct (isAlone pos); repeat constructor; apply Hf.
  - exists (ToUint32 h), (if isAlone pos then [value] else []). split; [done|]. rewrite Hws.
    unfold GetCompressedLength, IsLastBlock. rewrite headerOf_ToUint32 by done.
    cbn [dataNum firstExceptionPos frameBits exceptionIntRange isLastBlock h]. rewrite last_flag.
    split; [|done]. by apply special_length.
  - intros D DL d rest Hl. rewrite length_take in *. unfold DecompressBlock.
    assert ((ws ++ rest) !! 0%nat = Some (ToUint32 h)) as -> by done. cbn [deref res_bind].
    rewrite headerOf_ToUint32 by done.
    cbn [dataNum firstExceptionPos frameBits exceptionIntRange isLastBlock h].
    replace (Z.of_nat n - 1 + 1) with (Z.of_nat n) by lia. rewrite last_flag.
    rewrite (TryDecompress_yes w d n pos value range) by
      (done || lia || (unfold range, ws; destruct (isAlone pos); done)).
    cbn [res_bind]. rewrite Hvals. rewrite Nat.min_l by lia. do 4 f_equal.
    rewrite drop_app_length'; [done|]. by rewrite Hws.
Qed.

(** ** Plain frames and frames with exceptions *)

Lemma decodesTo_frame w bits pos n code ws9 vs last :
  frameWidth bits -> notSpecialPos pos -> 1 <= Z.of_nat n <= 128 -> (n <= length code)%nat ->
  Forall (fits bits) (take n code) -> Forall (fits w) (take n code) -> fits 11 (Z.of_nat (length ws9)) ->
  length vs = n ->
  (forall dest rest, (n <= length dest)%nat ->
     (if negb (pos =? 0)
      then S9Decode w (take n code ++ drop n dest) (ws9 ++ rest) (Z.of_nat (length ws9)) (pos - 1) bits
      else Ok (take n code ++ drop n dest)) = Ok (vs ++ drop n dest)) ->
  decodesTo w (MakeHeader bits pos (Z.of_nat n) (Z.of_nat (length ws9)) last
               :: frameWords (Z.of_nat n) bits code ++ ws9) vs last.
Proof.
  intros Hb Hp Hn Hc Hfb Hfw Hr Hvs Hpatch D DL dest rest Hd. assert (0 <= bits) by (unfold frameWidth in Hb; lia).
  destruct (MakeHeader_eq bits pos (Z.of_nat n) (Z.of_nat (length ws9)) last Hb
    ltac:(unfold notSpecialPos, fits in *; lia) Hn Hr) as [-> Hwf].
  set (h := mkHeader _ _ _ _ _) in *. unfold DecompressBlock. cbn [app lookup list_lookup deref res_bind].
  rewrite headerOf_ToUint32 by done. cbn [dataNum firstExceptionPos frameBits exceptionIntRange isLastBlock h].
  rewrite TryDecompress_no, last_flag, readBits by done. cbn [res_bind].
  replace (Z.of_nat n - 1 + 1) with (Z.of_nat n) by lia.
  destruct (table_lookup (unpackTable w) bits) as [f Hft]; [done | rewrite unpackTable_length; unfold frameWidth in Hb; lia|].
  rewrite Hft. cbn [deref res_bind drop]. rewrite drop_0, <- app_assoc.
  pose proof (unpackFrame_ok w bits code (Z.of_nat n) dest (ws9 ++ rest) f Hft Hb Hn) as Hu.
  rewrite Nat2Z.id in Hu. rewrite Hu by (done || lia). cbn [res_bind].
  rewrite wordsFor_eq by lia. change HEADER_INT_SIZE with 1.
  set (W := wordsFor (Z.of_nat n) bits) in *.
  assert (length (frameWords (Z.of_nat n) bits code) = W) as HW by apply frameWords_length.
  replace (Z.to_nat (1 + Z.of_nat W)) with (S W) by lia. cbn [drop].
  rewrite (drop_app_length' (frameWords (Z.of_nat n) bits code)) by done.
  rewrite Hpatch by lia. cbn [res_bind].
  replace (Z.to_nat (1 + Z.of_nat W + Z.of_nat (length ws9))) with (S (W + length ws9)) by lia. cbn [drop].
  rewrite <- drop_drop, (drop_app_length' (frameWords (Z.of_nat n) bits code)), drop_app_length by done.
  by rewrite Hvs.
Qed.

Lemma frame_headerTells bits pos n code ws9 last :
  frameWidth bits -> notSpecialPos pos -> 1 <= Z.of_nat n <= 128 -> fits 11 (Z.of_nat (length ws9)) ->
  headerTells (MakeHeader bits pos (Z.of_nat n) (Z.of_nat (length ws9)) last
               :: frameWords (Z.of_nat n) bits code ++ ws9) last.
Proof.
  intros Hb Hp Hn Hr. assert (0 <= bits) by (unfold frameWidth in Hb; lia).
  destruct (MakeHeader_eq bits pos (Z.of_nat n) (Z.of_nat (length ws9)) last Hb
    ltac:(unfold notSpecialPos, fits in *; lia) Hn Hr) as [-> Hwf].
  set (h := mkHeader _ _ _ _ _) in *. eexists _, _. split; [done|].
  unfold GetCompressedLength, IsLastBlock. rewrite headerOf_ToUint32 by done.
  cbn [dataNum firstExceptionPos frameBits exceptionIntRange isLastBlock h]. rewrite last_flag, readBits by done.
  split; [|done]. unfold notSpecialPos in Hp.
  unfold SAME_VALUE_INLINE, SAME_VALUE_ALONE, INCREASE_VALUE_INLINE, INCREASE_VALUE_ALONE, DECREASE_VALUE_INLINE,
    DECREASE_VALUE_ALONE. do 6 rewrite (proj2 (Z.eqb_neq pos _)) by lia. cbn [orb length].
  replace (Z.of_nat n - 1 + 1) with (Z.of_nat n) by lia. rewrite wordsFor_eq by lia.
  rewrite length_app, frameWords_length. unfold HEADER_INT_SIZE. lia.
Qed.

(** Without exceptions. *)
Lemma TransformToFrame_plain w dest bits code n last :
  frameWidth bits -> (0 < n <= 128)%nat -> (n <= length code)%nat ->
  Forall (fits bits) (take n code) -> Forall (fits w) (take n code) ->
  (1 + wordsFor (Z.of_nat n) bits <= length dest)%nat ->
  compressesTo w (1 + wordsFor (Z.of_nat n) bits) (TransformToFrame dest bits 0 code (Z.of_nat n) [] [] 0 last)
    dest (take n code) last.
Proof.
  intros Hb Hn Hc Hfb Hfw Hd. unfold TransformToFrame. cbn [Z.eqb]. assert (0 <= bits) by (unfold frameWidth in Hb; lia).
  rewrite wordsFor_eq by lia. change HEADER_INT_SIZE with 1. set (W := wordsFor (Z.of_nat n) bits) in *.
  replace (1 + Z.of_nat W) with (Z.of_nat (1 + W)) by lia.
  rewrite FastMemZero_ok by done. cbn [res_bind].
  destruct (MakeHeader_eq bits 0 (Z.of_nat n) 0 last Hb ltac:(unfold fits; lia) ltac:(lia) ltac:(unfold fits; lia)) as [Hh Hwf].
  set (h := MakeHeader _ _ _ _ _) in *. assert (fits 32 h) as Hh32 by (rewrite Hh; by apply ToUint32_fits).
  rewrite (headerAndPack_ok bits h code (Z.of_nat n)) by (rewrite ?Nat2Z.id; done || lia). cbn [res_bind].
  exists (h :: frameWords (Z.of_nat n) bits code ++ []). rewrite app_nil_r. cbn [length app].
  rewrite frameWords_length. fold W. split_and!; [done | lia | | |].
  - constructor; [done|]. apply digits_fits. lia.
  - rewrite <- (app_nil_r (frameWords _ _ _)). unfold h. apply (frame_headerTells bits 0 n code [] last);
      unfold notSpecialPos, fits; cbn [length]; done || lia.
  - rewrite <- (app_nil_r (frameWords _ _ _)). unfold h.
    apply (decodesTo_frame w bits 0 n code [] (take n code) last); try done;
      rewrite ?length_take; unfold notSpecialPos, fits; cbn [length]; lia.
Qed.
End Frames.
