(* ===== verification/PForDeltaExceptions.v ===== *)
(** * Exceptions of the block codec

    The values of a block that need more bits than the frame has: how [CompressBlock] splits them off, and
    how [S9Decode] puts them back. *)

From stdpp Require Import base list numbers option tactics.
From Stdlib Require Import ZArith Lia ZifyNat.
From S2P Require Import Prelude Bits WordCode WordStream BlockLoops PackCorrect UnpackCorrect S9Compressor PForDelta PForDeltaFrames.

#[local] Open Scope Z_scope.

Module Exceptions.
Import PFor Frames.

(** ** The statements of [S9Decode] alternate *)

Fixpoint alternate (skip : bool) (cs : list (res Z)) : list PatchStep :=
  match cs with
  | [] => []
  | c :: cs' => (if skip then Skip c else Patch c) :: alternate (negb skip) cs'
  end.

Definition headOf (skip : bool) : Z := if skip then 16 else 0.

Lemma s9Case_alternate k v cs skip :
  (k < 9)%nat -> S9.codesOf (Z.of_nat k) (Ok v) = Ok cs ->
  s9Case (Z.of_nat k + headOf skip) (Ok v) = Ok (alternate skip cs, headOf (xorb skip (Nat.odd (length cs)))).
Proof.
  intros Hk. apply (S9.layout_cases k); [done|..];
    intros [= <-]; destruct skip; reflexivity.
Qed.

Lemma alternate_app skip cs cs' :
  alternate skip (cs ++ cs') = alternate skip cs ++ alternate (xorb skip (Nat.odd (length cs))) cs'.
Proof.
  revert skip. induction cs as [|c cs IH]; intros skip; cbn [app alternate length].
  { by destruct skip. }
  rewrite IH, Nat.odd_succ, <- Nat.negb_odd. cbn [app]. do 2 f_equal. by destruct skip, (Nat.odd (length cs)).
Qed.

Lemma patchSteps_app w bits ps ps' st :
  patchSteps w bits (ps ++ ps') st = let! st := patchSteps w bits ps st in patchSteps w bits ps' st.
Proof.
  revert st. induction ps as [|p ps IH]; intros st; cbn [app patchSteps]; [done|].
  destruct (patchStep w bits p st); cbn [res_bind]; [apply IH | done..].
Qed.

(** Decoding words is running the statements of their codes. *)
Lemma S9DecodeLoop_ok w bits ws vs src0 rest skip st st' :
  S9.encodes ws vs -> patchSteps w bits (alternate skip (map Ok vs)) st = Ok st' ->
  S9DecodeLoop w bits (length ws) (length src0) (src0 ++ ws ++ rest) (headOf skip) st = Ok st'.
Proof.
  intros He. revert src0 skip st. induction He as [|k vs ws vs' Hk He IH]; intros src0 skip st Hp;
    cbn [S9DecodeLoop length]; [done|].
  rewrite lookup_app_r, Nat.sub_diag by lia. cbn [lookup list_lookup deref res_bind app].
  rewrite S9.wordOf_header by done. pose proof Hk as [Hk9 _].
  rewrite u32_small by (unfold headOf; destruct skip; lia).
  rewrite (s9Case_alternate k _ (map Ok vs)) by (done || by apply S9.codesOf_wordOf). cbn [res_bind].
  rewrite map_app, alternate_app, patchSteps_app in Hp.
  destruct (patchSteps w bits (alternate skip (map Ok vs)) st) as [st1| | |]; cbn [res_bind] in *; try done.
  replace (src0 ++ S9.wordOf k vs :: ws ++ rest) with ((src0 ++ [S9.wordOf k vs]) ++ ws ++ rest) by (by rewrite <- app_assoc).
  replace (S (length src0)) with (length (src0 ++ [S9.wordOf k vs])) by (rewrite length_app; cbn; lia).
  by apply IH.
Qed.

(** ** Splitting values *)

Section Split.
Context (w bits : Z) (vs : list Z) (n : nat).
Context (Hn : length vs = n) (Hn128 : (n <= 128)%nat) (Hw : 8 <= w <= 32) (Hbits : 0 <= bits < 32).
Context (Hvs : Forall (fits w) vs).

Definition val (i : nat) : Z := nth i vs 0.
Definition low (v : Z) : Z := v mod 2 ^ bits.
Definition high (v : Z) : Z := Z.shiftr v bits.

Definition isException (i : nat) : bool := 2 ^ bits <=? val i.
Definition positions (m : nat) : list nat := List.filter isException (seq 0 m).

(** The values, with the ones of [S] split. *)
Definition splitAt (S : list nat) : list Z :=
  map (fun i => if bool_decide (i ∈ S) then low (val i) else val i) (seq 0 n).
(** The low parts, with the ones of [S] restored. *)
Definition restoredAt (S : list nat) : list Z :=
  map (fun i => if bool_decide (i ∈ S) then val i else low (val i)) (seq 0 n).

Lemma val_fits i : fits w (val i).
Proof using All. apply nth_fits; [lia | done]. Qed.

Lemma splitAt_nil : splitAt [] = vs.
Proof using All.
  unfold splitAt, val. transitivity (take n vs); [|apply take_ge; lia]. rewrite <- map_nth_take by lia.
  apply map_ext. intros i. by rewrite bool_decide_eq_false_2 by apply not_elem_of_nil.
Qed.

Lemma splitAt_insert S p : (p < n)%nat -> <[p := low (val p)]> (splitAt S) = splitAt (S ++ [p]).
Proof using All.
  intros Hp. unfold splitAt. rewrite insert_map_seq by done. apply map_ext. intros i.
  destruct (decide (i = p)) as [->|Hne].
  - rewrite bool_decide_eq_true_2; [done|]. apply elem_of_app. right. by apply list_elem_of_singleton.
  - erewrite bool_decide_ext; [done|]. rewrite elem_of_app, list_elem_of_singleton. naive_solver.
Qed.

Lemma restoredAt_insert S p : (p < n)%nat -> <[p := val p]> (restoredAt S) = restoredAt (S ++ [p]).
Proof using All.
  intros Hp. unfold restoredAt. rewrite insert_map_seq by done. apply map_ext. intros i.
  destruct (decide (i = p)) as [->|Hne].
  - rewrite bool_decide_eq_true_2; [done|]. apply elem_of_app. right. by apply list_elem_of_singleton.
  - erewrite bool_decide_ext; [done|]. rewrite elem_of_app, list_elem_of_singleton. naive_solver.
Qed.

Lemma elem_positions i m : i ∈ positions m <-> (i < m)%nat /\ 2 ^ bits <= val i.
Proof using All.
  unfold positions, isException. rewrite list_elem_of_In, filter_In, in_seq, Z.leb_le. naive_solver lia.
Qed.

Lemma low_small i : (i < n)%nat -> i ∉ positions n -> low (val i) = val i.
Proof using All.
  intros Hi Hp. unfold low. apply Z.mod_small. pose proof (val_fits i) as Hv. unfold fits in Hv.
  destruct (Z.lt_ge_cases (val i) (2 ^ bits)); [lia|]. exfalso. apply Hp. by apply elem_positions.
Qed.

Lemma splitAt_all : splitAt (positions n) = map low vs.
Proof using All.
  rewrite <- splitAt_nil. unfold splitAt. rewrite map_map. apply map_ext_in. intros i Hi%in_seq.
  rewrite (bool_decide_eq_false_2 (i ∈ [])) by apply not_elem_of_nil.
  case_bool_decide; [done|]. symmetry. apply low_small; [lia | done].
Qed.

Lemma restoredAt_nil : restoredAt [] = map low vs.
Proof using All.
  rewrite <- splitAt_nil. unfold restoredAt, splitAt. rewrite map_map. apply map_ext. intros i.
  by rewrite bool_decide_eq_false_2 by apply not_elem_of_nil.
Qed.

Lemma restoredAt_all : restoredAt (positions n) = vs.
Proof using All.
  rewrite <- splitAt_nil. unfold restoredAt, splitAt. apply map_ext_in. intros i Hi%in_seq.
  rewrite (bool_decide_eq_false_2 (i ∈ [])) by apply not_elem_of_nil.
  case_bool_decide; [done|]. apply low_small; [lia | done].
Qed.

(** Low and high part give the value back. *)
Lemma lor_low_high v : fits w v -> Z.lor (low v) (u32 (Z.shiftl (high v) bits)) = v.
Proof using All.
  intros Hv. apply Z.bits_inj'. intros i Hi. unfold low, high.
  rewrite Z.lor_spec, Z.testbit_mod_pow2, testbit_u32, Z.shiftl_spec by lia.
  destruct (Z.ltb_spec i bits).
  - rewrite (Z.testbit_neg_r (Z.shiftr v bits)) by lia. rewrite andb_false_r, orb_false_r. done.
  - cbn. rewrite Z.shiftr_spec by lia. replace (i - bits + bits) with i by lia.
    destruct (Z.ltb_spec i 32); [done|]. symmetry. apply (testbit_high v w); [done | lia | lia].
Qed.

(** *** Putting the exceptions back *)

(** The codes after position [p]: distances and high parts. *)
Fixpoint codesAfter (p : nat) (ps : list nat) : list Z :=
  match ps with
  | [] => []
  | q :: ps' => Z.of_nat (q - p - 1) :: high (val q) :: codesAfter q ps'
  end.

Fixpoint increasing (p : nat) (ps : list nat) : Prop :=
  match ps with
  | [] => True
  | q :: ps' => (p < q)%nat /\ increasing q ps'
  end.

Lemma patch_one S p tail :
  (p < n)%nat -> p ∉ S ->
  patchStep w bits (Patch (Ok (high (val p)))) (restoredAt S ++ tail, Z.of_nat p) =
  Ok (restoredAt (S ++ [p]) ++ tail, Z.of_nat p).
Proof using All.
  intros Hp HS. cbn [patchStep]. unfold wshl. cbn [res_bind]. rewrite Nat2Z.id.
  assert (length (restoredAt S) = n) as Hl by (unfold restoredAt; by rewrite length_map, length_seq).
  rewrite lookup_app_l by lia. unfold restoredAt at 1. rewrite lookup_map_seq by done.
  rewrite bool_decide_eq_false_2 by done. cbn [deref res_bind].
  rewrite lor_low_high by apply val_fits. rewrite store_ok by (rewrite length_app; lia). cbn [res_bind].
  rewrite insert_app_l by lia. unfold cast. rewrite Z.mod_small by apply val_fits.
  by rewrite restoredAt_insert.
Qed.

Lemma patch_codes S p ps tail :
  increasing p ps -> Forall (fun q => (q < n)%nat) ps -> (forall q, q ∈ ps -> q ∉ S) -> NoDup ps ->
  exists q, patchSteps w bits (alternate true (map Ok (codesAfter p ps))) (restoredAt S ++ tail, Z.of_nat p) =
  Ok (restoredAt (S ++ ps) ++ tail, q).
Proof using All.
  revert S p. induction ps as [|q ps IH]; intros S p Hinc Hlt HS Hnd; cbn [codesAfter map alternate patchSteps].
  { rewrite app_nil_r. by exists (Z.of_nat p). }
  destruct Hinc as [Hpq Hinc]. inversion Hlt as [|?? Hq Hlt']; subst. inversion Hnd as [|?? Hnotin Hnd']; subst.
  cbn [patchStep res_bind negb]. replace (Z.of_nat p + (Z.of_nat (q - p - 1) + 1)) with (Z.of_nat q) by lia.
  assert (q ∉ S) by (apply HS; apply list_elem_of_here).
  pose proof (patch_one S q tail Hq ltac:(done)) as H1. cbn [patchStep] in H1. rewrite H1. cbn [res_bind].
  destruct (IH (S ++ [q]) q Hinc Hlt') as [r Hr]; [|done|].
  { intros x Hx. rewrite elem_of_app, list_elem_of_singleton. intros [?| ->]; [|done]. apply (HS x); [by apply list_elem_of_further | done]. }
  exists r. rewrite Hr. by rewrite <- app_assoc.
Qed.

(** *** Finding the exceptions *)

Lemma positions_S i : positions (S i) = positions i ++ (if isException i then [i] else []).
Proof using All. unfold positions. rewrite seq_S, filter_app. cbn [List.filter]. by destruct (isException _). Qed.

Lemma positions_length m : (length (positions m) <= m)%nat.
Proof using All.
  induction m as [|m IH]; [done|]. rewrite positions_S, length_app. destruct (isException m); cbn; lia.
Qed.

Lemma findExceptions_ok left i src code miss :
  (i + left = n)%nat -> take n src = vs -> length code = 128%nat -> length miss = 128%nat ->
  take i code = take i vs -> take (length (positions i)) miss = map Z.of_nat (positions i) ->
  exists code' miss',
    findExceptions w (2 ^ bits) left i src code miss (length (positions i)) =
      Ok (code', miss', length (positions n)) /\
    length code' = 128%nat /\ take n code' = vs /\ length miss' = 128%nat /\
    take (length (positions n)) miss' = map Z.of_nat (positions n).
Proof using All.
  revert i code miss. induction left as [|left IH]; intros i code miss Hi Hsrc Hlc Hlm Hcode Hmiss; cbn [findExceptions].
  { rewrite Nat.add_0_r in Hi. subst i. exists code, miss. split_and!; try done. rewrite Hcode. apply take_ge. lia. }
  assert (src !! i = Some (val i)) as ->.
  { rewrite <- (lookup_take_lt src n) by lia. rewrite Hsrc. unfold val.
    destruct (lookup_lt_is_Some_2 vs i ltac:(lia)) as [x Hx]. by rewrite Hx, (nth_lookup_Some _ _ _ _ Hx). }
  cbn [deref res_bind]. pose proof (positions_length i). rewrite !store_ok by lia. cbn [res_bind].
  unfold cast. rewrite (Z.mod_small (val i)) by apply val_fits.
  assert (128 <= 2 ^ w) by (pose proof (Z.pow_le_mono_r 2 7 w); lia).
  rewrite (Z.mod_small (Z.of_nat i)) by lia.
  replace (if 2 ^ bits <=? val i then _ else _) with (length (positions (S i))).
  2:{ rewrite positions_S, length_app. fold (isException i). destruct (isException i); cbn; lia. }
  apply IH; try (rewrite ?length_insert; done || lia).
  - rewrite (take_S_r _ _ (val i)) by (apply list_lookup_insert_eq; lia). rewrite take_insert_ge, Hcode by lia.
    symmetry. apply take_S_r. unfold val. destruct (lookup_lt_is_Some_2 vs i ltac:(lia)) as [x Hx].
    by rewrite Hx, (nth_lookup_Some _ _ _ _ Hx).
  - rewrite positions_S. destruct (isException i).
    + rewrite length_app, map_app. cbn [length map]. rewrite Nat.add_1_r.
      rewrite (take_S_r _ _ (Z.of_nat i)) by (apply list_lookup_insert_eq; lia). by rewrite take_insert_ge, Hmiss by lia.
    + rewrite app_nil_r. by rewrite take_insert_ge, Hmiss by lia.
Qed.

(** *** Splitting them *)

Lemma BASIC_MASK_lookup : BASIC_MASK !! Z.to_nat bits = Some (2 ^ bits - 1).
Proof using Hbits.
  clear -Hbits. rewrite <- (Z2Nat.id bits) at 2 by lia. assert (Z.to_nat bits < 32)%nat as H by lia.
  generalize dependent (Z.to_nat bits). intros k H. do 32 (destruct k as [|k]; [reflexivity|]). lia.
Qed.

Lemma high_fits p : fits 32 (high (val p)).
Proof using All.
  pose proof (val_fits p) as Hv. apply (fits_le w 32) in Hv; [|lia..]. unfold fits, high in *.
  rewrite Z.shiftr_div_pow2 by lia. split; [apply Z.div_pos; lia|].
  apply Z.le_lt_trans with (val p); [apply Z.div_le_upper_bound; nia | lia].
Qed.

Lemma splitCode_ok S p tail :
  (p < n)%nat -> p ∉ S ->
  splitCode w bits (splitAt S ++ tail) (Z.of_nat p) = Ok (high (val p), splitAt (S ++ [p]) ++ tail).
Proof using All.
  intros Hp HS. unfold splitCode. rewrite Nat2Z.id.
  assert (length (splitAt S) = n) as Hl by (unfold splitAt; by rewrite length_map, length_seq).
  rewrite lookup_app_l by lia. unfold splitAt at 1. rewrite lookup_map_seq by done.
  rewrite bool_decide_eq_false_2 by done. cbn [deref res_bind]. rewrite BASIC_MASK_lookup. cbn [deref res_bind].
  replace (2 ^ bits - 1) with (Z.ones bits) by (rewrite Z.ones_equiv; lia). rewrite Z.land_ones by lia.
  rewrite store_ok by (rewrite length_app; lia). cbn [res_bind]. rewrite insert_app_l by lia.
  pose proof (val_fits p) as Hv. unfold fits in Hv. pose proof (Z.mod_pos_bound (val p) (2 ^ bits) ltac:(lia)).
  pose proof (Z.mod_le (val p) (2 ^ bits) ltac:(lia) ltac:(lia)).
  unfold cast. rewrite Z.mod_small by lia. fold (low (val p)). rewrite splitAt_insert by done. do 2 f_equal.
  apply u32_small, high_fits.
Qed.

Fixpoint offsetsAfter (p : nat) (ps : list nat) : list Z :=
  match ps with
  | [] => []
  | q :: ps' => Z.of_nat (q - p - 1) :: offsetsAfter q ps'
  end.

Lemma offsetsAfter_length p ps : length (offsetsAfter p ps) = length ps.
Proof. revert p. induction ps as [|q ps IH]; intros p; cbn; [done|]. by rewrite IH. Qed.

Lemma take_snoc_insert (l : list Z) i x pre :
  (i < length l)%nat -> take i l = pre -> take (S i) (<[i := x]> l) = pre ++ [x].
Proof.
  intros Hi <-. rewrite (take_S_r _ _ x) by (by apply list_lookup_insert_eq). by rewrite take_insert_ge.
Qed.

Lemma splitExceptions_ok p d todo miss exc off tail ePre oPre :
  increasing p todo -> Forall (fun q => (q < n)%nat) todo -> (forall q, q ∈ todo -> q ∉ d) -> NoDup todo ->
  (0 < length d)%nat -> (length d + length todo <= 128)%nat ->
  take (length d + length todo) miss = map Z.of_nat (d ++ todo) ->
  length exc = 128%nat -> length off = 128%nat -> take (length d) exc = ePre -> take (length d - 1) off = oPre ->
  exists exc' off',
    splitExceptions w bits (length todo) (length d) (Z.of_nat p) miss (splitAt d ++ tail) exc off =
      Ok (splitAt (d ++ todo) ++ tail, exc', off') /\
    take (length d + length todo) exc' = ePre ++ map (fun q => high (val q)) todo /\
    take (length d + length todo - 1) off' = oPre ++ offsetsAfter p todo.
Proof using All.
  revert p d exc off ePre oPre. induction todo as [|q todo IH];
    intros p d exc off ePre oPre Hinc Hlt Hd Hnd Hd0 Hlen Hmiss Hle Hlo He Ho; cbn [splitExceptions length].
  { exists exc, off. cbn [map offsetsAfter]. rewrite !app_nil_r, Nat.add_0_r. done. }
  destruct Hinc as [Hpq Hinc]. inversion Hlt as [|?? Hq Hlt']; subst. inversion Hnd as [|?? Hnotin Hnd']; subst.
  cbn [length] in *.
  assert (miss !! length d = Some (Z.of_nat q)) as ->.
  { rewrite <- (lookup_take_lt miss (length d + S (length todo))) by lia. rewrite Hmiss, map_app.
    rewrite lookup_app_r, length_map, Nat.sub_diag by (rewrite length_map; lia). done. }
  cbn [deref res_bind]. rewrite splitCode_ok by (done || (apply Hd; apply list_elem_of_here)). cbn [res_bind].
  rewrite !store_ok by lia. cbn [res_bind]. unfold cast. rewrite (Z.mod_small (high (val q))) by apply high_fits.
  rewrite u32_small by lia. rewrite Z.mod_small by lia.
  replace (Z.of_nat q - Z.of_nat p - 1) with (Z.of_nat (q - p - 1)) by lia.
  replace (S (length d)) with (length (d ++ [q])) by (rewrite length_app; cbn; lia).
  destruct (IH q (d ++ [q]) (<[length d := high (val q)]> exc) (<[(length d - 1)%nat := Z.of_nat (q - p - 1)]> off)
      (take (length d) exc ++ [high (val q)]) (take (length d - 1) off ++ [Z.of_nat (q - p - 1)]))
    as (exc' & off' & -> & He' & Ho'); try done; try (rewrite ?length_app, ?length_insert; cbn [length]; lia).
  - intros x Hx. rewrite elem_of_app, list_elem_of_singleton. intros [?| ->]; [|done].
    apply (Hd x); [by apply list_elem_of_further | done].
  - rewrite length_app, <- app_assoc. cbn [length app]. by replace (length d + 1 + length todo)%nat with (length d + S (length todo))%nat by lia.
  - rewrite length_app. cbn [length]. rewrite Nat.add_1_r. apply take_snoc_insert; [lia | done].
  - rewrite length_app. cbn [length]. replace (length d + 1 - 1)%nat with (S (length d - 1)) by lia.
    apply take_snoc_insert; [lia | done].
  - rewrite length_app in He', Ho'. cbn [length] in He', Ho'.
    exists exc', off'. rewrite <- !app_assoc in *. cbn [app map offsetsAfter] in *.
    replace (length d + S (length todo))%nat with (length d + 1 + length todo)%nat by lia. done.
Qed.

(** *** The codes of the exceptions *)

Lemma interleaveAt_ok left i off vals datum :
  (i + left <= length vals)%nat -> (left = 0 \/ 2 * (i + left - 1) + off < length datum)%nat ->
  Forall (fits 32) (take (i + left) vals) ->
  exists datum', interleaveAt left i off vals datum = Ok datum' /\ length datum' = length datum /\
    (forall k, (i <= k < i + left)%nat -> datum' !! (2 * k + off)%nat = vals !! k) /\
    (forall t, (forall k, (i <= k < i + left)%nat -> t <> 2 * k + off)%nat -> datum' !! t = datum !! t).
Proof.
  clear. revert i datum. induction left as [|left IH]; intros i datum Hv Hd Hf; cbn [interleaveAt].
  { exists datum. split_and!; try done. intros; lia. }
  destruct (lookup_lt_is_Some_2 vals i ltac:(lia)) as [v Hv']. rewrite Hv'. cbn [deref res_bind].
  rewrite store_ok by lia. cbn [res_bind]. unfold cast.
  rewrite Z.mod_small.
  2:{ rewrite Forall_lookup in Hf. apply (Hf i). by rewrite lookup_take_lt by lia. }
  destruct (IH (S i) (<[(2 * i + off)%nat := v]> datum)) as (datum' & -> & Hl & Hin & Hout);
    [lia | rewrite length_insert; lia | by replace (S i + left)%nat with (i + S left)%nat by lia |].
  rewrite length_insert in Hl. exists datum'. split_and!; [done | done | |].
  - intros k Hk. destruct (decide (k = i)) as [->|]; [|apply Hin; lia].
    rewrite Hout by (intros; lia). rewrite Hv'. apply list_lookup_insert_eq. lia.
  - intros t Ht. rewrite Hout by (intros k ?; apply Ht; lia).
    apply list_lookup_insert_ne. intros <-. apply (Ht i); lia.
Qed.

Lemma lookup_codes p ps k :
  (high (val p) :: codesAfter p ps) !! (2 * k)%nat = map (fun q => high (val q)) (p :: ps) !! k /\
  (high (val p) :: codesAfter p ps) !! (2 * k + 1)%nat = offsetsAfter p ps !! k.
Proof.
  clear. revert p k. induction ps as [|q ps IH]; intros p [|k]; cbn [codesAfter offsetsAfter map].
  - done.
  - replace (2 * S k)%nat with (S (S (2 * k))) by lia. done.
  - done.
  - replace (2 * S k)%nat with (S (S (2 * k))) by lia. cbn [lookup list_lookup Nat.add].
    destruct (IH q k) as [H1 H2]. split; [exact H1 | exact H2].
Qed.

Lemma codesAfter_length p ps : length (codesAfter p ps) = (2 * length ps)%nat.
Proof. clear. revert p. induction ps as [|q ps IH]; intros p; cbn [codesAfter length]; [done|]. rewrite IH. lia. Qed.

(** ** A frame with exceptions *)

Lemma interleave_codes (p : nat) (ps : list nat) (exc off datum datum' datum'' : list Z) :
  take (S (length ps)) exc = map (fun q => high (val q)) (p :: ps) ->
  take (length ps) off = offsetsAfter p ps ->
  (S (2 * length ps) <= length datum)%nat -> length datum' = length datum -> length datum'' = length datum ->
  (forall k, (k < S (length ps))%nat -> datum' !! (2 * k + 0)%nat = exc !! k) ->
  (forall k, (k < length ps)%nat -> datum'' !! (2 * k + 1)%nat = off !! k) ->
  (forall t, (forall k, (k < length ps)%nat -> t <> 2 * k + 1)%nat -> datum'' !! t = datum' !! t) ->
  take (S (2 * length ps)) datum'' = high (val p) :: codesAfter p ps.
Proof.
  intros He Ho Hd Hl1 Hl2 Hin1 Hin2 Hout2.
  apply (list_eq_same_length _ _ (S (2 * length ps))); [cbn [length]; by rewrite codesAfter_length | rewrite length_take; lia|].
  intros t x y Ht. rewrite lookup_take_lt by done.
  destruct (Nat.Even_or_Odd t) as [[k ->]|[k ->]].
  - destruct (lookup_codes p ps k) as [-> _]. rewrite Hout2 by (intros; lia).
    replace (2 * k)%nat with (2 * k + 0)%nat by lia. rewrite Hin1 by lia.
    rewrite <- (lookup_take_lt exc (S (length ps))) by lia. rewrite He. naive_solver.
  - destruct (lookup_codes p ps k) as [_ ->]. rewrite Hin2 by lia.
    rewrite <- (lookup_take_lt off (length ps)) by lia. rewrite Ho. naive_solver.
Qed.

Lemma increasing_filter f s m q : (q < s)%nat -> increasing q (List.filter f (seq s m)).
Proof.
  clear. revert s q. induction m as [|m IH]; intros s q Hq; cbn [seq List.filter]; [done|].
  destruct (f s); [split; [done|]; apply IH; lia | apply IH; lia].
Qed.

Lemma positions_increasing m p ps : positions m = p :: ps -> increasing p ps.
Proof.
  unfold positions. generalize 0%nat as s. induction m as [|m IH]; intros s H; cbn [seq List.filter] in H; [done|].
  destruct (isException s); [|by apply (IH (S s))]. injection H as <- <-. apply increasing_filter. lia.
Qed.

Lemma increasing_NoDup p ps : increasing p ps -> NoDup ps /\ forall q, q ∈ ps -> (p < q)%nat.
Proof.
  clear. revert p. induction ps as [|q ps IH]; intros p; cbn [increasing]; [split; [constructor | by intros ? ?%not_elem_of_nil]|].
  intros [Hpq Hinc]. destruct (IH q Hinc) as [Hnd Hgt]. split.
  - constructor; [|done]. intros Hin. specialize (Hgt q Hin). lia.
  - intros x [->|Hx]%elem_of_cons; [done|]. specialize (Hgt x Hx). lia.
Qed.

Section WithExceptions.
Context (p : nat) (ps : list nat) (Hps : positions n = p :: ps).
Context (Hhigh : forall q, q ∈ positions n -> fits 28 (high (val q))).

Lemma positions_facts :
  increasing p ps /\ NoDup ps /\ (forall q, q ∈ ps -> q ∉ [p]) /\ Forall (fun q => (q < n)%nat) ps /\ (p < n)%nat /\
  (S (length ps) <= n)%nat.
Proof using All.
  pose proof (positions_increasing n p ps Hps) as Hinc. destruct (increasing_NoDup p ps Hinc) as [Hnd Hgt].
  assert (forall q, q ∈ p :: ps -> (q < n)%nat) as Hlt by (intros q; rewrite <- Hps; intros Hq; apply elem_positions in Hq; lia).
  split_and!; try done.
  - intros q Hq ->%list_elem_of_singleton. specialize (Hgt p Hq). lia.
  - apply Forall_forall. intros q Hq. apply Hlt. apply elem_of_cons. right. by apply list_elem_of_In.
  - apply Hlt, list_elem_of_here.
  - pose proof (positions_length n) as Hl. rewrite Hps in Hl. exact Hl.
Qed.

(** [S9Decode] puts the exceptions back. *)
Lemma S9Decode_restores ws9 tail rest :
  S9.encodes ws9 (high (val p) :: codesAfter p ps) ->
  S9Decode w (map low vs ++ tail) (ws9 ++ rest) (Z.of_nat (length ws9)) (Z.of_nat p) bits = Ok (vs ++ tail).
Proof using All.
  intros He. destruct positions_facts as (Hinc & Hnd & Hnot & Hlt & Hpn & _).
  unfold S9Decode. rewrite Nat2Z.id.
  destruct (patch_codes [p] p ps tail Hinc Hlt Hnot Hnd) as [q Hq].
  rewrite (S9DecodeLoop_ok w bits ws9 _ [] rest false _ (restoredAt ([p] ++ ps) ++ tail, q) He).
  - cbn [res_bind app]. rewrite <- Hps, restoredAt_all. done.
  - cbn [map alternate patchSteps]. rewrite <- restoredAt_nil.
    rewrite (patch_one [] p tail Hpn) by apply not_elem_of_nil. cbn [res_bind app negb]. exact Hq.
Qed.

Lemma codes_fit : Forall (fits 28) (high (val p) :: codesAfter p ps).
Proof using All.
  destruct positions_facts as (_ & _ & _ & Hlt & _ & _).
  assert (Forall (fun q => fits 28 (high (val q))) (p :: ps)) as Hf.
  { apply Forall_forall. intros q Hq%list_elem_of_In. apply Hhigh. by rewrite Hps. }
  inversion Hf as [|?? Hp Hps']; subst. constructor; [done|].
  clear -Hlt Hps' Hn128. revert p Hlt Hps'. induction ps as [|q l IH]; intros p0 Hlt Hps'; [constructor|].
  inversion Hlt; subst. inversion Hps'; subst. cbn [codesAfter].
  constructor; [unfold fits; lia|]. constructor; [done|]. by apply IH.
Qed.

Lemma exceptionDatum_ok exc off :
  (S (2 * length ps) <= 128)%nat ->
  take (S (length ps)) exc = map (fun q => high (val q)) (p :: ps) -> take (length ps) off = offsetsAfter p ps ->
  exists datum datum',
    interleaveAt (S (length ps)) 0 0 exc (replicate 128 0) = Ok datum /\
    interleaveAt (length ps) 0 1 off datum = Ok datum' /\
    take (S (2 * length ps)) datum' = high (val p) :: codesAfter p ps /\
    length datum' = 128%nat /\ Forall (fits 28) datum'.
Proof using All.
  intros Hlen He Ho. pose proof codes_fit as Hfit.
  assert (length (take (S (length ps)) exc) = S (length ps)) as Hle by (rewrite He; by rewrite length_map).
  assert (length (take (length ps) off) = length ps) as Hlo by (rewrite Ho; apply offsetsAfter_length).
  rewrite length_take in Hle, Hlo.
  destruct (interleaveAt_ok (S (length ps)) 0 0 exc (replicate 128 0)) as (datum & H1 & Hl1 & Hin1 & Hout1);
    [lia | rewrite length_replicate; lia | |].
  { cbn [Nat.add]. rewrite He. apply Forall_fmap, Forall_forall. intros q _. apply high_fits. }
  rewrite length_replicate in Hl1.
  destruct (interleaveAt_ok (length ps) 0 1 off datum) as (datum' & H2 & Hl2 & Hin2 & Hout2);
    [lia | lia | |].
  { cbn [Nat.add]. rewrite Ho. clear -Hps Hn128 Hn Hw Hbits Hvs Hhigh.
    destruct positions_facts as (_ & _ & _ & Hlt & _ & _). clear -Hlt Hn128. revert p.
    induction Hlt as [|q l Hq _ IH]; intros p0; cbn [offsetsAfter]; constructor; [unfold fits; lia | done]. }
  exists datum, datum'. split_and!; [done | done | | lia |].
  - apply (interleave_codes p ps exc off datum datum datum'); try done; try lia.
    + intros k Hk. apply Hin1. lia.
    + intros k Hk. apply Hin2. lia.
    + intros t Ht. apply Hout2. intros k Hk. apply Ht. lia.
  - rewrite <- (take_drop (S (2 * length ps)) datum'). apply Forall_app. split.
    + rewrite (interleave_codes p ps exc off datum datum datum'); try done; try lia;
        intros; [apply Hin1 | apply Hin2 | apply Hout2]; naive_solver lia.
    + apply Forall_lookup. intros t x. rewrite lookup_drop, Hout2, Hout1 by (intros; lia).
      intros [-> _]%lookup_replicate. unfold fits. lia.
Qed.
End WithExceptions.
End Split.
End Exceptions.
