(* ===== verification/PForDeltaSelect.v ===== *)
(** * What [SelectCompressBits] chooses

    Either a frame width that leaves few enough exceptions, none of them with more than 28 bits to spare,
    or a special block that the values are an instance of. *)

From stdpp Require Import base list numbers option tactics.
From Stdlib Require Import ZArith Lia ZifyNat.
From S2P Require Import Prelude Bits WordCode WordStream BlockLoops PackCorrect UnpackCorrect PForDelta PForDeltaFrames PForDeltaExceptions.

#[local] Open Scope Z_scope.

Module Select.
Import PFor Frames Exceptions.

(** ** Counting *)

Lemma filter_count (f : nat -> bool) m : Z.of_nat (length (List.filter f (seq 0 m))) = count f m.
Proof.
  induction m as [|m IH]; [done|]. rewrite seq_S, filter_app, length_app, count_S, Nat2Z.inj_add, IH.
  cbn [List.filter Nat.add]. by destruct (f m).
Qed.

Lemma count_not f m : count (fun i => negb (f i)) m = Z.of_nat m - count f m.
Proof. induction m as [|m IH]; [done|]. rewrite !count_S, IH. destruct (f m); cbn [Z.b2z negb]; lia. Qed.

Lemma HighBitIdx_le v h : 0 <= v -> 0 <= h -> (HighBitIdx v <=? h) = (v <? 2 ^ h).
Proof.
  intros Hv Hh. unfold HighBitIdx. destruct (Z.eqb_spec v 0) as [->|].
  - rewrite (proj2 (Z.leb_le _ _)), (proj2 (Z.ltb_lt _ _)) by lia. done.
  - destruct (Z.ltb_spec v (2 ^ h)) as [H|H].
    + apply Z.leb_le. apply Z.log2_lt_pow2 in H; lia.
    + apply Z.leb_gt. apply Z.log2_le_pow2 in H; lia.
Qed.

Lemma HighBitIdx_nonneg v : 0 <= HighBitIdx v.
Proof. unfold HighBitIdx. destruct (v =? 0); [lia|]. pose proof (Z.log2_nonneg v). lia. Qed.

Lemma FRAME_BIT_MAP_lookup i :
  (i < 33)%nat -> exists m, FRAME_BIT_MAP !! i = Some m /\ 0 <= m <= 32 /\ Z.of_nat i <= m /\
    (m = Z.of_nat i -> frameWidth (Z.of_nat i)).
Proof.
  intros H. unfold frameWidth. destruct (decide (i = 31%nat)) as [->|].
  { exists 32. split_and!; try done; lia. }
  exists (Z.of_nat i). split_and!; try lia.
  do 33 (destruct i as [|i]; [reflexivity || lia|]). lia.
Qed.

Lemma map_const_seq (x : Z) s m : map (fun _ => x) (seq s m) = replicate m x.
Proof. revert s. induction m as [|m IH]; intros s; cbn; [done|]. by rewrite IH. Qed.

Section Block.
Context {C : Compressor} {CL : CompressorLaws C} (w : Z) (vs : list Z) (n : nat).
Context (Hn : length vs = n) (Hn128 : (n <= 128)%nat) (Hw : 8 <= w <= 32) (Hvs : Forall (fits w) vs).

#[local] Abbreviation v := (val vs).

Lemma v_fits i : fits w (v i).
Proof using All. apply nth_fits; [lia | done]. Qed.

Lemma v_range i : 0 <= v i < 2 ^ 32.
Proof using All. apply (fits_le w 32); [lia | lia | apply v_fits]. Qed.

Lemma v_high i : 0 <= HighBitIdx (v i) <= 32.
Proof using All.
  split; [apply HighBitIdx_nonneg|]. pose proof (v_range i). apply Z.leb_le. rewrite HighBitIdx_le by lia. lia.
Qed.

(** ** The scan of the block *)

(** What the loop knows after [m] values. *)
Record scanned (m : nat) (s : Scan) : Prop := {
  sc_first : (0 < m)%nat -> firstValue s = v 0;
  sc_same : isAllSame s = true -> forall i, (i < m)%nat -> v i = v 0;
  sc_inc : isIncrease s = true -> forall i, (i < m)%nat -> v i = addT w (v 0) (Z.of_nat i mod 2 ^ w);
  sc_dec : isDecrease s = true -> forall i, (i < m)%nat -> v i = subT w (v 0) (Z.of_nat i mod 2 ^ w);
  sc_max : 0 <= maxBits s <= 32 /\ forall i, (i < m)%nat -> HighBitIdx (v i) <= maxBits s;
  sc_length : length (numBitArray s) = 33%nat;
  sc_count h : (h < 33)%nat -> numBitArray s !! h = Some (count (fun i => HighBitIdx (v i) =? Z.of_nat h) m)
}.

Lemma scanned_step m s :
  scanned m s -> (m < n)%nat ->
  exists s', scanStep w (Z.of_nat m) (v m) s = Ok s' /\ scanned (S m) s'.
Proof using All.
  intros [Hf Hs Hi Hd [Hmax Hall] Hl Hc] Hm. unfold scanStep. pose proof (v_high m) as Hh.
  rewrite Hc by lia. cbn [deref res_bind]. set (first := if Z.of_nat m =? 0 then v m else firstValue s).
  assert (first = v 0) as Hfirst.
  { unfold first. destruct (Z.eqb_spec (Z.of_nat m) 0); [by replace m with 0%nat by lia | apply Hf; lia]. }
  eexists. split; [done|]. rewrite Hfirst. split; cbn [firstValue isAllSame isIncrease isDecrease maxBits numBitArray].
  - done.
  - intros E i Hlt. destruct (isAllSame s); [|done]. apply Z.eqb_eq in E.
    destruct (decide (i = m)) as [->|]; [done | apply Hs; [done | lia]].
  - intros E i Hlt. destruct (isIncrease s); [|done]. apply Z.eqb_eq in E.
    destruct (decide (i = m)) as [->|]; [done | apply Hi; [done | lia]].
  - intros E i Hlt. destruct (isDecrease s); [|done]. apply Z.eqb_eq in E.
    destruct (decide (i = m)) as [->|]; [done | apply Hd; [done | lia]].
  - destruct (Z.ltb_spec (maxBits s) (HighBitIdx (v m))); (split; [lia|]); intros i Hlt;
      (destruct (decide (i = m)) as [->|]; [lia | specialize (Hall i ltac:(lia)); lia]).
  - by rewrite length_insert.
  - intros h Hh'. rewrite count_S. pose proof (count_range (fun i => HighBitIdx (v i) =? Z.of_nat h) m).
    destruct (decide (h = Z.to_nat (HighBitIdx (v m)))) as [->|Hne].
    + rewrite list_lookup_insert_eq by lia. rewrite Z2Nat.id in * by lia. rewrite Z.eqb_refl.
      cbn [Z.b2z]. by rewrite u32_small by lia.
    + rewrite list_lookup_insert_ne by done. rewrite Hc by done.
      rewrite (proj2 (Z.eqb_neq _ _)) by lia. cbn [Z.b2z]. by rewrite Z.add_0_r.
Qed.

Lemma scanBlock_ok left m src s :
  (m + left = n)%nat -> take n src = vs -> scanned m s ->
  exists s', scanBlock w left m src s = Ok s' /\ scanned n s'.
Proof using All.
  revert m s. induction left as [|left IH]; intros m s Hm Hsrc Hs; cbn [scanBlock].
  { rewrite Nat.add_0_r in Hm. subst m. by exists s. }
  assert (src !! m = Some (v m)) as ->.
  { rewrite <- (lookup_take_lt src n) by lia. rewrite Hsrc. unfold val.
    destruct (lookup_lt_is_Some_2 vs m ltac:(lia)) as [x Hx]. by rewrite Hx, (nth_lookup_Some _ _ _ _ Hx). }
  cbn [deref res_bind]. destruct (scanned_step m s Hs ltac:(lia)) as (s' & -> & Hs'). cbn [res_bind].
  apply IH; [lia | done | done].
Qed.

Lemma scanned_init : scanned 0 (mkScan 0 true true true 0 (replicate 33 0)).
Proof using All.
  split; cbn [firstValue isAllSame isIncrease isDecrease maxBits numBitArray]; try (intros; lia); try done.
  - split; [lia | intros; lia].
  - intros h Hh. by rewrite lookup_replicate_2.
Qed.

(** ** The sums *)

Lemma prefixSums_ok acc l s k :
  acc = count (fun i => HighBitIdx (v i) <? Z.of_nat s) n ->
  (forall h, (h < length l)%nat -> l !! h = Some (count (fun i => HighBitIdx (v i) =? Z.of_nat (s + h)) n)) ->
  (k < length l)%nat ->
  prefixSums acc l !! k = Some (count (fun i => HighBitIdx (v i) <=? Z.of_nat (s + k)) n).
Proof using All.
  revert acc s k. induction l as [|x l IH]; intros acc s k Hacc Hl Hk; cbn [length] in *; [lia|].
  pose proof (Hl 0%nat ltac:(lia)) as Hx. cbn in Hx. injection Hx as Hx. rewrite Nat.add_0_r in Hx.
  assert (u32 (x + acc) = count (fun i => HighBitIdx (v i) <=? Z.of_nat s) n) as Hy.
  { assert (x + acc = count (fun i => HighBitIdx (v i) <=? Z.of_nat s) n) as ->.
    { rewrite Hx, Hacc. clear. induction n as [|m IHm]; [done|]. rewrite !count_S.
      destruct (Z.eqb_spec (HighBitIdx (v m)) (Z.of_nat s)), (Z.ltb_spec (HighBitIdx (v m)) (Z.of_nat s)),
        (Z.leb_spec (HighBitIdx (v m)) (Z.of_nat s)); cbn [Z.b2z]; lia. }
    apply u32_small. pose proof (count_range (fun i => HighBitIdx (v i) <=? Z.of_nat s) n). lia. }
  cbn [prefixSums]. rewrite Hy. destruct k as [|k]; cbn [lookup list_lookup].
  { by rewrite Nat.add_0_r. }
  replace (s + S k)%nat with (S s + k)%nat by lia. apply IH; [|intros h Hh | lia].
  - apply count_ext. intros i _. destruct (Z.leb_spec (HighBitIdx (v i)) (Z.of_nat s)), (Z.ltb_spec (HighBitIdx (v i)) (Z.of_nat (S s))); lia || done.
  - replace (S s + h)%nat with (s + S h)%nat by lia. exact (Hl (S h) ltac:(lia)).
Qed.

(** ** The choice *)

(** A frame: few exceptions, whose upper parts have at most 28 bits. *)
Record frameChoice (bits ne : Z) : Prop := {
  fc_width : frameWidth bits;
  fc_count : ne = Z.of_nat (length (positions bits vs n));
  fc_few : ne <= 12;
  fc_high : 0 < ne -> bits <= 30 /\ forall q, q ∈ positions bits vs n -> fits 28 (high bits (v q))
}.

Lemma exceptionNum_eq bits :
  0 <= bits -> Z.of_nat n - count (fun i => HighBitIdx (v i) <=? bits) n = Z.of_nat (length (positions bits vs n)).
Proof using All.
  intros Hb. unfold positions. rewrite filter_count, <- count_not. apply count_ext. intros i _.
  rewrite HighBitIdx_le by (pose proof (v_range i); lia). unfold isException.
  destruct (Z.ltb_spec (v i) (2 ^ bits)), (Z.leb_spec (2 ^ bits) (v i)); done || lia.
Qed.

(** Nothing exceeds a frame that all values fit. *)
Lemma positions_none bits : (forall i, (i < n)%nat -> v i < 2 ^ bits) -> positions bits vs n = [].
Proof using All.
  intros H. unfold positions. destruct (List.filter _ _) as [|q l] eqn:E; [done|]. exfalso.
  assert (In q (List.filter (isException bits vs) (seq 0 n))) as [Hq%in_seq Hex]%filter_In by (rewrite E; by left).
  unfold isException in Hex. apply Z.leb_le in Hex. specialize (H q ltac:(lia)). lia.
Qed.

Lemma positions_32 : positions 32 vs n = [].
Proof using All. apply positions_none. intros i _. apply v_range. Qed.

(** The invariant of the loop over the widths. *)
Lemma selectLoop_ok k mb sums best bits ne :
  (k <= 33)%nat -> 0 <= mb <= 32 -> (forall i, (i < n)%nat -> v i < 2 ^ mb) ->
  (forall h, (h < 33)%nat -> sums !! h = Some (count (fun i => HighBitIdx (v i) <=? Z.of_nat h) n)) ->
  frameChoice bits ne ->
  exists bits' ne', selectLoop k (Z.of_nat n) mb (u32 (Z.of_nat n * EXCEPTION_THRESHOLD_RATE / 100)) sums best bits ne =
    Ok (bits', ne') /\ frameChoice bits' ne'.
Proof using All.
  intros Hk Hmb Hv Hsums. unfold EXCEPTION_THRESHOLD_RATE.
  assert (Z.of_nat n * 10 / 100 < 13) by (apply Z.div_lt_upper_bound; lia).
  pose proof (Z.div_pos (Z.of_nat n * 10) 100 ltac:(lia) ltac:(lia)). rewrite u32_small by lia.
  revert Hk best bits ne. induction k as [|i IH]; intros Hk best bits ne Hc; cbn [selectLoop].
  { by exists bits, ne. }
  destruct (FRAME_BIT_MAP_lookup i ltac:(lia)) as (m & -> & Hm & _ & Hwidth). cbn [deref res_bind].
  destruct (Z.eqb_spec m (Z.of_nat i)) as [->|]; cbn [negb]; [|by apply IH; [lia|]].
  rewrite Hsums by lia. cbn [deref res_bind].
  pose proof (count_range (fun i0 => HighBitIdx (v i0) <=? Z.of_nat i) n).
  pose proof (exceptionNum_eq (Z.of_nat i) ltac:(lia)) as Hne.
  set (ex := Z.of_nat n - _) in *. rewrite (u32_small ex) by lia.
  destruct (Z.ltb_spec (Z.of_nat n * 10 / 100) ex); cbn [orb]; [by exists bits, ne|].
  destruct (Z.ltb_spec (Z.of_nat i + 28) mb); [by exists bits, ne|].
  destruct (_ <? best); apply IH; try lia; try done.
  split; [by apply Hwidth | done | lia|]. intros Hpos.
  assert (Z.of_nat i <= 30) as H30.
  { destruct (Hwidth eq_refl) as [|E]; [lia|]. exfalso. rewrite Hne, E in Hpos. by rewrite positions_32 in Hpos. }
  split; [done|]. intros q Hq.
  apply (elem_positions w (Z.of_nat i) vs n Hn Hn128 Hw ltac:(lia) Hvs) in Hq as [Hq Hge].
  specialize (Hv q Hq). pose proof (v_range q). unfold high, fits. rewrite Z.shiftr_div_pow2 by lia.
  split; [apply Z.div_pos; lia|]. apply Z.div_lt_upper_bound; [lia|]. rewrite <- Z.pow_add_r by lia.
  apply Z.lt_le_trans with (2 ^ mb); [done|]. apply Z.pow_le_mono_r; lia.
Qed.

(** A special block that the values are an instance of. *)
Record specialChoice (ne : Z) (value : Z) : Prop := {
  sp_special : isSpecial ne = true;
  sp_at : value = v (if (ne =? DECREASE_VALUE_ALONE) || (ne =? DECREASE_VALUE_INLINE) then (n - 1)%nat else 0%nat);
  sp_inline : isAlone ne = false -> fits 11 value;
  sp_values : specialValues w value ne n = vs
}.

Lemma vs_map (f : nat -> Z) : (forall i, (i < n)%nat -> f i = v i) -> map f (seq 0 n) = vs.
Proof using All.
  intros H. transitivity (take n vs); [|apply take_ge; lia]. rewrite <- map_nth_take by lia.
  apply map_ext_in. intros i Hi%in_seq. apply H. lia.
Qed.

Lemma small_mod i : (i < n)%nat -> Z.of_nat i mod 2 ^ w = Z.of_nat i.
Proof using All. intros. pose proof (Z.pow_le_mono_r 2 7 w). apply Z.mod_small. lia. Qed.

Lemma v_mod i : v i mod 2 ^ w = v i.
Proof using All. apply Z.mod_small, v_fits. Qed.

Lemma same_choice :
  (forall i, (i < n)%nat -> v i = v 0) ->
  specialChoice (if IsUniqValueStoreInline (v 0) then SAME_VALUE_INLINE else SAME_VALUE_ALONE) (v 0).
Proof using All.
  intros Hs. pose proof (v_range 0) as H0. destruct (IsUniqValueStoreInline (v 0)) eqn:E; split; try done.
  1: intros _; apply inline_fits; [lia | done].
  all: unfold specialValues; cbn -[replicate cast]; unfold cast; rewrite v_mod;
    rewrite <- (map_const_seq (v 0) 0); apply vs_map; intros; symmetry; by apply Hs.
Qed.

Lemma increase_choice :
  (forall i, (i < n)%nat -> v i = addT w (v 0) (Z.of_nat i mod 2 ^ w)) ->
  specialChoice (if IsUniqValueStoreInline (v 0) then INCREASE_VALUE_INLINE else INCREASE_VALUE_ALONE) (v 0).
Proof using All.
  intros Hs. pose proof (v_range 0) as H0.
  assert (map (fun j => cast w (v 0 mod 2 ^ w + Z.of_nat j mod 2 ^ w)) (seq 0 n) = vs) as Hvals.
  { apply vs_map. intros i Hi. rewrite v_mod, small_mod by done. specialize (Hs i Hi).
    rewrite small_mod in Hs by done. unfold cast. unfold addT in Hs. destruct (Z.ltb_spec w 32).
    - rewrite <- Hs. apply v_mod.
    - replace w with 32 by lia. symmetry. exact Hs. }
  destruct (IsUniqValueStoreInline (v 0)) eqn:E; split; try done.
  intros _. apply inline_fits; [lia | done].
Qed.

Lemma decrease_choice :
  (0 < n)%nat -> (forall i, (i < n)%nat -> v i = subT w (v 0) (Z.of_nat i mod 2 ^ w)) ->
  specialChoice (if IsUniqValueStoreInline (v (n - 1)) then DECREASE_VALUE_INLINE else DECREASE_VALUE_ALONE) (v (n - 1)).
Proof using All.
  intros Hpos Hs. pose proof (v_range (n - 1)) as H0.
  assert (map (fun j => cast w (v (n - 1) mod 2 ^ w + Z.of_nat (n - 1 - j) mod 2 ^ w)) (seq 0 n) = vs) as Hvals.
  { apply vs_map. intros i Hi. rewrite v_mod, small_mod by lia.
    pose proof (Hs i Hi) as Hi'. pose proof (Hs (n - 1)%nat ltac:(lia)) as Hl. rewrite small_mod in Hi', Hl by lia.
    unfold cast. unfold subT in *. destruct (Z.ltb_spec w 32).
    - replace (v (n - 1) + Z.of_nat (n - 1 - i)) with (v i) by lia. apply v_mod.
    - replace w with 32 by lia. rewrite Hl, Hi'. unfold u32. rewrite Zplus_mod_idemp_l. f_equal. lia. }
  destruct (IsUniqValueStoreInline (v (n - 1))) eqn:E; split; try done.
  intros _. apply inline_fits; [lia | done].
Qed.

(** The search for a width. *)
Lemma select_frame s :
  scanned n s -> (forall i, (i < n)%nat -> v i < 2 ^ maxBits s) ->
  exists bits ne,
    (let! top := deref (FRAME_BIT_MAP !! Z.to_nat (maxBits s)) in
     selectLoop (S (Z.to_nat top)) (Z.of_nat n) (maxBits s) (u32 (Z.of_nat n * EXCEPTION_THRESHOLD_RATE / 100))
       (prefixSums 0 (numBitArray s)) (u32 (4 * Z.of_nat n)) 32 0) = Ok (bits, ne) /\ frameChoice bits ne.
Proof using All.
  intros [_ _ _ _ [Hmax _] Hl Hc] Hv.
  destruct (FRAME_BIT_MAP_lookup (Z.to_nat (maxBits s)) ltac:(lia)) as (top & -> & Htop & _ & _). cbn [deref res_bind].
  apply selectLoop_ok; try done; [lia | | ].
  - intros h Hh. apply (prefixSums_ok 0 (numBitArray s) 0 h); [|rewrite Hl; apply Hc | lia].
    symmetry. apply count_false. intros i _. apply Z.ltb_ge. apply (v_high i).
  - split; [right; done | by rewrite positions_32 | lia | lia].
Qed.

(** [SelectCompressBits] returns a frame or a special block. *)
Lemma SelectCompressBits_ok src opt :
  (0 < n)%nat -> take n src = vs ->
  exists bits ne, SelectCompressBits w src (Z.of_nat n) opt = Ok (bits, ne) /\
    (frameChoice bits ne \/ exists value, specialChoice ne value).
Proof using All.
  intros Hpos Hsrc. unfold SelectCompressBits. rewrite Nat2Z.id.
  destruct (scanBlock_ok n 0 src _ ltac:(lia) Hsrc scanned_init) as (s & -> & Hs). cbn [res_bind].
  pose proof Hs as [Hf Hsame Hinc Hdec [Hmax Hall] Hl Hc]. specialize (Hf Hpos).
  assert (forall i, (i < n)%nat -> v i < 2 ^ maxBits s) as Hv.
  { intros i Hi. specialize (Hall i Hi). apply Z.leb_le in Hall. pose proof (v_range i).
    rewrite HighBitIdx_le in Hall by lia. by apply Z.ltb_lt. }
  destruct (select_frame s Hs Hv) as (bits & ne & Heq & Hch).
  destruct (Z.eqb_spec (maxBits s) 0) as [E|].
  { exists 0, 0. split; [done|]. left. rewrite E in Hv.
    split; [left; lia | by rewrite positions_none | lia | lia]. }
  rewrite Hf. destruct (opt && isAllSame s) eqn:E1.
  { apply andb_true_iff in E1 as [_ E1]. eexists _, _. split; [done|]. right. eexists. by apply same_choice, Hsame. }
  destruct (opt && isIncrease s) eqn:E2.
  { apply andb_true_iff in E2 as [_ E2]. eexists _, _. split; [done|]. right. eexists. by apply increase_choice, Hinc. }
  destruct (opt && isDecrease s) eqn:E3.
  - apply andb_true_iff in E3 as [_ E3]. rewrite (proj2 (Z.ltb_lt _ _)) by lia.
    assert (src !! Z.to_nat (Z.of_nat n - 1) = Some (v (n - 1))) as ->.
    { replace (Z.to_nat (Z.of_nat n - 1)) with (n - 1)%nat by lia. rewrite <- (lookup_take_lt src n) by lia. rewrite Hsrc.
      unfold val. destruct (lookup_lt_is_Some_2 vs (n - 1) ltac:(lia)) as [x Hx]. by rewrite Hx, (nth_lookup_Some _ _ _ _ Hx). }
    cbn [deref res_bind]. eexists _, _. split; [done|]. right. eexists. by apply decrease_choice; [|apply Hdec].
  - exists bits, ne. split; [exact Heq | by left].
Qed.
End Block.
End Select.
