(* ===== verification/PForDeltaCorrect.v ===== *)
(** * The block codec is a round trip

    [CompressBlock] with what [SelectCompressBits] chooses, and [Compress] against [Decompress]. *)

From stdpp Require Import base list numbers option tactics.
From Stdlib Require Import ZArith Lia ZifyNat.
From S2P Require Import Prelude Bits WordCode WordStream BlockLoops PackCorrect UnpackCorrect S9Compressor PForDelta PForDeltaFrames PForDeltaExceptions PForDeltaSelect.

#[local] Open Scope Z_scope.

Module PForCorrect.
Import PFor Frames Exceptions Select.

(** The value types of the templates. *)
Definition valueWidth (w : Z) : Prop := w = 8 \/ w = 16 \/ w = 32.

Lemma low_fits_bits bits vs : 0 <= bits -> Forall (fits bits) (map (low bits) vs).
Proof. intros H. apply Forall_fmap, Forall_forall. intros v _. apply Z.mod_pos_bound. lia. Qed.

Lemma low_fits_w w bits vs : 0 <= bits -> Forall (fits w) vs -> Forall (fits w) (map (low bits) vs).
Proof.
  intros Hb Hvs. apply Forall_fmap. revert Hvs. apply Forall_impl. intros v Hv. unfold fits, low in *. cbn.
  pose proof (Z.mod_pos_bound v (2 ^ bits) ltac:(lia)). pose proof (Z.mod_le v (2 ^ bits) ltac:(lia) ltac:(lia)). lia.
Qed.

Lemma no_positions_fit bits vs n i x :
  length vs = n -> positions bits vs n = [] -> vs !! i = Some x -> 0 <= bits -> 0 <= x -> fits bits x.
Proof.
  intros Hlen Hps Hx Hb Hx0. split; [done|]. destruct (Z.lt_ge_cases x (2 ^ bits)); [done|]. exfalso.
  assert (In i (positions bits vs n)) as Hin; [|by rewrite Hps in Hin].
  apply filter_In. split; [apply in_seq; apply lookup_lt_Some in Hx; lia|].
  unfold isException, val. rewrite (nth_lookup_Some _ _ _ _ Hx). by apply Z.leb_le.
Qed.

(** ** Blocks with exceptions *)

Section Block.
Context (w bits : Z) (src vs : list Z) (n : nat).
Context (Hw32 : 8 <= w <= 32) (Hbits : 0 <= bits <= 30) (Hb32 : 0 <= bits < 32).
Context (Hn128 : (n <= 128)%nat) (Hlen : length vs = n) (Hsrc : take n src = vs) (Hvs : Forall (fits w) vs).
Context (p : nat) (ps : list nat) (Hps : positions bits vs n = p :: ps).
Context (Hhigh : forall q, q ∈ positions bits vs n -> fits 28 (high bits (val vs q))).
Context (Hfew : (S (length ps) < 64)%nat).

Lemma max_eq : Z.shiftl 1 bits mod 2 ^ w = 2 ^ bits.
Proof using All.
  rewrite Z.shiftl_1_l. apply Z.mod_small. split; [lia|]. apply Z.pow_lt_mono_r; [lia | lia|].
  assert (p ∈ positions bits vs n) as Hp by (rewrite Hps; apply list_elem_of_here).
  apply (elem_positions w bits vs n Hlen Hn128 Hw32 Hb32 Hvs) in Hp as [_ Hp].
  pose proof (val_fits w bits vs n Hlen Hn128 Hw32 Hb32 Hvs p) as Hv. unfold fits in Hv.
  destruct (Z.lt_ge_cases bits w); [done|]. pose proof (Z.pow_le_mono_r 2 w bits). lia.
Qed.

(** What the two loops of [CompressBlock] leave. *)
Lemma split_arrays :
  exists code exc off,
    (let! (code, miss, j) := findExceptions w (2 ^ bits) n 0 src (replicate 128 0) (replicate 128 0) 0 in
     let! cur := deref (miss !! 0%nat) in
     let! (e, code) := splitCode w bits code cur in
     let! exception := store 32 (replicate 128 0) 0 (Ok e) in
     let! (code, exception, exceptionOffset) :=
       splitExceptions w bits (j - 1) 1 cur miss code exception (replicate 128 0) in
     let! first := deref (miss !! 0%nat) in
     Ok (code, exception, exceptionOffset, first)) = Ok (code, exc, off, Z.of_nat p) /\
    (n <= length code)%nat /\ take n code = map (low bits) vs /\
    take (S (length ps)) exc = map (fun q => high bits (val vs q)) (p :: ps) /\
    take (length ps) off = offsetsAfter p ps.
Proof using All.
  destruct (findExceptions_ok w bits vs n Hlen Hn128 Hw32 Hb32 Hvs n 0 src (replicate 128 0) (replicate 128 0))
    as (code & miss & Hfind & Hlc & Hcode & Hlm & Hmiss); try done.
  destruct (positions_facts w bits vs n Hlen Hn128 Hw32 Hb32 Hvs p ps Hps Hhigh) as (Hinc & Hnd & Hnot & Hlt & Hpn & Hle).
  change (length (positions bits vs 0)) with 0%nat in Hfind. rewrite Hfind. cbn [res_bind]. rewrite Hps in *. cbn [length map] in *.
  assert (miss !! 0%nat = Some (Z.of_nat p)) as Hm0.
  { rewrite <- (lookup_take_lt miss (S (length ps))) by lia. by rewrite Hmiss. }
  rewrite Hm0. cbn [deref res_bind].
  assert (code = splitAt bits vs n [] ++ drop n code) as Hcode'.
  { rewrite (splitAt_nil w bits vs n) by done. rewrite <- Hcode at 1. by rewrite take_drop. }
  rewrite Hcode'. rewrite (splitCode_ok w bits vs n) by (done || apply not_elem_of_nil). cbn [res_bind app].
  pose proof (high_fits w bits vs n Hlen Hn128 Hw32 Hb32 Hvs p) as Hhp.
  rewrite store_ok by (cbn; lia). cbn [res_bind]. unfold cast. rewrite (Z.mod_small (high bits _)) by exact Hhp.
  replace (S (length ps) - 1)%nat with (length ps) by lia.
  destruct (splitExceptions_ok w bits vs n Hlen Hn128 Hw32 Hb32 Hvs p [p] ps miss
    (<[0%nat := high bits (val vs p)]> (replicate 128 0)) (replicate 128 0) (drop n code) [high bits (val vs p)] [])
    as (exc & off & Heq & He & Ho); try done; try (cbn [length]; lia).
  change (length [p]) with 1%nat in Heq, He, Ho. rewrite Heq. cbn [res_bind].
  exists (splitAt bits vs n ([p] ++ ps) ++ drop n code), exc, off. cbn [app] in *. rewrite <- Hps.
  rewrite (splitAt_all w bits vs n) by done.
  assert (length (map (low bits) vs) = n) as Hlm' by (by rewrite length_map).
  split_and!; [done | rewrite length_app; lia | by rewrite take_app_length' | |].
  - rewrite Nat.add_1_l in He. exact He.
  - replace (1 + length ps - 1)%nat with (length ps) in Ho by lia. exact Ho.
Qed.

Lemma TransformToFrame_exceptions dest code exc off last :
  (0 < n)%nat -> (n <= length code)%nat -> take n code = map (low bits) vs ->
  take (S (length ps)) exc = map (fun q => high bits (val vs q)) (p :: ps) -> take (length ps) off = offsetsAfter p ps ->
  (1 + wordsFor (Z.of_nat n) bits + S (2 * length ps) <= length dest)%nat ->
  compressesTo w (1 + wordsFor (Z.of_nat n) bits + S (2 * length ps))
    (TransformToFrame dest bits (Z.of_nat p + 1) code (Z.of_nat n) exc off (Z.of_nat (S (length ps))) last)
    dest vs last.
Proof using All.
  intros Hn Hc Hcode He Ho Hd. pose proof (low_fits_bits bits vs ltac:(lia)) as Hlb.
  pose proof (low_fits_w w bits vs ltac:(lia) Hvs) as Hlw. rewrite <- Hcode in Hlb, Hlw.
  unfold TransformToFrame. rewrite (proj2 (Z.eqb_neq _ _)) by lia.
  rewrite wordsFor_eq by lia. change HEADER_INT_SIZE with 1. set (W := wordsFor (Z.of_nat n) bits) in *.
  replace (1 + Z.of_nat W) with (Z.of_nat (1 + W)) by lia. rewrite u32_small by lia.
  replace (Z.of_nat (S (length ps)) - 1) with (Z.of_nat (length ps)) by lia. rewrite !Nat2Z.id.
  destruct (exceptionDatum_ok w bits vs n Hlen Hn128 Hw32 Hb32 Hvs p ps Hps Hhigh exc off ltac:(lia) He Ho)
    as (datum & datum' & -> & H2 & Hcodes & Hld & Hfd). cbn [res_bind]. rewrite H2. cbn [res_bind].
  destruct (S9.Encode_ok (drop (1 + W) dest) datum' (Z.of_nat (length ps) + Z.of_nat (S (length ps))))
    as (ws9 & Henc & ->); [lia | lia | done | rewrite length_drop; lia |].
  replace (Z.to_nat (Z.of_nat (length ps) + Z.of_nat (S (length ps)))) with (S (2 * length ps)) in Henc by lia.
  rewrite Hcodes in Henc. cbn [res_bind].
  pose proof (S9.encodes_length _ _ Henc) as Hw9. cbn [length] in Hw9. rewrite codesAfter_length in Hw9.
  assert (length (take (1 + W) dest) = (1 + W)%nat) as Hlt by (rewrite length_take; lia).
  rewrite (FastMemZero_ok _ (1 + W)) by (rewrite length_app; lia). cbn [res_bind].
  rewrite (drop_app_length' (take (1 + W) dest)) by done.
  destruct (positions_facts w bits vs n Hlen Hn128 Hw32 Hb32 Hvs p ps Hps Hhigh) as (_ & _ & _ & _ & Hpn & _).
  assert (frameWidth bits) as Hfw by (left; lia). assert (fits 11 (Z.of_nat (length ws9))) as Hr by (unfold fits; lia).
  destruct (MakeHeader_eq bits (Z.of_nat p + 1) (Z.of_nat n) (Z.of_nat (length ws9)) last Hfw
    ltac:(unfold fits; lia) ltac:(lia) Hr) as [Hh Hwf].
  set (h := MakeHeader _ _ _ _ _) in *. assert (fits 32 h) as Hh32 by (rewrite Hh; by apply ToUint32_fits).
  rewrite (headerAndPack_ok bits h code (Z.of_nat n)) by (rewrite ?Nat2Z.id; done || lia). cbn [res_bind].
  exists (h :: frameWords (Z.of_nat n) bits code ++ ws9). cbn [length app]. rewrite length_app, frameWords_length. fold W.
  split_and!.
  - rewrite drop_drop, <- app_assoc. do 2 f_equal. lia.
  - lia.
  - constructor; [done|]. apply Forall_app. split; [apply digits_fits; lia | by eapply S9.encodes_fits].
  - unfold h. apply frame_headerTells; [done | unfold notSpecialPos; lia | lia | done].
  - unfold h. apply decodesTo_frame; try done; try lia; [unfold notSpecialPos; lia|].
    intros d rest Hd'. rewrite (proj2 (Z.eqb_neq _ _)) by lia. cbn [negb].
    replace (Z.of_nat p + 1 - 1) with (Z.of_nat p) by lia. rewrite Hcode.
    by apply (S9Decode_restores w bits vs n Hlen Hn128 Hw32 Hb32 Hvs p ps Hps Hhigh).
Qed.

(** The block with its exceptions split off. *)
Lemma CompressBlock_exceptions dest last :
  (0 < n)%nat -> (1 + wordsFor (Z.of_nat n) bits + S (2 * length ps) <= length dest)%nat ->
  compressesTo w (1 + wordsFor (Z.of_nat n) bits + S (2 * length ps))
    (CompressBlock w dest src (Z.of_nat n) bits (Z.of_nat (S (length ps))) last) dest vs last.
Proof using All.
  intros Hn Hd. destruct split_arrays as (code & exc & off & Heq & Hc & Hcode & He & Ho).
  unfold CompressBlock. rewrite max_eq. rewrite (proj2 (Z.eqb_neq _ _)) by lia.
  assert (isSpecial (Z.of_nat (S (length ps))) = false) as ->.
  { unfold isSpecial, SAME_VALUE_INLINE, SAME_VALUE_ALONE, INCREASE_VALUE_INLINE, INCREASE_VALUE_ALONE,
      DECREASE_VALUE_INLINE, DECREASE_VALUE_ALONE. by do 6 rewrite (proj2 (Z.eqb_neq _ _)) by lia. }
  rewrite Nat2Z.id.
  destruct (findExceptions _ _ _ _ _ _ _ _) as [[[code0 miss] j]| | |]; cbn [res_bind] in Heq |- *; try done.
  destruct (miss !! 0%nat) as [cur|]; cbn [deref res_bind] in Heq |- *; try done.
  destruct (splitCode _ _ _ _) as [[e code1]| | |]; cbn [res_bind] in Heq |- *; try done.
  destruct (store _ _ _ _) as [exc0| | |]; cbn [res_bind] in Heq |- *; try done.
  destruct (splitExceptions _ _ _ _ _ _ _ _ _) as [[[code2 exc1] off1]| | |]; cbn [res_bind] in Heq |- *; try done.
  injection Heq as -> -> -> ->. by apply TransformToFrame_exceptions.
Qed.
End Block.

(** ** A block *)

Lemma wordsFor_le n bits : frameWidth bits -> (wordsFor (Z.of_nat n) bits <= n)%nat.
Proof.
  intros Hb. unfold wordsFor. pose proof (ceil_spec (Z.to_nat bits * Z.to_nat (Z.of_nat n)) 32 ltac:(lia)).
  unfold frameWidth in Hb. nia.
Qed.

(** Whatever is chosen, the block decodes to its values and takes at most 24 words more than it has values. *)
Lemma block_ok {C : Compressor} {CL : CompressorLaws C} (w : Z) (opt : bool) (dest src : list Z) (n : nat) (last : bool) :
  valueWidth w -> (0 < n <= 128)%nat -> (n <= length src)%nat -> Forall (fits w) (take n src) ->
  (n + 24 <= length dest)%nat ->
  compressesTo w (n + 24)
    (let! (bits, ne) := SelectCompressBits w src (Z.of_nat n) opt in
     CompressBlock w dest src (Z.of_nat n) bits ne last) dest (take n src) last.
Proof.
  intros Hw Hn Hsrc Hvs Hd. set (vs := take n src) in *.
  assert (length vs = n) as Hlen by (unfold vs; rewrite length_take; lia).
  assert (8 <= w <= 32) as Hw32 by (unfold valueWidth in Hw; lia).
  destruct (SelectCompressBits_ok w vs n Hlen ltac:(lia) Hw32 Hvs src opt ltac:(lia) eq_refl)
    as (bits & ne & -> & [Hc|[value Hc]]); cbn [res_bind].
  - destruct Hc as [Hfw Hcount Hfew Hhigh]. pose proof (wordsFor_le n bits Hfw).
    destruct (positions bits vs n) as [|p ps] eqn:Hps; cbn [length] in Hcount; subst ne.
    + unfold CompressBlock. cbn [Z.eqb].
      apply (compressesTo_mono w (1 + wordsFor (Z.of_nat n) bits)); [lia|].
      apply TransformToFrame_plain; try done; try lia.
      apply Forall_lookup. intros i x Hx. rewrite Forall_lookup in Hvs. specialize (Hvs i x Hx).
      apply (no_positions_fit bits vs n i x); unfold frameWidth, fits in *; done || lia.
    + destruct (Hhigh ltac:(lia)) as [Hb30 Hh]. assert (0 <= bits) by (unfold frameWidth in Hfw; lia).
      rewrite <- Hps in Hh.
      apply (compressesTo_mono w (1 + wordsFor (Z.of_nat n) bits + S (2 * length ps))); [lia|].
      apply (CompressBlock_exceptions w bits src vs n Hw32 ltac:(lia) ltac:(lia) ltac:(lia) Hlen eq_refl Hvs p ps Hps Hh); lia.
  - destruct Hc as [Hs Hat Hin Hvals]. unfold CompressBlock.
    assert (ne <> 0) by (intros ->; done). rewrite (proj2 (Z.eqb_neq _ _)) by done. rewrite Hs.
    apply (compressesTo_mono w 2); [lia|].
    assert (fits w value) as Hv by (rewrite Hat; by apply nth_fits; [lia|]).
    apply (TransformToSpecialFrame_ok w dest src n ne value last); try done; try lia.
    + rewrite Hat. unfold val. generalize (orb (ne =? DECREASE_VALUE_ALONE) (ne =? DECREASE_VALUE_INLINE)). intros fromEnd.
      assert (exists i, i < n /\ (if fromEnd then n - 1 else 0) = i)%nat as (i & Hi & ->)
        by (destruct fromEnd; eexists; split; [|done | |done]; lia).
      rewrite <- (lookup_take_lt src n) by done. fold vs.
      destruct (lookup_lt_is_Some_2 vs i ltac:(lia)) as [x Hx]. by rewrite Hx, (nth_lookup_Some _ _ _ _ Hx).
    + eapply (fits_le w 32); [lia | lia | done].
Qed.
(** ** All blocks *)

Definition blockWords : nat := 152.

(** What compressing [left] blocks yields: words that any [fuel] for the blocks decodes. *)
Definition streamsTo (w : Z) (left : nat) (ws vs : list Z) : Prop :=
  forall (D : Compressor), CompressorLaws D -> forall fuel dest rest, (left <= fuel)%nat -> (length vs <= length dest)%nat ->
    decompressBlocks w fuel dest (ws ++ rest) = Ok (vs ++ drop (length vs) dest, Z.of_nat (length vs)).

Lemma streamsTo_last w ws vs : decodesTo w ws vs true -> streamsTo w 1 ws vs.
Proof.
  intros Hd D DL [|fuel] dest rest Hf Hl; [lia|]. cbn [decompressBlocks]. rewrite Hd by done. done.
Qed.

Lemma streamsTo_cons w left ws vs wss vss :
  decodesTo w ws vs false -> streamsTo w left wss vss -> streamsTo w (S left) (ws ++ wss) (vs ++ vss).
Proof.
  intros Hd Hs D DL [|fuel] dest rest Hf Hl; [lia|]. rewrite length_app in *. cbn [decompressBlocks].
  rewrite <- app_assoc, Hd by (done || lia). cbn [res_bind]. rewrite Nat2Z.id, drop_app_length, take_app_length.
  rewrite Hs by (rewrite ?length_drop; done || lia). cbn [res_bind]. rewrite drop_drop, <- app_assoc, <- Nat2Z.inj_add. done.
Qed.

Lemma compressBlocks_one {C : Compressor} {CL : CompressorLaws C} w opt dest src :
  valueWidth w -> Forall (fits w) src -> (0 < length src <= 128)%nat -> (length src + 24 <= length dest)%nat ->
  compressesTo w (length src + 24) (compressBlocks w opt 1 dest src (Z.of_nat (length src))) dest src true.
Proof.
  intros Hw Hsrc Hlen Hd. cbn [compressBlocks]. unfold BLOCK_SIZE. rewrite (proj2 (Z.leb_le _ _)) by lia.
  destruct (block_ok w opt dest src (length src) true) as (ws & Hc & Hl & Hf & Hh & Hdec);
    rewrite ?firstn_all; try done; try lia.
  rewrite firstn_all in Hdec.
  destruct (SelectCompressBits _ _ _ _) as [[bits ne]| | |]; cbn [res_bind] in Hc |- *; try done.
  rewrite Hc. cbn [res_bind]. rewrite Nat2Z.id, Z.add_0_r, take_app_length, drop_app_length. by exists ws.
Qed.

Lemma compressBlocks_ok {C : Compressor} {CL : CompressorLaws C} w opt left dest src :
  valueWidth w -> Forall (fits w) src -> (128 * left < length src <= 128 * S left)%nat ->
  (blockWords * S left <= length dest)%nat ->
  exists ws, compressBlocks w opt (S left) dest src (Z.of_nat (length src))
      = Ok (ws ++ drop (length ws) dest, Z.of_nat (length ws)) /\
    (S left <= length ws <= blockWords * S left)%nat /\ Forall (fits 32) ws /\ streamsTo w (S left) ws src.
Proof.
  intros Hw. revert dest src. unfold blockWords. induction left as [|left IH]; intros dest src Hsrc Hlen Hd.
  - destruct (compressBlocks_one w opt dest src Hw Hsrc ltac:(lia) ltac:(lia)) as (ws & Hc & Hl & Hf & (h & t & Hh & _) & Hdec).
    exists ws. split_and!; [done | subst ws; cbn [length]; lia | lia | done | by apply streamsTo_last].
  - remember (S left) as more eqn:Hmore. cbn [compressBlocks]. unfold BLOCK_SIZE. rewrite (proj2 (Z.leb_gt _ _)) by lia.
    destruct (block_ok w opt dest src 128 false) as (ws & Hc & Hl & Hf & (h & t & Hh & _) & Hdec);
      [done | lia | lia | by apply Forall_take | lia|].
    destruct (SelectCompressBits _ _ _ _) as [[bits ne]| | |]; cbn [res_bind] in Hc |- *; try done.
    replace (match more with O => true | _ => false end) with false by (by rewrite Hmore).
    change 128 with (Z.of_nat 128). rewrite Hc. cbn [res_bind].
    rewrite !Nat2Z.id, take_app_length, drop_app_length.
    destruct (IH (drop (length ws) dest) (drop 128 src)) as (wss & Hcs & Hls & Hfs & Hst);
      [by apply Forall_drop | rewrite length_drop; lia.. |].
    rewrite length_drop in Hcs. replace (Z.of_nat (length src) - Z.of_nat 128) with (Z.of_nat (length src - 128)) by lia.
    rewrite Hcs. cbn [res_bind].
    exists (ws ++ wss). rewrite length_app, <- drop_drop, <- app_assoc, <- Nat2Z.inj_add.
    split_and!; [done | subst ws; cbn [length] in *; lia | lia | by apply Forall_app|].
    rewrite <- (take_drop 128 src). by apply streamsTo_cons.
Qed.

(** The whole list: any buffer with room for 152 words per block is enough, and the words decode from
    wherever they stand. *)
Lemma Compress_ok {C : Compressor} {CL : CompressorLaws C} w opt dest src :
  valueWidth w -> src <> [] -> Forall (fits w) src -> (blockWords * ceil (length src) 128 <= length dest)%nat ->
  exists ws, Compress w opt dest src (Z.of_nat (length src)) = Ok (ws ++ drop (length ws) dest, Z.of_nat (length ws)) /\
    (length ws <= blockWords * ceil (length src) 128)%nat /\ Forall (fits 32) ws /\
    forall (D : Compressor), CompressorLaws D -> forall dest' rest, (length src <= length dest')%nat ->
      Decompress w dest' (ws ++ rest) = Ok (src ++ drop (length src) dest', Z.of_nat (length src)).
Proof.
  intros Hw Hne Hsrc Hd. assert (0 < length src)%nat by (destruct src; cbn; done || lia).
  pose proof (ceil_spec (length src) 128 ltac:(lia)) as Hceil.
  destruct (ceil (length src) 128) as [|left] eqn:Hc; [lia|].
  destruct (compressBlocks_ok w opt left dest src Hw Hsrc ltac:(lia) Hd) as (ws & Hr & Hl & Hf & Hs).
  exists ws. unfold Compress, BLOCK_SIZE.
  replace (Z.to_nat ((Z.of_nat (length src) + 128 - 1) / 128)) with (S left) by lia.
  split_and!; [done | lia | done|]. intros D DL dest' rest Hd'. unfold Decompress. apply Hs; [done | | done].
  rewrite length_app. lia.
Qed.

(** One block is what the encoder of records writes. *)
Lemma Compress_one {C : Compressor} {CL : CompressorLaws C} w opt dest src :
  valueWidth w -> Forall (fits w) src -> (0 < length src <= 128)%nat -> (length src + 24 <= length dest)%nat ->
  compressesTo w (length src + 24) (Compress w opt dest src (Z.of_nat (length src))) dest src true.
Proof.
  intros. unfold Compress, BLOCK_SIZE.
  replace (Z.to_nat ((Z.of_nat (length src) + 128 - 1) / 128)) with 1%nat by (Z.div_mod_to_equations; lia).
  by apply compressBlocks_one.
Qed.
End PForCorrect.
