(* ===== verification/CodecTheorems.v ===== *)
(** * The codec of posting lists: theorems

    The bit packing, the simple-9 code and the block codec built on them are round trips; what a block
    takes fits the buffers of the encoder. *)

From stdpp Require Import base list numbers option tactics.
From Stdlib Require Import ZArith Lia ZifyNat.
From S2P Require Import Prelude Bits WordCode WordStream BlockLoops Pack PackCorrect Unpack UnpackCorrect Unpack6Sse DecompressSse4 S9Compressor PForDelta PForDeltaFrames PForDeltaCorrect.

#[local] Open Scope Z_scope.

Lemma forallb_fits b l : forallb (fun v => (0 <=? v) && (v <? 2 ^ b)) l = true -> Forall (fits b) l.
Proof.
  intros H. apply Forall_forall. intros v Hv. rewrite forallb_forall in H. specialize (H v Hv).
  apply andb_prop in H as [? ?]. unfold fits. lia.
Qed.

(** The two compressors of the code. *)
Definition isCompressor (C : PFor.Compressor) : Prop :=
  C = PFor.NosseNewPForDeltaCompressor \/ C = PFor.NewPForDeltaCompressor.

Lemma isCompressor_laws C : isCompressor C -> Frames.CompressorLaws C.
Proof. intros [-> | ->]; [apply Frames.nosse_laws | apply Frames.sse_laws]. Qed.

(** C37. What [Compress] writes [Decompress] reads, also when one of [NosseNewPForDeltaCompressor] and
    [NewPForDeltaCompressor], which unpacks with vector instructions, wrote it and the other reads it: for
    [uint8_t], [uint16_t] and [uint32_t], with the block optimisation or without, every non-empty list of values
    is compressed without an error into a buffer of 152 words per 128 values, the rest of the buffer is not
    touched, and [Decompress] yields the same values in the same order, whatever follows the words, and
    writes nothing after them. It terminates after the last block. *)
Theorem pfordelta_roundtrip (C D : PFor.Compressor) (w : Z) (opt : bool) (dest src dest' rest : list Z) :
  isCompressor C -> isCompressor D ->
  PForCorrect.valueWidth w -> src <> [] -> Forall (fits w) src ->
  (152 * ceil (length src) 128 <= length dest)%nat -> (length src <= length dest')%nat ->
  exists ws,
    PFor.Compress (C := C) w opt dest src (Z.of_nat (length src)) = Ok (ws ++ drop (length ws) dest, Z.of_nat (length ws)) /\
    (length ws <= 152 * ceil (length src) 128)%nat /\ Forall (fits 32) ws /\
    PFor.Decompress (C := D) w dest' (ws ++ rest) = Ok (src ++ drop (length src) dest', Z.of_nat (length src)).
Proof.
  intros HC%isCompressor_laws HD%isCompressor_laws Hw Hne Hf Hd Hd'.
  destruct (PForCorrect.Compress_ok (C := C) w opt dest src Hw Hne Hf Hd) as (ws & Hc & Hl & H32 & Hdec).
  exists ws. split_and!; [done | done | done | by apply Hdec].
Qed.

(** Two blocks: one with a large value among small ones, one that counts down. *)
Definition sample : list Z := map (fun i => if i =? 70 then 1000000 else i mod 9) (seqZ 0 128) ++ [44; 43; 42; 41].

Lemma pfordelta_roundtrip_witness :
  exists ws,
    PFor.Compress (C := PFor.NosseNewPForDeltaCompressor) 32 true (replicate 304 7) sample (Z.of_nat (length sample))
      = Ok (ws ++ drop (length ws) (replicate 304 7), Z.of_nat (length ws)) /\
    (length ws <= 152 * ceil (length sample) 128)%nat /\ Forall (fits 32) ws /\
    PFor.Decompress (C := PFor.NewPForDeltaCompressor) 32 (replicate 140 9) (ws ++ [1; 2]) = Ok (sample ++ drop (length sample) (replicate 140 9), Z.of_nat (length sample)).
Proof.
  apply (pfordelta_roundtrip PFor.NosseNewPForDeltaCompressor PFor.NewPForDeltaCompressor 32 true (replicate 304 7) sample (replicate 140 9) [1; 2]).
  - by left.
  - by right.
  - by right; right.
  - done.
  - apply forallb_fits. reflexivity.
  - vm_compute. lia.
  - vm_compute. lia.
Defined.

(** The first block takes a header, 16 words of 4-bit values and one for the exception; the second one word. *)
Example sample_words :
  match PFor.CompressInt32 (C := PFor.NewPForDeltaCompressor) (replicate 304 7) sample 132 true with
  | Ok (ws, n) => n = 19 /\ PFor.DecompressInt32 (C := PFor.NewPForDeltaCompressor) (replicate 132 0) ws = Ok (sample, 132)
  | _ => False
  end.
Proof. vm_compute. done. Qed.

(** C38. Unpacking restores what was packed, for each of the 33 widths: [pack_k] writes fewer than [2^31] values of [k] bits to as many words
    as their bits need and leaves the words after them alone, and the functions of either compressor, [unpack_k] with its
    blocks of 32 values and its unaligned rest, and [decompress_sse4_c<k>] with its registers of 128 bits, read exactly these
    values back. The words for the last [n mod 32] values, behind those of whole blocks of 32, have to be 0 before: [pack] adds these values with
    [|=]. What the words of whole blocks held does not matter. *)
Theorem pack_unpack_roundtrip (C : PFor.Compressor) (w : Z) (k : nat) packf unpackf (vs dest dest' rest : list Z) :
  isCompressor C -> pack_func !! k = Some packf -> PFor.unpackTable (Compressor := C) w !! k = Some unpackf ->
  Z.of_nat (length vs) < 2 ^ 31 -> Forall (fits (Z.of_nat k)) vs -> Forall (fits w) vs ->
  (length vs <= length dest')%nat ->
  Forall (eq 0) (drop (k * (length vs / 32)) (take (ceil (k * length vs) 32) dest)) ->
  (ceil (k * length vs) 32 <= length dest)%nat ->
  exists ws, length ws = ceil (k * length vs) 32 /\ Forall (fits 32) ws /\
    packf dest vs (Z.of_nat (length vs)) = Ok (ws ++ drop (length ws) dest) /\
    unpackf dest' (ws ++ rest) (Z.of_nat (length vs)) = Ok (vs ++ drop (length vs) dest').
Proof.
  intros HC%isCompressor_laws Hp Hu Hn Hk Hw Hd' Hz Hd.
  pose proof (pack_func_converts k packf (Z.of_nat (length vs)) Hp ltac:(lia)) as Hc.
  pose proof (Frames.unpackTable_unpacks w k unpackf (Z.of_nat (length vs)) Hu ltac:(lia)) as Hr. rewrite Nat2Z.id in Hc, Hr.
  exists (digits 32 (ceil (k * length vs) 32) (num (Z.of_nat k) vs)). rewrite digits_length.
  split_and!; [done | apply digits_fits; lia | | by apply (unpacks_reads w)].
  set (whole := (k * (length vs / 32))%nat) in *.
  assert (whole <= ceil (k * length vs) 32)%nat as Hle.
  { pose proof (ceil_spec (k * length vs) 32 ltac:(lia)). pose proof (Nat.div_mod_eq (length vs) 32). unfold whole. nia. }
  pose proof (packs_overwrites _ _ _ (pack_func_packs k packf (Z.of_nat (length vs)) Hp ltac:(lia))) as Hover.
  rewrite Nat2Z.id in Hover. rewrite <- (Hover dest (replicate whole 0 ++ drop whole dest) vs).
  - rewrite (converts_eq _ _ _ _ _ _ _ Hc); rewrite ?firstn_all, ?length_app, ?length_replicate, ?length_drop; try done; try lia.
    + change (Z.of_nat 32) with 32. rewrite map_cast_fits by (apply digits_fits; lia). f_equal. f_equal.
      rewrite drop_app_ge, length_replicate, drop_drop by (rewrite length_replicate; lia). f_equal. lia.
    + intros _. rewrite take_app_ge, length_replicate by (rewrite length_replicate; lia). apply Forall_app. split; [by apply Forall_replicate|].
      by rewrite skipn_firstn_comm in Hz.
  - rewrite length_app, length_replicate, length_drop. lia.
  - done.
  - done.
  - by rewrite firstn_all.
  - replace (k * Z.to_nat (Z.of_nat (length vs) / 32))%nat with whole by (unfold whole; f_equal; change 32 with (Z.of_nat 32); by rewrite <- Nat2Z.inj_div, Nat2Z.id).
    by rewrite drop_app_length' by (by rewrite length_replicate).
Qed.

Lemma pack_unpack_roundtrip_witness :
  exists ws, length ws = 32%nat /\ Forall (fits 32) ws /\
    pack_7 (replicate 28 9 ++ replicate 4 0 ++ [1; 2]) (map (fun i => i * i mod 128) (seqZ 0 145)) 145 = Ok (ws ++ [1; 2]) /\
    decompress_sse4_c7 (replicate 148 5) (ws ++ [11]) 145 = Ok (map (fun i => i * i mod 128) (seqZ 0 145) ++ [5; 5; 5]).
Proof.
  destruct (pack_unpack_roundtrip PFor.NewPForDeltaCompressor 32 7 pack_7 decompress_sse4_c7
    (map (fun i => i * i mod 128) (seqZ 0 145)) (replicate 28 9 ++ replicate 4 0 ++ [1; 2]) (replicate 148 5) [11]) as (ws & Hl & Hf & Hp & Hu).
  - by right.
  - reflexivity.
  - reflexivity.
  - vm_compute. done.
  - apply forallb_fits. reflexivity.
  - apply forallb_fits. reflexivity.
  - vm_compute. lia.
  - vm_compute. by repeat constructor.
  - vm_compute. lia.
  - exists ws. change (length ws = 32%nat) in Hl. rewrite Hl in Hp. split_and!; done.
Defined.

(** C39. The simple-9 code is a round trip: a list of values below [2^28] is encoded without an error into
    at most as many words as it has values, and [Decode] yields the values, reduced to the width of the
    result, and their number. *)
Theorem s9_roundtrip (w : Z) (src dest dest' rest : list Z) :
  Forall (fits 28) src -> Z.of_nat (length src) + 32 < 2 ^ 32 ->
  (length src <= length dest)%nat -> (length src <= length dest')%nat ->
  exists ws, (length ws <= length src)%nat /\
    S9.Encode dest src (Z.of_nat (length src)) = Ok (ws ++ drop (length ws) dest, Z.of_nat (length ws)) /\
    S9.Decode w dest' (ws ++ rest) (Z.of_nat (length ws)) =
      Ok (map (fun v => v mod 2 ^ w) src ++ drop (length src) dest', length src).
Proof.
  intros Hf Hl Hd Hd'. destruct (S9.Encode_ok dest src (Z.of_nat (length src))) as (ws & He & Henc); try done; try lia.
  rewrite Nat2Z.id, firstn_all in He. exists ws. split_and!; [by apply S9.encodes_length | done | by apply S9.Decode_ok].
Qed.

Lemma s9_roundtrip_witness :
  exists ws, (length ws <= 6)%nat /\
    S9.Encode (replicate 6 0) [3; 1; 2; 300; 268435455; 5] 6 = Ok (ws ++ drop (length ws) (replicate 6 0), Z.of_nat (length ws)) /\
    S9.Decode 32 (replicate 7 9) (ws ++ []) (Z.of_nat (length ws)) = Ok ([3; 1; 2; 300; 268435455; 5] ++ [9], 6%nat).
Proof.
  destruct (s9_roundtrip 32 [3; 1; 2; 300; 268435455; 5] (replicate 6 0) (replicate 7 9) []) as (ws & Hl & He & Hd).
  - apply forallb_fits. reflexivity.
  - vm_compute. done.
  - vm_compute. lia.
  - vm_compute. lia.
  - exists ws. split_and!; done.
Defined.

(** C40. The buffer of the encoder is large enough: encoding a record of up to 128 values writes at most 24
    words more than it has values, within the [ENCODER_BUFFER_SIZE] words of the buffer. The length in
    bytes that is returned is the one that [GetCompressedLength] computes from the header, which is how
    many bytes [Decode] asks the reader for, and the header has the flag of the last block. *)
Theorem encoder_buffer_enough (C : PFor.Compressor) (w : Z) (opt : bool) (buffer src : list Z) :
  isCompressor C -> PForCorrect.valueWidth w -> (0 < length src <= Z.to_nat PFor.MAX_RECORD_SIZE)%nat -> Forall (fits w) src ->
  Z.of_nat (length buffer) = PFor.ENCODER_BUFFER_SIZE ->
  exists header ws bytes,
    PFor.IntEncode (C := C) w opt buffer src (Z.of_nat (length src)) = Ok (header :: ws ++ drop (S (length ws)) buffer, bytes) /\
    bytes = 4 * PFor.GetCompressedLength header /\ bytes = 4 * Z.of_nat (S (length ws)) /\
    bytes <= 4 * (Z.of_nat (length src) + 24) /\ PFor.IsLastBlock header = true.
Proof.
  intros HC%isCompressor_laws Hw Hlen Hf Hb. change (Z.to_nat PFor.MAX_RECORD_SIZE) with 128%nat in Hlen. change PFor.ENCODER_BUFFER_SIZE with 192 in Hb.
  destruct (PForCorrect.Compress_one w opt buffer src Hw Hf Hlen ltac:(lia))
    as (ws & Hc & Hl & _ & (h & t & -> & Hg & Hlast) & _).
  exists h, t, (4 * Z.of_nat (S (length t))). unfold PFor.IntEncode. rewrite Hc. cbn [res_bind length] in *.
  rewrite u32_small by lia. rewrite Hg. split_and!; [|lia..|done]. do 2 f_equal. lia.
Qed.

Lemma encoder_buffer_enough_witness :
  exists header ws bytes,
    PFor.IntEncode (C := PFor.NewPForDeltaCompressor) 16 false (replicate 192 0) (replicate 128 65535) 128
      = Ok (header :: ws ++ drop (S (length ws)) (replicate 192 0), bytes) /\
    bytes = 4 * PFor.GetCompressedLength header /\ bytes = 4 * Z.of_nat (S (length ws)) /\
    bytes <= 4 * (128 + 24) /\ PFor.IsLastBlock header = true.
Proof.
  apply (encoder_buffer_enough PFor.NewPForDeltaCompressor 16 false (replicate 192 0) (replicate 128 65535)).
  - by right.
  - by right; left.
  - vm_compute. lia.
  - apply forallb_fits. reflexivity.
  - reflexivity.
Defined.
