(* ===== verification/ByteSliceList.v ===== *)
(** * ByteSliceList

    [ByteSlice], [ByteSliceList] (src/aios/storage/indexlib/util/byte_slice_list/ByteSliceList.h, .cpp) and
    [ByteSliceListIterator]. Bytes are kept in a chain of slices; a list holds pointers to the first and
    the last one. Slices and lists are shared: a writer, the snapshots of it and their readers point to the
    same objects. They live in a [Store], and an operation is a state transformer on it. A byte that was
    allocated and not written yet is [None], and to read it is [Undefined]. *)

From stdpp Require Import base list numbers option tactics gmap.
From Stdlib Require Import ZArith Lia ZifyNat.
From S2P Require Import Prelude.

#[local] Open Scope Z_scope.

Definition addr := nat.

(** [data] is [None] for a null pointer. [dataSize] and [offset] are used by [BlockByteSliceList] only. *)
Record ByteSlice := mkSlice {
  next : option addr;
  data : option (list (option Z));
  size : Z;
  dataSize : Z;
  offset : Z
}.

(** [isBlock]: the object is a [BlockByteSliceList] ([getObjectType]). *)
Record ByteSliceList := mkList {
  _head : option addr;
  _tail : option addr;
  _totalSize : Z;
  isBlock : bool
}.

Record Store := mkStore {
  slices : gmap addr ByteSlice;
  lists : gmap addr ByteSliceList;
  brk : addr
}.

Definition set_next (n : option addr) (s : ByteSlice) : ByteSlice :=
  mkSlice n (data s) (size s) (dataSize s) (offset s).
Definition set_size (n : Z) (s : ByteSlice) : ByteSlice :=
  mkSlice (next s) (data s) n (dataSize s) (offset s).
Definition set_data (d : option (list (option Z))) (s : ByteSlice) : ByteSlice :=
  mkSlice (next s) d (size s) (dataSize s) (offset s).
Definition set_dataSize (n : Z) (s : ByteSlice) : ByteSlice :=
  mkSlice (next s) (data s) (size s) n (offset s).

(** ** State transformers *)

Definition SM (A : Type) : Type := Store -> res (A * Store).

Definition ret {A : Type} (a : A) : SM A := fun m => Ok (a, m).
Definition sbind {A B : Type} (f : SM A) (k : A -> SM B) : SM B := fun m => let! (a, m) := f m in k a m.
Definition lift {A : Type} (r : res A) : SM A := fun m => let! a := r in Ok (a, m).

Declare Scope store_scope.
Delimit Scope store_scope with st.
Notation "'let*' x ':=' f 'in' k" := (sbind f (fun x => k))
  (at level 10, x pattern, f at level 100, k at level 200) : store_scope.
#[local] Open Scope store_scope.

Definition getSlice (a : addr) : SM ByteSlice := fun m => let! s := deref (slices m !! a) in Ok (s, m).
Definition setSlice (a : addr) (s : ByteSlice) : SM unit :=
  fun m => Ok (tt, mkStore (<[a := s]> (slices m)) (lists m) (brk m)).
Definition getList (l : addr) : SM ByteSliceList := fun m => let! x := deref (lists m !! l) in Ok (x, m).
Definition setList (l : addr) (x : ByteSliceList) : SM unit :=
  fun m => Ok (tt, mkStore (slices m) (<[l := x]> (lists m)) (brk m)).

(** [*p] of a pointer to a slice *)
Definition derefSlice (p : option addr) : SM ByteSlice := let* a := lift (deref p) in getSlice a.

(** New objects get addresses that were never used. *)
Definition newSlice (s : ByteSlice) : SM addr :=
  fun m => Ok (brk m, mkStore (<[brk m := s]> (slices m)) (lists m) (S (brk m))).
Definition newList (x : ByteSliceList) : SM addr :=
  fun m => Ok (brk m, mkStore (slices m) (<[brk m := x]> (lists m)) (S (brk m))).
Definition freeSlice (a : addr) : SM unit :=
  fun m => Ok (tt, mkStore (delete a (slices m)) (lists m) (brk m)).
Definition freeList (l : addr) : SM unit :=
  fun m => Ok (tt, mkStore (slices m) (delete l (lists m)) (brk m)).

(** ** Bytes of a slice *)

(** [memcpy(data + off, bs, len)] *)
Definition poke (d : option (list (option Z))) (off : Z) (bs : list Z) : res (option (list (option Z))) :=
  match bs, d with
  | [], _ => Ok d
  | _, None => Undefined
  | _, Some l =>
      if (off <? 0) || (Z.of_nat (length l) <? off + Z.of_nat (length bs)) then Undefined
      else Ok (Some (take (Z.to_nat off) l ++ map Some bs ++ drop (Z.to_nat off + length bs) l))
  end.

(** The [len] bytes at [data + off] *)
Definition peek (d : option (list (option Z))) (off len : Z) : res (list Z) :=
  if len =? 0 then Ok []
  else
    let! l := deref d in
    if (off <? 0) || (len <? 0) || (Z.of_nat (length l) <? off + len) then Undefined
    else deref (mapM id (take (Z.to_nat len) (drop (Z.to_nat off) l))).

(** ** [ByteSlice] *)

(** [sizeof(ByteSlice)], packed: three words, [dataSize] and [offset] *)
Definition GetHeadSize : Z := 40.

Definition CreateObject (dataSize : Z) : SM addr :=
  newSlice (mkSlice None (Some (replicate (Z.to_nat dataSize) None)) dataSize 0 0).
Definition DestroyObject (a : addr) : SM unit := freeSlice a.
(** What [GetImmutableEmptyObject] points to *)
Definition EmptyObject : ByteSlice := mkSlice None None 0 0 0.

(** ** [ByteSliceList] *)

Definition new_ByteSliceList : SM addr := newList (mkList None None 0 false).

Definition Add (l slice : addr) : SM unit :=
  let* L := getList l in
  let* L := match _tail L with
            | None => ret (mkList (Some slice) (Some slice) (_totalSize L) (isBlock L))
            | Some t =>
                let* ts := getSlice t in
                let* _ := setSlice t (set_next (Some slice) ts) in
                ret (mkList (_head L) (Some slice) (_totalSize L) (isBlock L))
            end in
  let* s := getSlice slice in
  setList l (mkList (_head L) (_tail L) (u64 (_totalSize L + size s)) (isBlock L)).

Definition IncrementTotalSize (l : addr) (incValue : Z) : SM unit :=
  let* L := getList l in
  setList l (mkList (_head L) (_tail L) (u64 (_totalSize L + incValue)) (isBlock L)).

Definition GetTotalSize (l : addr) : SM Z := let* L := getList l in ret (_totalSize L).

(** [while (slice) { _totalSize = _totalSize + slice->size; slice = slice->next; }] *)
Fixpoint sumSizes (fuel : nat) (slice : option addr) (total : Z) : SM Z :=
  match slice with
  | None => ret total
  | Some a =>
      match fuel with
      | O => lift OutOfFuel
      | S fuel =>
          let* s := getSlice a in
          sumSizes fuel (next s) (u64 (total + size s))
      end
  end.

Definition UpdateTotalSize (l : addr) : SM Z :=
  let* L := getList l in
  let* total := (fun m => sumSizes (S (brk m)) (_head L) 0 m) in
  let* _ := setList l (mkList (_head L) (_tail L) total (isBlock L)) in
  ret total.

(** [while (slice) { next = slice->next; DestroyObject(slice); slice = next; }] *)
Fixpoint clearLoop (fuel : nat) (slice : option addr) : SM unit :=
  match slice with
  | None => ret tt
  | Some a =>
      match fuel with
      | O => lift OutOfFuel
      | S fuel =>
          let* s := getSlice a in
          let* _ := DestroyObject a in
          clearLoop fuel (next s)
      end
  end.

Definition Clear (l : addr) : SM unit :=
  let* L := getList l in
  let* _ := (fun m => clearLoop (S (brk m)) (_head L) m) in
  setList l (mkList None None 0 (isBlock L)).

Definition MergeWith (l other : addr) : SM unit :=
  let* L := getList l in
  let* o := getList other in
  let* L := match _head L with
            | None => ret (mkList (_head o) (_tail o) (_totalSize L) (isBlock L))
            | Some _ =>
                let* t := lift (deref (_tail L)) in
                let* ts := getSlice t in
                let* _ := setSlice t (set_next (_head o) ts) in
                ret (mkList (_head L) (_tail o) (_totalSize L) (isBlock L))
            end in
  let* _ := setList l (mkList (_head L) (_tail L) (u64 (_totalSize L + _totalSize o)) (isBlock L)) in
  setList other (mkList None None 0 (isBlock o)).

(** ** [ByteSliceListIterator] *)

Module Iter.

Record ByteSliceListIterator := mkIter {
  _sliceList : addr;
  _slice : option addr;
  _posInSlice : Z;
  _seekedSliceSize : Z;
  _endPos : Z
}.

Definition new_Iterator (sliceList : addr) : SM ByteSliceListIterator :=
  let* L := getList sliceList in ret (mkIter sliceList (_head L) 0 0 0).

Fixpoint seekLoop (fuel : nat) (beginPos : Z) (it : ByteSliceListIterator) : SM (bool * ByteSliceListIterator) :=
  match _slice it with
  | None => ret (false, it)
  | Some a =>
      match fuel with
      | O => lift OutOfFuel
      | S fuel =>
          let* s := getSlice a in
          let sliceEndPos := u64 (_seekedSliceSize it + size s) in
          if (_seekedSliceSize it <=? beginPos) && (beginPos <? sliceEndPos) then
            ret (true, mkIter (_sliceList it) (_slice it) (u64 (beginPos - _seekedSliceSize it)) (_seekedSliceSize it) (_endPos it))
          else
            seekLoop fuel beginPos
              (mkIter (_sliceList it) (next s) 0 (u64 (_seekedSliceSize it + size s)) (_endPos it))
      end
  end.

Definition SeekSlice (beginPos : Z) (it : ByteSliceListIterator) : SM (bool * ByteSliceListIterator) :=
  if beginPos <? u64 (_seekedSliceSize it + _posInSlice it) then ret (false, it)
  else fun m => seekLoop (S (brk m)) beginPos it m.

Definition HasNext (endPos : Z) (it : ByteSliceListIterator) : SM (bool * ByteSliceListIterator) :=
  match _slice it with
  | None => ret (false, it)
  | Some _ =>
      let* L := getList (_sliceList it) in
      if _totalSize L <? endPos then ret (false, it)
      else
        let curPos := u64 (_seekedSliceSize it + _posInSlice it) in
        ret (curPos <? endPos, mkIter (_sliceList it) (_slice it) (_posInSlice it) (_seekedSliceSize it) endPos)
  end.

(** [Next(data, size)]: [data] is a pointer into the slice, returned with the address of the slice. *)
Definition Next (it : ByteSliceListIterator) : SM ((option addr * Z * Z) * ByteSliceListIterator) :=
  let* s := derefSlice (_slice it) in
  let curPos := u64 (_seekedSliceSize it + _posInSlice it) in
  let sliceEndPos := u64 (_seekedSliceSize it + size s) in
  if sliceEndPos <=? _endPos it then
    ret ((_slice it, _posInSlice it, u64 (sliceEndPos - curPos)),
         mkIter (_sliceList it) (next s) 0 (u64 (_seekedSliceSize it + size s)) (_endPos it))
  else
    ret ((_slice it, _posInSlice it, u64 (_endPos it - curPos)),
         mkIter (_sliceList it) (_slice it) (u64 (_endPos it - _seekedSliceSize it)) (_seekedSliceSize it) (_endPos it)).

End Iter.
