(* ===== verification/SliceChain.v ===== *)
(** * Chains of slices

    What a chain of slices in a store is, and how it changes when a slice is written, added or split. *)

From stdpp Require Import base list numbers option tactics gmap.
From Stdlib Require Import ZArith Lia ZifyNat ZifyBool.
From S2P Require Import Prelude Bits ByteSliceList.

#[local] Open Scope Z_scope.

(** The slices [ss], linked from [p] up to [q] *)
Fixpoint seg (m : gmap addr ByteSlice) (p : option addr) (ss : list (addr * ByteSlice)) (q : option addr) : Prop :=
  match ss with
  | [] => p = q
  | (a, s) :: ss => p = Some a /\ m !! a = Some s /\ seg m (next s) ss q
  end.

Lemma seg_app m p ss1 ss2 q : seg m p (ss1 ++ ss2) q <-> exists r, seg m p ss1 r /\ seg m r ss2 q.
Proof.
  revert p. induction ss1 as [|[a s] ss1 IH]; intros p; cbn.
  - split; [intros H; by exists p | by intros (r & -> & H)].
  - rewrite IH. naive_solver.
Qed.

Lemma seg_lookup m p ss q a s : seg m p ss q -> (a, s) ∈ ss -> m !! a = Some s.
Proof.
  revert p. induction ss as [|[a' s'] ss IH]; intros p; cbn; [by rewrite elem_of_nil|].
  intros (_ & Ha & Hs) [Heq|Hin]%elem_of_cons; [by simplify_eq | by eapply IH].
Qed.

(** The chain depends on its own slices only. *)
Lemma seg_ext m m' p ss q :
  seg m p ss q -> (forall a s, (a, s) ∈ ss -> m' !! a = m !! a) -> seg m' p ss q.
Proof.
  revert p. induction ss as [|[a s] ss IH]; intros p; cbn; [done|].
  intros (-> & Ha & Hs) Hm. split_and!; [done | |].
  - rewrite (Hm a s); [done | by constructor].
  - apply (IH _ Hs). intros a' s' Hin. eapply Hm. by constructor.
Qed.

Lemma elem_of_fst (ss : list (addr * ByteSlice)) a s : (a, s) ∈ ss -> a ∈ ss.*1.
Proof. intros H. apply (list_elem_of_fmap_2 fst) in H. done. Qed.

Lemma seg_insert_other m p ss q a s : seg m p ss q -> a ∉ ss.*1 -> seg (<[a := s]> m) p ss q.
Proof.
  intros Hs Ha. apply (seg_ext _ _ _ _ _ Hs). intros a' s' Hin. apply lookup_insert_ne.
  intros ->. by apply Ha, (elem_of_fst _ _ s').
Qed.

(** The chain from a place in it *)
Lemma seg_unique m p ss ss' : seg m p ss None -> seg m p ss' None -> ss = ss'.
Proof.
  revert p ss'. induction ss as [|[a s] ss IH]; intros p [|[a' s'] ss']; cbn; [done | naive_solver..|].
  intros (-> & Ha & Hs) (? & Ha' & Hs'). simplify_eq. f_equal. by eapply IH.
Qed.

(** A chain that ends does not meet a slice twice. *)
Lemma seg_nodup m p ss : seg m p ss None -> NoDup ss.*1.
Proof.
  revert p. induction ss as [|[a s] ss IH]; intros p Hs; [constructor|].
  pose proof Hs as (-> & Ha & Hn). cbn [fmap list_fmap fst]. constructor; [|by eapply IH].
  intros Hin. apply list_elem_of_fmap_1 in Hin as ([a' s'] & Heq & Hin). cbn in Heq. subst a'.
  apply list_elem_of_split in Hin as (l1 & l2 & ->). apply seg_app in Hn as (r & H1 & H2).
  pose proof H2 as (-> & Ha' & _). simplify_eq.
  pose proof (seg_unique _ _ _ _ Hs H2) as Heq. apply (f_equal length) in Heq. cbn in Heq.
  rewrite length_app in Heq. cbn in Heq. lia.
Qed.

(** Overwrite the slice in the middle of a chain, keeping its link. *)
Lemma seg_update m p ss1 a s s' ss2 :
  seg m p (ss1 ++ (a, s) :: ss2) None -> next s' = next s ->
  seg (<[a := s']> m) p (ss1 ++ (a, s') :: ss2) None.
Proof.
  intros Hs Hn. pose proof (seg_nodup _ _ _ Hs) as Hnd. rewrite fmap_app in Hnd. cbn in Hnd.
  apply NoDup_app in Hnd as (_ & Hd & Hnd2). apply NoDup_cons in Hnd2 as [Ha2 _].
  apply seg_app in Hs as (r & H1 & Hr & Ha & H2). apply seg_app. exists r. split.
  - apply seg_insert_other; [done|]. intros Hin. apply (Hd a Hin). by constructor.
  - cbn. split_and!; [done | by rewrite lookup_insert_eq|]. rewrite Hn. by apply seg_insert_other.
Qed.

(** Overwrite a slice and link a new one after it. *)
Lemma seg_link m p ss1 a s s' b t ss2 :
  seg m p (ss1 ++ (a, s) :: ss2) None -> m !! b = None -> next s' = Some b -> next t = next s ->
  seg (<[a := s']> (<[b := t]> m)) p (ss1 ++ (a, s') :: (b, t) :: ss2) None.
Proof.
  intros Hs Hb Hn Ht. pose proof (seg_nodup _ _ _ Hs) as Hnd. rewrite fmap_app in Hnd. cbn in Hnd.
  apply NoDup_app in Hnd as (_ & Hd & Hnd2). apply NoDup_cons in Hnd2 as [Ha2 _].
  pose proof Hs as Hs0. apply seg_app in Hs as (r & H1 & Hr & Ha & H2).
  assert (a <> b) as Hab by congruence.
  assert (forall c, c ∈ (ss1 ++ (a, s) :: ss2).*1 -> c <> b) as Hfresh.
  { intros c Hc ->. apply list_elem_of_fmap_1 in Hc as ([b' s0] & -> & Hc). apply (seg_lookup _ _ _ _ _ _ Hs0) in Hc.
    cbn in Hb. congruence. }
  rewrite fmap_app in Hfresh.
  apply seg_app. exists r. split.
  - apply seg_insert_other; [apply seg_insert_other; [done|]|].
    + intros Hin. apply (Hfresh b); [|done]. apply elem_of_app. by left.
    + intros Hin. apply (Hd a Hin). by constructor.
  - cbn. split_and!; [done | by rewrite lookup_insert_eq | done | by rewrite lookup_insert_ne, lookup_insert_eq|].
    rewrite Ht. apply seg_insert_other; [apply seg_insert_other; [done|]|done].
    intros Hin. apply (Hfresh b); [|done]. apply elem_of_app. right. by constructor.
Qed.

(** Every slice of the store is below the break, so that new ones are fresh. *)
Definition storeOk (m : Store) : Prop := forall a s, slices m !! a = Some s -> (a < brk m)%nat.

Lemma storeOk_fresh m : storeOk m -> slices m !! brk m = None.
Proof. intros H. destruct (slices m !! brk m) eqn:E; [apply H in E; lia | done]. Qed.

Lemma storeOk_insert m a s :
  storeOk m -> is_Some (slices m !! a) -> storeOk (mkStore (<[a := s]> (slices m)) (lists m) (brk m)).
Proof.
  intros H [s0 Ha] a' s' Hl. cbn in *. apply lookup_insert_Some in Hl as [[<- _]|[_ Hl]]; by eapply H.
Qed.

(** A chain has at most as many slices as the store has had. *)
Lemma seg_length m p ss : storeOk m -> seg (slices m) p ss None -> (length ss <= brk m)%nat.
Proof.
  intros Hok Hs. pose proof (seg_nodup _ _ _ Hs) as Hnd.
  assert (ss.*1 ⊆ seq 0 (brk m)) as Hsub.
  { intros a Ha. apply list_elem_of_fmap_1 in Ha as ([a' s] & -> & Ha). apply elem_of_seq.
    apply (seg_lookup _ _ _ _ _ _ Hs), Hok in Ha. cbn. lia. }
  pose proof (submseteq_length _ _ (NoDup_submseteq _ _ Hnd Hsub)) as Hl. by rewrite length_fmap, length_seq in Hl.
Qed.

(** ** Bytes *)

Lemma poke_ok d off bs :
  (off + length bs <= length d)%nat ->
  poke (Some d) (Z.of_nat off) bs = Ok (Some (take off d ++ map Some bs ++ drop (off + length bs) d)).
Proof.
  intros Hl. unfold poke. destruct bs as [|b bs].
  { cbn [map app length]. by rewrite Nat.add_0_r, take_drop. }
  replace (Z.of_nat off <? 0) with false by lia.
  replace (_ <? _) with false by (cbn in *; lia). cbn [orb]. by rewrite Nat2Z.id.
Qed.

Lemma mapM_id_Some (bs : list Z) : mapM id (map Some bs) = Some bs.
Proof. apply mapM_Some_2, Forall2_fmap_l. apply Forall_Forall2_diag. by apply Forall_true. Qed.

Lemma peek_ok d off bs rest :
  drop off d = map Some bs ++ rest -> (0 < length bs)%nat ->
  peek (Some d) (Z.of_nat off) (Z.of_nat (length bs)) = Ok bs.
Proof.
  intros Hd Hb. unfold peek. replace (_ =? 0) with false by lia. cbn [deref res_bind].
  pose proof (f_equal length Hd) as Hl. rewrite length_drop, length_app, length_map in Hl.
  replace (Z.of_nat off <? 0) with false by lia. replace (Z.of_nat (length bs) <? 0) with false by lia.
  replace (_ <? _) with false by lia. cbn [orb]. rewrite !Nat2Z.id, Hd, take_app_length' by (by rewrite length_map).
  by rewrite mapM_id_Some.
Qed.

(** ** What slices hold *)

(** The bytes of a slice *)
Definition content (s : ByteSlice) : list (option Z) := take (Z.to_nat (size s)) (default [] (data s)).
Definition contents (C : list (addr * ByteSlice)) : list (option Z) := concat (map (fun x => content (snd x)) C).

Definition goodSlice (s : ByteSlice) : Prop := exists d, data s = Some d /\ 0 <= size s <= Z.of_nat (length d).

Lemma contents_app C1 C2 : contents (C1 ++ C2) = contents C1 ++ contents C2.
Proof. unfold contents. by rewrite map_app, concat_app. Qed.

Lemma contents_cons a s C : contents ((a, s) :: C) = content s ++ contents C.
Proof. done. Qed.

Lemma content_length s : goodSlice s -> Z.of_nat (length (content s)) = size s.
Proof. intros (d & Hd & Hs). unfold content. rewrite Hd. cbn. rewrite length_take. lia. Qed.

(** Bytes of a slice that are initialised *)
Lemma peek_content s x off len :
  goodSlice s -> content s = map Some x -> 0 <= off -> 0 <= len -> off + len <= size s ->
  peek (data s) off len = Ok (take (Z.to_nat len) (drop (Z.to_nat off) x)).
Proof.
  intros Hg Hx Ho Hl Hs. pose proof (content_length s Hg) as Hlen. rewrite Hx, length_map in Hlen.
  destruct Hg as (d & Hd & Hd2). unfold content in Hx. rewrite Hd in *. cbn in Hx.
  destruct (Z.eq_dec len 0) as [->|Hne]; [done|]. set (bs := take _ _).
  assert (length bs = Z.to_nat len) as Hbs by (unfold bs; rewrite length_take, length_drop; lia).
  replace off with (Z.of_nat (Z.to_nat off)) by lia. replace len with (Z.of_nat (length bs)) by lia.
  apply (peek_ok _ _ _ (map Some (drop (Z.to_nat off + Z.to_nat len) x) ++ drop (Z.to_nat (size s)) d)); [|lia].
  rewrite app_assoc, <- map_app. unfold bs. rewrite <- drop_drop, take_drop, <- skipn_map, <- Hx.
  rewrite <- (take_drop (Z.to_nat (size s)) d) at 1. by rewrite drop_app_le by (rewrite length_take; lia).
Qed.
