(* ===== verification/VbyteCompressor.v ===== *)
(** * VByteCompressor

    [VByteCompressor] (src/aios/storage/indexlib/index/common/numeric_compress/VbyteCompressor.h): a number in
    groups of seven bits, the lowest first, with the top bit of a byte set when another one follows. *)

From stdpp Require Import base list numbers option tactics.
From Stdlib Require Import ZArith Lia ZifyNat ZifyBool.
From S2P Require Import Prelude Bits.

#[local] Open Scope Z_scope.

Module VByte.

(** [ReadByte(inputByte, pos, maxInputByte)]: the byte and the new position *)
Definition ReadByte (inputByte : list Z) (pos maxInputByte : Z) : res (Z * Z) :=
  if maxInputByte <=? pos then Error OutOfRange
  else let! b := deref (inputByte !! Z.to_nat pos) in Ok (b, u32 (pos + 1)).

(** [WriteByte(outputByte, pos, maxOutputByte, value)]: the buffer and the new position *)
Definition WriteByte (outputByte : list Z) (pos maxOutputByte value : Z) : res (list Z * Z) :=
  if maxOutputByte <=? pos then Error OutOfRange
  else if (length outputByte <=? Z.to_nat pos)%nat then Undefined
  else Ok (<[Z.to_nat pos := value mod 256]> outputByte, u32 (pos + 1)).

(** [while ((ui & ~0x7F) != 0) { l++; ui >>= 7; }]: a number of 32 bits takes four rounds. *)
Fixpoint lengthLoop (fuel : nat) (l ui : Z) : res Z :=
  if Z.land ui (u32 (Z.lnot 127)) =? 0 then Ok l
  else match fuel with O => OutOfFuel | S fuel => lengthLoop fuel ((l + 1) mod 256) (Z.shiftr ui 7) end.

Definition GetVInt32Length (value : Z) : res Z := lengthLoop 4 1 (u32 value).

(** [WriteVUInt32(value, cursor)]: the loop and the last byte; [cursor] is a position in the buffer. *)
Definition putByte (buf : list Z) (cursor : nat) (b : Z) : res (list Z) :=
  if (length buf <=? cursor)%nat then Undefined else Ok (<[cursor := b mod 256]> buf).

Fixpoint WriteVUInt32_loop (fuel : nat) (value : Z) (buf : list Z) (cursor : nat) : res (list Z * nat) :=
  if 127 <? value then
    match fuel with
    | O => OutOfFuel
    | S fuel =>
        let! buf := putByte buf cursor (Z.lor 128 (Z.land value 127)) in
        WriteVUInt32_loop fuel (Z.shiftr value 7) buf (S cursor)
    end
  else let! buf := putByte buf cursor (Z.land value 127) in Ok (buf, S cursor).
Definition WriteVUInt32 (value : Z) (buf : list Z) (cursor : nat) : res (list Z * nat) :=
  WriteVUInt32_loop 4 value buf cursor.

(** [ReadVUInt32(cursor)]: the fourth round shifts by 28 bits; one more would shift an [int] by 35, which is
    undefined. *)
Fixpoint ReadVUInt32_loop (fuel : nat) (byte value shift : Z) (buf : list Z) (cursor : nat) : res (Z * nat) :=
  if Z.land byte 128 =? 0 then Ok (value, cursor)
  else
    match fuel with
    | O => Undefined
    | S fuel =>
        let! byte := deref (buf !! cursor) in
        ReadVUInt32_loop fuel byte (Z.lor value (u32 (Z.shiftl (Z.land byte 127) shift))) (shift + 7) buf (S cursor)
    end.
Definition ReadVUInt32 (buf : list Z) (cursor : nat) : res (Z * nat) :=
  let! byte := deref (buf !! cursor) in
  ReadVUInt32_loop 4 byte (Z.land byte 127) 7 buf (S cursor).

(** The loop of [EncodeVInt32]: [l], [ui] and the buffer *)
Fixpoint encodeLoop (fuel : nat) (outputByte : list Z) (l maxOutputByte ui : Z) : res (list Z * Z * Z) :=
  if Z.land ui (u32 (Z.lnot 127)) =? 0 then Ok (outputByte, l, ui)
  else
    match fuel with
    | O => OutOfFuel
    | S fuel =>
        let! (outputByte, l) := WriteByte outputByte l maxOutputByte (Z.lor (Z.land ui 127) 128) in
        encodeLoop fuel outputByte l maxOutputByte (Z.shiftr ui 7)
    end.

(** [EncodeVInt32]: the buffer and the length *)
Definition EncodeVInt32 (outputByte : list Z) (maxOutputByte value : Z) : res (list Z * Z) :=
  let! (outputByte, l, ui) := encodeLoop 4 outputByte 0 maxOutputByte (u32 value) in
  WriteByte outputByte l maxOutputByte ui.

(** The loop of [DecodeVInt32]: the shift is of a [long], and is undefined from 64 on. *)
Fixpoint decodeLoop (fuel : nat) (inputByte : list Z) (b i shift l inputByteLength : Z) : res (Z * Z) :=
  if Z.land b 128 =? 0 then Ok (i, l)
  else
    match fuel with
    | O => OutOfFuel
    | S fuel =>
        let! (b, l) := ReadByte inputByte l inputByteLength in
        if 64 <=? shift then Undefined
        else decodeLoop fuel inputByte b (u32 (Z.lor i (Z.shiftl (Z.land b 127) shift))) (shift + 7) l inputByteLength
    end.

(** [DecodeVInt32]: the value, and by how much [inputByte] and [inputByteLength] move *)
Definition DecodeVInt32 (inputByte : list Z) (inputByteLength : Z) : res (Z * Z) :=
  let! (b, l) := ReadByte inputByte 0 inputByteLength in
  let! (i, l) := decodeLoop 10 inputByte b (Z.land b 127) 7 l inputByteLength in
  Ok (i32 i, l).

(** ** The code *)

(** The bytes of a number; five are enough for 32 bits. *)
Fixpoint vbytesOf (n : nat) (v : Z) : list Z :=
  match n with
  | O => [v]
  | S n => if v <? 128 then [v] else (v mod 128 + 128) :: vbytesOf n (v / 128)
  end.
Definition vbytes (v : Z) : list Z := vbytesOf 4 v.

(** How many bytes a number takes *)
Definition vbytesLength (v : Z) : nat :=
  if v <? 2 ^ 7 then 1 else if v <? 2 ^ 14 then 2 else if v <? 2 ^ 21 then 3 else if v <? 2 ^ 28 then 4 else 5.

Lemma vbytes_length v : 0 <= v -> length (vbytes v) = vbytesLength v.
Proof.
  intros Hv. unfold vbytes, vbytesLength. cbn [vbytesOf].
  repeat match goal with |- context [if ?x <? ?y then _ else _] => destruct (Z.ltb_spec x y) end; cbn [length]; try done; lia.
Qed.

Lemma vbytesOf_pos n v : (0 < length (vbytesOf n v))%nat.
Proof. destruct n; cbn; [lia|]. case_match; cbn; lia. Qed.

Lemma land127 v : Z.land v 127 = v mod 128.
Proof. change 127 with (Z.ones 7). by rewrite Z.land_ones. Qed.

Lemma shiftr7 v : Z.shiftr v 7 = v / 128.
Proof. by rewrite Z.shiftr_div_pow2. Qed.

Lemma lor_disjoint a b n : 0 <= a < 2 ^ n -> 0 <= n -> Z.lor a (Z.shiftl b n) = a + b * 2 ^ n.
Proof.
  intros Ha Hn. rewrite <- Z.shiftl_mul_pow2 by lia. symmetry. apply Z.add_nocarry_lor.
  apply Z.bits_inj'. intros i Hi. rewrite Z.land_spec, Z.bits_0, Z.shiftl_spec by lia.
  destruct (Z.lt_ge_cases i n); [by rewrite (Z.testbit_neg_r b), andb_false_r by lia|].
  by rewrite (testbit_high a n) by lia.
Qed.

Lemma more_bit b : 0 <= b < 256 -> (Z.land b 128 =? 0) = (b <? 128).
Proof.
  intros Hb. change 128 with (2 ^ 7) at 1. rewrite land_pow2_testbit by lia.
  rewrite (Z.testbit_spec' b 7) || idtac. apply eq_true_iff_eq. rewrite negb_true_iff, <- not_true_iff_false, Z.testbit_true by lia.
  change (2 ^ 7) with 128. lia.
Qed.

Lemma rest_bits ui : 0 <= ui < 2 ^ 32 -> (Z.land ui (u32 (Z.lnot 127)) =? 0) = (ui <? 128).
Proof.
  intros Hu. change (u32 (Z.lnot 127)) with (Z.ldiff (Z.ones 32) (Z.ones 7)).
  assert (Z.land ui (Z.ldiff (Z.ones 32) (Z.ones 7)) = ui / 128 * 128) as ->; [|lia].
  transitivity (Z.ldiff (Z.land ui (Z.ones 32)) (Z.ones 7)).
  - apply Z.bits_inj'. intros i Hi. rewrite Z.land_spec, !Z.ldiff_spec, Z.land_spec. by destruct (Z.testbit ui i).
  - rewrite Z.land_ones, Z.mod_small by lia. by rewrite Z.ldiff_ones_r, Z.shiftl_mul_pow2, shiftr7 by lia.
Qed.

Lemma lor_more v : 0 <= v -> Z.lor 128 (Z.land v 127) = v mod 128 + 128.
Proof.
  intros Hv. rewrite land127, Z.lor_comm. exact (lor_disjoint (v mod 128) 1 7 ltac:(lia) ltac:(lia)).
Qed.

Lemma vbytesOf_step n v : 0 <= v -> 128 <= v -> vbytesOf (S n) v = (v mod 128 + 128) :: vbytesOf n (v / 128).
Proof. intros. cbn. by rewrite (proj2 (Z.ltb_ge _ _)) by lia. Qed.

Lemma vbytesOf_last n v : v < 128 -> vbytesOf n v = [v].
Proof. destruct n; [done|]. intros. cbn. by rewrite (proj2 (Z.ltb_lt _ _)) by lia. Qed.

(** The two cases of a number below [128 ^ (n + 1)] *)
Lemma vbytesOf_case n v :
  0 <= v < 128 ^ Z.of_nat (S n) ->
  (v < 128 /\ vbytesOf n v = [v]) \/
  (exists n', n = S n' /\ 128 <= v /\ 0 <= v / 128 < 128 ^ Z.of_nat (S n') /\
     vbytesOf n v = (v mod 128 + 128) :: vbytesOf n' (v / 128)).
Proof.
  intros Hv. destruct (Z.lt_ge_cases v 128); [left; split; [done | by apply vbytesOf_last]|].
  right. destruct n as [|n]; [change (128 ^ Z.of_nat 1) with 128 in Hv; lia|]. exists n. split; [done|]. split; [done|].
  rewrite Nat2Z.inj_succ, Z.pow_succ_r in Hv by lia. split; [|apply vbytesOf_step; lia].
  split; [lia|]. apply Z.div_lt_upper_bound; lia.
Qed.

Lemma vbytesOf_bytes n v : 0 <= v < 128 ^ Z.of_nat (S n) -> Forall byte (vbytesOf n v).
Proof.
  revert v. induction n as [|n IH]; intros v Hv;
    destruct (vbytesOf_case _ _ Hv) as [[? ->]|(n' & Hn & ? & ? & ->)]; simplify_eq; repeat constructor; unfold byte; try lia.
  by apply IH.
Qed.

Lemma u32_vrange v : 0 <= v < 2 ^ 32 -> 0 <= v < 128 ^ Z.of_nat 5.
Proof. change (128 ^ Z.of_nat 5) with (2 ^ 35). lia. Qed.

Lemma vbytes_bytes v : 0 <= v < 2 ^ 32 -> Forall byte (vbytes v).
Proof. intros H. by apply vbytesOf_bytes, u32_vrange. Qed.

Lemma insert_mid (pre : list Z) x y rest : <[length pre := y]> (pre ++ x :: rest) = (pre ++ [y]) ++ rest.
Proof. rewrite insert_app_r_alt, Nat.sub_diag by lia. by rewrite <- app_assoc. Qed.

(** ** Encoding *)

Lemma vbyte_WriteByte_ok pre x rest maxLen v :
  Z.of_nat (length pre) < maxLen -> maxLen < 2 ^ 32 -> 0 <= v < 256 ->
  WriteByte (pre ++ x :: rest) (Z.of_nat (length pre)) maxLen v = Ok ((pre ++ [v]) ++ rest, Z.of_nat (length (pre ++ [v]))).
Proof.
  intros. unfold WriteByte. rewrite (proj2 (Z.leb_gt _ _)) by lia. rewrite Nat2Z.id, length_app.
  rewrite (proj2 (Nat.leb_gt _ _)) by (cbn; lia). rewrite Z.mod_small, insert_mid, u32_small by lia.
  rewrite length_app. cbn. do 2 f_equal. lia.
Qed.

(** A buffer that is long enough gets the bytes of the number. *)
Lemma vbyte_encodeLoop_ok n v pre dest maxLen :
  0 <= v < 128 ^ Z.of_nat (S n) -> v < 2 ^ 32 -> (length (vbytesOf n v) <= length dest)%nat ->
  Z.of_nat (length pre + length (vbytesOf n v)) <= maxLen -> maxLen < 2 ^ 32 ->
  exists ui x dest' bs, encodeLoop n (pre ++ dest) (Z.of_nat (length pre)) maxLen v
      = Ok ((pre ++ bs) ++ x :: dest', Z.of_nat (length (pre ++ bs)), ui) /\
    vbytesOf n v = bs ++ [ui] /\ 0 <= ui < 128 /\ x :: dest' = drop (length bs) dest.
Proof.
  revert v pre dest. induction n as [|n IH]; intros v pre dest Hv H32 Hd Hmax Hm32;
    destruct (vbytesOf_case _ _ Hv) as [[Hlt Heq]|(n' & Hn & Hge & Hv' & Heq)]; simplify_eq; cbn [encodeLoop];
    rewrite rest_bits, Heq in * by lia.
  1, 2: rewrite (proj2 (Z.ltb_lt v 128)) by lia; destruct dest as [|x dest]; [cbn in Hd; lia|];
    exists v, x, dest, []; rewrite app_nil_r; split_and!; done || lia.
  rewrite (proj2 (Z.ltb_ge v 128)) by lia. destruct dest as [|x dest]; [cbn in Hd; lia|]. cbn [length] in *.
  rewrite Z.lor_comm, lor_more, vbyte_WriteByte_ok by lia. cbn [res_bind]. rewrite shiftr7.
  destruct (IH (v / 128) (pre ++ [v mod 128 + 128]) dest) as (ui & y & dest' & bs & Hrun & Hbs & Hui & Hd'); try lia.
  { rewrite length_app. cbn. lia. }
  rewrite Hrun. exists ui, y, dest', (v mod 128 + 128 :: bs). rewrite (cons_middle _ pre bs), app_assoc. split_and!; [done | by rewrite Hbs | lia | lia | exact Hd'].
Qed.

Lemma EncodeVInt32_ok dest maxLen v :
  0 <= u32 v -> (length (vbytes (u32 v)) <= length dest)%nat ->
  Z.of_nat (length (vbytes (u32 v))) <= maxLen -> maxLen < 2 ^ 32 ->
  EncodeVInt32 dest maxLen v = Ok (vbytes (u32 v) ++ drop (length (vbytes (u32 v))) dest, Z.of_nat (length (vbytes (u32 v)))).
Proof.
  intros H0 Hd Hmax H32. pose proof (u32_range v) as Hr. unfold EncodeVInt32.
  destruct (vbyte_encodeLoop_ok 4 (u32 v) [] dest maxLen (u32_vrange _ Hr) ltac:(lia) Hd Hmax H32)
    as (ui & x & dest' & bs & Hrun & Hbs & Hui & Hd'). cbn [app length] in *. change (Z.of_nat 0) with 0 in Hrun. rewrite Hrun. cbn [res_bind].
  unfold vbytes in *. rewrite Hbs in *. rewrite length_app in *. cbn [length] in *. rewrite vbyte_WriteByte_ok by lia.
  rewrite length_app. cbn [length]. do 2 f_equal. f_equal. rewrite <- drop_drop, <- Hd'. done.
Qed.

(** A buffer that is too short is an error, and nothing else. *)
Lemma encodeLoop_short n v pre dest maxLen :
  0 <= v < 128 ^ Z.of_nat (S n) -> v < 2 ^ 32 -> maxLen < Z.of_nat (length pre + length (vbytesOf n v)) ->
  Z.of_nat (length pre) <= maxLen -> maxLen < 2 ^ 32 -> maxLen <= Z.of_nat (length pre + length dest) ->
  (let! (outputByte, l, ui) := encodeLoop n (pre ++ dest) (Z.of_nat (length pre)) maxLen v in
   WriteByte outputByte l maxLen ui) = Error OutOfRange.
Proof.
  revert v pre dest. induction n as [|n IH]; intros v pre dest Hv H32 Hlt Hmax Hm32 Hd;
    destruct (vbytesOf_case _ _ Hv) as [[Hv1 Heq]|(n' & Hn & Hge & Hv' & Heq)]; simplify_eq; cbn [encodeLoop];
    rewrite rest_bits, Heq in * by lia; cbn [length] in *.
  1, 2: rewrite (proj2 (Z.ltb_lt v 128)) by lia; cbn [res_bind]; unfold WriteByte; by rewrite (proj2 (Z.leb_le _ _)) by lia.
  rewrite (proj2 (Z.ltb_ge v 128)) by lia. destruct (Z.eq_dec (Z.of_nat (length pre)) maxLen).
  { unfold WriteByte at 1. by rewrite (proj2 (Z.leb_le _ _)) by lia. }
  destruct dest as [|x dest]; [cbn in Hd; lia|]. cbn [length] in *.
  rewrite Z.lor_comm, lor_more, vbyte_WriteByte_ok by lia. cbn [res_bind]. rewrite shiftr7.
  apply IH; rewrite ?length_app; cbn [length]; lia.
Qed.

Lemma EncodeVInt32_short dest maxLen v :
  0 <= maxLen < Z.of_nat (length (vbytes (u32 v))) -> maxLen <= Z.of_nat (length dest) ->
  EncodeVInt32 dest maxLen v = Error OutOfRange.
Proof.
  intros Hm Hd. pose proof (u32_range v) as Hr. unfold EncodeVInt32.
  assert (length (vbytes (u32 v)) <= 5)%nat by (rewrite vbytes_length by lia; unfold vbytesLength; repeat case_match; lia).
  apply (encodeLoop_short 4 (u32 v) [] dest maxLen (u32_vrange _ Hr)); cbn [length]; unfold vbytes in *; lia.
Qed.

Lemma lengthLoop_ok n l v :
  0 <= v < 128 ^ Z.of_nat (S n) -> v < 2 ^ 32 -> 0 <= l -> l + Z.of_nat (length (vbytesOf n v)) <= 256 ->
  lengthLoop n l v = Ok (l - 1 + Z.of_nat (length (vbytesOf n v))).
Proof.
  revert l v. induction n as [|n IH]; intros l v Hv H32 Hl Hb;
    destruct (vbytesOf_case _ _ Hv) as [[Hv1 Heq]|(n' & Hn & Hge & Hv' & Heq)]; simplify_eq; cbn [lengthLoop];
    rewrite rest_bits, Heq in * by lia; cbn [length] in *.
  1, 2: rewrite (proj2 (Z.ltb_lt v 128)) by lia; f_equal; lia.
  rewrite (proj2 (Z.ltb_ge v 128)) by lia. pose proof (vbytesOf_pos n' (v / 128)).
  rewrite shiftr7, (Z.mod_small (l + 1)), IH by lia. f_equal. lia.
Qed.

Lemma GetVInt32Length_ok v : GetVInt32Length v = Ok (Z.of_nat (length (vbytes (u32 v)))).
Proof.
  pose proof (u32_range v) as Hr. unfold GetVInt32Length.
  assert (length (vbytes (u32 v)) <= 5)%nat by (rewrite vbytes_length by lia; unfold vbytesLength; repeat case_match; lia).
  rewrite (lengthLoop_ok 4 1 _ (u32_vrange _ Hr)); unfold vbytes in *; [f_equal; lia | lia..].
Qed.

Lemma putByte_ok pre x rest v :
  0 <= v < 256 -> putByte (pre ++ x :: rest) (length pre) v = Ok ((pre ++ [v]) ++ rest).
Proof.
  intros. unfold putByte. rewrite length_app. rewrite (proj2 (Nat.leb_gt _ _)) by (cbn; lia).
  by rewrite Z.mod_small, insert_mid by lia.
Qed.

Lemma WriteVUInt32_loop_ok n v pre dest :
  0 <= v < 128 ^ Z.of_nat (S n) -> (length (vbytesOf n v) <= length dest)%nat ->
  WriteVUInt32_loop n v (pre ++ dest) (length pre) =
    Ok (pre ++ vbytesOf n v ++ drop (length (vbytesOf n v)) dest, (length pre + length (vbytesOf n v))%nat).
Proof.
  revert v pre dest. induction n as [|n IH]; intros v pre dest Hv Hd;
    destruct (vbytesOf_case _ _ Hv) as [[Hv1 Heq]|(n' & Hn & Hge & Hv' & Heq)]; simplify_eq; cbn [WriteVUInt32_loop];
    rewrite Heq in *; cbn [length] in *; (destruct dest as [|x dest]; [cbn in Hd; lia|]).
  1, 2: rewrite (proj2 (Z.ltb_ge 127 v)) by lia; rewrite land127, Z.mod_small, putByte_ok by lia; cbn [res_bind];
    rewrite <- app_assoc, Nat.add_1_r; done.
  rewrite (proj2 (Z.ltb_lt 127 v)) by lia. rewrite lor_more, putByte_ok by lia. cbn [res_bind]. rewrite shiftr7.
  replace (S (length pre)) with (length (pre ++ [v mod 128 + 128])) by (rewrite length_app; cbn; lia).
  cbn [length] in Hd. rewrite IH by lia. rewrite length_app, <- app_assoc. cbn. do 2 f_equal. lia.
Qed.

(** ** Decoding *)

(** The loop of the decoders on a list of bytes: [b] was read last. *)
Fixpoint vread (fuel : nat) (b value shift : Z) (src : list Z) : option (Z * list Z) :=
  if Z.land b 128 =? 0 then Some (value, src)
  else
    match fuel, src with
    | S fuel, b :: src => vread fuel b (Z.lor value (u32 (Z.shiftl (Z.land b 127) shift))) (shift + 7) src
    | _, _ => None
    end.

Lemma vread_length fuel b value shift src r src' :
  vread fuel b value shift src = Some (r, src') -> (length src' <= length src)%nat.
Proof.
  revert b value shift src. induction fuel as [|fuel IH]; intros b value shift src; cbn;
    destruct (Z.land b 128 =? 0); intros H; simplify_eq; try lia.
  destruct src as [|b' src]; [done|]. apply IH in H. cbn. lia.
Qed.

Lemma vbytesOf_head n v :
  0 <= v < 128 ^ Z.of_nat (S n) ->
  exists b t, vbytesOf n v = b :: t /\ 0 <= b < 256 /\ Z.land b 127 = v mod 128.
Proof.
  intros Hv. destruct (vbytesOf_case _ _ Hv) as [[? ->]|(n' & _ & ? & ? & ->)]; eexists _, _;
    (split; [done|]); rewrite land127; split; lia.
Qed.

Lemma vread_ok n v acc s b t rest :
  0 <= v < 128 ^ Z.of_nat (S n) -> vbytesOf n v = b :: t -> 0 <= s -> 0 <= acc < 2 ^ s -> v * 2 ^ s < 2 ^ 32 ->
  vread n b (acc + v mod 128 * 2 ^ s) (s + 7) (t ++ rest) = Some (acc + v * 2 ^ s, rest).
Proof.
  revert v acc s b t. induction n as [|n IH]; intros v acc s b t Hv Hbt Hs Hacc Hmax;
    destruct (vbytesOf_case _ _ Hv) as [[Hv1 Heq]|(n' & Hn & Hge & Hv' & Heq)]; simplify_eq; cbn [vread];
    rewrite Heq in *; simplify_eq; rewrite more_bit by lia.
  1, 2: rewrite (proj2 (Z.ltb_lt b 128)) by lia; by rewrite Z.mod_small by lia.
  rewrite (proj2 (Z.ltb_ge _ 128)) by lia. destruct (vbytesOf_head _ _ Hv') as (b' & t' & Hb' & Hr & Hlow). rewrite Hb'. cbn [app].
  assert (0 < 2 ^ s) by (apply Z.pow_pos_nonneg; lia).
  assert (2 ^ (s + 7) = 128 * 2 ^ s) as Hp by (rewrite Z.pow_add_r by lia; lia).
  assert (v = v / 128 * 128 + v mod 128) as Hdm by lia.
  assert (v / 128 * 2 ^ (s + 7) < 2 ^ 32) as Hmax' by (rewrite Hp; nia).
  assert ((v / 128) mod 128 * 2 ^ (s + 7) <= v / 128 * 2 ^ (s + 7)) by (apply Z.mul_le_mono_nonneg_r; lia).
  rewrite Hlow, Z.shiftl_mul_pow2, (u32_small ((v / 128) mod 128 * 2 ^ (s + 7))), <- (Z.shiftl_mul_pow2 ((v / 128) mod 128)) by nia.
  rewrite lor_disjoint by (rewrite ?Hp; nia).
  rewrite (IH (v / 128) (acc + v mod 128 * 2 ^ s) (s + 7) b' t' Hv' Hb') by (rewrite ?Hp; nia).
  do 2 f_equal. rewrite Hp. nia.
Qed.

(** The loop after the first byte of a number *)
Lemma vread_vbytes v :
  0 <= v < 2 ^ 32 ->
  exists b t, vbytes v = b :: t /\ 0 <= b < 256 /\ (forall rest, vread 4 b (Z.land b 127) 7 (t ++ rest) = Some (v, rest)).
Proof.
  intros Hv. destruct (vbytesOf_head 4 v (u32_vrange _ Hv)) as (b & t & Hb & Hr & Hlow).
  exists b, t. split_and!; [done | lia | lia|]. intros rest. rewrite Hlow.
  pose proof (vread_ok 4 v 0 0 b t rest (u32_vrange _ Hv) Hb) as H. change (2 ^ 0) with 1 in H.
  rewrite !Z.mul_1_r, !Z.add_0_l in H. apply H; lia.
Qed.

Lemma ReadVUInt32_loop_vread fuel b value shift pre src r src' :
  vread fuel b value shift src = Some (r, src') ->
  ReadVUInt32_loop fuel b value shift (pre ++ src) (length pre) = Ok (r, (length pre + length src - length src')%nat).
Proof.
  revert b value shift pre src. induction fuel as [|fuel IH]; intros b value shift pre src H; cbn in *;
    destruct (Z.land b 128 =? 0); simplify_eq; try (do 2 f_equal; lia).
  destruct src as [|b' src]; [done|]. rewrite lookup_app_r, Nat.sub_diag by lia. cbn [lookup list_lookup deref res_bind].
  rewrite (cons_middle b' pre src), app_assoc. replace (S (length pre)) with (length (pre ++ [b'])) by (rewrite length_app; cbn; lia).
  rewrite (IH _ _ _ _ _ H), length_app. cbn. do 2 f_equal. lia.
Qed.

(** [ReadVUInt32] reads what [WriteVUInt32] writes. *)
Lemma vbyte_ReadVUInt32_ok v pre rest :
  0 <= v < 2 ^ 32 -> ReadVUInt32 (pre ++ vbytes v ++ rest) (length pre) = Ok (v, (length pre + length (vbytes v))%nat).
Proof.
  intros Hv. destruct (vread_vbytes v Hv) as (b & t & Hb & _ & Hread). unfold ReadVUInt32. rewrite Hb.
  rewrite lookup_app_r, Nat.sub_diag by lia. cbn [lookup list_lookup deref res_bind app].
  rewrite (cons_middle b pre (t ++ rest)), app_assoc.
  replace (S (length pre)) with (length (pre ++ [b])) by (rewrite length_app; cbn; lia).
  rewrite (ReadVUInt32_loop_vread _ _ _ _ _ _ _ _ (Hread rest)), !length_app. cbn. do 2 f_equal. lia.
Qed.

Lemma WriteVUInt32_ok v pre dest :
  0 <= v < 2 ^ 32 -> (length (vbytes v) <= length dest)%nat ->
  WriteVUInt32 v (pre ++ dest) (length pre) =
    Ok (pre ++ vbytes v ++ drop (length (vbytes v)) dest, (length pre + length (vbytes v))%nat).
Proof. intros Hv. apply WriteVUInt32_loop_ok, u32_vrange, Hv. Qed.

Lemma vbyte_ReadByte_ok pre b rest maxLen :
  Z.of_nat (length pre) < maxLen < 2 ^ 32 ->
  ReadByte (pre ++ b :: rest) (Z.of_nat (length pre)) maxLen = Ok (b, Z.of_nat (length (pre ++ [b]))).
Proof.
  intros Hm. unfold ReadByte. rewrite (proj2 (Z.leb_gt _ _)) by lia.
  rewrite Nat2Z.id, lookup_app_r, Nat.sub_diag by lia. cbn. rewrite u32_small, length_app by lia. cbn. do 2 f_equal. lia.
Qed.

Lemma decodeLoop_vread fuel fuel' b i shift pre src r src' maxLen :
  vread fuel b i shift src = Some (r, src') -> (fuel <= fuel')%nat -> 0 <= i < 2 ^ 32 -> 0 <= shift ->
  shift + 7 * Z.of_nat fuel <= 63 -> Z.of_nat (length pre + length src - length src') <= maxLen < 2 ^ 32 ->
  (length src' <= length src)%nat ->
  decodeLoop fuel' (pre ++ src) b i shift (Z.of_nat (length pre)) maxLen =
    Ok (r, Z.of_nat (length pre + length src - length src')).
Proof.
  revert fuel' b i shift pre src. induction fuel as [|fuel IH]; intros fuel' b i shift pre src H Hf Hi Hs Hs63 Hm Hle;
    destruct fuel' as [|fuel']; try lia; cbn in H |- *; destruct (Z.land b 128 =? 0); simplify_eq; try (do 2 f_equal; lia).
  destruct src as [|b' src]; [done|]. assert (length src' <= length src)%nat as Hle'.
  { by eapply vread_length. }
  cbn [length] in *. rewrite vbyte_ReadByte_ok by lia. cbn [res_bind]. rewrite (proj2 (Z.leb_gt 64 shift)) by lia.
  rewrite (cons_middle b' pre src), app_assoc.
  assert (u32 (Z.lor i (Z.shiftl (Z.land b' 127) shift)) = Z.lor i (u32 (Z.shiftl (Z.land b' 127) shift))) as ->.
  { unfold u32. rewrite <- !Z.land_ones, Z.land_lor_distr_l by lia. by rewrite (Z.land_ones i), (Z.mod_small i) by lia. }
  rewrite (IH _ _ _ _ _ _ H).
  - rewrite length_app. cbn. do 2 f_equal. lia.
  - lia.
  - apply bound_by_bits; [lia|]. intros j Hj. rewrite Z.lor_spec, (testbit_high i 32) by lia. cbn.
    apply (testbit_high _ 32); [apply u32_range | lia | lia].
  - lia.
  - lia.
  - rewrite length_app. cbn. lia.
  - done.
Qed.

(** [DecodeVInt32] reads what [EncodeVInt32] writes, whatever follows. *)
Lemma DecodeVInt32_ok v rest maxLen :
  Z.of_nat (length (vbytes (u32 v))) <= maxLen < 2 ^ 32 ->
  DecodeVInt32 (vbytes (u32 v) ++ rest) maxLen = Ok (i32 (u32 v), Z.of_nat (length (vbytes (u32 v)))).
Proof.
  intros Hm. destruct (vread_vbytes (u32 v) (u32_range v)) as (b & t & Hb & Hr & Hread). unfold DecodeVInt32.
  rewrite Hb in *. cbn [length app] in *. pose proof (vbyte_ReadByte_ok [] b (t ++ rest) maxLen ltac:(cbn; lia)) as H0. cbn in H0. change (Z.of_nat 0) with 0 in H0. rewrite H0. cbn [res_bind].
  pose proof (decodeLoop_vread 4 10 b (Z.land b 127) 7 [b] (t ++ rest) _ _ maxLen (Hread rest)) as H.
  rewrite land127 in *. cbn [length app] in *. rewrite length_app in H.
  replace (1 + (length t + length rest) - length rest)%nat with (S (length t)) in H by lia. rewrite H; [done | lia..].
Qed.

End VByte.
