(* ===== verification/ByteSliceWriter.v ===== *)
(** * ByteSliceWriter

    [ByteSliceWriter] (src/aios/storage/indexlib/file_system/ByteSliceWriter.h, .cpp): appends to the last
    slice of a [ByteSliceList] and adds a larger slice when it is full. A pool only decides where an
    object is allocated, so it does not appear. *)

From stdpp Require Import base list numbers option tactics gmap.
From Stdlib Require Import ZArith Lia ZifyNat.
From S2P Require Import Prelude Bits ByteSliceList.

#[local] Open Scope Z_scope.
#[local] Open Scope store_scope.

Module Writer.

Record ByteSliceWriter := mkWriter {
  _sliceList : option addr;
  _lastSliceSize : Z;
  _isOwnSliceList : bool
}.

(** [DEFAULT_CHUNK_SIZE_BYTES], [sizeof(ChainedMemoryChunk)] *)
Definition DEFAULT_CHUNK_SIZE_BYTES : Z := 10 * 1024 * 1024.
Definition sizeof_ChainedMemoryChunk : Z := 40.
Definition MIN_SLICE_SIZE : Z := GetHeadSize.

Definition set_last (n : Z) (w : ByteSliceWriter) : ByteSliceWriter :=
  mkWriter (_sliceList w) n (_isOwnSliceList w).

(** The list of the writer; null after [Close] *)
Definition listOf (w : ByteSliceWriter) : SM addr := lift (deref (_sliceList w)).

Definition CreateSlice (size : Z) (w : ByteSliceWriter) : SM (addr * ByteSliceWriter) :=
  let* slice := CreateObject size in
  let* s := getSlice slice in
  let w := set_last (u32 (ByteSliceList.size s)) w in
  let* _ := setSlice slice (set_size 0 s) in
  ret (slice, w).

(** The constructor *)
Definition new_ByteSliceWriter (minSliceSize : Z) : SM ByteSliceWriter :=
  let w := mkWriter None (u32 (minSliceSize - GetHeadSize)) true in
  let* l := new_ByteSliceList in
  let w := mkWriter (Some l) (_lastSliceSize w) (_isOwnSliceList w) in
  let* (slice, w) := CreateSlice (_lastSliceSize w) w in
  let* _ := Add l slice in
  ret w.

Definition GetIncrementedSliceSize (lastSliceSize : Z) : Z :=
  let prev := u32 (lastSliceSize + GetHeadSize) in
  let sliceSize := u32 (u32 (prev + Z.shiftr prev 2) - GetHeadSize) in
  let chunkSize := DEFAULT_CHUNK_SIZE_BYTES - GetHeadSize - sizeof_ChainedMemoryChunk in
  if sliceSize <? chunkSize then sliceSize else chunkSize.

(** A new last slice *)
Definition growSlice (l : addr) (w : ByteSliceWriter) : SM (addr * ByteSliceWriter) :=
  let w := set_last (GetIncrementedSliceSize (_lastSliceSize w)) w in
  let* (slice, w) := CreateSlice (_lastSliceSize w) w in
  let* _ := Add l slice in
  ret (slice, w).

(** [GetSliceForWrite<T>], [n] is [sizeof(T)] *)
Definition GetSliceForWrite (n : Z) (w : ByteSliceWriter) : SM (addr * ByteSliceWriter) :=
  let* l := listOf w in
  let* L := getList l in
  let* slice := lift (deref (_tail L)) in
  let* s := getSlice slice in
  if _lastSliceSize w <? u64 (size s + n) then growSlice l w else ret (slice, w).

(** [Write(T value)] for a type of [n] bytes: the bytes of the value, lowest first. [WriteByte],
    [WriteInt16], [WriteInt32] and [WriteUInt32] are the same code for one type. *)
Definition WriteT (n : nat) (value : Z) (w : ByteSliceWriter) : SM ByteSliceWriter :=
  let* (slice, w) := GetSliceForWrite (Z.of_nat n) w in
  let* s := getSlice slice in
  let* d := lift (poke (data s) (size s) (bytes n value)) in
  let* _ := setSlice slice (set_size (u64 (size s + Z.of_nat n)) (set_data d s)) in
  let* l := listOf w in
  let* _ := IncrementTotalSize l (Z.of_nat n) in
  ret w.

Definition WriteByte (value : Z) : ByteSliceWriter -> SM ByteSliceWriter := WriteT 1 value.
Definition WriteInt16 (value : Z) : ByteSliceWriter -> SM ByteSliceWriter := WriteT 2 value.
Definition WriteInt32 (value : Z) : ByteSliceWriter -> SM ByteSliceWriter := WriteT 4 value.
Definition WriteUInt32 (value : Z) : ByteSliceWriter -> SM ByteSliceWriter := WriteT 4 value.

(** [while (value > 0x7F)] of [WriteVInt]; four rounds are enough for 32 bits. *)
Fixpoint writeVIntLoop (fuel : nat) (value len : Z) (w : ByteSliceWriter) : SM (Z * Z * ByteSliceWriter) :=
  if 127 <? value then
    match fuel with
    | O => lift OutOfFuel
    | S fuel =>
        let* w := WriteByte (Z.lor 128 (Z.land value 127)) w in
        writeVIntLoop fuel (Z.shiftr value 7) (u32 (len + 1)) w
    end
  else ret (value, len, w).

Definition WriteVInt (value : Z) (w : ByteSliceWriter) : SM (Z * ByteSliceWriter) :=
  let* (value, len, w) := writeVIntLoop 4 value 1 w in
  let* w := WriteByte (Z.land value 127) w in
  ret (len, w).

(** [HoldInt32] returns a reference: the slice and the place in it. *)
Definition HoldInt32 (w : ByteSliceWriter) : SM ((addr * Z) * ByteSliceWriter) :=
  let* (slice, w) := GetSliceForWrite 4 w in
  let* s := getSlice slice in
  let* _ := setSlice slice (set_size (u64 (size s + 4)) s) in
  let* l := listOf w in
  let* _ := IncrementTotalSize l 4 in
  ret ((slice, size s), w).

(** An assignment to the reference *)
Definition assignInt32 (r : addr * Z) (value : Z) : SM unit :=
  let* s := getSlice (fst r) in
  let* d := lift (poke (data s) (snd r) (bytes 4 value)) in
  setSlice (fst r) (set_data d s).

(** [Write(const void* value, size_t len)]: the loop, [left] bytes to go, the first of [value] next *)
Fixpoint writeLoop (fuel : nat) (l slice : addr) (value : list Z) (left : Z) (w : ByteSliceWriter) : SM ByteSliceWriter :=
  if 0 <? left then
    match fuel with
    | O => lift OutOfFuel
    | S fuel =>
        let* s := getSlice slice in
        let* (slice, w) := if _lastSliceSize w <=? size s then growSlice l w else ret (slice, w) in
        let* s := getSlice slice in
        let room := u64 (_lastSliceSize w - size s) in
        let nCopyLen := u32 (if left <? room then left else room) in
        let* d := lift (poke (data s) (size s) (take (Z.to_nat nCopyLen) value)) in
        let* _ := setSlice slice (set_size (u64 (size s + nCopyLen)) (set_data d s)) in
        writeLoop fuel l slice (drop (Z.to_nat nCopyLen) value) (u32 (left - nCopyLen)) w
    end
  else ret w.

Definition Write (value : list Z) (w : ByteSliceWriter) : SM ByteSliceWriter :=
  let len := Z.of_nat (length value) in
  let left := u32 len in
  let* l := listOf w in
  let* L := getList l in
  let* slice := lift (deref (_tail L)) in
  let* w := writeLoop (S (length value)) l slice value left w in
  let* _ := IncrementTotalSize l len in
  ret w.

(** [Write(ByteSliceList& src)] *)
Definition WriteList (src : addr) (w : ByteSliceWriter) : SM unit :=
  let* l := listOf w in MergeWith l src.

(** [Write(const ByteSliceList& src, uint32_t start, uint32_t end)]: the loop that finds the first slice *)
Fixpoint findStart (fuel : nat) (start : Z) (currSlice nextSlice : option addr) (nextSliceOffset : Z)
    : SM (option addr * option addr * Z) :=
  if nextSliceOffset <=? start then
    match fuel with
    | O => lift OutOfFuel
    | S fuel =>
        let currSlice := nextSlice in
        let* s := derefSlice currSlice in
        findStart fuel start currSlice (next s) (u32 (nextSliceOffset + size s))
    end
  else ret (currSlice, nextSlice, nextSliceOffset).

(** The loop that copies whole slices *)
Fixpoint copySlices (fuel : nat) (start end_ : Z) (currSlice nextSlice : option addr) (nextSliceOffset : Z)
    (w : ByteSliceWriter) : SM (Z * option addr * Z * ByteSliceWriter) :=
  if nextSliceOffset <? end_ then
    match fuel with
    | O => lift OutOfFuel
    | S fuel =>
        let copyLen := u32 (nextSliceOffset - start) in
        let* s := derefSlice currSlice in
        let* bs := lift (peek (data s) (size s - copyLen) copyLen) in
        let* w := Write bs w in
        let currSlice := nextSlice in
        let* s := derefSlice currSlice in
        copySlices fuel nextSliceOffset end_ currSlice (next s) (u32 (nextSliceOffset + size s)) w
    end
  else ret (start, currSlice, nextSliceOffset, w).

Definition WriteRange (src : addr) (start end_ : Z) (w : ByteSliceWriter) : SM ByteSliceWriter :=
  let* L := getList src in
  if (end_ <=? start) || (_totalSize L <? end_) then lift (Error OutOfRange)
  else
    let* (currSlice, nextSlice, nextSliceOffset) := (fun m => findStart (S (brk m)) start None (_head L) 0 m) in
    let* (start, currSlice, nextSliceOffset, w) :=
      (fun m => copySlices (S (brk m)) start end_ currSlice nextSlice nextSliceOffset w m) in
    let copyLen := u32 (end_ - start) in
    let* s := derefSlice currSlice in
    let currSliceOffset := u32 (nextSliceOffset - size s) in
    let* bs := lift (peek (data s) (start - currSliceOffset) copyLen) in
    Write bs w.

Definition GetSize (w : ByteSliceWriter) : SM Z := let* l := listOf w in GetTotalSize l.

Definition Close (w : ByteSliceWriter) : SM ByteSliceWriter :=
  match _isOwnSliceList w, _sliceList w with
  | true, Some l =>
      let* _ := Clear l in
      let* _ := freeList l in
      ret (mkWriter None (_lastSliceSize w) (_isOwnSliceList w))
  | _, _ => ret w
  end.

Definition Reset (w : ByteSliceWriter) : SM ByteSliceWriter :=
  let w := set_last (u32 (MIN_SLICE_SIZE - GetHeadSize)) w in
  let* w := Close w in
  let* l := new_ByteSliceList in
  let w := mkWriter (Some l) (_lastSliceSize w) (_isOwnSliceList w) in
  let* (slice, w) := CreateSlice (_lastSliceSize w) w in
  let* _ := Add l slice in
  ret w.

(** [SnapShot]: [other] shares the list. *)
Definition SnapShot (w other : ByteSliceWriter) : SM ByteSliceWriter :=
  let* other := Close other in
  ret (mkWriter (_sliceList w) (_lastSliceSize w) false).

(** [Dump]: [write] is [FileWriter::Write]. *)
Section Dump.
Context {File : Type} (write : File -> list Z -> res File).

Fixpoint dumpLoop (fuel : nat) (slice : option addr) (file : File) : SM File :=
  match slice with
  | None => ret file
  | Some a =>
      match fuel with
      | O => lift OutOfFuel
      | S fuel =>
          let* s := getSlice a in
          let* bs := lift (peek (data s) 0 (size s)) in
          let* file := lift (write file bs) in
          dumpLoop fuel (next s) file
      end
  end.

Definition Dump (file : File) (w : ByteSliceWriter) : SM File :=
  let* l := listOf w in
  let* L := getList l in
  fun m => dumpLoop (S (brk m)) (_head L) file m.
End Dump.

End Writer.
