(* ===== verification/BlockByteSliceList.v ===== *)
(** * BlockByteSliceList

    [BlockByteSliceList] (src/aios/storage/indexlib/file_system/file/BlockByteSliceList.h, .cpp): a list of
    slices that stands for a range of a file. A slice covers [size] bytes of the file at [offset], and the
    first [dataSize] of them are in memory; reading further fetches the block that holds the next byte
    and splits the slice in front of it. [BlockDataRetriever] is the virtual class that fetches blocks, with
    [NoCompressBlockDataRetriever] as the implementation for plain files. The block cache it asks
    ([BlockFileAccessor::GetBlock]) is a parameter. *)

From stdpp Require Import base list numbers option tactics gmap.
From Stdlib Require Import ZArith Lia ZifyNat.
From S2P Require Import Prelude ByteSliceList.

#[local] Open Scope Z_scope.
#[local] Open Scope store_scope.

(** [RetrieveBlockData(fileOffset, blockDataBeginOffset, blockDataLength)]: the offset, the length and the
    bytes of a block, [None] for a null pointer *)
Class BlockDataRetriever := {
  RetrieveBlockData : Z -> res (option (Z * Z * list Z))
}.

(** [BlockDataRetriever::GetBlockMeta] *)
Definition GetBlockMeta (_blockSize _totalLength fileOffset : Z) : option (Z * Z) :=
  if _totalLength <=? fileOffset then None
  else
    let blockDataBeginOffset := fileOffset - fileOffset mod _blockSize in
    Some (blockDataBeginOffset, Z.min (_totalLength - blockDataBeginOffset) _blockSize).

Section NoCompress.
Context (_blockSize _totalLength : Z) (GetBlock : Z -> res (list Z)).

Definition NoCompress_RetrieveBlockData (fileOffset : Z) : res (option (Z * Z * list Z)) :=
  match GetBlockMeta _blockSize _totalLength fileOffset with
  | None => Ok None
  | Some (blockDataBeginOffset, blockDataLength) =>
      let! block := GetBlock blockDataBeginOffset in
      Ok (Some (blockDataBeginOffset, blockDataLength, block))
  end.

Definition NoCompressBlockDataRetriever : BlockDataRetriever := {| RetrieveBlockData := NoCompress_RetrieveBlockData |}.
End NoCompress.

Definition new_BlockByteSliceList : SM addr := newList (mkList None None 0 true).

Definition AddBlock (l : addr) (fileOffset dataSize : Z) : SM unit :=
  let* byteSlice := CreateObject 0 in
  let* _ := setSlice byteSlice (mkSlice None None dataSize 0 fileOffset) in
  Add l byteSlice.

(** The loop of [Clear]: the fields of a slice are reset before it is destroyed. *)
Fixpoint clearBlocks (fuel : nat) (slice : option addr) : SM unit :=
  match slice with
  | None => ret tt
  | Some a =>
      match fuel with
      | O => lift OutOfFuel
      | S fuel =>
          let* s := getSlice a in
          let* _ := setSlice a (mkSlice (next s) None 0 0 0) in
          let* _ := DestroyObject a in
          clearBlocks fuel (next s)
      end
  end.

Definition BlockClear (l : addr) : SM unit :=
  let* L := getList l in
  let* _ := (fun m => clearBlocks (S (brk m)) (_head L) m) in
  setList l (mkList None None 0 (isBlock L)).

Section Slices.
Context `{BlockDataRetriever}.

Definition GetSlice (l : addr) (fileOffset : Z) (slice : option addr) : SM (option addr) :=
  match slice with
  | None => ret None
  | Some a =>
      let* s := getSlice a in
      if offset s + dataSize s <=? fileOffset then
        let* block := lift (RetrieveBlockData fileOffset) in
        let* (blockOffset, blockDataSize, blockData) := lift (deref block) in
        let* retSlice :=
          if blockOffset <=? offset s then
            let dataOffset := offset s - blockOffset in
            let* _ := setSlice a (mkSlice (next s) (Some (drop (Z.to_nat dataOffset) (map Some blockData)))
                                    (size s) (u64 (blockDataSize - dataOffset)) (offset s)) in
            ret a
          else
            let* newSlice := CreateObject 0 in
            let newSize := u64 (offset s + size s - blockOffset) in
            let* _ := setSlice newSlice (mkSlice (next s) (Some (map Some blockData)) newSize blockDataSize blockOffset) in
            let* _ := setSlice a (mkSlice (Some newSlice) (data s) (u64 (size s - newSize)) (dataSize s) (offset s)) in
            let* L := getList l in
            let* _ := if decide (_tail L = Some a)
                      then setList l (mkList (_head L) (Some newSlice) (_totalSize L) (isBlock L)) else ret tt in
            ret newSlice in
        let* r := getSlice retSlice in
        let* _ := setSlice retSlice (set_dataSize (Z.min (dataSize r) (size r)) r) in
        ret (Some retSlice)
      else ret slice
  end.

Definition GetNextSlice (l : addr) (slice : option addr) : SM (option addr) :=
  match slice with
  | None => ret None
  | Some a =>
      let* s := getSlice a in
      if dataSize s =? size s then ret (next s)
      else GetSlice l (u64 (offset s + dataSize s)) slice
  end.

End Slices.
