(* ===== verification/ByteSliceReader.v ===== *)
(** * ByteSliceReader

    [ByteSliceReader] (src/aios/storage/indexlib/file_system/ByteSliceReader.h, .cpp): a cursor that reads bytes,
    integers and strings of bytes across the slices of a list, of either kind. An [FSEC_ERROR] is
    [Error FileIO]. *)

From stdpp Require Import base list numbers option tactics gmap.
From Stdlib Require Import ZArith Lia ZifyNat.
From S2P Require Import Prelude Bits ByteSliceList BlockByteSliceList.

#[local] Open Scope Z_scope.
#[local] Open Scope store_scope.

Module Reader.

Record ByteSliceReader := mkReader {
  _currentSlice : option addr;
  _currentSliceOffset : Z;
  _globalOffset : Z;
  _sliceList : option addr;
  _size : Z;
  _isBlockByteSliceList : bool
}.

Definition BYTE_SLICE_EOF : Z := -1.

Definition new_ByteSliceReader : ByteSliceReader := mkReader None 0 0 None 0 false.

(** [Close] resets every member. *)
Definition Close (r : ByteSliceReader) : ByteSliceReader := new_ByteSliceReader.

(** The position: the current slice and the offset in it *)
Definition set_pos (slice : option addr) (off : Z) (r : ByteSliceReader) : ByteSliceReader :=
  mkReader slice off (_globalOffset r) (_sliceList r) (_size r) (_isBlockByteSliceList r).
Definition set_global (g : Z) (r : ByteSliceReader) : ByteSliceReader :=
  mkReader (_currentSlice r) (_currentSliceOffset r) g (_sliceList r) (_size r) (_isBlockByteSliceList r).
(** [_currentSliceOffset += n; _globalOffset += n;] *)
Definition move (n : Z) (r : ByteSliceReader) : ByteSliceReader :=
  set_global (u64 (_globalOffset r + n)) (set_pos (_currentSlice r) (u64 (_currentSliceOffset r + n)) r).

Definition GetSize (r : ByteSliceReader) : SM Z :=
  let* l := lift (deref (_sliceList r)) in GetTotalSize l.
Definition Tell (r : ByteSliceReader) : Z := _globalOffset r.
Definition End_ (r : ByteSliceReader) : bool := _size r <=? u64 (Tell r + 1).

Section Reads.
Context `{BlockDataRetriever}.

Definition NextSlice (byteSlice : option addr) (r : ByteSliceReader) : SM (option addr) :=
  if negb (_isBlockByteSliceList r) then let* s := derefSlice byteSlice in ret (next s)
  else let* l := lift (deref (_sliceList r)) in GetNextSlice l byteSlice.

Definition GetSliceDataSize (byteSlice : option addr) (r : ByteSliceReader) : SM Z :=
  let* s := derefSlice byteSlice in
  ret (if negb (_isBlockByteSliceList r) then size s else dataSize s).

Definition PrepareSlice (byteSlice : option addr) (r : ByteSliceReader) : SM (option addr * ByteSliceReader) :=
  if negb (_isBlockByteSliceList r) then ret (byteSlice, r)
  else
    let* l := lift (deref (_sliceList r)) in
    let* s := derefSlice byteSlice in
    let fileOffset := u64 (offset s + _currentSliceOffset r) in
    let* newSlice := GetSlice l fileOffset byteSlice in
    let* ns := derefSlice newSlice in
    ret (newSlice, set_pos (_currentSlice r) (u64 (fileOffset - offset ns)) r).

(** [Open] of a list *)
Definition Open (sliceList : addr) (r : ByteSliceReader) : SM ByteSliceReader :=
  let r := Close r in
  let* L := getList sliceList in
  let r := mkReader (_currentSlice r) (_currentSliceOffset r) (_globalOffset r) (Some sliceList) (_totalSize L) (isBlock L) in
  let* (headSlice, r) := if isBlock L then PrepareSlice (_head L) r else ret (_head L, r) in
  let r := set_global 0 (set_pos headSlice 0 r) in
  match headSlice with None => lift (Error FileIO) | Some _ => ret r end.

(** [Open] of a chain of slices that no list holds *)
Definition OpenSlice (slice : option addr) (r : ByteSliceReader) : res ByteSliceReader :=
  let r := set_global 0 (set_pos slice 0 (Close r)) in
  match slice with None => Error FileIO | Some _ => Ok r end.

Definition CurrentSliceEnough (len : Z) (r : ByteSliceReader) : SM bool :=
  let* n := GetSliceDataSize (_currentSlice r) r in ret (u64 (_currentSliceOffset r + len) <=? n).

(** The byte at [data + off] *)
Definition byteAt (s : ByteSlice) (off : Z) : res Z :=
  let! bs := peek (data s) off 1 in deref (head bs).

Definition ReadByte (r : ByteSliceReader) : SM (Z * ByteSliceReader) :=
  let* n := GetSliceDataSize (_currentSlice r) r in
  let* r := if n <=? _currentSliceOffset r
            then let* s := NextSlice (_currentSlice r) r in ret (set_pos s 0 r)
            else ret r in
  let* s := derefSlice (_currentSlice r) in
  let* value := lift (byteAt s (_currentSliceOffset r)) in
  ret (value, move 1 r).

Fixpoint readBytes (n : nat) (r : ByteSliceReader) : SM (list Z * ByteSliceReader) :=
  match n with
  | O => ret ([], r)
  | S n =>
      let* (b, r) := ReadByte r in
      let* (bs, r) := readBytes n r in
      ret (b :: bs, r)
  end.

(** [ReadInt<T>] for a type of [n] bytes; the value is unsigned. *)
Definition ReadInt (n : nat) (r : ByteSliceReader) : SM (Z * ByteSliceReader) :=
  let* currentSliceDataSize := GetSliceDataSize (_currentSlice r) r in
  if u64 (_currentSliceOffset r + Z.of_nat n) <=? currentSliceDataSize then
    let* s := derefSlice (_currentSlice r) in
    let* bs := lift (peek (data s) (_currentSliceOffset r) (Z.of_nat n)) in
    ret (join bs, move (Z.of_nat n) r)
  else
    let* (bs, r) := readBytes n r in
    ret (join bs, r).

(** The value of 16 bits, read as a signed number *)
Definition i16 (x : Z) : Z := (x + 2 ^ 15) mod 2 ^ 16 - 2 ^ 15.

Definition ReadInt16 (r : ByteSliceReader) : SM (Z * ByteSliceReader) := let* (v, r) := ReadInt 2 r in ret (i16 v, r).
Definition ReadInt32 (r : ByteSliceReader) : SM (Z * ByteSliceReader) := let* (v, r) := ReadInt 4 r in ret (i32 v, r).
Definition ReadUInt32 (r : ByteSliceReader) : SM (Z * ByteSliceReader) := ReadInt 4 r.
Definition ReadInt64 (r : ByteSliceReader) : SM (Z * ByteSliceReader) := let* (v, r) := ReadInt 8 r in ret (i64 v, r).
Definition ReadUInt64 (r : ByteSliceReader) : SM (Z * ByteSliceReader) := ReadInt 8 r.

(** [while (byte & 0x80)]: the fourth round shifts by 28 bits, and one more would shift an [int] by 35,
    which is undefined. *)
Fixpoint readVIntLoop (fuel : nat) (byte value shift : Z) (r : ByteSliceReader) : SM (Z * ByteSliceReader) :=
  if Z.land byte 128 =? 0 then ret (value, r)
  else
    match fuel with
    | O => lift Undefined
    | S fuel =>
        let* (byte, r) := ReadByte r in
        readVIntLoop fuel byte (Z.lor value (u32 (Z.shiftl (Z.land byte 127) shift))) (shift + 7) r
    end.

Definition ReadVUInt32 (r : ByteSliceReader) : SM (Z * ByteSliceReader) :=
  let* (byte, r) := ReadByte r in
  readVIntLoop 4 byte (Z.land byte 127) 7 r.

Definition ReadVInt32 (r : ByteSliceReader) : SM (Z * ByteSliceReader) :=
  let* (v, r) := ReadVUInt32 r in ret (i32 v, r).

(** The loop of [PeekInt32] that collects [n] more bytes *)
Fixpoint peekBytes (n : nat) (slice : option addr) (curSliceOff : Z) (r : ByteSliceReader) : SM (list Z) :=
  match n with
  | O => ret []
  | S n =>
      let* size := GetSliceDataSize slice r in
      let* (slice, curSliceOff) :=
        if size <=? curSliceOff then
          let* nextSlice := NextSlice slice r in
          match nextSlice with
          | None => lift (Error FileIO)
          | Some a =>
              let* s := getSlice a in
              match data s with None => lift (Error FileIO) | Some _ => ret (nextSlice, 0) end
          end
        else ret (slice, curSliceOff) in
      let* s := derefSlice slice in
      let* b := lift (byteAt s curSliceOff) in
      let* bs := peekBytes n slice (curSliceOff + 1) r in
      ret (b :: bs)
  end.

Definition PeekInt32 (r : ByteSliceReader) : SM Z :=
  let* n := GetSliceDataSize (_currentSlice r) r in
  if u64 (_currentSliceOffset r + 4) <=? n then
    let* s := derefSlice (_currentSlice r) in
    let* bs := lift (peek (data s) (_currentSliceOffset r) 4) in
    ret (i32 (join bs))
  else
    let* bs := peekBytes 4 (_currentSlice r) (_currentSliceOffset r) r in
    ret (i32 (join bs)).

(** [memcpy(dest + pos, bs, len)] on a buffer of bytes *)
Definition memcpy (dest : list Z) (pos : nat) (bs : list Z) : res (list Z) :=
  if (length dest <? pos + length bs)%nat then Undefined
  else Ok (take pos dest ++ bs ++ drop (pos + length bs) dest).

(** The loop of [Read]: [totalLen] bytes to go, [pos] is [dest - value]. *)
Fixpoint readLoop (fuel : nat) (dest : list Z) (pos : nat) (totalLen off : Z) (r : ByteSliceReader)
    : SM (list Z * Z * Z * ByteSliceReader) :=
  if 0 <? totalLen then
    match fuel with
    | O => lift OutOfFuel
    | S fuel =>
        let* n := GetSliceDataSize (_currentSlice r) r in
        let leftLen := i64 (n - off) in
        let* s := derefSlice (_currentSlice r) in
        if leftLen <? totalLen then
          let* bs := lift (peek (data s) off leftLen) in
          let* dest := lift (memcpy dest pos bs) in
          let totalLen := totalLen - leftLen in
          let* nextSlice := NextSlice (_currentSlice r) r in
          let r := set_pos nextSlice (_currentSliceOffset r) r in
          match nextSlice with
          | None => ret (dest, totalLen, 0, r)
          | Some _ => readLoop fuel dest (pos + length bs) totalLen 0 r
          end
        else
          let* bs := lift (peek (data s) off totalLen) in
          let* dest := lift (memcpy dest pos bs) in
          ret (dest, 0, u64 (off + totalLen), r)
    end
  else ret (dest, totalLen, off, r).

(** [Read(void* value, size_t len)]: the buffer, the number of bytes read and the reader. A round of the
    loop leaves a slice for good: with a block list, the slices that are split off are no longer than the bytes
    to read. *)
Definition Read (dest : list Z) (len : Z) (r : ByteSliceReader) : SM (list Z * Z * ByteSliceReader) :=
  match _currentSlice r with
  | None => ret (dest, 0, r)
  | Some a =>
      if len =? 0 then ret (dest, 0, r)
      else
        let* n := GetSliceDataSize (_currentSlice r) r in
        if u64 (_currentSliceOffset r + len) <=? n then
          let* s := getSlice a in
          let* bs := lift (peek (data s) (_currentSliceOffset r) len) in
          let* dest := lift (memcpy dest 0 bs) in
          ret (dest, len, move len r)
        else
          let* (dest, totalLen, off, r) :=
            (fun m => readLoop (S (brk m + Z.to_nat len)) dest 0 (i64 len) (_currentSliceOffset r) r m) in
          let readLen := u64 (len - totalLen) in
          ret (dest, readLen, set_global (u64 (_globalOffset r + readLen)) (set_pos (_currentSlice r) off r))
  end.

(** What [value] points to after [ReadMayCopy] *)
Inductive Pointer :=
| InSlice (a : addr) (off : Z)
| InBuffer (dest : list Z).

(** The [len] bytes there *)
Definition pointee (p : Pointer) (len : Z) : SM (list Z) :=
  match p with
  | InSlice a off => let* s := getSlice a in lift (peek (data s) off len)
  | InBuffer dest => ret (take (Z.to_nat len) dest)
  end.

Definition ReadMayCopy (dest : list Z) (len : Z) (r : ByteSliceReader) : SM (Pointer * Z * ByteSliceReader) :=
  match _currentSlice r with
  | None => ret (InBuffer dest, 0, r)
  | Some a =>
      if len =? 0 then ret (InBuffer dest, 0, r)
      else
        let* n := GetSliceDataSize (_currentSlice r) r in
        if u64 (_currentSliceOffset r + len) <=? n then
          ret (InSlice a (_currentSliceOffset r), len, move len r)
        else
          let* (dest, readLen, r) := Read dest len r in
          ret (InBuffer dest, readLen, r)
  end.

(** The loop of [Seek]; [inr] when it returns from inside. *)
Fixpoint seekLoop (fuel : nat) (totalLen : Z) (r : ByteSliceReader) : SM (ByteSliceReader + ByteSliceReader) :=
  if 0 <? totalLen then
    match fuel with
    | O => lift OutOfFuel
    | S fuel =>
        let* s := derefSlice (_currentSlice r) in
        let remainLen := i64 (size s - _currentSliceOffset r) in
        if remainLen <=? totalLen then
          let r := set_global (u64 (_globalOffset r + remainLen)) (set_pos (next s) 0 r) in
          match next s with
          | None =>
              let* n := GetSize r in
              ret (inr (if _globalOffset r =? n then set_global (u64 BYTE_SLICE_EOF) r else r))
          | Some _ => seekLoop fuel (totalLen - remainLen) r
          end
        else
          seekLoop fuel 0 (set_global (u64 (_globalOffset r + totalLen))
                             (set_pos (_currentSlice r) (u64 (_currentSliceOffset r + totalLen)) r))
    end
  else ret (inl r).

(** [Seek] returns the new position. The immutable empty object gets an address of its own. *)
Definition Seek (offset : Z) (r : ByteSliceReader) : SM (Z * ByteSliceReader) :=
  if offset <? _globalOffset r then lift (Error FileIO)
  else
    let len := u64 (offset - _globalOffset r) in
    match _currentSlice r with
    | None => ret (_globalOffset r, r)
    | Some _ =>
        if len =? 0 then ret (_globalOffset r, r)
        else
          let* n := GetSliceDataSize (_currentSlice r) r in
          if u64 (_currentSliceOffset r + len) <? n then ret (_globalOffset (move len r), move len r)
          else
            let* res := (fun m => seekLoop (S (S (brk m))) (i64 len) r m) in
            match res with
            | inr r => ret (u64 BYTE_SLICE_EOF, r)
            | inl r =>
                let* total := GetSize r in
                if _globalOffset r =? total then
                  let* empty := newSlice EmptyObject in
                  let r := set_global (u64 BYTE_SLICE_EOF) (set_pos (Some empty) 0 r) in
                  ret (_globalOffset r, r)
                else
                  let* (slice, r) := PrepareSlice (_currentSlice r) r in
                  let r := set_pos slice (_currentSliceOffset r) r in
                  ret (_globalOffset r, r)
            end
    end.

End Reads.

End Reader.
