(* ===== verification/ByteSliceWriterCorrect.v ===== *)
(** * The writer is correct

    The state of a [ByteSliceWriter] stands for the bytes in its chain of slices, for each of its operations. *)

From stdpp Require Import base list numbers option tactics gmap.
From Stdlib Require Import ZArith Lia ZifyNat ZifyBool.
From S2P Require Import Prelude Bits ByteSliceList SliceChain VbyteCompressor ByteSliceWriter.

#[local] Open Scope Z_scope.
#[local] Open Scope store_scope.

(** ** The writer appends

    The state of a [ByteSliceWriter] stands for the bytes in its chain of slices, and each operation appends
    to them. It leaves the rest of the store alone, and every slice keeps what it holds, so that a reader
    of the chain is not disturbed. *)

(** ** Running state transformers *)

Lemma sbind_ok {A B : Type} (f : SM A) (k : A -> SM B) m a m' : f m = Ok (a, m') -> sbind f k m = k a m'.
Proof. unfold sbind. by intros ->. Qed.

Lemma getSlice_ok m a s : slices m !! a = Some s -> getSlice a m = Ok (s, m).
Proof. unfold getSlice. by intros ->. Qed.

Lemma getList_ok m l x : lists m !! l = Some x -> getList l m = Ok (x, m).
Proof. unfold getList. by intros ->. Qed.

Lemma derefSlice_ok m a s : slices m !! a = Some s -> derefSlice (Some a) m = Ok (s, m).
Proof. intros H. unfold derefSlice. cbn. by apply getSlice_ok. Qed.

(** One step of a sequence, by an equation *)
Ltac srun H := rewrite (sbind_ok _ _ _ _ _ H); cbv beta iota.
(** The steps that only look *)
Ltac slook :=
  repeat (
    (rewrite (sbind_ok _ _ _ _ _ (eq_refl : ret _ _ = _))) ||
    (erewrite sbind_ok by (apply getSlice_ok; eassumption)) ||
    (erewrite sbind_ok by (apply derefSlice_ok; eassumption)) ||
    (erewrite sbind_ok by (apply getList_ok; eassumption)));
  cbv beta iota.

Module WriterCorrect.
Import Writer.

Definition headAddr (C : list (addr * ByteSlice)) : option addr := fst <$> head C.

(** [w] writes to the chain [ss ++ [(a, s)]] of the list [l]; the list claims to hold [t] bytes. *)
Record wstate (m : Store) (w : ByteSliceWriter) (l : addr) (ss : list (addr * ByteSlice)) (a : addr) (s : ByteSlice)
    (t : Z) : Prop := {
  ws_list : _sliceList w = Some l;
  ws_lists : lists m !! l = Some (mkList (headAddr (ss ++ [(a, s)])) (Some a) t false);
  ws_seg : seg (slices m) (headAddr (ss ++ [(a, s)])) (ss ++ [(a, s)]) None;
  ws_good : Forall (fun x => goodSlice (snd x)) (ss ++ [(a, s)]);
  ws_cap : exists d, data s = Some d /\ Z.of_nat (length d) = _lastSliceSize w;
  ws_last : 0 <= _lastSliceSize w < 2 ^ 31;
  ws_total : 0 <= t < 2 ^ 63;
  ws_store : storeOk m
}.

(** The store changes in the slices [F] and the list [l] only; [F'] are [F] and new ones. *)
Record evolves (m m' : Store) (l : addr) (F F' : list addr) : Prop := {
  ev_slices : forall x, x ∉ F -> (x < brk m)%nat -> slices m' !! x = slices m !! x;
  ev_lists : forall l', l' <> l -> lists m' !! l' = lists m !! l';
  ev_brk : (brk m <= brk m')%nat;
  ev_new : forall x, x ∈ F' -> x ∈ F \/ (brk m <= x)%nat
}.

Lemma evolves_refl m l F : evolves m m l F F.
Proof. split; auto. Qed.

Lemma evolves_trans m1 m2 m3 l F1 F2 F3 :
  evolves m1 m2 l F1 F2 -> evolves m2 m3 l F2 F3 -> evolves m1 m3 l F1 F3.
Proof.
  intros [s1 l1 b1 n1] [s2 l2 b2 n2]. split; [| |lia|].
  - intros x Hx Hb. rewrite s2, s1; [done | done | done | | lia].
    intros [?|?]%n1; [done | lia].
  - intros l' Hl. by rewrite l2, l1.
  - intros x [?%n1|?]%n2; [done | lia].
Qed.

(** The chain [C] became [C']: its last slice got more bytes, and more slices followed. *)
Inductive grows : list (addr * ByteSlice) -> list (addr * ByteSlice) -> Prop :=
| grows_last a s s' C : content s `prefix_of` content s' -> grows [(a, s)] ((a, s') :: C)
| grows_cons a s C C' : grows C C' -> grows ((a, s) :: C) ((a, s) :: C').

Lemma grows_refl ss a s : grows (ss ++ [(a, s)]) (ss ++ [(a, s)]).
Proof. induction ss as [|[b t] ss IH]; cbn; [by constructor | by constructor]. Qed.

Lemma grows_trans C1 C2 C3 : grows C1 C2 -> grows C2 C3 -> grows C1 C3.
Proof.
  intros H. revert C3. induction H as [a s s' C Hp|a s C C' H IH]; intros C3 H2.
  - inversion H2; subst; apply grows_last; [by transitivity (content s') | done].
  - inversion H2; subst; [inversion H|]. constructor. by apply IH.
Qed.

Lemma grows_at ss a s s' C : content s `prefix_of` content s' -> grows (ss ++ [(a, s)]) (ss ++ (a, s') :: C).
Proof. induction ss as [|[b t] ss IH]; cbn; intros H; constructor; auto. Qed.

Lemma headAddr_cons a s s' C C' : headAddr ((a, s) :: C) = headAddr ((a, s') :: C').
Proof. done. Qed.

Lemma headAddr_mid ss a s s' C C' : headAddr (ss ++ (a, s) :: C) = headAddr (ss ++ (a, s') :: C').
Proof. by destruct ss. Qed.

Lemma wstate_lookup m w l ss a s t : wstate m w l ss a s t -> slices m !! a = Some s.
Proof. intros []. eapply seg_lookup; [done|]. apply elem_of_app. right. by constructor. Qed.

Lemma wstate_goodSlice m w l ss a s t : wstate m w l ss a s t -> goodSlice s.
Proof. intros []. apply Forall_app in ws_good0 as [_ H]. by apply Forall_cons in H as [? _]. Qed.

(** ** Growth *)

(** A new slice has room for at least ten bytes, so for a value of any type. *)
Lemma GetIncrementedSliceSize_range n :
  0 <= n < 2 ^ 31 -> 10 <= GetIncrementedSliceSize n < 2 ^ 31.
Proof.
  intros Hn. unfold GetIncrementedSliceSize, GetHeadSize, DEFAULT_CHUNK_SIZE_BYTES, sizeof_ChainedMemoryChunk.
  rewrite Z.shiftr_div_pow2 by lia. rewrite (u32_small (n + 40)) by lia.
  change (2 ^ 2) with 4. set (q := (n + 40) / 4). assert (q * 4 <= n + 40 < q * 4 + 4) by (unfold q; lia).
  rewrite (u32_small (n + 40 + q)) by lia. rewrite u32_small by lia. destruct (_ <? _) eqn:E; lia.
Qed.

Lemma growSlice_ok m w l ss a s t :
  wstate m w l ss a s t ->
  exists a' s' m', let w' := set_last (GetIncrementedSliceSize (_lastSliceSize w)) w in
    growSlice l w m = Ok ((a', w'), m') /\ size s' = 0 /\ content s' = [] /\
    wstate m' w' l (ss ++ [(a, set_next (Some a') s)]) a' s' t /\
    evolves m m' l (ss ++ [(a, s)]).*1 ((ss ++ [(a, set_next (Some a') s)]) ++ [(a', s')]).*1.
Proof.
  intros Hw. pose proof (wstate_lookup _ _ _ _ _ _ _ Hw) as Ha. destruct Hw as [Hl Hls Hs Hg Hcap Hlast Ht Hst].
  pose proof (GetIncrementedSliceSize_range _ Hlast) as Hr. set (n := GetIncrementedSliceSize (_lastSliceSize w)) in *.
  pose proof (storeOk_fresh m Hst) as Hfr. assert (brk m <> a) as Hne by (intros E; congruence).
  set (s' := mkSlice None (Some (replicate (Z.to_nat n) None)) 0 0 0).
  set (C := (ss ++ [(a, set_next (Some (brk m)) s)]) ++ [(brk m, s')]).
  exists (brk m), s', (mkStore (<[a := set_next (Some (brk m)) s]> (<[brk m := s']> (slices m)))
     (<[l := mkList (headAddr C) (Some (brk m)) (u64 (t + 0)) false]> (lists m)) (S (brk m))).
  cbv zeta. split_and!; [|done|unfold content, s'; done|..].
  - unfold growSlice, CreateSlice, CreateObject, Add, newSlice, getSlice, setSlice, getList, setList, sbind, ret, set_last.
    fold n. cbn [res_bind slices lists brk _lastSliceSize _sliceList _isOwnSliceList].
    rewrite lookup_insert_eq. cbn [deref res_bind slices lists brk size]. rewrite Hls.
    cbn [deref res_bind _tail slices lists brk]. rewrite insert_insert_eq, (lookup_insert_ne _ (brk m) a) by done. rewrite Ha.
    cbn [deref res_bind slices lists brk _head _tail _totalSize isBlock]. rewrite (lookup_insert_ne _ a (brk m)) by done.
    rewrite lookup_insert_eq. cbn [deref res_bind slices lists brk size]. unfold set_size; cbn [next data size dataSize offset].
    rewrite u32_small by lia. subst C. rewrite <- app_assoc. cbn [app]. rewrite (headAddr_mid ss a s (set_next (Some (brk m)) s) [] [(brk m, s')]).
    done.
  - apply seg_app in Hs as Hs'. destruct Hs' as (r & _ & _ & _ & Hnx). cbn in Hnx.
    split; cbn [_sliceList _lastSliceSize set_last slices lists brk].
    + done.
    + rewrite lookup_insert_eq. unfold C. do 2 f_equal. rewrite Z.add_0_r, u64_small by lia. done.
    + rewrite <- app_assoc. cbn [app]. eapply seg_link in Hs; [|exact Hfr|..].
      * erewrite headAddr_mid. exact Hs.
      * done.
      * by rewrite Hnx.
    + unfold C. rewrite <- app_assoc. cbn [app]. apply Forall_app in Hg as [Hg1 Hg2]. apply Forall_cons in Hg2 as [Hg2 _].
      apply Forall_app. split; [done|]. repeat constructor; [exact Hg2|].
      eexists. split; [done|]. cbn. lia.
    + eexists. split; [done|]. rewrite length_replicate. lia.
    + cbn. lia.
    + done.
    + intros x sx Hx. cbn in *. apply lookup_insert_Some in Hx as [[<- _]|[_ Hx]]; [apply Hst in Ha; lia|].
      apply lookup_insert_Some in Hx as [[<- _]|[_ Hx]]; [lia|]. apply Hst in Hx. lia.
  - split; cbn [slices lists brk].
    + intros x Hx Hb. rewrite fmap_app in Hx. rewrite !lookup_insert_ne; [done|lia|].
      intros ->. apply Hx, elem_of_app. right. by constructor.
    + intros l' Hl'. by rewrite lookup_insert_ne.
    + lia.
    + intros x. rewrite !fmap_app, !elem_of_app. cbn. rewrite !list_elem_of_singleton. intros [[?| ->]| ->]; auto.
Qed.
(** Every slice but the first one holds a byte. *)
Definition full (C : list (addr * ByteSlice)) : Prop := Forall (fun x => 0 < size (snd x)) (tail C).

Lemma full_last ss a s s' : full (ss ++ [(a, s)]) -> 0 < size s' -> full (ss ++ [(a, s')]).
Proof.
  unfold full. destruct ss as [|x ss]; [done|]. cbn. rewrite !Forall_app. intros [? _] ?. split; [done|]. by repeat constructor.
Qed.

Lemma full_snoc ss a s s1 b s' :
  full (ss ++ [(a, s)]) -> size s1 = size s -> 0 < size s' -> full ((ss ++ [(a, s1)]) ++ [(b, s')]).
Proof.
  unfold full. destruct ss as [|x ss]; cbn; intros H Hs ?; [by repeat constructor|].
  rewrite !Forall_app in *. destruct H as [? [??]%Forall_cons]. repeat constructor; cbn in *; try done. lia.
Qed.

(** ** Writing into the last slice *)

(** The last slice is replaced; its room stays the same. *)
Lemma wstate_setLast m w l ss a s t s' :
  wstate m w l ss a s t -> next s' = next s -> goodSlice s' ->
  (exists d, data s' = Some d /\ Z.of_nat (length d) = _lastSliceSize w) ->
  let m' := mkStore (<[a := s']> (slices m)) (lists m) (brk m) in
  wstate m' w l ss a s' t /\ evolves m m' l (ss ++ [(a, s)]).*1 (ss ++ [(a, s')]).*1.
Proof.
  intros Hw Hn Hgs Hd m'. pose proof (wstate_lookup _ _ _ _ _ _ _ Hw) as Ha.
  destruct Hw as [Hl Hls Hs Hg _ Hlast Ht Hst]. split.
  - split; cbn [slices lists brk m']; try done.
    + rewrite Hls. do 2 f_equal. apply headAddr_mid.
    + erewrite headAddr_mid. by apply (seg_update _ _ _ _ s).
    + apply Forall_app in Hg as [Hg _]. apply Forall_app. split; [done|]. by repeat constructor.
    + by apply storeOk_insert; [|eexists].
  - split; cbn [slices lists brk m']; [|done|done|].
    + intros x Hx _. apply lookup_insert_ne. intros <-. apply Hx. rewrite fmap_app. apply elem_of_app. right. by constructor.
    + intros x. rewrite !fmap_app. auto.
Qed.

Lemma wstate_poke m w l ss a s t bs :
  wstate m w l ss a s t -> size s + Z.of_nat (length bs) <= _lastSliceSize w ->
  exists s', let m' := mkStore (<[a := s']> (slices m)) (lists m) (brk m) in
    poke (data s) (size s) bs = Ok (data s') /\
    s' = set_size (u64 (size s + Z.of_nat (length bs))) (set_data (data s') s) /\
    size s' = size s + Z.of_nat (length bs) /\ content s' = content s ++ map Some bs /\
    wstate m' w l ss a s' t /\ evolves m m' l (ss ++ [(a, s)]).*1 (ss ++ [(a, s')]).*1.
Proof.
  intros Hw Hroom. pose proof (wstate_goodSlice _ _ _ _ _ _ _ Hw) as (d & Hd & Hsz).
  pose proof Hw as [_ _ _ _ (d' & Hd' & Hcap) Hlast _ _]. assert (d' = d) as -> by congruence.
  set (k := Z.to_nat (size s)). assert (size s = Z.of_nat k) as Hk by (unfold k; lia).
  set (d1 := take k d ++ map Some bs ++ drop (k + length bs) d).
  assert (length d1 = length d) as Hld1.
  { unfold d1. rewrite !length_app, length_map, length_take, length_drop. lia. }
  exists (set_size (u64 (size s + Z.of_nat (length bs))) (set_data (Some d1) s)). cbv zeta.
  rewrite u64_small by lia. cbn [set_size set_data data size].
  split; [|split; [done|]; split; [done|]; split].
  - rewrite Hd, Hk. rewrite poke_ok by lia. done.
  - unfold content. cbn [size data set_size set_data]. rewrite Hd. cbn [from_option id].
    replace (Z.to_nat (size s + Z.of_nat (length bs))) with (k + length bs)%nat by lia. fold k.
    unfold d1. rewrite app_assoc, take_app_length'; [done|]. rewrite length_app, length_take, length_map. lia.
  - apply wstate_setLast; [done | done | |].
    + exists d1. split; [done|]. cbn. lia.
    + exists d1. split; [done | lia].
Qed.

(** [IncrementTotalSize] *)
Lemma wstate_total m w l ss a s t n :
  wstate m w l ss a s t -> 0 <= n -> t + n < 2 ^ 63 ->
  exists m', IncrementTotalSize l n m = Ok (tt, m') /\ slices m' = slices m /\ wstate m' w l ss a s (t + n) /\
    evolves m m' l (ss ++ [(a, s)]).*1 (ss ++ [(a, s)]).*1.
Proof.
  intros [Hl Hls Hs Hg Hcap Hlast Ht Hst] Hn Hb. eexists. split; [|split; [|split]].
  - unfold IncrementTotalSize. slook. unfold setList. cbn [_head _tail _totalSize isBlock]. rewrite u64_small by lia. done.
  - done.
  - split; cbn [slices lists brk]; try done; [by rewrite lookup_insert_eq | lia].
  - split; cbn [slices lists brk]; auto. intros l' Hl'. by rewrite lookup_insert_ne.
Qed.

(** ** A slice with room for [n] bytes *)

Lemma room_ok n m w l ss a s t :
  wstate m w l ss a s t -> full (ss ++ [(a, s)]) -> 0 < n <= 8 ->
  exists ss' a' s' w' m',
    (if _lastSliceSize w <? size s + n then growSlice l w else ret (a, w)) m = Ok ((a', w'), m') /\
    wstate m' w' l ss' a' s' t /\ size s' + n <= _lastSliceSize w' /\
    contents (ss' ++ [(a', s')]) = contents (ss ++ [(a, s)]) /\
    (forall s1, 0 < size s1 -> full (ss' ++ [(a', s1)])) /\
    (forall s1, content s' `prefix_of` content s1 -> grows (ss ++ [(a, s)]) (ss' ++ [(a', s1)])) /\
    evolves m m' l (ss ++ [(a, s)]).*1 (ss' ++ [(a', s')]).*1.
Proof.
  intros Hw Hf Hn. pose proof Hw as [_ _ _ _ _ Hlast _ _]. destruct (Z.ltb_spec (_lastSliceSize w) (size s + n)).
  - destruct (growSlice_ok _ _ _ _ _ _ _ Hw) as (a' & s' & m' & Hgrow & Hs' & Hc' & Hw' & Hev). cbv zeta in *.
    pose proof (GetIncrementedSliceSize_range _ Hlast). eexists _, _, _, _, _.
    split; [exact Hgrow|]. split; [exact Hw'|]. split_and!; [cbn; lia | | | | exact Hev].
    + rewrite !contents_app, !contents_cons, Hc'. cbn. by rewrite !app_nil_r.
    + intros s1 Hs1. by apply (full_snoc _ _ s).
    + intros s1 _. rewrite <- app_assoc. by apply grows_at.
  - eexists _, _, _, _, _. split; [done|]. split; [exact Hw|]. split_and!; [lia | done | | | apply evolves_refl].
    + intros s1 Hs1. by apply (full_last _ _ s).
    + intros s1 Hp. by apply grows_at.
Qed.

Lemma wstate_sizes m w l ss a s t : wstate m w l ss a s t -> 0 <= size s <= _lastSliceSize w.
Proof.
  intros Hw. destruct (wstate_goodSlice _ _ _ _ _ _ _ Hw) as (d & Hd & Hsz).
  destruct Hw as [_ _ _ _ (d' & Hd' & Hcap) _ _ _]. assert (d' = d) as -> by congruence. lia.
Qed.

Lemma GetSliceForWrite_eq n m w l ss a s t :
  wstate m w l ss a s t -> 0 < n <= 8 ->
  GetSliceForWrite n w m = (if _lastSliceSize w <? size s + n then growSlice l w else ret (a, w)) m.
Proof.
  intros Hw Hn. pose proof (wstate_lookup _ _ _ _ _ _ _ Hw) as Ha. pose proof (wstate_sizes _ _ _ _ _ _ _ Hw) as Hsz.
  destruct Hw as [Hl Hls _ _ _ Hlast _ _].
  unfold GetSliceForWrite, listOf. rewrite Hl. srun (eq_refl (Ok (l, m))). slook.
  srun (eq_refl (Ok (a, m))). slook. by rewrite u64_small by lia.
Qed.

(** The bytes after a write into the slice that has room *)
Lemma contents_write ss a s ss' a' s' s1 new :
  contents (ss' ++ [(a', s')]) = contents (ss ++ [(a, s)]) -> content s1 = content s' ++ new ->
  contents (ss' ++ [(a', s1)]) = contents (ss ++ [(a, s)]) ++ new.
Proof.
  intros <- Hs. rewrite !contents_app, !contents_cons, Hs. cbn [contents map concat]. by rewrite !app_nil_r, app_assoc.
Qed.

(** ** The operations *)

(** [w] has written the bytes [bs], in the chain [C] of the list [l]. *)
Definition writes (m : Store) (w : ByteSliceWriter) (l : addr) (C : list (addr * ByteSlice)) (bs : list (option Z)) : Prop :=
  exists ss a s, C = ss ++ [(a, s)] /\ wstate m w l ss a s (Z.of_nat (length bs)) /\ contents C = bs /\ full C.

(** From [m] and [w] to [m'] and [w']: the bytes [new] are appended. *)
Definition appended (m : Store) (l : addr) (C : list (addr * ByteSlice)) (bs new : list (option Z))
    (w' : ByteSliceWriter) (m' : Store) : Prop :=
  exists C', writes m' w' l C' (bs ++ new) /\ grows C C' /\ evolves m m' l C.*1 C'.*1.

Lemma writes_lookup m w l pre a s post bs :
  writes m w l (pre ++ (a, s) :: post) bs -> slices m !! a = Some s /\ goodSlice s.
Proof.
  intros (ss & b & t & HC & [_ _ Hs Hg _ _ _ _] & _). rewrite <- HC in *. split.
  - eapply seg_lookup; [exact Hs|]. apply elem_of_app. right. by constructor.
  - apply Forall_app in Hg as [_ Hg]. by apply Forall_cons in Hg as [? _].
Qed.

(** A slice of the chain is overwritten. *)
Lemma writes_set m w l pre a s post bs s' d d' :
  writes m w l (pre ++ (a, s) :: post) bs -> next s' = next s -> size s' = size s ->
  data s = Some d -> data s' = Some d' -> length d' = length d ->
  let m' := mkStore (<[a := s']> (slices m)) (lists m) (brk m) in
  let C' := pre ++ (a, s') :: post in
  writes m' w l C' (contents C') /\ evolves m m' l (pre ++ (a, s) :: post).*1 C'.*1.
Proof.
  intros (ss & b & t & HC & [Hl Hls Hs Hg Hcap Hlast Ht Hst] & Hc & Hf) Hn Hsz Hd Hd' Hlen m' C'.
  assert (exists t', C' = (take (length ss) C') ++ [(b, t')] /\ exists d, data t' = Some d /\ Z.of_nat (length d) = _lastSliceSize w)
    as (t' & HC' & Hcap').
  { destruct post as [|[c u] post _] using rev_ind.
    - apply app_inj_tail in HC as [<- [= <- <-]]. exists s'. unfold C'. rewrite take_app_length. split; [done|].
      destruct Hcap as (d0 & ? & ?). exists d'. split; [done|]. assert (d0 = d) as -> by congruence. lia.
    - rewrite app_comm_cons, app_assoc in HC. apply app_inj_tail in HC as [<- [= <- <-]]. exists u. split; [|done].
      unfold C'. rewrite app_comm_cons, app_assoc, take_app_length'; [done|]. rewrite !length_app. done. }
  assert (length (contents C') = length bs) as Hlc.
  { rewrite <- Hc. unfold C'. rewrite !contents_app, !contents_cons, !length_app. do 2 f_equal.
    unfold content. rewrite Hd, Hd', Hsz. cbn. rewrite !length_take. lia. }
  rewrite <- HC in *. split.
  - exists (take (length ss) C'), b, t'. split; [done|]. split; [|split; [done|]].
    + rewrite Hlc. split; cbn [slices lists brk m']; try done; try rewrite <- HC'.
      * rewrite Hls. do 2 f_equal. apply headAddr_mid.
      * unfold C'. erewrite headAddr_mid. by apply (seg_update _ _ _ _ s).
      * unfold C'. rewrite Forall_app, Forall_cons in *. destruct Hg as (? & (d0 & ? & ?) & ?). split_and!; [done | | done].
        exists d'. cbn in *. assert (d0 = d) as -> by congruence. split; [done|]. lia.
      * apply storeOk_insert; [done|]. exists s. eapply seg_lookup; [exact Hs|]. apply elem_of_app. right. by constructor.
    + unfold full, C' in *. destruct pre as [|x pre]; [done|]. cbn [tail app] in *. rewrite Forall_app, Forall_cons in *. cbn in *. by rewrite Hsz.
  - split; cbn [slices lists brk m']; [|done|done|].
    + intros x Hx _. apply lookup_insert_ne. intros <-. apply Hx. rewrite fmap_app. apply elem_of_app. right. by constructor.
    + intros x. unfold C'. rewrite !fmap_app. auto.
Qed.

(** Appending twice *)
Lemma appended_step m l C bs new1 new2 m1 C1 w2 m2 :
  grows C C1 -> evolves m m1 l C.*1 C1.*1 -> appended m1 l C1 (bs ++ new1) new2 w2 m2 ->
  appended m l C bs (new1 ++ new2) w2 m2.
Proof.
  intros Hg1 He1 (C2 & Hw2 & Hg2 & He2). exists C2. rewrite app_assoc.
  split_and!; [done | by eapply grows_trans | by eapply evolves_trans].
Qed.

Lemma WriteT_ok n v m w l C bs :
  writes m w l C bs -> (0 < n <= 8)%nat -> Z.of_nat (length bs + n) < 2 ^ 63 ->
  exists w' m', WriteT n v w m = Ok (w', m') /\ appended m l C bs (map Some (bytes n v)) w' m'.
Proof.
  intros (ss & a & s & -> & Hw & Hc & Hf) Hn Hlen. unfold WriteT.
  destruct (room_ok (Z.of_nat n) _ _ _ _ _ _ _ Hw Hf ltac:(lia))
    as (ss1 & a1 & s1 & w1 & m1 & Hget & Hw1 & Hroom & Hc1 & Hf1 & Hg1 & He1).
  rewrite <- (GetSliceForWrite_eq _ _ _ _ _ _ _ _ Hw) in Hget by lia. srun Hget.
  pose proof (wstate_lookup _ _ _ _ _ _ _ Hw1) as Ha1. slook.
  destruct (wstate_poke _ _ _ _ _ _ _ (bytes n v) Hw1 ltac:(by rewrite length_bytes))
    as (s2 & Hpoke & Hs2 & Hsz & Hcont & Hw2 & He2). cbv zeta in *. rewrite length_bytes in *.
  rewrite Hpoke. srun (eq_refl (Ok (data s2, m1))). rewrite <- Hs2.
  srun (eq_refl (setSlice a1 s2 m1)). unfold listOf. rewrite (ws_list _ _ _ _ _ _ _ Hw2). set (m2 := mkStore _ _ _) in *.
  srun (eq_refl (Ok (l, m2))).
  destruct (wstate_total _ _ _ _ _ _ _ (Z.of_nat n) Hw2 ltac:(lia) ltac:(lia)) as (m3 & Hinc & Hm3 & Hw3 & He3).
  srun Hinc. eexists w1, m3. split; [done|]. exists (ss1 ++ [(a1, s2)]).
  pose proof (wstate_sizes _ _ _ _ _ _ _ Hw1). split_and!.
  - exists ss1, a1, s2. split; [done|]. rewrite length_app, length_map, length_bytes, Nat2Z.inj_add.
    split; [done|]. rewrite <- Hc. split; [by apply (contents_write _ _ _ _ _ s1) | apply Hf1; lia].
  - apply Hg1. rewrite Hcont. by apply prefix_app_r.
  - eapply evolves_trans; [exact He1|]. eapply evolves_trans; [exact He2 | exact He3].
Qed.

Lemma appended_refl m w l C bs : writes m w l C bs -> appended m l C bs [] w m.
Proof.
  intros H. exists C. rewrite app_nil_r. split_and!; [done | | apply evolves_refl].
  destruct H as (ss & a & s & -> & _). apply grows_refl.
Qed.

Lemma WriteByte_ok v m w l C bs :
  writes m w l C bs -> 0 <= v < 256 -> Z.of_nat (length bs + 1) < 2 ^ 63 ->
  exists w' m', WriteByte v w m = Ok (w', m') /\ appended m l C bs [Some v] w' m'.
Proof.
  intros Hw Hv Hl. destruct (WriteT_ok 1 v m w l C bs Hw ltac:(lia) Hl) as (w' & m' & Hrun & Happ).
  exists w', m'. split; [done|]. cbn in Happ. by rewrite Z.mod_small in Happ by lia.
Qed.

Lemma writeVIntLoop_ok n v len m w l C bs :
  writes m w l C bs -> 0 <= v < 128 ^ Z.of_nat (S n) -> Z.of_nat (length bs + S n) < 2 ^ 63 ->
  0 <= len -> len + Z.of_nat n < 2 ^ 32 ->
  exists v' w' m' vs, writeVIntLoop n v len w m = Ok ((v', len + Z.of_nat (length vs), w'), m') /\
    VByte.vbytesOf n v = vs ++ [v'] /\ 0 <= v' < 128 /\ (length vs <= n)%nat /\ appended m l C bs (map Some vs) w' m'.
Proof.
  revert v len m w C bs. induction n as [|n IH]; intros v len m w C bs Hw Hv Hl Hlen Hlen32;
    destruct (VByte.vbytesOf_case _ _ Hv) as [[Hv1 Heq]|(n' & Hn & Hge & Hv' & Heq)]; simplify_eq; cbn [writeVIntLoop]; rewrite Heq.
  1, 2: rewrite (proj2 (Z.ltb_ge 127 v)) by lia; exists v, w, m, []; cbn [length]; rewrite Z.add_0_r;
    split_and!; try done; try lia; by apply appended_refl.
  rewrite (proj2 (Z.ltb_lt 127 v)) by lia. rewrite VByte.lor_more, VByte.shiftr7 by lia.
  destruct (WriteByte_ok (v mod 128 + 128) m w l C bs Hw ltac:(lia) ltac:(lia)) as (w1 & m1 & Hrun & Happ).
  srun Hrun. destruct Happ as (C1 & Hw1 & Hg1 & He1).
  destruct (IH (v / 128) (u32 (len + 1)) m1 w1 C1 (bs ++ [Some (v mod 128 + 128)]) Hw1 Hv') as (v2 & w2 & m2 & vs & Hrun2 & Hvs & Hr & Hn2 & Happ2).
  { rewrite length_app. cbn. lia. }
  { apply u32_range. }
  { rewrite u32_small by lia. lia. }
  rewrite Hrun2. exists v2, w2, m2, (v mod 128 + 128 :: vs). rewrite u32_small by lia. cbn [length].
  split_and!; [|by rewrite Hvs|lia|lia|lia|].
  - do 4 f_equal. lia.
  - change (map Some (v mod 128 + 128 :: vs)) with ([Some (v mod 128 + 128)] ++ map Some vs).
    by eapply appended_step.
Qed.

Lemma WriteVInt_ok v m w l C bs :
  writes m w l C bs -> 0 <= v < 2 ^ 32 -> Z.of_nat (length bs + 6) < 2 ^ 63 ->
  exists w' m', WriteVInt v w m = Ok ((Z.of_nat (length (VByte.vbytes v)), w'), m') /\
    appended m l C bs (map Some (VByte.vbytes v)) w' m'.
Proof.
  intros Hw Hv Hl. unfold WriteVInt, VByte.vbytes.
  destruct (writeVIntLoop_ok 4 v 1 m w l C bs Hw (VByte.u32_vrange _ Hv) ltac:(lia) ltac:(lia) ltac:(lia))
    as (v' & w1 & m1 & vs & Hrun & Hvs & Hr & Hn & (C1 & Hw1 & Hg1 & He1)).
  srun Hrun. rewrite VByte.land127, Z.mod_small by lia.
  destruct (WriteByte_ok v' m1 w1 l C1 _ Hw1 ltac:(lia)) as (w2 & m2 & Hrun2 & Happ2).
  { rewrite length_app, length_map. lia. }
  srun Hrun2. exists w2, m2. rewrite Hvs, length_app. split.
  - unfold ret. cbn [length]. do 3 f_equal. lia.
  - rewrite map_app. by eapply appended_step.
Qed.

(** ** Strings of bytes *)

(** The loop of [Write] writes [value]; the size of the list is not updated yet. *)
Lemma writeLoop_ok fuel value m w l ss a s t :
  wstate m w l ss a s t -> full (ss ++ [(a, s)]) -> (length value < fuel)%nat -> Z.of_nat (length value) < 2 ^ 32 ->
  exists ss' a' s' w' m',
    writeLoop fuel l a value (Z.of_nat (length value)) w m = Ok (w', m') /\ wstate m' w' l ss' a' s' t /\
    contents (ss' ++ [(a', s')]) = contents (ss ++ [(a, s)]) ++ map Some value /\ full (ss' ++ [(a', s')]) /\
    grows (ss ++ [(a, s)]) (ss' ++ [(a', s')]) /\ evolves m m' l (ss ++ [(a, s)]).*1 (ss' ++ [(a', s')]).*1.
Proof.
  revert value m w ss a s. induction fuel as [|fuel IH]; intros value m w ss a s Hw Hf Hfuel H32; [lia|]. cbn [writeLoop].
  destruct (Z.ltb_spec 0 (Z.of_nat (length value))) as [Hpos|Hz].
  2:{ destruct value; [|cbn in *; lia]. exists ss, a, s, w, m. cbn [map]. rewrite app_nil_r.
      split_and!; [done | done | done | done | apply grows_refl | apply evolves_refl]. }
  pose proof (wstate_lookup _ _ _ _ _ _ _ Hw) as Ha. slook.
  destruct (room_ok 1 _ _ _ _ _ _ _ Hw Hf ltac:(lia)) as (ss1 & a1 & s1 & w1 & m1 & Hget & Hw1 & Hroom & Hc1 & Hf1 & Hg1 & He1).
  replace (_lastSliceSize w <? size s + 1) with (_lastSliceSize w <=? size s) in Hget by lia. srun Hget.
  pose proof (wstate_lookup _ _ _ _ _ _ _ Hw1) as Ha1. pose proof (wstate_sizes _ _ _ _ _ _ _ Hw1) as Hsz1. slook.
  pose proof (ws_last _ _ _ _ _ _ _ Hw1) as Hlast1. rewrite (u64_small (_lastSliceSize w1 - size s1)) by lia.
  set (k := Z.to_nat (Z.min (Z.of_nat (length value)) (_lastSliceSize w1 - size s1))).
  assert (u32 (if Z.of_nat (length value) <? _lastSliceSize w1 - size s1 then Z.of_nat (length value)
               else _lastSliceSize w1 - size s1) = Z.of_nat k) as ->.
  { destruct (Z.ltb_spec (Z.of_nat (length value)) (_lastSliceSize w1 - size s1)); rewrite u32_small; lia. }
  rewrite Nat2Z.id.
  assert (length (take k value) = k) as Hk by (rewrite length_take; lia).
  destruct (wstate_poke _ _ _ _ _ _ _ (take k value) Hw1 ltac:(lia))
    as (s2 & Hpoke & Hs2 & Hsz & Hcont & Hw2 & He2). cbv zeta in *. rewrite Hk in *.
  rewrite Hpoke. srun (eq_refl (Ok (data s2, m1))). rewrite <- Hs2. srun (eq_refl (setSlice a1 s2 m1)).
  set (m2 := mkStore _ _ _) in *. rewrite u32_small by lia.
  replace (Z.of_nat (length value) - Z.of_nat k) with (Z.of_nat (length (drop k value))) by (rewrite length_drop; lia).
  destruct (IH (drop k value) m2 w1 ss1 a1 s2 Hw2) as (ss3 & a3 & s3 & w3 & m3 & Hrun & Hw3 & Hc3 & Hf3 & Hg3 & He3).
  { apply Hf1. lia. }
  { rewrite length_drop. lia. }
  { rewrite length_drop. lia. }
  exists ss3, a3, s3, w3, m3. split_and!; [done | done | | done | |].
  - rewrite Hc3. erewrite contents_write by done. by rewrite <- app_assoc, <- map_app, take_drop.
  - eapply grows_trans; [|done]. apply Hg1. rewrite Hcont. by apply prefix_app_r.
  - eapply evolves_trans; [done|]. by eapply evolves_trans.
Qed.

Lemma Write_ok value m w l C bs :
  writes m w l C bs -> Z.of_nat (length value) < 2 ^ 32 -> Z.of_nat (length bs + length value) < 2 ^ 63 ->
  exists w' m', Write value w m = Ok (w', m') /\ appended m l C bs (map Some value) w' m'.
Proof.
  intros (ss & a & s & -> & Hw & Hc & Hf) Hlen Hmax. pose proof Hw as [Hl Hls _ _ _ _ _ _].
  unfold Write, listOf. rewrite Hl. srun (eq_refl (Ok (l, m))). slook. srun (eq_refl (Ok (a, m))). rewrite u32_small by lia.
  destruct (writeLoop_ok (S (length value)) value _ _ _ _ _ _ _ Hw Hf ltac:(lia) ltac:(lia))
    as (ss1 & a1 & s1 & w1 & m1 & Hrun & Hw1 & Hc1 & Hf1 & Hg1 & He1). srun Hrun.
  destruct (wstate_total _ _ _ _ _ _ _ (Z.of_nat (length value)) Hw1 ltac:(lia) ltac:(lia)) as (m2 & Hinc & Hm2 & Hw2 & He2).
  srun Hinc. exists w1, m2. split; [done|]. exists (ss1 ++ [(a1, s1)]). split_and!; [|done|by eapply evolves_trans].
  exists ss1, a1, s1. split; [done|]. rewrite length_app, length_map, Nat2Z.inj_add. split; [done|].
  split; [by rewrite Hc1, Hc | done].
Qed.

(** ** The constructor *)

Lemma new_ByteSliceWriter_ok m minSliceSize :
  storeOk m -> GetHeadSize <= minSliceSize < 2 ^ 31 ->
  exists w m' l C, new_ByteSliceWriter minSliceSize m = Ok (w, m') /\ writes m' w l C [] /\
    (brk m <= brk m')%nat /\ (brk m <= l)%nat /\ (forall x, x ∈ C.*1 -> (brk m <= x)%nat) /\
    (forall x, (x < brk m)%nat -> slices m' !! x = slices m !! x /\ lists m' !! x = lists m !! x).
Proof.
  intros Hst Hmin. unfold GetHeadSize in *. set (n := minSliceSize - 40).
  set (s := mkSlice None (Some (replicate (Z.to_nat n) None)) 0 0 0). set (a := S (brk m)).
  set (m' := mkStore (<[a := s]> (slices m)) (<[brk m := mkList (Some a) (Some a) 0 false]> (lists m)) (S a)).
  exists (mkWriter (Some (brk m)) n true), m', (brk m), [(a, s)]. split_and!.
  - unfold new_ByteSliceWriter, CreateSlice, CreateObject, new_ByteSliceList, Add, newSlice, newList, getSlice, setSlice, getList, setList, sbind, ret, set_last, GetHeadSize.
    fold n. cbn [res_bind slices lists brk _lastSliceSize _sliceList _isOwnSliceList]. fold a. rewrite (u32_small n) by lia.
    rewrite lookup_insert_eq. cbn [deref res_bind slices lists brk size]. rewrite lookup_insert_eq.
    cbn [deref res_bind slices lists brk size _tail _head _totalSize isBlock]. rewrite insert_insert_eq, lookup_insert_eq.
    cbn [deref res_bind slices lists brk size _tail _head _totalSize isBlock]. rewrite insert_insert_eq, (u32_small n) by lia.
    done.
  - exists [], a, s. split; [done|]. split; [|split; [done | constructor]].
    split; cbn [slices lists brk m' app headAddr head fmap option_fmap option_map fst].
    + done.
    + by rewrite lookup_insert_eq.
    + cbn. by rewrite lookup_insert_eq.
    + repeat constructor. eexists. split; [done|]. cbn. lia.
    + eexists. split; [done|]. rewrite length_replicate. cbn. lia.
    + cbn. lia.
    + cbn. lia.
    + intros x sx Hx. cbn [slices m' brk] in *. apply lookup_insert_Some in Hx as [[<- _]|[_ Hx]]; [lia|]. apply Hst in Hx. unfold a. lia.
  - cbn. unfold a. lia.
  - lia.
  - intros x Hx. cbn in Hx. apply list_elem_of_singleton in Hx as ->. unfold a. lia.
  - intros x Hx. cbn. rewrite !lookup_insert_ne by (unfold a; lia). done.
Qed.

Lemma GetSize_ok m w l C bs : writes m w l C bs -> GetSize w m = Ok (Z.of_nat (length bs), m).
Proof.
  intros (ss & a & s & -> & [Hl Hls _ _ _ _ _ _] & _). unfold GetSize, listOf, GetTotalSize. rewrite Hl.
  srun (eq_refl (Ok (l, m))). slook. done.
Qed.

End WriterCorrect.

(** ** More on the writer

    Slots that are filled in later, ranges copied from another list, dumping and resetting. *)

Module WriterRanges.
Import Writer WriterCorrect.

(** ** Slots *)

(** The reference [r] denotes the four bytes at position [p] of the chain [C]. *)
Definition slot (C : list (addr * ByteSlice)) (r : addr * Z) (p : nat) : Prop :=
  exists pre s post, C = pre ++ (fst r, s) :: post /\ 0 <= snd r /\ snd r + 4 <= size s /\
    p = (length (contents pre) + Z.to_nat (snd r))%nat.

Lemma HoldInt32_ok m w l C bs :
  writes m w l C bs -> Z.of_nat (length bs + 4) < 2 ^ 63 ->
  exists r w' m' C' hole, HoldInt32 w m = Ok ((r, w'), m') /\ length hole = 4%nat /\
    writes m' w' l C' (bs ++ hole) /\ slot C' r (length bs) /\ grows C C' /\ evolves m m' l C.*1 C'.*1.
Proof.
  intros (ss & a & s & -> & Hw & Hc & Hf) Hlen. unfold HoldInt32.
  destruct (room_ok 4 _ _ _ _ _ _ _ Hw Hf ltac:(lia)) as (ss1 & a1 & s1 & w1 & m1 & Hget & Hw1 & Hroom & Hc1 & Hf1 & Hg1 & He1).
  rewrite <- (GetSliceForWrite_eq _ _ _ _ _ _ _ _ Hw) in Hget by lia. srun Hget.
  pose proof (wstate_lookup _ _ _ _ _ _ _ Hw1) as Ha1. pose proof (wstate_sizes _ _ _ _ _ _ _ Hw1) as Hsz1. slook.
  pose proof (wstate_goodSlice _ _ _ _ _ _ _ Hw1) as Hgs. pose proof Hw1 as [Hl1 _ _ _ (d & Hd & Hcap) Hlast1 _ _].
  rewrite u64_small by lia. set (s2 := set_size (size s1 + 4) s1).
  destruct (wstate_setLast _ _ _ _ _ _ _ s2 Hw1 eq_refl) as [Hw2 He2].
  { exists d. split; [done|]. cbn. lia. }
  { by exists d. }
  srun (eq_refl (setSlice a1 s2 m1)). set (m2 := mkStore _ _ _) in *.
  unfold listOf. rewrite Hl1. srun (eq_refl (Ok (l, m2))).
  destruct (wstate_total _ _ _ _ _ _ _ 4 Hw2 ltac:(lia) ltac:(lia)) as (m3 & Hinc & Hm3 & Hw3 & He3). srun Hinc.
  set (hole := take 4 (drop (Z.to_nat (size s1)) d)).
  assert (content s2 = content s1 ++ hole) as Hcont.
  { unfold content, s2, hole. cbn. rewrite Hd. cbn. rewrite Z2Nat.inj_add by lia. symmetry. apply take_take_drop. }
  assert (length hole = 4%nat) as Hh by (unfold hole; rewrite length_take, length_drop; lia).
  exists (a1, size s1), w1, m3, (ss1 ++ [(a1, s2)]), hole. split_and!; [done | done | | | |].
  - exists ss1, a1, s2. split; [done|]. rewrite length_app, Hh, Nat2Z.inj_add. split; [done|].
    rewrite <- Hc. split; [by apply (contents_write _ _ _ _ _ s1) | apply Hf1; cbn; lia].
  - exists ss1, s2, []. cbn. split_and!; [done | lia | lia|]. rewrite <- Hc, <- Hc1, contents_app, contents_cons.
    rewrite length_app. cbn. rewrite app_nil_r. pose proof (content_length s1 Hgs). lia.
  - apply Hg1. rewrite Hcont. by apply prefix_app_r.
  - eapply evolves_trans; [exact He1|]. eapply evolves_trans; [exact He2 | exact He3].
Qed.

(** An assignment to the slot, also when more was written since *)
Lemma assignInt32_ok m w l C bs r p v :
  writes m w l C bs -> slot C r p ->
  exists m' C', assignInt32 r v m = Ok (tt, m') /\
    writes m' w l C' (take p bs ++ map Some (bytes 4 v) ++ drop (p + 4) bs) /\ evolves m m' l C.*1 C'.*1.
Proof.
  intros Hw (pre & s & post & -> & Ho & Hroom & ->). destruct r as [a off]. cbn [fst snd] in *.
  assert (exists k, off = Z.of_nat k) as [k ->] by (exists (Z.to_nat off); lia). rewrite Nat2Z.id.
  pose proof (writes_lookup _ _ _ _ _ _ _ _ Hw) as [Ha Hgs]. pose proof Hgs as (d & Hd & Hsz).
  unfold assignInt32. slook. cbn [snd fst]. rewrite Hd. pose proof (length_bytes 4 v) as Hlb. revert Hlb. generalize (bytes 4 v) as nb. intros nb Hlb.
  rewrite poke_ok, Hlb by lia. set (d' := take _ _ ++ _).
  srun (eq_refl (Ok (Some d', m))). set (s' := set_data (Some d') s). unfold setSlice.
  assert (length d' = length d) as Hld.
  { unfold d'. rewrite !length_app, length_map, Hlb, length_take, length_drop. lia. }
  eexists _, (pre ++ (a, s') :: post). split; [done|].
  destruct (writes_set _ _ _ _ _ _ _ _ s' d d' Hw) as [Hw' He]; try done.
  split; [|exact He].
  assert (content s' = take k (content s) ++ map Some nb ++ drop (k + 4) (content s)) as Hcs.
  { unfold content, s', d'. cbn. rewrite Hd. cbn. rewrite take_take, Nat.min_l by lia.
    rewrite take_app_ge, take_app_ge, skipn_firstn_comm by (rewrite ?length_take, ?length_map; lia).
    do 3 f_equal. rewrite length_take, length_map. lia. }
  pose proof (content_length s Hgs) as Hlc.
  destruct Hw as (ss & b & t & HC & _ & Hc & _). rewrite contents_app, contents_cons in Hc. rewrite <- Hc.
  eapply eq_ind; [exact Hw'|]. rewrite contents_app, contents_cons, Hcs.
  rewrite take_app_ge, drop_app_ge by lia.
  replace (length (contents pre) + k - length (contents pre))%nat with k by lia.
  replace (length (contents pre) + k + 4 - length (contents pre))%nat with (k + 4)%nat by lia.
  rewrite take_app_le, drop_app_le by lia. by rewrite <- !app_assoc.
Qed.

(** ** Another list as the source *)

(** The chain from [p] holds the bytes [bs], all of them written. *)
Record holds (m : Store) (p : option addr) (D : list (addr * ByteSlice)) (bs : list Z) : Prop := {
  ho_seg : seg (slices m) p D None;
  ho_good : Forall (fun x => goodSlice (snd x)) D;
  ho_bytes : contents D = map Some bs;
  ho_below : forall x, x ∈ D.*1 -> (x < brk m)%nat
}.

Lemma holds_evolves m m' l F F' p D bs :
  holds m p D bs -> evolves m m' l F F' -> (forall x, x ∈ D.*1 -> x ∉ F) -> holds m' p D bs.
Proof.
  intros [Hs Hg Hb Hlt] [Hev _ Hbrk _] Hd. split; try done.
  - apply (seg_ext _ _ _ _ _ Hs). intros a s Hin. apply elem_of_fst in Hin. apply Hev; auto.
  - intros x Hx. apply Hlt in Hx. lia.
Qed.

(** The slice [(c, s)] after [E]: where it is and what it holds *)
Lemma holds_at m p E c s F bs :
  holds m p (E ++ (c, s) :: F) bs ->
  slices m !! c = Some s /\ goodSlice s /\ next s = headAddr F /\
  content s = map Some (take (Z.to_nat (size s)) (drop (length (contents E)) bs)) /\
  (length (contents E) + Z.to_nat (size s) + length (contents F) = length bs)%nat.
Proof.
  intros [Hs Hg Hb _]. apply Forall_app in Hg as [_ Hg]. apply Forall_cons in Hg as [Hg _]. cbn in Hg.
  pose proof (content_length s Hg) as Hl. pose proof Hg as (d & _ & Hsz).
  apply seg_app in Hs as (r & _ & -> & Hc & Hn). rewrite contents_app, contents_cons in Hb.
  pose proof (f_equal length Hb) as Hlen. rewrite !length_app, length_map in Hlen.
  split_and!; [done | done | | | lia].
  - destruct F as [|[f u] F]; [done|]. by destruct Hn as [? _].
  - rewrite <- firstn_map, <- skipn_map, <- Hb, drop_app_length. rewrite take_app_length'; [done | lia].
Qed.

Lemma holds_next_size m p E c s F bs :
  holds m p (E ++ (c, s) :: F) bs -> Z.of_nat (length (contents (E ++ [(c, s)]))) = Z.of_nat (length (contents E)) + size s.
Proof.
  intros H. destruct (holds_at _ _ _ _ _ _ _ H) as (_ & Hg & _). rewrite contents_app, length_app, contents_cons. cbn.
  rewrite app_nil_r. pose proof (content_length s Hg). lia.
Qed.

(** The slice with the first byte *)
Lemma findStart_ok fuel m p D1 D2 bs start cur :
  holds m p (D1 ++ D2) bs -> 0 <= start < Z.of_nat (length bs) -> Z.of_nat (length bs) < 2 ^ 32 ->
  (length D2 < fuel)%nat -> Z.of_nat (length (contents D1)) <= start ->
  exists E c s F, D1 ++ D2 = E ++ (c, s) :: F /\
    findStart fuel start cur (headAddr D2) (Z.of_nat (length (contents D1))) m =
      Ok ((Some c, headAddr F, Z.of_nat (length (contents E)) + size s), m) /\
    Z.of_nat (length (contents E)) <= start < Z.of_nat (length (contents E)) + size s.
Proof.
  revert D1 D2 cur. induction fuel as [|fuel IH]; intros D1 D2 cur Hh Hst H32 Hf Hle; [lia|]. cbn [findStart].
  rewrite (proj2 (Z.leb_le _ _)) by lia. destruct D2 as [|[c s] F].
  { exfalso. destruct Hh as [_ _ Hb _]. rewrite app_nil_r in Hb. apply (f_equal length) in Hb. rewrite length_map in Hb. lia. }
  destruct (holds_at _ _ _ _ _ _ _ Hh) as (Hc & Hg & Hn & _ & Hlen). pose proof Hg as (d & _ & Hsz).
  pose proof (holds_next_size _ _ _ _ _ _ _ Hh) as Hns.
  change (headAddr ((c, s) :: F)) with (Some c). slook. rewrite u32_small by lia. rewrite Hn.
  destruct (Z.le_gt_cases (Z.of_nat (length (contents D1)) + size s) start) as [Hgo|Hstop].
  - rewrite <- Hns. rewrite (cons_middle (c, s) D1 F), app_assoc in *. cbn in Hf. apply IH; try done; lia.
  - exists D1, c, s, F. split; [done|]. split; [|lia].
    destruct fuel as [|fuel]; cbn [findStart]; rewrite (proj2 (Z.leb_gt _ _)) by lia; done.
Qed.

(** Whole slices are copied up to the one with the last byte. *)
Lemma copySlices_ok fuel m w l C old p E c s F bs start end_ :
  writes m w l C old -> holds m p (E ++ (c, s) :: F) bs -> (forall x, x ∈ (E ++ (c, s) :: F).*1 -> x ∉ C.*1) ->
  Z.of_nat (length bs) < 2 ^ 32 -> Z.of_nat (length old + length bs) - start < 2 ^ 63 ->
  Z.of_nat (length (contents E)) <= start <= Z.of_nat (length (contents E)) + size s ->
  start < end_ <= Z.of_nat (length bs) -> (length F < fuel)%nat ->
  exists start' E' c' s' F' w' m', let new := take (Z.to_nat (start' - start)) (drop (Z.to_nat start) bs) in
    copySlices fuel start end_ (Some c) (headAddr F) (Z.of_nat (length (contents E)) + size s) w m =
      Ok ((start', Some c', Z.of_nat (length (contents E')) + size s', w'), m') /\
    holds m' p (E' ++ (c', s') :: F') bs /\ start <= start' < end_ /\
    Z.of_nat (length (contents E')) <= start' /\ end_ <= Z.of_nat (length (contents E')) + size s' /\
    appended m l C old (map Some new) w' m'.
Proof.
  revert m w C old E c s F start. induction fuel as [|fuel IH]; intros m w C old E c s F start Hw Hh Hdis H32 H63 Hst Hend Hf; [lia|].
  cbn [copySlices]. destruct (holds_at _ _ _ _ _ _ _ Hh) as (Hc & Hg & Hn & Hcont & Hlen). pose proof Hg as (d & _ & Hsz).
  destruct (Z.ltb_spec (Z.of_nat (length (contents E)) + size s) end_) as [Hgo|Hstop].
  2:{ exists start, E, c, s, F, w, m. cbv zeta. rewrite Z.sub_diag. cbn [Z.to_nat take map].
      split_and!; [done | done | lia.. |]. by apply appended_refl. }
  rewrite u32_small by lia. slook. set (n := Z.of_nat (length (contents E)) + size s - start).
  assert (Z.to_nat start = length (contents E) + Z.to_nat (size s - n))%nat as Hstart by lia.
  rewrite (peek_content s _ (size s - n) n Hg Hcont) by lia.
  rewrite skipn_firstn_comm, take_take, Nat.min_l, drop_drop, <- Hstart by lia. srun (eq_refl (Ok (take (Z.to_nat n) (drop (Z.to_nat start) bs), m))).
  assert (length (take (Z.to_nat n) (drop (Z.to_nat start) bs)) = Z.to_nat n) as Hnew by (rewrite length_take, length_drop; lia).
  destruct (Write_ok (take (Z.to_nat n) (drop (Z.to_nat start) bs)) m w l C old Hw ltac:(lia) ltac:(lia))
    as (w1 & m1 & Hrun & (C1 & Hw1 & Hg1 & He1)). srun Hrun.
  pose proof (holds_evolves _ _ _ _ _ _ _ _ Hh He1 Hdis) as Hh1.
  assert (forall x, x ∈ (E ++ (c, s) :: F).*1 -> x ∉ C1.*1) as Hdis1.
  { intros x Hx [Hin|Hin]%(ev_new _ _ _ _ _ He1); [by apply (Hdis x)|]. apply (ho_below _ _ _ _ Hh) in Hx. lia. }
  destruct F as [|[c2 s2] F].
  { exfalso. cbn in Hlen. lia. }
  pose proof (holds_next_size _ _ _ _ _ _ _ Hh1) as Hns.
  rewrite (cons_middle (c, s) E ((c2, s2) :: F)), app_assoc in Hh1, Hdis1.
  destruct (holds_at _ _ _ _ _ _ _ Hh1) as (Hc2 & Hg2 & Hn2 & _ & Hlen2). pose proof Hg2 as (d2 & _ & Hsz2).
  change (headAddr ((c2, s2) :: F)) with (Some c2). slook. rewrite Hn2, <- Hns, u32_small by lia.
  destruct (IH m1 w1 C1 _ _ c2 s2 F (Z.of_nat (length (contents (E ++ [(c, s)])))) Hw1 Hh1 Hdis1 H32) as
    (st' & E' & c' & s' & F' & w' & m' & Hrun' & Hh' & Hs' & He' & Hend' & Happ').
  { rewrite length_app, length_map, Hnew. lia. }
  { lia. }
  { lia. }
  { cbn in Hf. lia. }
  exists st', E', c', s', F', w', m'. split; [exact Hrun'|]. split; [done|]. split; [lia|]. split; [done|]. split; [done|].
  replace (Z.to_nat (st' - start)) with (Z.to_nat n + Z.to_nat (st' - Z.of_nat (length (contents (E ++ [(c, s)])))))%nat by lia.
  rewrite <- take_take_drop, drop_drop, map_app. eapply appended_step; [done | done|].
  replace (Z.to_nat start + Z.to_nat n)%nat with (Z.to_nat (Z.of_nat (length (contents (E ++ [(c, s)]))))) by lia. done.
Qed.

(** [Write(src, start, end)] copies the range, from a list that shares no slice with the writer. *)
Lemma WriteRange_ok m w l C old src L D bs start end_ :
  writes m w l C old -> lists m !! src = Some L -> holds m (_head L) D bs -> _totalSize L = Z.of_nat (length bs) ->
  (forall x, x ∈ D.*1 -> x ∉ C.*1) -> Z.of_nat (length bs) < 2 ^ 32 -> Z.of_nat (length old + length bs) < 2 ^ 63 ->
  0 <= start < end_ -> end_ <= Z.of_nat (length bs) ->
  exists w' m', WriteRange src start end_ w m = Ok (w', m') /\
    appended m l C old (map Some (take (Z.to_nat (end_ - start)) (drop (Z.to_nat start) bs))) w' m'.
Proof.
  intros Hw HL Hh Ht Hdis H32 H63 Hst Hend. unfold WriteRange. slook. rewrite Ht.
  rewrite (proj2 (Z.leb_gt _ _)), (proj2 (Z.ltb_ge _ _)) by lia. cbn [orb].
  assert (storeOk m) as Hok by (destruct Hw as (? & ? & ? & _ & [] & _); done).
  pose proof (seg_length _ _ _ Hok (ho_seg _ _ _ _ Hh)) as HDl.
  assert (_head L = headAddr D) as Hhd.
  { destruct Hh as [Hs _ _ _]. destruct D as [|[c s] D]; [done|]. by destruct Hs as [? _]. }
  destruct (findStart_ok (S (brk m)) m (_head L) [] D bs start None Hh ltac:(lia) H32 ltac:(lia) ltac:(cbn; lia))
    as (E & c & s & F & HD & Hfind & Hin). cbn [app] in HD. subst D. rewrite Hhd. cbn [contents map concat length] in Hfind.
  erewrite sbind_ok; [|exact Hfind]. cbv beta iota.
  destruct (copySlices_ok (S (brk m)) m w l C old (_head L) E c s F bs start end_ Hw Hh Hdis H32 ltac:(lia) ltac:(lia) ltac:(lia))
    as (st' & E' & c' & s' & F' & w1 & m1 & Hrun & Hh' & Hs' & HE' & Hend' & (C1 & Hw1 & Hg1 & He1)).
  { rewrite length_app in HDl. cbn in HDl. lia. }
  erewrite sbind_ok; [|exact Hrun]. cbv beta iota. destruct (holds_at _ _ _ _ _ _ _ Hh') as (Hc' & Hg' & _ & Hcont & Hlen). slook.
  pose proof Hg' as (d & _ & Hsz).
  replace (Z.of_nat (length (contents E')) + size s' - size s') with (Z.of_nat (length (contents E'))) by lia.
  rewrite !u32_small by lia. set (n := end_ - st'). rewrite (peek_content s' _ _ n Hg' Hcont) by lia.
  rewrite skipn_firstn_comm, take_take, Nat.min_l, drop_drop by lia.
  replace (length (contents E') + Z.to_nat (st' - Z.of_nat (length (contents E'))))%nat with (Z.to_nat st') by lia.
  srun (eq_refl (Ok (take (Z.to_nat n) (drop (Z.to_nat st') bs), m1))).
  assert (length (take (Z.to_nat n) (drop (Z.to_nat st') bs)) = Z.to_nat n) as Hnew by (rewrite length_take, length_drop; lia).
  destruct (Write_ok (take (Z.to_nat n) (drop (Z.to_nat st') bs)) m1 w1 l C1 _ Hw1 ltac:(lia)) as (w2 & m2 & Hrun2 & Happ2).
  { rewrite Hnew, length_app, length_map, length_take, length_drop. lia. }
  exists w2, m2. split; [exact Hrun2|].
  replace (Z.to_nat (end_ - start)) with (Z.to_nat (st' - start) + Z.to_nat n)%nat by lia.
  rewrite <- take_take_drop, drop_drop, map_app. eapply appended_step; [done | done|].
  replace (Z.to_nat start + Z.to_nat (st' - start))%nat with (Z.to_nat st') by lia. done.
Qed.

(** A range that is empty or ends after the list is refused. *)
Lemma WriteRange_error m w src L start end_ :
  lists m !! src = Some L -> end_ <= start \/ _totalSize L < end_ -> WriteRange src start end_ w m = Error OutOfRange.
Proof.
  intros HL Hbad. unfold WriteRange. slook. replace ((end_ <=? start) || (_totalSize L <? end_)) with true by lia. done.
Qed.

(** ** Dumping and resetting *)

Section Dump.
Context {File : Type} (write : File -> list Z -> res File).

(** The file after the slices were written to it in turn *)
Fixpoint writeSlices (file : File) (xs : list (list Z)) : res File :=
  match xs with [] => Ok file | x :: xs => let! file := write file x in writeSlices file xs end.

Lemma dumpLoop_ok fuel m p D bs :
  holds m p D bs -> (length D < fuel)%nat ->
  exists xs, concat xs = bs /\ forall file, dumpLoop write fuel p file m = (let! file := writeSlices file xs in Ok (file, m)).
Proof.
  revert p D bs. induction fuel as [|fuel IH]; intros p D bs Hh Hf; [lia|].
  destruct D as [|[c s] D].
  { destruct Hh as [Hs _ Hb _]. cbn in Hs, Hb. subst p. destruct bs; [|done]. by exists []. }
  pose proof (holds_at m p [] c s D bs Hh) as (Hc & Hg & Hn & Hcont & Hlen). pose proof Hg as (d & _ & Hsz). cbn in Hcont, Hlen.
  assert (holds m (next s) D (drop (Z.to_nat (size s)) bs)) as Hh'.
  { destruct Hh as [Hs Hgs Hb Hlt]. destruct Hs as (-> & _ & Hs). apply Forall_cons in Hgs as [_ Hgs]. split; try done.
    - rewrite <- skipn_map, <- Hb, contents_cons, drop_app_length'; [done|]. pose proof (content_length s Hg). lia.
    - intros x Hx. apply Hlt. by constructor. }
  destruct (IH _ _ _ Hh' ltac:(cbn in Hf; lia)) as (xs & Hxs & Hrun). exists (take (Z.to_nat (size s)) bs :: xs).
  split; [cbn; by rewrite Hxs, take_drop|]. intros file.
  assert (p = Some c) as -> by (by destruct Hh as [[? _] _ _ _]). cbn [dumpLoop writeSlices]. slook.
  rewrite drop_0 in Hcont. rewrite (peek_content s _ 0 (size s) Hg Hcont) by lia. rewrite drop_0, take_take, Nat.min_id.
  srun (eq_refl (Ok (take (Z.to_nat (size s)) bs, m))). unfold sbind, lift. destruct (write file _); [|done..]. cbn [res_bind].
  apply Hrun.
Qed.

(** [Dump] writes the slices in order, so the file gets the bytes. *)
Lemma Dump_ok m w l C bs :
  writes m w l C (map Some bs) ->
  exists xs, concat xs = bs /\ forall file, Dump write file w m = (let! file := writeSlices file xs in Ok (file, m)).
Proof.
  intros (ss & a & s & -> & Hw & Hc & _). pose proof Hw as [Hl Hls Hs Hg _ _ _ Hst].
  destruct (dumpLoop_ok (S (brk m)) m (headAddr (ss ++ [(a, s)])) (ss ++ [(a, s)]) bs) as (xs & Hxs & Hrun).
  - split; [exact Hs | done | done|]. intros x Hx. apply list_elem_of_fmap_1 in Hx as ([x' t] & -> & Hx).
    apply (seg_lookup _ _ _ _ _ _ Hs) in Hx. by apply Hst in Hx.
  - pose proof (seg_length _ _ _ Hst Hs). lia.
  - exists xs. split; [done|]. intros file. unfold Dump, listOf. rewrite Hl. srun (eq_refl (Ok (l, m))). slook. apply Hrun.
Qed.
End Dump.

(** The slices of the list are given back, and nothing else. *)
Lemma clearLoop_ok fuel m p D :
  seg (slices m) p D None -> (length D < fuel)%nat ->
  clearLoop fuel p m = Ok (tt, mkStore (foldr delete (slices m) D.*1) (lists m) (brk m)).
Proof.
  revert m p D. induction fuel as [|fuel IH]; intros m p D Hs Hf; [lia|]. destruct D as [|[c s] D].
  { cbn in Hs. subst p. by destruct m. }
  pose proof (seg_nodup _ _ _ Hs) as Hnd. destruct Hs as (-> & Hc & Hs). cbn [clearLoop]. slook.
  unfold DestroyObject, freeSlice. srun (eq_refl (Ok (tt, mkStore (delete c (slices m)) (lists m) (brk m)))).
  cbn in Hnd. apply NoDup_cons in Hnd as [Hnd _]. rewrite (IH _ _ D).
  - cbn [slices lists brk fmap list_fmap fst foldr]. do 3 f_equal. clear - D. induction D.*1 as [|x l IHl]; cbn; [done|]. by rewrite IHl, delete_delete.
  - apply (seg_ext _ _ _ _ _ Hs). intros a' s' Hin. apply lookup_delete_ne. intros ->. by apply Hnd, (elem_of_fst _ _ s').
  - cbn in Hf. lia.
Qed.

Lemma lookup_foldr_delete (m : gmap addr ByteSlice) xs x :
  foldr delete m xs !! x = if decide (x ∈ xs) then None else m !! x.
Proof.
  induction xs as [|y xs IH]; cbn; [by rewrite decide_False by (apply not_elem_of_nil)|].
  destruct (decide (x = y)) as [->|Hne].
  - rewrite lookup_delete_eq, decide_True; [done | by constructor].
  - rewrite lookup_delete_ne, IH by done. apply decide_ext. rewrite elem_of_cons. naive_solver.
Qed.

(** [Close] of a writer that owns its list *)
Lemma Close_ok m w l C bs :
  writes m w l C bs -> _isOwnSliceList w = true ->
  exists w' m', Close w m = Ok (w', m') /\ _sliceList w' = None /\ _lastSliceSize w' = _lastSliceSize w /\
    _isOwnSliceList w' = true /\ storeOk m' /\ brk m' = brk m /\ lists m' = delete l (lists m) /\
    (forall x, slices m' !! x = if decide (x ∈ C.*1) then None else slices m !! x).
Proof.
  intros (ss & a & s & -> & [Hl Hls Hs Hg _ _ _ Hst] & _) Hown. unfold Close. rewrite Hown, Hl.
  pose proof (seg_length _ _ _ Hst Hs) as Hlen. unfold Clear.
  set (m1 := mkStore (foldr delete (slices m) (ss ++ [(a, s)]).*1) (lists m) (brk m)).
  eexists _, (mkStore (slices m1) (delete l (lists m)) (brk m)). split.
  - unfold sbind at 1. unfold sbind at 1. rewrite (getList_ok _ _ _ Hls). cbn [res_bind].
    unfold sbind at 1. rewrite (clearLoop_ok _ _ _ _ Hs) by lia. cbn [res_bind]. unfold setList, freeList, sbind, ret.
    cbn [res_bind slices lists brk]. by rewrite delete_insert_eq.
  - cbn [slices lists brk m1]. split_and!; try done.
    + intros x t Hx. cbn in Hx. rewrite lookup_foldr_delete in Hx. case_decide; [done|]. by apply Hst in Hx.
    + intros x. apply lookup_foldr_delete.
Qed.

(** [Reset] of a writer that owns its list leaves it as a new one. *)
Lemma Reset_writes m w l C bs :
  writes m w l C bs -> _isOwnSliceList w = true ->
  exists w' m' l' C', Reset w m = Ok (w', m') /\ writes m' w' l' C' [] /\ _isOwnSliceList w' = true.
Proof.
  intros Hw Hown. unfold Reset.
  set (w0 := set_last (u32 (MIN_SLICE_SIZE - GetHeadSize)) w).
  assert (exists w1 m1, Close w0 m = Ok (w1, m1) /\ _lastSliceSize w1 = 0 /\ _isOwnSliceList w1 = true /\ storeOk m1) as
    (w1 & m1 & Hclose & Hlast & Hown1 & Hst1).
  { destruct (Close_ok _ _ _ _ _ Hw Hown) as (w1 & m1 & Hc & _ & _ & _ & Hst & _).
    unfold Close in *. destruct Hw as (ss & a & s & -> & [Hl _ _ _ _ _ _ _] & _). cbn [w0 set_last _isOwnSliceList _sliceList].
    rewrite Hown, Hl in *. revert Hc. unfold sbind, ret. destruct (Clear l m) as [[[] m2]| | |]; cbn [res_bind]; [|done..].
    destruct (freeList l m2) as [[[] m3]| | |]; cbn [res_bind]; [|done..]. intros [= <- <-]. by eexists _, _. }
  destruct (new_ByteSliceWriter_ok m1 40 Hst1) as (w2 & m2 & l2 & C2 & Hnew & Hw2 & _); [unfold GetHeadSize; lia|].
  srun Hclose. revert Hnew. unfold new_ByteSliceWriter. cbn [_lastSliceSize _isOwnSliceList]. rewrite Hlast, Hown1.
  change (u32 (40 - GetHeadSize)) with 0. intros Hnew. rewrite Hnew. eexists _, _, _, _. split; [done|]. split; [done|].
  revert Hnew. unfold sbind at 1. destruct (new_ByteSliceList m1) as [[l3 m3]| | |]; cbn [res_bind]; [|done..].
  unfold sbind at 1. unfold CreateSlice. unfold sbind at 1. destruct (CreateObject 0 m3) as [[a m4]| | |]; cbn [res_bind]; [|done..].
  unfold sbind at 1. destruct (getSlice a m4) as [[s m5]| | |]; cbn [res_bind]; [|done..]. unfold sbind at 1. cbn [res_bind setSlice].
  unfold ret at 1. cbn [res_bind]. unfold sbind at 1. destruct (Add l3 a _) as [[[] m6]| | |]; cbn [res_bind]; [|done..].
  by intros [= <- _].
Qed.

End WriterRanges.
