(* ===== verification/ByteSliceReaderCorrect.v ===== *)
(** * The reader reads a string of bytes

    A position in a chain of slices, of either kind of list, stands for the bytes that follow. [next_ok] is what
    the reader asks of a kind: to leave a slice at the end of what it has in memory leads to the next byte. From it the
    operations are shown to read the bytes of the list at the position of the reader. *)

From stdpp Require Import base list numbers option tactics gmap.
From Stdlib Require Import ZArith Lia ZifyNat ZifyBool.
From S2P Require Import Prelude Bits ByteSliceList SliceChain BlockByteSliceList ByteSliceReader ByteSliceWriterCorrect VbyteCompressor.

#[local] Open Scope Z_scope.
#[local] Open Scope store_scope.

Module ReaderCorrect.
Import Reader.

Section Views.
Context `{BlockDataRetriever} (file : list Z).

(** A block of the file starts at [x]. *)
Definition boundary (x : Z) : Prop :=
  forall bo bl d, RetrieveBlockData x = Ok (Some (bo, bl, d)) -> bo = x.

(** A slice of a block list that stands for the bytes [bs] of the file *)
Record blockSlice (s : ByteSlice) (bs : list Z) : Prop := {
  bl_size : size s = Z.of_nat (length bs);
  bl_offset : 0 <= offset s;
  bl_file : bs = take (length bs) (drop (Z.to_nat (offset s)) file);
  bl_dataSize : 0 <= dataSize s <= size s;
  bl_data : 0 < dataSize s -> exists d, data s = Some d /\
    take (Z.to_nat (dataSize s)) d = map Some (take (Z.to_nat (dataSize s)) bs);
  bl_boundary : dataSize s = 0 \/ dataSize s = size s \/ boundary (offset s + dataSize s)
}.

(** The slice [s] of a list of kind [k] stands for [bs]. *)
Definition sliceFor (k : bool) (s : ByteSlice) (bs : list Z) : Prop :=
  if k then blockSlice s bs else goodSlice s /\ content s = map Some bs.

(** How many of its bytes can be read *)
Definition avail (k : bool) (s : ByteSlice) : Z := if k then dataSize s else size s.

Lemma sliceFor_size k s bs : sliceFor k s bs -> 0 <= avail k s <= size s /\ size s = Z.of_nat (length bs).
Proof.
  destruct k; cbn.
  - intros []. lia.
  - intros [Hg Hc]. pose proof (content_length s Hg) as Hl. rewrite Hc, length_map in Hl. lia.
Qed.

Lemma sliceFor_peek k s bs off len :
  sliceFor k s bs -> 0 <= off -> 0 <= len -> off + len <= avail k s ->
  peek (data s) off len = Ok (take (Z.to_nat len) (drop (Z.to_nat off) bs)).
Proof.
  intros Hs Ho Hl Ha. destruct k; cbn in *.
  - destruct (Z.eq_dec len 0) as [->|Hne]; [done|]. destruct Hs as [Hsz _ _ Hds Hdata _].
    destruct (Hdata ltac:(lia)) as (d & Hd & Htake).
    set (s' := mkSlice None (data s) (dataSize s) 0 0).
    assert (Z.of_nat (length d) >= dataSize s) as Hld.
    { apply (f_equal length) in Htake. rewrite length_map, !length_take in Htake. lia. }
    change (data s) with (data s'). rewrite (peek_content s' (take (Z.to_nat (dataSize s)) bs) off len); cbn; [| | |lia|lia|lia].
    + rewrite skipn_firstn_comm, take_take, Nat.min_l by lia. done.
    + exists d. cbn. split; [done | lia].
    + unfold content. cbn. by rewrite Hd.
  - destruct Hs as [Hg Hc]. by apply peek_content.
Qed.

(** From offset [off] of the slice at [p] the bytes [rest] follow; [lim] says how far into the slice a position may be. *)
Definition viewUpTo (lim : ByteSlice -> Z) (k : bool) (m : Store) (p : option addr) (off : Z) (rest : list Z) : Prop :=
  exists D xs, seg (slices m) p D None /\ Forall2 (fun x b => sliceFor k (snd x) b) D xs /\
    Forall (fun x => 0 < avail k (snd x)) (tail D) /\ 0 <= off /\ Forall (fun x => off <= lim (snd x)) (take 1 D) /\
    rest = drop (Z.to_nat off) (concat xs) /\ Z.of_nat (length (concat xs)) < 2 ^ 62.

Definition view (k : bool) := viewUpTo (avail k) k.
(** The position may be in a part of the slice that is not in memory. *)
Definition wview (k : bool) := viewUpTo size k.

Lemma view_none lim k m off rest : viewUpTo lim k m None off rest -> rest = [].
Proof.
  intros (D & xs & Hs & Hf & _ & _ & _ & -> & _). destruct D as [|[a s] D]; [|by destruct Hs].
  inversion Hf; subst. cbn. by rewrite drop_nil.
Qed.

Lemma view_wview k m p off rest : view k m p off rest -> wview k m p off rest.
Proof.
  intros (D & xs & Hs & Hf & Ht & Ho & Hl & Hr & Hb). exists D, xs. split_and!; try done.
  destruct D as [|[a s] D]; [done|]. inversion Hf; subst. apply Forall_cons in Hl as [Hl _]. repeat constructor. cbn in *.
  pose proof (sliceFor_size k s _ H2). lia.
Qed.

(** What is known of the slice at a position *)
Lemma view_some lim k m a off rest :
  viewUpTo lim k m (Some a) off rest ->
  exists s bs rest', slices m !! a = Some s /\ sliceFor k s bs /\ 0 <= off <= lim s /\
    rest = drop (Z.to_nat off) (bs ++ rest') /\ view k m (next s) 0 rest' /\ Z.of_nat (length (bs ++ rest')) < 2 ^ 62 /\
    (forall b t, next s = Some b -> slices m !! b = Some t -> 0 < avail k t).
Proof.
  intros (D & xs & Hs & Hf & Ht & Ho & Hl & -> & Hb). destruct D as [|[a' s] D]; [done|].
  destruct Hs as ([= <-] & Ha & Hs). inversion Hf as [|? bs ? xs' Hbs Hf']; subst. cbn in *.
  apply Forall_cons in Hl as [Hl _]. exists s, bs, (concat xs'). split_and!; try done.
  - rewrite length_app in Hb. exists D, xs'. split_and!; try done; try lia.
    + by destruct D; [|apply Forall_cons in Ht as [_ Ht]].
    + destruct D as [|[b t] D]; [constructor|]. apply Forall_cons in Ht as [Ht _]. repeat constructor. cbn in *. lia.
  - intros b t Hn Hbt. destruct D as [|[b' t'] D]; cbn in Hs; [congruence|]. destruct Hs as (Hn' & Hb' & _).
    apply Forall_cons in Ht as [Ht _]. cbn in Ht. congruence.
Qed.

(** Bytes of the slice at a position *)
Lemma view_peek k m a s off rest len :
  view k m (Some a) off rest -> slices m !! a = Some s -> 0 <= len -> off + len <= avail k s ->
  peek (data s) off len = Ok (take (Z.to_nat len) rest) /\ (Z.to_nat len <= length rest)%nat /\
  view k m (Some a) (off + len) (drop (Z.to_nat len) rest).
Proof.
  intros Hv Hs Hlen Ha. pose proof (view_some _ _ _ _ _ _ Hv) as (s' & bs & rest' & Hs' & Hbs & Hoff & Hrest & _).
  assert (s' = s) as -> by congruence. pose proof (sliceFor_size _ _ _ Hbs) as [Hav Hsz]. split_and!.
  - rewrite (sliceFor_peek k s bs) by (done || lia). f_equal. rewrite Hrest, skipn_app, take_app_le; [done|].
    rewrite length_drop. lia.
  - rewrite Hrest, length_drop, length_app. lia.
  - destruct Hv as (D & xs & HD & Hf & Ht & Ho & Hl & -> & Hb). exists D, xs. split_and!; try done; [lia| |].
    + destruct D as [|[a' t] D]; [constructor|]. destruct HD as ([= <-] & ? & _). repeat constructor. cbn. simplify_eq. lia.
    + rewrite drop_drop. f_equal. lia.
Qed.

(** Every position keeps what follows it. *)
Definition preserves (k : bool) (m m' : Store) : Prop :=
  forall q off rest, view k m q off rest -> view k m' q off rest.
(** Lists keep their size. *)
Definition sameLists (m m' : Store) : Prop :=
  forall l L, lists m !! l = Some L ->
    exists L', lists m' !! l = Some L' /\ _totalSize L' = _totalSize L /\ isBlock L' = isBlock L.

Lemma preserves_refl k m : preserves k m m.
Proof. by intros q off rest. Qed.
Lemma sameLists_refl m : sameLists m m.
Proof. intros l L HL. by exists L. Qed.
Lemma preserves_trans k m1 m2 m3 : preserves k m1 m2 -> preserves k m2 m3 -> preserves k m1 m3.
Proof. intros H1 H2 q off rest Hv. by apply H2, H1. Qed.
Lemma sameLists_trans m1 m2 m3 : sameLists m1 m2 -> sameLists m2 m3 -> sameLists m1 m3.
Proof. intros H1 H2 l L HL. destruct (H1 l L HL) as (L2 & HL2 & ? & ?). destruct (H2 l L2 HL2) as (L3 & ? & ? & ?). exists L3. split_and!; congruence. Qed.

(** How a store may change while it is read *)
Record quiet (k : bool) (m m' : Store) : Prop := {
  qu_views : preserves k m m';
  qu_lists : sameLists m m';
  qu_store : storeOk m'
}.

Lemma quiet_refl k m : storeOk m -> quiet k m m.
Proof. intros. split; [apply preserves_refl | apply sameLists_refl | done]. Qed.
Lemma quiet_trans k m1 m2 m3 : quiet k m1 m2 -> quiet k m2 m3 -> quiet k m1 m3.
Proof. intros [] []. split; [by eapply preserves_trans | by eapply sameLists_trans | done]. Qed.

(** What the reader asks of a kind of list, for a reader of the list [l] *)
Definition next_ok (k : bool) (l : addr) : Prop :=
  forall m r a s off rest,
    _isBlockByteSliceList r = k -> _sliceList r = Some l -> is_Some (lists m !! l) -> storeOk m ->
    view k m (Some a) off rest -> slices m !! a = Some s ->
    exists p m', NextSlice (Some a) r m = Ok (p, m') /\ quiet k m m' /\
      view k m' p 0 (drop (Z.to_nat (avail k s - off)) rest) /\
      (forall b t, p = Some b -> slices m' !! b = Some t -> 0 < avail k t).

(** Lists of plain slices have it. *)
Lemma plain_next_ok l : next_ok false l.
Proof.
  intros m r a s off rest Hk _ _ Hst Hv Ha. pose proof (view_some _ _ _ _ _ _ Hv) as (s' & bs & rest' & Hs' & Hbs & Hoff & -> & Hn & Hb & Hready).
  assert (s' = s) as -> by congruence. pose proof (sliceFor_size _ _ _ Hbs) as [Hav Hsz]. cbn [avail] in *.
  exists (next s), m. unfold NextSlice. rewrite Hk. cbn [negb]. slook. split; [done|]. split; [by apply quiet_refl|]. split; [|done].
  rewrite drop_drop. replace (Z.to_nat off + Z.to_nat (size s - off))%nat with (length bs) by lia. by rewrite drop_app_length.
Qed.

(** ** Readers *)

(** [r] reads the list [l], which stands for [bs], and is at position [pos]. *)
Record reads (k : bool) (m : Store) (r : ByteSliceReader) (l : addr) (bs : list Z) (pos : nat) : Prop := {
  rd_kind : _isBlockByteSliceList r = k;
  rd_list : _sliceList r = Some l;
  rd_total : exists L, lists m !! l = Some L /\ _totalSize L = Z.of_nat (length bs) /\ isBlock L = k;
  rd_offset : _globalOffset r = Z.of_nat pos;
  rd_pos : (pos <= length bs)%nat;
  rd_view : view k m (_currentSlice r) (_currentSliceOffset r) (drop pos bs);
  rd_bound : Z.of_nat (length bs) < 2 ^ 62;
  rd_store : storeOk m
}.

(** The store changed quietly, and the reader moved. *)
Lemma reads_move k m m' r l bs pos p off n :
  reads k m r l bs pos -> quiet k m m' -> view k m' p off (drop (pos + n) bs) -> (pos + n <= length bs)%nat ->
  reads k m' (set_global (Z.of_nat (pos + n)) (set_pos p off r)) l bs (pos + n).
Proof.
  intros [Hk Hl (L & HL & Ht & Hb) Hg Hp Hv Hbd Hst] [Hq Hls Hst'] Hv' Hn. split; cbn; try done.
  destruct (Hls l L HL) as (L' & ? & ? & ?). exists L'. split_and!; congruence.
Qed.

Lemma reads_quiet k m m' r l bs pos : reads k m r l bs pos -> quiet k m m' -> reads k m' r l bs pos.
Proof.
  intros [Hk Hl (L & HL & Ht & Hb) Hg Hp Hv Hbd Hst] [Hq Hls Hst']. split; try done.
  - destruct (Hls l L HL) as (L' & ? & ? & ?). exists L'. split_and!; congruence.
  - by apply Hq.
Qed.

(** The current slice, while there are bytes to read *)
Lemma reads_slice k m r l bs pos :
  reads k m r l bs pos -> (pos < length bs)%nat ->
  exists a s, _currentSlice r = Some a /\ slices m !! a = Some s /\ 0 <= _currentSliceOffset r <= avail k s /\ avail k s < 2 ^ 62.
Proof.
  intros [Hk Hl _ Hg Hp Hv _ _] Hlt. destruct (_currentSlice r) as [a|].
  - pose proof (view_some _ _ _ _ _ _ Hv) as (s & x & rest & Ha & Hs & Hoff & _ & _ & Hb & _). exists a, s.
    pose proof (sliceFor_size _ _ _ Hs). rewrite length_app in Hb. split_and!; done || lia.
  - apply view_none in Hv. apply (f_equal length) in Hv. rewrite length_drop in Hv. cbn in Hv. lia.
Qed.

Lemma GetSliceDataSize_ok k m r a s :
  _isBlockByteSliceList r = k -> slices m !! a = Some s -> GetSliceDataSize (Some a) r m = Ok (avail k s, m).
Proof. intros <- Ha. unfold GetSliceDataSize. slook. unfold ret, avail. by destruct (_isBlockByteSliceList r). Qed.

Lemma move_eq r n pos :
  _globalOffset r = Z.of_nat pos -> 0 <= _currentSliceOffset r -> _currentSliceOffset r + Z.of_nat n < 2 ^ 64 -> Z.of_nat (pos + n) < 2 ^ 64 ->
  move (Z.of_nat n) r = set_global (Z.of_nat (pos + n)) (set_pos (_currentSlice r) (_currentSliceOffset r + Z.of_nat n) r).
Proof. intros Hg Ho Hb Hb'. unfold move. rewrite Hg, !u64_small by lia. unfold set_global. f_equal. lia. Qed.

Lemma take_drop_nth (bs : list Z) pos : (pos < length bs)%nat -> take 1 (drop pos bs) = [nth pos bs 0].
Proof.
  intros Hp. destruct (lookup_lt_is_Some_2 bs pos Hp) as [b Hb]. rewrite (drop_S _ _ _ Hb). cbn.
  by rewrite (nth_lookup_Some _ _ _ _ Hb).
Qed.

Section Ops.
Context (k : bool) (l : addr) (Hnext : next_ok k l).

(** A position with the next byte in memory *)
Lemma settle m r bs pos :
  reads k m r l bs pos -> (pos < length bs)%nat ->
  exists a s off m', (forall n, GetSliceDataSize (_currentSlice r) r m = Ok (n, m) ->
      (if n <=? _currentSliceOffset r then let* s := NextSlice (_currentSlice r) r in ret (set_pos s 0 r) else ret r) m
        = Ok (set_pos (Some a) off r, m')) /\
    quiet k m m' /\ slices m' !! a = Some s /\ 0 <= off < avail k s /\ avail k s < 2 ^ 62 /\ view k m' (Some a) off (drop pos bs).
Proof.
  intros Hr Hp. destruct (reads_slice _ _ _ _ _ _ Hr Hp) as (a & s & Hc & Ha & Ho & Hb).
  pose proof (GetSliceDataSize_ok k m r a s (rd_kind _ _ _ _ _ _ Hr) Ha) as Hn.
  pose proof Hr as [Hk Hl (L & HL & _) Hg _ Hv _ Hst]. rewrite Hc in *.
  destruct (Z.le_gt_cases (avail k s) (_currentSliceOffset r)) as [Hle|Hgt].
  - destruct (Hnext m r a s _ _ Hk Hl ltac:(by eexists) Hst Hv Ha) as (p & m' & Hrun & Hq & Hv' & Hready).
    replace (avail k s - _currentSliceOffset r) with 0 in Hv' by lia. cbn [Z.to_nat] in Hv'. rewrite drop_0 in Hv'.
    destruct p as [b|]; [|apply view_none in Hv'; apply (f_equal length) in Hv'; rewrite length_drop in Hv'; cbn in Hv'; lia].
    pose proof (view_some _ _ _ _ _ _ Hv') as (t & x & rest & Hb' & Ht & _ & _ & _ & Hbd & _).
    exists b, t, 0, m'. pose proof (Hready b t eq_refl Hb'). pose proof (sliceFor_size _ _ _ Ht). rewrite length_app in Hbd.
    split_and!; try done; try lia. intros n Hn'. rewrite Hn in Hn'. simplify_eq. rewrite (proj2 (Z.leb_le _ _)) by lia. by srun Hrun.
  - exists a, s, (_currentSliceOffset r), m. split_and!; try done; try lia; [|by apply quiet_refl].
    intros n Hn'. rewrite Hn in Hn'. simplify_eq. rewrite (proj2 (Z.leb_gt _ _)) by lia. rewrite <- Hc. unfold ret. by destruct r.
Qed.

Lemma ReadByte_ok m r bs pos :
  reads k m r l bs pos -> (pos < length bs)%nat ->
  exists r' m', ReadByte r m = Ok ((nth pos bs 0, r'), m') /\ quiet k m m' /\ reads k m' r' l bs (S pos).
Proof.
  intros Hr Hp. destruct (settle _ _ _ _ Hr Hp) as (a & s & off & m' & Hset & Hq & Ha & Ho & Hb & Hv).
  destruct (reads_slice _ _ _ _ _ _ Hr Hp) as (a0 & s0 & Hc & Ha0 & _).
  pose proof (GetSliceDataSize_ok k m r a0 s0 (rd_kind _ _ _ _ _ _ Hr) Ha0) as Hn. rewrite <- Hc in Hn.
  destruct (view_peek k m' a s off _ 1 Hv Ha ltac:(lia) ltac:(lia)) as (Hpk & _ & Hv1).
  unfold ReadByte. srun Hn. srun (Hset _ Hn). cbn [_currentSlice _currentSliceOffset set_pos]. slook.
  unfold byteAt. rewrite Hpk. change (Z.to_nat 1) with 1%nat. rewrite take_drop_nth by done.
  srun (eq_refl (Ok (nth pos bs 0, m'))). exists (move 1 (set_pos (Some a) off r)), m'. split; [done|]. split; [done|].
  pose proof (rd_bound _ _ _ _ _ _ Hr). rewrite (move_eq _ 1 pos) by (cbn; done || lia || apply (rd_offset _ _ _ _ _ _ Hr)).
  rewrite <- (Nat.add_1_r pos). cbn [_currentSlice _currentSliceOffset set_pos].
  change (Z.to_nat 1) with 1%nat in Hv1. rewrite drop_drop in Hv1.
  exact (reads_move k m m' r l bs pos (Some a) (off + 1) 1 Hr Hq Hv1 ltac:(lia)).
Qed.

Lemma readBytes_ok n m r bs pos :
  reads k m r l bs pos -> (pos + n <= length bs)%nat ->
  exists r' m', readBytes n r m = Ok ((take n (drop pos bs), r'), m') /\ quiet k m m' /\ reads k m' r' l bs (pos + n).
Proof.
  revert m r pos. induction n as [|n IH]; intros m r pos Hr Hp; cbn [readBytes].
  { exists r, m. rewrite Nat.add_0_r. split_and!; [done | | done]. apply quiet_refl, (rd_store _ _ _ _ _ _ Hr). }
  destruct (ReadByte_ok m r bs pos Hr ltac:(lia)) as (r1 & m1 & Hrun & Hq & Hr1). srun Hrun.
  destruct (IH m1 r1 (S pos) Hr1 ltac:(lia)) as (r2 & m2 & Hrun2 & Hq2 & Hr2). srun Hrun2.
  exists r2, m2. replace (pos + S n)%nat with (S pos + n)%nat by lia. split_and!; [|by eapply quiet_trans|done].
  destruct (lookup_lt_is_Some_2 bs pos ltac:(lia)) as [b Hb]. rewrite (drop_S _ _ _ Hb). cbn [take].
  by rewrite (nth_lookup_Some _ _ _ _ Hb).
Qed.

(** Bytes of the current slice, all in memory *)
Lemma reads_inSlice m r bs pos a s n :
  reads k m r l bs pos -> _currentSlice r = Some a -> slices m !! a = Some s ->
  _currentSliceOffset r + Z.of_nat n <= avail k s ->
  peek (data s) (_currentSliceOffset r) (Z.of_nat n) = Ok (take n (drop pos bs)) /\ (pos + n <= length bs)%nat /\
  reads k m (move (Z.of_nat n) r) l bs (pos + n).
Proof.
  intros Hr Hc Ha Hle. pose proof Hr as [Hk Hl _ Hg Hp Hv Hb Hst]. rewrite Hc in Hv.
  destruct (view_peek k m a s _ _ (Z.of_nat n) Hv Ha ltac:(lia) Hle) as (Hpk & Hlen & Hv1). rewrite Nat2Z.id, length_drop in *.
  pose proof (view_some _ _ _ _ _ _ Hv) as (s' & x & rest & Ha' & Hs & Hoff & _ & _ & Hbd & _). assert (s' = s) as -> by congruence.
  pose proof (sliceFor_size _ _ _ Hs). rewrite length_app in Hbd.
  split_and!; [done | lia|]. rewrite (move_eq _ _ pos) by (done || lia). rewrite Hc.
  apply (reads_move _ m); [done | by apply quiet_refl | | lia]. by rewrite drop_drop in Hv1.
Qed.

(** [ReadInt<T>], and the other integers: little endian *)
Lemma ReadInt_ok n m r bs pos :
  reads k m r l bs pos -> (0 < n <= 8)%nat -> (pos + n <= length bs)%nat ->
  exists r' m', ReadInt n r m = Ok ((join (take n (drop pos bs)), r'), m') /\ quiet k m m' /\ reads k m' r' l bs (pos + n).
Proof.
  intros Hr Hn Hp. destruct (reads_slice _ _ _ _ _ _ Hr ltac:(lia)) as (a & s & Hc & Ha & Ho & Hb).
  unfold ReadInt. rewrite Hc. srun (GetSliceDataSize_ok k m r a s (rd_kind _ _ _ _ _ _ Hr) Ha). rewrite u64_small by lia.
  destruct (Z.leb_spec (_currentSliceOffset r + Z.of_nat n) (avail k s)) as [Hle|Hgt].
  - destruct (reads_inSlice m r bs pos a s n Hr Hc Ha Hle) as (Hpk & _ & Hr'). slook. rewrite Hpk.
    srun (eq_refl (Ok (take n (drop pos bs), m))). eexists _, _. split; [done|]. split; [|done]. apply quiet_refl, (rd_store _ _ _ _ _ _ Hr).
  - destruct (readBytes_ok n m r bs pos Hr Hp) as (r' & m' & Hrun & Hq & Hr'). srun Hrun. by eexists _, _.
Qed.

(** ** Integers of variable length *)

Lemma readVIntLoop_vread fuel b value shift src v rest m r bs pos :
  reads k m r l bs pos -> drop pos bs = src -> VByte.vread fuel b value shift src = Some (v, rest) ->
  exists r' m', readVIntLoop fuel b value shift r m = Ok ((v, r'), m') /\ quiet k m m' /\
    reads k m' r' l bs (length bs - length rest).
Proof.
  revert b value shift src m r pos. induction fuel as [|fuel IH]; intros b value shift src m r pos Hr Hsrc Hv;
    cbn in *; destruct (Z.land b 128 =? 0); simplify_eq.
  1, 2: exists r, m; (split; [done|]); (split; [apply quiet_refl, (rd_store _ _ _ _ _ _ Hr)|]); rewrite length_drop;
    pose proof (rd_pos _ _ _ _ _ _ Hr); by replace (length bs - (length bs - pos))%nat with pos by lia.
  destruct (drop pos bs) as [|b' src] eqn:Hd; [done|].
  assert (pos < length bs)%nat as Hlt by (apply (f_equal length) in Hd; rewrite length_drop in Hd; cbn in Hd; lia).
  destruct (ReadByte_ok m r bs pos Hr Hlt) as (r1 & m1 & Hrun & Hq1 & Hr1). srun Hrun.
  pose proof (take_drop_nth bs pos Hlt) as Hnth. rewrite Hd in Hnth. cbn in Hnth. injection Hnth as <-.
  assert (drop (S pos) bs = src) as Hd' by (rewrite <- Nat.add_1_r, <- drop_drop, Hd; done).
  destruct (IH _ _ _ src m1 r1 (S pos) Hr1 Hd' Hv) as (r2 & m2 & Hrun2 & Hq2 & Hr2).
  exists r2, m2. split_and!; [done | by eapply quiet_trans | done].
Qed.

(** [ReadVUInt32] reads a number of variable length. *)
Lemma ReadVUInt32_ok m r bs pos v rest :
  reads k m r l bs pos -> drop pos bs = VByte.vbytes v ++ rest -> 0 <= v < 2 ^ 32 ->
  exists r' m', ReadVUInt32 r m = Ok ((v, r'), m') /\ quiet k m m' /\ reads k m' r' l bs (pos + length (VByte.vbytes v)).
Proof.
  intros Hr Hd Hv. destruct (VByte.vread_vbytes v Hv) as (b & t & Hb & _ & Hread). rewrite Hb in *. cbn [app] in Hd.
  assert (length bs - pos = S (length t + length rest))%nat as Hlen.
  { apply (f_equal length) in Hd. rewrite length_drop in Hd. cbn in Hd. by rewrite length_app in Hd. }
  destruct (ReadByte_ok m r bs pos Hr ltac:(lia)) as (r1 & m1 & Hrun & Hq1 & Hr1). unfold ReadVUInt32. srun Hrun.
  pose proof (take_drop_nth bs pos ltac:(lia)) as Hnth. rewrite Hd in Hnth. cbn in Hnth. injection Hnth as <-.
  assert (drop (S pos) bs = t ++ rest) as Hd' by (rewrite <- Nat.add_1_r, <- drop_drop, Hd; done).
  destruct (readVIntLoop_vread 4 _ _ _ _ _ _ m1 r1 bs (S pos) Hr1 Hd' (Hread rest)) as (r2 & m2 & Hrun2 & Hq2 & Hr2).
  exists r2, m2. split_and!; [done | by eapply quiet_trans|]. cbn [length].
  by replace (pos + S (length t))%nat with (length bs - length rest)%nat by lia.
Qed.

(** ** Looking ahead *)

Lemma peekBytes_ok n m r p off rest :
  _isBlockByteSliceList r = k -> _sliceList r = Some l -> is_Some (lists m !! l) -> storeOk m -> is_Some p ->
  view k m p off rest ->
  exists m', quiet k m m' /\
    peekBytes n p off r m = if (n <=? length rest)%nat then Ok (take n rest, m') else Error FileIO.
Proof.
  intros Hk Hl. revert m p off rest. induction n as [|n IH]; intros m p off rest HL Hst [a ->] Hv; cbn [peekBytes].
  { exists m. split; [by apply quiet_refl | done]. }
  pose proof (view_some _ _ _ _ _ _ Hv) as (s & x & rest0 & Ha & Hs & Hoff & Hrest & _ & Hbd & _).
  pose proof (sliceFor_size _ _ _ Hs) as Hsz. rewrite length_app in Hbd. srun (GetSliceDataSize_ok k m r a s Hk Ha).
  assert (forall m1 b t off1, quiet k m m1 -> slices m1 !! b = Some t -> view k m1 (Some b) off1 rest -> off1 < avail k t -> 0 <= off1 -> exists m',
    quiet k m m' /\
      (let* s := derefSlice (Some b) in let* b0 := lift (byteAt s off1) in let* bs := peekBytes n (Some b) (off1 + 1) r in ret (b0 :: bs)) m1
        = if (S n <=? length rest)%nat then Ok (take (S n) rest, m') else Error FileIO)
    as Hbyte.
  { intros m1 b t off1 Hq Hb Hv1 Hlt Ho1. destruct (view_peek k m1 b t off1 rest 1 Hv1 Hb ltac:(lia) ltac:(lia)) as (Hpk & Hlen & Hv2).
    change (Z.to_nat 1) with 1%nat in *. destruct rest as [|c rest]; [cbn in Hlen; lia|].
    destruct HL as [L HL]. destruct (qu_lists _ _ _ Hq l L HL) as (L' & HL' & _).
    destruct (IH m1 (Some b) (off1 + 1) (drop 1 (c :: rest)) ltac:(by eexists) (qu_store _ _ _ Hq) ltac:(by eexists) Hv2) as (m2 & Hq2 & Hrun).
    exists m2. split; [by eapply quiet_trans|]. slook. unfold byteAt. rewrite Hpk. srun (eq_refl (Ok (c, m1))).
    change (drop 1 (c :: rest)) with rest in Hrun. change (S n <=? length (c :: rest))%nat with (n <=? length rest)%nat.
    unfold sbind. rewrite Hrun. by destruct (n <=? length rest)%nat. }
  destruct (Z.leb_spec (avail k s) off) as [Hle|Hgt].
  - destruct (Hnext m r a s off rest Hk Hl HL Hst Hv Ha) as (p & m1 & Hrun & Hq & Hv' & Hready).
    replace (avail k s - off) with 0 in Hv' by lia. cbn [Z.to_nat] in Hv'. rewrite drop_0 in Hv'.
    unfold sbind at 1. unfold sbind at 1. rewrite Hrun. cbn [res_bind]. destruct p as [b|].
    + pose proof (view_some _ _ _ _ _ _ Hv') as (t & x' & rest' & Hb & Ht & _). pose proof (Hready b t eq_refl Hb) as Hpos.
      assert (exists d, data t = Some d) as [d Hd].
      { destruct k; cbn in *; [destruct Ht as [_ _ _ _ Hdata _]; destruct (Hdata Hpos) as (d & ? & _); by exists d|].
        destruct Ht as [(d & ? & _) _]. by exists d. }
      unfold sbind at 1. rewrite (getSlice_ok _ _ _ Hb). cbn [res_bind]. rewrite Hd. unfold ret at 1. cbn [res_bind].
      by apply (Hbyte m1 b t 0).
    + apply view_none in Hv' as ->. exists m1. split; [done|]. done.
  - srun (eq_refl (Ok ((Some a, off), m))). apply (Hbyte m a s off); try done; [by apply quiet_refl | lia].
Qed.

(** [PeekInt32] gives the next four bytes as a number and does not move; it is an error when there are fewer. *)
Lemma PeekInt32_ok m r bs pos :
  reads k m r l bs pos -> is_Some (_currentSlice r) ->
  exists m', quiet k m m' /\
    PeekInt32 r m = if (pos + 4 <=? length bs)%nat then Ok (i32 (join (take 4 (drop pos bs))), m') else Error FileIO.
Proof.
  intros Hr [a Hc]. pose proof Hr as [Hk Hl (L & HL & _) Hg Hp Hv Hb Hst]. rewrite Hc in Hv.
  pose proof (view_some _ _ _ _ _ _ Hv) as (s & x & rest & Ha & Hs & Hoff & _ & _ & Hbd & _).
  pose proof (sliceFor_size _ _ _ Hs). rewrite length_app in Hbd.
  unfold PeekInt32. rewrite Hc. srun (GetSliceDataSize_ok k m r a s Hk Ha). rewrite u64_small by lia.
  destruct (Z.leb_spec (_currentSliceOffset r + 4) (avail k s)) as [Hle|Hgt].
  - destruct (reads_inSlice m r bs pos a s 4 Hr Hc Ha Hle) as (Hpk & Hlen & _). rewrite (proj2 (Nat.leb_le _ _)) by lia.
    exists m. split; [by apply quiet_refl|]. slook. change (Z.of_nat 4) with 4 in Hpk. rewrite Hpk. done.
  - destruct (peekBytes_ok 4 m r (Some a) _ _ Hk Hl ltac:(by eexists) Hst ltac:(by eexists) Hv) as (m' & Hq & Hrun).
    exists m'. split; [done|]. rewrite length_drop in Hrun.
    replace (pos + 4 <=? length bs)%nat with (4 <=? length bs - pos)%nat by lia.
    unfold sbind. rewrite Hrun. by destruct (4 <=? length bs - pos)%nat.
Qed.

(** ** Strings of bytes *)

Lemma memcpy_ok dest pos x :
  (pos + length x <= length dest)%nat -> memcpy dest pos x = Ok (take pos dest ++ x ++ drop (pos + length x) dest).
Proof. intros Hl. unfold memcpy. by rewrite (proj2 (Nat.ltb_ge _ _)) by lia. Qed.

(** The buffer after [x] was copied to [pos] and then [y] behind it *)
Lemma memcpy_twice (dest x y : list Z) pos :
  (pos + length x + length y <= length dest)%nat ->
  let dest1 := take pos dest ++ x ++ drop (pos + length x) dest in
  take (pos + length x) dest1 ++ y ++ drop (pos + length x + length y) dest1 =
  take pos dest ++ (x ++ y) ++ drop (pos + length (x ++ y)) dest.
Proof.
  intros Hl dest1. assert (length (take pos dest ++ x) = (pos + length x)%nat) as Hp by (rewrite length_app, length_take; lia).
  unfold dest1. rewrite (app_assoc (take pos dest) x), take_app_length' by lia. rewrite drop_app_ge, Hp, drop_drop by lia.
  rewrite length_app, <- !app_assoc. do 4 f_equal. lia.
Qed.

(** The loop of [Read] *)
Lemma readLoop_ok fuel n dest pos off m r a rest :
  _isBlockByteSliceList r = k -> _sliceList r = Some l -> is_Some (lists m !! l) -> storeOk m ->
  _currentSlice r = Some a -> view k m (Some a) off rest ->
  (n < fuel)%nat -> ((S n < fuel)%nat \/ forall s, slices m !! a = Some s -> off < avail k s) ->
  let c := (n `min` length rest)%nat in
  (pos + c <= length dest)%nat ->
  exists p off' m', readLoop fuel dest pos (Z.of_nat n) off r m =
      Ok ((take pos dest ++ take c rest ++ drop (pos + c) dest, Z.of_nat (n - c), off', set_pos p (_currentSliceOffset r) r), m') /\
    quiet k m m' /\ view k m' p off' (drop c rest).
Proof.
  revert n dest pos off m r a rest. induction fuel as [|fuel IH]; intros n dest pos off m r a rest Hk Hl HL Hst Hc Hv Hfuel Hready c Hd; [lia|].
  cbn [readLoop]. destruct (Z.ltb_spec 0 (Z.of_nat n)) as [Hn|Hn].
  2:{ exists (Some a), off, m. assert (c = 0%nat) as -> by lia. rewrite firstn_O, app_nil_l, Nat.add_0_r, take_drop, drop_0, Nat.sub_0_r, <- Hc.
      split; [by destruct r|]. split; [by apply quiet_refl | by rewrite Hc]. }
  pose proof (view_some _ _ _ _ _ _ Hv) as (s & x & rest0 & Ha & Hs & Hoff & Hrest & _ & Hbd & _).
  pose proof (sliceFor_size _ _ _ Hs) as Hsz. rewrite length_app in Hbd. rewrite Hc. srun (GetSliceDataSize_ok k m r a s Hk Ha). slook.
  rewrite i64_small by lia. set (left := avail k s - off).
  destruct (Z.ltb_spec left (Z.of_nat n)) as [Hlt|Hge].
  - destruct (view_peek k m a s off rest left Hv Ha ltac:(lia) ltac:(lia)) as (Hpk & Hlen & _). rewrite Hpk.
    set (y := take (Z.to_nat left) rest). assert (length y = Z.to_nat left) as Hy by (unfold y; rewrite length_take; lia).
    srun (eq_refl (Ok (y, m))). rewrite memcpy_ok by lia. set (dest1 := take pos dest ++ _). srun (eq_refl (Ok (dest1, m))).
    destruct (Hnext m r a s off rest Hk Hl HL Hst Hv Ha) as (p & m1 & Hrun & Hq & Hv' & Hready'). srun Hrun. fold left in Hv'.
    assert (take c rest = y ++ take (c - length y) (drop (length y) rest)) as Htake.
    { rewrite <- (take_drop (length y) (take c rest)), take_take, Nat.min_l by lia.
      rewrite skipn_firstn_comm. f_equal. unfold y at 2. by rewrite Hy. }
    destruct p as [b|].
    + assert (exists L', lists m1 !! l = Some L') as [L' HL'] by (destruct HL as [L HL]; destruct (qu_lists _ _ _ Hq l L HL) as (L' & ? & _); by exists L').
      destruct (IH (n - length y)%nat dest1 (pos + length y)%nat 0 m1 (set_pos (Some b) (_currentSliceOffset r) r) b (drop (Z.to_nat left) rest))
        as (p' & off' & m2 & Hrun2 & Hq2 & Hv2); try done.
      * apply (qu_store _ _ _ Hq).
      * destruct Hready as [Hf|Hf]; [lia|]. specialize (Hf s Ha). lia.
      * right. intros t Ht. by apply (Hready' b).
      * rewrite length_drop. unfold dest1. rewrite !length_app, length_take, length_drop. lia.
      * rewrite length_drop in *. set (c' := ((n - length y) `min` (length rest - Z.to_nat left))%nat) in *. assert (c = length y + c')%nat as Hcc by lia.
        replace (Z.of_nat n - left) with (Z.of_nat (n - length y)) by lia. exists p', off', m2. split_and!.
        -- rewrite Hrun2. do 5 f_equal; [|lia].
           assert (length (take c' (drop (Z.to_nat left) rest)) = c') as Hc' by (rewrite length_take, length_drop; lia).
           replace (pos + length y + c')%nat with (pos + length y + length (take c' (drop (Z.to_nat left) rest)))%nat by lia.
           unfold dest1. rewrite memcpy_twice by lia. rewrite Htake. rewrite length_app, Hc', Hy. do 3 f_equal; [do 2 f_equal; lia | lia].
        -- by eapply quiet_trans.
        -- rewrite drop_drop in Hv2. by replace c with (Z.to_nat left + c')%nat by lia.
    + apply view_none in Hv' as Hnil. assert (length rest = Z.to_nat left) as Hlr by (apply (f_equal length) in Hnil; rewrite length_drop in Hnil; cbn in Hnil; lia).
      assert (c = length y) as Hcy by lia. exists None, 0, m1. split_and!; [|done|].
      * unfold ret, dest1. rewrite Hcy. replace (take (length y) rest) with y by (by rewrite Hy).
        do 5 f_equal. lia.
      * replace c with (Z.to_nat left) by lia. done.
  - destruct (view_peek k m a s off rest (Z.of_nat n) Hv Ha ltac:(lia) ltac:(lia)) as (Hpk & Hlen & Hv1). rewrite Hpk. rewrite Nat2Z.id in *.
    assert (c = n) as Hcn by lia. srun (eq_refl (Ok (take n rest, m))).
    assert (length (take n rest) = n) as Hln by (rewrite length_take; lia). rewrite memcpy_ok, Hln by lia.
    srun (eq_refl (Ok (take pos dest ++ take n rest ++ drop (pos + n) dest, m))).
    exists (Some a), (off + Z.of_nat n), m. rewrite Hcn, Nat.sub_diag. split_and!; [|by apply quiet_refl|done].
    unfold ret. rewrite u64_small, <- Hc by lia. by destruct r.
Qed.

Lemma reads_none m r bs pos : reads k m r l bs pos -> _currentSlice r = None -> pos = length bs.
Proof.
  intros [_ _ _ _ Hp Hv _ _] Hc. rewrite Hc in Hv. apply view_none in Hv. apply (f_equal length) in Hv.
  rewrite length_drop in Hv. cbn in Hv. lia.
Qed.

(** [Read] copies as many bytes as there are, up to [n]. *)
Lemma Read_ok m r bs pos dest n :
  reads k m r l bs pos -> Z.of_nat n < 2 ^ 62 -> let c := (n `min` (length bs - pos))%nat in (c <= length dest)%nat ->
  exists r' m', Read dest (Z.of_nat n) r m = Ok ((take c (drop pos bs) ++ drop c dest, Z.of_nat c, r'), m') /\
    quiet k m m' /\ reads k m' r' l bs (pos + c).
Proof.
  intros Hr Hn c Hd. pose proof Hr as [Hk Hl (L & HL & _) Hg Hp Hv Hb Hst]. unfold Read.
  destruct (_currentSlice r) as [a|] eqn:Hc.
  2:{ pose proof (reads_none _ _ _ _ Hr Hc) as ->. exists r, m. assert (c = 0%nat) as -> by lia. rewrite Nat.add_0_r.
      split_and!; [done | by apply quiet_refl | done]. }
  destruct (Z.eqb_spec (Z.of_nat n) 0) as [Hz|Hz].
  { exists r, m. assert (c = 0%nat) as -> by lia. rewrite Nat.add_0_r. split_and!; [done | by apply quiet_refl | done]. }
  pose proof (view_some _ _ _ _ _ _ Hv) as (s & x & rest0 & Ha & Hs & Hoff & _ & _ & Hbd & _).
  pose proof (sliceFor_size _ _ _ Hs) as Hsz. rewrite length_app in Hbd. srun (GetSliceDataSize_ok k m r a s Hk Ha).
  rewrite u64_small by lia. destruct (Z.leb_spec (_currentSliceOffset r + Z.of_nat n) (avail k s)) as [Hle|Hgt].
  - destruct (reads_inSlice m r bs pos a s n Hr Hc Ha Hle) as (Hpk & Hlen & Hr'). slook. rewrite Hpk.
    assert (c = n) as Hcn by lia. assert (length (take n (drop pos bs)) = n) as Hln by (rewrite length_take, length_drop; lia).
    srun (eq_refl (Ok (take n (drop pos bs), m))). rewrite memcpy_ok, Hln by lia. cbn [take app plus].
    srun (eq_refl (Ok (take n (drop pos bs) ++ drop n dest, m))). rewrite Hcn. eexists _, _. split; [done|].
    split; [by apply quiet_refl | done].
  - destruct (readLoop_ok (S (brk m + Z.to_nat (Z.of_nat n))) n dest 0 (_currentSliceOffset r) m r a (drop pos bs)) as (p & off' & m' & Hrun & Hq & Hv');
      try done; try lia.
    + left. apply Hst in Ha. lia.
    + rewrite length_drop. lia.
    + rewrite length_drop in Hrun, Hv'. fold c in Hrun, Hv'. rewrite i64_small by lia. erewrite sbind_ok; [|exact Hrun]. cbv beta iota.
      cbn [take app plus] in *. rewrite u64_small by lia. replace (Z.of_nat n - Z.of_nat (n - c)) with (Z.of_nat c) by lia.
      cbn [_globalOffset _currentSlice set_pos]. rewrite Hg, u64_small by lia. eexists _, m'. split; [done|]. split; [done|].
      rewrite drop_drop in Hv'. replace (Z.of_nat pos + Z.of_nat c) with (Z.of_nat (pos + c)) by lia.
      exact (reads_move k m m' r l bs pos p off' c Hr Hq Hv' ltac:(lia)).
Qed.

(** [ReadMayCopy] gives a pointer to the same bytes. *)
Lemma ReadMayCopy_ok m r bs pos dest n :
  reads k m r l bs pos -> Z.of_nat n < 2 ^ 62 -> let c := (n `min` (length bs - pos))%nat in (c <= length dest)%nat ->
  exists ptr r' m', ReadMayCopy dest (Z.of_nat n) r m = Ok ((ptr, Z.of_nat c, r'), m') /\
    pointee ptr (Z.of_nat c) m' = Ok (take c (drop pos bs), m') /\ quiet k m m' /\ reads k m' r' l bs (pos + c).
Proof.
  intros Hr Hn c Hd. pose proof Hr as [Hk Hl (L & HL & _) Hg Hp Hv Hb Hst]. unfold ReadMayCopy.
  destruct (_currentSlice r) as [a|] eqn:Hc.
  2:{ pose proof (reads_none _ _ _ _ Hr Hc) as ->. exists (InBuffer dest), r, m. assert (c = 0%nat) as -> by lia. rewrite Nat.add_0_r.
      split_and!; [done | done | by apply quiet_refl | done]. }
  destruct (Z.eqb_spec (Z.of_nat n) 0) as [Hz|Hz].
  { exists (InBuffer dest), r, m. assert (c = 0%nat) as -> by lia. rewrite Nat.add_0_r. split_and!; [done | done | by apply quiet_refl | done]. }
  pose proof (view_some _ _ _ _ _ _ Hv) as (s & x & rest0 & Ha & Hs & Hoff & _ & _ & Hbd & _).
  pose proof (sliceFor_size _ _ _ Hs) as Hsz. rewrite length_app in Hbd. srun (GetSliceDataSize_ok k m r a s Hk Ha).
  rewrite u64_small by lia. destruct (Z.leb_spec (_currentSliceOffset r + Z.of_nat n) (avail k s)) as [Hle|Hgt].
  - destruct (reads_inSlice m r bs pos a s n Hr Hc Ha Hle) as (Hpk & Hlen & Hr'). assert (c = n) as -> by lia.
    eexists _, _, m. split; [done|]. split; [|split; [by apply quiet_refl | done]]. cbn [pointee]. slook. by rewrite Hpk.
  - destruct (Read_ok m r bs pos dest n Hr Hn Hd) as (r' & m' & Hrun & Hq & Hr'). fold c in Hrun, Hr'. srun Hrun.
    eexists _, r', m'. split; [done|]. split; [|done]. cbn [pointee]. unfold ret. rewrite Nat2Z.id, take_app_length'; [done|].
    rewrite length_take, length_drop. lia.
Qed.

(** ** Seeking *)

(** What [Seek] asks of a kind: the byte at a position can be fetched. *)
Definition prepare_ok : Prop :=
  forall m r a s off rest,
    _isBlockByteSliceList r = k -> _sliceList r = Some l -> is_Some (lists m !! l) -> storeOk m ->
    _currentSliceOffset r = off -> wview k m (Some a) off rest -> slices m !! a = Some s -> off < size s ->
    exists b off' m', PrepareSlice (Some a) r m = Ok ((Some b, set_pos (_currentSlice r) off' r), m') /\
      quiet k m m' /\ view k m' (Some b) off' rest /\ off' <= off.

(** The loop finds the slice with the byte [n] further on, or the end. *)
Lemma seekLoop_ok fuel n m r a D g rest total :
  _sliceList r = Some l -> (exists L, lists m !! l = Some L /\ _totalSize L = total) -> total < 2 ^ 62 ->
  _currentSlice r = Some a -> _globalOffset r = Z.of_nat g -> wview k m (Some a) (_currentSliceOffset r) rest ->
  Z.of_nat (g + length rest) = total -> Z.of_nat n < 2 ^ 63 -> seg (slices m) (Some a) D None -> (length D < fuel)%nat ->
  ((0 < n)%nat \/ forall s, slices m !! a = Some s -> _currentSliceOffset r < size s) ->
  if (n <? length rest)%nat then
    exists b t off, seekLoop fuel (Z.of_nat n) r m = Ok (inl (set_global (Z.of_nat (g + n)) (set_pos (Some b) off r)), m) /\
      wview k m (Some b) off (drop n rest) /\ slices m !! b = Some t /\ off < size t
  else seekLoop fuel (Z.of_nat n) r m = Ok (inr (set_global (u64 BYTE_SLICE_EOF) (set_pos None 0 r)), m).
Proof.
  revert n r a D g rest. induction fuel as [|fuel IH]; intros n r a D g rest Hl HL Htot Hc Hg Hv Hsum Hn HD Hf Hready; [lia|].
  destruct D as [|[a' s'] D]; [done|]. destruct HD as ([= <-] & Ha & HD).
  pose proof (view_some _ _ _ _ _ _ Hv) as (s & x & rest' & Ha' & Hs & Hoff & Hrest & Hv' & Hbd & Hready').
  assert (s' = s) as -> by congruence. pose proof (sliceFor_size _ _ _ Hs) as Hsz. rewrite length_app in Hbd.
  set (off := _currentSliceOffset r) in *. cbn [seekLoop].
  assert (length rest = length x - Z.to_nat off + length rest')%nat as Hlr by (rewrite Hrest, length_drop, length_app; lia).
  destruct (Z.ltb_spec 0 (Z.of_nat n)) as [Hpos|Hz].
  2:{ assert (n = 0%nat) as -> by lia. destruct Hready as [?|Hready]; [lia|]. specialize (Hready s Ha).
      rewrite (proj2 (Nat.ltb_lt _ _)) by lia. exists a, s, off. rewrite Nat.add_0_r, drop_0, <- Hg, <- Hc.
      split_and!; [by destruct r | by rewrite Hc | done | done]. }
  rewrite Hc. slook. fold off. rewrite i64_small by lia. set (remain := size s - off).
  destruct (Z.leb_spec remain (Z.of_nat n)) as [Hle|Hgt].
  - rewrite Hg, u64_small by lia. destruct (next s) as [b|] eqn:Hnext'.
    + pose proof (view_some _ _ _ _ _ _ Hv') as (t & _ & _ & Hb & _).
      pose proof (IH (n - Z.to_nat remain)%nat (set_global (Z.of_nat g + remain) (set_pos (Some b) 0 r)) b D (g + Z.to_nat remain)%nat rest'
        Hl HL Htot eq_refl ltac:(cbn; lia) (view_wview _ _ _ _ _ Hv') ltac:(lia) ltac:(lia) HD ltac:(cbn in Hf; lia)) as Hstep.
      replace (Z.of_nat n - remain) with (Z.of_nat (n - Z.to_nat remain)) by lia.
      replace (n <? length rest)%nat with (n - Z.to_nat remain <? length rest')%nat by lia.
      specialize (Hstep ltac:(right; intros t' Ht'; cbn; specialize (Hready' b t' eq_refl Ht'); destruct Hv' as (D' & xs & HD' & Hf' & _);
        destruct D' as [|[b' t''] D']; [done|]; destruct HD' as ([= <-] & ? & _); inversion Hf' as [|? ? ? ? Hsl]; subst;
        assert (t'' = t') as -> by congruence; pose proof (sliceFor_size _ _ _ Hsl); cbn in *; lia)).
      destruct (n - Z.to_nat remain <? length rest')%nat; [|done].
      destruct Hstep as (c & u & off' & Hrun & Hw & Hu & Hlt). exists c, u, off'. split_and!; [|  |done|done].
      * rewrite Hrun. do 3 f_equal. unfold set_global, set_pos. cbn. f_equal. lia.
      * replace (drop n rest) with (drop (n - Z.to_nat remain) rest'); [done|]. rewrite Hrest, drop_drop.
        replace (Z.to_nat off + n)%nat with (length x + (n - Z.to_nat remain))%nat by lia. by rewrite <- drop_drop, drop_app_length.
    + apply view_none in Hv' as ->. cbn [length] in *. rewrite (proj2 (Nat.ltb_ge _ _)) by lia.
      unfold GetSize, GetTotalSize. cbn [_sliceList set_global set_pos]. rewrite Hl. destruct HL as (L & HL & Ht).
      unfold sbind. cbn. rewrite (getList_ok _ _ _ HL). cbn. rewrite Ht. unfold ret. rewrite (proj2 (Z.eqb_eq _ _)) by lia. done.
  - rewrite (proj2 (Nat.ltb_lt _ _)) by lia. exists a, s, (off + Z.of_nat n). rewrite !u64_small by lia. split_and!; [|  |done|lia].
    + rewrite Hg. replace (Z.of_nat g + Z.of_nat n) with (Z.of_nat (g + n)) by lia. by destruct fuel.
    + destruct Hv as (D' & xs & HD' & Hf' & Ht' & Ho' & Hl' & -> & Hb'). exists D', xs. split_and!; try done; [lia | |].
      * destruct D' as [|[a' s'] D']; [constructor|]. destruct HD' as ([= <-] & ? & _). repeat constructor. cbn. simplify_eq. lia.
      * rewrite drop_drop. f_equal. lia.
Qed.

Lemma Seek_back m r bs pos o : reads k m r l bs pos -> o < Z.of_nat pos -> Seek o r m = Error FileIO.
Proof. intros [_ _ _ Hg _ _ _ _] Ho. unfold Seek. rewrite Hg. by rewrite (proj2 (Z.ltb_lt _ _)) by lia. Qed.

(** [Seek] moves forward to [o], or reports the end. *)
Lemma Seek_ok m r bs pos o :
  prepare_ok -> reads k m r l bs pos -> is_Some (_currentSlice r) -> (pos <= o)%nat -> Z.of_nat o < 2 ^ 62 ->
  if ((o <? length bs) || (o =? pos))%nat then
    exists r' m', Seek (Z.of_nat o) r m = Ok ((Z.of_nat o, r'), m') /\ quiet k m m' /\ reads k m' r' l bs o
  else exists r', Seek (Z.of_nat o) r m = Ok ((u64 BYTE_SLICE_EOF, r'), m) /\ _currentSlice r' = None /\ Tell r' = u64 BYTE_SLICE_EOF.
Proof.
  intros Hprep Hr [a Hc] Hle H62. pose proof Hr as [Hk Hl (L & HL & Ht & Hib) Hg Hp Hv Hb Hst]. rewrite Hc in Hv.
  unfold Seek. rewrite Hg, (proj2 (Z.ltb_ge _ _)) by lia. rewrite Hc, u64_small by lia.
  destruct (Z.eqb_spec (Z.of_nat o - Z.of_nat pos) 0) as [Heq|Hne].
  { assert (o = pos) as -> by lia. rewrite Nat.eqb_refl, orb_true_r. exists r, m. split_and!; [done | by apply quiet_refl | done]. }
  rewrite (proj2 (Nat.eqb_neq o pos)), orb_false_r by lia.
  pose proof (view_some _ _ _ _ _ _ Hv) as (s & x & rest0 & Ha & Hs & Hoff & _ & _ & Hbd & _).
  pose proof (sliceFor_size _ _ _ Hs) as Hsz. rewrite length_app in Hbd. srun (GetSliceDataSize_ok k m r a s Hk Ha).
  rewrite u64_small by lia. replace (Z.of_nat o - Z.of_nat pos) with (Z.of_nat (o - pos)) by lia.
  destruct (Z.ltb_spec (_currentSliceOffset r + Z.of_nat (o - pos)) (avail k s)) as [Hin|Hout].
  { destruct (view_peek k m a s _ _ (Z.of_nat (o - pos) + 1) Hv Ha ltac:(lia) ltac:(lia)) as (_ & Hlen & _). rewrite length_drop in Hlen.
    destruct (reads_inSlice m r bs pos a s (o - pos) Hr Hc Ha ltac:(lia)) as (_ & _ & Hr').
    rewrite (proj2 (Nat.ltb_lt _ _)) by lia. replace (pos + (o - pos))%nat with o in Hr' by lia.
    eexists _, m. split; [|split; [by apply quiet_refl | done]]. by rewrite (rd_offset _ _ _ _ _ _ Hr'). }
  pose proof Hv as (D & xs & HD & _). pose proof (seg_length _ _ _ Hst HD) as HDl.
  pose proof (seekLoop_ok (S (S (brk m))) (o - pos) m r a D pos (drop pos bs) (Z.of_nat (length bs)) Hl ltac:(by exists L) Hb Hc Hg
    (view_wview _ _ _ _ _ Hv) ltac:(rewrite length_drop; lia) ltac:(lia) HD ltac:(lia) ltac:(left; lia)) as Hloop.
  rewrite length_drop in Hloop. replace (o <? length bs)%nat with (o - pos <? length bs - pos)%nat by lia. rewrite i64_small by lia.
  destruct (o - pos <? length bs - pos)%nat eqn:Elt.
  2:{ eexists. erewrite sbind_ok; [|exact Hloop]. cbv beta iota. done. }
  destruct Hloop as (b & t & off & Hrun & Hw & Hbt & Hlt). erewrite sbind_ok; [|exact Hrun]. cbv beta iota.
  replace (pos + (o - pos))%nat with o in * by lia. rewrite drop_drop in Hw. replace (pos + (o - pos))%nat with o in Hw by lia.
  unfold GetSize, GetTotalSize. cbn [_sliceList _globalOffset _currentSlice _currentSliceOffset set_global set_pos]. rewrite Hl. unfold sbind at 1. unfold sbind at 1. cbn [lift deref res_bind].
  unfold sbind at 1. rewrite (getList_ok _ _ _ HL). cbn [res_bind]. unfold ret at 1. cbn [res_bind]. rewrite Ht, (proj2 (Z.eqb_neq _ _)) by lia.
  set (r1 := set_global (Z.of_nat o) (set_pos (Some b) off r)).
  destruct (Hprep m r1 b t off (drop o bs) Hk Hl ltac:(by eexists) Hst eq_refl Hw Hbt Hlt) as (c & off' & m' & Hrun' & Hq & Hv' & _).
  srun Hrun'. eexists _, m'. split; [done|]. split; [done|].
  pose proof (reads_move k m m' r l bs pos (Some c) off' (o - pos) Hr Hq) as Hmove. replace (pos + (o - pos))%nat with o in Hmove by lia.
  exact (Hmove Hv' ltac:(lia)).
Qed.

End Ops.

(** Plain lists need nothing to be fetched. *)
Lemma plain_prepare_ok l : prepare_ok false l.
Proof.
  intros m r a s off rest Hk _ _ Hst Ho Hw Ha Hlt. exists a, off, m. unfold PrepareSlice. rewrite Hk. cbn [negb]. subst off.
  split; [by destruct r|]. split; [by apply quiet_refl|]. split; [done | lia].
Qed.

(** [Open] of a plain list *)
Lemma Open_plain m r l L D bs :
  lists m !! l = Some L -> isBlock L = false -> seg (slices m) (_head L) D None -> D <> [] ->
  Forall (fun x => goodSlice (snd x)) D -> contents D = map Some bs -> Forall (fun x => 0 < size (snd x)) (tail D) ->
  _totalSize L = Z.of_nat (length bs) -> Z.of_nat (length bs) < 2 ^ 62 -> storeOk m ->
  exists r', Open l r m = Ok (r', m) /\ reads false m r' l bs 0 /\ is_Some (_currentSlice r').
Proof.
  intros HL Hib HD Hne Hg Hc Hfull Ht Hb Hst. destruct D as [|[a s] D]; [done|]. pose proof HD as (Hh & _ & _).
  exists (mkReader (Some a) 0 0 (Some l) (_totalSize L) false). split; [|split; [|by eexists]].
  - unfold Open. slook. rewrite Hib, Hh. done.
  - split; cbn; try done; [by exists L | lia|]. rewrite drop_0. rewrite <- Hh.
    assert (exists xs, Forall2 (fun x b => sliceFor false (snd x) b) ((a, s) :: D) xs /\ concat xs = bs) as (xs & Hxs & <-).
    { clear - Hg Hc. revert bs Hc. induction ((a, s) :: D) as [|[c t] C IH]; intros bs Hc.
      - exists []. destruct bs; [|done]. split; [constructor | done].
      - apply Forall_cons in Hg as [Hgt Hg]. rewrite contents_cons in Hc. symmetry in Hc. apply map_eq_app in Hc as (x & y & -> & Hx & Hy).
        destruct (IH Hg y ltac:(done)) as (xs & Hxs & <-). exists (x :: xs). split; [|done]. by constructor. }
    exists ((a, s) :: D), xs. split_and!; try done. repeat constructor. cbn. apply Forall_cons in Hg as [(d & _ & ?) _]. cbn in *. lia.
Qed.

End Views.
End ReaderCorrect.
