(* ===== verification/BlockSliceCorrect.v ===== *)
(** * Block lists stand for a range of the file

    Blocks are fetched while the list is read, and slices are split; every position keeps the bytes that follow it. *)

From stdpp Require Import base list numbers option tactics gmap.
From Stdlib Require Import ZArith Lia ZifyNat ZifyBool.
From S2P Require Import Prelude Bits ByteSliceList SliceChain BlockByteSliceList ByteSliceReader ByteSliceWriterCorrect ByteSliceReaderCorrect.

#[local] Open Scope Z_scope.
#[local] Open Scope store_scope.

Module BlockCorrect.
Import Reader ReaderCorrect.

(** What a retriever promises: a block with the byte asked for and the bytes of the file, the same block for every
    byte of it *)
Class RetrieverLaws (R : BlockDataRetriever) (file : list Z) : Prop := {
  rl_block : forall x, 0 <= x < Z.of_nat (length file) ->
    exists bo bl d, RetrieveBlockData x = Ok (Some (bo, bl, d)) /\ 0 <= bo <= x /\ x < bo + bl /\
      bo + bl <= Z.of_nat (length file) /\ take (Z.to_nat bl) d = take (Z.to_nat bl) (drop (Z.to_nat bo) file);
  rl_same : forall x y bo bl d, 0 <= x < Z.of_nat (length file) -> RetrieveBlockData x = Ok (Some (bo, bl, d)) ->
    bo <= y < bo + bl -> RetrieveBlockData y = Ok (Some (bo, bl, d));
  rl_length : Z.of_nat (length file) < 2 ^ 62
}.

(** [NoCompressBlockDataRetriever] has the laws when the block cache returns the bytes of the file. *)
Lemma NoCompressRetriever_laws (file : list Z) (blockSize : Z) (GetBlock : Z -> res (list Z)) :
  0 < blockSize -> Z.of_nat (length file) < 2 ^ 62 ->
  (forall bo, 0 <= bo < Z.of_nat (length file) -> bo mod blockSize = 0 ->
     exists d, GetBlock bo = Ok d /\
       let n := Z.to_nat (Z.min (Z.of_nat (length file) - bo) blockSize) in
       take n d = take n (drop (Z.to_nat bo) file)) ->
  RetrieverLaws (NoCompressBlockDataRetriever blockSize (Z.of_nat (length file)) GetBlock) file.
Proof.
  intros Hbs Hlen Hget. split; [| |done].
  - intros x Hx. pose proof (Z.mod_pos_bound x blockSize Hbs) as Hm. pose proof (Z.div_mod x blockSize ltac:(lia)) as Hdm.
    assert (0 <= x / blockSize) by (apply Z.div_pos; lia). set (bo := x - x mod blockSize).
    assert (bo = blockSize * (x / blockSize)) as Hbo by (unfold bo; lia).
    destruct (Hget bo ltac:(nia)) as (d & Hd & Htake).
    { rewrite Hbo, Z.mul_comm. apply Z_mod_mult. }
    exists bo, (Z.min (Z.of_nat (length file) - bo) blockSize), d. cbn. unfold NoCompress_RetrieveBlockData, GetBlockMeta.
    rewrite (proj2 (Z.leb_gt _ _)) by lia. fold bo. rewrite Hd. split_and!; try done; try nia.
  - intros x y bo bl d Hx. cbn. unfold NoCompress_RetrieveBlockData, GetBlockMeta. rewrite (proj2 (Z.leb_gt _ _)) by lia.
    pose proof (Z.mod_pos_bound x blockSize Hbs) as Hm. pose proof (Z.div_mod x blockSize ltac:(lia)) as Hdm.
    assert (0 <= x / blockSize) by (apply Z.div_pos; lia). set (b := x - x mod blockSize).
    intros Hr Hy. assert (bo = b /\ bl = Z.min (Z.of_nat (length file) - b) blockSize) as [-> ->].
    { destruct (GetBlock b); cbn in Hr; split; congruence. }
    rewrite (proj2 (Z.leb_gt _ _)) by lia.
    assert (y - y mod blockSize = b) as ->; [|exact Hr].
    assert (y / blockSize = x / blockSize) as Hdiv by (symmetry; apply (Z.div_unique_pos y blockSize (x / blockSize) (y - b)); lia).
    pose proof (Z.div_mod y blockSize ltac:(lia)). unfold b. rewrite Hdiv in *. lia.
Qed.

Section Blocks.
Context (R : BlockDataRetriever) (file : list Z) (Hlaws : RetrieverLaws R file).

Abbreviation blockSlice := (blockSlice (H := R) file).
Abbreviation view := (view (H := R) file).
Abbreviation quiet := (quiet (H := R) file).

Lemma blockSlice_unique s bs bs' : blockSlice s bs -> blockSlice s bs' -> bs = bs'.
Proof.
  intros [Hs _ Hf _ _ _] [Hs' _ Hf' _ _ _]. rewrite Hf. replace (length bs) with (length bs') by lia. by symmetry.
Qed.

Lemma blockSlice_end s bs : blockSlice s bs -> offset s + size s <= Z.of_nat (length file) \/ size s = 0.
Proof.
  intros [Hs Ho Hf _ _ _]. apply (f_equal length) in Hf. rewrite length_take, length_drop in Hf. lia.
Qed.

(** The slice [(a, s)] gives way to the slices [(a, s1) :: T], which stand for the same bytes. *)
Lemma views_replace m m' a s bs s1 T y1 ys :
  blockSlice s bs -> slices m !! a = Some s ->
  (forall p D1 D2, seg (slices m) p (D1 ++ (a, s) :: D2) None -> seg (slices m') p (D1 ++ (a, s1) :: T ++ D2) None) ->
  (forall p D, seg (slices m) p D None -> a ∉ D.*1 -> seg (slices m') p D None) ->
  Forall2 (fun x b => blockSlice (snd x) b) ((a, s1) :: T) (y1 :: ys) -> y1 ++ concat ys = bs ->
  dataSize s <= dataSize s1 -> Forall (fun x => 0 < dataSize (snd x)) T ->
  preserves (H := R) file true m m'.
Proof.
  intros Hbs Ha Hin Hout HT Hcat Hds Hpos q off rest (D & xs & HD & Hf & Ht & Ho & Hl & Hr & Hb).
  destruct (decide (a ∈ D.*1)) as [Hmem|Hmem].
  2:{ exists D, xs. split_and!; try done. by apply Hout. }
  apply list_elem_of_fmap_1 in Hmem as ([a' s'] & -> & Hmem). cbn in *. apply list_elem_of_split in Hmem as (D1 & D2 & ->).
  assert (s' = s) as ->.
  { apply (seg_lookup _ _ _ _ a' s') in HD; [congruence|]. apply elem_of_app. right. by constructor. }
  apply Forall2_app_inv_l in Hf as (xs1 & xs2 & Hf1 & Hf2 & ->). inversion Hf2 as [|? z ? xs3 Hz Hf3]; subst. cbn in Hz.
  assert (z = y1 ++ concat ys) as -> by (by eapply blockSlice_unique).
  exists (D1 ++ (a', s1) :: T ++ D2), (xs1 ++ (y1 :: ys) ++ xs3).
  assert (concat (xs1 ++ (y1 :: ys) ++ xs3) = concat (xs1 ++ (y1 ++ concat ys) :: xs3)) as Hcc.
  { rewrite !concat_app. cbn. by rewrite !app_assoc. }
  split_and!; [by apply Hin | | | done | | by rewrite Hcc | by rewrite Hcc].
  - apply Forall2_app; [done|]. rewrite app_comm_cons. by apply Forall2_app.
  - destruct D1 as [|x D1]; cbn in *.
    + by apply Forall_app.
    + rewrite Forall_app, Forall_cons in *. rewrite Forall_app. destruct Ht as (? & ? & ?). cbn in *. split_and!; try done. lia.
  - destruct D1 as [|x D1]; cbn in *; [|done]. apply Forall_cons in Hl as [Hl _]. repeat constructor. cbn in *. lia.
Qed.

(** ** [GetSlice] *)

(** A part of the file that a block covers, as the first bytes of a slice *)
Lemma block_data bo bl d o n bs :
  take (Z.to_nat bl) d = take (Z.to_nat bl) (drop (Z.to_nat bo) file) -> 0 <= bo <= o -> 0 <= n -> o + n <= bo + bl ->
  bs = take (length bs) (drop (Z.to_nat o) file) -> n <= Z.of_nat (length bs) ->
  take (Z.to_nat n) (drop (Z.to_nat (o - bo)) (map Some d)) = map Some (take (Z.to_nat n) bs).
Proof.
  intros Hd Hbo Hn Hend Hbs Hlen. rewrite skipn_map, firstn_map. f_equal.
  transitivity (take (Z.to_nat n) (drop (Z.to_nat (o - bo)) (take (Z.to_nat bl) d))).
  { rewrite skipn_firstn_comm, take_take, Nat.min_l by lia. done. }
  rewrite Hd, skipn_firstn_comm, take_take, Nat.min_l, drop_drop by lia. rewrite Hbs, take_take, Nat.min_l by lia.
  do 2 f_equal. lia.
Qed.

(** The end of a block is a boundary. *)
Lemma boundary_end x bo bl d :
  0 <= x < Z.of_nat (length file) -> RetrieveBlockData x = Ok (Some (bo, bl, d)) -> bo <= x < bo + bl ->
  bo + bl < Z.of_nat (length file) -> boundary (H := R) (bo + bl).
Proof.
  intros Hx Hr Hin Hlt bo' bl' d' Hr'. destruct (rl_block (bo + bl) ltac:(lia)) as (b & n & e & Hb & Hb1 & Hb2 & Hb3 & _).
  rewrite Hr' in Hb. simplify_eq. destruct (Z.eq_dec b (bo + bl)); [done|].
  pose proof (rl_same (bo + bl) (bo + bl - 1) b n e ltac:(lia) Hr' ltac:(lia)) as H1.
  pose proof (rl_same x (bo + bl - 1) bo bl d Hx Hr ltac:(lia)) as H2. rewrite H1 in H2. simplify_eq. lia.
Qed.

(** A block does not start inside the part of a slice that is in memory. *)
Lemma block_after s bs x bo bl d :
  blockSlice s bs -> offset s + dataSize s <= x < offset s + size s -> RetrieveBlockData x = Ok (Some (bo, bl, d)) ->
  0 <= x < Z.of_nat (length file) -> bo <= x < bo + bl -> offset s < bo -> offset s + dataSize s <= bo.
Proof.
  intros [Hs Ho Hf Hds _ Hbd] Hx Hr Hxl Hin Hlt. destruct Hbd as [?|[?|Hbd]]; [lia..|].
  destruct (Z.le_gt_cases (offset s + dataSize s) bo); [done|].
  pose proof (rl_same x (offset s + dataSize s) bo bl d Hxl Hr ltac:(lia)) as Hr'. apply Hbd in Hr'. lia.
Qed.

Lemma drop_file_split (bs : list Z) o n :
  bs = take (length bs) (drop o file) -> (n <= length bs)%nat ->
  take n bs = take (length (take n bs)) (drop o file) /\ drop n bs = take (length (drop n bs)) (drop (o + n) file).
Proof.
  intros Hbs Hn. split.
  - rewrite length_take, Nat.min_l by lia. rewrite Hbs at 1. rewrite take_take, Nat.min_l by lia. done.
  - rewrite length_drop. rewrite Hbs at 1. by rewrite skipn_firstn_comm, drop_drop.
Qed.

(** A call of [GetSlice] for the position [x] of the slice [(a, s)], with the bytes [rest] behind the slice *)
Section Fetch.
Context (m : Store) (l a : addr) (x : Z) (s : ByteSlice) (bs rest : list Z) (bo bl : Z) (d : list Z).
Hypothesis HL : is_Some (lists m !! l).
Hypothesis Hst : storeOk m.
Hypothesis Ha : slices m !! a = Some s.
Hypothesis Hbs : blockSlice s bs.
Hypothesis Hx : offset s <= x < offset s + size s.
Hypothesis Hv : view true m (next s) 0 rest.
Hypothesis Hb : Z.of_nat (length (bs ++ rest)) < 2 ^ 62.
Hypothesis Hready : forall b t, next s = Some b -> slices m !! b = Some t -> 0 < dataSize t.

(** What the call finds: the slice [(b, t)] with the byte, which starts behind the bytes [y] of [s] *)
Definition found (b : addr) (t : ByteSlice) (y z : list Z) (m' : Store) : Prop :=
  quiet true m m' /\ slices m' !! b = Some t /\ bs = y ++ z /\ offset t = offset s + Z.of_nat (length y) /\
  offset t <= x < offset t + dataSize t /\ dataSize t <= Z.of_nat (length z) /\
  (offset s + dataSize s <= x -> boundary (H := R) x -> offset t = x) /\ view true m' (Some b) 0 (z ++ rest).

(** The slices behind [a] are not touched by a change of [a]. *)
Lemma behind : exists D xs, seg (slices m) (next s) D None /\ (a ∉ D.*1) /\ (brk m ∉ D.*1) /\
  Forall2 (fun x b => blockSlice (snd x) b) D xs /\ Forall (fun x => 0 < dataSize (snd x)) D /\ rest = concat xs.
Proof.
  pose proof Hv as (D & xs & HD & Hfx & Ht & _ & _ & Hrest & _). rewrite Z2Nat.inj_0, drop_0 in Hrest. exists D, xs.
  split; [done|]. split; [|split; [|split; [done|]]].
  - pose proof (seg_nodup (slices m) (Some a) ((a, s) :: D)) as Hnd. cbn in Hnd. specialize (Hnd ltac:(done)). by apply NoDup_cons in Hnd as [? _].
  - intros Hin. apply list_elem_of_fmap_1 in Hin as ([b' t] & Heq & Hin). apply (seg_lookup _ _ _ _ _ _ HD) in Hin.
    pose proof (storeOk_fresh m Hst). cbn in *. congruence.
  - split; [|done]. destruct D as [|[b t] D]; [constructor|]. constructor; [|done]. destruct HD as (Hn & Hbt & _). cbn. by apply (Hready b).
Qed.

(** Slices in front of the tail, for the view of the result *)
Lemma view_front m' b t z D xs :
  slices m' !! b = Some t -> next t = next s -> seg (slices m') (next s) D None -> blockSlice t z ->
  Forall2 (fun x b => blockSlice (snd x) b) D xs -> Forall (fun x => 0 < dataSize (snd x)) D -> rest = concat xs ->
  (length z <= length bs)%nat -> view true m' (Some b) 0 (z ++ rest).
Proof.
  intros Hbt Hn HD Ht Hf Hpos Hrest Hl. exists ((b, t) :: D), (z :: xs). rewrite Z2Nat.inj_0, drop_0, Hrest in *. cbn [concat] in *.
  split_and!; try done; [cbn; by rewrite Hn | by constructor | pose proof (bl_dataSize _ _ _ Ht); repeat constructor; cbn; lia|].
  rewrite length_app in *. lia.
Qed.

(** The byte is in memory. *)
Lemma GetSlice_here :
  x < offset s + dataSize s -> exists b t y z m', GetSlice l x (Some a) m = Ok (Some b, m') /\ found b t y z m'.
Proof.
  intros Hgt. destruct behind as (D & xs & HD & _ & _ & Hfx & Hpos & Hrest). pose proof Hbs as [Hs Ho Hf Hds Hdata Hbd].
  exists a, s, [], bs, m. unfold GetSlice. slook. rewrite (proj2 (Z.leb_gt _ _)) by lia. split; [done|].
  split; [by apply quiet_refl|]. cbn. split_and!; try done; try lia. by apply (view_front m a s bs D xs).
Qed.

Hypothesis Hle : offset s + dataSize s <= x.
Hypothesis Hr : RetrieveBlockData x = Ok (Some (bo, bl, d)).
Hypothesis Hbo : 0 <= bo <= x.
Hypothesis Hxb : x < bo + bl.
Hypothesis Hbe : bo + bl <= Z.of_nat (length file).
Hypothesis Htake : take (Z.to_nat bl) d = take (Z.to_nat bl) (drop (Z.to_nat bo) file).

(** The block starts in front of the slice, which is loaded. *)
Lemma GetSlice_load :
  bo <= offset s -> exists b t y z m', GetSlice l x (Some a) m = Ok (Some b, m') /\ found b t y z m'.
Proof.
  intros Hin. destruct behind as (D & xs & HD & Hna & _ & Hfx & Hpos & Hrest). pose proof Hbs as [Hs Ho Hf Hds Hdata Hbd].
  pose proof (blockSlice_end s bs Hbs) as Hend. pose proof rl_length as Hfl. pose proof Hb as Hb'. rewrite length_app in Hb'.
  set (n := Z.min (bl - (offset s - bo)) (size s)).
  set (s1 := mkSlice (next s) (Some (drop (Z.to_nat (offset s - bo)) (map Some d))) (size s) n (offset s)).
  assert (blockSlice s1 bs) as Hs1.
  { split; cbn; [done | done | done | lia | |].
    - intros _. eexists. split; [done|]. apply (block_data bo bl); try done; lia.
    - destruct (Z.eq_dec n (size s)); [auto|]. right. right. replace (offset s + n) with (bo + bl) by lia.
      apply (boundary_end x bo bl d); try done; lia. }
  set (m' := mkStore (<[a := s1]> (slices m)) (lists m) (brk m)).
  exists a, s1, [], bs, m'. split.
  { unfold GetSlice. slook. rewrite (proj2 (Z.leb_le _ _)) by lia. rewrite Hr. srun (eq_refl (Ok (Some (bo, bl, d), m))).
    srun (eq_refl (Ok ((bo, bl, d), m))). rewrite (proj2 (Z.leb_le _ _)) by lia. cbv zeta. rewrite u64_small by lia.
    erewrite sbind_ok; [|reflexivity]. cbv beta iota.
    erewrite sbind_ok; [|apply getSlice_ok; cbn; apply lookup_insert_eq]. cbv beta iota.
    erewrite sbind_ok; [|reflexivity]. cbv beta iota. unfold ret. cbn. rewrite insert_insert_eq. done. }
  split_and!; cbn [app length s1 offset dataSize]; try done; try lia.
  - split; [|by intros l' M HM; exists M|by apply storeOk_insert; [|eexists]].
    apply (views_replace m m' a s bs s1 [] bs []); try done.
    + intros p D1 D2 HD12. cbn. by apply (seg_update _ _ _ _ s).
    + intros p D' HD' Hn. by apply seg_insert_other.
    + constructor; [exact Hs1 | constructor].
    + by rewrite app_nil_r.
    + cbn. lia.
  - cbn. by rewrite lookup_insert_eq.
  - intros _ Hbx. apply Hbx in Hr. lia.
  - apply (view_front m' a s1 bs D xs); try done; [cbn; by rewrite lookup_insert_eq | by apply seg_insert_other].
Qed.

(** The two parts of a slice that is split in front of the block *)
Definition splitAt : nat := Z.to_nat (bo - offset s).
Definition frontPart : ByteSlice := mkSlice (Some (brk m)) (data s) (bo - offset s) (dataSize s) (offset s).
Definition backPart : ByteSlice :=
  let len := Z.of_nat (length (drop splitAt bs)) in mkSlice (next s) (Some (map Some d)) len (Z.min bl len) bo.

Lemma parts_ok :
  offset s < bo -> blockSlice frontPart (take splitAt bs) /\ blockSlice backPart (drop splitAt bs) /\
    (splitAt < length bs)%nat /\ dataSize s <= bo - offset s.
Proof.
  intros Hsplit. pose proof Hbs as [Hs Ho Hf Hds Hdata Hbd]. pose proof (blockSlice_end s bs Hbs) as Hend.
  pose proof (block_after s bs x bo bl d Hbs ltac:(lia) Hr ltac:(lia) ltac:(lia) Hsplit) as Hafter.
  assert (Z.of_nat splitAt = bo - offset s) as Hk by (unfold splitAt; lia).
  destruct (drop_file_split bs (Z.to_nat (offset s)) splitAt Hf ltac:(lia)) as [Hy Hz].
  replace (Z.to_nat (offset s) + splitAt)%nat with (Z.to_nat bo) in Hz by lia.
  assert (length (take splitAt bs) = splitAt) as Hly by (rewrite length_take; lia).
  assert (length (drop splitAt bs) = length bs - splitAt)%nat as Hlz by (by rewrite length_drop).
  split_and!; [| |lia|lia].
  - split; cbn; [lia | done | done | lia | | destruct Hbd as [?|[?|?]]; [auto | lia | auto]].
    intros Hp. destruct (Hdata Hp) as (d0 & Hd0 & Ht0). exists d0. split; [done|]. rewrite Ht0. by rewrite take_take, Nat.min_l by lia.
  - split; cbn; [done | lia | done | lia | |].
    + intros _. eexists. split; [done|]. rewrite <- (drop_0 (map Some d)). change 0%nat with (Z.to_nat 0).
      replace 0 with (bo - bo) at 1 by lia. apply (block_data bo bl); try done; lia.
    + destruct (Z.le_gt_cases (Z.of_nat (length (drop splitAt bs))) bl); [right; left; lia|]. right. right. rewrite Z.min_l by lia.
      apply (boundary_end x bo bl d); try done; lia.
Qed.

(** The list after the split *)
Definition splitList (L : ByteSliceList) : ByteSliceList :=
  if decide (_tail L = Some a) then mkList (_head L) (Some (brk m)) (_totalSize L) (isBlock L) else L.
Definition splitStore (L : ByteSliceList) : Store :=
  mkStore (<[a := frontPart]> (<[brk m := backPart]> (slices m))) (<[l := splitList L]> (lists m)) (S (brk m)).

Lemma GetSlice_split_run L :
  lists m !! l = Some L -> offset s < bo -> GetSlice l x (Some a) m = Ok (Some (brk m), splitStore L).
Proof.
  intros HLl Hsplit. destruct (parts_ok Hsplit) as (_ & _ & Hk & _). pose proof Hbs as [Hs Ho Hf Hds Hdata Hbd].
  pose proof (storeOk_fresh m Hst) as Hfr. assert (a <> brk m) as Hab by congruence. pose proof Hb as Hb'. rewrite length_app in Hb'.
  assert (Z.of_nat (length (drop splitAt bs)) = offset s + size s - bo) as Hlz by (rewrite length_drop; unfold splitAt in *; lia).
  unfold GetSlice. slook. rewrite (proj2 (Z.leb_le _ _)) by lia. rewrite Hr. srun (eq_refl (Ok (Some (bo, bl, d), m))).
  srun (eq_refl (Ok ((bo, bl, d), m))). rewrite (proj2 (Z.leb_gt _ _)) by lia. cbv zeta. rewrite u64_small by lia.
  replace (size s - (offset s + size s - bo)) with (bo - offset s) by lia. rewrite u64_small by lia.
  rewrite (sbind_ok _ _ _ (brk m) (mkStore (<[a := frontPart]> (<[brk m := mkSlice (next s) (Some (map Some d)) (offset s + size s - bo) bl bo]> (slices m)))
    (<[l := splitList L]> (lists m)) (S (brk m)))).
  - cbv beta iota. erewrite sbind_ok; [|apply getSlice_ok; cbn; rewrite lookup_insert_ne by done; apply lookup_insert_eq]. cbv beta iota.
    erewrite sbind_ok; [|reflexivity]. cbv beta iota. unfold ret, splitStore, backPart. rewrite Hlz. cbn.
    rewrite insert_insert_ne by done. rewrite insert_insert_eq. done.
  - erewrite sbind_ok; [|reflexivity]. cbv beta iota. erewrite sbind_ok; [|reflexivity]. cbv beta iota.
    erewrite sbind_ok; [|reflexivity]. cbv beta iota. erewrite sbind_ok; [|apply getList_ok; cbn; exact HLl]. cbv beta iota.
    cbn. rewrite insert_insert_eq. unfold splitList. case_decide; [done|]. rewrite (insert_id (lists m)) by done. done.
Qed.

Lemma split_quiet L : lists m !! l = Some L -> offset s < bo -> quiet true m (splitStore L).
Proof.
  intros HLl Hsplit. destruct (parts_ok Hsplit) as (Hs1 & Hs2 & Hk & Hds). pose proof Hbs as [Hs Ho _ _ _ _].
  pose proof (storeOk_fresh m Hst) as Hfr. assert (a <> brk m) as Hab by congruence. split.
  - apply (views_replace m _ a s bs frontPart [(brk m, backPart)] (take splitAt bs) [drop splitAt bs]); try done.
    + intros p D1 D2 HD12. cbn. by apply (seg_link _ _ _ _ s).
    + intros p D' HD' Hn. apply seg_insert_other; [apply seg_insert_other; [done|]|done].
      intros Hin. apply list_elem_of_fmap_1 in Hin as ([b' t] & Heq & Hin). apply (seg_lookup _ _ _ _ _ _ HD') in Hin. cbn in *. congruence.
    + constructor; [exact Hs1|]. constructor; [exact Hs2 | constructor].
    + cbn. by rewrite app_nil_r, take_drop.
    + repeat constructor. unfold backPart. cbn. rewrite length_drop. lia.
  - intros l' M HM. destruct (decide (l' = l)) as [->|Hne].
    + exists (splitList L). cbn. rewrite lookup_insert_eq. assert (M = L) as -> by congruence. unfold splitList. by case_decide.
    + exists M. cbn. by rewrite lookup_insert_ne.
  - intros c t Hc. cbn in *. apply lookup_insert_Some in Hc as [[<- _]|[_ Hc]]; [apply Hst in Ha; lia|].
    apply lookup_insert_Some in Hc as [[<- _]|[_ Hc]]; [lia|]. apply Hst in Hc. lia.
Qed.

(** The block starts inside the slice, which is split. *)
Lemma GetSlice_split :
  offset s < bo -> exists b t y z m', GetSlice l x (Some a) m = Ok (Some b, m') /\ found b t y z m'.
Proof.
  intros Hsplit. destruct HL as [L HLl]. destruct (parts_ok Hsplit) as (_ & Hs2 & Hk & Hds). pose proof Hbs as [Hs Ho _ _ _ _].
  destruct behind as (D & xs & HD & Hna & Hnb & Hfx & Hpos & Hrest).
  pose proof (storeOk_fresh m Hst) as Hfr. assert (a <> brk m) as Hab by congruence.
  exists (brk m), backPart, (take splitAt bs), (drop splitAt bs), (splitStore L). split; [by apply GetSlice_split_run|].
  assert (Z.of_nat (length (take splitAt bs)) = bo - offset s) by (rewrite length_take; unfold splitAt in *; lia).
  assert (Z.of_nat (length (drop splitAt bs)) = offset s + size s - bo) by (rewrite length_drop; unfold splitAt in *; lia).
  split_and!; try (cbn; lia); [by apply split_quiet | | by rewrite take_drop | |].
  - cbn. by rewrite lookup_insert_ne, lookup_insert_eq.
  - intros _ Hbx. cbn. by apply Hbx in Hr.
  - apply (view_front _ _ backPart _ D xs); try done; [cbn; by rewrite lookup_insert_ne, lookup_insert_eq | | rewrite length_drop; lia].
    apply seg_insert_other; [by apply seg_insert_other | done].
Qed.

End Fetch.

Lemma GetSlice_ok m l x a s bs rest :
  is_Some (lists m !! l) -> storeOk m -> slices m !! a = Some s -> blockSlice s bs -> offset s <= x < offset s + size s ->
  view true m (next s) 0 rest -> Z.of_nat (length (bs ++ rest)) < 2 ^ 62 ->
  (forall b t, next s = Some b -> slices m !! b = Some t -> 0 < dataSize t) ->
  exists b t y z m', GetSlice l x (Some a) m = Ok (Some b, m') /\ found m x s bs rest b t y z m'.
Proof.
  intros HL Hst Ha Hbs Hx Hv Hb Hready. destruct (Z.le_gt_cases (offset s + dataSize s) x) as [Hle|Hgt].
  2:{ by apply (GetSlice_here m l a x s bs rest). }
  pose proof (blockSlice_end s bs Hbs). pose proof Hbs as [? ? _ ? _ _].
  assert (0 <= x < Z.of_nat (length file)) as Hxl by lia.
  destruct (rl_block x Hxl) as (bo & bl & d & Hr & Hbo & Hxb & Hbe & Htake).
  destruct (Z.le_gt_cases bo (offset s)).
  - by apply (GetSlice_load m l a x s bs rest bo bl d).
  - by apply (GetSlice_split m l a x s bs rest bo bl d).
Qed.

(** A position inside the slice [t] *)
Lemma view_inside m b t z rest off :
  view true m (Some b) 0 (z ++ rest) -> slices m !! b = Some t -> 0 <= off <= dataSize t -> (Z.to_nat off <= length z)%nat ->
  view true m (Some b) off (drop (Z.to_nat off) z ++ rest).
Proof.
  intros Hv Hb Ho Hz. destruct (view_peek file true m b t 0 _ off Hv Hb ltac:(lia) ltac:(cbn; lia)) as (_ & _ & Hv').
  rewrite Z.add_0_l, drop_app_le in Hv' by done. done.
Qed.

(** What the reader asks of a list *)
Lemma block_next_ok l : next_ok (H := R) file true l.
Proof.
  intros m r a s off rest Hk Hl HL Hst Hv Ha. pose proof (view_some _ _ _ _ _ _ _ Hv) as (s' & bs & rest' & Ha' & Hbs & Hoff & Hrest & Hn & Hb & Hready).
  assert (s' = s) as -> by congruence. cbn [avail sliceFor] in *. pose proof Hbs as [Hs Ho Hf Hds Hdata Hbd].
  unfold NextSlice. rewrite Hk, Hl. cbn [negb]. srun (eq_refl (Ok (l, m))). unfold GetNextSlice. slook.
  pose proof (blockSlice_end s bs Hbs) as Hend. pose proof rl_length as Hfl.
  rewrite Hrest, drop_drop. destruct (Z.eqb_spec (dataSize s) (size s)) as [Heq|Hne].
  - exists (next s), m. split; [done|]. split; [by apply quiet_refl|]. split; [|exact Hready].
    replace (Z.to_nat off + Z.to_nat (dataSize s - off))%nat with (length bs) by lia. by rewrite drop_app_length.
  - rewrite u64_small by lia.
    destruct (GetSlice_ok m l (offset s + dataSize s) a s bs rest' HL Hst Ha Hbs ltac:(lia) Hn Hb Hready)
      as (b & t & y & z & m' & Hrun & Hq & Hbt & Hyz & Hot & Hxt & Hdt & Hat & Hv').
    exists (Some b), m'. split; [done|]. split; [done|]. split.
    + replace (Z.to_nat off + Z.to_nat (dataSize s - off))%nat with (Z.to_nat (dataSize s)) by lia.
      assert (Z.of_nat (length y) = dataSize s) as Hly by (destruct Hbd as [?|[?|Hbd]]; [lia | lia | specialize (Hat ltac:(lia) Hbd); lia]).
      rewrite Hyz, <- app_assoc. replace (Z.to_nat (dataSize s)) with (length y) by lia. by rewrite drop_app_length.
    + intros b' t' [= <-] Ht'. assert (t' = t) as -> by congruence. lia.
Qed.

Lemma block_prepare_ok l : prepare_ok (H := R) file true l.
Proof.
  intros m r a s off rest Hk Hl HL Hst Hoff' Hw Ha Hlt. pose proof (view_some _ _ _ _ _ _ _ Hw) as (s' & bs & rest' & Ha' & Hbs & Hoff & Hrest & Hn & Hb & Hready).
  assert (s' = s) as -> by congruence. cbn [sliceFor avail] in *. pose proof Hbs as [Hs Ho Hf Hds Hdata Hbd].
  pose proof (blockSlice_end s bs Hbs) as Hend. pose proof rl_length as Hfl.
  unfold PrepareSlice. rewrite Hk, Hl. cbn [negb]. srun (eq_refl (Ok (l, m))). slook. rewrite Hoff', u64_small by lia.
  destruct (GetSlice_ok m l (offset s + off) a s bs rest' HL Hst Ha Hbs ltac:(lia) Hn Hb Hready)
    as (b & t & y & z & m' & Hrun & Hq & Hbt & Hyz & Hot & Hxt & Hdt & _ & Hv').
  srun Hrun. slook. exists b, (offset s + off - offset t), m'. rewrite u64_small by lia. split; [done|]. split; [done|]. split; [|lia].
  replace rest with (drop (Z.to_nat (offset s + off - offset t)) z ++ rest').
  - apply (view_inside m' b t); try done; lia.
  - rewrite Hrest, Hyz, <- app_assoc. replace (Z.to_nat off) with (length y + Z.to_nat (offset s + off - offset t))%nat by lia.
    rewrite <- drop_drop, drop_app_length. rewrite drop_app_le by lia. done.
Qed.

(** ** Opening a block list *)

(** A list with one block, as the file nodes make it *)
Lemma Open_block m r fileOffset n :
  storeOk m -> 0 <= fileOffset -> 0 < n -> fileOffset + n <= Z.of_nat (length file) ->
  exists l m1 m2 r' m3, new_BlockByteSliceList m = Ok (l, m1) /\ AddBlock l fileOffset n m1 = Ok (tt, m2) /\
    Open l r m2 = Ok (r', m3) /\
    reads (H := R) file true m3 r' l (take (Z.to_nat n) (drop (Z.to_nat fileOffset) file)) 0 /\ is_Some (_currentSlice r').
Proof.
  intros Hst Ho Hn Hend. pose proof rl_length as Hfl. set (bs := take (Z.to_nat n) (drop (Z.to_nat fileOffset) file)).
  assert (Z.of_nat (length bs) = n) as Hlb by (unfold bs; rewrite length_take, length_drop; lia).
  set (l := brk m). set (a := S l). set (s := mkSlice None None n 0 fileOffset).
  set (L := mkList (Some a) (Some a) n true).
  set (m1 := mkStore (slices m) (<[l := mkList None None 0 true]> (lists m)) a).
  set (m2 := mkStore (<[a := s]> (slices m)) (<[l := L]> (lists m)) (S a)).
  assert (AddBlock l fileOffset n m1 = Ok (tt, m2)) as Hadd.
  { unfold AddBlock, CreateObject, newSlice, Add, getSlice, setSlice, getList, setList, sbind, ret.
    cbn [res_bind slices lists brk m1]. rewrite lookup_insert_eq. cbn [deref res_bind _tail slices lists brk].
    rewrite insert_insert_eq, lookup_insert_eq. cbn [deref res_bind _tail _head _totalSize isBlock slices lists brk size].
    rewrite insert_insert_eq. unfold m2, L. cbn [Z.add]. rewrite u64_small by lia. done. }
  assert (storeOk m2) as Hst2.
  { intros x t Hx. cbn in *. apply lookup_insert_Some in Hx as [[<- _]|[_ Hx]]; [lia|]. apply Hst in Hx. unfold a, l. lia. }
  assert (blockSlice s bs) as Hbs.
  { split; cbn; [lia | done | | lia | lia | by left]. replace (length bs) with (Z.to_nat n) by lia. done. }
  set (r0 := mkReader None 0 0 (Some l) n true).
  assert (slices m2 !! a = Some s) as Ha by (cbn; by rewrite lookup_insert_eq).
  assert (is_Some (lists m2 !! l)) as HL by (exists L; cbn; by rewrite lookup_insert_eq).
  assert (view true m2 None 0 []) as Hnil.
  { exists [], []. split_and!; try done; constructor. }
  destruct (block_prepare_ok l m2 r0 a s 0 bs eq_refl eq_refl HL Hst2 eq_refl) as (b & off & m3 & Hrun & Hq & Hv & Hoff); [|done|cbn; lia|].
  { exists [(a, s)], [bs]. cbn. rewrite app_nil_r. split_and!; try done; [by constructor|repeat constructor; cbn; lia|lia]. }
  assert (off = 0) as -> by (destruct Hv as (? & ? & _ & _ & _ & ? & _); lia).
  exists l, m1, m2, (mkReader (Some b) 0 0 (Some l) n true), m3. split; [done|]. split; [done|]. split; [|split; [|by eexists]].
  - unfold Open. destruct HL as [L' HL]. assert (L' = L) as -> by (cbn in HL; rewrite lookup_insert_eq in HL; congruence).
    slook. cbn [isBlock _head _totalSize L Close new_ByteSliceReader _currentSlice _currentSliceOffset _globalOffset]. fold r0. srun Hrun. done.
  - split; cbn; try done; [|lia|lia|apply (qu_store _ _ _ _ Hq)].
    destruct HL as [L' HL]. destruct (qu_lists _ _ _ _ Hq l L' HL) as (L3 & HL3 & ? & ?). exists L3. cbn in HL. rewrite lookup_insert_eq in HL.
    injection HL as <-. cbn in *. split_and!; [done | lia | done].
Qed.

End Blocks.
End BlockCorrect.
