(* ===== verification/ByteSliceHistories.v ===== *)
(** * Histories of writers and readers

    Sequences of operations of [ByteSliceWriter] against the bytes they append, and sequences of operations of
    [ByteSliceReader] against a position in a list of bytes. *)

From stdpp Require Import base list numbers option tactics gmap.
From Stdlib Require Import ZArith Lia ZifyNat ZifyBool.
From S2P Require Import Prelude Bits ByteSliceList SliceChain VbyteCompressor ByteSliceWriter BlockByteSliceList ByteSliceReader ByteSliceWriterCorrect ByteSliceReaderCorrect.

#[local] Open Scope Z_scope.
#[local] Open Scope store_scope.

Module History.
Import WriterCorrect WriterRanges ReaderCorrect.

(** ** Writers *)

(** [WInt n v]: [Write<T>] with a type of [n] bytes *)
Inductive WOp :=
| WByte (v : Z)
| WInt (n : nat) (v : Z)
| WVInt (v : Z)
| WBytes (bs : list Z).

Definition runW (op : WOp) (w : Writer.ByteSliceWriter) : SM Writer.ByteSliceWriter :=
  match op with
  | WByte v => Writer.WriteByte v w
  | WInt n v => Writer.WriteT n v w
  | WVInt v => let* (_, w) := Writer.WriteVInt v w in ret w
  | WBytes bs => Writer.Write bs w
  end.

Fixpoint runWs (ops : list WOp) (w : Writer.ByteSliceWriter) : SM Writer.ByteSliceWriter :=
  match ops with
  | [] => ret w
  | op :: ops => let* w := runW op w in runWs ops w
  end.

(** The bytes an operation appends *)
Definition wbytes (op : WOp) : list Z :=
  match op with
  | WByte v => [v]
  | WInt n v => bytes n v
  | WVInt v => VByte.vbytes v
  | WBytes bs => bs
  end.
Definition written (ops : list WOp) : list Z := concat (map wbytes ops).

(** The arguments are values of their types. *)
Definition wfW (op : WOp) : Prop :=
  match op with
  | WByte v => 0 <= v < 256
  | WInt n v => (0 < n <= 8)%nat
  | WVInt v => 0 <= v < 2 ^ 32
  | WBytes bs => Z.of_nat (length bs) < 2 ^ 32
  end.

Lemma runW_ok op m w l C bs :
  writes m w l C bs -> wfW op -> Z.of_nat (length bs + length (wbytes op)) < 2 ^ 62 ->
  exists w' m', runW op w m = Ok (w', m') /\ appended m l C bs (map Some (wbytes op)) w' m'.
Proof.
  intros Hw Hwf Hlen. destruct op as [v|n v|v|x]; cbn [runW wbytes wfW] in *.
  - by apply WriteByte_ok; [..|cbn in Hlen; lia].
  - rewrite length_bytes in Hlen. by apply WriteT_ok; [..|lia].
  - destruct (WriteVInt_ok v m w l C bs Hw Hwf ltac:(lia)) as (w' & m' & Hrun & Ha). srun Hrun. by eexists _, _.
  - by apply Write_ok; [..|lia].
Qed.

Lemma runWs_ok ops m w l C bs :
  writes m w l C bs -> Forall wfW ops -> Z.of_nat (length bs + length (written ops)) < 2 ^ 62 ->
  exists w' m', runWs ops w m = Ok (w', m') /\ appended m l C bs (map Some (written ops)) w' m'.
Proof.
  intros Hw Hf. revert m w C bs Hw. induction Hf as [|op ops Hop Hf IH]; intros m w C bs Hw Hlen; cbn [runWs].
  - exists w, m. split; [done | by apply appended_refl].
  - change (written (op :: ops)) with (wbytes op ++ written ops) in *. rewrite length_app in Hlen.
    destruct (runW_ok op m w l C bs Hw Hop ltac:(lia)) as (w1 & m1 & Hrun1 & (C1 & Hw1 & Hg1 & He1)). srun Hrun1.
    destruct (IH m1 w1 C1 _ Hw1) as (w2 & m2 & Hrun2 & Ha2); [rewrite length_app, length_map; lia|].
    exists w2, m2. split; [done|]. rewrite map_app. by eapply appended_step.
Qed.

(** ** Readers *)

Inductive ROp :=
| RByte
| RInt (n : nat)
| RVInt
| RRead (len : nat)
| RMayCopy (len : nat)
| RPeek
| RSeek (offset : nat).

(** The values an operation yields. [Read] and [ReadMayCopy] get a buffer of zeros. *)
Definition runR {R : BlockDataRetriever} (op : ROp) (r : Reader.ByteSliceReader) : SM (list Z * Reader.ByteSliceReader) :=
  match op with
  | RByte => let* (v, r) := Reader.ReadByte r in ret ([v], r)
  | RInt n => let* (v, r) := Reader.ReadInt n r in ret ([v], r)
  | RVInt => let* (v, r) := Reader.ReadVUInt32 r in ret ([v], r)
  | RRead len =>
      let* (dest, n, r) := Reader.Read (repeat 0 len) (Z.of_nat len) r in ret (take (Z.to_nat n) dest, r)
  | RMayCopy len =>
      let* (p, n, r) := Reader.ReadMayCopy (repeat 0 len) (Z.of_nat len) r in
      let* bs := Reader.pointee p n in ret (bs, r)
  | RPeek => let* v := Reader.PeekInt32 r in ret ([v], r)
  | RSeek offset => let* (v, r) := Reader.Seek (Z.of_nat offset) r in ret ([v], r)
  end.

Fixpoint runRs {R : BlockDataRetriever} (ops : list ROp) (r : Reader.ByteSliceReader)
    : SM (list (list Z) * Reader.ByteSliceReader) :=
  match ops with
  | [] => ret ([], r)
  | op :: ops =>
      let* (v, r) := runR op r in
      let* (vs, r) := runRs ops r in
      ret (v :: vs, r)
  end.

(** The same operation at the position [pos] of the bytes [bs]: what it yields and the new position, when there
    are enough bytes *)
Definition specR (bs : list Z) (op : ROp) (pos : nat) : option (list Z * nat) :=
  match op with
  | RByte => if (pos <? length bs)%nat then Some ([nth pos bs 0], S pos) else None
  | RInt n =>
      if ((0 <? n) && (n <=? 8) && (pos + n <=? length bs))%nat
      then Some ([join (take n (drop pos bs))], pos + n)%nat else None
  | RVInt =>
      match drop pos bs with
      | [] => None
      | b :: src =>
          match VByte.vread 4 b (Z.land b 127) 7 src with
          | Some (v, rest) => Some ([v], length bs - length rest)%nat
          | None => None
          end
      end
  | RRead len | RMayCopy len => Some (take len (drop pos bs), pos + Nat.min len (length bs - pos))%nat
  | RPeek => if (pos + 4 <=? length bs)%nat then Some ([i32 (join (take 4 (drop pos bs)))], pos) else None
  | RSeek offset => if ((pos <=? offset) && (offset <? length bs))%nat then Some ([Z.of_nat offset], offset) else None
  end.

Fixpoint specRs (bs : list Z) (ops : list ROp) (pos : nat) : option (list (list Z) * nat) :=
  match ops with
  | [] => Some ([], pos)
  | op :: ops =>
      match specR bs op pos with
      | Some (v, pos) =>
          match specRs bs ops pos with Some (vs, pos) => Some (v :: vs, pos) | None => None end
      | None => None
      end
  end.

(** The lengths are values of [size_t] that a buffer can have. *)
Definition wfR (op : ROp) : Prop :=
  match op with RRead len | RMayCopy len => Z.of_nat len < 2 ^ 62 | _ => True end.

Section Read.
Context {R : BlockDataRetriever} (file : list Z) (k : bool) (l : addr).
Context (Hnext : next_ok (H := R) file k l) (Hprep : prepare_ok (H := R) file k l).

Lemma ReadVInt_vread m r bs pos b src v rest :
  reads file k m r l bs pos -> drop pos bs = b :: src -> VByte.vread 4 b (Z.land b 127) 7 src = Some (v, rest) ->
  exists r' m', Reader.ReadVUInt32 r m = Ok ((v, r'), m') /\ quiet file k m m' /\ reads file k m' r' l bs (length bs - length rest).
Proof using Hnext.
  intros Hr Hd Hv. pose proof (f_equal length Hd) as Hl. rewrite length_drop in Hl. cbn in Hl.
  destruct (ReadByte_ok file k l Hnext m r bs pos Hr ltac:(lia)) as (r1 & m1 & Hrun & Hq1 & Hr1).
  pose proof (take_drop_nth bs pos ltac:(lia)) as Ht. rewrite Hd in Ht. cbn in Ht. injection Ht as Hb. rewrite <- Hb in Hrun.
  unfold Reader.ReadVUInt32. srun Hrun.
  destruct (readVIntLoop_vread file k l Hnext 4 b (Z.land b 127) 7 src v rest m1 r1 bs (S pos)) as (r2 & m2 & Hrun2 & Hq2 & Hr2); try done.
  { rewrite <- Nat.add_1_r, <- drop_drop, Hd. done. }
  exists r2, m2. split; [done|]. split; [by eapply quiet_trans | done].
Qed.

Lemma runR_ok op m r bs pos v pos' :
  reads file k m r l bs pos -> wfR op -> specR bs op pos = Some (v, pos') ->
  exists r' m', runR op r m = Ok ((v, r'), m') /\ quiet file k m m' /\ reads file k m' r' l bs pos'.
Proof using Hnext Hprep.
  intros Hr Hwf Hspec. pose proof (rd_pos _ _ _ _ _ _ _ Hr) as Hpos. pose proof (rd_bound _ _ _ _ _ _ _ Hr) as Hbd.
  destruct op as [|n| |len|len| |o]; cbn [runR specR wfR] in *.
  - destruct (Nat.ltb_spec pos (length bs)) as [Hlt|]; [|done]. injection Hspec as <- <-.
    destruct (ReadByte_ok file k l Hnext m r bs pos Hr Hlt) as (r' & m' & Hrun & Hq & Hr'). srun Hrun. by eexists _, _.
  - destruct (_ && _ && _)%nat eqn:Hc; [|done]. injection Hspec as <- <-.
    destruct (ReadInt_ok file k l Hnext n m r bs pos Hr ltac:(lia) ltac:(lia)) as (r' & m' & Hrun & Hq & Hr'). srun Hrun. by eexists _, _.
  - destruct (drop pos bs) as [|b src] eqn:Hd; [done|]. destruct (VByte.vread _ _ _ _ _) as [[x rest]|] eqn:Hv; [|done]. injection Hspec as <- <-.
    destruct (ReadVInt_vread m r bs pos b src x rest Hr Hd Hv) as (r' & m' & Hrun & Hq & Hr'). srun Hrun. by eexists _, _.
  - injection Hspec as <- <-. set (c := (len `min` (length bs - pos))%nat).
    destruct (Read_ok file k l Hnext m r bs pos (repeat 0 len) len Hr Hwf) as (r' & m' & Hrun & Hq & Hr'); [rewrite repeat_length; lia|].
    srun Hrun. exists r', m'. split; [|done]. unfold ret. rewrite Nat2Z.id, take_app_length' by (rewrite length_take, length_drop; lia).
    do 3 f_equal. destruct (Nat.le_gt_cases len (length bs - pos)); [by rewrite Nat.min_l by lia|].
    rewrite !take_ge; [done | rewrite length_drop; lia..].
  - injection Hspec as <- <-. set (c := (len `min` (length bs - pos))%nat).
    destruct (ReadMayCopy_ok file k l Hnext m r bs pos (repeat 0 len) len Hr Hwf) as (p & r' & m' & Hrun & Hp & Hq & Hr'); [rewrite repeat_length; lia|].
    srun Hrun. srun Hp. exists r', m'. split; [|done]. unfold ret. do 3 f_equal.
    destruct (Nat.le_gt_cases len (length bs - pos)); [by rewrite Nat.min_l by lia|].
    rewrite !take_ge; [done | rewrite length_drop; lia..].
  - destruct (Nat.leb_spec (pos + 4) (length bs)) as [Hle|]; [|done]. injection Hspec as <- <-.
    destruct (reads_slice file k m r l bs pos Hr ltac:(lia)) as (a & s & Hc & _).
    destruct (PeekInt32_ok file k l Hnext m r bs pos Hr ltac:(by eexists)) as (m' & Hq & Hrun).
    rewrite (proj2 (Nat.leb_le _ _)) in Hrun by lia. srun Hrun. exists r, m'. split; [done|]. split; [done | by eapply reads_quiet].
  - destruct (_ && _)%nat eqn:Hc; [|done]. injection Hspec as <- <-.
    destruct (reads_slice file k m r l bs pos Hr ltac:(lia)) as (a & s & Hcur & _).
    pose proof (Seek_ok file k l Hnext m r bs pos o Hprep Hr ltac:(by eexists) ltac:(lia) ltac:(lia)) as Hs.
    replace (_ || _)%nat with true in Hs by lia. destruct Hs as (r' & m' & Hrun & Hq & Hr'). srun Hrun. by eexists _, _.
Qed.

Lemma runRs_ok ops m r bs pos vs pos' :
  reads file k m r l bs pos -> Forall wfR ops -> specRs bs ops pos = Some (vs, pos') ->
  exists r' m', runRs ops r m = Ok ((vs, r'), m') /\ quiet file k m m' /\ reads file k m' r' l bs pos'.
Proof using Hnext Hprep.
  intros Hr Hf. revert m r pos vs Hr. induction Hf as [|op ops Hop Hf IH]; intros m r pos vs Hr Hs; cbn [runRs specRs] in *.
  - injection Hs as <- <-. exists r, m. split; [done|]. split; [apply quiet_refl, (rd_store _ _ _ _ _ _ _ Hr) | done].
  - destruct (specR bs op pos) as [[v p1]|] eqn:Hs1; [|done]. destruct (specRs bs ops p1) as [[vs1 p2]|] eqn:Hs2; [|done]. injection Hs as <- <-.
    destruct (runR_ok op m r bs pos v p1 Hr Hop Hs1) as (r1 & m1 & Hrun1 & Hq1 & Hr1). srun Hrun1.
    destruct (IH m1 r1 p1 vs1 Hr1 Hs2) as (r2 & m2 & Hrun2 & Hq2 & Hr2). srun Hrun2.
    exists r2, m2. split; [done|]. split; [by eapply quiet_trans | done].
Qed.

(** The calls that fail: reading an integer across the end, and moving back or to the end *)
Lemma read_errors m r bs pos o :
  reads file k m r l bs pos -> (pos < length bs)%nat -> Z.of_nat o < 2 ^ 62 ->
  ((length bs < pos + 4)%nat -> Reader.PeekInt32 r m = Error FileIO) /\
  ((o < pos)%nat -> Reader.Seek (Z.of_nat o) r m = Error FileIO) /\
  ((length bs <= o)%nat -> exists r', Reader.Seek (Z.of_nat o) r m = Ok ((u64 Reader.BYTE_SLICE_EOF, r'), m)).
Proof using Hnext Hprep.
  intros Hr Hlt Ho. destruct (reads_slice file k m r l bs pos Hr Hlt) as (a & s & Hc & _). split_and!.
  - intros H4. destruct (PeekInt32_ok file k l Hnext m r bs pos Hr ltac:(by eexists)) as (m' & _ & Hrun).
    by rewrite (proj2 (Nat.leb_gt _ _)) in Hrun by lia.
  - intros Hop. apply (Seek_back file k l m r bs pos); [done | lia].
  - intros Hend. pose proof (Seek_ok file k l Hnext m r bs pos o Hprep Hr ltac:(by eexists) ltac:(lia) Ho) as Hs.
    replace (_ || _)%nat with false in Hs by lia. destruct Hs as (r' & Hs & _). by exists r'.
Qed.

End Read.

(** ** A reader of the list of a writer *)

Lemma Open_written (R : BlockDataRetriever) m r w l C bs :
  writes m w l C (map Some bs) -> Z.of_nat (length bs) < 2 ^ 62 ->
  exists r', Reader.Open l r m = Ok (r', m) /\ reads (H := R) [] false m r' l bs 0 /\ is_Some (Reader._currentSlice r').
Proof.
  intros (ss & a & s & -> & [Hl Hls Hs Hg _ _ _ Hst] & Hc & Hfull) Hlen. rewrite length_map in Hls.
  apply (Open_plain [] m r l _ (ss ++ [(a, s)]) bs Hls); try done. by destruct ss.
Qed.

End History.
