(* ===== verification/IntEncoders.v ===== *)
(** * Integer encoders

    [IntEncoder] (src/aios/storage/indexlib/index/common/numeric_compress/IntEncoder.h) is the interface through
    which the lists of a posting are written to slices and read back; [NoCompressIntEncoder],
    [VbyteInt32Encoder], [NewPForDeltaIntEncoder] and [ReferenceCompressIntEncoder] implement it, and
    [EncoderProvider] picks one for a list. [Status::Corruption] is [Error IndexCollapsed]. *)

From stdpp Require Import base list numbers option tactics gmap.
From Stdlib Require Import ZArith Lia ZifyNat.
From S2P Require Import Prelude Bits ByteSliceList VbyteCompressor PForDelta ByteSliceWriter BlockByteSliceList ByteSliceReader.

#[local] Open Scope Z_scope.
#[local] Open Scope store_scope.

(** ** Arrays as memory *)

(** The bytes of an array of values of [n] bytes *)
Definition memoryOf (n : nat) (vs : list Z) : list Z := concat (map (bytes n) vs).
(** The [len] values of [n] bytes at the start of [mem] *)
Fixpoint valuesOf (n len : nat) (mem : list Z) : list Z :=
  match len with O => [] | S len => join (take n mem) :: valuesOf n len (drop n mem) end.

Module Encoders.
Import Writer Reader.

(** [IntEncoder<T>]: an array of [T] is the list of its values, and its length is [srcLen]. [dest] is the
    array [Decode] writes to; [DecodeMayCopy] returns a pointer instead. Both return the count of values. *)
Class IntEncoder := {
  Encode : list Z -> ByteSliceWriter -> SM (Z * ByteSliceWriter);
  Decode : BlockDataRetriever -> list Z -> ByteSliceReader -> SM (list Z * Z * ByteSliceReader);
  DecodeMayCopy : BlockDataRetriever -> list Z -> ByteSliceReader -> SM (Pointer * Z * ByteSliceReader)
}.

(** [IntEncoder<T>::DecodeMayCopy] decodes to [dest]; [n] is [sizeof(T)]. *)
Definition DecodeMayCopy_default (n : nat) (decode : list Z -> ByteSliceReader -> SM (list Z * Z * ByteSliceReader))
    (dest : list Z) (r : ByteSliceReader) : SM (Pointer * Z * ByteSliceReader) :=
  let* (dest, count, r) := decode dest r in ret (InBuffer (memoryOf n dest), count, r).

(** [ByteSliceReader::Read] to an array of values of [n] bytes *)
Definition ReadTo {R : BlockDataRetriever} (n : nat) (dest : list Z) (len : Z) (r : ByteSliceReader)
    : SM (list Z * Z * ByteSliceReader) :=
  let* (mem, actualLen, r) := Read (memoryOf n dest) len r in
  ret (valuesOf n (length dest) mem, actualLen, r).

(** ** [NoCompressIntEncoder] *)

Section NoCompress.
Context (n : nat) (_hasLength : bool).

Definition NoCompress_Encode (src : list Z) (w : ByteSliceWriter) : SM (Z * ByteSliceWriter) :=
  let srcLen := Z.of_nat (length src) in
  let* (encodeLen, w) :=
    if _hasLength then let* w := WriteByte (srcLen mod 256) w in ret (1, w) else ret (0, w) in
  let* w := Write (memoryOf n src) w in
  ret (u32 (encodeLen + srcLen * Z.of_nat n), w).

Definition NoCompress_readCount {R : BlockDataRetriever} (destLen : Z) (r : ByteSliceReader) : SM (Z * ByteSliceReader) :=
  if _hasLength then ReadByte r else ret (destLen, r).

(** The bytes that were read are not counted. *)
Definition NoCompress_Decode {R : BlockDataRetriever} (dest : list Z) (r : ByteSliceReader)
    : SM (list Z * Z * ByteSliceReader) :=
  let* (readCount, r) := NoCompress_readCount (Z.of_nat (length dest)) r in
  let* (dest, actualLen, r) := ReadTo n dest (readCount * Z.of_nat n) r in
  ret (dest, readCount, r).

Definition NoCompress_DecodeMayCopy {R : BlockDataRetriever} (dest : list Z) (r : ByteSliceReader)
    : SM (Pointer * Z * ByteSliceReader) :=
  let* (readCount, r) := NoCompress_readCount (Z.of_nat (length dest)) r in
  let* (p, actualLen, r) := ReadMayCopy (memoryOf n dest) (readCount * Z.of_nat n) r in
  ret (p, readCount, r).

Definition NoCompressIntEncoder : IntEncoder :=
  {| Encode := NoCompress_Encode; Decode := @NoCompress_Decode; DecodeMayCopy := @NoCompress_DecodeMayCopy |}.
End NoCompress.

(** ** [VbyteInt32Encoder] *)

Fixpoint vbyteEncodeLoop (src : list Z) (len : Z) (w : ByteSliceWriter) : SM (Z * ByteSliceWriter) :=
  match src with
  | [] => ret (len, w)
  | v :: src =>
      let* (n, w) := WriteVInt v w in
      vbyteEncodeLoop src (u32 (len + n)) w
  end.

Definition Vbyte_Encode (src : list Z) (w : ByteSliceWriter) : SM (Z * ByteSliceWriter) :=
  let* w := WriteByte (Z.of_nat (length src) mod 256) w in
  vbyteEncodeLoop src 1 w.

(** [Encode(uint8_t* dest, src, srcLen)]: the values are written from [dest + destLen] on, and [destLen] is zero
    at first. [maxOutputByte] is [(uint32_t)-1]. *)
Fixpoint vbyteBufferLoop (src : list Z) (dest : list Z) (destLen : Z) : res (list Z * Z) :=
  match src with
  | [] => Ok (dest, destLen)
  | v :: src =>
      let k := Z.to_nat destLen in
      let! (tail, len) := VByte.EncodeVInt32 (drop k dest) (u32 (-1)) v in
      vbyteBufferLoop src (take k dest ++ tail) (u32 (destLen + len))
  end.

Definition Vbyte_EncodeBuffer (dest src : list Z) : res (list Z * Z) :=
  let! dest := VByte.putByte dest 0 (Z.of_nat (length src)) in
  vbyteBufferLoop src dest 0.

Fixpoint vbyteDecodeLoop {R : BlockDataRetriever} (len i : nat) (dest : list Z) (r : ByteSliceReader)
    : SM (list Z * ByteSliceReader) :=
  match len with
  | O => ret (dest, r)
  | S len =>
      let* (v, r) := ReadVInt32 r in
      if (length dest <=? i)%nat then lift Undefined
      else vbyteDecodeLoop len (S i) (<[i := u32 v]> dest) r
  end.

Definition Vbyte_Decode {R : BlockDataRetriever} (dest : list Z) (r : ByteSliceReader) : SM (list Z * Z * ByteSliceReader) :=
  let* (len, r) := ReadByte r in
  let* (dest, r) := vbyteDecodeLoop (Z.to_nat len) 0 dest r in
  ret (dest, len, r).

Definition VbyteInt32Encoder : IntEncoder :=
  {| Encode := Vbyte_Encode; Decode := @Vbyte_Decode;
     DecodeMayCopy := fun R => DecodeMayCopy_default 4 Vbyte_Decode |}.

(** ** [NewPForDeltaIntEncoder] *)

Section PForDelta.
(** [n] is [sizeof(T)]; [junk] is what the buffers on the stack hold at first, in words. *)
Context (C : PFor.Compressor) (n : nat) (_enableBlockOpt : bool) (junk : list Z).

Definition PFor_Encode (src : list Z) (w : ByteSliceWriter) : SM (Z * ByteSliceWriter) :=
  let* (buffer, encodeLen) :=
    lift (PFor.IntEncode (8 * Z.of_nat n) _enableBlockOpt junk src (Z.of_nat (length src))) in
  let* w := Write (take (Z.to_nat encodeLen) (memoryOf 4 buffer)) w in
  ret (encodeLen, w).

Definition PFor_Decode {R : BlockDataRetriever} (dest : list Z) (r : ByteSliceReader) : SM (list Z * Z * ByteSliceReader) :=
  let* v := PeekInt32 r in
  let header := u32 v in
  let compLen := PFor.GetCompressedLength header * 4 in
  let* (bufPtr, len, r) := ReadMayCopy (memoryOf 4 junk) compLen r in
  if negb (len =? compLen) then lift (Error IndexCollapsed)
  else
    let* mem := pointee bufPtr compLen in
    let* (dest, count) := lift (PFor.Decompress (8 * Z.of_nat n) dest (valuesOf 4 (Z.to_nat (compLen / 4)) mem)) in
    ret (dest, u32 count, r).

Definition NewPForDeltaIntEncoder : IntEncoder :=
  {| Encode := PFor_Encode; Decode := @PFor_Decode;
     DecodeMayCopy := fun R => DecodeMayCopy_default n PFor_Decode |}.
End PForDelta.

(** ** [ReferenceCompressIntEncoder] *)

Definition MAX_DOC_PER_RECORD : Z := 128.

Section Reference.
Context (n : nat).

Definition CalculateLen (maxDelta : Z) : Z :=
  if maxDelta <=? 255 then 1 else if maxDelta <=? 65535 then 2 else 4.

(** The loop that writes the differences: the case of 8 bytes cannot be reached. *)
Fixpoint referenceLoop (len base : Z) (src : list Z) (w : ByteSliceWriter) : SM ByteSliceWriter :=
  match src with
  | [] => ret w
  | v :: src =>
      let* w := WriteT (Z.to_nat len) (v - base) w in
      referenceLoop len base src w
  end.

(** [src[srcLen - 1] - base]: an operand shorter than [int] is promoted, and the difference converted to
    [size_t]. *)
Definition Reference_Encode (src : list Z) (w : ByteSliceWriter) : SM (Z * ByteSliceWriter) :=
  let srcLen := Z.of_nat (length src) in
  let* base := lift (deref (src !! 0%nat)) in
  let* lastValue := lift (deref (last src)) in
  let maxDelta := if (n <? 4)%nat then u64 (lastValue - base) else (lastValue - base) mod 256 ^ Z.of_nat n in
  let len := CalculateLen maxDelta in
  if (len =? Z.of_nat n) && (srcLen =? MAX_DOC_PER_RECORD) then
    let* w := Write (memoryOf n src) w in
    ret (u32 (srcLen * Z.of_nat n), w)
  else
    let header := i32 (Z.shiftl len 16 + Z.land srcLen 65535) in
    let* w := WriteT 4 (- header) w in
    let* w := WriteT n base w in
    let* w := referenceLoop len base (drop 1 src) w in
    ret (u32 (4 + Z.of_nat n + (srcLen - 1) * len), w).

(** [DecodeHeader]: [compressedLen] and [count] *)
Definition DecodeHeader (header : Z) : Z * Z :=
  if header <? 0 then
    let header := i32 (- header) in
    let len := Z.shiftr header 16 in
    let count := Z.land header 65535 in
    (u32 (4 + Z.of_nat n + u32 (count - 1) * len), count)
  else (Z.of_nat n * MAX_DOC_PER_RECORD, MAX_DOC_PER_RECORD).

Definition Reference_Decode {R : BlockDataRetriever} (dest : list Z) (r : ByteSliceReader) : SM (list Z * Z * ByteSliceReader) :=
  let* header := PeekInt32 r in
  let '(compressedLen, count) := DecodeHeader header in
  let* (dest, actualLen, r) := ReadTo n dest compressedLen r in
  if negb (u32 actualLen =? compressedLen) then lift (Error IndexCollapsed) else ret (dest, count, r).

Definition Reference_DecodeMayCopy {R : BlockDataRetriever} (dest : list Z) (r : ByteSliceReader)
    : SM (Pointer * Z * ByteSliceReader) :=
  let* header := PeekInt32 r in
  let '(compressedLen, count) := DecodeHeader header in
  let* (p, actualLen, r) := ReadMayCopy (memoryOf n dest) compressedLen r in
  if negb (u32 actualLen =? compressedLen) then lift (Error IndexCollapsed) else ret (p, count, r).

Definition ReferenceCompressIntEncoder : IntEncoder :=
  {| Encode := Reference_Encode; Decode := @Reference_Decode; DecodeMayCopy := @Reference_DecodeMayCopy |}.
End Reference.

(** ** [ReferenceCompressIntReader]: the values in the bytes that were read *)

Section ReferenceReader.
Context (n : nat).

(** [_data] is the bytes from the place it points to. *)
Record ReferenceCompressIntReader := mkRefReader {
  _data : list Z;
  _first : Z;
  _base : Z;
  _cursor : Z;
  _len : Z
}.

(** A value of [k] bytes at [buffer + off] *)
Definition valueAt (k : nat) (buffer : list Z) (off : nat) : res Z :=
  if (length buffer <? off + k)%nat then Undefined else Ok (join (take k (drop off buffer))).

Definition Reset (buffer : list Z) : res ReferenceCompressIntReader :=
  let! v := valueAt 4 buffer 0 in
  let header := i32 v in
  if header <? 0 then
    let header := i32 (- header) in
    let! base := valueAt n buffer 4 in
    Ok (mkRefReader (drop (4 + n) buffer) base base 1 (Z.shiftr header 16 mod 256))
  else
    let! first := valueAt n buffer 0 in
    Ok (mkRefReader (drop n buffer) first 0 1 (Z.of_nat n)).

(** [DoSeek<ElementType>] for elements of [k] bytes: the loop stops at a value that is large enough. *)
Fixpoint doSeekLoop (fuel k : nat) (compValue cursor : Z) (data : list Z) : res (Z * Z) :=
  match fuel with
  | O => OutOfFuel
  | S fuel =>
      let! curValue := valueAt k data (Z.to_nat cursor * k) in
      if curValue <? compValue then doSeekLoop fuel k compValue (u32 (cursor + 1)) data
      else Ok (curValue, u32 (cursor + 1))
  end.

Definition DoSeek (k : nat) (value : Z) (r : ReferenceCompressIntReader) : res (Z * ReferenceCompressIntReader) :=
  let compValue := (value - _base r) mod 256 ^ Z.of_nat n in
  let! (curValue, cursor) := doSeekLoop (S (length (_data r))) k compValue (u32 (_cursor r - 1)) (_data r) in
  Ok ((curValue + _base r) mod 256 ^ Z.of_nat n, mkRefReader (_data r) (_first r) (_base r) (u32 (cursor + 1)) (_len r)).

Definition Seek (value : Z) (r : ReferenceCompressIntReader) : res (Z * ReferenceCompressIntReader) :=
  if _len r =? 1 then DoSeek 1 value r
  else if _len r =? 2 then DoSeek 2 value r
  else if _len r =? 4 then DoSeek 4 value r
  else Ok (0, r).

(** [operator[]] *)
Definition at_ (index : nat) (r : ReferenceCompressIntReader) : res Z :=
  match index with
  | O => Ok (_first r)
  | S i =>
      let element k := let! v := valueAt k (_data r) (Z.to_nat (_len r) * i) in Ok ((v + _base r) mod 256 ^ Z.of_nat n) in
      if _len r =? 1 then element 1%nat
      else if _len r =? 2 then element 2%nat
      else if _len r =? 4 then element 4%nat
      else Ok 0
  end.

Definition GetCursor (r : ReferenceCompressIntReader) : Z := _cursor r.

(** [ReferenceCompressIntEncoder<T>::GetFirstValue] *)
Definition GetFirstValue (buffer : list Z) : res Z := let! r := Reset buffer in at_ 0 r.
End ReferenceReader.

(** ** [EncoderProvider] *)

(** [enum CompressMode] *)
Inductive CompressMode :=
| PFOR_DELTA_COMPRESS_MODE
| REFERENCE_COMPRESS_MODE
| DICT_INLINE_COMPRESS_MODE
| SHORT_LIST_COMPRESS_MODE.

Record EncoderParam := mkParam {
  mode : CompressMode;
  shortListVbyteCompress : bool;
  enableP4DeltaBlockOpt : bool
}.

Section Provider.
Context (_disableSseOptimize : bool) (junk : list Z).

Definition GetInt32PForDeltaEncoder (enableBlockOpt : bool) : IntEncoder :=
  if _disableSseOptimize then NewPForDeltaIntEncoder PFor.NosseNewPForDeltaCompressor 4 enableBlockOpt junk
  else NewPForDeltaIntEncoder PFor.NewPForDeltaCompressor 4 enableBlockOpt junk.

(** The encoders of shorter integers always use the vector instructions. *)
Definition pforEncoder (n : nat) (enableBlockOpt : bool) : IntEncoder :=
  NewPForDeltaIntEncoder PFor.NewPForDeltaCompressor n enableBlockOpt junk.

Definition GetDocListEncoder (param : EncoderParam) : option IntEncoder :=
  match mode param with
  | PFOR_DELTA_COMPRESS_MODE => Some (GetInt32PForDeltaEncoder (enableP4DeltaBlockOpt param))
  | SHORT_LIST_COMPRESS_MODE =>
      Some (if shortListVbyteCompress param then VbyteInt32Encoder else NoCompressIntEncoder 4 true)
  | REFERENCE_COMPRESS_MODE => Some (ReferenceCompressIntEncoder 4)
  | DICT_INLINE_COMPRESS_MODE => None
  end.

Definition GetTfListEncoder (param : EncoderParam) : option IntEncoder :=
  match mode param with
  | PFOR_DELTA_COMPRESS_MODE | REFERENCE_COMPRESS_MODE => Some (GetInt32PForDeltaEncoder (enableP4DeltaBlockOpt param))
  | SHORT_LIST_COMPRESS_MODE => Some VbyteInt32Encoder
  | DICT_INLINE_COMPRESS_MODE => None
  end.

Definition GetPosListEncoder (param : EncoderParam) : option IntEncoder :=
  match mode param with
  | PFOR_DELTA_COMPRESS_MODE | REFERENCE_COMPRESS_MODE => Some (GetInt32PForDeltaEncoder (enableP4DeltaBlockOpt param))
  | SHORT_LIST_COMPRESS_MODE => Some VbyteInt32Encoder
  | DICT_INLINE_COMPRESS_MODE => None
  end.

Definition GetFieldMapEncoder (param : EncoderParam) : option IntEncoder :=
  match mode param with
  | PFOR_DELTA_COMPRESS_MODE | REFERENCE_COMPRESS_MODE => Some (pforEncoder 1 (enableP4DeltaBlockOpt param))
  | SHORT_LIST_COMPRESS_MODE => Some (NoCompressIntEncoder 1 true)
  | DICT_INLINE_COMPRESS_MODE => None
  end.

Definition GetDocPayloadEncoder (param : EncoderParam) : option IntEncoder :=
  match mode param with
  | PFOR_DELTA_COMPRESS_MODE | REFERENCE_COMPRESS_MODE => Some (pforEncoder 2 (enableP4DeltaBlockOpt param))
  | SHORT_LIST_COMPRESS_MODE => Some (NoCompressIntEncoder 2 true)
  | DICT_INLINE_COMPRESS_MODE => None
  end.

Definition GetPosPayloadEncoder (param : EncoderParam) : option IntEncoder :=
  match mode param with
  | PFOR_DELTA_COMPRESS_MODE | REFERENCE_COMPRESS_MODE => Some (pforEncoder 1 (enableP4DeltaBlockOpt param))
  | SHORT_LIST_COMPRESS_MODE => Some (NoCompressIntEncoder 1 true)
  | DICT_INLINE_COMPRESS_MODE => None
  end.

Definition GetSkipListEncoder (param : EncoderParam) : option IntEncoder :=
  match mode param with
  | PFOR_DELTA_COMPRESS_MODE => Some (GetInt32PForDeltaEncoder (enableP4DeltaBlockOpt param))
  | SHORT_LIST_COMPRESS_MODE => Some (NoCompressIntEncoder 4 false)
  | REFERENCE_COMPRESS_MODE => Some (NoCompressIntEncoder 4 true)
  | DICT_INLINE_COMPRESS_MODE => None
  end.
End Provider.

End Encoders.
