(* ===== verification/IntEncodersCorrect.v ===== *)
(** * The encoders of integers are round trips

    Each encoder appends bytes to the slices of a writer, and the same kind of encoder reads the values back
    from a reader that stands in front of these bytes, whatever surrounds them. *)

From stdpp Require Import base list numbers option tactics gmap.
From Stdlib Require Import ZArith Lia ZifyNat ZifyBool.
From S2P Require Import Prelude Bits WordCode WordStream ByteSliceList SliceChain VbyteCompressor PForDelta PForDeltaFrames PForDeltaCorrect ByteSliceWriter BlockByteSliceList ByteSliceReader ByteSliceWriterCorrect ByteSliceReaderCorrect IntEncoders.

#[local] Open Scope Z_scope.
#[local] Open Scope store_scope.

(** ** Arrays as memory *)

Lemma memoryOf_cons n v vs : memoryOf n (v :: vs) = bytes n v ++ memoryOf n vs.
Proof. done. Qed.

Lemma memoryOf_app n vs ws : memoryOf n (vs ++ ws) = memoryOf n vs ++ memoryOf n ws.
Proof. unfold memoryOf. by rewrite map_app, concat_app. Qed.

Lemma length_memoryOf n vs : length (memoryOf n vs) = (length vs * n)%nat.
Proof. induction vs as [|v vs IH]; [done|]. rewrite memoryOf_cons, length_app, length_bytes, IH. cbn. lia. Qed.

Lemma pow256 n : 256 ^ Z.of_nat n = 2 ^ (8 * Z.of_nat n).
Proof. rewrite Z.pow_mul_r by lia. done. Qed.

Lemma fits_bytes n v : fits (8 * Z.of_nat n) v -> join (bytes n v) = v.
Proof. intros [? ?]. apply join_bytes. rewrite pow256. lia. Qed.

Lemma valuesOf_memoryOf n vs rest :
  Forall (fits (8 * Z.of_nat n)) vs -> valuesOf n (length vs) (memoryOf n vs ++ rest) = vs.
Proof.
  induction 1 as [|v vs Hv Hvs IH]; [done|]. cbn [length valuesOf]. rewrite memoryOf_cons, <- app_assoc.
  rewrite take_app_length', drop_app_length' by (by rewrite length_bytes). by rewrite IH, fits_bytes.
Qed.

Lemma drop_memoryOf n k vs : drop (k * n) (memoryOf n vs) = memoryOf n (drop k vs).
Proof.
  destruct (Nat.le_gt_cases (length vs) k).
  - rewrite !drop_ge; [done | done|]. rewrite length_memoryOf. nia.
  - rewrite <- (take_drop k vs) at 1. rewrite memoryOf_app. apply drop_app_length'.
    rewrite length_memoryOf, length_take. nia.
Qed.

Lemma take_memoryOf n k vs : (k <= length vs)%nat -> take (k * n) (memoryOf n vs) = memoryOf n (take k vs).
Proof.
  intros Hk. rewrite <- (take_drop k vs) at 1. rewrite memoryOf_app. apply take_app_length'.
  rewrite length_memoryOf, length_take. nia.
Qed.

(** Overwriting the first values of an array, seen as memory *)
Lemma memoryOf_overwrite n src dest :
  memoryOf n src ++ drop (length src * n) (memoryOf n dest) = memoryOf n (src ++ drop (length src) dest).
Proof. by rewrite memoryOf_app, drop_memoryOf. Qed.

Lemma memoryOf_byte n vs : Forall byte (memoryOf n vs).
Proof. induction vs as [|v vs IH]; [constructor|]. rewrite memoryOf_cons. apply Forall_app. split; [apply bytes_byte | done]. Qed.

Module EncodersCorrect.
Import Writer Reader Encoders WriterCorrect ReaderCorrect.

(** ** The laws *)

(** A record of the posting format: at most 128 values of [n] bytes *)
Definition record (n : nat) (src : list Z) : Prop := (0 < length src <= 128)%nat /\ Forall (fits (8 * Z.of_nat n)) src.

(** [E] appends the bytes [enc] for [src]. *)
Definition encodesAs (E : IntEncoder) (src enc : list Z) : Prop :=
  (0 < length enc <= 1024)%nat /\
  forall m w l C bs, writes m w l C bs -> Z.of_nat (length bs) < 2 ^ 62 ->
    exists w' m', Encode src w m = Ok ((Z.of_nat (length enc), w'), m') /\ appended m l C bs (map Some enc) w' m'.

(** The array [Decode] may be given: as long as the values, when the bytes do not say how many they are *)
Definition destFor (n : nat) (exact : bool) (src dest : list Z) : Prop :=
  Forall (fits (8 * Z.of_nat n)) dest /\
  if exact then length dest = length src else (length src <= length dest)%nat.

(** [D] reads [src] when a reader is in front of the bytes [enc]. *)
Record decodesAs (n : nat) (exact : bool) (D : IntEncoder) (src enc : list Z) : Prop := {
  da_decode : forall (R : BlockDataRetriever) file k l m r bs pos rest dest,
    next_ok (H := R) file k l -> reads (H := R) file k m r l bs pos -> drop pos bs = enc ++ rest -> destFor n exact src dest ->
    exists r' m', Decode R dest r m = Ok ((src ++ drop (length src) dest, Z.of_nat (length src), r'), m') /\
      quiet (H := R) file k m m' /\ reads (H := R) file k m' r' l bs (pos + length enc);
  da_mayCopy : forall (R : BlockDataRetriever) file k l m r bs pos rest dest,
    next_ok (H := R) file k l -> reads (H := R) file k m r l bs pos -> drop pos bs = enc ++ rest -> destFor n exact src dest ->
    exists p r' m', DecodeMayCopy R dest r m = Ok ((p, Z.of_nat (length src), r'), m') /\
      pointee p (Z.of_nat (length src * n)) m' = Ok (memoryOf n src, m') /\
      quiet (H := R) file k m m' /\ reads (H := R) file k m' r' l bs (pos + length enc)
}.

(** What [E] writes [D] reads. *)
Class EncoderLaws (n : nat) (exact : bool) (E D : IntEncoder) : Prop :=
  encoder_roundtrip : forall src, record n src -> exists enc, encodesAs E src enc /\ decodesAs n exact D src enc.

(** The default of [DecodeMayCopy] is as good as [Decode]. *)
Lemma default_decodesAs n exact enc src (decode : forall {R : BlockDataRetriever}, list Z -> ByteSliceReader -> SM (list Z * Z * ByteSliceReader)) E :
  let D := {| Encode := E; Decode := @decode; DecodeMayCopy := fun R => DecodeMayCopy_default n decode |} in
  (forall (R : BlockDataRetriever) file k l m r bs pos rest dest,
    next_ok (H := R) file k l -> reads (H := R) file k m r l bs pos -> drop pos bs = enc ++ rest -> destFor n exact src dest ->
    exists r' m', decode dest r m = Ok ((src ++ drop (length src) dest, Z.of_nat (length src), r'), m') /\
      quiet (H := R) file k m m' /\ reads (H := R) file k m' r' l bs (pos + length enc)) ->
  decodesAs n exact D src enc.
Proof.
  intros D Hdec. split; [done|]. intros R file k l m r bs pos rest dest Hn Hr Hd Hdest.
  destruct (Hdec R file k l m r bs pos rest dest Hn Hr Hd Hdest) as (r' & m' & Hrun & Hq & Hr').
  eexists _, r', m'. cbn [DecodeMayCopy D]. unfold DecodeMayCopy_default. srun Hrun. split; [done|]. split; [|done].
  cbn [pointee]. rewrite Nat2Z.id. unfold ret. rewrite memoryOf_app, take_app_length' by (by rewrite length_memoryOf). done.
Qed.

(** Two parts that are written one after the other *)
Lemma appended_cons m l C bs new1 w1 m1 :
  appended m l C bs new1 w1 m1 -> exists C1, writes m1 w1 l C1 (bs ++ new1) /\
    forall new2 w2 m2, appended m1 l C1 (bs ++ new1) new2 w2 m2 -> appended m l C bs (new1 ++ new2) w2 m2.
Proof. intros (C1 & Hw & Hg & He). exists C1. split; [done|]. intros new2 w2 m2 Ha. by eapply appended_step. Qed.

(** ** [NoCompressIntEncoder] *)

Lemma ReadTo_ok (R : BlockDataRetriever) file k l n m r bs pos rest src dest exact :
  next_ok (H := R) file k l -> reads (H := R) file k m r l bs pos -> drop pos bs = memoryOf n src ++ rest ->
  destFor n exact src dest -> (0 < n <= 8)%nat -> Forall (fits (8 * Z.of_nat n)) src -> (length src <= 128)%nat ->
  exists r' m', ReadTo n dest (Z.of_nat (length src) * Z.of_nat n) r m
      = Ok ((src ++ drop (length src) dest, Z.of_nat (length src * n), r'), m') /\
    quiet (H := R) file k m m' /\ reads (H := R) file k m' r' l bs (pos + length src * n).
Proof.
  intros Hn Hr Hd [Hf Hdest] Hn8 Hs Hlen. assert (length src <= length dest)%nat as Hsd by (destruct exact; lia).
  pose proof (f_equal length Hd) as Hl. rewrite length_drop, length_app, length_memoryOf in Hl.
  assert (length src * n <= 1024)%nat as Hmax by nia.
  destruct (Read_ok (H := R) file k l Hn m r bs pos (memoryOf n dest) (length src * n) Hr ltac:(lia)) as (r' & m' & Hrun & Hq & Hr').
  { rewrite length_memoryOf. nia. }
  rewrite Nat.min_l in * by lia. unfold ReadTo. rewrite <- Nat2Z.inj_mul. srun Hrun. exists r', m'. split; [|done].
  rewrite Hd, take_app_length', memoryOf_overwrite by (by rewrite length_memoryOf). unfold ret. do 4 f_equal.
  rewrite <- (app_nil_r (memoryOf _ _)). replace (length dest) with (length (src ++ drop (length src) dest)) at 1.
  - apply valuesOf_memoryOf. apply Forall_app. split; [done | by apply Forall_drop].
  - rewrite length_app, length_drop. lia.
Qed.

(** The byte in front of the values *)
Definition lengthByte (hasLength : bool) (src : list Z) : list Z := if hasLength then [Z.of_nat (length src)] else [].

Lemma NoCompress_encodesAs n hasLength src :
  (0 < n <= 4)%nat -> record n src -> encodesAs (NoCompressIntEncoder n hasLength) src (lengthByte hasLength src ++ memoryOf n src).
Proof.
  intros Hn [Hlen Hf]. set (head := lengthByte hasLength src).
  assert (length head <= 1)%nat by (unfold head; destruct hasLength; cbn; lia). assert (length src <= length src * n <= 512)%nat as Hm by nia.
  split; [rewrite length_app, length_memoryOf; lia|].
  intros m w l C bs Hw Hb. cbn [Encode NoCompressIntEncoder]. unfold NoCompress_Encode.
  assert (exists w1 m1, (if hasLength then let* w := WriteByte (Z.of_nat (length src) mod 256) w in ret (1, w) else ret (0, w)) m
    = Ok ((Z.of_nat (length head), w1), m1) /\ appended m l C bs (map Some head) w1 m1) as (w1 & m1 & Hrun1 & Ha1).
  { unfold head. destruct hasLength; cbn.
    - rewrite Z.mod_small by lia. destruct (WriteByte_ok (Z.of_nat (length src)) m w l C bs Hw ltac:(lia) ltac:(lia)) as (w1 & m1 & Hrun & Ha).
      srun Hrun. by eexists _, _.
    - exists w, m. split; [done | by apply appended_refl]. }
  srun Hrun1. destruct (appended_cons _ _ _ _ _ _ _ Ha1) as (C1 & Hw1 & Hcons).
  destruct (Write_ok (memoryOf n src) m1 w1 l C1 _ Hw1) as (w2 & m2 & Hrun2 & Ha2);
    rewrite ?length_app, ?length_map, ?length_memoryOf; try lia.
  srun Hrun2. exists w2, m2. split; [|rewrite map_app; by apply Hcons].
  unfold ret. rewrite u32_small by lia. do 3 f_equal. lia.
Qed.

Lemma readCount_ok (R : BlockDataRetriever) file k l hasLength n m r bs pos rest src dest :
  next_ok (H := R) file k l -> reads (H := R) file k m r l bs pos ->
  drop pos bs = (lengthByte hasLength src ++ memoryOf n src) ++ rest -> destFor n (negb hasLength) src dest ->
  exists r' m', NoCompress_readCount hasLength (Z.of_nat (length dest)) r m = Ok ((Z.of_nat (length src), r'), m') /\
    let pos' := (pos + length (lengthByte hasLength src))%nat in
    quiet (H := R) file k m m' /\ reads (H := R) file k m' r' l bs pos' /\ drop pos' bs = memoryOf n src ++ rest.
Proof.
  intros Hnx Hr Hd [_ Hdest]. set (head := lengthByte hasLength src) in *.
  assert (drop (pos + length head) bs = memoryOf n src ++ rest) as Hd' by (rewrite <- drop_drop, Hd, <- app_assoc; apply drop_app_length).
  unfold NoCompress_readCount. subst head. destruct hasLength; cbn [lengthByte length] in *.
  - pose proof (f_equal length Hd) as Hl. rewrite length_drop in Hl. cbn in Hl.
    destruct (ReadByte_ok (H := R) file k l Hnx m r bs pos Hr ltac:(lia)) as (r' & m' & Hrun & Hq & Hr'). exists r', m'.
    rewrite Hrun, Nat.add_1_r in *. split; [|done]. pose proof (take_drop_nth bs pos ltac:(lia)) as Ht. rewrite Hd in Ht. cbn in Ht. congruence.
  - exists r, m. cbn in Hdest. rewrite Hdest, Nat.add_0_r in *. split; [done|].
    split; [apply quiet_refl, (rd_store _ _ _ _ _ _ _ Hr) | done].
Qed.

(** Reading a pointer to [src] *)
Lemma ReadMayCopy_array (R : BlockDataRetriever) file k l n m r bs pos rest src dest :
  next_ok (H := R) file k l -> reads (H := R) file k m r l bs pos -> drop pos bs = memoryOf n src ++ rest ->
  (length src <= length dest)%nat -> Z.of_nat (length src * n) < 2 ^ 62 ->
  exists p r' m', ReadMayCopy (memoryOf n dest) (Z.of_nat (length src * n)) r m = Ok ((p, Z.of_nat (length src * n), r'), m') /\
    pointee p (Z.of_nat (length src * n)) m' = Ok (memoryOf n src, m') /\
    quiet (H := R) file k m m' /\ reads (H := R) file k m' r' l bs (pos + length src * n).
Proof.
  intros Hnx Hr Hd Hdest H62. pose proof (f_equal length Hd) as Hl. rewrite length_drop, length_app, length_memoryOf in Hl.
  destruct (ReadMayCopy_ok (H := R) file k l Hnx m r bs _ (memoryOf n dest) (length src * n) Hr H62) as (p & r2 & m2 & Hrun2 & Hp & Hq2 & Hr2).
  { rewrite length_memoryOf. nia. }
  rewrite Nat.min_l in * by lia. exists p, r2, m2. rewrite Hp, Hd, take_app_length' by (by rewrite length_memoryOf). done.
Qed.

Lemma NoCompress_laws n hasLength :
  (0 < n <= 4)%nat -> EncoderLaws n (negb hasLength) (NoCompressIntEncoder n hasLength) (NoCompressIntEncoder n hasLength).
Proof.
  intros Hn src Hsrc. exists (lengthByte hasLength src ++ memoryOf n src). split; [by apply NoCompress_encodesAs|].
  destruct Hsrc as [Hlen Hf]. assert (length src * n <= 512)%nat by nia.
  split; intros R file k l m r bs pos rest dest Hnx Hr Hd Hdest; rewrite length_app, length_memoryOf, Nat.add_assoc;
    destruct (readCount_ok R file k l hasLength n m r bs pos rest src dest Hnx Hr Hd Hdest) as (r1 & m1 & Hrun1 & Hq1 & Hr1 & Hd1).
  - cbn [Decode NoCompressIntEncoder]. unfold NoCompress_Decode. srun Hrun1.
    destruct (ReadTo_ok R file k l n m1 r1 bs _ rest src dest _ Hnx Hr1 Hd1 Hdest) as (r2 & m2 & Hrun2 & Hq2 & Hr2); try done; try lia.
    srun Hrun2. exists r2, m2. split; [done|]. split; [by eapply quiet_trans | done].
  - cbn [DecodeMayCopy NoCompressIntEncoder]. unfold NoCompress_DecodeMayCopy. srun Hrun1. rewrite <- Nat2Z.inj_mul.
    assert (length src <= length dest)%nat by (destruct Hdest as [_ Hdest]; destruct hasLength; cbn in Hdest; lia).
    destruct (ReadMayCopy_array R file k l n m1 r1 bs _ rest src dest Hnx Hr1 Hd1) as (p & r2 & m2 & Hrun2 & Hp & Hq2 & Hr2); [lia..|].
    srun Hrun2. exists p, r2, m2. split; [done|]. split; [done|]. split; [by eapply quiet_trans | done].
Qed.

(** ** [VbyteInt32Encoder] *)

Definition vbytesAll (src : list Z) : list Z := concat (map VByte.vbytes src).

Lemma vbytesAll_cons v src : vbytesAll (v :: src) = VByte.vbytes v ++ vbytesAll src.
Proof. done. Qed.

Lemma vbytes_short v : fits 32 v -> (length (VByte.vbytes v) <= 5)%nat.
Proof. intros [? ?]. rewrite VByte.vbytes_length by lia. unfold VByte.vbytesLength. repeat case_match; lia. Qed.

Lemma vbytesAll_length src : Forall (fits 32) src -> (length (vbytesAll src) <= 5 * length src)%nat.
Proof.
  induction 1 as [|v src Hv%vbytes_short _ IH]; [cbn; lia|]. rewrite vbytesAll_cons, length_app. cbn [length]. lia.
Qed.

Lemma vbyteEncodeLoop_ok src len m w l C bs :
  writes m w l C bs -> Forall (fits 32) src -> Z.of_nat (length bs) + 6 * Z.of_nat (length src) < 2 ^ 63 ->
  0 <= len -> len + 5 * Z.of_nat (length src) < 2 ^ 32 ->
  exists w' m', vbyteEncodeLoop src len w m = Ok ((len + Z.of_nat (length (vbytesAll src)), w'), m') /\
    appended m l C bs (map Some (vbytesAll src)) w' m'.
Proof.
  revert len m w C bs. induction src as [|v src IH]; intros len m w C bs Hw Hf Hb Hlen Hmax; cbn [vbyteEncodeLoop].
  { exists w, m. rewrite Z.add_0_r. split; [done | by apply appended_refl]. }
  apply Forall_cons in Hf as [Hv Hf]. cbn [length] in *. pose proof (vbytes_short v Hv).
  destruct (WriteVInt_ok v m w l C bs Hw Hv ltac:(lia)) as (w1 & m1 & Hrun & Ha). srun Hrun.
  destruct (appended_cons _ _ _ _ _ _ _ Ha) as (C1 & Hw1 & Hcons). rewrite u32_small by lia.
  destruct (IH (len + Z.of_nat (length (VByte.vbytes v))) m1 w1 C1 _ Hw1 Hf) as (w2 & m2 & Hrun2 & Ha2);
    rewrite ?length_app, ?length_map; try lia.
  exists w2, m2. rewrite Hrun2, vbytesAll_cons, length_app, map_app. split; [do 3 f_equal; lia | by apply Hcons].
Qed.

Lemma u32_i32 v : fits 32 v -> u32 (i32 v) = v.
Proof. unfold u32, i32. intros [? ?]. rewrite Zminus_mod_idemp_l. replace (v + 2 ^ 31 - 2 ^ 31) with v by lia. apply Z.mod_small. lia. Qed.

Lemma vbyteDecodeLoop_ok (R : BlockDataRetriever) file k l src i m r bs pos rest dest :
  next_ok (H := R) file k l -> reads (H := R) file k m r l bs pos -> drop pos bs = vbytesAll src ++ rest ->
  Forall (fits 32) src -> (i + length src <= length dest)%nat ->
  exists r' m', vbyteDecodeLoop (length src) i dest r m = Ok ((take i dest ++ src ++ drop (i + length src) dest, r'), m') /\
    quiet (H := R) file k m m' /\ reads (H := R) file k m' r' l bs (pos + length (vbytesAll src)).
Proof.
  intros Hnx Hr Hd Hf. revert i m r pos dest Hr Hd. induction Hf as [|v src Hv Hf IH]; intros i m r pos dest Hr Hd Hlen; cbn [length vbyteDecodeLoop].
  { exists r, m. rewrite !Nat.add_0_r, app_nil_l, take_drop. split; [done|]. split; [apply quiet_refl, (rd_store _ _ _ _ _ _ _ Hr) | done]. }
  rewrite vbytesAll_cons, <- app_assoc in Hd. cbn [length] in *.
  destruct (ReadVUInt32_ok (H := R) file k l Hnx m r bs pos v _ Hr Hd Hv) as (r1 & m1 & Hrun & Hq1 & Hr1).
  unfold ReadVInt32. erewrite sbind_ok; [|srun Hrun; reflexivity]. cbv beta iota. rewrite (proj2 (Nat.leb_gt _ _)) by lia. rewrite u32_i32 by done.
  destruct (IH (S i) m1 r1 _ (<[i := v]> dest) Hr1) as (r2 & m2 & Hrun2 & Hq2 & Hr2).
  { rewrite <- drop_drop, Hd. apply drop_app_length. }
  { rewrite length_insert. lia. }
  exists r2, m2. rewrite Hrun2, vbytesAll_cons, length_app, Nat.add_assoc. split; [|split; [by eapply quiet_trans | done]].
  rewrite (take_S_r _ _ v) by (apply list_lookup_insert_eq; lia). rewrite take_insert_ge, drop_insert_lt by lia.
  rewrite <- app_assoc. replace (S i + length src)%nat with (i + S (length src))%nat by lia. done.
Qed.

Lemma Vbyte_laws : EncoderLaws 4 false VbyteInt32Encoder VbyteInt32Encoder.
Proof.
  intros src [Hlen Hf]. change (8 * Z.of_nat 4) with 32 in Hf. pose proof (vbytesAll_length src Hf) as Hl.
  exists (Z.of_nat (length src) :: vbytesAll src). split; [split|].
  - cbn. lia.
  - intros m w l C bs Hw Hb. cbn [Encode VbyteInt32Encoder]. unfold Vbyte_Encode. rewrite Z.mod_small by lia.
    destruct (WriteByte_ok (Z.of_nat (length src)) m w l C bs Hw ltac:(lia) ltac:(lia)) as (w1 & m1 & Hrun & Ha). srun Hrun.
    destruct (appended_cons _ _ _ _ _ _ _ Ha) as (C1 & Hw1 & Hcons).
    destruct (vbyteEncodeLoop_ok src 1 m1 w1 l C1 _ Hw1 Hf) as (w2 & m2 & Hrun2 & Ha2); rewrite ?length_app; cbn [length]; try lia.
    exists w2, m2. rewrite Hrun2. split; [do 3 f_equal; lia | exact (Hcons _ _ _ Ha2)].
  - apply default_decodesAs. intros R file k l m r bs pos rest dest Hnx Hr Hd [_ Hdest]. cbn in Hdest.
    pose proof (f_equal length Hd) as Hld. rewrite length_drop in Hld. cbn in Hld. unfold Vbyte_Decode.
    destruct (ReadByte_ok (H := R) file k l Hnx m r bs pos Hr ltac:(lia)) as (r1 & m1 & Hrun & Hq1 & Hr1).
    pose proof (take_drop_nth bs pos ltac:(lia)) as Ht. rewrite Hd in Ht. cbn in Ht. injection Ht as Hnth. rewrite <- Hnth in Hrun. srun Hrun. rewrite Nat2Z.id.
    destruct (vbyteDecodeLoop_ok R file k l src 0 m1 r1 bs _ rest dest Hnx Hr1) as (r2 & m2 & Hrun2 & Hq2 & Hr2); try done.
    { rewrite <- Nat.add_1_r, <- drop_drop, Hd. done. }
    srun Hrun2. exists r2, m2. split; [done|]. split; [by eapply quiet_trans|]. cbn [length]. by rewrite <- Nat.add_succ_comm.
Qed.

(** ** [NewPForDeltaIntEncoder] *)

(** The first word, peeked *)
Lemma PeekInt32_word (R : BlockDataRetriever) file k l m r bs pos h rest :
  next_ok (H := R) file k l -> reads (H := R) file k m r l bs pos -> drop pos bs = bytes 4 h ++ rest -> fits 32 h ->
  exists m', PeekInt32 r m = Ok (i32 h, m') /\ quiet (H := R) file k m m'.
Proof.
  intros Hnx Hr Hd Hh. pose proof (f_equal length Hd) as Hl. rewrite length_drop, length_app, length_bytes in Hl.
  destruct (reads_slice (H := R) file k m r l bs pos Hr ltac:(lia)) as (a & s & Hc & _).
  destruct (PeekInt32_ok (H := R) file k l Hnx m r bs pos Hr ltac:(by eexists)) as (m' & Hq & Hrun). exists m'. split; [|done].
  rewrite (proj2 (Nat.leb_le _ _)) in Hrun by lia. rewrite Hrun, Hd, take_app_length' by (by rewrite length_bytes). by rewrite fits_bytes.
Qed.

Lemma PFor_laws C D n opt opt' junk junk' :
  Frames.CompressorLaws C -> Frames.CompressorLaws D -> PForCorrect.valueWidth (8 * Z.of_nat n) ->
  Z.of_nat (length junk) = PFor.ENCODER_BUFFER_SIZE -> Z.of_nat (length junk') = PFor.ENCODER_BUFFER_SIZE ->
  EncoderLaws n false (NewPForDeltaIntEncoder C n opt junk) (NewPForDeltaIntEncoder D n opt' junk').
Proof.
  intros HC HD Hw Hj Hj' src [Hlen Hf]. change PFor.ENCODER_BUFFER_SIZE with 192 in *.
  destruct (PForCorrect.Compress_one (C := C) (8 * Z.of_nat n) opt junk src Hw Hf Hlen ltac:(lia))
    as (ws & Hc & Hl & H32 & (h & t & Hws & Hg & _) & Hdec). exists (memoryOf 4 ws).
  assert (0 < length ws)%nat by (subst ws; cbn; lia). split; [split|].
  - rewrite length_memoryOf. lia.
  - intros m w l C' bs Hwr Hb. cbn [Encode NewPForDeltaIntEncoder]. unfold PFor_Encode, PFor.IntEncode. rewrite Hc. cbn [res_bind].
    rewrite u32_small by lia. srun (eq_refl (Ok ((ws ++ drop (length ws) junk, Z.of_nat (length ws) * 4), m))).
    rewrite memoryOf_app, take_app_length' by (rewrite length_memoryOf; lia).
    destruct (Write_ok (memoryOf 4 ws) m w l C' bs Hwr) as (w2 & m2 & Hrun2 & Ha2); rewrite ?length_memoryOf; try lia.
    srun Hrun2. exists w2, m2. split; [|done]. unfold ret. do 3 f_equal. lia.
  - apply default_decodesAs. intros R file k l m r bs pos rest dest Hnx Hr Hd [_ Hdest]. cbn in Hdest. unfold PFor_Decode.
    assert (fits 32 h) as Hh by (subst ws; by apply Forall_cons in H32 as [? _]).
    destruct (PeekInt32_word R file k l m r bs pos h (memoryOf 4 t ++ rest) Hnx Hr) as (m1 & Hpeek & Hq1); try done.
    { by rewrite Hd, Hws, memoryOf_cons, app_assoc. }
    srun Hpeek. rewrite u32_i32, Hg by done.
    destruct (ReadMayCopy_array R file k l 4 m1 r bs pos rest ws junk' Hnx (reads_quiet _ _ _ _ _ _ _ _ Hr Hq1) Hd) as (p & r2 & m2 & Hrun2 & Hp & Hq2 & Hr2); [lia..|].
    replace (Z.of_nat (length ws) * 4) with (Z.of_nat (length ws * 4)) by lia. srun Hrun2. rewrite Z.eqb_refl. cbn [negb]. srun Hp.
    replace (Z.to_nat (Z.of_nat (length ws * 4) / 4)) with (length ws) by lia.
    rewrite <- (app_nil_r (memoryOf 4 ws)), valuesOf_memoryOf by done. rewrite <- (app_nil_r ws). unfold PFor.Decompress.
    rewrite (PForCorrect.streamsTo_last _ _ _ Hdec D HD) by lia.
    srun (eq_refl (Ok ((src ++ drop (length src) dest, Z.of_nat (length src)), m2))). exists r2, m2. rewrite u32_small by lia.
    rewrite !app_nil_r, length_memoryOf. split; [done|]. split; [by eapply quiet_trans | done].
Qed.

End EncodersCorrect.
