(* ===== verification/ReferenceEncoderCorrect.v ===== *)
(** * Reference compression

    [ReferenceCompressIntEncoder] writes the distances of sorted values from the first one, and
    [ReferenceCompressIntReader] finds values in these bytes without unpacking them. *)

From stdpp Require Import base list numbers option tactics gmap sorting.
From Stdlib Require Import ZArith Lia ZifyNat ZifyBool.
From S2P Require Import Prelude Bits WordCode WordStream ByteSliceList SliceChain ByteSliceWriter BlockByteSliceList ByteSliceReader ByteSliceWriterCorrect ByteSliceReaderCorrect IntEncoders IntEncodersCorrect.

#[local] Open Scope Z_scope.
#[local] Open Scope store_scope.

Module ReferenceCorrect.
Import Writer Reader Encoders WriterCorrect ReaderCorrect EncodersCorrect.

Lemma memoryOf_valuesOf n len mem :
  Forall byte mem -> length mem = (len * n)%nat -> memoryOf n (valuesOf n len mem) = mem.
Proof.
  revert mem. induction len as [|len IH]; intros mem Hb Hl; cbn [valuesOf].
  - by destruct mem.
  - cbn in Hl. rewrite memoryOf_cons, IH; [|by apply Forall_drop | rewrite length_drop; lia].
    rewrite <- (take_drop n mem) at 3. f_equal.
    assert (length (take n mem) = n) as Hn by (rewrite length_take; lia).
    assert (Forall byte (take n mem)) as Hf by (by apply Forall_take). clear -Hn Hf. revert Hf Hn. generalize (take n mem).
    intros l Hf <-. induction Hf as [|b l Hb Hf IH]; [done|]. cbn [length bytes]. unfold join. cbn [fold_right]. fold (join l).
    unfold byte in Hb. rewrite Z.mul_comm, Z_mod_plus_full, Z.mod_small by lia. rewrite Z.div_add, Z.div_small by lia. rewrite Z.add_0_l. by rewrite IH.
Qed.

(** ** The bytes of a record *)

(** Sorted values of 32 bits, the first one a document id *)
Record docRecord (src : list Z) : Prop := {
  dr_record : record 4 src;
  dr_sorted : StronglySorted Z.le src;
  dr_first : forall v, head src = Some v -> v < 2 ^ 31
}.

Definition first (src : list Z) : Z := default 0 (head src).

(** The least of one, two and four bytes for the distance of the last value from the first one *)
Definition width (src : list Z) : Z :=
  let d := default 0 (last src) - first src in if d <? 2 ^ 8 then 1 else if d <? 2 ^ 16 then 2 else 4.

Lemma CalculateLen_width src : CalculateLen (default 0 (last src) - first src) = width src.
Proof. unfold CalculateLen, width. repeat case_match; lia. Qed.

Definition distances (src : list Z) : list Z := map (fun v => v - first src) (tail src).
Definition plain (src : list Z) : bool := (width src =? 4) && (length src =? 128)%nat.
Definition headerOf (src : list Z) : Z := width src * 65536 + Z.of_nat (length src).

(** A record of 128 values that needs distances of four bytes is stored as it is. Others are a negated header, with the width in its upper half
    and the number of values in the lower one, the first value, and the distances of the others from it. *)
Definition refBytes (src : list Z) : list Z :=
  if plain src then memoryOf 4 src
  else bytes 4 (- headerOf src) ++ bytes 4 (first src) ++ memoryOf (Z.to_nat (width src)) (distances src).

Lemma width_cases src : width src = 1 \/ width src = 2 \/ width src = 4.
Proof. unfold width. repeat case_match; auto. Qed.

Lemma docRecord_cons src : docRecord src -> exists v t, src = v :: t /\ first src = v /\ fits 32 v /\ v < 2 ^ 31.
Proof.
  intros [[Hl Hf] _ Hfirst]. destruct src as [|v t]; [cbn in Hl; lia|]. exists v, t. apply Forall_cons in Hf as [Hv _].
  split_and!; [done | done | exact Hv | by apply Hfirst].
Qed.

(** Values lie between the first and the last one. *)
Lemma docRecord_range src v : docRecord src -> v ∈ src -> first src <= v <= default 0 (last src).
Proof.
  intros [_ Hs _]. revert v. induction Hs as [|x l Hs IH Hx]; intros v Hv; [by apply elem_of_nil in Hv|]. cbn [first head default]. unfold first. cbn [head default].
  assert (forall y, y ∈ x :: l -> x <= y) as Hlow.
  { intros y [->|Hy]%elem_of_cons; [done|]. rewrite List.Forall_forall in Hx. apply Hx. by apply list_elem_of_In. }
  split; [by apply Hlow|]. destruct l as [|y l]; [apply elem_of_cons in Hv as [->|Hv]; [done | by apply elem_of_nil in Hv]|].
  change (last (x :: y :: l)) with (last (y :: l)). apply elem_of_cons in Hv as [->|Hv]; [|by apply IH].
  transitivity y; [apply Hlow; set_solver|]. apply (IH y). set_solver.
Qed.

Lemma distances_fit src : docRecord src -> Forall (fits (8 * width src)) (distances src).
Proof.
  intros Hd. apply Forall_fmap, List.Forall_forall. intros v Hv%list_elem_of_In. cbn.
  assert (v ∈ src) as Hin by (destruct src; [done | by apply elem_of_cons; right]). pose proof (docRecord_range src v Hd Hin).
  assert (0 <= default 0 (last src) < 2 ^ 32) as Hlast.
  { destruct Hd as [[_ Hf] _ _]. destruct (last src) as [z|] eqn:Hz; [|done]. rewrite List.Forall_forall in Hf.
    apply last_Some in Hz as [l' ->]. apply (Hf z). apply in_or_app. right. by left. }
  destruct (docRecord_cons src Hd) as (x & t & _ & Hx & Hx32 & _). unfold fits in *. unfold width. repeat case_match; lia.
Qed.

Lemma refBytes_length src :
  docRecord src -> length (refBytes src) = if plain src then 512%nat else (8 + (length src - 1) * Z.to_nat (width src))%nat.
Proof.
  intros Hd. destruct (docRecord_cons src Hd) as (x & t & -> & _). unfold refBytes. destruct (plain _) eqn:Hp.
  - apply andb_prop in Hp as [_ Hp]. apply Nat.eqb_eq in Hp. rewrite length_memoryOf. lia.
  - rewrite !length_app, !length_bytes, length_memoryOf. unfold distances. rewrite length_map. cbn [tail length]. lia.
Qed.

Lemma refBytes_short src : docRecord src -> (4 <= length (refBytes src) <= 512)%nat.
Proof.
  intros Hd. rewrite refBytes_length by done. destruct Hd as [[Hl _] _ _]. unfold plain.
  pose proof (width_cases src) as Hw. destruct (Z.eqb_spec (width src) 4), (Nat.eqb_spec (length src) 128); cbn [andb]; lia.
Qed.

(** ** Writing *)

Lemma referenceLoop_ok k base src m w l C bs :
  k = 1 \/ k = 2 \/ k = 4 -> writes m w l C bs -> Z.of_nat (length bs) + 4 * Z.of_nat (length src) < 2 ^ 63 ->
  exists w' m', referenceLoop k base src w m = Ok (w', m') /\
    appended m l C bs (map Some (memoryOf (Z.to_nat k) (map (fun v => v - base) src))) w' m'.
Proof.
  intros Hk. revert m w C bs. induction src as [|v src IH]; intros m w C bs Hw Hb; cbn [referenceLoop map].
  { exists w, m. split; [done | by apply appended_refl]. }
  cbn [length] in Hb. destruct (WriteT_ok (Z.to_nat k) (v - base) m w l C bs Hw ltac:(lia) ltac:(lia)) as (w1 & m1 & Hrun & Ha). srun Hrun.
  destruct (appended_cons _ _ _ _ _ _ _ Ha) as (C1 & Hw1 & Hcons).
  destruct (IH m1 w1 C1 _ Hw1) as (w2 & m2 & Hrun2 & Ha2); [rewrite length_app, length_map, length_bytes; lia|].
  exists w2, m2. split; [done|]. rewrite memoryOf_cons, map_app. by apply Hcons.
Qed.

(** The tests of [Encode] in terms of the record *)
Lemma encode_width src z :
  docRecord src -> last src = Some z ->
  CalculateLen ((z - first src) mod 256 ^ Z.of_nat 4) = width src /\
  ((width src =? Z.of_nat 4) && (Z.of_nat (length src) =? MAX_DOC_PER_RECORD) = plain src) /\
  i32 (Z.shiftl (width src) 16 + Z.land (Z.of_nat (length src)) 65535) = headerOf src.
Proof.
  intros Hd Hz. destruct (docRecord_cons src Hd) as (x & t & Hsrc & Hx & Hx32 & _). pose proof Hd as [[Hl Hf] _ _].
  assert (z ∈ src) as Hin by (apply last_Some in Hz as [l' ->]; set_solver).
  pose proof (docRecord_range src z Hd Hin). assert (fits 32 z) as Hz32 by (rewrite List.Forall_forall in Hf; apply (Hf z); by apply list_elem_of_In).
  unfold fits in *. split_and!.
  - rewrite <- CalculateLen_width, Hz. cbn [default]. rewrite Z.mod_small; [done|]. change (256 ^ Z.of_nat 4) with (2 ^ 32). lia.
  - unfold plain, MAX_DOC_PER_RECORD. f_equal. apply eq_true_iff_eq. rewrite Z.eqb_eq, Nat.eqb_eq. lia.
  - pose proof (width_cases src). change 65535 with (Z.ones 16). rewrite Z.land_ones, Z.mod_small, Z.shiftl_mul_pow2 by lia.
    rewrite i32_small by lia. done.
Qed.

Lemma Reference_encodesAs src : docRecord src -> encodesAs (ReferenceCompressIntEncoder 4) src (refBytes src).
Proof.
  intros Hd. pose proof (refBytes_short src Hd). split; [lia|]. intros m w l C bs Hw Hb.
  pose proof (refBytes_length src Hd) as Hlen. destruct (docRecord_cons src Hd) as (x & t & Hsrc & Hx & Hx32 & _).
  pose proof Hd as [[Hl Hf] _ _]. assert (exists z, last src = Some z) as [z Hz] by (rewrite Hsrc; apply last_is_Some; done).
  destruct (encode_width src z Hd Hz) as (Hwd & Hpl & Hhd). pose proof (width_cases src) as Hw3.
  cbn [Encode ReferenceCompressIntEncoder]. unfold Reference_Encode.
  assert (deref (src !! 0%nat) = Ok x) as -> by (by rewrite Hsrc). srun (eq_refl (Ok (x, m))). rewrite Hz. srun (eq_refl (Ok (z, m))).
  cbn [Nat.ltb Nat.leb]. cbv zeta. rewrite <- Hx, Hwd, Hpl, Hhd. destruct (plain src) eqn:Hp.
  - unfold refBytes in *. rewrite Hp in *. rewrite length_memoryOf in *.
    destruct (Write_ok (memoryOf 4 src) m w l C bs Hw) as (w1 & m1 & Hrun & Ha); rewrite ?length_memoryOf; try lia.
    srun Hrun. exists w1, m1. split; [|done]. unfold ret. rewrite u32_small by lia. do 3 f_equal. lia.
  - unfold refBytes in *. rewrite Hp in *.
    destruct (WriteT_ok 4 (- headerOf src) m w l C bs Hw ltac:(lia) ltac:(lia)) as (w1 & m1 & Hrun1 & Ha1). srun Hrun1.
    destruct (appended_cons _ _ _ _ _ _ _ Ha1) as (C1 & Hw1 & Hcons1).
    destruct (WriteT_ok 4 (first src) m1 w1 l C1 _ Hw1) as (w2 & m2 & Hrun2 & Ha2); [lia | rewrite length_app, length_map, length_bytes; lia|]. srun Hrun2.
    destruct (appended_cons _ _ _ _ _ _ _ Ha2) as (C2 & Hw2 & Hcons2).
    destruct (referenceLoop_ok (width src) (first src) (drop 1 src) m2 w2 l C2 _ Hw3 Hw2) as (w3 & m3 & Hrun3 & Ha3).
    { rewrite !length_app, !length_map, !length_bytes, length_drop. lia. }
    srun Hrun3. exists w3, m3. split.
    + unfold ret. rewrite Hlen, u32_small by lia. do 3 f_equal. lia.
    + rewrite !map_app. apply Hcons1, Hcons2. unfold distances. by rewrite Hsrc in Ha3 |- *.
Qed.

(** ** Reading *)

Lemma header_word src :
  docRecord src -> exists h rest, refBytes src = bytes 4 h ++ rest /\ fits 32 h /\
    DecodeHeader 4 (i32 h) = (Z.of_nat (length (refBytes src)), Z.of_nat (length src)).
Proof.
  intros Hd. pose proof (refBytes_length src Hd) as Hlen. destruct (docRecord_cons src Hd) as (x & t & Hsrc & Hx & Hx32 & Hx31).
  pose proof Hd as [[Hl Hf] _ _]. pose proof (width_cases src) as Hw3. rewrite Hlen. unfold refBytes. destruct (plain src) eqn:Hp.
  - exists x, (memoryOf 4 t). rewrite Hsrc at 1. split; [done|]. split; [done|]. unfold DecodeHeader, fits in *.
    rewrite i32_small, (proj2 (Z.ltb_ge _ _)) by lia. apply andb_prop in Hp as [_ Hp]. apply Nat.eqb_eq in Hp. by rewrite Hp.
  - exists (u32 (- headerOf src)). eexists. rewrite <- (bytes_mod 4 (- _)). split; [done|]. split; [apply u32_range|].
    unfold DecodeHeader, headerOf. set (h := width src * 65536 + Z.of_nat (length src)).
    assert (0 < h < 2 ^ 31) as Hh by lia. replace (i32 (u32 (- h))) with (- h).
    2:{ unfold i32, u32. rewrite Zplus_mod_idemp_l, Z.mod_small by lia. lia. }
    rewrite (proj2 (Z.ltb_lt _ _)), Z.opp_involutive, i32_small by lia. change 65535 with (Z.ones 16).
    rewrite Z.land_ones, Z.shiftr_div_pow2 by lia. unfold h. change (2 ^ 16) with 65536.
    rewrite Z.div_add_l, Z.div_small, Z.add_0_r by lia. rewrite (Z.add_comm (width src * 65536)), Z_mod_plus_full, Z.mod_small by lia.
    rewrite (u32_small (Z.of_nat (length src) - 1)), u32_small by lia. f_equal. lia.
Qed.

(** A reader in front of the bytes of a record: [Decode] copies them to the array, [DecodeMayCopy] finds them. *)
Section Decoding.
Context (R : BlockDataRetriever) (file : list Z) (k : bool) (l : addr) (Hnext : next_ok (H := R) file k l).

Lemma Reference_DecodeMayCopy_ok m r bs pos rest src dest :
  docRecord src -> reads (H := R) file k m r l bs pos -> drop pos bs = refBytes src ++ rest -> (128 <= length dest)%nat ->
  exists p r' m', DecodeMayCopy (IntEncoder := ReferenceCompressIntEncoder 4) R dest r m = Ok ((p, Z.of_nat (length src), r'), m') /\
    pointee p (Z.of_nat (length (refBytes src))) m' = Ok (refBytes src, m') /\
    quiet (H := R) file k m m' /\ reads (H := R) file k m' r' l bs (pos + length (refBytes src)).
Proof using Hnext.
  intros Hd Hr Hdrop Hdest. destruct (header_word src Hd) as (h & tl & Hh & Hh32 & Hdh). pose proof (refBytes_short src Hd) as Hshort.
  pose proof (f_equal length Hdrop) as Hl. rewrite length_drop, length_app in Hl.
  cbn [DecodeMayCopy ReferenceCompressIntEncoder]. unfold Reference_DecodeMayCopy.
  destruct (PeekInt32_word R file k l m r bs pos h (tl ++ rest) Hnext Hr) as (m1 & Hpeek & Hq1); try done.
  { by rewrite Hdrop, Hh, app_assoc. }
  srun Hpeek. rewrite Hdh.
  destruct (ReadMayCopy_ok (H := R) file k l Hnext m1 r bs pos (memoryOf 4 dest) (length (refBytes src)) (reads_quiet _ _ _ _ _ _ _ _ Hr Hq1) ltac:(lia))
    as (p & r2 & m2 & Hrun2 & Hp & Hq2 & Hr2).
  { rewrite length_memoryOf. lia. }
  rewrite Nat.min_l in * by lia. srun Hrun2. rewrite u32_small, Z.eqb_refl by lia. cbn [negb]. exists p, r2, m2.
  rewrite Hp, Hdrop, take_app_length. split; [done|]. split; [done|]. split; [by eapply quiet_trans | done].
Qed.

Lemma Reference_Decode_ok m r bs pos rest src dest :
  docRecord src -> reads (H := R) file k m r l bs pos -> drop pos bs = refBytes src ++ rest -> (128 <= length dest)%nat ->
  Forall byte (refBytes src) ->
  exists dest' r' m', Decode (IntEncoder := ReferenceCompressIntEncoder 4) R dest r m = Ok ((dest', Z.of_nat (length src), r'), m') /\
    memoryOf 4 dest' = refBytes src ++ drop (length (refBytes src)) (memoryOf 4 dest) /\
    quiet (H := R) file k m m' /\ reads (H := R) file k m' r' l bs (pos + length (refBytes src)).
Proof using Hnext.
  intros Hd Hr Hdrop Hdest Hbyte. destruct (header_word src Hd) as (h & tl & Hh & Hh32 & Hdh). pose proof (refBytes_short src Hd) as Hshort.
  pose proof (f_equal length Hdrop) as Hl. rewrite length_drop, length_app in Hl.
  cbn [Decode ReferenceCompressIntEncoder]. unfold Reference_Decode.
  destruct (PeekInt32_word R file k l m r bs pos h (tl ++ rest) Hnext Hr) as (m1 & Hpeek & Hq1); try done.
  { by rewrite Hdrop, Hh, app_assoc. }
  srun Hpeek. rewrite Hdh. unfold ReadTo.
  destruct (Read_ok (H := R) file k l Hnext m1 r bs pos (memoryOf 4 dest) (length (refBytes src)) (reads_quiet _ _ _ _ _ _ _ _ Hr Hq1) ltac:(lia))
    as (r2 & m2 & Hrun2 & Hq2 & Hr2).
  { rewrite length_memoryOf. lia. }
  rewrite Nat.min_l in * by lia. erewrite sbind_ok; [|srun Hrun2; reflexivity]. cbv beta iota. rewrite u32_small, Z.eqb_refl by lia. cbn [negb].
  eexists _, r2, m2. split; [done|]. rewrite Hdrop, take_app_length. split; [|split; [by eapply quiet_trans | done]].
  apply memoryOf_valuesOf.
  - apply Forall_app. split; [done | apply Forall_drop, memoryOf_byte].
  - rewrite length_app, length_drop, length_memoryOf. lia.
Qed.
End Decoding.

Lemma refBytes_byte src : Forall byte (refBytes src).
Proof.
  unfold refBytes. case_match; [apply memoryOf_byte|].
  apply Forall_app. split; [apply bytes_byte|]. apply Forall_app. split; [apply bytes_byte | apply memoryOf_byte].
Qed.

(** ** [ReferenceCompressIntReader] *)

Lemma valueAt_memoryOf k xs rest i x :
  Forall (fits (8 * Z.of_nat k)) xs -> xs !! i = Some x -> valueAt k (memoryOf k xs ++ rest) (i * k) = Ok x.
Proof.
  intros Hf Hi. pose proof (lookup_lt_Some _ _ _ Hi) as Hlt. unfold valueAt. rewrite length_app, length_memoryOf.
  rewrite (proj2 (Nat.ltb_ge _ _)) by nia. rewrite drop_app_le by (rewrite length_memoryOf; nia). rewrite drop_memoryOf, (drop_S _ _ _ Hi).
  rewrite memoryOf_cons, <- app_assoc, take_app_length' by (by rewrite length_bytes). rewrite fits_bytes; [done|].
  rewrite List.Forall_forall in Hf. apply Hf. apply list_elem_of_In. by eapply list_elem_of_lookup_2.
Qed.

(** [r] stands for the values of [src]; those in front of the index [c] are passed. *)
Record refReads (src : list Z) (c : nat) (r : ReferenceCompressIntReader) : Prop := {
  rr_first : _first r = first src;
  rr_cursor : _cursor r = Z.of_nat c;
  rr_len : _len r = 1 \/ _len r = 2 \/ _len r = 4;
  rr_base : 0 <= _base r <= first src;
  rr_fits : Forall (fits (8 * _len r)) (map (fun v => v - _base r) (tail src));
  rr_data : exists rest, _data r = memoryOf (Z.to_nat (_len r)) (map (fun v => v - _base r) (tail src)) ++ rest
}.

Lemma Reset_reads src rest : docRecord src -> exists r, Reset 4 (refBytes src ++ rest) = Ok r /\ refReads src 1 r.
Proof.
  intros Hd. pose proof (refBytes_short src Hd). pose proof (distances_fit src Hd) as Hfit. pose proof (width_cases src) as Hw3.
  destruct (header_word src Hd) as (h & tl & Hh & Hh32 & Hdh). destruct (docRecord_cons src Hd) as (x & t & Hsrc & Hx & Hx32 & Hx31).
  pose proof Hd as [[Hl Hf] _ _]. unfold Reset.
  assert (valueAt 4 (refBytes src ++ rest) 0 = Ok h) as ->.
  { unfold valueAt. rewrite length_app, (proj2 (Nat.ltb_ge _ _)), drop_0, Hh, <- app_assoc, take_app_length' by (rewrite ?length_bytes; lia). by rewrite fits_bytes. }
  cbn [res_bind]. unfold refBytes in *. destruct (plain src) eqn:Hp.
  - rewrite Hsrc in Hh at 1. rewrite memoryOf_cons in Hh. apply app_inj_1 in Hh as [Hxh _]; [|by rewrite !length_bytes].
    assert (h = x) as -> by (rewrite <- (fits_bytes 4 h), <- (fits_bytes 4 x) by done; by rewrite Hxh).
    unfold fits in *. rewrite i32_small, (proj2 (Z.ltb_ge _ _)) by lia.
    eexists. split; [done|]. split; cbn [_first _cursor _len _base _data]; try done; try lia.
    + rewrite Hsrc in Hf |- *. apply Forall_cons in Hf as [_ Hf]. cbn [tail]. apply Forall_fmap. eapply Forall_impl; [exact Hf|]. intros v Hv. cbn. by rewrite Z.sub_0_r.
    + exists rest. rewrite Hsrc at 1. rewrite memoryOf_cons, <- app_assoc, drop_app_length' by (by rewrite length_bytes). rewrite Hsrc. cbn [tail]. do 2 f_equal.
      symmetry. rewrite <- (map_id t) at 2. apply map_ext. intros v. lia.
  - assert (h = u32 (- headerOf src)) as ->.
    { rewrite <- (bytes_mod 4 (- _)) in Hh. apply app_inj_1 in Hh as [Hxh _]; [|by rewrite !length_bytes].
      rewrite <- (fits_bytes 4 h), <- (fits_bytes 4 (u32 _)) by (done || apply u32_range). change (256 ^ Z.of_nat 4) with (2 ^ 32) in Hxh. unfold u32. by rewrite Hxh. }
    set (hd := headerOf src) in *. assert (hd = width src * 65536 + Z.of_nat (length src)) as Hhd by done.
    replace (i32 (u32 (- hd))) with (- hd) by (unfold i32, u32; rewrite Zplus_mod_idemp_l, Z.mod_small by lia; lia).
    rewrite (proj2 (Z.ltb_lt _ _)), Z.opp_involutive, (i32_small hd) by lia.
    assert (valueAt 4 ((bytes 4 (- hd) ++ bytes 4 (first src) ++ memoryOf (Z.to_nat (width src)) (distances src)) ++ rest) 4 = Ok (first src)) as ->.
    { unfold valueAt. rewrite !length_app, !length_bytes, (proj2 (Nat.ltb_ge _ _)), <- !app_assoc, drop_app_length', take_app_length' by (rewrite ?length_bytes; lia).
      rewrite Hx. by rewrite fits_bytes. }
    cbn [res_bind]. eexists. split; [done|]. rewrite Z.shiftr_div_pow2 by lia. change (2 ^ 16) with 65536.
    rewrite Hhd, Z.div_add_l, Z.div_small, Z.add_0_r, (Z.mod_small (width src)) by lia.
    unfold fits in *. split; cbn [_first _cursor _len _base _data]; try done; try lia.
    exists rest. rewrite app_assoc, <- app_assoc, drop_app_length'; [done|]. rewrite length_app, !length_bytes. lia.
Qed.

(** An element of the data *)
Lemma element_ok src c r i v :
  refReads src c r -> src !! S i = Some v -> v < 2 ^ 32 ->
  valueAt (Z.to_nat (_len r)) (_data r) (i * Z.to_nat (_len r)) = Ok (v - _base r) /\ 0 <= v - _base r < 2 ^ 32.
Proof.
  intros [_ _ Hlen Hbase Hfit (rest & ->)] Hi Hv. destruct src as [|x t]; [done|]. change (t !! i = Some v) in Hi.
  assert (map (fun v => v - _base r) (tail (x :: t)) !! i = Some (v - _base r)) as Hm by (etransitivity; [exact (list_lookup_fmap (fun v => v - _base r) t i) | by rewrite Hi]).
  split; [apply valueAt_memoryOf; [by rewrite Z2Nat.id by lia | done]|].
  assert (fits (8 * _len r) (v - _base r)) as [? _]; [|lia].
  rewrite List.Forall_forall in Hfit. apply Hfit, list_elem_of_In. by eapply list_elem_of_lookup_2.
Qed.

(** [operator[]] yields the values of the record. *)
Lemma at_ok src c r i v : refReads src c r -> src !! i = Some v -> fits 32 v -> at_ 4 i r = Ok v.
Proof.
  intros Hr Hi [Hv Hv32]. destruct i as [|i]; cbn [at_].
  - destruct Hr as [-> _ _ _ _ _]. destruct src; [done|]. cbn in *. unfold first. cbn. congruence.
  - destruct (element_ok src c r i v Hr Hi Hv32) as [He Hb]. pose proof (rr_len _ _ _ Hr) as Hl. rewrite Nat.mul_comm in He.
    destruct Hl as [Hl|[Hl|Hl]]; rewrite Hl in *; cbn [Z.eqb Pos.eqb];
      match type of He with context [Z.to_nat ?z] => let n := eval compute in (Z.to_nat z) in change (Z.to_nat z) with n in * end;
      rewrite He; cbn [res_bind];
      change (256 ^ Z.of_nat 4) with (2 ^ 32); rewrite Z.sub_add, Z.mod_small by lia; done.
Qed.

(** [j] is the first index from [c] on with a value of at least [v], which is [y]. *)
Definition firstFrom (src : list Z) (c j : nat) (v y : Z) : Prop :=
  (c <= j)%nat /\ src !! j = Some y /\ v <= y /\ forall i z, (c <= i < j)%nat -> src !! i = Some z -> z < v.

Lemma doSeekLoop_ok src c r c0 j v y fuel :
  refReads src c0 r -> (0 < c)%nat -> firstFrom src c j v y -> Forall (fits 32) src -> (j - c < fuel)%nat -> (length src <= 128)%nat ->
  doSeekLoop fuel (Z.to_nat (_len r)) (v - _base r) (Z.of_nat (c - 1)) (_data r) = Ok (y - _base r, Z.of_nat j).
Proof.
  intros Hr. revert c. induction fuel as [|fuel IH]; intros c Hc (Hcj & Hy & Hvy & Hbefore) Hf Hfuel Hl; [lia|]. cbn [doSeekLoop].
  pose proof (lookup_lt_Some _ _ _ Hy) as Hj. assert (forall i z, src !! i = Some z -> fits 32 z) as Hfit.
  { intros i z Hi. rewrite List.Forall_forall in Hf. apply Hf, list_elem_of_In. by eapply list_elem_of_lookup_2. }
  destruct (lookup_lt_is_Some_2 src c ltac:(lia)) as [z Hz]. destruct c as [|c]; [lia|].
  destruct (element_ok src c0 r c z Hr Hz ltac:(apply (Hfit _ _ Hz))) as [He _]. replace (S c - 1)%nat with c by lia.
  rewrite Nat2Z.id, He. cbn [res_bind]. rewrite u32_small by lia. destruct (decide (S c = j)) as [<-|Hne].
  - assert (z = y) as -> by congruence. rewrite (proj2 (Z.ltb_ge _ _)) by lia. do 2 f_equal. lia.
  - pose proof (Hbefore (S c) z ltac:(lia) Hz). rewrite (proj2 (Z.ltb_lt _ _)) by lia.
    replace (Z.of_nat c + 1) with (Z.of_nat (S (S c) - 1)) by lia. apply IH; try done; try lia.
    split_and!; try done; try lia. intros i z' Hi. apply Hbefore. lia.
Qed.

(** [Seek] finds the first value from the cursor on that is at least [v]. *)
Lemma refSeek_ok src c r j v y :
  docRecord src -> refReads src c r -> (0 < c)%nat -> firstFrom src c j v y -> _base r < v ->
  exists r', Seek 4 v r = Ok (y, r') /\ refReads src (S j) r'.
Proof.
  intros Hd Hr Hc Hfirst Hv. pose proof Hr as [Hf Hcur Hlen Hbase Hfit (rest & Hdata)]. pose proof Hd as [[Hl H32] _ _].
  pose proof Hfirst as (Hcj & Hy & Hvy & _). pose proof (lookup_lt_Some _ _ _ Hy) as Hj.
  assert (fits 32 y) as [Hy0 Hy32] by (rewrite List.Forall_forall in H32; apply (H32 y), list_elem_of_In; by eapply list_elem_of_lookup_2).
  assert (length (tail src) = length src - 1)%nat as Htl by (destruct src; cbn; lia).
  set (r' := mkRefReader (_data r) (_first r) (_base r) (Z.of_nat (S j)) (_len r)).
  assert (DoSeek 4 (Z.to_nat (_len r)) v r = Ok (y, r')) as Hseek.
  { unfold DoSeek. change (256 ^ Z.of_nat 4) with (2 ^ 32). rewrite (Z.mod_small (v - _base r)) by lia.
    rewrite Hcur, (u32_small (Z.of_nat c - 1)) by lia. replace (Z.of_nat c - 1) with (Z.of_nat (c - 1)) by lia.
    rewrite (doSeekLoop_ok src c r c j v y); try done; [|rewrite Hdata, length_app, length_memoryOf, length_map, Htl; nia | lia].
    cbn [res_bind]. rewrite Z.sub_add, Z.mod_small, u32_small by lia. unfold r'. do 3 f_equal. lia. }
  exists r'. split.
  - unfold Seek. destruct Hlen as [Hlen|[Hlen|Hlen]]; rewrite Hlen in *; exact Hseek.
  - split; cbn; try done. by exists rest.
Qed.

(** A sequence of seeks, and the same on the list of values: each takes the first value of at least [v] behind the
    one that was found before *)
Fixpoint seekAll (vs : list Z) (r : ReferenceCompressIntReader) : res (list Z) :=
  match vs with
  | [] => Ok []
  | v :: vs =>
      let! (y, r) := Seek 4 v r in
      let! ys := seekAll vs r in
      Ok (y :: ys)
  end.

Fixpoint specSeeks (src : list Z) (vs : list Z) : option (list Z) :=
  match vs with
  | [] => Some []
  | v :: vs =>
      match list_find (fun y => v <= y) src with
      | Some (j, y) => match specSeeks (drop (S j) src) vs with Some ys => Some (y :: ys) | None => None end
      | None => None
      end
  end.

Lemma seekAll_ok src c r vs ys :
  docRecord src -> refReads src c r -> (0 < c)%nat -> Forall (fun v => first src < v) vs ->
  specSeeks (drop c src) vs = Some ys -> seekAll vs r = Ok ys.
Proof.
  intros Hd Hr Hc Hf. revert c r ys Hr Hc. induction Hf as [|v vs Hv Hf IH]; intros c r ys Hr Hc Hs; cbn [specSeeks seekAll] in *; [congruence|].
  destruct (list_find _ (drop c src)) as [[j y]|] eqn:Hj; [|done]. apply list_find_Some in Hj as (Hy & Hvy & Hbefore).
  destruct (specSeeks _ vs) as [ys'|] eqn:Hrest; [|done]. injection Hs as <-. rewrite lookup_drop in Hy.
  destruct (refSeek_ok src c r (c + j) v y Hd Hr Hc) as (r' & Hseek & Hr').
  - split_and!; [lia | done | done|]. intros i z Hi Hz.
    assert (~ v <= z) as Hnot; [|lia]. apply (Hbefore (i - c)%nat z); [|lia]. rewrite lookup_drop. by replace (c + (i - c))%nat with i by lia.
  - pose proof (rr_base _ _ _ Hr). lia.
  - rewrite Hseek. cbn [res_bind]. rewrite (IH (S (c + j)) r' ys'); [done | done | lia|].
    rewrite drop_drop in Hrest. by replace (c + S j)%nat with (S (c + j)) in Hrest by lia.
Qed.

End ReferenceCorrect.
