(* ===== verification/PostingRecords.v ===== *)
(** * Records of posting lists

    The encoders [EncoderProvider] hands out for the lists of a posting, and sequences of records written with them
    to slices and read back. *)

From stdpp Require Import base list numbers option tactics gmap.
From Stdlib Require Import ZArith Lia ZifyNat ZifyBool.
From S2P Require Import Prelude Bits WordCode WordStream ByteSliceList SliceChain VbyteCompressor PForDelta PForDeltaFrames PForDeltaCorrect ByteSliceWriter BlockByteSliceList ByteSliceReader ByteSliceWriterCorrect ByteSliceReaderCorrect IntEncoders IntEncodersCorrect.

#[local] Open Scope Z_scope.
#[local] Open Scope store_scope.

Module Records.
Import Encoders WriterCorrect ReaderCorrect EncodersCorrect.

(** The lists [EncoderProvider] has encoders for *)
Inductive ListKind := DocList | TfList | PosList | FieldMap | DocPayload | PosPayload | SkipList.

Definition GetEncoder (_disableSseOptimize : bool) (junk : list Z) (kind : ListKind) (param : EncoderParam) : option IntEncoder :=
  match kind with
  | DocList => GetDocListEncoder _disableSseOptimize junk param
  | TfList => GetTfListEncoder _disableSseOptimize junk param
  | PosList => GetPosListEncoder _disableSseOptimize junk param
  | FieldMap => GetFieldMapEncoder junk param
  | DocPayload => GetDocPayloadEncoder junk param
  | PosPayload => GetPosPayloadEncoder junk param
  | SkipList => GetSkipListEncoder _disableSseOptimize junk param
  end.

(** The size of a value of the list *)
Definition valueSize (kind : ListKind) : nat :=
  match kind with FieldMap | PosPayload => 1 | DocPayload => 2 | _ => 4 end.

(** The bytes do not say how many values there are. *)
Definition withoutLength (kind : ListKind) (param : EncoderParam) : bool :=
  match kind, mode param with SkipList, SHORT_LIST_COMPRESS_MODE => true | _, _ => false end.

(** [Decode] yields values, not the bytes of reference compression. *)
Definition decodesValues (kind : ListKind) (param : EncoderParam) : bool :=
  match kind, mode param with
  | _, DICT_INLINE_COMPRESS_MODE => false
  | DocList, REFERENCE_COMPRESS_MODE => false
  | _, _ => true
  end.

(** A buffer on the stack of an encoder *)
Definition isBuffer (junk : list Z) : Prop := Z.of_nat (length junk) = PFor.ENCODER_BUFFER_SIZE.

Lemma provider_laws sse sse' junk junk' kind param :
  isBuffer junk -> isBuffer junk' -> decodesValues kind param = true ->
  exists E D, GetEncoder sse junk kind param = Some E /\ GetEncoder sse' junk' kind param = Some D /\
    EncoderLaws (valueSize kind) (withoutLength kind param) E D.
Proof.
  intros Hj Hj' Hv.
  assert (forall C D n opt, In n [1; 2; 4]%nat -> Frames.CompressorLaws C -> Frames.CompressorLaws D ->
    EncoderLaws n false (NewPForDeltaIntEncoder C n opt junk) (NewPForDeltaIntEncoder D n opt junk')) as HP.
  { intros C D n opt Hn HC HD. apply PFor_laws; try done. unfold PForCorrect.valueWidth.
    destruct Hn as [<-|[<-|[<-|[]]]]; auto. }
  pose proof Frames.nosse_laws as HN. pose proof Frames.sse_laws as HS.
  destruct param as [md vb opt], kind, md; try done; cbn [GetEncoder valueSize withoutLength mode]; do 2 eexists; (split; [reflexivity|]); (split; [reflexivity|]);
    unfold GetInt32PForDeltaEncoder, pforEncoder; cbn [shortListVbyteCompress enableP4DeltaBlockOpt];
    repeat case_match; try (apply HP; cbn; auto; fail);
    first [apply Vbyte_laws | apply (NoCompress_laws _ true); lia | apply (NoCompress_laws _ false); lia].
Qed.

(** A record of a list: the list it belongs to, the parameter of its encoder and the values *)
Definition Item : Type := ListKind * EncoderParam * list Z.
Definition values (x : Item) : list Z := snd x.

Definition validItem (x : Item) : Prop :=
  let '(kind, param, src) := x in decodesValues kind param = true /\ record (valueSize kind) src.

Section Runs.
Context (_disableSseOptimize : bool) (junk : list Z).

Fixpoint encodeAll (xs : list Item) (w : Writer.ByteSliceWriter) : SM Writer.ByteSliceWriter :=
  match xs with
  | [] => ret w
  | (kind, param, src) :: xs =>
      let* E := lift (deref (GetEncoder _disableSseOptimize junk kind param)) in
      let* (_, w) := Encode src w in
      encodeAll xs w
  end.

(** The array for the values of a record *)
Definition destOf (x : Item) : list Z :=
  let '(kind, param, src) := x in if withoutLength kind param then repeat 0 (length src) else repeat 0 128.

(** The values of each record, as many as [Decode] says *)
Fixpoint decodeAll {R : BlockDataRetriever} (xs : list Item) (r : Reader.ByteSliceReader)
    : SM (list (list Z) * Reader.ByteSliceReader) :=
  match xs with
  | [] => ret ([], r)
  | (kind, param, src) :: xs =>
      let* D := lift (deref (GetEncoder _disableSseOptimize junk kind param)) in
      let* (dest, count, r) := Decode R (destOf (kind, param, src)) r in
      let* (vs, r) := decodeAll xs r in
      ret (take (Z.to_nat count) dest :: vs, r)
  end.
End Runs.

(** Bytes that stand for records *)
Definition stands (sse' : bool) (junk' : list Z) (xs : list Item) (bs : list Z) : Prop :=
  forall (R : BlockDataRetriever) file k l m r all pos rest,
    next_ok (H := R) file k l -> reads (H := R) file k m r l all pos -> drop pos all = bs ++ rest ->
    exists r' m', decodeAll sse' junk' xs r m = Ok ((map values xs, r'), m') /\ quiet (H := R) file k m m' /\
      reads (H := R) file k m' r' l all (pos + length bs).

Lemma destOf_ok kind param src :
  validItem (kind, param, src) -> destFor (valueSize kind) (withoutLength kind param) src (destOf (kind, param, src)).
Proof.
  intros [_ [Hl _]]. cbn [destOf]. split.
  - case_match; apply List.Forall_forall; intros v Hv%repeat_spec; subst v; unfold fits; lia.
  - case_match; rewrite repeat_length; lia.
Qed.

(** Records are written one after the other, and their bytes are read back. *)
Lemma encodeAll_ok sse sse' junk junk' xs :
  isBuffer junk -> isBuffer junk' -> Forall validItem xs ->
  exists bs, (length bs <= 1024 * length xs)%nat /\ (xs <> [] -> bs <> []) /\ stands sse' junk' xs bs /\
    forall m w l C old, writes m w l C old -> Z.of_nat (length old + 1024 * length xs) < 2 ^ 62 ->
      exists w' m', encodeAll sse junk xs w m = Ok (w', m') /\ appended m l C old (map Some bs) w' m'.
Proof.
  intros Hj Hj'. induction 1 as [|[[kind param] src] xs Hx Hxs IH].
  { exists []. split; [done|]. split; [done|]. split.
    - intros R file k l m r all pos rest Hn Hr Hd. exists r, m. rewrite Nat.add_0_r. split; [done|]. split; [apply quiet_refl, (rd_store _ _ _ _ _ _ _ Hr) | done].
    - intros m w l C old Hw _. exists w, m. split; [done | by apply appended_refl]. }
  pose proof Hx as [Hdv Hrec]. destruct IH as (bs & Hlen & _ & Hst & Hwr).
  destruct (provider_laws sse sse' junk junk' kind param Hj Hj' Hdv) as (E & D & HE & HD & Hlaw).
  destruct (Hlaw src Hrec) as (enc & [Hel Henc] & [Hdec _]). exists (enc ++ bs).
  split; [rewrite length_app; cbn; lia|]. split; [intros _; by destruct enc; [cbn in Hel; lia|]|]. split.
  - intros R file k l m r all pos rest Hn Hr Hd. rewrite <- app_assoc in Hd. cbn [decodeAll]. rewrite HD. srun (eq_refl (Ok (D, m))).
    destruct (Hdec R file k l m r all pos (bs ++ rest) (destOf (kind, param, src)) Hn Hr Hd) as (r1 & m1 & Hrun1 & Hq1 & Hr1).
    { by apply destOf_ok. }
    srun Hrun1. destruct (Hst R file k l m1 r1 all (pos + length enc)%nat rest Hn Hr1) as (r2 & m2 & Hrun2 & Hq2 & Hr2).
    { rewrite <- drop_drop, Hd. apply drop_app_length. }
    srun Hrun2. exists r2, m2. rewrite Nat2Z.id, take_app_length, length_app, Nat.add_assoc.
    split; [done|]. split; [by eapply quiet_trans | done].
  - intros m w l C old Hw Hb. cbn [encodeAll]. rewrite HE. srun (eq_refl (Ok (E, m))). cbn [length] in Hb.
    destruct (Henc m w l C old Hw ltac:(lia)) as (w1 & m1 & Hrun1 & Ha1). srun Hrun1.
    destruct (appended_cons _ _ _ _ _ _ _ Ha1) as (C1 & Hw1 & Hcons).
    destruct (Hwr m1 w1 l C1 _ Hw1) as (w2 & m2 & Hrun2 & Ha2); [rewrite length_app, length_map; lia|].
    exists w2, m2. split; [done|]. rewrite map_app. by apply Hcons.
Qed.

End Records.
