(* ===== verification/ByteSliceTheorems.v ===== *)
(** * Byte slices and encoders: theorems

    What writers append is what readers find, in memory and in files that are read block by block; what the
    encoders of posting lists write they read back. *)

From stdpp Require Import base list numbers option tactics gmap sorting.
From Stdlib Require Import ZArith Lia ZifyNat ZifyBool.
From S2P Require Import Prelude Bits WordCode WordStream PForDelta ByteSliceList SliceChain VbyteCompressor ByteSliceWriter BlockByteSliceList ByteSliceReader ByteSliceWriterCorrect ByteSliceReaderCorrect BlockSliceCorrect ByteSliceHistories IntEncoders IntEncodersCorrect ReferenceEncoderCorrect PostingRecords.

#[local] Open Scope Z_scope.
#[local] Open Scope store_scope.

Import Writer Reader WriterCorrect WriterRanges ReaderCorrect BlockCorrect History.

(** A store with no objects *)
Definition emptyStore : Store := mkStore ∅ ∅ 0%nat.

Lemma emptyStore_ok : storeOk emptyStore.
Proof. intros a s H. cbn in H. by rewrite lookup_empty in H. Defined.

(** A file that grows by what is written to it *)
Definition appendFile (f bs : list Z) : res (list Z) := Ok (f ++ bs).

Lemma writeSlices_append f xs : writeSlices appendFile f xs = Ok (f ++ concat xs).
Proof. revert f. induction xs as [|x xs IH]; intros f; cbn; [by rewrite app_nil_r|]. rewrite IH. by rewrite app_assoc. Qed.

(** What a new writer holds after a history *)
Lemma history_writes m minSliceSize ops :
  storeOk m -> GetHeadSize <= minSliceSize < 2 ^ 31 -> Forall wfW ops -> Z.of_nat (length (written ops)) < 2 ^ 62 ->
  exists w m1 w' m2 l C, new_ByteSliceWriter minSliceSize m = Ok (w, m1) /\ runWs ops w m1 = Ok (w', m2) /\
    writes m2 w' l C (map Some (written ops)) /\
    (forall x, (x < brk m)%nat -> slices m2 !! x = slices m !! x /\ lists m2 !! x = lists m !! x).
Proof.
  intros Hst Hmin Hf Hlen.
  destruct (new_ByteSliceWriter_ok m minSliceSize Hst Hmin) as (w & m1 & l & C & Hnew & Hw & Hbrk & Hl & HC & Hframe).
  destruct (runWs_ok ops m1 w l C [] Hw Hf ltac:(cbn; lia)) as (w' & m2 & Hrun & (C2 & Hw2 & _ & He)).
  exists w, m1, w', m2, l, C2. split_and!; try done. intros x Hx. destruct (Hframe x Hx) as [<- <-]. destruct He as [Hs Hls _ _]. split.
  - apply Hs; [|lia]. intros Hin. apply HC in Hin. lia.
  - apply Hls. lia.
Qed.

(** C11. A [ByteSliceWriter] appends: after any sequence of writes of bytes, integers of any size, numbers of
    variable length and arrays, which go through as many slices of growing size as they need, [GetSize] is
    the number of bytes and [Dump] writes exactly these bytes, in order, to the file. Slices and lists that
    were there before are not touched. *)
Theorem writer_history_correct (m : Store) (minSliceSize : Z) (ops : list WOp) :
  storeOk m -> GetHeadSize <= minSliceSize < 2 ^ 31 -> Forall wfW ops -> Z.of_nat (length (written ops)) < 2 ^ 62 ->
  exists w m1 w' m2, new_ByteSliceWriter minSliceSize m = Ok (w, m1) /\ runWs ops w m1 = Ok (w', m2) /\
    Writer.GetSize w' m2 = Ok (Z.of_nat (length (written ops)), m2) /\
    Dump appendFile [] w' m2 = Ok (written ops, m2) /\
    (forall x, (x < brk m)%nat -> slices m2 !! x = slices m !! x /\ lists m2 !! x = lists m !! x).
Proof.
  intros Hst Hmin Hf Hlen. destruct (history_writes m minSliceSize ops Hst Hmin Hf Hlen) as (w & m1 & w' & m2 & l & C & Hnew & Hrun & Hw & Hframe).
  exists w, m1, w', m2. split_and!; try done.
  - rewrite (GetSize_ok _ _ _ _ _ Hw), length_map. done.
  - destruct (Dump_ok appendFile m2 w' l C _ Hw) as (xs & Hxs & Hd). rewrite Hd, writeSlices_append. cbn. by rewrite Hxs.
Qed.

Definition sampleWrites : list WOp := [WInt 4 (-2); WByte 7; WVInt 300; WBytes (repeat 9 40); WInt 8 1000000].

Lemma writer_history_witness :
  exists w m1 w' m2, new_ByteSliceWriter 44 emptyStore = Ok (w, m1) /\ runWs sampleWrites w m1 = Ok (w', m2) /\
    Writer.GetSize w' m2 = Ok (55, m2) /\ Dump appendFile [] w' m2 = Ok (written sampleWrites, m2) /\
    (forall x, (x < 0)%nat -> slices m2 !! x = slices emptyStore !! x /\ lists m2 !! x = lists emptyStore !! x).
Proof.
  apply (writer_history_correct emptyStore 44 sampleWrites).
  - apply emptyStore_ok.
  - vm_compute. by split.
  - repeat constructor; cbn; lia.
  - vm_compute. done.
Defined.

(** C19. A [ByteSliceReader] reads across slices as if the bytes were one array: after any history of a writer,
    a reader opened on its list yields, for any sequence of reads of bytes, integers, numbers of variable
    length, copies, pointers, peeks and seeks forward that stay within the bytes, what the operation
    yields on the array, and [Tell] is the position in it. In front of the end, peeking across it and
    seeking back are errors, and seeking to the end or past it yields the end mark. *)
Theorem slice_reader_correct (R : BlockDataRetriever) (m : Store) (minSliceSize : Z) (wops : list WOp) (rops : list ROp)
    (vs : list (list Z)) (pos : nat) :
  storeOk m -> GetHeadSize <= minSliceSize < 2 ^ 31 -> Forall wfW wops -> Z.of_nat (length (written wops)) < 2 ^ 62 ->
  Forall wfR rops -> specRs (written wops) rops 0 = Some (vs, pos) ->
  exists w m1 w' m2 l r r' m3,
    new_ByteSliceWriter minSliceSize m = Ok (w, m1) /\ runWs wops w m1 = Ok (w', m2) /\ Writer._sliceList w' = Some l /\
    Open l new_ByteSliceReader m2 = Ok (r, m2) /\ runRs rops r m2 = Ok ((vs, r'), m3) /\ Tell r' = Z.of_nat pos /\
    forall o, (pos < length (written wops))%nat -> Z.of_nat o < 2 ^ 62 ->
      ((length (written wops) < pos + 4)%nat -> PeekInt32 r' m3 = Error FileIO) /\
      ((o < pos)%nat -> Seek (Z.of_nat o) r' m3 = Error FileIO) /\
      ((length (written wops) <= o)%nat -> exists r2, Seek (Z.of_nat o) r' m3 = Ok ((u64 BYTE_SLICE_EOF, r2), m3)).
Proof.
  intros Hst Hmin Hf Hlen Hr Hspec. destruct (history_writes m minSliceSize wops Hst Hmin Hf Hlen) as (w & m1 & w' & m2 & l & C & Hnew & Hrun & Hw & _).
  destruct (Open_written R m2 new_ByteSliceReader w' l C _ Hw Hlen) as (r & Hopen & Hreads & _).
  destruct (runRs_ok [] false l (plain_next_ok [] l) (plain_prepare_ok [] l) rops m2 r _ 0 vs pos Hreads Hr Hspec) as (r' & m3 & Hrs & _ & Hr').
  exists w, m1, w', m2, l, r, r', m3. split_and!; try done; [by destruct Hw as (? & ? & ? & _ & [] & _) | by apply (rd_offset _ _ _ _ _ _ _ Hr')|].
  intros o Hlt Ho. by apply (read_errors [] false l (plain_next_ok [] l) (plain_prepare_ok [] l) m3 r' (written wops) pos o).
Qed.

(** A retriever that keeps the file in memory *)
Definition memoryRetriever (blockSize : Z) (file : list Z) : BlockDataRetriever :=
  NoCompressBlockDataRetriever blockSize (Z.of_nat (length file))
    (fun bo => Ok (take (Z.to_nat blockSize) (drop (Z.to_nat bo) file))).

Lemma memoryRetriever_laws blockSize file :
  0 < blockSize -> Z.of_nat (length file) < 2 ^ 62 -> RetrieverLaws (memoryRetriever blockSize file) file.
Proof.
  intros Hb Hl. apply NoCompressRetriever_laws; [done | done|]. intros bo Hbo _. eexists. split; [done|]. cbv zeta.
  rewrite take_take, Nat.min_l by lia. done.
Defined.

Definition sampleReads : list ROp := [RPeek; RByte; RSeek 4; RByte; RVInt; RRead 20; RMayCopy 5; RInt 4; RSeek 54].

Lemma slice_reader_witness :
  let R := memoryRetriever 8 [] in
  exists w m1 w' m2 l r r' m3,
    new_ByteSliceWriter 44 emptyStore = Ok (w, m1) /\ runWs sampleWrites w m1 = Ok (w', m2) /\ Writer._sliceList w' = Some l /\
    Open l new_ByteSliceReader m2 = Ok (r, m2) /\
    runRs sampleReads r m2 =
      Ok (([[-2]; [254]; [4]; [7]; [300]; repeat 9 20; repeat 9 5; [151587081]; [54]], r'), m3) /\ Tell r' = 54 /\
    forall o, (54 < 55)%nat -> Z.of_nat o < 2 ^ 62 ->
      ((55 < 58)%nat -> PeekInt32 r' m3 = Error FileIO) /\
      ((o < 54)%nat -> Seek (Z.of_nat o) r' m3 = Error FileIO) /\
      ((55 <= o)%nat -> exists r2, Seek (Z.of_nat o) r' m3 = Ok ((u64 BYTE_SLICE_EOF, r2), m3)).
Proof.
  intros R. apply (slice_reader_correct R emptyStore 44 sampleWrites sampleReads _ 54).
  - apply emptyStore_ok.
  - vm_compute. by split.
  - repeat constructor; cbn; lia.
  - vm_compute. done.
  - repeat constructor; cbn; lia.
  - vm_compute. done.
Defined.

(** C26. A reader of a [BlockByteSliceList] reads a range of a file as if it were one array: a list with one block
    at [fileOffset] is opened, blocks are fetched and slices split while it is read, and any sequence of
    operations that stays within the range yields what it yields on the bytes of the file there. The
    retriever may use blocks of any size; it has to return the bytes of the file. *)
Theorem block_reader_correct (R : BlockDataRetriever) (file : list Z) (m : Store) (fileOffset n : Z) (rops : list ROp)
    (vs : list (list Z)) (pos : nat) :
  RetrieverLaws R file -> storeOk m -> 0 <= fileOffset -> 0 < n -> fileOffset + n <= Z.of_nat (length file) ->
  Forall wfR rops -> specRs (take (Z.to_nat n) (drop (Z.to_nat fileOffset) file)) rops 0 = Some (vs, pos) ->
  exists l m1 m2 r m3 r' m4,
    new_BlockByteSliceList m = Ok (l, m1) /\ AddBlock l fileOffset n m1 = Ok (tt, m2) /\
    Open l new_ByteSliceReader m2 = Ok (r, m3) /\ runRs rops r m3 = Ok ((vs, r'), m4) /\ Tell r' = Z.of_nat pos /\
    forall o, (pos < Z.to_nat n)%nat -> Z.of_nat o < 2 ^ 62 ->
      ((Z.to_nat n < pos + 4)%nat -> PeekInt32 r' m4 = Error FileIO) /\
      ((o < pos)%nat -> Seek (Z.of_nat o) r' m4 = Error FileIO) /\
      ((Z.to_nat n <= o)%nat -> exists r2, Seek (Z.of_nat o) r' m4 = Ok ((u64 BYTE_SLICE_EOF, r2), m4)).
Proof.
  intros Hlaws Hst Ho Hn Hend Hr Hspec.
  destruct (Open_block R file Hlaws m new_ByteSliceReader fileOffset n Hst Ho Hn Hend) as (l & m1 & m2 & r & m3 & Hnew & Hadd & Hopen & Hreads & _).
  pose proof (block_next_ok R file Hlaws l) as Hnext. pose proof (block_prepare_ok R file Hlaws l) as Hprep.
  destruct (runRs_ok file true l Hnext Hprep rops m3 r _ 0 vs pos Hreads Hr Hspec) as (r' & m4 & Hrs & _ & Hr').
  exists l, m1, m2, r, m3, r', m4. split_and!; try done; [by apply (rd_offset _ _ _ _ _ _ _ Hr')|].
  assert (length (take (Z.to_nat n) (drop (Z.to_nat fileOffset) file)) = Z.to_nat n) as Hlen by (rewrite length_take, length_drop; lia).
  intros o Hlt Hob. pose proof (read_errors file true l Hnext Hprep m4 r' _ pos o Hr') as He. rewrite Hlen in He. by apply He.
Qed.

Definition sampleFile : list Z := map (fun i => i mod 256) (seqZ 0 100).

Lemma block_reader_witness :
  let R := memoryRetriever 16 sampleFile in
  exists l m1 m2 r m3 r' m4,
    new_BlockByteSliceList emptyStore = Ok (l, m1) /\ AddBlock l 5 60 m1 = Ok (tt, m2) /\
    Open l new_ByteSliceReader m2 = Ok (r, m3) /\
    runRs [RByte; RRead 30; RSeek 40; RInt 4; RSeek 59] r m3 = Ok (([[5]; seqZ 6 30; [40]; [808398381]; [59]], r'), m4) /\ Tell r' = 59 /\
    forall o, (59 < 60)%nat -> Z.of_nat o < 2 ^ 62 ->
      ((60 < 63)%nat -> PeekInt32 r' m4 = Error FileIO) /\
      ((o < 59)%nat -> Seek (Z.of_nat o) r' m4 = Error FileIO) /\
      ((60 <= o)%nat -> exists r2, Seek (Z.of_nat o) r' m4 = Ok ((u64 BYTE_SLICE_EOF, r2), m4)).
Proof.
  intros R. apply (block_reader_correct R sampleFile emptyStore 5 60 [RByte; RRead 30; RSeek 40; RInt 4; RSeek 59] _ 59).
  - apply memoryRetriever_laws; vm_compute; done.
  - apply emptyStore_ok.
  - lia.
  - lia.
  - vm_compute. done.
  - repeat constructor; cbn; lia.
  - vm_compute. done.
Defined.

(** C27. The variable length code of [VByteCompressor]: a number of 32 bits takes as many bytes as it has
    groups of seven bits, and [GetVInt32Length] says how many. [EncodeVInt32] writes them when they fit in
    [maxOutputByte] and fails otherwise; [WriteVUInt32] writes the same bytes. [DecodeVInt32] and
    [ReadVUInt32] read the number back, whatever follows, and move behind it. *)
Theorem vbyte_roundtrip (v : Z) (dest pre rest : list Z) (maxLen : Z) :
  0 <= v < 2 ^ 32 -> 5 <= Z.of_nat (length dest) -> 0 <= maxLen < 2 ^ 32 ->
  exists bs, length bs = VByte.vbytesLength v /\ VByte.GetVInt32Length v = Ok (Z.of_nat (length bs)) /\
    VByte.EncodeVInt32 dest maxLen v =
      (if Z.of_nat (length bs) <=? maxLen then Ok (bs ++ drop (length bs) dest, Z.of_nat (length bs)) else Error OutOfRange) /\
    VByte.WriteVUInt32 v (pre ++ dest) (length pre) = Ok (pre ++ bs ++ drop (length bs) dest, (length pre + length bs)%nat) /\
    (Z.of_nat (length bs) <= maxLen -> VByte.DecodeVInt32 (bs ++ rest) maxLen = Ok (i32 v, Z.of_nat (length bs))) /\
    VByte.ReadVUInt32 (pre ++ bs ++ rest) (length pre) = Ok (v, (length pre + length bs)%nat).
Proof.
  intros Hv Hd Hmax. pose proof (u32_small v Hv) as Hu. exists (VByte.vbytes v).
  assert (length (VByte.vbytes v) <= 5)%nat as H5 by (rewrite VByte.vbytes_length by lia; unfold VByte.vbytesLength; repeat case_match; lia).
  split_and!.
  - apply VByte.vbytes_length. lia.
  - by rewrite VByte.GetVInt32Length_ok, Hu.
  - destruct (Z.leb_spec (Z.of_nat (length (VByte.vbytes v))) maxLen).
    + pose proof (VByte.EncodeVInt32_ok dest maxLen v) as He. rewrite Hu in He. apply He; lia.
    + apply VByte.EncodeVInt32_short; rewrite ?Hu; lia.
  - apply VByte.WriteVUInt32_ok; [done | lia].
  - intros Hle. pose proof (VByte.DecodeVInt32_ok v rest maxLen) as H. rewrite Hu in H. apply H. lia.
  - by apply VByte.vbyte_ReadVUInt32_ok.
Qed.

Lemma vbyte_roundtrip_witness :
  exists bs, length bs = 3%nat /\ VByte.GetVInt32Length 1000000 = Ok (Z.of_nat (length bs)) /\
    VByte.EncodeVInt32 (repeat 0 6) 2 1000000 =
      (if Z.of_nat (length bs) <=? 2 then Ok (bs ++ drop (length bs) (repeat 0 6), Z.of_nat (length bs)) else Error OutOfRange) /\
    VByte.WriteVUInt32 1000000 ([1; 2] ++ repeat 0 6) 2 = Ok ([1; 2] ++ bs ++ drop (length bs) (repeat 0 6), (2 + length bs)%nat) /\
    (Z.of_nat (length bs) <= 2 -> VByte.DecodeVInt32 (bs ++ [3]) 2 = Ok (i32 1000000, Z.of_nat (length bs))) /\
    VByte.ReadVUInt32 ([1; 2] ++ bs ++ [3]) 2 = Ok (1000000, (2 + length bs)%nat).
Proof.
  apply (vbyte_roundtrip 1000000 (repeat 0 6) [1; 2] [3] 2).
  - lia.
  - vm_compute. done.
  - lia.
Defined.

(** C30. The records of a posting survive the way through slices and files: a sequence of records of the doc,
    term frequency, position, field map, payload and skip lists, each with up to 128 values and an encoder that
    [EncoderProvider] picks for any mode but the inlined one, is encoded into a [ByteSliceWriter] without an error,
    and decoded from its slices to the same values, also by the code that does not use vector instructions when
    the other one wrote them, and whatever the uninitialised buffers hold. The bytes [Dump] writes, at any place
    in a file, decode to the same values through a [BlockByteSliceList]. (The doc list with reference compression
    is not unpacked by its decoder; see below.) *)
Theorem provider_roundtrip (sse sse' : bool) (junk junk' : list Z) (m : Store) (minSliceSize : Z) (xs : list Records.Item) :
  Records.isBuffer junk -> Records.isBuffer junk' -> Forall Records.validItem xs -> xs <> [] ->
  Z.of_nat (1024 * length xs) < 2 ^ 62 -> storeOk m -> GetHeadSize <= minSliceSize < 2 ^ 31 ->
  exists w m1 w' m2 l bs,
    new_ByteSliceWriter minSliceSize m = Ok (w, m1) /\ Records.encodeAll sse junk xs w m1 = Ok (w', m2) /\
    Writer._sliceList w' = Some l /\ Dump appendFile [] w' m2 = Ok (bs, m2) /\ (length bs <= 1024 * length xs)%nat /\
    (forall R : BlockDataRetriever, exists r r' m3, Open l new_ByteSliceReader m2 = Ok (r, m2) /\
       Records.decodeAll sse' junk' xs r m2 = Ok ((map Records.values xs, r'), m3)) /\
    (forall (R : BlockDataRetriever) pre post m', RetrieverLaws R (pre ++ bs ++ post) -> storeOk m' ->
       exists l' m1' m2' r m3' r' m4',
         new_BlockByteSliceList m' = Ok (l', m1') /\
         AddBlock l' (Z.of_nat (length pre)) (Z.of_nat (length bs)) m1' = Ok (tt, m2') /\
         Open l' new_ByteSliceReader m2' = Ok (r, m3') /\
         Records.decodeAll sse' junk' xs r m3' = Ok ((map Records.values xs, r'), m4')).
Proof.
  intros Hj Hj' Hxs Hne Hlen Hst Hmin.
  destruct (Records.encodeAll_ok sse sse' junk junk' xs Hj Hj' Hxs) as (bs & Hbl & Hbne & Hstands & Henc).
  destruct (new_ByteSliceWriter_ok m minSliceSize Hst Hmin) as (w & m1 & l & C & Hnew & Hw & _).
  destruct (Henc m1 w l C [] Hw ltac:(cbn; lia)) as (w' & m2 & Hrun & (C2 & Hw2 & _)). cbn [app] in Hw2.
  exists w, m1, w', m2, l, bs. split_and!; try done.
  - by destruct Hw2 as (? & ? & ? & _ & [] & _).
  - destruct (Dump_ok appendFile m2 w' l C2 bs Hw2) as (ys & Hys & Hd). rewrite Hd, writeSlices_append. cbn. by rewrite Hys.
  - intros R. destruct (Open_written R m2 new_ByteSliceReader w' l C2 bs Hw2 ltac:(lia)) as (r & Hopen & Hreads & _).
    destruct (Hstands R [] false l m2 r bs 0%nat [] (plain_next_ok [] l) Hreads) as (r' & m3 & Hdec & _).
    { by rewrite drop_0, app_nil_r. }
    by exists r, r', m3.
  - intros R pre post m' Hlaws Hst'. assert (0 < Z.of_nat (length bs)) as Hpos by (destruct bs; [by destruct Hbne | cbn; lia]).
    destruct (Open_block R _ Hlaws m' new_ByteSliceReader (Z.of_nat (length pre)) (Z.of_nat (length bs)) Hst' ltac:(lia) Hpos)
      as (l' & m1' & m2' & r & m3' & Hn' & Ha' & Ho' & Hreads & _); [rewrite !length_app; lia|].
    rewrite !Nat2Z.id, drop_app_length, take_app_length in Hreads.
    destruct (Hstands R _ true l' m3' r bs 0%nat [] (block_next_ok R _ Hlaws l') Hreads) as (r' & m4' & Hdec & _).
    { by rewrite drop_0, app_nil_r. }
    by exists l', m1', m2', r, m3', r', m4'.
Qed.

Definition sampleItems : list Records.Item :=
  let param mode := Encoders.mkParam mode true true in
  [(Records.DocList, param Encoders.PFOR_DELTA_COMPRESS_MODE, map (fun i => i * i) (seqZ 1 128));
   (Records.TfList, param Encoders.SHORT_LIST_COMPRESS_MODE, [1; 300; 70000]);
   (Records.FieldMap, param Encoders.REFERENCE_COMPRESS_MODE, [255; 1; 0; 1]);
   (Records.SkipList, param Encoders.SHORT_LIST_COMPRESS_MODE, [5; 6])].

Lemma provider_roundtrip_witness :
  exists w m1 w' m2 l bs,
    new_ByteSliceWriter 44 emptyStore = Ok (w, m1) /\ Records.encodeAll false (repeat 5 192) sampleItems w m1 = Ok (w', m2) /\
    Writer._sliceList w' = Some l /\ Dump appendFile [] w' m2 = Ok (bs, m2) /\
    let R := memoryRetriever 16 ([7; 8; 9] ++ bs ++ [10]) in
    exists l' m1' m2' r m3' r' m4',
      new_BlockByteSliceList emptyStore = Ok (l', m1') /\
      AddBlock l' 3 (Z.of_nat (length bs)) m1' = Ok (tt, m2') /\
      Open l' new_ByteSliceReader m2' = Ok (r, m3') /\
      Records.decodeAll true (repeat 6 192) sampleItems r m3' = Ok ((map Records.values sampleItems, r'), m4').
Proof.
  destruct (provider_roundtrip false true (repeat 5 192) (repeat 6 192) emptyStore 44 sampleItems)
    as (w & m1 & w' & m2 & l & bs & Hnew & Henc & Hl & Hd & Hlen & _ & Hblock).
  - reflexivity.
  - reflexivity.
  - assert (forall kind param src, Records.decodesValues kind param = true -> (0 < length src <= 128)%nat ->
      forallb (fun v => (0 <=? v) && (v <? 2 ^ (8 * Z.of_nat (Records.valueSize kind)))) src = true -> Records.validItem (kind, param, src)) as Hvalid.
    { intros kind param src Hv Hl Hf. split; [done|]. split; [done|]. apply List.Forall_forall. intros v Hin.
      rewrite forallb_forall in Hf. specialize (Hf v Hin). unfold fits. lia. }
    unfold sampleItems. repeat (constructor; [apply Hvalid; [reflexivity | vm_compute; lia | vm_compute; reflexivity]|]). constructor.
  - done.
  - vm_compute. done.
  - apply emptyStore_ok.
  - vm_compute. by split.
  - exists w, m1, w', m2, l, bs. do 4 (split; [assumption|]). intros R. apply (Hblock R [7; 8; 9] [10] emptyStore); [|apply emptyStore_ok].
    apply memoryRetriever_laws; [lia|]. rewrite !length_app. change (length sampleItems) with 4%nat in Hlen. cbn [length]. lia.
Defined.

(** C35. Reference compression: a record of 1 to 128 sorted document ids is written as a negated header with a width and the number of ids, the
    first id, and the distances of the others from it in so many bytes, where the width is the least of one, two and four bytes that holds the
    distance of the last id; a record of 128 ids that needs four bytes is written as it is. [DecodeMayCopy] yields a pointer to exactly these bytes, at
    most 512, and the number of ids. [ReferenceCompressIntReader] on them yields each id by its index, and a
    sequence of [Seek]s for ids above the first one finds, for each, the first id at least as large behind the last one
    that was found, for sequences in which each has one. *)
Theorem reference_seek_correct (R : BlockDataRetriever) (src dest : list Z) (m : Store) (minSliceSize : Z) :
  ReferenceCorrect.docRecord src -> (128 <= length dest)%nat -> storeOk m -> GetHeadSize <= minSliceSize < 2 ^ 31 ->
  let E := Encoders.ReferenceCompressIntEncoder 4 in
  let bs := ReferenceCorrect.refBytes src in let n := Z.of_nat (length bs) in
  exists w m1 w' m2 l r p r' m3 reader,
    new_ByteSliceWriter minSliceSize m = Ok (w, m1) /\ Encoders.Encode src w m1 = Ok ((n, w'), m2) /\
    Writer._sliceList w' = Some l /\ Open l new_ByteSliceReader m2 = Ok (r, m2) /\
    Encoders.DecodeMayCopy R dest r m2 = Ok ((p, Z.of_nat (length src), r'), m3) /\ pointee p n m3 = Ok (bs, m3) /\ n <= 512 /\
    Encoders.Reset 4 bs = Ok reader /\
    (forall i v, src !! i = Some v -> Encoders.at_ 4 i reader = Ok v) /\
    (forall vs ys, Forall (fun v => ReferenceCorrect.first src < v) vs ->
       ReferenceCorrect.specSeeks (drop 1 src) vs = Some ys -> ReferenceCorrect.seekAll vs reader = Ok ys).
Proof.
  intros Hd Hdest Hst Hmin E bs n. pose proof (ReferenceCorrect.refBytes_short src Hd) as Hshort.
  destruct (new_ByteSliceWriter_ok m minSliceSize Hst Hmin) as (w & m1 & l & C & Hnew & Hw & _).
  destruct (ReferenceCorrect.Reference_encodesAs src Hd) as [_ Henc].
  destruct (Henc m1 w l C [] Hw ltac:(cbn; lia)) as (w' & m2 & Hrun & (C2 & Hw2 & _)). cbn [app] in Hw2.
  destruct (Open_written R m2 new_ByteSliceReader w' l C2 _ Hw2 ltac:(lia)) as (r & Hopen & Hreads & _).
  destruct (ReferenceCorrect.Reference_DecodeMayCopy_ok R [] false l (plain_next_ok [] l) m2 r _ 0 [] src dest Hd Hreads) as (p & r' & m3 & Hdec & Hp & _); [by rewrite drop_0, app_nil_r | done|].
  destruct (ReferenceCorrect.Reset_reads src [] Hd) as (reader & Hreset & Hrr). rewrite app_nil_r in Hreset.
  exists w, m1, w', m2, l, r, p, r', m3, reader. unfold n, bs in *.
  split_and!; try done; [by destruct Hw2 as (? & ? & ? & _ & [] & _) | lia | | ].
  - intros i v Hi. apply (ReferenceCorrect.at_ok src 1 reader i v Hrr Hi). destruct (ReferenceCorrect.dr_record _ Hd) as [_ Hf].
    rewrite List.Forall_forall in Hf. apply (Hf v), list_elem_of_In. by eapply list_elem_of_lookup_2.
  - intros vs ys Hvs Hs. by apply (ReferenceCorrect.seekAll_ok src 1 reader); [..|lia| |].
Qed.

Lemma reference_seek_witness :
  let R := memoryRetriever 8 [] in let E := Encoders.ReferenceCompressIntEncoder 4 in let src := [10; 20; 400; 7000] in
  let bs := [252; 255; 253; 255; 10; 0; 0; 0; 10; 0; 134; 1; 78; 27] in
  exists w m1 w' m2 l r p r' m3 reader,
    new_ByteSliceWriter 40 emptyStore = Ok (w, m1) /\ Encoders.Encode src w m1 = Ok ((14, w'), m2) /\
    Writer._sliceList w' = Some l /\ Open l new_ByteSliceReader m2 = Ok (r, m2) /\
    Encoders.DecodeMayCopy R (repeat 0 128) r m2 = Ok ((p, 4, r'), m3) /\ pointee p 14 m3 = Ok (bs, m3) /\
    Encoders.Reset 4 bs = Ok reader /\ Encoders.at_ 4 2 reader = Ok 400 /\ ReferenceCorrect.seekAll [11; 401] reader = Ok [20; 7000].
Proof.
  intros R E src bs.
  destruct (reference_seek_correct R src (repeat 0 128) emptyStore 40)
    as (w & m1 & w' & m2 & l & r & p & r' & m3 & reader & H1 & H2 & H3 & H4 & H5 & H6 & _ & H7 & Hat & Hseek).
  - split; [split; [cbn; lia|] | | by intros v [= <-]].
    + repeat constructor; cbn; lia.
    + repeat constructor; cbn; lia.
  - cbn. lia.
  - apply emptyStore_ok.
  - vm_compute. by split.
  - exists w, m1, w', m2, l, r, p, r', m3, reader. split_and!; try done.
    + by apply Hat.
    + apply Hseek; [repeat constructor | reflexivity].
Defined.

(** ** Where the code is not what it means to be *)

(** [VbyteInt32Encoder::Encode] to a buffer stores the number of values in the first byte and then the values from
    the first byte on: the number is lost. *)
Theorem vbyte_buffer_loses_count (dest : list Z) (v : Z) :
  (5 <= length dest)%nat -> 0 <= v < 128 ->
  Encoders.Vbyte_EncodeBuffer dest [v] = Ok (v :: drop 1 dest, 1).
Proof.
  intros Hd Hv. destruct dest as [|x dest]; [cbn in Hd; lia|]. unfold Encoders.Vbyte_EncodeBuffer, VByte.putByte. cbn [length Nat.leb].
  change (<[0%nat := Z.of_nat 1 mod 256]> (x :: dest)) with ((Z.of_nat 1 mod 256) :: dest). cbn [res_bind Encoders.vbyteBufferLoop].
  change (Z.to_nat 0) with 0%nat. rewrite drop_0. pose proof (u32_small v ltac:(lia)) as Hu.
  assert (VByte.vbytes v = [v]) as Hb by (unfold VByte.vbytes; cbn [VByte.vbytesOf]; by rewrite (proj2 (Z.ltb_lt _ _)) by lia).
  pose proof (VByte.EncodeVInt32_ok (Z.of_nat 1 mod 256 :: dest) (u32 (-1)) v) as He. rewrite Hu, Hb in He.
  rewrite He; [done | lia | cbn; lia | vm_compute; done | vm_compute; done].
Qed.

(** Merging an empty list sets the tail to null: the next slice that is added becomes the first one, and the bytes
    that were there are no longer reached. *)
Example merge_empty_loses :
  match (let* w := new_ByteSliceWriter 44 in let* w := WriteByte 7 w in
         let* empty := new_ByteSliceList in let* _ := WriteList empty w in
         let* l := listOf w in let* a := CreateObject 3 in let* _ := Add l a in
         let* L := getList l in ret (_head L = Some a)) emptyStore with
  | Ok (lost, _) => lost
  | _ => False
  end.
Proof. vm_compute. done. Qed.

(** After [Write(ByteSliceList&)] the writer still has the size of its own last slice, and writes past the end of the
    slice it took over. *)
Example write_after_merge_overflows :
  (let* w := new_ByteSliceWriter 100 in let* w2 := new_ByteSliceWriter 44 in let* w2 := WriteByte 7 w2 in
   let* l2 := listOf w2 in let* _ := WriteList l2 w in Write (repeat 1 20) w) emptyStore = Undefined.
Proof. vm_compute. done. Qed.

(** [ReadByte] at the end takes the byte of a null slice. *)
Example read_past_end :
  let R := memoryRetriever 8 [] in
  (let* w := new_ByteSliceWriter 44 in let* w := WriteByte 7 w in let* l := listOf w in
   let* r := Open l new_ByteSliceReader in let* (_, r) := ReadByte r in ReadByte r) emptyStore = Undefined.
Proof. vm_compute. done. Qed.
