(* ===== verification/PostingBuffer.v ===== *)
(** * Buffers of posting lists

    A list of a posting is built in rows: [ShortBuffer] collects up to 128 columns in memory
    (src/aios/storage/indexlib/index/common/ShortBuffer.h, .cpp), and [BufferedByteSlice]
    (src/aios/storage/indexlib/index/inverted_index/format/BufferedByteSlice.h, .cpp) encodes them to slices when they
    are full. [MultiValue] says which rows there are, [FlushInfo] packs how much has been flushed into one word,
    and [BufferedByteSliceReader] reads both parts. *)

From stdpp Require Import base list numbers option tactics gmap.
From Stdlib Require Import ZArith Lia ZifyNat.
From S2P Require Import Prelude Bits ByteSliceList ByteSliceWriter BlockByteSliceList ByteSliceReader IntEncoders.

#[local] Open Scope Z_scope.
#[local] Open Scope store_scope.

(** ** [FlushInfo] *)

Module FlushInfo.

Definition OFFSET_IS_VALID_SB : Z := 0.
Definition OFFSET_FLUSH_LENGTH : Z := 1.
Definition OFFSET_COMPRESS_MODE : Z := 32.
Definition OFFSET_FLUSH_COUNT : Z := 34.
Definition MASK_IS_VALID_SB : Z := 0x1.
Definition MASK_FLUSH_LENGTH : Z := 0xFFFFFFFE.
Definition MASK_COMPRESS_MODE : Z := 0x300000000.
Definition MASK_FLUSH_COUNT : Z := 0xFFFFFFFC00000000.

(** [SET_BIT_VALUE] and [GET_BIT_VALUE]: the value is not masked. *)
Definition setBits (mask off value info : Z) : Z := Z.lor (Z.land info (u64 (Z.lnot mask))) (u64 (Z.shiftl value off)).
Definition getBits (mask off info : Z) : Z := Z.shiftr (Z.land info mask) off.

(** [enum CompressMode] as a number *)
Definition modeZ (m : Encoders.CompressMode) : Z :=
  match m with
  | Encoders.PFOR_DELTA_COMPRESS_MODE => 0
  | Encoders.REFERENCE_COMPRESS_MODE => 1
  | Encoders.DICT_INLINE_COMPRESS_MODE => 2
  | Encoders.SHORT_LIST_COMPRESS_MODE => 3
  end.
Definition modeOf (z : Z) : Encoders.CompressMode :=
  match z with
  | 0 => Encoders.PFOR_DELTA_COMPRESS_MODE
  | 1 => Encoders.REFERENCE_COMPRESS_MODE
  | 2 => Encoders.DICT_INLINE_COMPRESS_MODE
  | _ => Encoders.SHORT_LIST_COMPRESS_MODE
  end.

Definition IsValidShortBuffer (i : Z) : bool := negb (getBits MASK_IS_VALID_SB OFFSET_IS_VALID_SB i =? 0).
Definition SetIsValidShortBuffer (v : bool) (i : Z) : Z := setBits MASK_IS_VALID_SB OFFSET_IS_VALID_SB (if v then 1 else 0) i.
Definition GetFlushLength (i : Z) : Z := u32 (getBits MASK_FLUSH_LENGTH OFFSET_FLUSH_LENGTH i).
Definition SetFlushLength (v i : Z) : Z := setBits MASK_FLUSH_LENGTH OFFSET_FLUSH_LENGTH v i.
Definition GetCompressMode (i : Z) : Encoders.CompressMode := modeOf (getBits MASK_COMPRESS_MODE OFFSET_COMPRESS_MODE i mod 256).
Definition SetCompressMode (m : Encoders.CompressMode) (i : Z) : Z := setBits MASK_COMPRESS_MODE OFFSET_COMPRESS_MODE (modeZ m) i.
Definition GetFlushCount (i : Z) : Z := u32 (getBits MASK_FLUSH_COUNT OFFSET_FLUSH_COUNT i).
Definition SetFlushCount (v i : Z) : Z := setBits MASK_FLUSH_COUNT OFFSET_FLUSH_COUNT v i.
Definition Reset : Z := SetCompressMode Encoders.SHORT_LIST_COMPRESS_MODE 0.

End FlushInfo.

(** ** [AtomicValue] and [MultiValue] *)

Module Rows.
Import Encoders.

(** [AtomicValueTyped<T>]; [sizeT] is [sizeof(T)]. *)
Record AtomicValue := mkAtomic {
  _location : nat;
  _offset : Z;
  sizeT : nat;
  _encoders : CompressMode -> option IntEncoder
}.

Record MultiValue := mkMulti {
  _atomicValues : list AtomicValue;
  _size : Z
}.
Definition new_MultiValue : MultiValue := mkMulti [] 0.
Definition AddAtomicValue (a : AtomicValue) (mv : MultiValue) : MultiValue :=
  mkMulti (_atomicValues mv ++ [a]) (u32 (_size mv + Z.of_nat (sizeT a))).

(** [AtomicValueTyped<T>::Encode] and [Decode] *)
Definition Encode (mode : CompressMode) (w : Writer.ByteSliceWriter) (src : list Z) (a : AtomicValue)
    : SM (Z * Writer.ByteSliceWriter) :=
  let* E := lift (deref (_encoders a mode)) in Encoders.Encode src w.
Definition Decode {R : BlockDataRetriever} (mode : CompressMode) (dest : list Z) (r : Reader.ByteSliceReader) (a : AtomicValue)
    : SM (list Z * Z * Reader.ByteSliceReader) :=
  let* E := lift (deref (_encoders a mode)) in Encoders.Decode R dest r.

(** A format that is being initialised: [rowCount], [offset] and the rows so far *)
Definition addRow (sizeT : nat) (encoders : CompressMode -> option IntEncoder) (st : nat * Z * MultiValue) : nat * Z * MultiValue :=
  let '(rowCount, offset, mv) := st in
  (S rowCount, offset + Z.of_nat sizeT, AddAtomicValue (mkAtomic rowCount offset sizeT encoders) mv).

(** [DocListFormatOption] *)
Record DocListFormatOption := mkDocOption {
  _hasTf : bool;
  _hasTfList : bool;
  _hasTfBitmap : bool;
  _hasDocPayload : bool;
  _hasFieldMap : bool;
  _shortListVbyteCompress : bool
}.

Definition of_doc_payload : Z := 2.
Definition of_term_frequency : Z := 16.
Definition of_tf_bitmap : Z := 32.
Definition of_fieldmap : Z := 64.
Definition has (optionFlag bit : Z) : bool := negb (Z.land optionFlag bit =? 0).

Definition DocListFormatOption_Init (optionFlag : Z) : DocListFormatOption :=
  let tf := has optionFlag of_term_frequency in
  let bitmap := has optionFlag of_tf_bitmap in
  mkDocOption tf (tf && negb bitmap) (tf && bitmap) (has optionFlag of_doc_payload) (has optionFlag of_fieldmap) false.

Section Formats.
Context (sse : bool) (junk : list Z) (_formatVersion : Z).

Definition param (vbyte : bool) (m : CompressMode) : EncoderParam := mkParam m vbyte (1 <=? _formatVersion).

(** [DocListFormat::Init] *)
Definition DocListFormat_Init (option : DocListFormatOption) : MultiValue :=
  let vb := _shortListVbyteCompress option in
  let st := addRow 4 (fun m => GetDocListEncoder sse junk (param vb m)) (0%nat, 0, new_MultiValue) in
  let st := if _hasTfList option then addRow 4 (fun m => GetTfListEncoder sse junk (param vb m)) st else st in
  let st := if _hasDocPayload option then addRow 2 (fun m => GetDocPayloadEncoder junk (param vb m)) st else st in
  let st := if _hasFieldMap option then addRow 1 (fun m => GetFieldMapEncoder junk (param vb m)) st else st in
  snd st.

(** [DocListSkipListFormat::Init] *)
Definition DocListSkipListFormat_Init (option : DocListFormatOption) : MultiValue :=
  let enc := fun m => GetSkipListEncoder sse junk (param false m) in
  let st := addRow 4 enc (0%nat, 0, new_MultiValue) in
  let st := if _hasTfList option then addRow 4 enc st else st in
  snd (addRow 4 enc st).

(** [PositionListFormat::Init] *)
Definition PositionListFormat_Init (hasPositionPayload : bool) : MultiValue :=
  let st := addRow 4 (fun m => GetPosListEncoder sse junk (param false m)) (0%nat, 0, new_MultiValue) in
  let st := if hasPositionPayload then addRow 1 (fun m => GetPosPayloadEncoder junk (param false m)) st else st in
  snd st.

(** [PositionSkipListFormat::Init] *)
Definition PositionSkipListFormat_Init (hasTfBitmap : bool) : MultiValue :=
  let enc := fun m => GetSkipListEncoder sse junk (param false m) in
  let st := (0%nat, 0, new_MultiValue) in
  let st := if negb hasTfBitmap then addRow 4 enc st else st in
  snd (addRow 4 (if hasTfBitmap then fun _ => enc SHORT_LIST_COMPRESS_MODE else enc) st).
End Formats.
End Rows.

(** ** [ShortBuffer] *)

Module ShortBuf.
Import Rows.

(** [_buffer] is the memory it points to. *)
Record ShortBuffer := mkShort {
  _buffer : option (list (option Z));
  _offset : list Z;
  _capacity : Z;
  _size : Z;
  _isBufferValid : bool;
  _multiValue : MultiValue
}.

Definition new_ShortBuffer : ShortBuffer := mkShort None (repeat 0 8) 0 0 true new_MultiValue.

(** [Init]: the loop writes [_offset[i]], an array of eight bytes. *)
Definition Init (mv : MultiValue) (b : ShortBuffer) : res ShortBuffer :=
  let offsets := map (fun a => Rows._offset a mod 256) (_atomicValues mv) in
  if (8 <? length offsets)%nat then Undefined
  else Ok (mkShort (_buffer b) (offsets ++ drop (length offsets) (_offset b)) (_capacity b) (_size b) (_isBufferValid b) mv).

Definition IsFull (b : ShortBuffer) : bool := _capacity b <=? _size b.

Definition AllocatePlan (curCapacity : Z) : Z :=
  if curCapacity <? 2 then 2 else if curCapacity <? 16 then 16 else 128.

(** [Allocate]: memory that was not written yet *)
Definition Allocate (size : Z) : list (option Z) := repeat None (Z.to_nat size).

(** [memcpy(dst + doff, src + soff, len)]; bytes that were not written may be copied. *)
Definition copyCells (dst : list (option Z)) (doff : Z) (src : list (option Z)) (soff len : Z) : res (list (option Z)) :=
  if (doff <? 0) || (soff <? 0) || (Z.of_nat (length dst) <? doff + len) || (Z.of_nat (length src) <? soff + len) then Undefined
  else Ok (take (Z.to_nat doff) dst ++ take (Z.to_nat len) (drop (Z.to_nat soff) src) ++ drop (Z.to_nat (doff + len)) dst).

(** [GetRow(buffer, capacity, atomicValue)] as an offset into the buffer *)
Definition rowAt (capacity : Z) (a : AtomicValue) : Z := Rows._offset a * capacity.

Fixpoint copyRows (rows : list AtomicValue) (dst : list (option Z)) (dstColCount : Z) (src : list (option Z)) (srcColCount srcSize : Z)
    : res (list (option Z)) :=
  match rows with
  | [] => Ok dst
  | a :: rows =>
      let! dst := copyCells dst (rowAt dstColCount a) src (rowAt srcColCount a) (srcSize * Z.of_nat (sizeT a)) in
      copyRows rows dst dstColCount src srcColCount srcSize
  end.

Definition BufferMemoryCopy (dst : list (option Z)) (dstColCount : Z) (src : option (list (option Z))) (srcColCount : Z)
    (mv : MultiValue) (srcSize : Z) : res (list (option Z)) :=
  match src with
  | None => Ok dst
  | Some src => if srcSize =? 0 then Ok dst else copyRows (_atomicValues mv) dst dstColCount src srcColCount srcSize
  end.

(** [Reallocate]: false when the capacity cannot grow *)
Definition Reallocate (b : ShortBuffer) : res (bool * ShortBuffer) :=
  let newCapacity := AllocatePlan (_capacity b) in
  if newCapacity =? _capacity b then Ok (false, b)
  else
    let! newBuffer := BufferMemoryCopy (Allocate (newCapacity * Rows._size (_multiValue b))) newCapacity
                        (_buffer b) (_capacity b) (_multiValue b) (_size b) in
    Ok (true, mkShort (Some newBuffer) (_offset b) newCapacity (_size b) true (_multiValue b)).

(** [GetRow(n)] and [GetRowTyped<T>(n)], as offsets into the buffer *)
Definition GetRow (n : nat) (b : ShortBuffer) : res Z :=
  let! a := deref (_atomicValues (_multiValue b) !! n) in Ok (rowAt (_capacity b) a).
Definition GetRowTyped (n : nat) (b : ShortBuffer) : res Z :=
  let! off := deref (_offset b !! n) in Ok (off * _capacity b).

(** [PushBack<T>(row, value)], [n] is [sizeof(T)]: the row is found with the offset of one byte. *)
Definition PushBack (n row : nat) (value : Z) (b : ShortBuffer) : res (bool * ShortBuffer) :=
  let! (ok, b) := if IsFull b then Reallocate b else Ok (true, b) in
  if negb ok then Ok (false, b)
  else
    let! base := GetRowTyped row b in
    let! d := poke (_buffer b) (base + _size b * Z.of_nat n) (bytes n value) in
    Ok (true, mkShort d (_offset b) (_capacity b) (_size b) (_isBufferValid b) (_multiValue b)).

Definition EndPushBack (b : ShortBuffer) : ShortBuffer :=
  mkShort (_buffer b) (_offset b) (_capacity b) ((_size b + 1) mod 256) (_isBufferValid b) (_multiValue b).

Definition Clear (b : ShortBuffer) : ShortBuffer :=
  mkShort (_buffer b) (_offset b) (_capacity b) 0 (_isBufferValid b) (_multiValue b).

(** The first [_size] values of [n] bytes of the row at [base] *)
Definition rowValues (base : Z) (n : nat) (b : ShortBuffer) : res (list Z) :=
  let! mem := peek (_buffer b) base (_size b * Z.of_nat n) in
  Ok (valuesOf n (Z.to_nat (_size b)) mem).

Definition Reserve (capacity : Z) (b : ShortBuffer) : res ShortBuffer :=
  match _buffer b with
  | Some _ =>
      if capacity <=? _capacity b then Ok b
      else
        let! newBuffer := BufferMemoryCopy (Allocate (capacity * Rows._size (_multiValue b))) capacity
                            (_buffer b) (_capacity b) (_multiValue b) (_size b) in
        Ok (mkShort (Some newBuffer) (_offset b) capacity (_size b) (_isBufferValid b) (_multiValue b))
  | None => Ok (mkShort (Some (Allocate (capacity * Rows._size (_multiValue b)))) (_offset b) capacity (_size b) (_isBufferValid b) (_multiValue b))
  end.

(** [SnapShot(shortBuffer)] while nobody writes: the loop runs once. *)
Definition SnapShot (b other : ShortBuffer) : res (bool * ShortBuffer) :=
  let other := Clear other in
  if negb (length (_atomicValues (_multiValue other)) =? length (_atomicValues (_multiValue b)))%nat then Ok (false, other)
  else
    match _buffer b with
    | None => Ok (true, other)
    | Some _ =>
        let! other := Reserve (_size b) other in
        let! dst := deref (_buffer other) in
        let! d := BufferMemoryCopy dst (_capacity other) (_buffer b) (_capacity b) (_multiValue b) (_size b) in
        Ok (true, mkShort (Some d) (_offset other) (_capacity other) (_size b) (_isBufferValid other) (_multiValue other))
    end.

End ShortBuf.

(** ** [BufferedByteSlice] *)

Module Buffered.
Import Rows Encoders.

Record BufferedByteSlice := mkBuffered {
  _flushInfo : Z;
  _buffer : ShortBuf.ShortBuffer;
  _postingListWriter : Writer.ByteSliceWriter
}.

Definition new_BufferedByteSlice : SM BufferedByteSlice :=
  let* w := Writer.new_ByteSliceWriter Writer.MIN_SLICE_SIZE in
  ret (mkBuffered FlushInfo.Reset ShortBuf.new_ShortBuffer w).

Definition set_buffer (sb : ShortBuf.ShortBuffer) (b : BufferedByteSlice) : BufferedByteSlice :=
  mkBuffered (_flushInfo b) sb (_postingListWriter b).

Definition Init (mv : MultiValue) (b : BufferedByteSlice) : res BufferedByteSlice :=
  let! sb := ShortBuf.Init mv (_buffer b) in Ok (set_buffer sb b).

(** [PushBack(row, value)]; the result of the buffer is dropped. *)
Definition PushBack (n row : nat) (value : Z) (b : BufferedByteSlice) : res BufferedByteSlice :=
  let! (_, sb) := ShortBuf.PushBack n row value (_buffer b) in Ok (set_buffer sb b).

Definition EndPushBack (b : BufferedByteSlice) : BufferedByteSlice :=
  mkBuffered (FlushInfo.SetIsValidShortBuffer true (_flushInfo b)) (ShortBuf.EndPushBack (_buffer b)) (_postingListWriter b).

Definition NeedFlush (needFlushCount : Z) (b : BufferedByteSlice) : bool := ShortBuf._size (_buffer b) =? needFlushCount.

Definition GetMultiValue (b : BufferedByteSlice) : MultiValue := ShortBuf._multiValue (_buffer b).

Fixpoint flushRows (mode : CompressMode) (rows : list AtomicValue) (sb : ShortBuf.ShortBuffer) (flushSize : Z)
    (w : Writer.ByteSliceWriter) : SM (Z * Writer.ByteSliceWriter) :=
  match rows with
  | [] => ret (flushSize, w)
  | a :: rows =>
      let* base := lift (ShortBuf.GetRow (_location a) sb) in
      let* src := lift (ShortBuf.rowValues base (sizeT a) sb) in
      let* (n, w) := Rows.Encode mode w src a in
      flushRows mode rows sb (u32 (flushSize + n)) w
  end.

Definition DoFlush (mode : CompressMode) (b : BufferedByteSlice) : SM (Z * BufferedByteSlice) :=
  let* (flushSize, w) := flushRows mode (_atomicValues (GetMultiValue b)) (_buffer b) 0 (_postingListWriter b) in
  ret (flushSize, mkBuffered (_flushInfo b) (_buffer b) w).

Definition Flush (mode : CompressMode) (b : BufferedByteSlice) : SM (Z * BufferedByteSlice) :=
  if ShortBuf._size (_buffer b) =? 0 then ret (0, b)
  else
    let* (flushSize, b) := DoFlush mode b in
    let info := FlushInfo.Reset in
    let info := FlushInfo.SetFlushCount (u32 (FlushInfo.GetFlushCount (_flushInfo b) + ShortBuf._size (_buffer b))) info in
    let info := FlushInfo.SetFlushLength (u32 (FlushInfo.GetFlushLength (_flushInfo b) + flushSize)) info in
    let info := FlushInfo.SetCompressMode mode info in
    let info := FlushInfo.SetIsValidShortBuffer false info in
    ret (flushSize, mkBuffered info (ShortBuf.Clear (_buffer b)) (_postingListWriter b)).

Definition EstimateDumpSize (b : BufferedByteSlice) : SM Z := Writer.GetSize (_postingListWriter b).
Definition GetTotalCount (b : BufferedByteSlice) : Z := FlushInfo.GetFlushCount (_flushInfo b) + ShortBuf._size (_buffer b).

Definition SnapShotByteSlice (b other : BufferedByteSlice) : SM BufferedByteSlice :=
  let* w := Writer.SnapShot (_postingListWriter b) (_postingListWriter other) in
  ret (mkBuffered (_flushInfo b) (_buffer other) w).

(** [SnapShot(buffer)] while nobody writes *)
Definition SnapShot (b other : BufferedByteSlice) : SM BufferedByteSlice :=
  let* other := lift (Init (GetMultiValue b) other) in
  let* other := SnapShotByteSlice b other in
  let* (_, sb) := lift (ShortBuf.SnapShot (_buffer b) (_buffer other)) in
  let other := set_buffer sb other in
  if FlushInfo.GetFlushLength (_flushInfo other) <? FlushInfo.GetFlushLength (_flushInfo b)
  then SnapShotByteSlice b (set_buffer (ShortBuf.Clear (_buffer other)) other)
  else ret other.

(** ** [BufferedByteSliceReader] *)

Record BufferedByteSliceReader := mkBReader {
  _locationCursor : nat;
  _shortBufferCursor : nat;
  _byteSliceReader : Reader.ByteSliceReader
}.

Section Read.
(** [b] is what [_bufferedByteSlice] points to. *)
Context {R : BlockDataRetriever} (b : BufferedByteSlice).

Definition Open : SM BufferedByteSliceReader :=
  let* l := Writer.listOf (_postingListWriter b) in
  let* r := Reader.Open l Reader.new_ByteSliceReader in
  ret (mkBReader 0 0 r).

Definition Seek (pos : Z) (r : BufferedByteSliceReader) : SM BufferedByteSliceReader :=
  let* (_, rd) := Reader.Seek pos (_byteSliceReader r) in ret (mkBReader 0 0 rd).

Definition Tell (r : BufferedByteSliceReader) : Z := u32 (Reader.Tell (_byteSliceReader r)).

Definition IsValidShortBuffer (r : BufferedByteSliceReader) : bool :=
  (0 <? ShortBuf._size (_buffer b)) &&
  (_shortBufferCursor r <? length (_atomicValues (GetMultiValue b)))%nat &&
  FlushInfo.IsValidShortBuffer (_flushInfo b).

Definition IncValueCursor (cursor : nat) : nat :=
  if (S cursor =? length (_atomicValues (GetMultiValue b)))%nat then 0%nat else S cursor.

(** [Decode<T>(buffer, count, decodeCount)]: [None] when it returns false, else the buffer and [decodeCount] *)
Definition Decode (dest : list Z) (r : BufferedByteSliceReader) : SM (option (list Z * Z) * BufferedByteSliceReader) :=
  if (length dest =? 0)%nat then ret (None, r)
  else
    let byteSliceSize := FlushInfo.GetFlushLength (_flushInfo b) in
    let atEnd := byteSliceSize <=? Reader.Tell (_byteSliceReader r) in
    if atEnd && negb (IsValidShortBuffer r) then ret (None, r)
    else
      let* currentValue := lift (deref (_atomicValues (GetMultiValue b) !! _locationCursor r)) in
      let cursor := IncValueCursor (_locationCursor r) in
      if atEnd then
        let* base := lift (ShortBuf.GetRowTyped (_location currentValue) (_buffer b)) in
        let* src := lift (ShortBuf.rowValues base (sizeT currentValue) (_buffer b)) in
        let* dest := lift (Reader.memcpy dest 0 src) in
        ret (Some (dest, ShortBuf._size (_buffer b)), mkBReader cursor (S (_shortBufferCursor r)) (_byteSliceReader r))
      else
        let* (dest, decodeCount, rd) :=
          Rows.Decode (FlushInfo.GetCompressMode (_flushInfo b)) dest (_byteSliceReader r) currentValue in
        ret (Some (dest, decodeCount), mkBReader cursor (_shortBufferCursor r) rd).
End Read.

End Buffered.
