(* ===== verification/ShortBufferCorrect.v ===== *)
(** * [FlushInfo] and [ShortBuffer]

    The fields of the packed word do not disturb each other, and the rows of a buffer hold the values that were pushed,
    while the buffer grows and when it is copied. *)

From stdpp Require Import base list numbers option tactics gmap.
From Stdlib Require Import ZArith Lia ZifyNat ZifyBool.
From S2P Require Import Prelude Bits WordCode WordStream ByteSliceList SliceChain IntEncoders IntEncodersCorrect PostingBuffer.

#[local] Open Scope Z_scope.

Module FlushInfoCorrect.
Import FlushInfo.

(** ** Fields of a word *)

Definition mask (k o : Z) : Z := Z.shiftl (Z.ones k) o.

Lemma testbit_fieldMask k o i : 0 <= k -> 0 <= o -> 0 <= i -> Z.testbit (mask k o) i = (o <=? i) && (i <? o + k).
Proof.
  intros Hk Ho Hi. unfold mask. rewrite Z.shiftl_spec by done. destruct (Z.leb_spec o i).
  - rewrite Z.testbit_ones by lia. destruct (Z.ltb_spec i (o + k)), (Z.leb_spec 0 (i - o)), (Z.ltb_spec (i - o) k); try done; lia.
  - by rewrite Z.testbit_neg_r by lia.
Qed.

Lemma testbit_small v k i : 0 <= v < 2 ^ k -> k <= i -> Z.testbit v i = false.
Proof. intros Hv Hi. apply (testbit_high v k i); [done | done|]. destruct (Z.le_gt_cases 0 k); [done|]. rewrite Z.pow_neg_r in Hv by lia. lia. Qed.

Lemma testbit_u64 x i : 0 <= i -> Z.testbit (u64 x) i = Z.testbit x i && (i <? 64).
Proof.
  intros Hi. unfold u64. destruct (Z.ltb_spec i 64).
  - rewrite Z.mod_pow2_bits_low by lia. by rewrite andb_true_r.
  - rewrite Z.mod_pow2_bits_high by lia. by rewrite andb_false_r.
Qed.

(** A bit of a word with a field set *)
Lemma testbit_set k o v x i :
  0 < k -> 0 <= o -> o + k <= 64 -> 0 <= v < 2 ^ k -> 0 <= i < 64 ->
  Z.testbit (setBits (mask k o) o v x) i = if (o <=? i) && (i <? o + k) then Z.testbit v (i - o) else Z.testbit x i.
Proof.
  intros Hk Ho Hok Hv Hi. unfold setBits. rewrite Z.lor_spec, Z.land_spec, !testbit_u64, Z.lnot_spec, testbit_fieldMask, Z.shiftl_spec by lia.
  rewrite !(proj2 (Z.ltb_lt i 64)), !andb_true_r by lia. destruct (Z.leb_spec o i); cbn [andb].
  - destruct (Z.ltb_spec i (o + k)); cbn [negb]; [by rewrite andb_false_r|].
    rewrite andb_true_r, (testbit_small v k) by lia. by rewrite orb_false_r.
  - rewrite (Z.testbit_neg_r v) by lia. by rewrite andb_true_r, orb_false_r.
Qed.

Lemma testbit_get k o x i : 0 < k -> 0 <= o -> 0 <= i -> Z.testbit (getBits (mask k o) o x) i = Z.testbit x (i + o) && (i <? k).
Proof. intros Hk Ho Hi. unfold getBits. rewrite Z.shiftr_spec, Z.land_spec, testbit_fieldMask by lia. f_equal. lia. Qed.

Lemma get_set_same k o v x : 0 < k -> 0 <= o -> o + k <= 64 -> 0 <= v < 2 ^ k -> getBits (mask k o) o (setBits (mask k o) o v x) = v.
Proof.
  intros Hk Ho Hok Hv. apply Z.bits_inj'. intros i Hi. rewrite testbit_get by lia. destruct (Z.ltb_spec i k).
  - rewrite testbit_set, andb_true_r by lia. replace ((o <=? i + o) && (i + o <? o + k)) with true by lia. f_equal. lia.
  - rewrite andb_false_r. by rewrite (testbit_small v k).
Qed.

Lemma get_set_other k o k' o' v x :
  0 < k -> 0 <= o -> o + k <= 64 -> 0 <= v < 2 ^ k -> 0 < k' -> 0 <= o' -> o' + k' <= 64 -> o + k <= o' \/ o' + k' <= o ->
  getBits (mask k' o') o' (setBits (mask k o) o v x) = getBits (mask k' o') o' x.
Proof.
  intros Hk Ho Hok Hv Hk' Ho' Hok' Hd. apply Z.bits_inj'. intros i Hi. rewrite !testbit_get by lia. destruct (Z.ltb_spec i k'); [|by rewrite !andb_false_r].
  rewrite testbit_set by lia. by replace ((o <=? i + o') && (i + o' <? o + k)) with false by lia.
Qed.

(** ** The fields of [FlushInfo] *)

(** What the word says *)
Record says (i : Z) (valid : bool) (len : Z) (mode : Encoders.CompressMode) (count : Z) : Prop := {
  sa_valid : getBits MASK_IS_VALID_SB OFFSET_IS_VALID_SB i = (if valid then 1 else 0);
  sa_len : getBits MASK_FLUSH_LENGTH OFFSET_FLUSH_LENGTH i = len;
  sa_mode : getBits MASK_COMPRESS_MODE OFFSET_COMPRESS_MODE i = modeZ mode;
  sa_count : getBits MASK_FLUSH_COUNT OFFSET_FLUSH_COUNT i = count;
  sa_range : 0 <= len < 2 ^ 31 /\ 0 <= count < 2 ^ 30
}.

Lemma modeZ_range m : 0 <= modeZ m < 4.
Proof. destruct m; cbn; lia. Qed.
Lemma modeOf_modeZ m : modeOf (modeZ m) = m.
Proof. by destruct m. Qed.

Lemma says_get i valid len mode count :
  says i valid len mode count ->
  IsValidShortBuffer i = valid /\ GetFlushLength i = len /\ GetCompressMode i = mode /\ GetFlushCount i = count.
Proof.
  intros [Hv Hl Hm Hc [? ?]]. pose proof (modeZ_range mode). unfold IsValidShortBuffer, GetFlushLength, GetCompressMode, GetFlushCount.
  rewrite Hv, Hl, Hm, Hc, !u32_small, Z.mod_small, modeOf_modeZ by lia. by destruct valid.
Qed.

Lemma masks :
  (MASK_IS_VALID_SB = mask 1 OFFSET_IS_VALID_SB /\ MASK_FLUSH_LENGTH = mask 31 OFFSET_FLUSH_LENGTH) /\
  MASK_COMPRESS_MODE = mask 2 OFFSET_COMPRESS_MODE /\ MASK_FLUSH_COUNT = mask 30 OFFSET_FLUSH_COUNT.
Proof. by vm_compute. Qed.

Ltac offsets := unfold OFFSET_IS_VALID_SB, OFFSET_FLUSH_LENGTH, OFFSET_COMPRESS_MODE, OFFSET_FLUSH_COUNT; lia.

(** A field that was just set, and another one *)
Ltac same := rewrite get_set_same; [done | offsets ..].
Ltac other H := rewrite get_set_other; [exact H | offsets ..].

Lemma says_valid i valid len mode count v : says i valid len mode count -> says (SetIsValidShortBuffer v i) v len mode count.
Proof.
  intros [Hv Hl Hm Hc Hr]. assert (0 <= (if v then 1 else 0) < 2) by (destruct v; lia). unfold SetIsValidShortBuffer.
  split; destruct masks as [[E1 E2] [E3 E4]]; rewrite E1, ?E2, ?E3, ?E4 in *; [same | other Hl | other Hm | other Hc | done].
Qed.
Lemma says_len i valid len mode count v : says i valid len mode count -> 0 <= v < 2 ^ 31 -> says (SetFlushLength v i) valid v mode count.
Proof.
  intros [Hv Hl Hm Hc Hr] Hv'. unfold SetFlushLength.
  split; destruct masks as [[E1 E2] [E3 E4]]; rewrite ?E1, E2, ?E3, ?E4 in *; [other Hv | same | other Hm | other Hc | lia].
Qed.
Lemma says_mode i valid len mode count m : says i valid len mode count -> says (SetCompressMode m i) valid len m count.
Proof.
  intros [Hv Hl Hm Hc Hr]. pose proof (modeZ_range m). unfold SetCompressMode.
  split; destruct masks as [[E1 E2] [E3 E4]]; rewrite ?E1, ?E2, E3, ?E4 in *; [other Hv | other Hl | same | other Hc | done].
Qed.
Lemma says_count i valid len mode count v : says i valid len mode count -> 0 <= v < 2 ^ 30 -> says (SetFlushCount v i) valid len mode v.
Proof.
  intros [Hv Hl Hm Hc Hr] Hv'. unfold SetFlushCount.
  split; destruct masks as [[E1 E2] [E3 E4]]; rewrite ?E1, ?E2, ?E3, E4 in *; [other Hv | other Hl | other Hm | same | lia].
Qed.

Lemma says_Reset : says Reset false 0 Encoders.SHORT_LIST_COMPRESS_MODE 0.
Proof. by split. Qed.

End FlushInfoCorrect.

(** ** Memory with a part replaced *)

Definition splice {A} (l : list A) (off : nat) (new : list A) : list A := take off l ++ new ++ drop (off + length new) l.

Lemma length_splice {A} (l : list A) off new : (off + length new <= length l)%nat -> length (splice l off new) = length l.
Proof. intros H. unfold splice. rewrite !length_app, length_take, length_drop. lia. Qed.

Lemma lookup_splice_in {A} (l : list A) off new j :
  (off + length new <= length l)%nat -> (j < length new)%nat -> splice l off new !! (off + j)%nat = new !! j.
Proof.
  intros H Hj. unfold splice. rewrite lookup_app_r by (rewrite length_take; lia).
  rewrite lookup_app_l by (rewrite length_take; lia). f_equal. rewrite length_take. lia.
Qed.

Lemma lookup_splice_out {A} (l : list A) off new p :
  (off + length new <= length l)%nat -> (p < off \/ off + length new <= p)%nat -> splice l off new !! p = l !! p.
Proof.
  intros H Hp. unfold splice. destruct Hp.
  - rewrite lookup_app_l by (rewrite length_take; lia). by apply lookup_take_lt.
  - rewrite app_assoc, lookup_app_r by (rewrite length_app, length_take; lia). rewrite lookup_drop, length_app, length_take. f_equal. lia.
Qed.

Module ShortBufCorrect.
Import Rows ShortBuf EncodersCorrect.

(** ** Rows *)

(** The rows of a [MultiValue] lie one after the other. *)
Fixpoint layoutFrom (i : nat) (off : Z) (rows : list AtomicValue) : Prop :=
  match rows with
  | [] => True
  | a :: rows => _location a = i /\ Rows._offset a = off /\ (0 < sizeT a <= 8)%nat /\ layoutFrom (S i) (off + Z.of_nat (sizeT a)) rows
  end.

Definition widths (rows : list AtomicValue) : Z := Z.of_nat (sum_list (map sizeT rows)).

Record wfMulti (mv : MultiValue) : Prop := {
  wm_layout : layoutFrom 0 0 (_atomicValues mv);
  wm_size : Rows._size mv = widths (_atomicValues mv);
  wm_few : (0 < length (_atomicValues mv) <= 8)%nat
}.

Lemma widths_cons a rows : widths (a :: rows) = Z.of_nat (sizeT a) + widths rows.
Proof. unfold widths. cbn. lia. Qed.

Lemma widths_nonneg rows : 0 <= widths rows.
Proof. unfold widths. lia. Qed.

(** Where a row of a layout is *)
Lemma layout_lookup rows i off n a :
  layoutFrom i off rows -> rows !! n = Some a ->
  _location a = (i + n)%nat /\ off <= Rows._offset a /\ Rows._offset a + Z.of_nat (sizeT a) <= off + widths rows /\ (0 < sizeT a <= 8)%nat.
Proof.
  revert i off n. induction rows as [|b rows IH]; intros i off n Hl Hn; [done|]. cbn [layoutFrom] in Hl.
  destruct Hl as (Hb1 & Hb2 & Hb3 & Hl). rewrite widths_cons. pose proof (widths_nonneg rows). destruct n as [|n].
  - injection Hn as ->. split_and!; lia.
  - destruct (IH (S i) (off + Z.of_nat (sizeT b)) n Hl Hn) as (-> & ? & ? & ?). split_and!; lia.
Qed.

(** Rows do not overlap. *)
Lemma layout_disjoint rows i off n k a b :
  layoutFrom i off rows -> rows !! n = Some a -> rows !! k = Some b -> (n < k)%nat -> Rows._offset a + Z.of_nat (sizeT a) <= Rows._offset b.
Proof.
  revert i off n k. induction rows as [|c rows IH]; intros i off n k Hl Hn Hk Hlt; [done|]. cbn [layoutFrom] in Hl.
  destruct Hl as (Hc1 & Hc2 & Hc3 & Hl). destruct k as [|k]; [lia|]. cbn in Hk. destruct n as [|n].
  - injection Hn as ->. destruct (layout_lookup rows (S i) _ k b Hl Hk) as (_ & ? & _). lia.
  - eapply (IH (S i) _ n k); eauto. lia.
Qed.

Lemma layout_offset_small mv n a : wfMulti mv -> _atomicValues mv !! n = Some a -> 0 <= Rows._offset a < 64.
Proof.
  intros [Hl _ Hf] Hn. destruct (layout_lookup _ _ _ _ _ Hl Hn) as (_ & H0 & Hw & Hs).
  assert (widths (_atomicValues mv) <= 64); [|lia]. clear H0 Hw Hn Hs.
  assert (forall rows i off, layoutFrom i off rows -> widths rows <= 8 * Z.of_nat (length rows)) as Hb.
  { induction rows as [|b rows IH]; intros i off H; [done|]. destruct H as (_ & _ & Hb & H). specialize (IH _ _ H). rewrite widths_cons. cbn [length]. lia. }
  specialize (Hb _ _ _ Hl). lia.
Qed.

(** ** The values of a row *)

(** The cells of row [a] start with [vs]. *)
Definition rowHolds (cells : list (option Z)) (cap : Z) (a : AtomicValue) (vs : list Z) : Prop :=
  forall j x, memoryOf (sizeT a) vs !! j = Some x -> cells !! (Z.to_nat (rowAt cap a) + j)%nat = Some (Some x).

Lemma rowHolds_nil cells cap a : rowHolds cells cap a [].
Proof. intros j x H. done. Qed.

(** What matters of the cells is the range of the values. *)
Lemma rowHolds_ext cells cells' cap cap' a vs :
  rowHolds cells cap a vs ->
  (forall j, (j < length vs * sizeT a)%nat -> cells' !! (Z.to_nat (rowAt cap' a) + j)%nat = cells !! (Z.to_nat (rowAt cap a) + j)%nat) ->
  rowHolds cells' cap' a vs.
Proof. intros H He j x Hj. rewrite He; [by apply H|]. apply lookup_lt_Some in Hj. by rewrite length_memoryOf in Hj. Qed.

Lemma rowHolds_take cells cap a vs ws : rowHolds cells cap a (vs ++ ws) -> rowHolds cells cap a vs.
Proof. intros H j x Hj. apply H. rewrite memoryOf_app. by apply lookup_app_l_Some. Qed.

Lemma rowHolds_drop cells cap a vs :
  rowHolds cells cap a vs -> (Z.to_nat (rowAt cap a) + length vs * sizeT a <= length cells)%nat ->
  drop (Z.to_nat (rowAt cap a)) cells = map Some (memoryOf (sizeT a) vs) ++ drop (Z.to_nat (rowAt cap a) + length vs * sizeT a) cells.
Proof.
  intros H Hl. rewrite <- (take_drop (length vs * sizeT a) (drop (Z.to_nat (rowAt cap a)) cells)), drop_drop. f_equal.
  apply list_eq. intros j. destruct (Nat.lt_ge_cases j (length vs * sizeT a)).
  - rewrite lookup_take_lt, lookup_drop by done. destruct (lookup_lt_is_Some_2 (memoryOf (sizeT a) vs) j) as [x Hx]; [by rewrite length_memoryOf|].
    rewrite (H j x Hx). symmetry. etransitivity; [exact (list_lookup_fmap Some (memoryOf (sizeT a) vs) j)|]. by rewrite Hx.
  - rewrite !lookup_ge_None_2; [done | rewrite length_map, length_memoryOf; lia | rewrite length_take; lia].
Qed.

Lemma memoryOf_snoc n vs v : memoryOf n (vs ++ [v]) = memoryOf n vs ++ bytes n v.
Proof. rewrite memoryOf_app, memoryOf_cons. f_equal. apply app_nil_r. Qed.

(** One more value *)
Lemma rowHolds_snoc cells cap a vs v :
  rowHolds cells cap a vs -> (Z.to_nat (rowAt cap a) + S (length vs) * sizeT a <= length cells)%nat ->
  rowHolds (splice cells (Z.to_nat (rowAt cap a) + length vs * sizeT a) (map Some (bytes (sizeT a) v))) cap a (vs ++ [v]).
Proof.
  intros H Hl j x Hj. rewrite memoryOf_snoc in Hj.
  assert (length (map Some (bytes (sizeT a) v)) = sizeT a) as Hlen by (by rewrite length_map, length_bytes).
  apply lookup_app_Some in Hj as [Hj|[Hge Hj]].
  - pose proof (lookup_lt_Some _ _ _ Hj) as Hlt. rewrite length_memoryOf in Hlt. rewrite lookup_splice_out by lia. by apply H.
  - rewrite length_memoryOf in Hge, Hj. pose proof (lookup_lt_Some _ _ _ Hj) as Hlt. rewrite length_bytes in Hlt.
    replace (Z.to_nat (rowAt cap a) + j)%nat with (Z.to_nat (rowAt cap a) + length vs * sizeT a + (j - length vs * sizeT a))%nat by lia.
    rewrite lookup_splice_in by lia. etransitivity; [exact (list_lookup_fmap Some (bytes (sizeT a) v) _)|]. by rewrite Hj.
Qed.

(** ** Copying the rows *)

Definition cellsOf (d : option (list (option Z))) : list (option Z) := match d with Some l => l | None => [] end.

Lemma copyCells_ok dst doff src soff len :
  0 <= doff -> 0 <= soff -> 0 <= len -> doff + len <= Z.of_nat (length dst) -> soff + len <= Z.of_nat (length src) ->
  copyCells dst doff src soff len = Ok (splice dst (Z.to_nat doff) (take (Z.to_nat len) (drop (Z.to_nat soff) src))).
Proof.
  intros Hd Hs Hl Hdl Hsl. unfold copyCells. replace (_ || _ || _ || _) with false by lia. unfold splice.
  rewrite length_take, length_drop. do 4 f_equal. lia.
Qed.

Lemma copyRows_ok rows i off dst dcap src scap n :
  layoutFrom i off rows -> 0 <= off -> 0 <= n <= dcap -> n <= scap ->
  (off + widths rows) * dcap <= Z.of_nat (length dst) -> (off + widths rows) * scap <= Z.of_nat (length src) ->
  exists dst', copyRows rows dst dcap src scap n = Ok dst' /\ length dst' = length dst /\
    (forall p, (p < Z.to_nat (off * dcap))%nat -> dst' !! p = dst !! p) /\
    (forall k a, rows !! k = Some a -> forall j, (j < Z.to_nat n * sizeT a)%nat ->
       dst' !! (Z.to_nat (rowAt dcap a) + j)%nat = src !! (Z.to_nat (rowAt scap a) + j)%nat).
Proof.
  revert i off dst. induction rows as [|a rows IH]; intros i off dst Hl Ho Hn Hns Hd Hs.
  { exists dst. split_and!; done. }
  cbn [layoutFrom] in Hl. destruct Hl as (_ & Ha & Hsz & Hl). rewrite widths_cons in Hd, Hs. pose proof (widths_nonneg rows) as Hw.
  cbn [copyRows]. unfold rowAt at 1 2. rewrite Ha. set (z := Z.of_nat (sizeT a)) in *.
  assert (off * dcap + n * z <= (off + z) * dcap) as Hin by nia. assert (off * scap + n * z <= (off + z) * scap) as Hins by nia.
  assert ((off + z) * dcap <= (off + (z + widths rows)) * dcap) as Hr by nia. assert ((off + z) * scap <= (off + (z + widths rows)) * scap) as Hrs by nia.
  rewrite copyCells_ok by nia. cbn [res_bind]. set (new := take _ _).
  assert (length new = Z.to_nat (n * z)) as Hnew by (unfold new; rewrite length_take, length_drop; nia).
  assert (Z.to_nat (off * dcap) + length new <= length dst)%nat as Hfit by nia.
  destruct (IH (S i) (off + z) (splice dst (Z.to_nat (off * dcap)) new) Hl) as (dst' & Hrun & Hlen & Hlow & Hrows); try (rewrite ?length_splice by done; nia).
  rewrite length_splice in Hlen by done. exists dst'. split_and!; [done | done | |].
  - intros p Hp. rewrite Hlow by nia. apply lookup_splice_out; [done | by left].
  - intros k b Hk j Hj. destruct k as [|k]; [|by apply (Hrows k)]. injection Hk as <-. unfold rowAt. rewrite Ha.
    assert (j < length new)%nat by nia. rewrite Hlow by nia. rewrite lookup_splice_in by done. unfold new.
    rewrite lookup_take_lt by nia. by rewrite lookup_drop.
Qed.

Lemma BufferMemoryCopy_ok mv dst dcap src scap n :
  wfMulti mv -> 0 <= n <= dcap -> n <= scap -> (src = None -> n = 0) ->
  Z.of_nat (length dst) = dcap * Rows._size mv -> Z.of_nat (length (cellsOf src)) = scap * Rows._size mv ->
  exists dst', BufferMemoryCopy dst dcap src scap mv n = Ok dst' /\ length dst' = length dst /\
    (forall k a, _atomicValues mv !! k = Some a -> forall j, (j < Z.to_nat n * sizeT a)%nat ->
       dst' !! (Z.to_nat (rowAt dcap a) + j)%nat = cellsOf src !! (Z.to_nat (rowAt scap a) + j)%nat).
Proof.
  intros [Hl Hsz _] Hn Hns Hnone Hd Hs. unfold BufferMemoryCopy. rewrite Hsz in *. destruct src as [src|]; cbn [cellsOf] in *.
  - destruct (Z.eqb_spec n 0) as [->|].
    { exists dst. split_and!; try done. intros k a _ j Hj. lia. }
    destruct (copyRows_ok (_atomicValues mv) 0 0 dst dcap src scap n Hl) as (dst' & Hrun & Hlen & _ & Hrows); try lia.
    by exists dst'.
  - exists dst. rewrite (Hnone eq_refl). split_and!; try done. intros k a _ j Hj. lia.
Qed.

(** ** The invariant *)

(** [b] has the values [vs] in row [a]: as many as the columns, and one more when a column is being pushed. *)
Record rowOk (b : ShortBuffer) (a : AtomicValue) (vs : list Z) : Prop := {
  ro_length : ShortBuf._size b <= Z.of_nat (length vs) <= ShortBuf._size b + 1;
  ro_capacity : Z.of_nat (length vs) <= _capacity b;
  ro_fits : Forall (fits (8 * Z.of_nat (sizeT a))) vs;
  ro_cells : rowHolds (cellsOf (_buffer b)) (_capacity b) a vs
}.

Record holds (b : ShortBuffer) (mv : MultiValue) (rows : list (list Z)) : Prop := {
  sh_multi : _multiValue b = mv;
  sh_wf : wfMulti mv;
  sh_offsets : forall i a, _atomicValues mv !! i = Some a -> ShortBuf._offset b !! i = Some (Rows._offset a);
  sh_size : 0 <= ShortBuf._size b <= _capacity b;
  sh_capacity : _capacity b <= 128;
  sh_cells : Z.of_nat (length (cellsOf (_buffer b))) = _capacity b * Rows._size mv;
  sh_none : _buffer b = None -> _capacity b = 0;
  sh_count : length rows = length (_atomicValues mv);
  sh_rows : forall i a vs, _atomicValues mv !! i = Some a -> rows !! i = Some vs -> rowOk b a vs
}.

(** No column is being pushed. *)
Definition complete (b : ShortBuffer) (mv : MultiValue) (rows : list (list Z)) : Prop :=
  holds b mv rows /\ Forall (fun vs => Z.of_nat (length vs) = ShortBuf._size b) rows.

(** The cells of a row are inside the buffer. *)
Lemma row_inside b mv rows i a n :
  holds b mv rows -> _atomicValues mv !! i = Some a -> Z.of_nat n <= _capacity b ->
  (Z.to_nat (rowAt (_capacity b) a) + n * sizeT a <= length (cellsOf (_buffer b)))%nat /\ 0 <= rowAt (_capacity b) a.
Proof.
  intros Hh Hi Hn. destruct (sh_wf _ _ _ Hh) as [Hl Hsz _]. destruct (layout_lookup _ _ _ _ _ Hl Hi) as (_ & H0 & Hw & Hs).
  pose proof (sh_cells _ _ _ Hh) as Hc. rewrite Hsz in Hc. unfold rowAt. set (z := Z.of_nat (sizeT a)) in *.
  assert (Z.of_nat n * z <= _capacity b * z) by nia.
  assert ((Rows._offset a + z) * _capacity b <= widths (_atomicValues mv) * _capacity b) by nia. nia.
Qed.

Lemma row_of_atom b mv rows i a : holds b mv rows -> _atomicValues mv !! i = Some a -> exists vs, rows !! i = Some vs.
Proof. intros Hh Hi. apply lookup_lt_is_Some_2. rewrite (sh_count _ _ _ Hh). by eapply lookup_lt_Some. Qed.

(** Another buffer with the same values *)
Lemma holds_moved b mv rows d cap n off :
  complete b mv rows -> n = ShortBuf._size b -> n <= cap <= 128 ->
  (forall i a, _atomicValues mv !! i = Some a -> off !! i = Some (Rows._offset a)) ->
  Z.of_nat (length d) = cap * Rows._size mv ->
  (forall k a, _atomicValues mv !! k = Some a -> forall j, (j < Z.to_nat n * sizeT a)%nat ->
     d !! (Z.to_nat (rowAt cap a) + j)%nat = cellsOf (_buffer b) !! (Z.to_nat (rowAt (_capacity b) a) + j)%nat) ->
  forall v, complete (mkShort (Some d) off cap n v mv) mv rows.
Proof.
  intros [Hh Hc] -> Hcap Hoff Hd Hcells v. pose proof (sh_size _ _ _ Hh). split; [|done].
  split; cbn; try done; [apply Hh | lia | lia | apply Hh |].
  intros i a vs Ha Hv. destruct (sh_rows _ _ _ Hh i a vs Ha Hv) as [_ _ Hf Hr]. pose proof (Forall_lookup_1 _ _ _ _ Hc Hv) as Hlen. cbn in Hlen.
  split; cbn; [lia | lia | done|].
  eapply rowHolds_ext; [exact Hr|]. intros j Hj. apply (Hcells i); [done|]. lia.
Qed.

(** ** The operations *)

Lemma AllocatePlan_grows c : 0 <= c < 128 -> c < AllocatePlan c <= 128.
Proof. intros H. unfold AllocatePlan. repeat case_match; lia. Qed.

(** A full buffer has no column that is being pushed. *)
Lemma full_complete b mv rows : holds b mv rows -> IsFull b = true -> complete b mv rows.
Proof.
  intros Hh Hf. split; [done|]. unfold IsFull in Hf. apply Forall_lookup_2. intros i vs Hv.
  destruct (lookup_lt_is_Some_2 (_atomicValues mv) i) as [a Ha]; [rewrite <- (sh_count _ _ _ Hh); by eapply lookup_lt_Some|].
  destruct (sh_rows _ _ _ Hh i a vs Ha Hv) as [Hl Hc _ _]. lia.
Qed.

Lemma holds_size0 b mv rows : holds b mv rows -> _buffer b = None -> ShortBuf._size b = 0.
Proof. intros Hh Hn. pose proof (sh_none _ _ _ Hh Hn). pose proof (sh_size _ _ _ Hh). lia. Qed.

Lemma Reallocate_ok b mv rows :
  complete b mv rows -> _capacity b < 128 ->
  exists b', Reallocate b = Ok (true, b') /\ complete b' mv rows /\ ShortBuf._size b' = ShortBuf._size b /\ _capacity b < _capacity b'.
Proof.
  intros Hco Hlt. pose proof Hco as [Hh _]. pose proof (sh_size _ _ _ Hh). pose proof (AllocatePlan_grows (_capacity b) ltac:(lia)) as Hplan.
  unfold Reallocate. rewrite (proj2 (Z.eqb_neq _ _)) by lia. rewrite (sh_multi _ _ _ Hh). set (cap := AllocatePlan _) in *.
  destruct (sh_wf _ _ _ Hh) as [_ Hsz _]. pose proof (widths_nonneg (_atomicValues mv)).
  destruct (BufferMemoryCopy_ok mv (Allocate (cap * Rows._size mv)) cap (_buffer b) (_capacity b) (ShortBuf._size b)) as (d & Hrun & Hlen & Hd);
    [apply Hh | lia | lia | intros Hn; by eapply holds_size0 | unfold Allocate; rewrite repeat_length; nia | apply Hh |].
  rewrite Hrun. cbn [res_bind]. eexists. split; [done|]. split; [|cbn; lia].
  eapply holds_moved; try done; [lia | apply Hh |]. rewrite Hlen. unfold Allocate. rewrite repeat_length. nia.
Qed.

Lemma poke_splice l off bs :
  0 <= off -> off + Z.of_nat (length bs) <= Z.of_nat (length l) -> bs <> [] ->
  poke (Some l) off bs = Ok (Some (splice l (Z.to_nat off) (map Some bs))).
Proof.
  intros Ho Hl Hne. unfold poke, splice. rewrite length_map. destruct bs as [|x bs]; [done|]. by replace (_ || _) with false by lia.
Qed.

(** Where two rows differ, their cells do. *)
Lemma rows_apart b mv rows i k a c (n : nat) :
  holds b mv rows -> _atomicValues mv !! i = Some a -> _atomicValues mv !! k = Some c -> i <> k -> Z.of_nat n <= _capacity b ->
  (Z.to_nat (rowAt (_capacity b) c) + n * sizeT c <= Z.to_nat (rowAt (_capacity b) a) \/
   Z.to_nat (rowAt (_capacity b) a) + Z.to_nat (_capacity b) * sizeT a <= Z.to_nat (rowAt (_capacity b) c))%nat.
Proof.
  intros Hh Hi Hk Hne Hn. destruct (sh_wf _ _ _ Hh) as [Hl Hsz _]. pose proof (sh_size _ _ _ Hh).
  destruct (layout_lookup _ _ _ _ _ Hl Hi) as (_ & ? & _). destruct (layout_lookup _ _ _ _ _ Hl Hk) as (_ & ? & _). unfold rowAt.
  destruct (Nat.lt_ge_cases i k).
  - right. pose proof (layout_disjoint _ _ _ _ _ _ _ Hl Hi Hk ltac:(lia)) as Hd. nia.
  - left. pose proof (layout_disjoint _ _ _ _ _ _ _ Hl Hk Hi ltac:(lia)) as Hd. nia.
Qed.

(** The end of [PushBack], when there is room *)
Lemma push_room b mv rows i a vs v :
  holds b mv rows -> _atomicValues mv !! i = Some a -> rows !! i = Some vs -> Z.of_nat (length vs) = ShortBuf._size b ->
  fits (8 * Z.of_nat (sizeT a)) v -> ShortBuf._size b < _capacity b ->
  exists d, poke (_buffer b) (Rows._offset a * _capacity b + ShortBuf._size b * Z.of_nat (sizeT a)) (bytes (sizeT a) v) = Ok d /\
    holds (mkShort d (ShortBuf._offset b) (_capacity b) (ShortBuf._size b) (_isBufferValid b) (_multiValue b)) mv (<[i := vs ++ [v]]> rows).
Proof.
  intros Hh Ha Hv Hlen Hf Hroom. destruct (row_inside b mv rows i a (S (length vs)) Hh Ha ltac:(lia)) as [Hin H0].
  destruct (sh_wf _ _ _ Hh) as [Hl _ _]. destruct (layout_lookup _ _ _ _ _ Hl Ha) as (_ & _ & _ & Hs).
  destruct (_buffer b) as [cells|] eqn:Hb; [|pose proof (sh_none _ _ _ Hh Hb); pose proof (sh_size _ _ _ Hh); lia]. cbn [cellsOf] in *.
  change (Rows._offset a * _capacity b) with (rowAt (_capacity b) a). set (base := rowAt (_capacity b) a) in *.
  assert (Z.to_nat (base + ShortBuf._size b * Z.of_nat (sizeT a)) = Z.to_nat base + length vs * sizeT a)%nat as Hpos by nia.
  rewrite poke_splice; [|nia | rewrite length_bytes; nia | intros E; apply (f_equal length) in E; rewrite length_bytes in E; cbn in E; lia].
  eexists. split; [done|]. rewrite Hpos. pose proof (rowHolds_snoc cells (_capacity b) a vs v) as Hsnoc.
  assert (length (map Some (bytes (sizeT a) v)) = sizeT a) as Hlb by (by rewrite length_map, length_bytes).
  assert (Z.to_nat base + length vs * sizeT a + length (map Some (bytes (sizeT a) v)) <= length cells)%nat as Hfit by lia.
  split; cbn; try apply Hh.
  - rewrite length_splice by lia. pose proof (sh_cells _ _ _ Hh) as Hc. rewrite Hb in Hc. done.
  - done.
  - by rewrite length_insert, (sh_count _ _ _ Hh).
  - intros k c ws Hc Hw. destruct (Nat.eq_dec k i) as [->|Hne].
    + rewrite Ha in Hc. injection Hc as <-. rewrite list_lookup_insert_eq in Hw by (by eapply lookup_lt_Some). injection Hw as <-.
      destruct (sh_rows _ _ _ Hh i a vs Ha Hv) as [Hlv Hcv Hfv Hrv]. rewrite Hb in Hrv.
      split; cbn; rewrite ?length_app; cbn; [lia | lia | apply Forall_app; split; [done | by constructor] | by apply Hsnoc].
    + rewrite list_lookup_insert_ne in Hw by done. destruct (sh_rows _ _ _ Hh k c ws Hc Hw) as [Hlv Hcv Hfv Hrv]. rewrite Hb in Hrv.
      split; cbn; [done | done | done|]. eapply rowHolds_ext; [exact Hrv|]. intros j Hj. apply lookup_splice_out; [exact Hfit|].
      pose proof (rows_apart b mv rows i k a c (length ws) Hh Ha Hc ltac:(done) ltac:(lia)) as Hap. fold base in Hap. rewrite Hlb.
      assert (length vs * sizeT a + sizeT a <= Z.to_nat (_capacity b) * sizeT a)%nat by nia. lia.
Qed.

Lemma PushBack_ok b mv rows i a vs v :
  holds b mv rows -> _atomicValues mv !! i = Some a -> rows !! i = Some vs -> Z.of_nat (length vs) = ShortBuf._size b ->
  fits (8 * Z.of_nat (sizeT a)) v -> ShortBuf._size b < 128 ->
  exists b', PushBack (sizeT a) i v b = Ok (true, b') /\ holds b' mv (<[i := vs ++ [v]]> rows) /\ ShortBuf._size b' = ShortBuf._size b.
Proof.
  intros Hh Ha Hv Hlen Hf Hsz. unfold PushBack.
  assert (exists b1, (if IsFull b then Reallocate b else Ok (true, b)) = Ok (true, b1) /\ holds b1 mv rows /\
    ShortBuf._size b1 = ShortBuf._size b /\ ShortBuf._size b < _capacity b1) as (b1 & -> & Hh1 & Hs1 & Hroom).
  { destruct (IsFull b) eqn:Hfull.
    - pose proof (sh_size _ _ _ Hh). destruct (Reallocate_ok b mv rows (full_complete _ _ _ Hh Hfull)) as (b1 & Hr & [Hh1 _] & Hs & Hc); [unfold IsFull in Hfull; lia|].
      exists b1. split_and!; try done. lia.
    - exists b. unfold IsFull in Hfull. split_and!; try done. lia. }
  cbn [res_bind negb]. unfold GetRowTyped. rewrite (sh_offsets _ _ _ Hh1 i a Ha). cbn [deref res_bind].
  destruct (push_room b1 mv rows i a vs v Hh1 Ha Hv ltac:(lia) Hf ltac:(lia)) as (d & -> & Hh2). cbn [res_bind].
  eexists. split; [done|]. split; [exact Hh2 | done].
Qed.

Lemma EndPushBack_ok b mv rows :
  holds b mv rows -> Forall (fun vs => Z.of_nat (length vs) = ShortBuf._size b + 1) rows -> rows <> [] ->
  complete (EndPushBack b) mv rows /\ ShortBuf._size (EndPushBack b) = ShortBuf._size b + 1.
Proof.
  intros Hh Hall Hne. pose proof (sh_size _ _ _ Hh). pose proof (sh_capacity _ _ _ Hh).
  assert (ShortBuf._size b + 1 <= _capacity b) as Hc.
  { destruct rows as [|vs rows]; [done|]. destruct (lookup_lt_is_Some_2 (_atomicValues mv) 0) as [a Ha]; [rewrite <- (sh_count _ _ _ Hh); cbn; lia|].
    destruct (sh_rows _ _ _ Hh 0 a vs Ha eq_refl) as [_ ? _ _]. apply Forall_cons_1 in Hall as [? _]. lia. }
  assert (ShortBuf._size (EndPushBack b) = ShortBuf._size b + 1) as Hs by (cbn; apply Z.mod_small; lia).
  split; [|done]. split; [|by rewrite Hs]. split; try apply Hh; [rewrite Hs; cbn; lia|].
  intros i a vs Ha Hv. destruct (sh_rows _ _ _ Hh i a vs Ha Hv) as [_ ? ? ?]. pose proof (Forall_lookup_1 _ _ _ _ Hall Hv) as Hl. cbv beta in Hl.
  split; [rewrite Hs; lia | done..].
Qed.

Lemma Clear_ok b mv rows : holds b mv rows -> complete (Clear b) mv (map (fun _ => []) rows).
Proof.
  intros Hh. pose proof (sh_size _ _ _ Hh). split.
  - split; try apply Hh; [cbn; lia | rewrite length_map; apply Hh|]. intros i a vs Ha Hv.
    apply (list_lookup_fmap_Some_1 (fun _ => []) rows) in Hv as (? & -> & _).
    split; cbn; [lia | lia | constructor | apply rowHolds_nil].
  - apply Forall_lookup_2. intros i vs Hv. by apply (list_lookup_fmap_Some_1 (fun _ => []) rows) in Hv as (? & -> & _).
Qed.

(** The values of a row *)
Lemma rowValues_ok b mv rows i a vs :
  complete b mv rows -> _atomicValues mv !! i = Some a -> rows !! i = Some vs -> rowValues (rowAt (_capacity b) a) (sizeT a) b = Ok vs.
Proof.
  intros [Hh Hc] Ha Hv. pose proof (Forall_lookup_1 _ _ _ _ Hc Hv) as Hlen. cbn in Hlen.
  destruct (sh_rows _ _ _ Hh i a vs Ha Hv) as [_ Hcap Hf Hr]. destruct (row_inside b mv rows i a (length vs) Hh Ha Hcap) as [Hin H0].
  unfold rowValues. rewrite <- Hlen, Nat2Z.id. pose proof (rowHolds_drop _ _ _ _ Hr Hin) as Hd.
  destruct vs as [|v vs]; [done|]. destruct (_buffer b) as [cells|] eqn:Hb; cbn [cellsOf] in *; [|pose proof (holds_size0 _ _ _ Hh Hb); cbn in *; lia].
  destruct (sh_wf _ _ _ Hh) as [Hl _ _]. destruct (layout_lookup _ _ _ _ _ Hl Ha) as (_ & _ & _ & Hs).
  pose proof (peek_ok cells _ _ _ Hd) as Hp. rewrite Z2Nat.id, length_memoryOf, Nat2Z.inj_mul in Hp by done. rewrite Hp by (cbn; nia). cbn [res_bind].
  pose proof (valuesOf_memoryOf (sizeT a) (v :: vs) [] Hf) as Hval. by rewrite app_nil_r in Hval; rewrite Hval.
Qed.

(** ** New buffers and copies *)

Lemma Init_ok mv :
  wfMulti mv -> exists b, Init mv new_ShortBuffer = Ok b /\ complete b mv (map (fun _ => []) (_atomicValues mv)) /\ _buffer b = None.
Proof.
  intros Hw. pose proof (wm_few _ Hw) as Hfew. unfold Init. rewrite length_map. replace (8 <? _)%nat with false by lia.
  eexists. split; [done|]. split; [|done]. split.
  - split; cbn [_multiValue ShortBuf._offset _capacity ShortBuf._size _buffer cellsOf length new_ShortBuffer]; try done; [|apply length_map|].
    + intros i a Hi. rewrite lookup_app_l by (rewrite length_map; by eapply lookup_lt_Some).
      etransitivity; [exact (list_lookup_fmap _ (_atomicValues mv) i)|]. rewrite Hi. cbn. pose proof (layout_offset_small mv i a Hw Hi). by rewrite Z.mod_small by lia.
    + intros i a vs _ Hv. apply (list_lookup_fmap_Some_1 (fun _ => []) (_atomicValues mv)) in Hv as (? & -> & _). split; cbn; try lia; [constructor | apply rowHolds_nil].
  - apply Forall_lookup_2. intros i vs Hv. by apply (list_lookup_fmap_Some_1 (fun _ => []) (_atomicValues mv)) in Hv as (? & -> & _).
Qed.

(** Rows that are all empty *)
Lemma complete_empty b mv rows : complete b mv rows -> ShortBuf._size b = 0 -> rows = map (fun _ => []) (_atomicValues mv).
Proof.
  intros [Hh Hc] Hs. apply list_eq. intros i. symmetry. etransitivity; [exact (list_lookup_fmap (fun _ => []) (_atomicValues mv) i)|].
  destruct (_atomicValues mv !! i) as [a|] eqn:Ha.
  - destruct (row_of_atom _ _ _ _ _ Hh Ha) as [vs Hv]. rewrite Hv. pose proof (Forall_lookup_1 _ _ _ _ Hc Hv) as Hl. cbn in Hl. by destruct vs; [|cbn in Hl; lia].
  - symmetry. apply lookup_ge_None in Ha. apply lookup_ge_None. by rewrite (sh_count _ _ _ Hh).
Qed.

Lemma SnapShot_ok b mv rows other :
  complete b mv rows -> complete other mv (map (fun _ => []) (_atomicValues mv)) -> _buffer other = None ->
  exists other', SnapShot b other = Ok (true, other') /\ complete other' mv rows /\ ShortBuf._size other' = ShortBuf._size b.
Proof.
  intros Hco [Ho Hoc] Hnone. pose proof Hco as [Hh _]. unfold SnapShot. cbn [_multiValue Clear].
  rewrite (sh_multi _ _ _ Hh), (sh_multi _ _ _ Ho), Nat.eqb_refl. cbn [negb].
  pose proof (sh_size _ _ _ Hh) as Hsz. pose proof (sh_capacity _ _ _ Hh) as Hcap. destruct (sh_wf _ _ _ Hh) as [_ Hmw _]. pose proof (widths_nonneg (_atomicValues mv)) as Hw.
  destruct (_buffer b) as [cells|] eqn:Hb.
  - unfold Reserve. cbn [_buffer Clear]. rewrite Hnone. cbn [res_bind _buffer deref _multiValue _capacity Clear]. rewrite (sh_multi _ _ _ Ho).
    destruct (BufferMemoryCopy_ok mv (Allocate (ShortBuf._size b * Rows._size mv)) (ShortBuf._size b) (Some cells) (_capacity b) (ShortBuf._size b))
      as (d & -> & Hlen & Hd); [apply Hh | lia | lia | done | unfold Allocate; rewrite repeat_length; nia | rewrite <- Hb; apply Hh |].
    cbn [res_bind]. eexists. split; [done|]. split; [|done].
    eapply holds_moved; try done; [lia | apply Ho | rewrite Hlen; unfold Allocate; rewrite repeat_length; nia | by rewrite Hb].
  - pose proof (holds_size0 _ _ _ Hh Hb) as H0. eexists. split; [done|]. split; [|cbn; lia].
    rewrite (complete_empty _ _ _ Hco H0). pose proof (Clear_ok other mv _ Ho) as Hcl. by rewrite map_map in Hcl.
Qed.

End ShortBufCorrect.
