(* ===== verification/PostingBufferCorrect.v ===== *)
(** * The buffers of posting lists keep their records

    A [BufferedByteSlice] holds the records it has flushed, as bytes, and the columns that were pushed since. A
    [BufferedByteSliceReader] on it, or on a snapshot of it, reads them row by row. *)

From stdpp Require Import base list numbers option tactics gmap.
From Stdlib Require Import ZArith Lia ZifyNat ZifyBool.
From S2P Require Import Prelude Bits WordCode WordStream ByteSliceList SliceChain ByteSliceWriter BlockByteSliceList ByteSliceReader ByteSliceWriterCorrect ByteSliceReaderCorrect ByteSliceHistories IntEncoders IntEncodersCorrect PostingBuffer ShortBufferCorrect.

#[local] Open Scope Z_scope.
#[local] Open Scope store_scope.

Module BufferedCorrect.
Import Rows Encoders Buffered EncodersCorrect WriterCorrect WriterRanges ReaderCorrect FlushInfoCorrect ShortBufCorrect.

(** A step that does not use the store *)
Lemma sbind_lift {A B} (x : A) (f : A -> SM B) m : sbind (lift (Ok x)) f m = f x m.
Proof. done. Qed.

(** The list [l] grows at its end, and nothing else that was there changes. *)
Definition advances (m m' : Store) (l : addr) (C C' : list (addr * ByteSlice)) : Prop :=
  evolves m m' l C.*1 C'.*1 /\ headAddr C' = headAddr C.

Lemma advances_refl m l C : advances m m l C C.
Proof. split; [apply evolves_refl | done]. Qed.

Lemma advances_trans m1 m2 m3 l C1 C2 C3 : advances m1 m2 l C1 C2 -> advances m2 m3 l C2 C3 -> advances m1 m3 l C1 C3.
Proof. intros [H1 H2] [H3 H4]. split; [by eapply evolves_trans | congruence]. Qed.

Lemma grows_head C C' : grows C C' -> headAddr C' = headAddr C.
Proof. by destruct 1. Qed.

Section Formats.
(** The rows, the mode their records are flushed with, and whether the bytes say how many values there are *)
Context (mv : MultiValue) (exact : bool) (mode : CompressMode).

(** Every row has an encoder that reads what it writes. *)
Definition lawful : Prop :=
  forall i a, _atomicValues mv !! i = Some a -> exists E, _encoders a mode = Some E /\ EncoderLaws (sizeT a) exact E E.

(** The bytes of the rows of a record *)
Inductive rowsAs : list AtomicValue -> list (list Z) -> list Z -> Prop :=
  | rowsAs_nil : rowsAs [] [] []
  | rowsAs_cons a atoms vs rows enc bs E :
      _encoders a mode = Some E -> record (sizeT a) vs -> (0 < length enc <= 1024)%nat -> decodesAs (sizeT a) exact E vs enc ->
      rowsAs atoms rows bs -> rowsAs (a :: atoms) (vs :: rows) (enc ++ bs).

(** The bytes of each record *)
Definition blocksAs (recs : list (list (list Z))) (encs : list (list Z)) : Prop := Forall2 (rowsAs (_atomicValues mv)) recs encs.

Lemma rowsAs_length atoms rows bs : rowsAs atoms rows bs -> (length bs <= 1024 * length atoms)%nat.
Proof. induction 1; [done|]. rewrite length_app. cbn. lia. Qed.

(** ** Flushing *)

Lemma flushRows_ok sb rows (Hlaw : lawful) (Hco : complete sb mv rows) (Hsz : 0 < ShortBuf._size sb) :
  forall atoms k, drop k (_atomicValues mv) = atoms ->
  exists bs, rowsAs atoms (drop k rows) bs /\
    forall m w l C old n, writes m w l C old -> Z.of_nat (length old + 1024 * length atoms) < 2 ^ 62 -> 0 <= n -> n + Z.of_nat (1024 * length atoms) < 2 ^ 32 ->
      exists w' m', flushRows mode atoms sb n w m = Ok ((n + Z.of_nat (length bs), w'), m') /\ appended m l C old (map Some bs) w' m'.
Proof.
  pose proof Hco as [Hh Hc]. induction atoms as [|a atoms IH]; intros k Hk.
  - exists []. assert (drop k rows = []) as ->. { apply drop_ge. rewrite (sh_count _ _ _ Hh). apply (f_equal length) in Hk. rewrite length_drop in Hk. cbn in Hk. lia. }
    split; [constructor|]. intros m w l C old n Hw _ _ _. exists w, m. split; [cbn; by rewrite Z.add_0_r | by apply appended_refl].
  - assert (_atomicValues mv !! k = Some a) as Ha. { rewrite <- (Nat.add_0_r k), <- lookup_drop, Hk. done. }
    destruct (row_of_atom _ _ _ _ _ Hh Ha) as [vs Hv]. destruct (Hlaw k a Ha) as (E & HE & Hlaws).
    destruct (sh_wf _ _ _ Hh) as [Hl _ _]. destruct (layout_lookup _ _ _ _ _ Hl Ha) as (Hloc & _ & _ & _). cbn in Hloc.
    pose proof (Forall_lookup_1 _ _ _ _ Hc Hv) as Hlen. cbn in Hlen. destruct (sh_rows _ _ _ Hh k a vs Ha Hv) as [_ Hcap Hf _].
    pose proof (sh_capacity _ _ _ Hh). assert (record (sizeT a) vs) as Hrec by (split; [lia | done]).
    destruct (Hlaws vs Hrec) as (enc & [Hel Henc] & Hdec). destruct (IH (S k)) as (bs & Hrows & Hrun).
    { apply (f_equal (drop 1)) in Hk. rewrite drop_drop, Nat.add_1_r in Hk. exact Hk. }
    exists (enc ++ bs). rewrite (drop_S rows vs k Hv). split; [by econstructor|]. intros m w l C old n Hw Hb Hn Hn32. cbn [flushRows length] in *.
    unfold ShortBuf.GetRow. rewrite (sh_multi _ _ _ Hh), Hloc, Ha. cbn [deref res_bind]. rewrite sbind_lift.
    rewrite (rowValues_ok _ _ _ _ _ _ Hco Ha Hv), sbind_lift.
    destruct (Henc m w l C old Hw ltac:(lia)) as (w1 & m1 & Hrun1 & Ha1). erewrite sbind_ok; [|unfold Rows.Encode; rewrite HE; cbn [deref]; rewrite sbind_lift; exact Hrun1]. cbv beta iota.
    destruct (appended_cons _ _ _ _ _ _ _ Ha1) as (C1 & Hw1 & Hcons). rewrite u32_small by lia.
    destruct (Hrun m1 w1 l C1 _ (n + Z.of_nat (length enc)) Hw1) as (w2 & m2 & Hrun2 & Ha2); try (rewrite ?length_app, ?length_map; lia).
    exists w2, m2. rewrite Hrun2, length_app, map_app. split; [do 3 f_equal; lia | by apply Hcons].
Qed.

Lemma concat_snoc {A} (xs : list (list A)) x : concat (xs ++ [x]) = concat xs ++ x.
Proof. rewrite concat_app. cbn. by rewrite app_nil_r. Qed.

(** ** The invariant *)

(** The number of columns of a record *)
Definition columns (rows : list (list Z)) : nat := length (default [] (head rows)).
Definition countOf (recs : list (list (list Z))) : Z := Z.of_nat (sum_list (map columns recs)).

Lemma countOf_app recs recs' : countOf (recs ++ recs') = countOf recs + countOf recs'.
Proof. unfold countOf. induction recs as [|x recs IH]; cbn in *; lia. Qed.

(** The records [recs] have been flushed to the list [l], each to bytes of [encs]. *)
Record flushedAs (m : Store) (b : BufferedByteSlice) (l : addr) (C : list (addr * ByteSlice)) (recs : list (list (list Z))) (encs : list (list Z)) : Prop := {
  fl_writes : writes m (_postingListWriter b) l C (map Some (concat encs));
  fl_blocks : blocksAs recs encs;
  fl_info : exists mode', says (_flushInfo b) (negb (ShortBuf._size (_buffer b) =? 0)) (Z.of_nat (length (concat encs))) mode' (countOf recs) /\
    (recs <> [] -> mode' = mode)
}.

(** ... and the columns [cur] are in the buffer. *)
Definition buffers (m : Store) (b : BufferedByteSlice) (l : addr) (C : list (addr * ByteSlice)) (recs : list (list (list Z))) (cur : list (list Z)) (encs : list (list Z)) : Prop :=
  flushedAs m b l C recs encs /\ complete (_buffer b) mv cur.

Definition noRows : list (list Z) := map (fun _ => []) (_atomicValues mv).

Lemma complete_columns sb rows : complete sb mv rows -> Z.of_nat (columns rows) = ShortBuf._size sb.
Proof.
  intros [Hh Hc]. pose proof (wm_few _ (sh_wf _ _ _ Hh)) as Hf. rewrite <- (sh_count _ _ _ Hh) in Hf. destruct rows as [|vs rows]; [cbn in Hf; lia|].
  by apply Forall_cons_1 in Hc as [Hc _].
Qed.

(** ** The operations *)

(** [PushBack] of one value of a column *)
Lemma PushBack_buffered m b l C recs encs rows i a vs v :
  flushedAs m b l C recs encs -> holds (_buffer b) mv rows -> _atomicValues mv !! i = Some a -> rows !! i = Some vs ->
  Z.of_nat (length vs) = ShortBuf._size (_buffer b) -> fits (8 * Z.of_nat (sizeT a)) v -> ShortBuf._size (_buffer b) < 128 ->
  exists b', PushBack (sizeT a) i v b = Ok b' /\ flushedAs m b' l C recs encs /\ holds (_buffer b') mv (<[i := vs ++ [v]]> rows) /\
    ShortBuf._size (_buffer b') = ShortBuf._size (_buffer b).
Proof.
  intros [Hw Hb Hi] Hh Ha Hv Hl Hf Hs. destruct (PushBack_ok _ _ _ _ _ _ _ Hh Ha Hv Hl Hf Hs) as (sb & Hrun & Hh' & Hsz).
  unfold PushBack. rewrite Hrun. cbn [res_bind]. eexists. split; [done|]. split; [|done]. split; [done | done|]. cbn. by rewrite Hsz.
Qed.

Lemma EndPushBack_buffered m b l C recs encs rows :
  flushedAs m b l C recs encs -> holds (_buffer b) mv rows -> Forall (fun vs => Z.of_nat (length vs) = ShortBuf._size (_buffer b) + 1) rows ->
  buffers m (EndPushBack b) l C recs rows encs /\ ShortBuf._size (_buffer (EndPushBack b)) = ShortBuf._size (_buffer b) + 1.
Proof.
  intros [Hw Hb (mode' & Hi & Hm)] Hh Hall. assert (rows <> []) as Hne. { intros ->. pose proof (wm_few _ (sh_wf _ _ _ Hh)). pose proof (sh_count _ _ _ Hh). cbn in *. lia. }
  destruct (EndPushBack_ok _ _ _ Hh Hall Hne) as [Hc Hs]. split; [|done]. split; [|done]. split; [done | done|].
  exists mode'. split; [|done]. cbn [EndPushBack _flushInfo _buffer]. rewrite Hs. pose proof (sh_size _ _ _ Hh).
  replace (_ + 1 =? 0) with false by lia. by eapply says_valid.
Qed.

Lemma Flush_empty m b : ShortBuf._size (_buffer b) = 0 -> Flush mode b m = Ok ((0, b), m).
Proof. intros H. unfold Flush. by rewrite H. Qed.

(** [Flush] appends the record of the columns in the buffer. *)
Lemma Flush_ok m b l C recs cur encs :
  lawful -> buffers m b l C recs cur encs -> 0 < ShortBuf._size (_buffer b) ->
  Z.of_nat (length (concat encs)) + 8192 < 2 ^ 31 -> countOf recs + 128 < 2 ^ 30 ->
  exists b' m' C' new, Flush mode b m = Ok ((Z.of_nat (length new), b'), m') /\ rowsAs (_atomicValues mv) cur new /\
    buffers m' b' l C' (recs ++ [cur]) noRows (encs ++ [new]) /\ advances m m' l C C'.
Proof.
  intros Hlaw [[Hw Hb (mode' & Hi & Hm)] Hc] Hsz Hlen Hcount. pose proof Hc as [Hh _]. unfold Flush. rewrite (proj2 (Z.eqb_neq _ _)) by lia.
  pose proof (wm_few _ (sh_wf _ _ _ Hh)) as Hfew. pose proof (sh_size _ _ _ Hh). pose proof (sh_capacity _ _ _ Hh).
  destruct (flushRows_ok _ _ Hlaw Hc Hsz (_atomicValues mv) 0 eq_refl) as (new & Hrows & Hrun). rewrite drop_0 in Hrows. pose proof (rowsAs_length _ _ _ Hrows) as Hn.
  destruct (Hrun m _ l C _ 0 Hw) as (w' & m' & Hrun' & (C' & Hw' & Hgr & He)); try (rewrite ?length_map; lia). rewrite Z.add_0_l in Hrun'.
  assert (DoFlush mode b m = Ok ((Z.of_nat (length new), mkBuffered (_flushInfo b) (_buffer b) w'), m')) as Hdo.
  { unfold DoFlush. unfold GetMultiValue. rewrite (sh_multi _ _ _ Hh). by erewrite sbind_ok; [|exact Hrun']. }
  srun Hdo. cbn [_flushInfo _buffer _postingListWriter]. eexists _, m', C', new. split; [reflexivity|]. split; [done|]. split; [|split; [done | by apply grows_head]].
  destruct (says_get _ _ _ _ _ Hi) as (_ & Hgl & _ & Hgc). rewrite Hgl, Hgc. pose proof (sa_range _ _ _ _ _ Hi) as [Hr1 Hr2]. rewrite !u32_small by lia.
  assert (countOf (recs ++ [cur]) = countOf recs + ShortBuf._size (_buffer b)) as Hcnt.
  { rewrite countOf_app. change (countOf [cur]) with (Z.of_nat (columns cur + 0)). rewrite <- (complete_columns _ _ Hc). lia. }
  split; [split|].
  - cbn [_postingListWriter]. rewrite concat_snoc. by rewrite map_app.
  - apply Forall2_app; [done|]. by repeat constructor.
  - exists mode. split; [|done]. cbn [_flushInfo _buffer ShortBuf.Clear ShortBuf._size Z.eqb negb]. rewrite concat_snoc, length_app, Nat2Z.inj_add, Hcnt.
    eapply says_valid. eapply says_mode. eapply says_len; [eapply says_count; [apply says_Reset | lia] | lia].
  - cbn [_buffer]. unfold noRows. replace (map _ (_atomicValues mv)) with (map (fun _ : list Z => [] : list Z) cur); [by apply Clear_ok|].
    apply (complete_empty (ShortBuf.Clear (_buffer b)) mv); [by apply Clear_ok | done].
Qed.

(** ** New buffers and snapshots *)

(** Bytes of a list that a step does not touch *)
Lemma writes_frame m m' w l C bs :
  writes m w l C bs -> storeOk m' -> lists m' !! l = lists m !! l -> (forall x, x ∈ C.*1 -> slices m' !! x = slices m !! x) -> writes m' w l C bs.
Proof.
  intros (ss & a & s & -> & [H1 H2 H3 H4 H5 H6 H7 H8] & Hc & Hf) Hst Hl Hx. exists ss, a, s. split; [done|]. split; [|done].
  split; try done; [by rewrite Hl|]. eapply seg_ext; [exact H3|]. intros b t Hb. apply Hx. apply list_elem_of_fmap. by exists (b, t).
Qed.

(** The slices and the list of a writer are in the store. *)
Definition belongs (m : Store) (l : addr) (C : list (addr * ByteSlice)) : Prop :=
  (l < brk m)%nat /\ forall x, x ∈ C.*1 -> (x < brk m)%nat.

Lemma writes_slices m w l C bs x : writes m w l C bs -> x ∈ C.*1 -> (x < brk m)%nat.
Proof.
  intros (ss & a & s & -> & Hw & _) Hx. apply list_elem_of_fmap in Hx as ([b t] & -> & Hin).
  eapply (ws_store _ _ _ _ _ _ _ Hw), seg_lookup; [apply Hw | done].
Qed.

Lemma new_BufferedByteSlice_ok m :
  wfMulti mv -> storeOk m ->
  exists b m' l C b', new_BufferedByteSlice m = Ok (b, m') /\ Init mv b = Ok b' /\ buffers m' b' l C [] noRows [] /\
    ShortBuf._buffer (_buffer b') = None /\ Writer._isOwnSliceList (_postingListWriter b') = true /\
    (brk m <= l < brk m')%nat /\ (forall x, x ∈ C.*1 -> (brk m <= x)%nat) /\
    (forall x, (x < brk m)%nat -> slices m' !! x = slices m !! x /\ lists m' !! x = lists m !! x).
Proof.
  intros Hwf Hst. destruct (new_ByteSliceWriter_ok m Writer.MIN_SLICE_SIZE Hst) as (w & m' & l & C & Hnew & Hw & Hbrk & Hl & HC & Hfr); [vm_compute; split; congruence|].
  destruct (Init_ok mv Hwf) as (sb & Hinit & Hsb & Hnone).
  assert (Writer._isOwnSliceList w = true /\ (l < brk m')%nat) as [Hown Hlt].
  { pose proof Hnew as Hn. unfold Writer.new_ByteSliceWriter in Hn. destruct Hw as (? & ? & ? & _ & [Hl' _ _ _ _ _ _ _] & _).
    revert Hn Hl'. unfold Writer.CreateSlice, CreateObject, new_ByteSliceList, Add, newSlice, newList, getSlice, setSlice, getList, setList, sbind, ret, Writer.set_last.
    cbn [res_bind slices lists brk Writer._sliceList Writer._lastSliceSize Writer._isOwnSliceList]. rewrite lookup_insert_eq.
    cbn [deref res_bind slices lists brk size]. rewrite lookup_insert_eq. cbn [deref res_bind slices lists brk size _tail _head _totalSize isBlock].
    rewrite insert_insert_eq, lookup_insert_eq. cbn [deref res_bind slices lists brk size _tail _head _totalSize isBlock].
    intros [= <- <-] [= <-]. cbn. split; [done | lia]. }
  unfold new_BufferedByteSlice. erewrite sbind_ok; [|exact Hnew]. cbv beta iota. eexists _, m', l, C, _. split; [reflexivity|].
  unfold Init. cbn [_buffer]. rewrite Hinit. cbn [res_bind]. split; [reflexivity|]. cbn. split.
  - split; [|exact Hsb]. split; [done | constructor|]. exists SHORT_LIST_COMPRESS_MODE. split; [|done]. cbn [_flushInfo _buffer set_buffer].
    assert (ShortBuf._size sb = 0) as -> by (rewrite <- (complete_columns _ _ Hsb); unfold columns; by destruct (_atomicValues mv)). apply says_Reset.
  - split_and!; try done.
Qed.

(** What a reader of [b] finds in the store: the records and the buffer of [b], and bytes that were written later *)
Record view (m : Store) (b : BufferedByteSlice) (l : addr) (recs : list (list (list Z))) (cur : list (list Z)) (encs : list (list Z)) (more : list Z) : Prop := {
  vi_writes : exists w C, writes m w l C (map Some (concat encs ++ more));
  vi_list : Writer._sliceList (_postingListWriter b) = Some l;
  vi_bound : Z.of_nat (length (concat encs ++ more)) < 2 ^ 62;
  vi_blocks : blocksAs recs encs;
  vi_info : exists mode', says (_flushInfo b) (negb (ShortBuf._size (_buffer b) =? 0)) (Z.of_nat (length (concat encs))) mode' (countOf recs) /\
    (recs <> [] -> mode' = mode);
  vi_buffer : complete (_buffer b) mv cur
}.

Lemma buffers_view m b l C recs cur encs : buffers m b l C recs cur encs -> view m b l recs cur encs [].
Proof.
  intros [[Hw Hb Hi] Hc]. destruct Hi as (mode' & Hi & Hm). pose proof (sa_range _ _ _ _ _ Hi) as [? _]. split; try done.
  - exists (_postingListWriter b), C. by rewrite app_nil_r.
  - by destruct Hw as (? & ? & ? & _ & [? _ _ _ _ _ _ _] & _).
  - rewrite app_nil_r. lia.
  - by exists mode'.
Qed.

(** A snapshot is a view that later writes do not change. *)
Lemma view_later m b l recs cur encs more m' w' C' more' :
  view m b l recs cur encs more -> writes m' w' l C' (map Some (concat encs ++ more')) -> Z.of_nat (length (concat encs ++ more')) < 2 ^ 62 ->
  view m' b l recs cur encs more'.
Proof. intros [_ Hl _ Hb Hi Hc] Hw Hlen. split; try done. by exists w', C'. Qed.

(** [SnapShot] into a new buffer *)
Lemma SnapShot_buffered m b l C recs cur encs :
  buffers m b l C recs cur encs -> (l < brk m)%nat ->
  exists o m1 o' m', new_BufferedByteSlice m = Ok (o, m1) /\ SnapShot b o m1 = Ok (o', m') /\ view m' o' l recs cur encs [] /\
    buffers m' b l C recs cur encs /\ storeOk m' /\ (brk m <= brk m')%nat /\
    (forall x, (x < brk m)%nat -> slices m' !! x = slices m !! x /\ lists m' !! x = lists m !! x).
Proof.
  intros Hbuf Hlt. pose proof Hbuf as [[Hw Hb Hi] Hc]. pose proof Hc as [Hh _]. assert (storeOk m) as Hst by (by destruct Hw as (? & ? & ? & _ & [? ? ? ? ? ? ? ?] & _)).
  destruct (new_BufferedByteSlice_ok m (sh_wf _ _ _ Hh) Hst) as (o & m1 & lo & Co & o1 & Hnew & Hinit & [[Hwo _ Hio] Hco] & Hnone & Hown & Hlo & HCo & Hfr).
  destruct (Close_ok _ _ _ _ _ Hwo Hown) as (w2 & m2 & Hclose & _ & _ & _ & Hst2 & Hbrk2 & Hl2 & Hs2).
  assert (forall x, (x < brk m)%nat -> slices m2 !! x = slices m !! x /\ lists m2 !! x = lists m !! x) as Hfr2.
  { intros x Hx. destruct (Hfr x Hx) as [<- <-]. rewrite Hs2, decide_False by (intros Hin; apply HCo in Hin; lia). split; [done|]. rewrite Hl2. apply lookup_delete_ne. lia. }
  assert (buffers m2 b l C recs cur encs) as Hb2.
  { split; [|done]. split; [|done|done]. eapply writes_frame; [exact Hw | done | by apply Hfr2 |]. intros x Hx. apply Hfr2. by eapply writes_slices. }
  destruct (SnapShot_ok _ _ _ _ Hc Hco Hnone) as (sb & Hsnap & Hsb & Hsz). destruct Hi as (mode' & Hi & Hm). pose proof (sa_range _ _ _ _ _ Hi) as [Hrng _].
  exists o, m1. eexists _, m2. split; [done|]. split; [|split; [|split_and!; try done; lia]].
  - unfold SnapShot. unfold GetMultiValue at 1. rewrite (sh_multi _ _ _ Hh), Hinit, sbind_lift. unfold SnapShotByteSlice at 1.
    erewrite sbind_ok; [|erewrite sbind_ok; [|unfold Writer.SnapShot; erewrite sbind_ok; [|exact Hclose]; reflexivity]; reflexivity]. cbv beta iota. cbn [_buffer].
    rewrite Hsnap, sbind_lift. cbn [_flushInfo set_buffer]. rewrite Z.ltb_irrefl. reflexivity.
  - pose proof Hb2 as [[Hw2 _ _] _]. split; cbn [_buffer set_buffer _postingListWriter _flushInfo Writer._sliceList].
    + exists (_postingListWriter b), C. by rewrite app_nil_r.
    + by destruct Hw as (? & ? & ? & _ & [? _ _ _ _ _ _ _] & _).
    + rewrite app_nil_r. lia.
    + done.
    + exists mode'. by rewrite Hsz.
    + done.
Qed.

(** ** Reading *)

Section Reading.
Context {R : BlockDataRetriever} (b : BufferedByteSlice) (l : addr) (recs : list (list (list Z))) (cur : list (list Z)) (encs : list (list Z)) (more : list Z).
Context (Hblocks : blocksAs recs encs) (Hbuffer : complete (_buffer b) mv cur).
#[local] Abbreviation bs := (concat encs).
Context (Hinfo : exists mode', says (_flushInfo b) (negb (ShortBuf._size (_buffer b) =? 0)) (Z.of_nat (length bs)) mode' (countOf recs) /\
  (recs <> [] -> mode' = mode)).

(** The reader is at the byte [pos], in front of the row [loc]. *)
Record reading (m : Store) (r : BufferedByteSliceReader) (pos loc short : nat) : Prop := {
  rg_reads : reads (H := R) [] false m (_byteSliceReader r) l (bs ++ more) pos;
  rg_pos : (pos <= length bs)%nat;
  rg_loc : _locationCursor r = loc;
  rg_short : _shortBufferCursor r = short
}.

(** The reader is behind the bytes that were flushed. *)
Record behind (r : BufferedByteSliceReader) (loc : nat) : Prop := {
  be_tell : Z.of_nat (length bs) <= Reader.Tell (_byteSliceReader r);
  be_loc : _locationCursor r = loc;
  be_short : _shortBufferCursor r = loc
}.

Lemma reading_quiet m m' r pos loc short : reading m r pos loc short -> quiet (H := R) [] false m m' -> reading m' r pos loc short.
Proof. intros [Hr Hp Hl Hs] Hq. split; try done. by eapply reads_quiet. Qed.

Lemma reading_behind m r : reading m r (length bs) 0 0 -> behind r 0.
Proof. intros [Hr _ Hl Hs]. split; [|done..]. unfold Reader.Tell. rewrite (rd_offset _ _ _ _ _ _ _ Hr). done. Qed.

Lemma buffer_multi : GetMultiValue b = mv.
Proof. by destruct Hbuffer as [[] _]. Qed.

(** [Decode] of a row of a record that was flushed *)
Lemma Decode_flushed m r pos loc short a E vs enc rest dest :
  reading m r pos loc short -> drop pos bs = enc ++ rest -> (0 < length enc)%nat -> recs <> [] ->
  _atomicValues mv !! loc = Some a -> _encoders a mode = Some E -> decodesAs (sizeT a) exact E vs enc ->
  destFor (sizeT a) exact vs dest -> (0 < length dest)%nat ->
  exists r' m', Decode b dest r m = Ok ((Some (vs ++ drop (length vs) dest, Z.of_nat (length vs)), r'), m') /\
    quiet (H := R) [] false m m' /\ reading m' r' (pos + length enc) (IncValueCursor b loc) short.
Proof.
  intros [Hr Hp Hl Hs] Hd He Hne Ha HE [Hdec _] Hdest Hlen. destruct Hinfo as (mode' & Hi & Hm). specialize (Hm Hne) as ->.
  destruct (says_get _ _ _ _ _ Hi) as (_ & Hgl & Hgm & _). pose proof (f_equal length Hd) as Hlp. rewrite length_drop, length_app in Hlp.
  destruct (Hdec R [] false l m (_byteSliceReader r) (bs ++ more) pos (rest ++ more) dest (plain_next_ok [] l) Hr) as (rd & m' & Hrun & Hq & Hr').
  { by rewrite drop_app_le, Hd, app_assoc by lia. }
  { done. }
  eexists _, m'. split; [|split; [done|]].
  - unfold Decode. rewrite (proj2 (Nat.eqb_neq _ _)) by lia. rewrite Hgl. unfold Reader.Tell. rewrite (rd_offset _ _ _ _ _ _ _ Hr).
    rewrite (proj2 (Z.leb_gt _ _)) by lia. cbn [andb]. rewrite buffer_multi, Hl, Ha. cbn [deref]. rewrite sbind_lift, Hgm.
    erewrite sbind_ok; [|unfold Rows.Decode; rewrite HE; cbn [deref]; rewrite sbind_lift; exact Hrun]. reflexivity.
  - split; cbn; [done | lia | done | done].
Qed.

(** [Decode] of a row of the buffer *)
Lemma Decode_short m r loc a vs dest :
  behind r loc -> (loc < length (_atomicValues mv))%nat -> _atomicValues mv !! loc = Some a -> cur !! loc = Some vs ->
  vs <> [] -> (length vs <= length dest)%nat ->
  exists r', Decode b dest r m = Ok ((Some (vs ++ drop (length vs) dest, Z.of_nat (length vs)), r'), m) /\
    Reader.Tell (_byteSliceReader r') = Reader.Tell (_byteSliceReader r) /\
    _locationCursor r' = IncValueCursor b loc /\ _shortBufferCursor r' = S loc.
Proof.
  intros [Ht Hl Hs] Hlt Ha Hv Hne Hlen. destruct Hinfo as (mode' & Hi & _). destruct (says_get _ _ _ _ _ Hi) as (Hgv & Hgl & _ & _).
  pose proof Hbuffer as [Hh Hc]. pose proof (Forall_lookup_1 _ _ _ _ Hc Hv) as Hsz. cbn in Hsz. assert (0 < length vs)%nat by (destruct vs; [done | cbn; lia]).
  destruct (layout_lookup _ _ _ _ _ (wm_layout _ (sh_wf _ _ _ Hh)) Ha) as (Hloc & _). cbn in Hloc.
  exists (mkBReader (IncValueCursor b loc) (S loc) (_byteSliceReader r)). split; [|done].
  unfold Decode. rewrite (proj2 (Nat.eqb_neq _ _)) by lia. rewrite Hgl, (proj2 (Z.leb_le _ _)) by done.
  unfold IsValidShortBuffer. rewrite buffer_multi, Hgv, Hl, Hs, <- Hsz. rewrite (proj2 (Z.ltb_lt 0 _)), (proj2 (Nat.ltb_lt _ _)) by lia.
  rewrite (proj2 (Z.eqb_neq _ 0)) by lia. cbn [andb negb]. rewrite Ha. cbn [deref]. rewrite sbind_lift.
  unfold ShortBuf.GetRowTyped. rewrite Hloc, (sh_offsets _ _ _ Hh _ _ Ha). cbn [deref res_bind]. rewrite sbind_lift.
  change (Rows._offset a * ShortBuf._capacity (_buffer b)) with (ShortBuf.rowAt (ShortBuf._capacity (_buffer b)) a).
  rewrite (rowValues_ok _ _ _ _ _ _ Hbuffer Ha Hv), sbind_lift, memcpy_ok by lia. rewrite sbind_lift. reflexivity.
Qed.

(** [Decode] at the end *)
Lemma Decode_end m r dest : behind r 0 -> ShortBuf._size (_buffer b) = 0 -> Decode b dest r m = Ok ((None, r), m).
Proof.
  intros [Ht Hl Hs] Hsz. destruct Hinfo as (mode' & Hi & _). destruct (says_get _ _ _ _ _ Hi) as (Hgv & Hgl & _ & _). unfold Decode.
  destruct (length dest =? 0)%nat; [done|]. rewrite Hgl, (proj2 (Z.leb_le _ _)) by done. unfold IsValidShortBuffer. by rewrite Hsz.
Qed.

Lemma Seek_reader m r pos loc short o :
  reading m r pos loc short -> (pos <= o <= length bs)%nat ->
  exists r' m', Seek (Z.of_nat o) r m = Ok (r', m') /\ quiet (H := R) [] false m m' /\
    (reading m' r' o 0 0 \/ o = length bs /\ more = [] /\ behind r' 0).
Proof.
  intros [Hr Hp Hl Hs] Ho. pose proof (rd_bound _ _ _ _ _ _ _ Hr) as Hb. rewrite length_app in Hb. unfold Seek. destruct (Reader._currentSlice (_byteSliceReader r)) as [c|] eqn:Hc.
  - pose proof (Seek_ok (H := R) [] false l (plain_next_ok [] l) m _ _ pos o (plain_prepare_ok [] l) Hr ltac:(by eexists) ltac:(lia) ltac:(lia)) as Hk.
    rewrite length_app in Hk. destruct ((o <? length bs + length more) || (o =? pos))%nat eqn:Ein.
    + destruct Hk as (rd & m' & Hrun & Hq & Hr'). srun Hrun. eexists _, m'. split; [reflexivity|]. split; [done|]. left. split; cbn; [done | lia | done | done].
    + destruct Hk as (rd & Hrun & _ & Htell). srun Hrun. eexists _, m. split; [reflexivity|]. split; [apply quiet_refl, (rd_store _ _ _ _ _ _ _ Hr)|]. right.
      assert (o = length bs /\ length more = 0%nat) as [-> Hm] by lia. split; [done|]. split; [by destruct more|].
      split; cbn; [rewrite Htell; change (u64 Reader.BYTE_SLICE_EOF) with (2 ^ 64 - 1); lia | done | done].
  - pose proof (reads_none [] false l m _ _ _ Hr Hc) as Hend. rewrite length_app in Hend. unfold Reader.Seek.
    rewrite Hc, (rd_offset _ _ _ _ _ _ _ Hr), (proj2 (Z.ltb_ge _ _)) by lia. eexists _, m. split; [reflexivity|]. split; [apply quiet_refl, (rd_store _ _ _ _ _ _ _ Hr)|].
    left. replace o with pos by lia. split; cbn; [done | lia | done | done].
Qed.

(** ** Blocks *)

(** The records, and the columns in the buffer when there are any *)
Definition blocks : list (list (list Z)) := recs ++ (if ShortBuf._size (_buffer b) =? 0 then [] else [cur]).

(** Where a record starts *)
Definition startOf (L : nat) : nat := length (concat (take L encs)).

(** The reader is in front of row [i] of block [L]. *)
Inductive inBlock (m : Store) (r : BufferedByteSliceReader) : nat -> nat -> Prop :=
  | in_flushed L i pos rows rest :
      recs !! L = Some rows -> reading m r pos i 0 -> drop pos bs = rest ++ concat (drop (S L) encs) ->
      rowsAs (drop i (_atomicValues mv)) (drop i rows) rest -> inBlock m r L i
  | in_short i : behind r i -> inBlock m r (length recs) i
  | in_done : Z.of_nat (length bs) <= Reader.Tell (_byteSliceReader r) -> _shortBufferCursor r = length (_atomicValues mv) ->
      inBlock m r (S (length recs)) 0.

Lemma inBlock_quiet m m' r L i : inBlock m r L i -> quiet (H := R) [] false m m' -> inBlock m' r L i.
Proof.
  intros Hb Hq. destruct Hb as [L i pos rows rest Hrec Hr Hd Hrows | i Hb | Ht Hs].
  - eapply in_flushed; eauto. by eapply reading_quiet.
  - by apply in_short.
  - by apply in_done.
Qed.

Lemma startOf_S L enc : encs !! L = Some enc -> startOf (S L) = (startOf L + length enc)%nat.
Proof. intros He. unfold startOf. rewrite (take_S_r _ _ _ He), concat_snoc, length_app. done. Qed.

Lemma drop_startOf L : drop (startOf L) bs = concat (drop L encs).
Proof. unfold startOf. rewrite <- (take_drop L encs) at 2. rewrite concat_app. by rewrite drop_app_length. Qed.

Lemma startOf_le L : (startOf L <= length bs)%nat.
Proof. unfold startOf. rewrite <- (take_drop L encs) at 2. rewrite concat_app, length_app. lia. Qed.

(** In front of a record, or of the buffer *)
Lemma inBlock_start m r L : reading m r (startOf L) 0 0 -> (L <= length recs)%nat -> inBlock m r L 0.
Proof.
  intros Hr HL. pose proof (Forall2_length _ _ _ Hblocks) as Hlen. destruct (Nat.eq_dec L (length recs)) as [->|Hne].
  - apply in_short. eapply reading_behind. replace (length bs) with (startOf (length recs)); [done|]. unfold startOf. by rewrite Hlen, firstn_all.
  - destruct (lookup_lt_is_Some_2 recs L ltac:(lia)) as [rows Hrows]. destruct (Forall2_lookup_l _ _ _ _ _ Hblocks Hrows) as (enc & He & Henc).
    eapply (in_flushed _ _ _ _ _ rows enc Hrows Hr); [|by rewrite !drop_0]. rewrite drop_startOf, (drop_S _ _ _ He). done.
Qed.

(** A reader that may still seek to record [L] *)
Definition mayReach (m : Store) (r : BufferedByteSliceReader) (L : nat) : Prop :=
  exists pos loc, reading m r pos loc 0 /\ (pos <= startOf L)%nat.

Lemma Seek_block m r L :
  mayReach m r L -> (L <= length recs)%nat ->
  exists r' m', Seek (Z.of_nat (startOf L)) r m = Ok (r', m') /\ quiet (H := R) [] false m m' /\ inBlock m' r' L 0 /\
    ((L < length recs)%nat -> mayReach m' r' (S L)).
Proof.
  intros (pos & loc & Hr & Hp) HL. pose proof (startOf_le L) as Hle. pose proof (Forall2_length _ _ _ Hblocks) as Hlen.
  destruct (Seek_reader m r pos loc 0 (startOf L) Hr ltac:(lia)) as (r' & m' & Hrun & Hq & Hcase). exists r', m'. split; [done|]. split; [done|].
  assert (L < length recs -> exists enc, encs !! L = Some enc /\ 0 < length enc)%nat as Hin.
  { intros HL'. destruct (lookup_lt_is_Some_2 recs L HL') as [rows Hrows]. destruct (Forall2_lookup_l _ _ _ _ _ Hblocks Hrows) as (enc & He & Henc).
    exists enc. split; [done|]. pose proof (wm_few _ (sh_wf _ _ _ (proj1 Hbuffer))) as Hf. destruct Henc; [cbn in Hf; lia|]. rewrite length_app. lia. }
  destruct Hcase as [Hr'|(Hend & _ & Hbh)].
  - split; [by apply inBlock_start|]. intros HL'. destruct (Hin HL') as (enc & He & _). exists (startOf L), 0%nat. split; [done|]. rewrite (startOf_S _ _ He). lia.
  - assert (L = length recs) as -> by (destruct (Nat.eq_dec L (length recs)); [done|]; destruct (Hin ltac:(lia)) as (enc & He & Hpos); pose proof (startOf_S _ _ He); pose proof (startOf_le (S L)); lia).
    split; [by apply in_short | lia].
Qed.

Lemma IncValueCursor_eq loc : IncValueCursor b loc = (if S loc =? length (_atomicValues mv) then 0 else S loc)%nat.
Proof. unfold IncValueCursor. by rewrite buffer_multi. Qed.

(** [Decode] of the next row *)
Lemma Decode_row m r L i rows vs a dest :
  inBlock m r L i -> storeOk m -> blocks !! L = Some rows -> rows !! i = Some vs -> _atomicValues mv !! i = Some a ->
  destFor (sizeT a) exact vs dest -> (0 < length dest)%nat ->
  exists r' m', Decode b dest r m = Ok ((Some (vs ++ drop (length vs) dest, Z.of_nat (length vs)), r'), m') /\ quiet (H := R) [] false m m' /\
    (if (S i =? length (_atomicValues mv))%nat then inBlock m' r' (S L) 0 else inBlock m' r' L (S i)) /\
    ((L < length recs)%nat -> mayReach m' r' (S L)).
Proof.
  intros Hin Hst HL Hv Ha Hdest Hdl. pose proof (lookup_lt_Some _ _ _ Ha) as Hlt. pose proof (Forall2_length _ _ _ Hblocks) as Hlen. destruct Hin as [L i pos rows' rest Hrec Hr Hd Hrows | i Hb | Ht Hs].
  - unfold blocks in HL. rewrite lookup_app_l in HL by (by eapply lookup_lt_Some). rewrite Hrec in HL. injection HL as ->.
    rewrite (drop_S _ _ _ Ha), (drop_S _ _ _ Hv) in Hrows. inversion Hrows as [|? ? ? ? enc rest' E HE _ Hel Hdec Hrest]; subst.
    rewrite <- app_assoc in Hd. assert (recs <> []) as Hne by (by intros ->).
    destruct (Decode_flushed m r pos i 0 a E vs enc _ dest Hr Hd ltac:(lia) Hne Ha HE Hdec Hdest Hdl) as (r' & m' & Hrun & Hq & Hr').
    exists r', m'. split; [done|]. split; [done|]. rewrite IncValueCursor_eq in Hr'.
    assert (drop (pos + length enc) bs = rest' ++ concat (drop (S L) encs)) as Hd' by (by rewrite <- drop_drop, Hd, drop_app_length).
    split.
    + destruct (Nat.eqb_spec (S i) (length (_atomicValues mv))) as [He|He].
      * rewrite (drop_ge _ (S i)) in Hrest by lia. inversion Hrest; subst. apply inBlock_start; [|by apply lookup_lt_Some in Hrec].
        replace (startOf (S L)) with (pos + length enc)%nat; [done|]. pose proof (drop_startOf (S L)) as Hs. cbn [app] in Hd'. pose proof (f_equal length Hd') as H1. rewrite <- Hs, !length_drop in H1.
        pose proof (startOf_le (S L)). pose proof (rg_pos _ _ _ _ _ Hr'). lia.
      * eapply in_flushed; eauto.
    + intros _. eexists _, _. split; [exact Hr'|]. pose proof (drop_startOf (S L)) as Hs. pose proof (f_equal length Hd') as H1. rewrite length_app, <- Hs, !length_drop in H1.
      pose proof (startOf_le (S L)). pose proof (rg_pos _ _ _ _ _ Hr'). lia.
  - unfold blocks in HL. rewrite lookup_app_r, Nat.sub_diag in HL by lia. destruct (Z.eq_dec (ShortBuf._size (_buffer b)) 0) as [Hsz|Hsz]; [by rewrite Hsz in HL|]. rewrite (proj2 (Z.eqb_neq _ _) Hsz) in HL. injection HL as <-.
    assert (vs <> []) as Hne. { intros ->. pose proof (Forall_lookup_1 _ _ _ _ (proj2 Hbuffer) Hv) as H0. cbn in H0. lia. }
    destruct (Decode_short m r i a vs dest Hb Hlt Ha Hv Hne) as (r' & Hrun & Htell & Hloc & Hshort); [destruct Hdest as [_ Hd]; destruct exact; lia|].
    destruct Hb as [Ht _ _]. exists r', m. split; [done|]. rewrite IncValueCursor_eq in Hloc.
    split; [by apply quiet_refl|]. split; [|lia].
    destruct (Nat.eqb_spec (S i) (length (_atomicValues mv))) as [He|He].
    + apply in_done; [by rewrite Htell | lia].
    + apply in_short. split; [by rewrite Htell | done | done].
  - unfold blocks in HL. rewrite lookup_ge_None_2 in HL; [done|]. rewrite length_app. case_match; cbn; lia.
Qed.

Lemma Decode_finished m r L i dest : inBlock m r L i -> (length blocks <= L)%nat -> Decode b dest r m = Ok ((None, r), m).
Proof.
  intros Hin HL. unfold blocks in HL. rewrite length_app in HL. destruct Hinfo as (mode' & Hi & _). destruct (says_get _ _ _ _ _ Hi) as (Hgv & Hgl & _ & _).
  destruct Hin as [L i pos rows' rest Hrec Hr Hd Hrows | i [Ht Hl Hs] | Ht Hs].
  - apply lookup_lt_Some in Hrec. lia.
  - unfold Decode. destruct (length dest =? 0)%nat; [done|]. rewrite Hgl, (proj2 (Z.leb_le _ _)) by done. unfold IsValidShortBuffer.
    destruct (Z.eq_dec (ShortBuf._size (_buffer b)) 0) as [->|Hsz]; [done|]. rewrite (proj2 (Z.eqb_neq _ _) Hsz) in HL. cbn in HL. lia.
  - unfold Decode. destruct (length dest =? 0)%nat; [done|]. rewrite Hgl, (proj2 (Z.leb_le _ _)) by done. unfold IsValidShortBuffer.
    rewrite buffer_multi, Hs, Nat.ltb_irrefl, andb_false_r. done.
Qed.
End Reading.

Lemma Open_reader {R : BlockDataRetriever} m b l recs cur encs more :
  view m b l recs cur encs more -> exists r, Open b m = Ok (r, m) /\ reading (R := R) l encs more m r 0 0 0.
Proof.
  intros [(w & C & Hw) Hl Hb _ _ _]. destruct (History.Open_written R m Reader.new_ByteSliceReader w l C _ Hw Hb) as (rd & Hopen & Hr & _).
  unfold Open, Writer.listOf. rewrite Hl. cbn [deref]. rewrite sbind_lift. srun Hopen. eexists. split; [reflexivity|]. split; cbn; [done | lia | done | done].
Qed.

(** A reader that was opened before more was written *)
Lemma reading_later {R : BlockDataRetriever} m b l recs cur encs r w C w' m' C' more :
  writes m w l C (map Some (concat encs)) -> view m b l recs cur encs [] -> Open b m = Ok (r, m) ->
  writes m' w' l C' (map Some (concat encs ++ more)) -> headAddr C' = headAddr C -> Z.of_nat (length (concat encs ++ more)) < 2 ^ 62 ->
  reading (R := R) l encs more m' r 0 0 0.
Proof.
  intros Hw [_ Hl Hb _ _ _] Hopen Hw' Hh Hlen. unfold Open, Writer.listOf in Hopen. rewrite Hl in Hopen. cbn [deref] in Hopen. rewrite sbind_lift in Hopen.
  rewrite app_nil_r in Hb. destruct (History.Open_written R m Reader.new_ByteSliceReader w l C _ Hw Hb) as (rd & Ho & _).
  erewrite sbind_ok in Hopen; [|exact Ho]. injection Hopen as <-.
  destruct (History.Open_written R m' Reader.new_ByteSliceReader w' l C' _ Hw' Hlen) as (rd' & Ho' & Hr' & _).
  split; cbn; [|lia|done|done]. destruct Hw as (ss & a & s & HC & [_ Hls _ _ _ _ _ _] & _). destruct Hw' as (ss' & a' & s' & HC' & [_ Hls' _ _ _ _ _ _] & _).
  rewrite <- HC, <- HC' in *. unfold Reader.Open in Ho, Ho'. rewrite (sbind_ok _ _ _ _ _ (getList_ok _ _ _ Hls)) in Ho. rewrite (sbind_ok _ _ _ _ _ (getList_ok _ _ _ Hls')) in Ho'.
  cbn [isBlock _head _totalSize] in Ho, Ho'. rewrite Hh in Ho'. unfold sbind, ret in Ho, Ho'. cbn [res_bind] in Ho, Ho'. destruct (headAddr C) as [h|]; [|done]. injection Ho as <-. injection Ho' as <-.
  destruct Hr' as [H1 H2 H3 H4 H5 H6 H7 H8]. by split.
Qed.

End Formats.
End BufferedCorrect.
