(* ===== verification/PostingColumns.v ===== *)
(** * Columns and snapshots of posting buffers

    A posting buffer as the columns that were pushed to it, and what a snapshot of it shows. *)

From stdpp Require Import base list numbers option tactics gmap.
From Stdlib Require Import ZArith Lia ZifyNat ZifyBool.
From S2P Require Import Prelude Bits WordCode WordStream ByteSliceList SliceChain ByteSliceWriter BlockByteSliceList ByteSliceReader ByteSliceWriterCorrect ByteSliceReaderCorrect ByteSliceHistories IntEncoders IntEncodersCorrect PostingBuffer ShortBufferCorrect PostingBufferCorrect.

#[local] Open Scope Z_scope.
#[local] Open Scope store_scope.

(** ** Columns of posting lists

    The lists of a posting are pushed column by column and flushed when the buffer has a fixed number of them. All the
    columns so far are seen as long rows: the records are chunks of the rows, and the buffer holds the last chunk. *)

Module Columns.
Import Rows Encoders Buffered EncodersCorrect WriterCorrect ShortBufCorrect BufferedCorrect.

(** ** Pushing a column *)

Definition addColumn (rows : list (list Z)) (col : list Z) : list (list Z) := zip_with (fun vs v => vs ++ [v]) rows col.

(** [PushBack] for each row from [i] on; a cell is the size of a value and the value. *)
Fixpoint pushAll (i : nat) (cells : list (nat * Z)) (b : BufferedByteSlice) : res BufferedByteSlice :=
  match cells with
  | [] => Ok b
  | (n, v) :: cells => let! b := PushBack n i v b in pushAll (S i) cells b
  end.

Section Push.
Context (mv : MultiValue) (exact : bool) (mode : CompressMode).

(** A column with a value for each row *)
Definition goodColumn (col : list Z) : Prop := Forall2 (fun a v => fits (8 * Z.of_nat (sizeT a)) v) (_atomicValues mv) col.

Definition cellsOfColumn (col : list Z) : list (nat * Z) := zip (map sizeT (_atomicValues mv)) col.

Lemma addColumn_step (cur : list (list Z)) col k vs v :
  cur !! k = Some vs -> col !! k = Some v ->
  <[k := vs ++ [v]]> (addColumn (take k cur) (take k col) ++ drop k cur) = addColumn (take (S k) cur) (take (S k) col) ++ drop (S k) cur.
Proof.
  intros Hv Hc. pose proof (lookup_lt_Some _ _ _ Hv). pose proof (lookup_lt_Some _ _ _ Hc). unfold addColumn.
  assert (length (zip_with (fun (vs : list Z) v => vs ++ [v]) (take k cur) (take k col)) = k) as Hlen by (rewrite length_zip_with, !length_take; lia).
  rewrite (drop_S _ _ _ Hv), (take_S_r _ _ _ Hv), (take_S_r _ _ _ Hc), zip_with_app, <- app_assoc by (rewrite !length_take; lia).
  rewrite <- Hlen at 1. rewrite <- (Nat.add_0_r (length _)) at 1. rewrite insert_app_r. done.
Qed.

Lemma pushAll_ok m l C recs encs cur col :
  goodColumn col -> forall atoms k b,
  drop k (_atomicValues mv) = atoms ->
  flushedAs mv exact mode m b l C recs encs -> holds (_buffer b) mv (addColumn (take k cur) (take k col) ++ drop k cur) ->
  length cur = length (_atomicValues mv) -> Forall (fun vs => Z.of_nat (length vs) = ShortBuf._size (_buffer b)) cur -> ShortBuf._size (_buffer b) < 128 ->
  exists b', pushAll k (drop k (cellsOfColumn col)) b = Ok b' /\ flushedAs mv exact mode m b' l C recs encs /\
    holds (_buffer b') mv (addColumn cur col) /\ ShortBuf._size (_buffer b') = ShortBuf._size (_buffer b).
Proof.
  intros Hcol. pose proof (Forall2_length _ _ _ Hcol) as Hlen. unfold cellsOfColumn. induction atoms as [|a atoms IH]; intros k b Hk Hf Hh Hcl Hc Hsz.
  - assert (length (_atomicValues mv) <= k)%nat by (apply (f_equal length) in Hk; rewrite length_drop in Hk; cbn in Hk; lia).
    rewrite !take_ge, drop_ge, app_nil_r in Hh by lia. rewrite drop_ge by (rewrite length_zip_with, length_map; lia). by exists b.
  - assert (_atomicValues mv !! k = Some a) as Ha by (rewrite <- (Nat.add_0_r k), <- lookup_drop, Hk; done). pose proof (lookup_lt_Some _ _ _ Ha) as Hlt.
    destruct (lookup_lt_is_Some_2 cur k ltac:(lia)) as [vs Hv]. destruct (Forall2_lookup_l _ _ _ _ _ Hcol Ha) as (v & Hcv & Hfit).
    assert ((zip (map sizeT (_atomicValues mv)) col) !! k = Some (sizeT a, v)) as Hz.
    { apply lookup_zip_with_Some. exists (sizeT a), v. split; [done|]. split; [|done]. etransitivity; [exact (list_lookup_fmap sizeT _ k)|]. by rewrite Ha. }
    rewrite (drop_S _ _ _ Hz). cbn [pushAll]. pose proof (Forall_lookup_1 _ _ _ _ Hc Hv) as Hvl. cbv beta in Hvl.
    assert ((addColumn (take k cur) (take k col) ++ drop k cur) !! k = Some vs) as Hv'.
    { unfold addColumn. rewrite lookup_app_r by (rewrite length_zip_with, !length_take; lia). rewrite lookup_drop, length_zip_with, !length_take.
      replace (k + _)%nat with k by lia. done. }
    destruct (PushBack_buffered _ _ _ _ _ _ _ _ _ _ _ _ _ _ Hf Hh Ha Hv' Hvl Hfit Hsz) as (b1 & Hrun & Hf1 & Hh1 & Hs1).
    rewrite Hrun. cbn [res_bind]. rewrite (addColumn_step _ _ _ _ _ Hv Hcv) in Hh1.
    destruct (IH (S k) b1) as (b2 & Hrun2 & Hf2 & Hh2 & Hs2); [|done|done|done|by rewrite Hs1|lia|].
    { apply (f_equal (drop 1)) in Hk. rewrite drop_drop, Nat.add_1_r in Hk. exact Hk. }
    exists b2. split; [done|]. split; [done|]. split; [done | lia].
Qed.

(** A whole column *)
Lemma pushColumn_ok m b l C recs cur encs col :
  buffers mv exact mode m b l C recs cur encs -> goodColumn col -> ShortBuf._size (_buffer b) < 128 ->
  exists b1, pushAll 0 (cellsOfColumn col) b = Ok b1 /\ buffers mv exact mode m (EndPushBack b1) l C recs (addColumn cur col) encs /\
    ShortBuf._size (_buffer (EndPushBack b1)) = ShortBuf._size (_buffer b) + 1.
Proof.
  intros [Hf Hc] Hcol Hsz. pose proof Hc as [Hh Hlens]. pose proof (sh_count _ _ _ Hh) as Hcount.
  destruct (pushAll_ok m l C recs encs cur col Hcol (_atomicValues mv) 0 b) as (b1 & Hrun & Hf1 & Hh1 & Hs1); [by rewrite drop_0 | done | by rewrite drop_0 | done | done | done|].
  rewrite drop_0 in Hrun. exists b1. split; [done|]. rewrite <- Hs1. apply EndPushBack_buffered; [done | done|].
  apply Forall_lookup_2. intros i vs Hi. apply lookup_zip_with_Some in Hi as (ws & v & -> & Hw & _). rewrite length_app. cbn.
  pose proof (Forall_lookup_1 _ _ _ _ Hlens Hw) as Hl. cbv beta in Hl. lia.
Qed.

End Push.

(** ** Chunks of long rows *)

Definition chunk (T : nat) (X : list (list Z)) (k : nat) : list (list Z) := map (fun vs => take T (drop (k * T) vs)) X.

(** All rows have [n] values. *)
Definition even (X : list (list Z)) (n : nat) : Prop := Forall (fun vs => length vs = n) X.

Lemma even_addColumn X n col : even X n -> even (addColumn X col) (S n).
Proof.
  intros He. apply Forall_lookup_2. intros i vs Hi. apply lookup_zip_with_Some in Hi as (ws & v & -> & Hw & _).
  pose proof (Forall_lookup_1 _ _ _ _ He Hw) as Hl. cbn in Hl. rewrite length_app. cbn. lia.
Qed.

Lemma map_zip_with {A B D E} (f : D -> E) (g : A -> B -> D) (h : A -> E) (xs : list A) (ys : list B) :
  length xs = length ys -> (forall i x y, xs !! i = Some x -> ys !! i = Some y -> f (g x y) = h x) -> map f (zip_with g xs ys) = map h xs.
Proof.
  revert ys. induction xs as [|x xs IH]; intros [|y ys] Hl Hfg; try done. cbn. f_equal; [by apply (Hfg 0%nat)|]. apply IH; [by injection Hl|]. intros i x' y'. apply (Hfg (S i)).
Qed.

(** A new column does not change the full chunks ... *)
Lemma chunk_addColumn_old T X n col k : even X n -> length X = length col -> (S k * T <= n)%nat -> chunk T (addColumn X col) k = chunk T X k.
Proof.
  intros He Hl Hk. unfold chunk, addColumn. apply map_zip_with; [done|]. intros i x y Hx _. pose proof (Forall_lookup_1 _ _ _ _ He Hx) as Hn. cbn in Hn.
  rewrite drop_app_le, take_app_le by (rewrite ?length_drop; lia). done.
Qed.

(** ... and is added to the last one. *)
Lemma chunk_addColumn_last T X n col k :
  even X n -> length X = length col -> (k * T <= n < S k * T)%nat -> chunk T (addColumn X col) k = addColumn (chunk T X k) col.
Proof.
  intros He Hl Hk. unfold chunk, addColumn. clear -He Hk. revert col. induction He as [|vs X Hv He IH]; intros [|v col]; try done. cbn. f_equal; [|apply IH].
  rewrite drop_app_le by lia. rewrite !take_ge; [done | rewrite length_drop; lia | rewrite length_app, length_drop; cbn; lia].
Qed.

Lemma chunk_empty T X n k : even X n -> (n <= k * T)%nat -> chunk T X k = map (fun _ => []) X.
Proof.
  intros He Hk. unfold chunk. induction He as [|vs X Hv He IH]; [done|]. cbn. by rewrite IH, drop_ge, take_nil by lia.
Qed.

Lemma columns_chunk T X n k : even X n -> X <> [] -> columns (chunk T X k) = Nat.min T (n - k * T).
Proof. intros He Hne. destruct X as [|vs X]; [done|]. apply Forall_cons_1 in He as [Hv _]. unfold columns, chunk. cbn. rewrite length_take, length_drop. lia. Qed.

Lemma countOf_chunks T X n K : even X n -> X <> [] -> (0 < T)%nat -> countOf (map (chunk T X) (seq 0 K)) = Z.of_nat (Nat.min n (K * T)).
Proof.
  intros He Hne HT. induction K as [|K IH]; [unfold countOf; cbn; lia|]. rewrite seq_S, map_app, countOf_app, IH. cbn [map].
  change (countOf [?x]) with (Z.of_nat (columns x + 0)). cbn [Nat.add]. rewrite (columns_chunk _ _ n) by done. lia.
Qed.

(** ** A buffer that is flushed every [T] columns *)

Section Stored.
Context (mv : MultiValue) (exact : bool) (mode : CompressMode) (T : nat).
Context (HT : (0 < T <= 128)%nat).

(** [b] has the columns of [X], [K] chunks of them flushed. *)
Record stored (m : Store) (b : BufferedByteSlice) (l : addr) (C : list (addr * ByteSlice)) (X : list (list Z)) (n K : nat) (encs : list (list Z)) : Prop := {
  st_buffers : buffers mv exact mode m b l C (map (chunk T X) (seq 0 K)) (chunk T X K) encs;
  st_even : even X n;
  st_rows : length X = length (_atomicValues mv);
  st_chunks : (K * T < n + T)%nat
}.

(** The rows are not empty. *)
Lemma stored_ne m b l C X n K encs : stored m b l C X n K encs -> X <> [].
Proof.
  intros [[_ [Hh _]] _ Hr _] ->. pose proof (wm_few _ (sh_wf _ _ _ Hh)). cbn in Hr. lia.
Qed.

Lemma stored_size m b l C X n K encs : stored m b l C X n K encs -> ShortBuf._size (_buffer b) = Z.of_nat (Nat.min T (n - K * T)).
Proof.
  intros Hs. pose proof (stored_ne _ _ _ _ _ _ _ _ Hs). destruct Hs as [[_ Hc] He _ _]. rewrite <- (complete_columns _ _ _ Hc), (columns_chunk _ _ n); done.
Qed.

(** [GetTotalCount] *)
Lemma stored_total m b l C X n K encs : stored m b l C X n K encs -> (n <= S K * T)%nat -> GetTotalCount b = Z.of_nat n.
Proof.
  intros Hs Hn. unfold GetTotalCount. rewrite (stored_size _ _ _ _ _ _ _ _ Hs). pose proof (stored_ne _ _ _ _ _ _ _ _ Hs) as Hne.
  destruct Hs as [[[_ _ (mode' & Hi & _)] _] He _ _]. destruct (FlushInfoCorrect.says_get _ _ _ _ _ Hi) as (_ & _ & _ & ->).
  rewrite (countOf_chunks _ _ n) by (done || lia). lia.
Qed.

Lemma encs_bound recs encs : wfMulti mv -> blocksAs mv exact mode recs encs -> Z.of_nat (length (concat encs)) <= 8192 * Z.of_nat (length recs).
Proof.
  intros Hw. induction 1 as [|rows enc recs encs Hr _ IH]; [done|]. cbn [concat length]. rewrite length_app. apply rowsAs_length in Hr. pose proof (wm_few _ Hw). lia.
Qed.

(** A column is pushed. *)
Lemma stored_push m b l C X n K encs col :
  stored m b l C X n K encs -> (K * T <= n < S K * T)%nat -> goodColumn mv col ->
  exists b1, pushAll 0 (cellsOfColumn mv col) b = Ok b1 /\ stored m (EndPushBack b1) l C (addColumn X col) (S n) K encs /\
    NeedFlush (Z.of_nat T) (EndPushBack b1) = (S n =? S K * T)%nat.
Proof.
  intros Hs Hn Hcol. pose proof (stored_size _ _ _ _ _ _ _ _ Hs) as Hsz. destruct Hs as [Hb He Hr Hk]. pose proof (Forall2_length _ _ _ Hcol) as Hcl.
  destruct (pushColumn_ok _ _ _ _ _ _ _ _ _ _ _ Hb Hcol) as (b1 & Hrun & Hb1 & Hs1); [lia|]. exists b1. split; [done|]. rewrite Hsz in Hs1. split; [split|].
  - rewrite (chunk_addColumn_last _ _ n) by (done || lia). replace (map (chunk T (addColumn X col)) (seq 0 K)) with (map (chunk T X) (seq 0 K)); [done|].
    apply map_ext_in. intros k Hk'. apply in_seq in Hk'. symmetry. apply (chunk_addColumn_old _ _ n); [done | lia | nia].
  - by apply even_addColumn.
  - unfold addColumn. rewrite length_zip_with. lia.
  - lia.
  - unfold NeedFlush. rewrite Hs1. lia.
Qed.

(** A chunk is flushed. *)
Lemma stored_flush m b l C X n K encs :
  lawful mv exact mode -> stored m b l C X n K encs -> (K * T < n <= S K * T)%nat -> 8192 * Z.of_nat (S K) < 2 ^ 31 -> Z.of_nat n < 2 ^ 29 ->
  exists b' m' C' new, Flush mode b m = Ok ((Z.of_nat (length new), b'), m') /\ stored m' b' l C' X n (S K) (encs ++ [new]) /\
    (0 < length new)%nat /\ advances m m' l C C'.
Proof.
  intros Hlaw Hs Hn HK Hn29. pose proof (stored_size _ _ _ _ _ _ _ _ Hs) as Hsz. pose proof (stored_ne _ _ _ _ _ _ _ _ Hs) as Hne. destruct Hs as [Hb He Hr Hk].
  pose proof Hb as [[_ Hbl _] [Hh _]]. pose proof (encs_bound _ _ (sh_wf _ _ _ Hh) Hbl) as Hbound. rewrite length_map, length_seq in Hbound.
  destruct (Flush_ok _ _ _ _ _ _ _ _ _ _ Hlaw Hb) as (b' & m' & C' & new & Hrun & Hrows & Hb' & Hev); [lia | lia | rewrite (countOf_chunks _ _ n) by (done || lia); lia|].
  exists b', m', C', new. split; [done|]. split; [split|split; [|done]].
  - rewrite seq_S, map_app. cbn [map Nat.add]. rewrite (chunk_empty T X n (S K)) by (done || lia).
    replace (map (fun _ => []) X) with (noRows mv); [exact Hb'|]. unfold noRows. clear -Hr. revert Hr. generalize (_atomicValues mv). induction X as [|x X IH]; intros [|a atoms] Hr; try done. cbn. by rewrite IH by (cbn in Hr; lia).
  - done.
  - done.
  - lia.
  - pose proof (wm_few _ (sh_wf _ _ _ Hh)) as Hf. destruct Hrows; [cbn in Hf; lia|]. rewrite length_app. lia.
Qed.

(** What a reader finds are the chunks. *)
Definition chunkCount (n : nat) : nat := (n + T - 1) / T.

Lemma stored_blocks m b l C X n K encs :
  stored m b l C X n K encs -> (n <= S K * T)%nat ->
  blocks b (map (chunk T X) (seq 0 K)) (chunk T X K) = map (chunk T X) (seq 0 (chunkCount n)).
Proof.
  intros Hs Hn. unfold blocks. rewrite (stored_size _ _ _ _ _ _ _ _ Hs). destruct Hs as [_ _ _ Hk]. unfold chunkCount.
  destruct (Nat.le_gt_cases n (K * T)).
  - replace (Z.of_nat _ =? 0) with true by lia. rewrite app_nil_r. do 2 f_equal. apply (Nat.div_unique _ _ _ (n + T - 1 - T * K)); lia.
  - replace (Z.of_nat _ =? 0) with false by lia. change [chunk T X K] with (map (chunk T X) [(0 + K)%nat]). rewrite <- map_app, <- seq_S. do 2 f_equal.
    apply (Nat.div_unique _ _ _ (n + T - 1 - T * S K)); lia.
Qed.

(** The order of the mode does not matter while nothing is flushed. *)
Lemma stored_mode exact' mode' m b l C X n :
  stored m b l C X n 0 [] -> buffers mv exact' mode' m b l C [] (chunk T X 0) [] /\ even X n /\ length X = length (_atomicValues mv).
Proof.
  intros [[[Hw _ (md & Hi & _)] Hc] He Hr _]. split; [|done]. split; [|done]. split; [done | constructor|]. by exists md.
Qed.

End Stored.

(** Other lists are not touched. *)
Lemma stored_frame mv exact mode T m m' b l C X n K encs :
  stored mv exact mode T m b l C X n K encs -> storeOk m' -> lists m' !! l = lists m !! l -> (forall x, x ∈ C.*1 -> slices m' !! x = slices m !! x) ->
  stored mv exact mode T m' b l C X n K encs.
Proof.
  intros [[[Hw Hbl Hi] Hc] He Hr Hk] Hst Hl Hx. split; try done. split; [|done]. split; try done. by eapply writes_frame.
Qed.

Lemma stored_store mv exact mode T m b l C X n K encs : stored mv exact mode T m b l C X n K encs -> storeOk m.
Proof. intros [[[Hw _ _] _] _ _ _]. by destruct Hw as (? & ? & ? & _ & [? ? ? ? ? ? ? ?] & _). Qed.

(** A list with other slices grows. *)
Lemma stored_other mv exact mode T m m' b l C X n K encs l2 C2 C2' :
  stored mv exact mode T m b l C X n K encs -> advances m m' l2 C2 C2' -> storeOk m' -> l <> l2 -> (forall x, x ∈ C.*1 -> x ∈ C2.*1 -> False) ->
  stored mv exact mode T m' b l C X n K encs.
Proof.
  intros Hs [He _] Hst Hl Hd. eapply stored_frame; [exact Hs | done | by apply (ev_lists _ _ _ _ _ He)|]. intros x Hx. apply (ev_slices _ _ _ _ _ He); [by intros ?; eapply Hd|].
  destruct Hs as [[[Hw _ _] _] _ _ _]. by eapply writes_slices.
Qed.

(** Slices of a list that grew are its own, or new. *)
Lemma advances_apart m m' l C C' (D : list addr) : advances m m' l C C' -> (forall x, x ∈ D -> (x < brk m)%nat) -> (forall x, x ∈ D -> x ∈ C.*1 -> False) -> forall x, x ∈ D -> x ∈ C'.*1 -> False.
Proof. intros [He _] Hb Hd x Hx Hx'. destruct (ev_new _ _ _ _ _ He x Hx') as [?|?]; [by eapply Hd|]. specialize (Hb x Hx). lia. Qed.

End Columns.

(** ** Snapshots of posting buffers

    A search takes a snapshot of a buffer and opens a reader on it; the buffer may be written later. The snapshot has the columns
    of its time, and the reader finds them as long as the list only grows. *)

Module Snapshots.
Import Rows Encoders Buffered WriterCorrect ReaderCorrect ShortBufCorrect BufferedCorrect Columns.

(** Where a list is: its address, its slices and the bytes of its records *)
Record Place := mkPlace { p_list : addr; p_chain : list (addr * ByteSlice); p_encs : list (list Z) }.

(** [p'] is [p] after more was written. *)
Definition longer (p p' : Place) : Prop := p_list p' = p_list p /\ headAddr (p_chain p') = headAddr (p_chain p) /\ p_encs p `prefix_of` p_encs p'.

Lemma longer_refl p : longer p p.
Proof. done. Qed.

Lemma longer_trans p1 p2 p3 : longer p1 p2 -> longer p2 p3 -> longer p1 p3.
Proof. intros (H1 & H2 & H3) (H4 & H5 & H6). split; [congruence|]. split; [congruence|]. by etransitivity. Qed.

Section Snapshot.
Context {R : BlockDataRetriever} (mv : MultiValue) (exact : bool) (mode : CompressMode) (T : nat) (HT : (0 < T <= 128)%nat).

Abbreviation records X K := (map (chunk T X) (seq 0 K)).

(** [b] is a snapshot with the columns of [X], [K] chunks of them in the records of [p]. *)
Record snapshot (b : BufferedByteSlice) (p : Place) (X : list (list Z)) (n K : nat) : Prop := {
  sn_blocks : blocksAs mv exact mode (records X K) (p_encs p);
  sn_buffer : complete (_buffer b) mv (chunk T X K);
  sn_info : exists mode', FlushInfoCorrect.says (_flushInfo b) (negb (ShortBuf._size (_buffer b) =? 0)) (Z.of_nat (length (concat (p_encs p)))) mode' (countOf (records X K)) /\
    (records X K <> [] -> mode' = mode);
  sn_even : even X n;
  sn_rows : length X = length (_atomicValues mv);
  sn_chunks : blocks b (records X K) (chunk T X K) = map (chunk T X) (seq 0 (chunkCount T n));
  sn_size : ShortBuf._size (_buffer b) = Z.of_nat (Nat.min T (n - K * T));
  sn_total : GetTotalCount b = Z.of_nat n
}.

(** The reader finds the records of [p] in any list that is [p] and more. *)
Definition opened (r : BufferedByteSliceReader) (p : Place) : Prop :=
  forall m w C more, writes m w (p_list p) C (map Some (concat (p_encs p) ++ more)) -> headAddr C = headAddr (p_chain p) ->
    Z.of_nat (length (concat (p_encs p) ++ more)) < 2 ^ 62 -> reading (R := R) (p_list p) (p_encs p) more m r 0 0 0.

(** [SnapShot] into a new buffer, and a reader on it *)
Lemma snapshot_ok m b p X n K :
  stored mv exact mode T m b (p_list p) (p_chain p) X n K (p_encs p) -> (n <= S K * T)%nat -> (p_list p < brk m)%nat ->
  exists o m1 b' m' r, new_BufferedByteSlice m = Ok (o, m1) /\ SnapShot b o m1 = Ok (b', m') /\ Open b' m' = Ok (r, m') /\ snapshot b' p X n K /\ opened r p /\
    storeOk m' /\ (brk m <= brk m')%nat /\ (forall x, (x < brk m)%nat -> slices m' !! x = slices m !! x /\ lists m' !! x = lists m !! x).
Proof.
  intros Hs Hn Hl. pose proof (stored_size _ _ _ T HT _ _ _ _ _ _ _ _ Hs) as Hsz. pose proof (stored_total _ _ _ T HT _ _ _ _ _ _ _ _ Hs Hn) as Htot. pose proof (stored_blocks _ _ _ T HT _ _ _ _ _ _ _ _ Hs Hn) as Hbl.
  destruct Hs as [Hbuf Hev Hrow _]. destruct (SnapShot_buffered _ _ _ _ _ _ _ _ _ _ Hbuf Hl) as (o & m1 & b' & m' & Hnew & Hsnap & Hview & Hbuf' & Hst & Hbrk & Hfr).
  destruct (Open_reader (R := R) _ _ _ _ _ _ _ _ _ _ Hview) as (r & Hopen & _). exists o, m1, b', m', r. split_and!; try done.
  - assert (ShortBuf._size (_buffer b') = ShortBuf._size (_buffer b)) as Hsz' by (rewrite <- (complete_columns _ _ _ (vi_buffer _ _ _ _ _ _ _ _ _ _ Hview)); apply (complete_columns _ _ _ (proj2 Hbuf))).
    split; try by destruct Hview.
    + rewrite <- Hbl. unfold blocks. by rewrite Hsz'.
    + by rewrite Hsz'.
    + rewrite <- Htot. unfold GetTotalCount. rewrite Hsz'. destruct Hview as [_ _ _ _ (md & Hi & _) _]. destruct Hbuf as [[_ _ (md' & Hi' & _)] _].
      destruct (FlushInfoCorrect.says_get _ _ _ _ _ Hi) as (_ & _ & _ & ->). by destruct (FlushInfoCorrect.says_get _ _ _ _ _ Hi') as (_ & _ & _ & ->).
  - intros m2 w C more Hw Hh Hb. destruct Hbuf' as [[Hw' _ _] _]. eapply reading_later; [exact Hw' | exact Hview | exact Hopen | exact Hw | done | done].
Qed.

(** ... as long as the list only grows *)
Lemma opened_later m r p p' b X n K exact' mode' :
  opened r p -> longer p p' -> stored mv exact' mode' T m b (p_list p') (p_chain p') X n K (p_encs p') -> exists more, reading (R := R) (p_list p) (p_encs p) more m r 0 0 0.
Proof.
  intros Ho (Hl & Hh & (encs & He)) [[[Hw _ (md & Hi & _)] _] _ _ _]. rewrite Hl, He, concat_app in *. exists (concat encs). eapply Ho; [exact Hw | done|].
  pose proof (FlushInfoCorrect.sa_range _ _ _ _ _ Hi) as [? _]. lia.
Qed.

End Snapshot.
End Snapshots.
