(* ===== verification/SkipList.v ===== *)
(** * Skip lists of postings

    For each record of a long list the skip list has an item: the last document id, the position after it, and the sum of
    the term frequencies when there are any. [BufferedSkipListWriter]
    (src/aios/storage/indexlib/index/inverted_index/format/skiplist/BufferedSkipListWriter.h, .cpp) stores them as
    differences; [PairValueSkipListReader] and [TriValueSkipListReader] look for the record of a document, in a
    file or, [InMemPairValueSkipListReader] and [InMemTriValueSkipListReader], in a snapshot of the writer. The [DoFlush] of the writer
    is the loop of the one it overrides, with other assertions, so that [Flush] of the base class stands for both. *)

From stdpp Require Import base list numbers option tactics gmap.
From Stdlib Require Import ZArith Lia ZifyNat.
From S2P Require Import Prelude Bits ByteSliceList ByteSliceWriter BlockByteSliceList ByteSliceReader IntEncoders PostingBuffer.

#[local] Open Scope Z_scope.
#[local] Open Scope store_scope.

(** ** [ShortListOptimizeUtil] *)

Module ShortList.
Import Encoders.

Definition MAX_UNCOMPRESSED_SKIP_LIST_SIZE : Z := 10.
Definition MAX_UNCOMPRESSED_DOC_LIST_SIZE : Z := 5.
Definition MAX_UNCOMPRESSED_POS_LIST_SIZE : Z := 5.

Definition IsShortDocList (df : Z) : bool := df <=? MAX_UNCOMPRESSED_DOC_LIST_SIZE.
Definition IsShortPosList (ttf : Z) : bool := ttf <=? MAX_UNCOMPRESSED_POS_LIST_SIZE.
Definition IsShortSkipList (size : Z) : bool := size <=? MAX_UNCOMPRESSED_SKIP_LIST_SIZE.

Definition GetPosListCompressMode (ttf : Z) : CompressMode :=
  if IsShortPosList ttf then SHORT_LIST_COMPRESS_MODE else PFOR_DELTA_COMPRESS_MODE.
Definition GetDocListCompressMode (df : Z) (longListCompressMode : CompressMode) : CompressMode :=
  if IsShortDocList df then SHORT_LIST_COMPRESS_MODE else longListCompressMode.
Definition GetSkipListCompressMode (size : Z) : CompressMode :=
  if IsShortSkipList size then SHORT_LIST_COMPRESS_MODE else PFOR_DELTA_COMPRESS_MODE.

(** [GetCompressMode(df, ttf, longListCompressMode)] *)
Definition GetCompressMode (df ttf : Z) (longListCompressMode : CompressMode) : Z :=
  Z.lor (Z.shiftl (FlushInfo.modeZ (GetDocListCompressMode df longListCompressMode)) 2 mod 256) (FlushInfo.modeZ (GetPosListCompressMode ttf)).
Definition GetPosCompressMode (compressMode : Z) : Z := Z.land compressMode 0x03.
Definition GetDocCompressMode (compressMode : Z) : Z := Z.shiftr compressMode 2.

(** Values of the dictionary: four bits say what the others are. *)
Definition OFFSET_MARK : Z := 0x0fffffffffffffff.
Definition STRAT_DOCID_FIRST_DOC_LIST : Z := 0x01.
Definition DF_FIRST_DOC_LIST : Z := 0x02.
Definition SINGLE_DOC : Z := 0x03.

Definition GetDictInlineValue (dictValue : Z) : Z := Z.land dictValue OFFSET_MARK.
Definition GetCompressMode_value (dictValue : Z) : Z := Z.shiftr dictValue 60 mod 256.

Definition CreateDictInlineValue (compressValue : Z) (isDocList dfFirst : bool) : Z :=
  let mode := Z.shiftl (FlushInfo.modeZ DICT_INLINE_COMPRESS_MODE) 2 mod 256 in
  let mode := Z.lor mode (if isDocList then if dfFirst then DF_FIRST_DOC_LIST else STRAT_DOCID_FIRST_DOC_LIST else SINGLE_DOC) in
  Z.lor compressValue (u64 (Z.shiftl mode 60)).

(** The result, [isDocList] and [dfFirst] *)
Definition IsDictInlineCompressMode (dictValue : Z) : bool * bool * bool :=
  let mode := GetCompressMode_value dictValue in
  if negb (GetDocCompressMode mode =? FlushInfo.modeZ DICT_INLINE_COMPRESS_MODE) then (false, false, true)
  else
    let dictLineState := GetPosCompressMode mode in
    if dictLineState =? SINGLE_DOC then (true, false, true) else (true, true, dictLineState =? DF_FIRST_DOC_LIST).

(** [GetOffset]: [None] when it returns false *)
Definition GetOffset (dictValue : Z) : option Z :=
  let '(inline, _, _) := IsDictInlineCompressMode dictValue in if inline then None else Some (Z.land dictValue OFFSET_MARK).

Definition CreateDictValue (compressMode offset : Z) : Z := Z.lor (u64 offset) (u64 (Z.shiftl compressMode 60)).

End ShortList.

(** ** [BufferedSkipListWriter] *)

Module SkipWriter.
Import Rows Encoders Buffered.

Record BufferedSkipListWriter := mkSkipWriter {
  base : BufferedByteSlice;
  _lastKey : Z;
  _lastValue1 : Z
}.

Definition INVALID_LAST_KEY : Z := u32 (-1).
Definition SKIP_LIST_BUFFER_SIZE : Z := 32.

Definition new_BufferedSkipListWriter (compressMode : CompressMode) : SM BufferedSkipListWriter :=
  let* b := new_BufferedByteSlice in
  ret (mkSkipWriter b (match compressMode with REFERENCE_COMPRESS_MODE => INVALID_LAST_KEY | _ => 0 end) 0).

Definition Init (mv : MultiValue) (w : BufferedSkipListWriter) : res BufferedSkipListWriter :=
  let! b := Buffered.Init mv (base w) in Ok (mkSkipWriter b (_lastKey w) (_lastValue1 w)).

Definition IsReferenceCompress (w : BufferedSkipListWriter) : bool := _lastKey w =? INVALID_LAST_KEY.

(** [if (NeedFlush(SKIP_LIST_BUFFER_SIZE)) Flush(mode)] *)
Definition flushIfNeeded (mode : CompressMode) (b : BufferedByteSlice) : SM BufferedByteSlice :=
  if NeedFlush SKIP_LIST_BUFFER_SIZE b then let* (_, b) := Flush mode b in ret b else ret b.

(** [AddItem(key, value1, value2)] *)
Definition AddItem3 (key value1 value2 : Z) (w : BufferedSkipListWriter) : SM BufferedSkipListWriter :=
  let* b := lift (PushBack 4 0 (u32 (key - _lastKey w)) (base w)) in
  let* b := lift (PushBack 4 1 (u32 (value1 - _lastValue1 w)) b) in
  let* b := lift (PushBack 4 2 value2 b) in
  let* b := flushIfNeeded PFOR_DELTA_COMPRESS_MODE (EndPushBack b) in
  ret (mkSkipWriter b key value1).

(** [AddItem(key, value1)] *)
Definition AddItem2 (key value1 : Z) (w : BufferedSkipListWriter) : SM BufferedSkipListWriter :=
  let* b := lift (PushBack 4 0 (if IsReferenceCompress w then key else u32 (key - _lastKey w)) (base w)) in
  let* b := lift (PushBack 4 1 value1 b) in
  let b := EndPushBack b in
  let w := mkSkipWriter b (if negb (IsReferenceCompress w) then key else _lastKey w) (_lastValue1 w) in
  let* b := flushIfNeeded (if IsReferenceCompress w then REFERENCE_COMPRESS_MODE else PFOR_DELTA_COMPRESS_MODE) b in
  ret (mkSkipWriter b (_lastKey w) (_lastValue1 w)).

(** [AddItem(valueDelta)] *)
Definition AddItem1 (valueDelta : Z) (w : BufferedSkipListWriter) : SM BufferedSkipListWriter :=
  let value1 := u32 (_lastValue1 w + valueDelta) in
  let* b := lift (PushBack 4 0 value1 (base w)) in
  let* b := flushIfNeeded SHORT_LIST_COMPRESS_MODE (EndPushBack b) in
  ret (mkSkipWriter b (_lastKey w) value1).

Definition FinishFlush (w : BufferedSkipListWriter) : SM (Z * BufferedSkipListWriter) :=
  let skipListSize := u32 (GetTotalCount (base w)) in
  let skipListCompressMode := ShortList.GetSkipListCompressMode skipListSize in
  let skipListCompressMode :=
    match IsReferenceCompress w, skipListCompressMode with
    | true, PFOR_DELTA_COMPRESS_MODE => REFERENCE_COMPRESS_MODE
    | _, mode => mode
    end in
  let* (n, b) := Flush skipListCompressMode (base w) in
  ret (n, mkSkipWriter b (_lastKey w) (_lastValue1 w)).

(** [compressMode != SHORT_LIST_COMPRESS_MODE || GetMultiValue()->GetAtomicValueSize() != 3] *)
Definition isPlain (skipListSize : Z) (w : BufferedSkipListWriter) : bool :=
  negb (ShortList.IsShortSkipList skipListSize) || negb (length (_atomicValues (GetMultiValue (base w))) =? 3)%nat.

Definition EstimateDumpSize (w : BufferedSkipListWriter) : SM Z :=
  let skipListSize := u32 (GetTotalCount (base w)) in
  if skipListSize =? 0 then ret 0
  else if isPlain skipListSize w then Writer.GetSize (_postingListWriter (base w))
  else
    let* n := Writer.GetSize (_postingListWriter (base w)) in
    let atomicValues := _atomicValues (GetMultiValue (base w)) in
    let* a1 := lift (deref (atomicValues !! 1%nat)) in
    let* a2 := lift (deref (atomicValues !! 2%nat)) in
    ret (u64 (n - Z.of_nat (sizeT a1 + sizeT a2))).

(** [Dump]: a short list of three rows is written without the last values of the second and the third row. *)
Section Dump.
Context {File : Type} (WriteFile : File -> list Z -> res File).

(** [while (iter.HasNext(start + len))] *)
Fixpoint dumpRow (fuel : nat) (endPos : Z) (file : File) (it : Iter.ByteSliceListIterator) : SM (File * Iter.ByteSliceListIterator) :=
  let* (more, it) := Iter.HasNext endPos it in
  if negb more then ret (file, it)
  else
    match fuel with
    | O => lift OutOfFuel
    | S fuel =>
        let* (chunk, it) := Iter.Next it in
        let '(slice, pos, size) := chunk in
        let* s := derefSlice slice in
        let* bs := lift (peek (data s) pos size) in
        let* file := lift (WriteFile file bs) in
        dumpRow fuel endPos file it
    end.

Fixpoint dumpRows (atomicValues : list AtomicValue) (first : bool) (skipListSize start : Z) (file : File) (it : Iter.ByteSliceListIterator) : SM File :=
  match atomicValues with
  | [] => ret file
  | a :: atomicValues =>
      let rowLen := u32 (Z.of_nat (sizeT a) * skipListSize) in
      let len := if first then rowLen else u32 (rowLen - Z.of_nat (sizeT a)) in
      if len =? 0 then ret file
      else
        let* (_, it) := Iter.SeekSlice start it in
        let* (file, it) := (fun m => dumpRow (S (S (brk m))) (u32 (start + len)) file it m) in
        dumpRows atomicValues false skipListSize (u32 (start + rowLen)) file it
  end.

Definition Dump (file : File) (w : BufferedSkipListWriter) : SM File :=
  let skipListSize := u32 (GetTotalCount (base w)) in
  if skipListSize =? 0 then ret file
  else if isPlain skipListSize w then Writer.Dump WriteFile file (_postingListWriter (base w))
  else
    let* l := Writer.listOf (_postingListWriter (base w)) in
    let* it := Iter.new_Iterator l in
    dumpRows (_atomicValues (GetMultiValue (base w))) true skipListSize 0 file it.
End Dump.

End SkipWriter.

(** ** [PairValueSkipListReader] *)

(** What [_keyBufferBase] and [_valueBufferBase] point to: the array of the reader, or bytes of a slice *)
Inductive BufferBase := OwnBuffer | SliceBytes (a : addr) (off : Z).

(** [assert(b)] *)
Definition assertion (b : bool) : SM unit := if b then ret tt else lift Undefined.

(** [base[i]] *)
Definition baseAt (base : BufferBase) (own : list Z) (i : Z) : SM Z :=
  match base with
  | OwnBuffer => lift (deref (own !! Z.to_nat i))
  | SliceBytes a off =>
      let* mem := Reader.pointee (Reader.InSlice a (off + i * 4)) 4 in
      lift (deref (valuesOf 4 1 mem !! 0%nat))
  end.

(** The array and the pointer after [DecodeMayCopy(base, ...)] with [base] at the array *)
Definition afterDecode (own : list Z) (p : Reader.Pointer) : list Z * BufferBase :=
  match p with
  | Reader.InBuffer mem => (valuesOf 4 (length own) mem, OwnBuffer)
  | Reader.InSlice a off => (own, SliceBytes a off)
  end.

(** [Decode(buffer, decodeCount, num)] writes the first [decodeCount] values of an array. *)
Definition decodeInto {R : BlockDataRetriever} (b : Buffered.BufferedByteSlice) (buffer : list Z) (decodeCount : nat) (rd : Buffered.BufferedByteSliceReader)
    : SM (option (list Z * Z) * Buffered.BufferedByteSliceReader) :=
  if (length buffer <? decodeCount)%nat then lift Undefined
  else
    let* (o, rd) := Buffered.Decode b (take decodeCount buffer) rd in
    ret (match o with None => None | Some (vs, n) => Some (vs ++ drop decodeCount buffer, n) end, rd).

Module PairReader.
Import Encoders.

(** [Source] is where the buffers are loaded from. *)
Record PairValueSkipListReader (Source : Type) := mkPair {
  source : Source;
  _skippedItemCount : Z;
  _currentKey : Z;
  _currentValue : Z;
  _prevKey : Z;
  _prevValue : Z;
  _keyBuffer : list Z;
  _valueBuffer : list Z;
  _currentCursor : Z;
  _numInBuffer : Z;
  _keyBufferBase : BufferBase;
  _valueBufferBase : BufferBase;
  _isReferenceCompress : bool
}.
#[global] Arguments mkPair {Source}.
#[global] Arguments source {Source}.
#[global] Arguments _skippedItemCount {Source}.
#[global] Arguments _currentKey {Source}.
#[global] Arguments _currentValue {Source}.
#[global] Arguments _prevKey {Source}.
#[global] Arguments _prevValue {Source}.
#[global] Arguments _keyBuffer {Source}.
#[global] Arguments _valueBuffer {Source}.
#[global] Arguments _currentCursor {Source}.
#[global] Arguments _numInBuffer {Source}.
#[global] Arguments _keyBufferBase {Source}.
#[global] Arguments _valueBufferBase {Source}.
#[global] Arguments _isReferenceCompress {Source}.

Section Generic.
Context {Source : Type}.
Abbreviation Reader := (PairValueSkipListReader Source).

(** The constructor; [keys] and [values] are what the arrays hold before they are used. *)
Definition new_PairReader (src : Source) (keys values : list Z) (isReferenceCompress : bool) : Reader :=
  mkPair src (-1) 0 0 0 0 keys values 0 0 OwnBuffer OwnBuffer isReferenceCompress.

(** The members [LoadBuffer] writes *)
Definition loaded (src : Source) (keys : list Z) (kb : BufferBase) (values : list Z) (vb : BufferBase) (num : Z) (r : Reader) : Reader :=
  mkPair src (_skippedItemCount r) (_currentKey r) (_currentValue r) (_prevKey r) (_prevValue r) keys values 0 num kb vb (_isReferenceCompress r).

(** The members a [LoadBuffer] that fails may have written *)
Definition withBuffers (src : Source) (keys values : list Z) (r : Reader) : Reader :=
  mkPair src (_skippedItemCount r) (_currentKey r) (_currentValue r) (_prevKey r) (_prevValue r) keys values
    (_currentCursor r) (_numInBuffer r) (_keyBufferBase r) (_valueBufferBase r) (_isReferenceCompress r).

(** [LoadBuffer] is virtual: the rest of the class is the same for all sources. *)
Context (LoadBuffer : Reader -> SM (bool * Reader)).

(** The local variables of the loop of [SkipTo] *)
Record Locals := mkLocals {
  currentKey : Z;
  currentValue : Z;
  currentCursor : Z;
  skippedItemCount : Z;
  numInBuffer : Z
}.

Definition finish (c : Locals) (prevKey prevValue : Z) (r : Reader) : Reader :=
  mkPair (source r) (skippedItemCount c) (currentKey c) (currentValue c) prevKey prevValue
    (_keyBuffer r) (_valueBuffer r) (currentCursor c) (_numInBuffer r) (_keyBufferBase r) (_valueBufferBase r) (_isReferenceCompress r).

(** [if (currentCursor >= numInBuffer) { ... }]: whether there is an item *)
Definition fillBuffer (c : Locals) (r : Reader) : SM (bool * Locals * Reader) :=
  if numInBuffer c <=? currentCursor c then
    let* (ok, r) := LoadBuffer r in
    ret (ok, if ok : bool then mkLocals (currentKey c) (currentValue c) (_currentCursor r) (skippedItemCount c) (_numInBuffer r) else c, r)
  else ret (true, c, r).

(** [key], [prevKey], [value] and [delta] when the result is true *)
Fixpoint skipLoop (fuel : nat) (queryKey : Z) (c : Locals) (r : Reader) : SM (option (Z * Z * Z * Z) * Reader) :=
  match fuel with
  | O => lift OutOfFuel
  | S fuel =>
      let c := mkLocals (currentKey c) (currentValue c) (currentCursor c) (i32 (skippedItemCount c + 1)) (numInBuffer c) in
      let localPrevKey := currentKey c in
      let localPrevValue := currentValue c in
      let* (go, c, r) := fillBuffer c r in
      if negb go then ret (None, finish c (_prevKey r) (_prevValue r) r)
      else
        let* k := baseAt (_keyBufferBase r) (_keyBuffer r) (currentCursor c) in
        let* v := baseAt (_valueBufferBase r) (_valueBuffer r) (currentCursor c) in
        let c := mkLocals (if _isReferenceCompress r then k else u32 (k + currentKey c)) (u32 (currentValue c + v))
                   (u32 (currentCursor c + 1)) (skippedItemCount c) (numInBuffer c) in
        if queryKey <=? currentKey c then
          ret (Some (currentKey c, localPrevKey, localPrevValue, u32 (currentValue c - localPrevValue)), finish c localPrevKey localPrevValue r)
        else skipLoop fuel queryKey c r
  end.

(** [SkipTo(queryKey, key, prevKey, value, delta)] *)
Definition SkipTo (fuel : nat) (queryKey : Z) (r : Reader) : SM (option (Z * Z * Z * Z) * Reader) :=
  let* _ := assertion (_currentKey r <=? queryKey) in
  skipLoop fuel queryKey (mkLocals (_currentKey r) (_currentValue r) (_currentCursor r) (_skippedItemCount r) (_numInBuffer r)) r.

(** [while (currentCursor < _numInBuffer)] *)
Fixpoint lastLoop (count : nat) (base : BufferBase) (own : list Z) (add : bool) (cursor last : Z) : SM Z :=
  match count with
  | O => ret last
  | S count =>
      let* x := baseAt base own cursor in
      lastLoop count base own add (cursor + 1) (if add then u32 (x + last) else x)
  end.

Definition GetLastValueInBuffer (r : Reader) : SM Z :=
  lastLoop (Z.to_nat (_numInBuffer r - _currentCursor r)) (_valueBufferBase r) (_valueBuffer r) (negb (_isReferenceCompress r)) (_currentCursor r) (_currentValue r).

Definition GetLastKeyInBuffer (r : Reader) : SM Z :=
  lastLoop (Z.to_nat (_numInBuffer r - _currentCursor r)) (_keyBufferBase r) (_keyBuffer r) (negb (_isReferenceCompress r)) (_currentCursor r) (_currentKey r).

End Generic.

(** *** In a file *)

(** The members of [SkipListReader] *)
Record FileSource := mkFile { _start : Z; _end : Z; _byteSliceReader : Reader.ByteSliceReader }.

Section File.
Context {R : BlockDataRetriever} (sse : bool) (junk : list Z).

(** [SkipListReader::Load(byteSliceList, start, end)] *)
Definition LoadList (l : addr) (start end_ : Z) : SM FileSource :=
  let* r := Reader.Open l Reader.new_ByteSliceReader in
  let* (_, r) := Reader.Seek start r in
  ret (mkFile start end_ r).

(** [SkipListReader::Load(byteSlice, start, end)] *)
Definition LoadSlice (slice : option addr) (start end_ : Z) : SM FileSource :=
  let* r := lift (Reader.OpenSlice slice Reader.new_ByteSliceReader) in
  let* (_, r) := Reader.Seek start r in
  ret (mkFile start end_ r).

(** [InnerLoad]; [SKIP_LIST_BUFFER_SIZE] values fit the arrays. *)
Definition InnerLoad (s : FileSource) (start end_ itemCount : Z) (r : PairValueSkipListReader FileSource) : SM (PairValueSkipListReader FileSource) :=
  let r := mkPair s (-1) 0 0 0 0 (_keyBuffer r) (_valueBuffer r) 0 0 OwnBuffer OwnBuffer (_isReferenceCompress r) in
  if end_ <=? start then ret r
  else if itemCount <=? ShortList.MAX_UNCOMPRESSED_SKIP_LIST_SIZE then
    let* (keys, _, rd) := ReadTo 4 (_keyBuffer r) (itemCount * 4) (_byteSliceReader s) in
    let* (values, _, rd) := ReadTo 4 (_valueBuffer r) (itemCount * 4) rd in
    ret (mkPair (mkFile start end_ rd) (-1) 0 0 0 0 keys values 0 itemCount OwnBuffer OwnBuffer (_isReferenceCompress r))
  else ret r.

(** [Load] of a list, and of a slice *)
Definition Load (l : addr) (start end_ itemCount : Z) (r : PairValueSkipListReader FileSource) : SM (PairValueSkipListReader FileSource) :=
  let* s := LoadList l start end_ in InnerLoad s start end_ itemCount r.
Definition Load_slice (slice : option addr) (start end_ itemCount : Z) (r : PairValueSkipListReader FileSource) : SM (PairValueSkipListReader FileSource) :=
  let* s := LoadSlice slice start end_ in InnerLoad s start end_ itemCount r.

Definition LoadBuffer (r : PairValueSkipListReader FileSource) : SM (bool * PairValueSkipListReader FileSource) :=
  let s := source r in
  if u32 (Reader.Tell (_byteSliceReader s)) <? _end s then
    let mode := if _isReferenceCompress r then REFERENCE_COMPRESS_MODE else PFOR_DELTA_COMPRESS_MODE in
    let* E := lift (deref (GetSkipListEncoder sse junk (mkParam mode false true))) in
    let* (kp, keyNum, rd) := DecodeMayCopy R (_keyBuffer r) (_byteSliceReader s) in
    let* (vp, valueNum, rd) := DecodeMayCopy R (_valueBuffer r) rd in
    let '(keys, kb) := afterDecode (_keyBuffer r) kp in
    let '(values, vb) := afterDecode (_valueBuffer r) vp in
    if negb (keyNum =? valueNum) then lift (Error IndexCollapsed)
    else ret (true, loaded (mkFile (_start s) (_end s) rd) keys kb values vb keyNum r)
  else ret (false, r).
End File.

(** *** In memory *)

(** The members of [InMemPairValueSkipListReader] *)
Record MemSource := mkMem { _skipListBuffer : Buffered.BufferedByteSlice; _skipListReader : Buffered.BufferedByteSliceReader }.

(** [Load(postingBuffer)] *)
Definition MemLoad {R : BlockDataRetriever} (postingBuffer : Buffered.BufferedByteSlice) (keys values : list Z) (isReferenceCompress : bool)
    : SM (PairValueSkipListReader MemSource) :=
  let* b := Buffered.new_BufferedByteSlice in
  let* skipListBuffer := Buffered.SnapShot postingBuffer b in
  let* rd := Buffered.Open skipListBuffer in
  ret (new_PairReader (mkMem skipListBuffer rd) keys values isReferenceCompress).

Definition MemLoadBuffer {R : BlockDataRetriever} (r : PairValueSkipListReader MemSource) : SM (bool * PairValueSkipListReader MemSource) :=
  let b := _skipListBuffer (source r) in
  let flushCount := Buffered.GetTotalCount b in
  let decodeCount := Z.to_nat (if ShortList.IsShortSkipList flushCount then flushCount else SkipWriter.SKIP_LIST_BUFFER_SIZE) in
  let* (o, rd) := decodeInto b (_keyBuffer r) decodeCount (_skipListReader (source r)) in
  match o with
  | None => ret (false, withBuffers (mkMem b rd) (_keyBuffer r) (_valueBuffer r) r)
  | Some (keys, keyNum) =>
      let* (o, rd) := decodeInto b (_valueBuffer r) decodeCount rd in
      match o with
      | None => ret (false, withBuffers (mkMem b rd) keys (_valueBuffer r) r)
      | Some (values, valueNum) =>
          if negb (keyNum =? valueNum) then lift (Error IndexCollapsed)
          else ret (true, loaded (mkMem b rd) keys (_keyBufferBase r) values (_valueBufferBase r) keyNum r)
      end
  end.

End PairReader.

(** ** [TriValueSkipListReader] *)

Module TriReader.
Import Encoders PairReader.

Record TriValueSkipListReader (Source : Type) := mkTri {
  source : Source;
  _skippedItemCount : Z;
  _currentDocId : Z;
  _currentOffset : Z;
  _currentTTF : Z;
  _prevDocId : Z;
  _prevOffset : Z;
  _prevTTF : Z;
  _docIdBuffer : list Z;
  _offsetBuffer : list Z;
  _ttfBuffer : list Z;
  _currentCursor : Z;
  _numInBuffer : Z
}.
#[global] Arguments mkTri {Source}.
#[global] Arguments source {Source}.
#[global] Arguments _skippedItemCount {Source}.
#[global] Arguments _currentDocId {Source}.
#[global] Arguments _currentOffset {Source}.
#[global] Arguments _currentTTF {Source}.
#[global] Arguments _prevDocId {Source}.
#[global] Arguments _prevOffset {Source}.
#[global] Arguments _prevTTF {Source}.
#[global] Arguments _docIdBuffer {Source}.
#[global] Arguments _offsetBuffer {Source}.
#[global] Arguments _ttfBuffer {Source}.
#[global] Arguments _currentCursor {Source}.
#[global] Arguments _numInBuffer {Source}.

Section Generic.
Context {Source : Type}.
Abbreviation Reader := (TriValueSkipListReader Source).

Definition new_TriReader (src : Source) (docIds offsets ttfs : list Z) : Reader := mkTri src (-1) 0 0 0 0 0 0 docIds offsets ttfs 0 0.

Definition loaded (src : Source) (docIds offsets ttfs : list Z) (num : Z) (r : Reader) : Reader :=
  mkTri src (_skippedItemCount r) (_currentDocId r) (_currentOffset r) (_currentTTF r) (_prevDocId r) (_prevOffset r) (_prevTTF r)
    docIds offsets ttfs 0 num.
Definition withBuffers (src : Source) (docIds offsets ttfs : list Z) (r : Reader) : Reader :=
  mkTri src (_skippedItemCount r) (_currentDocId r) (_currentOffset r) (_currentTTF r) (_prevDocId r) (_prevOffset r) (_prevTTF r)
    docIds offsets ttfs (_currentCursor r) (_numInBuffer r).

Context (LoadBuffer : Reader -> SM (bool * Reader)).

Record Locals := mkLocals {
  currentDocId : Z;
  currentOffset : Z;
  currentTTF : Z;
  currentCursor : Z;
  skippedItemCount : Z;
  numInBuffer : Z
}.

Definition finish (c : Locals) (prevDocId prevOffset prevTTF : Z) (r : Reader) : Reader :=
  mkTri (source r) (skippedItemCount c) (currentDocId c) (currentOffset c) (currentTTF c) prevDocId prevOffset prevTTF
    (_docIdBuffer r) (_offsetBuffer r) (_ttfBuffer r) (currentCursor c) (_numInBuffer r).

(** [if (currentCursor >= numInBuffer) { ... }]: whether there is an item *)
Definition fillBuffer (c : Locals) (r : Reader) : SM (bool * Locals * Reader) :=
  if numInBuffer c <=? currentCursor c then
    let* (ok, r) := LoadBuffer r in
    ret (ok, if ok : bool then mkLocals (currentDocId c) (currentOffset c) (currentTTF c) (_currentCursor r) (skippedItemCount c) (_numInBuffer r) else c, r)
  else ret (true, c, r).

(** [docId], [prevDocId], [offset] and [delta] when the result is true *)
Fixpoint skipLoop (fuel : nat) (queryDocId : Z) (c : Locals) (r : Reader) : SM (option (Z * Z * Z * Z) * Reader) :=
  match fuel with
  | O => lift OutOfFuel
  | S fuel =>
      let c := mkLocals (currentDocId c) (currentOffset c) (currentTTF c) (currentCursor c) (i32 (skippedItemCount c + 1)) (numInBuffer c) in
      let localPrevDocId := currentDocId c in
      let localPrevOffset := currentOffset c in
      let localPrevTTF := currentTTF c in
      let* (go, c, r) := fillBuffer c r in
      if negb go then ret (None, finish c (_prevDocId r) (_prevOffset r) (_prevTTF r) r)
      else
        let* d := lift (deref (_docIdBuffer r !! Z.to_nat (currentCursor c))) in
        let* o := lift (deref (_offsetBuffer r !! Z.to_nat (currentCursor c))) in
        let* t := lift (deref (_ttfBuffer r !! Z.to_nat (currentCursor c))) in
        let c := mkLocals (u32 (currentDocId c + d)) (u32 (currentOffset c + o)) (u32 (currentTTF c + t))
                   (u32 (currentCursor c + 1)) (skippedItemCount c) (numInBuffer c) in
        if queryDocId <=? currentDocId c then
          ret (Some (currentDocId c, localPrevDocId, localPrevOffset, u32 (currentOffset c - localPrevOffset)),
               finish c localPrevDocId localPrevOffset localPrevTTF r)
        else skipLoop fuel queryDocId c r
  end.

Definition SkipTo (fuel : nat) (queryDocId : Z) (r : Reader) : SM (option (Z * Z * Z * Z) * Reader) :=
  let* _ := assertion (_currentDocId r <=? queryDocId) in
  skipLoop fuel queryDocId
    (mkLocals (_currentDocId r) (_currentOffset r) (_currentTTF r) (_currentCursor r) (_skippedItemCount r) (_numInBuffer r)) r.

Definition GetCurrentTTF (r : Reader) : Z := _currentTTF r.
Definition GetPrevTTF (r : Reader) : Z := _prevTTF r.

End Generic.

(** *** In a file *)

Section File.
Context {R : BlockDataRetriever} (sse : bool) (junk : list Z).

Definition InnerLoad (s : FileSource) (start end_ itemCount : Z) (r : TriValueSkipListReader FileSource) : SM (TriValueSkipListReader FileSource) :=
  let r := mkTri s (-1) 0 0 0 0 0 0 (_docIdBuffer r) (_offsetBuffer r) (_ttfBuffer r) 0 0 in
  if end_ <=? start then ret r
  else if itemCount <=? ShortList.MAX_UNCOMPRESSED_SKIP_LIST_SIZE then
    let* (docIds, _, rd) := ReadTo 4 (_docIdBuffer r) (itemCount * 4) (_byteSliceReader s) in
    let* (ttfs, _, rd) := ReadTo 4 (_ttfBuffer r) (u64 (u32 (itemCount - 1) * 4)) rd in
    let* (offsets, _, rd) := ReadTo 4 (_offsetBuffer r) (u64 (u32 (itemCount - 1) * 4)) rd in
    ret (mkTri (mkFile start end_ rd) (-1) 0 0 0 0 0 0 docIds offsets ttfs 0 itemCount)
  else ret r.

Definition Load (l : addr) (start end_ itemCount : Z) (r : TriValueSkipListReader FileSource) : SM (TriValueSkipListReader FileSource) :=
  let* s := LoadList l start end_ in InnerLoad s start end_ itemCount r.
Definition Load_slice (slice : option addr) (start end_ itemCount : Z) (r : TriValueSkipListReader FileSource) : SM (TriValueSkipListReader FileSource) :=
  let* s := LoadSlice slice start end_ in InnerLoad s start end_ itemCount r.

(** [GetSkipListEncoder()] without a parameter: PForDelta with the options of [EncoderParam()] *)
Definition LoadBuffer (r : TriValueSkipListReader FileSource) : SM (bool * TriValueSkipListReader FileSource) :=
  let s := source r in
  if Reader.Tell (_byteSliceReader s) <? _end s then
    let* E := lift (deref (GetSkipListEncoder sse junk (mkParam PFOR_DELTA_COMPRESS_MODE false false))) in
    let* (docIds, docNum, rd) := Decode R (_docIdBuffer r) (_byteSliceReader s) in
    let* (ttfs, ttfNum, rd) := Decode R (_ttfBuffer r) rd in
    let* (offsets, lenNum, rd) := Decode R (_offsetBuffer r) rd in
    if negb (docNum =? ttfNum) || negb (ttfNum =? lenNum) then lift (Error IndexCollapsed)
    else ret (true, loaded (mkFile (_start s) (_end s) rd) docIds offsets ttfs docNum r)
  else ret (false, r).
End File.

(** *** In memory *)

Definition MemLoad {R : BlockDataRetriever} (postingBuffer : Buffered.BufferedByteSlice) (docIds offsets ttfs : list Z)
    : SM (TriValueSkipListReader MemSource) :=
  let* b := Buffered.new_BufferedByteSlice in
  let* skipListBuffer := Buffered.SnapShot postingBuffer b in
  let* rd := Buffered.Open skipListBuffer in
  ret (new_TriReader (mkMem skipListBuffer rd) docIds offsets ttfs).

Definition MemLoadBuffer {R : BlockDataRetriever} (r : TriValueSkipListReader MemSource) : SM (bool * TriValueSkipListReader MemSource) :=
  let b := _skipListBuffer (source r) in
  let flushCount := Buffered.GetTotalCount b in
  let flushInfo := Buffered._flushInfo b in
  let decodeCount :=
    Z.to_nat (match FlushInfo.GetCompressMode flushInfo, FlushInfo.IsValidShortBuffer flushInfo with
              | SHORT_LIST_COMPRESS_MODE, false => flushCount
              | _, _ => SkipWriter.SKIP_LIST_BUFFER_SIZE
              end) in
  if (decodeCount =? 0)%nat then ret (false, r)
  else
    let* (o, rd) := decodeInto b (_docIdBuffer r) decodeCount (_skipListReader (source r)) in
    match o with
    | None => ret (false, withBuffers (mkMem b rd) (_docIdBuffer r) (_offsetBuffer r) (_ttfBuffer r) r)
    | Some (docIds, keyNum) =>
        let* (o, rd) := decodeInto b (_ttfBuffer r) decodeCount rd in
        match o with
        | None => ret (false, withBuffers (mkMem b rd) docIds (_offsetBuffer r) (_ttfBuffer r) r)
        | Some (ttfs, ttfNum) =>
            let* (o, rd) := decodeInto b (_offsetBuffer r) decodeCount rd in
            match o with
            | None => ret (false, withBuffers (mkMem b rd) docIds (_offsetBuffer r) ttfs r)
            | Some (offsets, valueNum) =>
                if negb (keyNum =? ttfNum) || negb (ttfNum =? valueNum) then lift (Error IndexCollapsed)
                else ret (true, loaded (mkMem b rd) docIds offsets ttfs keyNum r)
            end
        end
    end.

(** [while (currentCursor < _numInBuffer)] of the overrides in [InMemTriValueSkipListReader] *)
Fixpoint sumFrom (count : nat) (buffer : list Z) (cursor : nat) (last : Z) : res Z :=
  match count with
  | O => Ok last
  | S count => let! x := deref (buffer !! cursor) in sumFrom count buffer (S cursor) (u32 (last + x))
  end.
Definition MemGetLastValueInBuffer {Source} (r : TriValueSkipListReader Source) : res Z :=
  sumFrom (Z.to_nat (_numInBuffer r - _currentCursor r)) (_offsetBuffer r) (Z.to_nat (_currentCursor r)) (_currentOffset r).
Definition MemGetLastKeyInBuffer {Source} (r : TriValueSkipListReader Source) : res Z :=
  sumFrom (Z.to_nat (_numInBuffer r - _currentCursor r)) (_docIdBuffer r) (Z.to_nat (_currentCursor r)) (_currentDocId r).

End TriReader.
