(* ===== verification/SkipListCorrect.v ===== *)
(** * Skip lists find the record of a document

    The readers in memory go through the items of the writer, buffer by buffer, and stop at the first item with a
    key that is not below the query. *)

From stdpp Require Import base list numbers option tactics gmap.
From Stdlib Require Import ZArith Lia ZifyNat ZifyBool.
From S2P Require Import Prelude Bits WordCode WordStream ByteSliceList SliceChain VbyteCompressor ByteSliceWriter BlockByteSliceList ByteSliceReader ByteSliceWriterCorrect ByteSliceReaderCorrect IntEncoders IntEncodersCorrect PostingBuffer ShortBufferCorrect PostingBufferCorrect PostingColumns SkipList.

#[local] Open Scope Z_scope.
#[local] Open Scope store_scope.

(** ** Values of the dictionary *)

Module ShortListCorrect.
Import Encoders ShortList.

Lemma withMode v mode : 0 <= v < 2 ^ 60 -> 0 <= mode < 16 ->
  let d := Z.lor v (u64 (Z.shiftl mode 60)) in Z.land d OFFSET_MARK = v /\ GetCompressMode_value d = mode.
Proof.
  intros Hv Hm d. assert (d = v + mode * 2 ^ 60) as Hd by (unfold d; rewrite u64_small by (rewrite Z.shiftl_mul_pow2; lia); by apply VByte.lor_disjoint).
  change OFFSET_MARK with (Z.ones 60). unfold GetCompressMode_value. rewrite Z.land_ones, Z.shiftr_div_pow2, Hd by lia.
  rewrite Z.div_add, Z.div_small, Z.add_0_l, Z_mod_plus_full by lia. split; apply Z.mod_small; lia.
Qed.

(** What is put into a value is what is read from it: inlined documents ... *)
Lemma inline_roundtrip v isDocList dfFirst : 0 <= v < 2 ^ 60 ->
  let d := CreateDictInlineValue v isDocList dfFirst in
  GetDictInlineValue d = v /\ IsDictInlineCompressMode d = (true, isDocList, negb isDocList || dfFirst) /\ GetOffset d = None.
Proof.
  intros Hv d. unfold d, CreateDictInlineValue. set (mode := Z.lor _ (if isDocList then _ else _)).
  assert (0 <= mode < 16) as Hm by (unfold mode; destruct isDocList, dfFirst; vm_compute; split; congruence). destruct (withMode v mode Hv Hm) as [H1 H2]. split; [exact H1|].
  unfold GetOffset, IsDictInlineCompressMode. rewrite H2. unfold mode. by destruct isDocList, dfFirst.
Qed.

(** ... and the offset of a posting with its mode *)
Lemma offset_roundtrip v df ttf long : 0 <= v < 2 ^ 60 -> long <> DICT_INLINE_COMPRESS_MODE ->
  let d := CreateDictValue (GetCompressMode df ttf long) v in
  GetOffset d = Some v /\ GetDocCompressMode (GetCompressMode_value d) = FlushInfo.modeZ (GetDocListCompressMode df long) /\
  GetPosCompressMode (GetCompressMode_value d) = FlushInfo.modeZ (GetPosListCompressMode ttf).
Proof.
  intros Hv Hl d. unfold d, CreateDictValue. rewrite (u64_small v) by lia. set (mode := GetCompressMode _ _ _).
  assert (0 <= mode < 16) as Hm by (unfold mode, GetCompressMode, GetDocListCompressMode, GetPosListCompressMode; destruct (IsShortDocList df), (IsShortPosList ttf), long; vm_compute; split; congruence).
  destruct (withMode v mode Hv Hm) as [H1 H2]. unfold GetOffset, IsDictInlineCompressMode. rewrite H2. unfold mode, GetCompressMode, GetDocListCompressMode, GetPosListCompressMode in *.
  destruct (IsShortDocList df), (IsShortPosList ttf), long; try done; by rewrite H1.
Qed.

End ShortListCorrect.

(** ** Sums *)

(** The sum of the first [p] values *)
Definition sumTo (vs : list Z) (p : nat) : Z := foldr Z.add 0 (take p vs).

Lemma foldr_add_app vs ws : foldr Z.add 0 (vs ++ ws) = foldr Z.add 0 vs + foldr Z.add 0 ws.
Proof. induction vs as [|v vs IH]; cbn; lia. Qed.

Lemma sumTo_S vs p v : vs !! p = Some v -> sumTo vs (S p) = sumTo vs p + v.
Proof. intros Hp. unfold sumTo. rewrite (take_S_r _ _ _ Hp), foldr_add_app. cbn. lia. Qed.

Lemma sumTo_ge vs p : (length vs <= p)%nat -> sumTo vs p = sumTo vs (length vs).
Proof. intros Hp. unfold sumTo. by rewrite !take_ge. Qed.

Lemma sumTo_le vs p q : Forall (fun v => 0 <= v) vs -> (p <= q)%nat -> 0 <= sumTo vs p <= sumTo vs q.
Proof.
  intros Hf Hle. assert (forall p, 0 <= sumTo vs p <= sumTo vs (S p)) as Hstep.
  { clear Hle. intros i. induction i as [|i IH].
    - unfold sumTo. destruct vs as [|v vs]; cbn [take foldr]; [lia|]. apply Forall_cons_1 in Hf as [Hv _]. cbn in Hv. change (take 0 vs) with (@nil Z). cbn. lia.
    - split; [lia|]. destruct (vs !! S i) as [v|] eqn:Hv; [rewrite (sumTo_S _ _ _ Hv); pose proof (Forall_lookup_1 _ _ _ _ Hf Hv); cbn in *; lia|].
      apply lookup_ge_None in Hv. rewrite (sumTo_ge _ (S i)), (sumTo_ge _ (S (S i))) by lia. lia. }
  split; [apply Hstep|]. induction Hle as [|q Hle IH]; [lia|]. pose proof (Hstep q). lia.
Qed.

Module SkipCorrect.
Import Rows Encoders Buffered EncodersCorrect WriterCorrect ReaderCorrect ShortBufCorrect BufferedCorrect Columns.

(** ** A snapshot of a skip list *)

Section Snapshot.
Context {R : BlockDataRetriever} (mv : MultiValue) (exact : bool) (mode : CompressMode).
Context (b : BufferedByteSlice) (l : addr) (recs : list (list (list Z))) (cur : list (list Z)) (encs : list (list Z)) (more : list Z).
Context (Hblocks : blocksAs mv exact mode recs encs) (Hbuffer : complete (_buffer b) mv cur).
Context (Hinfo : exists mode', FlushInfoCorrect.says (_flushInfo b) (negb (ShortBuf._size (_buffer b) =? 0)) (Z.of_nat (length (concat encs))) mode' (countOf recs) /\
  (recs <> [] -> mode' = mode)).
(** The rows of all items, in chunks of 32 *)
Context (X : list (list Z)) (n : nat) (Heven : even X n) (Hchunks : blocks b recs cur = map (chunk 32 X) (seq 0 (chunkCount 32 n))).
Context (Hwidth : Forall (fun a => sizeT a = 4%nat) (_atomicValues mv)) (Hrows : length X = length (_atomicValues mv)).
Context (Hfits : Forall (Forall (fits 32)) X).

(** The reader is in front of buffer [L], at row [i]. *)
Definition inChunk (m : Store) (rd : BufferedByteSliceReader) (L i : nat) : Prop :=
  inBlock (R := R) mv exact mode l recs encs more m rd L i /\ storeOk m.

(** An array of 32 numbers *)
Definition isArray (buf : list Z) : Prop := length buf = 32%nat /\ Forall (fits 32) buf.

(** The part of a row in buffer [L] *)
Definition part (L : nat) (row : list Z) : list Z := take 32 (drop (L * 32) row).

Lemma chunks_lookup L : (L < chunkCount 32 n)%nat -> blocks b recs cur !! L = Some (chunk 32 X L).
Proof. intros HL. rewrite Hchunks. etransitivity; [exact (list_lookup_fmap (chunk 32 X) (seq 0 _) L)|]. by rewrite lookup_seq_lt. Qed.

Lemma chunkCount_lt L : (L < chunkCount 32 n)%nat <-> (L * 32 < n)%nat.
Proof. unfold chunkCount. pose proof (Nat.div_mod (n + 32 - 1) 32). pose proof (Nat.mod_upper_bound (n + 32 - 1) 32). lia. Qed.

(** [Decode] of row [i] of buffer [L] into an array *)
Lemma decodeInto_ok m rd L i row buf count :
  inChunk m rd L i -> (L * 32 < n)%nat -> X !! i = Some row -> isArray buf -> (count <= 32)%nat ->
  (if exact then count = length (part L row) else (length (part L row) <= count)%nat) -> (0 < count)%nat ->
  exists rd' m' buf', decodeInto b buf count rd m = Ok ((Some (buf', Z.of_nat (length (part L row))), rd'), m') /\
    quiet (H := R) [] false m m' /\ isArray buf' /\ take (length (part L row)) buf' = part L row /\
    (if (S i =? length X)%nat then inChunk m' rd' (S L) 0 else inChunk m' rd' L (S i)).
Proof.
  intros [Hin Hst] HL Hrow [Hlen Hf] Hc Hex Hpos. destruct (lookup_lt_is_Some_2 (_atomicValues mv) i) as [a Ha]; [rewrite <- Hrows; by eapply lookup_lt_Some|].
  pose proof (Forall_lookup_1 _ _ _ _ Hwidth Ha) as H4. cbv beta in H4.
  assert (chunk 32 X L !! i = Some (part L row)) as Hpart by (etransitivity; [exact (list_lookup_fmap _ X i)|]; by rewrite Hrow).
  assert (Forall (fits 32) (part L row)) as Hpf by (apply Forall_take, Forall_drop, (Forall_lookup_1 _ _ _ _ Hfits Hrow)).
  destruct (Decode_row mv exact mode b l recs cur encs more Hblocks Hbuffer Hinfo m rd L i (chunk 32 X L) (part L row) a (take count buf) Hin Hst) as (rd' & m' & Hrun & Hq & Hin' & _).
  - by apply chunks_lookup, chunkCount_lt.
  - done.
  - done.
  - rewrite H4. split; [by apply Forall_take|]. rewrite length_take. destruct exact; lia.
  - rewrite length_take. lia.
  - exists rd', m'. eexists. split; [|split; [done|]].
    + unfold decodeInto. replace (length buf <? count)%nat with false by lia. srun Hrun. reflexivity.
    + assert (length (part L row) <= count)%nat as Hle by (destruct exact; lia). split; [split|split].
      * rewrite !length_app, !length_drop, length_take. lia.
      * apply Forall_app. split; [apply Forall_app; split; [done | by apply Forall_drop, Forall_take] | by apply Forall_drop].
      * rewrite <- app_assoc. apply take_app_length.
      * rewrite Hrows. pose proof (qu_store _ _ _ _ Hq) as Hst'. by case_match.
Qed.

(** ... and of the buffer behind the last one *)
Lemma decodeInto_end m rd L buf count :
  inChunk m rd L 0 -> (n <= L * 32)%nat -> length buf = 32%nat -> (count <= 32)%nat -> decodeInto b buf count rd m = Ok ((None, rd), m).
Proof.
  intros [Hin Hst] HL Hlen Hc. unfold decodeInto. replace (length buf <? count)%nat with false by lia.
  erewrite sbind_ok; [|eapply (Decode_finished mv exact mode b l recs cur encs more); [done | done | exact Hin|]]; [done|].
  rewrite Hchunks, length_map, length_seq. pose proof (chunkCount_lt L). lia.
Qed.

(** The first [num] values of the array are those of the row from [base] on. *)
Definition has (buf row : list Z) (base num : nat) : Prop := isArray buf /\ take num buf = take num (drop base row).

Lemma has_lookup buf row base num c : has buf row base num -> (c < num)%nat -> (num <= 32)%nat -> (base + num <= length row)%nat -> buf !! c = row !! (base + c)%nat.
Proof.
  intros [_ He] Hc Hn Hr. rewrite <- (lookup_take_lt buf num c), He, lookup_take_lt, lookup_drop by done. done.
Qed.

Lemma part_has buf L row : isArray buf -> take (length (part L row)) buf = part L row -> has buf row (L * 32) (length (part L row)).
Proof. intros Ha He. split; [done|]. rewrite He. unfold part. rewrite length_take. destruct (Nat.le_gt_cases 32 (length (drop (L * 32) row))); [by rewrite Nat.min_l by lia|]. rewrite Nat.min_r by lia. by rewrite !take_ge by lia. Qed.

Lemma length_part L row : length row = n -> length (part L row) = Nat.min 32 (n - L * 32).
Proof. intros <-. unfold part. by rewrite length_take, length_drop. Qed.

(** The source has [p] items behind it: [L] buffers are loaded, and [cursor] of the [num] items of the last one are used. *)
Record atItem (m : Store) (p : nat) (src : PairReader.MemSource) (L base : nat) (cursor num : Z) : Prop := {
  ai_buffer : PairReader._skipListBuffer src = b;
  ai_chunk : inChunk m (PairReader._skipListReader src) L 0;
  ai_item : Z.of_nat p = Z.of_nat base + cursor;
  ai_end : Z.of_nat base + num = Z.of_nat (Nat.min n (32 * L));
  ai_cursor : 0 <= cursor <= num;
  ai_num : num <= 32
}.

Context (Htotal : GetTotalCount b = Z.of_nat n).

(** *** Two rows *)

Section Pair.
Import PairReader.
Context (ks vs : list Z) (HX : X = [ks; vs]) (Hexact : exact = true -> (n <= 10)%nat).
Context (Hks : sumTo ks n < 2 ^ 31) (Hvs : sumTo vs n < 2 ^ 31).

Lemma pair_rows : X !! 0%nat = Some ks /\ X !! 1%nat = Some vs /\ length ks = n /\ length vs = n.
Proof. rewrite HX in *. split; [done|]. split; [done|]. apply Forall_cons_1 in Heven as [? H]. apply Forall_cons_1 in H as [? _]. done. Qed.

(** The members that do not change, and the arrays *)
Record pairBuffers (r : PairValueSkipListReader MemSource) (base : nat) (num : Z) : Prop := {
  pb_keys : has (_keyBuffer r) ks base (Z.to_nat num);
  pb_values : has (_valueBuffer r) vs base (Z.to_nat num);
  pb_num : _numInBuffer r = num;
  pb_own : _keyBufferBase r = OwnBuffer /\ _valueBufferBase r = OwnBuffer;
  pb_plain : _isReferenceCompress r = false
}.

Lemma MemLoadBuffer_ok m r p L base num :
  atItem m p (source r) L base num num -> pairBuffers r base num ->
  exists r' m', MemLoadBuffer r m = Ok (((p <? n)%nat, r'), m') /\ quiet (H := R) [] false m m' /\
    (if (p <? n)%nat then _currentCursor r' = 0 /\ 0 < _numInBuffer r' /\ atItem m' p (source r') (S L) (L * 32) 0 (_numInBuffer r') /\ pairBuffers r' (L * 32) (_numInBuffer r')
     else atItem m' p (source r') L base num num /\ pairBuffers r' base num).
Proof.
  intros [Hb Hin Hp He Hc Hn32] [Hk Hv Hnum Hown Hpl]. destruct pair_rows as (H0 & H1 & Hlk & Hlv). pose proof (f_equal length HX : length X = 2%nat) as HlX. unfold MemLoadBuffer. rewrite Hb, Htotal.
  pose proof (length_part L ks Hlk) as Hpk. pose proof (length_part L vs Hlv) as Hpv. destruct (Nat.ltb_spec p n) as [Hlt|Hge].
  - assert (p = 32 * L)%nat as -> by lia. set (count := Z.to_nat _).
    assert (count <= 32 /\ 0 < count /\ (if exact then count = Nat.min 32 (n - L * 32) else Nat.min 32 (n - L * 32) <= count))%nat as (Hc32 & Hcpos & Hcx).
    { unfold count, ShortList.IsShortSkipList, ShortList.MAX_UNCOMPRESSED_SKIP_LIST_SIZE, SkipWriter.SKIP_LIST_BUFFER_SIZE. destruct exact; [specialize (Hexact eq_refl)|]; destruct (Z.leb_spec (Z.of_nat n) 10); lia. }
    destruct (decodeInto_ok m _ L 0 ks _ count Hin ltac:(lia) H0 (proj1 Hk) Hc32) as (rd1 & m1 & keys & Hrun1 & Hq1 & Hk1 & Hkt & Hin1); [by rewrite Hpk | done|].
    rewrite HlX in Hin1. cbn [Nat.eqb] in Hin1.
    destruct (decodeInto_ok m1 rd1 L 1 vs _ count Hin1 ltac:(lia) H1 (proj1 Hv) Hc32) as (rd2 & m2 & values & Hrun2 & Hq2 & Hv2 & Hvt & Hin2); [by rewrite Hpv | done|].
    rewrite HlX in Hin2. cbn [Nat.eqb] in Hin2. srun Hrun1. srun Hrun2. rewrite Hpk, Hpv, Z.eqb_refl. cbn [negb].
    eexists _, m2. split; [reflexivity|]. split; [by eapply quiet_trans|]. unfold loaded. cbn [_currentCursor _numInBuffer source].
    split; [done|]. split; [lia|]. split; [split; cbn [_skipListBuffer _skipListReader]; try done; lia|]. split; cbn [_keyBuffer _valueBuffer _numInBuffer _keyBufferBase _valueBufferBase _isReferenceCompress]; try done; rewrite Nat2Z.id.
    + rewrite <- Hpk. by apply part_has.
    + rewrite <- Hpv. by apply part_has.
  - set (count := Z.to_nat _). assert (count <= 32)%nat as Hc32. { unfold count, ShortList.IsShortSkipList, ShortList.MAX_UNCOMPRESSED_SKIP_LIST_SIZE, SkipWriter.SKIP_LIST_BUFFER_SIZE. destruct (Z.leb_spec (Z.of_nat n) 10); lia. }
    erewrite sbind_ok; [|apply (decodeInto_end m _ L _ count Hin); [lia | apply Hk | done]]. cbv beta iota.
    eexists _, m. split; [reflexivity|]. split; [apply quiet_refl, Hin|]. split; split; cbn [withBuffers source _skipListBuffer _skipListReader _keyBuffer _valueBuffer _numInBuffer _keyBufferBase _valueBufferBase _isReferenceCompress]; try done; lia.
Qed.

(** The loop of [SkipTo] has gone through [p] items. *)
Record pairLoop (m : Store) (c : Locals) (r : PairValueSkipListReader MemSource) (p : nat) (skipped : Z) : Prop := {
  pl_item : exists L base, atItem m p (source r) L base (currentCursor c) (numInBuffer c) /\ pairBuffers r base (numInBuffer c);
  pl_key : currentKey c = sumTo ks p;
  pl_value : currentValue c = sumTo vs p;
  pl_skipped : skippedItemCount c = skipped
}.

Definition locals (r : PairValueSkipListReader MemSource) : Locals :=
  mkLocals (_currentKey r) (_currentValue r) (_currentCursor r) (_skippedItemCount r) (_numInBuffer r).

(** The reader is behind the first [p] items. *)
Definition pairAt (m : Store) (r : PairValueSkipListReader MemSource) (p : nat) (skipped : Z) : Prop := pairLoop m (locals r) r p skipped.

(** A reader behind the last item has used all of its buffer. *)
Lemma pairAt_end m r s : pairAt m r n s -> _numInBuffer r <= _currentCursor r.
Proof. intros [(L & base & [_ _ Hp He Hc Hn32] & _) _ _ _]. cbn in *. lia. Qed.

Context (Hn31 : Z.of_nat n < 2 ^ 31 - 1).

Lemma pair_sums p : 0 <= sumTo ks p < 2 ^ 31 /\ 0 <= sumTo vs p < 2 ^ 31.
Proof.
  destruct pair_rows as (_ & _ & Hlk & Hlv). rewrite HX in Hfits. apply Forall_cons_1 in Hfits as [Hfk H]. apply Forall_cons_1 in H as [Hfv _].
  assert (forall xs, Forall (fits 32) xs -> Forall (fun v => 0 <= v) xs) as Hpos by (intros xs Hxs; eapply Forall_impl; [exact Hxs|]; by intros v [? _]).
  pose proof (sumTo_le ks p (Nat.max p n) (Hpos _ Hfk) ltac:(lia)). pose proof (sumTo_le vs p (Nat.max p n) (Hpos _ Hfv) ltac:(lia)).
  destruct (Nat.le_gt_cases p n); [rewrite Nat.max_r in * by lia; lia|]. rewrite Nat.max_l in * by lia. rewrite (sumTo_ge ks p), (sumTo_ge vs p) in * by lia. rewrite Hlk, Hlv in *. lia.
Qed.

(** One item of the loop *)
Lemma pair_item m c r p s :
  pairLoop m c r p s -> currentCursor c < numInBuffer c ->
  exists k v, ks !! p = Some k /\ vs !! p = Some v /\ 0 <= k /\ 0 <= v /\
    baseAt (_keyBufferBase r) (_keyBuffer r) (currentCursor c) m = Ok (k, m) /\
    baseAt (_valueBufferBase r) (_valueBuffer r) (currentCursor c) m = Ok (v, m).
Proof.
  intros [(L & base & [_ _ Hp He Hc Hn32] & [Hk Hv _ [Hok Hov] _]) _ _ _] Hlt. destruct pair_rows as (H0 & H1 & Hlk & Hlv).
  pose proof (has_lookup _ _ _ _ (Z.to_nat (currentCursor c)) Hk ltac:(lia) ltac:(lia) ltac:(lia)) as Hkl.
  pose proof (has_lookup _ _ _ _ (Z.to_nat (currentCursor c)) Hv ltac:(lia) ltac:(lia) ltac:(lia)) as Hvl.
  replace (base + Z.to_nat (currentCursor c))%nat with p in * by lia.
  destruct (lookup_lt_is_Some_2 ks p ltac:(lia)) as [k Hkp]. destruct (lookup_lt_is_Some_2 vs p ltac:(lia)) as [v Hvp]. exists k, v.
  rewrite Hok, Hov. cbn [baseAt]. rewrite Hkl, Hvl, Hkp, Hvp.
  pose proof (Forall_lookup_1 _ _ _ _ (Forall_lookup_1 _ _ _ _ Hfits H0) Hkp) as [? _]. pose proof (Forall_lookup_1 _ _ _ _ (Forall_lookup_1 _ _ _ _ Hfits H1) Hvp) as [? _]. done.
Qed.

(** An item is in the buffer, or there is none. *)
Lemma pairFill_ok m c r p s :
  pairLoop m c r p s -> (p <= n)%nat ->
  exists c' r' m', fillBuffer MemLoadBuffer c r m = Ok (((p <? n)%nat, c', r'), m') /\ quiet (H := R) [] false m m' /\ pairLoop m' c' r' p s /\
    if (p <? n)%nat then currentCursor c' < numInBuffer c' else currentCursor c' = numInBuffer c'.
Proof.
  intros Hat Hp. pose proof Hat as [(L & base & Hitem & Hbuf) Hkey Hval Hskip]. unfold fillBuffer. destruct (Z.leb_spec (numInBuffer c) (currentCursor c)) as [Hle|Hgt].
  - assert (currentCursor c = numInBuffer c) as Heq by (pose proof (ai_cursor _ _ _ _ _ _ _ Hitem); lia). rewrite Heq in Hitem.
    destruct (MemLoadBuffer_ok m r p L base (numInBuffer c) Hitem Hbuf) as (r' & m' & Hrun & Hq & Hpost). srun Hrun.
    eexists _, r', m'. split; [reflexivity|]. split; [done|]. destruct (p <? n)%nat.
    + destruct Hpost as (Hc0 & Hpos & Hitem' & Hbuf'). split; [|cbn; lia]. split; cbn; try done. rewrite Hc0. by eexists _, _.
    + destruct Hpost as (Hitem' & Hbuf'). split; [|done]. split; try done. rewrite Heq. by eexists _, _.
  - destruct (Nat.ltb_spec p n) as [Hlt|Hge].
    + exists c, r, m. split; [done|]. split; [apply quiet_refl, Hitem|]. split; [done | lia].
    + exfalso. destruct Hitem as [_ _ H1 H2 H3 H4]. lia.
Qed.

Lemma pairSkipLoop_ok fuel : forall q c r p s m,
  pairLoop m c r p s -> (p <= n)%nat -> (n - p < fuel)%nat -> -1 <= s -> s + Z.of_nat (n - p) < 2 ^ 31 - 1 ->
  exists r' m', quiet (H := R) [] false m m' /\
    ((exists i v, (p <= i < n)%nat /\ vs !! i = Some v /\ q <= sumTo ks (S i) /\ (forall j, (p <= j < i)%nat -> sumTo ks (S j) < q) /\
        skipLoop MemLoadBuffer fuel q c r m = Ok ((Some (sumTo ks (S i), sumTo ks i, sumTo vs i, v), r'), m') /\ pairAt m' r' (S i) (s + Z.of_nat (i - p) + 1)) \/
     ((forall j, (p <= j < n)%nat -> sumTo ks (S j) < q) /\ skipLoop MemLoadBuffer fuel q c r m = Ok ((None, r'), m') /\ pairAt m' r' n (s + Z.of_nat (n - p) + 1))).
Proof.
  induction fuel as [|fuel IH]; intros q c r p s m Hat Hp Hf Hs0 Hs31; [lia|]. cbn [skipLoop]. set (c0 := mkLocals _ _ _ _ _).
  assert (pairLoop m c0 r p (s + 1)) as Hat0. { destruct Hat as [H1 H2 H3 H4]. split; try done. cbn. rewrite H4, i32_small by lia. lia. }
  destruct (pairFill_ok m c0 r p (s + 1) Hat0 Hp) as (c1 & r1 & m1 & Hrun & Hq & Hat1 & Hcur). srun Hrun. destruct (Nat.ltb_spec p n) as [Hlt|Hge]; cbn [negb].
  - destruct (pair_item m1 c1 r1 p _ Hat1 Hcur) as (k & v & Hk & Hv & Hk0 & Hv0 & Hkr & Hvr). srun Hkr. srun Hvr.
    pose proof Hat1 as [(L & base & Hitem & Hbuf) Hkey Hval Hskip]. rewrite (pb_plain _ _ _ Hbuf). pose proof (pair_sums (S p)) as [Hs1 Hs2]. pose proof (pair_sums p) as [Hs3 Hs4].
    rewrite (sumTo_S _ _ _ Hk) in Hs1. rewrite (sumTo_S _ _ _ Hv) in Hs2. pose proof (ai_num _ _ _ _ _ _ _ Hitem). pose proof (ai_cursor _ _ _ _ _ _ _ Hitem).
    replace (currentKey c0) with (sumTo ks p) by (symmetry; apply Hat0). replace (currentValue c0) with (sumTo vs p) by (symmetry; apply Hat0).
    rewrite Hkey, Hval, !u32_small by lia. rewrite (Z.add_comm k). rewrite <- (sumTo_S _ _ _ Hk), <- (sumTo_S _ _ _ Hv). set (c2 := mkLocals _ _ _ _ _).
    assert (pairLoop m1 c2 r1 (S p) (s + 1)) as Hat2.
    { split; cbn; [|done|done|lia]. exists L, base. split; [|done]. destruct Hitem as [? ? ? ? ? ?]. split; try done; lia. }
    cbn [currentKey c2]. destruct (Z.leb_spec q (sumTo ks (S p))) as [Hle|Hgt].
    + eexists _, m1. split; [done|]. left. exists p, v. split; [lia|]. split; [done|]. split; [done|]. split; [lia|]. split; [cbn [currentValue c2]; rewrite (sumTo_S _ _ _ Hv), (u32_small (_ - _)) by lia; replace (sumTo vs p + v - sumTo vs p) with v by lia; reflexivity|].
      rewrite Nat.sub_diag, Z.add_0_r. unfold pairAt. destruct Hat2 as [(L2 & base2 & Hi2 & Hb2) Hk2 Hv2 Hs]. unfold locals, finish. cbn. split; cbn; try done. rewrite (pb_num _ _ _ Hbuf). exists L2, base2. split; [done|]. by destruct Hb2; split.
    + destruct (IH q c2 r1 (S p) (s + 1) m1 Hat2 ltac:(lia) ltac:(lia) ltac:(lia) ltac:(lia)) as (r' & m' & Hq' & Hres). exists r', m'. split; [by eapply quiet_trans|]. destruct Hres as [(i & w & Hi & Hw & Hqi & Hj & Hr & Ha)|(Hj & Hr & He)].
      * left. exists i, w. replace (s + Z.of_nat (i - p) + 1) with (s + 1 + Z.of_nat (i - S p) + 1) by lia. split_and!; try done; [lia|lia|]. intros j Hj'. destruct (Nat.eq_dec j p) as [->|]; [lia | apply Hj; lia].
      * right. replace (s + Z.of_nat (n - p) + 1) with (s + 1 + Z.of_nat (n - S p) + 1) by lia. split_and!; try done. intros j Hj'. destruct (Nat.eq_dec j p) as [->|]; [lia | apply Hj; lia].
  - assert (p = n) as -> by lia. eexists _, m1. split; [done|]. right. split; [lia|]. split; [reflexivity|].
    pose proof Hat1 as [(L & base & Hitem & Hbuf) Hkey Hval Hskip]. rewrite Nat.sub_diag, Z.add_0_r. unfold pairAt, locals, finish. split; cbn; try done. rewrite (pb_num _ _ _ Hbuf). exists L, base. split; [done|]. by destruct Hbuf; split.
Qed.

End Pair.

(** *** Three rows *)

Section Tri.
Import TriReader.
Context (ks ts vs : list Z) (HX : X = [ks; ts; vs]).
Context (Hmode : if exact then mode = SHORT_LIST_COMPRESS_MODE /\ recs <> [] /\ ShortBuf._size (_buffer b) = 0 /\ (n <= 10)%nat else mode <> SHORT_LIST_COMPRESS_MODE).
Context (Hks : sumTo ks n < 2 ^ 31) (Hts : sumTo ts n < 2 ^ 31) (Hvs : sumTo vs n < 2 ^ 31).

Lemma tri_rows : (X !! 0%nat = Some ks /\ X !! 1%nat = Some ts /\ X !! 2%nat = Some vs) /\ length ks = n /\ length ts = n /\ length vs = n.
Proof. rewrite HX in *. split; [done|]. apply Forall_cons_1 in Heven as [? H]. apply Forall_cons_1 in H as [? H]. apply Forall_cons_1 in H as [? _]. done. Qed.

Record triBuffers (r : TriValueSkipListReader PairReader.MemSource) (base : nat) (num : Z) : Prop := {
  tb_docIds : has (_docIdBuffer r) ks base (Z.to_nat num);
  tb_ttfs : has (_ttfBuffer r) ts base (Z.to_nat num);
  tb_offsets : has (_offsetBuffer r) vs base (Z.to_nat num);
  tb_num : _numInBuffer r = num
}.

(** How many values [LoadBuffer] asks for *)
Definition triCount : nat :=
  Z.to_nat (match FlushInfo.GetCompressMode (_flushInfo b), FlushInfo.IsValidShortBuffer (_flushInfo b) with
            | SHORT_LIST_COMPRESS_MODE, false => GetTotalCount b
            | _, _ => SkipWriter.SKIP_LIST_BUFFER_SIZE
            end).

Lemma triCount_ok L :
  (triCount <= 32)%nat /\
  ((L * 32 < n)%nat -> (0 < triCount)%nat /\ if exact then triCount = Nat.min 32 (n - L * 32) else (Nat.min 32 (n - L * 32) <= triCount)%nat).
Proof.
  unfold triCount, SkipWriter.SKIP_LIST_BUFFER_SIZE. rewrite Htotal. destruct Hinfo as (mode' & Hi & Hm). destruct (FlushInfoCorrect.says_get _ _ _ _ _ Hi) as (-> & _ & -> & _).
  destruct exact.
  - destruct Hmode as (Hmd & Hne & Hsz & Hn). rewrite (Hm Hne), Hmd, Hsz. change (negb (0 =? 0)) with false. cbv iota. lia.
  - assert (mode' = SHORT_LIST_COMPRESS_MODE -> ShortBuf._size (_buffer b) = 0 -> n = 0%nat) as Hz.
    { intros -> Hsz. destruct recs as [|rc recs']; [|by destruct Hmode; rewrite Hm]. pose proof Hchunks as Hch. unfold blocks in Hch. rewrite Hsz in Hch. change (0 =? 0) with true in Hch. cbv iota in Hch.
      pose proof (f_equal length Hch) as Hl. rewrite length_map, length_seq in Hl. cbn [app length] in Hl. pose proof (chunkCount_lt 0). lia. }
    destruct (Z.eqb_spec (ShortBuf._size (_buffer b)) 0) as [Hsz|Hsz]; cbn [negb]; destruct mode'; lia.
Qed.

Lemma triLoadBuffer_ok m r p L base num :
  atItem m p (source r) L base num num -> triBuffers r base num ->
  exists r' m', MemLoadBuffer r m = Ok (((p <? n)%nat, r'), m') /\ quiet (H := R) [] false m m' /\
    (if (p <? n)%nat then _currentCursor r' = 0 /\ 0 < _numInBuffer r' /\ atItem m' p (source r') (S L) (L * 32) 0 (_numInBuffer r') /\ triBuffers r' (L * 32) (_numInBuffer r')
     else atItem m' p (source r') L base num num /\ triBuffers r' base num).
Proof.
  intros [Hb Hin Hp He Hc Hn32] [Hk Ht Hv Hnum]. destruct tri_rows as ((H0 & H1 & H2) & Hlk & Hlt & Hlv). pose proof (f_equal length HX : length X = 3%nat) as HlX.
  unfold MemLoadBuffer. rewrite Hb. fold triCount. destruct (triCount_ok L) as [Hc32 Hcount].
  pose proof (length_part L ks Hlk) as Hpk. pose proof (length_part L ts Hlt) as Hpt. pose proof (length_part L vs Hlv) as Hpv. destruct (Nat.ltb_spec p n) as [Hlp|Hge].
  - assert (p = 32 * L)%nat as -> by lia. destruct (Hcount ltac:(lia)) as [Hcpos Hcx].
    destruct (decodeInto_ok m _ L 0 ks _ triCount Hin ltac:(lia) H0 (proj1 Hk) Hc32) as (rd1 & m1 & keys & Hrun1 & Hq1 & Hk1 & Hkt & Hin1); [by rewrite Hpk | done|].
    rewrite HlX in Hin1. cbn [Nat.eqb] in Hin1.
    destruct (decodeInto_ok m1 rd1 L 1 ts _ triCount Hin1 ltac:(lia) H1 (proj1 Ht) Hc32) as (rd2 & m2 & ttfs & Hrun2 & Hq2 & Ht2 & Htt & Hin2); [by rewrite Hpt | done|].
    rewrite HlX in Hin2. cbn [Nat.eqb] in Hin2.
    destruct (decodeInto_ok m2 rd2 L 2 vs _ triCount Hin2 ltac:(lia) H2 (proj1 Hv) Hc32) as (rd3 & m3 & values & Hrun3 & Hq3 & Hv3 & Hvt & Hin3); [by rewrite Hpv | done|].
    rewrite HlX in Hin3. cbn [Nat.eqb] in Hin3. rewrite (proj2 (Nat.eqb_neq triCount 0)) by lia. srun Hrun1. srun Hrun2. srun Hrun3. rewrite Hpk, Hpt, Hpv, !Z.eqb_refl. cbn [negb orb].
    eexists _, m3. split; [reflexivity|]. split; [by eapply quiet_trans; [|eapply quiet_trans]|]. unfold loaded. cbn [_currentCursor _numInBuffer source].
    split; [done|]. split; [lia|]. split; [split; cbn [PairReader._skipListBuffer PairReader._skipListReader]; try done; lia|].
    split; cbn [_docIdBuffer _ttfBuffer _offsetBuffer _numInBuffer]; try done; rewrite Nat2Z.id.
    + rewrite <- Hpk. by apply part_has.
    + rewrite <- Hpt. by apply part_has.
    + rewrite <- Hpv. by apply part_has.
  - destruct (Nat.eqb_spec triCount 0) as [_|_].
    + eexists _, m. split; [reflexivity|]. split; [apply quiet_refl, Hin|]. split; split; try done; lia.
    + erewrite sbind_ok; [|apply (decodeInto_end m _ L _ _ Hin); [lia | apply Hk | done]]. cbv beta iota.
      eexists _, m. split; [reflexivity|]. split; [apply quiet_refl, Hin|].
      split; split; cbn [withBuffers source PairReader._skipListBuffer PairReader._skipListReader _docIdBuffer _ttfBuffer _offsetBuffer _numInBuffer]; try done; lia.
Qed.

Record triLoop (m : Store) (c : Locals) (r : TriValueSkipListReader PairReader.MemSource) (p : nat) (skipped : Z) : Prop := {
  tl_item : exists L base, atItem m p (source r) L base (currentCursor c) (numInBuffer c) /\ triBuffers r base (numInBuffer c);
  tl_key : currentDocId c = sumTo ks p;
  tl_ttf : currentTTF c = sumTo ts p;
  tl_value : currentOffset c = sumTo vs p;
  tl_skipped : skippedItemCount c = skipped
}.

Definition triLocals (r : TriValueSkipListReader PairReader.MemSource) : Locals :=
  mkLocals (_currentDocId r) (_currentOffset r) (_currentTTF r) (_currentCursor r) (_skippedItemCount r) (_numInBuffer r).

Definition triAt (m : Store) (r : TriValueSkipListReader PairReader.MemSource) (p : nat) (skipped : Z) : Prop := triLoop m (triLocals r) r p skipped.

Lemma triAt_end m r s : triAt m r n s -> _numInBuffer r <= _currentCursor r.
Proof. intros [(L & base & [_ _ Hp He Hc Hn32] & _) _ _ _ _]. cbn in *. lia. Qed.

Context (Hn31 : Z.of_nat n < 2 ^ 31 - 1).

Lemma tri_sums p : 0 <= sumTo ks p < 2 ^ 31 /\ 0 <= sumTo ts p < 2 ^ 31 /\ 0 <= sumTo vs p < 2 ^ 31.
Proof.
  destruct tri_rows as ((H0 & H1 & H2) & Hlk & Hlt & Hlv).
  assert (forall i xs, X !! i = Some xs -> length xs = n -> sumTo xs n < 2 ^ 31 -> 0 <= sumTo xs p < 2 ^ 31) as Hs; [|split; [by apply (Hs 0%nat)|]; split; [by apply (Hs 1%nat) | by apply (Hs 2%nat)]].
  intros i xs Hi Hl Hsum. assert (Forall (fun v => 0 <= v) xs) as Hpos by (eapply Forall_impl; [exact (Forall_lookup_1 _ _ _ _ Hfits Hi)|]; by intros v [? _]).
  pose proof (sumTo_le xs p (Nat.max p n) Hpos ltac:(lia)). destruct (Nat.le_gt_cases p n); [rewrite Nat.max_r in * by lia; lia|].
  rewrite Nat.max_l in * by lia. rewrite (sumTo_ge xs p), Hl in * by lia. lia.
Qed.

Lemma tri_item m c r p s :
  triLoop m c r p s -> currentCursor c < numInBuffer c ->
  exists k t v, ks !! p = Some k /\ ts !! p = Some t /\ vs !! p = Some v /\ 0 <= k /\ 0 <= t /\ 0 <= v /\
    _docIdBuffer r !! Z.to_nat (currentCursor c) = Some k /\ _ttfBuffer r !! Z.to_nat (currentCursor c) = Some t /\ _offsetBuffer r !! Z.to_nat (currentCursor c) = Some v.
Proof.
  intros [(L & base & [_ _ Hp He Hc Hn32] & [Hk Ht Hv _]) _ _ _ _] Hlt. destruct tri_rows as ((H0 & H1 & H2) & Hlk & Hltt & Hlv).
  assert (forall i row buf, X !! i = Some row -> length row = n -> has buf row base (Z.to_nat (numInBuffer c)) -> exists x, row !! p = Some x /\ 0 <= x /\ buf !! Z.to_nat (currentCursor c) = Some x) as Hrow.
  { intros i row buf Hi Hl Hh. pose proof (has_lookup _ _ _ _ (Z.to_nat (currentCursor c)) Hh ltac:(lia) ltac:(lia) ltac:(lia)) as Hb.
    replace (base + Z.to_nat (currentCursor c))%nat with p in Hb by lia. destruct (lookup_lt_is_Some_2 row p ltac:(lia)) as [x Hx]. exists x. rewrite Hb.
    by destruct (Forall_lookup_1 _ _ _ _ (Forall_lookup_1 _ _ _ _ Hfits Hi) Hx) as [? _]. }
  destruct (Hrow _ _ _ H0 Hlk Hk) as (k & ? & ? & ?). destruct (Hrow _ _ _ H1 Hltt Ht) as (t & ? & ? & ?). destruct (Hrow _ _ _ H2 Hlv Hv) as (v & ? & ? & ?).
  exists k, t, v. by split_and!.
Qed.

Lemma triFill_ok m c r p s :
  triLoop m c r p s -> (p <= n)%nat ->
  exists c' r' m', fillBuffer MemLoadBuffer c r m = Ok (((p <? n)%nat, c', r'), m') /\ quiet (H := R) [] false m m' /\ triLoop m' c' r' p s /\
    if (p <? n)%nat then currentCursor c' < numInBuffer c' else currentCursor c' = numInBuffer c'.
Proof.
  intros Hat Hp. pose proof Hat as [(L & base & Hitem & Hbuf) Hkey Httf Hval Hskip]. unfold fillBuffer. destruct (Z.leb_spec (numInBuffer c) (currentCursor c)) as [Hle|Hgt].
  - assert (currentCursor c = numInBuffer c) as Heq by (pose proof (ai_cursor _ _ _ _ _ _ _ Hitem); lia). rewrite Heq in Hitem.
    destruct (triLoadBuffer_ok m r p L base (numInBuffer c) Hitem Hbuf) as (r' & m' & Hrun & Hq & Hpost). srun Hrun.
    eexists _, r', m'. split; [reflexivity|]. split; [done|]. destruct (p <? n)%nat.
    + destruct Hpost as (Hc0 & Hpos & Hitem' & Hbuf'). split; [|cbn; lia]. split; cbn; try done. rewrite Hc0. by eexists _, _.
    + destruct Hpost as (Hitem' & Hbuf'). split; [|done]. split; try done. rewrite Heq. by eexists _, _.
  - destruct (Nat.ltb_spec p n) as [Hlt|Hge].
    + exists c, r, m. split; [done|]. split; [apply quiet_refl, Hitem|]. split; [done | lia].
    + exfalso. destruct Hitem as [_ _ H1 H2 H3 H4]. lia.
Qed.

Lemma triSkipLoop_ok fuel : forall q c r p s m,
  triLoop m c r p s -> (p <= n)%nat -> (n - p < fuel)%nat -> -1 <= s -> s + Z.of_nat (n - p) < 2 ^ 31 - 1 ->
  exists r' m', quiet (H := R) [] false m m' /\
    ((exists i v, (p <= i < n)%nat /\ vs !! i = Some v /\ q <= sumTo ks (S i) /\ (forall j, (p <= j < i)%nat -> sumTo ks (S j) < q) /\
        skipLoop MemLoadBuffer fuel q c r m = Ok ((Some (sumTo ks (S i), sumTo ks i, sumTo vs i, v), r'), m') /\ triAt m' r' (S i) (s + Z.of_nat (i - p) + 1) /\ _prevTTF r' = sumTo ts i) \/
     ((forall j, (p <= j < n)%nat -> sumTo ks (S j) < q) /\ skipLoop MemLoadBuffer fuel q c r m = Ok ((None, r'), m') /\ triAt m' r' n (s + Z.of_nat (n - p) + 1))).
Proof.
  induction fuel as [|fuel IH]; intros q c r p s m Hat Hp Hf Hs0 Hs31; [lia|]. cbn [skipLoop]. set (c0 := mkLocals _ _ _ _ _ _).
  assert (triLoop m c0 r p (s + 1)) as Hat0. { destruct Hat as [H1 H2 H3 H4 H5]. split; try done. cbn. rewrite H5, i32_small by lia. lia. }
  destruct (triFill_ok m c0 r p (s + 1) Hat0 Hp) as (c1 & r1 & m1 & Hrun & Hq & Hat1 & Hcur). srun Hrun. destruct (Nat.ltb_spec p n) as [Hlt|Hge]; cbn [negb].
  - destruct (tri_item m1 c1 r1 p _ Hat1 Hcur) as (k & t & v & Hk & Ht & Hv & Hk0 & Ht0 & Hv0 & Hkr & Htr & Hvr). rewrite Hkr, Htr, Hvr. cbn [deref]. rewrite !sbind_lift.
    pose proof Hat1 as [(L & base & Hitem & Hbuf) Hkey Httf Hval Hskip]. pose proof (tri_sums (S p)) as (Hs1 & Hs2 & Hs3). pose proof (tri_sums p) as (Hs4 & Hs5 & Hs6).
    rewrite (sumTo_S _ _ _ Hk) in Hs1. rewrite (sumTo_S _ _ _ Ht) in Hs2. rewrite (sumTo_S _ _ _ Hv) in Hs3. pose proof (ai_num _ _ _ _ _ _ _ Hitem). pose proof (ai_cursor _ _ _ _ _ _ _ Hitem).
    replace (currentDocId c0) with (sumTo ks p) by (symmetry; apply Hat0). replace (currentOffset c0) with (sumTo vs p) by (symmetry; apply Hat0). replace (currentTTF c0) with (sumTo ts p) by (symmetry; apply Hat0).
    rewrite Hkey, Hval, Httf, !u32_small by lia. rewrite <- (sumTo_S _ _ _ Hk), <- (sumTo_S _ _ _ Hv), <- (sumTo_S _ _ _ Ht). set (c2 := mkLocals _ _ _ _ _ _).
    assert (triLoop m1 c2 r1 (S p) (s + 1)) as Hat2.
    { split; cbn; [|done|done|done|lia]. exists L, base. split; [|done]. destruct Hitem as [? ? ? ? ? ?]. split; try done; lia. }
    cbn [currentDocId c2]. destruct (Z.leb_spec q (sumTo ks (S p))) as [Hle|Hgt].
    + eexists _, m1. split; [done|]. left. exists p, v. split; [lia|]. split; [done|]. split; [done|]. split; [lia|].
      split; [cbn [currentOffset c2]; rewrite (sumTo_S _ _ _ Hv), (u32_small (_ - _)) by lia; replace (sumTo vs p + v - sumTo vs p) with v by lia; reflexivity|].
      split; [|done]. rewrite Nat.sub_diag, Z.add_0_r. unfold triAt. destruct Hat2 as [(L2 & base2 & Hi2 & Hb2) Hk2 Ht2 Hv2 Hs]. unfold triLocals, finish. cbn. split; cbn; try done. rewrite (tb_num _ _ _ Hbuf). exists L2, base2. split; [done|]. by destruct Hb2; split.
    + destruct (IH q c2 r1 (S p) (s + 1) m1 Hat2 ltac:(lia) ltac:(lia) ltac:(lia) ltac:(lia)) as (r' & m' & Hq' & Hres). exists r', m'. split; [by eapply quiet_trans|]. destruct Hres as [(i & w & Hi & Hw & Hqi & Hj & Hr & Ha)|(Hj & Hr & He)].
      * left. exists i, w. replace (s + Z.of_nat (i - p) + 1) with (s + 1 + Z.of_nat (i - S p) + 1) by lia. split_and!; try done; [lia|lia| |apply Ha|apply Ha]. intros j Hj'. destruct (Nat.eq_dec j p) as [->|]; [lia | apply Hj; lia].
      * right. replace (s + Z.of_nat (n - p) + 1) with (s + 1 + Z.of_nat (n - S p) + 1) by lia. split_and!; try done. intros j Hj'. destruct (Nat.eq_dec j p) as [->|]; [lia | apply Hj; lia].
  - assert (p = n) as -> by lia. eexists _, m1. split; [done|]. right. split; [lia|]. split; [reflexivity|].
    pose proof Hat1 as [(L & base & Hitem & Hbuf) Hkey Httf Hval Hskip]. rewrite Nat.sub_diag, Z.add_0_r. unfold triAt, triLocals, finish. split; cbn; try done. rewrite (tb_num _ _ _ Hbuf). exists L, base. split; [done|]. by destruct Hbuf; split.
Qed.

End Tri.
End Snapshot.
End SkipCorrect.
