(* ===== verification/DocList.v ===== *)
(** * Document lists of postings that are built in memory

    [DocListEncoder] (src/aios/storage/indexlib/index/inverted_index/format/DocListEncoder.h, .cpp) collects the documents
    of a term: their ids as differences, term frequencies, payloads and field maps, in records of 128 documents,
    with an item of the skip list for each record. [InMemDocListDecoder] reads a snapshot of it, so that
    documents can be searched while others are added. *)

From stdpp Require Import base list numbers option tactics gmap.
From Stdlib Require Import ZArith Lia ZifyNat.
From S2P Require Import Prelude Bits Bitmap ByteSliceList VbyteCompressor ByteSliceWriter BlockByteSliceList ByteSliceReader IntEncoders PostingBuffer SkipList.

#[local] Open Scope Z_scope.
#[local] Open Scope store_scope.

(** ** [FileWriter::WriteVUInt32] *)

(** [while (value > 0x7F)] *)
Fixpoint vuintBytes (fuel : nat) (value : Z) : list Z :=
  match fuel with
  | S fuel => if 0x7F <? value then Z.lor 0x80 (Z.land value 0x7F) :: vuintBytes fuel (Z.shiftr value 7) else [Z.land value 0x7F]
  | O => [Z.land value 0x7F]
  end.
Definition WriteVUInt32 {File : Type} (WriteFile : File -> list Z -> res File) (file : File) (value : Z) : res File :=
  WriteFile file (vuintBytes 4 value).

(** ** [PositionBitmapWriter] *)

Module PosBitmap.

Record PositionBitmapWriter := mkPosBitmap {
  _bitmap : Expandable.ExpandableBitmap;
  _blockOffsets : list Z
}.

Definition MAX_DOC_PER_BITMAP_BLOCK : Z := 256.

Definition new_PositionBitmapWriter : PositionBitmapWriter := mkPosBitmap (Expandable.new_Expandable 1 false) [].

(** The loop of [Expand] adds at least one slot in a step. *)
Definition growFuel (index : Z) : nat := S (Z.to_nat index).

Definition Set_ (index : Z) (w : PositionBitmapWriter) : res PositionBitmapWriter :=
  let! (_, e) := Expandable.Set_ (growFuel index) (_bitmap w) index in Ok (mkPosBitmap e (_blockOffsets w)).
Definition Resize (size : Z) (w : PositionBitmapWriter) : res PositionBitmapWriter :=
  let! e := Expandable.ReSize (growFuel size) (_bitmap w) size in Ok (mkPosBitmap e (_blockOffsets w)).
Definition EndDocument (df totalPosCount : Z) (w : PositionBitmapWriter) : PositionBitmapWriter :=
  if df mod MAX_DOC_PER_BITMAP_BLOCK =? 0 then mkPosBitmap (_bitmap w) (_blockOffsets w ++ [u32 (totalPosCount - 1)]) else w.

(** [Bitmap::GetDumpSize] *)
Definition GetDumpSize (itemCount : Z) : Z := slotsFor itemCount * 4.

Definition GetDumpLength (bitCount : Z) (w : PositionBitmapWriter) : res Z :=
  let n := Z.of_nat (length (_blockOffsets w)) in
  let! a := VByte.GetVInt32Length n in
  let! b := VByte.GetVInt32Length bitCount in
  Ok (u32 (a + b + n * 4 + GetDumpSize bitCount)).

Definition Dump {File : Type} (WriteFile : File -> list Z -> res File) (file : File) (bitCount : Z) (w : PositionBitmapWriter) : res File :=
  let! file := WriteVUInt32 WriteFile file (u32 (Z.of_nat (length (_blockOffsets w)))) in
  let! file := WriteVUInt32 WriteFile file bitCount in
  let! file := foldl (fun f x => let! f := f in WriteFile f (bytes 4 x)) (Ok file) (_blockOffsets w) in
  let! ws := deref (_data (Expandable.base (_bitmap w))) in
  let mem := memoryOf 4 ws in
  if Z.of_nat (length mem) <? GetDumpSize bitCount then Undefined else WriteFile file (take (Z.to_nat (GetDumpSize bitCount)) mem).

End PosBitmap.

(** ** [DocListEncoder] *)

Module DocEncoder.
Import Rows Encoders Buffered.

(** [DocListFormat]: its rows, and the rows of [_docListSkipListFormat] *)
Record DocListFormat := mkDocListFormat {
  rows : MultiValue;
  skipListRows : MultiValue;
  skipListHasTf : bool
}.

Record DocListEncoder := mkDocEncoder {
  _docListBuffer : BufferedByteSlice;
  _isDocIdContinuous : bool;
  _docListFormatOption : DocListFormatOption;
  _fieldMap : Z;
  _currentTF : Z;
  _totalTF : Z;
  _df : Z;
  _lastDocId : Z;
  _lastDocPayload : Z;
  _lastFieldMap : Z;
  _compressMode : CompressMode;
  _tfBitmapWriter : option PosBitmap.PositionBitmapWriter;
  _docSkipListWriter : option SkipWriter.BufferedSkipListWriter;
  _docListFormat : DocListFormat
}.

Definition set_buffers (b : BufferedByteSlice) (s : option SkipWriter.BufferedSkipListWriter) (e : DocListEncoder) : DocListEncoder :=
  mkDocEncoder b (_isDocIdContinuous e) (_docListFormatOption e) (_fieldMap e) (_currentTF e) (_totalTF e) (_df e) (_lastDocId e)
    (_lastDocPayload e) (_lastFieldMap e) (_compressMode e) (_tfBitmapWriter e) s (_docListFormat e).
Definition set_bitmap (w : option PosBitmap.PositionBitmapWriter) (e : DocListEncoder) : DocListEncoder :=
  mkDocEncoder (_docListBuffer e) (_isDocIdContinuous e) (_docListFormatOption e) (_fieldMap e) (_currentTF e) (_totalTF e) (_df e) (_lastDocId e)
    (_lastDocPayload e) (_lastFieldMap e) (_compressMode e) w (_docSkipListWriter e) (_docListFormat e).

Section Encoder.
Context (sse : bool) (junk : list Z) (_formatVersion : Z).

(** [DocListFormat::DocListFormat] *)
Definition new_DocListFormat (option : DocListFormatOption) : DocListFormat :=
  mkDocListFormat (DocListFormat_Init sse junk _formatVersion option) (DocListSkipListFormat_Init sse junk _formatVersion option) (_hasTfList option).

(** The constructor; it makes its own format when it is given none. *)
Definition new_DocListEncoder (option : DocListFormatOption) (docListFormat : Datatypes.option DocListFormat) (compressMode : CompressMode)
    : SM DocListEncoder :=
  let* b := new_BufferedByteSlice in
  let format := match docListFormat with Some format => format | None => new_DocListFormat option end in
  let* b := lift (Init (rows format) b) in
  ret (mkDocEncoder b true option 0 0 0 0 0 0 0 compressMode
         (if _hasTfBitmap option then Some PosBitmap.new_PositionBitmapWriter else None) None format).
End Encoder.

Definition AddPosition (fieldIdxInPack : Z) (e : DocListEncoder) : DocListEncoder :=
  mkDocEncoder (_docListBuffer e) (_isDocIdContinuous e) (_docListFormatOption e)
    (if _hasFieldMap (_docListFormatOption e) then Z.lor (_fieldMap e) (Z.shiftl 1 fieldIdxInPack mod 256) else _fieldMap e)
    (i32 (_currentTF e + 1)) (i32 (_totalTF e + 1)) (_df e) (_lastDocId e) (_lastDocPayload e) (_lastFieldMap e) (_compressMode e)
    (_tfBitmapWriter e) (_docSkipListWriter e) (_docListFormat e).

(** [SetFieldMap] and [SetCurrentTF] *)
Definition SetFieldMap (fieldMap : Z) (e : DocListEncoder) : DocListEncoder :=
  mkDocEncoder (_docListBuffer e) (_isDocIdContinuous e) (_docListFormatOption e) fieldMap (_currentTF e) (_totalTF e) (_df e) (_lastDocId e)
    (_lastDocPayload e) (_lastFieldMap e) (_compressMode e) (_tfBitmapWriter e) (_docSkipListWriter e) (_docListFormat e).
Definition SetCurrentTF (tf : Z) (e : DocListEncoder) : DocListEncoder :=
  mkDocEncoder (_docListBuffer e) (_isDocIdContinuous e) (_docListFormatOption e) (_fieldMap e) tf (i32 (_totalTF e + tf)) (_df e) (_lastDocId e)
    (_lastDocPayload e) (_lastFieldMap e) (_compressMode e) (_tfBitmapWriter e) (_docSkipListWriter e) (_docListFormat e).

(** [CreateDocSkipListWriter] *)
Definition CreateDocSkipListWriter (e : DocListEncoder) : SM SkipWriter.BufferedSkipListWriter :=
  let* w := SkipWriter.new_BufferedSkipListWriter (_compressMode e) in
  lift (SkipWriter.Init (skipListRows (_docListFormat e)) w).

Definition AddSkipListItem (itemSize : Z) (w : SkipWriter.BufferedSkipListWriter) (e : DocListEncoder) : SM SkipWriter.BufferedSkipListWriter :=
  if skipListHasTf (_docListFormat e) then SkipWriter.AddItem3 (u32 (_lastDocId e)) (u32 (_totalTF e)) itemSize w
  else SkipWriter.AddItem2 (u32 (_lastDocId e)) itemSize w.

Definition FlushDocListBuffer (compressMode : CompressMode) (e : DocListEncoder) : SM DocListEncoder :=
  let* (flushSize, b) := Buffered.Flush compressMode (_docListBuffer e) in
  let flushSize := u32 flushSize in
  let e := set_buffers b (_docSkipListWriter e) e in
  if 0 <? flushSize then
    match compressMode with
    | SHORT_LIST_COMPRESS_MODE => ret e
    | _ =>
        let* w := match _docSkipListWriter e with None => CreateDocSkipListWriter e | Some w => ret w end in
        let* w := AddSkipListItem flushSize w e in
        ret (set_buffers (_docListBuffer e) (Some w) e)
    end
  else ret e.

Definition isReference (m : CompressMode) : bool := match m with REFERENCE_COMPRESS_MODE => true | _ => false end.

(** The rows behind the first one, for the options that are set *)
Definition pushOptional (has : bool) (n row : nat) (value : Z) (b : BufferedByteSlice) : res (nat * BufferedByteSlice) :=
  if has then let! b := PushBack n row value b in Ok (S row, b) else Ok (row, b).

Definition AddDocument (docId docPayload tf fieldMap : Z) (e : DocListEncoder) : SM DocListEncoder :=
  let option := _docListFormatOption e in
  let* b := lift (PushBack 4 0 (if negb (isReference (_compressMode e)) then u32 (docId - _lastDocId e) else u32 docId) (_docListBuffer e)) in
  let* (n, b) := lift (pushOptional (_hasTfList option) 4 1 (u32 tf) b) in
  let* (n, b) := lift (pushOptional (_hasDocPayload option) 2 n docPayload b) in
  let* (n, b) := lift (pushOptional (_hasFieldMap option) 1 n fieldMap b) in
  let b := EndPushBack b in
  let e := mkDocEncoder b (_isDocIdContinuous e) option (_fieldMap e) (_currentTF e) (_totalTF e) (_df e) docId docPayload fieldMap
             (_compressMode e) (_tfBitmapWriter e) (_docSkipListWriter e) (_docListFormat e) in
  if NeedFlush 128 b then FlushDocListBuffer (_compressMode e) e else ret e.

Definition EndDocument (docId docPayload : Z) (e : DocListEncoder) : SM DocListEncoder :=
  let continuous := if _isDocIdContinuous e && (0 <? _df e) then i32 (_lastDocId e + 1) =? docId else _isDocIdContinuous e in
  let e := mkDocEncoder (_docListBuffer e) continuous (_docListFormatOption e) (_fieldMap e) (_currentTF e) (_totalTF e) (_df e) (_lastDocId e)
             (_lastDocPayload e) (_lastFieldMap e) (_compressMode e) (_tfBitmapWriter e) (_docSkipListWriter e) (_docListFormat e) in
  let* e := AddDocument docId docPayload (_currentTF e) (_fieldMap e) e in
  let df := i32 (_df e + 1) in
  let* w := match _tfBitmapWriter e with
            | None => ret None
            | Some w =>
                let* w := lift (PosBitmap.Set_ (u32 (_totalTF e - _currentTF e)) w) in
                ret (Some (PosBitmap.EndDocument (u32 df) (u32 (_totalTF e)) w))
            end in
  ret (mkDocEncoder (_docListBuffer e) (_isDocIdContinuous e) (_docListFormatOption e) 0 0 (_totalTF e) df (_lastDocId e)
         (_lastDocPayload e) (_lastFieldMap e) (_compressMode e) w (_docSkipListWriter e) (_docListFormat e)).

Definition Flush (e : DocListEncoder) : SM DocListEncoder :=
  let compressMode := if ShortList.IsShortDocList (_df e) then SHORT_LIST_COMPRESS_MODE else _compressMode e in
  let* e := FlushDocListBuffer compressMode e in
  let* s := match _docSkipListWriter e with
            | None => ret None
            | Some w => let* (_, w) := SkipWriter.FinishFlush w in ret (Some w)
            end in
  let* t := match _tfBitmapWriter e with
            | None => ret None
            | Some w => let* w := lift (PosBitmap.Resize (u32 (_totalTF e)) w) in ret (Some w)
            end in
  ret (set_bitmap t (set_buffers (_docListBuffer e) s e)).

Definition skipListDumpSize (e : DocListEncoder) : SM Z :=
  match _docSkipListWriter e with None => ret 0 | Some w => let* n := SkipWriter.EstimateDumpSize w in ret (u32 n) end.

Definition GetDumpLength (e : DocListEncoder) : SM Z :=
  let* docSkipListSize := skipListDumpSize e in
  let* n := EstimateDumpSize (_docListBuffer e) in
  let docListSize := u32 n in
  let* tfBitmapLength := match _tfBitmapWriter e with None => ret 0 | Some w => lift (PosBitmap.GetDumpLength (u32 (_totalTF e)) w) end in
  let* a := lift (VByte.GetVInt32Length docSkipListSize) in
  let* b := lift (VByte.GetVInt32Length docListSize) in
  ret (u32 (a + b + docSkipListSize + docListSize + tfBitmapLength)).

Section Dump.
Context {File : Type} (WriteFile : File -> list Z -> res File).

Definition Dump (file : File) (e : DocListEncoder) : SM (File * DocListEncoder) :=
  let* e := Flush e in
  let* docSkipListSize := skipListDumpSize e in
  let* n := EstimateDumpSize (_docListBuffer e) in
  let* file := lift (WriteVUInt32 WriteFile file docSkipListSize) in
  let* file := lift (WriteVUInt32 WriteFile file (u32 n)) in
  let* file := match _docSkipListWriter e with None => ret file | Some w => SkipWriter.Dump WriteFile file w end in
  let* file := Writer.Dump WriteFile file (_postingListWriter (_docListBuffer e)) in
  let* file := match _tfBitmapWriter e with None => ret file | Some w => lift (PosBitmap.Dump WriteFile file (u32 (_totalTF e)) w) end in
  ret (file, e).
End Dump.

End DocEncoder.

(** ** [InMemDocListDecoder] *)

Module DocDecoder.
Import Rows Encoders Buffered PairReader.

(** The two classes a [SkipListReader] of the decoder may have *)
Inductive SkipListReader :=
| PairSkip (r : PairReader.PairValueSkipListReader MemSource)
| TriSkip (r : TriReader.TriValueSkipListReader MemSource).

Section Virtual.
Context {R : BlockDataRetriever}.

(** Every round of the loop takes an item. *)
Definition skipFuel (s : MemSource) : nat := S (S (Z.to_nat (GetTotalCount (_skipListBuffer s)))).

Definition SkipTo (queryKey : Z) (s : SkipListReader) : SM (option (Z * Z * Z * Z) * SkipListReader) :=
  match s with
  | PairSkip r => let* (o, r) := PairReader.SkipTo MemLoadBuffer (skipFuel (source r)) queryKey r in ret (o, PairSkip r)
  | TriSkip r => let* (o, r) := TriReader.SkipTo TriReader.MemLoadBuffer (skipFuel (TriReader.source r)) queryKey r in ret (o, TriSkip r)
  end.
End Virtual.

Definition GetLastKeyInBuffer (s : SkipListReader) : SM Z :=
  match s with PairSkip r => PairReader.GetLastKeyInBuffer r | TriSkip r => lift (TriReader.MemGetLastKeyInBuffer r) end.
Definition GetLastValueInBuffer (s : SkipListReader) : SM Z :=
  match s with PairSkip r => PairReader.GetLastValueInBuffer r | TriSkip r => lift (TriReader.MemGetLastValueInBuffer r) end.
Definition GetCurrentTTF (s : SkipListReader) : Z := match s with PairSkip _ => 0 | TriSkip r => TriReader.GetCurrentTTF r end.
Definition GetPrevTTF (s : SkipListReader) : Z := match s with PairSkip _ => 0 | TriSkip r => TriReader.GetPrevTTF r end.
Definition GetSkippedItemCount (s : SkipListReader) : Z :=
  match s with PairSkip r => PairReader._skippedItemCount r | TriSkip r => TriReader._skippedItemCount r end.

Record InMemDocListDecoder := mkDocDecoder {
  _skipListReader : option SkipListReader;
  _docListBuffer : BufferedByteSlice;
  _docListReader : BufferedByteSliceReader;
  _df : Z;
  _finishDecoded : bool;
  _isReferenceCompress : bool;
  _skipedItemCount : Z
}.

(** [docBuffer], [firstDocId], [lastDocId] and [currentTTF] *)
Record DocBufferInfo := mkInfo { docBuffer : list Z; firstDocId : Z; lastDocId : Z; currentTTF : Z }.

Definition set_reader (rd : BufferedByteSliceReader) (d : InMemDocListDecoder) : InMemDocListDecoder :=
  mkDocDecoder (_skipListReader d) (_docListBuffer d) rd (_df d) (_finishDecoded d) (_isReferenceCompress d) (_skipedItemCount d).
Definition set_skip (s : SkipListReader) (d : InMemDocListDecoder) : InMemDocListDecoder :=
  mkDocDecoder (Some s) (_docListBuffer d) (_docListReader d) (_df d) (_finishDecoded d) (_isReferenceCompress d) (u32 (GetSkippedItemCount s)).
Definition set_finished (d : InMemDocListDecoder) : InMemDocListDecoder :=
  mkDocDecoder (_skipListReader d) (_docListBuffer d) (_docListReader d) (_df d) true (_isReferenceCompress d) (_skipedItemCount d).

Section Decoder.
Context {R : BlockDataRetriever}.

(** [Decode(buffer, MAX_DOC_PER_RECORD, count)]: the buffer is as long as a record. *)
Definition decodeRow (buffer : list Z) (d : InMemDocListDecoder) : SM (option (list Z * Z) * InMemDocListDecoder) :=
  let* (o, rd) := Buffered.Decode (_docListBuffer d) buffer (_docListReader d) in
  ret (o, set_reader rd d).

(** The result is [None] when the function returns false; what the output parameters hold then is left out. *)
Definition DecodeDocBufferWithoutSkipList (lastDocIdInPrevRecord offset startDocId : Z) (buffer : list Z) (currentTTF : Z) (d : InMemDocListDecoder)
    : SM (option DocBufferInfo * InMemDocListDecoder) :=
  if _finishDecoded d then ret (None, d)
  else
    let* rd := Buffered.Seek offset (_docListReader d) in
    let* (o, d) := decodeRow buffer (set_reader rd d) in
    match o with
    | None => ret (None, d)
    | Some (buffer, decodeCount) =>
        let* (firstDocId, lastDocId) :=
          if _isReferenceCompress d then
            let* bufferReader := lift (Reset 4 (memoryOf 4 buffer)) in
            let* last := lift (at_ 4 (Z.to_nat (decodeCount - 1)) bufferReader) in
            let* first := lift (at_ 4 0 bufferReader) in
            ret (i32 first, i32 last)
          else
            let* first := lift (deref (buffer !! 0%nat)) in
            let last := foldl (fun acc x => i32 (acc + x)) lastDocIdInPrevRecord (take (Z.to_nat decodeCount) buffer) in
            ret (i32 (first + lastDocIdInPrevRecord), last) in
        if lastDocId <? startDocId then ret (None, d)
        else ret (Some (mkInfo buffer firstDocId lastDocId currentTTF), set_finished d)
    end.

Definition DecodeDocBuffer (startDocId : Z) (buffer : list Z) (d : InMemDocListDecoder) : SM (option DocBufferInfo * InMemDocListDecoder) :=
  match _skipListReader d with
  | None => DecodeDocBufferWithoutSkipList 0 0 startDocId buffer 0 d
  | Some s =>
      let* (o, s) := SkipTo (u32 startDocId) s in
      match o with
      | None =>
          let* lastDocIdInPrevRecord := GetLastKeyInBuffer s in
          let* offset := GetLastValueInBuffer s in
          DecodeDocBufferWithoutSkipList (i32 lastDocIdInPrevRecord) offset startDocId buffer (GetCurrentTTF s) (set_skip s d)
      | Some (lastDocId, lastDocIdInPrevRecord, offset, recordLen) =>
          let d := set_skip s d in
          let* rd := Buffered.Seek offset (_docListReader d) in
          let* (o, d) := decodeRow buffer (set_reader rd d) in
          let buffer := match o with Some (buffer, _) => buffer | None => buffer end in
          let* first :=
            if _isReferenceCompress d then lift (GetFirstValue 4 (memoryOf 4 buffer))
            else let* first := lift (deref (buffer !! 0%nat)) in ret (first + lastDocIdInPrevRecord) in
          ret (Some (mkInfo buffer (i32 first) (i32 lastDocId) (GetPrevTTF s)), d)
      end
  end.

(** [DecodeCurrentTFBuffer], [DecodeCurrentDocPayloadBuffer] and [DecodeCurrentFieldMapBuffer] *)
Definition DecodeCurrentTFBuffer (tfBuffer : list Z) (d : InMemDocListDecoder) : SM (option (list Z) * InMemDocListDecoder) :=
  let* (o, d) := decodeRow tfBuffer d in ret (match o with Some (buffer, _) => Some buffer | None => None end, d).
Definition DecodeCurrentDocPayloadBuffer (docPayloadBuffer : list Z) (d : InMemDocListDecoder) : SM (list Z * InMemDocListDecoder) :=
  let* (o, d) := decodeRow docPayloadBuffer d in ret (match o with Some (buffer, _) => buffer | None => docPayloadBuffer end, d).
Definition DecodeCurrentFieldMapBuffer (fieldBitmapBuffer : list Z) (d : InMemDocListDecoder) : SM (list Z * InMemDocListDecoder) :=
  let* (o, d) := decodeRow fieldBitmapBuffer d in ret (match o with Some (buffer, _) => buffer | None => fieldBitmapBuffer end, d).

(** [BufferedSegmentIndexDecoder::GetSeekedDocCount] *)
Definition GetSeekedDocCount (d : InMemDocListDecoder) : Z := u32 (Z.shiftl (_skipedItemCount d) 7).

(** [InMemDocListDecoder::Init] *)
Definition Init (df : Z) (skip : option SkipListReader) (b : BufferedByteSlice) (isReferenceCompress : bool) : SM InMemDocListDecoder :=
  let* rd := Buffered.Open b in
  ret (mkDocDecoder skip b rd df false isReferenceCompress 0).

(** [DocListEncoder::GetInMemDocListDecoder]; [arrays] is what the arrays of the skip list reader hold before they are used. *)
Definition GetInMemDocListDecoder (arrays : list Z * list Z * list Z) (e : DocEncoder.DocListEncoder) : SM InMemDocListDecoder :=
  let df := DocEncoder._df e in
  let reference := DocEncoder.isReference (DocEncoder._compressMode e) in
  let '(a1, a2, a3) := arrays in
  let* skip :=
    match DocEncoder._docSkipListWriter e with
    | None => ret None
    | Some w =>
        if DocEncoder.skipListHasTf (DocEncoder._docListFormat e) then
          let* r := TriReader.MemLoad (SkipWriter.base w) a1 a2 a3 in ret (Some (TriSkip r))
        else
          let* r := PairReader.MemLoad (SkipWriter.base w) a1 a2 reference in ret (Some (PairSkip r))
    end in
  let* b := new_BufferedByteSlice in
  let* docListBuffer := SnapShot (DocEncoder._docListBuffer e) b in
  Init df skip docListBuffer reference.
End Decoder.

End DocDecoder.

(** ** Postings that the dictionary keeps

    The posting of a term with one document, or with documents in a row, may be part of the value of the dictionary: [DictInlineEncoder],
    [DictInlineDecoder] and [DictInlineFormatter]. *)

Module DictInline.
Import Rows.

Definition MAX_DICT_INLINE_AVAILABLE_SIZE : Z := 7.

(** [DictInlineEncoder::CalculateCompressedSize] *)
Definition CalculateCompressedSize (data : list Z) : res Z :=
  foldl (fun compressSize value =>
           let! compressSize := compressSize in
           let! l := VByte.GetVInt32Length value in
           Ok (u32 (compressSize + l))) (Ok 0) data.

(** [DictInlineEncoder::CompressData]: the bytes of [buffer], the position [cursor] in it, and [remainBufferLen] *)
Definition CompressData (st : list Z * nat * Z) (value : Z) : res (list Z * nat * Z) :=
  let '(buffer, cursor, remainBufferLen) := st in
  let! (tail, compressSize) := VByte.EncodeVInt32 (drop cursor buffer) remainBufferLen value in
  Ok (take cursor buffer ++ tail, (cursor + Z.to_nat compressSize)%nat, u32 (remainBufferLen - compressSize)).

(** [DictInlineEncoder::Encode]: [None] when it returns false *)
Definition Encode (data : list Z) : res (option Z) :=
  let! calculateSize := CalculateCompressedSize data in
  if MAX_DICT_INLINE_AVAILABLE_SIZE <? calculateSize then Ok None
  else
    let! (buffer, _, _) := foldl (fun st value => let! st := st in CompressData st value) (Ok (bytes 8 0, 0%nat, 8)) data in
    Ok (Some (join buffer)).

(** [DictInlineEncoder::EncodeContinuousDocId]: [dfFirst] and the value, [None] when it returns false *)
Definition THRESHOLD : Z := 0xFFFFFFF.
Definition EncodeContinuousDocId (startDocid df : Z) (enableDictInlineLongDF : bool) : option (bool * Z) :=
  if (THRESHOLD <? df) && (negb enableDictInlineLongDF || (THRESHOLD <? startDocid)) then None
  else
    let dfFirst := negb (THRESHOLD <? df) in
    let '(v1, v2) := if dfFirst then (u64 startDocid, u64 df) else (u64 df, u64 startDocid) in
    Some (dfFirst, Z.lor v1 (u64 (Z.shiftl v2 32))).

(** The loop of [DictInlineDecoder::Decode]: [count] values of the bytes from [cursor] *)
Fixpoint decodeItems (count : nat) (cursor : list Z) (leftBufferLen : Z) : res (list Z) :=
  match count with
  | O => Ok []
  | S count =>
      let! (val, l) := VByte.DecodeVInt32 cursor leftBufferLen in
      let! vals := decodeItems count (drop (Z.to_nat l) cursor) (u32 (leftBufferLen - l)) in
      Ok (u32 val :: vals)
  end.
Definition Decode (compressValue : Z) (count : nat) : res (list Z) :=
  decodeItems count (bytes 8 compressValue) MAX_DICT_INLINE_AVAILABLE_SIZE.

(** [DictInlineDecoder::DecodeContinuousDocId]: [startDocid] and [df] *)
Definition DecodeContinuousDocId (inlinePostingValueWithOrder : bool * Z) : Z * Z :=
  let '(dfFirst, inlinePostingValue) := inlinePostingValueWithOrder in
  let value := u64 (ShortList.GetDictInlineValue inlinePostingValue) in
  let df := i32 (Z.shiftr value 32) in
  let startDocid := i32 (Z.shiftr (u64 (Z.shiftl value 32)) 32) in
  if dfFirst then (startDocid, df) else (df, startDocid).

(** [PostingFormatOption]: the members that say what is inlined *)
Record PostingFormatOption := mkPostingOption {
  _hasTermPayload : bool;
  _docListFormatOption : DocListFormatOption;
  _dictInlineItemCount : nat
}.

Definition CalculateDictInlineItemCount (hasTermPayload : bool) (o : DocListFormatOption) : nat :=
  let itemCount := 1%nat in
  let itemCount := if hasTermPayload then S itemCount else itemCount in
  let itemCount := if _hasDocPayload o then S itemCount else itemCount in
  let itemCount := if _hasTfList o then S itemCount else itemCount in
  if _hasFieldMap o then S itemCount else itemCount.

(** [PostingFormatOption::PostingFormatOption], with [InitOptionFlag] *)
Definition of_term_payload : Z := 1.
Definition new_PostingFormatOption (optionFlag : Z) : PostingFormatOption :=
  let hasTermPayload := has optionFlag of_term_payload in
  let o := DocListFormatOption_Init optionFlag in
  mkPostingOption hasTermPayload o (CalculateDictInlineItemCount hasTermPayload o).

Record DictInlineFormatter := mkFormatter {
  _termPayload : Z;
  _docId : Z;
  _docPayload : Z;
  _termFreq : Z;
  _fieldMap : Z
}.

Section Formatter.
Context (_postingFormatOption : PostingFormatOption).
Abbreviation HasTermPayload := (_hasTermPayload _postingFormatOption).
Abbreviation HasDocPayload := (_hasDocPayload (_docListFormatOption _postingFormatOption)).
Abbreviation HasTfList := (_hasTfList (_docListFormatOption _postingFormatOption)).
Abbreviation HasFieldMap := (_hasFieldMap (_docListFormatOption _postingFormatOption)).

(** [INVALID_DOCID], [INVALID_DOC_PAYLOAD] and [INVALID_TF] *)
Definition new_DictInlineFormatter : DictInlineFormatter := mkFormatter 0 INVALID_DOCID 0 (-1) 0.

Definition ToVector (f : DictInlineFormatter) : list Z :=
  (if HasTermPayload then [u32 (_termPayload f)] else []) ++ [u32 (_docId f)] ++
  (if HasDocPayload then [u32 (_docPayload f)] else []) ++ (if HasTfList then [u32 (_termFreq f)] else []) ++
  (if HasFieldMap then [u32 (_fieldMap f)] else []).

(** It throws when there is no value. *)
Definition CheckAndGetValue (cursor : nat) (buffer : list Z) : res Z :=
  match buffer !! cursor with Some v => Ok v | None => Error OutOfRange end.

(** A member that the format may have: its value and the next [cursor] *)
Definition getMember (hasMember : bool) (cursor : nat) (buffer : list Z) (old : Z) (cast : Z -> Z) : res (Z * nat) :=
  if hasMember then let! v := CheckAndGetValue cursor buffer in Ok (cast v, S cursor) else Ok (old, cursor).

Definition FromVector (buffer : list Z) (f : DictInlineFormatter) : res DictInlineFormatter :=
  let! (termPayload, cursor) := getMember HasTermPayload 0 buffer (_termPayload f) u32 in
  let! (docId, cursor) := getMember true cursor buffer (_docId f) i32 in
  let! (docPayload, cursor) := getMember HasDocPayload cursor buffer (_docPayload f) (fun v => v mod 2 ^ 16) in
  let! (termFreq, cursor) := getMember HasTfList cursor buffer (_termFreq f) i32 in
  let! (fieldMap, cursor) := getMember HasFieldMap cursor buffer (_fieldMap f) (fun v => v mod 2 ^ 8) in
  if (cursor <? length buffer)%nat then Error Runtime else Ok (mkFormatter termPayload docId docPayload termFreq fieldMap).

(** [Init], and the constructor that calls it *)
Definition Init (dictValue : Z) (f : DictInlineFormatter) : res DictInlineFormatter :=
  let! vec := Decode dictValue (_dictInlineItemCount _postingFormatOption) in FromVector vec f.
Definition new_DictInlineFormatter_value (dictValue : Z) : res DictInlineFormatter := Init dictValue new_DictInlineFormatter.

(** [GetDictInlineValue]: [None] when it returns false *)
Definition GetDictInlineValue (f : DictInlineFormatter) : res (option Z) := Encode (ToVector f).
End Formatter.

Definition GetTermFreq (f : DictInlineFormatter) : Z := if _termFreq f =? -1 then 1 else _termFreq f.

End DictInline.
