(* ===== verification/DocListRows.v ===== *)
(** * The rows of document lists and of their skip lists

    Which rows the formats have, how ids and keys become differences, and that the writer of the skip list keeps its items. *)

From stdpp Require Import base list numbers option tactics gmap sorting.
From Stdlib Require Import ZArith Lia ZifyNat ZifyBool.
From S2P Require Import Prelude Bits WordCode WordStream ByteSliceList SliceChain ByteSliceWriter ByteSliceWriterCorrect IntEncoders IntEncodersCorrect PostingRecords PostingBuffer ShortBufferCorrect PostingBufferCorrect SkipList SkipListCorrect DocList PostingColumns.

#[local] Open Scope Z_scope.
#[local] Open Scope store_scope.

(** ** The rows of document lists

    Document ids and the keys of the skip list are stored as differences. The formats of the document list and of its skip
    list have rows that fit the buffers, with encoders that read what they write. *)

Module DocRows.
Import Rows Encoders Columns.

(** ** Differences *)

Fixpoint deltas (p : Z) (xs : list Z) : list Z :=
  match xs with [] => [] | x :: xs => (x - p) :: deltas x xs end.

(** The last value, or [p] *)
Definition lastOf (p : Z) (xs : list Z) : Z := default p (last xs).

Lemma length_deltas p xs : length (deltas p xs) = length xs.
Proof. revert p. induction xs as [|x xs IH]; intros p; cbn; [done|]. by rewrite IH. Qed.

Lemma lastOf_cons p x xs : lastOf p (x :: xs) = lastOf x xs.
Proof. unfold lastOf. destruct xs; [done|]. rewrite last_cons. by destruct (last (_ :: xs)) eqn:E; [|apply last_None in E]. Qed.

Lemma lastOf_snoc p xs x : lastOf p (xs ++ [x]) = x.
Proof. unfold lastOf. by rewrite last_snoc. Qed.

Lemma deltas_snoc p xs x : deltas p (xs ++ [x]) = deltas p xs ++ [x - lastOf p xs].
Proof. revert p. induction xs as [|y xs IH]; intros p; [done|]. cbn [app deltas]. by rewrite IH, lastOf_cons. Qed.

(** Sums of differences *)
Lemma sumTo_deltas p xs i x : xs !! i = Some x -> sumTo (deltas p xs) (S i) = x - p.
Proof.
  revert p i. induction xs as [|y xs IH]; intros p i Hi; [done|]. unfold sumTo. cbn [deltas take foldr]. destruct i as [|i].
  - injection Hi as ->. rewrite take_0. cbn. lia.
  - fold (sumTo (deltas y xs) (S i)). rewrite (IH y i Hi). lia.
Qed.

Lemma sumTo_0 xs : sumTo xs 0 = 0.
Proof. unfold sumTo. by rewrite take_0. Qed.

(** Values that do not fall *)
Definition ascending (p : Z) (xs : list Z) : Prop := Sorted Z.le (p :: xs).

Lemma ascending_cons p x xs : ascending p (x :: xs) -> p <= x /\ ascending x xs.
Proof. intros H. apply Sorted_inv in H as [H1 H2]. apply HdRel_inv in H2. done. Qed.

Lemma ascending_range p xs i x : ascending p xs -> xs !! i = Some x -> p <= x <= lastOf p xs.
Proof.
  revert p i x. induction xs as [|y xs IH]; intros p i x Ha Hi; [done|]. apply ascending_cons in Ha as [Hp Ha]. rewrite lastOf_cons.
  destruct i as [|i]; [injection Hi as ->|]; [|pose proof (IH y i x Ha Hi); lia].
  destruct xs as [|z xs]; [cbn; lia|]. pose proof (IH x 0%nat z Ha eq_refl). lia.
Qed.

Lemma ascending_snoc p xs x : ascending p xs -> lastOf p xs <= x -> ascending p (xs ++ [x]).
Proof.
  revert p. induction xs as [|y xs IH]; intros p Ha Hx.
  - repeat constructor. exact Hx.
  - apply ascending_cons in Ha as [Hp Ha]. rewrite lastOf_cons in Hx. constructor; [by apply IH | by constructor].
Qed.

Lemma deltas_fits p xs w : ascending p xs -> 0 <= p -> lastOf p xs < 2 ^ w -> Forall (fits w) (deltas p xs).
Proof.
  revert p. induction xs as [|y xs IH]; intros p Ha Hp Hl; [constructor|]. apply ascending_cons in Ha as [Hy Ha]. rewrite lastOf_cons in Hl. constructor.
  - assert (y <= lastOf y xs) by (destruct xs as [|z xs]; [done|]; pose proof (ascending_range y _ 0%nat z Ha eq_refl); lia). split; lia.
  - apply IH; [done | lia | done].
Qed.

(** ** Formats *)

Section Formats.
Context (sse : bool) (junk : list Z) (version : Z) (Hjunk : Records.isBuffer junk).

Lemma encoder_lawful kind vb opt mode :
  Records.decodesValues kind (mkParam mode vb opt) = true ->
  exists E, Records.GetEncoder sse junk kind (mkParam mode vb opt) = Some E /\
    EncodersCorrect.EncoderLaws (Records.valueSize kind) (Records.withoutLength kind (mkParam mode vb opt)) E E.
Proof.
  intros Hd. destruct (Records.provider_laws sse sse junk junk kind (mkParam mode vb opt) Hjunk Hjunk Hd) as (E & D & HE & HD & Hlaw).
  exists E. split; [done|]. rewrite HE in HD. by injection HD as <-.
Qed.

(** The rows of a format, each with the kind of its values *)
Definition kindsOfDoc (o : DocListFormatOption) : list Records.ListKind :=
  [Records.DocList] ++ (if _hasTfList o then [Records.TfList] else []) ++ (if _hasDocPayload o then [Records.DocPayload] else []) ++ (if _hasFieldMap o then [Records.FieldMap] else []).

Definition kindsOfSkip (o : DocListFormatOption) : list Records.ListKind :=
  [Records.SkipList] ++ (if _hasTfList o then [Records.SkipList] else []) ++ [Records.SkipList].

(** A row is for values of a kind. *)
Definition rowFor (vb : bool) (a : AtomicValue) (kind : Records.ListKind) : Prop :=
  sizeT a = Records.valueSize kind /\ forall m, _encoders a m = Records.GetEncoder sse junk kind (param version vb m).

Lemma doc_rows o : Forall2 (rowFor (_shortListVbyteCompress o)) (_atomicValues (DocListFormat_Init sse junk version o)) (kindsOfDoc o).
Proof. unfold DocListFormat_Init, kindsOfDoc. destruct (_hasTfList o), (_hasDocPayload o), (_hasFieldMap o); repeat constructor. Qed.

Lemma skip_rows o : Forall2 (rowFor false) (_atomicValues (DocListSkipListFormat_Init sse junk version o)) (kindsOfSkip o).
Proof. unfold DocListSkipListFormat_Init, kindsOfSkip. destruct (_hasTfList o); repeat constructor. Qed.

Lemma rows_lawful mv vb kinds exact mode :
  Forall2 (rowFor vb) (_atomicValues mv) kinds ->
  Forall (fun kind => Records.decodesValues kind (param version vb mode) = true /\ Records.withoutLength kind (param version vb mode) = exact) kinds ->
  BufferedCorrect.lawful mv exact mode.
Proof.
  intros Hr Hk i a Ha. destruct (Forall2_lookup_l _ _ _ _ _ Hr Ha) as (kind & Hkind & Hsz & Henc).
  destruct (Forall_lookup_1 _ _ _ _ Hk Hkind) as [Hd Hx]. destruct (encoder_lawful kind vb (1 <=? version) mode Hd) as (E & HE & Hlaw).
  exists E. rewrite Henc, Hsz, <- Hx. done.
Qed.

Lemma doc_lawful o mode : mode = PFOR_DELTA_COMPRESS_MODE \/ mode = SHORT_LIST_COMPRESS_MODE ->
  BufferedCorrect.lawful (DocListFormat_Init sse junk version o) false mode.
Proof.
  intros Hm. eapply rows_lawful; [apply doc_rows|]. unfold kindsOfDoc. destruct Hm as [-> | ->], (_hasTfList o), (_hasDocPayload o), (_hasFieldMap o); repeat constructor.
Qed.

Lemma skip_lawful o : BufferedCorrect.lawful (DocListSkipListFormat_Init sse junk version o) false PFOR_DELTA_COMPRESS_MODE /\
  BufferedCorrect.lawful (DocListSkipListFormat_Init sse junk version o) true SHORT_LIST_COMPRESS_MODE.
Proof. split; (eapply rows_lawful; [apply skip_rows|]); unfold kindsOfSkip; destruct (_hasTfList o); repeat constructor. Qed.

Lemma doc_wf o : ShortBufCorrect.wfMulti (DocListFormat_Init sse junk version o).
Proof. unfold DocListFormat_Init. destruct (_hasTfList o), (_hasDocPayload o), (_hasFieldMap o); split; try done; cbn; split_and!; (done || lia). Qed.

Lemma skip_wf o : ShortBufCorrect.wfMulti (DocListSkipListFormat_Init sse junk version o).
Proof. unfold DocListSkipListFormat_Init. destruct (_hasTfList o); split; try done; cbn; split_and!; (done || lia). Qed.

End Formats.
End DocRows.

(** ** The skip list writer keeps its items

    [BufferedSkipListWriter] stores the differences of keys and of sums, and flushes them in records of 32; after the last
    one a short list is stored as it is. *)

(** A computation that succeeds has steps that succeed. *)
Lemma res_bind_Ok {A B} (x : res A) (f : A -> res B) y : res_bind x f = Ok y -> exists a, x = Ok a /\ f a = Ok y.
Proof. destruct x; cbn; [by eexists | done..]. Qed.

(** Run the pushes of a column that are known to succeed. *)
Ltac run_pushes H :=
  cbn [Columns.pushAll] in H;
  repeat (let b := fresh "b" in let E := fresh "E" in apply res_bind_Ok in H as (b & E & H); rewrite E, BufferedCorrect.sbind_lift);
  injection H as ->.

(** A record is full after every [T] columns. *)
Lemma div_push T n : (0 < T)%nat ->
  (n / T * T <= n < S (n / T) * T)%nat /\ (S n / T = if S n =? S (n / T) * T then S (n / T) else n / T)%nat.
Proof.
  intros HT. pose proof (Nat.div_mod n T ltac:(lia)). pose proof (Nat.mod_upper_bound n T ltac:(lia)). split; [nia|]. symmetry.
  destruct (Nat.eqb_spec (S n) (S (n / T) * T)); [apply (Nat.div_unique _ _ _ 0); nia | apply (Nat.div_unique _ _ _ (S n - n / T * T)); nia].
Qed.

Module SkipWriterCorrect.
Import Rows Encoders Buffered BufferedCorrect Columns DocRows SkipWriter Snapshots.

Section Writer.
Context (sse : bool) (junk : list Z) (version : Z) (Hjunk : Records.isBuffer junk) (o : DocListFormatOption).
Abbreviation mvS := (DocListSkipListFormat_Init sse junk version o).

(** The rows of items with these keys, sums of term frequencies and sizes *)
Definition skipRows (keys ttfs sizes : list Z) : list (list Z) :=
  [deltas 0 keys] ++ (if _hasTfList o then [deltas 0 ttfs] else []) ++ [sizes].

Definition itemColumn (key ttf size : Z) : list Z := [key] ++ (if _hasTfList o then [ttf] else []) ++ [size].

Lemma skipRows_snoc keys ttfs sizes key ttf size :
  addColumn (skipRows keys ttfs sizes) (itemColumn (key - lastOf 0 keys) (ttf - lastOf 0 ttfs) size) = skipRows (keys ++ [key]) (ttfs ++ [ttf]) (sizes ++ [size]).
Proof. unfold skipRows, itemColumn, addColumn. rewrite !deltas_snoc. by destruct (_hasTfList o). Qed.

(** More is written to [p]. *)
Definition extends (m m' : Store) (p p' : Place) : Prop :=
  p_list p' = p_list p /\ advances m m' (p_list p) (p_chain p) (p_chain p') /\ p_encs p `prefix_of` p_encs p'.

Lemma extends_refl m p : extends m m p p.
Proof. split; [done|]. split; [apply advances_refl | done]. Qed.

(** The writer has the items; [n] is how many there are. *)
Record skipItems (m : Store) (w : BufferedSkipListWriter) (p : Place) (keys ttfs sizes : list Z) (n : nat) : Prop := {
  sk_stored : stored mvS false PFOR_DELTA_COMPRESS_MODE 32 m (base w) (p_list p) (p_chain p) (skipRows keys ttfs sizes) n (n / 32) (p_encs p);
  sk_key : _lastKey w = lastOf 0 keys;
  sk_ttf : _hasTfList o = true -> _lastValue1 w = lastOf 0 ttfs
}.

Lemma itemColumn_good key ttf size : fits 32 key -> fits 32 ttf -> fits 32 size -> goodColumn mvS (itemColumn key ttf size).
Proof. intros H1 H2 H3. unfold goodColumn, itemColumn, DocListSkipListFormat_Init. destruct (_hasTfList o); repeat first [apply List.Forall2_nil | apply List.Forall2_cons; [done|]]. Qed.

(** A column is pushed, and the buffer is flushed when it is full. *)
Lemma flushIfNeeded_ok m w p keys ttfs sizes n key ttf size :
  skipItems m w p keys ttfs sizes n -> Z.of_nat n < 2 ^ 20 ->
  fits 32 (key - lastOf 0 keys) -> fits 32 (ttf - lastOf 0 ttfs) -> fits 32 size ->
  exists b1 b' m' p', pushAll 0 (cellsOfColumn mvS (itemColumn (key - lastOf 0 keys) (ttf - lastOf 0 ttfs) size)) (base w) = Ok b1 /\
    flushIfNeeded PFOR_DELTA_COMPRESS_MODE (EndPushBack b1) m = Ok (b', m') /\ extends m m' p p' /\
    stored mvS false PFOR_DELTA_COMPRESS_MODE 32 m' b' (p_list p') (p_chain p') (skipRows (keys ++ [key]) (ttfs ++ [ttf]) (sizes ++ [size])) (S n) (S n / 32) (p_encs p').
Proof.
  intros [Hs _ _] Hn Hk Ht Hz. destruct (div_push 32 n ltac:(lia)) as [Hr Hd]. pose proof (itemColumn_good _ _ _ Hk Ht Hz) as Hcol.
  destruct (stored_push _ _ _ 32 ltac:(lia) _ _ _ _ _ _ _ _ _ Hs Hr Hcol) as (b1 & Hpush & Hs1 & Hneed). rewrite skipRows_snoc in Hs1.
  exists b1. unfold flushIfNeeded, SKIP_LIST_BUFFER_SIZE. change (Z.of_nat 32) with 32 in Hneed. rewrite Hneed, Hd. destruct (Nat.eqb_spec (S n) (S (n / 32) * 32)) as [He|He].
  - destruct (stored_flush _ _ _ 32 ltac:(lia) _ _ _ _ _ _ _ _ (proj1 (skip_lawful sse junk version Hjunk o)) Hs1) as (b' & m' & C' & new & Hrun & Hs' & _ & Hadv); [lia | lia | lia|].
    exists b', m', (mkPlace (p_list p) C' (p_encs p ++ [new])). split; [done|]. srun Hrun. split; [done|]. split; [|done]. split; [done|]. split; [done|]. by eexists.
  - exists (EndPushBack b1), m, p. split; [done|]. split; [done|]. split; [apply extends_refl | done].
Qed.

(** [AddItem], as [DocListEncoder::AddSkipListItem] calls it *)
Lemma addItem_ok m w p keys ttfs sizes n key ttf size :
  skipItems m w p keys ttfs sizes n -> Z.of_nat n < 2 ^ 20 ->
  lastOf 0 keys <= key < 2 ^ 31 -> lastOf 0 ttfs <= ttf < 2 ^ 31 -> 0 <= lastOf 0 keys -> 0 <= lastOf 0 ttfs -> fits 32 size ->
  exists w' m' p', (if _hasTfList o then AddItem3 key ttf size w else AddItem2 key size w) m = Ok (w', m') /\ extends m m' p p' /\
    skipItems m' w' p' (keys ++ [key]) (ttfs ++ [ttf]) (sizes ++ [size]) (S n).
Proof.
  intros Hs Hn Hk Ht H0k H0t Hz. destruct (flushIfNeeded_ok m w p keys ttfs sizes n key ttf size) as (b1 & b' & m' & p' & Hpush & Hflush & Hext & Hst); [done | done | split; lia | split; lia | done|].
  destruct Hs as [_ Hkey Httf]. revert Hpush. unfold cellsOfColumn, itemColumn, DocListSkipListFormat_Init, AddItem2, AddItem3, IsReferenceCompress. rewrite Hkey.
  replace (lastOf 0 keys =? INVALID_LAST_KEY) with false by (symmetry; apply Z.eqb_neq; change INVALID_LAST_KEY with (2 ^ 32 - 1); lia).
  destruct (_hasTfList o) eqn:Hhas; cbn [app zip zip_with map _atomicValues AddAtomicValue addRow snd fst new_MultiValue sizeT]; intros Hpush.
  - rewrite (Httf eq_refl), !u32_small by lia. run_pushes Hpush. srun Hflush. eexists _, m', p'. split; [reflexivity|]. split; [done|].
    split; cbn [base _lastKey _lastValue1]; [done | by rewrite lastOf_snoc | by rewrite lastOf_snoc].
  - rewrite !u32_small by lia. run_pushes Hpush. cbn [_lastKey negb].
    replace (key =? INVALID_LAST_KEY) with false by (symmetry; apply Z.eqb_neq; change INVALID_LAST_KEY with (2 ^ 32 - 1); lia).
    srun Hflush. eexists _, m', p'. split; [reflexivity|]. split; [done|]. split; cbn [base _lastKey _lastValue1]; [done | by rewrite lastOf_snoc | congruence].
Qed.

(** A new writer *)
Lemma newSkip_ok m :
  storeOk m ->
  exists w m' p, sbind (new_BufferedSkipListWriter PFOR_DELTA_COMPRESS_MODE) (fun w => lift (Init mvS w)) m = Ok (w, m') /\ skipItems m' w p [] [] [] 0 /\
    (brk m <= p_list p < brk m')%nat /\ (forall x, x ∈ (p_chain p).*1 -> (brk m <= x)%nat) /\
    (forall x, (x < brk m)%nat -> slices m' !! x = slices m !! x /\ lists m' !! x = lists m !! x).
Proof.
  intros Hst. destruct (new_BufferedByteSlice_ok mvS false PFOR_DELTA_COMPRESS_MODE m (skip_wf sse junk version o) Hst) as (b & m' & l & C & b' & Hnew & Hinit & Hbuf & _ & _ & Hl & HC & Hfr).
  eexists _, m', (mkPlace l C []). split; [|split; [split|done]].
  - unfold new_BufferedSkipListWriter. erewrite sbind_ok; [|erewrite sbind_ok; [|exact Hnew]; reflexivity]. cbv beta iota. unfold Init. cbn [base]. rewrite Hinit. reflexivity.
  - cbn [base p_list p_chain p_encs]. split; [|..].
    + replace (chunk 32 (skipRows [] [] []) (0 / 32)) with (noRows mvS); [exact Hbuf|]. unfold noRows, skipRows, DocListSkipListFormat_Init. by destruct (_hasTfList o).
    + unfold even, skipRows. destruct (_hasTfList o); repeat constructor.
    + unfold skipRows, DocListSkipListFormat_Init. by destruct (_hasTfList o).
    + cbn. lia.
  - done.
  - done.
Qed.

(** A writer whose items can be read, before or after [FinishFlush] *)
Definition skipReadable (m : Store) (w : BufferedSkipListWriter) (p : Place) (keys ttfs sizes : list Z) (n : nat) : Prop :=
  exists exact mode K, stored mvS exact mode 32 m (base w) (p_list p) (p_chain p) (skipRows keys ttfs sizes) n K (p_encs p) /\ (n <= S K * 32)%nat /\
    if exact then mode = SHORT_LIST_COMPRESS_MODE /\ K = 1%nat /\ (0 < n <= 10)%nat else mode = PFOR_DELTA_COMPRESS_MODE.

Lemma skipItems_readable m w p keys ttfs sizes n : skipItems m w p keys ttfs sizes n -> skipReadable m w p keys ttfs sizes n.
Proof. intros [Hs _ _]. exists false, PFOR_DELTA_COMPRESS_MODE, (n / 32)%nat. destruct (div_push 32 n ltac:(lia)) as [Hr _]. split; [done|]. split; [lia | done]. Qed.

(** The records that are flushed at last *)
Lemma FinishFlush_ok m w p keys ttfs sizes n :
  skipItems m w p keys ttfs sizes n -> (0 < n)%nat -> Z.of_nat n < 2 ^ 20 -> lastOf 0 keys < 2 ^ 31 ->
  exists k w' m' p', FinishFlush w m = Ok ((k, w'), m') /\ extends m m' p p' /\ skipReadable m' w' p' keys ttfs sizes n.
Proof.
  intros [Hs Hkey _] H0 Hn Hlast. destruct (div_push 32 n ltac:(lia)) as [Hr _]. unfold FinishFlush, IsReferenceCompress. rewrite (stored_total _ _ _ 32 ltac:(lia) _ _ _ _ _ _ _ _ Hs), u32_small, Hkey by lia.
  replace (lastOf 0 keys =? INVALID_LAST_KEY) with false by (symmetry; apply Z.eqb_neq; change INVALID_LAST_KEY with (2 ^ 32 - 1); lia).
  unfold ShortList.GetSkipListCompressMode, ShortList.IsShortSkipList, ShortList.MAX_UNCOMPRESSED_SKIP_LIST_SIZE. pose proof (stored_size _ _ _ 32 ltac:(lia) _ _ _ _ _ _ _ _ Hs) as Hsz.
  destruct (Z.leb_spec (Z.of_nat n) 10) as [Hshort|Hlong].
  - assert (n / 32 = 0)%nat as Hz by (apply Nat.div_small; lia). rewrite Hz in Hs. assert (p_encs p = []) as Hnil by (destruct Hs as [[[_ Hb _] _] _ _ _]; by inversion Hb). rewrite Hnil in Hs.
    destruct (stored_mode _ _ _ 32 true SHORT_LIST_COMPRESS_MODE _ _ _ _ _ _ Hs) as (Hb & He & Hrow).
    assert (stored mvS true SHORT_LIST_COMPRESS_MODE 32 m (base w) (p_list p) (p_chain p) (skipRows keys ttfs sizes) n 0 []) as Hs0 by (split; [done | done | done | lia]).
    destruct (stored_flush _ _ _ 32 ltac:(lia) _ _ _ _ _ _ _ _ (proj2 (skip_lawful sse junk version Hjunk o)) Hs0) as (b' & m' & C' & new & Hrun & Hs' & _ & Hadv); [lia | lia | lia|].
    srun Hrun. eexists _, _, m', (mkPlace (p_list p) C' [new]). split; [reflexivity|]. split; [split; [done|]; split; [done|]; rewrite Hnil; apply prefix_nil|].
    exists true, SHORT_LIST_COMPRESS_MODE, 1%nat. split; [done|]. split; [lia|]. split; [done|]. split; [done | lia].
  - destruct (Nat.eq_dec n (n / 32 * 32)) as [He|He].
    + rewrite (sbind_ok _ _ _ _ _ (Flush_empty PFOR_DELTA_COMPRESS_MODE m (base w) ltac:(rewrite Hsz; lia))). cbv beta iota. eexists _, _, m, p. split; [reflexivity|]. split; [apply extends_refl|].
      exists false, PFOR_DELTA_COMPRESS_MODE, (n / 32)%nat. split; [done|]. split; [lia | done].
    + destruct (stored_flush _ _ _ 32 ltac:(lia) _ _ _ _ _ _ _ _ (proj1 (skip_lawful sse junk version Hjunk o)) Hs) as (b' & m' & C' & new & Hrun & Hs' & _ & Hadv); [lia | lia | lia|].
      srun Hrun. eexists _, _, m', (mkPlace (p_list p) C' (p_encs p ++ [new])). split; [reflexivity|]. split; [split; [done|]; split; [done | by eexists]|].
      exists false, PFOR_DELTA_COMPRESS_MODE, (S (n / 32)). split; [done|]. split; [lia | done].
Qed.

End Writer.
End SkipWriterCorrect.
