(* ===== verification/DocListEncoding.v ===== *)
(** * The document list encoder keeps its documents

    [DocListEncoder] keeps the documents of a term in records of 128, an item of the skip list for each of them, and the rest in
    the buffer. *)

From stdpp Require Import base list numbers option tactics gmap sorting.
From Stdlib Require Import ZArith Lia ZifyNat ZifyBool.
From S2P Require Import Prelude Bits WordCode WordStream ByteSliceList SliceChain ByteSliceWriter ByteSliceWriterCorrect IntEncoders IntEncodersCorrect PostingRecords PostingBuffer ShortBufferCorrect PostingBufferCorrect PostingColumns SkipList SkipListCorrect DocList DocListRows.

#[local] Open Scope Z_scope.
#[local] Open Scope store_scope.

Module DocEncoding.
Import Rows Encoders Buffered WriterCorrect BufferedCorrect Columns DocRows Snapshots SkipWriterCorrect DocEncoder.

(** ** Documents *)

(** A document: its id, its payload, and the fields of the positions of the term in it *)
Record Doc := mkDoc { d_id : Z; d_payload : Z; d_fields : list Z }.

Definition d_tf (d : Doc) : Z := Z.of_nat (length (d_fields d)).
Definition addField (fieldMap field : Z) : Z := Z.lor fieldMap (Z.shiftl 1 field mod 256).
Definition d_map (d : Doc) : Z := foldl addField 0 (d_fields d).

Definition ids (ds : list Doc) : list Z := map d_id ds.
Definition tfs (ds : list Doc) : list Z := map d_tf ds.

(** The calls for a document *)
Definition addDoc (d : Doc) (e : DocListEncoder) : SM DocListEncoder :=
  EndDocument (d_id d) (d_payload d) (foldl (fun e f => AddPosition f e) e (d_fields d)).

Fixpoint addDocs (ds : list Doc) (e : DocListEncoder) : SM DocListEncoder :=
  match ds with [] => ret e | d :: ds => let* e := addDoc d e in addDocs ds e end.

(** Documents in the order of their ids, not more than the lengths of 31 bits can count *)
Record goodDocs (ds : list Doc) : Prop := {
  gd_ids : ascending 0 (ids ds);
  gd_last : lastOf 0 (ids ds) < 2 ^ 31 - 1;
  gd_tf : sumTo (tfs ds) (length ds) < 2 ^ 31;
  gd_payload : Forall (fun d => fits 16 (d_payload d)) ds;
  gd_count : Z.of_nat (length ds) < 2 ^ 24
}.

(** The same as a test *)
Fixpoint ascendingb (p : Z) (xs : list Z) : bool := match xs with [] => true | x :: xs => (p <=? x) && ascendingb x xs end.

Definition goodDocsb (ds : list Doc) : bool :=
  ascendingb 0 (ids ds) && (lastOf 0 (ids ds) <? 2 ^ 31 - 1) && (sumTo (tfs ds) (length ds) <? 2 ^ 31) &&
  forallb (fun d => (0 <=? d_payload d) && (d_payload d <? 2 ^ 16)) ds && (Z.of_nat (length ds) <? 2 ^ 24).

Lemma ascendingb_ok p xs : ascendingb p xs = true -> ascending p xs.
Proof.
  revert p. induction xs as [|x xs IH]; intros p H; [repeat constructor|]. cbn in H. apply andb_prop in H as [Hp H]. constructor; [by apply IH | constructor; lia].
Qed.

Lemma goodDocsb_ok ds : goodDocsb ds = true -> goodDocs ds.
Proof.
  intros H. apply andb_prop in H as [H H5]. apply andb_prop in H as [H H4]. apply andb_prop in H as [H H3]. apply andb_prop in H as [H1 H2].
  split; [by apply ascendingb_ok | lia | lia | | lia]. apply List.Forall_forall. intros d Hd. rewrite forallb_forall in H4. specialize (H4 d Hd). split; lia.
Qed.

Lemma ascending_app p xs ys : ascending p (xs ++ ys) -> ascending p xs /\ ascending (lastOf p xs) ys.
Proof.
  revert p. induction xs as [|x xs IH]; intros p Ha; [split; [repeat constructor | done]|]. cbn [app] in Ha. apply ascending_cons in Ha as [Hp Ha].
  destruct (IH x Ha) as [H1 H2]. rewrite lastOf_cons. split; [|done]. constructor; [done | by constructor].
Qed.

Lemma ascending_last p xs : ascending p xs -> p <= lastOf p xs.
Proof. destruct xs as [|x xs]; [done|]. intros Ha. pose proof (ascending_range p _ 0%nat x Ha eq_refl). lia. Qed.

Lemma lastOf_app p xs ys : lastOf p (xs ++ ys) = lastOf (lastOf p xs) ys.
Proof. revert p. induction xs as [|x xs IH]; intros p; [done|]. cbn [app]. by rewrite !lastOf_cons. Qed.

Lemma tfs_pos ds : Forall (fun v => 0 <= v) (tfs ds).
Proof. unfold tfs. apply Forall_lookup_2. intros i v Hi. apply (list_lookup_fmap_Some_1 d_tf ds) in Hi as (d & -> & _). unfold d_tf. lia. Qed.

Lemma sumTo_app_le xs ys p : (p <= length xs)%nat -> sumTo (xs ++ ys) p = sumTo xs p.
Proof. intros Hp. unfold sumTo. by rewrite take_app_le. Qed.

Lemma goodDocs_app ds more : goodDocs (ds ++ more) -> goodDocs ds.
Proof.
  intros [Hi Hl Ht Hp Hc]. unfold ids, tfs in *. rewrite map_app in *. rewrite length_app in *. destruct (ascending_app _ _ _ Hi) as [H1 H2].
  rewrite lastOf_app in Hl. pose proof (ascending_last _ _ H2). split; unfold ids, tfs.
  - done.
  - lia.
  - pose proof (tfs_pos (ds ++ more)) as Hpos. unfold tfs in Hpos. rewrite map_app in Hpos. pose proof (sumTo_le _ (length ds) (length ds + length more) Hpos ltac:(lia)) as Hs.
    rewrite sumTo_app_le in Hs by (by rewrite length_map). lia.
  - by apply Forall_app in Hp as [? _].
  - lia.
Qed.

(** ** The items of the skip list *)

Definition keyAt (ds : list Doc) (k : nat) : Z := lastOf 0 (take (S k * 128) (ids ds)).
Definition ttfAt (ds : list Doc) (k : nat) : Z := sumTo (tfs ds) (S k * 128).
Definition keysOf (ds : list Doc) (K : nat) : list Z := map (keyAt ds) (seq 0 K).
Definition ttfsOf (ds : list Doc) (K : nat) : list Z := map (ttfAt ds) (seq 0 K).
Definition sizesOf (encs : list (list Z)) : list Z := map (fun enc => Z.of_nat (length enc)) encs.

Lemma keysOf_S ds K : keysOf ds (S K) = keysOf ds K ++ [keyAt ds K].
Proof. unfold keysOf. by rewrite seq_S, map_app. Qed.

Lemma ttfsOf_S ds K : ttfsOf ds (S K) = ttfsOf ds K ++ [ttfAt ds K].
Proof. unfold ttfsOf. by rewrite seq_S, map_app. Qed.

Lemma keysOf_app ds more K : (K * 128 <= length ds)%nat -> keysOf (ds ++ more) K = keysOf ds K /\ ttfsOf (ds ++ more) K = ttfsOf ds K.
Proof.
  intros HK. unfold keysOf, ttfsOf, keyAt, ttfAt, ids, tfs. split; apply map_ext_in; intros k Hk; apply in_seq in Hk; rewrite map_app.
  - by rewrite take_app_le by (rewrite length_map; lia).
  - by rewrite sumTo_app_le by (rewrite length_map; lia).
Qed.

(** The last values *)
Lemma lastOf_take_le p xs i j : ascending p xs -> (i <= j)%nat -> lastOf p (take i xs) <= lastOf p (take j xs).
Proof.
  intros Ha Hij. rewrite <- (take_drop i (take j xs)), take_take, Nat.min_l by done. rewrite lastOf_app. apply ascending_last.
  rewrite <- (take_drop j xs) in Ha. apply ascending_app in Ha as [Ha _]. rewrite <- (take_drop i (take j xs)), take_take, Nat.min_l in Ha by done. by apply ascending_app in Ha as [_ Ha].
Qed.

Lemma lastOf_keys ds K : lastOf 0 (keysOf ds K) = match K with O => 0 | S k => keyAt ds k end.
Proof. destruct K; [done|]. by rewrite keysOf_S, lastOf_snoc. Qed.

Lemma lastOf_ttfs ds K : lastOf 0 (ttfsOf ds K) = match K with O => 0 | S k => ttfAt ds k end.
Proof. destruct K; [done|]. by rewrite ttfsOf_S, lastOf_snoc. Qed.

Lemma keyAt_range ds k : goodDocs ds -> 0 <= lastOf 0 (keysOf ds k) <= keyAt ds k /\ keyAt ds k <= lastOf 0 (ids ds).
Proof.
  intros [Hi _ _ _ _]. rewrite lastOf_keys. pose proof (lastOf_take_le 0 _ 0 (S k * 128) Hi ltac:(lia)) as H0. rewrite take_0 in H0.
  pose proof (lastOf_take_le 0 _ (S k * 128) (Nat.max (S k * 128) (length (ids ds))) Hi ltac:(lia)) as H1. rewrite (take_ge _ (Nat.max _ _)) in H1 by lia. split; [|done].
  destruct k as [|k]; [by split|]. unfold keyAt. split; [|apply lastOf_take_le; [done | lia]].
  pose proof (lastOf_take_le 0 _ 0 (S k * 128) Hi ltac:(lia)) as H2. by rewrite take_0 in H2.
Qed.

Lemma ttfAt_range ds k : 0 <= lastOf 0 (ttfsOf ds k) <= ttfAt ds k /\ ttfAt ds k <= sumTo (tfs ds) (length ds).
Proof.
  rewrite lastOf_ttfs. assert (length (tfs ds) = length ds) as Hl by (unfold tfs; by rewrite length_map). unfold ttfAt. split.
  - destruct k as [|k]; [pose proof (sumTo_le _ 0 (1 * 128) (tfs_pos ds) ltac:(lia)) as H0; rewrite sumTo_0 in H0; lia|]. apply sumTo_le; [apply tfs_pos | lia].
  - destruct (Nat.le_gt_cases (S k * 128) (length ds)); [by apply sumTo_le; [apply tfs_pos|]|]. rewrite (sumTo_ge _ (S k * 128)) by lia. by rewrite Hl.
Qed.

(** ** The invariant *)

Section Encoder.
Context (sse : bool) (junk : list Z) (version : Z) (Hjunk : Records.isBuffer junk) (o : DocListFormatOption).
Abbreviation mvD := (DocListFormat_Init sse junk version o).
Abbreviation skipItems := (skipItems sse junk version o).
Abbreviation skipReadable := (skipReadable sse junk version o).

Definition docRows (ds : list Doc) : list (list Z) :=
  [deltas 0 (ids ds)] ++ (if _hasTfList o then [tfs ds] else []) ++ (if _hasDocPayload o then [map d_payload ds] else []) ++
  (if _hasFieldMap o then [map d_map ds] else []).

Definition docColumn (prev : Z) (d : Doc) : list Z :=
  [d_id d - prev] ++ (if _hasTfList o then [d_tf d] else []) ++ (if _hasDocPayload o then [d_payload d] else []) ++ (if _hasFieldMap o then [d_map d] else []).

Lemma docRows_snoc ds d : addColumn (docRows ds) (docColumn (lastOf 0 (ids ds)) d) = docRows (ds ++ [d]).
Proof. unfold docRows, docColumn, addColumn, ids, tfs. rewrite !map_app. cbn [map]. rewrite deltas_snoc. by destruct (_hasTfList o), (_hasDocPayload o), (_hasFieldMap o). Qed.

(** The writer of the skip list has an item for each of the [K] records. *)
Definition skipPart (m : Store) (s : option SkipWriter.BufferedSkipListWriter) (sp : option Place) (ds : list Doc) (K : nat) (encs : list (list Z)) : Prop :=
  match s, sp with
  | None, None => K = 0%nat
  | Some w, Some q => (0 < K)%nat /\ skipItems m w q (keysOf ds K) (ttfsOf ds K) (sizesOf encs) K
  | _, _ => False
  end.

(** The two lists are in the store, and have no slice in common. *)
Definition apart (m : Store) (p : Place) (sp : option Place) : Prop :=
  (p_list p < brk m)%nat /\
  match sp with
  | None => True
  | Some q => (p_list q < brk m)%nat /\ p_list q <> p_list p /\ forall x, x ∈ (p_chain p).*1 -> x ∈ (p_chain q).*1 -> False
  end.

(** [e] holds the documents [ds], [K] records of them flushed. *)
Record holdsDocs (m : Store) (e : DocListEncoder) (p : Place) (sp : option Place) (ds : list Doc) (K : nat) : Prop := {
  hd_stored : stored mvD false PFOR_DELTA_COMPRESS_MODE 128 m (_docListBuffer e) (p_list p) (p_chain p) (docRows ds) (length ds) K (p_encs p);
  hd_skip : skipPart m (_docSkipListWriter e) sp ds K (p_encs p);
  hd_apart : apart m p sp
}.

(** The members of the encoder *)
Record settings (e : DocListEncoder) (ds : list Doc) : Prop := {
  se_option : _docListFormatOption e = o;
  se_format : _docListFormat e = new_DocListFormat sse junk version o;
  se_mode : _compressMode e = PFOR_DELTA_COMPRESS_MODE;
  se_bitmap : _tfBitmapWriter e = None;
  se_last : _lastDocId e = lastOf 0 (ids ds);
  se_total : _totalTF e = sumTo (tfs ds) (length ds)
}.

(** More is written to both lists. *)
Definition grown (p p' : Place) (sp sp' : option Place) : Prop :=
  longer p p' /\ match sp, sp' with None, _ => True | Some q, Some q' => longer q q' | Some _, None => False end.

Lemma grown_refl p sp : grown p p sp sp.
Proof. split; [done|]. by destruct sp. Qed.

Lemma grown_trans p1 p2 p3 s1 s2 s3 : grown p1 p2 s1 s2 -> grown p2 p3 s2 s3 -> grown p1 p3 s1 s3.
Proof. intros [H1 H2] [H3 H4]. split; [by eapply longer_trans|]. destruct s1, s2, s3; try done. by eapply longer_trans. Qed.

Lemma extends_longer m m' p p' : extends m m' p p' -> longer p p'.
Proof. intros (H1 & [_ H2] & H3). done. Qed.

(** ** A record is flushed *)

Lemma keyAt_all ds K : (length ds <= S K * 128)%nat -> keyAt ds K = lastOf 0 (ids ds) /\ ttfAt ds K = sumTo (tfs ds) (length ds).
Proof.
  intros H. unfold keyAt, ttfAt. rewrite take_ge by (unfold ids; rewrite length_map; lia). split; [done|].
  rewrite sumTo_ge by (unfold tfs; rewrite length_map; lia). unfold tfs. by rewrite length_map.
Qed.

(** The item of a record *)
Lemma recordItem_ok m e w p q ds K encs size :
  goodDocs ds -> settings e ds -> (K * 128 < length ds <= S K * 128)%nat -> fits 32 (Z.of_nat size) ->
  stored mvD false PFOR_DELTA_COMPRESS_MODE 128 m (_docListBuffer e) (p_list p) (p_chain p) (docRows ds) (length ds) (S K) (p_encs p) ->
  skipItems m w q (keysOf ds K) (ttfsOf ds K) (sizesOf encs) K -> apart m p (Some q) -> (exists enc, p_encs p = encs ++ [enc] /\ length enc = size) ->
  exists w' m' q', AddSkipListItem (Z.of_nat size) w e m = Ok (w', m') /\ holdsDocs m' (set_buffers (_docListBuffer e) (Some w') e) p (Some q') ds (S K) /\ longer q q'.
Proof.
  intros Hg [_ Hfmt _ _ Hlast Htot] HK Hsz Hd Hs (Hp & Hq & Hne & Hdis) (enc & Henc & Hlen). destruct (keyAt_all ds K ltac:(lia)) as [Hk Ht].
  destruct (keyAt_range ds K Hg) as [Hkr Hkl]. destruct (ttfAt_range ds K) as [Htr Htl]. pose proof Hg as [_ Hgl Hgt _ Hgc].
  destruct (addItem_ok sse junk version Hjunk o m w q _ _ _ K (keyAt ds K) (ttfAt ds K) (Z.of_nat size) Hs) as (w' & m' & q' & Hrun & Hext & Hs'); [lia | lia | lia | lia | lia | done|].
  unfold AddSkipListItem. rewrite Hfmt, Hlast, Htot, <- Hk, <- Ht, !u32_small by lia. change (skipListHasTf _) with (_hasTfList o). exists w', m', q'. split; [by destruct (_hasTfList o)|].
  pose proof Hext as (Hl' & Hadv & _). split; [|by eapply extends_longer].
  assert (stored mvD false PFOR_DELTA_COMPRESS_MODE 128 m' (_docListBuffer e) (p_list p) (p_chain p) (docRows ds) (length ds) (S K) (p_encs p)) as Hd'.
  { eapply stored_other; [exact Hd | exact Hadv | apply (stored_store _ _ _ _ _ _ _ _ _ _ _ _ (sk_stored _ _ _ _ _ _ _ _ _ _ _ Hs')) | by apply not_eq_sym | done]. }
  split; cbn [_docListBuffer _docSkipListWriter set_buffers].
  - done.
  - split; [lia|]. unfold sizesOf. rewrite keysOf_S, ttfsOf_S, Henc, map_app. cbn [map]. by rewrite Hlen.
  - pose proof (ev_brk _ _ _ _ _ (proj1 Hadv)). split; [lia|]. rewrite Hl'. split; [lia|]. split; [done|].
    eapply advances_apart; [exact Hadv | | done]. intros x Hx. destruct Hd as [[[Hw _ _] _] _ _ _]. by eapply writes_slices.
Qed.

Lemma flushedAs_bound mv exact mode m b l C recs encs enc : flushedAs mv exact mode m b l C recs (encs ++ [enc]) -> Z.of_nat (length enc) < 2 ^ 31.
Proof. intros [_ _ (mode' & Hi & _)]. pose proof (FlushInfoCorrect.sa_range _ _ _ _ _ Hi) as [Hr _]. rewrite concat_snoc, length_app in Hr. lia. Qed.

(** [FlushDocListBuffer] of documents that fill a record, or of the last ones *)
Lemma flushRecord_ok m e p sp ds K :
  goodDocs ds -> settings e ds -> holdsDocs m e p sp ds K -> (K * 128 < length ds <= S K * 128)%nat ->
  exists b' w' m' p' q', FlushDocListBuffer PFOR_DELTA_COMPRESS_MODE e m = Ok (set_buffers b' (Some w') e, m') /\
    holdsDocs m' (set_buffers b' (Some w') e) p' (Some q') ds (S K) /\ grown p p' sp (Some q').
Proof.
  intros Hg Hset [Hd Hs (Hp & Ha)] HK. pose proof Hg as [_ _ _ _ Hgc].
  destruct (stored_flush _ _ _ 128 ltac:(lia) _ _ _ _ _ _ _ _ (doc_lawful sse junk version Hjunk o _ (or_introl eq_refl)) Hd HK) as (b' & m1 & C' & new & Hrun & Hd1 & Hpos & Hadv); [lia | lia|].
  pose proof (flushedAs_bound _ _ _ _ _ _ _ _ _ _ (proj1 (st_buffers _ _ _ _ _ _ _ _ _ _ _ _ Hd1))) as Hlen. pose proof (stored_store _ _ _ _ _ _ _ _ _ _ _ _ Hd1) as Hst1. pose proof (ev_brk _ _ _ _ _ (proj1 Hadv)) as Hbrk.
  unfold FlushDocListBuffer. srun Hrun. rewrite u32_small, (proj2 (Z.ltb_lt 0 _)) by lia. set (e1 := set_buffers b' _ e). set (p1 := mkPlace (p_list p) C' (p_encs p ++ [new])).
  assert (settings e1 ds) as Hset1 by (by destruct Hset; split). assert (longer p p1) as Hlp by (split; [done|]; split; [apply Hadv | by eexists]).
  assert (exists w0 m2 q0, match _docSkipListWriter e1 with None => CreateDocSkipListWriter e1 | Some w => ret w end m1 = Ok (w0, m2) /\
    skipItems m2 w0 q0 (keysOf ds K) (ttfsOf ds K) (sizesOf (p_encs p)) K /\ apart m2 p1 (Some q0) /\
    stored mvD false PFOR_DELTA_COMPRESS_MODE 128 m2 b' (p_list p) C' (docRows ds) (length ds) (S K) (p_encs p1) /\
    match sp with None => True | Some q => longer q q0 end) as (w0 & m2 & q0 & Hw0 & Hs2 & Ha2 & Hd2 & Hq0).
  { cbn [e1 set_buffers _docSkipListWriter]. unfold skipPart in Hs. destruct (_docSkipListWriter e) as [w|], sp as [q|]; try done.
    - destruct Hs as [HK0 [Hss Hkey Httf]], Ha as (Hq & Hne & Hdis). exists w, m1, q. split; [done|]. split_and!; try done.
      + split; [|done|done]. eapply stored_other; [exact Hss | exact Hadv | done | done|]. intros x Hx Hx'. by eapply Hdis.
      + split; [cbn; lia|]. split; [lia|]. split; [done|]. intros x Hx Hx'. revert Hx. eapply (advances_apart _ _ _ _ _ (p_chain q).*1 Hadv); [| |exact Hx'].
        * intros y Hy. destruct Hss as [[[Hw _ _] _] _ _ _]. by eapply writes_slices.
        * intros y Hy Hy'. by eapply Hdis.
    - subst K. destruct (newSkip_ok sse junk version o m1 Hst1) as (w & m2 & q & Hnew & Hs2 & Hq & HCq & Hfr). exists w, m2, q.
      assert (p_encs p = []) as Hnil by (destruct Hd as [[[_ Hb _] _] _ _ _]; by inversion Hb). rewrite Hnil. cbn [sizesOf keysOf ttfsOf map seq].
      assert (forall x, x ∈ C'.*1 -> (x < brk m1)%nat) as HC' by (intros x Hx; destruct Hd1 as [[[Hw _ _] _] _ _ _]; by eapply writes_slices).
      split; [|split; [done|split; [|split; [|done]]]].
      + unfold CreateDocSkipListWriter. rewrite (se_mode _ _ Hset1), (se_format _ _ Hset1). exact Hnew.
      + split; [cbn; lia|]. split; [lia|]. split; [cbn; lia|]. intros x Hx Hx'. pose proof (HC' x Hx). pose proof (HCq x Hx'). lia.
      + eapply stored_frame; [exact Hd1 | apply (stored_store _ _ _ _ _ _ _ _ _ _ _ _ (sk_stored _ _ _ _ _ _ _ _ _ _ _ Hs2)) | apply Hfr; lia|]. intros x Hx. by apply Hfr, HC'. }
  srun Hw0. destruct (recordItem_ok m2 e1 w0 p1 q0 ds K (p_encs p) (length new) Hg Hset1 HK) as (w' & m' & q' & Hadd & Hh & Hlq); [split; lia | exact Hd2 | exact Hs2 | exact Ha2 | by exists new|].
  srun Hadd. exists b', w', m', p1, q'. split; [reflexivity|]. split; [exact Hh|]. split; [done|]. destruct sp as [q|]; [by eapply longer_trans | done].
Qed.

(** ** A document is added *)

(** [AddPosition] for every field *)
Definition positioned (fields : list Z) (e : DocListEncoder) : DocListEncoder :=
  mkDocEncoder (_docListBuffer e) (_isDocIdContinuous e) (_docListFormatOption e)
    (if _hasFieldMap (_docListFormatOption e) then foldl addField (_fieldMap e) fields else _fieldMap e)
    (_currentTF e + Z.of_nat (length fields)) (_totalTF e + Z.of_nat (length fields)) (_df e) (_lastDocId e) (_lastDocPayload e) (_lastFieldMap e) (_compressMode e)
    (_tfBitmapWriter e) (_docSkipListWriter e) (_docListFormat e).

Lemma addPositions_ok fields : forall e, 0 <= _currentTF e <= _totalTF e -> _totalTF e + Z.of_nat (length fields) < 2 ^ 31 ->
  foldl (fun e f => AddPosition f e) e fields = positioned fields e.
Proof.
  induction fields as [|f fields IH]; intros e Hc Ht; cbn [foldl length] in *.
  - unfold positioned. cbn [length foldl]. rewrite !Z.add_0_r. destruct e. cbn. by destruct (_hasFieldMap _).
  - replace (AddPosition f e) with (positioned [f] e) by (unfold AddPosition, positioned; by rewrite !i32_small by lia).
    rewrite IH by (cbn; lia). unfold positioned. cbn [_docListBuffer _isDocIdContinuous _docListFormatOption _fieldMap _currentTF _totalTF _df _lastDocId _lastDocPayload _lastFieldMap _compressMode _tfBitmapWriter _docSkipListWriter _docListFormat foldl length].
    f_equal; [|lia|lia]. by destruct (_hasFieldMap _).
Qed.

(** The encoder after the pushes of [AddDocument] *)
Definition pushed (b : BufferedByteSlice) (d : Doc) (fieldMap : Z) (e : DocListEncoder) : DocListEncoder :=
  mkDocEncoder b (_isDocIdContinuous e) (_docListFormatOption e) (_fieldMap e) (_currentTF e) (_totalTF e) (_df e) (d_id d) (d_payload d) fieldMap
    (_compressMode e) (_tfBitmapWriter e) (_docSkipListWriter e) (_docListFormat e).

Lemma AddDocument_pushed m e d b1 fm :
  _docListFormatOption e = o -> _compressMode e = PFOR_DELTA_COMPRESS_MODE -> fits 32 (d_id d - _lastDocId e) -> d_tf d < 2 ^ 31 -> (_hasFieldMap o = true -> fm = d_map d) ->
  pushAll 0 (cellsOfColumn mvD (docColumn (_lastDocId e) d)) (_docListBuffer e) = Ok b1 ->
  AddDocument (d_id d) (d_payload d) (d_tf d) fm e m =
    (if NeedFlush 128 (EndPushBack b1) then FlushDocListBuffer PFOR_DELTA_COMPRESS_MODE (pushed (EndPushBack b1) d fm e) m else Ok (pushed (EndPushBack b1) d fm e, m)).
Proof.
  intros Ho Hmode [Hd1 Hd2] Htf Hfm Hpush. assert (0 <= d_tf d) by (unfold d_tf; lia). unfold AddDocument, pushed. cbn [_compressMode]. rewrite Ho, Hmode. cbn [isReference negb]. rewrite !u32_small by lia.
  revert Hpush Hfm. unfold cellsOfColumn, docColumn, DocListFormat_Init, pushOptional.
  destruct (_hasTfList o), (_hasDocPayload o), (_hasFieldMap o); cbn [app zip zip_with map _atomicValues AddAtomicValue addRow snd fst new_MultiValue sizeT pushAll]; intros Hpush Hfm; rewrite <- ?Hfm in Hpush by done;
    repeat (let b := fresh "b" in let E := fresh "E" in apply res_bind_Ok in Hpush as (b & E & Hpush); rewrite E; cbn [res_bind]; rewrite ?sbind_lift; cbv beta iota); injection Hpush as ->; by destruct (NeedFlush 128 _).
Qed.

Record encoding (m : Store) (e : DocListEncoder) (p : Place) (sp : option Place) (ds : list Doc) : Prop := {
  en_settings : settings e ds;
  en_docs : goodDocs ds;
  en_holds : holdsDocs m e p sp ds (length ds / 128);
  en_df : _df e = Z.of_nat (length ds);
  en_current : _currentTF e = 0;
  en_map : _fieldMap e = 0
}.

Lemma d_map_fits d : fits 8 (d_map d).
Proof.
  unfold d_map. assert (forall fields x, fits 8 x -> fits 8 (foldl addField x fields)) as H; [|apply H; split; lia].
  induction fields as [|f fields IH]; intros x Hx; [done|]. cbn [foldl]. apply IH. unfold addField. destruct Hx as [H0 H1]. pose proof (Z.mod_pos_bound (Z.shiftl 1 f) 256 ltac:(lia)) as Hm. split.
  - apply Z.lor_nonneg. lia.
  - apply Z.log2_lt_cancel. rewrite Z.log2_lor by lia. change (Z.log2 (2 ^ 8)) with 8. assert (forall z, 0 <= z < 2 ^ 8 -> Z.log2 z < 8) as Hl; [|pose proof (Hl x ltac:(lia)); pose proof (Hl _ Hm); lia].
    intros z Hz. destruct (Z.eq_dec z 0) as [->|]; [done|]. apply Z.log2_lt_pow2; lia.
Qed.

Lemma docColumn_good ds d : goodDocs (ds ++ [d]) -> goodColumn mvD (docColumn (lastOf 0 (ids ds)) d) /\ 0 <= lastOf 0 (ids ds) <= d_id d /\ d_id d < 2 ^ 31 - 1 /\
  sumTo (tfs (ds ++ [d])) (length (ds ++ [d])) = sumTo (tfs ds) (length ds) + d_tf d /\ 0 <= sumTo (tfs ds) (length ds).
Proof.
  intros Hg. pose proof (goodDocs_app _ _ Hg) as [Hi0 _ _ _ _]. destruct Hg as [Hi Hl Ht Hp _]. unfold ids, tfs in *. rewrite map_app in *. destruct (ascending_app _ _ _ Hi) as [_ Ha]. apply ascending_cons in Ha as [Ha _].
  pose proof (ascending_last _ _ Hi0). rewrite lastOf_app in Hl. cbn [map] in *. rewrite lastOf_cons in Hl. cbn in Hl. apply Forall_app in Hp as [_ Hp]. apply Forall_cons_1 in Hp as [Hp _].
  assert (sumTo (map d_tf ds ++ [d_tf d]) (length (ds ++ [d])) = sumTo (map d_tf ds) (length ds) + d_tf d) as Hsum.
  { rewrite length_app, Nat.add_1_r, (sumTo_S _ _ (d_tf d)); [|by rewrite lookup_app_r, length_map, Nat.sub_diag by (rewrite length_map; lia)]. by rewrite sumTo_app_le by (by rewrite length_map). }
  rewrite Hsum in Ht. assert (0 <= d_tf d) by (unfold d_tf; lia). pose proof (sumTo_le _ 0 (length ds) (tfs_pos ds) ltac:(lia)) as Hpos. rewrite sumTo_0 in Hpos. unfold tfs in Hpos. split; [|split_and!; (done || lia)].
  pose proof (d_map_fits d). unfold goodColumn, docColumn, DocListFormat_Init.
  destruct (_hasTfList o), (_hasDocPayload o), (_hasFieldMap o); repeat first [apply List.Forall2_nil | apply List.Forall2_cons; [first [done | split; cbn; lia]|]].
Qed.

Lemma skipPart_app m s sp ds more K encs : (K * 128 <= length ds)%nat -> skipPart m s sp ds K encs -> skipPart m s sp (ds ++ more) K encs.
Proof. intros HK. unfold skipPart. destruct (keysOf_app ds more K HK) as [-> ->]. done. Qed.

(** A document *)
Lemma addDoc_ok m e p sp ds d :
  encoding m e p sp ds -> goodDocs (ds ++ [d]) ->
  exists e' m' p' sp', addDoc d e m = Ok (e', m') /\ encoding m' e' p' sp' (ds ++ [d]) /\ grown p p' sp sp'.
Proof.
  intros [Hset Hg0 Hh Hdf Hcur Hmap] Hg. destruct (docColumn_good ds d Hg) as (Hcol & Hid & Hid' & Hsum & Hpos). pose proof Hg as [_ _ Hgt _ Hgc]. rewrite Hsum in Hgt. rewrite length_app in Hgc. cbn [length] in Hgc.
  destruct Hset as [Ho Hfmt Hmode Hbit Hlast Htot]. destruct Hh as [Hd Hs Ha]. destruct (div_push 128 (length ds) ltac:(lia)) as [Hr Hdiv].
  assert (0 <= d_tf d) by (unfold d_tf; lia). unfold addDoc. rewrite addPositions_ok by (fold (d_tf d); lia).
  destruct (stored_push _ _ _ 128 ltac:(lia) _ _ _ _ _ _ _ _ _ Hd Hr Hcol) as (b1 & Hpush & Hd1 & Hneed). rewrite docRows_snoc in Hd1. change (Z.of_nat 128) with 128 in Hneed.
  unfold EndDocument. set (c := if _isDocIdContinuous _ && _ then _ else _). set (e0 := mkDocEncoder _ c _ _ _ _ _ _ _ _ _ _ _ _).
  assert (_currentTF e0 = d_tf d /\ (_hasFieldMap o = true -> _fieldMap e0 = d_map d)) as [Htf Hfm].
  { cbn. rewrite Hcur, Ho, Hmap. split; [done|]. by intros ->. }
  rewrite Htf. replace (length (ds ++ [d])) with (S (length ds)) in * by (rewrite length_app; cbn; lia).
  pose proof (AddDocument_pushed m e0 d b1 (_fieldMap e0) Ho Hmode) as Hadd. cbn [e0 positioned _lastDocId _docListBuffer] in Hadd. rewrite Hlast in Hadd. specialize (Hadd ltac:(split; lia) ltac:(lia) Hfm Hpush).
  set (e1 := pushed _ d _ e0) in Hadd. assert (settings e1 (ds ++ [d])) as Hset1.
  { split; cbn; try done; [unfold ids; rewrite map_app; symmetry; apply lastOf_snoc|]. rewrite Htot. fold (d_tf d). rewrite <- Hsum. by rewrite length_app, Nat.add_1_r. }
  assert (holdsDocs m e1 p sp (ds ++ [d]) (length ds / 128)) as Hh1.
  { split; [cbn [e1 pushed _docListBuffer]; by rewrite length_app, Nat.add_1_r | apply skipPart_app; [lia | exact Hs] | done]. }
  assert (exists b' s' m' p' sp', AddDocument (d_id d) (d_payload d) (d_tf d) (_fieldMap e0) e0 m = Ok (set_buffers b' s' e1, m') /\
    holdsDocs m' (set_buffers b' s' e1) p' sp' (ds ++ [d]) (S (length ds) / 128) /\ grown p p' sp sp') as (b' & s' & m' & p' & sp' & Hrun & Hh' & Hgr).
  { rewrite Hadd, Hneed, Hdiv. destruct (Nat.eqb_spec (S (length ds)) (S (length ds / 128) * 128)) as [He|He].
    - destruct (flushRecord_ok m e1 p sp (ds ++ [d]) (length ds / 128) Hg Hset1 Hh1) as (b' & w' & m' & p' & q' & Hf & Hh' & Hgr); [rewrite length_app; cbn [length]; lia|]. by exists b', (Some w'), m', p', (Some q').
    - exists (EndPushBack b1), (_docSkipListWriter e1), m, p, sp. split; [done|]. split; [exact Hh1 | apply grown_refl]. }
  srun Hrun. cbn [set_buffers e1 pushed e0 positioned _tfBitmapWriter _totalTF _df]. rewrite Hbit. cbv beta iota. rewrite (sbind_ok _ _ _ _ _ (eq_refl : ret None m' = _)). cbv beta iota.
  eexists _, m', p', sp'. split; [reflexivity|]. split; [|done]. split; [|done| |..].
  - by destruct Hset1; split.
  - rewrite length_app, Nat.add_1_r. by destruct Hh'; split.
  - cbn. rewrite Hdf, i32_small, length_app by lia. cbn. lia.
  - done.
  - done.
Qed.

Lemma addDocs_ok more : forall m e p sp ds,
  encoding m e p sp ds -> goodDocs (ds ++ more) ->
  exists e' m' p' sp', addDocs more e m = Ok (e', m') /\ encoding m' e' p' sp' (ds ++ more) /\ grown p p' sp sp'.
Proof.
  induction more as [|d more IH]; intros m e p sp ds He Hg.
  - rewrite app_nil_r. exists e, m, p, sp. split; [done|]. split; [done | apply grown_refl].
  - assert (goodDocs ((ds ++ [d]) ++ more)) as Hg' by (by rewrite <- app_assoc). destruct (addDoc_ok m e p sp ds d He (goodDocs_app _ _ Hg')) as (e1 & m1 & p1 & sp1 & Hrun & He1 & Hgr1).
    destruct (IH m1 e1 p1 sp1 _ He1 Hg') as (e2 & m2 & p2 & sp2 & Hrun2 & He2 & Hgr2). cbn [addDocs]. srun Hrun. rewrite <- app_assoc in He2. exists e2, m2, p2, sp2. split; [done|]. split; [done | by eapply grown_trans].
Qed.

(** A new encoder *)
Lemma new_DocListEncoder_ok m : storeOk m -> _hasTfBitmap o = false ->
  exists e m' p, new_DocListEncoder sse junk version o None PFOR_DELTA_COMPRESS_MODE m = Ok (e, m') /\ encoding m' e p None [].
Proof.
  intros Hst Hbit. destruct (new_BufferedByteSlice_ok mvD false PFOR_DELTA_COMPRESS_MODE m (doc_wf sse junk version o) Hst) as (b & m' & l & C & b' & Hnew & Hinit & Hbuf & _ & _ & Hl & HC & Hfr).
  unfold new_DocListEncoder. srun Hnew. change (rows (new_DocListFormat sse junk version o)) with mvD. rewrite Hinit, sbind_lift, Hbit. eexists _, m', (mkPlace l C []). split; [reflexivity|].
  split; try done.
  - split; try done; repeat constructor.
  - split; [split| |].
    + cbn [_docListBuffer length]. replace (chunk 128 (docRows []) (0 / 128)) with (noRows mvD); [exact Hbuf|]. unfold noRows, docRows, DocListFormat_Init. by destruct (_hasTfList o), (_hasDocPayload o), (_hasFieldMap o).
    + unfold even, docRows. destruct (_hasTfList o), (_hasDocPayload o), (_hasFieldMap o); repeat constructor.
    + unfold docRows, DocListFormat_Init. by destruct (_hasTfList o), (_hasDocPayload o), (_hasFieldMap o).
    + cbn. lia.
    + done.
    + split; [cbn; lia | done].
Qed.

(** ** Encoders that can be read, before or after [Flush] *)

Definition skipShown (m : Store) (s : option SkipWriter.BufferedSkipListWriter) (sp : option Place) (ds : list Doc) (K : nat) (encs : list (list Z)) : Prop :=
  match s, sp with
  | None, None => (length ds <= 128)%nat
  | Some w, Some q => (0 < K)%nat /\ skipReadable m w q (keysOf ds K) (ttfsOf ds K) (sizesOf encs) K
  | _, _ => False
  end.

Record readable (m : Store) (e : DocListEncoder) (p : Place) (sp : option Place) (ds : list Doc) : Prop := {
  re_settings : settings e ds;
  re_docs : goodDocs ds;
  re_df : _df e = Z.of_nat (length ds);
  re_lists : exists mode K, stored mvD false mode 128 m (_docListBuffer e) (p_list p) (p_chain p) (docRows ds) (length ds) K (p_encs p) /\
    (length ds <= S K * 128)%nat /\ skipShown m (_docSkipListWriter e) sp ds K (p_encs p);
  re_apart : apart m p sp
}.

Lemma holds_shown m e p sp ds K : holdsDocs m e p sp ds K -> (length ds <= S K * 128)%nat -> skipShown m (_docSkipListWriter e) sp ds K (p_encs p).
Proof.
  intros [_ Hs _] HK. unfold skipPart, skipShown in *. destruct (_docSkipListWriter e), sp; try done; [|subst; lia]. destruct Hs as [H0 Hs]. split; [done|]. by apply skipItems_readable.
Qed.

Lemma encoding_readable m e p sp ds : encoding m e p sp ds -> readable m e p sp ds.
Proof.
  intros [Hset Hg Hh Hdf _ _]. destruct (div_push 128 (length ds) ltac:(lia)) as [Hr _]. split; try done; [|by destruct Hh].
  exists PFOR_DELTA_COMPRESS_MODE, (length ds / 128)%nat. split; [by destruct Hh|]. split; [lia|]. eapply holds_shown; [done | lia].
Qed.

Lemma settings_buffers b s e ds : settings e ds -> settings (set_buffers b s e) ds.
Proof. by intros [? ? ? ? ? ?]; split. Qed.

(** A short list is flushed as it is. *)
Lemma Flush_short m e p sp ds :
  encoding m e p sp ds -> (length ds <= 5)%nat ->
  exists e' m' p', FlushDocListBuffer SHORT_LIST_COMPRESS_MODE e m = Ok (e', m') /\ _docSkipListWriter e' = None /\ sp = None /\ readable m' e' p' None ds /\ longer p p'.
Proof.
  intros He Hn. pose proof (encoding_readable _ _ _ _ _ He) as Hre. destruct He as [Hset Hg [Hd Hs Ha] Hdf _ _]. rewrite Nat.div_small in Hd, Hs by lia.
  assert (_docSkipListWriter e = None /\ sp = None) as [Hnone ->] by (unfold skipPart in Hs; destruct (_docSkipListWriter e), sp; try done; lia).
  assert (p_encs p = []) as Hnil by (destruct Hd as [[[_ Hb _] _] _ _ _]; by inversion Hb). unfold FlushDocListBuffer.
  pose proof (stored_size _ _ _ 128 ltac:(lia) _ _ _ _ _ _ _ _ Hd) as Hsz. destruct (Nat.eq_dec (length ds) 0) as [H0|H0].
  - rewrite (sbind_ok _ _ _ _ _ (Flush_empty SHORT_LIST_COMPRESS_MODE m (_docListBuffer e) ltac:(rewrite Hsz; lia))). cbv beta iota. change (0 <? u32 0) with false. cbv iota.
    eexists _, m, p. split; [reflexivity|]. split; [exact Hnone|]. split; [done|]. split; [|apply longer_refl].
    destruct Hre as [? ? ? Hl ?]. split; try done. by apply settings_buffers.
  - rewrite Hnil in Hd. destruct (stored_mode _ _ _ 128 false SHORT_LIST_COMPRESS_MODE _ _ _ _ _ _ Hd) as (Hb & Hev & Hrow).
    assert (stored mvD false SHORT_LIST_COMPRESS_MODE 128 m (_docListBuffer e) (p_list p) (p_chain p) (docRows ds) (length ds) 0 []) as Hd0 by (split; [done | done | done | lia]).
    destruct (stored_flush _ _ _ 128 ltac:(lia) _ _ _ _ _ _ _ _ (doc_lawful sse junk version Hjunk o _ (or_intror eq_refl)) Hd0) as (b' & m' & C' & new & Hrun & Hd' & Hpos & Hadv); [lia | lia | lia|].
    srun Hrun. eexists _, m', (mkPlace (p_list p) C' [new]). rewrite (Tauto.if_same (0 <? u32 (Z.of_nat (length new)))). split; [reflexivity|]. split; [exact Hnone|]. split; [done|]. split; [|split; [done|]; split; [apply Hadv | rewrite Hnil; apply prefix_nil]].
    split; try done; [by apply settings_buffers| |].
    + exists SHORT_LIST_COMPRESS_MODE, 1%nat. split; [done|]. split; [lia|]. cbn [set_buffers _docSkipListWriter]. rewrite Hnone. cbn. lia.
    + pose proof (ev_brk _ _ _ _ _ (proj1 Hadv)). destruct Ha as [Ha _]. split; [cbn; lia | done].
Qed.

(** The skip list is finished. *)
Lemma finishSkip_ok m e p sp ds K :
  goodDocs ds -> settings e ds -> _df e = Z.of_nat (length ds) -> holdsDocs m e p sp ds K -> (0 < K)%nat -> (length ds <= S K * 128)%nat -> Z.of_nat K <= 131072 ->
  exists s m' sp', match _docSkipListWriter e with None => ret None | Some w => let* (_, w) := SkipWriter.FinishFlush w in ret (Some w) end m = Ok (s, m') /\
    readable m' (set_buffers (_docListBuffer e) s e) p sp' ds /\ grown p p sp sp'.
Proof.
  intros Hg Hset Hdf [Hd Hs Ha] H0 HK HK2. unfold skipPart in Hs. destruct (_docSkipListWriter e) as [w|] eqn:Hw, sp as [q|]; try done; [|lia]. destruct Hs as [_ Hs].
  pose proof (keyAt_range ds K Hg) as [Hk1 Hk2]. pose proof Hg as [_ Hgl _ _ _].
  destruct (FinishFlush_ok sse junk version Hjunk o m w q _ _ _ K Hs H0) as (k & w' & m' & q' & Hrun & Hext & Hread); [lia | lia|].
  srun Hrun. eexists _, m', (Some q'). split; [reflexivity|]. destruct Hext as (Hl' & Hadv & Hpre). destruct Ha as (Hp & Hq & Hne & Hdis).
  assert (storeOk m') as Hst by (destruct Hread as (? & ? & ? & Hr & _); apply (stored_store _ _ _ _ _ _ _ _ _ _ _ _ Hr)).
  split; [|split; [apply longer_refl|]; split; [done|]; split; [apply Hadv | done]]. split; [by apply settings_buffers | done | done | |].
  - exists PFOR_DELTA_COMPRESS_MODE, K. split; [|split; [done | by split]]. eapply stored_other; [exact Hd | exact Hadv | done | by apply not_eq_sym | done].
  - pose proof (ev_brk _ _ _ _ _ (proj1 Hadv)). split; [lia|]. rewrite Hl'. split; [lia|]. split; [done|].
    eapply advances_apart; [exact Hadv | | done]. intros x Hx. destruct Hd as [[[Hwr _ _] _] _ _ _]. by eapply writes_slices.
Qed.

(** [Flush] *)
Lemma flushDocs_ok m e p sp ds :
  encoding m e p sp ds -> exists e' m' p' sp', Flush e m = Ok (e', m') /\ readable m' e' p' sp' ds /\ grown p p' sp sp'.
Proof.
  intros He. pose proof He as [Hset Hg Hh Hdf _ _]. pose proof Hg as [_ _ _ _ Hgc]. destruct (div_push 128 (length ds) ltac:(lia)) as [Hr _].
  unfold Flush, ShortList.IsShortDocList, ShortList.MAX_UNCOMPRESSED_DOC_LIST_SIZE. rewrite Hdf, (se_mode _ _ Hset). destruct (Z.leb_spec (Z.of_nat (length ds)) 5) as [Hn|Hn].
  - destruct (Flush_short m e p sp ds He ltac:(lia)) as (e' & m' & p' & Hrun & Hnone & -> & Hre & Hlp). srun Hrun. rewrite Hnone, (se_bitmap _ _ (re_settings _ _ _ _ _ Hre)).
    rewrite !(sbind_ok _ _ _ _ _ (eq_refl : ret None m' = _)). eexists _, m', p', None. split; [reflexivity|]. split; [|by split]. destruct Hre as [[? ? ? ? ? ?] ? ? Hl ?]. rewrite Hnone in Hl. split; [by split | done | done | exact Hl | done].
  - assert (exists e1 m1 p1 sp1 K, FlushDocListBuffer PFOR_DELTA_COMPRESS_MODE e m = Ok (e1, m1) /\ settings e1 ds /\ _df e1 = _df e /\ holdsDocs m1 e1 p1 sp1 ds K /\
      (0 < K)%nat /\ (length ds <= S K * 128)%nat /\ Z.of_nat K <= 131072 /\ grown p p1 sp sp1) as (e1 & m1 & p1 & sp1 & K & Hrun & Hset1 & Hdf1 & Hh1 & HK0 & HK1 & HK2 & Hgr1).
    { destruct (Nat.eq_dec (length ds) (length ds / 128 * 128)) as [Heq|Heq].
      - pose proof (stored_size _ _ _ 128 ltac:(lia) _ _ _ _ _ _ _ _ (hd_stored _ _ _ _ _ _ Hh)) as Hsz. unfold FlushDocListBuffer.
        rewrite (sbind_ok _ _ _ _ _ (Flush_empty PFOR_DELTA_COMPRESS_MODE m (_docListBuffer e) ltac:(rewrite Hsz; lia))). cbv beta iota. change (0 <? u32 0) with false. cbv iota.
        eexists _, m, p, sp, (length ds / 128)%nat. split; [reflexivity|]. split; [by apply settings_buffers|]. split; [done|]. split; [by destruct Hh; split|]. split_and!; [lia | lia | lia | apply grown_refl].
      - destruct (flushRecord_ok m e p sp ds (length ds / 128) Hg Hset Hh ltac:(lia)) as (b' & w' & m' & p' & q' & Hf & Hh' & Hgr).
        eexists _, m', p', (Some q'), (S (length ds / 128)). split; [exact Hf|]. split; [by apply settings_buffers|]. split; [done|]. split; [done|]. split_and!; [lia | lia | lia | done]. }
    srun Hrun. rewrite <- Hdf1 in Hdf. destruct (finishSkip_ok m1 e1 p1 sp1 ds K Hg Hset1 Hdf Hh1 HK0 HK1 HK2) as (s' & m2 & sp2 & Hfin & Hre & Hgr2). srun Hfin. rewrite (se_bitmap _ _ Hset1).
    rewrite (sbind_ok _ _ _ _ _ (eq_refl : ret None m2 = _)). eexists _, m2, p1, sp2. split; [reflexivity|]. split; [|by eapply grown_trans].
    destruct Hre as [[? ? ? ? ? ?] ? ? Hl ?]. split; [by split | done | done | exact Hl | done].
Qed.

End Encoder.
End DocEncoding.
