(* ===== verification/DocListDecoding.v ===== *)
(** * The document list decoder

    The skip list of a document list leads to the record of a document, and the decoder gives this record. *)

From stdpp Require Import base list numbers option tactics gmap sorting.
From Stdlib Require Import ZArith Lia ZifyNat ZifyBool.
From S2P Require Import Prelude Bits WordCode WordStream ByteSliceList SliceChain ByteSliceWriter BlockByteSliceList ByteSliceReader ByteSliceWriterCorrect ByteSliceReaderCorrect IntEncoders IntEncodersCorrect PostingRecords PostingBuffer ShortBufferCorrect PostingBufferCorrect SkipList SkipListCorrect DocList PostingColumns DocListRows DocListEncoding.

#[local] Open Scope Z_scope.
#[local] Open Scope store_scope.

(** ** The skip list of a document list

    [SkipTo] on a snapshot of the skip list stops at the first record whose last document id is not below the query, and says
    where the record is. *)

Module DocSkip.
Import Rows Encoders Buffered ReaderCorrect BufferedCorrect Columns DocRows Snapshots SkipWriterCorrect SkipCorrect DocEncoding DocDecoder.

Lemma sumTo_deltas_take p xs i : sumTo (deltas p xs) i = lastOf p (take i xs) - p.
Proof.
  revert p i. induction xs as [|x xs IH]; intros p i; [destruct i; unfold sumTo, lastOf; cbn; lia|]. destruct i as [|i]; [unfold sumTo, lastOf; cbn; lia|].
  cbn [take deltas]. rewrite lastOf_cons. unfold sumTo. cbn [take foldr]. fold (sumTo (deltas x xs) i). rewrite IH. lia.
Qed.

Lemma take_keysOf ds K i : (i <= K)%nat -> take i (keysOf ds K) = keysOf ds i /\ take i (ttfsOf ds K) = ttfsOf ds i.
Proof. intros H. unfold keysOf, ttfsOf. rewrite !firstn_map, take_seq, Nat.min_l by done. done. Qed.

(** The last id and the sum of the term frequencies before a record *)
Definition prevKey (ds : list Doc) (L : nat) : Z := lastOf 0 (keysOf ds L).
Definition prevTtf (ds : list Doc) (L : nat) : Z := lastOf 0 (ttfsOf ds L).

Lemma prevKey_S ds L : prevKey ds (S L) = keyAt ds L.
Proof. unfold prevKey. by rewrite keysOf_S, lastOf_snoc. Qed.

Lemma prevKey_le ds i j : goodDocs ds -> (i <= j)%nat -> prevKey ds i <= prevKey ds j.
Proof. intros Hg. induction 1 as [|j _ IH]; [done|]. rewrite prevKey_S. destruct (keyAt_range ds j Hg) as [[_ Hj] _]. unfold prevKey in *. lia. Qed.

Lemma sumTo_keys ds K i : (i <= K)%nat -> sumTo (deltas 0 (keysOf ds K)) i = prevKey ds i /\ sumTo (deltas 0 (ttfsOf ds K)) i = prevTtf ds i.
Proof. intros H. rewrite !sumTo_deltas_take. destruct (take_keysOf ds K i H) as [-> ->]. unfold prevKey, prevTtf. lia. Qed.

Lemma sumTo_sizes encs i : sumTo (sizesOf encs) i = Z.of_nat (startOf encs i).
Proof.
  unfold sumTo, startOf, sizesOf. rewrite firstn_map. induction (take i encs) as [|x xs IH]; [done|]. cbn [map foldr concat]. rewrite length_app, IH. lia.
Qed.

Lemma keysOf_ascending ds K : goodDocs ds -> ascending 0 (keysOf ds K) /\ ascending 0 (ttfsOf ds K).
Proof.
  intros Hg. induction K as [|K [IH1 IH2]]; [split; repeat constructor|]. rewrite keysOf_S, ttfsOf_S.
  split; apply ascending_snoc; [done | apply keyAt_range; done | done | apply ttfAt_range].
Qed.

Section Skip.
Context {R : BlockDataRetriever} (sse : bool) (junk : list Z) (version : Z) (o : DocListFormatOption).
Context (ds : list Doc) (Hg : goodDocs ds) (K : nat) (encs : list (list Z)) (HK : length encs = K) (Hsize : Z.of_nat (length (concat encs)) < 2 ^ 31).
Context (b : BufferedByteSlice) (q : Place) (smore : list Z) (exact : bool) (mode : CompressMode) (Ks : nat).
Abbreviation mvS := (DocListSkipListFormat_Init sse junk version o).
Abbreviation X := (skipRows o (keysOf ds K) (ttfsOf ds K) (sizesOf encs)).
Context (Hsnap : snapshot mvS exact mode 32 b q X K Ks).
Context (Hmode : if exact then mode = SHORT_LIST_COMPRESS_MODE /\ Ks = 1%nat /\ (0 < K <= 10)%nat else mode = PFOR_DELTA_COMPRESS_MODE).
Context (HK31 : Z.of_nat K < 2 ^ 30).

Abbreviation recsS := (map (chunk 32 X) (seq 0 Ks)).

(** The reader is behind the first [i] items, after [skipped] steps. *)
Definition skipAt (m : Store) (s : SkipListReader) (i : nat) (skipped : Z) : Prop :=
  match s with
  | PairSkip r => _hasTfList o = false /\
      pairAt (R := R) mvS exact mode b (p_list q) recsS (p_encs q) smore K (deltas 0 (keysOf ds K)) (sizesOf encs) m r i skipped
  | TriSkip r => _hasTfList o = true /\
      triAt (R := R) mvS exact mode b (p_list q) recsS (p_encs q) smore K (deltas 0 (keysOf ds K)) (deltas 0 (ttfsOf ds K)) (sizesOf encs) m r i skipped
  end.

Lemma skip_widths : Forall (fun a => sizeT a = 4%nat) (_atomicValues mvS).
Proof. unfold DocListSkipListFormat_Init. destruct (_hasTfList o); repeat constructor. Qed.

Lemma skip_fits : Forall (Forall (fits 32)) X.
Proof.
  destruct (keysOf_ascending ds K Hg) as [Hk Ht]. pose proof Hg as [_ Hgl Hgt _ _]. destruct (keyAt_range ds K Hg) as [Hk1 Hk2]. destruct (ttfAt_range ds K) as [Ht1 Ht2].
  assert (Forall (fits 32) (deltas 0 (keysOf ds K))) by (apply deltas_fits; [done | lia | lia]). assert (Forall (fits 32) (deltas 0 (ttfsOf ds K))) by (apply deltas_fits; [done | lia | lia]).
  assert (Forall (fits 32) (sizesOf encs)).
  { apply Forall_lookup_2. intros i v Hi. apply (list_lookup_fmap_Some_1 (fun enc => Z.of_nat (length enc)) encs) in Hi as (enc & -> & He). split; [lia|].
    pose proof (startOf_S encs i enc He) as Hs. pose proof (startOf_le encs (S i)). lia. }
  unfold skipRows. by destruct (_hasTfList o); repeat apply Forall_cons_2.
Qed.

Lemma skip_sums : sumTo (deltas 0 (keysOf ds K)) K < 2 ^ 31 /\ sumTo (deltas 0 (ttfsOf ds K)) K < 2 ^ 31 /\ sumTo (sizesOf encs) K < 2 ^ 31.
Proof.
  destruct (sumTo_keys ds K K ltac:(lia)) as [-> ->]. rewrite sumTo_sizes. pose proof Hg as [_ Hgl Hgt _ _]. destruct (keyAt_range ds K Hg) as [Hk1 Hk2]. destruct (ttfAt_range ds K) as [Ht1 Ht2].
  unfold prevKey, prevTtf. pose proof (startOf_le encs K). lia.
Qed.

(** [SkipTo] *)
Lemma SkipTo_ok m s i k query :
  skipAt m s i k -> (i <= K)%nat -> -1 <= k <= Z.of_nat i + 1 -> prevKey ds i <= query ->
  exists s' m', quiet (H := R) [] false m m' /\
    ((exists j len, (i <= j < K)%nat /\ query <= keyAt ds j /\ (forall j', (i <= j' < j)%nat -> keyAt ds j' < query) /\
        SkipTo query s m = Ok ((Some (keyAt ds j, prevKey ds j, Z.of_nat (startOf encs j), len), s'), m') /\ skipAt m' s' (S j) (k + Z.of_nat (j - i) + 1) /\
        GetPrevTTF s' = if _hasTfList o then prevTtf ds j else 0) \/
     ((forall j, (i <= j < K)%nat -> keyAt ds j < query) /\ SkipTo query s m = Ok ((None, s'), m') /\ skipAt m' s' K (k + Z.of_nat (K - i) + 1))).
Proof.
  intros Hat Hi Hk Hforward. destruct skip_sums as (Hs1 & Hs2 & Hs3). destruct Hsnap as [Hbl Hbuf Hinfo Hev Hrow Hch Hsz Htot].
  assert (forall j, (j < K)%nat -> sumTo (deltas 0 (keysOf ds K)) (S j) = keyAt ds j) as Hkey by (intros j Hj; rewrite (proj1 (sumTo_keys ds K (S j) ltac:(lia))); apply prevKey_S).
  unfold SkipTo. destruct s as [r|r]; destruct Hat as [Htf Hat].
  - assert (skipFuel (PairReader.source r) = S (S K)) as Hfuel. { unfold skipFuel. destruct Hat as [(L & base & [Hb _ _ _ _ _] & _) _ _ _]. rewrite Hb, Htot. lia. }
    pose proof Hat as Hat'. unfold skipRows in Hev, Hrow, Hch. rewrite Htf in *.
    destruct (pairSkipLoop_ok mvS exact mode b (p_list q) _ _ _ smore Hbl Hbuf Hinfo X K (sn_even _ _ _ _ _ _ _ _ _ Hsnap) (sn_chunks _ _ _ _ _ _ _ _ _ Hsnap) skip_widths (sn_rows _ _ _ _ _ _ _ _ _ Hsnap) skip_fits Htot
      (deltas 0 (keysOf ds K)) (sizesOf encs) ltac:(unfold skipRows; by rewrite Htf) ltac:(intros ->; lia) Hs1 Hs3 (skipFuel (PairReader.source r)) query (locals r) r i k m Hat') as (r' & m' & Hq & Hres); [done | lia | lia | lia|].
    assert (assertion (PairReader._currentKey r <=? query) m = Ok (tt, m)) as Hassert.
    { destruct Hat as [_ Hcur _ _]. cbn in Hcur. rewrite Hcur, (proj1 (sumTo_keys ds K i Hi)), (proj2 (Z.leb_le _ _)) by lia. done. }
    exists (PairSkip r'), m'. split; [done|]. destruct Hres as [(j & v & Hj & Hv & Hqj & Hlt & Hrun & Ha)|(Hlt & Hrun & Ha)].
    + left. exists j, v. rewrite Hkey in Hqj by lia. split; [done|]. split; [done|]. split; [intros j' Hj'; rewrite <- Hkey by lia; by apply Hlt|]. split; [|done].
      unfold PairReader.SkipTo. erewrite sbind_ok; [|srun Hassert; exact Hrun]. cbv beta iota. rewrite Hkey, (proj1 (sumTo_keys ds K j ltac:(lia))), sumTo_sizes by lia. done.
    + right. split; [intros j' Hj'; rewrite <- Hkey by lia; by apply Hlt|]. split; [|done]. unfold PairReader.SkipTo. erewrite sbind_ok; [|srun Hassert; exact Hrun]. done.
  - assert (skipFuel (TriReader.source r) = S (S K)) as Hfuel. { unfold skipFuel. destruct Hat as [(L & base & [Hb _ _ _ _ _] & _) _ _ _ _]. rewrite Hb, Htot. lia. }
    pose proof Hat as Hat'.
    destruct (triSkipLoop_ok mvS exact mode b (p_list q) _ _ _ smore Hbl Hbuf Hinfo X K (sn_even _ _ _ _ _ _ _ _ _ Hsnap) (sn_chunks _ _ _ _ _ _ _ _ _ Hsnap) skip_widths (sn_rows _ _ _ _ _ _ _ _ _ Hsnap) skip_fits Htot
      (deltas 0 (keysOf ds K)) (deltas 0 (ttfsOf ds K)) (sizesOf encs) ltac:(unfold skipRows; by rewrite Htf)
      ltac:(destruct exact; [destruct Hmode as (-> & -> & ?); split; [done|]; split; [done|]; split; [rewrite Hsz; lia | lia] | by subst mode]) Hs1 Hs2 Hs3 (skipFuel (TriReader.source r)) query (triLocals r) r i k m Hat') as (r' & m' & Hq & Hres); [done | lia | lia | lia|].
    assert (assertion (TriReader._currentDocId r <=? query) m = Ok (tt, m)) as Hassert.
    { destruct Hat as [_ Hcur _ _ _]. cbn in Hcur. rewrite Hcur, (proj1 (sumTo_keys ds K i Hi)), (proj2 (Z.leb_le _ _)) by lia. done. }
    exists (TriSkip r'), m'. split; [done|]. destruct Hres as [(j & v & Hj & Hv & Hqj & Hlt & Hrun & Ha & Hprev)|(Hlt & Hrun & Ha)].
    + left. exists j, v. rewrite Hkey in Hqj by lia. split; [done|]. split; [done|]. split; [intros j' Hj'; rewrite <- Hkey by lia; by apply Hlt|]. split; [|split; [done|]].
      * unfold TriReader.SkipTo. erewrite sbind_ok; [|srun Hassert; exact Hrun]. cbv beta iota. rewrite Hkey, (proj1 (sumTo_keys ds K j ltac:(lia))), sumTo_sizes by lia. done.
      * rewrite Htf. cbn. unfold TriReader.GetPrevTTF. rewrite Hprev. apply sumTo_keys. lia.
    + right. split; [intros j' Hj'; rewrite <- Hkey by lia; by apply Hlt|]. split; [|done]. unfold TriReader.SkipTo. erewrite sbind_ok; [|srun Hassert; exact Hrun]. done.
Qed.

(** The last values, behind the last item *)
Lemma skip_end m s k :
  skipAt m s K k ->
  GetLastKeyInBuffer s m = Ok (prevKey ds K, m) /\ GetLastValueInBuffer s m = Ok (Z.of_nat (startOf encs K), m) /\ GetCurrentTTF s = (if _hasTfList o then prevTtf ds K else 0).
Proof.
  intros Hat. destruct (sumTo_keys ds K K ltac:(lia)) as [Hk Ht]. pose proof (sumTo_sizes encs K) as Hv. destruct s as [r|r]; destruct Hat as [Htf Hat].
  - assert (PairReader._numInBuffer r <= PairReader._currentCursor r) as Hc by (destruct Hat as [(L & base & [_ _ Hp He Hc Hn32] & _) _ _ _]; cbn in *; lia).
    destruct Hat as [_ Hkey Hval _]. cbn in Hkey, Hval. unfold GetLastKeyInBuffer, GetLastValueInBuffer, PairReader.GetLastKeyInBuffer, PairReader.GetLastValueInBuffer.
    replace (Z.to_nat _) with 0%nat by lia. cbn [PairReader.lastLoop]. rewrite Hkey, Hval, Hk, Hv, Htf. done.
  - assert (TriReader._numInBuffer r <= TriReader._currentCursor r) as Hc by (destruct Hat as [(L & base & [_ _ Hp He Hc Hn32] & _) _ _ _ _]; cbn in *; lia).
    destruct Hat as [_ Hkey Httf Hval _]. cbn in Hkey, Httf, Hval. unfold GetLastKeyInBuffer, GetLastValueInBuffer, TriReader.MemGetLastKeyInBuffer, TriReader.MemGetLastValueInBuffer.
    replace (Z.to_nat _) with 0%nat by lia. cbn [TriReader.sumFrom GetCurrentTTF TriReader.GetCurrentTTF]. unfold TriReader.GetCurrentTTF. rewrite Hkey, Httf, Hval, Hk, Ht, Hv, Htf. done.
Qed.

Lemma skipAt_skipped m s i k : skipAt m s i k -> GetSkippedItemCount s = k.
Proof. destruct s; intros [_ Hat]; by destruct Hat. Qed.

(** Reading the other list changes nothing. *)
Lemma skipAt_quiet m m' s i k : skipAt m s i k -> quiet (H := R) [] false m m' -> skipAt m' s i k.
Proof.
  intros Hat Hq. assert (forall src L base c num, atItem mvS exact mode b (p_list q) recsS (p_encs q) smore K m i src L base c num -> atItem mvS exact mode b (p_list q) recsS (p_encs q) smore K m' i src L base c num) as Hi.
  { intros src L base c num [? [Hin _] ? ? ? ?]. split; try done. split; [by eapply inBlock_quiet | by apply (qu_store _ _ _ _ Hq)]. }
  destruct s; destruct Hat as [Htf Hat]; (split; [done|]); destruct Hat as [(L & base & Hat & Hb)]; (split; [|done..]); exists L, base; (split; [by apply Hi | done]).
Qed.

End Skip.
End DocSkip.

(** ** The document list decoder finds the records of the documents

    [InMemDocListDecoder] on a snapshot gives, for a document id, the first record that may have it, with its rows. *)

Module DocDecoding.
Import Rows Encoders Buffered EncodersCorrect ReaderCorrect BufferedCorrect Columns DocRows Snapshots SkipWriterCorrect SkipCorrect DocEncoding DocSkip DocDecoder.

(** ** What is to be found *)

Definition recordCount (ds : list Doc) : nat := chunkCount 128 (length ds).

(** The first record from [i] on whose last document is not below [start] *)
Definition findRecord (ds : list Doc) (i : nat) (start : Z) : option nat :=
  List.find (fun L => start <=? keyAt ds L) (seq i (recordCount ds - i)).

(** A row of record [L], in front of what the array had *)
Definition rowOf (row : list Z) (L : nat) (buffer : list Z) : list Z :=
  let vs := take 128 (drop (L * 128) row) in vs ++ drop (length vs) buffer.

(** What a search reads of a record *)
Record Block := mkBlock {
  bl_docs : DocBufferInfo;
  bl_tfs : option (list Z);
  bl_payloads : list Z;
  bl_maps : list Z;
  bl_seeked : Z
}.

(** The arrays a search decodes to *)
Record Arrays := mkArrays { a_docs : list Z; a_tfs : list Z; a_payloads : list Z; a_maps : list Z }.

Section Search.
Context {R : BlockDataRetriever} (o : DocListFormatOption) (arrays : Arrays).

(** The calls for a record: the ids from [start] on, then the other rows in their order *)
Definition readRecord (start : Z) (d : InMemDocListDecoder) : SM (option Block * InMemDocListDecoder) :=
  let* (r, d) := DecodeDocBuffer start (a_docs arrays) d in
  match r with
  | None => ret (None, d)
  | Some info =>
      let* (t, d) := if _hasTfList o then DecodeCurrentTFBuffer (a_tfs arrays) d else ret (None, d) in
      let* (pl, d) := if _hasDocPayload o then DecodeCurrentDocPayloadBuffer (a_payloads arrays) d else ret (a_payloads arrays, d) in
      let* (fm, d) := if _hasFieldMap o then DecodeCurrentFieldMapBuffer (a_maps arrays) d else ret (a_maps arrays, d) in
      ret (Some (mkBlock info t pl fm (GetSeekedDocCount d)), d)
  end.

(** One record after the other, until there is none *)
Fixpoint searchAll (starts : list Z) (d : InMemDocListDecoder) : SM (list Block) :=
  match starts with
  | [] => ret []
  | start :: starts =>
      let* (r, d) := readRecord start d in
      match r with None => ret [] | Some bl => let* bls := searchAll starts d in ret (bl :: bls) end
  end.

(** All records from the document [start] on *)
Fixpoint scanAll (fuel : nat) (start : Z) (d : InMemDocListDecoder) : SM (list Block) :=
  match fuel with
  | O => lift OutOfFuel
  | S fuel =>
      let* (r, d) := readRecord start d in
      match r with None => ret [] | Some bl => let* bls := scanAll fuel (lastDocId (bl_docs bl) + 1) d in ret (bl :: bls) end
  end.

(** The records of the documents [ds] that are to be found, from record [i] on *)
Definition blockOf (ds : list Doc) (L : nat) : Block :=
  mkBlock (mkInfo (rowOf (deltas 0 (ids ds)) L (a_docs arrays)) (default 0 (ids ds !! (L * 128)%nat)) (keyAt ds L) (if _hasTfList o then prevTtf ds L else 0))
    (if _hasTfList o then Some (rowOf (tfs ds) L (a_tfs arrays)) else None)
    (if _hasDocPayload o then rowOf (map d_payload ds) L (a_payloads arrays) else a_payloads arrays)
    (if _hasFieldMap o then rowOf (map d_map ds) L (a_maps arrays) else a_maps arrays)
    (Z.of_nat (L * 128)).

Fixpoint recordsFrom (ds : list Doc) (i : nat) (starts : list Z) : list Block :=
  match starts with
  | [] => []
  | start :: starts => match findRecord ds i start with None => [] | Some L => blockOf ds L :: recordsFrom ds (S L) starts end
  end.

(** A search goes forward: no id lies before the last document of the record that was found before it. *)
Fixpoint forward (ds : list Doc) (i : nat) (starts : list Z) : Prop :=
  match starts with
  | [] => True
  | start :: starts => prevKey ds i <= start /\ match findRecord ds i start with None => True | Some L => forward ds (S L) starts end
  end.

(** An array for the values of a record *)
Definition isArray (w : Z) (buffer : list Z) : Prop := length buffer = 128%nat /\ Forall (fits w) buffer.

Definition goodArrays : Prop := isArray 32 (a_docs arrays) /\ isArray 32 (a_tfs arrays) /\ isArray 16 (a_payloads arrays) /\ isArray 8 (a_maps arrays).

End Search.

Lemma recordCount_lt ds L : (L < recordCount ds)%nat <-> (L * 128 < length ds)%nat.
Proof. unfold recordCount, chunkCount. pose proof (Nat.div_mod (length ds + 128 - 1) 128). pose proof (Nat.mod_upper_bound (length ds + 128 - 1) 128). lia. Qed.

Lemma find_seq {P : nat -> bool} i n j : (i <= j < i + n)%nat -> P j = true -> (forall k, (i <= k < j)%nat -> P k = false) -> List.find P (seq i n) = Some j.
Proof.
  revert i. induction n as [|n IH]; intros i Hj HP Hlt; [lia|]. cbn. destruct (Nat.eq_dec i j) as [->|Hne]; [by rewrite HP|].
  rewrite (Hlt i) by lia. apply IH; [lia | done|]. intros k Hk. apply Hlt. lia.
Qed.

Lemma find_seq_none {P : nat -> bool} i n : (forall k, (i <= k < i + n)%nat -> P k = false) -> List.find P (seq i n) = None.
Proof. revert i. induction n as [|n IH]; intros i HP; [done|]. cbn. rewrite HP by lia. apply IH. intros k Hk. apply HP. lia. Qed.

Lemma findRecord_some ds i start L :
  (i <= L < recordCount ds)%nat -> start <= keyAt ds L -> (forall k, (i <= k < L)%nat -> keyAt ds k < start) -> findRecord ds i start = Some L.
Proof. intros HL Hs Hk. apply find_seq; [lia | lia|]. intros k Hk'. specialize (Hk k Hk'). lia. Qed.

Lemma findRecord_none ds i start : (forall k, (i <= k < recordCount ds)%nat -> keyAt ds k < start) -> findRecord ds i start = None.
Proof. intros Hk. apply find_seq_none. intros k Hk'. specialize (Hk k ltac:(lia)). lia. Qed.

Section Decoding.
Context {R : BlockDataRetriever} (sse : bool) (junk : list Z) (version : Z) (o : DocListFormatOption).
Context (ds : list Doc) (Hg : goodDocs ds).
Abbreviation mvD := (DocListFormat_Init sse junk version o).
Abbreviation n := (length ds).
Abbreviation rowCount := (length (_atomicValues mvD)).

(** The document list *)
Context (b : BufferedByteSlice) (p : Place) (more : list Z) (mode : CompressMode) (K : nat).
Context (Hsnap : snapshot mvD false mode 128 b p (docRows o ds) n K) (HK : (n <= S K * 128)%nat) (HK' : (K * 128 < n + 128)%nat).
Abbreviation recsD := (map (chunk 128 (docRows o ds)) (seq 0 K)).

(** The skip list, if there is one *)
Context (bS : BufferedByteSlice) (q : Place) (smore : list Z) (exactS : bool) (modeS : CompressMode) (Ks : nat).
Abbreviation skipAt := (skipAt (R := R) sse junk version o ds K (p_encs p) bS q smore exactS modeS Ks).
Context (hasSkip : bool).
Context (HsnapS : hasSkip = true -> snapshot (DocListSkipListFormat_Init sse junk version o) exactS modeS 32 bS q (skipRows o (keysOf ds K) (ttfsOf ds K) (sizesOf (p_encs p))) K Ks).
Context (HmodeS : hasSkip = true -> if exactS then modeS = SHORT_LIST_COMPRESS_MODE /\ Ks = 1%nat /\ (0 < K <= 10)%nat else modeS = PFOR_DELTA_COMPRESS_MODE).
Context (HnoSkip : hasSkip = false -> (n <= 128)%nat).

Definition at_ (m : Store) (r : BufferedByteSliceReader) (L i : nat) : Prop := inBlock (R := R) mvD false mode (p_list p) recsD (p_encs p) more m r L i.
Definition reaches (m : Store) (r : BufferedByteSliceReader) (L : nat) : Prop := mayReach (R := R) (p_list p) (p_encs p) more m r L.

(** ** Rows *)

Lemma doc_sizes : length (p_encs p) = K /\ Z.of_nat (length (concat (p_encs p))) < 2 ^ 31.
Proof.
  destruct Hsnap as [Hb _ (md & Hi & _) _ _ _ _ _]. apply Forall2_length in Hb. rewrite length_map, length_seq in Hb. pose proof (FlushInfoCorrect.sa_range _ _ _ _ _ Hi) as [? _]. split; lia.
Qed.

Lemma docRows_fits i row a : docRows o ds !! i = Some row -> _atomicValues mvD !! i = Some a -> Forall (fits (8 * Z.of_nat (sizeT a))) row /\ length row = n.
Proof.
  intros Hrow Ha. split; [|exact (Forall_lookup_1 _ _ _ _ (sn_even _ _ _ _ _ _ _ _ _ Hsnap) Hrow)]. pose proof Hg as [Hi Hl Ht Hp _].
  assert (Forall (fits 32) (deltas 0 (ids ds))) as H1 by (apply deltas_fits; [done | lia | lia]).
  assert (Forall (fits 32) (tfs ds)) as H2.
  { apply Forall_lookup_2. intros j v Hj. pose proof (Forall_lookup_1 _ _ _ _ (tfs_pos ds) Hj) as Hv. cbn in Hv. split; [lia|]. assert (length (tfs ds) = n) as Hlen by (unfold tfs; by rewrite length_map).
    pose proof (lookup_lt_Some _ _ _ Hj). pose proof (sumTo_le _ 0 j (tfs_pos ds) ltac:(lia)). pose proof (sumTo_le _ (S j) n (tfs_pos ds) ltac:(lia)) as Hle. rewrite (sumTo_S _ _ _ Hj) in Hle. lia. }
  assert (Forall (fits 16) (map d_payload ds)) as H3 by (apply Forall_map; exact Hp).
  assert (Forall (fits 8) (map d_map ds)) as H4 by (apply Forall_map, Forall_true; intros d; apply d_map_fits).
  revert Hrow Ha. unfold docRows, DocListFormat_Init.
  destruct (_hasTfList o), (_hasDocPayload o), (_hasFieldMap o); destruct i as [|[|[|[|]]]]; cbn; intros [= <-] [= <-]; done.
Qed.

(** [decodeRow] of row [i] of record [L] *)
Lemma decodeRow_ok m d L i row a buffer :
  _docListBuffer d = b -> at_ m (_docListReader d) L i -> storeOk m -> (L < recordCount ds)%nat -> docRows o ds !! i = Some row -> _atomicValues mvD !! i = Some a ->
  length buffer = 128%nat -> Forall (fits (8 * Z.of_nat (sizeT a))) buffer ->
  exists rd m', decodeRow buffer d m = Ok ((Some (rowOf row L buffer, Z.of_nat (Nat.min 128 (n - L * 128))), set_reader rd d), m') /\ quiet (H := R) [] false m m' /\
    (if (S i =? rowCount)%nat then at_ m' rd (S L) 0 else at_ m' rd L (S i)) /\ ((L < K)%nat -> reaches m' rd (S L)).
Proof.
  intros Hb Hat Hst HL Hrow Ha Hlen Hf. destruct (docRows_fits _ _ _ Hrow Ha) as [Hfr Hlr]. pose proof Hsnap as [Hbl Hbuf Hi _ _ Hch _ _].
  assert (blocks b recsD (chunk 128 (docRows o ds) K) !! L = Some (chunk 128 (docRows o ds) L)) as HLk.
  { rewrite Hch. etransitivity; [exact (list_lookup_fmap (chunk 128 (docRows o ds)) (seq 0 _) L)|]. by rewrite lookup_seq_lt. }
  assert (chunk 128 (docRows o ds) L !! i = Some (take 128 (drop (L * 128) row))) as Hv by (etransitivity; [exact (list_lookup_fmap _ (docRows o ds) i)|]; by rewrite Hrow).
  assert (length (take 128 (drop (L * 128) row)) = Nat.min 128 (n - L * 128)) as Hl by (by rewrite length_take, length_drop, Hlr).
  destruct (Decode_row mvD false mode b (p_list p) _ _ _ more Hbl Hbuf Hi m _ L i _ _ a buffer Hat Hst HLk Hv Ha) as (rd & m' & Hrun & Hq & Hnext & Hreach).
  - split; [done|]. rewrite Hl. lia.
  - lia.
  - exists rd, m'. unfold decodeRow. rewrite Hb. srun Hrun. rewrite Hl. unfold rowOf. rewrite Hl. split; [done|]. split; [done|]. split; [done|]. intros HLK. apply Hreach. by rewrite length_map, length_seq.
Qed.

(** ** States of the decoder *)

(** The decoder is behind the first [i] records. *)
Record decoding (m : Store) (d : InMemDocListDecoder) (i : nat) : Prop := {
  dc_buffer : _docListBuffer d = b;
  dc_store : storeOk m;
  dc_reference : DocDecoder._isReferenceCompress d = false;
  dc_finished : _finishDecoded d = false;
  dc_reader : reaches m (_docListReader d) i;
  dc_skip : match _skipListReader d with
            | None => hasSkip = false /\ i = 0%nat
            | Some s => hasSkip = true /\ skipAt m s i (Z.of_nat i - 1)
            end;
  dc_skipped : hasSkip = false -> _skipedItemCount d = 0
}.

(** The last record has been found. *)
Record finished (m : Store) (d : InMemDocListDecoder) : Prop := {
  fi_store : storeOk m;
  fi_finished : _finishDecoded d = true;
  fi_skip : match _skipListReader d with None => True | Some s => hasSkip = true /\ skipAt m s K (Z.of_nat K) end
}.

(** The decoder is behind the first [i] records, or behind the last one. *)
Definition position (m : Store) (d : InMemDocListDecoder) (i : nat) : Prop := (decoding m d i /\ (i <= K)%nat) \/ (i = recordCount ds /\ finished m d).

(** Record [L] has been found, and its first [i] rows are decoded. *)
Record found (m : Store) (d : InMemDocListDecoder) (L i : nat) : Prop := {
  fo_buffer : _docListBuffer d = b;
  fo_count : (L < recordCount ds)%nat;
  fo_row : if (i =? rowCount)%nat then True else at_ m (_docListReader d) L i;
  fo_seeked : _skipedItemCount d = Z.of_nat L;
  fo_next : position m d (S L)
}.

(** ** Ids of a record *)

Lemma prevKey_take L : prevKey ds L = lastOf 0 (take (L * 128) (ids ds)).
Proof. destruct L as [|L]; [done|]. by rewrite prevKey_S. Qed.

Lemma deltas_lookup pr xs j x : xs !! j = Some x -> deltas pr xs !! j = Some (x - lastOf pr (take j xs)).
Proof.
  revert pr j. induction xs as [|y xs IH]; intros pr j Hj; [done|]. destruct j as [|j]; [injection Hj as ->; done|].
  cbn [deltas take]. rewrite lastOf_cons. by apply IH.
Qed.

(** The first and the last document *)
Definition firstId (L : nat) : Z := default 0 (ids ds !! (L * 128)%nat).

Lemma firstId_ok L buffer : (L < recordCount ds)%nat ->
  rowOf (deltas 0 (ids ds)) L buffer !! 0%nat = Some (firstId L - prevKey ds L) /\ 0 <= prevKey ds L <= firstId L /\ firstId L < 2 ^ 31 - 1.
Proof.
  intros HL. apply recordCount_lt in HL. pose proof Hg as [Hi Hl _ _ _]. destruct (lookup_lt_is_Some_2 (ids ds) (L * 128)) as [x Hx]; [unfold ids; by rewrite length_map|].
  unfold firstId. rewrite Hx. change (default 0 (Some x)) with x. pose proof (ascending_range 0 _ _ _ Hi Hx) as Hr. unfold rowOf. split.
  - rewrite lookup_app_l by (rewrite length_take, length_drop, length_deltas; unfold ids; rewrite length_map; lia).
    rewrite lookup_take_lt, lookup_drop, Nat.add_0_r, (deltas_lookup _ _ _ _ Hx), prevKey_take by lia. done.
  - rewrite prevKey_take. pose proof (lastOf_take_le 0 _ 0 (L * 128) Hi ltac:(lia)) as H0. rewrite take_0 in H0. pose proof (lastOf_take_le 0 _ (L * 128) (S (L * 128)) Hi ltac:(lia)) as H1.
    rewrite (take_S_r _ _ _ Hx), lastOf_snoc in H1. unfold lastOf at 1 in H0. cbn in H0. split; [split; [exact H0 | exact H1] | lia].
Qed.

Lemma foldl_i32 xs : forall acc, Forall (fun v => 0 <= v) xs -> 0 <= acc -> acc + foldr Z.add 0 xs < 2 ^ 31 -> foldl (fun acc x => i32 (acc + x)) acc xs = acc + foldr Z.add 0 xs.
Proof.
  induction xs as [|x xs IH]; intros acc Hf Ha Hs; cbn [foldl foldr] in *; [lia|]. apply Forall_cons_1 in Hf as [Hx Hf].
  assert (0 <= foldr Z.add 0 xs) by (clear -Hf; induction Hf; cbn in *; lia). rewrite i32_small, IH by (done || lia). lia.
Qed.

Lemma lastId_ok L buffer : (L < recordCount ds)%nat ->
  foldl (fun acc x => i32 (acc + x)) (prevKey ds L) (take (Z.to_nat (Z.of_nat (Nat.min 128 (n - L * 128)))) (rowOf (deltas 0 (ids ds)) L buffer)) = keyAt ds L.
Proof.
  intros HL. apply recordCount_lt in HL. rewrite Nat2Z.id. assert (length (ids ds) = n) as Hn by (unfold ids; by rewrite length_map). pose proof Hg as [Hi Hl _ _ _].
  set (vs := take 128 (drop (L * 128) (deltas 0 (ids ds)))). assert (length vs = Nat.min 128 (n - L * 128)) as Hlen by (unfold vs; by rewrite length_take, length_drop, length_deltas, Hn).
  unfold rowOf. fold vs. rewrite <- Hlen, take_app_length. assert (prevKey ds L + foldr Z.add 0 vs = keyAt ds L) as Hsum.
  { rewrite prevKey_take. unfold keyAt. pose proof (sumTo_deltas_take 0 (ids ds) (L * 128)) as H1. pose proof (sumTo_deltas_take 0 (ids ds) (S L * 128)) as H2.
    unfold sumTo in H1, H2. replace (S L * 128)%nat with (L * 128 + 128)%nat in * by lia. rewrite <- take_take_drop, foldr_add_app in H2. fold vs in H2. lia. }
  destruct (firstId_ok L buffer ltac:(by apply recordCount_lt)) as (_ & Hp & _). destruct (keyAt_range ds L Hg) as [Hk1 Hk2]. rewrite foldl_i32; [done | | lia | lia].
  apply Forall_take, Forall_drop. eapply Forall_impl; [apply (deltas_fits 0 _ 32 Hi); lia|]. by intros v [? _].
Qed.

(** What [DecodeDocBuffer] says of a record *)
Definition recordInfo (L : nat) (buffer : list Z) : DocBufferInfo :=
  mkInfo (rowOf (deltas 0 (ids ds)) L buffer) (firstId L) (keyAt ds L) (if _hasTfList o then prevTtf ds L else 0).

Lemma first_row : exists a, _atomicValues mvD !! 0%nat = Some a /\ sizeT a = 4%nat /\ docRows o ds !! 0%nat = Some (deltas 0 (ids ds)).
Proof. unfold DocListFormat_Init, docRows. eexists. by destruct (_hasTfList o), (_hasDocPayload o), (_hasFieldMap o). Qed.

(** In front of row 1, when there is one *)
Definition afterFirst (m : Store) (rd : BufferedByteSliceReader) (L : nat) : Prop := if (1 =? rowCount)%nat then True else at_ m rd L 1.

(** The ids of record [L], where the reader can get *)
Lemma firstRow_ok m d L buffer :
  _docListBuffer d = b -> storeOk m -> reaches m (_docListReader d) L -> (L <= K)%nat -> isArray 32 buffer ->
  exists rd m1, Seek (Z.of_nat (startOf (p_encs p) L)) (_docListReader d) m = Ok (rd, m1) /\ quiet (H := R) [] false m m1 /\
    exists rd' m', quiet (H := R) [] false m1 m' /\
    decodeRow buffer (set_reader rd d) m1 = Ok ((if (L <? recordCount ds)%nat then Some (rowOf (deltas 0 (ids ds)) L buffer, Z.of_nat (Nat.min 128 (n - L * 128))) else None, set_reader rd' d), m') /\
    ((L < recordCount ds)%nat -> afterFirst m' rd' L /\ ((L < K)%nat -> reaches m' rd' (S L))).
Proof.
  intros Hb Hst Hr HL [Hlen Hf]. pose proof Hsnap as [Hbl Hbuf Hi _ _ Hch _ _].
  destruct (Seek_block mvD false mode b (p_list p) _ _ _ more Hbl Hbuf m _ L Hr) as (rd & m1 & Hseek & Hq1 & Hat & _); [by rewrite length_map, length_seq|].
  exists rd, m1. split; [done|]. split; [done|]. pose proof (qu_store _ _ _ _ Hq1) as Hst1. destruct first_row as (a & Ha & H4 & Hrow). destruct (Nat.ltb_spec L (recordCount ds)) as [Hlt|Hge].
  - destruct (decodeRow_ok m1 (set_reader rd d) L 0 _ a buffer Hb Hat Hst1 Hlt Hrow Ha Hlen) as (rd' & m' & Hrun & Hq & Hnext & Hreach); [by rewrite H4|].
    exists rd', m'. split; [done|]. split; [exact Hrun|]. intros _. split; [|done]. unfold afterFirst. by destruct (1 =? rowCount)%nat.
  - exists rd, m1. split; [by apply quiet_refl|]. split; [|lia]. unfold decodeRow. cbn [set_reader _docListBuffer _docListReader]. rewrite Hb.
    erewrite sbind_ok; [|eapply (Decode_finished mvD false mode b (p_list p) _ _ _ more Hbuf Hi m1 rd L 0); [exact Hat|]; rewrite Hch, length_map, length_seq; exact Hge]. done.
Qed.

(** [DecodeDocBufferWithoutSkipList] of the last record *)
Lemma withoutSkip_ok m d L start buffer :
  _docListBuffer d = b -> storeOk m -> DocDecoder._isReferenceCompress d = false -> _finishDecoded d = false -> reaches m (_docListReader d) L -> (L <= K)%nat -> isArray 32 buffer ->
  exists rd m', quiet (H := R) [] false m m' /\
    DecodeDocBufferWithoutSkipList (prevKey ds L) (Z.of_nat (startOf (p_encs p) L)) start buffer (if _hasTfList o then prevTtf ds L else 0) d m =
      Ok (if (L <? recordCount ds)%nat && (start <=? keyAt ds L) then (Some (recordInfo L buffer), set_finished (set_reader rd d)) else (None, set_reader rd d), m') /\
    ((L < recordCount ds)%nat -> afterFirst m' rd L).
Proof.
  intros Hb Hst Href Hfin Hr HL Hbuf. destruct (firstRow_ok m d L buffer Hb Hst Hr HL Hbuf) as (rd & m1 & Hseek & Hq1 & rd' & m' & Hq2 & Hrun & Hafter).
  exists rd', m'. split; [by eapply quiet_trans|]. split; [|intros HLt; by apply Hafter]. unfold DecodeDocBufferWithoutSkipList. rewrite Hfin. srun Hseek. srun Hrun. destruct (Nat.ltb_spec L (recordCount ds)) as [Hlt|Hge]; [|done]. cbn [andb].
  cbn [set_reader DocDecoder._isReferenceCompress]. rewrite Href. destruct (firstId_ok L buffer Hlt) as (Hfirst & Hp & Hf31). rewrite Hfirst. cbn [deref].
  erewrite sbind_ok; [|rewrite sbind_lift; reflexivity]. cbv beta iota. rewrite (lastId_ok L buffer Hlt).
  replace (firstId L - prevKey ds L + prevKey ds L) with (firstId L) by lia. rewrite i32_small by lia. rewrite Z.leb_antisym. by destruct (keyAt ds L <? start).
Qed.

(** ** [DecodeDocBuffer] *)

Lemma startOf_mono encs L L' : (L <= L')%nat -> (startOf encs L <= startOf encs L')%nat.
Proof.
  intros H. unfold startOf. rewrite <- (take_drop L (take L' encs)), take_take, Nat.min_l by done. rewrite concat_app, length_app. lia.
Qed.

Lemma reaches_later m m' rd L L' : reaches m rd L -> (L <= L')%nat -> quiet (H := R) [] false m m' -> reaches m' rd L'.
Proof. intros (pos & loc & Hr & Hp) HL Hq. exists pos, loc. split; [by eapply reading_quiet|]. pose proof (startOf_mono (p_encs p) _ _ HL). lia. Qed.

Lemma recordCount_K : (K <= recordCount ds <= S K)%nat.
Proof.
  destruct K as [|k] eqn:E; split; try lia.
  - destruct (Nat.le_gt_cases (recordCount ds) 1) as [?|H]; [done|]. apply recordCount_lt in H. lia.
  - pose proof (proj2 (recordCount_lt ds k) ltac:(lia)). lia.
  - destruct (Nat.le_gt_cases (recordCount ds) (S (S k))) as [?|H]; [done|]. apply recordCount_lt in H. lia.
Qed.

(** Without a skip list there is at most one record. *)
Lemma decodeShort_ok m d start buffer :
  decoding m d 0 -> _skipListReader d = None -> isArray 32 buffer ->
  exists d' m', quiet (H := R) [] false m m' /\
    match findRecord ds 0 start with
    | Some L => DecodeDocBuffer start buffer d m = Ok ((Some (recordInfo L buffer), d'), m') /\ found m' d' L 1
    | None => DecodeDocBuffer start buffer d m = Ok ((None, d'), m')
    end.
Proof.
  intros [Hb Hst Href Hfin Hr Hs Hsk] Hnone Hbuf. unfold DecodeDocBuffer. rewrite Hnone in *. destruct Hs as [Hno _]. pose proof (HnoSkip Hno) as Hn128. specialize (Hsk Hno).
  destruct (withoutSkip_ok m d 0 start buffer Hb Hst Href Hfin Hr ltac:(lia) Hbuf) as (rd & m' & Hq & Hrun & Hafter).
  change (prevKey ds 0) with 0 in Hrun. change (startOf (p_encs p) 0) with 0%nat in Hrun. replace (if _hasTfList o then prevTtf ds 0 else 0) with 0 in Hrun by (by destruct (_hasTfList o)). change (Z.of_nat 0) with 0 in Hrun. rewrite Hrun.
  assert (recordCount ds <= 1)%nat as H1 by (destruct (Nat.le_gt_cases (recordCount ds) 1) as [?|H]; [done|]; apply recordCount_lt in H; lia).
  destruct (Nat.ltb_spec 0 (recordCount ds)) as [Hlt|Hge], (Z.leb_spec start (keyAt ds 0)) as [Hle|Hgt]; cbn [andb]; eexists _, m'; (split; [done|]).
  - rewrite (findRecord_some ds 0 start 0) by (lia || done). split; [reflexivity|]. split; cbn [set_finished set_reader _docListBuffer _docListReader _skipedItemCount]; [done | done | by apply Hafter | done|].
    right. split; [lia|]. split; [apply (qu_store _ _ _ _ Hq) | done|]. cbn [set_finished set_reader _skipListReader]. by rewrite Hnone.
  - rewrite findRecord_none; [reflexivity|]. intros k Hk. by replace k with 0%nat by lia.
  - rewrite findRecord_none; [reflexivity|]. lia.
  - rewrite findRecord_none; [reflexivity|]. lia.
Qed.

(** With a skip list *)
Lemma decodeLong_ok m d i s start buffer :
  decoding m d i -> _skipListReader d = Some s -> (i <= K)%nat -> 0 <= start < 2 ^ 31 -> prevKey ds i <= start -> isArray 32 buffer ->
  exists d' m', quiet (H := R) [] false m m' /\
    match findRecord ds i start with
    | Some L => DecodeDocBuffer start buffer d m = Ok ((Some (recordInfo L buffer), d'), m') /\ found m' d' L 1
    | None => DecodeDocBuffer start buffer d m = Ok ((None, d'), m')
    end.
Proof.
  intros [Hb Hst Href Hfin Hr Hs Hsk] Hsome Hi Hstart Hforward Hbuf. unfold DecodeDocBuffer. rewrite Hsome in *. destruct Hs as [Hyes Hat]. destruct doc_sizes as [HlK Hl31]. pose proof recordCount_K as HcK. pose proof Hg as [_ Hgl Hgt _ Hgc]. assert (Z.of_nat K < 2 ^ 30) as HK30 by lia.
  rewrite u32_small by lia. destruct (SkipTo_ok sse junk version o ds Hg K (p_encs p) HlK Hl31 bS q smore exactS modeS Ks (HsnapS Hyes) (HmodeS Hyes) HK30 m s i _ start Hat Hi ltac:(lia) Hforward) as (s' & m1 & Hq1 & Hcase).
  pose proof (qu_store _ _ _ _ Hq1) as Hst1. destruct Hcase as [(j & len & Hj & Hle & Hlt & Hrun & Hat' & Hprev)|(Hlt & Hrun & Hat')]; srun Hrun.
  - pose proof (skipAt_skipped _ _ _ _ _ _ _ _ _ _ _ _ _ _ _ _ _ Hat') as Hcnt. rewrite (findRecord_some ds i start j); [|lia | done | done].
    destruct (firstRow_ok m1 (set_skip s' d) j buffer Hb Hst1) as (rd & m2 & Hseek & Hq2 & rd' & m' & Hq3 & Hdec & Hafter); [eapply reaches_later; [exact Hr | lia | done] | lia | done|].
    srun Hseek. srun Hdec. rewrite (proj2 (Nat.ltb_lt j _)) by lia. destruct (Hafter ltac:(lia)) as [Haf Hreach]. cbn [set_reader set_skip DocDecoder._isReferenceCompress]. rewrite Href.
    destruct (firstId_ok j buffer ltac:(lia)) as (Hfirst & Hp & Hf31). rewrite Hfirst. cbn [deref]. destruct (keyAt_range ds j Hg) as [Hk1 Hk2].
    eexists _, m'. split; [eapply quiet_trans; [exact Hq1 | by eapply quiet_trans]|]. split.
    + erewrite sbind_ok; [|rewrite sbind_lift; reflexivity]. cbv beta iota. rewrite Hprev, !i32_small by lia. replace (firstId j - prevKey ds j + prevKey ds j) with (firstId j) by lia. reflexivity.
    + split; cbn [set_reader set_skip _docListBuffer _docListReader _skipedItemCount]; [done | lia | done | rewrite Hcnt, u32_small; lia|]. left. split; [|lia].
      split; cbn [set_reader set_skip _docListBuffer _docListReader _skipedItemCount _skipListReader DocDecoder._isReferenceCompress _finishDecoded]; try done.
      * apply (qu_store _ _ _ _ Hq3).
      * apply Hreach. lia.
      * split; [done|]. replace (Z.of_nat (S j) - 1) with (Z.of_nat i - 1 + Z.of_nat (j - i) + 1) by lia. eapply skipAt_quiet; [exact Hat' | by eapply quiet_trans].
      * congruence.
  - pose proof (skipAt_skipped _ _ _ _ _ _ _ _ _ _ _ _ _ _ _ _ _ Hat') as Hcnt. destruct (skip_end sse junk version o ds K (p_encs p) HlK bS q smore exactS modeS Ks (HsnapS Hyes) m1 s' _ Hat') as (HLk & HLv & Httf). srun HLk. srun HLv. rewrite Httf.
    destruct (keyAt_range ds K Hg) as [Hk1 Hk2]. fold (prevKey ds K) in Hk1. rewrite i32_small by lia.
    destruct (withoutSkip_ok m1 (set_skip s' d) K start buffer Hb Hst1 Href Hfin) as (rd & m' & Hq2 & Hrun2 & Hafter); [eapply reaches_later; [exact Hr | lia | done] | done | done|]. rewrite Hrun2.
    destruct (Nat.ltb_spec K (recordCount ds)) as [HKlt|HKge], (Z.leb_spec start (keyAt ds K)) as [Hle|Hgt']; cbn [andb]; eexists _, m'; (split; [by eapply quiet_trans|]).
    + rewrite (findRecord_some ds i start K); [|lia | done | done]. split; [reflexivity|]. split; cbn [set_finished set_reader set_skip _docListBuffer _docListReader _skipedItemCount]; [done | done | by apply Hafter | rewrite Hcnt, u32_small; lia|].
      right. split; [lia|]. split; [apply (qu_store _ _ _ _ Hq2) | done|]. cbn [set_finished set_reader set_skip _skipListReader]. split; [done|].
      replace (Z.of_nat K) with (Z.of_nat i - 1 + Z.of_nat (K - i) + 1) by lia. by eapply skipAt_quiet.
    + rewrite findRecord_none; [reflexivity|]. intros k Hk. destruct (Nat.eq_dec k K) as [->|]; [done | apply Hlt; lia].
    + rewrite findRecord_none; [reflexivity|]. intros k Hk. apply Hlt. lia.
    + rewrite findRecord_none; [reflexivity|]. intros k Hk. apply Hlt. lia.
Qed.

(** After the last record there is no other. *)
Lemma decodeFinished_ok m d start buffer :
  finished m d -> 0 <= start < 2 ^ 31 -> prevKey ds K <= start -> exists d' m', quiet (H := R) [] false m m' /\ DecodeDocBuffer start buffer d m = Ok ((None, d'), m').
Proof.
  intros [Hst Hfin Hs] Hstart Hforward. unfold DecodeDocBuffer. destruct (_skipListReader d) as [s|].
  - destruct Hs as [Hyes Hat]. destruct doc_sizes as [HlK Hl31]. pose proof Hg as [_ Hgl _ _ Hgc]. assert (Z.of_nat K < 2 ^ 30) as HK30 by lia. rewrite u32_small by lia.
    destruct (SkipTo_ok sse junk version o ds Hg K (p_encs p) HlK Hl31 bS q smore exactS modeS Ks (HsnapS Hyes) (HmodeS Hyes) HK30 m s K _ start Hat ltac:(lia) ltac:(lia) Hforward) as (s' & m1 & Hq1 & Hcase).
    destruct Hcase as [(j & len & Hj & _)|(_ & Hrun & Hat')]; [lia|]. srun Hrun.
    destruct (skip_end sse junk version o ds K (p_encs p) HlK bS q smore exactS modeS Ks (HsnapS Hyes) m1 s' _ Hat') as (HLk & HLv & Httf). srun HLk. srun HLv.
    unfold DecodeDocBufferWithoutSkipList. cbn [set_skip _finishDecoded]. rewrite Hfin. by eexists _, m1.
  - unfold DecodeDocBufferWithoutSkipList. rewrite Hfin. eexists _, m. split; [by apply quiet_refl | done].
Qed.

Lemma DecodeDocBuffer_ok m d i start buffer :
  position m d i -> 0 <= start < 2 ^ 31 -> prevKey ds i <= start -> isArray 32 buffer ->
  exists d' m', quiet (H := R) [] false m m' /\
    match findRecord ds i start with
    | Some L => DecodeDocBuffer start buffer d m = Ok ((Some (recordInfo L buffer), d'), m') /\ found m' d' L 1
    | None => DecodeDocBuffer start buffer d m = Ok ((None, d'), m')
    end.
Proof.
  intros [[Hd Hi]|[-> Hd]] Hstart Hforward Hbuf.
  - pose proof (dc_skip _ _ _ Hd) as Hs. destruct (_skipListReader d) as [s|] eqn:Hskip; [by eapply decodeLong_ok|]. destruct Hs as [_ ->]. by apply decodeShort_ok.
  - rewrite findRecord_none by lia. apply decodeFinished_ok; [done | done|]. pose proof recordCount_K. etransitivity; [|exact Hforward]. by apply prevKey_le; [|lia].
Qed.

(** ** The other rows *)

Lemma position_reader m m' d rd L : position m d (S L) -> quiet (H := R) [] false m m' -> ((L < K)%nat -> reaches m' rd (S L)) -> position m' (set_reader rd d) (S L).
Proof.
  intros [[[Hb Hst Href Hfin Hr Hs Hsk] Hi]|[Hc [Hst Hfin Hs]]] Hq Hreach; [left; split; [|done] | right; split; [done|]]; split; cbn [set_reader _docListBuffer _docListReader _skipedItemCount _skipListReader DocDecoder._isReferenceCompress _finishDecoded]; try done.
  - apply (qu_store _ _ _ _ Hq).
  - apply Hreach. lia.
  - destruct (_skipListReader d); [|done]. destruct Hs as [? Hs]. split; [done|]. by eapply skipAt_quiet.
  - apply (qu_store _ _ _ _ Hq).
  - destruct (_skipListReader d); [|done]. destruct Hs as [? Hs]. split; [done|]. by eapply skipAt_quiet.
Qed.

Lemma position_store m d i : position m d i -> storeOk m.
Proof. intros [[[? ? ? ? ? ? ?] _]|[_ [? ? ?]]]; done. Qed.

(** The next row of the record *)
Lemma nextRow_ok m d L i row a buffer :
  found m d L i -> docRows o ds !! i = Some row -> _atomicValues mvD !! i = Some a -> isArray (8 * Z.of_nat (sizeT a)) buffer ->
  exists d' m' count, decodeRow buffer d m = Ok ((Some (rowOf row L buffer, count), d'), m') /\ quiet (H := R) [] false m m' /\ found m' d' L (S i).
Proof.
  intros [Hb Hc Hrow Hsk Hnext] Hr Ha [Hlen Hf]. pose proof (lookup_lt_Some _ _ _ Ha) as Hi. rewrite (proj2 (Nat.eqb_neq i rowCount)) in Hrow by lia.
  destruct (decodeRow_ok m d L i row a buffer Hb Hrow (position_store _ _ _ Hnext) Hc Hr Ha Hlen Hf) as (rd & m' & Hrun & Hq & Hat & Hreach).
  exists (set_reader rd d), m'. eexists. split; [exact Hrun|]. split; [done|]. split; try done.
  - cbn [set_reader _docListReader]. by destruct (S i =? rowCount)%nat.
  - by eapply position_reader.
Qed.

(** ** A search *)

Context (arrays : Arrays) (Harrays : goodArrays arrays).

Definition after (has : bool) (i : nat) : nat := if has then S i else i.

Lemma tfRow_ok m d L : found m d L 1 -> exists d' m', (if _hasTfList o then DecodeCurrentTFBuffer (a_tfs arrays) d else ret (None, d)) m =
    Ok ((if _hasTfList o then Some (rowOf (tfs ds) L (a_tfs arrays)) else None, d'), m') /\ quiet (H := R) [] false m m' /\ found m' d' L (after (_hasTfList o) 1).
Proof.
  intros Hf. pose proof (position_store _ _ _ (fo_next _ _ _ _ Hf)) as Hst. destruct (_hasTfList o) eqn:Htf; [|exists d, m; split; [done|]; split; [by apply quiet_refl | done]].
  destruct (lookup_lt_is_Some_2 (_atomicValues mvD) 1) as [a Ha]; [unfold DocListFormat_Init; rewrite Htf; by destruct (_hasDocPayload o), (_hasFieldMap o); cbn; lia|].
  assert (sizeT a = 4%nat) as H4 by (revert Ha; unfold DocListFormat_Init; rewrite Htf; by destruct (_hasDocPayload o), (_hasFieldMap o); intros [= <-]).
  destruct (nextRow_ok m d L 1 (tfs ds) a (a_tfs arrays) Hf) as (d' & m' & c & Hrun & Hq & Hf'); [unfold docRows; by rewrite Htf | done | rewrite H4; apply Harrays|].
  exists d', m'. unfold DecodeCurrentTFBuffer. srun Hrun. done.
Qed.

Lemma payloadRow_ok m d L : found m d L (after (_hasTfList o) 1) -> exists d' m', (if _hasDocPayload o then DecodeCurrentDocPayloadBuffer (a_payloads arrays) d else ret (a_payloads arrays, d)) m =
    Ok ((if _hasDocPayload o then rowOf (map d_payload ds) L (a_payloads arrays) else a_payloads arrays, d'), m') /\ quiet (H := R) [] false m m' /\
    found m' d' L (after (_hasDocPayload o) (after (_hasTfList o) 1)).
Proof.
  intros Hf. pose proof (position_store _ _ _ (fo_next _ _ _ _ Hf)) as Hst. destruct (_hasDocPayload o) eqn:Hp; [|exists d, m; split; [done|]; split; [by apply quiet_refl | done]].
  destruct (lookup_lt_is_Some_2 (_atomicValues mvD) (after (_hasTfList o) 1)) as [a Ha]; [unfold DocListFormat_Init; rewrite Hp; by destruct (_hasTfList o), (_hasFieldMap o); cbn; lia|].
  assert (sizeT a = 2%nat) as H4 by (revert Ha; unfold DocListFormat_Init; rewrite Hp; by destruct (_hasTfList o), (_hasFieldMap o); intros [= <-]).
  destruct (nextRow_ok m d L _ (map d_payload ds) a (a_payloads arrays) Hf) as (d' & m' & c & Hrun & Hq & Hf'); [unfold docRows; rewrite Hp; by destruct (_hasTfList o) | done | rewrite H4; apply Harrays|].
  exists d', m'. unfold DecodeCurrentDocPayloadBuffer. srun Hrun. done.
Qed.

Lemma mapRow_ok m d L i : i = after (_hasDocPayload o) (after (_hasTfList o) 1) -> found m d L i -> exists d' m', (if _hasFieldMap o then DecodeCurrentFieldMapBuffer (a_maps arrays) d else ret (a_maps arrays, d)) m =
    Ok ((if _hasFieldMap o then rowOf (map d_map ds) L (a_maps arrays) else a_maps arrays, d'), m') /\ quiet (H := R) [] false m m' /\ found m' d' L (after (_hasFieldMap o) i).
Proof.
  intros -> Hf. pose proof (position_store _ _ _ (fo_next _ _ _ _ Hf)) as Hst. destruct (_hasFieldMap o) eqn:Hm; [|exists d, m; split; [done|]; split; [by apply quiet_refl | done]].
  destruct (lookup_lt_is_Some_2 (_atomicValues mvD) (after (_hasDocPayload o) (after (_hasTfList o) 1))) as [a Ha]; [unfold DocListFormat_Init; rewrite Hm; by destruct (_hasTfList o), (_hasDocPayload o); cbn; lia|].
  assert (sizeT a = 1%nat) as H4 by (revert Ha; unfold DocListFormat_Init; rewrite Hm; by destruct (_hasTfList o), (_hasDocPayload o); intros [= <-]).
  destruct (nextRow_ok m d L _ (map d_map ds) a (a_maps arrays) Hf) as (d' & m' & c & Hrun & Hq & Hf'); [unfold docRows; rewrite Hm; by destruct (_hasTfList o), (_hasDocPayload o) | done | rewrite H4; apply Harrays|].
  exists d', m'. unfold DecodeCurrentFieldMapBuffer. srun Hrun. done.
Qed.

(** A whole record *)
Lemma readRecord_ok m d i start :
  position m d i -> 0 <= start < 2 ^ 31 -> prevKey ds i <= start ->
  exists d' m', match findRecord ds i start with
    | Some L => readRecord o arrays start d m = Ok ((Some (blockOf o arrays ds L), d'), m') /\ position m' d' (S L)
    | None => readRecord o arrays start d m = Ok ((None, d'), m')
    end.
Proof.
  intros Hpos Hstart Hforward. destruct (DecodeDocBuffer_ok m d i start (a_docs arrays) Hpos Hstart Hforward (proj1 Harrays)) as (d1 & m1 & _ & Hcase). destruct (findRecord ds i start) as [L|].
  - destruct Hcase as [Hrun Hf]. destruct (tfRow_ok m1 d1 L Hf) as (d2 & m2 & Hrun2 & _ & Hf2). destruct (payloadRow_ok m2 d2 L Hf2) as (d3 & m3 & Hrun3 & _ & Hf3). destruct (mapRow_ok m3 d3 L _ eq_refl Hf3) as (d4 & m4 & Hrun4 & _ & Hf4).
    exists d4, m4. unfold readRecord. srun Hrun. srun Hrun2. srun Hrun3. srun Hrun4. destruct Hf4 as [_ HL _ Hsk Hnext]. split; [|done]. unfold GetSeekedDocCount. rewrite Hsk, Z.shiftl_mul_pow2 by lia.
    apply recordCount_lt in HL. pose proof (gd_count _ Hg). rewrite u32_small by lia. replace (Z.of_nat L * 2 ^ 7) with (Z.of_nat (L * 128)) by lia. reflexivity.
  - exists d1, m1. unfold readRecord. srun Hcase. done.
Qed.

Lemma searchAll_ok starts : forall m d i,
  position m d i -> Forall (fun start => 0 <= start < 2 ^ 31) starts -> forward ds i starts -> exists m', searchAll o arrays starts d m = Ok (recordsFrom o arrays ds i starts, m').
Proof.
  induction starts as [|start starts IH]; intros m d i Hpos Hs Hfw; [by exists m|]. apply Forall_cons_1 in Hs as [H0 Hs]. cbn [forward] in Hfw. destruct Hfw as [Hf0 Hfw]. destruct (readRecord_ok m d i start Hpos H0 Hf0) as (d' & m' & Hcase). cbn [searchAll recordsFrom].
  destruct (findRecord ds i start) as [L|]; [|srun Hcase; by exists m']. destruct Hcase as [Hrun Hpos']. srun Hrun. destruct (IH m' d' (S L) Hpos' Hs Hfw) as (m2 & Hrun2). srun Hrun2. by exists m2.
Qed.

(** The last id of a record is below those of the next one. *)
Lemma keyAt_next i : NoDup (ids ds) -> (S i < recordCount ds)%nat -> keyAt ds i < keyAt ds (S i).
Proof.
  intros Hnd Hi. apply recordCount_lt in Hi. pose proof Hg as [Ha _ _ _ _]. assert (length (ids ds) = n) as Hl by (unfold ids; by rewrite length_map).
  destruct (lookup_lt_is_Some_2 (ids ds) (S i * 128 - 1) ltac:(lia)) as [x Hx]. destruct (lookup_lt_is_Some_2 (ids ds) (S i * 128) ltac:(lia)) as [y Hy].
  assert (keyAt ds i = x) as ->. { unfold keyAt. replace (S i * 128)%nat with (S (S i * 128 - 1)) at 1 by lia. by rewrite (take_S_r _ _ _ Hx), lastOf_snoc. }
  pose proof (lastOf_take_le 0 _ (S (S i * 128 - 1)) (S (S i * 128)) Ha ltac:(lia)) as H1. rewrite (take_S_r _ _ _ Hx), (take_S_r _ _ _ Hy), !lastOf_snoc in H1.
  pose proof (lastOf_take_le 0 _ (S (S i * 128)) (S (S i) * 128) Ha ltac:(lia)) as H2. rewrite (take_S_r _ _ _ Hy), lastOf_snoc in H2. unfold keyAt.
  assert (x <> y) by (intros ->; pose proof (NoDup_lookup _ _ _ _ Hnd Hx Hy); lia). lia.
Qed.

Lemma scanAll_ok fuel : forall m d i start,
  position m d i -> NoDup (ids ds) -> (recordCount ds - i < fuel)%nat -> (i <= recordCount ds)%nat -> 0 <= start < 2 ^ 31 -> prevKey ds i <= start -> ((i < recordCount ds)%nat -> start <= keyAt ds i) ->
  exists m', scanAll o arrays fuel start d m = Ok (map (blockOf o arrays ds) (seq i (recordCount ds - i)), m').
Proof.
  induction fuel as [|fuel IH]; intros m d i start Hpos Hnd Hf Hi Hs Hfw Hle; [lia|]. destruct (readRecord_ok m d i start Hpos Hs Hfw) as (d' & m' & Hcase). cbn [scanAll].
  destruct (Nat.eq_dec i (recordCount ds)) as [->|Hne].
  - rewrite findRecord_none in Hcase by lia. srun Hcase. exists m'. by rewrite Nat.sub_diag.
  - rewrite (findRecord_some ds i start i) in Hcase by (try (intros; lia); try lia; apply Hle; lia). destruct Hcase as [Hrun Hpos']. srun Hrun. cbn [blockOf bl_docs lastDocId].
    destruct (keyAt_range ds i Hg) as [Hk1 Hk2]. pose proof (gd_last _ Hg). destruct (IH m' d' (S i) (keyAt ds i + 1) Hpos' Hnd) as (m2 & Hrun2); [lia | lia | lia | rewrite prevKey_S; lia | intros Hlt; pose proof (keyAt_next i Hnd Hlt); lia|].
    srun Hrun2. exists m2. replace (recordCount ds - i)%nat with (S (recordCount ds - S i)) by lia. done.
Qed.

End Decoding.
End DocDecoding.
