(* ===== verification/DocListSearch.v ===== *)
(** * Searching a document list while it is built

    A decoder shows the documents of its snapshot, whatever is added later. *)

From stdpp Require Import base list numbers option tactics gmap sorting.
From Stdlib Require Import ZArith Lia ZifyNat ZifyBool.
From S2P Require Import Prelude Bits WordCode WordStream ByteSliceList SliceChain ByteSliceWriter BlockByteSliceList ByteSliceReader ByteSliceWriterCorrect ByteSliceReaderCorrect IntEncoders IntEncodersCorrect PostingRecords PostingBuffer ShortBufferCorrect PostingBufferCorrect PostingColumns SkipList SkipListCorrect DocList DocListRows DocListEncoding DocListDecoding.

#[local] Open Scope Z_scope.
#[local] Open Scope store_scope.

Module DocSearch.
Import Rows Encoders Buffered WriterCorrect ReaderCorrect BufferedCorrect Columns DocRows Snapshots SkipWriterCorrect SkipCorrect DocEncoding DocSkip DocDecoding DocDecoder.

(** Nothing that was in the store changed. *)
Definition kept (m m' : Store) : Prop :=
  storeOk m' /\ (brk m <= brk m')%nat /\ forall x, (x < brk m)%nat -> slices m' !! x = slices m !! x /\ lists m' !! x = lists m !! x.

Lemma kept_refl m : storeOk m -> kept m m.
Proof. intros H. by split. Qed.

Lemma kept_trans m1 m2 m3 : kept m1 m2 -> kept m2 m3 -> kept m1 m3.
Proof.
  intros (H1 & H2 & H3) (H4 & H5 & H6). split; [done|]. split; [lia|]. intros x Hx. destruct (H3 x Hx) as [<- <-]. apply H6. lia.
Qed.

Lemma stored_kept mv exact mode T m m' b l C X n K encs :
  stored mv exact mode T m b l C X n K encs -> (l < brk m)%nat -> kept m m' -> stored mv exact mode T m' b l C X n K encs.
Proof.
  intros Hs Hl (Hst & _ & Hk). eapply stored_frame; [exact Hs | done | by apply Hk|]. intros x Hx. apply Hk. destruct Hs as [[[Hw _ _] _] _ _ _]. by eapply writes_slices.
Qed.

(** The arrays of the skip list reader *)
Definition goodSkipArrays (arrays : list Z * list Z * list Z) : Prop :=
  SkipCorrect.isArray arrays.1.1 /\ SkipCorrect.isArray arrays.1.2 /\ SkipCorrect.isArray arrays.2.

Section Search.
Context {R : BlockDataRetriever} (sse : bool) (junk : list Z) (version : Z) (Hjunk : Records.isBuffer junk) (o : DocListFormatOption).
Abbreviation mvD := (DocListFormat_Init sse junk version o).
Abbreviation mvS := (DocListSkipListFormat_Init sse junk version o).
Abbreviation readable := (readable sse junk version o).
Abbreviation encoding := (encoding sse junk version o).
Abbreviation skipReadable := (skipReadable sse junk version o).

(** ** The skip list reader *)

Lemma skipLoad_ok m w q ds K encs arrays :
  skipReadable m w q (keysOf ds K) (ttfsOf ds K) (sizesOf encs) K -> (p_list q < brk m)%nat -> goodSkipArrays arrays ->
  exists s m' b exact mode Ks,
    (if _hasTfList o then let* r := TriReader.MemLoad (SkipWriter.base w) arrays.1.1 arrays.1.2 arrays.2 in ret (Some (TriSkip r))
     else let* r := PairReader.MemLoad (SkipWriter.base w) arrays.1.1 arrays.1.2 false in ret (Some (PairSkip r))) m = Ok (Some s, m') /\ kept m m' /\
    snapshot mvS exact mode 32 b q (skipRows o (keysOf ds K) (ttfsOf ds K) (sizesOf encs)) K Ks /\
    (if exact then mode = SHORT_LIST_COMPRESS_MODE /\ Ks = 1%nat /\ (0 < K <= 10)%nat else mode = PFOR_DELTA_COMPRESS_MODE) /\
    forall m2 w2 q2 keys2 ttfs2 sizes2 K2, skipReadable m2 w2 q2 keys2 ttfs2 sizes2 K2 -> longer q q2 ->
      exists smore, skipAt (R := R) sse junk version o ds K encs b q smore exact mode Ks m2 s 0 (-1).
Proof.
  intros (exact & mode & Ks & Hs & HK & Hmode) Hq (Ha1 & Ha2 & Ha3).
  destruct (snapshot_ok (R := R) _ _ _ 32 ltac:(lia) _ _ _ _ _ _ Hs HK Hq) as (b0 & m1 & b & m' & r & Hnew & Hsnap & Hopen & Hsn & Hop & Hst & Hbrk & Hfr).
  assert (forall m2 w2 q2 keys2 ttfs2 sizes2 K2, skipReadable m2 w2 q2 keys2 ttfs2 sizes2 K2 -> longer q q2 ->
    exists smore, atItem (R := R) mvS exact mode b (p_list q) (map (chunk 32 (skipRows o (keysOf ds K) (ttfsOf ds K) (sizesOf encs))) (seq 0 Ks)) (p_encs q) smore K m2 0 (PairReader.mkMem b r) 0 0 0 0) as Hitem.
  { intros m2 w2 q2 k2 t2 z2 K2 (ex2 & md2 & Ks2 & Hs2 & _) Hl. destruct (opened_later (R := R) _ 32 ltac:(lia) _ _ _ _ _ _ _ _ _ _ Hop Hl Hs2) as (smore & Hr). exists smore.
    split; cbn [PairReader._skipListBuffer PairReader._skipListReader]; [done | | lia | lia | lia | lia]. split; [|by eapply stored_store].
    eapply inBlock_start; [apply (sn_blocks _ _ _ _ _ _ _ _ _ Hsn) | done | lia]. }
  assert (forall row buf, SkipCorrect.isArray buf -> has buf row 0 0) as Hhas by (intros row buf Hbuf; by split).
  destruct (_hasTfList o) eqn:Htf.
  - eexists (TriSkip _), m', b, exact, mode, Ks. split; [|split; [by split|split; [done|split; [done|]]]].
    + erewrite sbind_ok; [|unfold TriReader.MemLoad; srun Hnew; srun Hsnap; srun Hopen; reflexivity]. reflexivity.
    + intros m2 w2 q2 k2 t2 z2 K2 Hr2 Hl. destruct (Hitem _ _ _ _ _ _ _ Hr2 Hl) as (smore & Hat). exists smore. split; [done|]. split; try done. exists 0%nat, 0%nat. split; [exact Hat|]. split; try by apply Hhas. done.
  - eexists (PairSkip _), m', b, exact, mode, Ks. split; [|split; [by split|split; [done|split; [done|]]]].
    + erewrite sbind_ok; [|unfold PairReader.MemLoad; srun Hnew; srun Hsnap; srun Hopen; reflexivity]. reflexivity.
    + intros m2 w2 q2 k2 t2 z2 K2 Hr2 Hl. destruct (Hitem _ _ _ _ _ _ _ Hr2 Hl) as (smore & Hat). exists smore. split; [done|]. split; try done. exists 0%nat, 0%nat. split; [exact Hat|]. split; try by apply Hhas. all: done.
Qed.

(** ** The decoder *)

(** Searches of [d] in the store [m] find the documents [ds]. *)
Definition finds (m : Store) (d : InMemDocListDecoder) (ds : list Doc) : Prop :=
  forall arrays, goodArrays arrays ->
    (forall starts, Forall (fun start => 0 <= start < 2 ^ 31) starts -> forward ds 0 starts -> exists m', searchAll (R := R) o arrays starts d m = Ok (recordsFrom o arrays ds 0 starts, m')) /\
    (forall fuel, NoDup (ids ds) -> (recordCount ds < fuel)%nat -> exists m', scanAll (R := R) o arrays fuel 0 d m = Ok (map (blockOf o arrays ds) (seq 0 (recordCount ds)), m')).

(** [d] shows the documents [ds] as long as the lists only grow. *)
Definition shows (d : InMemDocListDecoder) (p : Place) (sp : option Place) (ds : list Doc) : Prop :=
  forall m e p' sp' ds', readable m e p' sp' ds' -> grown p p' sp sp' -> finds m d ds.

(** The skip list part of [GetInMemDocListDecoder]: the reader, and that it stands in front of the first item later on *)
Lemma skipReader_ok m e p sp ds K arrays :
  skipShown sse junk version o m (DocEncoder._docSkipListWriter e) sp ds K (p_encs p) -> settings sse junk version o e ds -> apart m p sp -> storeOk m -> goodSkipArrays arrays ->
  exists skip m' b q exact mode Ks,
    (match DocEncoder._docSkipListWriter e with
     | None => ret None
     | Some w =>
         if DocEncoder.skipListHasTf (DocEncoder._docListFormat e) then let* r := TriReader.MemLoad (SkipWriter.base w) arrays.1.1 arrays.1.2 arrays.2 in ret (Some (TriSkip r))
         else let* r := PairReader.MemLoad (SkipWriter.base w) arrays.1.1 arrays.1.2 false in ret (Some (PairSkip r))
     end) m = Ok (skip, m') /\ kept m m' /\
    (is_Some skip -> snapshot mvS exact mode 32 b q (skipRows o (keysOf ds K) (ttfsOf ds K) (sizesOf (p_encs p))) K Ks /\
      (if exact then mode = SHORT_LIST_COMPRESS_MODE /\ Ks = 1%nat /\ (0 < K <= 10)%nat else mode = PFOR_DELTA_COMPRESS_MODE)) /\
    (skip = None -> (length ds <= 128)%nat) /\
    forall m2 e2 p2 sp2 ds2 s, skip = Some s -> readable m2 e2 p2 sp2 ds2 -> grown p p2 sp sp2 ->
      exists smore, skipAt (R := R) sse junk version o ds K (p_encs p) b q smore exact mode Ks m2 s 0 (-1).
Proof.
  intros Hs Hset Ha Hst Harr. rewrite (se_format _ _ _ _ _ _ Hset). change (DocEncoder.skipListHasTf _) with (_hasTfList o). unfold skipShown in Hs. destruct (DocEncoder._docSkipListWriter e) as [w|], sp as [q|]; try done.
  - destruct Hs as [_ Hs]. destruct Ha as (_ & Hq & _). destruct (skipLoad_ok m w q ds K (p_encs p) arrays Hs Hq Harr) as (s & m' & b & exact & mode & Ks & Hrun & Hk & Hsn & Hmode & Hlater).
    exists (Some s), m', b, q, exact, mode, Ks. split; [exact Hrun|]. split; [done|]. split; [done|]. split; [done|].
    intros m2 e2 p2 sp2 ds2 s2 [= <-] Hre [_ Hgr]. destruct sp2 as [q2|]; [|done]. destruct (re_lists _ _ _ _ _ _ _ _ _ Hre) as (md2 & K2 & _ & _ & Hs2). unfold skipShown in Hs2.
    destruct (DocEncoder._docSkipListWriter e2) as [w2|]; [|done]. destruct Hs2 as [_ Hs2]. by eapply Hlater.
  - exists None, m, (mkBuffered 0 ShortBuf.new_ShortBuffer (_postingListWriter (DocEncoder._docListBuffer e))), p, false, PFOR_DELTA_COMPRESS_MODE, 0%nat.
    split; [done|]. split; [by apply kept_refl|]. split; [by intros [? ?]|]. split; [done|]. done.
Qed.

(** [GetInMemDocListDecoder] *)
Lemma GetInMemDocListDecoder_ok m e p sp ds arrays :
  readable m e p sp ds -> goodSkipArrays arrays -> exists d m', GetInMemDocListDecoder (R := R) arrays e m = Ok (d, m') /\ kept m m' /\ shows d p sp ds.
Proof.
  intros [Hset Hg Hdf (mode & K & Hd & HK & Hs) Ha] Harr. pose proof (stored_store _ _ _ _ _ _ _ _ _ _ _ _ Hd) as Hst.
  destruct (skipReader_ok m e p sp ds K arrays Hs Hset Ha Hst Harr) as (skip & m1 & bS & q & exactS & modeS & Ks & Hskip & Hk1 & Hsn & Hnone & Hlater).
  pose proof (stored_kept _ _ _ _ _ _ _ _ _ _ _ _ _ Hd (proj1 Ha) Hk1) as Hd1.
  destruct (snapshot_ok (R := R) _ _ _ 128 ltac:(lia) _ _ _ _ _ _ Hd1 HK) as (b0 & m2 & b & m' & r & Hnew & Hsnap & Hopen & Hsd & Hop & Hst' & Hbrk & Hfr); [destruct Ha, Hk1 as (_ & ? & _); lia|].
  eexists _, m'. split; [|split; [eapply kept_trans; [exact Hk1 | by split]|]].
  - unfold GetInMemDocListDecoder. destruct arrays as [[a1 a2] a3]. rewrite (se_mode _ _ _ _ _ _ Hset). cbn [DocEncoder.isReference]. cbn [fst snd] in Hskip. srun Hskip. srun Hnew. srun Hsnap. unfold Init. srun Hopen. reflexivity.
  - intros me e2 p2 sp2 ds2 Hre Hgr arr Harr2. destruct (re_lists _ _ _ _ _ _ _ _ _ Hre) as (md2 & K2 & Hd2 & _ & _).
    destruct (opened_later (R := R) _ 128 ltac:(lia) _ _ _ _ _ _ _ _ _ _ Hop (proj1 Hgr) Hd2) as (more & Hread).
    assert (exists smore, match skip with None => True | Some s => skipAt (R := R) sse junk version o ds K (p_encs p) bS q smore exactS modeS Ks me s 0 (-1) end) as (smore & Hat).
    { destruct skip as [s|]; [by eapply Hlater | by exists []]. }
    set (d := mkDocDecoder _ _ _ _ _ _ _). set (hasSkip := match skip with Some _ => true | None => false end).
    assert (position (R := R) sse junk version o ds b p more K bS q smore exactS modeS Ks hasSkip me d 0) as Hpos.
    { left. split; [|lia]. split; cbn [d _docListBuffer _docListReader _skipedItemCount _skipListReader DocDecoder._isReferenceCompress _finishDecoded]; try done.
      - by eapply stored_store.
      - exists 0%nat, 0%nat. split; [exact Hread | lia].
      - unfold hasSkip. by destruct skip. }
    pose proof (st_chunks _ _ _ _ _ _ _ _ _ _ _ _ Hd) as HK2.
    assert (hasSkip = true -> is_Some skip) as Hsome by (unfold hasSkip; destruct skip; [by eexists | done]). assert (hasSkip = false -> skip = None) as Hno by (unfold hasSkip; by destruct skip). split.
    + intros starts Hstarts Hfw. apply (searchAll_ok sse junk version o ds Hg b p more mode K Hsd HK HK2 bS q smore exactS modeS Ks hasSkip (fun H => proj1 (Hsn (Hsome H))) (fun H => proj2 (Hsn (Hsome H))) (fun H => Hnone (Hno H)) arr Harr2 starts me d 0 Hpos Hstarts Hfw).
    + intros fuel Hnd Hf. destruct (scanAll_ok sse junk version o ds Hg b p more mode K Hsd HK HK2 bS q smore exactS modeS Ks hasSkip (fun H => proj1 (Hsn (Hsome H))) (fun H => proj2 (Hsn (Hsome H))) (fun H => Hnone (Hno H)) arr Harr2 fuel me d 0 0 Hpos Hnd) as (m'' & Hrun); [lia | lia | lia | by change (prevKey ds 0) with 0 | |].
      * intros _. destruct (keyAt_range ds 0 Hg). lia.
      * exists m''. by rewrite Nat.sub_0_r in Hrun.
Qed.

(** ** A session *)

Lemma encoding_kept m m' e p sp ds : encoding m e p sp ds -> kept m m' -> encoding m' e p sp ds.
Proof.
  intros [Hset Hg [Hd Hs (Hp & Ha)] Hdf Hc Hm] Hk. pose proof Hk as (_ & Hbrk & _). split; try done. split.
  - by eapply stored_kept.
  - unfold skipPart in *. destruct (DocEncoder._docSkipListWriter e), sp as [q|]; try done. destruct Hs as [H0 [Hss Hkey Httf]]. split; [done|]. split; [|done|done]. eapply stored_kept; [exact Hss | apply Ha | done].
  - split; [lia|]. destruct sp; [|done]. destruct Ha as (? & ? & ?). split; [lia | done].
Qed.

Lemma readable_kept m m' e p sp ds : readable m e p sp ds -> kept m m' -> readable m' e p sp ds.
Proof.
  intros [Hset Hg Hdf (md & K & Hd & HK & Hs) (Hp & Ha)] Hk. pose proof Hk as (_ & Hbrk & _). split; try done.
  - exists md, K. split; [by eapply stored_kept|]. split; [done|]. unfold skipShown in *. destruct (DocEncoder._docSkipListWriter e), sp as [q|]; try done. destruct Hs as [H0 (ex & md' & Ks & Hss & Hrest)].
    split; [done|]. exists ex, md', Ks. split; [|done]. eapply stored_kept; [exact Hss | apply Ha | done].
  - split; [lia|]. destruct sp; [|done]. destruct Ha as (? & ? & ?). split; [lia | done].
Qed.

(** A list is built; one decoder is made while it is built, and one when it is finished. *)
Definition session (skipArrays : list Z * list Z * list Z) (ds more : list Doc) : SM (InMemDocListDecoder * InMemDocListDecoder) :=
  let* e := DocEncoder.new_DocListEncoder sse junk version o None PFOR_DELTA_COMPRESS_MODE in
  let* e := addDocs ds e in
  let* d := GetInMemDocListDecoder (R := R) skipArrays e in
  let* e := addDocs more e in
  let* e := DocEncoder.Flush e in
  let* d' := GetInMemDocListDecoder (R := R) skipArrays e in
  ret (d, d').

Lemma session_ok m skipArrays ds more :
  storeOk m -> _hasTfBitmap o = false -> goodSkipArrays skipArrays -> goodDocs (ds ++ more) ->
  exists d d' m', session skipArrays ds more m = Ok ((d, d'), m') /\ finds m' d ds /\ finds m' d' (ds ++ more).
Proof.
  intros Hst Hbit Harr Hg. destruct (new_DocListEncoder_ok sse junk version o m Hst Hbit) as (e0 & m0 & p0 & Hnew & He0).
  destruct (addDocs_ok sse junk version Hjunk o ds m0 e0 p0 None [] He0 (goodDocs_app _ _ Hg)) as (e1 & m1 & p1 & sp1 & Hadd1 & He1 & _). cbn [app] in He1.
  destruct (GetInMemDocListDecoder_ok m1 e1 p1 sp1 ds skipArrays (encoding_readable _ _ _ _ _ _ _ _ _ He1) Harr) as (d & m2 & Hget1 & Hk1 & Hsh1).
  pose proof (encoding_kept _ _ _ _ _ _ He1 Hk1) as He2. destruct (addDocs_ok sse junk version Hjunk o more m2 e1 p1 sp1 ds He2 Hg) as (e3 & m3 & p3 & sp3 & Hadd2 & He3 & Hgr3).
  destruct (flushDocs_ok sse junk version Hjunk o m3 e3 p3 sp3 _ He3) as (e4 & m4 & p4 & sp4 & Hflush & Hre4 & Hgr4).
  destruct (GetInMemDocListDecoder_ok m4 e4 p4 sp4 _ skipArrays Hre4 Harr) as (d' & m5 & Hget2 & Hk2 & Hsh2). pose proof (readable_kept _ _ _ _ _ _ Hre4 Hk2) as Hre5.
  exists d, d', m5. unfold session. srun Hnew. srun Hadd1. srun Hget1. srun Hadd2. srun Hflush. srun Hget2. split; [done|]. split.
  - eapply Hsh1; [exact Hre5 | by eapply grown_trans].
  - eapply Hsh2; [exact Hre5 | apply grown_refl].
Qed.

End Search.
End DocSearch.
