(* ===== verification/PostingTheorems.v ===== *)
(** * Theorems on postings in memory

    The whole way of the documents of a term: they are added to a [DocListEncoder], which may be read by decoders while it grows, and
    is flushed at last. Postings that the dictionary keeps are read as they were written. *)

From stdpp Require Import base list numbers option tactics gmap sorting.
From Stdlib Require Import ZArith Lia ZifyNat ZifyBool.
From S2P Require Import Prelude Bits WordCode WordStream ByteSliceList SliceChain VbyteCompressor BlockByteSliceList IntEncoders IntEncodersCorrect PostingRecords PostingBuffer PostingColumns SkipList SkipListCorrect DocList DocListRows DocListEncoding DocListDecoding DocListSearch ByteSliceTheorems.

#[local] Open Scope Z_scope.
#[local] Open Scope store_scope.

Import Rows Encoders Columns DocRows DocEncoding DocSkip DocDecoding DocSearch DocDecoder.

(** ** The documents of a record *)










Section Scanned.
Context (o : DocListFormatOption) (arrays : Arrays) (ds : list Doc) (Hg : goodDocs ds) (Hnd : NoDup (ids ds)).
Abbreviation bls := (map (blockOf o arrays ds) (seq 0 (recordCount ds))).



End Scanned.

(** ** Postings in the dictionary *)

Module DictInlineCorrect.
Import DictInline EncodersCorrect.

Lemma vbytes_pos v : (0 < length (VByte.vbytes v))%nat.
Proof. apply VByte.vbytesOf_pos. Qed.

(** [CalculateCompressedSize] is the number of bytes. *)
Lemma CalculateCompressedSize_ok data : Forall (fits 32) data -> Z.of_nat (length data) < 2 ^ 28 ->
  CalculateCompressedSize data = Ok (Z.of_nat (length (vbytesAll data))).
Proof.
  intros Hd Hl. unfold CalculateCompressedSize. change (length (vbytesAll data)) with (0 + length (vbytesAll data))%nat. change 0 with (Z.of_nat 0) at 1.
  assert (Z.of_nat 0 + 5 * Z.of_nat (length data) < 2 ^ 32) as Hb by lia. revert Hb. clear Hl. generalize 0%nat. induction Hd as [|v data Hv Hd IH]; intros acc Hb; [cbn; by rewrite Nat.add_0_r|].
  pose proof (vbytes_short v Hv). cbn [length] in Hb. cbn [foldl res_bind]. rewrite VByte.GetVInt32Length_ok, (u32_small v) by (destruct Hv; lia). cbn [res_bind].
  rewrite <- Nat2Z.inj_add, u32_small, IH, vbytesAll_cons, length_app by lia. by rewrite Nat.add_assoc.
Qed.

(** The loop of [Encode] writes the bytes of the values one behind the other. *)
Lemma compressAll_ok data pre rest : Forall (fits 32) data -> (length (vbytesAll data) <= length rest)%nat -> Z.of_nat (length rest) < 2 ^ 32 ->
  foldl (fun st value => let! st := st in CompressData st value) (Ok (pre ++ rest, length pre, Z.of_nat (length rest))) data =
    Ok (pre ++ vbytesAll data ++ drop (length (vbytesAll data)) rest, (length pre + length (vbytesAll data))%nat, Z.of_nat (length rest - length (vbytesAll data))).
Proof.
  intros Hd. revert pre rest. induction Hd as [|v data Hv Hd IH]; intros pre rest Hl H32; [cbn; by rewrite drop_0, Nat.add_0_r, Nat.sub_0_r|].
  rewrite vbytesAll_cons, length_app in *. pose proof (u32_small v ltac:(destruct Hv; lia)) as Hu. cbn [foldl res_bind]. unfold CompressData at 2.
  rewrite drop_app_length. pose proof (VByte.EncodeVInt32_ok rest (Z.of_nat (length rest)) v) as He. rewrite Hu in He. rewrite He by (destruct Hv; lia). cbn [res_bind].
  rewrite Nat2Z.id, take_app_length. rewrite <- Nat2Z.inj_sub, u32_small, app_assoc by lia. rewrite <- (length_app pre), <- length_drop. rewrite IH by (rewrite length_drop; lia).
  by rewrite length_app, drop_drop, <- !app_assoc, Nat.add_assoc, length_drop, Nat.sub_add_distr.
Qed.

(** [Decode] reads them, whatever follows. *)
Lemma decodeItems_ok data rest left : Forall (fits 32) data -> Z.of_nat (length (vbytesAll data)) <= left < 2 ^ 32 ->
  decodeItems (length data) (vbytesAll data ++ rest) left = Ok data.
Proof.
  intros Hd. revert left. induction Hd as [|v data Hv Hd IH]; intros left Hl; [done|]. rewrite vbytesAll_cons, length_app, <- app_assoc in *.
  pose proof (u32_small v ltac:(destruct Hv; lia)) as Hu. cbn [length decodeItems]. pose proof (VByte.DecodeVInt32_ok v (vbytesAll data ++ rest) left) as Hr. rewrite Hu in Hr. rewrite Hr by lia.
  cbn [res_bind]. rewrite Nat2Z.id, drop_app_length, u32_small, IH by lia. cbn [res_bind]. by rewrite u32_i32.
Qed.

Lemma vbytesAll_byte data : Forall (fits 32) data -> Forall byte (vbytesAll data).
Proof. induction 1 as [|v data [? ?] _ IH]; [constructor|]. rewrite vbytesAll_cons. apply Forall_app. split; [by apply VByte.vbytes_bytes | done]. Qed.

(** A value that [Encode] gives has seven bytes, and its values are read from it with or without the bits above them. *)
Lemma inline_Encode_ok data : Forall (fits 32) data -> Z.of_nat (length data) < 2 ^ 28 ->
  if (7 <? length (vbytesAll data))%nat then Encode data = Ok None
  else exists v, Encode data = Ok (Some v) /\ 0 <= v < 2 ^ 56 /\ forall top, Decode (v + top * 2 ^ 56) (length data) = Ok data.
Proof.
  intros Hd Hl. unfold Encode. rewrite CalculateCompressedSize_ok by done. cbn [res_bind]. unfold MAX_DICT_INLINE_AVAILABLE_SIZE. destruct (Nat.ltb_spec 7 (length (vbytesAll data))) as [Hn|Hn].
  { by rewrite (proj2 (Z.ltb_lt _ _)) by lia. }
  rewrite (proj2 (Z.ltb_ge _ _)) by lia. pose proof (compressAll_ok data [] (bytes 8 0) Hd) as Hrun. rewrite (length_bytes 8 0) in Hrun. cbn [app length] in Hrun. change (Z.of_nat 8) with 8 in Hrun.
  rewrite Hrun by lia. cbn [res_bind]. set (k := (7 - length (vbytesAll data))%nat).
  assert (vbytesAll data ++ drop (length (vbytesAll data)) (bytes 8 0) = (vbytesAll data ++ repeat 0 k) ++ [0]) as ->.
  { rewrite <- app_assoc. f_equal. unfold k. clear -Hn. generalize dependent (length (vbytesAll data)). intros n Hn. do 8 (destruct n as [|n]; [reflexivity|]). lia. }
  set (bs := vbytesAll data ++ repeat 0 k). assert (length bs = 7%nat) as H7 by (unfold bs; rewrite length_app, repeat_length; lia).
  assert (Forall byte bs) as Hb by (apply Forall_app; split; [by apply vbytesAll_byte | apply List.Forall_forall; intros x Hx; apply repeat_spec in Hx as ->; unfold byte; lia]).
  assert (join (bs ++ [0]) = join bs) as ->.
  { clear. unfold join. rewrite fold_right_app. done. }
  pose proof (join_bound bs Hb) as Hj. rewrite H7 in Hj. change (256 ^ Z.of_nat 7) with (2 ^ 56) in Hj. exists (join bs). split; [done|]. split; [done|]. intros top.
  unfold Decode. change 8%nat with (7 + 1)%nat. rewrite bytes_add, <- (bytes_mod 7). change (256 ^ Z.of_nat 7) with (2 ^ 56). rewrite Z_mod_plus_full, Z.mod_small by lia.
  rewrite <- H7 at 1. rewrite bytes_join by done. unfold bs. rewrite <- app_assoc. apply decodeItems_ok; [done|]. unfold MAX_DICT_INLINE_AVAILABLE_SIZE. lia.
Qed.

(** How many bytes the values take *)
Definition bytesFor (data : list Z) : nat := foldr (fun v n => VByte.vbytesLength v + n)%nat 0%nat data.

Lemma bytesFor_ok data : Forall (fits 32) data -> length (vbytesAll data) = bytesFor data.
Proof. induction 1 as [|v data [? ?] _ IH]; [done|]. rewrite vbytesAll_cons, length_app, IH, VByte.vbytes_length by lia. done. Qed.

(** The members of a formatter are of their types. *)
Definition typed (f : DictInlineFormatter) : Prop :=
  0 <= _termPayload f < 2 ^ 32 /\ - 2 ^ 31 <= _docId f < 2 ^ 31 /\ 0 <= _docPayload f < 2 ^ 16 /\ - 2 ^ 31 <= _termFreq f < 2 ^ 31 /\ 0 <= _fieldMap f < 2 ^ 8.

(** What the format keeps of a document; the other members are as in a new formatter. *)
Definition kept (o : PostingFormatOption) (f : DictInlineFormatter) : DictInlineFormatter :=
  let d := _docListFormatOption o in
  mkFormatter (if _hasTermPayload o then _termPayload f else 0) (_docId f) (if _hasDocPayload d then _docPayload f else 0)
    (if _hasTfList d then _termFreq f else -1) (if _hasFieldMap d then _fieldMap f else 0).

Lemma ToVector_fits o f : Forall (fits 32) (ToVector o f).
Proof.
  assert (forall b x, Forall (fits 32) (if b : bool then [u32 x] else [])) as H by (intros [] x; repeat constructor; apply u32_range).
  unfold ToVector. repeat (apply Forall_app; split); try apply H. repeat constructor; apply u32_range.
Qed.

Lemma ToVector_length flag f : let o := new_PostingFormatOption flag in length (ToVector o f) = _dictInlineItemCount o.
Proof.
  cbv zeta. unfold new_PostingFormatOption, ToVector, CalculateDictInlineItemCount. cbn [_hasTermPayload _docListFormatOption _dictInlineItemCount]. set (d := DocListFormatOption_Init flag).
  by destruct (has flag of_term_payload), (_hasDocPayload d), (_hasTfList d), (_hasFieldMap d).
Qed.

Lemma FromVector_ToVector o f : typed f -> FromVector o (ToVector o f) new_DictInlineFormatter = Ok (kept o f).
Proof.
  intros (Ht & Hd & Hp & Hf & Hm). unfold FromVector, ToVector, kept. set (d := _docListFormatOption o).
  destruct (_hasTermPayload o), (_hasDocPayload d), (_hasTfList d), (_hasFieldMap d); cbn [app getMember CheckAndGetValue lookup list_lookup res_bind length Nat.ltb Nat.leb];
    rewrite ?i32_u32 by lia; rewrite ?(u32_small (_termPayload f)), ?(u32_small (_docPayload f)), ?(u32_small (_fieldMap f)), ?u32_small, ?(Z.mod_small (_docPayload f)), ?(Z.mod_small (_fieldMap f)), ?i32_small by lia; done.
Qed.

(** The document that the dictionary keeps *)
Lemma formatter_ok flag f : typed f -> let o := new_PostingFormatOption flag in
  if (7 <? bytesFor (ToVector o f))%nat then GetDictInlineValue o f = Ok None
  else exists v, GetDictInlineValue o f = Ok (Some v) /\ 0 <= v < 2 ^ 56 /\ forall top, new_DictInlineFormatter_value o (v + top * 2 ^ 56) = Ok (kept o f).
Proof.
  intros Hf o. unfold GetDictInlineValue. pose proof (ToVector_fits o f) as Hfits. pose proof (ToVector_length flag f) as Hl. fold o in Hl.
  assert (Z.of_nat (length (ToVector o f)) < 2 ^ 28) as Hsmall by (rewrite Hl; unfold o, new_PostingFormatOption, CalculateDictInlineItemCount; cbn; repeat case_match; lia).
  pose proof (inline_Encode_ok _ Hfits Hsmall) as He. rewrite bytesFor_ok in He by done. destruct (7 <? bytesFor _)%nat; [done|]. destruct He as (v & Hv & Hr & Hdec).
  exists v. split; [done|]. split; [done|]. intros top. unfold new_DictInlineFormatter_value, Init. rewrite <- Hl, Hdec. cbn [res_bind]. by apply FromVector_ToVector.
Qed.

(** The documents in a row *)
Lemma continuous_ok v1 v2 : 0 <= v1 < 2 ^ 31 -> 0 <= v2 < 2 ^ 28 ->
  let v := Z.lor v1 (u64 (Z.shiftl v2 32)) in 0 <= v < 2 ^ 60 /\ i32 (Z.shiftr v 32) = v2 /\ i32 (Z.shiftr (u64 (Z.shiftl v 32)) 32) = v1.
Proof.
  intros H1 H2 v. assert (v = v1 + v2 * 2 ^ 32) as -> by (unfold v; rewrite u64_small by (rewrite Z.shiftl_mul_pow2; lia); apply VByte.lor_disjoint; lia).
  split; [lia|]. rewrite Z.shiftr_div_pow2, Z.shiftl_mul_pow2 by lia. unfold u64. split; [rewrite Z_div_plus_full, Z.div_small by lia; apply i32_small; lia|].
  replace ((v1 + v2 * 2 ^ 32) * 2 ^ 32) with (v1 * 2 ^ 32 + v2 * 2 ^ 64) by lia. rewrite Z_mod_plus_full, Z.mod_small, Z.shiftr_div_pow2, Z.div_mul by lia. apply i32_small. lia.
Qed.

Lemma DecodeContinuousDocId_ok dfFirst v d : 0 <= v < 2 ^ 60 -> ShortList.GetDictInlineValue d = v ->
  DecodeContinuousDocId (dfFirst, d) = if dfFirst then (i32 (Z.shiftr (u64 (Z.shiftl v 32)) 32), i32 (Z.shiftr v 32)) else (i32 (Z.shiftr v 32), i32 (Z.shiftr (u64 (Z.shiftl v 32)) 32)).
Proof. intros Hv Hd. unfold DecodeContinuousDocId. rewrite Hd, (u64_small v) by lia. done. Qed.

Lemma single_doc_value v dfFirst : 0 <= v < 2 ^ 60 -> ShortList.CreateDictInlineValue v false dfFirst = v + 176 * 2 ^ 56.
Proof. intros Hv. unfold ShortList.CreateDictInlineValue. change (u64 _) with (Z.shiftl 11 60). rewrite (VByte.lor_disjoint v 11 60) by lia. lia. Qed.

End DictInlineCorrect.
(** ** The theorems *)



Import DictInline DictInlineCorrect.

(** C36. A value of the dictionary gives back what it was made of, and says what it is. One document, with members of their C++ types: [DictInlineFormatter] keeps
    it in the value exactly when the members that the format has take at most seven bytes as variable length numbers; a formatter made from
    the whole value, or from its part without the mode, then has these members, and the others as in a new one. Documents in a row, with a first id and
    a number below 2^31: [EncodeContinuousDocId] fails exactly when the number is 2^28 or more and long ones are off or the first id is 2^28
    or more too, and [DecodeContinuousDocId] gives both back. A posting in a file: [GetOffset] and the mode give back
    the offset, below 2^60, and the modes of its lists. Values that hold documents are no offsets, and an offset, whose mode for long lists
    is not the inlined one, holds no documents. *)
Theorem dict_value_roundtrip :
  (forall optionFlag f, typed f -> let o := new_PostingFormatOption optionFlag in
     if (7 <? bytesFor (ToVector o f))%nat then DictInline.GetDictInlineValue o f = Ok None
     else exists v, DictInline.GetDictInlineValue o f = Ok (Some v) /\
       forall dfFirst, let d := ShortList.CreateDictInlineValue v false dfFirst in
         ShortList.IsDictInlineCompressMode d = (true, false, true) /\ ShortList.GetOffset d = None /\
         new_DictInlineFormatter_value o d = Ok (kept o f) /\ new_DictInlineFormatter_value o (ShortList.GetDictInlineValue d) = Ok (kept o f)) /\
  (forall startDocid df long, 0 <= startDocid < 2 ^ 31 -> 0 <= df < 2 ^ 31 ->
     match EncodeContinuousDocId startDocid df long with
     | None => 2 ^ 28 <= df /\ (long = true -> 2 ^ 28 <= startDocid)
     | Some (dfFirst, v) =>
         (2 ^ 28 <= df -> long = true /\ startDocid < 2 ^ 28) /\
         let d := ShortList.CreateDictInlineValue v true dfFirst in
         ShortList.IsDictInlineCompressMode d = (true, true, dfFirst) /\ ShortList.GetOffset d = None /\ DecodeContinuousDocId (dfFirst, d) = (startDocid, df)
     end) /\
  (forall offset df ttf longMode, 0 <= offset < 2 ^ 60 -> longMode <> DICT_INLINE_COMPRESS_MODE ->
     let d := ShortList.CreateDictValue (ShortList.GetCompressMode df ttf longMode) offset in
     let mode := ShortList.GetCompressMode_value d in
     ShortList.GetOffset d = Some offset /\
     ShortList.GetDocCompressMode mode = FlushInfo.modeZ (if df <=? 5 then SHORT_LIST_COMPRESS_MODE else longMode) /\
     ShortList.GetPosCompressMode mode = FlushInfo.modeZ (if ttf <=? 5 then SHORT_LIST_COMPRESS_MODE else PFOR_DELTA_COMPRESS_MODE)).
Proof.
  split; [|split; [|exact ShortListCorrect.offset_roundtrip]].
  - intros optionFlag f Hf o. pose proof (formatter_ok optionFlag f Hf) as Hok. fold o in Hok. cbv zeta in Hok. destruct (7 <? _)%nat; [done|]. destruct Hok as (v & Hv & Hr & Hnew).
    exists v. split; [done|]. intros dfFirst d. destruct (ShortListCorrect.inline_roundtrip v false dfFirst ltac:(lia)) as (Hval & Hmode & Hoff). fold d in Hval, Hmode, Hoff.
    split_and!; [done | done | | rewrite Hval; specialize (Hnew 0); by rewrite Z.mul_0_l, Z.add_0_r in Hnew].
    unfold d. rewrite single_doc_value by lia. apply Hnew.
  - intros startDocid df long Hs Hdf. unfold EncodeContinuousDocId, THRESHOLD.
    destruct (Z.ltb_spec 0xFFFFFFF df), (Z.ltb_spec 0xFFFFFFF startDocid), long; cbn [andb orb negb]; try (split; [lia | intros; lia || done]).
    all: rewrite (u64_small startDocid), (u64_small df) by lia.
    all: match goal with |- context [ShortList.CreateDictInlineValue (Z.lor ?a (u64 (Z.shiftl ?b 32))) true ?first] =>
           destruct (continuous_ok a b ltac:(lia) ltac:(lia)) as (Hr & H2 & H1); destruct (ShortListCorrect.inline_roundtrip _ true first Hr) as (Hval & Hmode & Hoff) end.
    all: cbv zeta; split; [intros; split; done || lia|]; rewrite (DecodeContinuousDocId_ok _ _ _ Hr Hval); split_and!; [done | done | congruence].
Qed.





(** A document with all members in six bytes, documents in a row that are too many for the first order, and an offset *)
Lemma dict_value_witness :
  let o := new_PostingFormatOption 83 in
  let f := mkFormatter 3 300 7 2 5 in
  (exists v, DictInline.GetDictInlineValue o f = Ok (Some v) /\ new_DictInlineFormatter_value o (ShortList.CreateDictInlineValue v false true) = Ok f) /\
  (exists v, EncodeContinuousDocId 1000 (2 ^ 29) true = Some (false, v) /\ DecodeContinuousDocId (false, ShortList.CreateDictInlineValue v true false) = (1000, 2 ^ 29)) /\
  ShortList.GetOffset (ShortList.CreateDictValue (ShortList.GetCompressMode 100 3 PFOR_DELTA_COMPRESS_MODE) 123456) = Some 123456.
Proof.
  intros o f. destruct dict_value_roundtrip as (H1 & H2 & H3). split; [|split].
  - destruct (H1 83 f) as (v & Hv & Hd); [unfold typed; cbn; lia|]. exists v. split; [exact Hv|]. destruct (Hd true) as (_ & _ & Hnew & _). exact Hnew.
  - pose proof (H2 1000 (2 ^ 29) true ltac:(lia) ltac:(lia)) as H. eexists. split; [reflexivity|]. exact (proj2 (proj2 (proj2 H))).
  - exact (proj1 (H3 123456 100 3 PFOR_DELTA_COMPRESS_MODE ltac:(lia) ltac:(discriminate))).
Defined.
